(* ===== verification/_CoqProject ===== *)
-Q . S2P
Prelude.v
Jt1078.v
H264.v
Buffer.v
RtmpPack.v
Vector.v
Node.v
List.v
Publish.v
Queue.v
Stream.v
Lifecycle.v
Delivery.v
Server.v
Dictionary.v
Ini.v
Cache.v
Http.v
Libc.v
Text.v
Audio.v
ThreadPool.v
IniFile.v
FileSys.v
Logs.v
LinkedList.v
Timer.v
Utf.v
Strbuf.v
Hash.v
ObjectTable.v
Hashtable.v
Json.v
JsonTree.v
JsonLex.v
JsonLoad.v
JsonText.v
JsonStream.v
JsonToken.v
JsonParse.v
JsonRead.v
JsonDump.v
JsonPrint.v
JsonRound.v
HttpJson.v
Evbuffer.v
EvChains.v
EvBytes.v
EvRead.v
Bufferevent.v
BevPair.v
SocketRead.v
ServerPair.v
StreamInput.v
ClientInput.v
App.v
