(* ===== verification/Prelude.v ===== *)
(** * A verification library for the vmp-sa stream access server

    The program (in C, under [src/]) receives video streams of vehicle terminals over TCP (JT/T 1078), asks a
    service over HTTP where each is to be sent, and publishes it there over RTMP.  This library models its
    own code, and of the libraries in its tree jansson (the values, their loading and their printing) and the byte buffers
    and bufferevents of libevent; the rest of libevent, librtmp, zlog and the AAC encoder are parameters.

    ** The program and its model

    A connection is accepted by the listener ([Server]) and handed, as bytes through a bufferevent pair, to one
    of eight stream servers, which starts a stream node for it ([Lifecycle]).  The stream's input handler
    ([Stream]) cuts packets out of the input ([Jt1078]), gathers their bodies ([Buffer]), finds the H.264 units
    ([H264]), packs them as FLV tags ([RtmpPack]) and queues them ([Queue], on the lists of [List]); its publisher
    ([Publish]) takes them out on a thread of the pool ([ThreadPool]) and sends them to the address the query
    ([Http]) has found.  Nodes are made by class ([Node], over the vectors of [Vector]); addresses come from the
    configuration ([Cache], over [Ini], [IniFile] and [Dictionary]), the log is set up from it as well ([Logs], with
    [FileSys] and [Text]).  [App] is the start of all this.

    The files, and the code each models:
    - [Prelude]: outcomes of C code, machine integers, blocks of memory, strings; the shared lemmas and tactics.
    - [Jt1078]: [mw/protocol/tima_jt1078_parser.c], the header of a packet.
    - [H264]: [mw/protocol/tima_h264_parse.c], start codes, units, parameter sets.
    - [Buffer]: [mw/support/tima_buffer.c], the growing byte buffer.
    - [RtmpPack]: [mw/protocol/tima_rtmp_packager_h264.c] and [_aac.c], and the packing functions of
      [mw/publish/rtmp_publish.c]; the class [Packages] is what a packager promises to its client.
    - [Vector]: [vmp/src/vmp_vector.c].  [Node]: [vmp/src/vmp_node.c], the registry of classes.
    - [List]: [include/vmp/vpk_list.h], intrusive lists over a heap of links (its hlist part is compiled out).
    - [Publish]: [mw/protocol/tima_rtmp_publisher.c] and the node of [mw/publish/rtmp_publish.c].
    - [Queue]: the packet list of [bll/bll_h264_stream.c]; the class [PacketStore] is its contract.
    - [Stream]: the input side of [bll/bll_h264_stream.c], over any [PacketStore].
    - [Lifecycle]: the rest of [bll/bll_h264_stream.c], as actions of three threads on one stream.
    - [Delivery]: the composition of the last three, from a client's bytes to what librtmp is given.
    - [Server]: accepting and dispatching in [mw/server/server_listener.c] and [bll/bll_core.c], and the socket
      helpers of [vmp/src/vpk_util.c].
    - [Dictionary], [Ini], [IniFile]: [common/utils/dictionary.c] and [iniparser.c], the last with a model of [sscanf].
    - [Cache]: [mw/cache/cache.c] and [cache_tima.c].  [Logs]: [mw/support/tima_logs.c].
    - [Http]: [mw/http/tima_http.c], [tima_http_client.c], [tima_get_property.c] and [http_token.c], over a record of what
      jansson promises.  [HttpJson]: the functions of the last two that make and take apart JSON, over jansson's own code.
    - [Libc], [Text], [FileSys]: [vmp/src/vpk_libc.c], [vpk_util.c] and [vpk_ifilesys.c]; the system calls of the
      last are the operations of a class, with their documented behaviour as its laws.
    - [Audio]: [mw/trancode/audio_trancode.c], the A-law codec and the conversion to AAC.
    - [ThreadPool], [LinkedList], [Timer]: [common/threadpool/ThreadPool.c], [LinkedList.c] with [FreeList.c], and
      [TimerThread.c]; the timer uses its queue through a class that linked lists implement.
    - jansson ([common/jansson]): [Utf], [Strbuf] and [Hash] are [utf.c], [strbuffer.c] with [memory.c], and
      [lookup3.h] with [hashtable_seed.c].  [ObjectTable] is the class of what objects use of their tables, [Hashtable]
      ([hashtable.c]) its instance.  [Json] is [value.c] over any such table, [JsonTree] the trees that values are, with
      what owns what.  [JsonLex] and [JsonLoad] are [load.c], with [strconv.c] and [error.c].  [JsonText] says what
      a JSON text denotes, by functions on lists; [JsonStream], [JsonToken] and [JsonParse] show that the stream, the lexer
      and the parser compute it, for every source of bytes (the class [ByteSource]), and [JsonRead] that the loaders do.
      [JsonDump] is [dump.c], for any function that takes the text; [JsonPrint] has the text of a tree, and shows that
      this is what is dumped; [JsonRound] prints into a string and loads it again.
    - libevent ([common/libevent]): [Evbuffer] is the part of [buffer.c] that the connections use, on a heap of chains;
      [EvChains] says what a buffer's chains hold, [EvBytes] that buffers are sequences of bytes, and [EvRead] is reading into
      them from a descriptor (a class has what the system does).  [Bufferevent] is
      [bufferevent_pair.c] with what it uses of [bufferevent.c] and of the queues of [event.c]; [BevPair] shows that a pair
      is two pipes, [ServerPair] that the pair of a server is the pipe of [Server].  [SocketRead] is the
      reading of [bufferevent_sock.c] with its marks.  [StreamInput] is the input handler of [Stream] with its calls of byte
      buffers, [ClientInput] a connection: the socket, its bufferevent and this handler together.
    - [App]: [app/main.c], [bll/bll.c], [bll/bll_http_base.c], [mw/common/context.c] and [tp.c], and the functions of
      the components that create, set and start their nodes.

    ** How C is modelled

    A function returns a [res]: a value, [UB] for undefined behaviour, or [NoFuel].  Integers are [Z] with their
    wrap-around written out ([u8], [u32], [u64], [i32]); signed arithmetic outside its range is [UB].  Memory is a
    block of possibly indeterminate cells with every access checked, or a map by address where the code shares
    objects.  Whether an allocation succeeds is a parameter or a field of the environment of a call.  Threads are
    modelled by actions: stretches of code between the points at which other threads can interfere (holding a mutex, or
    up to a wait); where the code shares data without a lock (the end of a stream, the counters of the core and of the
    servers) an action is one access.  The theorems are about every sequence of actions, or about those they name.

    Loops have fuel where they are not structural.  It is the size of the data plus one (bytes left in an input or
    a file, elements of a vector or a list, slots of a dictionary), three rounds per bit for the growth of a buffer,
    two moves per job for the starved jobs of the pool, the number of chains of the heap for the lists of a byte buffer; its
    callbacks call others to a depth of two when no high mark is set.  No theorem depends on a run ending by chance: those about
    results state that the result is reached with this fuel, and where the code loops for ever (the growth of a
    buffer of at most one byte, [Buffer.grow_loop_stuck]) that [NoFuel] is the outcome of every fuel.

    ** What is proved

    - The parsers and codecs: every outcome of the packet parser on every block of its size, and the round trip with the
      wire format; the units of any buffer and the layout of the metadata; the tags and the decoder configuration that
      are packed; percent encoding, the A-law codec, and configuration files as round trips.
    - End to end: what librtmp is given are the first of the sequence header and the complete units of the client's video,
      in order, each once, in every interleaving; all of them when the list is empty.
    - The data structures, against their specifications: the buffer, the vector, the registry, intrusive and linked
      lists (as sequences, with the other lists untouched), the packet queue (first in, first out), the dictionary (a
      finite map), the hash table (an association list in the order of insertion).
    - JSON: UTF-8 against its definition; the bounds of string buffers; the hash as one function of the key on all paths
      of alignment; one seed in every interleaving; releasing a value frees exactly its cells.  Loading a text makes the tree that
      [JsonText] finds in it, or NULL when there is none or no memory, and leaves nothing else behind; what is loaded is
      well typed and not deeper than the limit.  Under every flag [json_dumps] gives the text of the tree, with the heap as
      it was, and loading the text makes the tree again; a text that lost a key for want of memory is the exception.
    - The JSON of the HTTP queries: on the heap of jansson the functions do what they do over trees, and every value is
      released on every path; the request reads back as the query.
    - The stream: a chunk sends exactly its complete units and keeps the rest; a packet of any type is consumed, waited for or
      stuck; the input handler consumes every whole packet and ends.  In every interleaving of the connection, the query and
      the publisher nothing is used after it is freed, and what a stream owns is freed once, when librtmp takes the packets, the
      client stays while its publisher is found and started, and the publisher does not stop before the connection has let go of it; a
      publisher that could not connect is leaked.  Five interleavings without these conditions go wrong.
    - The server: in every interleaving each accepted connection becomes one stream on the server its hash names, in order;
      the numbers of the streams and the counts are exact when one thread at a time counts, and go wrong otherwise, since
      the counters are not locked.
    - The byte buffers refine sequences of bytes, whatever their chains are, with every chain owned by one buffer.  A
      bufferevent pair hands over what is written to either end in order, none lost or repeated, and leaves nothing
      waiting between an end that writes and one that reads; so the pair that [setup_server] makes between the threads of the listener
      and of a server is the pipe the dispatching theorem assumes, and the reader is queued and then called for what is sent.
      (A pair whose end has a high read mark holds data back.)  What is read from a
      socket is behind what was there, up to the high mark.  The input handler does on chains what the theorems about streams
      say on bytes, and a client's connection is a stream of [Stream] with the bytes that the client has sent.
    - The pool: in its calm interleavings (persistent jobs one after the other, the shutdown last) exact counts, bounds, and each
      accepted job in exactly one place, a starved job that is lost for want of memory among them; a queued job is
      served; three races outside the calm interleavings, from every state in which they can happen.  The timer: events in the order of their times, each given to the pool once.
    - The start of the program: in every interleaving of the main thread, the threads of the pool and the program's three
      jobs nothing is undefined, no job the pool took is lost, the three are started in order when their calls get memory, every class is registered and the configuration
      loaded, and the server reaches the state from which [Server] goes on; a port that cannot be opened is a NULL pointer.
    - The configuration, the log, directories and the HTTP query: functional behaviour with the defaults and the errors.

    The statements name the conditions under which the code is right; a lemma or theorem shows what happens without them.
    The doc comments of the theorems say which of these are flaws of the code.

    ** What is not modelled

    - [bll_done], [context_done] and [tp_done]: never reached, as [bll_cond] is 1.
    - Process control ([system_exec], [mysystem] of [vpk_libc.c]), the socket options of [vpk_util.c], scheduling
      policies, floating-point statistics of the pool, log output.
    - [mw/server/tcpserver.c], the demonstration nodes and the token test: the program does not call them.  The test
      client.
    - The rest of [common/libevent], and [depends]: vendored libraries.  Of the byte buffers the functions that the
      connections do not use; locks (each function is one step), rate limits, and all of the events but those of
      reading: what FIONREAD, readv, errno and event_add give is a parameter, and a timeout is a step that can happen; writing
      to sockets and connecting are not modelled.  evhttp's steps are flags and its answer a value, librtmp a
      record of operations on a connection.  Of jansson: packing by format strings ([pack_unpack.c], not called)
      and reading and writing files. *)

From stdpp Require Export base tactics option list numbers gmap strings.
From Stdlib Require Export ZArith Lia.

#[global] Open Scope Z_scope.

(** ** Outcomes of C code

    [Ok a] is a defined result; [UB] is undefined behaviour of the C abstract machine (an access
    outside a block, a signed overflow, a use of an indeterminate value); [NoFuel] is a loop that
    has not finished within the fuel it was given.  Termination theorems show that [NoFuel] is not
    the outcome for enough fuel, divergence theorems that it is the outcome for every fuel. *)
Inductive res (A : Type) : Type :=
| Ok (a : A)
| UB
| NoFuel.
Arguments Ok {A} a.
Arguments UB {A}.
Arguments NoFuel {A}.

#[export] Instance res_ret : MRet res := fun A a => Ok a.
#[export] Instance res_bind : MBind res := fun A B f m =>
  match m with Ok a => f a | UB => UB | NoFuel => NoFuel end.
#[export] Instance res_fmap : FMap res := fun A B f m =>
  match m with Ok a => Ok (f a) | UB => UB | NoFuel => NoFuel end.

(** [assert_ok b]: go on when the access or the arithmetic is defined. *)
Definition assert_ok (b : bool) : res () := if b then Ok () else UB.

Definition of_option {A} (o : option A) : res A := match o with Some a => Ok a | None => UB end.

Definition defined {A} (m : res A) : Prop := exists a, m = Ok a.

Lemma bind_Ok {A B} (f : A -> res B) (a : A) : (Ok a ≫= f) = f a.
Proof. reflexivity. Qed.

Lemma bind_Ok_inv {A B} (f : A -> res B) (m : res A) (b : B) :
  (m ≫= f) = Ok b -> exists a, m = Ok a /\ f a = Ok b.
Proof. destruct m; cbn; [eauto | done | done]. Qed.

Lemma assert_ok_true b : assert_ok b = Ok () <-> b = true.
Proof. destruct b; cbn; naive_solver. Qed.

Create HintDb res.

(** ** Machine integers *)

Definition wrap (w z : Z) : Z := z mod 2 ^ w.
Definition swrap (w z : Z) : Z := (z + 2 ^ (w - 1)) mod 2 ^ w - 2 ^ (w - 1).

Abbreviation u8 := (wrap 8).
Abbreviation u16 := (wrap 16).
Abbreviation u32 := (wrap 32).
Abbreviation u64 := (wrap 64).
Abbreviation i32 := (swrap 32).

Definition INT_MAX : Z := 2 ^ 31 - 1.
Definition INT_MIN : Z := - 2 ^ 31.

(** A signed [int] computation: overflow is undefined. *)
Definition in_int (z : Z) : bool := (INT_MIN <=? z) && (z <=? INT_MAX).
Definition int_op (z : Z) : res Z := if in_int z then Ok z else UB.

(** The value of a byte read through a plain [char] (signed on the targets of the Makefiles). *)
Definition schar (b : Z) : Z := if b <? 128 then b else b - 256.

Definition is_byte (b : Z) : Prop := 0 <= b < 256.

#[export] Instance is_byte_dec b : Decision (is_byte b).
Proof. unfold is_byte. apply _. Defined.

(** Evaluate a decidable closed goal. *)
Ltac by_decide := apply (bool_decide_unpack _); vm_compute; exact I.

Lemma wrap_range w z : 0 <= w -> 0 <= wrap w z < 2 ^ w.
Proof. intros. apply Z.mod_pos_bound. lia. Qed.

Lemma wrap_small w z : 0 <= z < 2 ^ w -> wrap w z = z.
Proof. apply Z.mod_small. Qed.

Lemma swrap_small w z : 0 < w -> - 2 ^ (w - 1) <= z < 2 ^ (w - 1) -> swrap w z = z.
Proof.
  intros Hw Hz. unfold swrap.
  assert (2 ^ w = 2 * 2 ^ (w - 1)) by (rewrite <- Z.pow_succ_r by lia; f_equal; lia).
  rewrite Z.mod_small; lia.
Qed.

Lemma u8_byte z : is_byte (u8 z).
Proof. apply (wrap_range 8). lia. Qed.

Lemma int_op_Ok z z' : int_op z = Ok z' <-> z' = z /\ INT_MIN <= z <= INT_MAX.
Proof.
  unfold int_op, in_int. destruct (Z.leb_spec INT_MIN z), (Z.leb_spec z INT_MAX); cbn;
    split; try naive_solver lia.
Qed.

Lemma int_op_in z : INT_MIN <= z <= INT_MAX -> int_op z = Ok z.
Proof. intros. by apply int_op_Ok. Qed.

#[export] Hint Resolve u8_byte : res.

Lemma schar_byte b : is_byte b -> - 128 <= schar b < 128.
Proof. unfold is_byte, schar. destruct (b <? 128) eqn:E; lia. Qed.

(** Big-endian 16-bit values, as the wire formats of the program write them. *)
Definition be16 (z : Z) : list Z := [Z.land (Z.shiftr z 8) 255; Z.land z 255].

Lemma land_255 z : Z.land z 255 = z mod 256.
Proof. apply (Z.land_ones z 8). lia. Qed.

Lemma shiftr_8 z : Z.shiftr z 8 = z / 256.
Proof. rewrite Z.shiftr_div_pow2 by lia. reflexivity. Qed.

Lemma shiftl_8 z : Z.shiftl z 8 = z * 256.
Proof. rewrite Z.shiftl_mul_pow2 by lia. reflexivity. Qed.

Lemma lor_shiftl_8 a b : 0 <= b < 256 -> Z.lor (Z.shiftl a 8) b = a * 256 + b.
Proof.
  intros Hb. rewrite <- shiftl_8.
  assert (Hd : Z.land (Z.shiftl a 8) b = 0).
  { apply Z.bits_inj'. intros n Hn. rewrite Z.land_spec, Z.bits_0.
    destruct (Z.lt_ge_cases n 8).
    - by rewrite Z.shiftl_spec_low.
    - rewrite (Z.bits_above_log2 b n), andb_false_r; [done | lia |].
      destruct (decide (b = 0)) as [-> | ?]; [cbn; lia |].
      apply Z.log2_lt_pow2; [lia |]. apply Z.lt_le_trans with (2 ^ 8); [lia |].
      apply Z.pow_le_mono_r; lia. }
  by rewrite <- Z.add_nocarry_lor.
Qed.

Lemma be16_value z : 0 <= z < 65536 ->
  Z.lor (Z.shiftl (Z.land (Z.shiftr z 8) 255) 8) (Z.land z 255) = z.
Proof.
  intros. rewrite !land_255, shiftr_8, lor_shiftl_8 by (apply Z.mod_pos_bound; lia).
  rewrite (Z.mod_small (z / 256)); [| split; [apply Z.div_pos | apply Z.div_lt_upper_bound]; lia].
  rewrite Z.mul_comm. symmetry. by apply Z.div_mod.
Qed.

(** Little-endian representation of an [n]-byte integer, as the structures lie in memory. *)
Fixpoint le (n : nat) (z : Z) : list Z :=
  match n with O => [] | S n => z mod 256 :: le n (z / 256) end.

Fixpoint le_val (bs : list Z) : Z :=
  match bs with [] => 0 | b :: bs => b + 256 * le_val bs end.

Lemma le_length n z : length (le n z) = n.
Proof. revert z; induction n; intros z; cbn; auto. Qed.

Lemma le_val_le n z : le_val (le n z) = wrap (8 * Z.of_nat n) z.
Proof.
  revert z; induction n as [| n IH]; intros z; cbn [le le_val].
  - unfold wrap. cbn. by rewrite Z.mod_1_r.
  - rewrite IH. unfold wrap. replace (8 * Z.of_nat (S n)) with (8 + 8 * Z.of_nat n) by lia.
    rewrite Z.pow_add_r by lia. change (2 ^ 8) with 256.
    rewrite Z.rem_mul_r by lia. done.
Qed.

(** ** Memory blocks

    A block is the list of its cells.  Loads and stores outside the block are undefined.  A block
    from [malloc] has cells of type [option A], [None] being an indeterminate cell: loading it as a
    value is undefined too, while a copy moves it unchanged. *)
Section cells.
Context {B : Type}.
Implicit Types (b cells : list B) (off n : nat).

(** [memcpy]/[memmove] of [cells] to offset [off], and the copy of [n] cells from offset [off]. *)
Definition blk_store off cells b : res (list B) :=
  if decide (off + length cells <= length b)%nat
  then Ok (take off b ++ cells ++ drop (off + length cells) b) else UB.

Definition blk_copy off n b : res (list B) :=
  if decide (off + n <= length b)%nat then Ok (take n (drop off b)) else UB.

Lemma blk_store_length off cells b b' : blk_store off cells b = Ok b' -> length b' = length b.
Proof.
  unfold blk_store. case_decide; [intros [= <-] | done].
  rewrite !length_app, length_take, length_drop. lia.
Qed.

Lemma blk_copy_length off n b l : blk_copy off n b = Ok l -> length l = n.
Proof.
  unfold blk_copy. case_decide; [intros [= <-] | done]. rewrite length_take, length_drop. lia.
Qed.

(** Exact placement: a store that overwrites [old] between [pre] and [post]. *)
Lemma blk_store_app pre old cells post :
  length old = length cells ->
  blk_store (length pre) cells (pre ++ old ++ post) = Ok (pre ++ cells ++ post).
Proof.
  intros Hl. unfold blk_store. rewrite decide_True by (rewrite !length_app; lia).
  rewrite take_app_length, <- Hl, drop_app_add, drop_app_length. done.
Qed.

Lemma blk_copy_app pre cells post :
  blk_copy (length pre) (length cells) (pre ++ cells ++ post) = Ok cells.
Proof.
  unfold blk_copy. rewrite decide_True by (rewrite !length_app; lia).
  by rewrite drop_app_length, take_app_length.
Qed.

Lemma blk_store_UB off cells b :
  blk_store off cells b = UB <-> (length b < off + length cells)%nat.
Proof. unfold blk_store. case_decide; naive_solver lia. Qed.

Lemma blk_copy_UB off n b : blk_copy off n b = UB <-> (length b < off + n)%nat.
Proof. unfold blk_copy. case_decide; naive_solver lia. Qed.
End cells.

Abbreviation block A := (list (option A)).

Section block.
Context {A : Type}.
Implicit Types (b cells : block A) (xs : list A) (off n : nat).

Definition blk_load off n b : res (list A) :=
  cells ← blk_copy off n b; of_option (mapM id cells).

(** [malloc(n)], and [realloc] to [n] cells. *)
Definition blk_malloc n : block A := replicate n None.
Definition blk_realloc n b : block A := take n b ++ replicate (n - length b) None.

(** The block starts with the values [xs]. *)
Definition blk_holds xs b : Prop := exists rest, b = (Some <$> xs) ++ rest.

Lemma mapM_id_Some xs : mapM id (Some <$> xs) = Some xs.
Proof. by apply mapM_fmap_Some. Qed.

Lemma blk_realloc_length n b : length (blk_realloc n b) = n.
Proof. unfold blk_realloc. rewrite length_app, length_take, length_replicate. lia. Qed.

Lemma blk_holds_nil b : blk_holds [] b.
Proof. by exists b. Qed.

Lemma blk_holds_length xs b : blk_holds xs b -> (length xs <= length b)%nat.
Proof. intros [r ->]. rewrite length_app, length_fmap. lia. Qed.

Lemma blk_holds_take n xs b : blk_holds xs b -> blk_holds (take n xs) b.
Proof.
  intros [r ->]. exists ((Some <$> drop n xs) ++ r).
  by rewrite app_assoc, <- fmap_app, take_drop.
Qed.

Lemma blk_holds_realloc n xs b :
  blk_holds xs b -> (length xs <= n)%nat -> blk_holds xs (blk_realloc n b).
Proof.
  intros [r ->] Hn. unfold blk_realloc. rewrite take_app_ge by (by rewrite length_fmap).
  rewrite <- app_assoc. by eexists.
Qed.

Lemma blk_load_holds off n xs b :
  blk_holds xs b -> (off + n <= length xs)%nat -> blk_load off n b = Ok (take n (drop off xs)).
Proof.
  intros [r ->] Hn. unfold blk_load, blk_copy.
  rewrite decide_True by (rewrite length_app, length_fmap; lia). cbn [mbind res_bind].
  rewrite drop_app_le, take_app_le by (rewrite ?length_drop, length_fmap; lia).
  rewrite <- fmap_drop, <- fmap_take, mapM_id_Some. done.
Qed.

(** Storing values right after the held prefix extends it. *)
Lemma blk_store_append xs ys b :
  blk_holds xs b -> (length xs + length ys <= length b)%nat ->
  exists b', blk_store (length xs) (Some <$> ys) b = Ok b' /\ blk_holds (xs ++ ys) b'.
Proof.
  intros [r ->] Hl. unfold blk_store. rewrite length_fmap in *.
  rewrite decide_True by done. eexists. split; [done |].
  rewrite take_app_length' by (by rewrite length_fmap).
  exists (drop (length xs + length ys) ((Some <$> xs) ++ r)).
  by rewrite fmap_app, <- app_assoc.
Qed.

(** Storing past the held prefix leaves it alone. *)
Lemma blk_store_frame off xs cells b :
  blk_holds xs b -> (length xs <= off)%nat -> (off + length cells <= length b)%nat ->
  exists b', blk_store off cells b = Ok b' /\ blk_holds xs b'.
Proof.
  intros [r ->] Ho Hl. unfold blk_store. rewrite decide_True by done.
  eexists. split; [done |]. rewrite take_app_ge by (by rewrite length_fmap).
  rewrite <- app_assoc. by eexists.
Qed.

Lemma blk_load_UB off n b : (length b < off + n)%nat -> blk_load off n b = UB.
Proof. intros. unfold blk_load, blk_copy. by rewrite decide_False by lia. Qed.
End block.

(** The bytes of a block up to the first indeterminate one. *)
Fixpoint initialised (blk : block Z) : list Z :=
  match blk with Some x :: blk => x :: initialised blk | _ => [] end.

Lemma initialised_holds xs blk : blk_holds xs blk -> exists junk, initialised blk = xs ++ junk.
Proof.
  intros [r ->]. exists (initialised r). induction xs as [| x xs IH]; [done |]. cbn. by rewrite IH.
Qed.

Create HintDb blk.
#[export] Hint Resolve blk_holds_nil blk_holds_realloc blk_holds_take : blk.

(** Reading element [i] of a fully initialised buffer. *)
Definition rd {A} (buf : list A) (i : nat) : res A := of_option (buf !! i).

Lemma rd_Ok {A} (buf : list A) i x : buf !! i = Some x -> rd buf i = Ok x.
Proof. unfold rd. by intros ->. Qed.

(** Writing it. *)
Definition wr {A} (buf : list A) (i : nat) (x : A) : res (list A) :=
  if decide (i < length buf)%nat then Ok (<[i := x]> buf) else UB.

Lemma wr_ok {A} (buf : list A) i x : (i < length buf)%nat -> wr buf i x = Ok (<[i := x]> buf).
Proof. intros. unfold wr. by rewrite decide_True. Qed.

(** A C string is the list of its bytes, without the zero. *)
Abbreviation cstr := (list Z).

(** The string in a buffer. *)
Fixpoint upto_nul (s : list Z) : list Z :=
  match s with c :: s => if c =? 0 then [] else c :: upto_nul s | [] => [] end.

Lemma upto_nul_app t s : Forall (fun c => c <> 0) t -> upto_nul (t ++ s) = t ++ upto_nul s.
Proof. induction 1 as [| c t Hc _ IH]; [done |]. cbn. by rewrite (proj2 (Z.eqb_neq _ _) Hc), IH. Qed.

(** A pointer into a block is moved by [z] bytes: below the block it is undefined. *)
Definition ptr_off (z : Z) : res nat := if 0 <=? z then Ok (Z.to_nat z) else UB.

Lemma ptr_off_Ok z : 0 <= z -> ptr_off z = Ok (Z.to_nat z).
Proof. intros. unfold ptr_off. by rewrite (proj2 (Z.leb_le _ _)). Qed.

(** [memcpy(dst + pos, src + off, n)] with an [int] count: a negative one becomes a huge [size_t]. *)
Definition memcpy {A} (dst : list A) (pos : nat) (src : list A) (off n : Z) : res (list A) :=
  o ← ptr_off off; n ← ptr_off n; cells ← blk_copy o n src; blk_store pos cells dst.

Lemma memcpy_app {A} (pre old post src cells : list A) off n :
  length old = length cells -> 0 <= off -> n = Z.of_nat (length cells) ->
  take (length cells) (drop (Z.to_nat off) src) = cells ->
  (Z.to_nat off + length cells <= length src)%nat ->
  memcpy (pre ++ old ++ post) (length pre) src off n = Ok (pre ++ cells ++ post).
Proof.
  intros Hl Ho -> Hc Hs. unfold memcpy. rewrite !ptr_off_Ok, Nat2Z.id by lia. cbn [mbind res_bind].
  unfold blk_copy. rewrite decide_True by done. cbn [mbind res_bind]. rewrite Hc.
  by apply blk_store_app.
Qed.

(** ** Lists *)

Lemma Forall_snoc {A} (P : A -> Prop) l x : Forall P (l ++ [x]) -> Forall P l /\ P x.
Proof. by intros [Hl [Hx _]%Forall_cons_1]%Forall_app. Qed.

Lemma rd_middle {A} (pre l post : list A) c : rd (pre ++ (c :: l) ++ post) (length pre) = Ok c.
Proof. apply rd_Ok. by apply list_lookup_middle. Qed.

Lemma rd_lt {A} (buf : list A) i : (i < length buf)%nat -> exists x, rd buf i = Ok x /\ buf !! i = Some x.
Proof. intros [x Hx]%lookup_lt_is_Some_2. exists x. split; [by apply rd_Ok | done]. Qed.

(** Reading a run of cells one after the other. *)
Lemma mapM_rd {A} (pre l post : list A) :
  mapM (rd (pre ++ l ++ post)) (seq (length pre) (length l)) = Ok l.
Proof.
  revert pre; induction l as [| c l IH]; intros pre; [done |].
  cbn [length seq mapM]. rewrite rd_middle. cbn.
  specialize (IH (pre ++ [c])). rewrite length_app, Nat.add_1_r, <- app_assoc in IH.
  cbn in IH. by rewrite IH.
Qed.

(** Replace a list of known length by its elements. *)
Ltac explode l H :=
  repeat (destruct l as [| ? l]; [try discriminate H | try discriminate H]).

(** ** Strings

    A C string is the list of its bytes before the terminating zero. *)

Definition chars (s : string) : list Z :=
  (fun c => Z.of_nat (Ascii.nat_of_ascii c)) <$> String.list_ascii_of_string s.

(** [%d]: decimal digits, enough of them for any 64-bit value. *)
Fixpoint digits (fuel : nat) (n : Z) (acc : list Z) : list Z :=
  match fuel with
  | O => acc
  | S fuel =>
      let acc := (48 + n mod 10) :: acc in
      if n <? 10 then acc else digits fuel (n / 10) acc
  end.

Definition dec (z : Z) : list Z := if z <? 0 then 45 :: digits 25 (- z) [] else digits 25 z [].

(** [snprintf(buf, size, ...)]: what stays of the formatted text. *)
Definition snprintf (size : nat) (text : list Z) : list Z := take (size - 1) text.

(** [isalnum] in the C locale. *)
Definition isdigit (c : Z) : bool := (48 <=? c) && (c <=? 57).
Definition isupper (c : Z) : bool := (65 <=? c) && (c <=? 90).
Definition islower (c : Z) : bool := (97 <=? c) && (c <=? 122).
Definition isalnum (c : Z) : bool := isdigit c || isupper c || islower c.

Definition is_char (c : Z) : Prop := 0 < c < 256.
#[export] Instance is_char_dec c : Decision (is_char c).
Proof. unfold is_char. apply _. Defined.
