(* ===== verification/Jt1078.v ===== *)
(** * JT/T 1078 packet headers

    [mw/protocol/tima_jt1078_parser.c] and [include/mw/tima_jt1078_parser.h]: the parser the stream
    component calls on every chunk it copies out of a client's socket buffer.  [packet] is the block
    the packet pointer points to, as its list of bytes; every read is bounds-checked.  The
    specification side is [encode], the wire format of a video packet. *)

From S2P Require Import Prelude.

Record stream_header_t := StreamHeader {
  magic : list Z;        (* unsigned char[4] *)
  rtp : Z;
  pt : Z;
  flowid : Z;
  sim : list Z;
  channel : Z;
  mtype : Z;
  timestamp : list Z;
  lifinterval : Z;
  lfinterval : Z;
  bodylen : Z;           (* unsigned short *)
  simno : Z              (* unsigned long long *)
}.

Definition header0 : stream_header_t :=
  StreamHeader [0; 0; 0; 0] 0 0 0 (replicate 6 0) 0 0 (replicate 8 0) 0 0 0 0.

Definition BCD_PARSE (c : Z) : Z := Z.shiftr (Z.land c 240) 4 * 10 + Z.land c 15.

(** The [for (i = 0; i < 6; i++)] loop of [simno_get]; [ptr] is the index of [*(ptr+i)]. *)
Fixpoint simno_loop (n ptr : nat) (num : Z) (buf : list Z) : res Z :=
  match n with
  | O => Ok num
  | S n' =>
      c ← rd buf ptr;
      simno_loop n' (S ptr) (u64 (num * 100 + BCD_PARSE c)) buf
  end.

Definition simno_get (buf : list Z) (bcd : nat) : res Z := simno_loop 6 bcd 0 buf.

(** [buf[i] != c || ...]: read and compare the bytes in order, stopping at the first mismatch. *)
Fixpoint differs (buf : list Z) (i : nat) (code : list Z) : res bool :=
  match code with
  | [] => Ok false
  | c :: code' => b ← rd buf i; if b =? c then differs buf (S i) code' else Ok true
  end.

Definition MAGIC : list Z := [0x30; 0x31; 0x63; 0x64].

(** On a mismatch the first 32 bytes are read and printed. *)
Definition find_magic_code (buf : list Z) : res Z :=
  d ← differs buf 0 MAGIC;
  if (d : bool) then
    _ ← mapM (rd buf) (seq 0 32);
    Ok 0
  else Ok 1.

Definition is_audio_type (mtype : Z) : bool := Z.land mtype 0xf0 =? 0x30.

(** The result is the returned [int], [*head] and the offset of [*body] in [packet] ([None] when
    the function returns before it sets it). *)
Definition packet_jt1078_parse (packet : list Z) (length : Z) (head : stream_header_t)
    : res (Z * stream_header_t * option nat) :=
  ok ← find_magic_code packet;
  if ok =? 0 then Ok (-1, head, None) else
  m ← mapM (rd packet) (seq 0 4);
  b4 ← rd packet 4;
  b5 ← rd packet 5;
  num ← simno_get packet 8;
  ch ← rd packet 14;
  mt ← rd packet 15;
  b28 ← rd packet 28;
  len ← (if is_audio_type mt then Ok (u16 (b28 * 2))
         else b29 ← rd packet 29; Ok (u16 (Z.lor (Z.shiftl b28 8) b29)));
  let head' := StreamHeader m b4 b5 (flowid head) (sim head) ch mt (timestamp head)
                 (lifinterval head) (lfinterval head) len num in
  if len >? length - 30 then Ok (0, head', Some 30%nat)
  else Ok (len + 30, head', Some 30%nat).

(** ** The BCD SIM number *)

(** The number six (or [n]) bytes denote when it is computed without wrap-around. *)
Definition bcd_value (l : list Z) : Z := foldl (fun num c => num * 100 + BCD_PARSE c) 0 l.

Definition bcd_byte (d : Z) : Z := d / 10 * 16 + d mod 10.

(** Packed BCD, most significant digits first, two per byte. *)
Fixpoint bcd_bytes (k : nat) (n : Z) : list Z :=
  match k with
  | O => []
  | S k' => bcd_bytes k' (n / 100) ++ [bcd_byte (n mod 100)]
  end.

Lemma BCD_PARSE_bound c : is_byte c -> 0 <= BCD_PARSE c <= 165.
Proof.
  intros [Hl Hu]. unfold BCD_PARSE.
  change 15 with (Z.ones 4). rewrite Z.land_ones by lia.
  assert (Hs : Z.shiftr (Z.land c 240) 4 = Z.land (Z.shiftr c 4) 15) by (by rewrite Z.shiftr_land).
  rewrite Hs. change 15 with (Z.ones 4). rewrite Z.land_ones by lia.
  pose proof (Z.mod_pos_bound c (2 ^ 4)). pose proof (Z.mod_pos_bound (Z.shiftr c 4) (2 ^ 4)). lia.
Qed.

Lemma BCD_PARSE_byte d : 0 <= d < 100 -> BCD_PARSE (bcd_byte d) = d.
Proof.
  intros Hd. unfold BCD_PARSE, bcd_byte.
  assert (Hs : forall c, Z.shiftr (Z.land c 240) 4 = Z.land (Z.shiftr c 4) 15)
    by (intros; by rewrite Z.shiftr_land).
  rewrite Hs. change 15 with (Z.ones 4). rewrite !Z.land_ones, Z.shiftr_div_pow2 by lia.
  change (2 ^ 4) with 16.
  pose proof (Z.mod_pos_bound d 10). pose proof (Z.div_mod d 10).
  assert (0 <= d / 10 < 10) by (split; [apply Z.div_pos | apply Z.div_lt_upper_bound]; lia).
  rewrite Z.div_add_l, (Z.div_small (d mod 10) 16), Z.add_0_r by lia.
  rewrite (Z.mod_small (d / 10)) by lia.
  rewrite (Z.add_comm (d / 10 * 16)), Z.mod_add, Z.mod_small by lia. lia.
Qed.

Lemma bcd_bytes_length k n : length (bcd_bytes k n) = k.
Proof. revert n; induction k as [| k IH]; intros; cbn; [done |]. rewrite length_app, IH. cbn. lia. Qed.

Lemma bcd_bytes_byte k n : Forall is_byte (bcd_bytes k n).
Proof.
  revert n; induction k as [| k IH]; intros n; cbn; [constructor |].
  apply Forall_app; split; [apply IH |]. constructor; [| constructor].
  unfold is_byte, bcd_byte. pose proof (Z.mod_pos_bound n 100).
  pose proof (Z.mod_pos_bound (n mod 100) 10).
  assert (0 <= n mod 100 / 10 < 10) by (split; [apply Z.div_pos | apply Z.div_lt_upper_bound]; lia).
  lia.
Qed.

Lemma bcd_value_bytes k n : 0 <= n < 100 ^ Z.of_nat k -> bcd_value (bcd_bytes k n) = n.
Proof.
  revert n; induction k as [| k IH]; intros n Hn; cbn [bcd_bytes].
  - cbn in *. lia.
  - unfold bcd_value. rewrite foldl_app. cbn [foldl]. fold (bcd_value (bcd_bytes k (n / 100))).
    rewrite Nat2Z.inj_succ, Z.pow_succ_r in Hn by lia.
    rewrite IH by (split; [apply Z.div_pos | apply Z.div_lt_upper_bound]; lia).
    rewrite BCD_PARSE_byte by (apply Z.mod_pos_bound; lia).
    pose proof (Z.div_mod n 100). lia.
Qed.

Lemma bcd_value_bound l : Forall is_byte l -> 0 <= bcd_value l <= 2 * 100 ^ Z.of_nat (length l) - 2.
Proof.
  unfold bcd_value. induction l as [| c l IH] using rev_ind; [cbn; lia |].
  intros [Hl Hc]%Forall_snoc. specialize (IH Hl).
  rewrite foldl_app, length_app. cbn [foldl length].
  replace (Z.of_nat (length l + 1)) with (Z.succ (Z.of_nat (length l))) by lia.
  rewrite Z.pow_succ_r by lia. pose proof (BCD_PARSE_bound c Hc). lia.
Qed.

Lemma simno_loop_app (l pre post : list Z) (a : Z) :
  simno_loop (length l) (length pre) a (pre ++ l ++ post)
  = Ok (foldl (fun num c => u64 (num * 100 + BCD_PARSE c)) a l).
Proof.
  revert pre a; induction l as [| c l IH]; intros pre a; [done |].
  cbn [length simno_loop foldl]. rewrite rd_middle. cbn [mbind res_bind].
  specialize (IH (pre ++ [c]) (u64 (a * 100 + BCD_PARSE c))).
  rewrite length_app, Nat.add_1_r, <- app_assoc in IH. exact IH.
Qed.

(** Six packed bytes never exceed 2 * 10^12 - 2, so the [unsigned long long] never wraps. *)
Lemma foldl_u64_nowrap l :
  Forall is_byte l -> (length l <= 9)%nat ->
  foldl (fun num c => u64 (num * 100 + BCD_PARSE c)) 0 l = bcd_value l.
Proof.
  induction l as [| c l IH] using rev_ind; [done |].
  intros [Hl Hc]%Forall_snoc Hlen. rewrite length_app in Hlen. cbn in Hlen.
  unfold bcd_value. rewrite !foldl_app. cbn [foldl]. fold (bcd_value l).
  rewrite IH by (done || lia).
  apply wrap_small. pose proof (bcd_value_bound l Hl). pose proof (BCD_PARSE_bound c Hc).
  assert (100 ^ Z.of_nat (length l) <= 100 ^ 8) by (apply Z.pow_le_mono_r; lia). lia.
Qed.

Lemma simno_get_app (pre l post : list Z) :
  length l = 6%nat -> Forall is_byte l ->
  simno_get (pre ++ l ++ post) (length pre) = Ok (bcd_value l).
Proof.
  intros Hl Hb. unfold simno_get. rewrite <- Hl, simno_loop_app.
  by rewrite foldl_u64_nowrap by (done || lia).
Qed.

(** ** The parser on every input *)

Lemma differs_spec (pre l post code : list Z) :
  length l = length code ->
  differs (pre ++ l ++ post) (length pre) code = Ok (negb (bool_decide (l = code))).
Proof.
  revert pre l; induction code as [| c code IH]; intros pre [| b l] Hl; try done.
  cbn [differs]. rewrite rd_middle. cbn.
  destruct (Z.eqb_spec b c) as [-> | Hne].
  - specialize (IH (pre ++ [c]) l). rewrite length_app, Nat.add_1_r, <- app_assoc in IH.
    cbn in IH. rewrite IH by (cbn in Hl; lia). repeat f_equal.
    apply bool_decide_ext. naive_solver.
  - by rewrite bool_decide_false by naive_solver.
Qed.

Definition video_type (mt : Z) : Prop := is_audio_type mt = false.

(** The body length field: a count of 16-bit samples in audio packets, big-endian otherwise. *)
Definition body_length (packet : list Z) : Z :=
  if is_audio_type (packet !!! 15%nat) then packet !!! 28%nat * 2
  else packet !!! 28%nat * 256 + packet !!! 29%nat.

Definition parsed_header (packet : list Z) (head : stream_header_t) : stream_header_t :=
  StreamHeader MAGIC (packet !!! 4%nat) (packet !!! 5%nat) (flowid head) (sim head)
    (packet !!! 14%nat) (packet !!! 15%nat) (timestamp head) (lifinterval head) (lfinterval head)
    (body_length packet) (bcd_value (take 6 (drop 8 packet))).

Lemma find_magic_code_spec packet :
  (32 <= length packet)%nat ->
  find_magic_code packet = Ok (if decide (take 4 packet = MAGIC) then 1 else 0).
Proof.
  intros Hl. unfold find_magic_code.
  rewrite <- (take_drop 4 packet) at 1.
  pose proof (differs_spec [] (take 4 packet) (drop 4 packet) MAGIC) as Hd.
  cbn [app length] in Hd. rewrite Hd by (rewrite length_take; change (length MAGIC) with 4%nat; lia). cbn [mbind res_bind].
  case_decide as Hm; [by rewrite bool_decide_true by done |].
  rewrite bool_decide_false by done. cbn [negb].
  pose proof (mapM_rd [] (take 32 packet) (drop 32 packet)) as Hr.
  cbn [app length] in Hr. rewrite take_drop, length_take, Nat.min_l in Hr by lia.
  by rewrite Hr.
Qed.

Lemma simno_get_at packet i :
  (i + 6 <= length packet)%nat -> Forall is_byte packet ->
  simno_get packet i = Ok (bcd_value (take 6 (drop i packet))).
Proof.
  intros Hl Hb.
  assert (Hp : packet = take i packet ++ take 6 (drop i packet) ++ drop 6 (drop i packet))
    by (by rewrite !take_drop).
  pose proof (simno_get_app (take i packet) (take 6 (drop i packet)) (drop 6 (drop i packet))) as Hs.
  assert (Hi : length (take i packet) = i) by (rewrite length_take; lia).
  rewrite <- Hp, Hi in Hs. apply Hs.
  - rewrite length_take, length_drop. lia.
  - by apply Forall_take, Forall_drop.
Qed.

Lemma body_length_bound packet :
  (32 <= length packet)%nat -> Forall is_byte packet -> 0 <= body_length packet < 65536.
Proof.
  intros Hl Hb. unfold body_length.
  assert (Hi : forall i, (i < 32)%nat -> is_byte (packet !!! i)).
  { intros i Hi. apply (Forall_lookup_total_1 _ _ _ Hb). lia. }
  pose proof (Hi 28%nat). pose proof (Hi 29%nat). unfold is_byte in *.
  destruct (is_audio_type _); lia.
Qed.

Lemma rd_total {A} `{Inhabited A} (l : list A) i : (i < length l)%nat -> rd l i = Ok (l !!! i).
Proof. intros Hi. apply rd_Ok. by apply list_lookup_lookup_total_lt. Qed.

Lemma parse_outcome (packet : list Z) (len : Z) (head : stream_header_t)
    (Hlen : (32 <= length packet)%nat) (Hbytes : Forall is_byte packet) :
  packet_jt1078_parse packet len head =
    Ok (if decide (take 4 packet = MAGIC) then
          (if body_length packet <=? len - 30 then body_length packet + 30 else 0,
           parsed_header packet head, Some 30%nat)
        else (-1, head, None)).
Proof.
  unfold packet_jt1078_parse. rewrite find_magic_code_spec by done. cbn [mbind res_bind].
  case_decide as Hm; [cbn [Z.eqb] | done].
  pose proof (mapM_rd [] (take 4 packet) (drop 4 packet)) as Hr.
  cbn [app length] in Hr. rewrite take_drop, length_take, Nat.min_l in Hr by lia.
  rewrite Hr. cbn [mbind res_bind].
  rewrite !rd_total, simno_get_at by (done || lia). cbn [mbind res_bind].
  pose proof (body_length_bound packet Hlen Hbytes) as Hbl.
  unfold parsed_header. unfold body_length in *.
  assert (Hb29 : is_byte (packet !!! 29%nat)) by (apply (Forall_lookup_total_1 _ _ _ Hbytes); lia).
  destruct (is_audio_type _); cbn [mbind res_bind];
    rewrite ?lor_shiftl_8, wrap_small, Hm by done; rewrite Z.gtb_ltb, Z.leb_antisym;
    by destruct (_ <? _).
Qed.

(** C8.  The parser on every input.  On a block of at least 32 bytes (the caller's is 1024) it never
    reads outside the block; it returns -1 exactly when the magic code is wrong, leaving the header
    alone; otherwise it fills the header from the packet, sets the body pointer to offset 30, and
    returns 0 exactly when the [length] bytes hold less than the whole packet and the packet's total
    size 30 + [bodylen] when they hold it. *)
Theorem packet_jt1078_parse_outcome (packet : list Z) (len : Z) (head : stream_header_t)
    (Hlen : (32 <= length packet)%nat) (Hbytes : Forall is_byte packet) :
  packet_jt1078_parse packet len head =
    Ok (if decide (take 4 packet = MAGIC) then
          (if body_length packet <=? len - 30 then body_length packet + 30 else 0,
           parsed_header packet head, Some 30%nat)
        else (-1, head, None)).
Proof. by apply parse_outcome. Qed.

Definition sample_packet : list Z :=
  MAGIC ++ [0x81; 0xe2; 0; 1] ++ bcd_bytes 6 13800138000 ++ [2; 0x10] ++ replicate 12 0
  ++ [0; 3] ++ [1; 2; 3; 4; 5].

Lemma packet_jt1078_parse_outcome_witness :
  (32 <= length sample_packet)%nat /\
  packet_jt1078_parse sample_packet 35 header0
  = Ok (33, parsed_header sample_packet header0, Some 30%nat).
Proof.
  split; [cbn; lia |].
  rewrite packet_jt1078_parse_outcome; [reflexivity | cbn; lia | by_decide].
Defined.

(** ** The wire format of a packet *)

Record video_packet := VideoPacket {
  vp_rtp : Z; vp_pt : Z; vp_seq : list Z; vp_sim : Z; vp_channel : Z; vp_mtype : Z;
  vp_times : list Z; vp_body : list Z
}.

Definition encode (p : video_packet) : list Z :=
  MAGIC ++ [vp_rtp p; vp_pt p] ++ vp_seq p ++ bcd_bytes 6 (vp_sim p)
  ++ [vp_channel p; vp_mtype p] ++ vp_times p ++ be16 (Z.of_nat (length (vp_body p))) ++ vp_body p.

(** A well-formed non-audio packet: the field widths of the wire format. *)
Record video_packet_wf (p : video_packet) : Prop := {
  wf_rtp : is_byte (vp_rtp p); wf_pt : is_byte (vp_pt p);
  wf_seq : length (vp_seq p) = 2%nat; wf_seq_b : Forall is_byte (vp_seq p);
  wf_sim : 0 <= vp_sim p < 10 ^ 12;
  wf_channel : is_byte (vp_channel p);
  wf_mtype : is_byte (vp_mtype p); wf_video : is_audio_type (vp_mtype p) = false;
  wf_times : length (vp_times p) = 12%nat; wf_times_b : Forall is_byte (vp_times p);
  wf_body : Z.of_nat (length (vp_body p)) < 65536; wf_body_b : Forall is_byte (vp_body p)
}.

Definition encoded_header (p : video_packet) (head : stream_header_t) : stream_header_t :=
  StreamHeader MAGIC (vp_rtp p) (vp_pt p) (flowid head) (sim head) (vp_channel p) (vp_mtype p)
    (timestamp head) (lifinterval head) (lfinterval head) (Z.of_nat (length (vp_body p))) (vp_sim p).

Lemma encode_length p : video_packet_wf p -> length (encode p) = (30 + length (vp_body p))%nat.
Proof.
  intros Hw. unfold encode. rewrite !length_app, bcd_bytes_length, (wf_seq p Hw), (wf_times p Hw).
  cbn. lia.
Qed.

Lemma be16_byte z : Forall is_byte (be16 z).
Proof.
  unfold be16, is_byte. rewrite !land_255.
  repeat constructor; apply Z.mod_pos_bound; lia.
Qed.

Lemma encode_byte p : video_packet_wf p -> Forall is_byte (encode p).
Proof.
  intros Hw. destruct Hw. unfold encode.
  assert (Forall is_byte MAGIC) by by_decide.
  rewrite !Forall_app. repeat split; auto using bcd_bytes_byte, be16_byte.
Qed.

(** The encoding, and whatever follows it in the buffer, parses back to the fields. *)
Lemma parsed_header_encode p rest head :
  video_packet_wf p -> parsed_header (encode p ++ rest) head = encoded_header p head.
Proof.
  intros Hw. unfold parsed_header, encoded_header, body_length, encode.
  destruct p as [r t sq sm ch mt tm bd]. destruct Hw. simpl in wf_seq0, wf_sim0, wf_video0, wf_times0, wf_body0.
  cbn [vp_rtp vp_pt vp_seq vp_sim vp_channel vp_mtype vp_times vp_body].
  pose proof (bcd_bytes_length 6 sm) as Hs.
  pose proof (bcd_value_bytes 6 sm ltac:(exact wf_sim0)) as Hv.
  set (n := Z.of_nat (length bd)) in *. assert (0 <= n) by lia. clearbody n.
  set (s := bcd_bytes 6 sm) in *. clearbody s.
  explode sq wf_seq0. explode s Hs. explode tm wf_times0.
  cbn [app lookup_total list_lookup_total take drop be16 MAGIC]. rewrite wf_video0, Hv.
  f_equal. rewrite !land_255, shiftr_8.
  rewrite (Z.mod_small (n / 256)) by (split; [apply Z.div_pos | apply Z.div_lt_upper_bound]; lia).
  rewrite Z.mul_comm. symmetry. by apply Z.div_mod.
Qed.

(** Round trip.  A well-formed video packet at the front of the buffer, followed by anything,
    parses back to its own fields (SIM number, channel, type, body length) and to its own total
    length, and the body pointer designates its body; while fewer bytes than the whole packet have
    arrived the parser returns 0 and the caller waits. *)
Theorem encode_parse_roundtrip (p : video_packet) (rest : list Z) (len : Z) (head : stream_header_t)
    (Hwf : video_packet_wf p) (Hrest : Forall is_byte rest)
    (Hblk : (32 <= length (encode p ++ rest))%nat) :
  exists ret,
    packet_jt1078_parse (encode p ++ rest) len head = Ok (ret, encoded_header p head, Some 30%nat) /\
    (Z.of_nat (length (encode p)) <= len -> ret = Z.of_nat (length (encode p))) /\
    (len < Z.of_nat (length (encode p)) -> ret = 0) /\
    take (length (vp_body p)) (drop 30 (encode p ++ rest)) = vp_body p.
Proof.
  pose proof (encode_length p Hwf) as Hl.
  pose proof (parsed_header_encode p rest head Hwf) as Hh.
  assert (Hbl : body_length (encode p ++ rest) = Z.of_nat (length (vp_body p)))
    by exact (f_equal bodylen Hh).
  assert (Hb : Forall is_byte (encode p ++ rest)) by (apply Forall_app; auto using encode_byte).
  eexists. rewrite parse_outcome by done.
  rewrite decide_True by done. rewrite Hh, Hbl. split; [done |]. rewrite Hl.
  split; [intros; rewrite (proj2 (Z.leb_le _ _)); lia |].
  split; [intros; rewrite (proj2 (Z.leb_gt _ _)); lia |].
  rewrite drop_app_le by lia. unfold encode in *. rewrite !app_assoc in *.
  rewrite drop_app_length' by (rewrite length_app in Hl; lia).
  by apply take_app_length.
Qed.

Definition sample_video : video_packet :=
  VideoPacket 0x81 0xe2 [0; 1] 13800138000 2 0x10 (replicate 12 0) [9; 8; 7; 6].

Lemma encode_parse_roundtrip_witness :
  video_packet_wf sample_video /\
  exists ret, packet_jt1078_parse (encode sample_video ++ [1; 2]) 36 header0
    = Ok (ret, encoded_header sample_video header0, Some 30%nat) /\ ret = 34.
Proof.
  assert (Hw : video_packet_wf sample_video)
    by (constructor; try by_decide; try reflexivity; cbn; lia).
  split; [exact Hw |].
  destruct (encode_parse_roundtrip sample_video [1; 2] 36 header0 Hw) as (ret & Hr & Hf & _).
  - by_decide.
  - cbn; lia.
  - exists ret. split; [exact Hr |]. apply Hf. cbn; lia.
Defined.
