(* ===== verification/H264.v ===== *)
(** * H.264 Annex B scanning

    [mw/protocol/tima_h264_parse.c] and [include/mw/tima_h264.h].  [buffer] is the block the pointer
    points to, a list of bytes; [size] is the [size] argument (the caller's count of valid bytes);
    positions are [size_t] values bounded by the block, hence [nat].  Every read is bounds-checked,
    in the order and with the short-circuits of the C expressions. *)

From S2P Require Import Prelude.

Record h264_nalu_t := Nalu {
  nalu_len : nat;
  nalu_type : Z;
  nalu_data : nat          (* offset of the pointer in [buffer] *)
}.

Record h264_meta_t := Meta {
  meta_size : Z;           (* int *)
  meta_data : list Z       (* the calloc'd block; the pointer is NULL when there is none *)
}.

(** ** The code *)

Definition find_start_code (buf : list Z) (p : nat) : res nat :=
  b0 ← rd buf p;
  nz ← (if b0 =? 0 then b1 ← rd buf (p + 1); Ok (negb (b1 =? 0)) else Ok true);
  if (nz : bool) then Ok 0%nat else
  b2 ← rd buf (p + 2);
  if b2 =? 1 then Ok 3%nat
  else if b2 =? 0 then b3 ← rd buf (p + 3); if b3 =? 1 then Ok 4%nat else Ok 0%nat
  else Ok 0%nat.

(** The [while (offset + pos + 3 < size)] loop of [nalu_read]: the final [(start, pos)]. *)
Fixpoint scan (fuel : nat) (buffer : list Z) (size offset pos : nat) : res (nat * nat) :=
  match fuel with
  | O => NoFuel
  | S fuel' =>
      if (offset + pos + 3 <? size)%nat then
        start ← find_start_code buffer (offset + pos);
        if (start =? 0)%nat then scan fuel' buffer size offset (S pos) else Ok (start, pos)
      else Ok (0%nat, pos)
  end.

(** The result is the returned [size_t] and the [*nalu] it stored, [None] when it stores nothing. *)
Definition nalu_read (buffer : list Z) (size offset : nat) : res (nat * option h264_nalu_t) :=
  if (offset <? size)%nat then
    '(start, pos) ← scan (S size) buffer size offset 0;
    if (start =? 0)%nat then Ok (0%nat, None) else
    let len := if (offset + pos + start =? size)%nat then (pos + start)%nat else pos in
    b ← rd buffer offset;
    Ok ((len + start)%nat, Some (Nalu len (Z.land b 0x1f) offset))
  else Ok (0%nat, None).

Definition h264_nalu_read := nalu_read.

(** [alloc n] tells whether [calloc(1, n)] succeeds.  A local [h264_nalu_t] that [nalu_read] did not
    fill is indeterminate, and reading it is undefined.  The result is the returned position and the
    metadata stored in [*meta] ([None] when it is left alone). *)
Definition h264_metadata_get (alloc : Z -> bool) (buffer : list Z) (size offset : nat)
    : res (nat * option h264_meta_t) :=
  code ← find_start_code buffer offset;
  if (code =? 0)%nat then
    _ ← mapM (rd buffer) (seq offset 4);
    Ok (0%nat, None)
  else
  let pos := (offset + code)%nat in
  '(len1, sps) ← nalu_read buffer size pos;
  let pos := (pos + len1)%nat in
  '(len2, pps) ← nalu_read buffer size pos;
  let pos := (pos + len2)%nat in
  sps ← of_option sps;
  pps ← of_option pps;
  let sz := i32 (Z.of_nat (nalu_len sps + nalu_len pps + 8)) in
  if negb (alloc sz) then Ok (0%nat, Some (Meta sz [])) else
  let data := replicate (Z.to_nat sz) 0 in
  data ← (if nalu_type sps =? 0x07 then
            nal ← blk_copy (nalu_data sps) (nalu_len sps) buffer;
            data ← blk_store 2 (be16 (Z.of_nat (nalu_len sps))) data;
            blk_store 4 nal data
          else Ok data);
  data ← (if nalu_type pps =? 0x08 then
            nal ← blk_copy (nalu_data pps) (nalu_len pps) buffer;
            data ← blk_store (nalu_len sps + 6) (be16 (Z.of_nat (nalu_len pps))) data;
            blk_store (nalu_len sps + 8) nal data
          else Ok data);
  Ok (pos, Some (Meta sz data)).

(** ** Start codes *)

(** A start code of [n] bytes at position [p]. *)
Definition code_at (buf : list Z) (p n : nat) : Prop :=
  (n = 3%nat /\ take 3 (drop p buf) = [0; 0; 1]) \/
  (n = 4%nat /\ take 4 (drop p buf) = [0; 0; 0; 1]).

Definition code_len (buf : list Z) (p : nat) : nat :=
  if decide (take 3 (drop p buf) = [0; 0; 1]) then 3
  else if decide (take 4 (drop p buf) = [0; 0; 0; 1]) then 4 else 0.

Lemma find_start_code_in buf p :
  (p + 3 < length buf)%nat -> find_start_code buf p = Ok (code_len buf p).
Proof.
  intros Hp. unfold find_start_code, rd, code_len.
  rewrite <- (Nat.add_0_r p) at 1. rewrite <- !lookup_drop.
  assert (Hd : (4 <= length (drop p buf))%nat) by (rewrite length_drop; lia).
  generalize dependent (drop p buf). intros d Hd.
  do 4 (destruct d as [| ? d]; [exfalso; cbn in Hd; lia |]).
  cbn [lookup list_lookup of_option take mbind res_bind].
  destruct (Z.eqb_spec z 0), (Z.eqb_spec z0 0), (Z.eqb_spec z1 1), (Z.eqb_spec z1 0),
    (Z.eqb_spec z2 1); cbn [negb mbind res_bind]; repeat case_decide; rewrite ?take_0 in *; congruence.
Qed.

Lemma code_len_cases buf p :
  code_len buf p = 0%nat \/ code_len buf p = 3%nat \/ code_len buf p = 4%nat.
Proof. unfold code_len. repeat case_decide; auto. Qed.

Lemma code_len_at buf p n : code_len buf p = n -> n <> 0%nat <-> code_at buf p n.
Proof.
  unfold code_len, code_at. intros <-.
  repeat case_decide; split; try tauto; intros [[? ?] | [? ?]]; congruence.
Qed.

(** ** The scan *)

(** [scan] stops at the first start code that leaves a byte to look at, [offset + q + 3 < size]. *)
Lemma scan_spec buffer size offset fuel pos :
  (size <= length buffer)%nat -> (size < offset + pos + 3 + fuel)%nat -> (0 < fuel)%nat ->
  exists start p,
    scan fuel buffer size offset pos = Ok (start, p) /\ (pos <= p)%nat /\
    (forall q, (pos <= q < p)%nat -> code_len buffer (offset + q) = 0%nat) /\
    ((start = 0%nat /\ (size <= offset + p + 3)%nat /\ (p = pos \/ offset + p + 2 < size)%nat) \/
     (start = code_len buffer (offset + p) /\ start <> 0%nat /\ (offset + p + 3 < size)%nat)).
Proof.
  intros Hs. revert pos; induction fuel as [| fuel IH]; intros pos Hf H0; [lia |].
  cbn [scan]. destruct (Nat.ltb_spec (offset + pos + 3) size) as [Hlt | Hge].
  - rewrite find_start_code_in by lia. cbn [mbind res_bind].
    destruct (Nat.eqb_spec (code_len buffer (offset + pos)) 0) as [Hc | Hc].
    + destruct (IH (S pos)) as (start & p & Hsc & Hp & Hq & Hr); [lia | lia |].
      exists start, p. split; [done |]. split; [lia |]. split.
      * intros q Hq'. destruct (decide (q = pos)) as [-> |]; [done | apply Hq; lia].
      * destruct Hr as [(-> & ? & ?) | ?]; [left; split; [done | lia] | by right].
    + eexists _, pos. split; [done |]. split; [lia |]. split; [lia |]. by right.
  - eexists 0%nat, pos. split; [done |]. split; [lia |]. split; [lia |]. left. lia.
Qed.

(** The first start code the scan from [offset] can see, as [(start, p)]. *)
Definition first_code (buffer : list Z) (size offset start p : nat) : Prop :=
  start = code_len buffer (offset + p) /\ start <> 0%nat /\ (offset + p + 3 < size)%nat /\
  forall q, (q < p)%nat -> code_len buffer (offset + q) = 0%nat.

Definition no_code (buffer : list Z) (size offset : nat) : Prop :=
  forall q, (offset + q + 3 < size)%nat -> code_len buffer (offset + q) = 0%nat.

(** C15.  [nalu_read] on every buffer: it terminates without an access outside the block; it returns
    0 and stores nothing exactly when no start code is visible ahead of [offset]; otherwise the unit
    runs from [offset] to the first visible start code - or, when that code ends the buffer, to the
    end of the buffer, start code included - and the returned count is the stored length plus the
    start code's length. *)
Theorem nalu_read_first_code (buffer : list Z) (size offset : nat)
    (Hsize : (size <= length buffer)%nat) :
  (exists start p b,
      first_code buffer size offset start p /\ buffer !! offset = Some b /\
      let len := if (offset + p + start =? size)%nat then (p + start)%nat else p in
      nalu_read buffer size offset = Ok ((len + start)%nat, Some (Nalu len (Z.land b 0x1f) offset))) \/
  (no_code buffer size offset /\ nalu_read buffer size offset = Ok (0%nat, None)).
Proof.
  unfold nalu_read. destruct (Nat.ltb_spec offset size) as [Hlt | Hge].
  - destruct (scan_spec buffer size offset (S size) 0) as (start & p & -> & _ & Hq & Hr); [lia.. |].
    cbn [mbind res_bind]. destruct Hr as [(-> & Hp & _) | (-> & Hc & Hp)].
    + right. split; [| done]. intros q Hq'. apply Hq. lia.
    + left. destruct (rd_lt buffer offset) as (b & Hb & Hlook); [lia |].
      exists (code_len buffer (offset + p)), p, b.
      split; [split_and!; try done; intros; apply Hq; lia |]. split; [done |].
      rewrite (proj2 (Nat.eqb_neq _ _)) by done. by rewrite Hb.
  - right. split; [intros q Hq; lia | done].
Qed.

Definition sample_stream : list Z :=
  [0; 0; 0; 1; 0x67; 66; 0; 30; 0; 0; 1; 0x68; 206; 60; 0; 0; 0; 1; 0x65; 136; 132].

Lemma nalu_read_first_code_witness :
  (21 <= length sample_stream)%nat /\
  exists b, sample_stream !! 4%nat = Some b /\
    nalu_read sample_stream 21 4 = Ok (7%nat, Some (Nalu 4 (Z.land b 0x1f) 4)).
Proof.
  assert (H : (21 <= length sample_stream)%nat) by (cbn; lia).
  split; [exact H |].
  destruct (nalu_read_first_code sample_stream 21 4 H) as [(st & p & b & Hf & Hb & Hr) | [Hn _]].
  - exists b. split; [exact Hb |]. injection Hb as <-. vm_compute. reflexivity.
  - exfalso. assert (Hc := Hn 4%nat ltac:(lia)). vm_compute in Hc. discriminate Hc.
Defined.

Lemma first_code_unique buffer size offset s1 p1 s2 p2 :
  first_code buffer size offset s1 p1 -> first_code buffer size offset s2 p2 ->
  s1 = s2 /\ p1 = p2.
Proof.
  intros (-> & H1 & L1 & Q1) (-> & H2 & L2 & Q2).
  destruct (Nat.lt_trichotomy p1 p2) as [Hl | [-> | Hl]]; [| done |].
  - by rewrite (Q2 _ Hl) in H1.
  - by rewrite (Q1 _ Hl) in H2.
Qed.

Lemma nalu_read_first buffer size offset start p b :
  (size <= length buffer)%nat -> first_code buffer size offset start p ->
  buffer !! offset = Some b ->
  nalu_read buffer size offset =
    let len := if (offset + p + start =? size)%nat then (p + start)%nat else p in
    Ok ((len + start)%nat, Some (Nalu len (Z.land b 0x1f) offset)).
Proof.
  intros Hs Hf Hb. pose proof Hf as (Hc & Hn & Hl & Hq).
  unfold nalu_read. rewrite (proj2 (Nat.ltb_lt _ _)) by lia.
  destruct (scan_spec buffer size offset (S size) 0) as (st & p' & -> & _ & Hq' & Hr); [lia.. |].
  cbn [mbind res_bind]. destruct Hr as [(-> & Hp & _) | (Hst & Hc' & Hp)].
  - exfalso. apply Hn. rewrite Hc. apply Hq'. lia.
  - destruct (first_code_unique buffer size offset st p' start p) as [-> ->]; [| done |].
    { split_and!; try done. intros; apply Hq'; lia. }
    rewrite (proj2 (Nat.eqb_neq _ _)) by done. by rewrite (rd_Ok _ _ _ Hb).
Qed.

Lemma nalu_read_none buffer size offset :
  (size <= length buffer)%nat -> no_code buffer size offset ->
  nalu_read buffer size offset = Ok (0%nat, None).
Proof.
  intros Hs Hn. unfold nalu_read. destruct (Nat.ltb_spec offset size); [| done].
  destruct (scan_spec buffer size offset (S size) 0) as (st & p & -> & _ & Hq & Hr); [lia.. |].
  cbn [mbind res_bind]. destruct Hr as [(-> & _) | (-> & Hc & Hp)]; [done |].
  exfalso. apply Hc, Hn. done.
Qed.

(** ** Annex B streams *)

Definition start_code (long : bool) : list Z := if long then [0; 0; 0; 1] else [0; 0; 1].

(** A unit as an encoder emits it: non-empty, not ending in a zero byte, and with no start code
    emulation inside. *)
Fixpoint emulation_free (l : list Z) : bool :=
  match l with
  | [] => true
  | a :: l' =>
      negb (match l' with
            | b :: c :: _ => (a =? 0) && (b =? 0) && ((c =? 0) || (c =? 1))
            | _ => false
            end) && emulation_free l'
  end.

Definition clean (n : list Z) : Prop :=
  emulation_free n = true /\ exists x, last n = Some x /\ x <> 0.

Lemma clean_drop n q : clean n -> (q < length n)%nat -> clean (drop q n).
Proof.
  intros [He (x & Hx & Hne)] Hq. split.
  - clear Hx. revert n Hq He; induction q as [| q IH]; intros [| a n] Hq He; try done.
    cbn in He. apply andb_true_iff in He as [_ He]. apply IH; [cbn in Hq; lia | done].
  - exists x. split; [| done]. rewrite <- (take_drop q n), last_app in Hx.
    destruct (last (drop q n)) eqn:E; [done |]. apply last_None in E.
    apply (f_equal length) in E. rewrite length_drop in E. cbn in E. lia.
Qed.

Lemma clean_no_code d post : clean d -> code_len (d ++ post) 0 = 0%nat.
Proof.
  intros [He (x & Hx & Hne)]. unfold code_len. rewrite drop_0.
  destruct d as [| a [| b [| c d]]]; cbn in Hx; simplify_eq;
    cbn [app take]; repeat case_decide; try done; try congruence.
  all: cbn in He; simplify_eq; cbn in He; done.
Qed.

Lemma code_len_shift pre buf q : code_len (pre ++ buf) (length pre + q) = code_len buf q.
Proof. unfold code_len. by rewrite drop_app_add'. Qed.

Lemma code_len_drop buf q : code_len buf q = code_len (drop q buf) 0.
Proof. unfold code_len. by rewrite drop_drop, Nat.add_0_r. Qed.

Lemma code_len_start long post : code_len (start_code long ++ post) 0 = length (start_code long).
Proof. by destruct long. Qed.

(** Reading one unit of a stream: it is returned whole and the count skips its start code. *)
Lemma first_code_unit pre n long next post :
  clean n ->
  first_code (pre ++ n ++ start_code long ++ next :: post)
    (length (pre ++ n ++ start_code long ++ next :: post)) (length pre)
    (length (start_code long)) (length n).
Proof.
  intros Hn. unfold first_code. rewrite code_len_shift.
  rewrite <- (Nat.add_0_r (length n)) at 1. rewrite code_len_shift, code_len_start.
  split; [done |]. split; [by destruct long |]. split.
  - rewrite !length_app. destruct long; cbn; lia.
  - intros q Hq. rewrite code_len_shift, code_len_drop, drop_app_le by lia.
    by apply clean_no_code, clean_drop.
Qed.

Lemma nalu_read_unit pre n x long next post :
  clean (x :: n) ->
  nalu_read (pre ++ (x :: n) ++ start_code long ++ next :: post)
    (length (pre ++ (x :: n) ++ start_code long ++ next :: post)) (length pre)
  = Ok ((length (x :: n) + length (start_code long))%nat,
        Some (Nalu (length (x :: n)) (Z.land x 0x1f) (length pre))).
Proof.
  intros Hn. erewrite nalu_read_first; [| done | by apply first_code_unit | by apply list_lookup_middle].
  cbn zeta. rewrite (proj2 (Nat.eqb_neq _ _)); [done |]. rewrite !length_app. cbn. lia.
Qed.

(** A unit with the first byte as a pattern, for the lemmas on its type. *)
Definition unit_type (n : list Z) : Z := match n with x :: _ => Z.land x 0x1f | [] => 0 end.

Lemma clean_cons n : clean n -> exists x n', n = x :: n'.
Proof. intros [_ (x & Hx & _)]. destruct n; [done | eauto]. Qed.

Lemma nalu_read_clean pre n long next post :
  clean n ->
  nalu_read (pre ++ n ++ start_code long ++ next :: post)
    (length (pre ++ n ++ start_code long ++ next :: post)) (length pre)
  = Ok ((length n + length (start_code long))%nat, Some (Nalu (length n) (unit_type n) (length pre))).
Proof. intros Hn. destruct (clean_cons n Hn) as (x & n' & ->). by apply nalu_read_unit. Qed.

(** The AVCC-like layout [h264_metadata_get] builds: each parameter set after two zero bytes and its
    16-bit length. *)
Definition meta_layout (sps pps : list Z) : list Z :=
  [0; 0] ++ be16 (Z.of_nat (length sps)) ++ sps ++ [0; 0] ++ be16 (Z.of_nat (length pps)) ++ pps.

Lemma replicate_split {A} (x : A) n m : replicate (n + m) x = replicate n x ++ replicate m x.
Proof. apply replicate_add. Qed.

Lemma be16_length z : length (be16 z) = 2%nat.
Proof. done. Qed.

(** Filling one entry of the layout: its 16-bit length at offset 2, then the unit after it. *)
Lemma fill_len pre (unit : list Z) post :
  blk_store (length pre + 2) (be16 (Z.of_nat (length unit)))
    (pre ++ replicate (length unit + 4) 0 ++ post)
  = Ok (pre ++ [0; 0] ++ be16 (Z.of_nat (length unit)) ++ replicate (length unit) 0 ++ post).
Proof.
  replace (pre ++ replicate (length unit + 4) 0 ++ post)
    with ((pre ++ [0; 0]) ++ [0; 0] ++ replicate (length unit) 0 ++ post)
    by (rewrite (Nat.add_comm (length unit)); cbn; by rewrite <- app_assoc).
  replace (length pre + 2)%nat with (length (pre ++ [0; 0])) by (by rewrite length_app).
  rewrite blk_store_app by done. by rewrite <- app_assoc.
Qed.

Lemma fill_unit pre (unit : list Z) post :
  blk_store (length pre + 4) unit
    (pre ++ [0; 0] ++ be16 (Z.of_nat (length unit)) ++ replicate (length unit) 0 ++ post)
  = Ok (pre ++ [0; 0] ++ be16 (Z.of_nat (length unit)) ++ unit ++ post).
Proof.
  rewrite (app_assoc [0; 0]), (app_assoc pre).
  set (h := [0; 0] ++ be16 (Z.of_nat (length unit))).
  replace (length pre + 4)%nat with (length (pre ++ h)) by (rewrite length_app; done).
  rewrite blk_store_app by (by rewrite length_replicate).
  unfold h. by rewrite <- !app_assoc.
Qed.

Lemma metadata_layout (alloc : Z -> bool) (l1 l2 l3 : bool) (sps pps : list Z)
    (next : Z) (post : list Z)
    (Hsps : clean sps) (Hpps : clean pps)
    (Hts : unit_type sps = 7) (Htp : unit_type pps = 8)
    (Hlen : Z.of_nat (length sps + length pps + 8) <= INT_MAX)
    (Halloc : alloc (Z.of_nat (length sps + length pps + 8)) = true) :
  let hdr := start_code l1 ++ sps ++ start_code l2 ++ pps ++ start_code l3 in
  let buffer := hdr ++ next :: post in
  h264_metadata_get alloc buffer (length buffer) 0 =
    Ok (length hdr, Some (Meta (Z.of_nat (length sps + length pps + 8)) (meta_layout sps pps))).
Proof.
  cbn zeta. set (buffer := _ ++ next :: post). unfold h264_metadata_get.
  assert (E1 : buffer = start_code l1 ++ sps ++ start_code l2 ++ hd 0 pps ::
                 (tail pps ++ start_code l3 ++ next :: post)).
  { unfold buffer. rewrite <- !app_assoc. destruct (clean_cons _ Hpps) as (? & ? & ->). done. }
  assert (E2 : buffer = (start_code l1 ++ sps ++ start_code l2) ++ pps ++ start_code l3 ++ next :: post)
    by (unfold buffer; by rewrite <- !app_assoc).
  rewrite find_start_code_in by (rewrite E2, !length_app; destruct l1, l2; cbn; lia).
  rewrite E1 at 1. rewrite code_len_start. cbn [mbind res_bind].
  rewrite (proj2 (Nat.eqb_neq _ _)) by (by destruct l1). rewrite Nat.add_0_l.
  pose proof (nalu_read_clean (start_code l1) sps l2 (hd 0 pps)
    (tail pps ++ start_code l3 ++ next :: post) Hsps) as R1.
  rewrite <- E1 in R1. rewrite R1. cbn [mbind res_bind].
  pose proof (nalu_read_clean (start_code l1 ++ sps ++ start_code l2) pps l3 next post Hpps) as R2.
  rewrite <- E2, !length_app in R2. rewrite R2. cbn [mbind res_bind of_option nalu_len nalu_type nalu_data].
  rewrite swrap_small by (unfold INT_MAX in *; lia). rewrite Halloc, Hts, Htp, Nat2Z.id.
  cbn [negb Z.eqb Pos.eqb].
  rewrite E1 at 1. rewrite blk_copy_app. cbn [mbind res_bind].
  replace (replicate (length sps + length pps + 8) 0)
    with ([] ++ replicate (length sps + 4) 0 ++ (replicate (length pps + 4) 0 ++ []))
    by (rewrite app_nil_r; cbn [app]; rewrite <- replicate_add; f_equal; lia).
  rewrite (fill_len [] sps _ : blk_store 2 _ _ = _). cbn [mbind res_bind].
  rewrite (fill_unit [] sps _ : blk_store 4 _ _ = _). cbn [mbind res_bind].
  pose proof (blk_copy_app (start_code l1 ++ sps ++ start_code l2) pps (start_code l3 ++ next :: post)) as C2.
  rewrite <- E2, !length_app in C2. rewrite C2. cbn [mbind res_bind].
  set (e1 := [0; 0] ++ be16 (Z.of_nat (length sps)) ++ sps).
  replace ([] ++ [0; 0] ++ be16 (Z.of_nat (length sps)) ++ sps ++ replicate (length pps + 4) 0 ++ [])
    with (e1 ++ replicate (length pps + 4) 0 ++ []) by (unfold e1; by rewrite <- !app_assoc).
  assert (L : length e1 = (length sps + 4)%nat) by (unfold e1; rewrite !length_app, be16_length; cbn; lia).
  replace (length sps + 6)%nat with (length e1 + 2)%nat by lia. rewrite fill_len.
  cbn [mbind res_bind].
  replace (length sps + 8)%nat with (length e1 + 4)%nat by lia. rewrite fill_unit.
  cbn [mbind res_bind]. unfold meta_layout, e1. rewrite app_nil_r, <- !app_assoc.
  repeat f_equal. rewrite !length_app. lia.
Qed.

(** Metadata extraction.  On a stream that starts with a start code, a sequence parameter set
    (type 7), a picture parameter set (type 8) and the start code of a further unit, the function
    reads both sets, returns the offset just after the third start code, and stores exactly the
    layout 00 00 len16 SPS 00 00 len16 PPS in a block of its own size, without an access outside
    any block. *)
Theorem h264_metadata_get_layout (alloc : Z -> bool) (l1 l2 l3 : bool) (sps pps : list Z)
    (next : Z) (post : list Z)
    (Hsps : clean sps) (Hpps : clean pps)
    (Hts : unit_type sps = 7) (Htp : unit_type pps = 8)
    (Hlen : Z.of_nat (length sps + length pps + 8) <= INT_MAX)
    (Halloc : alloc (Z.of_nat (length sps + length pps + 8)) = true) :
  let hdr := start_code l1 ++ sps ++ start_code l2 ++ pps ++ start_code l3 in
  let buffer := hdr ++ next :: post in
  h264_metadata_get alloc buffer (length buffer) 0 =
    Ok (length hdr, Some (Meta (Z.of_nat (length sps + length pps + 8)) (meta_layout sps pps))).
Proof. by apply metadata_layout. Qed.

Definition sample_sps : list Z := [0x67; 66; 0; 30].
Definition sample_pps : list Z := [0x68; 206; 60].

Lemma h264_metadata_get_layout_witness :
  meta_layout sample_sps sample_pps = [0; 0; 0; 4; 0x67; 66; 0; 30; 0; 0; 0; 3; 0x68; 206; 60] /\
  h264_metadata_get (fun _ => true) sample_stream 21 0
  = Ok (18%nat, Some (Meta 15 (meta_layout sample_sps sample_pps))).
Proof.
  assert (Hs : clean sample_sps) by (split; [done | exists 30; done]).
  assert (Hp : clean sample_pps) by (split; [done | exists 60; done]).
  split; [reflexivity |].
  apply (h264_metadata_get_layout (fun _ => true) true false true sample_sps sample_pps 0x65 [136; 132] Hs Hp
    eq_refl eq_refl ltac:(cbv; discriminate) eq_refl).
Defined.

(** ** Data that ends with a start code

    A four-byte start code that ends the buffer is returned as part of the unit, and the returned
    position, which skips the start code once more, lies four bytes past the end. *)
Lemma nalu_read_end pre n :
  clean n ->
  let buf := pre ++ n ++ [0; 0; 0; 1] in
  nalu_read buf (length buf) (length pre)
  = Ok ((length n + 8)%nat, Some (Nalu (length n + 4) (unit_type n) (length pre))) /\
  (length pre + (length n + 8) = length buf + 4)%nat.
Proof.
  intros Hn buf. split; [| unfold buf; rewrite !length_app; cbn; lia].
  destruct (clean_cons _ Hn) as (x & n' & E).
  rewrite (nalu_read_first buf _ _ 4 (length n) x); [| done | |].
  - cbn zeta. rewrite (proj2 (Nat.eqb_eq _ _)) by (unfold buf; rewrite !length_app; cbn; lia).
    rewrite E. replace (length (x :: n') + 8)%nat with (length (x :: n') + 4 + 4)%nat by lia. done.
  - unfold first_code, buf. rewrite code_len_shift.
    rewrite <- (Nat.add_0_r (length n)) at 1. rewrite code_len_shift.
    split; [done |]. split; [done |]. split; [rewrite !length_app; cbn; lia |].
    intros q Hq. rewrite code_len_shift, code_len_drop, drop_app_le by lia.
    by apply clean_no_code, clean_drop.
  - unfold buf. rewrite E. by apply list_lookup_middle.
Qed.

(** ** Bytes behind the valid ones are not looked at *)

Lemma code_len_behind buf junk p : (p + 3 < length buf)%nat -> code_len (buf ++ junk) p = code_len buf p.
Proof.
  intros Hp. unfold code_len. rewrite drop_app_le, !take_app_le by (rewrite ?length_drop; lia). done.
Qed.

Lemma nalu_read_behind buf junk offset :
  nalu_read (buf ++ junk) (length buf) offset = nalu_read buf (length buf) offset.
Proof.
  unfold nalu_read. destruct (Nat.ltb_spec offset (length buf)) as [H | H]; [| done].
  assert (S : forall fuel pos, scan fuel (buf ++ junk) (length buf) offset pos
                             = scan fuel buf (length buf) offset pos).
  { induction fuel as [| fuel IH]; intros pos; [done |]. cbn [scan].
    destruct (Nat.ltb_spec (offset + pos + 3) (length buf)) as [Hl | Hl]; [| done].
    rewrite !find_start_code_in, code_len_behind by (rewrite ?length_app; lia).
    cbn [mbind res_bind]. by destruct (_ =? 0)%nat. }
  rewrite S. unfold rd. by rewrite lookup_app_l.
Qed.

(** The unit returned lies within the valid bytes. *)
Lemma nalu_read_within buf size o n nalu :
  (size <= length buf)%nat -> nalu_read buf size o = Ok (n, Some nalu) ->
  (nalu_data nalu + nalu_len nalu <= size)%nat.
Proof.
  intros Hs. unfold nalu_read. destruct (Nat.ltb_spec o size); [| done].
  destruct (scan_spec buf size o (S size) 0) as (st & p & -> & _ & _ & Hr); [lia.. |].
  cbn [mbind res_bind]. destruct (Nat.eqb_spec st 0); [done |].
  destruct (rd_lt buf o) as (b & -> & _); [lia |]. cbn [mbind res_bind].
  destruct (Nat.eqb_spec (o + p + st) size); intros [= <- <-]; cbn; lia.
Qed.

Lemma metadata_behind alloc buf junk :
  (3 < length buf)%nat ->
  (forall n, find_start_code buf 0 = Ok n -> n <> 0%nat) ->
  h264_metadata_get alloc (buf ++ junk) (length buf) 0 = h264_metadata_get alloc buf (length buf) 0.
Proof.
  intros Hl Hc. unfold h264_metadata_get.
  rewrite !find_start_code_in, code_len_behind by (rewrite ?length_app; lia). cbn [mbind res_bind].
  rewrite (proj2 (Nat.eqb_neq _ _)) by (apply Hc; by rewrite find_start_code_in by lia).
  rewrite nalu_read_behind.
  destruct (nalu_read buf (length buf) (0 + code_len buf 0)) as [[len1 sps] | |] eqn:E1; [| done..].
  cbn [mbind res_bind]. rewrite nalu_read_behind.
  destruct (nalu_read buf (length buf) (0 + code_len buf 0 + len1)) as [[len2 pps] | |] eqn:E2; [| done..].
  cbn [mbind res_bind]. destruct sps as [sps |], pps as [pps |]; cbn [of_option mbind res_bind]; try done.
  apply nalu_read_within in E1, E2; [| done..]. destruct (alloc _); cbn [negb]; [| done].
  assert (B : forall o n, (o + n <= length buf)%nat -> blk_copy o n (buf ++ junk) = blk_copy o n buf).
  { intros o n Hon. unfold blk_copy. rewrite !decide_True by (rewrite ?length_app; lia).
    by rewrite drop_app_le, take_app_le by (rewrite ?length_drop; lia). }
  by rewrite !B by lia.
Qed.
