(* ===== verification/Buffer.v ===== *)
(** * The growing byte buffer

    [mw/support/tima_buffer.c]: [TimaBuffer].  The buffer is a heap block of possibly indeterminate
    bytes ([None] for the NULL pointer); [buffer_used] and [buffer_total] are [size_t] values, and
    every [size_t] expression wraps at 64 bits.  [alloc n] tells whether an allocation of [n] bytes
    succeeds.  The functions that return a pointer into the buffer return its offset. *)

From S2P Require Import Prelude.

Record TimaBuffer := MkBuffer {
  buffer : option (block Z);
  buffer_used : Z;
  buffer_total : Z
}.

Section code.
Context (alloc : Z -> bool).

Definition tima_buffer_init (size : Z) : res TimaBuffer :=
  let n := u64 (size + 1) in
  if alloc n then Ok (MkBuffer (Some (replicate (Z.to_nat n) (Some 0))) 0 size)
  else if n =? 0 then Ok (MkBuffer None 0 size) else UB.

(** [while (need < expand) need = need + (need >> 1);] *)
Fixpoint grow_loop (fuel : nat) (need expand : Z) : res Z :=
  match fuel with
  | O => NoFuel
  | S fuel' =>
      if need <? expand then grow_loop fuel' (u64 (need + Z.shiftr need 1)) expand else Ok need
  end.

Definition grow_fuel : nat := 200.

(** [realloc(p, 0)] is outside the standard's defined uses. *)
Definition tima_buffer_expand (thiz : TimaBuffer) (expand : Z) : res (Z * TimaBuffer) :=
  let used := buffer_used thiz in
  let total := buffer_total thiz in
  let need := u64 (total + Z.shiftr total 1) in
  let expand := u64 (expand + used) in
  need ← grow_loop grow_fuel need expand;
  if need =? 0 then UB
  else if alloc need then
    let old := default [] (buffer thiz) in
    Ok (0, MkBuffer (Some (blk_realloc (Z.to_nat need) old)) used need)
  else Ok (-1, thiz).

(** [memcpy(thiz->buffer + offset, data, length); thiz->buffer[offset + length] = 0;] *)
Definition put (thiz : TimaBuffer) (offset : Z) (data : list Z) (length : Z) : res TimaBuffer :=
  blk ← of_option (buffer thiz);
  o ← ptr_off offset;
  bytes ← blk_copy 0 (Z.to_nat length) data;
  blk ← blk_store o (Some <$> bytes) blk;
  e ← ptr_off (u64 (offset + length));
  blk ← blk_store e [Some 0] blk;
  Ok (MkBuffer (Some blk) (buffer_used thiz) (buffer_total thiz)).

Definition ensure (thiz : TimaBuffer) (offset length : Z) : res (Z * TimaBuffer) :=
  if buffer_total thiz <=? u64 (offset + length) then tima_buffer_expand thiz length
  else Ok (0, thiz).

Definition advance (thiz : TimaBuffer) (n : Z) : TimaBuffer :=
  MkBuffer (buffer thiz) (u64 (buffer_used thiz + n)) (buffer_total thiz).

Definition tima_buffer_strdup_ex (thiz : TimaBuffer) (data : list Z) (length : Z)
    : res (option Z * TimaBuffer) :=
  let offset := i32 (buffer_used thiz) in
  '(rc, thiz) ← ensure thiz offset length;
  if rc =? -1 then Ok (None, thiz) else
  thiz ← put thiz offset data length;
  Ok (Some 0, advance thiz length).

Definition tima_buffer_strdup (thiz : TimaBuffer) (data : list Z) (length : Z) (append : bool)
    : res (option Z * TimaBuffer) :=
  let offset := i32 (buffer_used thiz) in
  if length <=? 0 then Ok (Some (if append then 0 else offset), thiz) else
  '(rc, thiz) ← ensure thiz offset length;
  if rc =? -1 then Ok (None, thiz) else
  thiz ← put thiz offset data length;
  if append then Ok (Some 0, advance thiz length)
  else Ok (Some offset, advance thiz (length + 1)).

Definition tima_buffer_align (thiz : TimaBuffer) (offset : Z) : res TimaBuffer :=
  blk ← of_option (buffer thiz);
  cells ← blk_copy (Z.to_nat offset) (Z.to_nat (u64 (buffer_used thiz - offset + 1))) blk;
  blk ← blk_store 0 cells blk;
  Ok (MkBuffer (Some blk) (u64 (buffer_used thiz - offset)) (buffer_total thiz)).

Definition tima_buffer_reset (thiz : TimaBuffer) : res TimaBuffer :=
  blk ← of_option (buffer thiz);
  blk ← blk_store 0 (replicate (Z.to_nat (buffer_total thiz)) (Some 0)) blk;
  Ok (MkBuffer (Some blk) 0 (buffer_total thiz)).

Definition tima_buffer_clean (thiz : TimaBuffer) : TimaBuffer :=
  MkBuffer None (buffer_used thiz) 0.

Definition tima_buffer_data (thiz : TimaBuffer) (offset : Z) : Z := offset.
Definition tima_buffer_used (thiz : TimaBuffer) : Z := buffer_used thiz.
Definition tima_buffer_size (thiz : TimaBuffer) : Z := buffer_total thiz.
End code.

(** ** Growth *)

Definition next_size (n : Z) : Z := n + Z.shiftr n 1.

Lemma next_size_bounds n : 2 <= n -> 4 * n <= 3 * next_size n /\ 2 * next_size n <= 3 * n /\ n < next_size n.
Proof.
  intros. unfold next_size. rewrite Z.shiftr_div_pow2 by lia. change (2 ^ 1) with 2.
  pose proof (Z.div_mod n 2). pose proof (Z.mod_pos_bound n 2). lia.
Qed.

Lemma grow_loop_step fuel need expand :
  2 <= need < expand -> expand <= 2 ^ 62 ->
  grow_loop (S fuel) need expand = grow_loop fuel (next_size need) expand.
Proof.
  intros H1 H2. cbn [grow_loop]. rewrite (proj2 (Z.ltb_lt _ _)) by lia.
  pose proof (next_size_bounds need). fold (next_size need).
  rewrite wrap_small; [done | lia].
Qed.

Lemma grow_loop_done fuel need expand : expand <= need -> grow_loop (S fuel) need expand = Ok need.
Proof. intros. cbn [grow_loop]. by rewrite (proj2 (Z.ltb_ge _ _)) by lia. Qed.

(** Three rounds at least double the size, so a fuel of three per bit is enough. *)
Lemma grow_loop_total j fuel need expand :
  2 <= need -> 0 <= j -> expand <= 2 ^ 62 -> expand <= need * 2 ^ j ->
  (Z.to_nat (3 * j) < fuel)%nat ->
  exists n, grow_loop fuel need expand = Ok n /\ need <= n /\ expand <= n /\
    (n = need \/ 2 * n <= 3 * (expand - 1)).
Proof.
  intros Hn Hj He Hb Hf. revert fuel need Hn Hb Hf.
  pattern j. apply natlike_ind; [| | exact Hj]; clear j Hj.
  - intros fuel need Hn Hb Hf. destruct fuel as [| fuel]; [lia |].
    exists need. rewrite grow_loop_done by lia. split; [done | lia].
  - intros j Hj IH fuel need Hn Hb Hf. rewrite Z.pow_succ_r in Hb by lia.
    do 3 (destruct fuel as [| fuel]; [lia |]).
    destruct (Z.le_gt_cases expand need) as [Hd | Hd].
    { rewrite grow_loop_done by done. exists need. split; [done | lia]. }
    rewrite grow_loop_step by lia. pose proof (next_size_bounds need Hn) as B1.
    set (n1 := next_size need) in *.
    destruct (Z.le_gt_cases expand n1) as [Hd1 | Hd1].
    { rewrite grow_loop_done by done. exists n1. split; [done | lia]. }
    rewrite grow_loop_step by lia. pose proof (next_size_bounds n1 ltac:(lia)) as B2.
    set (n2 := next_size n1) in *.
    destruct (Z.le_gt_cases expand n2) as [Hd2 | Hd2].
    { rewrite grow_loop_done by done. exists n2. split; [done | lia]. }
    rewrite grow_loop_step by lia. pose proof (next_size_bounds n2 ltac:(lia)) as B3.
    set (n3 := next_size n2) in *.
    assert (expand <= n3 * 2 ^ j).
    { assert (0 < 2 ^ j) by (apply Z.pow_pos_nonneg; lia). nia. }
    destruct (IH fuel n3) as (n & Hg & Hle & Hex & Hor); [lia | done | lia |].
    exists n. split; [done |]. lia.
Qed.

(** A buffer of at most one byte never grows: the loop makes no progress. *)
Lemma grow_loop_stuck need expand fuel :
  0 <= need <= 1 -> need < expand -> grow_loop fuel need expand = NoFuel.
Proof.
  intros Hn He. induction fuel as [| fuel IH]; [done |]. cbn [grow_loop].
  rewrite (proj2 (Z.ltb_lt _ _)) by lia.
  replace (u64 (need + Z.shiftr need 1)) with need; [done |].
  assert (need = 0 \/ need = 1) as [-> | ->] by lia; reflexivity.
Qed.

(** ** Contents *)

(** The used bytes are [xs], and the block has at least [buffer_total] bytes (and is no larger than an
    address space can hold). *)
Definition holds (b : TimaBuffer) (xs : list Z) : Prop :=
  exists blk, buffer b = Some blk /\ blk_holds xs blk /\
    buffer_used b = Z.of_nat (length xs) /\ buffer_total b <= Z.of_nat (length blk) < 2 ^ 62.

(** The byte after the used ones is the terminating zero. *)
Definition terminated (b : TimaBuffer) (xs : list Z) : Prop :=
  exists blk, buffer b = Some blk /\ blk_holds (xs ++ [0]) blk.

(** The sizes the theorems cover: capacities below 2^40 and contents an [int] can index. *)
Definition sized (b : TimaBuffer) : Prop := 2 <= buffer_total b <= 2 ^ 40.

Lemma put_spec b xs data length :
  holds b xs -> 0 <= length <= Z.of_nat (List.length data) ->
  buffer_used b + length < 2 ^ 31 ->
  let d := take (Z.to_nat length) data in
  forall blk, buffer b = Some blk ->
  ((List.length xs + List.length d < List.length blk)%nat ->
    exists blk', put b (buffer_used b) data length = Ok (MkBuffer (Some blk') (buffer_used b) (buffer_total b)) /\
      blk_holds (xs ++ d) blk' /\ blk_holds ((xs ++ d) ++ [0]) blk' /\
      List.length blk' = List.length blk) /\
  ((List.length xs + List.length d = List.length blk)%nat -> put b (buffer_used b) data length = UB).
Proof.
  intros (blk & Hb & Hh & Hu & Ht) Hl Hint d blk0 Hblk. rewrite Hblk in Hb. injection Hb as ->.
  assert (Hd : List.length d = Z.to_nat length) by (unfold d; rewrite length_take; lia).
  unfold put. rewrite Hblk. cbn [of_option mbind res_bind].
  rewrite Hu, (ptr_off_Ok (Z.of_nat _)), Nat2Z.id by lia. cbn [mbind res_bind].
  unfold blk_copy. rewrite decide_True by lia. cbn [mbind res_bind]. rewrite drop_0. fold d.
  rewrite wrap_small, ptr_off_Ok by lia.
  replace (Z.to_nat (Z.of_nat (List.length xs) + length)) with (List.length (xs ++ d))
    by (rewrite length_app; lia).
  split; intros Hroom.
  - destruct (blk_store_append xs d blk) as (b1 & E1 & H1); [done | lia |].
    pose proof (blk_store_length _ _ _ _ E1) as L1. rewrite E1. cbn [mbind res_bind].
    destruct (blk_store_append (xs ++ d) [0] b1) as (b2 & E2 & H2); [done | rewrite length_app; cbn; lia |].
    pose proof (blk_store_length _ _ _ _ E2) as L2. change [Some 0] with (Some <$> [0]).
    rewrite E2. cbn [mbind res_bind].
    exists b2. split_and!; [done | | done | lia].
    destruct H2 as [r ->]. exists (Some 0 :: r). rewrite fmap_app, <- app_assoc. done.
  - destruct (blk_store_append xs d blk) as (b1 & E1 & H1); [done | lia |].
    pose proof (blk_store_length _ _ _ _ E1) as L1. rewrite E1. cbn [mbind res_bind].
    rewrite (proj2 (blk_store_UB _ _ _)); [done |]. rewrite length_app. cbn. lia.
Qed.

Lemma expand_spec alloc b xs length :
  holds b xs -> sized b -> 0 <= length -> buffer_used b + length < 2 ^ 31 ->
  exists need,
    buffer_used b + length <= need /\ buffer_total b < need /\
    2 * need <= 3 * Z.max (buffer_total b) (buffer_used b + length) /\
    tima_buffer_expand alloc b length =
      if alloc need then
        Ok (0, MkBuffer (Some (blk_realloc (Z.to_nat need) (default [] (buffer b)))) (buffer_used b) need)
      else Ok (-1, b).
Proof.
  intros (blk & Hb & Hh & Hu & Ht) Hs Hl Hint. unfold sized in Hs.
  pose proof (next_size_bounds (buffer_total b) ltac:(lia)) as B.
  destruct (grow_loop_total 40 grow_fuel (next_size (buffer_total b)) (length + buffer_used b))
    as (n & Hg & Hn & He & Hor); [lia.. | unfold grow_fuel; lia |].
  exists n. split; [lia |]. split; [lia |]. split; [lia |].
  unfold tima_buffer_expand. fold (next_size (buffer_total b)).
  rewrite !wrap_small by lia. rewrite Hg. cbn [mbind res_bind].
  by rewrite (proj2 (Z.eqb_neq _ _)) by lia.
Qed.

(** The three outcomes of appending [d] to contents [xs]. *)
Definition appended (b b' : TimaBuffer) (xs d : list Z) (total : Z) : Prop :=
  holds b' (xs ++ d) /\ terminated b' (xs ++ d) /\ buffer_total b' = total.

Lemma ensure_put_spec alloc b xs data length :
  holds b xs -> sized b -> 0 <= length <= Z.of_nat (List.length data) ->
  buffer_used b + length < 2 ^ 31 ->
  let d := take (Z.to_nat length) data in
  let n := buffer_used b + length in
  (n < buffer_total b /\
    exists b', ensure alloc b (i32 (buffer_used b)) length = Ok (0, b) /\
      put b (i32 (buffer_used b)) data length = Ok b' /\
      appended b (advance b' length) xs d (buffer_total b)) \/
  (buffer_total b <= n /\ exists need, n <= need /\ 2 * need <= 3 * n /\
    (alloc need = false /\ ensure alloc b (i32 (buffer_used b)) length = Ok (-1, b) \/
     alloc need = true /\ exists b1 r,
       ensure alloc b (i32 (buffer_used b)) length = Ok (0, b1) /\
       put b1 (i32 (buffer_used b)) data length = r /\
       (n = need /\ r = UB \/ n < need /\ exists b', r = Ok b' /\
          appended b (advance b' length) xs d need))).
Proof.
  intros Hh Hs Hl Hint d n. pose proof Hh as (blk & Hb & Hbh & Hu & Ht).
  assert (Hd : List.length d = Z.to_nat length) by (unfold d; rewrite length_take; lia).
  rewrite swrap_small by lia. unfold ensure. rewrite wrap_small by lia.
  assert (App : forall b0 blk0, buffer b0 = Some blk0 -> holds b0 xs -> buffer_used b0 = buffer_used b ->
    (List.length xs + List.length d < List.length blk0)%nat ->
    exists b', put b0 (buffer_used b) data length = Ok b' /\
      appended b (advance b' length) xs d (buffer_total b0)).
  { intros b0 blk0 Hb0 Hh0 Hu0 Hroom. rewrite <- Hu0.
    destruct (put_spec b0 xs data length Hh0 Hl ltac:(lia) blk0 Hb0) as [P _].
    destruct (P Hroom) as (blk' & -> & H1 & H2 & L). eexists. split; [done |].
    destruct Hh0 as (? & Hb0' & _ & _ & Ht0). rewrite Hb0 in Hb0'. injection Hb0' as <-.
    split_and!; [exists blk'; cbn | exists blk'; cbn | done]; [| done].
    split_and!; [done | done | | lia..]. rewrite wrap_small, length_app by lia. lia. }
  destruct (Z.leb_spec (buffer_total b) (buffer_used b + length)) as [Hge | Hlt].
  - right. split; [unfold n; lia |].
    destruct (expand_spec alloc b xs length Hh Hs ltac:(lia) Hint) as (need & H1 & H2 & H3 & ->).
    exists need. split; [done |]. split; [lia |]. rewrite Hb. cbn [default].
    destruct (alloc need); [right; split; [done |] | by left].
    eexists _, _. split; [done |]. split; [done |].
    set (blk1 := blk_realloc (Z.to_nat need) blk). set (b1 := MkBuffer _ _ _).
    assert (L1 : List.length blk1 = Z.to_nat need) by apply blk_realloc_length.
    assert (Hh1 : holds b1 xs).
    { exists blk1. cbn. split_and!; [done | | done | lia..]. apply blk_holds_realloc; [done | lia]. }
    destruct (decide (n = need)) as [<- | Hne].
    + left. split; [done |].
      destruct (put_spec b1 xs data length Hh1 Hl Hint blk1 eq_refl) as [_ P]. apply P. fold d. unfold n in *. lia.
    + right. split; [lia |]. apply (App b1 blk1 eq_refl Hh1 eq_refl). unfold n in *. lia.
  - left. split; [done |]. destruct (App b blk Hb Hh eq_refl) as (b' & ? & ?); [lia |].
    exists b'. done.
Qed.

(** Appending: [tima_buffer_strdup_ex] copies [length] bytes after the used ones and terminates
    them.  With room for the terminator the capacity stays; otherwise the block grows to a capacity
    of at most one and a half times what is needed.  A failed allocation returns NULL and leaves the
    buffer as it was, and one case is undefined: when the new capacity is exactly the needed size,
    the terminator is stored one byte past the block. *)
Lemma tima_buffer_strdup_ex_outcome (alloc : Z -> bool) (b : TimaBuffer) (xs data : list Z) (length : Z)
    (Hb : holds b xs) (Hs : sized b) (Hlen : 0 <= length <= Z.of_nat (List.length data))
    (Hint : buffer_used b + length < 2 ^ 31) :
  let d := take (Z.to_nat length) data in
  let n := buffer_used b + length in
  (n < buffer_total b ->
    exists b', tima_buffer_strdup_ex alloc b data length = Ok (Some 0, b') /\
      appended b b' xs d (buffer_total b)) /\
  (buffer_total b <= n -> exists need, n <= need /\ 2 * need <= 3 * n /\
    (alloc need = false -> tima_buffer_strdup_ex alloc b data length = Ok (None, b)) /\
    (alloc need = true -> n < need ->
      exists b', tima_buffer_strdup_ex alloc b data length = Ok (Some 0, b') /\
        appended b b' xs d need) /\
    (alloc need = true -> n = need -> tima_buffer_strdup_ex alloc b data length = UB)).
Proof.
  cbn zeta. unfold tima_buffer_strdup_ex.
  destruct (ensure_put_spec alloc b xs data length Hb Hs Hlen Hint)
    as [(Hn & b' & E & P & A) | (Hn & need & Hlo & Hhi & [(Ha & E) | (Ha & b1 & r & E & P & C)])].
  - split; [intros _ | lia]. rewrite E. cbn [mbind res_bind Z.eqb]. rewrite P. cbn. eauto.
  - split; [lia | intros _]. exists need. split_and!; [done.. | | |]; rewrite Ha; try done.
    by rewrite E.
  - split; [lia | intros _]. exists need. split_and!; [done.. | by rewrite Ha | |]; intros _ Hneed;
      rewrite E; cbn [mbind res_bind Z.eqb]; rewrite P; destruct C as [(? & ->) | (? & b' & -> & A)];
      try lia; cbn; eauto.
Qed.

Definition sample_buffer : TimaBuffer :=
  MkBuffer (Some [Some 1; Some 2; Some 0; Some 0; Some 0]) 2 4.

Lemma sample_holds : holds sample_buffer [1; 2].
Proof. eexists. split; [done |]. split; [by exists [Some 0; Some 0; Some 0] |]. done. Defined.

(** The undefined case is within reach of a fresh buffer: [size + size / 2] bytes appended at once. *)
Lemma strdup_ex_overflow (size : Z) (data : list Z) :
  2 <= size <= 2 ^ 30 / 2 -> Z.of_nat (length data) = next_size size ->
  exists b, tima_buffer_init (fun _ => true) size = Ok b /\
    tima_buffer_strdup_ex (fun _ => true) b data (next_size size) = UB.
Proof.
  intros Hs Hd. pose proof (next_size_bounds size ltac:(lia)) as B.
  assert (Hsz : size <= 2 ^ 29) by (change (2 ^ 29) with (2 ^ 30 / 2); lia).
  unfold tima_buffer_init. rewrite wrap_small by lia. eexists. split; [done |].
  set (b := MkBuffer _ _ _).
  assert (Hh : holds b []).
  { eexists. split; [done |]. split; [apply blk_holds_nil |]. cbn. rewrite length_replicate. lia. }
  unfold tima_buffer_strdup_ex, ensure. cbn [buffer_used buffer_total b].
  change (i32 0) with 0. rewrite Z.add_0_l, wrap_small by lia.
  rewrite (proj2 (Z.leb_le _ _)) by lia. unfold tima_buffer_expand. cbn [buffer_used buffer_total b].
  fold (next_size size). rewrite !wrap_small by lia.
  change grow_fuel with (S 199). rewrite grow_loop_done by lia.
  cbn [mbind res_bind]. rewrite (proj2 (Z.eqb_neq _ _)) by lia. cbn [mbind res_bind Z.eqb].
  set (b1 := MkBuffer _ 0 _).
  assert (L1 : length (blk_realloc (Z.to_nat (next_size size)) (default [] (buffer b)))
    = Z.to_nat (next_size size)) by apply blk_realloc_length.
  destruct (put_spec b1 [] data (next_size size)) with
    (blk := blk_realloc (Z.to_nat (next_size size)) (default [] (buffer b))) as [_ P]; [| lia | cbn; lia | done |].
  - eexists. split; [done |]. split; [apply blk_holds_nil |]. split; [done |]. cbn [b1 buffer_total].
    rewrite L1. lia.
  - assert (P' : put b1 0 data (next_size size) = UB); [| by rewrite P'].
    apply P. rewrite length_take, L1. cbn [length]. lia.
Qed.

Lemma align_within b xs offset :
  holds b xs -> terminated b xs -> 0 <= offset <= buffer_used b ->
  buffer_used b < 2 ^ 63 ->
  exists b', tima_buffer_align b offset = Ok b' /\
    let rest := drop (Z.to_nat offset) xs in
    holds b' rest /\ terminated b' rest /\ buffer_total b' = buffer_total b.
Proof.
  intros (blk & Eb & Hh & Hu & Htot) (blk' & Eb' & Ht) [Hlo Ho] Hblk.
  rewrite Eb in Eb'. injection Eb' as <-.
  unfold tima_buffer_align. rewrite Eb. cbn [of_option mbind res_bind].
  pose proof (blk_holds_length _ _ Ht) as Hlen. rewrite length_app in Hlen. cbn in Hlen.
  destruct Ht as [rest Hrest]. set (o := Z.to_nat offset).
  assert (Ho' : Z.of_nat o = offset) by lia. clearbody o.
  assert (Hsplit : blk = (Some <$> take o xs) ++ (Some <$> (drop o xs ++ [0])) ++ rest).
  { rewrite app_assoc, <- fmap_app, app_assoc, take_drop. done. }
  assert (Lt : length (Some <$> take o xs) = o) by (rewrite length_fmap, length_take; lia).
  rewrite !wrap_small by lia.
  replace (Z.to_nat (buffer_used b - offset + 1)) with (length (Some <$> (drop o xs ++ [0])))
    by (rewrite length_fmap, length_app, length_drop; cbn; lia).
  pose proof (blk_copy_app (Some <$> take o xs) (Some <$> (drop o xs ++ [0])) rest) as C.
  rewrite <- Hsplit, Lt in C. rewrite C. cbn [mbind res_bind].
  unfold blk_store. rewrite decide_True
    by (rewrite length_fmap, length_app, length_drop; cbn; lia).
  cbn [mbind res_bind take app]. eexists. split; [done |]. cbn zeta.
  unfold holds, terminated. cbn [buffer buffer_used buffer_total].
  split; [eexists; split; [done |]; split; [| split] | split; [eexists; split; [done |] | done]].
  + rewrite fmap_app, <- app_assoc. by eexists.
  + rewrite length_drop. lia.
  + rewrite !length_app, length_take, length_drop, length_fmap, length_app, length_drop. cbn. lia.
  + by eexists.
Qed.

Lemma align_beyond b xs offset :
  holds b xs -> buffer_used b + 1 < offset < 2 ^ 63 -> tima_buffer_align b offset = UB.
Proof.
  intros (blk & Eb & Hh & Hu & Htot) Ho. pose proof (blk_holds_length _ _ Hh) as Hlen.
  unfold tima_buffer_align. rewrite Eb. cbn [of_option mbind res_bind].
  unfold blk_copy. rewrite decide_False; [done |].
  unfold wrap. replace (buffer_used b - offset + 1) with (buffer_used b - offset + 1 + 2 ^ 64 + (-1) * 2 ^ 64) by lia.
  rewrite Z.mod_add, Z.mod_small by lia. lia.
Qed.

(** Dropping from the front.  [tima_buffer_align] with an offset within the contents keeps
    exactly the bytes after it, terminator included; with an offset beyond the terminator the byte
    count wraps around and the move leaves the block. *)
Lemma tima_buffer_align_spec (b : TimaBuffer) (xs : list Z) (offset : Z)
    (Hb : holds b xs) (Ht : terminated b xs) (Hlo : 0 <= offset < 2 ^ 63) :
  (offset <= buffer_used b ->
    exists b', tima_buffer_align b offset = Ok b' /\
      let rest := drop (Z.to_nat offset) xs in
      holds b' rest /\ terminated b' rest /\ buffer_total b' = buffer_total b) /\
  (buffer_used b + 1 < offset -> tima_buffer_align b offset = UB).
Proof.
  split; intros Ho.
  - apply align_within; auto; [lia |]. destruct Hb as (blk & Eb & Hh & Hu & Htot).
    apply blk_holds_length in Hh. lia.
  - apply (align_beyond b xs); auto. lia.
Qed.

(** Offset just past the terminator: nothing moves and [buffer_used] becomes the largest [size_t]. *)
Lemma tima_buffer_align_wrap b xs :
  holds b xs -> terminated b xs -> buffer_used b < 2 ^ 63 ->
  exists b', tima_buffer_align b (buffer_used b + 1) = Ok b' /\ buffer_used b' = 2 ^ 64 - 1.
Proof.
  intros (blk & Eb & Hh & Hu & Htot) (blk' & Eb' & Ht) Hlt.
  rewrite Eb in Eb'. injection Eb' as <-.
  pose proof (blk_holds_length _ _ Ht) as Hlen. rewrite length_app in Hlen. cbn in Hlen.
  unfold tima_buffer_align. rewrite Eb. cbn [of_option mbind res_bind].
  replace (buffer_used b - (buffer_used b + 1)) with (-1) by lia. change (Z.to_nat (u64 (-1 + 1))) with 0%nat.
  unfold blk_copy. rewrite decide_True by lia. cbn [mbind res_bind]. rewrite take_0.
  unfold blk_store. rewrite decide_True by (cbn; lia). cbn. eauto.
Qed.

(** Appending with room, as the stream does. *)
Lemma strdup_append_room alloc b xs data after :
  holds b xs -> sized b -> data <> [] -> buffer_used b + Z.of_nat (length data) < buffer_total b ->
  buffer_used b + Z.of_nat (length data) < 2 ^ 31 ->
  exists b', tima_buffer_strdup alloc b (data ++ after) (Z.of_nat (length data)) true = Ok (Some 0, b') /\
    appended b b' xs data (buffer_total b).
Proof.
  intros Hh Hs Hne Hroom Hint. unfold tima_buffer_strdup.
  assert (0 < Z.of_nat (length data)) by (destruct data; [done | cbn [length]; lia]).
  rewrite (proj2 (Z.leb_gt _ _)) by lia.
  destruct (ensure_put_spec alloc b xs (data ++ after) (Z.of_nat (length data)) Hh Hs
    ltac:(rewrite length_app; lia) Hint) as [(_ & b' & -> & E & A) | (? & _)]; [| lia].
  cbn [mbind res_bind Z.eqb]. rewrite E. cbn [mbind res_bind].
  rewrite Nat2Z.id, take_app_length in A. eauto.
Qed.

(** C16.  Appending to a buffer and dropping from its front.  Appending copies the bytes after the used ones and terminates them: with room for the
    terminator the capacity stays, otherwise the block grows to at most one and a half times what is needed; a failed allocation returns NULL and leaves the buffer as
    it was, and when the new capacity is exactly the needed size the terminator is stored one byte past the block.  Dropping within the contents keeps exactly
    the bytes behind the offset, terminator included; beyond the terminator the byte count wraps around and the move leaves the block. *)
Theorem tima_buffer_append_drop (b : TimaBuffer) (xs : list Z) (Hb : holds b xs) :
  (forall alloc data length, sized b -> 0 <= length <= Z.of_nat (List.length data) -> buffer_used b + length < 2 ^ 31 ->
    let d := take (Z.to_nat length) data in
    let n := buffer_used b + length in
    (n < buffer_total b ->
      exists b', tima_buffer_strdup_ex alloc b data length = Ok (Some 0, b') /\ appended b b' xs d (buffer_total b)) /\
    (buffer_total b <= n -> exists need, n <= need /\ 2 * need <= 3 * n /\
      (alloc need = false -> tima_buffer_strdup_ex alloc b data length = Ok (None, b)) /\
      (alloc need = true -> n < need ->
        exists b', tima_buffer_strdup_ex alloc b data length = Ok (Some 0, b') /\ appended b b' xs d need) /\
      (alloc need = true -> n = need -> tima_buffer_strdup_ex alloc b data length = UB))) /\
  (forall offset, terminated b xs -> 0 <= offset < 2 ^ 63 ->
    (offset <= buffer_used b ->
      exists b', tima_buffer_align b offset = Ok b' /\
        let rest := drop (Z.to_nat offset) xs in
        holds b' rest /\ terminated b' rest /\ buffer_total b' = buffer_total b) /\
    (buffer_used b + 1 < offset -> tima_buffer_align b offset = UB)).
Proof.
  split.
  - intros alloc data length Hs Hl Hi. exact (tima_buffer_strdup_ex_outcome alloc b xs data length Hb Hs Hl Hi).
  - intros offset Ht Ho. exact (tima_buffer_align_spec b xs offset Hb Ht Ho).
Qed.

Lemma tima_buffer_append_drop_witness :
  tima_buffer_strdup_ex (fun _ => true) sample_buffer [7; 8; 9; 10] 4 = UB /\
  (exists b', tima_buffer_strdup_ex (fun _ => true) sample_buffer [7] 1 = Ok (Some 0, b') /\ appended sample_buffer b' [1; 2] [7] 4) /\
  exists b', tima_buffer_align sample_buffer 1 = Ok b' /\ holds b' [2].
Proof.
  destruct (tima_buffer_append_drop sample_buffer [1; 2] sample_holds) as [Ha Hd]. split; [vm_compute; reflexivity |]. split.
  - destruct (Ha (fun _ => true) [7] 1 ltac:(cbv; split; discriminate) ltac:(cbn; lia) ltac:(cbn; lia)) as [H _]. apply H. cbn. lia.
  - assert (Ht : terminated sample_buffer [1; 2]) by (eexists; split; [done |]; by exists [Some 0; Some 0]).
    destruct (Hd 1 Ht ltac:(lia)) as [H _]. destruct H as (b' & E & Hh & _); [cbn; lia |]. exists b'. split; [exact E | exact Hh].
Defined.
