(* ===== verification/RtmpPack.v ===== *)
(** * FLV tags in RTMP packets

    [mw/protocol/tima_rtmp_packager_h264.c], [tima_rtmp_packager_aac.c] (Modules [H264] and [Aac])
    and their client, [rtmp_data_pack] and [rtmp_meta_pack] of [mw/publish/rtmp_publish.c]
    (Section [publish]).  A packet is one calloc'd block: the [RTMPPacket] structure, then 18 bytes
    of header room and the body; [cells] are the bytes after the structure, whose size is librtmp's.
    [m_body] is an offset into [cells]. *)

From S2P Require Import Prelude H264.

Record RTMPPacket := MkPacket {
  m_headerType : Z;
  m_packetType : Z;
  m_hasAbsTimestamp : Z;
  m_nChannel : Z;
  m_nBodySize : Z;
  m_body : nat;
  cells : list Z
}.

Definition RTMP_MAX_HEADER_SIZE : nat := 18.
Definition RTMP_PACKET_SIZE_LARGE : Z := 0.
Definition RTMP_PACKET_SIZE_MEDIUM : Z := 1.
Definition RTMP_PACKET_TYPE_AUDIO : Z := 8.
Definition RTMP_PACKET_TYPE_VIDEO : Z := 9.

(** A packet as [calloc] leaves it, with [n] bytes after the structure. *)
Definition blank (n : nat) : RTMPPacket := MkPacket 0 0 0 0 0 0 (replicate n 0).

(** [*(body++) = c;] for each [c], each stored as a [char]. *)
Fixpoint emit (mem : list Z) (body : nat) (cs : list Z) : res (list Z * nat) :=
  match cs with
  | [] => Ok (mem, body)
  | c :: cs => mem ← blk_store body [u8 c] mem; emit mem (S body) cs
  end.

(** The operations of a packager object. *)
Record TimaRTMPPackager := MkPackager {
  body_len : Z -> res Z;
  meta_pack : RTMPPacket -> list Z -> Z -> res RTMPPacket;
  data_pack : RTMPPacket -> list Z -> Z -> res RTMPPacket
}.

Module H264.

Definition rtmp_body_length (length : Z) : res Z :=
  a ← int_op (length + 5); b ← int_op (a + 4); int_op (b + Z.of_nat RTMP_MAX_HEADER_SIZE).

Definition rtmp_data_pack (packet : RTMPPacket) (data : list Z) (length : Z) : res RTMPPacket :=
  let body := RTMP_MAX_HEADER_SIZE in
  a ← int_op (length + 5); size ← int_op (a + 4);
  d0 ← rd data 0;
  '(mem, body) ← emit (cells packet) body
    [(if Z.land d0 0x1f =? 0x05 then 0x17 else 0x27); 1; 0; 0; 0];
  '(mem, body) ← emit mem body
    [Z.land (Z.shiftr length 24) 255; Z.land (Z.shiftr length 16) 255;
     Z.land (Z.shiftr length 8) 255; Z.land length 255];
  mem ← memcpy mem body data 0 length;
  Ok (MkPacket RTMP_PACKET_SIZE_LARGE RTMP_PACKET_TYPE_VIDEO 0 0x04 (u32 size)
        RTMP_MAX_HEADER_SIZE mem).

(** [data] is a plain [char] array: the two bytes of the length are signed. *)
Definition rtmp_metadata (packet : RTMPPacket) (data : list Z) (length : Z) : res RTMPPacket :=
  let body := RTMP_MAX_HEADER_SIZE in
  size ← int_op (8 + length);
  '(mem, body) ← emit (cells packet) body [0x17; 0; 0; 0; 0];
  d5 ← rd data 5; d6 ← rd data 6; d7 ← rd data 7;
  '(mem, body) ← emit mem body [0x01; d5; d6; d7; 0xff];
  d2 ← rd data 2; d3 ← rd data 3;
  _ ← assert_ok (0 <=? schar d2);
  let len := Z.lor (Z.shiftl (schar d2) 8) (schar d3) in
  '(mem, body) ← emit mem body [0xe1];
  mem ← memcpy mem body data 2 (len + 2);
  body ← ptr_off (Z.of_nat body + (len + 2));
  '(mem, body) ← emit mem body [0x01];
  mem ← memcpy mem body data (len + 6) (length - len - 6);
  Ok (MkPacket RTMP_PACKET_SIZE_MEDIUM RTMP_PACKET_TYPE_VIDEO 0 0x04 (u32 size)
        RTMP_MAX_HEADER_SIZE mem).

Definition tima_h264_rtmp_create : TimaRTMPPackager :=
  MkPackager rtmp_body_length rtmp_metadata rtmp_data_pack.

End H264.

Module Aac.

Definition rtmp_body_length (length : Z) : res Z :=
  a ← int_op (length + 5); int_op (a + Z.of_nat RTMP_MAX_HEADER_SIZE).

Definition rtmp_data_pack (packet : RTMPPacket) (data : list Z) (length : Z) : res RTMPPacket :=
  let body := RTMP_MAX_HEADER_SIZE in
  size ← int_op (length - 5);
  '(mem, body) ← emit (cells packet) body [0xAF; 0x01];
  n ← int_op (length - 7);
  mem ← memcpy mem body data 7 n;
  Ok (MkPacket RTMP_PACKET_SIZE_MEDIUM RTMP_PACKET_TYPE_AUDIO 0 0x04 (u32 size)
        RTMP_MAX_HEADER_SIZE mem).

Definition rtmp_metadata (packet : RTMPPacket) (data : list Z) (length : Z) : res RTMPPacket :=
  let body := RTMP_MAX_HEADER_SIZE in
  size ← int_op (length + 2);
  '(mem, body) ← emit (cells packet) body [0xAF; 0x00];
  mem ← memcpy mem body data 0 length;
  Ok (MkPacket RTMP_PACKET_SIZE_LARGE RTMP_PACKET_TYPE_AUDIO 0 0x04 (u32 size)
        RTMP_MAX_HEADER_SIZE mem).

Definition tima_aac_rtmp_create : TimaRTMPPackager :=
  MkPackager rtmp_body_length rtmp_metadata rtmp_data_pack.

End Aac.

Section publish.
Context (alloc : Z -> bool) (sizeof_packet : Z).

(** [calloc(1, size)] with an [int] size, used as an [RTMPPacket]. *)
Definition calloc_packet (size : Z) : res (option RTMPPacket) :=
  if alloc (u64 size) then
    if sizeof_packet <=? u64 size then Ok (Some (blank (Z.to_nat (u64 size - sizeof_packet)))) else UB
  else Ok None.

Definition rtmp_data_pack (packager : TimaRTMPPackager) (data : list Z) (length : Z)
    : res (option RTMPPacket) :=
  n ← body_len packager length;
  let size := i32 (u64 (sizeof_packet + u64 n)) in
  packet ← calloc_packet size;
  match packet with
  | None => Ok None
  | Some packet => Some <$> data_pack packager packet data length
  end.

Definition rtmp_meta_pack (packager : TimaRTMPPackager) (data : list Z) (length : Z)
    : res (option RTMPPacket) :=
  let size := i32 (u64 (u64 (u64 (sizeof_packet + u64 length) + 8) + Z.of_nat RTMP_MAX_HEADER_SIZE)) in
  packet ← calloc_packet size;
  match packet with
  | None => Ok None
  | Some packet => Some <$> meta_pack packager packet data length
  end.

End publish.

(** ** Sequential writes *)

Lemma emit_at pre rest cs :
  (length cs <= length rest)%nat ->
  emit (pre ++ rest) (length pre) cs
  = Ok ((pre ++ map u8 cs) ++ drop (length cs) rest, (length pre + length cs)%nat).
Proof.
  revert pre rest; induction cs as [| c cs IH]; intros pre rest Hl.
  - by rewrite app_nil_r, drop_0, Nat.add_0_r.
  - destruct rest as [| r rest]; [cbn in Hl; lia |]. cbn [emit].
    change (r :: rest) with ([r] ++ rest). rewrite blk_store_app by done.
    cbn [mbind res_bind]. replace (S (length pre)) with (length (pre ++ [u8 c]))
      by (rewrite length_app; cbn; lia).
    rewrite app_assoc, IH by (cbn in Hl; lia).
    rewrite <- (app_assoc pre [u8 c]), length_app. cbn [length map app]. rewrite <- Nat.add_assoc. done.
Qed.

(** The memory while a body is written: the header room [pre], the bytes [out] written so far, and
    the [rest] still to come. *)
Lemma emit_step pre out rest cs :
  (length cs <= length rest)%nat ->
  emit (pre ++ out ++ rest) (length pre + length out) cs
  = Ok (pre ++ (out ++ map u8 cs) ++ drop (length cs) rest, (length pre + length (out ++ map u8 cs))%nat).
Proof.
  intros Hl. rewrite <- (length_app pre out), app_assoc, emit_at by done.
  rewrite !length_app, length_map, <- !app_assoc. by rewrite Nat.add_assoc.
Qed.

Lemma memcpy_step (pre out rest src : list Z) off n :
  0 <= off -> 0 <= n -> off + n <= Z.of_nat (length src) -> n <= Z.of_nat (length rest) ->
  memcpy (pre ++ out ++ rest) (length pre + length out) src off n
  = Ok (pre ++ (out ++ take (Z.to_nat n) (drop (Z.to_nat off) src)) ++ drop (Z.to_nat n) rest).
Proof.
  intros Ho Hn Hs Hr. set (bytes := take (Z.to_nat n) (drop (Z.to_nat off) src)).
  assert (Hb : length bytes = Z.to_nat n) by (unfold bytes; rewrite length_take, length_drop; lia).
  rewrite <- (length_app pre out), app_assoc.
  rewrite <- (take_drop (Z.to_nat n) rest) at 1.
  rewrite (memcpy_app _ _ _ _ bytes); [by rewrite <- !app_assoc | rewrite length_take; lia | done | lia | | lia].
  by rewrite Hb.
Qed.

Lemma memcpy_neg {A} (dst : list A) pos src off n : n < 0 -> memcpy dst pos src off n = UB.
Proof.
  intros. unfold memcpy, ptr_off. rewrite (proj2 (Z.leb_gt 0 n)) by done.
  by destruct (0 <=? off).
Qed.

(** The bytes librtmp sends: [m_nBodySize] bytes from [m_body]. *)
Definition body (packet : RTMPPacket) : list Z :=
  take (Z.to_nat (m_nBodySize packet)) (drop (m_body packet) (cells packet)).

Definition be32 (z : Z) : list Z :=
  [Z.land (Z.shiftr z 24) 255; Z.land (Z.shiftr z 16) 255; Z.land (Z.shiftr z 8) 255; Z.land z 255].

Lemma u8_land z : u8 (Z.land z 255) = Z.land z 255.
Proof. rewrite land_255. unfold wrap. change (2 ^ 8) with 256. by rewrite Z.mod_mod by lia. Qed.

Lemma head_room (cs : list Z) n :
  (RTMP_MAX_HEADER_SIZE + n <= length cs)%nat ->
  exists pre rest, cs = pre ++ [] ++ rest /\ RTMP_MAX_HEADER_SIZE = (length pre + 0)%nat /\
    (n <= length rest)%nat.
Proof.
  intros H. exists (take RTMP_MAX_HEADER_SIZE cs), (drop RTMP_MAX_HEADER_SIZE cs).
  cbn [app]. rewrite take_drop, length_take, length_drop. split; [done | lia].
Qed.

(** Reading back what was written after the header room. *)
Lemma body_written pre out rest ht pt ha ch :
  body (MkPacket ht pt ha ch (Z.of_nat (length out)) (length pre + 0) (pre ++ out ++ rest)) = out.
Proof.
  unfold body. cbn [m_nBodySize m_body cells].
  by rewrite Nat.add_0_r, drop_app_length, Nat2Z.id, take_app_length.
Qed.

(** ** What a packager promises its client

    [tag data] is the FLV tag of a frame; [min] the shortest frame the packager accepts; [after] is
    the memory behind the frame, which the packager leaves unread. *)
Class Packages (p : TimaRTMPPackager) (min : nat) (tag : list Z -> list Z) := {
  body_len_spec data :
    Z.of_nat (length data) <= 2 ^ 30 ->
    exists n, body_len p (Z.of_nat (length data)) = Ok n /\
      ((min <= length data)%nat -> Z.of_nat (RTMP_MAX_HEADER_SIZE + length (tag data)) <= n) /\
      0 <= n <= Z.of_nat (length data) + 32;
  data_pack_spec data after packet :
    (min <= length data)%nat -> Z.of_nat (length data) <= 2 ^ 30 ->
    (RTMP_MAX_HEADER_SIZE + length (tag data) <= length (cells packet))%nat ->
    exists packet', data_pack p packet (data ++ after) (Z.of_nat (length data)) = Ok packet' /\
      body packet' = tag data /\ m_nBodySize packet' = Z.of_nat (length (tag data)) /\
      m_body packet' = RTMP_MAX_HEADER_SIZE /\ length (cells packet') = length (cells packet)
}.

Definition h264_tag (data : list Z) : list Z :=
  [(if Z.land (hd 0 data) 0x1f =? 5 then 0x17 else 0x27); 1; 0; 0; 0] ++
  be32 (Z.of_nat (length data)) ++ data.

Definition aac_tag (data : list Z) : list Z := [0xAF; 1] ++ drop 7 data.

Ltac int_ops := repeat (rewrite int_op_in by (unfold INT_MIN, INT_MAX; lia); cbn [mbind res_bind]).

#[export] Instance h264_packages : Packages H264.tima_h264_rtmp_create 1 h264_tag.
Proof.
  split.
  - intros data Hd. cbn [body_len H264.tima_h264_rtmp_create]. unfold H264.rtmp_body_length.
    unfold RTMP_MAX_HEADER_SIZE. int_ops.
    eexists. split; [done |]. unfold h264_tag. rewrite !length_app. cbn [length be32]. lia.
  - intros data after packet Hm Hd Hc. cbn [data_pack H264.tima_h264_rtmp_create].
    unfold H264.rtmp_data_pack. int_ops.
    destruct data as [| d0 data]; [cbn in Hm; lia |]. set (data' := d0 :: data) in *.
    change (rd (data' ++ after) 0) with (Ok d0). cbn [mbind res_bind].
    destruct (head_room _ _ Hc) as (pre & rest & E & Hp & Hr).
    unfold h264_tag in Hr. rewrite !length_app in Hr. cbn [length be32] in Hr.
    rewrite E, Hp, (emit_step pre []) by (cbn [length]; lia). cbn [mbind res_bind].
    rewrite emit_step by (cbn [length]; rewrite length_drop; lia). cbn [mbind res_bind].
    rewrite memcpy_step by (cbn [length]; rewrite ?length_drop, ?length_app; lia). cbn [mbind res_bind].
    rewrite Nat2Z.id, drop_0, take_app_length, wrap_small by lia.
    set (out := _ ++ data') at 1. set (rest' := drop _ _).
    assert (T : out = h264_tag data').
    { unfold out. cbn [map]. rewrite !u8_land. unfold h264_tag. cbn [hd data'].
      by destruct (_ =? 5). }
    clearbody out. subst out.
    replace (Z.of_nat (length data') + 5 + 4) with (Z.of_nat (length (h264_tag data')))
      by (unfold h264_tag; rewrite !length_app; cbn [length be32]; lia).
    eexists. split; [done |]. rewrite body_written. cbn [m_nBodySize m_body cells].
    split_and!; [done | done | done |].
    rewrite !length_app. unfold rest', h264_tag. rewrite !length_drop, !length_app. cbn [length be32]. lia.
Qed.

#[export] Instance aac_packages : Packages Aac.tima_aac_rtmp_create 7 aac_tag.
Proof.
  split.
  - intros data Hd. cbn [body_len Aac.tima_aac_rtmp_create]. unfold Aac.rtmp_body_length.
    unfold RTMP_MAX_HEADER_SIZE. int_ops.
    eexists. split; [done |]. unfold aac_tag. rewrite length_app, length_drop. cbn [length]. lia.
  - intros data after packet Hm Hd Hc. cbn [data_pack Aac.tima_aac_rtmp_create].
    unfold Aac.rtmp_data_pack. int_ops.
    destruct (head_room _ _ Hc) as (pre & rest & E & Hp & Hr).
    unfold aac_tag in Hr. rewrite length_app, length_drop in Hr. cbn [length] in Hr.
    rewrite E, Hp, (emit_step pre []) by (cbn [length]; lia). cbn [mbind res_bind]. int_ops.
    rewrite memcpy_step by (rewrite ?length_drop, ?length_app; cbn [length]; lia). cbn [mbind res_bind].
    rewrite wrap_small, drop_app_le by lia. rewrite (take_app_length' (drop _ data)) by (rewrite length_drop; lia).
    change ([] ++ map u8 [175; 1]) with [175; 1]. fold (aac_tag data).
    replace (Z.of_nat (length data) - 5) with (Z.of_nat (length (aac_tag data)))
      by (unfold aac_tag; rewrite length_app, length_drop; cbn [length]; lia).
    eexists. split; [done |]. rewrite body_written. cbn [m_nBodySize m_body cells].
    split_and!; [done | done | done |].
    unfold aac_tag. repeat rewrite ?length_app, ?length_drop. cbn [length]. lia.
Qed.

(** ** The client: packets of the media stream *)

Lemma calloc_packet_Ok alloc sizeof_packet size :
  0 <= sizeof_packet <= size -> size < 2 ^ 31 ->
  calloc_packet alloc sizeof_packet size =
    Ok (if alloc size then Some (blank (Z.to_nat (size - sizeof_packet))) else None).
Proof.
  intros H1 H2. unfold calloc_packet. rewrite wrap_small by lia.
  destruct (alloc size); [| done]. by rewrite (proj2 (Z.leb_le _ _)) by lia.
Qed.

(** Packing a frame, for every packager that keeps the interface's promises. *)
Lemma data_pack_ok (p : TimaRTMPPackager) (min : nat) (tag : list Z -> list Z) `{HP : !Packages p min tag}
    alloc sizeof_packet data after :
  0 <= sizeof_packet <= 2 ^ 16 -> (min <= length data)%nat -> Z.of_nat (length data) <= 2 ^ 30 ->
  exists size, (forall n, body_len p (Z.of_nat (length data)) = Ok n -> size = sizeof_packet + n) /\
    ((alloc size = false /\
     rtmp_data_pack alloc sizeof_packet p (data ++ after) (Z.of_nat (length data)) = Ok None) \/
    (alloc size = true /\ exists packet,
     rtmp_data_pack alloc sizeof_packet p (data ++ after) (Z.of_nat (length data)) = Ok (Some packet) /\
     body packet = tag data /\ m_nBodySize packet = Z.of_nat (length (tag data)))).
Proof.
  intros Hsz Hmin Hlen. unfold rtmp_data_pack. destruct (body_len_spec data Hlen) as (n & -> & Hroom & Hn).
  specialize (Hroom Hmin). cbn [mbind res_bind]. exists (sizeof_packet + n). split; [by intros m [= <-] |].
  rewrite (wrap_small 64 n), wrap_small, swrap_small by lia. rewrite calloc_packet_Ok by lia. cbn [mbind res_bind].
  destruct (alloc (sizeof_packet + n)) eqn:Ha; cbv iota; [right | by left]. split; [done |].
  destruct (data_pack_spec data after (blank (Z.to_nat (sizeof_packet + n - sizeof_packet))) Hmin Hlen)
    as (packet & -> & Hb & Hs & _).
  - cbn [cells blank]. rewrite length_replicate. lia.
  - exists packet. done.
Qed.

(** What kind of packet comes out. *)
Lemma data_pack_type alloc sizeof_packet p kind data length packet : (forall pk pk', data_pack p pk data length = Ok pk' -> m_packetType pk' = kind) ->
  rtmp_data_pack alloc sizeof_packet p data length = Ok (Some packet) -> m_packetType packet = kind.
Proof.
  intros Hk. unfold rtmp_data_pack. intros (n & _ & (pk & _ & H)%bind_Ok_inv)%bind_Ok_inv. destruct pk as [pk |]; [| done].
  destruct (data_pack p pk data length) as [pk' | |] eqn:E; [| done..]. injection H as <-. by apply (Hk pk).
Qed.

Lemma h264_type pk pk' data length : H264.rtmp_data_pack pk data length = Ok pk' -> m_packetType pk' = RTMP_PACKET_TYPE_VIDEO.
Proof.
  unfold H264.rtmp_data_pack. intros (a & _ & (b & _ & (c & _ & ([m1 b1] & _ & ([m2 b2] & _ & (m3 & _ & [= <-])%bind_Ok_inv)%bind_Ok_inv)%bind_Ok_inv)%bind_Ok_inv)%bind_Ok_inv)%bind_Ok_inv. done.
Qed.

Lemma aac_type pk pk' data length : Aac.rtmp_data_pack pk data length = Ok pk' -> m_packetType pk' = RTMP_PACKET_TYPE_AUDIO.
Proof.
  unfold Aac.rtmp_data_pack. intros (a & _ & ([m1 b1] & _ & (n & _ & (m2 & _ & [= <-])%bind_Ok_inv)%bind_Ok_inv)%bind_Ok_inv)%bind_Ok_inv. done.
Qed.

Lemma aac_data_short packet data after :
  (length data < 7)%nat -> Aac.rtmp_data_pack packet (data ++ after) (Z.of_nat (length data)) = UB.
Proof.
  intros Hd. unfold Aac.rtmp_data_pack. int_ops.
  destruct (emit (cells packet) RTMP_MAX_HEADER_SIZE [175; 1]) as [[mem body] | |] eqn:E; cbn [mbind res_bind].
  - int_ops. by rewrite memcpy_neg by lia.
  - done.
  - exfalso. revert E. cbn [emit]. unfold blk_store.
    repeat (case_decide; cbn [mbind res_bind]; [| done]). done.
Qed.

(** C24.  Packing a frame, by both packagers of the program.  The H.264 packager makes of a unit of at least one byte one video packet, inside the
    bounds of its block, whose body is exactly the FLV tag: 0x17 for a unit of type 5 and 0x27 for the others, 1, a composition time of 0, the
    length in four bytes and the unit.  The AAC packager makes of an ADTS frame of at least seven bytes an audio packet whose body is 0xAF, 1 and
    the frame without its seven bytes of header; a shorter frame is undefined.  What lies behind the frame does not matter, and a failed
    allocation gives NULL. *)
Theorem rtmp_data_pack_tag (alloc : Z -> bool) (sizeof_packet : Z) (data after : list Z)
    (Hsz : 0 <= sizeof_packet <= 2 ^ 16) (Hlen : Z.of_nat (length data) <= 2 ^ 30) :
  let n := Z.of_nat (length data) in
  (forall d0 rest, data = d0 :: rest ->
     if alloc (sizeof_packet + (n + 27)) then
       exists packet, rtmp_data_pack alloc sizeof_packet H264.tima_h264_rtmp_create (data ++ after) n = Ok (Some packet) /\
         m_packetType packet = RTMP_PACKET_TYPE_VIDEO /\ m_nBodySize packet = n + 9 /\
         body packet = [(if Z.land d0 0x1f =? 5 then 0x17 else 0x27); 1; 0; 0; 0] ++ be32 n ++ data
     else rtmp_data_pack alloc sizeof_packet H264.tima_h264_rtmp_create (data ++ after) n = Ok None) /\
  (forall header raw, data = header ++ raw -> length header = 7%nat ->
     if alloc (sizeof_packet + (n + 23)) then
       exists packet, rtmp_data_pack alloc sizeof_packet Aac.tima_aac_rtmp_create (data ++ after) n = Ok (Some packet) /\
         m_packetType packet = RTMP_PACKET_TYPE_AUDIO /\ m_nBodySize packet = n - 5 /\ body packet = [0xAF; 1] ++ raw
     else rtmp_data_pack alloc sizeof_packet Aac.tima_aac_rtmp_create (data ++ after) n = Ok None) /\
  (n < 7 -> alloc (sizeof_packet + (n + 23)) = true -> rtmp_data_pack alloc sizeof_packet Aac.tima_aac_rtmp_create (data ++ after) n = UB).
Proof.
  intros n. split_and!.
  - intros d0 rest E. assert (Hm : (1 <= length data)%nat) by (rewrite E; cbn; lia).
    destruct (data_pack_ok H264.tima_h264_rtmp_create 1 h264_tag alloc sizeof_packet data after Hsz Hm Hlen) as (size & Hs & H). fold n in Hs, H.
    rewrite (Hs (n + 27)) in H by (cbn [body_len H264.tima_h264_rtmp_create]; unfold H264.rtmp_body_length, RTMP_MAX_HEADER_SIZE; int_ops; f_equal; lia).
    destruct H as [(-> & ->) | (-> & packet & Ep & Hb & Hz)]; [done |]. exists packet. split; [done |]. split; [| split].
    + eapply data_pack_type; [| exact Ep]. intros pk pk'. apply h264_type.
    + rewrite Hz. unfold h264_tag, n. rewrite !length_app. cbn [length be32]. lia.
    + rewrite Hb. unfold h264_tag, n. by rewrite E.
  - intros header raw E Hh. assert (Hm : (7 <= length data)%nat) by (rewrite E, length_app; lia).
    destruct (data_pack_ok Aac.tima_aac_rtmp_create 7 aac_tag alloc sizeof_packet data after Hsz Hm Hlen) as (size & Hs & H). fold n in Hs, H.
    rewrite (Hs (n + 23)) in H by (cbn [body_len Aac.tima_aac_rtmp_create]; unfold Aac.rtmp_body_length, RTMP_MAX_HEADER_SIZE; int_ops; f_equal; lia).
    assert (T : aac_tag data = [0xAF; 1] ++ raw) by (unfold aac_tag; rewrite E, drop_app_length'; done).
    destruct H as [(-> & ->) | (-> & packet & Ep & Hb & Hz)]; [done |]. exists packet. split; [done |]. split; [| split; [| congruence]].
    + eapply data_pack_type; [| exact Ep]. intros pk pk'. apply aac_type.
    + rewrite Hz, T. unfold n. rewrite E, !length_app, Hh. cbn [length]. lia.
  - intros Hn Ha. unfold rtmp_data_pack. cbn [body_len Aac.tima_aac_rtmp_create]. unfold Aac.rtmp_body_length. change (Z.of_nat RTMP_MAX_HEADER_SIZE) with 18. int_ops.
    rewrite (wrap_small 64 (n + 5 + 18)), wrap_small, swrap_small by lia. rewrite calloc_packet_Ok by lia. cbn [mbind res_bind].
    replace (sizeof_packet + (n + 5 + 18)) with (sizeof_packet + (n + 23)) by lia. rewrite Ha. cbn [data_pack Aac.tima_aac_rtmp_create].
    unfold n. by rewrite aac_data_short by lia.
Qed.

Lemma rtmp_data_pack_tag_witness :
  (exists packet, rtmp_data_pack (fun _ => true) 64 Aac.tima_aac_rtmp_create [1;2;3;4;5;6;7;8;9] 9
     = Ok (Some packet) /\ body packet = [0xAF; 1; 8; 9]) /\
  (exists packet, rtmp_data_pack (fun _ => true) 64 H264.tima_h264_rtmp_create [0x65; 1] 2
     = Ok (Some packet) /\ body packet = [0x17; 1; 0; 0; 0; 0; 0; 0; 2; 0x65; 1]).
Proof.
  split.
  - destruct (proj1 (proj2 (rtmp_data_pack_tag (fun _ => true) 64 [1;2;3;4;5;6;7;8;9] []
      ltac:(lia) ltac:(cbn; lia))) [1;2;3;4;5;6;7] [8;9] eq_refl eq_refl) as (packet & E & _ & _ & B).
    exists packet. split; [exact E | exact B].
  - destruct (proj1 (rtmp_data_pack_tag (fun _ => true) 64 [0x65; 1] [] ltac:(lia) ltac:(cbn; lia)) 0x65 [1] eq_refl) as (packet & E & _ & _ & B).
    exists packet. split; [exact E | exact B].
Defined.

(** ** The decoder configuration *)

(** An AVC sequence header: the tag prefix, then an AVCDecoderConfigurationRecord with one SPS and
    one PPS. *)
Definition avc_config (sps pps : list Z) : list Z :=
  [0x17; 0; 0; 0; 0] ++
  [0x01; nth 1 sps 0; nth 2 sps 0; nth 3 sps 0; 0xff; 0xe1] ++
  (be16 (Z.of_nat (length sps)) ++ sps) ++ [0x01] ++ (be16 (Z.of_nat (length pps)) ++ pps).

Lemma lor_schar_neg d b : 128 <= b < 256 -> Z.lor (Z.shiftl d 8) (b - 256) = b - 256.
Proof.
  intros Hb. apply Z.bits_inj'. intros n Hn. rewrite Z.lor_spec.
  destruct (Z.lt_ge_cases n 8) as [H | H].
  - by rewrite Z.shiftl_spec_low.
  - replace (b - 256) with (Z.lnot (255 - b)) by (unfold Z.lnot; lia).
    rewrite Z.lnot_spec by lia. rewrite (Z.bits_above_log2 (255 - b)); [by rewrite orb_true_r | lia |].
    destruct (decide (255 - b = 0)) as [-> |]; [cbn; lia |].
    apply Z.log2_lt_pow2; [lia |]. apply Z.lt_le_trans with (2 ^ 8); [lia |].
    apply Z.pow_le_mono_r; lia.
Qed.

Lemma meta_layout_length sps pps :
  length (meta_layout sps pps) = (length sps + length pps + 8)%nat.
Proof. unfold meta_layout. rewrite !length_app, !be16_length. cbn [length]. lia. Qed.

(** The SPS length [rtmp_metadata] computes from its two signed bytes. *)
Definition signed_len (n : Z) : Z := Z.lor (Z.shiftl (schar (n / 256)) 8) (schar (n mod 256)).

Lemma signed_len_small n : 0 <= n < 32768 -> n mod 256 < 128 -> signed_len n = n.
Proof.
  intros H1 H2. unfold signed_len, schar.
  assert (n / 256 < 128) by (apply Z.div_lt_upper_bound; lia).
  rewrite !(proj2 (Z.ltb_lt _ _)) by done.
  pose proof (Z.mod_pos_bound n 256 ltac:(lia)).
  rewrite lor_shiftl_8, Z.mul_comm by lia. symmetry. apply Z.div_mod. lia.
Qed.

Lemma signed_len_neg n : 0 <= n < 32768 -> 128 <= n mod 256 -> signed_len n = n mod 256 - 256.
Proof.
  intros H1 H2. unfold signed_len, schar. rewrite (proj2 (Z.ltb_ge _ _) H2).
  pose proof (Z.mod_pos_bound n 256 ltac:(lia)). apply lor_schar_neg; lia.
Qed.

(** The prefix both branches share: everything up to the copy of the SPS. *)
Definition config_head (s0 s1 s2 s3 : Z) : list Z := [0x17; 0; 0; 0; 0; 0x01; s1; s2; s3; 0xff; 0xe1].

Lemma rtmp_metadata_head packet s0 s1 s2 s3 sps pps pre rest length :
  let sps' := s0 :: s1 :: s2 :: s3 :: sps in
  let data := meta_layout sps' pps in
  let n := Z.of_nat (List.length sps') in
  Forall is_byte [s0; s1; s2; s3] -> n < 32768 -> 0 <= length <= 2 ^ 30 ->
  cells packet = pre ++ [] ++ rest -> RTMP_MAX_HEADER_SIZE = (List.length pre + 0)%nat ->
  (11 <= List.length rest)%nat ->
  let out := config_head s0 s1 s2 s3 in
  H264.rtmp_metadata packet data length =
    (mem ← memcpy (pre ++ out ++ drop 11 rest) (List.length pre + 11) data 2 (signed_len n + 2);
     body ← ptr_off (Z.of_nat (List.length pre + 11) + (signed_len n + 2));
     '(mem, body) ← emit mem body [0x01];
     mem ← memcpy mem body data (signed_len n + 6) (length - signed_len n - 6);
     Ok (MkPacket RTMP_PACKET_SIZE_MEDIUM RTMP_PACKET_TYPE_VIDEO 0 0x04 (u32 (8 + length))
           (List.length pre + 0) mem)).
Proof.
  intros sps' data n Hb Hn Hl Hcells Hpre Hrest out.
  apply Forall_cons_1 in Hb as [_ Hb]. apply Forall_cons_1 in Hb as [H1 Hb].
  apply Forall_cons_1 in Hb as [H2 Hb]. apply Forall_cons_1 in Hb as [H3 _].
  unfold is_byte in *. unfold H264.rtmp_metadata. rewrite Hpre, Hcells. int_ops.
  rewrite (emit_step pre []) by (cbn [List.length]; lia). cbn [mbind res_bind].
  change (rd data 5) with (Ok s1). change (rd data 6) with (Ok s2). change (rd data 7) with (Ok s3).
  cbn [mbind res_bind].
  rewrite emit_step by (cbn [List.length]; rewrite length_drop; lia). cbn [mbind res_bind].
  change (rd data 2) with (Ok (Z.land (Z.shiftr n 8) 255)).
  change (rd data 3) with (Ok (Z.land n 255)). cbn [mbind res_bind].
  rewrite !land_255, shiftr_8, (Z.mod_small (n / 256)).
  2:{ split; [apply Z.div_pos; lia | apply Z.div_lt_upper_bound; lia]. }
  assert (Hhi : schar (n / 256) = n / 256).
  { unfold schar. rewrite (proj2 (Z.ltb_lt _ _)); [done |]. apply Z.div_lt_upper_bound; lia. }
  rewrite Hhi at 1. rewrite (proj2 (Z.leb_le 0 (n / 256))) by (apply Z.div_pos; lia).
  cbn [assert_ok mbind res_bind]. fold (signed_len n).
  rewrite emit_step by (cbn [List.length]; rewrite !length_drop; lia). cbn [mbind res_bind].
  rewrite !drop_drop. cbn [map app List.length Nat.add].
  rewrite !(wrap_small 8) by lia. reflexivity.
Qed.

Lemma rtmp_metadata_ok packet (s0 s1 s2 s3 : Z) (sps pps : list Z) :
  Forall is_byte [s0; s1; s2; s3] -> Z.of_nat (length sps) + 4 < 32768 -> Z.of_nat (length pps) < 65536 ->
  let sps' := s0 :: s1 :: s2 :: s3 :: sps in
  let data := meta_layout sps' pps in
  let n := Z.of_nat (length data) in
  length (cells packet) = (RTMP_MAX_HEADER_SIZE + 8 + length data)%nat ->
  Z.of_nat (length sps') mod 256 < 128 ->
  exists packet', H264.rtmp_metadata packet data n = Ok packet' /\
    body packet' = avc_config sps' pps /\
    m_nBodySize packet' = Z.of_nat (length (avc_config sps' pps)) /\
    length (cells packet') = (RTMP_MAX_HEADER_SIZE + length (avc_config sps' pps))%nat.
Proof.
  intros Hb Hsps Hpps sps' data n Hc Hmod.
  destruct (head_room (cells packet) (8 + length data)) as (pre & rest & E & Hp & Hr); [lia |].
  assert (Hd : length data = (length sps' + length pps + 8)%nat) by apply meta_layout_length.
  assert (Hs : length sps' = (length sps + 4)%nat) by (unfold sps'; cbn [length]; lia).
  assert (Hrest : length rest = (8 + length data)%nat) by (rewrite E, !length_app in Hc; cbn [length] in Hc; lia).
  assert (Hn : Z.of_nat (length sps') < 32768 /\ 0 <= n <= 2 ^ 30) by (unfold n; lia).
  pose proof (rtmp_metadata_head packet s0 s1 s2 s3 sps pps pre rest n Hb (proj1 Hn) (proj2 Hn) E Hp
    ltac:(lia)) as R.
  set (out := config_head s0 s1 s2 s3) in R. cbv zeta in R. fold sps' in R. fold data in R. rewrite R.
  clear R. change (length pre + 11)%nat with (length pre + length out)%nat. 
  rewrite signed_len_small by lia.
  rewrite memcpy_step by (rewrite ?length_drop; lia). cbn [mbind res_bind].
  rewrite ptr_off_Ok by lia. cbn [mbind res_bind].
  set (sps_entry := take _ _).
  assert (Es : sps_entry = be16 (Z.of_nat (length sps')) ++ sps').
  { unfold sps_entry, data, meta_layout. change (Z.to_nat 2) with 2%nat. cbn [drop app].
    rewrite app_comm_cons, app_assoc. change (?a :: ?l ++ sps') with ((a :: l) ++ sps').
    apply take_app_length'. rewrite length_app, be16_length. lia. }
  clearbody sps_entry. subst sps_entry.
  replace (Z.to_nat (Z.of_nat (length pre + length out) + (Z.of_nat (length sps') + 2)))
    with (length pre + length (out ++ be16 (Z.of_nat (length sps')) ++ sps'))%nat
    by (rewrite !length_app, be16_length; lia).
  rewrite emit_step by (rewrite ?length_drop; cbn [length]; lia). cbn [mbind res_bind].
  rewrite memcpy_step by (rewrite ?length_drop; cbn [length]; lia). cbn [mbind res_bind].
  set (pps_entry := take _ _).
  assert (Ep : pps_entry = be16 (Z.of_nat (length pps)) ++ pps).
  { unfold pps_entry, data, meta_layout.
    replace (Z.to_nat (Z.of_nat (length sps') + 6))
      with (length (([0; 0] ++ be16 (Z.of_nat (length sps')) ++ sps') ++ [0; 0]))
      by (rewrite !length_app, be16_length; cbn [length]; lia).
    rewrite !app_assoc, <- (app_assoc _ _ pps), drop_app_length.
    apply take_ge. rewrite length_app, be16_length. lia. }
  clearbody pps_entry. subst pps_entry. set (o := _ ++ be16 (Z.of_nat (length pps)) ++ pps) at 1.
  assert (Eo : o = avc_config sps' pps).
  { unfold o, avc_config, out. rewrite <- !app_assoc. done. }
  clearbody o. subst o. rewrite wrap_small by lia.
  assert (La : length (avc_config sps' pps) = (8 + length data)%nat).
  { unfold avc_config. rewrite !length_app, !be16_length. cbn [length]. lia. }
  replace (8 + n) with (Z.of_nat (length (avc_config sps' pps))) by lia.
  eexists. split; [done |]. rewrite body_written. cbn [m_nBodySize cells]. split_and!; [done | done |].
  rewrite !length_app, !length_drop, La. cbn [length]. lia.
Qed.

(** The decoder configuration.  From the metadata block [h264_metadata_get] builds, the H.264
    packager produces exactly the AVC sequence header of the two parameter sets, filling the block
    [rtmp_meta_pack] allocates, when the low byte of the SPS length is below 128.  The length is read
    through signed [char]s, so for the other lengths (up to 253) the copy gets a negative count. *)
Theorem rtmp_metadata_config (packet : RTMPPacket) (s0 s1 s2 s3 : Z) (sps pps : list Z)
    (Hb : Forall is_byte [s0; s1; s2; s3])
    (Hsps : Z.of_nat (length sps) + 4 < 32768) (Hpps : Z.of_nat (length pps) < 65536) :
  let sps' := s0 :: s1 :: s2 :: s3 :: sps in
  let data := meta_layout sps' pps in
  let n := Z.of_nat (length data) in
  length (cells packet) = (RTMP_MAX_HEADER_SIZE + 8 + length data)%nat ->
  (Z.of_nat (length sps') mod 256 < 128 ->
    exists packet', H264.rtmp_metadata packet data n = Ok packet' /\
      body packet' = avc_config sps' pps /\
      m_nBodySize packet' = Z.of_nat (length (avc_config sps' pps)) /\
      length (cells packet') = (RTMP_MAX_HEADER_SIZE + length (avc_config sps' pps))%nat) /\
  (128 <= Z.of_nat (length sps') mod 256 < 254 -> H264.rtmp_metadata packet data n = UB).
Proof.
  intros sps' data n Hc. split; [by apply rtmp_metadata_ok |]. intros Hmod.
  destruct (head_room (cells packet) (8 + length data)) as (pre & rest & E & Hp & Hr); [lia |].
  assert (Hd : length data = (length sps' + length pps + 8)%nat) by apply meta_layout_length.
  assert (Hs : length sps' = (length sps + 4)%nat) by (unfold sps'; cbn [length]; lia).
  assert (Hn : Z.of_nat (length sps') < 32768 /\ 0 <= n <= 2 ^ 30) by (unfold n; lia).
  pose proof (rtmp_metadata_head packet s0 s1 s2 s3 sps pps pre rest n Hb (proj1 Hn) (proj2 Hn) E Hp
    ltac:(lia)) as R.
  cbv zeta in R. fold sps' in R. fold data in R. rewrite R.
  rewrite signed_len_neg by lia. rewrite memcpy_neg by lia. done.
Qed.

Lemma rtmp_metadata_config_witness :
  H264.rtmp_metadata (blank (26 + 142)) (meta_layout (0x67 :: 66 :: 0 :: 30 :: replicate 126 1) [0x68; 2; 3; 4]) 142
  = UB /\
  exists packet', H264.rtmp_metadata (blank 41) (meta_layout sample_sps sample_pps) 15 = Ok packet' /\
    body packet' = [0x17; 0; 0; 0; 0; 1; 66; 0; 30; 0xff; 0xe1; 0; 4; 0x67; 66; 0; 30; 1; 0; 3; 0x68; 206; 60].
Proof.
  assert (Hb : Forall is_byte [0x67; 66; 0; 30]) by by_decide.
  split.
  - apply (rtmp_metadata_config (blank 168) 0x67 66 0 30 (replicate 126 1) [0x68; 2; 3; 4] Hb);
      [cbn; lia | cbn; lia | reflexivity | split; vm_compute; [discriminate | reflexivity]].
  - destruct (rtmp_metadata_config (blank 41) 0x67 66 0 30 [] sample_pps Hb) as [H _];
      [cbn; lia | cbn; lia | reflexivity |].
    destruct H as (p & E & B & _); [vm_compute; reflexivity |].
    exists p. split; [exact E | exact B].
Defined.

(** The allocation of [rtmp_meta_pack] fits it exactly. *)
Lemma meta_pack_h264 alloc sizeof_packet (s0 s1 s2 s3 : Z) (sps pps : list Z) :
  Forall is_byte [s0; s1; s2; s3] -> Z.of_nat (length sps) + 4 < 32768 -> Z.of_nat (length pps) < 65536 ->
  (forall n, alloc n = true) -> 0 <= sizeof_packet <= 2 ^ 16 ->
  let sps' := s0 :: s1 :: s2 :: s3 :: sps in
  let data := meta_layout sps' pps in
  Z.of_nat (length sps') mod 256 < 128 ->
  exists cfg, rtmp_meta_pack alloc sizeof_packet H264.tima_h264_rtmp_create data (Z.of_nat (length data)) =
      Ok (Some cfg) /\ body cfg = avc_config sps' pps.
Proof.
  intros Hb Hsps Hpps Hal Hsz sps' data Hmod. unfold rtmp_meta_pack.
  assert (Hd : length data = (length sps' + length pps + 8)%nat) by apply meta_layout_length.
  assert (Hs : length sps' = (length sps + 4)%nat) by (unfold sps'; cbn [length]; lia).
  unfold RTMP_MAX_HEADER_SIZE. rewrite (wrap_small 64 (Z.of_nat (length data))) by lia.
  rewrite (wrap_small 64 (sizeof_packet + _)) by lia. rewrite (wrap_small 64 (_ + 8)) by lia.
  rewrite (wrap_small 64) by lia. rewrite swrap_small by lia. rewrite calloc_packet_Ok by lia.
  cbn [mbind res_bind]. rewrite Hal. cbn [meta_pack H264.tima_h264_rtmp_create].
  destruct (rtmp_metadata_ok (blank (Z.to_nat (sizeof_packet + Z.of_nat (length data) + 8 + Z.of_nat 18 - sizeof_packet)))
    s0 s1 s2 s3 sps pps Hb Hsps Hpps) as (cfg & E & B & _); [| done |].
  - cbn [cells blank]. rewrite length_replicate. fold sps'. fold data. unfold RTMP_MAX_HEADER_SIZE. lia.
  - fold sps' data in E. rewrite E. eexists. split; [done | exact B].
Qed.

(** The AAC packager: the raw AudioSpecificConfig after its tag, and the ADTS header it cuts off
    unchecked. *)
Lemma aac_metadata_body packet data :
  Z.of_nat (length data) <= 2 ^ 30 ->
  (RTMP_MAX_HEADER_SIZE + 2 + length data <= length (cells packet))%nat ->
  exists packet', Aac.rtmp_metadata packet data (Z.of_nat (length data)) = Ok packet' /\
    body packet' = [0xAF; 0] ++ data.
Proof.
  intros Hd Hc. destruct (head_room (cells packet) (2 + length data)) as (pre & rest & E & Hp & Hr); [lia |].
  unfold Aac.rtmp_metadata. int_ops. rewrite E, Hp, (emit_step pre []) by (cbn [length]; lia).
  cbn [mbind res_bind]. rewrite memcpy_step by (rewrite ?length_drop; cbn [length]; lia).
  cbn [mbind res_bind]. rewrite Nat2Z.id, drop_0, firstn_all, wrap_small by lia.
  change ([] ++ map u8 [175; 0]) with [175; 0].
  replace (Z.of_nat (length data) + 2) with (Z.of_nat (length ([175; 0] ++ data)))
    by (rewrite length_app; cbn [length]; lia).
  eexists. split; [done |]. apply body_written.
Qed.
