(* ===== verification/Vector.v ===== *)
(** * Generic vectors

    [vmp/src/vmp_vector.c] and [include/vmp/vmp_vector.h].  A [VmpVector] is a pointer to a
    [CVector] ([None] for NULL); the array is a heap block of bytes, possibly indeterminate.  Sizes
    and offsets are [int] products, undefined when they overflow, and convert to [size_t] where the
    C library takes one.  [alloc n] tells whether [malloc(n)] succeeds. *)

From S2P Require Import Prelude.

Record CVector := MkVector {
  size : Z;
  capacity : Z;
  elementsize : Z;
  array : option (block Z);
  flags : Z
}.

Abbreviation VmpVector := (option CVector).

Definition CVECTOR_FLAGS_NO_RELOCATION : Z := 1.
Definition CVECTOR_FLAGS_NO_RESIZE : Z := 2.
Definition CVECTOR_MALLOC_FAILED : Z := -1.
Definition CVECTOR_BAD_ARGUMENT : Z := -2.
Definition CVECTOR_NOT_FOUND : Z := -4.
Definition CVECTOR_NO_RELOCATION : Z := -8.
Definition CVECTOR_NO_RESIZE : Z := -16.

Definition has_flag (v : CVector) (f : Z) : bool := negb (Z.land (flags v) f =? 0).

Definition set_size (v : CVector) (n : Z) : CVector :=
  MkVector n (capacity v) (elementsize v) (array v) (flags v).
Definition set_array (v : CVector) (cap : Z) (a : option (block Z)) : CVector :=
  MkVector (size v) cap (elementsize v) a (flags v).
Definition set_flags (v : CVector) (f : Z) : CVector :=
  MkVector (size v) (capacity v) (elementsize v) (array v) f.

(** [memmove(dst + pos, src + off, n)] with [int] offsets and count. *)
Definition memmove (dst : block Z) (pos : Z) (src : block Z) (off n : Z) : res (block Z) :=
  pos ← ptr_off pos; memcpy dst pos src off n.

(** [(int)(index * 1.2)]: the product of [index] and the double nearest to 1.2,
    5404319552844595 / 2^52, rounded to 53 significant bits (ties to even) and truncated. *)
Definition times_1_2 (index : Z) : Z :=
  let p := Z.abs index * 5404319552844595 in
  let sh := Z.log2 p + 1 - 53 in
  let q := p / 2 ^ sh in
  let r := p mod 2 ^ sh in
  let q := if (2 * r >? 2 ^ sh) || ((2 * r =? 2 ^ sh) && Z.odd q) then q + 1 else q in
  Z.sgn index * (if sh <=? 0 then p / 2 ^ 52 else q * 2 ^ sh / 2 ^ 52).

Section code.
Context (alloc : Z -> bool).

Definition malloc (n : Z) : option (block Z) :=
  if alloc n then Some (blk_malloc (Z.to_nat n)) else None.

(** [handle] tells whether the caller's [vectorhandle] is non-NULL, [alloc_handle] whether the
    allocation of the [CVector] itself succeeds. *)
Definition tmVectorCreate (handle alloc_handle : bool) (elementsize capacity : Z) : Z * VmpVector :=
  let cap := u64 capacity in
  if negb handle then (CVECTOR_BAD_ARGUMENT, None) else
  if negb alloc_handle then (CVECTOR_MALLOC_FAILED, None) else
  let cap := if cap =? 0 then 10 else cap in
  match malloc (u64 (cap * u64 elementsize)) with
  | Some a => (0, Some (MkVector 0 (i32 cap) elementsize (Some a) 0))
  | None => (CVECTOR_MALLOC_FAILED, None)
  end.

Definition tmVectorSetCapacity (v : VmpVector) (capacity' : Z) : res (Z * VmpVector) :=
  match v with
  | None => Ok (CVECTOR_BAD_ARGUMENT, v)
  | Some h =>
      if capacity' <? size h then Ok (CVECTOR_BAD_ARGUMENT, v) else
      if capacity' =? capacity h then Ok (0, v) else
      if has_flag h CVECTOR_FLAGS_NO_RELOCATION then Ok (CVECTOR_NO_RELOCATION, v) else
      if negb (capacity' =? 0) then
        n ← int_op (capacity' * elementsize h);
        match malloc (u64 n) with
        | None => Ok (CVECTOR_MALLOC_FAILED, v)
        | Some temparray =>
            temparray ← (if negb (size h =? 0) then
                           old ← of_option (array h);
                           n ← int_op (size h * elementsize h);
                           memmove temparray 0 old 0 n
                         else Ok temparray);
            Ok (0, Some (set_array h capacity' (Some temparray)))
        end
      else Ok (0, Some (set_array h capacity' None))
  end.

(** The growth step of [tmVectorAddElement]: twice the capacity, else a quarter more. *)
Definition make_room (h : CVector) : res (Z * VmpVector) :=
  if capacity h <=? size h then
    n ← int_op (capacity h * 2);
    let newcap := u64 n in
    let newcap := if newcap <? 1 then 1 else newcap in
    '(errorcode, v) ← tmVectorSetCapacity (Some h) (i32 newcap);
    if negb (errorcode =? 0) then
      h ← of_option v;
      let newcap := u64 (u64 (capacity h) + u64 (Z.shiftr (capacity h) 2)) in
      let newcap := if newcap <? 1 then 1 else newcap in
      tmVectorSetCapacity v (i32 newcap)
    else Ok (errorcode, v)
  else Ok (0, Some h).

(** Its last step: copy the element after the others. *)
Definition push_back (h : CVector) (element : list Z) : res (Z * VmpVector) :=
  a ← of_option (array h);
  off ← int_op (size h * elementsize h);
  a ← memmove a off (Some <$> element) 0 (elementsize h);
  n ← int_op (size h + 1);
  Ok (0, Some (set_size (set_array h (capacity h) (Some a)) n)).

(** [element] is the memory the argument points to. *)
Definition tmVectorAddElement (v : VmpVector) (element : list Z) : res (Z * VmpVector) :=
  match v with
  | None => Ok (CVECTOR_BAD_ARGUMENT, v)
  | Some h =>
      if has_flag h CVECTOR_FLAGS_NO_RESIZE then Ok (CVECTOR_NO_RESIZE, v) else
      '(errorcode, v) ← make_room h;
      if negb (errorcode =? 0) then Ok (errorcode, v) else
      h ← of_option v; push_back h element
  end.

(** The bytes of the element, [None] when nothing is stored at [*element]. *)
Definition tmVectorGetElement (v : VmpVector) (index : Z) : res (Z * option (block Z)) :=
  match v with
  | None => Ok (CVECTOR_BAD_ARGUMENT, None)
  | Some h =>
      if (0 <=? index) && (index <? size h) then
        a ← of_option (array h);
        off ← int_op (index * elementsize h);
        off ← ptr_off off; n ← ptr_off (elementsize h);
        cells ← blk_copy off n a;
        Ok (0, Some cells)
      else Ok (CVECTOR_NOT_FOUND, None)
  end.

(** The pointer stored at [*elementptr], as an offset into the array. *)
Definition tmVectorGetElementptr (v : VmpVector) (index : Z) : res (Z * option Z * VmpVector) :=
  match v with
  | None => Ok (CVECTOR_BAD_ARGUMENT, None, v)
  | Some h =>
      if (0 <=? index) && (index <? size h) then
        off ← int_op (index * elementsize h);
        Ok (0, Some off, Some (set_flags h (Z.lor (flags h) CVECTOR_FLAGS_NO_RELOCATION)))
      else Ok (CVECTOR_NOT_FOUND, None, v)
  end.

Definition tmVectorSetElement (v : VmpVector) (element : list Z) (index : Z) : res (Z * VmpVector) :=
  match v with
  | None => Ok (CVECTOR_BAD_ARGUMENT, v)
  | Some h =>
      '(errorcode, v) ←
        (if capacity h <=? index then
           n ← int_op (index + capacity h);
           newcap ← int_op (n + 1);
           '(errorcode, v) ← tmVectorSetCapacity v newcap;
           if negb (errorcode =? 0) then
             newcap ← int_op (times_1_2 index);
             n ← int_op (index + 128);
             let newcap := if newcap <? n then n else newcap in
             tmVectorSetCapacity v newcap
           else Ok (errorcode, v)
         else Ok (0, v));
      if negb (errorcode =? 0) then Ok (errorcode, v) else
      h ← of_option v;
      if (0 <=? index) && (index <? capacity h) then
        a ← of_option (array h);
        off ← int_op (index * elementsize h);
        a ← memmove a off (Some <$> element) 0 (elementsize h);
        let h := set_array h (capacity h) (Some a) in
        if size h <=? index then
          n ← int_op (index + 1); Ok (0, Some (set_size h n))
        else Ok (0, Some h)
      else Ok (CVECTOR_NOT_FOUND, v)
  end.

Definition tmVectorRemoveElement (v : VmpVector) (index : Z) : res (Z * VmpVector) :=
  match v with
  | None => Ok (CVECTOR_BAD_ARGUMENT, v)
  | Some h =>
      if has_flag h CVECTOR_FLAGS_NO_RELOCATION then Ok (CVECTOR_NO_RELOCATION, v) else
      if (size h <=? index) || (index <? 0) then Ok (CVECTOR_NOT_FOUND, v) else
      if index =? size h - 1 then Ok (0, Some (set_size h (size h - 1))) else
      a ← of_option (array h);
      dst ← int_op (index * elementsize h);
      src ← int_op ((index + 1) * elementsize h);
      n ← int_op ((size h - 1 - index) * elementsize h);
      a ← memmove a dst a src n;
      Ok (0, Some (set_size (set_array h (capacity h) (Some a)) (size h - 1)))
  end.

Definition tmVectorClear (v : VmpVector) : Z * VmpVector :=
  match v with
  | None => (CVECTOR_BAD_ARGUMENT, v)
  | Some h => if has_flag h CVECTOR_FLAGS_NO_RESIZE then (CVECTOR_NO_RESIZE, v) else (0, Some (set_size h 0))
  end.

(** [handle] tells whether [vectorhandle] itself is non-NULL. *)
Definition tmVectorFree (handle : bool) (v : VmpVector) : Z * VmpVector :=
  if negb handle then (CVECTOR_BAD_ARGUMENT, v) else
  match v with
  | None => (0, None)
  | Some h =>
      if has_flag h CVECTOR_FLAGS_NO_RESIZE then (CVECTOR_NO_RESIZE, v) else
      if has_flag h CVECTOR_FLAGS_NO_RELOCATION then (CVECTOR_NO_RELOCATION, v) else
      (0, None)
  end.

Definition tmVectorGetCapacity (v : VmpVector) : Z * option Z :=
  match v with None => (CVECTOR_BAD_ARGUMENT, None) | Some h => (0, Some (capacity h)) end.
Definition tmVectorGetSize (v : VmpVector) : Z * option Z :=
  match v with None => (CVECTOR_BAD_ARGUMENT, None) | Some h => (0, Some (size h)) end.
Definition tmVectorGetFlags (v : VmpVector) : Z * option Z :=
  match v with None => (CVECTOR_BAD_ARGUMENT, None) | Some h => (0, Some (flags h)) end.
Definition tmVectorSetFlags (v : VmpVector) (f : Z) : Z * VmpVector :=
  match v with None => (CVECTOR_BAD_ARGUMENT, v) | Some h => (0, Some (set_flags h f)) end.

Definition tmVectorSetSize (v : VmpVector) (size' : Z) : res (Z * VmpVector) :=
  match v with
  | None => Ok (CVECTOR_BAD_ARGUMENT, v)
  | Some h =>
      if size' =? size h then Ok (0, v) else
      if has_flag h CVECTOR_FLAGS_NO_RESIZE then Ok (CVECTOR_NO_RESIZE, v) else
      '(errorcode, v) ←
        (if capacity h <? size' then
           if has_flag h CVECTOR_FLAGS_NO_RELOCATION then Ok (CVECTOR_NO_RELOCATION, v)
           else tmVectorSetCapacity v size'
         else Ok (0, v));
      if negb (errorcode =? 0) then Ok (errorcode, v) else
      h ← of_option v;
      if size' <=? capacity h then
        h ← (if size h <? size' then
               a ← of_option (array h);
               off ← int_op (size h * elementsize h);
               off ← ptr_off off;
               d ← int_op (size h - size');
               n ← int_op (d * elementsize h);
               a ← blk_store off (replicate (Z.to_nat (u64 n)) (Some 0)) a;
               Ok (set_array h (capacity h) (Some a))
             else Ok h);
        Ok (0, Some (set_size h size'))
      else Ok (0, Some h)
  end.

End code.

(** ** The vector as a list of elements *)

Lemma memmove_Ok dst pos src off n :
  0 <= pos -> 0 <= off -> 0 <= n ->
  off + n <= Z.of_nat (length src) -> pos + n <= Z.of_nat (length dst) ->
  memmove dst pos src off n =
    Ok (take (Z.to_nat pos) dst ++ take (Z.to_nat n) (drop (Z.to_nat off) src) ++
        drop (Z.to_nat (pos + n)) dst).
Proof.
  intros. unfold memmove, memcpy. rewrite !ptr_off_Ok by done. cbn [mbind res_bind].
  unfold blk_copy. rewrite decide_True by lia. cbn [mbind res_bind].
  unfold blk_store. rewrite length_take, length_drop, decide_True by lia. repeat f_equal; lia.
Qed.

Lemma memmove_UB dst pos src off n :
  0 <= pos -> 0 <= off -> 0 <= n ->
  off + n <= Z.of_nat (length src) -> Z.of_nat (length dst) < pos + n ->
  memmove dst pos src off n = UB.
Proof.
  intros. unfold memmove, memcpy. rewrite !ptr_off_Ok by done. cbn [mbind res_bind].
  unfold blk_copy. rewrite decide_True by lia. cbn [mbind res_bind].
  apply blk_store_UB. rewrite length_take, length_drop. lia.
Qed.

Section elements.
Context (n : nat).
Implicit Types xs : list (block Z).

Lemma concat_len xs : Forall (fun x => length x = n) xs -> length (concat xs) = (length xs * n)%nat.
Proof.
  induction 1 as [| x xs Hx _ IH]; [done |]. cbn [concat length]. rewrite length_app, Hx, IH. lia.
Qed.

Lemma drop_concat i xs rest :
  Forall (fun x => length x = n) xs -> (i <= length xs)%nat ->
  drop (i * n) (concat xs ++ rest) = concat (drop i xs) ++ rest.
Proof.
  intros H Hi. rewrite <- (take_drop i xs) at 1. rewrite concat_app, <- app_assoc.
  apply drop_app_length'. rewrite concat_len by (by apply Forall_take).
  rewrite length_take. f_equal. lia.
Qed.

Lemma take_concat i xs rest :
  Forall (fun x => length x = n) xs -> (i <= length xs)%nat ->
  take (i * n) (concat xs ++ rest) = concat (take i xs).
Proof.
  intros H Hi. rewrite <- (take_drop i xs) at 1. rewrite concat_app, <- app_assoc.
  apply take_app_length'. rewrite concat_len by (by apply Forall_take).
  rewrite length_take. f_equal. lia.
Qed.
End elements.

(** The vector holds the elements [xs]: each [elementsize] bytes, one after the other. *)
Record rep (h : CVector) (xs : list (block Z)) : Prop := {
  rep_esize : 0 < elementsize h;
  rep_size : size h = Z.of_nat (length xs);
  rep_elems : Forall (fun x => length x = Z.to_nat (elementsize h)) xs;
  rep_cap : size h <= capacity h;
  rep_bytes : capacity h * elementsize h <= INT_MAX;
  rep_array : exists rest, default [] (array h) = concat xs ++ rest;
  rep_room : Z.of_nat (length (default [] (array h))) = capacity h * elementsize h;
  rep_null : array h = None -> capacity h = 0
}.

(** An index or count of elements, times the element size, is a valid [int] offset. *)
Lemma rep_off h xs i :
  rep h xs -> 0 <= i <= capacity h -> int_op (i * elementsize h) = Ok (i * elementsize h).
Proof. intros [] Hi. apply int_op_in. unfold INT_MIN. nia. Qed.

Lemma rep_nonnull h xs : rep h xs -> 0 < capacity h ->
  exists a, array h = Some a /\ (exists rest, a = concat xs ++ rest) /\
    Z.of_nat (length a) = capacity h * elementsize h.
Proof.
  intros [] Hc. destruct (array h) as [a |]; [| specialize (rep_null0 eq_refl); lia].
  exists a. done.
Qed.

Lemma to_nat_mul a b : 0 <= a -> 0 <= b -> Z.to_nat (a * b) = (Z.to_nat a * Z.to_nat b)%nat.
Proof. intros. by rewrite Z2Nat.inj_mul. Qed.

(** Changing the capacity keeps the elements; a failure changes nothing. *)
Lemma set_capacity_spec alloc h xs c :
  rep h xs -> c * elementsize h <= INT_MAX ->
  exists rc h', tmVectorSetCapacity alloc (Some h) c = Ok (rc, Some h') /\ rep h' xs /\
    elementsize h' = elementsize h /\ flags h' = flags h /\
    ((rc = 0 /\ capacity h' = c /\ size h <= c /\
      (c = capacity h \/
       has_flag h CVECTOR_FLAGS_NO_RELOCATION = false /\ (c = 0 \/ alloc (c * elementsize h) = true))) \/
     (rc <> 0 /\ h' = h /\
      (rc = CVECTOR_BAD_ARGUMENT /\ c < size h \/
       rc = CVECTOR_NO_RELOCATION /\ has_flag h CVECTOR_FLAGS_NO_RELOCATION = true /\ c <> capacity h \/
       rc = CVECTOR_MALLOC_FAILED /\ alloc (c * elementsize h) = false /\ c <> capacity h))).
Proof.
  intros Hrep Hc. pose proof Hrep as [He Hs Hel Hcap Hb [rest Ha] Hroom Hnull].
  unfold tmVectorSetCapacity.
  destruct (Z.ltb_spec c (size h)) as [Hlt | Hge].
  { exists CVECTOR_BAD_ARGUMENT, h. split_and!; auto 9. }
  destruct (Z.eqb_spec c (capacity h)) as [-> | Hne].
  { exists 0, h. split_and!; auto 8. }
  destruct (has_flag h CVECTOR_FLAGS_NO_RELOCATION) eqn:Hf.
  { exists CVECTOR_NO_RELOCATION, h. split_and!; auto 9. }
  destruct (Z.eqb_spec c 0) as [-> | Hc0]; cbn [negb].
  { assert (xs = []) as -> by (destruct xs; [done | cbn in Hs; lia]).
    exists 0, (set_array h 0 None). split_and!; [done | | done | done | auto 8].
    split; cbn; auto; try lia. by exists []. }
  rewrite (int_op_in (c * elementsize h)) by (unfold INT_MIN; nia). cbn [mbind res_bind].
  rewrite wrap_small by (unfold INT_MAX in *; nia). unfold malloc.
  destruct (alloc (c * elementsize h)) eqn:Hal.
  2:{ exists CVECTOR_MALLOC_FAILED, h. split_and!; auto 9. }
  set (new := blk_malloc _).
  assert (Hnew : Z.of_nat (length new) = c * elementsize h)
    by (unfold new, blk_malloc; rewrite length_replicate; nia).
  assert (Hcp : exists a, (if negb (size h =? 0) then
      old ← of_option (array h); n ← int_op (size h * elementsize h); memmove new 0 old 0 n
      else Ok new) = Ok a /\ Z.of_nat (length a) = c * elementsize h /\ exists rest, a = concat xs ++ rest).
  { destruct (Z.eqb_spec (size h) 0) as [H0 | H0]; cbn [negb].
    - assert (xs = []) as -> by (destruct xs; [done | cbn in Hs; lia]).
      exists new. split_and!; [done | done | by exists new].
    - destruct (rep_nonnull h xs Hrep ltac:(lia)) as (a & E & [r Er] & Hla). rewrite E.
      cbn [of_option mbind res_bind]. rewrite (rep_off h xs) by (done || lia). cbn [mbind res_bind].
      rewrite memmove_Ok by nia. eexists. split; [done |].
      rewrite take_0, drop_0. cbn [app].
      rewrite to_nat_mul, Hs, Nat2Z.id, Er, take_concat, firstn_all by (done || lia).
      split; [| by eexists].
      rewrite length_app, length_drop, (concat_len (Z.to_nat (elementsize h))) by done. nia. }
  destruct Hcp as (a & -> & Hla & r & Er). cbn [mbind res_bind].
  exists 0, (set_array h c (Some a)). split_and!; [done | | done | done | auto 8].
  split; cbn; auto; [by exists r | done].
Qed.

Lemma set_capacity_same alloc h :
  size h <= capacity h -> tmVectorSetCapacity alloc (Some h) (capacity h) = Ok (0, Some h).
Proof.
  intros Hs. unfold tmVectorSetCapacity.
  by rewrite (proj2 (Z.ltb_ge _ _)), Z.eqb_refl by done.
Qed.

(** Storing one element over element [i], or after the last one. *)
Lemma store_elem h xs (element : list Z) i :
  rep h xs -> Z.to_nat (elementsize h) = length element -> (i <= length xs)%nat ->
  Z.of_nat i < capacity h ->
  exists a a' rest', array h = Some a /\
    memmove a (Z.of_nat i * elementsize h) (Some <$> element) 0 (elementsize h) = Ok a' /\
    a' = concat (take i xs ++ [Some <$> element] ++ drop (S i) xs) ++ rest' /\ length a' = length a.
Proof.
  intros Hrep He Hi Hc. pose proof Hrep as [Hes Hs Hel Hcap Hb _ _ _].
  destruct (rep_nonnull h xs Hrep ltac:(lia)) as (a & E & [r Er] & Hla).
  rewrite E. set (es := Z.to_nat (elementsize h)) in *.
  assert (Hes' : elementsize h = Z.of_nat es) by lia.
  assert (Hroom : Z.of_nat (S i * es) <= Z.of_nat (length a)) by nia.
  assert (Hd : exists rest', drop (S i * es) a = concat (drop (S i) xs) ++ rest').
  { destruct (decide (i = length xs)) as [-> | Hne].
    - exists (drop (S (length xs) * es) a). by rewrite (drop_ge xs) by lia.
    - exists r. rewrite Er. apply drop_concat; [done | lia]. }
  destruct Hd as [rest' Hd].
  eexists a, (concat (take i xs ++ [Some <$> element] ++ drop (S i) xs) ++ rest'), rest'.
  split; [done |]. rewrite memmove_Ok by (rewrite ?length_fmap; nia).
  replace (Z.to_nat (Z.of_nat i * elementsize h)) with (i * es)%nat by nia.
  replace (Z.to_nat (Z.of_nat i * elementsize h + elementsize h)) with (S i * es)%nat by nia.
  rewrite drop_0, (take_ge (Some <$> element)) by (rewrite length_fmap; lia).
  rewrite Hd. rewrite Er at 1. rewrite take_concat by (done || lia).
  rewrite !concat_app. cbn [concat]. rewrite app_nil_r, <- !app_assoc.
  split; [done |]. split; [done |].
  apply (f_equal length) in Hd. rewrite length_drop, length_app in Hd.
  rewrite !length_app, length_fmap, <- He, (concat_len es) by (by apply Forall_take).
  rewrite length_take. fold es. nia.
Qed.

Lemma rep_after_store h xs (element : list Z) i a' rest' :
  rep h xs -> Z.to_nat (elementsize h) = length element -> (i <= length xs)%nat ->
  Z.of_nat i < capacity h ->
  a' = concat (take i xs ++ [Some <$> element] ++ drop (S i) xs) ++ rest' ->
  Z.of_nat (length a') = capacity h * elementsize h ->
  let xs' := take i xs ++ [Some <$> element] ++ drop (S i) xs in
  rep (set_size (set_array h (capacity h) (Some a')) (Z.of_nat (length xs'))) xs'.
Proof.
  intros [] He Hi Hc Ea Hl xs'. split; cbn [set_size set_array size capacity elementsize array]; try done.
  - unfold xs'. rewrite !Forall_app. split_and!.
    + by apply Forall_take.
    + constructor; [| done]. by rewrite length_fmap.
    + by apply Forall_drop.
  - unfold xs'. rewrite !length_app, length_take, length_drop. cbn [length]. lia.
  - by exists rest'.
Qed.

Lemma push_back_spec h xs element :
  rep h xs -> Z.to_nat (elementsize h) = length element -> size h < capacity h ->
  exists h', push_back h element = Ok (0, Some h') /\ rep h' (xs ++ [Some <$> element]) /\
    flags h' = flags h /\ capacity h' = capacity h /\ elementsize h' = elementsize h.
Proof.
  intros Hrep He Hc. pose proof Hrep as [Hes Hs Hel Hcap Hb _ Hroom _].
  destruct (store_elem h xs element (length xs) Hrep He) as (a & a' & r & E & M & Ea & La); [done | lia |].
  unfold push_back. rewrite E. cbn [of_option mbind res_bind].
  rewrite (rep_off h xs) by (done || lia). cbn [mbind res_bind]. rewrite Hs, M. cbn [mbind res_bind].
  rewrite int_op_in by (unfold INT_MIN, INT_MAX in *; nia). cbn [mbind res_bind].
  rewrite E in Hroom. cbn in Hroom.
  pose proof (rep_after_store h xs element (length xs) a' r Hrep He) as R.
  rewrite firstn_all, (drop_ge xs) in R, Ea by lia. cbn [app] in R, Ea.
  rewrite length_app in R. cbn [length] in R.
  replace (Z.of_nat (length xs + 1)) with (Z.of_nat (length xs) + 1) in R by lia.
  eexists. split; [done |]. split; [apply R; [done | lia | done | lia] | done].
Qed.

Lemma push_back_full h xs element :
  rep h xs -> Z.to_nat (elementsize h) = length element -> size h = capacity h -> 0 < capacity h ->
  push_back h element = UB.
Proof.
  intros Hrep He Hc H0. pose proof Hrep as [Hes Hs Hel Hcap Hb _ Hroom _].
  destruct (rep_nonnull h xs Hrep H0) as (a & E & _ & Hla).
  unfold push_back. rewrite E. cbn [of_option mbind res_bind].
  rewrite (rep_off h xs) by (done || lia). cbn [mbind res_bind].
  rewrite memmove_UB by (rewrite ?length_fmap; nia). done.
Qed.

(** The first attempt of a full vector asks for twice the capacity, at least one. *)
Lemma make_room_doubling alloc h xs :
  rep h xs -> (2 * capacity h + 1) * elementsize h <= INT_MAX -> capacity h <= size h ->
  make_room alloc h =
    ('(errorcode, v) ← tmVectorSetCapacity alloc (Some h) (Z.max 1 (2 * capacity h));
     if negb (errorcode =? 0) then
       h ← of_option v;
       let newcap := u64 (u64 (capacity h) + u64 (Z.shiftr (capacity h) 2)) in
       let newcap := if newcap <? 1 then 1 else newcap in
       tmVectorSetCapacity alloc v (i32 newcap)
     else Ok (errorcode, v)).
Proof.
  intros Hrep Hcap Hfull. pose proof Hrep as [Hes Hs Hel Hle Hb _ Hroom _].
  unfold make_room. rewrite (proj2 (Z.leb_le _ _) Hfull). unfold INT_MAX in *.
  assert (Hcb : 0 <= 2 * capacity h < 2 ^ 31 - 1) by nia.
  rewrite int_op_in by (unfold INT_MIN, INT_MAX; nia). cbn [mbind res_bind].
  rewrite (wrap_small 64 (capacity h * 2)) by lia.
  assert (Hd : (if capacity h * 2 <? 1 then 1 else capacity h * 2) = Z.max 1 (2 * capacity h))
    by (destruct (Z.ltb_spec (capacity h * 2) 1); lia).
  by rewrite Hd, swrap_small by lia.
Qed.

(** Appending with room to spare, or room to make. *)
Lemma add_element_ok alloc h xs element :
  rep h xs -> flags h = 0 -> Z.to_nat (elementsize h) = length element ->
  (2 * capacity h + 1) * elementsize h <= INT_MAX ->
  size h < capacity h \/ alloc (Z.max 1 (2 * capacity h) * elementsize h) = true ->
  exists h', tmVectorAddElement alloc (Some h) element = Ok (0, Some h') /\
    rep h' (xs ++ [Some <$> element]) /\ flags h' = flags h /\ elementsize h' = elementsize h /\
    capacity h' = (if capacity h <=? size h then Z.max 1 (2 * capacity h) else capacity h).
Proof.
  intros Hrep Hf He Hcap Hg. pose proof Hrep as [Hes Hs Hel Hle Hb _ Hroom _].
  unfold tmVectorAddElement, has_flag. rewrite Hf.
  destruct (Z.leb_spec (capacity h) (size h)) as [Hfull | Hroomy].
  2:{ unfold make_room. rewrite (proj2 (Z.leb_gt _ _) Hroomy).
      cbn [mbind res_bind negb Z.eqb of_option Z.land].
      destruct (push_back_spec h xs element Hrep He Hroomy) as (h' & -> & R & F & C & E).
      exists h'. split_and!; done || congruence. }
  destruct Hg as [? | Hal]; [lia |]. rewrite (make_room_doubling alloc h xs) by done.
  destruct (set_capacity_spec alloc h xs (Z.max 1 (2 * capacity h)) Hrep ltac:(nia))
    as (rc & h1 & -> & R1 & E1 & F1 & Hrc). cbn [mbind res_bind].
  pose proof (rep_size _ _ R1) as Hs1.
  destruct Hrc as [(-> & Hc1 & _ & _) | (Hrc & _ & [[_ ?] | [(_ & Hr & _) | (_ & ? & _)]])].
  - destruct (push_back_spec h1 xs element R1 ltac:(congruence) ltac:(lia)) as (h' & E' & R & F & C & E).
    cbn [negb Z.eqb mbind res_bind of_option Z.land]. rewrite E'.
    exists h'. split_and!; done || congruence.
  - lia.
  - unfold has_flag in Hr. by rewrite Hf in Hr.
  - congruence.
Qed.

(** C33.  Appending to a vector.  [tmVectorAddElement] on a vector that may be resized appends
    exactly the element when there is room, or when the doubled array can be allocated and the
    vector may be relocated.  Otherwise it tries a quarter more: with a capacity of at least four
    either that succeeds or the vector is unchanged and an error is returned; below four the quarter
    is zero, the request for the same capacity succeeds without growing, and the element is stored
    past the end of the array. *)
Theorem tmVectorAddElement_spec (alloc : Z -> bool) (h : CVector) (xs : list (block Z)) (element : list Z)
    (Hrep : rep h xs) (Hf : has_flag h CVECTOR_FLAGS_NO_RESIZE = false)
    (He : Z.to_nat (elementsize h) = length element)
    (Hcap : (2 * capacity h + 1) * elementsize h <= INT_MAX) :
  let grows := negb (has_flag h CVECTOR_FLAGS_NO_RELOCATION) &&
               alloc (Z.max 1 (2 * capacity h) * elementsize h) in
  (size h < capacity h \/ grows = true ->
    exists h', tmVectorAddElement alloc (Some h) element = Ok (0, Some h') /\
      rep h' (xs ++ [Some <$> element]) /\ flags h' = flags h) /\
  (size h = capacity h -> grows = false -> capacity h = 0 \/ 4 <= capacity h ->
    (exists h', tmVectorAddElement alloc (Some h) element = Ok (0, Some h') /\
       rep h' (xs ++ [Some <$> element])) \/
    (exists rc, tmVectorAddElement alloc (Some h) element = Ok (rc, Some h) /\ rc < 0)) /\
  (size h = capacity h -> grows = false -> 1 <= capacity h < 4 ->
    tmVectorAddElement alloc (Some h) element = UB).
Proof.
  cbn zeta. pose proof Hrep as [Hes Hs Hel Hle Hb _ Hroom _].
  unfold tmVectorAddElement. rewrite Hf.
  destruct (Z.leb_spec (capacity h) (size h)) as [Hfull | Hroomy].
  2:{ unfold make_room. rewrite (proj2 (Z.leb_gt _ _) Hroomy). cbn [mbind res_bind negb Z.eqb of_option].
      destruct (push_back_spec h xs element Hrep He Hroomy) as (h' & -> & R & F & _ & _).
      split; [eauto |]. split; lia. }
  rewrite (make_room_doubling alloc h xs) by done.
  assert (Hcb : 0 <= 2 * capacity h < 2 ^ 31 - 1) by (unfold INT_MAX in *; nia).
  destruct (set_capacity_spec alloc h xs (Z.max 1 (2 * capacity h)) Hrep ltac:(nia))
    as (rc & h1 & -> & R1 & E1 & F1 & Hrc). cbn [mbind res_bind].
  destruct Hrc as [(-> & Hc1 & _ & Hok) | (Hrc & -> & Hwhy)].
  - cbn [negb Z.eqb mbind res_bind of_option].
    pose proof (rep_size _ _ R1) as Hs1.
    destruct (push_back_spec h1 xs element R1 ltac:(congruence) ltac:(lia)) as (h' & -> & R & F & _ & _).
    destruct Hok as [? | [-> [? | ->]]]; [lia.. |]. cbn [negb andb].
    split; [rewrite <- F1; eauto |]. by split.
  - rewrite (proj2 (Z.eqb_neq _ _) Hrc). cbn [negb mbind res_bind of_option].
    assert (Hg : negb (has_flag h CVECTOR_FLAGS_NO_RELOCATION) &&
                 alloc (Z.max 1 (2 * capacity h) * elementsize h) = false).
    { destruct Hwhy as [[_ ?] | [(_ & -> & _) | (_ & -> & _)]]; [lia | done | by rewrite andb_false_r]. }
    rewrite Hg. clear Hwhy Hg rc Hrc R1 E1 F1.
    rewrite Z.shiftr_div_pow2 by lia. change (2 ^ 2) with 4.
    pose proof (Z.div_mod (capacity h) 4 ltac:(lia)). pose proof (Z.mod_pos_bound (capacity h) 4 ltac:(lia)).
    rewrite !(wrap_small 64) by (rewrite ?(wrap_small 64) by lia; lia).
    set (c := if _ <? 1 then 1 else _).
    assert (Hcc : c = Z.max 1 (capacity h + capacity h / 4)) by (unfold c; case_match; lia).
    clearbody c. rewrite swrap_small by nia.
    split; [intros [?|?]; [lia | done] |]. split; intros _ _ Hcap'.
    + destruct (set_capacity_spec alloc h xs c Hrep ltac:(nia))
        as (rc & h1 & -> & R1 & E1 & F1 & Hrc). cbn [mbind res_bind].
      destruct Hrc as [(-> & Hc1 & _) | (Hrc & -> & Hwhy)].
      * left. pose proof (rep_size _ _ R1) as Hs1. cbn [negb Z.eqb mbind res_bind of_option].
        destruct (push_back_spec h1 xs element R1 ltac:(congruence) ltac:(lia)) as (h' & -> & R & _). eauto.
      * right. rewrite (proj2 (Z.eqb_neq _ _) Hrc). cbn [negb]. eexists. split; [done |].
        destruct Hwhy as [[-> _] | [[-> _] | [-> _]]]; done.
    + assert (c = capacity h) as -> by lia. rewrite set_capacity_same by done.
      cbn [negb Z.eqb mbind res_bind of_option]. apply (push_back_full h xs); auto; lia.
Qed.

Definition sample_vector : CVector :=
  MkVector 2 2 2 (Some [Some 1; Some 2; Some 3; Some 4]) 0.

Lemma sample_rep : rep sample_vector [[Some 1; Some 2]; [Some 3; Some 4]].
Proof.
  split; cbn; try lia; try (by exists []); [by_decide | done | done].
Defined.

Lemma rep_set_flags h xs f : rep h xs -> rep (set_flags h f) xs.
Proof. by intros []. Qed.

Lemma tmVectorAddElement_spec_witness :
  tmVectorAddElement (fun _ => true) (Some (set_flags sample_vector 1)) [5; 6] = UB /\
  (exists h', tmVectorAddElement (fun _ => true) (Some sample_vector) [5; 6] = Ok (0, Some h') /\
    rep h' [[Some 1; Some 2]; [Some 3; Some 4]; [Some 5; Some 6]]).
Proof.
  split.
  - apply (tmVectorAddElement_spec (fun _ => true) (set_flags sample_vector 1)
      [[Some 1; Some 2]; [Some 3; Some 4]] [5; 6] (rep_set_flags _ _ 1 sample_rep) eq_refl eq_refl
      ltac:(vm_compute; discriminate)); [reflexivity | reflexivity | cbn; lia].
  - destruct (tmVectorAddElement_spec (fun _ => true) sample_vector _ [5; 6] sample_rep
      ltac:(reflexivity) ltac:(reflexivity) ltac:(vm_compute; discriminate)) as [H _].
    destruct H as (h' & E & R & _); [right; reflexivity |]. exists h'. split; [exact E | exact R].
Defined.

(** ** The other operations *)

Lemma lookup_concat n (xs : list (block Z)) i x rest :
  Forall (fun x => length x = n) xs -> xs !! i = Some x ->
  take n (drop (i * n) (concat xs ++ rest)) = x.
Proof.
  intros H Hx. pose proof (lookup_lt_Some _ _ _ Hx) as Hi. rewrite drop_concat by (done || lia).
  rewrite (drop_S _ _ _ Hx). cbn [concat]. rewrite <- app_assoc. apply take_app_length'.
  symmetry. by eapply (Forall_lookup_1 (fun x => length x = n)).
Qed.

(** Reading returns the element; any other index is reported. *)
Lemma get_element_spec h xs i :
  rep h xs ->
  tmVectorGetElement (Some h) i =
    match (if 0 <=? i then xs !! Z.to_nat i else None) with
    | Some x => Ok (0, Some x)
    | None => Ok (CVECTOR_NOT_FOUND, None)
    end.
Proof.
  intros Hrep. pose proof Hrep as [Hes Hs Hel Hcap Hb _ Hroom _].
  unfold tmVectorGetElement. destruct (Z.leb_spec 0 i) as [H0 | H0]; cbn [andb]; [| done].
  destruct (Z.ltb_spec i (size h)) as [Hlt | Hge].
  - destruct (lookup_lt_is_Some_2 xs (Z.to_nat i)) as [x Hx]; [lia |]. rewrite Hx.
    destruct (rep_nonnull h xs Hrep ltac:(lia)) as (a & E & [r Er] & Hla).
    rewrite E. cbn [of_option mbind res_bind]. rewrite (rep_off h xs) by (done || lia).
    cbn [mbind res_bind]. rewrite !ptr_off_Ok by nia. cbn [mbind res_bind].
    unfold blk_copy. rewrite decide_True by nia. cbn [mbind res_bind].
    rewrite to_nat_mul, Er by lia. by erewrite lookup_concat.
  - by rewrite lookup_ge_None_2 by lia.
Qed.

Lemma remove_element_ok h xs i :
  rep h xs -> has_flag h CVECTOR_FLAGS_NO_RELOCATION = false -> 0 <= i < size h ->
  exists h', tmVectorRemoveElement (Some h) i = Ok (0, Some h') /\ rep h' (delete (Z.to_nat i) xs) /\
    capacity h' = capacity h /\ elementsize h' = elementsize h /\ flags h' = flags h.
Proof.
  intros Hrep Hf Hi. pose proof Hrep as [Hes Hs Hel Hcap Hb _ Hroom Hnull].
  unfold tmVectorRemoveElement. rewrite Hf.
  rewrite (proj2 (Z.leb_gt _ _)), (proj2 (Z.ltb_ge i 0)) by lia. cbn [orb].
  destruct (rep_nonnull h xs Hrep ltac:(lia)) as (a & E & [r Er] & Hla).
  rewrite delete_take_drop. set (k := Z.to_nat i). assert (Hk : i = Z.of_nat k) by lia. clearbody k. subst i.
  destruct (Z.eqb_spec (Z.of_nat k) (size h - 1)) as [Hlast | Hmid].
  - eexists. split; [done |]. split; [| done]. rewrite (drop_ge xs), app_nil_r by lia.
    split; cbn; try done; try lia; [rewrite length_take; lia | by apply Forall_take |].
    rewrite E. cbn. exists (concat (drop k xs) ++ r). rewrite app_assoc, <- concat_app, take_drop. done.
  - rewrite E. cbn [of_option mbind res_bind].
    rewrite !(rep_off h xs) by (done || lia). cbn [mbind res_bind].
    rewrite memmove_Ok by nia. cbn [mbind res_bind]. set (es := Z.to_nat (elementsize h)) in *.
    assert (Hes' : elementsize h = Z.of_nat es) by lia.
    replace (Z.to_nat (Z.of_nat k * elementsize h)) with (k * es)%nat by nia.
    replace (Z.to_nat ((Z.of_nat k + 1) * elementsize h)) with (S k * es)%nat by nia.
    replace (Z.to_nat ((size h - 1 - Z.of_nat k) * elementsize h)) with ((length (drop (S k) xs)) * es)%nat
      by (rewrite length_drop; nia).
    assert (T : take (k * es) a = concat (take k xs)) by (rewrite Er; apply take_concat; [done | lia]).
    assert (D : drop (S k * es) a = concat (drop (S k) xs) ++ r)
      by (rewrite Er; apply drop_concat; [done | lia]).
    rewrite T, D, take_concat, firstn_all by (done || by apply Forall_drop).
    eexists. split; [done |]. split; [| done].
    split; cbn; try done; try lia.
    + rewrite length_app, length_take, length_drop. lia.
    + rewrite Forall_app. split; [by apply Forall_take | by apply Forall_drop].
    + eexists. by rewrite concat_app, <- app_assoc.
    + rewrite <- Hla, Er, !length_app, length_drop, !length_app, !(concat_len es)
        by (done || by apply Forall_take || by apply Forall_drop).
      rewrite length_take, length_drop. nia.
Qed.

(** Removing from a vector.  An index of an element removes exactly that element and keeps the
    order of the others; any other index is reported, as is a vector whose elements may not be
    moved, and these leave it unchanged. *)
Lemma tmVectorRemoveElement_spec (h : CVector) (xs : list (block Z)) (i : Z) (Hrep : rep h xs) :
  (has_flag h CVECTOR_FLAGS_NO_RELOCATION = true ->
    tmVectorRemoveElement (Some h) i = Ok (CVECTOR_NO_RELOCATION, Some h)) /\
  (has_flag h CVECTOR_FLAGS_NO_RELOCATION = false ->
    (0 <= i < size h -> exists h',
       tmVectorRemoveElement (Some h) i = Ok (0, Some h') /\ rep h' (delete (Z.to_nat i) xs) /\
       capacity h' = capacity h /\ flags h' = flags h) /\
    (~ 0 <= i < size h -> tmVectorRemoveElement (Some h) i = Ok (CVECTOR_NOT_FOUND, Some h))).
Proof.
  split; intros Hf; [unfold tmVectorRemoveElement; by rewrite Hf |]. split; intros Hi.
  2:{ unfold tmVectorRemoveElement. rewrite Hf. destruct (Z.leb_spec (size h) i), (Z.ltb_spec i 0); cbn; done || lia. }
  destruct (remove_element_ok h xs i Hrep Hf Hi) as (h' & E & R & C & _ & F). by exists h'.
Qed.

(** Overwriting an element in place. *)
Lemma set_element_spec alloc h xs (element : list Z) i :
  rep h xs -> Z.to_nat (elementsize h) = length element -> 0 <= i < size h ->
  exists h', tmVectorSetElement alloc (Some h) element i = Ok (0, Some h') /\
    rep h' (<[Z.to_nat i := Some <$> element]> xs) /\ flags h' = flags h.
Proof.
  intros Hrep He Hi. pose proof Hrep as [Hes Hs Hel Hcap Hb _ Hroom _].
  unfold tmVectorSetElement. rewrite (proj2 (Z.leb_gt (capacity h) i)) by lia.
  cbn [mbind res_bind negb Z.eqb of_option].
  rewrite (proj2 (Z.leb_le 0 i)), (proj2 (Z.ltb_lt i _)) by lia. cbn [andb].
  set (k := Z.to_nat i). assert (Hk : i = Z.of_nat k) by lia. clearbody k. subst i.
  destruct (store_elem h xs element k Hrep He) as (a & a' & r & E & M & Ea & La); [lia | lia |].
  rewrite E. cbn [of_option mbind res_bind].
  rewrite (rep_off h xs) by (done || lia). cbn [mbind res_bind]. rewrite M. cbn [mbind res_bind].
  rewrite (proj2 (Z.leb_gt _ _)) by (cbn [set_array size]; lia).
  eexists. split; [done |]. split; [| done]. rewrite E in Hroom. cbn in Hroom.
  pose proof (rep_after_store h xs element k a' r Hrep He ltac:(lia) ltac:(lia) Ea ltac:(lia)) as R.
  cbv zeta in R. rewrite insert_take_drop by lia.
  replace (Z.of_nat (length (take k xs ++ [Some <$> element] ++ drop (S k) xs))) with (size h) in R
    by (rewrite !length_app, length_take, length_drop; cbn [length]; lia).
  exact R.
Qed.

(** Resizing a vector.  Shrinking keeps the first elements; growing reallocates if it must (the
    errors leave the vector unchanged) and then clears the new elements with a byte count computed
    the wrong way round, [(old size - new size) * elementsize], which is negative: a growth that gets
    that far always writes outside the array. *)
Lemma tmVectorSetSize_spec (alloc : Z -> bool) (h : CVector) (xs : list (block Z)) (n : Z)
    (Hrep : rep h xs) (Hf : has_flag h CVECTOR_FLAGS_NO_RESIZE = false) (Hn : 0 <= n)
    (Hb : n * elementsize h <= INT_MAX) :
  (n <= size h -> exists h',
     tmVectorSetSize alloc (Some h) n = Ok (0, Some h') /\ rep h' (take (Z.to_nat n) xs)) /\
  (size h < n ->
     (n <= capacity h \/ has_flag h CVECTOR_FLAGS_NO_RELOCATION = false /\ alloc (n * elementsize h) = true ->
        tmVectorSetSize alloc (Some h) n = UB) /\
     (capacity h < n -> has_flag h CVECTOR_FLAGS_NO_RELOCATION = true \/ alloc (n * elementsize h) = false ->
        exists rc, tmVectorSetSize alloc (Some h) n = Ok (rc, Some h) /\ rc < 0)).
Proof.
  pose proof Hrep as [Hes Hs Hel Hcap Hbb [r Hr] Hroom Hnull].
  unfold tmVectorSetSize. rewrite Hf.
  destruct (Z.eqb_spec n (size h)) as [-> | Hne].
  { split; [intros _; eexists; split; [done |]; by rewrite Hs, Nat2Z.id, firstn_all | lia]. }
  assert (Grow : forall h1, rep h1 xs -> elementsize h1 = elementsize h -> size h < n <= capacity h1 ->
    (a ← of_option (array h1); off ← int_op (size h1 * elementsize h1); off ← ptr_off off;
     d ← int_op (size h1 - n); m ← int_op (d * elementsize h1);
     a ← blk_store off (replicate (Z.to_nat (u64 m)) (Some 0)) a;
     Ok (set_array h1 (capacity h1) (Some a))) = UB).
  { intros h1 R1 E1 H1. pose proof (rep_size _ _ R1) as Hs1. pose proof (rep_bytes _ _ R1) as Hb1.
    destruct (rep_nonnull h1 xs R1 ltac:(lia)) as (a & -> & _ & Hla). cbn [of_option mbind res_bind].
    rewrite (rep_off h1 xs) by (done || lia). cbn [mbind res_bind]. rewrite ptr_off_Ok by nia.
    cbn [mbind res_bind]. unfold INT_MAX in *.
    rewrite int_op_in by (unfold INT_MIN, INT_MAX; nia). cbn [mbind res_bind].
    rewrite int_op_in by (unfold INT_MIN, INT_MAX; nia). cbn [mbind res_bind].
    rewrite (proj2 (blk_store_UB _ _ _)); [done |]. rewrite length_replicate.
    replace (u64 _) with ((size h1 - n) * elementsize h1 + 2 ^ 64); [nia |].
    unfold wrap. symmetry. rewrite <- (Z.mod_add _ 1) by lia. apply Z.mod_small. nia. }
  split; intros Hsz.
  - rewrite (proj2 (Z.ltb_ge _ _)) by lia. cbn [mbind res_bind negb Z.eqb of_option].
    rewrite (proj2 (Z.leb_le _ _)), (proj2 (Z.ltb_ge _ _)) by lia. cbn [mbind res_bind].
    eexists. split; [done |]. split; cbn; try done; try lia; [| by apply Forall_take |].
    + rewrite length_take. lia.
    + exists (concat (drop (Z.to_nat n) xs) ++ r). by rewrite app_assoc, <- concat_app, take_drop.
  - destruct (Z.ltb_spec (capacity h) n) as [Hgt | Hle].
    2:{ cbn [mbind res_bind negb Z.eqb of_option]. rewrite (proj2 (Z.leb_le _ _)), (proj2 (Z.ltb_lt _ _)) by lia.
        rewrite Grow by (done || lia). split; [done | lia]. }
    destruct (has_flag h CVECTOR_FLAGS_NO_RELOCATION) eqn:Hr1.
    { split; [intros [? | [? _]]; done || lia |]. intros _ _. eexists. split; [done | done]. }
    destruct (set_capacity_spec alloc h xs n Hrep Hb) as (rc & h1 & -> & R1 & E1 & F1 & Hrc).
    cbn [mbind res_bind]. destruct Hrc as [(-> & Hc1 & _ & Hok) | (Hrc & -> & Hwhy)].
    + cbn [negb Z.eqb of_option mbind res_bind]. pose proof (rep_size _ _ R1) as Hs1.
      rewrite (proj2 (Z.leb_le _ _)), (proj2 (Z.ltb_lt _ _)) by lia. rewrite Grow by (done || lia).
      split; [done |]. destruct Hok as [? | [_ [? | ->]]]; [lia.. |]. by intros _ [? | ?].
    + rewrite (proj2 (Z.eqb_neq _ _) Hrc). cbn [negb].
      destruct Hwhy as [[_ ?] | [(_ & ? & _) | (-> & -> & _)]]; [lia | congruence |].
      split; [intros [? | [_ ?]]; done || lia |]. intros _ _. eexists. split; [done | done].
Qed.

(** Removing from a vector and resizing it.  An index of an element removes exactly that element and keeps the order of the
    others; any other index is reported, as is a vector whose elements may not be moved, and these leave it unchanged.  Shrinking keeps the first
    elements; growing reallocates if it must (the errors leave the vector unchanged) and then clears the new elements with a byte count computed the wrong way
    round, [(old size - new size) * elementsize], which is negative: a growth that gets that far always writes outside the array. *)
Theorem tmVector_remove_resize (alloc : Z -> bool) (h : CVector) (xs : list (block Z)) (Hrep : rep h xs) :
  (forall i, has_flag h CVECTOR_FLAGS_NO_RELOCATION = true -> tmVectorRemoveElement (Some h) i = Ok (CVECTOR_NO_RELOCATION, Some h)) /\
  (forall i, has_flag h CVECTOR_FLAGS_NO_RELOCATION = false ->
    (0 <= i < size h -> exists h',
       tmVectorRemoveElement (Some h) i = Ok (0, Some h') /\ rep h' (delete (Z.to_nat i) xs) /\
       capacity h' = capacity h /\ flags h' = flags h) /\
    (~ 0 <= i < size h -> tmVectorRemoveElement (Some h) i = Ok (CVECTOR_NOT_FOUND, Some h))) /\
  (forall n, has_flag h CVECTOR_FLAGS_NO_RESIZE = false -> 0 <= n -> n * elementsize h <= INT_MAX ->
    (n <= size h -> exists h', tmVectorSetSize alloc (Some h) n = Ok (0, Some h') /\ rep h' (take (Z.to_nat n) xs)) /\
    (size h < n ->
       (n <= capacity h \/ has_flag h CVECTOR_FLAGS_NO_RELOCATION = false /\ alloc (n * elementsize h) = true ->
          tmVectorSetSize alloc (Some h) n = UB) /\
       (capacity h < n -> has_flag h CVECTOR_FLAGS_NO_RELOCATION = true \/ alloc (n * elementsize h) = false ->
          exists rc, tmVectorSetSize alloc (Some h) n = Ok (rc, Some h) /\ rc < 0))).
Proof.
  split_and!; [intros i; exact (proj1 (tmVectorRemoveElement_spec h xs i Hrep)) | intros i; exact (proj2 (tmVectorRemoveElement_spec h xs i Hrep)) |].
  intros n Hf Hn Hb. exact (tmVectorSetSize_spec alloc h xs n Hrep Hf Hn Hb).
Qed.

Lemma tmVector_remove_resize_witness :
  tmVectorRemoveElement (Some sample_vector) 7 = Ok (CVECTOR_NOT_FOUND, Some sample_vector) /\
  tmVectorSetSize (fun _ => true) (Some sample_vector) 3 = UB.
Proof.
  destruct (tmVector_remove_resize (fun _ => true) sample_vector _ sample_rep) as (_ & H1 & H2). split.
  - apply (H1 7 eq_refl). cbn. lia.
  - destruct (H2 3 eq_refl ltac:(lia) ltac:(vm_compute; discriminate)) as [_ [H _]]; [cbn; lia |]. apply H. right. split; reflexivity.
Defined.
