(* ===== verification/Node.v ===== *)
(** * The class registry

    [vmp/src/vmp_node.c]: the vector of [nodedef]s (a packed structure of 24 bytes: two [int]s and
    two function pointers).  Function pointers are addresses; [call] is the effect of calling one. *)

From S2P Require Import Prelude Vector.

Record nodedef := MkNodedef {
  nflags : Z;
  nclass : Z;
  pfn_create : Z;
  pfn_delete : Z
}.

Definition sizeof_nodedef : Z := 24.

(** The structure in memory, and back. *)
Definition encode_nodedef (d : nodedef) : list Z :=
  le 4 (nflags d) ++ le 4 (nclass d) ++ le 8 (pfn_create d) ++ le 8 (pfn_delete d).

Definition decode (cells : block Z) : res nodedef :=
  bs ← blk_load 0 24 cells;
  Ok (MkNodedef (i32 (le_val (take 4 bs))) (i32 (le_val (take 4 (drop 4 bs))))
        (le_val (take 8 (drop 8 bs))) (le_val (take 8 (drop 16 bs)))).

Section code.
Context (alloc : Z -> bool) {node : Type} (call : Z -> node).

Definition node_init (alloc_handle : bool) : VmpVector :=
  (tmVectorCreate alloc true alloc_handle sizeof_nodedef 100).2.

Definition node_done (v : VmpVector) : VmpVector := (tmVectorFree true v).2.

(** The log statement reads the size of the vector. *)
Definition node_register_class (def : nodedef) (v : VmpVector) : res VmpVector :=
  '(_, v) ← tmVectorAddElement alloc v (encode_nodedef def);
  _ ← of_option v;
  Ok v.

(** The loops: [for (i = 0; i < tmVectorSize(v); i++)]; a failed [tmVectorGetElement] leaves the local
    [nodedef] indeterminate. *)
Fixpoint unregister_loop (fuel : nat) (i : Z) (nclass' : Z) (v : VmpVector) : res VmpVector :=
  match fuel with
  | O => NoFuel
  | S fuel =>
      h ← of_option v;
      if i <? size h then
        '(_, cells) ← tmVectorGetElement v i;
        cells ← of_option cells;
        def ← decode cells;
        if nclass def =? nclass' then
          '(_, v) ← tmVectorRemoveElement v i; Ok v
        else unregister_loop fuel (i + 1) nclass' v
      else Ok v
  end.

Definition node_unregister_class (nclass' : Z) (v : VmpVector) : res VmpVector :=
  h ← of_option v; unregister_loop (S (Z.to_nat (size h))) 0 nclass' v.

Fixpoint find_loop (fuel : nat) (i : Z) (nclass' : Z) (v : VmpVector) : res (option nodedef) :=
  match fuel with
  | O => NoFuel
  | S fuel =>
      h ← of_option v;
      if i <? size h then
        '(_, cells) ← tmVectorGetElement v i;
        cells ← of_option cells;
        tmpdef ← decode cells;
        if nclass tmpdef =? nclass' then Ok (Some tmpdef)
        else find_loop fuel (i + 1) nclass' v
      else Ok None
  end.

Definition node_find_class (v : VmpVector) (nclass' : Z) : res (option nodedef) :=
  h ← of_option v; find_loop (S (Z.to_nat (size h))) 0 nclass' v.

(** [None] is the NULL node. *)
Definition node_create (nclass' : Z) (v : VmpVector) : res (option node) :=
  def ← node_find_class v nclass';
  match def with
  | Some def => Ok (Some (call (pfn_create def)))
  | None => Ok None
  end.
End code.

(** ** The registry as a list of definitions *)

Definition wf_def (d : nodedef) : Prop :=
  INT_MIN <= nflags d <= INT_MAX /\ INT_MIN <= nclass d <= INT_MAX /\
  0 <= pfn_create d < 2 ^ 64 /\ 0 <= pfn_delete d < 2 ^ 64.

Definition image (d : nodedef) : block Z := Some <$> encode_nodedef d.

Definition registry (v : VmpVector) (defs : list nodedef) : Prop :=
  exists h, v = Some h /\ rep h (image <$> defs) /\ elementsize h = sizeof_nodedef /\
    flags h = 0 /\ Forall wf_def defs.

Lemma encode_nodedef_length d : length (encode_nodedef d) = 24%nat.
Proof. unfold encode_nodedef. by rewrite !length_app, !le_length. Qed.

Lemma i32_wrap z : INT_MIN <= z <= INT_MAX -> i32 (wrap 32 z) = z.
Proof.
  unfold INT_MIN, INT_MAX. intros H. unfold swrap, wrap. change (2 ^ (32 - 1)) with (2 ^ 31).
  rewrite Zplus_mod_idemp_l, Z.mod_small by lia. lia.
Qed.

Lemma decode_image d : wf_def d -> decode (image d) = Ok d.
Proof.
  intros (H1 & H2 & H3 & H4). unfold decode, image.
  rewrite (blk_load_holds 0 24 (encode_nodedef d)) by
    (exists [] || rewrite encode_nodedef_length; rewrite ?app_nil_r; done || lia).
  rewrite drop_0, (take_ge (encode_nodedef d)) by (rewrite encode_nodedef_length; lia). cbn [mbind res_bind].
  unfold encode_nodedef.
  rewrite (take_app_length' (le 4 _)) by (by rewrite le_length).
  rewrite (drop_app_length' (le 4 _)) by (by rewrite le_length).
  rewrite (take_app_length' (le 4 _)) by (by rewrite le_length).
  rewrite (app_assoc (le 4 (nflags d))), (drop_app_length' (_ ++ _)) by (by rewrite length_app, !le_length).
  rewrite (take_app_length' (le 8 _)) by (by rewrite le_length).
  rewrite (app_assoc (_ ++ _)), (drop_app_length' (_ ++ _)) by (by rewrite !length_app, !le_length).
  rewrite (take_ge (le 8 _)) by (by rewrite le_length).
  rewrite !le_val_le. cbn [Z.of_nat]. change (8 * Z.of_nat 4) with 32. change (8 * Z.of_nat 8) with 64.
  rewrite !i32_wrap, !wrap_small by done. by destruct d.
Qed.

Lemma registry_get h defs i d :
  rep h (image <$> defs) -> defs !! i = Some d ->
  tmVectorGetElement (Some h) (Z.of_nat i) = Ok (0, Some (image d)).
Proof.
  intros R Hd. rewrite (get_element_spec h _ _ R), (proj2 (Z.leb_le _ _)), Nat2Z.id by lia.
  by rewrite list_lookup_fmap, Hd.
Qed.

(** Both loops visit the definitions in order from [i]. *)
Lemma loop_step h defs i :
  rep h (image <$> defs) -> Forall wf_def defs ->
  (Z.of_nat i <? size h) = bool_decide (i < length defs)%nat /\
  forall d, defs !! i = Some d ->
    exists cells, tmVectorGetElement (Some h) (Z.of_nat i) = Ok (0, Some cells) /\ decode cells = Ok d.
Proof.
  intros R W. pose proof (rep_size _ _ R) as Hs. rewrite length_fmap in Hs. split.
  - case_bool_decide; [apply Z.ltb_lt | apply Z.ltb_ge]; lia.
  - intros d Hd. exists (image d). split; [by eapply registry_get |]. apply decode_image.
    by eapply (Forall_lookup_1 wf_def).
Qed.

Definition has_class (c : Z) (d : nodedef) : bool := nclass d =? c.

Lemma find_loop_spec h defs c fuel i :
  rep h (image <$> defs) -> Forall wf_def defs -> (length defs - i < fuel)%nat ->
  find_loop fuel (Z.of_nat i) c (Some h) = Ok (List.find (has_class c) (drop i defs)).
Proof.
  intros R W. revert i; induction fuel as [| fuel IH]; intros i Hf; [lia |].
  cbn [find_loop of_option mbind res_bind]. destruct (loop_step h defs i R W) as [-> Hget].
  case_bool_decide as Hi.
  - destruct (lookup_lt_is_Some_2 defs i Hi) as [d Hd]. destruct (Hget d Hd) as (cells & -> & Hc).
    cbn [mbind res_bind of_option]. rewrite Hc. cbn [mbind res_bind].
    rewrite (drop_S _ _ _ Hd). cbn [List.find]. unfold has_class at 1.
    destruct (nclass d =? c); [done |]. replace (Z.of_nat i + 1) with (Z.of_nat (S i)) by lia.
    apply IH. lia.
  - by rewrite drop_ge by lia.
Qed.

(** Removing the first definition of a class. *)
Fixpoint remove_first (c : Z) (defs : list nodedef) : list nodedef :=
  match defs with
  | [] => []
  | d :: defs => if has_class c d then defs else d :: remove_first c defs
  end.

Lemma remove_first_drop c defs i :
  Forall (fun d => has_class c d = false) (take i defs) ->
  remove_first c defs = take i defs ++ remove_first c (drop i defs).
Proof.
  revert i; induction defs as [| d defs IH]; intros [| i] H; try done.
  cbn in H. apply Forall_cons_1 in H as [Hd H]. cbn. rewrite Hd. f_equal. by apply IH.
Qed.

Lemma unregister_loop_spec h defs c fuel i :
  rep h (image <$> defs) -> elementsize h = sizeof_nodedef -> flags h = 0 -> Forall wf_def defs ->
  (length defs - i < fuel)%nat ->
  Forall (fun d => has_class c d = false) (take i defs) ->
  exists v, unregister_loop fuel (Z.of_nat i) c (Some h) = Ok v /\ registry v (remove_first c defs).
Proof.
  intros R He Hfl W. revert i; induction fuel as [| fuel IH]; intros i Hf Ht; [lia |].
  cbn [unregister_loop of_option mbind res_bind]. destruct (loop_step h defs i R W) as [-> Hget].
  rewrite (remove_first_drop c defs i Ht).
  case_bool_decide as Hi.
  - destruct (lookup_lt_is_Some_2 defs i Hi) as [d Hd]. destruct (Hget d Hd) as (cells & -> & Hc).
    cbn [mbind res_bind of_option]. rewrite Hc. cbn [mbind res_bind].
    rewrite (drop_S _ _ _ Hd). cbn [remove_first]. unfold has_class at 1.
    destruct (nclass d =? c) eqn:Hcd.
    + pose proof (rep_size _ _ R) as Hs. rewrite length_fmap in Hs.
      destruct (remove_element_ok h _ (Z.of_nat i) R) as (h' & -> & R' & _ & E' & F');
        [unfold has_flag; by rewrite Hfl | lia |]. cbn [mbind res_bind].
      eexists. split; [done |]. exists h'. split_and!; [done | | | congruence |].
      * rewrite Nat2Z.id, delete_take_drop, <- fmap_take, <- fmap_drop, <- fmap_app in R'. exact R'.
      * congruence.
      * rewrite Forall_app. split; [by apply Forall_take | by apply Forall_drop].
    + replace (Z.of_nat i + 1) with (Z.of_nat (S i)) by lia.
      destruct (IH (S i)) as (v & -> & Hv); [lia | |].
      * rewrite (take_S_r _ _ _ Hd), Forall_app. split; [done |]. by repeat constructor.
      * exists v. split; [done |].
        rewrite (remove_first_drop c defs (S i)) in Hv.
        2:{ rewrite (take_S_r _ _ _ Hd), Forall_app. split; [done |]. by repeat constructor. }
        by rewrite (take_S_r _ _ _ Hd), <- app_assoc in Hv.
  - rewrite (drop_ge defs) by lia. cbn [remove_first]. rewrite app_nil_r, take_ge by lia.
    eexists. split; [done |]. exists h. done.
Qed.

(** A registry after start-up: empty, with room for a hundred classes. *)
Lemma node_init_registry alloc :
  alloc 2400 = true -> registry (node_init alloc true) [].
Proof.
  intros Ha. unfold node_init, tmVectorCreate, malloc. change (u64 (_ * u64 sizeof_nodedef)) with 2400.
  rewrite Ha. eexists. split; [done |]. split_and!; try done.
  split; cbn; try done. by eexists.
Qed.

(** Looking a class up.  [node_find_class] always terminates and returns the first registered
    definition of the class, read back bit for bit, and nothing when there is none; [node_create]
    calls exactly that definition's constructor. *)
Lemma node_create_spec {node : Type} (call : Z -> node) (v : VmpVector) (defs : list nodedef) (c : Z)
    (Hreg : registry v defs) :
  node_find_class v c = Ok (List.find (has_class c) defs) /\
  node_create call c v = Ok (call ∘ pfn_create <$> List.find (has_class c) defs).
Proof.
  destruct Hreg as (h & -> & R & He & Hf & W).
  assert (E : node_find_class (Some h) c = Ok (List.find (has_class c) defs)).
  { unfold node_find_class. cbn [of_option mbind res_bind].
    rewrite (find_loop_spec h defs c _ 0 R W), drop_0; [done |].
    rewrite (rep_size _ _ R), length_fmap. lia. }
  split; [done |]. unfold node_create. rewrite E. cbn. by destruct (List.find _ _).
Qed.

(** Registering with room: the definition goes behind the others, the room stays. *)
Lemma register_ok alloc h defs d : registry (Some h) defs -> wf_def d -> size h < capacity h <= 2 ^ 20 ->
  exists h', node_register_class alloc d (Some h) = Ok (Some h') /\ registry (Some h') (defs ++ [d]) /\
    capacity h' = capacity h /\ size h = Z.of_nat (length defs).
Proof.
  intros (? & [= <-] & R & He & Hf & W) Wd Hs. unfold node_register_class.
  destruct (add_element_ok alloc h (image <$> defs) (encode_nodedef d)) as (h' & -> & R' & F' & E' & C').
  { done. } { done. } { by rewrite He, encode_nodedef_length. }
  { rewrite He. unfold sizeof_nodedef, INT_MAX. lia. } { lia. }
  rewrite (proj2 (Z.leb_gt _ _)) in C' by lia.
  cbn [mbind res_bind of_option]. eexists. split; [done |]. split_and!.
  - exists h'. split_and!; [done | by rewrite fmap_app | congruence | congruence |].
    rewrite Forall_app. split; [done | by constructor].
  - done.
  - by rewrite (rep_size _ _ R), length_fmap.
Qed.

(** Registering and unregistering.  Registering adds the definition after the others, while
    fewer classes are registered than the vector holds; unregistering removes exactly the first
    definition of the class and keeps the others in order; both keep the registry well formed. *)
Lemma node_register_unregister (alloc : Z -> bool) (v : VmpVector) (defs : list nodedef)
    (Hreg : registry v defs) :
  (forall d h, v = Some h -> wf_def d -> size h < capacity h <= 2 ^ 20 ->
     exists v', node_register_class alloc d v = Ok v' /\ registry v' (defs ++ [d])) /\
  (forall c, exists v', node_unregister_class c v = Ok v' /\ registry v' (remove_first c defs)).
Proof.
  destruct Hreg as (h & -> & Hreg). split.
  - intros d ? [= <-] Wd Hs. destruct (register_ok alloc h defs d) as (h' & E & R & _); [by exists h | done | done |]. by exists (Some h').
  - destruct Hreg as (R & He & Hf & W). intros c. unfold node_unregister_class. cbn [of_option mbind res_bind].
    apply (unregister_loop_spec h defs c _ 0); try done.
    rewrite (rep_size _ _ R), length_fmap. lia.
Qed.

Definition sample_def : nodedef := MkNodedef 0 1346655570 4198400 4198500.

(** The class registry.  On a registry that holds the definitions [defs]: looking a class up always ends
    and gives its first definition, bit for bit, and creating a node calls exactly that one's constructor; registering adds a definition
    behind the others while there is room; unregistering removes exactly the first definition of the class; both keep the registry well formed. *)
Theorem node_registry {node : Type} (call : Z -> node) (alloc : Z -> bool) (v : VmpVector) (defs : list nodedef) (Hreg : registry v defs) :
  (forall c, node_find_class v c = Ok (List.find (has_class c) defs) /\
     node_create call c v = Ok (call ∘ pfn_create <$> List.find (has_class c) defs)) /\
  (forall d h, v = Some h -> wf_def d -> size h < capacity h <= 2 ^ 20 ->
     exists v', node_register_class alloc d v = Ok v' /\ registry v' (defs ++ [d])) /\
  (forall c, exists v', node_unregister_class c v = Ok v' /\ registry v' (remove_first c defs)).
Proof. split; [intros c; by apply node_create_spec | by apply node_register_unregister]. Qed.

Lemma node_registry_witness :
  node_create (fun p => p) 5 (node_init (fun _ => true) true) = Ok None /\
  exists v', node_register_class (fun _ => true) sample_def (node_init (fun _ => true) true) = Ok v' /\ registry v' [sample_def].
Proof.
  assert (R : registry (node_init (fun _ => true) true) []) by (apply node_init_registry; reflexivity).
  destruct (node_registry (fun p => p) (fun _ => true) _ [] R) as (H1 & H2 & _). split; [apply H1 |].
  destruct (H2 sample_def _ eq_refl) as (v' & E & Hv).
  - repeat split; vm_compute; discriminate.
  - split; vm_compute; [reflexivity | discriminate].
  - exists v'. split; [exact E | exact Hv].
Defined.
