(* ===== verification/List.v ===== *)
(** * Intrusive doubly linked lists

    [include/vmp/vpk_list.h].  A [struct list_head] is two words of memory; the heap keeps the [next]
    words and the [prev] words of the nodes by address.  A store to a node that is not allocated is
    undefined.  Every operation performs the source's loads and stores in order. *)

From S2P Require Import Prelude.

Record heap := Heap {
  nexts : gmap Z Z;
  prevs : gmap Z Z
}.

Definition get_next (a : Z) (h : heap) : res Z := of_option (nexts h !! a).
Definition get_prev (a : Z) (h : heap) : res Z := of_option (prevs h !! a).

Definition set_next (a v : Z) (h : heap) : res heap :=
  _ ← get_next a h; Ok (Heap (<[a := v]> (nexts h)) (prevs h)).
Definition set_prev (a v : Z) (h : heap) : res heap :=
  _ ← get_prev a h; Ok (Heap (nexts h) (<[a := v]> (prevs h))).

(** ** The operations *)

Definition INIT_LIST_HEAD (list : Z) (h : heap) : res heap :=
  h ← set_next list list h; set_prev list list h.

Definition __list_add (new prev next : Z) (h : heap) : res heap :=
  h ← set_prev next new h;
  h ← set_next new next h;
  h ← set_prev new prev h;
  set_next prev new h.

Definition list_add (new head : Z) (h : heap) : res heap :=
  next ← get_next head h; __list_add new head next h.

Definition list_add_tail (new head : Z) (h : heap) : res heap :=
  prev ← get_prev head h; __list_add new prev head h.

Definition __list_del (prev next : Z) (h : heap) : res heap :=
  h ← set_prev next prev h; set_next prev next h.

Definition __list_del_entry (entry : Z) (h : heap) : res heap :=
  prev ← get_prev entry h; next ← get_next entry h; __list_del prev next h.

Definition list_del (entry : Z) (h : heap) : res heap :=
  prev ← get_prev entry h; next ← get_next entry h; __list_del prev next h.

Definition list_replace (old new : Z) (h : heap) : res heap :=
  n ← get_next old h; h ← set_next new n h;
  n ← get_next new h; h ← set_prev n new h;
  p ← get_prev old h; h ← set_prev new p h;
  p ← get_prev new h; set_next p new h.

Definition list_replace_init (old new : Z) (h : heap) : res heap :=
  h ← list_replace old new h; INIT_LIST_HEAD old h.

Definition list_del_init (entry : Z) (h : heap) : res heap :=
  h ← __list_del_entry entry h; INIT_LIST_HEAD entry h.

Definition list_move (list head : Z) (h : heap) : res heap :=
  h ← __list_del_entry list h; list_add list head h.

Definition list_move_tail (list head : Z) (h : heap) : res heap :=
  h ← __list_del_entry list h; list_add_tail list head h.

Definition list_is_last (list head : Z) (h : heap) : res bool :=
  n ← get_next list h; Ok (n =? head).

Definition list_empty (head : Z) (h : heap) : res bool :=
  n ← get_next head h; Ok (n =? head).

Definition list_empty_careful (head : Z) (h : heap) : res bool :=
  next ← get_next head h;
  if next =? head then p ← get_prev head h; Ok (next =? p) else Ok false.

Definition list_rotate_left (head : Z) (h : heap) : res heap :=
  e ← list_empty head h;
  if negb e then first ← get_next head h; list_move_tail first head h else Ok h.

Definition list_is_singular (head : Z) (h : heap) : res bool :=
  e ← list_empty head h;
  if negb e then n ← get_next head h; p ← get_prev head h; Ok (n =? p) else Ok false.

Definition __list_cut_position (list head entry : Z) (h : heap) : res heap :=
  new_first ← get_next entry h;
  n ← get_next head h; h ← set_next list n h;
  n ← get_next list h; h ← set_prev n list h;
  h ← set_prev list entry h;
  h ← set_next entry list h;
  h ← set_next head new_first h;
  set_prev new_first head h.

Definition list_cut_position (list head entry : Z) (h : heap) : res heap :=
  e ← list_empty head h;
  if (e : bool) then Ok h else
  s ← list_is_singular head h;
  n ← (if (s : bool) then n ← get_next head h; Ok (negb (n =? entry) && negb (head =? entry)) else Ok false);
  if (n : bool) then Ok h else
  if entry =? head then INIT_LIST_HEAD list h else __list_cut_position list head entry h.

Definition __list_splice (list prev next : Z) (h : heap) : res heap :=
  first ← get_next list h;
  last ← get_prev list h;
  h ← set_prev first prev h;
  h ← set_next prev first h;
  h ← set_next last next h;
  set_prev next last h.

Definition list_splice (list head : Z) (h : heap) : res heap :=
  e ← list_empty list h;
  if negb e then n ← get_next head h; __list_splice list head n h else Ok h.

Definition list_splice_tail (list head : Z) (h : heap) : res heap :=
  e ← list_empty list h;
  if negb e then p ← get_prev head h; __list_splice list p head h else Ok h.

Definition list_splice_init (list head : Z) (h : heap) : res heap :=
  e ← list_empty list h;
  if negb e then n ← get_next head h; h ← __list_splice list head n h; INIT_LIST_HEAD list h else Ok h.

Definition list_splice_tail_init (list head : Z) (h : heap) : res heap :=
  e ← list_empty list h;
  if negb e then p ← get_prev head h; h ← __list_splice list p head h; INIT_LIST_HEAD list h else Ok h.

(** [list_for_each] and [list_for_each_prev]: the nodes visited, when the body changes nothing. *)
Fixpoint walk (step : Z -> heap -> res Z) (fuel : nat) (pos head : Z) (h : heap) : res (list Z) :=
  match fuel with
  | O => NoFuel
  | S fuel =>
      if pos =? head then Ok [] else
      next ← step pos h; rest ← walk step fuel next head h; Ok (pos :: rest)
  end.

Definition list_for_each (fuel : nat) (head : Z) (h : heap) : res (list Z) :=
  pos ← get_next head h; walk get_next fuel pos head h.

Definition list_for_each_prev (fuel : nat) (head : Z) (h : heap) : res (list Z) :=
  pos ← get_prev head h; walk get_prev fuel pos head h.

(** [list_for_each_safe(pos, n, head) body]: [n] is read before the body runs on [pos]. *)
Fixpoint walk_safe {S} (body : Z -> S * heap -> res (S * heap)) (fuel : nat) (pos n head : Z)
    (s : S * heap) : res (S * heap) :=
  match fuel with
  | O => NoFuel
  | Datatypes.S fuel =>
      if pos =? head then Ok s else
      s ← body pos s;
      n' ← get_next n s.2;
      walk_safe body fuel n n' head s
  end.

Definition list_for_each_safe {S} (body : Z -> S * heap -> res (S * heap)) (fuel : nat) (head : Z)
    (s : S * heap) : res (S * heap) :=
  pos ← get_next head s.2; n ← get_next pos s.2; walk_safe body fuel pos n head s.

(** ** Links *)

Definition edge (h : heap) (x y : Z) : Prop := nexts h !! x = Some y /\ prevs h !! y = Some x.

Fixpoint linked (h : heap) (x : Z) (l : list Z) : Prop :=
  match l with [] => True | y :: l => edge h x y /\ linked h y l end.

(** A node whose two words are allocated. *)
Definition node (h : heap) (a : Z) : Prop := is_Some (nexts h !! a) /\ is_Some (prevs h !! a).

(** The list of head [head] holds the nodes [xs], in order, in both directions. *)
Definition ring (h : heap) (head : Z) (xs : list Z) : Prop :=
  NoDup (head :: xs) /\ linked h head (xs ++ [head]).

(** [h'] differs from [h] at the nodes [ns] only. *)
Definition only (ns : list Z) (h h' : heap) : Prop :=
  forall a, a ∉ ns -> nexts h' !! a = nexts h !! a /\ prevs h' !! a = prevs h !! a.

Lemma linked_app h x l y l' : linked h x (l ++ y :: l') <-> linked h x (l ++ [y]) /\ linked h y l'.
Proof. revert x; induction l as [| z l IH]; intros x; cbn; [tauto |]. rewrite IH. tauto. Qed.

Lemma linked_frame h h' x l y :
  linked h x (l ++ [y]) ->
  (forall u, u ∈ x :: l -> nexts h' !! u = nexts h !! u) ->
  (forall v, v ∈ l ++ [y] -> prevs h' !! v = prevs h !! v) ->
  linked h' x (l ++ [y]).
Proof.
  revert x; induction l as [| z l IH]; intros x H Hn Hp; cbn in *; destruct H as [[H1 H2] H].
  - split; [| done]. split; [rewrite Hn | rewrite Hp]; set_solver.
  - split; [split; [rewrite Hn | rewrite Hp]; set_solver |].
    apply IH; [done | |]; intros; [apply Hn | apply Hp]; set_solver.
Qed.

(** The node before and after a position of the ring. *)
Definition before (x : Z) (l : list Z) : Z := List.last l x.
Definition after (l : list Z) (x : Z) : Z := hd x l.

Lemma before_snoc x l y : before x (l ++ [y]) = y.
Proof. apply last_last. Qed.

(** A position of a ring: the path up to it, the edge across it, and the path after it. *)
Lemma linked_split h x l1 l2 y :
  linked h x (l1 ++ l2 ++ [y]) <->
  linked h x l1 /\ edge h (before x l1) (after l2 y) /\ linked h (after l2 y) (tail (l2 ++ [y])).
Proof.
  destruct l1 as [| z l1 _] using rev_ind.
  - destruct l2; cbn; tauto.
  - rewrite before_snoc, <- app_assoc. cbn [app]. rewrite linked_app. destruct l2; cbn; tauto.
Qed.

Lemma frame_l h h' x l :
  NoDup (x :: l) -> linked h x l ->
  (forall u, u ∈ x :: l -> u <> before x l -> nexts h' !! u = nexts h !! u) ->
  (forall v, v ∈ l -> prevs h' !! v = prevs h !! v) ->
  linked h' x l.
Proof.
  destruct l as [| z l _] using rev_ind; [done |]. rewrite before_snoc. intros Hd H Hn Hp.
  apply (linked_frame h); [done | | done]. intros u Hu. apply Hn; [set_solver |].
  rewrite NoDup_cons, NoDup_app in Hd. set_solver.
Qed.

Lemma frame_r h h' l y :
  NoDup (y :: l) -> linked h (after l y) (tail (l ++ [y])) ->
  (forall u, u ∈ l -> nexts h' !! u = nexts h !! u) ->
  (forall v, v ∈ y :: l -> v <> after l y -> prevs h' !! v = prevs h !! v) ->
  linked h' (after l y) (tail (l ++ [y])).
Proof.
  destruct l as [| z l]; [done |]. cbn. rewrite !NoDup_cons. intros Hd H Hn Hp.
  apply (linked_frame h); [done | done |]. intros v Hv. apply Hp; set_solver.
Qed.

Lemma linked_join h x l1 ys l2 y :
  linked h x l1 -> linked h (before x l1) (ys ++ [after l2 y]) ->
  linked h (after l2 y) (tail (l2 ++ [y])) ->
  linked h x (l1 ++ ys ++ l2 ++ [y]).
Proof.
  intros H1 H2 H3. assert (H : linked h (before x l1) (ys ++ l2 ++ [y])).
  { destruct l2 as [| z l2]; [done |]. cbn [app]. rewrite linked_app. done. }
  destruct l1 as [| z l1 _] using rev_ind; [done |]. rewrite before_snoc in H.
  rewrite <- app_assoc. cbn [app]. by rewrite linked_app.
Qed.

(** Replace the edge across a position of a path by a path through [ys]. *)
Lemma bridge_path h h' x y l1 ys l2 :
  NoDup (x :: l1 ++ l2) -> y ∉ l1 ++ l2 -> linked h x l1 -> linked h (after l2 y) (tail (l2 ++ [y])) ->
  (forall u, u ∈ x :: l1 ++ l2 -> u <> before x l1 -> nexts h' !! u = nexts h !! u) ->
  (forall v, v ∈ y :: l1 ++ l2 -> v <> after l2 y -> prevs h' !! v = prevs h !! v) ->
  linked h' (before x l1) (ys ++ [after l2 y]) ->
  linked h' x (l1 ++ ys ++ l2 ++ [y]).
Proof.
  intros Hd Hyl H1 H3 Hn Hp Hy.
  rewrite NoDup_cons, NoDup_app in Hd. destruct Hd as (Hx & Hd1 & Hd12 & Hd2).
  apply linked_join; [| done |].
  - apply (frame_l h); [apply NoDup_cons; set_solver | done | |].
    + intros u Hu. apply Hn. set_solver.
    + intros v Hv. apply Hp; [set_solver |]. destruct l2; cbn; set_solver.
  - apply (frame_r h); [apply NoDup_cons; set_solver | done | |].
    + intros u Hu. apply Hn; [set_solver |].
      destruct l1 as [| z l1 _] using rev_ind; cbn; [set_solver |]. rewrite before_snoc. set_solver.
    + intros v Hv. apply Hp. set_solver.
Qed.

Lemma bridge h h' x l1 ys l2 :
  NoDup (x :: l1 ++ l2) -> linked h x l1 -> linked h (after l2 x) (tail (l2 ++ [x])) ->
  (forall u, u ∈ x :: l1 ++ l2 -> u <> before x l1 -> nexts h' !! u = nexts h !! u) ->
  (forall v, v ∈ x :: l1 ++ l2 -> v <> after l2 x -> prevs h' !! v = prevs h !! v) ->
  linked h' (before x l1) (ys ++ [after l2 x]) ->
  linked h' x (l1 ++ ys ++ l2 ++ [x]).
Proof. intros Hd. apply bridge_path; [done |]. by apply NoDup_cons in Hd as [? _]. Qed.

Lemma ring_edge h x l1 l2 : ring h x (l1 ++ l2) -> edge h (before x l1) (after l2 x).
Proof. intros [_ H]. rewrite <- app_assoc, linked_split in H. tauto. Qed.

Lemma ring_at h x l1 e l2 :
  ring h x (l1 ++ e :: l2) -> edge h (before x l1) e /\ edge h e (after l2 x).
Proof.
  intros H. split; [by apply (ring_edge h x l1 (e :: l2)) |].
  change (e :: l2) with ([e] ++ l2) in H. rewrite app_assoc in H.
  apply ring_edge in H. by rewrite before_snoc in H.
Qed.

Lemma ring_head h x xs : ring h x xs -> nexts h !! x = Some (after xs x) /\ prevs h !! x = Some (before x xs).
Proof.
  intros H. split.
  - apply (ring_edge h x [] xs) in H. apply H.
  - rewrite <- (app_nil_r xs) in H. apply ring_edge in H. apply H.
Qed.

(** The words of the list determine its nodes. *)
Lemma path_fun h y xs ys : forall x, y ∉ xs -> y ∉ ys -> linked h x (xs ++ [y]) -> linked h x (ys ++ [y]) -> xs = ys.
Proof.
  revert ys; induction xs as [| a xs IH]; intros [| b ys] x Hx Hy H1 H2; cbn in H1, H2; [done | | |];
    destruct H1 as [[N1 _] H1], H2 as [[N2 _] H2]; rewrite N1 in N2; injection N2 as E.
  - subst b. exfalso. apply Hy. left.
  - subst a. exfalso. apply Hx. left.
  - subst b. f_equal. apply (IH ys a); [set_solver | set_solver | done | done].
Qed.

Lemma ring_fun h x xs ys : ring h x xs -> ring h x ys -> xs = ys.
Proof.
  intros [Hd1 H1] [Hd2 H2]. apply NoDup_cons in Hd1 as [Hx _]. apply NoDup_cons in Hd2 as [Hy _].
  by apply (path_fun h x xs ys x).
Qed.

Lemma position_in x l1 l2 : before x l1 ∈ x :: l1 ++ l2 /\ after l2 x ∈ x :: l1 ++ l2.
Proof.
  split; [| destruct l2; cbn; set_solver].
  destruct l1 as [| z l1 _] using rev_ind; cbn; [set_solver |]. rewrite before_snoc. set_solver.
Qed.

(** ** Stores *)

Lemma set_next_Ok a v h :
  is_Some (nexts h !! a) -> set_next a v h = Ok (Heap (<[a := v]> (nexts h)) (prevs h)).
Proof. intros [y Hy]. unfold set_next, get_next. by rewrite Hy. Qed.

Lemma set_prev_Ok a v h :
  is_Some (prevs h !! a) -> set_prev a v h = Ok (Heap (nexts h) (<[a := v]> (prevs h))).
Proof. intros [y Hy]. unfold set_prev, get_prev. by rewrite Hy. Qed.

Lemma edge_node h x y : edge h x y -> is_Some (nexts h !! x) /\ is_Some (prevs h !! y).
Proof. intros [-> ->]. eauto. Qed.

(** Run the stores of an operation whose nodes are known to be allocated. *)
Ltac allocated :=
  cbn [nexts prevs]; rewrite ?lookup_insert_is_Some';
  repeat match goal with |- _ \/ _ => (left; congruence) || right end; try done.
Ltac stores :=
  repeat (first [ rewrite set_next_Ok by allocated | rewrite set_prev_Ok by allocated ];
          cbn [mbind res_bind nexts prevs]).

(** Nodes are different because one is in a list the other is not in. *)
Ltac apart :=
  let E := fresh in intros E; subst;
  repeat match goal with H : _ ∉ _ |- _ => revert H end; set_solver.

(** Look a word up in the memory an operation left. *)
Ltac look :=
  cbn [nexts prevs];
  repeat first [ rewrite lookup_insert_eq | rewrite lookup_insert_ne by (congruence || apart) ]; try done.

Definition alloc_same (h h' : heap) : Prop :=
  dom (nexts h') = dom (nexts h) /\ dom (prevs h') = dom (prevs h).

Lemma list_add_at h x l1 l2 new :
  ring h x (l1 ++ l2) -> node h new -> new ∉ x :: l1 ++ l2 ->
  exists h', __list_add new (before x l1) (after l2 x) h = Ok h' /\
    ring h' x (l1 ++ new :: l2) /\ only (new :: x :: l1 ++ l2) h h' /\ alloc_same h h'.
Proof.
  intros Hr [Hn1 Hn2] Hnew. pose proof (ring_edge _ _ _ _ Hr) as He.
  pose proof (edge_node _ _ _ He) as [Hp Hn]. destruct Hr as [Hd Hl].
  destruct (position_in x l1 l2) as [Hb Ha].
  set (p := before x l1) in *. set (n := after l2 x) in *.
  assert (new <> p /\ new <> n) as [Hnp Hnn] by (split; intros ->; done).
  unfold __list_add. stores. eexists. split; [done |]. split; [split |].
  - apply NoDup_cons in Hd as [Hx Hd]. apply NoDup_cons. split; [set_solver |].
    apply NoDup_app in Hd as (D1 & D12 & D2). apply NoDup_app. split_and!; [done | set_solver |].
    apply NoDup_cons. set_solver.
  - rewrite <- app_assoc in Hl |- *. apply linked_split in Hl as (H1 & _ & H3).
    apply (bridge h _ x l1 [new] l2); [done.. | | |]; fold p n.
    + intros u Hu Hne. look.
    + intros v Hv Hne. look.
    + cbn. repeat split; look.
  - split; [intros a Hna; split; look |]. split; cbn [nexts prevs]; rewrite !dom_insert_lookup_L; try done; allocated.
Qed.

Lemma ring_NoDup_del (x : Z) l1 e l2 :
  NoDup (x :: l1 ++ e :: l2) -> NoDup (x :: l1 ++ l2) /\ e ∉ x :: l1 ++ l2.
Proof.
  intros H. assert (P : x :: l1 ++ e :: l2 ≡ₚ e :: x :: l1 ++ l2)
    by (rewrite <- Permutation_middle; apply perm_swap).
  rewrite P in H. apply NoDup_cons in H. tauto.
Qed.

Lemma list_del_at h x l1 e l2 :
  ring h x (l1 ++ e :: l2) ->
  exists h', list_del e h = Ok h' /\ ring h' x (l1 ++ l2) /\ only (x :: l1 ++ l2) h h' /\
    alloc_same h h'.
Proof.
  intros Hr. destruct (ring_at _ _ _ _ _ Hr) as [E1 E2].
  pose proof (edge_node _ _ _ E1) as [Hp _]. pose proof (edge_node _ _ _ E2) as [_ Hn].
  destruct Hr as [Hd Hl]. apply ring_NoDup_del in Hd as [Hd He].
  destruct (position_in x l1 l2) as [Hb Ha].
  rewrite <- app_assoc in Hl. apply (linked_split h x l1 (e :: l2)) in Hl as (H1 & _ & H3).
  cbn [after hd app tail] in H3. apply (linked_split h e [] l2) in H3 as (_ & _ & H3).
  set (p := before x l1) in *. set (n := after l2 x) in *.
  unfold list_del, get_prev, get_next. rewrite (proj2 E1), (proj1 E2). cbn [of_option mbind res_bind].
  unfold __list_del. stores. eexists. split; [done |]. split; [split; [done |] |].
  - rewrite <- app_assoc. apply (bridge h _ x l1 [] l2); [done.. | | |]; fold p n.
    + intros u Hu Hne. look.
    + intros v Hv Hne. look.
    + cbn. repeat split; look.
  - split; [intros a Hna; split; look |]. split; cbn [nexts prevs]; rewrite !dom_insert_lookup_L; try done; allocated.
Qed.

(** The inner path of a ring, from its first node to its last. *)
Lemma ring_inner h y f t :
  ring h y (f :: t) -> edge h y f /\ linked h f t /\ edge h (before f t) y.
Proof.
  intros [_ H]. cbn in H. destruct H as [He H].
  apply (linked_split h f t []) in H. tauto.
Qed.

Lemma before_cons x y l : before x (y :: l) = before y l.
Proof. unfold before. revert x y; induction l as [| z l IH]; intros x y; [done |]. change (List.last (z :: l) x = List.last (z :: l) y). by rewrite !IH. Qed.

Lemma list_splice_at h x l1 l2 y ys :
  ring h x (l1 ++ l2) -> ring h y ys -> ys <> [] -> NoDup ((x :: l1 ++ l2) ++ y :: ys) ->
  exists h', __list_splice y (before x l1) (after l2 x) h = Ok h' /\
    ring h' x (l1 ++ ys ++ l2) /\ only ((x :: l1 ++ l2) ++ ys) h h' /\ alloc_same h h'.
Proof.
  intros Hr Hy Hne Hdd. destruct ys as [| f t]; [done |].
  destruct (ring_inner _ _ _ _ Hy) as (F1 & F2 & F3).
  pose proof (edge_node _ _ _ F1) as [_ Hf]. pose proof (edge_node _ _ _ F3) as [Hl _].
  pose proof (edge_node _ _ _ (ring_edge _ _ _ _ Hr)) as [Hp Hn].
  destruct (ring_head _ _ _ Hy) as [G1 G2]. rewrite before_cons in G2. cbn [after hd] in G1.
  destruct Hr as [Hd Hlk]. rewrite <- app_assoc in Hlk. apply linked_split in Hlk as (H1 & _ & H3).
  destruct (position_in x l1 l2) as [Hb Ha]. destruct (position_in f t []) as [Hlast _].
  rewrite app_nil_r in Hlast. pose proof (proj1 (NoDup_app _ _) Hdd) as (_ & Hdis & Hdy).
  set (p := before x l1) in *. set (n := after l2 x) in *. set (l := before f t) in *.
  unfold __list_splice, get_prev, get_next. rewrite G1, G2. cbn [of_option mbind res_bind].
  assert (Hpl : p <> l) by (intros E; apply (Hdis p Hb); rewrite E; by right).
  assert (Hnf : n <> f) by (intros E; apply (Hdis n Ha); rewrite E; right; left).
  stores. eexists. split; [done |]. split; [split |].
  - assert (P : (x :: l1 ++ l2) ++ y :: f :: t ≡ₚ y :: x :: l1 ++ (f :: t) ++ l2).
    { rewrite <- Permutation_middle. cbn [app]. do 2 constructor.
      rewrite <- app_assoc. f_equiv. rewrite <- Permutation_middle. by rewrite Permutation_app_comm. }
    rewrite P in Hdd. apply NoDup_cons in Hdd; tauto.
  - rewrite <- !app_assoc. apply (bridge h _ x l1 (f :: t) l2); [done.. | | |]; fold p n.
    + intros u Hu Hup. assert (u <> l) by (intros ->; apply (Hdis _ Hu); by right). look.
    + intros v Hv Hvn. assert (v <> f) by (intros ->; apply (Hdis _ Hv); right; left). look.
    + cbn [app]. split; [split; look |].
      apply (linked_join _ f t [] [] n); [| cbn; repeat split; look | done].
      apply (frame_l h); [apply NoDup_cons in Hdy; tauto | done | |]; fold l.
      * intros u Hu Hul. assert (u <> p) by (intros ->; apply (Hdis _ Hb); by right). look.
      * intros v Hv. assert (v <> n) by (intros ->; apply (Hdis _ Ha); by right; right).
        assert (v <> f) by (intros ->; apply NoDup_cons in Hdy as [_ Hdy]; apply NoDup_cons in Hdy; tauto). look.
  - split; [intros a Hna; split; look |]. split; cbn [nexts prevs]; rewrite !dom_insert_lookup_L; try done; allocated.
Qed.

(** ** The operations on rings *)

Lemma ring_frame h h' ns y ys :
  ring h y ys -> only ns h h' -> (forall a, a ∈ y :: ys -> a ∉ ns) -> ring h' y ys.
Proof.
  intros [Hd Hl] Ho Hn. split; [done |]. apply (linked_frame h); [done | |].
  - intros u Hu. by apply Ho, Hn.
  - intros v Hv. apply Ho, Hn. set_solver.
Qed.

Lemma node_alloc h h' a : alloc_same h h' -> node h a -> node h' a.
Proof. intros [E1 E2] [H1 H2]. split; apply elem_of_dom; rewrite ?E1, ?E2; by apply elem_of_dom. Qed.

Lemma only_trans ns1 ns2 h1 h2 h3 : only ns1 h1 h2 -> only ns2 h2 h3 -> only (ns1 ++ ns2) h1 h3.
Proof.
  intros H1 H2 a Ha. rewrite elem_of_app in Ha.
  split; (etrans; [apply (H2 a) | apply (H1 a)]; tauto).
Qed.

Lemma only_weaken ns ns' h h' : only ns h h' -> ns ⊆ ns' -> only ns' h h'.
Proof. intros H Hs a Ha. apply H. set_solver. Qed.

Lemma alloc_trans h1 h2 h3 : alloc_same h1 h2 -> alloc_same h2 h3 -> alloc_same h1 h3.
Proof. unfold alloc_same. intros [-> ->] [-> ->]. done. Qed.

Lemma init_spec h a :
  node h a -> exists h', INIT_LIST_HEAD a h = Ok h' /\ ring h' a [] /\ only [a] h h' /\ alloc_same h h'.
Proof.
  intros [H1 H2]. unfold INIT_LIST_HEAD. stores. eexists. split; [done |]. split.
  - split; [by apply NoDup_singleton |]. cbn. repeat split; look.
  - split; [intros b Hb; split; look |]. split; cbn [nexts prevs]; by rewrite dom_insert_lookup_L.
Qed.

Lemma ring_node h x xs a : ring h x xs -> a ∈ x :: xs -> node h a.
Proof.
  intros Hr Ha. destruct (ring_head _ _ _ Hr) as [H1 H2]. apply elem_of_cons in Ha as [-> | Ha].
  - split; eauto.
  - apply list_elem_of_split in Ha as (l1 & l2 & ->). apply ring_at in Hr as [[_ E1] [E2 _]]. split; eauto.
Qed.

Lemma list_add_spec h x xs new :
  ring h x xs -> node h new -> new ∉ x :: xs ->
  exists h', list_add new x h = Ok h' /\ ring h' x (new :: xs) /\ only (new :: x :: xs) h h' /\ alloc_same h h'.
Proof.
  intros Hr Hn Hx. unfold list_add, get_next. rewrite (proj1 (ring_head _ _ _ Hr)). cbn [of_option mbind res_bind].
  by apply (list_add_at h x [] xs new).
Qed.

Lemma list_add_tail_spec h x xs new :
  ring h x xs -> node h new -> new ∉ x :: xs ->
  exists h', list_add_tail new x h = Ok h' /\ ring h' x (xs ++ [new]) /\ only (new :: x :: xs) h h' /\ alloc_same h h'.
Proof.
  intros Hr Hn Hx. unfold list_add_tail, get_prev. rewrite (proj2 (ring_head _ _ _ Hr)). cbn [of_option mbind res_bind].
  rewrite <- (app_nil_r xs) in Hr, Hx. destruct (list_add_at h x xs [] new Hr Hn Hx) as (h' & E & R & O & A).
  rewrite app_nil_r in O. eauto.
Qed.

(** Deleting an entry leaves its own words alone; re-initialising it makes it an empty list. *)
Lemma list_del_init_spec h x l1 e l2 :
  ring h x (l1 ++ e :: l2) ->
  exists h', list_del_init e h = Ok h' /\ ring h' x (l1 ++ l2) /\ ring h' e [] /\
    only (e :: x :: l1 ++ l2) h h' /\ alloc_same h h'.
Proof.
  intros Hr. destruct (list_del_at _ _ _ _ _ Hr) as (h1 & E1 & R1 & O1 & A1).
  assert (He : node h1 e) by (apply (node_alloc h); [done | eapply ring_node; [done | set_solver]]).
  destruct Hr as [Hd _]. apply ring_NoDup_del in Hd as [_ Hne].
  destruct (init_spec h1 e He) as (h2 & E2 & R2 & O2 & A2).
  unfold list_del_init. change (__list_del_entry e h) with (list_del e h). rewrite E1. cbn [mbind res_bind].
  exists h2. split_and!; [done | | done | | by eapply alloc_trans].
  - eapply ring_frame; [done | done |]. intros a Ha. rewrite list_elem_of_singleton. intros ->. done.
  - eapply only_weaken; [by eapply only_trans |]. set_solver.
Qed.

(** The other lists of the heap are left alone. *)
Definition others_kept (touched : list Z) (h h' : heap) : Prop :=
  forall y ys, ring h y ys -> (forall a, a ∈ y :: ys -> a ∉ touched) -> ring h' y ys.

Lemma only_others ns h h' : only ns h h' -> others_kept ns h h'.
Proof. intros Ho y ys Hr Hn. by eapply ring_frame. Qed.

(** C31.  Insertion and removal.  On a well-formed list, adding an allocated node that is not on it puts
    it first ([list_add]) or last ([list_add_tail]); removing an entry takes exactly that entry out
    ([list_del]) and [list_del_init] also leaves it an empty list; the links stay consistent in both
    directions, no node outside the list is touched, and every other list is kept. *)
Theorem list_add_del_spec (h : heap) (head : Z) (xs : list Z) (Hr : ring h head xs) :
  (forall new, node h new -> new ∉ head :: xs ->
     (exists h', list_add new head h = Ok h' /\ ring h' head (new :: xs) /\
        others_kept (new :: head :: xs) h h') /\
     (exists h', list_add_tail new head h = Ok h' /\ ring h' head (xs ++ [new]) /\
        others_kept (new :: head :: xs) h h')) /\
  (forall l1 e l2, xs = l1 ++ e :: l2 ->
     (exists h', list_del e h = Ok h' /\ ring h' head (l1 ++ l2) /\ others_kept (head :: l1 ++ l2) h h') /\
     (exists h', list_del_init e h = Ok h' /\ ring h' head (l1 ++ l2) /\ ring h' e [] /\
        others_kept (e :: head :: l1 ++ l2) h h')).
Proof.
  split.
  - intros new Hn Hx. split.
    + destruct (list_add_spec h head xs new Hr Hn Hx) as (h' & E & R & O & _). eauto using only_others.
    + destruct (list_add_tail_spec h head xs new Hr Hn Hx) as (h' & E & R & O & _). eauto using only_others.
  - intros l1 e l2 ->. split.
    + destruct (list_del_at _ _ _ _ _ Hr) as (h' & E & R & O & _). eauto using only_others.
    + destruct (list_del_init_spec _ _ _ _ _ Hr) as (h' & E & R & R' & O & _). eauto 6 using only_others.
Qed.

Definition sample_heap : heap :=
  Heap {[ 1 := 2; 2 := 3; 3 := 1; 4 := 0; 5 := 6; 6 := 5 ]} {[ 1 := 3; 2 := 1; 3 := 2; 4 := 0; 5 := 6; 6 := 5 ]}.

Lemma sample_ring : ring sample_heap 1 [2; 3].
Proof. split; [by_decide |]. cbn. repeat split. Defined.

Lemma list_add_del_spec_witness :
  (exists h', list_add_tail 4 1 sample_heap = Ok h' /\ ring h' 1 [2; 3; 4]) /\
  (exists h', list_del 2 sample_heap = Ok h' /\ ring h' 1 [3]).
Proof.
  destruct (list_add_del_spec sample_heap 1 [2; 3] sample_ring) as [H1 H2]. split.
  - destruct (H1 4) as [_ (h' & E & R & _)]; [split; eexists; reflexivity | by_decide |].
    exists h'. split; [exact E | exact R].
  - destruct (H2 [] 2 [3] eq_refl) as [(h' & E & R & _) _]. exists h'. split; [exact E | exact R].
Defined.

(** ** Traversal and tests *)

Lemma walk_spec (step : Z -> heap -> res Z) h head l fuel :
  (forall l1 a b l2, l ++ [head] = l1 ++ a :: b :: l2 -> step a h = Ok b) ->
  head ∉ l -> (length l < fuel)%nat ->
  walk step fuel (after l head) head h = Ok l.
Proof.
  revert l; induction fuel as [| fuel IH]; intros l Hs Hh Hf; [lia |].
  cbn [walk]. destruct l as [| a l]; cbn [after hd]; [by rewrite Z.eqb_refl |].
  rewrite (proj2 (Z.eqb_neq _ _)) by set_solver.
  assert (E : step a h = Ok (after l head)).
  { destruct l as [| b l]; [by apply (Hs [] a head []) | by apply (Hs [] a b (l ++ [head]))]. }
  rewrite E. cbn [mbind res_bind]. rewrite IH; [done | | set_solver | cbn in Hf; lia].
  intros l1 c d l2 El. apply (Hs (a :: l1) c d l2). cbn. by rewrite El.
Qed.

Lemma linked_pair h x l l1 a b l2 : linked h x l -> x :: l = l1 ++ a :: b :: l2 -> edge h a b.
Proof.
  revert x l1; induction l as [| y l IH]; intros x l1 H E.
  - destruct l1 as [| ? [|]]; discriminate E.
  - cbn in H. destruct H as [He H]. destruct l1 as [| c l1]; cbn in E; simplify_eq; [done |]. by eapply IH.
Qed.

Lemma before_rev x xs : after (rev xs) x = before x xs.
Proof.
  destruct xs as [| y xs _] using rev_ind; [done |]. by rewrite before_snoc, rev_app_distr.
Qed.

(** Traversal and tests.  A forward walk visits exactly the nodes in order and a backward walk in
    reverse order, each with one round per node and one more; [list_empty] (both versions),
    [list_is_singular] and [list_is_last] decide what their names say. *)
Lemma list_walk_spec (h : heap) (head : Z) (xs : list Z) (Hr : ring h head xs) :
  (forall fuel, (length xs < fuel)%nat ->
     list_for_each fuel head h = Ok xs /\ list_for_each_prev fuel head h = Ok (rev xs)) /\
  list_empty head h = Ok (bool_decide (xs = [])) /\
  list_empty_careful head h = Ok (bool_decide (xs = [])) /\
  list_is_singular head h = Ok (bool_decide (length xs = 1%nat)) /\
  (forall l1 e l2, xs = l1 ++ e :: l2 -> list_is_last e head h = Ok (bool_decide (l2 = []))).
Proof.
  destruct (ring_head _ _ _ Hr) as [Hn Hp]. pose proof Hr as [Hd Hl].
  apply NoDup_cons in Hd as [Hx Hd].
  assert (Hne : list_empty head h = Ok (bool_decide (xs = []))).
  { unfold list_empty, get_next. rewrite Hn. cbn [of_option mbind res_bind].
    destruct xs as [| y xs]; cbn [after hd]; [by rewrite Z.eqb_refl |].
    rewrite (proj2 (Z.eqb_neq _ _)); [done | set_solver]. }
  split_and!; [| done | | |].
  - intros fuel Hf. unfold list_for_each, list_for_each_prev, get_next, get_prev.
    rewrite Hn, Hp. cbn [of_option mbind res_bind]. split.
    + apply walk_spec; [| done | done]. intros l1 a b l2 E. unfold get_next.
      destruct (linked_pair h head (xs ++ [head]) (head :: l1) a b l2 Hl) as [-> _]; [by rewrite E | done].
    + rewrite <- (before_rev head xs). apply walk_spec; [| by rewrite list_elem_of_In, <- in_rev, <- list_elem_of_In | by rewrite length_rev].
      intros l1 a b l2 E. unfold get_prev. change [head] with (rev [head]) in E.
      rewrite <- rev_app_distr in E. apply (f_equal (@rev Z)) in E.
      rewrite rev_involutive, rev_app_distr in E. cbn in E. rewrite <- !app_assoc in E. cbn in E.
      destruct (linked_pair h head (xs ++ [head]) (rev l2) b a (rev l1 ++ [head]) Hl) as [_ ->]; [| done].
      rewrite app_comm_cons, E, <- app_assoc. done.
  - unfold list_empty_careful, get_next, get_prev. rewrite Hn, Hp. cbn [of_option mbind res_bind].
    destruct xs as [| y xs]; cbn [after hd]; [rewrite Z.eqb_refl; cbn; by rewrite Z.eqb_refl |].
    rewrite (proj2 (Z.eqb_neq _ _)); [done | set_solver].
  - unfold list_is_singular. rewrite Hne. cbn [mbind res_bind]. unfold get_next, get_prev.
    rewrite Hn, Hp. cbn [of_option mbind res_bind].
    destruct xs as [| y [| z xs]]; [done | cbn; by rewrite Z.eqb_refl |].
    rewrite !before_cons. cbn [after hd]. rewrite (proj2 (Z.eqb_neq _ _)); [done |].
    destruct (position_in z xs []) as [Hz _]. rewrite app_nil_r in Hz. intros E.
    apply NoDup_cons in Hd as [Hy _]. apply Hy. by rewrite E.
  - intros l1 e l2 ->. unfold list_is_last, get_next.
    destruct (ring_at _ _ _ _ _ Hr) as [_ [-> _]]. cbn [of_option mbind res_bind].
    destruct l2 as [| y l2]; cbn [after hd]; [by rewrite Z.eqb_refl |].
    rewrite (proj2 (Z.eqb_neq _ _)); [done | set_solver].
Qed.

(** ** Moving nodes between lists *)

Lemma splice_nonempty h x l1 l2 y ys :
  ring h x (l1 ++ l2) -> ring h y ys -> ys <> [] -> NoDup ((x :: l1 ++ l2) ++ y :: ys) ->
  exists h', (h ← __list_splice y (before x l1) (after l2 x) h; INIT_LIST_HEAD y h) = Ok h' /\
    ring h' x (l1 ++ ys ++ l2) /\ ring h' y [].
Proof.
  intros Hx Hy Hne Hd. destruct (list_splice_at h x l1 l2 y ys Hx Hy Hne Hd) as (h1 & -> & R1 & O1 & A1).
  cbn [mbind res_bind]. destruct (init_spec h1 y) as (h2 & -> & R2 & O2 & A2).
  { eapply node_alloc; [done |]. eapply ring_node; [done | by left]. }
  exists h2. split_and!; [done | | done]. eapply ring_frame; [done | done |].
  intros a Ha. rewrite list_elem_of_singleton. intros ->.
  assert (P : (x :: l1 ++ l2) ++ y :: ys ≡ₚ y :: x :: l1 ++ ys ++ l2).
  { rewrite <- Permutation_middle. cbn [app]. do 2 constructor. rewrite <- app_assoc. f_equiv.
    by rewrite Permutation_app_comm. }
  rewrite P in Hd. by apply NoDup_cons in Hd as [Hd _].
Qed.

Lemma empty_ring h y ys : ring h y ys -> list_empty y h = Ok (bool_decide (ys = [])).
Proof.
  intros Hr. unfold list_empty, get_next. rewrite (proj1 (ring_head _ _ _ Hr)). cbn [of_option mbind res_bind].
  destruct Hr as [Hd _]. apply NoDup_cons in Hd as [Hx _].
  destruct ys as [| z ys]; cbn [after hd]; [by rewrite Z.eqb_refl |].
  rewrite (proj2 (Z.eqb_neq _ _)); [done | set_solver].
Qed.

Lemma list_move_tail_self h y f t :
  ring h y (f :: t) ->
  exists h', list_move_tail f y h = Ok h' /\ ring h' y (t ++ [f]).
Proof.
  intros Hr. destruct (list_del_at h y [] f t Hr) as (h1 & E1 & R1 & O1 & A1). cbn [app] in *.
  unfold list_move_tail. change (__list_del_entry f h) with (list_del f h). rewrite E1. cbn [mbind res_bind].
  destruct (list_add_tail_spec h1 y t f R1) as (h2 & -> & R2 & _); [| | eauto].
  - eapply node_alloc; [done |]. eapply ring_node; [done | by right; left].
  - destruct Hr as [Hd _]. by apply (ring_NoDup_del y [] f t) in Hd as [_ Hd].
Qed.

(** Moving nodes.  Splicing a list into another one puts its nodes, in order, at the front
    ([list_splice_init]) or at the end ([list_splice_tail_init]) and leaves it empty; moving an entry
    takes it off its list and appends it to the other; rotating moves the first entry to the end. *)
Lemma list_splice_move_spec (h : heap) (x y : Z) (xs ys : list Z)
    (Hx : ring h x xs) (Hy : ring h y ys) (Hd : NoDup ((x :: xs) ++ y :: ys)) :
  (exists h', list_splice_init y x h = Ok h' /\ ring h' x (ys ++ xs) /\ ring h' y []) /\
  (exists h', list_splice_tail_init y x h = Ok h' /\ ring h' x (xs ++ ys) /\ ring h' y []) /\
  (forall l1 e l2, xs = l1 ++ e :: l2 ->
     exists h', list_move_tail e y h = Ok h' /\ ring h' x (l1 ++ l2) /\ ring h' y (ys ++ [e])) /\
  (exists h', list_rotate_left y h = Ok h' /\ ring h' y (tail ys ++ take 1 ys)).
Proof.
  split_and!.
  - unfold list_splice_init. rewrite (empty_ring _ _ _ Hy). cbn [mbind res_bind].
    case_bool_decide as Hys; cbn [negb]; [subst ys; eauto |].
    unfold get_next. rewrite (proj1 (ring_head _ _ _ Hx)). cbn [of_option mbind res_bind].
    by apply (splice_nonempty h x [] xs y ys).
  - unfold list_splice_tail_init. rewrite (empty_ring _ _ _ Hy). cbn [mbind res_bind].
    case_bool_decide as Hys; cbn [negb]; [subst ys; rewrite app_nil_r; eauto |].
    unfold get_prev. rewrite (proj2 (ring_head _ _ _ Hx)). cbn [of_option mbind res_bind].
    pose proof (splice_nonempty h x xs [] y ys) as S. rewrite !app_nil_r in S. by apply S.
  - intros l1 e l2 ->. destruct (list_del_at _ _ _ _ _ Hx) as (h1 & E1 & R1 & O1 & A1).
    unfold list_move_tail. change (__list_del_entry e h) with (list_del e h). rewrite E1. cbn [mbind res_bind].
    assert (He : e ∉ y :: ys /\ forall a, a ∈ y :: ys -> a ∉ x :: l1 ++ l2).
    { apply NoDup_app in Hd as (_ & Hdis & _). split; [apply Hdis; set_solver |].
      intros a Ha Ha'. apply (Hdis a); [set_solver | done]. }
    destruct He as [He Hdis].
    destruct (list_add_tail_spec h1 y ys e) as (h2 & -> & R2 & O2 & _); [| | done |].
    + eapply ring_frame; done.
    + eapply node_alloc; [done |]. eapply ring_node; [exact Hx | set_solver].
    + exists h2. split_and!; [done | | done]. eapply ring_frame; [done | done |].
      intros a Ha [-> | Hay]%elem_of_cons.
      * destruct Hx as [Hdx _]. by apply ring_NoDup_del in Hdx as [_ Hdx].
      * by apply (Hdis a).
  - unfold list_rotate_left. rewrite (empty_ring _ _ _ Hy). cbn [mbind res_bind].
    destruct ys as [| f t]; [eauto |]. cbn [bool_decide negb].
    unfold get_next. rewrite (proj1 (ring_head _ _ _ Hy)). cbn [of_option mbind res_bind after hd tail take].
    by apply list_move_tail_self.
Qed.

(** Walking along lists and joining them.  The traversals visit the nodes in order, and backwards, and end; the tests tell an
    empty list, a single node and the last one.  Splicing a list into another puts its nodes, in order, at the front or at the end and leaves it
    empty; moving an entry takes it off its list and appends it to the other; rotating moves the first entry to the end. *)
Theorem list_walk_splice (h : heap) (x : Z) (xs : list Z) (Hx : ring h x xs) :
  (forall fuel, (length xs < fuel)%nat ->
     list_for_each fuel x h = Ok xs /\ list_for_each_prev fuel x h = Ok (rev xs)) /\
  (list_empty x h = Ok (bool_decide (xs = [])) /\
   list_empty_careful x h = Ok (bool_decide (xs = [])) /\
   list_is_singular x h = Ok (bool_decide (length xs = 1%nat)) /\
   (forall l1 e l2, xs = l1 ++ e :: l2 -> list_is_last e x h = Ok (bool_decide (l2 = [])))) /\
  (forall y ys, ring h y ys -> NoDup ((x :: xs) ++ y :: ys) ->
     (exists h', list_splice_init y x h = Ok h' /\ ring h' x (ys ++ xs) /\ ring h' y []) /\
     (exists h', list_splice_tail_init y x h = Ok h' /\ ring h' x (xs ++ ys) /\ ring h' y []) /\
     (forall l1 e l2, xs = l1 ++ e :: l2 ->
        exists h', list_move_tail e y h = Ok h' /\ ring h' x (l1 ++ l2) /\ ring h' y (ys ++ [e])) /\
     (exists h', list_rotate_left y h = Ok h' /\ ring h' y (tail ys ++ take 1 ys))).
Proof.
  destruct (list_walk_spec h x xs Hx) as (H1 & H2). split_and!; [exact H1 | apply H2 | apply H2 | apply H2 | apply H2 |].
  intros y ys Hy Hd. exact (list_splice_move_spec h x y xs ys Hx Hy Hd).
Qed.

Lemma list_walk_splice_witness :
  list_for_each 3 1 sample_heap = Ok [2; 3] /\ list_is_singular 1 sample_heap = Ok false /\
  exists h', list_splice_tail_init 5 1 sample_heap = Ok h' /\ ring h' 1 [2; 3; 6] /\ ring h' 5 [].
Proof.
  assert (R5 : ring sample_heap 5 [6]) by (split; [by_decide | cbn; repeat split]).
  destruct (list_walk_splice sample_heap 1 [2; 3] sample_ring) as (H & (_ & _ & Hs & _) & Hj).
  split; [apply (H 3%nat); cbn; lia |]. split; [exact Hs |]. exact (proj1 (proj2 (Hj 5 [6] R5 ltac:(by_decide)))).
Defined.
