(* ===== verification/Publish.v ===== *)
(** * The RTMP publisher

    [mw/protocol/tima_rtmp_publisher.c] (Section [publisher]) and [mw/publish/rtmp_publish.c]
    (Section [node]; its packet functions are in [RtmpPack]).  librtmp is a record of operations on
    its connection object.  The node's functions run in a world [W] that holds the node's private
    data ([None] once it is freed); the callbacks of the request are functions on that world. *)

From S2P Require Import Prelude RtmpPack.

(** ** librtmp *)

Record librtmp := Librtmp {
  rtmp : Type;
  RTMP_Init : rtmp;
  RTMP_SetupURL : rtmp -> list Z -> bool * rtmp;
  RTMP_EnableWrite : rtmp -> rtmp;
  RTMP_Connect : rtmp -> bool * rtmp;
  RTMP_ConnectStream : rtmp -> bool * rtmp;
  RTMP_Close : rtmp -> rtmp;
  RTMP_IsConnected : rtmp -> bool;
  RTMP_SendPacket : rtmp -> RTMPPacket -> bool * rtmp;
  m_stream_id : rtmp -> Z
}.

Section publisher.
Context (lib : librtmp).

Record TimaRTMPPublisher := MkPublisher {
  flowid : Z;
  url : option (list Z);
  priv : rtmp lib
}.

(** [alloc_ok] and [dup_ok]: whether [calloc] and [strdup] succeed. *)
Definition tima_rtmp_create (alloc_ok dup_ok : bool) (url' : list Z) (flowid' : Z) : option TimaRTMPPublisher :=
  if alloc_ok then Some (MkPublisher flowid' (if dup_ok then Some url' else None) (RTMP_Init lib))
  else None.

Definition set_priv (p : TimaRTMPPublisher) (r : rtmp lib) : TimaRTMPPublisher :=
  MkPublisher (flowid p) (url p) r.

(** A NULL URL is passed on to librtmp, which reads it. *)
Definition tima_rtmp_connect (publisher : option TimaRTMPPublisher) : res (Z * option TimaRTMPPublisher) :=
  match publisher with
  | None => Ok (-1, None)
  | Some thiz =>
      u ← of_option (url thiz);
      let '(ok, r) := RTMP_SetupURL lib (priv thiz) u in
      if negb ok then Ok (-1, Some (set_priv thiz r)) else
      let r := RTMP_EnableWrite lib r in
      let '(ok, r) := RTMP_Connect lib r in
      if negb ok then Ok (-1, Some (set_priv thiz r)) else
      let '(ok, r) := RTMP_ConnectStream lib r in
      if negb ok then Ok (-1, Some (set_priv thiz (RTMP_Close lib r))) else
      Ok (0, Some (set_priv thiz r))
  end.

(** [now] is [RTMP_GetTime()]; the time stamp and the stream id written into the packet are returned
    with it. *)
Definition tima_rtmp_send (publisher : option TimaRTMPPublisher) (packet : RTMPPacket) (now : Z)
    : Z * option (Z * Z) * option TimaRTMPPublisher :=
  match publisher with
  | None => (-1, None, None)
  | Some thiz =>
      let nInfoField2 := m_stream_id lib (priv thiz) in
      let nTimeStamp := Z.land now 0xffffff in
      let stamp := Some (nInfoField2, nTimeStamp) in
      if negb (RTMP_IsConnected lib (priv thiz)) then (-1, stamp, publisher) else
      let '(ok, r) := RTMP_SendPacket lib (priv thiz) packet in
      if negb ok then (-1, stamp, Some (set_priv thiz r)) else (0, stamp, Some (set_priv thiz r))
  end.

(** The connection is closed, and the memory of the publisher is freed with that of its URL ([free]). *)
Definition tima_rtmp_destory {W : Type} (free : TimaRTMPPublisher -> W -> W) (publisher : option TimaRTMPPublisher) (w : W) : W :=
  match publisher with
  | None => w
  | Some thiz => free (set_priv thiz (RTMP_Close lib (priv thiz))) w
  end.
End publisher.

Arguments flowid {lib}.
Arguments url {lib}.
Arguments priv {lib}.

(** ** Percent encoding *)

Definition TO_HEX_CHAR (c : Z) : Z := if c >? 9 then c + 55 else c + 48.

(** [input] is the string before its zero byte; the result is the returned length and the bytes
    written to [output], which is not terminated. *)
Fixpoint tima_url_encode (input : list Z) : Z * list Z :=
  match input with
  | [] => (0, [])
  | data :: input =>
      let '(len, ptr) := tima_url_encode input in
      if isalnum data then (1 + len, data :: ptr)
      else (3 + len, 0x25 :: TO_HEX_CHAR (Z.shiftr data 4) :: TO_HEX_CHAR (data mod 16) :: ptr)
  end.

(** ** The publisher node

    [calloc_publisher] and [free_publisher] are what allocating the memory of a publisher and freeing it do to the world; the
    node's pointer to it is in its private data. *)

Definition RTMP_PUB_STATE_TYPE_START : Z := 1.
Definition RTMP_PUB_STATE_TYPE_TIMEOUT : Z := 2.
Definition RTMP_PUB_STATE_TYPE_EOF : Z := 3.
Definition RTMP_PUB_STATE_TYPE_ERROR : Z := 4.

(** The request; [pfncb] and [traverse] tell whether these pointers are set. *)
Record RtmpPublishReq := MkPublishReq {
  req_flowid : Z;
  req_channel : Z;
  req_sim : Z;
  req_uri : list Z;
  pfncb : bool;
  traverse : bool
}.

Record PublishPriv (lib : librtmp) := MkPublishPriv {
  pub_req : RtmpPublishReq;
  pub_id : Z;
  pub_cond : Z;
  connected : Z;
  publisher : option (TimaRTMPPublisher lib)
}.
Arguments MkPublishPriv {lib}.
Arguments pub_req {lib}.
Arguments pub_id {lib}.
Arguments pub_cond {lib}.
Arguments connected {lib}.
Arguments publisher {lib}.

(** [snprintf(url, 256, "rtmp://%s:%d%s", ...)] *)
Definition publish_url (ip : list Z) (port : Z) (uri : list Z) : list Z :=
  snprintf 256 (chars "rtmp://" ++ ip ++ chars ":" ++ dec port ++ uri).

Section node.
Context (lib : librtmp) {W : Type}
  (get : W -> option (PublishPriv lib)) (put : option (PublishPriv lib) -> W -> W)
  (calloc_publisher : W -> W) (free_publisher : TimaRTMPPublisher lib -> W -> W)
  (on_traverse : W -> res W) (on_done : W -> res W)
  (network : W -> list Z * Z) (alloc_ok dup_ok : W -> bool).

(** The node's memory after [rtmp_publish_create]. *)
Definition rtmp_publish_create : PublishPriv lib :=
  MkPublishPriv (MkPublishReq 0 0 0 [] false false) 0 1 0 None.

Definition with_priv (f : PublishPriv lib -> PublishPriv lib) (w : W) : res W :=
  thiz ← of_option (get w); Ok (put (Some (f thiz)) w).

Definition rtmp_publish_set (id : Z) (data : option RtmpPublishReq) (w : W) : res W :=
  thiz ← of_option (get w);
  if id =? RTMP_PUB_STATE_TYPE_START then
    req ← of_option data;
    Ok (put (Some (MkPublishPriv req id (pub_cond thiz) (connected thiz) (publisher thiz))) w)
  else if (id =? RTMP_PUB_STATE_TYPE_TIMEOUT) || (id =? RTMP_PUB_STATE_TYPE_EOF)
          || (id =? RTMP_PUB_STATE_TYPE_ERROR) then
    Ok (put (Some (MkPublishPriv (pub_req thiz) id 0 (connected thiz) (publisher thiz))) w)
  else Ok (put (Some (MkPublishPriv (pub_req thiz) id (pub_cond thiz) (connected thiz) (publisher thiz))) w).

Definition rtmp_publish_get : Z := 0.
Definition rtmp_publish_stop : Z := 0.

Definition rtmp_publish_connect (w : W) : res W :=
  thiz ← of_option (get w);
  let '(rtmp_ip, rtmp_port) := network w in
  let url := publish_url rtmp_ip rtmp_port (req_uri (pub_req thiz)) in
  let pub := tima_rtmp_create lib (alloc_ok w) (dup_ok w) url (req_flowid (pub_req thiz)) in
  let w := if alloc_ok w then calloc_publisher w else w in
  '(ret, pub) ← tima_rtmp_connect lib pub;
  Ok (put (Some (MkPublishPriv (pub_req thiz) (pub_id thiz) (pub_cond thiz)
                   (if ret <? 0 then connected thiz else 1) pub)) w).

Definition rtmp_publish_disconnect (w : W) : res W :=
  thiz ← of_option (get w);
  if negb (connected thiz =? 0) then
    let w := tima_rtmp_destory lib free_publisher (publisher thiz) w in
    Ok (put (Some (MkPublishPriv (pub_req thiz) (pub_id thiz) (pub_cond thiz) 0 None)) w)
  else Ok w.

Definition rtmp_publish_delete (w : W) : res W :=
  _ ← of_option (get w); Ok (put None w).

(** [pfn_callback] is set only when the request has a callback, and tested in any case: otherwise the
    test reads an indeterminate pointer. *)
Definition rtmp_publish_release (w : W) : res W :=
  thiz ← of_option (get w);
  let pfn_callback := pfncb (pub_req thiz) in
  w ← rtmp_publish_disconnect w;
  w ← rtmp_publish_delete w;
  if pfn_callback then on_done w else UB.

Definition rtma_publish_proc (w : W) : res W :=
  thiz ← of_option (get w);
  if traverse (pub_req thiz) then on_traverse w
  else with_priv (fun t => MkPublishPriv (pub_req t) (pub_id t) 0 (connected t) (publisher t)) w.

(** The thread's loop; [env k] is what the other threads do before its [k]-th test of [cond]. *)
Fixpoint publish_loop (fuel : nat) (env : nat -> W -> res W) (k : nat) (w : W) : res W :=
  match fuel with
  | O => NoFuel
  | S fuel =>
      w ← env k w;
      thiz ← of_option (get w);
      if pub_cond thiz =? 0 then Ok w else w ← rtma_publish_proc w; publish_loop fuel env (S k) w
  end.

Definition rtmp_publish_thread (fuel : nat) (env : nat -> W -> res W) (w : W) : res W :=
  w ← rtmp_publish_connect w;
  w ← publish_loop fuel env 0 w;
  rtmp_publish_release w.
End node.

(** ** Percent encoding: the decoder undoes it *)

Definition hex_val (c : Z) : Z := if isdigit c then c - 48 else c - 55.

Fixpoint url_decode (l : list Z) : list Z :=
  match l with
  | [] => []
  | c :: l' =>
      if c =? 0x25 then
        match l' with
        | a :: b :: l'' => hex_val a * 16 + hex_val b :: url_decode l''
        | _ => []
        end
      else c :: url_decode l'
  end.

Lemma hex_val_char n : 0 <= n < 16 -> hex_val (TO_HEX_CHAR n) = n /\ isalnum (TO_HEX_CHAR n) = true.
Proof.
  intros Hn. assert (In n (map Z.of_nat (seq 0 16))) as Hin.
  { apply in_map_iff. exists (Z.to_nat n). split; [lia |]. apply in_seq. lia. }
  cbn in Hin. repeat (destruct Hin as [<- | Hin]; [done |]). done.
Qed.

(** Percent encoding.  The encoding of every string consists of letters, digits and percent
    signs, the returned length is the number of bytes written, and decoding it gives the string back. *)
Theorem tima_url_encode_roundtrip (input : list Z) (Hin : Forall is_char input) :
  let '(len, out) := tima_url_encode input in
  len = Z.of_nat (length out) /\ url_decode out = input /\
  Forall (fun c => isalnum c = true \/ c = 0x25) out /\ Z.of_nat (length out) <= 3 * Z.of_nat (length input).
Proof.
  induction Hin as [| c input Hc _ IH]; [by repeat constructor |]. cbn [tima_url_encode].
  destruct (tima_url_encode input) as [len out]. destruct IH as (-> & IH & HF & Hl).
  destruct (isalnum c) eqn:Hal.
  - cbn [length url_decode]. rewrite IH. rewrite (proj2 (Z.eqb_neq c 37)).
    2:{ intros ->. discriminate Hal. }
    split_and!; [lia | done | constructor; auto | lia].
  - unfold is_char in Hc. rewrite Z.shiftr_div_pow2 by lia. change (2 ^ 4) with 16.
    pose proof (Z.mod_pos_bound c 16 ltac:(lia)).
    assert (0 <= c / 16 < 16) by (split; [apply Z.div_pos | apply Z.div_lt_upper_bound]; lia).
    destruct (hex_val_char (c / 16)) as [H1 A1]; [done |].
    destruct (hex_val_char (c mod 16)) as [H2 A2]; [done |].
    cbn [length url_decode]. rewrite Z.eqb_refl, H1, H2, IH. split_and!; [lia | | | lia].
    + f_equal. pose proof (Z.div_mod c 16 ltac:(lia)). lia.
    + repeat (constructor; auto).
Qed.

Lemma tima_url_encode_roundtrip_witness :
  let '(len, out) := tima_url_encode [97; 47; 231] in
  len = Z.of_nat (length out) /\ url_decode out = [97; 47; 231] /\
  Forall (fun c => isalnum c = true \/ c = 0x25) out /\ Z.of_nat (length out) <= 9.
Proof. exact (tima_url_encode_roundtrip [97; 47; 231] ltac:(by_decide)). Defined.

(** ** The publisher's life *)

Section life.
Context (lib : librtmp) {W : Type}
  (get : W -> option (PublishPriv lib)) (put : option (PublishPriv lib) -> W -> W)
  (calloc_publisher : W -> W) (free_publisher : TimaRTMPPublisher lib -> W -> W)
  (on_traverse : W -> res W) (on_done : W -> res W)
  (network : W -> list Z * Z) (alloc_ok dup_ok : W -> bool)
  (get_put : forall x w, get (put x w) = x) (put_put : forall x y w, put x (put y w) = put x w).

Abbreviation rtmp_publish_connect := (rtmp_publish_connect lib get put calloc_publisher network alloc_ok dup_ok).
Abbreviation rtmp_publish_disconnect := (rtmp_publish_disconnect lib get put free_publisher).
Abbreviation rtmp_publish_release := (rtmp_publish_release lib get put free_publisher on_done).

(** All the steps of librtmp's connection succeed. *)
Definition connects (u : list Z) : bool :=
  let '(ok1, r) := RTMP_SetupURL lib (RTMP_Init lib) u in
  let '(ok2, r) := RTMP_Connect lib (RTMP_EnableWrite lib r) in
  let '(ok3, r) := RTMP_ConnectStream lib r in
  ok1 && ok2 && ok3.

(** With memory for it, connecting leaves a publisher in the node. *)
Lemma connect_publisher (w : W) (thiz : PublishPriv lib) :
  get w = Some thiz -> alloc_ok w = true -> dup_ok w = true ->
  let u := publish_url (network w).1 (network w).2 (req_uri (pub_req thiz)) in
  exists p, flowid p = req_flowid (pub_req thiz) /\ url p = Some u /\ rtmp_publish_connect w =
    Ok (put (Some (MkPublishPriv (pub_req thiz) (pub_id thiz) (pub_cond thiz) (if connects u then 1 else connected thiz) (Some p)))
      (calloc_publisher w)).
Proof.
  intros Hget Hal Hdup. unfold Publish.rtmp_publish_connect. rewrite Hget. cbn [of_option mbind res_bind].
  destruct (network w) as [ip port]. cbn [fst snd]. unfold tima_rtmp_create. rewrite Hal, Hdup. unfold tima_rtmp_connect, connects.
  cbn [url priv of_option mbind res_bind].
  destruct (RTMP_SetupURL lib _ _) as [[] r1]; cbn [negb andb].
  2:{ destruct (RTMP_Connect lib _) as [? r2], (RTMP_ConnectStream lib r2). eexists; split; [| split; [| reflexivity]]; done. }
  destruct (RTMP_Connect lib _) as [[] r2]; cbn [negb andb]; destruct (RTMP_ConnectStream lib r2) as [[] r3];
    (eexists; split; [| split; [| reflexivity]]; done).
Qed.

(** What releasing a node leaves of the world: the publisher is destroyed when it is connected, and the node is gone. *)
Definition without (p : option (TimaRTMPPublisher lib)) (c : Z) (w : W) : W :=
  put None (if c =? 0 then w else tima_rtmp_destory lib free_publisher p w).

Lemma node_disconnect_spec w thiz : get w = Some thiz -> exists t w1, rtmp_publish_disconnect w = Ok w1 /\ get w1 = Some t /\
  put None w1 = without (publisher thiz) (connected thiz) w.
Proof.
  intros Hg. unfold Publish.rtmp_publish_disconnect, without. rewrite Hg. cbn [of_option mbind res_bind].
  destruct (connected thiz =? 0); cbn [negb]; eexists _, _; (split; [done |]); [done |]. by rewrite get_put, put_put.
Qed.

Lemma node_release_spec w thiz : get w = Some thiz ->
  rtmp_publish_release w = if pfncb (pub_req thiz) then on_done (without (publisher thiz) (connected thiz) w) else UB.
Proof.
  intros Hg. unfold Publish.rtmp_publish_release. rewrite Hg. cbn [of_option mbind res_bind].
  destruct (node_disconnect_spec w thiz Hg) as (t & w1 & -> & Ht & <-). cbn [mbind res_bind]. unfold rtmp_publish_delete. by rewrite Ht.
Qed.

(** C35.  Connecting and releasing.  With memory for a publisher, connecting makes one with the flow's id and its URL, leaves it
    in the node, and marks the node connected exactly when every step of librtmp's connection succeeds.  Releasing the
    node closes the connection of its publisher and frees its memory when the node is connected, and only then (otherwise
    the memory is lost with the node); then it frees the node, and last it runs the callback once when the request has
    one, and reads an indeterminate pointer when it has none. *)
Theorem rtmp_publish_connect_release (w : W) (thiz : PublishPriv lib)
    (Hget : get w = Some thiz) (Hc : connected thiz = 0)
    (Hal : alloc_ok w = true) (Hdup : dup_ok w = true) :
  let u := publish_url (network w).1 (network w).2 (req_uri (pub_req thiz)) in
  (exists p, flowid p = req_flowid (pub_req thiz) /\ url p = Some u /\ rtmp_publish_connect w =
     Ok (put (Some (MkPublishPriv (pub_req thiz) (pub_id thiz) (pub_cond thiz) (if connects u then 1 else 0) (Some p)))
           (calloc_publisher w))) /\
  (forall c p, let w1 := put (Some (MkPublishPriv (pub_req thiz) (pub_id thiz) (pub_cond thiz) c (Some p))) w in
     let closed := free_publisher (set_priv lib p (RTMP_Close lib (priv p))) w1 in
     rtmp_publish_disconnect w1 =
       Ok (if c =? 0 then w1 else put (Some (MkPublishPriv (pub_req thiz) (pub_id thiz) (pub_cond thiz) 0 None)) closed) /\
     rtmp_publish_release w1 =
       if pfncb (pub_req thiz) then on_done (put None (if c =? 0 then w1 else closed)) else UB).
Proof.
  cbv zeta. split.
  - destruct (connect_publisher w thiz Hget Hal Hdup) as (p & Hf & Hu & E). exists p. by rewrite E, Hc.
  - intros c p. split; [| by rewrite (node_release_spec _ _ (get_put _ _))].
    unfold Publish.rtmp_publish_disconnect. rewrite get_put. cbn [of_option mbind res_bind connected]. by destruct (c =? 0).
Qed.
End life.

(** A library that refuses every connection. *)
Definition refusing : librtmp :=
  Librtmp unit tt (fun _ _ => (true, tt)) (fun _ => tt) (fun _ => (false, tt)) (fun _ => (true, tt))
    (fun _ => tt) (fun _ => false) (fun _ _ => (false, tt)) (fun _ => 1).

Definition sample_pub : PublishPriv refusing :=
  MkPublishPriv (MkPublishReq 1 1 18600000000 (chars "/live/1") true true) 0 1 0 None.

(** A world with the node's private data and the number of publishers in memory. *)
Definition with_node (x : option (PublishPriv refusing)) (w : option (PublishPriv refusing) * Z) := (x, w.2).
Definition one_more (w : option (PublishPriv refusing) * Z) := (w.1, w.2 + 1).
Definition one_less (_ : TimaRTMPPublisher refusing) (w : option (PublishPriv refusing) * Z) := (w.1, w.2 - 1).

(** The connection is refused, and the publisher is lost with the node. *)
Lemma rtmp_publish_connect_release_witness :
  exists p, rtmp_publish_connect refusing fst with_node one_more (fun _ => (chars "10.0.0.1", 1935)) (fun _ => true)
      (fun _ => true) (Some sample_pub, 0) = Ok (Some (MkPublishPriv (pub_req sample_pub) 0 1 0 (Some p)), 1) /\
    rtmp_publish_release refusing fst with_node one_less (fun w => Ok w)
      (Some (MkPublishPriv (pub_req sample_pub) 0 1 0 (Some p)), 1) = Ok (None, 1) /\
    rtmp_publish_release refusing fst with_node one_less (fun w => Ok w)
      (Some (MkPublishPriv (pub_req sample_pub) 0 1 1 (Some p)), 1) = Ok (None, 0).
Proof.
  pose proof (fun n => rtmp_publish_connect_release refusing fst with_node one_more one_less (fun w => Ok w)
    (fun _ => (chars "10.0.0.1", 1935)) (fun _ => true) (fun _ => true) (fun _ _ => eq_refl)
    (fun _ _ _ => eq_refl) (Some sample_pub, n) sample_pub eq_refl eq_refl eq_refl eq_refl) as H.
  destruct (H 0) as [(p & _ & _ & E) _]. destruct (H 1) as [_ H1]. exists p.
  split; [exact E | split; [exact (proj2 (H1 0 p)) | exact (proj2 (H1 1 p))]].
Defined.

(** A publisher without a traversal callback stops by itself after one round. *)
Lemma publish_loop_unregistered (lib : librtmp) {W} (get : W -> option (PublishPriv lib)) put on_traverse
    (get_put : forall x w, get (put x w) = x) w thiz fuel :
  get w = Some thiz -> traverse (pub_req thiz) = false -> (2 <= fuel)%nat ->
  exists w' t, publish_loop lib get put on_traverse fuel (fun _ w => Ok w) 0 w = Ok w' /\
    get w' = Some t /\ pub_cond t = 0.
Proof.
  intros Hg Ht Hf. destruct fuel as [| [| fuel]]; [lia | lia |].
  cbn [publish_loop mbind res_bind]. rewrite Hg. cbn [of_option mbind res_bind].
  destruct (Z.eqb_spec (pub_cond thiz) 0) as [E | E]; [eauto |].
  unfold rtma_publish_proc. rewrite Hg. cbn [of_option mbind res_bind]. rewrite Ht.
  unfold with_priv. rewrite Hg. cbn [of_option mbind res_bind]. rewrite get_put.
  cbn [of_option mbind res_bind pub_cond Z.eqb]. eexists _, _. split; [done |]. by rewrite get_put.
Qed.

(** Sending needs a live connection: the result is 0 exactly when librtmp takes the packet, and the
    time stamp written fits in 24 bits. *)
Lemma tima_rtmp_send_result lib p packet now :
  let '(rc, stamp, _) := tima_rtmp_send lib (Some p) packet now in
  (rc = 0 <-> RTMP_IsConnected lib (priv p) = true /\ (RTMP_SendPacket lib (priv p) packet).1 = true) /\
  (rc = 0 \/ rc = -1) /\ exists i t, stamp = Some (i, t) /\ 0 <= t < 2 ^ 24.
Proof.
  unfold tima_rtmp_send. assert (Ht : 0 <= Z.land now 0xffffff < 2 ^ 24).
  { change 0xffffff with (Z.ones 24). rewrite Z.land_ones by lia. apply Z.mod_pos_bound. lia. }
  destruct (RTMP_IsConnected lib (priv p)); cbn [negb]; [| split_and!; [naive_solver | auto | eauto]].
  destruct (RTMP_SendPacket lib (priv p) packet) as [[] r]; cbn [negb fst];
    split_and!; try naive_solver; eauto.
Qed.
