(* ===== verification/Queue.v ===== *)
(** * The packet queue of a stream

    The list part of [bll/bll_h264_stream.c]: packets wait in a [vpk_list] between the reading side
    and the publishing thread.  [mem] holds the list words, [pkts] the rest of each node by address; a
    node's package is owned by it.  The mutex makes each operation atomic, except that
    [pthread_cond_wait] lets the other threads run: [wait] is what they do to the queue. *)

From S2P Require Import Prelude List RtmpPack.

Record nal_node_t := MkNode {
  cid : Z;
  seq : Z;
  pkt_size : Z;
  package : RTMPPacket
}.

Record queue := MkQueue {
  mem : heap;
  pkts : gmap Z nal_node_t;
  nalu_head : Z;
  list_size : Z;
  broadcasts : nat          (* of [cond_empty] *)
}.

Definition set_mem (q : queue) (h : heap) : queue :=
  MkQueue h (pkts q) (nalu_head q) (list_size q) (broadcasts q).
Definition set_list_size (q : queue) (n : Z) : queue :=
  MkQueue (mem q) (pkts q) (nalu_head q) n (broadcasts q).

Section code.
(** The address [calloc] returns for a node, [None] when it fails. *)
Context (calloc_node : queue -> option Z) (wait : queue -> res queue).

(** A node as [calloc] and [INIT_LIST_HEAD] leave it, with its fields set. *)
Definition pkt_node_create (pkg : RTMPPacket) (size' cid' seq' : Z) (q : queue) : res (option Z * queue) :=
  match calloc_node q with
  | None => Ok (None, q)
  | Some a =>
      let h := Heap (<[a := 0]> (nexts (mem q))) (<[a := 0]> (prevs (mem q))) in
      h ← INIT_LIST_HEAD a h;
      Ok (Some a, MkQueue h (<[a := MkNode cid' seq' size' pkg]> (pkts q)) (nalu_head q) (list_size q)
                    (broadcasts q))
  end.

(** [free] of the package and of the node. *)
Definition pkt_node_release (a : Z) (q : queue) : res queue :=
  _ ← of_option (pkts q !! a);
  Ok (MkQueue (Heap (delete a (nexts (mem q))) (delete a (prevs (mem q)))) (delete a (pkts q))
        (nalu_head q) (list_size q) (broadcasts q)).

Definition list_add_nalu (nalu : option Z) (q : queue) : res queue :=
  a ← of_option nalu;
  h ← list_add_tail a (nalu_head q) (mem q);
  n ← int_op (list_size q + 1);
  Ok (MkQueue h (pkts q) (nalu_head q) n
        (if list_size q =? 0 then S (broadcasts q) else broadcasts q)).

(** The part of [list_del_nalu] after the wait. *)
Definition take_nalu (q : queue) : res (option Z * queue) :=
  if list_size q >? 0 then
    a ← get_next (nalu_head q) (mem q);
    h ← list_del a (mem q);
    let q := set_list_size (set_mem q h) (list_size q - 1) in
    _ ← (if list_size q >? 100 then of_option (cid <$> pkts q !! a) else Ok 0);
    Ok (Some a, q)
  else Ok (None, q).

Definition list_del_nalu (q : queue) : res (option Z * queue) :=
  e ← list_empty (nalu_head q) (mem q);
  q ← (if (e : bool) then wait q else Ok q);
  take_nalu q.

(** The body of the loop in [list_clear_out]. *)
Definition clear_body (pos : Z) (s : queue * heap) : res (queue * heap) :=
  let q := set_mem s.1 s.2 in
  h ← list_del pos (mem q);
  q ← pkt_node_release pos (set_mem q h);
  n ← int_op (list_size q - 1);
  Ok (set_list_size q n, mem q).

Definition list_clear_out (fuel : nat) (q : queue) : res queue :=
  '(q, h) ← list_for_each_safe clear_body fuel (nalu_head q) (q, mem q);
  Ok (set_mem q h).
End code.

(** ** The queue as a list of packets *)

Record holds (q : queue) (xs : list (Z * nal_node_t)) : Prop := {
  holds_ring : ring (mem q) (nalu_head q) xs.*1;
  holds_pkts : Forall (fun x => pkts q !! x.1 = Some x.2) xs;
  holds_size : list_size q = Z.of_nat (length xs)
}.

(** [calloc] returns an address that is not in use. *)
Definition fresh_address (q : queue) (a : Z) : Prop :=
  nexts (mem q) !! a = None /\ prevs (mem q) !! a = None /\ pkts q !! a = None.

Lemma fresh_not_in q xs a : holds q xs -> fresh_address q a -> a ∉ nalu_head q :: xs.*1.
Proof.
  intros Hh (Hn & _) Ha. destruct (ring_node _ _ _ _ (holds_ring _ _ Hh) Ha) as [[y Hy] _]. congruence.
Qed.

Lemma ring_alloc h y ys a :
  ring h y ys -> a ∉ y :: ys ->
  ring (Heap (<[a := 0]> (nexts h)) (<[a := 0]> (prevs h))) y ys.
Proof.
  intros Hr Ha. eapply (ring_frame _ _ [a]); [done | |].
  - intros b Hb. rewrite list_elem_of_singleton in Hb. cbn [nexts prevs]. by rewrite !lookup_insert_ne.
  - intros b Hb. rewrite list_elem_of_singleton. by intros ->.
Qed.

Lemma create_spec calloc_node q xs a pkg size' cid' seq' :
  holds q xs -> calloc_node q = Some a -> fresh_address q a ->
  exists q', pkt_node_create calloc_node pkg size' cid' seq' q = Ok (Some a, q') /\ holds q' xs /\
    nalu_head q' = nalu_head q /\ node (mem q') a /\ pkts q' = <[a := MkNode cid' seq' size' pkg]> (pkts q).
Proof.
  intros Hh Ha Hf. pose proof (fresh_not_in _ _ _ Hh Hf) as Hni.
  unfold pkt_node_create. rewrite Ha.
  pose proof (ring_alloc _ _ _ _ (holds_ring _ _ Hh) Hni) as R.
  set (h0 := Heap _ _) in *.
  assert (N : node h0 a) by (split; unfold h0; cbn; rewrite lookup_insert_eq; eauto).
  destruct (init_spec h0 a N) as (h1 & -> & _ & O & A). cbn [mbind res_bind].
  eexists. split; [done |]. cbn. split_and!; [| done | by eapply node_alloc | done].
  split; cbn.
  - eapply ring_frame; [done | done |]. intros b Hb. rewrite list_elem_of_singleton. by intros ->.
  - eapply Forall_impl; [exact (holds_pkts _ _ Hh) |]. intros x Hx. cbn in Hx. rewrite lookup_insert_ne; [done |].
    intros ->. destruct Hf as (_ & _ & Hf). congruence.
  - apply Hh.
Qed.

Lemma add_spec q xs a n :
  holds q xs -> node (mem q) a -> a ∉ nalu_head q :: xs.*1 -> pkts q !! a = Some n ->
  Z.of_nat (length xs) < INT_MAX ->
  exists q', list_add_nalu (Some a) q = Ok q' /\ holds q' (xs ++ [(a, n)]) /\
    nalu_head q' = nalu_head q /\ pkts q' = pkts q.
Proof.
  intros [Hr Hp Hs] Hn Ha Hpk Hl. unfold list_add_nalu. cbn [of_option mbind res_bind].
  destruct (list_add_tail_spec _ _ _ _ Hr Hn Ha) as (h' & -> & R & _). cbn [mbind res_bind].
  rewrite int_op_in by (unfold INT_MIN; lia). cbn [mbind res_bind]. eexists. split; [done |].
  split; [split; cbn |].
  - by rewrite fmap_app.
  - rewrite Forall_app. split; [done | by constructor].
  - rewrite length_app. cbn. lia.
  - done.
Qed.

Lemma release_spec q xs a n :
  holds q xs -> pkts q !! a = Some n -> a ∉ nalu_head q :: xs.*1 ->
  exists q', pkt_node_release a q = Ok q' /\ holds q' xs /\ pkts q' = delete a (pkts q) /\
    nalu_head q' = nalu_head q.
Proof.
  intros [Hr Hp Hs] Hpk Ha. unfold pkt_node_release. rewrite Hpk. cbn [of_option mbind res_bind].
  eexists. split; [done |]. split; [| done]. split; cbn; [| | done].
  - eapply (ring_frame _ _ [a]); [done | |].
    + intros b Hb. rewrite list_elem_of_singleton in Hb. cbn [nexts prevs]. by rewrite !lookup_delete_ne.
    + intros b Hb. rewrite list_elem_of_singleton. by intros ->.
  - apply Forall_forall. intros x Hx. rewrite Forall_forall in Hp. rewrite lookup_delete_ne; [by apply Hp |].
    intros ->. apply Ha. right. apply list_elem_of_fmap. eauto.
Qed.

(** Taking the first packet off the list; its memory stays with the caller. *)
Lemma unlink_spec q a n xs :
  holds q ((a, n) :: xs) ->
  exists h, list_del a (mem q) = Ok h /\
    holds (set_list_size (set_mem q h) (list_size q - 1)) xs /\ a ∉ nalu_head q :: xs.*1 /\
    get_next (nalu_head q) (mem q) = Ok a /\ pkts q !! a = Some n.
Proof.
  intros [Hr Hp Hs]. cbn [fmap list_fmap fst] in Hr.
  destruct (list_del_at (mem q) (nalu_head q) [] a xs.*1 Hr) as (h & E & R & O & A). cbn [app] in *.
  apply Forall_cons_1 in Hp as [Hpa Hp]. exists h. split_and!; [done | | | | done].
  - split; cbn; [done | done | rewrite Hs; cbn; lia].
  - destruct Hr as [Hd _]. by apply (ring_NoDup_del _ [] a xs.*1) in Hd as [_ Hd].
  - unfold get_next. by rewrite (proj1 (ring_head _ _ _ Hr)).
Qed.

Lemma take_nalu_first q a n xs :
  holds q ((a, n) :: xs) ->
  exists q', take_nalu q = Ok (Some a, q') /\ holds q' xs /\ pkts q' = pkts q /\
    nalu_head q' = nalu_head q /\ a ∉ nalu_head q :: xs.*1.
Proof.
  intros Hh. destruct (unlink_spec _ _ _ _ Hh) as (h & E & H' & Hna & Hg & Hpa).
  unfold take_nalu. rewrite (holds_size _ _ Hh). cbn [length]. rewrite (proj2 (Z.gtb_lt _ _)) by lia.
  rewrite Hg. cbn [mbind res_bind]. rewrite E. cbn [mbind res_bind set_list_size set_mem list_size pkts].
  rewrite Hpa. eexists. split; [by destruct (_ >? 100) |].
  rewrite (holds_size _ _ Hh) in H'. split; [exact H' | done].
Qed.

Lemma take_nalu_none q : holds q [] -> take_nalu q = Ok (None, q).
Proof. intros Hh. unfold take_nalu. by rewrite (holds_size _ _ Hh). Qed.

(** The test for emptiness. *)
Lemma list_empty_holds q xs : holds q xs -> list_empty (nalu_head q) (mem q) = Ok (bool_decide (xs = [])).
Proof. intros Hh. rewrite (empty_ring _ _ _ (holds_ring _ _ Hh)). by destruct xs. Qed.

Lemma list_del_nalu_first wait q a n xs :
  holds q ((a, n) :: xs) -> list_del_nalu wait q = take_nalu q.
Proof. intros Hh. unfold list_del_nalu. by rewrite (list_empty_holds _ _ Hh). Qed.

Lemma clear_body_spec q h a nd xs :
  holds (set_mem q h) ((a, nd) :: xs) -> Z.of_nat (length xs) < INT_MAX ->
  exists q' h', clear_body a (q, h) = Ok (q', h') /\ holds (set_mem q' h') xs /\
    pkts q' = delete a (pkts q) /\ nalu_head q' = nalu_head q /\
    get_next (nalu_head q) h' = Ok (after xs.*1 (nalu_head q)).
Proof.
  intros Hh Hl. destruct (unlink_spec _ _ _ _ Hh) as (h1 & E & H1 & Hna & _ & Hpa).
  cbn [set_mem mem nalu_head pkts] in *. unfold clear_body. cbn [fst snd set_mem mem]. rewrite E.
  cbn [mbind res_bind]. unfold pkt_node_release. cbn [set_mem pkts]. rewrite Hpa.
  cbn [of_option mbind res_bind list_size set_mem]. pose proof (holds_size _ _ Hh) as Hs.
  cbn [set_mem list_size length] in Hs. rewrite Hs.
  rewrite int_op_in by (unfold INT_MIN, INT_MAX in *; lia). cbn [mbind res_bind].
  destruct (release_spec _ _ a nd H1) as (q2 & E2 & H2 & P2 & N2); [done | done |].
  unfold pkt_node_release in E2. cbn [set_list_size set_mem pkts] in E2. rewrite Hpa in E2.
  cbn [of_option mbind res_bind] in E2. injection E2 as <-.
  eexists _, _. split; [done |]. cbn [set_list_size set_mem list_size pkts nalu_head mem broadcasts] in *.
  rewrite Hs in H2. split_and!; [exact H2 | done | done |].
  unfold get_next. destruct (ring_head _ _ _ (holds_ring _ _ H2)) as [G _]. cbn [mem nalu_head] in G.
  cbn [nexts] in G |- *. by rewrite G.
Qed.

Lemma clear_loop fuel xs q h n :
  holds (set_mem q h) xs -> (length xs < fuel)%nat -> Z.of_nat (length xs) < INT_MAX ->
  n = after (tail xs.*1) (nalu_head q) ->
  exists q' h', walk_safe clear_body fuel (after xs.*1 (nalu_head q)) n (nalu_head q) (q, h) = Ok (q', h') /\
    holds (set_mem q' h') [] /\ pkts q' = foldr delete (pkts q) (rev xs.*1) /\ nalu_head q' = nalu_head q.
Proof.
  revert xs q h n; induction fuel as [| fuel IH]; intros xs q h n Hh Hf Hl ->; [lia |].
  cbn [walk_safe]. destruct xs as [| [a nd] xs].
  - cbn [fmap list_fmap after hd]. rewrite Z.eqb_refl. by exists q, h.
  - destruct (unlink_spec _ _ _ _ Hh) as (_ & _ & _ & Hna & _). cbn [set_mem nalu_head] in Hna.
    cbn [fmap list_fmap fst after hd tail length] in *. rewrite (proj2 (Z.eqb_neq _ _)) by set_solver.
    destruct (clear_body_spec q h a nd xs Hh ltac:(lia)) as (q1 & h1 & -> & H1 & P1 & N1 & G1).
    cbn [mbind res_bind snd]. rewrite <- N1 in *.
    assert (G2 : exists n', get_next (after xs.*1 (nalu_head q1)) h1 = Ok n' /\
      (xs <> [] -> n' = after (tail xs.*1) (nalu_head q1))).
    { destruct xs as [| [b nb] xs]; [cbn [fmap list_fmap hd after] in G1 |- *; rewrite G1; eexists; split; done |].
      pose proof (holds_ring _ _ H1) as R. apply (ring_at _ _ [] b) in R as [_ [R _]].
      cbn in R |- *. unfold get_next. rewrite R. eauto. }
    destruct G2 as (n' & -> & Hn'). cbn [mbind res_bind].
    destruct xs as [| x xs].
    + destruct fuel as [| fuel]; [cbn in Hf; lia |]. cbn [walk_safe fmap list_fmap hd]. rewrite Z.eqb_refl.
      exists q1, h1. by rewrite P1, N1.
    + destruct (IH (x :: xs) q1 h1 n' H1) as (q' & h' & E & H' & P'); [lia | lia | by apply Hn' |].
      destruct P' as [P' N']. exists q', h'. split; [exact E |]. split_and!; [done | | by rewrite N'].
      rewrite P', P1. cbn [rev]. by rewrite foldr_app.
Qed.

Lemma foldr_delete_elem (m : gmap Z nal_node_t) l a : a ∈ l -> foldr delete m l !! a = None.
Proof.
  induction l as [| b l IH]; cbn [foldr]; [by intros ?%not_elem_of_nil |].
  intros [-> | Ha]%elem_of_cons; [apply lookup_delete_eq |].
  destruct (decide (a = b)) as [-> |]; [apply lookup_delete_eq |]. rewrite lookup_delete_ne by done. by apply IH.
Qed.

Lemma list_clear_out_spec fuel q xs :
  holds q xs -> (length xs < fuel)%nat -> Z.of_nat (length xs) < INT_MAX ->
  exists q', list_clear_out fuel q = Ok q' /\ holds q' [] /\ pkts q' = foldr delete (pkts q) (rev xs.*1) /\
    nalu_head q' = nalu_head q.
Proof.
  intros Hq Hf Hlen. unfold list_clear_out, list_for_each_safe. cbn [snd].
  pose proof (holds_ring _ _ Hq) as R. destruct (ring_head _ _ _ R) as [G _].
  assert (Hn : exists n, get_next (after xs.*1 (nalu_head q)) (mem q) = Ok n /\
    (xs <> [] -> n = after (tail xs.*1) (nalu_head q))).
  { unfold get_next. destruct xs as [| [b nb] xs]; cbn [fmap list_fmap after hd fst tail] in *.
    - rewrite G. eexists. split; done.
    - apply (ring_at _ _ [] b) in R as [_ [R _]]. rewrite R. cbn. eauto. }
  destruct Hn as (n & En & Hn).
  assert (E0 : get_next (nalu_head q) (mem q) = Ok (after xs.*1 (nalu_head q)))
    by (unfold get_next; by rewrite G).
  rewrite E0. cbn [mbind res_bind].
  rewrite En. cbn [mbind res_bind].
  assert (C : exists q' h', walk_safe clear_body fuel (after xs.*1 (nalu_head q)) n (nalu_head q) (q, mem q)
      = Ok (q', h') /\ holds (set_mem q' h') [] /\ pkts q' = foldr delete (pkts q) (rev xs.*1) /\
        nalu_head q' = nalu_head q).
  { destruct xs as [| x xs].
    - destruct fuel as [| fuel]; [cbn in Hf; lia |]. cbn [walk_safe fmap list_fmap after hd].
      rewrite Z.eqb_refl. exists q, (mem q). by destruct q.
    - apply (clear_loop fuel (x :: xs) q (mem q) n); [by destruct q | done | done | by apply Hn]. }
  destruct C as (q' & h' & -> & H' & P'). cbn [mbind res_bind]. eexists. split; [done |].
  by split.
Qed.

(** C9.  The packet queue is a first-in first-out queue.  On a queue that holds the packets [xs]:
    creating a packet and adding it appends it and wakes the waiting thread when the queue was empty;
    taking from a non-empty queue returns the oldest packet without waiting; on an empty queue the
    taker waits and gets the first packet there is afterwards, or nothing; clearing removes and frees
    every packet; and [list_size] is the number of packets throughout. *)
Theorem nalu_queue_fifo (calloc_node : queue -> option Z) (wait : queue -> res queue) (q : queue)
    (xs : list (Z * nal_node_t)) (Hq : holds q xs) (Hlen : Z.of_nat (length xs) < INT_MAX) :
  (forall a pkg size' cid' seq', calloc_node q = Some a -> fresh_address q a ->
     exists q1 q2, pkt_node_create calloc_node pkg size' cid' seq' q = Ok (Some a, q1) /\
       list_add_nalu (Some a) q1 = Ok q2 /\ holds q2 (xs ++ [(a, MkNode cid' seq' size' pkg)])) /\
  (forall a n xs', xs = (a, n) :: xs' ->
     exists q', list_del_nalu wait q = Ok (Some a, q') /\ holds q' xs' /\ pkts q' !! a = Some n) /\
  (forall q1 xs1, xs = [] -> wait q = Ok q1 -> holds q1 xs1 ->
     exists q', list_del_nalu wait q = Ok (fst <$> head xs1, q') /\ holds q' (tail xs1)) /\
  (forall fuel, (length xs < fuel)%nat ->
     exists q', list_clear_out fuel q = Ok q' /\ holds q' [] /\ list_size q' = 0 /\
       forall a, a ∈ xs.*1 -> pkts q' !! a = None).
Proof.
  split_and!.
  - intros a pkg size' cid' seq' Ha Hf.
    destruct (create_spec calloc_node q xs a pkg size' cid' seq' Hq Ha Hf) as (q1 & E1 & H1 & N1 & A1 & P1).
    pose proof (fresh_not_in _ _ _ Hq Hf) as Hni. rewrite <- N1 in Hni.
    destruct (add_spec q1 xs a (MkNode cid' seq' size' pkg) H1 A1 Hni) as (q2 & E2 & H2 & _);
      [rewrite P1; apply lookup_insert_eq | done |]. eauto 6.
  - intros a n xs' ->. destruct (take_nalu_first q a n xs' Hq) as (q' & E & H' & P & _).
    exists q'. split_and!; [by rewrite (list_del_nalu_first wait q a n xs' Hq) | done |]. rewrite P.
    pose proof (holds_pkts _ _ Hq) as F. by apply Forall_cons_1 in F as [F _].
  - intros q1 xs1 -> Hw H1. unfold list_del_nalu. rewrite (list_empty_holds _ _ Hq).
    cbn [mbind res_bind bool_decide]. rewrite bool_decide_true by done. cbn [mbind res_bind]. rewrite Hw.
    cbn [mbind res_bind]. destruct xs1 as [| [a n] xs1].
    + rewrite (take_nalu_none _ H1). eauto.
    + destruct (take_nalu_first q1 a n xs1 H1) as (q' & E & H' & _). eauto.
  - intros fuel Hf. destruct (list_clear_out_spec fuel q xs Hq Hf Hlen) as (q' & E & H' & P' & _).
    exists q'. split_and!; [done | done | apply (holds_size _ _ H') |]. intros a Ha. rewrite P'.
    apply foldr_delete_elem. by rewrite list_elem_of_In, <- in_rev, <- list_elem_of_In.
Qed.

Definition sample_node : nal_node_t := MkNode 1 0 0 (blank 0).

Definition sample_queue : queue :=
  MkQueue (Heap {[ 1 := 2; 2 := 1 ]} {[ 1 := 2; 2 := 1 ]}) {[ 2 := sample_node ]} 1 1 1.

Lemma sample_queue_holds : holds sample_queue [(2, sample_node)].
Proof.
  split; [split; [by_decide | cbn; repeat split] | | done]. constructor; [done | constructor].
Defined.

Lemma nalu_queue_fifo_witness :
  (exists q', list_del_nalu (fun q => Ok q) sample_queue = Ok (Some 2, q') /\ holds q' []) /\
  (exists q1 q2, pkt_node_create (fun _ => Some 3) (blank 0) 0 1 0 sample_queue = Ok (Some 3, q1) /\
     list_add_nalu (Some 3) q1 = Ok q2 /\ holds q2 [(2, sample_node); (3, sample_node)]).
Proof.
  destruct (nalu_queue_fifo (fun _ => Some 3) (fun q => Ok q) sample_queue [(2, sample_node)] sample_queue_holds
    eq_refl) as (H1 & H2 & _). split.
  - destruct (H2 2 sample_node [] eq_refl) as (q' & E & Hq & _). exists q'. split; [exact E | exact Hq].
  - destruct (H1 3 (blank 0) 0 1 0 eq_refl) as (q1 & q2 & E1 & E2 & Hq);
      [repeat split; vm_compute; reflexivity |].
    exists q1, q2. split; [exact E1 | split; [exact E2 | exact Hq]].
Defined.

(** ** What the stream relies on

    A packet store of type [Q] as its producer sees it: creating a packet and adding it appends it to
    the packets waiting, as long as there are fewer than [INT_MAX]. *)
Class PacketStore (Q : Type) := {
  ps_create : RTMPPacket -> Z -> Z -> Z -> Q -> res (option Z * Q);
  ps_add : option Z -> Q -> res Q;
  ps_waiting : Q -> list nal_node_t -> Prop;
  ps_spec q ns pkg size' cid' seq' :
    ps_waiting q ns -> Z.of_nat (length ns) < INT_MAX ->
    exists a q1 q2, ps_create pkg size' cid' seq' q = Ok (a, q1) /\ ps_add a q1 = Ok q2 /\
      ps_waiting q2 (ns ++ [MkNode cid' seq' size' pkg])
}.

Section instance.
Context (calloc_node : queue -> option Z)
  (calloc_ok : forall q, exists a, calloc_node q = Some a /\ fresh_address q a).

#[export] Instance queue_store : PacketStore queue.
Proof.
  refine {| ps_create := pkt_node_create calloc_node; ps_add := list_add_nalu;
            ps_waiting q ns := exists xs, holds q xs /\ ns = xs.*2 |}.
  intros q ns pkg size' cid' seq' (xs & Hq & ->) Hl. rewrite length_fmap in Hl.
  destruct (calloc_ok q) as (a & Ha & Hf).
  destruct (create_spec calloc_node q xs a pkg size' cid' seq' Hq Ha Hf) as (q1 & E1 & H1 & N1 & A1 & P1).
  pose proof (fresh_not_in _ _ _ Hq Hf) as Hni. rewrite <- N1 in Hni.
  destruct (add_spec q1 xs a (MkNode cid' seq' size' pkg) H1 A1 Hni) as (q2 & E2 & H2 & _);
    [rewrite P1; apply lookup_insert_eq | done |].
  exists (Some a), q1, q2. split_and!; [done | done |]. exists (xs ++ [(a, MkNode cid' seq' size' pkg)]).
  by rewrite fmap_app.
Defined.
End instance.
