(* ===== verification/Stream.v ===== *)
(** * The H.264 stream of a client: from chunks to packets

    [h264_stream_proc], [media_stream_proc] and [stream_input_handler] of [bll/bll_h264_stream.c], on
    top of [Jt1078], [H264], [Buffer] and [RtmpPack] and of the packet store [Queue] implements. *)

From S2P Require Import Prelude List Jt1078 H264 Buffer RtmpPack Queue.

Record StreamChannel := MkChannel {
  ch_id : Z;
  ch_buffer : TimaBuffer;
  started : Z;
  meta_data : h264_meta_t
}.

(** The fields of [PrivInfo] the reading side uses; [store] is the packet list. *)
Record PrivInfo (Q : Type) := MkPriv {
  sim : Z;
  channel : StreamChannel;
  wmark : Z;
  wm_time : Z;
  wm_count : Z;
  cond : Z;
  running : Z;
  store : Q
}.
Arguments MkPriv {Q}.
Arguments sim {Q}.
Arguments channel {Q}.
Arguments wmark {Q}.
Arguments wm_time {Q}.
Arguments wm_count {Q}.
Arguments cond {Q}.
Arguments running {Q}.
Arguments store {Q}.

Section setters.
Context {Q : Type} (thiz : PrivInfo Q).
Definition set_sim v := MkPriv v (channel thiz) (wmark thiz) (wm_time thiz) (wm_count thiz) (cond thiz) (running thiz) (store thiz).
Definition set_channel v := MkPriv (sim thiz) v (wmark thiz) (wm_time thiz) (wm_count thiz) (cond thiz) (running thiz) (store thiz).
Definition set_wm m t c := MkPriv (sim thiz) (channel thiz) m t c (cond thiz) (running thiz) (store thiz).
Definition set_running v := MkPriv (sim thiz) (channel thiz) (wmark thiz) (wm_time thiz) (wm_count thiz) (cond thiz) v (store thiz).
Definition set_store (v : Q) := MkPriv (sim thiz) (channel thiz) (wmark thiz) (wm_time thiz) (wm_count thiz) (cond thiz) (running thiz) v.
End setters.

Definition set_buffer (c : StreamChannel) (b : TimaBuffer) := MkChannel (ch_id c) b (started c) (meta_data c).
Definition set_started (c : StreamChannel) (m : h264_meta_t) (s : Z) := MkChannel (ch_id c) (ch_buffer c) s m.
Definition set_id (c : StreamChannel) (id : Z) := MkChannel id (ch_buffer c) (started c) (meta_data c).

Section code.
Context {Q : Type} `{!PacketStore Q} (alloc : Z -> bool) (sizeof_packet : Z)
  (packager : TimaRTMPPackager).

(** The average of the first units' sizes decides the watermark: [wm_time] is an [int], the quotient
    is computed in [size_t]. *)
Definition stream_nalu_wmcnt (thiz : PrivInfo Q) (size : Z) : PrivInfo Q :=
  if negb (wmark thiz =? 0) then thiz else
  let t := wm_time thiz + 1 in
  if wm_time thiz <? 4 then set_wm thiz (wmark thiz) t (u64 (wm_count thiz + size))
  else set_wm thiz (if wm_count thiz / u64 t >? 8192 then 1 else -1) t (wm_count thiz).

(** The result tells whether the watermark of the socket is set. *)
Definition stream_set_wartermark (thiz : PrivInfo Q) : bool * PrivInfo Q :=
  if wmark thiz =? 1 then (true, set_wm thiz 2 (wm_time thiz) (wm_count thiz)) else (false, thiz).

(** [pkt_node_create(pkt, 0, channel->id, 0); list_add_nalu(p, nalu_node);] *)
Definition push (thiz : PrivInfo Q) (pkt : RTMPPacket) : res (PrivInfo Q) :=
  '(node, q) ← ps_create pkt 0 (ch_id (channel thiz)) 0 (store thiz);
  q ← ps_add node q;
  Ok (set_store thiz q).

(** Pack with [pack] and push: [None] when the packing fails. *)
Definition pack_push (thiz : PrivInfo Q) (pack : res (option RTMPPacket)) : res (option (PrivInfo Q)) :=
  pkt ← pack;
  match pkt with Some pkt => Some <$> push thiz pkt | None => Ok None end.

Definition push_meta (thiz : PrivInfo Q) : res (option (PrivInfo Q)) :=
  let m := meta_data (channel thiz) in
  pack_push thiz (rtmp_meta_pack alloc sizeof_packet packager (H264.meta_data m) (meta_size m)).

Definition push_data (thiz : PrivInfo Q) (data : list Z) (nalu : h264_nalu_t) : res (option (PrivInfo Q)) :=
  pack_push thiz (rtmp_data_pack alloc sizeof_packet packager (drop (nalu_data nalu) data)
                    (i32 (Z.of_nat (nalu_len nalu)))).

Definition parameter_set (t : Z) : bool := (t =? 0x07) || (t =? 0x08) || (t =? 0x06).

(** The [do ... while (len)] loop; the result is the returned code, [pos] and the state.  A failed
    packing returns -1 at once. *)
Fixpoint nalu_loop (fuel : nat) (thiz : PrivInfo Q) (data : list Z) (length pos : nat)
    : res (Z * nat * PrivInfo Q) :=
  match fuel with
  | O => NoFuel
  | S fuel =>
      '(len, nalu) ← h264_nalu_read data length pos;
      if (len =? 0)%nat then Ok (0, pos, thiz) else
      let pos := (pos + len)%nat in
      nalu ← of_option nalu;
      let thiz := if wmark thiz =? 0 then stream_nalu_wmcnt thiz (Z.of_nat (nalu_len nalu)) else thiz in
      if parameter_set (nalu_type nalu) then nalu_loop fuel thiz data length pos else
      thiz1 ← (if nalu_type nalu =? 0x05 then push_meta thiz else Ok (Some thiz));
      match thiz1 with
      | None => Ok (-1, pos, thiz)
      | Some thiz1 =>
          thiz2 ← push_data thiz1 data nalu;
          match thiz2 with
          | None => Ok (-1, pos, thiz1)
          | Some thiz2 => nalu_loop fuel thiz2 data length pos
          end
      end
  end.

(** The first chunk: the parameter sets, and their configuration packet.  The first 32 bytes of the
    block are printed.  The result is the position after the sets, [None] when the function returns
    -1. *)
Definition start_stream (thiz : PrivInfo Q) (blk : block Z) (data : list Z) (length : nat)
    : res (option nat * PrivInfo Q) :=
  let ch := channel thiz in
  _ ← blk_copy 0 32 blk;
  '(pos, meta) ← h264_metadata_get alloc data length 0;
  let ch := set_started ch (default (meta_data ch) meta) (started ch) in
  if (pos =? 0)%nat then Ok (None, set_channel thiz ch) else
  let thiz := set_channel thiz (set_started ch (meta_data ch) 1) in
  thiz1 ← push_meta thiz;
  match thiz1 with
  | None => Ok (None, thiz)
  | Some thiz1 => Ok (Some pos, thiz1)
  end.

Definition h264_stream_proc (thiz : PrivInfo Q) (buf : list Z) (size : Z) : res (Z * PrivInfo Q) :=
  '(_, b) ← tima_buffer_strdup alloc (ch_buffer (channel thiz)) buf size true;
  let thiz := set_channel thiz (set_buffer (channel thiz) b) in
  blk ← of_option (buffer b);
  let data := initialised blk in
  let length := Z.to_nat (tima_buffer_used b) in
  '(pos, thiz) ← (if started (channel thiz) =? 0 then start_stream thiz blk data length
                  else Ok (Some 0%nat, thiz));
  match pos with
  | None => Ok (-1, thiz)
  | Some pos =>
      '(ret, pos, thiz) ← nalu_loop (S length) thiz data length pos;
      if ret =? -1 then Ok (-1, thiz) else
      b ← tima_buffer_align (ch_buffer (channel thiz)) (Z.of_nat pos);
      Ok (0, set_channel thiz (set_buffer (channel thiz) b))
  end.

(** ** Chunks from the socket

    The socket's input buffer is libevent's: [input] is its contents, [copyout n] what
    [evbuffer_copyout] copies out of it ([None] for -1) and [remove n] what [evbuffer_remove] leaves. *)
Context (copyout : list Z -> Z -> option (list Z)) (remove : list Z -> Z -> list Z).

Definition JT1078_STREAM_PACKAGE_SIZE : Z := 980.

(** [stream_url_query] creates and starts the query node: its effect on the stream's own data, if
    any, is the parameter. *)
Context (stream_url_query : PrivInfo Q -> Z -> Z -> res (PrivInfo Q)).

Definition media_stream_proc (thiz : PrivInfo Q) (input : option (list Z)) : res (Z * PrivInfo Q) :=
  match input with
  | None => Ok (-1, thiz)
  | Some input =>
      match copyout input JT1078_STREAM_PACKAGE_SIZE with
      | None => Ok (-1, thiz)
      | Some bytes =>
          buff ← blk_store 0 bytes (replicate 1024 0);
          let clen := Z.of_nat (length bytes) in
          if clen =? 0 then Ok (0, thiz) else
          let clen := Z.min clen JT1078_STREAM_PACKAGE_SIZE in
          '(ret, head, stream) ← packet_jt1078_parse buff clen header0;
          if ret =? 0 then Ok (0, thiz) else
          if ret <? 0 then Ok (ret, thiz) else
          if ret >? JT1078_STREAM_PACKAGE_SIZE then Ok (JT1078_STREAM_PACKAGE_SIZE, thiz) else
          thiz ← (if sim thiz =? 2 ^ 64 - 1 then
                    let thiz := set_channel (set_sim thiz (simno head))
                                  (set_id (channel thiz) (Jt1078.channel head)) in
                    stream_url_query thiz (sim thiz) (Jt1078.channel head)
                  else Ok thiz);
          if (Z.land (mtype head) 0xf0 =? 0x30) || (Z.land (mtype head) 0xf0 =? 0x40) then Ok (ret, thiz)
          else
            stream ← of_option stream;
            let thiz := set_channel thiz (set_id (channel thiz) (Jt1078.channel head)) in
            '(_, thiz) ← h264_stream_proc thiz (drop stream buff) (bodylen head);
            Ok (ret, thiz)
      end
  end.

(** The [do ... while (len > 30 && thiz->cond)] loop; [len] is a [size_t]. *)
Fixpoint input_loop (fuel : nat) (thiz : PrivInfo Q) (input : list Z) (len : Z)
    : res (PrivInfo Q * list Z) :=
  match fuel with
  | O => NoFuel
  | S fuel =>
      '(ret, thiz) ← media_stream_proc thiz (Some input);
      if ret >? 0 then
        let input := remove input ret in
        let len := u64 (len - ret) in
        if (len >? 30) && negb (cond thiz =? 0) then input_loop fuel thiz input len else Ok (thiz, input)
      else Ok (thiz, input)
  end.

(** The result is the state, what is left in the input buffer, and whether the socket's watermark was
    set. *)
Definition stream_input_handler (fuel : nat) (thiz : PrivInfo Q) (input : list Z)
    : res (PrivInfo Q * list Z * bool) :=
  if cond thiz =? 0 then Ok (thiz, input, false) else
  let thiz := set_running thiz 1 in
  let '(wm, thiz) := stream_set_wartermark thiz in
  '(thiz, input) ← input_loop fuel thiz input (Z.of_nat (length input));
  Ok (set_running thiz 0, input, wm).

(** [h264_stream_init]: the fields it and [bll_h264_create] set, on a fresh packet store. *)
Definition h264_stream_init (q : Q) : res (PrivInfo Q) :=
  b ← tima_buffer_init alloc (Z.shiftl 128 10);
  Ok (MkPriv (2 ^ 64 - 1) (MkChannel 0 b 0 (Meta 0 [])) 0 0 0 1 0 q).
End code.

(** ** Units of a started stream *)

(** A run of units as the wire carries it: each unit and the start code behind it. *)
Definition flat (us : list (list Z * bool)) : list Z := concat (map (fun u => u.1 ++ start_code u.2) us).

(** The bodies of the packets a unit gives: its FLV tag, before it the configuration for an IDR unit,
    nothing for a parameter set or a supplemental unit. *)
Definition unit_bodies (tag : list Z -> list Z) (cfg : list Z) (u : list Z) : list (list Z) :=
  (if unit_type u =? 5 then [cfg] else []) ++ (if parameter_set (unit_type u) then [] else [tag u]).

Section proofs.
Context {Q : Type} `{!PacketStore Q} (alloc : Z -> bool) (sizeof_packet : Z)
  (packager : TimaRTMPPackager) (min : nat) (tag : list Z -> list Z) `{HP : !Packages packager min tag}
  (alloc_ok : forall n, alloc n = true) (sizeof_ok : 0 <= sizeof_packet <= 2 ^ 16).

Abbreviation thing := (PrivInfo Q).

(** What the producer keeps: everything but the statistics and the packets. *)
Definition same_stream (t t' : thing) : Prop :=
  sim t' = sim t /\ channel t' = channel t /\ cond t' = cond t /\ running t' = running t.

Lemma same_stream_trans t1 t2 t3 : same_stream t1 t2 -> same_stream t2 t3 -> same_stream t1 t3.
Proof. unfold same_stream. intuition congruence. Qed.

Lemma wmcnt_same t n : same_stream t (stream_nalu_wmcnt t n) /\ store (stream_nalu_wmcnt t n) = store t.
Proof.
  unfold stream_nalu_wmcnt, same_stream. destruct (negb _); [done |]. by destruct (_ <? _).
Qed.

(** The packets waiting are [ns]. *)
Definition waiting (t : thing) (ns : list nal_node_t) : Prop := ps_waiting (store t) ns.

Definition bodies (ns : list nal_node_t) : list (list Z) := map (fun n => body (package n)) ns.

Lemma push_ok t pkt ns :
  waiting t ns -> Z.of_nat (length ns) < INT_MAX ->
  exists t', push t pkt = Ok t' /\ waiting t' (ns ++ [MkNode (ch_id (channel t)) 0 0 pkt]) /\
    same_stream t t'.
Proof.
  intros Hw Hl. unfold push.
  destruct (ps_spec _ _ pkt 0 (ch_id (channel t)) 0 Hw Hl) as (a & q1 & q2 & -> & E & H2).
  cbn [mbind res_bind]. rewrite E. cbn [mbind res_bind]. eexists. split; [done |]. split; [exact H2 | done].
Qed.

(** The configuration packet of the stream. *)
Definition config_packet (t : thing) (cfg : RTMPPacket) : Prop :=
  rtmp_meta_pack alloc sizeof_packet packager (H264.meta_data (meta_data (channel t)))
    (meta_size (meta_data (channel t))) = Ok (Some cfg).

Lemma config_same t t' cfg : same_stream t t' -> config_packet t cfg -> config_packet t' cfg.
Proof. unfold config_packet. intros (_ & -> & _). done. Qed.

Lemma push_data_ok t pre u after ns :
  waiting t ns -> Z.of_nat (length ns) < INT_MAX -> (min <= length u)%nat ->
  Z.of_nat (length u) <= 2 ^ 30 ->
  exists t' n, push_data alloc sizeof_packet packager t (pre ++ u ++ after)
      (Nalu (length u) (unit_type u) (length pre)) = Ok (Some t') /\
    waiting t' (ns ++ [n]) /\ body (package n) = tag u /\ same_stream t t'.
Proof.
  intros Hw Hl Hm Hu. unfold push_data, pack_push. cbn [nalu_data nalu_len].
  rewrite drop_app_length, swrap_small by lia.
  destruct (data_pack_ok packager min tag alloc sizeof_packet u after sizeof_ok Hm Hu)
    as (size & _ & [[Ha _] | (_ & pkt & -> & Hb & _)]); [by rewrite alloc_ok in Ha |].
  cbn [mbind res_bind]. destruct (push_ok t pkt ns Hw Hl) as (t' & -> & Hw' & Hs).
  eexists t', _. split; [done |]. done.
Qed.

Lemma push_meta_ok t cfg ns :
  waiting t ns -> Z.of_nat (length ns) < INT_MAX -> config_packet t cfg ->
  exists t' n, push_meta alloc sizeof_packet packager t = Ok (Some t') /\
    waiting t' (ns ++ [n]) /\ body (package n) = body cfg /\ same_stream t t'.
Proof.
  intros Hw Hl Hc. unfold push_meta, pack_push. rewrite Hc. cbn [mbind res_bind].
  destruct (push_ok t cfg ns Hw Hl) as (t' & -> & Hw' & Hs). eexists t', _. split; [done |]. done.
Qed.

(** One round of the loop on a unit followed by its start code and more bytes. *)
Lemma nalu_round fuel t pre u long next post junk ns cfg :
  clean u -> (min <= length u)%nat -> Z.of_nat (length u) <= 2 ^ 30 ->
  waiting t ns -> Z.of_nat (length ns) + 2 < INT_MAX -> config_packet t cfg ->
  let data := pre ++ u ++ start_code long ++ next :: post in
  exists t' new,
    nalu_loop alloc sizeof_packet packager (S fuel) t (data ++ junk) (length data) (length pre)
    = nalu_loop alloc sizeof_packet packager fuel t' (data ++ junk) (length data)
        (length (pre ++ u ++ start_code long)) /\
    waiting t' (ns ++ new) /\ bodies new = unit_bodies tag (body cfg) u /\ same_stream t t'.
Proof.
  intros Hc Hm Hu Hw Hl Hcfg data. cbn [nalu_loop]. unfold h264_nalu_read.
  rewrite nalu_read_behind. pose proof (nalu_read_clean pre u long next post Hc) as R. fold data in R.
  rewrite R. clear R. cbn [mbind res_bind of_option].
  destruct (clean_cons _ Hc) as (x & u' & Eu).
  rewrite (proj2 (Nat.eqb_neq _ _)) by (rewrite Eu; cbn [length]; lia). cbn [nalu_type nalu_len].
  replace (length pre + (length u + length (start_code long)))%nat with (length (pre ++ u ++ start_code long))
    by (rewrite !length_app; lia).
  set (t1 := if wmark t =? 0 then stream_nalu_wmcnt t _ else t).
  assert (H1 : same_stream t t1 /\ store t1 = store t).
  { unfold t1. destruct (_ =? 0); [apply wmcnt_same | done]. }
  destruct H1 as [S1 E1]. assert (W1 : waiting t1 ns) by (unfold waiting; by rewrite E1).
  unfold unit_bodies. destruct (parameter_set (unit_type u)) eqn:Hps.
  { exists t1, []. rewrite app_nil_r. split_and!; [done | done | | done].
    destruct (Z.eqb_spec (unit_type u) 5) as [E5 |]; [| done]. by rewrite E5 in Hps. }
  assert (Ed : data ++ junk = pre ++ u ++ (start_code long ++ next :: post) ++ junk)
    by (unfold data; by rewrite <- !app_assoc).
  destruct (unit_type u =? 5).
  - destruct (push_meta_ok t1 cfg ns W1 ltac:(lia) (config_same _ _ _ S1 Hcfg)) as (t2 & n2 & -> & W2 & B2 & S2).
    cbn [mbind res_bind]. rewrite Ed.
    destruct (push_data_ok t2 pre u ((start_code long ++ next :: post) ++ junk) (ns ++ [n2]) W2) as (t3 & n3 & -> & W3 & B3 & S3);
      [rewrite length_app; cbn [length]; lia | done | done |].
    cbn [mbind res_bind]. exists t3, [n2; n3]. rewrite <- app_assoc in W3.
    split_and!; [done | done | cbn; by rewrite B2, B3 | eauto using same_stream_trans].
  - cbn [mbind res_bind]. rewrite Ed.
    destruct (push_data_ok t1 pre u ((start_code long ++ next :: post) ++ junk) ns W1) as (t3 & n3 & -> & W3 & B3 & S3);
      [lia | done | done |].
    cbn [mbind res_bind]. exists t3, [n3].
    split_and!; [done | done | cbn; by rewrite B3 | eauto using same_stream_trans].
Qed.

Definition good_unit (u : list Z * bool) : Prop :=
  clean u.1 /\ (min <= length u.1)%nat /\ Z.of_nat (length u.1) <= 2 ^ 30.

Lemma flat_cons u us : flat (u :: us) = (u.1 ++ start_code u.2) ++ flat us.
Proof. done. Qed.

Lemma flat_length us : (length us <= length (flat us))%nat.
Proof.
  induction us as [| u us IH]; [done |]. rewrite flat_cons, !length_app.
  destruct u as [? []]; cbn [length snd start_code]; lia.
Qed.

(** The loop consumes exactly the complete units and queues their packets in order. *)
Lemma nalu_loop_units us tail : forall fuel t pre junk ns cfg,
  Forall good_unit us -> tail <> [] -> (length us < fuel)%nat ->
  waiting t ns -> Z.of_nat (length ns) + 2 * Z.of_nat (length us) < INT_MAX -> config_packet t cfg ->
  let data := pre ++ flat us ++ tail in
  no_code data (length data) (length (pre ++ flat us)) ->
  exists t' new,
    nalu_loop alloc sizeof_packet packager fuel t (data ++ junk) (length data) (length pre)
    = Ok (0, length (pre ++ flat us), t') /\
    waiting t' (ns ++ new) /\ bodies new = flat_map (fun u => unit_bodies tag (body cfg) u.1) us /\
    same_stream t t'.
Proof.
  induction us as [| [u long] us IH]; intros fuel t pre junk ns cfg Hus Ht Hf Hw Hl Hc data Hno.
  - destruct fuel as [| fuel]; [cbn in Hf; lia |]. cbn [nalu_loop]. unfold h264_nalu_read.
    rewrite nalu_read_behind. unfold flat in *. cbn [map concat] in *. rewrite app_nil_r in *.
    rewrite nalu_read_none by done. cbn [mbind res_bind Nat.eqb]. exists t, []. by rewrite app_nil_r.
  - apply Forall_cons_1 in Hus as [(Hcl & Hm & Hu) Hus]. cbn [fst] in *.
    destruct fuel as [| fuel]; [cbn in Hf; lia |].
    assert (Ed : data = (pre ++ u ++ start_code long) ++ flat us ++ tail)
      by (unfold data; rewrite flat_cons; cbn [fst snd]; by rewrite <- !app_assoc).
    destruct (flat us ++ tail) as [| next post] eqn:En.
    { apply app_eq_nil in En as [_ ->]. done. }
    destruct (nalu_round fuel t pre u long next post junk ns cfg Hcl Hm Hu Hw ltac:(cbn [length] in Hl; lia) Hc)
      as (t1 & new1 & E1 & W1 & B1 & S1).
    assert (Ed' : pre ++ u ++ start_code long ++ next :: post = data) by (rewrite Ed; by rewrite <- !app_assoc).
    rewrite Ed' in E1. rewrite E1, Ed.
    assert (Hlen : (length new1 <= 2)%nat).
    { apply (f_equal length) in B1. unfold bodies in B1. rewrite length_map in B1. rewrite B1.
      unfold unit_bodies. rewrite length_app. destruct (_ =? 5), (parameter_set _); cbn; lia. }
    destruct (IH fuel t1 (pre ++ u ++ start_code long) junk (ns ++ new1) cfg) as (t2 & new2 & E2 & W2 & B2 & S2);
      try done.
    { cbn [length] in Hf. lia. } { rewrite length_app. cbn [length] in Hl. lia. }
    { by eapply config_same. }
    { cbv zeta. rewrite <- Ed. rewrite flat_cons in Hno. cbn [fst snd] in Hno. rewrite <- !app_assoc in Hno. rewrite <- !app_assoc. exact Hno. }
    exists t2, (new1 ++ new2). rewrite flat_cons. cbn [fst snd flat_map].
    rewrite <- !app_assoc in *. split_and!; [exact E2 | done | | by eapply same_stream_trans].
    unfold bodies in *. by rewrite map_app, B1, B2.
Qed.

(** The channel's buffer holds [xs], with its terminator and sizes the theorems cover. *)
Definition buffered (t : thing) (xs : list Z) : Prop :=
  let b := ch_buffer (channel t) in
  Buffer.holds b xs /\ terminated b xs /\ sized b.

Lemma proc_append t xs d after :
  buffered t xs -> d <> [] ->
  Z.of_nat (length (xs ++ d)) < buffer_total (ch_buffer (channel t)) ->
  Z.of_nat (length (xs ++ d)) < 2 ^ 31 ->
  exists b blk junk, tima_buffer_strdup alloc (ch_buffer (channel t)) (d ++ after) (Z.of_nat (length d)) true
      = Ok (Some 0, b) /\
    Buffer.holds b (xs ++ d) /\ terminated b (xs ++ d) /\ buffer_total b = buffer_total (ch_buffer (channel t)) /\
    buffer b = Some blk /\ initialised blk = (xs ++ d) ++ junk /\
    tima_buffer_used b = Z.of_nat (length (xs ++ d)).
Proof.
  intros (Hh & Ht & Hs) Hd Hroom Hint. pose proof Hh as (blk0 & Eb & _ & Hu & _).
  rewrite length_app in Hroom, Hint.
  destruct (strdup_append_room alloc _ xs d after Hh Hs Hd) as (b & E & Hh' & Ht' & Hc); [lia | lia |].
  pose proof Hh' as (blk & Eb' & Hbh & Hu' & Htot). destruct (initialised_holds _ _ Hbh) as [junk Hj].
  exists b, blk, junk. done.
Qed.

(** The data of a started stream. *)
Lemma proc_units (t : thing) (xs d after : list Z) (us : list (list Z * bool)) (tail : list Z)
    (ns : list nal_node_t) (cfg : RTMPPacket)
    (Hst : started (channel t) <> 0) (Hb : buffered t xs) (Hd : d <> [])
    (Hroom : Z.of_nat (length (xs ++ d)) < Z.min (2 ^ 31) (buffer_total (ch_buffer (channel t))))
    (Hus : xs ++ d = flat us ++ tail) (Hgood : Forall good_unit us) (Htail : tail <> [])
    (Hno : no_code (xs ++ d) (length (xs ++ d)) (length (flat us)))
    (Hw : waiting t ns) (Hl : Z.of_nat (length ns) + 2 * Z.of_nat (length us) < INT_MAX)
    (Hcfg : config_packet t cfg) :
  exists t' new,
    h264_stream_proc alloc sizeof_packet packager t (d ++ after) (Z.of_nat (length d)) = Ok (0, t') /\
    waiting t' (ns ++ new) /\ bodies new = flat_map (fun u => unit_bodies tag (body cfg) u.1) us /\
    buffered t' tail /\ (started (channel t') = started (channel t) /\ sim t' = sim t) /\
    meta_data (channel t') = meta_data (channel t) /\ cond t' = cond t /\ running t' = running t /\
    buffer_total (ch_buffer (channel t')) = buffer_total (ch_buffer (channel t)).
Proof.
  destruct (proc_append t xs d after Hb Hd) as (b & blk & junk & E & Hh & Ht & Hc & Eb & Ei & Eu); [lia.. |].
  unfold h264_stream_proc. rewrite E. cbn [mbind res_bind].
  set (t1 := set_channel t (set_buffer (channel t) b)). rewrite Eb. cbn [of_option mbind res_bind].
  rewrite (proj2 (Z.eqb_neq _ _)) by exact Hst. cbn [mbind res_bind].
  rewrite Ei, Eu, Nat2Z.id, Hus in *.
  assert (Hfuel : (length us < S (length (flat us ++ tail)))%nat).
  { rewrite length_app. pose proof (flat_length us). lia. }
  destruct (nalu_loop_units us tail _ t1 [] junk ns cfg Hgood Htail Hfuel Hw Hl Hcfg Hno)
    as (t2 & new & E2 & W2 & B2 & S2). cbn [app length] in E2. rewrite E2. cbn [mbind res_bind Z.eqb].
  destruct S2 as (S2a & S2b & S2c & S2d). rewrite S2b. cbn [channel t1 set_channel ch_buffer set_buffer].
  destruct (align_within b (flat us ++ tail) (Z.of_nat (length (flat us))) Hh Ht) as (b' & -> & Hh' & Ht' & Hc').
  { destruct Hh as (? & _ & _ & Hu & _). rewrite Hu, length_app. lia. }
  { destruct Hh as (? & _ & _ & Hu & _). rewrite Hu. lia. }
  rewrite Nat2Z.id, drop_app_length in Hh', Ht'. cbn [mbind res_bind].
  eexists _, new. split; [done |]. cbn [sim channel store set_channel cond running].
  split_and!; try done; [| cbn [channel set_channel ch_buffer set_buffer]; by rewrite Hc', Hc].
  unfold buffered. cbn [channel set_channel ch_buffer set_buffer]. split_and!; [done | done |].
  destruct Hb as (_ & _ & Hs). unfold sized in *. by rewrite Hc', Hc.
Qed.

(** C7.  A started stream.  When a chunk completes some units - what was buffered and the chunk together
    are complete units, each with the start code behind it, and a rest in which no start code is
    visible - [h264_stream_proc] returns 0, queues exactly the packets of the units, in order (an IDR
    unit is preceded by the configuration packet, parameter sets and supplemental units give none),
    and keeps exactly the rest in the buffer. *)
Theorem h264_stream_proc_units (t : thing) (xs d after : list Z) (us : list (list Z * bool)) (tail : list Z)
    (ns : list nal_node_t) (cfg : RTMPPacket)
    (Hst : started (channel t) <> 0) (Hb : buffered t xs) (Hd : d <> [])
    (Hroom : Z.of_nat (length (xs ++ d)) < Z.min (2 ^ 31) (buffer_total (ch_buffer (channel t))))
    (Hus : xs ++ d = flat us ++ tail) (Hgood : Forall good_unit us) (Htail : tail <> [])
    (Hno : no_code (xs ++ d) (length (xs ++ d)) (length (flat us)))
    (Hw : waiting t ns) (Hl : Z.of_nat (length ns) + 2 * Z.of_nat (length us) < INT_MAX)
    (Hcfg : config_packet t cfg) :
  exists t' new,
    h264_stream_proc alloc sizeof_packet packager t (d ++ after) (Z.of_nat (length d)) = Ok (0, t') /\
    waiting t' (ns ++ new) /\ bodies new = flat_map (fun u => unit_bodies tag (body cfg) u.1) us /\
    buffered t' tail /\ started (channel t') = started (channel t) /\ sim t' = sim t.
Proof.
  destruct (proc_units t xs d after us tail ns cfg Hst Hb Hd Hroom Hus Hgood Htail Hno Hw Hl Hcfg)
    as (t' & new & E & W & B & Hb' & S & _). by exists t', new.
Qed.

(** A chunk that ends with a start code.  When the data of a started stream is one unit and the
    four-byte start code behind it, and nothing else, the unit is returned with the start code in it
    and a position four bytes past the data: dropping that many bytes moves a wrapped-around number
    of bytes, outside the buffer. *)
Theorem h264_stream_proc_trailing (t : thing) (xs d after u : list Z) (ns : list nal_node_t)
    (Hst : started (channel t) <> 0) (Hb : buffered t xs) (Hd : d <> [])
    (Hroom : Z.of_nat (length (xs ++ d)) < Z.min (2 ^ 30) (buffer_total (ch_buffer (channel t))))
    (Hu : xs ++ d = u ++ [0; 0; 0; 1]) (Hclean : clean u) (Hidr : unit_type u <> 5)
    (Hmin : (min <= length u)%nat) (Hw : waiting t ns) (Hl : Z.of_nat (length ns) < INT_MAX) :
  h264_stream_proc alloc sizeof_packet packager t (d ++ after) (Z.of_nat (length d)) = UB.
Proof.
  destruct (proc_append t xs d after Hb Hd) as (b & blk & junk & E & Hh & Ht & Hc & Eb & Ei & Eu); [lia.. |].
  unfold h264_stream_proc. rewrite E. cbn [mbind res_bind].
  set (t1 := set_channel t (set_buffer (channel t) b)). rewrite Eb. cbn [of_option mbind res_bind].
  rewrite (proj2 (Z.eqb_neq _ _)) by exact Hst. cbn [mbind res_bind].
  rewrite Ei, Eu, Nat2Z.id, Hu in *. set (data := u ++ [0; 0; 0; 1]) in *.
  assert (Hlen : length data = (length u + 4)%nat) by (unfold data; rewrite length_app; done).
  rewrite Hlen at 1. rewrite Nat.add_comm. cbn [Nat.add].
  assert (L : exists t2, nalu_loop alloc sizeof_packet packager (S (S (S (S (S (length u)))))) t1 (data ++ junk)
      (length data) 0 = Ok (0, (length u + 8)%nat, t2) /\ channel t2 = channel t1).
  { destruct (nalu_read_end [] u Hclean) as [R _]. cbn [app length] in R. fold data in R.
    assert (N : forall fuel t', nalu_loop alloc sizeof_packet packager (S fuel) t' (data ++ junk) (length data)
        (length u + 8) = Ok (0, (length u + 8)%nat, t')).
    { intros fuel t'. cbn [nalu_loop]. unfold h264_nalu_read. rewrite nalu_read_behind.
      unfold nalu_read. by rewrite (proj2 (Nat.ltb_ge _ _)) by lia. }
    remember (S (S (S (S (length u))))) as fuel eqn:Ef.
    cbn [nalu_loop]. unfold h264_nalu_read. rewrite nalu_read_behind, R. cbn [mbind res_bind of_option].
    rewrite (proj2 (Nat.eqb_neq _ _)) by lia. cbn [nalu_type Nat.add].
    set (t2 := if wmark t1 =? 0 then stream_nalu_wmcnt t1 _ else t1).
    assert (S2 : same_stream t1 t2 /\ store t2 = store t1) by (unfold t2; destruct (_ =? 0); [apply wmcnt_same | done]).
    destruct S2 as [S2 W2]. rewrite Ef. destruct (parameter_set (unit_type u)).
    { rewrite N. exists t2. split; [done | apply S2]. }
    rewrite (proj2 (Z.eqb_neq _ _)) by done. cbn [mbind res_bind].
    destruct (push_data_ok t2 [] data junk ns) as (t3 & n & P & _ & _ & S3).
    { unfold waiting. by rewrite W2. } { done. } { lia. } { lia. }
    assert (Ht' : unit_type data = unit_type u).
    { destruct (clean_cons _ Hclean) as (x & u' & E'). unfold data. by rewrite E'. }
    rewrite Ht', Hlen in P. cbn [app length] in P. rewrite P. cbn [mbind res_bind]. rewrite N. exists t3.
    split; [done |]. destruct S2 as (_ & S2 & _), S3 as (_ & S3 & _). congruence. }
  destruct L as (t2 & -> & C2). cbn [mbind res_bind Z.eqb]. rewrite C2.
  cbn [t1 channel set_channel set_buffer ch_buffer].
  rewrite (align_beyond b data); [done | done |].
  destruct Hh as (? & _ & _ & Hub & _). rewrite Hub. lia.
Qed.
End proofs.

(** ** The first chunk *)

Section start.
Context {Q : Type} `{!PacketStore Q} (alloc : Z -> bool) (sizeof_packet : Z)
  (alloc_ok : forall n, alloc n = true) (sizeof_ok : 0 <= sizeof_packet <= 2 ^ 16).

Abbreviation packager := H264.tima_h264_rtmp_create.

(** The parameter sets of a stream: an SPS of type 7 with its profile and level bytes, whose length's
    low byte fits a signed [char], and a PPS of type 8. *)
Record parameter_sets (sps pps : list Z) : Prop := {
  ps_sps : clean sps /\ unit_type sps = 7;
  ps_pps : clean pps /\ unit_type pps = 8;
  ps_bytes : Forall is_byte (take 4 sps) /\ (4 <= length sps)%nat;
  ps_len : Z.of_nat (length sps) < 32768 /\ Z.of_nat (length sps) mod 256 < 128 /\
           Z.of_nat (length pps) < 65536
}.

Definition stream_header (l1 l2 l3 : bool) (sps pps : list Z) : list Z :=
  start_code l1 ++ sps ++ start_code l2 ++ pps ++ start_code l3.

Lemma config_of_sets t sps pps :
  parameter_sets sps pps ->
  meta_data (channel t) = Meta (Z.of_nat (length (meta_layout sps pps))) (meta_layout sps pps) ->
  exists cfg, config_packet alloc sizeof_packet packager (t : PrivInfo Q) cfg /\ body cfg = avc_config sps pps.
Proof.
  intros [_ _ [Hb H4] (Hl & Hm & Hp)] E. unfold config_packet. rewrite E. cbn [H264.meta_data meta_size].
  destruct sps as [| s0 [| s1 [| s2 [| s3 sps]]]]; try (exfalso; cbn in H4; lia).
  change (take 4 (s0 :: s1 :: s2 :: s3 :: sps)) with [s0; s1; s2; s3] in Hb.
  apply meta_pack_h264; try done. cbn [length] in Hl. lia.
Qed.

Lemma header_metadata l1 l2 l3 sps pps rest junk :
  parameter_sets sps pps -> rest <> [] ->
  let buf := stream_header l1 l2 l3 sps pps ++ rest in
  h264_metadata_get alloc (buf ++ junk) (length buf) 0 =
    Ok (length (stream_header l1 l2 l3 sps pps),
        Some (Meta (Z.of_nat (length (meta_layout sps pps))) (meta_layout sps pps))) /\
  length (stream_header l1 l2 l3 sps pps) <> 0%nat.
Proof.
  intros [[Hs Ts] [Hp Tp] [_ H4] (Hl & _ & Hl')] Hr buf.
  assert (Hlen : (3 < length buf)%nat).
  { unfold buf, stream_header. rewrite !length_app. destruct l1; cbn [start_code length]; lia. }
  destruct rest as [| next post]; [done |]. split.
  - rewrite metadata_behind; [| done |].
    + rewrite meta_layout_length, !Nat2Z.inj_add. unfold buf, stream_header.
      rewrite (metadata_layout alloc l1 l2 l3 sps pps next post Hs Hp Ts Tp).
      * by rewrite !Nat2Z.inj_add.
      * unfold INT_MAX. lia.
      * done.
    + intros n E. rewrite find_start_code_in in E by lia. injection E as <-. unfold buf, stream_header.
      rewrite <- !app_assoc, code_len_start. by destruct l1.
  - unfold stream_header. rewrite !length_app. destruct l1; cbn [start_code length]; lia.
Qed.

(** The first data of a stream. *)
Lemma proc_start (t : PrivInfo Q) (l1 l2 l3 : bool) (sps pps after : list Z)
    (us : list (list Z * bool)) (tail : list Z) (ns : list nal_node_t)
    (Hsets : parameter_sets sps pps)
    (Hst : started (channel t) = 0) (Hb : buffered t [])
    (Hroom : let d := stream_header l1 l2 l3 sps pps ++ flat us ++ tail in
             Z.of_nat (length d) < Z.min (2 ^ 31) (buffer_total (ch_buffer (channel t))) /\
             no_code d (length d) (length (stream_header l1 l2 l3 sps pps ++ flat us)))
    (Hgood : Forall (good_unit 1) us) (Htail : tail <> [])
    (Hcap : 32 <= buffer_total (ch_buffer (channel t)))
    (Hw : waiting t ns) (Hl : Z.of_nat (length ns) + 2 * Z.of_nat (length us) + 1 < INT_MAX) :
  let d := stream_header l1 l2 l3 sps pps ++ flat us ++ tail in
  exists t' new,
    h264_stream_proc alloc sizeof_packet packager t (d ++ after) (Z.of_nat (length d)) = Ok (0, t') /\
    waiting t' (ns ++ new) /\
    bodies new = avc_config sps pps :: flat_map (fun u => unit_bodies h264_tag (avc_config sps pps) u.1) us /\
    buffered t' tail /\ started (channel t') = 1 /\ sim t' = sim t /\ cond t' = cond t /\ running t' = running t /\
    buffer_total (ch_buffer (channel t')) = buffer_total (ch_buffer (channel t)) /\
    exists cfg, config_packet alloc sizeof_packet packager t' cfg /\ body cfg = avc_config sps pps.
Proof.
  intros d. destruct Hroom as [Hroom Hno]. fold d in Hroom, Hno. set (hdr := stream_header l1 l2 l3 sps pps) in *.
  assert (Hrest : flat us ++ tail <> []) by (intros E; apply app_eq_nil in E as [_ ?]; done).
  assert (Hd : d <> []) by (intros E; apply app_eq_nil in E as [_ ?]; done).
  destruct (proc_append alloc t [] d after Hb Hd) as (b & blk & junk & E & Hh & Ht & Hc & Eb & Ei & Eu); [cbn [app]; lia.. |].
  cbn [app] in *. unfold h264_stream_proc. rewrite E. cbn [mbind res_bind].
  set (t1 := set_channel t (set_buffer (channel t) b)). rewrite Eb. cbn [of_option mbind res_bind].
  change (started (channel t1)) with (started (channel t)). rewrite Hst, Ei, Eu, Nat2Z.id.
  cbn [Z.eqb]. unfold start_stream, blk_copy.
  rewrite decide_True.
  2:{ destruct Hh as (? & Eb2 & _ & _ & Htot). rewrite Eb in Eb2. injection Eb2 as <-. lia. }
  cbn [mbind res_bind].
  destruct (header_metadata l1 l2 l3 sps pps (flat us ++ tail) junk Hsets Hrest) as [M Hn0].
  fold hdr in M, Hn0. fold d in M. rewrite M. cbn [mbind res_bind].
  rewrite (proj2 (Nat.eqb_neq _ _) Hn0). cbn [default].
  set (t2 := set_channel t1 _).
  destruct (config_of_sets t2 sps pps Hsets eq_refl) as (cfg & Hcfg & Bcfg).
  destruct (push_meta_ok alloc sizeof_packet packager t2 cfg ns Hw ltac:(lia) Hcfg) as (t3 & n & -> & W3 & B3 & S3).
  cbn [mbind res_bind].
  assert (Hfuel : (length us < S (length d))%nat).
  { unfold d. rewrite !length_app. pose proof (flat_length us). lia. }
  destruct (nalu_loop_units alloc sizeof_packet packager 1 h264_tag alloc_ok sizeof_ok us tail (S (length d))
    t3 hdr junk (ns ++ [n]) cfg Hgood Htail Hfuel W3) as (t4 & new & E4 & W4 & B4 & S4).
  { rewrite length_app. cbn [length]. lia. } { by eapply config_same. } { exact Hno. }
  fold d in E4. rewrite E4. cbn [mbind res_bind Z.eqb].
  destruct S3 as (S3a & S3 & S3c & S3d), S4 as (S4a & S4 & S4c & S4d). rewrite S4, S3. cbn [t2 t1 channel set_channel set_started set_buffer ch_buffer].
  destruct (align_within b d (Z.of_nat (length (hdr ++ flat us))) Hh Ht) as (b' & -> & Hh' & Ht' & Hc').
  { destruct Hh as (? & _ & _ & Hu & _). rewrite Hu. unfold d. rewrite !length_app. lia. }
  { destruct Hh as (? & _ & _ & Hu & _). rewrite Hu. lia. }
  cbn [mbind res_bind]. rewrite Nat2Z.id in Hh', Ht'. unfold d in Hh', Ht'.
  rewrite app_assoc, drop_app_length in Hh', Ht'.
  eexists _, (n :: new). split; [done |]. rewrite <- app_assoc in W4. cbn [app] in W4.
  cbn [sim cond running channel set_channel]. split_and!; [exact W4 | | | done | by rewrite S4a, S3a | by rewrite S4c, S3c | by rewrite S4d, S3d | cbn [ch_buffer set_buffer]; by rewrite Hc', Hc | by exists cfg].
  - unfold bodies in *. cbn [map]. by rewrite B3, B4, Bcfg.
  - unfold buffered. cbn [channel set_channel ch_buffer set_buffer]. split_and!; [done | done |].
    destruct Hb as (_ & _ & Hs). unfold sized in *. by rewrite Hc', Hc.
Qed.

(** The first chunk.  When a fresh stream's first data is a start code, the two parameter sets,
    each with the start code behind it, some complete units and a rest, [h264_stream_proc] marks the
    stream started, queues first the AVC sequence header built from these two sets, then the packets
    of the units, and keeps exactly the rest in the buffer. *)
Theorem h264_stream_proc_start (t : PrivInfo Q) (l1 l2 l3 : bool) (sps pps after : list Z)
    (us : list (list Z * bool)) (tail : list Z) (ns : list nal_node_t)
    (Hsets : parameter_sets sps pps)
    (Hst : started (channel t) = 0) (Hb : buffered t [])
    (Hroom : let d := stream_header l1 l2 l3 sps pps ++ flat us ++ tail in
             Z.of_nat (length d) < Z.min (2 ^ 31) (buffer_total (ch_buffer (channel t))) /\
             no_code d (length d) (length (stream_header l1 l2 l3 sps pps ++ flat us)))
    (Hgood : Forall (good_unit 1) us) (Htail : tail <> [])
    (Hcap : 32 <= buffer_total (ch_buffer (channel t)))
    (Hw : waiting t ns) (Hl : Z.of_nat (length ns) + 2 * Z.of_nat (length us) + 1 < INT_MAX) :
  let d := stream_header l1 l2 l3 sps pps ++ flat us ++ tail in
  exists t' new,
    h264_stream_proc alloc sizeof_packet packager t (d ++ after) (Z.of_nat (length d)) = Ok (0, t') /\
    waiting t' (ns ++ new) /\
    bodies new = avc_config sps pps :: flat_map (fun u => unit_bodies h264_tag (avc_config sps pps) u.1) us /\
    buffered t' tail /\ started (channel t') = 1.
Proof.
  intros d. destruct (proc_start t l1 l2 l3 sps pps after us tail ns Hsets Hst Hb Hroom Hgood Htail Hcap Hw Hl)
    as (t' & new & E & W & B & Hb' & S & _). by exists t', new.
Qed.
End start.

(** ** The input handler *)

Section input.
Context {Q : Type} `{!PacketStore Q} (alloc : Z -> bool) (sizeof_packet : Z)
  (packager : TimaRTMPPackager) (copyout : list Z -> Z -> option (list Z)) (remove : list Z -> Z -> list Z)
  (stream_url_query : PrivInfo Q -> Z -> Z -> res (PrivInfo Q))
  (copyout_spec : forall input n, 0 <= n -> copyout input n = Some (take (Z.to_nat n) input))
  (remove_spec : forall input n, 0 <= n -> remove input n = drop (Z.to_nat n) input).

Abbreviation media := (media_stream_proc alloc sizeof_packet packager copyout stream_url_query).

(** The thread's 1024-byte buffer after the copy. *)
Definition copied (input : list Z) : list Z :=
  take 980 input ++ replicate (1024 - length (take 980 input)) 0.

Definition copied_len (input : list Z) : Z := Z.min (Z.of_nat (length input)) 980.

(** A whole packet is at the front of the input: the magic code, and all of the announced body within
    the 980 bytes looked at. *)
Definition whole_packet (input : list Z) : Prop :=
  take 4 (copied input) = MAGIC /\ body_length (copied input) <= copied_len input - 30.

Lemma copied_ok input :
  Forall is_byte input -> (32 <= length (copied input))%nat /\ Forall is_byte (copied input).
Proof.
  intros Hb. unfold copied. rewrite length_app, length_replicate, length_take. split; [lia |].
  rewrite Forall_app. split; [by apply Forall_take |]. apply Forall_replicate. unfold is_byte. lia.
Qed.

Lemma media_parse thiz input :
  Forall is_byte input -> input <> [] ->
  media thiz (Some input) =
    (let ret := if decide (take 4 (copied input) = MAGIC) then
                  (if body_length (copied input) <=? copied_len input - 30
                   then body_length (copied input) + 30 else 0) else -1 in
     let head := parsed_header (copied input) header0 in
     if ret <=? 0 then Ok (ret, thiz) else
     thiz ← (if sim thiz =? 2 ^ 64 - 1 then
               let thiz := set_channel (set_sim thiz (simno head))
                             (set_id (channel thiz) (Jt1078.channel head)) in
               stream_url_query thiz (sim thiz) (Jt1078.channel head)
             else Ok thiz);
     if (Z.land (mtype head) 0xf0 =? 0x30) || (Z.land (mtype head) 0xf0 =? 0x40) then Ok (ret, thiz)
     else
       let thiz := set_channel thiz (set_id (channel thiz) (Jt1078.channel head)) in
       '(_, thiz) ← h264_stream_proc alloc sizeof_packet packager thiz (drop 30 (copied input)) (bodylen head);
       Ok (ret, thiz)).
Proof.
  intros Hb Hne. unfold media_stream_proc. rewrite copyout_spec by done.
  change (Z.to_nat JT1078_STREAM_PACKAGE_SIZE) with 980%nat.
  assert (Hl : (length (take 980 input) <= 980)%nat) by (rewrite length_take; lia).
  assert (Hs : blk_store 0 (take 980 input) (replicate 1024 0) = Ok (copied input)).
  { unfold blk_store. rewrite length_replicate, decide_True by lia.
    rewrite take_0. cbn [app Nat.add]. by rewrite drop_replicate. }
  rewrite Hs. cbn [mbind res_bind].
  assert (H0 : Z.of_nat (length (take 980 input)) = copied_len input)
    by (unfold copied_len; rewrite length_take; lia).
  assert (Hp : 0 < copied_len input) by (unfold copied_len; destruct input; [done | cbn [length]; lia]).
  rewrite H0, (proj2 (Z.eqb_neq _ _)) by lia.
  replace (Z.min (copied_len input) JT1078_STREAM_PACKAGE_SIZE) with (copied_len input)
    by (unfold copied_len, JT1078_STREAM_PACKAGE_SIZE; lia).
  destruct (copied_ok input Hb) as [Hc Hcb]. rewrite parse_outcome by done. cbn [mbind res_bind].
  pose proof (body_length_bound _ Hc Hcb) as Hbl.
  case_decide as Hm; [| done].
  destruct (Z.leb_spec (body_length (copied input)) (copied_len input - 30)) as [Hle | Hgt]; [| done].
  rewrite (proj2 (Z.eqb_neq _ _)), (proj2 (Z.ltb_ge _ _)), (proj2 (Z.leb_gt _ 0)) by lia.
  rewrite Z.gtb_ltb, (proj2 (Z.ltb_ge _ _)) by (unfold copied_len, JT1078_STREAM_PACKAGE_SIZE in *; lia).
  destruct (if sim thiz =? _ then _ else _) as [thiz1 | |]; [| done | done]. cbn [mbind res_bind].
  by destruct (_ || _).
Qed.

(** Bytes behind the data handed over are not looked at. *)
Lemma proc_front t n xs after :
  (Z.to_nat n <= length xs)%nat ->
  h264_stream_proc alloc sizeof_packet packager t (xs ++ after) n = h264_stream_proc alloc sizeof_packet packager t xs n.
Proof.
  intros Hn. assert (E : forall b, tima_buffer_strdup alloc b (xs ++ after) n true = tima_buffer_strdup alloc b xs n true).
  { intros b. unfold tima_buffer_strdup. destruct (n <=? 0); [done |]. destruct (ensure _ _ _ _) as [[rc b'] | |]; [| done..].
    cbn [mbind res_bind]. destruct (rc =? -1); [done |]. unfold put, blk_copy. rewrite !drop_0, take_app_le by done.
    by rewrite !decide_True by (rewrite ?length_app; lia). }
  unfold h264_stream_proc. by rewrite E.
Qed.

Lemma copied_front p rest : (length p <= 980)%nat -> exists x, copied (p ++ rest) = p ++ x.
Proof. intros Hl. unfold copied. rewrite take_app_ge by done. rewrite <- app_assoc. by eexists. Qed.

Lemma body_length_front p x : (30 <= length p)%nat -> body_length (p ++ x) = body_length p.
Proof. intros Hl. unfold body_length. by rewrite !lookup_total_app_l by lia. Qed.

Lemma parsed_header_front p x head : (30 <= length p)%nat -> parsed_header (p ++ x) head = parsed_header p head.
Proof.
  intros Hl. unfold parsed_header. rewrite body_length_front by done. rewrite !lookup_total_app_l by lia.
  rewrite drop_app_le, take_app_le by (rewrite ?length_drop; lia). done.
Qed.

(** A packet as it lies in the input: its own length is the announced one. *)
Record packet (p : list Z) : Prop := {
  pk_bytes : Forall is_byte p;
  pk_size : (30 <= length p <= 980)%nat;
  pk_magic : take 4 p = MAGIC;
  pk_body : body_length p = Z.of_nat (length p) - 30
}.

(** The whole packet at the front of an input. *)
Lemma whole_front input :
  Forall is_byte input -> whole_packet input ->
  exists p rest, input = p ++ rest /\ packet p /\ Z.of_nat (length p) = body_length (copied input) + 30.
Proof.
  intros Hb [Hm Hle]. destruct (copied_ok input Hb) as [Hc Hcb]. pose proof (body_length_bound _ Hc Hcb) as Hbl.
  set (n := Z.to_nat (body_length (copied input) + 30)). exists (take n input), (drop n input).
  unfold copied_len in Hle. assert (Hl : (length (take n input) = n /\ 30 <= n <= 980)%nat) by (rewrite length_take; lia). destruct Hl as [Hl Hn].
  destruct (copied_front (take n input) (drop n input)) as [x Hx]; [lia |]. rewrite take_drop in Hx.
  split; [by rewrite take_drop |]. split; [| lia]. split; [by apply Forall_take | lia | |].
  - rewrite Hx, take_app_le in Hm by lia. done.
  - rewrite <- (body_length_front _ x) by lia. rewrite <- Hx. lia.
Qed.

(** The type byte of audio and of transparent packets. *)
Definition silent (p : list Z) : bool := (Z.land (p !!! 15%nat) 0xf0 =? 0x30) || (Z.land (p !!! 15%nat) 0xf0 =? 0x40).

(** What a packet does to the stream: the first one latches the SIM number and the channel and starts the query of the address; the
    body of a video packet is handed over under the packet's channel. *)
Definition noted (thiz : PrivInfo Q) (p : list Z) : res (PrivInfo Q) :=
  let head := parsed_header p header0 in
  if sim thiz =? 2 ^ 64 - 1 then
    stream_url_query (set_channel (set_sim thiz (simno head)) (set_id (channel thiz) (Jt1078.channel head))) (simno head) (Jt1078.channel head)
  else Ok thiz.

Definition accept (thiz : PrivInfo Q) (p : list Z) : res (PrivInfo Q) :=
  thiz ← noted thiz p;
  if silent p then Ok thiz else
  '(_, thiz) ← h264_stream_proc alloc sizeof_packet packager
     (set_channel thiz (set_id (channel thiz) (Jt1078.channel (parsed_header p header0)))) (drop 30 p) (Z.of_nat (length p) - 30);
  Ok thiz.

Lemma media_accept thiz p rest :
  packet p -> Forall is_byte rest ->
  media thiz (Some (p ++ rest)) = (thiz ← accept thiz p; Ok (Z.of_nat (length p), thiz)).
Proof.
  intros [Hb Hs Hm Hbl] Hr. rewrite media_parse; [| by rewrite Forall_app | destruct p; [cbn in Hs; lia | done]].
  destruct (copied_front p rest) as [x ->]; [lia |]. cbv zeta.
  rewrite take_app_le by lia. rewrite Hm, decide_True by done.
  rewrite body_length_front, parsed_header_front, Hbl by lia.
  assert (Hcl : Z.of_nat (length p) <= copied_len (p ++ rest)) by (unfold copied_len; rewrite length_app; lia).
  rewrite (proj2 (Z.leb_le (Z.of_nat (length p) - 30) _)) by lia.
  rewrite Z.sub_add, (proj2 (Z.leb_gt _ 0)) by lia. match goal with |- (x ← ?a; _) = _ => change a with (noted thiz p) end. unfold accept, silent.
  destruct (noted thiz p) as [thiz1 | |]; [| done..]. cbn [mbind res_bind mtype parsed_header bodylen]. rewrite Hbl, drop_app_le by lia.
  destruct (_ || _); [done |]. rewrite proc_front by (rewrite length_drop; lia).
  by destruct (h264_stream_proc _ _ _ _ _ _) as [[] | |].
Qed.

(** C23.  One packet.  With no whole packet at the front of the input - a wrong magic code, a packet that
    has not arrived, or one that announces more than 950 bytes of body - nothing is consumed and the
    stream is unchanged, whatever arrives behind it.  A whole packet [p], whatever its type, is consumed exactly: the
    first packet latches its SIM number and channel and starts the URL query, an audio or transparent packet does
    nothing else, and of a video packet exactly the body is handed to [h264_stream_proc], under its channel, whatever
    that makes of it and whatever follows the packet. *)
Theorem media_stream_proc_packet (thiz : PrivInfo Q) (input : list Z)
    (Hb : Forall is_byte input) (Hne : input <> []) :
  (~ whole_packet input -> exists ret, ret <= 0 /\ media thiz (Some input) = Ok (ret, thiz)) /\
  (forall rest, take 4 (copied input) = MAGIC -> 950 < body_length (copied input) ->
     (980 <= length input)%nat -> Forall is_byte rest ->
     media thiz (Some (input ++ rest)) = Ok (0, thiz)) /\
  (whole_packet input ->
     let ret := body_length (copied input) + 30 in
     let p := take (Z.to_nat ret) input in
     let head := parsed_header p header0 in
     let first := if sim thiz =? 2 ^ 64 - 1 then
                    stream_url_query (set_channel (set_sim thiz (simno head))
                      (set_id (channel thiz) (Jt1078.channel head))) (simno head) (Jt1078.channel head)
                  else Ok thiz in
     let type := Z.land (p !!! 15%nat) 0xf0 in
     30 <= ret <= Z.of_nat (length input) /\
     (type = 0x30 \/ type = 0x40 -> media thiz (Some input) = (thiz ← first; Ok (ret, thiz))) /\
     (type <> 0x30 -> type <> 0x40 ->
      media thiz (Some input) =
        (thiz ← first;
         '(_, thiz) ← h264_stream_proc alloc sizeof_packet packager (set_channel thiz (set_id (channel thiz) (Jt1078.channel head)))
            (drop 30 p) (ret - 30);
         Ok (ret, thiz)))).
Proof.
  split_and!.
  - intros Hw. rewrite media_parse by done. unfold whole_packet in Hw. cbv zeta.
    case_decide as Hm; [| eexists; split; [| done]; lia].
    rewrite (proj2 (Z.leb_gt (body_length (copied input)) (copied_len input - 30))) by (apply Z.lt_nge; tauto).
    eexists. split; [| done]. lia.
  - intros rest Hm Hbl Hl Hr. assert (Hci : copied (input ++ rest) = copied input)
      by (unfold copied; by rewrite take_app_le by lia).
    rewrite media_parse, Hci; [| by rewrite Forall_app | destruct input; done]. cbv zeta.
    rewrite decide_True by done.
    rewrite (proj2 (Z.leb_gt (body_length (copied input)) _)); [done |]. unfold copied_len. lia.
  - intros Hw. destruct (whole_front input Hb Hw) as (p & rest & -> & Hp & Hn). apply Forall_app in Hb as [_ Hr].
    cbv zeta. rewrite <- Hn, Nat2Z.id, take_app_length. pose proof (pk_size _ Hp). split; [rewrite length_app; lia |].
    rewrite media_accept by done. unfold accept, silent. fold (noted thiz p). split.
    + intros Hty. destruct (noted thiz p) as [t | |]; [| done..]. cbn [mbind res_bind].
      by destruct Hty as [-> | ->].
    + intros H1 H2. rewrite (proj2 (Z.eqb_neq _ _) H1), (proj2 (Z.eqb_neq _ _) H2). destruct (noted thiz p) as [t | |]; [| done..].
      cbn [mbind res_bind orb]. by destruct (h264_stream_proc _ _ _ _ _ _) as [[] | |].
Qed.

Lemma media_stalls thiz rest :
  Forall is_byte rest -> ~ whole_packet rest -> exists ret, ret <= 0 /\ media thiz (Some rest) = Ok (ret, thiz).
Proof.
  intros Hb Hw. destruct rest as [| c rest].
  - exists 0. split; [done |]. unfold media_stream_proc. rewrite copyout_spec by done.
    change (Z.to_nat JT1078_STREAM_PACKAGE_SIZE) with 980%nat. done.
  - rewrite media_parse by done. unfold whole_packet in Hw. cbv zeta.
    case_decide as Hm; [| eexists; split; [| done]; lia].
    rewrite (proj2 (Z.leb_gt (body_length (copied (c :: rest))) (copied_len (c :: rest) - 30)))
      by (apply Z.lt_nge; tauto). eexists. split; [| done]. lia.
Qed.

(** ** Runs of packets *)

Lemma push_cond t pkt t' : push t pkt = Ok t' -> cond t' = cond t.
Proof.
  unfold push. intros ([a q1] & _ & H)%bind_Ok_inv. by apply bind_Ok_inv in H as (q2 & _ & [= <-]).
Qed.

Lemma pack_push_cond t pack o : pack_push t pack = Ok o -> default (cond t) (cond <$> o) = cond t.
Proof.
  unfold pack_push. intros (pkt & _ & H)%bind_Ok_inv. destruct pkt as [pkt |]; [| by injection H as <-].
  destruct (push t pkt) as [t' | |] eqn:E; cbn in H; [| done..]. injection H as <-. by apply (push_cond t pkt).
Qed.

Lemma nalu_loop_cond fuel : forall t data len pos ret pos' t',
  nalu_loop alloc sizeof_packet packager fuel t data len pos = Ok (ret, pos', t') -> cond t' = cond t.
Proof.
  induction fuel as [| fuel IH]; intros t data len pos ret pos' t' E; [done |]. cbn [nalu_loop] in E.
  apply bind_Ok_inv in E as ([n nalu] & _ & E). destruct (n =? 0)%nat; [by injection E as _ _ <- |].
  apply bind_Ok_inv in E as (u & _ & E). set (t0 := if wmark t =? 0 then _ else t) in E.
  assert (C0 : cond t0 = cond t).
  { unfold t0. destruct (_ =? 0); [| done]. by destruct (wmcnt_same t (Z.of_nat (nalu_len u))) as [(_ & _ & C & _) _]. }
  destruct (parameter_set _); [apply IH in E; congruence |].
  apply bind_Ok_inv in E as (o1 & E1 & E). assert (C1 : default (cond t0) (cond <$> o1) = cond t0).
  { destruct (_ =? 5); [by apply pack_push_cond in E1 | by injection E1 as <-]. }
  destruct o1 as [t1 |]; [| by injection E as _ _ <-]. cbn in C1.
  apply bind_Ok_inv in E as (o2 & E2 & E). apply pack_push_cond in E2. destruct o2 as [t2 |]; cbn in E2; [| injection E as _ _ <-; congruence].
  apply IH in E. congruence.
Qed.

Lemma proc_cond t d n ret t' : h264_stream_proc alloc sizeof_packet packager t d n = Ok (ret, t') -> cond t' = cond t.
Proof.
  unfold h264_stream_proc. intros ([rc b] & _ & E)%bind_Ok_inv. apply bind_Ok_inv in E as (blk & _ & E).
  apply bind_Ok_inv in E as ([pos t1] & E1 & E). assert (C1 : cond t1 = cond t).
  { destruct (started _ =? 0); [| by injection E1 as _ <-]. unfold start_stream in E1.
    apply bind_Ok_inv in E1 as (cells & _ & E1). apply bind_Ok_inv in E1 as ([p m] & _ & E1).
    destruct (p =? 0)%nat; [by injection E1 as _ <- |]. apply bind_Ok_inv in E1 as (o & Eo & E1). apply pack_push_cond in Eo.
    destruct o as [t2 |]; injection E1 as _ <-; [exact Eo | done]. }
  destruct pos as [pos |]; [| injection E as _ <-; done].
  apply bind_Ok_inv in E as ([[r pos'] t2] & E2 & E). apply nalu_loop_cond in E2.
  destruct (r =? -1); [injection E as _ <-; congruence |]. apply bind_Ok_inv in E as (b' & _ & [= _ <-]). cbn. congruence.
Qed.

Context (query_cond : forall t s c t', stream_url_query t s c = Ok t' -> cond t' = cond t).

Lemma accept_cond t p t' : accept t p = Ok t' -> cond t' = cond t.
Proof.
  unfold accept. intros (t1 & E1 & E)%bind_Ok_inv. assert (C1 : cond t1 = cond t).
  { unfold noted in E1. destruct (_ =? _); [by apply query_cond in E1 | by injection E1 as <-]. }
  destruct (silent p); [by injection E as <- |]. apply bind_Ok_inv in E as ([r t2] & E2 & [= <-]). apply proc_cond in E2. by rewrite E2.
Qed.

(** The packets one after the other. *)
Fixpoint accept_all (thiz : PrivInfo Q) (ps : list (list Z)) : res (PrivInfo Q) :=
  match ps with
  | [] => Ok thiz
  | p :: ps => thiz ← accept thiz p; accept_all thiz ps
  end.

Abbreviation loop := (input_loop alloc sizeof_packet packager copyout remove stream_url_query).

Lemma input_loop_accepts fuel ps rest : forall thiz,
  Forall (fun p => packet p /\ (31 <= length p)%nat) ps -> Forall is_byte rest -> ~ whole_packet rest ->
  cond thiz <> 0 -> (length ps < fuel)%nat -> Z.of_nat (length (concat ps ++ rest)) < 2 ^ 63 ->
  loop fuel thiz (concat ps ++ rest) (Z.of_nat (length (concat ps ++ rest))) = (thiz ← accept_all thiz ps; Ok (thiz, rest)).
Proof.
  revert ps; induction fuel as [| fuel IH]; intros ps thiz Hps Hr Hw Hc Hf Hl; [lia |].
  cbn [input_loop]. destruct ps as [| p ps].
  - cbn [concat app]. destruct (media_stalls thiz rest Hr Hw) as (ret & Hret & ->). cbn [mbind res_bind].
    rewrite Z.gtb_ltb. by rewrite (proj2 (Z.ltb_ge _ _)) by lia.
  - apply Forall_cons_1 in Hps as [[Hp Hsz] Hps]. cbn [concat accept_all] in *. rewrite <- app_assoc in *.
    assert (Hbs : Forall is_byte (concat ps ++ rest)).
    { rewrite Forall_app. split; [| done]. apply Forall_concat. eapply Forall_impl; [exact Hps |]. intros q [Hq _]. by apply pk_bytes. }
    rewrite media_accept by done. destruct (accept thiz p) as [t | |] eqn:Ea; [| done..]. cbn [mbind res_bind].
    rewrite Z.gtb_ltb, (proj2 (Z.ltb_lt _ _)) by lia. rewrite remove_spec by lia.
    rewrite Nat2Z.id, drop_app_length. rewrite length_app in Hl |- *.
    replace (Z.of_nat (length p + length (concat ps ++ rest)) - Z.of_nat (length p))
      with (Z.of_nat (length (concat ps ++ rest))) by lia.
    apply accept_cond in Ea. rewrite wrap_small by lia. rewrite Ea, (proj2 (Z.eqb_neq _ _) Hc), andb_true_r, Z.gtb_ltb.
    destruct (Z.ltb_spec 30 (Z.of_nat (length (concat ps ++ rest)))) as [Hgt | Hle].
    + apply IH; [done | done | done | by rewrite Ea | cbn [length] in Hf; lia | lia].
    + destruct ps as [| p2 ps]; [done |]. apply Forall_cons_1 in Hps as [[_ Hp2] _].
      cbn [concat] in Hle. rewrite !length_app in Hle. lia.
Qed.

Context (min : nat) (tag : list Z -> list Z) `{HP : !Packages packager min tag}
  (alloc_ok : forall n, alloc n = true) (sizeof_ok : 0 <= sizeof_packet <= 2 ^ 16).

(** Packets arriving at a buffer of [B] bytes that holds [xs]: the units the video packets complete, and the rest. *)
Inductive units_of (B : Z) : list Z -> list (list Z) -> list (list Z * bool) -> list Z -> Prop :=
| units_end xs : units_of B xs [] [] xs
| units_silent xs p ps us xs' : silent p = true -> units_of B xs ps us xs' -> units_of B xs (p :: ps) us xs'
| units_video xs p ps us us' tail xs' :
    let d := drop 30 p in
    silent p = false -> xs ++ d = flat us ++ tail -> Forall (good_unit min) us -> tail <> [] ->
    no_code (xs ++ d) (length (xs ++ d)) (length (flat us)) ->
    Z.of_nat (length (xs ++ d)) < Z.min (2 ^ 31) B ->
    units_of B tail ps us' xs' -> units_of B xs (p :: ps) (us ++ us') xs'.

(** A started stream whose buffer of [B] bytes holds [xs], with [ns] waiting. *)
Record flowing (B : Z) (t : PrivInfo Q) (xs : list Z) (ns : list nal_node_t) (cfg : RTMPPacket) : Prop := {
  fl_started : started (channel t) <> 0;
  fl_buffered : buffered t xs;
  fl_total : buffer_total (ch_buffer (channel t)) = B;
  fl_waiting : waiting t ns;
  fl_config : config_packet alloc sizeof_packet packager t cfg;
  fl_sim : sim t <> 2 ^ 64 - 1
}.

Lemma accept_all_units B ps : forall t xs us xs' ns cfg,
  units_of B xs ps us xs' -> Forall (fun p => packet p /\ (31 <= length p)%nat) ps ->
  flowing B t xs ns cfg -> Z.of_nat (length ns) + 2 * Z.of_nat (length us) < INT_MAX ->
  exists t' new, accept_all t ps = Ok t' /\ flowing B t' xs' (ns ++ new) cfg /\
    bodies new = flat_map (fun u => unit_bodies tag (body cfg) u.1) us /\ sim t' = sim t /\ running t' = running t /\ cond t' = cond t.
Proof.
  induction ps as [| p ps IH]; intros t xs us xs' ns cfg Hu Hps Hst Hl; inversion Hu as [| ? ? ? ? ? Hsi Hu' | ? ? ? us1 us2 tail ? d Hsi Hxd Hgood Htail Hno Hroom Hu']; subst.
  - exists t, []. by rewrite app_nil_r.
  - apply Forall_cons_1 in Hps as [_ Hps]. cbn [accept_all]. unfold accept, noted. rewrite (proj2 (Z.eqb_neq _ _) (fl_sim _ _ _ _ _ Hst)), Hsi.
    cbn [mbind res_bind]. by apply (IH t xs us xs').
  - apply Forall_cons_1 in Hps as [[Hp Hsz] Hps]. destruct Hst as [H1 H2 H3 H4 H5 H7]. cbn [accept_all]. unfold accept, noted.
    rewrite (proj2 (Z.eqb_neq _ _) H7), Hsi. cbn [mbind res_bind]. set (t0 := set_channel t _). rewrite length_app in Hl.
    destruct (proc_units alloc sizeof_packet packager min tag alloc_ok sizeof_ok t0 xs d [] us1 tail ns cfg)
      as (t1 & new1 & E1 & W1 & B1 & F1 & [S1 N1] & M1 & C1 & R1 & T1); try done.
    { intros E. apply (f_equal length) in E. unfold d in E. rewrite length_drop in E. cbn in E. lia. }
    { change (ch_buffer (channel t0)) with (ch_buffer (channel t)). rewrite H3. lia. }
    { lia. }
    rewrite app_nil_r in E1. unfold d in E1 at 2. rewrite length_drop in E1. pose proof (pk_size _ Hp).
    replace (Z.of_nat (length p) - 30) with (Z.of_nat (length p - 30)) by lia. fold d. rewrite E1. cbn [mbind res_bind].
    assert (Hn1 : (length new1 <= 2 * length us1)%nat).
    { apply (f_equal length) in B1. unfold bodies in B1. rewrite length_map in B1. rewrite B1. clear.
      induction us1 as [| u us1 IH]; [done |]. cbn [flat_map length]. rewrite length_app. unfold unit_bodies at 1.
      rewrite length_app. destruct (_ =? 5), (parameter_set _); cbn [length]; lia. }
    destruct (IH t1 tail us2 xs' (ns ++ new1) cfg) as (t2 & new2 & -> & W2 & B2 & N2 & R2 & C2); [done | done | | rewrite length_app; lia |].
    { split; [by rewrite S1 | done | by rewrite T1 | done | | by rewrite N1]. unfold config_packet in *. by rewrite M1. }
    exists t2, (new1 ++ new2). rewrite app_assoc, flat_map_app. unfold bodies in *. rewrite map_app, B1, B2.
    split_and!; [done | done | done | by rewrite N2, N1 | by rewrite R2, R1 | by rewrite C2, C1].
Qed.

(** C22.  The input handler makes progress and stops.  On an open stream, with any number of whole packets of any type (each with
    a body) at the front of the input and then something that is not a whole packet, the handler consumes exactly the packets,
    within one round per packet and one more: it does what [media_stream_proc_packet] says of each of them in turn, and
    clears [running].  When the stream is started and its SIM number known, and the video packets among them complete the units [us], it
    returns with exactly the packets of these units added, in order, and the rest in the buffer.  On a closed stream it does
    nothing. *)
Theorem stream_input_handler_consumes (thiz : PrivInfo Q) (ps : list (list Z)) (rest : list Z) (fuel : nat)
    (Hps : Forall (fun p => packet p /\ (31 <= length p)%nat) ps) (Hr : Forall is_byte rest) (Hw : ~ whole_packet rest)
    (Hf : (length ps < fuel)%nat) (Hl : Z.of_nat (length (concat ps ++ rest)) < 2 ^ 63) :
  let handler := stream_input_handler alloc sizeof_packet packager copyout remove stream_url_query fuel thiz in
  let wm := wmark thiz =? 1 in
  let begun := set_running (set_wm thiz (if wm then 2 else wmark thiz) (wm_time thiz) (wm_count thiz)) 1 in
  (cond thiz <> 0 ->
     handler (concat ps ++ rest) = (t ← accept_all begun ps; Ok (set_running t 0, rest, wm)) /\
     forall B xs us xs' ns cfg, flowing B thiz xs ns cfg -> units_of B xs ps us xs' ->
       Z.of_nat (length ns) + 2 * Z.of_nat (length us) < INT_MAX ->
       exists t' new, handler (concat ps ++ rest) = Ok (t', rest, wm) /\ waiting t' (ns ++ new) /\
         bodies new = flat_map (fun u => unit_bodies tag (body cfg) u.1) us /\ buffered t' xs' /\
         sim t' = sim thiz /\ cond t' = cond thiz /\ running t' = 0) /\
  (cond thiz = 0 -> handler (concat ps ++ rest) = Ok (thiz, concat ps ++ rest, false)).
Proof.
  cbv zeta. split; [intros Hc | intros Hc; unfold stream_input_handler; by rewrite Hc].
  set (t0 := set_running (set_wm thiz _ _ _) 1).
  assert (E : stream_input_handler alloc sizeof_packet packager copyout remove stream_url_query fuel thiz (concat ps ++ rest) =
    (t ← accept_all t0 ps; Ok (set_running t 0, rest, wmark thiz =? 1))).
  { unfold stream_input_handler. rewrite (proj2 (Z.eqb_neq _ _) Hc). unfold stream_set_wartermark. cbn [wmark set_running].
    unfold t0. destruct (wmark thiz =? 1); (rewrite input_loop_accepts; [| done..]);
      match goal with |- ('(_, _) ← (t ← accept_all ?a ps; _); _) = (t ← accept_all ?b ps; _) => change b with a; by destruct (accept_all a ps) end. }
  split; [exact E |]. intros B xs us xs' ns cfg Hfl Hu Hn. rewrite E.
  destruct (accept_all_units B ps t0 xs us xs' ns cfg Hu Hps) as (t' & new & -> & W & Hbs & Hs & _ & Hco); [by destruct Hfl; split | done |].
  cbn [mbind res_bind]. eexists _, new. split; [done |]. destruct W. by split_and!.
Qed.
End input.

(** ** Concrete streams *)

(** An allocator that takes an unused address. *)
Definition fresh_node (q : queue) : option Z :=
  Some (fresh (dom (nexts (mem q)) ∪ dom (prevs (mem q)) ∪ dom (pkts q) : gset Z)).

Lemma fresh_node_ok q : exists a, fresh_node q = Some a /\ fresh_address q a.
Proof.
  eexists. split; [done |].
  set (s := dom (nexts (mem q)) ∪ dom (prevs (mem q)) ∪ dom (pkts q) : gset Z).
  pose proof (is_fresh s) as Hf. set (a := fresh s) in *. clearbody a. unfold s in Hf.
  rewrite !not_elem_of_union in Hf. destruct Hf as [[H1 H2] H3].
  split_and!; by apply not_elem_of_dom.
Qed.

#[local] Instance sample_store : PacketStore queue := queue_store fresh_node fresh_node_ok.

Definition empty_queue : queue := MkQueue (Heap {[ 1 := 1 ]} {[ 1 := 1 ]}) ∅ 1 0 0.

Definition sample_stream (s : Z) (m : h264_meta_t) : PrivInfo queue :=
  MkPriv 13800138000 (MkChannel 1 (MkBuffer (Some (replicate 65 (Some 0))) 0 64) s m) 0 0 0 1 0 empty_queue.

Lemma sample_buffered s m : buffered (sample_stream s m) [].
Proof.
  split_and!; [eexists; split; [done |]; split; [apply blk_holds_nil | done] | | split; discriminate].
  eexists. split; [done |]. by exists (replicate 64 (Some 0)).
Defined.

Lemma sample_waiting s m : waiting (sample_stream s m) [].
Proof.
  exists []. split; [| done]. split; [| constructor | done]. split; [by_decide | cbn; repeat split].
Defined.

Lemma sample_sets : parameter_sets sample_sps sample_pps.
Proof.
  split.
  - split; [split; [done | by exists 30] | done].
  - split; [split; [done | by exists 60] | done].
  - split; [by_decide | cbn; lia].
  - by_decide.
Defined.

Lemma sample_unit : good_unit 1 ([0x41; 2], false).
Proof. split_and!; [split; [done | by exists 2] | cbn; lia | cbn; lia]. Defined.

Lemma h264_stream_proc_units_witness :
  exists t' new,
    h264_stream_proc (fun _ => true) 64 H264.tima_h264_rtmp_create
      (sample_stream 1 (Meta 15 (meta_layout sample_sps sample_pps))) ([0x41; 2; 0; 0; 1; 0x41; 3] ++ [9]) 7
    = Ok (0, t') /\ bodies new = [h264_tag [0x41; 2]] /\ buffered t' [0x41; 3].
Proof.
  set (t := sample_stream 1 _).
  destruct (config_of_sets (fun _ => true) 64 (fun _ => eq_refl) ltac:(lia) t sample_sps sample_pps sample_sets
    eq_refl) as (cfg & Hcfg & _).
  destruct (h264_stream_proc_units (fun _ => true) 64 H264.tima_h264_rtmp_create 1 h264_tag
    (fun _ => eq_refl) ltac:(lia) t [] [0x41; 2; 0; 0; 1; 0x41; 3] [9] [([0x41; 2], false)] [0x41; 3] [] cfg)
    as (t' & new & E & _ & B & Hb & _).
  - discriminate.
  - exact (sample_buffered _ _).
  - discriminate.
  - cbn. lia.
  - reflexivity.
  - constructor; [exact sample_unit | constructor].
  - discriminate.
  - intros q Hq. cbn in Hq. lia.
  - exact (sample_waiting _ _).
  - cbn. unfold INT_MAX. lia.
  - exact Hcfg.
  - exists t', new. split; [exact E | split; [exact B | exact Hb]].
Defined.

Lemma h264_stream_proc_start_witness :
  exists t' new,
    h264_stream_proc (fun _ => true) 64 H264.tima_h264_rtmp_create (sample_stream 0 (Meta 0 []))
      ((stream_header true false true sample_sps sample_pps ++ [0x41; 2; 0; 0; 1; 0x41; 3]) ++ [9]) 25
    = Ok (0, t') /\ bodies new = [avc_config sample_sps sample_pps; h264_tag [0x41; 2]] /\ buffered t' [0x41; 3].
Proof.
  destruct (h264_stream_proc_start (fun _ => true) 64 (fun _ => eq_refl) ltac:(lia) (sample_stream 0 (Meta 0 []))
    true false true sample_sps sample_pps [9] [([0x41; 2], false)] [0x41; 3] [] sample_sets)
    as (t' & new & E & _ & B & Hb & _).
  - reflexivity.
  - exact (sample_buffered _ _).
  - split; [cbn; lia |]. intros q Hq. cbn in Hq. lia.
  - constructor; [exact sample_unit | constructor].
  - discriminate.
  - cbn. lia.
  - exact (sample_waiting _ _).
  - cbn. unfold INT_MAX. lia.
  - exists t', new. split; [exact E | split; [exact B | exact Hb]].
Defined.

Lemma h264_stream_proc_trailing_witness :
  h264_stream_proc (fun _ => true) 64 H264.tima_h264_rtmp_create (sample_stream 1 (Meta 0 []))
    ([0x41; 2; 0; 0; 0; 1] ++ []) 6 = UB.
Proof.
  apply (h264_stream_proc_trailing (fun _ => true) 64 H264.tima_h264_rtmp_create 1 h264_tag
    (fun _ => eq_refl) ltac:(lia) (sample_stream 1 (Meta 0 [])) [] [0x41; 2; 0; 0; 0; 1] [] [0x41; 2] []).
  - discriminate.
  - exact (sample_buffered _ _).
  - discriminate.
  - cbn. lia.
  - reflexivity.
  - split; [reflexivity | exists 2; split; [reflexivity | discriminate]].
  - discriminate.
  - cbn. lia.
  - exact (sample_waiting _ _).
  - cbn. unfold INT_MAX. lia.
Defined.

Definition take_front (input : list Z) (n : Z) : option (list Z) := Some (take (Z.to_nat n) input).
Definition drop_front (input : list Z) (n : Z) : list Z := drop (Z.to_nat n) input.

Definition audio_packet : list Z :=
  MAGIC ++ [0x81; 0xe2; 0; 1] ++ bcd_bytes 6 13800138000 ++ [2; 0x30] ++ replicate 12 0 ++ [1; 0] ++ [5; 6].

(** A video packet: a unit, a start code and the beginning of the next unit. *)
Definition video_bytes : list Z :=
  MAGIC ++ [0x81; 0xe2; 0; 1] ++ bcd_bytes 6 13800138000 ++ [2; 0x10] ++ replicate 12 0 ++ [0; 7] ++ [0x41; 2; 0; 0; 1; 0x41; 3].

Lemma media_stream_proc_packet_witness :
  let media := media_stream_proc (fun _ => true) 64 H264.tima_h264_rtmp_create take_front (fun t _ _ => Ok t) (sample_stream 0 (Meta 0 [])) in
  media (Some (audio_packet ++ [7])) = Ok (32, sample_stream 0 (Meta 0 [])) /\
  media (Some (video_bytes ++ [7])) =
    ('(_, t) ← h264_stream_proc (fun _ => true) 64 H264.tima_h264_rtmp_create (set_channel (sample_stream 0 (Meta 0 [])) (set_id (channel (sample_stream 0 (Meta 0 []))) 2))
       [0x41; 2; 0; 0; 1; 0x41; 3] 7; Ok (37, t)).
Proof.
  cbv zeta. split.
  - destruct (media_stream_proc_packet (fun _ => true) 64 H264.tima_h264_rtmp_create take_front (fun t _ _ => Ok t)
      (fun _ _ _ => eq_refl) (sample_stream 0 (Meta 0 [])) (audio_packet ++ [7]) ltac:(by_decide) ltac:(discriminate)) as (_ & _ & H).
    destruct H as (_ & H & _); [split; [reflexivity | vm_compute; discriminate] |]. apply H. left; reflexivity.
  - destruct (media_stream_proc_packet (fun _ => true) 64 H264.tima_h264_rtmp_create take_front (fun t _ _ => Ok t)
      (fun _ _ _ => eq_refl) (sample_stream 0 (Meta 0 [])) (video_bytes ++ [7]) ltac:(by_decide) ltac:(discriminate)) as (_ & _ & H).
    destruct H as (_ & _ & H); [split; [reflexivity | vm_compute; discriminate] |]. apply H; discriminate.
Defined.

Lemma audio_packet_ok : packet audio_packet /\ (31 <= length audio_packet)%nat.
Proof. split; [split; [by_decide | cbn; lia | reflexivity | reflexivity] | cbn; lia]. Qed.

Lemma video_packet_ok : packet video_bytes /\ (31 <= length video_bytes)%nat.
Proof. split; [split; [by_decide | cbn; lia | reflexivity | reflexivity] | cbn; lia]. Qed.

Lemma stream_input_handler_consumes_witness :
  exists t' new wm, stream_input_handler (fun _ => true) 64 H264.tima_h264_rtmp_create take_front drop_front
    (fun t _ _ => Ok t) 3 (sample_stream 1 (Meta 15 (meta_layout sample_sps sample_pps))) (audio_packet ++ video_bytes ++ [0x30; 0x31])
    = Ok (t', [0x30; 0x31], wm) /\ waiting t' new /\ bodies new = [h264_tag [0x41; 2]] /\ running t' = 0.
Proof.
  destruct (stream_input_handler_consumes (fun _ => true) 64 H264.tima_h264_rtmp_create take_front drop_front
    (fun t _ _ => Ok t) (fun _ _ _ => eq_refl) (fun _ _ _ => eq_refl) ltac:(by intros t s c t' [= <-]) 1 h264_tag (fun _ => eq_refl) ltac:(lia)
    (sample_stream 1 (Meta 15 (meta_layout sample_sps sample_pps))) [audio_packet; video_bytes] [0x30; 0x31] 3) as [H _].
  - constructor; [exact audio_packet_ok | constructor; [exact video_packet_ok | constructor]].
  - by_decide.
  - intros [H _]. discriminate H.
  - cbn. lia.
  - cbn. lia.
  - destruct H as [_ H]; [discriminate |].
    destruct (config_of_sets (fun _ => true) 64 (fun _ => eq_refl) ltac:(lia) (sample_stream 1 (Meta 15 (meta_layout sample_sps sample_pps)))
      sample_sps sample_pps sample_sets eq_refl) as (cfg & Hcfg & _).
    destruct (H 64 [] [([0x41; 2], false)] [0x41; 3] [] cfg) as (t' & new & E & W & B & _ & _ & _ & Hr).
    + split; [discriminate | exact (sample_buffered _ _) | reflexivity | exact (sample_waiting _ _) | exact Hcfg | discriminate].
    + apply units_silent; [reflexivity |]. apply (units_video _ _ _ _ _ [([0x41; 2], false)] [] [0x41; 3]);
        [reflexivity | reflexivity | constructor; [exact sample_unit | constructor] | discriminate | intros k Hk; cbn in Hk; lia | cbn; lia | constructor].
    + cbn. unfold INT_MAX. lia.
    + exists t', new, false. split_and!; [exact E | exact W | exact B | exact Hr].
Defined.
