(* ===== verification/Lifecycle.v ===== *)
(** * The life of a client stream

    The rest of [bll/bll_h264_stream.c]: the connection's event callback, the query for the stream's
    address, the publisher that is started for it and the way all of it is released.  Three threads
    share the stream: the event loop of its connection, the query's callback and the publishing
    thread of [Publish].  Each [action] is a stretch of one thread's code that holds no lock at its
    ends; [act] is its effect, [None] where the thread cannot run it.  Ending a stream takes no lock at all: each access
    of [rtmp_push_end] to memory that it shares is an action of its own ([ending]), and so is the last one of
    [rtmp_push_start]. *)

From S2P Require Import Prelude List Jt1078 H264 Buffer RtmpPack Queue Publish Stream.

(** Memory that was freed keeps, for the statements only, what it last held: using it is undefined. *)
Inductive object (A : Type) : Type :=
| Live (a : A)
| Freed (last : A).
Arguments Live {A}.
Arguments Freed {A}.

(** The node and its [PrivInfo]; the packet list is outside ([packets]), [client_bev] is the
    connection's bufferevent ([None] for NULL) and whether its reading is enabled; [publish] and
    [callback] tell whether [thiz->publish] and [p->pfn_callback] are set. *)
Record stream_node := MkStream {
  info : PrivInfo ();
  req_flow : Z;
  publish : bool;
  client_bev : option bool;
  callback : bool
}.

(** Where a thread is in [rtmp_push_end]: before it reads [thiz->publish], before [pub->pfn_set], before it resets
    [thiz->publish], and before the broadcast. *)
Inductive ending : Type := ERead | ETell | EReset | EWake.

(** Where the publishing thread is: not started, before connecting, before the test of [cond], before
    [list_del_nalu], waiting on [cond_empty] (and whether it was woken), holding a packet, closing the
    connection with one, in [rtmp_push_end] with one, or gone. *)
Inductive pc : Type :=
| PNone | PStart | PTest | PTake | PWait (woken : bool) | PSend (a : Z) | PClose (a : Z) | PEnd (a : Z) (e : ending) | PDone.

(** The query: not sent, waiting for its callback, in [rtmp_push_start] with the publisher started, closing the connection
    after a failure, done. *)
Inductive qstate : Type := QNone | QPending | QStarting | QClosing | QDone.

(** [event] is where the event loop is when it is in [rtmp_push_end]; [publishers] counts the publishers of librtmp's
    connections that are in memory. *)

Record world (lib : librtmp) (S : Type) := MkWorld {
  stream : object stream_node;
  packets : queue;
  pub : option (PublishPriv lib);
  thread : pc;
  query : qstate;
  event : option ending;
  publishers : Z;
  srv : S
}.
Arguments MkWorld {lib S}.
Arguments stream {lib S}.
Arguments packets {lib S}.
Arguments pub {lib S}.
Arguments thread {lib S}.
Arguments query {lib S}.
Arguments event {lib S}.
Arguments publishers {lib S}.
Arguments srv {lib S}.

Definition NODE_SUCCESS : Z := 0.
Definition BEV_EVENT_EOF : Z := 0x10.
Definition BEV_EVENT_ERROR : Z := 0x20.
Definition BEV_EVENT_TIMEOUT : Z := 0x40.
Definition BEV_EVENT_CONNECTED : Z := 0x80.

Section code.
Context (lib : librtmp) {S : Type} (pfn_callback : S -> res S)
  (calloc_node : queue -> option Z)
  (network : world lib S -> list Z * Z) (alloc_ok dup_ok : world lib S -> bool).
Implicit Types (w : world lib S) (t : stream_node).

Definition thiz w : res stream_node :=
  match stream w with Live t => Ok t | Freed _ => UB end.

Definition set_stream w s : world lib S := MkWorld s (packets w) (pub w) (thread w) (query w) (event w) (publishers w) (srv w).
Definition set_packets w q : world lib S := MkWorld (stream w) q (pub w) (thread w) (query w) (event w) (publishers w) (srv w).
Definition set_pub (p : option (PublishPriv lib)) w : world lib S :=
  MkWorld (stream w) (packets w) p (thread w) (query w) (event w) (publishers w) (srv w).
Definition set_thread w k : world lib S := MkWorld (stream w) (packets w) (pub w) k (query w) (event w) (publishers w) (srv w).
Definition set_query w k : world lib S := MkWorld (stream w) (packets w) (pub w) (thread w) k (event w) (publishers w) (srv w).
Definition set_event w k : world lib S := MkWorld (stream w) (packets w) (pub w) (thread w) (query w) k (publishers w) (srv w).
Definition set_publishers w n : world lib S := MkWorld (stream w) (packets w) (pub w) (thread w) (query w) (event w) n (srv w).
Definition set_srv w s : world lib S := MkWorld (stream w) (packets w) (pub w) (thread w) (query w) (event w) (publishers w) s.

(** The memory of a publisher. *)
Definition calloc_publisher w : world lib S := set_publishers w (publishers w + 1).
Definition free_publisher (_ : TimaRTMPPublisher lib) w : world lib S := set_publishers w (publishers w - 1).

Definition set_info t i := MkStream i (req_flow t) (publish t) (client_bev t) (callback t).
Definition set_publish t b := MkStream (info t) (req_flow t) b (client_bev t) (callback t).
Definition set_bev t b := MkStream (info t) (req_flow t) (publish t) b (callback t).
Definition set_cond (i : PrivInfo ()) v :=
  MkPriv (sim i) (channel i) (wmark i) (wm_time i) (wm_count i) v (running i) (store i).

(** [pthread_cond_broadcast(&thiz->cond_empty)]: only a thread that waits notices it. *)
Definition broadcast w : world lib S :=
  match thread w with PWait _ => set_thread w (PWait true) | _ => w end.

Definition bll_h264_delete w : res (world lib S) :=
  t ← thiz w; Ok (set_stream w (Freed t)).

(** The loop of [list_clear_out] takes a round per packet and one to see the end. *)
Definition h264_stream_release w : res (world lib S) :=
  t ← thiz w;
  s ← (if callback t then pfn_callback (srv w) else Ok (srv w));
  let c := channel (info t) in
  let c := MkChannel (ch_id c) (tima_buffer_clean (ch_buffer c)) (started c)
             (Meta (meta_size (meta_data c)) []) in
  let t := set_bev (set_info t (set_channel (info t) c)) None in
  q ← list_clear_out (1 + Z.to_nat (list_size (packets w))) (packets w);
  bll_h264_delete (set_packets (set_srv (set_stream w (Live t)) s) q).

Definition h264_stream_callback (msg : Z) w : res (Z * world lib S) :=
  w ← h264_stream_release w;
  Ok (if negb (msg =? NODE_SUCCESS) then -1 else 0, w).

(** [rtmp_push_end], one access at a time; [None] is its end. *)
Definition rtmp_push_end (state : Z) (e : ending) w : res (option ending * world lib S) :=
  match e with
  | ERead => t ← thiz w; Ok (Some (if publish t then ETell else EWake), w)
  | ETell => w ← rtmp_publish_set lib pub set_pub state None w; Ok (Some EReset, w)
  | EReset => t ← thiz w; Ok (Some EWake, set_stream w (Live (set_publish t false)))
  | EWake => _ ← thiz w; Ok (None, broadcast w)
  end.

(** The publisher's node is created, given the request and started: the thread pool runs its thread. *)
Definition rtmp_push_start (uri : list Z) w : res (world lib S) :=
  t ← thiz w;
  let req := MkPublishReq (req_flow t) (ch_id (channel (info t))) (sim (info t)) (take 261 uri) true true in
  w ← rtmp_publish_set lib pub set_pub RTMP_PUB_STATE_TYPE_START (Some req)
        (set_pub (Some (rtmp_publish_create lib)) w);
  Ok (set_thread w PStart).

(** Its end: [thiz->publish] is set after the start. *)
Definition push_started w : res (world lib S) :=
  t ← thiz w; Ok (set_stream w (Live (set_publish t true))).

(** [client_connection_close] up to its wait for the reading side, and after it. *)
Definition close_begin w : res (world lib S) :=
  t ← thiz w;
  _ ← of_option (client_bev t);
  Ok (set_stream w (Live (set_bev (set_info t (set_cond (info t) 0)) (Some false)))).

Definition close_end (immediately : bool) w : res (option ending * world lib S) :=
  t ← thiz w;
  if negb immediately && publish t then Ok (Some ERead, w)
  else w ← h264_stream_release w; Ok (None, w).

Definition has (event bit : Z) : bool := negb (Z.land event bit =? 0).

(** The event callback up to its call of [rtmp_push_end].  Before it looks at [thiz->publish], which is the one access here to memory that
    another thread writes, it only stops its own bufferevent and clears [cond], which the event loop alone reads. *)
Definition stream_socket_eventcb (event : Z) w : res (world lib S) :=
  t ← thiz w;
  if negb (has event BEV_EVENT_EOF) && negb (has event BEV_EVENT_ERROR)
     && negb (has event BEV_EVENT_TIMEOUT) && has event BEV_EVENT_CONNECTED then Ok w else
  let w := set_stream w (Live (set_bev (set_info t (set_cond (info t) 0)) (Some false))) in
  if publish t then Ok (set_event w (Some ERead)) else h264_stream_release w.

(** The query's callback up to its wait or to the start of the publisher. *)
Definition url_query_callback (msg : Z) (uri : list Z) w : res (world lib S) :=
  _ ← thiz w;
  if negb (msg =? NODE_SUCCESS) then w ← close_begin w; Ok (set_query w QClosing)
  else w ← rtmp_push_start uri w; Ok (set_query w QStarting).

(** [stream_input_handler] hands a packet to the queue: [pkt_node_create] and [list_add_nalu]. *)
Definition push_packet (pkg : RTMPPacket) w : res (world lib S) :=
  t ← thiz w;
  '(a, q) ← pkt_node_create calloc_node pkg 0 (ch_id (channel (info t))) 0 (packets w);
  q ← list_add_nalu a q;
  Ok (let w' := set_packets w q in if list_size (packets w) =? 0 then broadcast w' else w').

(** The query node is created, given the request and started: its callback is due. *)
Definition stream_url_query w : world lib S := set_query w QPending.

(** The first packet of a stream in [media_stream_proc]: its identity is kept and the query for it is
    started. *)
Definition first_packet (simno ch : Z) w : res (world lib S) :=
  t ← thiz w;
  Ok (stream_url_query (set_stream w (Live (set_info t (set_channel (set_sim (info t) simno)
                                                  (set_id (channel (info t)) ch)))))).

Definition rtmp_stream_pub (now : Z) (pkg : RTMPPacket) w : res (Z * world lib S) :=
  p ← of_option (pub w);
  let '(ret, _, publisher') := tima_rtmp_send lib (publisher p) pkg now in
  Ok (ret, set_pub (Some (MkPublishPriv (pub_req p) (pub_id p) (pub_cond p) (connected p) publisher')) w).

(** [list_del_nalu] after the wait, for [list_traverse]: a packet to send, or another round. *)
Definition traverse_take w : res (world lib S) :=
  _ ← thiz w;
  '(o, q) ← take_nalu (packets w);
  Ok (set_thread (set_packets w q) (match o with Some a => PSend a | None => PTest end)).

Definition traverse_enter w : res (world lib S) :=
  _ ← thiz w;
  e ← list_empty (nalu_head (packets w)) (mem (packets w));
  if e : bool then Ok (set_thread w (PWait false)) else traverse_take w.

(** [nal_node->destroy] and the return to the loop. *)
Definition traverse_destroy (a : Z) w : res (world lib S) :=
  q ← pkt_node_release a (packets w); Ok (set_thread (set_packets w q) PTest).

Definition traverse_send (now a : Z) w : res (world lib S) :=
  n ← of_option (pkts (packets w) !! a);
  '(ret, w) ← rtmp_stream_pub now (package n) w;
  if ret <? 0 then w ← close_begin w; Ok (set_thread w (PClose a)) else traverse_destroy a w.

(** The test of [rtmp_publish_thread]'s loop, and the release after it. *)
Definition publish_test w : res (world lib S) :=
  p ← of_option (pub w);
  if pub_cond p =? 0 then
    w ← rtmp_publish_release lib pub set_pub free_publisher (fun w => snd <$> h264_stream_callback NODE_SUCCESS w) w;
    Ok (set_thread w PDone)
  else Ok (set_thread w PTake).

Definition publish_connect w : res (world lib S) :=
  w ← rtmp_publish_connect lib pub set_pub calloc_publisher network alloc_ok dup_ok w; Ok (set_thread w PTest).

(** What [list_traverse] does after [bll_h264_stream_close], or where it is in it. *)
Definition closing (a : Z) (r : option ending * world lib S) : res (world lib S) :=
  match r.1 with
  | Some e => Ok (set_thread r.2 (PEnd a e))
  | None => traverse_destroy a r.2
  end.

Inductive action : Type :=
| AReadBegin | APush (pkg : RTMPPacket) | AQuery (simno ch : Z) | AReadEnd
| AEvent (event : Z) | AEnd
| AQueryReturn (msg : Z) (uri : list Z) | AStarted | AQueryClose
| AConnect | ATest | ATake | AWake | ASend (now : Z) | AClose | APubEnd.

(** The event loop of the connection runs one callback at a time, and none once it is disabled. *)
Definition idle w : bool :=
  match stream w with
  | Live t => (running (info t) =? 0) && match client_bev t with Some b => b | None => false end
  | Freed _ => false
  end.

(** Inside [stream_input_handler]. *)
Definition reading w : bool :=
  match stream w with Live t => negb (running (info t) =? 0) | Freed _ => false end.

Definition set_run (v : Z) w : res (world lib S) :=
  t ← thiz w; Ok (set_stream w (Live (set_info t (set_running (info t) v)))).

Definition accepting w : bool :=
  match stream w with Live t => negb (cond (info t) =? 0) | Freed _ => false end.

Definition unnamed w : bool :=
  match stream w with Live t => sim (info t) =? 2 ^ 64 - 1 | Freed _ => false end.

Definition when (b : bool) (r : res (world lib S)) : option (res (world lib S)) :=
  if b then Some r else None.

Definition act (a : action) w : option (res (world lib S)) :=
  match a, thread w, query w with
  | AReadBegin, _, _ => when (idle w && accepting w) (set_run 1 w)
  | APush pkg, _, _ => when (reading w) (push_packet pkg w)
  | AQuery simno ch, _, _ => when (reading w && unnamed w) (first_packet simno ch w)
  | AReadEnd, _, _ => when (reading w) (set_run 0 w)
  | AEvent event, _, _ => when (idle w) (stream_socket_eventcb event w)
  | AEnd, _, _ =>
      e ← event w;
      Some ('(e, w) ← rtmp_push_end RTMP_PUB_STATE_TYPE_EOF e w; Ok (set_event w e))
  | AQueryReturn msg uri, _, QPending => Some (url_query_callback msg uri w)
  | AStarted, _, QStarting => Some (w ← push_started w; Ok (set_query w QDone))
  | AQueryClose, _, QClosing =>
      when (negb (reading w)) ('(_, w) ← close_end true w; Ok (set_query w QDone))
  | AConnect, PStart, _ => Some (publish_connect w)
  | ATest, PTest, _ => Some (publish_test w)
  | ATake, PTake, _ => Some (traverse_enter w)
  | AWake, PWait true, _ => Some (traverse_take w)
  | ASend now, PSend p, _ => Some (traverse_send now p w)
  | AClose, PClose p, _ => when (negb (reading w)) (r ← close_end false w; closing p r)
  | APubEnd, PEnd p e, _ => Some (r ← rtmp_push_end RTMP_PUB_STATE_TYPE_EOF e w; closing p r)
  | _, _, _ => None
  end.

(** A sequence of actions; it ends where one is undefined. *)
Fixpoint run (acts : list action) w : option (res (world lib S)) :=
  match acts with
  | [] => Some (Ok w)
  | a :: acts => match act a w with Some (Ok w) => run acts w | r => r end
  end.

(** The stream as [bll_h264_create], [bll_h264_set] and [bll_h264_start] leave it. *)
Definition registered (i : PrivInfo ()) (flow : Z) (q : queue) (s : S) : world lib S :=
  MkWorld (Live (MkStream i flow false (Some true) true)) q None PNone QNone None 0 s.
End code.

(** ** The invariant *)

(** The packet a thread holds outside the list. *)
Definition held (k : pc) : option Z := match k with PSend a | PClose a | PEnd a _ => Some a | _ => None end.

(** The list holds [xs]; the packets in memory are those and the held one. *)
Record queue_ok (q : queue) (k : pc) (xs : list (Z * nal_node_t)) : Prop := {
  qk_holds : holds q xs;
  qk_bound : Z.of_nat (length xs) < INT_MAX;
  qk_held : forall a, held k = Some a -> a ∉ nalu_head q :: xs.*1;
  qk_pkts : forall a, is_Some (pkts q !! a) <-> a ∈ xs.*1 \/ held k = Some a
}.

(** What the stream owned is gone when the node is freed. *)
Record released (l : stream_node) : Prop := {
  rl_bev : client_bev l = None;
  rl_buffer : buffer (ch_buffer (channel (info l))) = None;
  rl_meta : H264.meta_data (meta_data (channel (info l))) = []
}.

Lemma queue_ok_thread q k k' xs : queue_ok q k xs -> held k' = held k -> queue_ok q k' xs.
Proof. intros [H1 H2 H3 H4] E. split; [done | done | by rewrite E | by rewrite E]. Qed.

Lemma pkts_domain q (xs : list (Z * nal_node_t)) (o : option Z) :
  (forall a, is_Some (pkts q !! a) <-> a ∈ xs.*1 \/ o = Some a) -> xs = [] -> o = None -> pkts q = ∅.
Proof.
  intros H -> ->. apply map_empty. intros a. apply eq_None_not_Some. rewrite H.
  intros [? % not_elem_of_nil | ?]; done.
Qed.

Lemma foldr_delete_other (m : gmap Z nal_node_t) l a : a ∉ l -> foldr delete m l !! a = m !! a.
Proof.
  induction l as [| b l IH]; [done |]. intros [? ?] % not_elem_of_cons. cbn [foldr].
  rewrite lookup_delete_ne by done. by apply IH.
Qed.

Lemma queue_release q k xs fuel :
  queue_ok q k xs -> (length xs < fuel)%nat ->
  exists q', list_clear_out fuel q = Ok q' /\ queue_ok q' k [] /\ nalu_head q' = nalu_head q.
Proof.
  intros [H1 H2 H3 H4] Hf. destruct (list_clear_out_spec fuel q xs H1 Hf H2) as (q' & E & H' & P' & N').
  assert (Hrev : forall a, a ∈ rev xs.*1 <-> a ∈ xs.*1) by (intros a; by rewrite !list_elem_of_In, <- in_rev).
  exists q'. split_and!; [done | split; [done | done | |] | done].
  - intros a Ha. rewrite N'. specialize (H3 a Ha). set_solver.
  - intros a. rewrite P'. destruct (decide (a ∈ rev xs.*1)) as [Hin | Hin].
    + rewrite foldr_delete_elem by done. split; [by intros [? ?] |].
      intros [? % not_elem_of_nil | Ha]; [done |]. exfalso. apply (H3 a Ha). right. by apply Hrev.
    + rewrite foldr_delete_other, H4 by done. rewrite Hrev in Hin. cbn. set_solver.
Qed.

Lemma queue_push calloc_node q k xs pkg c :
  (forall q, exists a, calloc_node q = Some a /\ fresh_address q a) ->
  queue_ok q k xs -> list_size q < INT_MAX - 1 ->
  exists a q1 q2, pkt_node_create calloc_node pkg 0 c 0 q = Ok (Some a, q1) /\
    list_add_nalu (Some a) q1 = Ok q2 /\ queue_ok q2 k (xs ++ [(a, MkNode c 0 0 pkg)]) /\
    forall b, held k = Some b -> pkts q2 !! b = pkts q !! b.
Proof.
  intros Hcalloc [H1 H2 H3 H4] Hs. rewrite (holds_size _ _ H1) in Hs.
  destruct (Hcalloc q) as (a & Ha & Hf).
  destruct (create_spec calloc_node q xs a pkg 0 c 0 H1 Ha Hf) as (q1 & E1 & Hh1 & N1 & A1 & P1).
  pose proof (fresh_not_in _ _ _ H1 Hf) as Hni. rewrite <- N1 in Hni.
  destruct (add_spec q1 xs a (MkNode c 0 0 pkg) Hh1 A1 Hni) as (q2 & E2 & Hh2 & N2 & P2);
    [rewrite P1; apply lookup_insert_eq | done |].
  assert (Hk : forall b, held k = Some b -> b <> a).
  { intros b Hb ->. destruct Hf as (_ & _ & Hf). specialize (proj2 (H4 a) (or_intror Hb)).
    rewrite Hf. intros [? ?]; done. }
  exists a, q1, q2. split_and!; [done | done | |].
  2:{ intros b Hb. rewrite P2, P1, lookup_insert_ne; [done |]. specialize (Hk b Hb). congruence. }
  split; [done | rewrite length_app; cbn; lia | |].
  - intros b Hb. rewrite N2, N1. specialize (H3 b Hb). rewrite fmap_app. specialize (Hk b Hb). set_solver.
  - intros b. rewrite P2, P1, fmap_app. destruct (decide (a = b)) as [-> | Hab].
    + rewrite lookup_insert_eq. split; [set_solver | by eexists].
    + rewrite lookup_insert_ne, H4 by done. set_solver.
Qed.

Lemma hd_pkts q a n xs : holds q ((a, n) :: xs) -> pkts q !! a = Some n.
Proof. intros [_ Hp _]. by apply Forall_cons_1 in Hp as [? _]. Qed.

Lemma queue_take q k xs :
  queue_ok q k xs -> held k = None ->
  exists q', take_nalu q = Ok (fst <$> head xs, q') /\
    queue_ok q' (match xs with (a, _) :: _ => PSend a | [] => PTest end) (tail xs) /\
    forall a n, head xs = Some (a, n) -> pkts q' !! a = Some n.
Proof.
  intros [H1 H2 H3 H4] Hk. destruct xs as [| [a n] xs].
  - rewrite (take_nalu_none _ H1). exists q. split; [done |]. split; [| done]. split; [done | done | done |].
    intros b. by rewrite H4, Hk.
  - destruct (take_nalu_first q a n xs H1) as (q' & E & H' & P & N & Hna).
    exists q'. split; [done |]. split.
    2:{ intros ? ? [= <- <-]. rewrite P. pose proof (hd_pkts _ _ _ _ H1) as Hp. exact Hp. }
    split; [done | cbn in *; lia | |].
    + intros b [= <-]. by rewrite N.
    + intros b. rewrite P, H4, Hk. cbn. split; [| naive_solver set_solver].
      rewrite elem_of_cons. intros [[-> | ?] | ?]; auto; done.
Qed.

Lemma queue_destroy q a xs k :
  queue_ok q k xs -> held k = Some a -> exists q', pkt_node_release a q = Ok q' /\ queue_ok q' PTest xs.
Proof.
  intros [H1 H2 H3 H4] Hk.
  destruct (proj2 (H4 a) (or_intror Hk)) as [n Hn].
  destruct (release_spec q xs a n H1 Hn (H3 a Hk)) as (q' & E & H' & P & N).
  exists q'. split; [done |]. split; [done | done | done |].
  intros b. rewrite P. cbn. destruct (decide (a = b)) as [<- | Hab].
  - rewrite lookup_delete_eq. split; [by intros [? ?] |]. intros [Hx | ?]; [| done].
    exfalso. apply (H3 a Hk). by right.
  - rewrite lookup_delete_ne, H4, Hk by done. naive_solver.
Qed.

Section safety.
Context (lib : librtmp) {S : Type} (pfn_callback : S -> res S)
  (calloc_node : queue -> option Z)
  (network : world lib S -> list Z * Z) (alloc_ok dup_ok : world lib S -> bool).

Abbreviation act := (act lib pfn_callback calloc_node network alloc_ok dup_ok).
Abbreviation run := (run lib pfn_callback calloc_node network alloc_ok dup_ok).
Implicit Types (w : world lib S) (t : stream_node).

(** Before the publisher exists, and while it does. *)
Definition querying w t : Prop :=
  pub w = None /\ thread w = PNone /\ publish t = false /\ query w <> QStarting /\ query w <> QDone /\
  (query w = QClosing -> client_bev t = Some false) /\ event w = None /\ publishers w = 0.

Definition sending (k : pc) : Prop :=
  match k with PStart | PTest | PTake | PWait _ | PSend _ => True | _ => False end.

(** How far the start and the end of the publisher [p] have come. *)
Definition phase w t (p : PublishPriv lib) : Prop :=
  match event w with
  | None => pub_cond p = 1 /\ (publish t = true /\ query w = QDone \/ publish t = false /\ query w = QStarting) \/
            pub_cond p = 0 /\ publish t = false /\ query w = QDone /\ client_bev t = Some false
  | Some e => query w = QDone /\ client_bev t = Some false /\
      match e with
      | ERead | ETell => pub_cond p = 1 /\ publish t = true
      | EReset => pub_cond p = 0 /\ publish t = true
      | EWake => pub_cond p = 0 /\ publish t = false
      end
  end.

(** The connection of the publisher [p]. *)
Definition linked w (p : PublishPriv lib) : Prop :=
  match thread w with
  | PStart => publishers w = 0 /\ connected p = 0
  | _ => publisher p <> None /\ publishers w = 1 /\ ((forall u, connects lib u = true) -> connected p <> 0)
  end.

Definition publishing w t : Prop := exists p,
  pub w = Some p /\ pfncb (pub_req p) = true /\ sending (thread w) /\ linked w p /\ phase w t p.

Context (s0 s1 : S) (strict : bool).

(** A stream that is freed too early leaves the event loop behind in [rtmp_push_end]; it is not when [strict]. *)
Definition inv w : Prop :=
  (exists xs, queue_ok (packets w) (thread w) xs) /\
  match stream w with
  | Live t =>
      srv w = s0 /\ client_bev t <> None /\ callback t = true /\
      (sim (info t) = 2 ^ 64 - 1 -> query w = QNone) /\ (querying w t \/ publishing w t)
  | Freed l =>
      srv w = s1 /\ released l /\ queue_ok (packets w) (thread w) [] /\ pub w = None /\
      (thread w = PNone \/ thread w = PDone) /\ (query w = QNone \/ query w = QDone) /\
      (event w = None \/ strict = false /\ (event w = Some EReset \/ event w = Some EWake)) /\
      0 <= publishers w <= 1 /\ ((forall u, connects lib u = true) -> publishers w = 0)
  end.

(** The steps of the theorems about deliveries: no event while the query is out or the publisher is being started, a packet
    list an [int] can count, and a SIM number that is not the mark of an unnamed stream. *)
Definition calm (a : action) w : Prop :=
  match a with
  | AEvent _ => query w <> QPending /\ query w <> QStarting
  | APush _ => list_size (packets w) < INT_MAX - 1
  | AQuery simno _ => simno <> 2 ^ 64 - 1
  | _ => True
  end.

(** Those of the safety theorem: the publishing thread also does not see that it is to stop before the event loop has left
    [rtmp_push_end]. *)
Definition patient (a : action) w : Prop :=
  calm a w /\ (a = ATest -> event w <> Some EReset /\ event w <> Some EWake).

Section steps.
Context (P : action -> world lib S -> Prop).

Inductive reach (w0 : world lib S) : world lib S -> Prop :=
| reach_start : reach w0 w0
| reach_step w a w' : reach w0 w -> P a w -> act a w = Some (Ok w') -> reach w0 w'.

(** Every action of the sequence is one of those steps. *)
Fixpoint always (acts : list action) w : Prop :=
  match acts with
  | [] => True
  | a :: acts => P a w /\ match act a w with Some (Ok w') => always acts w' | _ => True end
  end.

Lemma run_reach w0 acts w w' : reach w0 w -> always acts w -> run acts w = Some (Ok w') -> reach w0 w'.
Proof.
  revert w; induction acts as [| a acts IH]; intros w Hr Hc Hrun; cbn [Lifecycle.run always] in *.
  - injection Hrun as <-. done.
  - destruct Hc as [Hc Ha]. destruct (act a w) as [[w1 | |] |] eqn:E; try done.
    apply (IH w1); [by eapply reach_step | done | done].
Qed.
End steps.

(** librtmp takes every packet, and a publisher can be allocated. *)
Record healthy : Prop := {
  hl_connected : forall r, RTMP_IsConnected lib r = true;
  hl_send : forall r pkg, (RTMP_SendPacket lib r pkg).1 = true;
  hl_alloc : forall w, alloc_ok w = true;
  hl_dup : forall w, dup_ok w = true
}.

Context (Hcb : pfn_callback s0 = Ok s1)
  (Hcalloc : forall q, exists a, calloc_node q = Some a /\ fresh_address q a).

Lemma release_ok w t xs :
  stream w = Live t -> callback t = true -> srv w = s0 ->
  queue_ok (packets w) (thread w) xs ->
  exists q l, h264_stream_release lib pfn_callback w =
      Ok (MkWorld (Freed l) q (pub w) (thread w) (query w) (event w) (publishers w) s1) /\
    released l /\ queue_ok q (thread w) [].
Proof.
  intros Ht Hc Hs Hq. unfold h264_stream_release, thiz. rewrite Ht. cbn [mbind res_bind].
  rewrite Hc, Hs, Hcb. cbn [mbind res_bind].
  destruct (queue_release _ _ _ (1 + Z.to_nat (list_size (packets w))) Hq) as (q' & -> & Hq' & _).
  { rewrite (holds_size _ _ (qk_holds _ _ _ Hq)). lia. }
  cbn [mbind res_bind]. unfold bll_h264_delete, thiz. cbn. eexists _, _. split; [done |]. split; [by split | done].
Qed.

(** Waking the thread changes nothing else. *)
Lemma broadcast_same w : broadcast lib w = w \/ thread w <> PStart /\ exists b, thread w = PWait b /\ broadcast lib w = set_thread lib w (PWait true).
Proof. unfold broadcast. destruct (thread w) eqn:E; auto. right. split; [done |]. by eexists. Qed.

Lemma broadcast_inv w : inv w -> inv (broadcast lib w).
Proof.
  destruct (broadcast_same w) as [-> | (_ & b & E & ->)]; [done |].
  intros [[xs Hq] H]. rewrite E in Hq. split.
  - exists xs. by eapply queue_ok_thread.
  - cbn [stream set_thread]. destruct (stream w) as [t | l].
    + destruct H as (? & ? & ? & ? & H). split_and!; [done .. |]. destruct H as [H | (p & H)].
      * destruct H as (_ & H & _). by rewrite E in H.
      * right. exists p. unfold linked, phase in *. cbn. rewrite E in H. naive_solver.
    + destruct H as (_ & _ & _ & _ & [H | H] & _); by rewrite ?E in H.
Qed.

Lemma inv_live w t :
  inv w -> stream w = Live t ->
  exists xs, queue_ok (packets w) (thread w) xs /\ srv w = s0 /\ client_bev t <> None /\ callback t = true /\
    (sim (info t) = 2 ^ 64 - 1 -> query w = QNone) /\ (querying w t \/ publishing w t).
Proof. intros [[xs Hq] H] Ht. rewrite Ht in H. exists xs. split; [done | exact H]. Qed.

(** The query that is out belongs to a stream that is there. *)
Lemma inv_query_live w : inv w -> query w = QPending \/ query w = QStarting \/ query w = QClosing -> exists t, stream w = Live t.
Proof.
  intros [_ Hi] Hq. destruct (stream w) as [t | l]; [by exists t |].
  destruct Hi as (_ & _ & _ & _ & _ & [E | E] & _); rewrite E in Hq; naive_solver.
Qed.

(** The event loop changes its node only. *)
Lemma publishing_stream w t t' : publishing w t -> publish t' = publish t -> (client_bev t = Some false -> client_bev t' = Some false) ->
  publishing (set_stream lib w (Live t')) t'.
Proof.
  intros (p & Hp & H3 & H4 & H5 & H6) E1 E2. exists p. unfold linked, phase in *. cbn. rewrite E1.
  do 4 (split; [done |]). destruct (event w); naive_solver.
Qed.

(** Replacing what the reading side owns. *)
Lemma inv_info w t i q :
  inv w -> stream w = Live t -> (sim i = 2 ^ 64 - 1 -> q = QNone) ->
  (q = query w \/ querying w t /\ q = QPending /\ query w <> QClosing) ->
  inv (set_query lib (set_stream lib w (Live (set_info t i))) q).
Proof.
  intros Hi Ht Hs Hq. destruct (inv_live w t Hi Ht) as (xs & Hok & Ha & Hb & Hc & Hd & H). split; [by exists xs |].
  cbn [stream set_query set_stream set_info srv client_bev callback info query]. split_and!; [done .. |].
  destruct Hq as [-> | ((H1 & H2 & H3 & H4 & H5 & H6 & H7 & H8) & -> & _)]; [exact H |].
  left. by split_and!.
Qed.

(** Without a publisher the stream is freed at once. *)
Lemma inv_release w t :
  inv w -> stream w = Live t -> querying w t ->
  exists w', h264_stream_release lib pfn_callback w = Ok w' /\ query w' = query w /\
    forall k, k = QNone \/ k = QDone -> inv (set_query lib w' k).
Proof.
  intros Hi Ht Hq. destruct (inv_live w t Hi Ht) as (xs & Hok & Hs & Hb & Hc & Hd & _).
  destruct Hq as (Hp & Hth & Hpub & _ & _ & _ & Hev & Hn).
  destruct (release_ok w t xs Ht Hc Hs Hok) as (q & l & -> & Hl & Hq').
  eexists. split; [done |]. split; [done |]. intros k Hk. split; [by exists [] |].
  cbn. rewrite Hth in *. split_and!; auto; lia.
Qed.

Lemma idle_inv w : idle lib w = true ->
  exists t, stream w = Live t /\ running (info t) = 0 /\ client_bev t = Some true.
Proof.
  unfold idle. destruct (stream w) as [t | ?]; [| done]. intros [H1%Z.eqb_eq H2]%andb_true_iff.
  exists t. split_and!; [done | done |]. by destruct (client_bev t) as [[] |].
Qed.

Lemma reading_inv w : reading lib w = true -> exists t, stream w = Live t.
Proof. unfold reading. destruct (stream w) as [t |]; [by exists t | done]. Qed.

(** Disabling the connection keeps the invariant. *)
Lemma inv_disable w t k :
  inv w -> stream w = Live t -> k = query w \/ querying w t /\ k = QClosing ->
  (sim (info t) = 2 ^ 64 - 1 -> k = QNone) ->
  let t' := set_bev (set_info t (set_cond (info t) 0)) (Some false) in
  inv (set_query lib (set_stream lib w (Live t')) k) /\
  (publishing w t -> publishing (set_stream lib w (Live t')) t') /\
  (querying w t -> querying (set_query lib (set_stream lib w (Live t')) k) t').
Proof.
  intros Hi Ht Hk Hk' t'. destruct (inv_live w t Hi Ht) as (xs & Hok & Hs & Hb & Hc & Hd & Hph).
  assert (P : publishing w t -> publishing (set_stream lib w (Live t')) t') by (intros H; by eapply publishing_stream).
  assert (Q : querying w t -> querying (set_query lib (set_stream lib w (Live t')) k) t').
  { intros (H1 & H2 & H3 & H4 & H5 & H6 & H7 & H8). unfold t'. split_and!; try done; cbn; destruct Hk as [-> | [_ ->]]; done. }
  split_and!; [| done | done]. split; [by exists xs |].
  unfold t'. cbn -[Z.pow]. split_and!; [done .. |].
  destruct Hph as [Hph | Hph]; [left; by apply Q |]. destruct Hk as [-> | [Hq _]]; [right; by apply P |].
  left. by apply Q.
Qed.

Lemma set_query_same w : set_query lib w (query w) = w.
Proof. by destruct w. Qed.

Lemma set_query_stream w s : set_query lib (set_stream lib w s) (query w) = set_stream lib w s.
Proof. by destruct w. Qed.

(** Outside the query and [rtmp_push_end] an open connection has a publisher that goes on, or none yet. *)
Lemma publishing_open w t : publishing w t -> query w <> QStarting -> client_bev t = Some true ->
  event w = None /\ publish t = true /\ exists p, pub w = Some p /\ pub_cond p = 1 /\ query w = QDone.
Proof.
  intros (p & Hp & _ & _ & _ & H) Hq Hb. unfold phase in H. destruct (event w); [naive_solver congruence |].
  split; [done |]. destruct H as [(H1 & [[? ?] | [? ?]]) | (_ & _ & _ & ?)]; [eauto 6 | done | congruence].
Qed.

Lemma inv_event w event r :
  inv w -> idle lib w = true -> query w <> QPending -> query w <> QStarting ->
  stream_socket_eventcb lib pfn_callback event w = r -> exists w', r = Ok w' /\ inv w'.
Proof.
  intros Hi (t & Ht & Hrun & Hbev)%idle_inv Hqp Hqs <-. unfold stream_socket_eventcb, thiz. rewrite Ht.
  cbn [mbind res_bind]. destruct (negb _ && negb _ && negb _ && _); [by exists w |].
  destruct (inv_live w t Hi Ht) as (xs & Hok & Hs & Hb & Hc & Hd & Hph).
  destruct (inv_disable w t (query w) Hi Ht (or_introl eq_refl) Hd) as (Hi' & HP & HQ).
  rewrite set_query_stream in Hi', HQ. set (w1 := set_stream lib w _) in *.
  destruct Hph as [Hq | Hp].
  - rewrite (proj1 (proj2 (proj2 Hq))).
    destruct (inv_release w1 _ Hi' eq_refl (HQ Hq)) as (w' & E & Eq & H). exists w'. split; [done |].
    rewrite <- (set_query_same w'). apply H. rewrite Eq. change (query w1) with (query w).
    destruct Hq as (_ & _ & _ & _ & H4 & H5 & _). destruct (query w); try done; [by left |].
    specialize (H5 eq_refl). congruence.
  - destruct (publishing_open w t Hp Hqs Hbev) as (Hev & Hpt & p' & Hp' & Hpc & Hqd). rewrite Hpt. eexists. split; [done |].
    destruct (HP Hp) as (p & Hpub & H3 & H4 & H5 & _). split; [by exists xs |]. cbn -[Z.pow]. split_and!; [done.. |]. right. exists p.
    unfold w1 in Hpub. cbn in Hpub. rewrite Hpub in Hp'. injection Hp' as <-. unfold phase. cbn. by split_and!.
Qed.

Lemma stream_pub_same w t p : stream w = Live t -> pub w = Some p -> set_stream lib (set_pub lib (Some p) w) (Live t) = w.
Proof. destruct w. cbn. by intros -> ->. Qed.

Lemma stream_same w t : stream w = Live t -> set_stream lib w (Live t) = w.
Proof. destruct w. cbn. by intros ->. Qed.

Lemma pub_same w p : pub w = Some p -> set_pub lib (Some p) w = w.
Proof. destruct w. cbn. by intros ->. Qed.

(** The end of the publisher, one access after the other: the stream that is freed in between is used after that. *)
Lemma inv_end w e r :
  inv w -> event w = Some e -> ('(e, w) ← rtmp_push_end lib RTMP_PUB_STATE_TYPE_EOF e w; Ok (set_event lib w e)) = r ->
  (exists w', r = Ok w' /\ inv w') \/ r = UB /\ strict = false.
Proof.
  intros Hi He <-. destruct (stream w) as [t | l] eqn:Ht.
  2:{ right. destruct Hi as [_ Hi]. rewrite Ht in Hi. destruct Hi as (_ & _ & _ & _ & _ & _ & H & _). rewrite He in H.
      destruct H as [? | (-> & [[= ->] | [= ->]])]; [done | |]; cbn [rtmp_push_end]; unfold thiz; by rewrite Ht. }
  left. destruct (inv_live w t Hi Ht) as (xs & Hok & Hs & Hb & Hc & Hd & [Hq | (p & Hp & H3 & H4 & H5 & H6)]).
  { destruct Hq as (_ & _ & _ & _ & _ & _ & ? & _). congruence. }
  unfold phase in H6. rewrite He in H6. destruct H6 as (Hqd & Hbev & H6).
  assert (G : forall t' p' k, publish t' = publish t \/ publish t' = false -> client_bev t' = Some false -> callback t' = true -> info t' = info t ->
    pfncb (pub_req p') = true -> connected p' = connected p -> publisher p' = publisher p ->
    phase (set_event lib w k) t' p' -> inv (set_event lib (set_stream lib (set_pub lib (Some p') w) (Live t')) k)).
  { intros t' p' k _ E2 E3 E4 E5 E6 E7 E8. split; [by exists xs |]. cbn -[Z.pow]. rewrite E2, E4. split_and!; [done.. |]. right. exists p'.
    split; [done |]. split; [done |]. split; [done |]. split; [| exact E8]. unfold linked in *. cbn. by rewrite E6, E7. }
  destruct e; cbn [rtmp_push_end].
  - unfold thiz. rewrite Ht. cbn [mbind res_bind]. destruct H6 as [H6 H7]. rewrite H7. eexists. split; [done |].
    rewrite <- (stream_pub_same w t p) at 1 by done. apply G; auto. unfold phase. cbn. by split_and!.
  - unfold rtmp_publish_set. rewrite Hp. cbn [of_option mbind res_bind]. eexists. split; [done |]. destruct H6 as [H6 H7].
    match goal with |- inv (set_event lib ?x _) => rewrite <- (stream_same x t) by done end.
    apply G; auto. unfold phase. cbn. by split_and!.
  - unfold thiz. rewrite Ht. cbn [mbind res_bind]. destruct H6 as [H6 H7]. eexists. split; [done |].
    rewrite <- (pub_same w p) at 1 by done. apply G; auto. unfold phase. cbn. by split_and!.
  - unfold thiz. rewrite Ht. cbn [mbind res_bind]. destruct H6 as [H6 H7]. eexists. split; [done |].
    replace (set_event lib (broadcast lib w) None) with (broadcast lib (set_event lib w None)) by (unfold broadcast; cbn; by destruct (thread w)).
    apply broadcast_inv. rewrite <- (stream_pub_same w t p) at 1 by done. apply G; auto. unfold phase. cbn. right. by split_and!.
Qed.

Lemma inv_sending w : inv w -> sending (thread w) -> exists t, stream w = Live t /\ publishing w t.
Proof.
  intros [_ H] Hs. destruct (stream w) as [t | l].
  - exists t. split; [done |]. destruct H as (_ & _ & _ & _ & [(_ & H & _) | H]); [by rewrite H in Hs | done].
  - destruct H as (_ & _ & _ & _ & [H | H] & _); by rewrite H in Hs.
Qed.

Lemma inv_packets w q ys :
  inv w -> (exists t, stream w = Live t) -> queue_ok q (thread w) ys -> inv (set_packets lib w q).
Proof.
  intros [_ H] [t Ht] Hq. rewrite Ht in H. split; [by exists ys |]. cbn. rewrite Ht. exact H.
Qed.

(** The thread goes on to another point of its loop. *)
Lemma inv_thread w t k q ys :
  inv w -> stream w = Live t -> publishing w t -> thread w <> PStart -> sending k -> k <> PStart ->
  queue_ok q k ys -> inv (set_thread lib (set_packets lib w q) k).
Proof.
  intros Hi Ht (p & Hp & H3 & H4 & H5 & H6) Hk Hs Hk' Hq.
  destruct (inv_live w t Hi Ht) as (xs & Hok & ? & ? & ? & ? & _).
  split; [by exists ys |]. cbn. rewrite Ht. split_and!; [done .. |]. right. exists p.
  split; [done |]. split; [done |]. split; [done |]. split; [| exact H6]. unfold linked in *. cbn. by destruct k, (thread w).
Qed.

Lemma inv_run w t v :
  inv w -> stream w = Live t ->
  exists w', set_run lib v w = Ok w' /\ inv w'.
Proof.
  intros Hi Ht. destruct (inv_live w t Hi Ht) as (xs & _ & _ & _ & _ & Hd & _).
  unfold set_run, thiz. rewrite Ht. cbn [mbind res_bind]. eexists. split; [done |].
  rewrite <- set_query_stream. apply inv_info; [done | done | done | by left].
Qed.

Lemma inv_push w pkg :
  inv w -> reading lib w = true -> calm (APush pkg) w ->
  exists w', push_packet lib calloc_node pkg w = Ok w' /\ inv w'.
Proof.
  intros Hi [t Ht]%reading_inv Hc. destruct (inv_live w t Hi Ht) as (xs & Hq & _).
  unfold push_packet, thiz. rewrite Ht. cbn [mbind res_bind].
  destruct (queue_push calloc_node _ _ _ pkg (ch_id (channel (info t))) Hcalloc Hq Hc)
    as (a & q1 & q2 & -> & E2 & Hq2 & _). cbn [mbind res_bind]. rewrite E2. cbn [mbind res_bind].
  eexists. split; [done |]. assert (inv (set_packets lib w q2)) by (eapply inv_packets; eauto).
  destruct (_ =? 0); [by apply broadcast_inv | done].
Qed.

Lemma inv_query w simno ch :
  inv w -> reading lib w = true -> unnamed lib w = true -> simno <> 2 ^ 64 - 1 ->
  exists w', first_packet lib simno ch w = Ok w' /\ inv w'.
Proof.
  intros Hi [t Ht]%reading_inv Hu Hs. unfold unnamed in Hu. rewrite Ht in Hu. apply Z.eqb_eq in Hu.
  destruct (inv_live w t Hi Ht) as (xs & _ & _ & _ & _ & Hd & Hph). specialize (Hd Hu).
  unfold first_packet, stream_url_query, thiz. rewrite Ht. cbn [mbind res_bind]. eexists. split; [done |].
  apply inv_info; [done | done | done |]. right. rewrite Hd.
  destruct Hph as [Hq | (p & _ & _ & _ & _ & Hq)]; [done |]. unfold phase in Hq. rewrite Hd in Hq. destruct (event w); naive_solver.
Qed.

(** While the query is out there is no publisher. *)
Lemma asking w t : querying w t \/ publishing w t -> query w = QPending \/ query w = QClosing -> querying w t.
Proof.
  clear. intros [? | (p & _ & _ & _ & _ & H)] Hq; [done |]. unfold phase in H. destruct (event w); naive_solver congruence.
Qed.

Lemma inv_return w msg uri :
  inv w -> query w = QPending -> exists w', url_query_callback lib msg uri w = Ok w' /\ inv w'.
Proof.
  intros Hi Hq. destruct (inv_query_live w Hi) as [t Ht]; [by left |].
  destruct (inv_live w t Hi Ht) as (xs & Hok & Hs & Hb & Hc & Hd & Hph).
  assert (Hqu : querying w t) by (apply asking; auto).
  assert (Hsim : sim (info t) <> 2 ^ 64 - 1) by (intros E; specialize (Hd E); congruence).
  unfold url_query_callback. unfold thiz at 1. rewrite Ht. cbn [mbind res_bind]. destruct (negb _).
  - unfold close_begin, thiz. rewrite Ht. cbn [mbind res_bind].
    destruct (client_bev t); [| done]. cbn [of_option mbind res_bind]. eexists. split; [done |].
    apply inv_disable; [done | done | by right | done].
  - unfold rtmp_push_start, thiz. rewrite Ht. unfold rtmp_publish_set. cbn [mbind res_bind set_pub pub of_option].
    eexists. split; [done |]. destruct Hqu as (_ & Hth & Hpt & _ & _ & _ & Hev & Hn). rewrite Hth in Hok.
    split; [exists xs; by eapply queue_ok_thread |]. cbn -[Z.pow]. rewrite Ht. split_and!; [done .. |].
    right. eexists. split; [done |]. split; [done |]. split; [done |]. split; [by split |]. unfold phase. cbn. rewrite Hev. left. auto.
Qed.

Lemma inv_started w :
  inv w -> query w = QStarting -> exists w', (w ← push_started lib w; Ok (set_query lib w QDone)) = Ok w' /\ inv w'.
Proof.
  intros Hi Hq. destruct (inv_query_live w Hi) as [t Ht]; [auto |].
  destruct (inv_live w t Hi Ht) as (xs & Hok & Hs & Hb & Hc & Hd & [Hqu | (p & Hp & H3 & H4 & H5 & H6)]).
  { destruct Hqu as (_ & _ & _ & ? & _). congruence. }
  unfold push_started, thiz. rewrite Ht. cbn [mbind res_bind]. eexists. split; [done |]. split; [by exists xs |].
  cbn -[Z.pow]. split_and!; [done.. | intros E; specialize (Hd E); congruence |]. right. exists p.
  do 3 (split; [done |]). split; [exact H5 |]. unfold phase in *. cbn. rewrite Hq in H6. destruct (event w); [naive_solver |].
  destruct H6 as [(H6 & _) | (_ & _ & ? & _)]; [auto | done].
Qed.

Lemma inv_qclose w :
  inv w -> query w = QClosing ->
  exists w', ('(_, w) ← close_end lib pfn_callback true w; Ok (set_query lib w QDone)) = Ok w' /\ inv w'.
Proof.
  intros Hi Hq. destruct (inv_query_live w Hi) as [t Ht]; [auto |].
  destruct (inv_live w t Hi Ht) as (xs & Hok & Hs & Hb & Hc & Hd & Hph).
  assert (Hqu : querying w t) by (apply asking; auto).
  unfold close_end, thiz. rewrite Ht. cbn [mbind res_bind negb andb].
  destruct (inv_release w t Hi Ht Hqu) as (w' & -> & _ & H). cbn [mbind res_bind]. eauto.
Qed.

Lemma inv_take w :
  inv w -> thread w = PTake \/ thread w = PWait true ->
  exists w', traverse_take lib w = Ok w' /\ inv w'.
Proof.
  intros Hi Hth. destruct (inv_sending w Hi) as (t & Ht & Hp); [by destruct Hth as [-> | ->] |].
  destruct (inv_live w t Hi Ht) as (xs & Hok & _). unfold traverse_take, thiz. rewrite Ht. cbn [mbind res_bind].
  destruct (queue_take _ _ _ Hok) as (q & -> & Hq & _); [by destruct Hth as [-> | ->] |].
  cbn [mbind res_bind]. eexists. split; [done |].
  eapply inv_thread; [done | done | done | by destruct Hth as [-> | ->] | by destruct xs as [| []].. |].
  by destruct xs as [| []].
Qed.

Lemma inv_enter w :
  inv w -> thread w = PTake -> exists w', traverse_enter lib w = Ok w' /\ inv w'.
Proof.
  intros Hi Hth. destruct (inv_sending w Hi) as (t & Ht & Hp); [by rewrite Hth |].
  destruct (inv_live w t Hi Ht) as (xs & Hok & _). unfold traverse_enter, thiz. rewrite Ht. cbn [mbind res_bind].
  rewrite (list_empty_holds _ _ (qk_holds _ _ _ Hok)). cbn [mbind res_bind].
  destruct (bool_decide _); [| apply inv_take; auto]. eexists. split; [done |].
  replace (set_thread lib w (PWait false)) with (set_thread lib (set_packets lib w (packets w)) (PWait false))
    by (by destruct w).
  eapply inv_thread; [done | done | done | by rewrite Hth | done | done |].
  eapply queue_ok_thread; [done |]. by rewrite Hth.
Qed.

Lemma inv_connect w :
  healthy -> inv w -> thread w = PStart ->
  exists w', publish_connect lib network alloc_ok dup_ok w = Ok w' /\ inv w'.
Proof.
  intros Hh Hi Hth. destruct (inv_sending w Hi) as (t & Ht & Hp); [by rewrite Hth |].
  destruct Hp as (p & Hp & Hcb' & Hsend & Hlk & Hph). unfold linked in Hlk. rewrite Hth in Hlk. destruct Hlk as [Hn Hc0].
  destruct (inv_live w t Hi Ht) as (xs & Hok & ? & ? & ? & ? & _). unfold publish_connect.
  destruct (connect_publisher lib pub (set_pub lib) (calloc_publisher lib) network alloc_ok dup_ok w p Hp
    (hl_alloc Hh w) (hl_dup Hh w)) as (x & _ & _ & ->). cbn [mbind res_bind]. eexists. split; [done |].
  split; [exists xs; eapply queue_ok_thread; [done | by rewrite Hth] |]. cbn -[Z.pow]. rewrite Ht. split_and!; [done .. |].
  right. eexists. split; [done |]. split; [done |]. split; [done |]. split; [| exact Hph].
  unfold linked. cbn. rewrite Hn. split_and!; [done | done |]. intros Hall. by rewrite Hall.
Qed.

Lemma inv_test w :
  inv w -> thread w = PTest -> (strict = true -> event w <> Some EReset /\ event w <> Some EWake) ->
  exists w', publish_test lib pfn_callback w = Ok w' /\ inv w'.
Proof.
  intros Hi Hth Hpt. destruct (inv_sending w Hi) as (t & Ht & Hpu); [by rewrite Hth |].
  destruct (Hpu) as (p & Hp & Hcb' & Hsend & Hlk & Hph). unfold linked in Hlk. rewrite Hth in Hlk. destruct Hlk as (Hx & Hn & Hcn).
  destruct (inv_live w t Hi Ht) as (xs & Hok & Hs & Hb & Hc & Hd & _). unfold publish_test. rewrite Hp.
  cbn [of_option mbind res_bind]. destruct (Z.eqb_spec (pub_cond p) 0) as [E | E].
  - rewrite (node_release_spec lib pub (set_pub lib) (free_publisher lib) _ ltac:(done) ltac:(done) w p Hp), Hcb'.
    unfold h264_stream_callback. set (w1 := without _ _ _ _ _ _).
    assert (D : w1 = MkWorld (stream w) (packets w) None (thread w) (query w) (event w) (if connected p =? 0 then 1 else 0) (srv w)).
    { unfold w1, without. destruct (publisher p); [| done]. destruct (connected p =? 0); unfold set_pub, tima_rtmp_destory, free_publisher; cbn; by rewrite Hn. }
    rewrite D. clear D w1.
    edestruct (release_ok (MkWorld (stream w) (packets w) None (thread w) (query w) (event w) (if connected p =? 0 then 1 else 0) (srv w)) t xs) as (q & l & -> & Hl & Hq); try done.
    cbn. eexists. split; [done |]. cbn in Hq.
    assert (Hq' : queue_ok q PDone []) by (eapply queue_ok_thread; [done | by rewrite Hth]).
    split; [by exists [] |]. cbn.
    assert (Hev : query w = QDone /\ (event w = None \/ strict = false /\ (event w = Some EReset \/ event w = Some EWake))).
    { unfold phase in Hph. destruct (event w) as [e |].
      - destruct Hph as (Hqd & _ & Hph). split; [done |]. right. destruct e; try (destruct Hph; lia); destruct strict; (split; [naive_solver | auto]); naive_solver.
      - destruct Hph as [[? _] | (_ & _ & ? & _)]; [lia | by split; [| left]]. }
    destruct Hev as [Hqd Hev]. rewrite Hqd. split_and!; auto; try (by destruct (connected p =? 0)).
    intros Hall. specialize (Hcn Hall). by destruct (Z.eqb_spec (connected p) 0).
  - eexists. split; [done |].
    replace (set_thread lib w PTake) with (set_thread lib (set_packets lib w (packets w)) PTake) by (by destruct w).
    eapply inv_thread; [done | done | done | by rewrite Hth | done | done |].
    eapply queue_ok_thread; [done |]. by rewrite Hth.
Qed.

Lemma inv_send w now a :
  healthy -> inv w -> thread w = PSend a ->
  exists w', traverse_send lib now a w = Ok w' /\ inv w'.
Proof.
  intros Hh Hi Hth. destruct (inv_sending w Hi) as (t & Ht & Hpu); [by rewrite Hth |].
  destruct (Hpu) as (p & Hp & Hcb' & Hsend & Hlk & Hph). unfold linked in Hlk. rewrite Hth in Hlk. destruct Hlk as (Hx & Hn & Hcn).
  destruct (inv_live w t Hi Ht) as (xs & Hok & Hs & Hb & Hc & Hd & _). unfold traverse_send.
  destruct (proj2 (qk_pkts _ _ _ Hok a)) as [n ->]; [right; by rewrite Hth |]. cbn [of_option mbind res_bind].
  unfold rtmp_stream_pub. rewrite Hp. cbn [of_option mbind res_bind].
  destruct (publisher p) as [x |] eqn:Ex; [| done].
  unfold tima_rtmp_send. rewrite (hl_connected Hh). cbn [negb].
  pose proof (hl_send Hh (priv x) (package n)) as Hsd. destruct (RTMP_SendPacket lib _ _) as [ok r]. cbn in Hsd.
  subst ok. cbn [negb mbind res_bind]. unfold traverse_destroy. cbn [set_pub packets].
  destruct (queue_destroy _ a _ _ Hok) as (q & E & Hq); [by rewrite Hth |].
  change (0 <? 0) with false. cbn iota. rewrite E. cbn [mbind res_bind]. eexists. split; [done |].
  split; [by exists xs |]. cbn -[Z.pow]. rewrite Ht. split_and!; [done .. |].
  right. eexists. split; [done |]. split; [done |]. split; [done |]. split; [by split_and! | exact Hph].
Qed.

Lemma when_some b (r x : res (world lib S)) : when lib b r = Some x -> b = true /\ x = r.
Proof. unfold when. destruct b; [by intros [= ->] | done]. Qed.

(** The publishing thread does not close the connection. *)
Lemma not_closing w : inv w -> ~ exists a e, thread w = match e with None => PClose a | Some e => PEnd a e end.
Proof.
  intros [_ Hi] (a & e & Hth). destruct (stream w) as [t | l].
  - destruct Hi as (_ & _ & _ & _ & [(_ & H & _) | (p & _ & _ & H & _)]); rewrite Hth in H; by destruct e.
  - destruct Hi as (_ & _ & _ & _ & [H | H] & _); rewrite Hth in H; by destruct e.
Qed.

Lemma inv_step w a r :
  healthy -> inv w -> calm a w -> (strict = true -> a = ATest -> event w <> Some EReset /\ event w <> Some EWake) -> act a w = Some r ->
  (exists w', r = Ok w' /\ inv w') \/ r = UB /\ strict = false.
Proof.
  intros Hh Hi Hc Hp Ha.
  assert (G : forall f, r = f -> (exists w', f = Ok w' /\ inv w') -> (exists w', r = Ok w' /\ inv w') \/ r = UB /\ strict = false)
    by (intros ? -> ?; by left).
  destruct a; cbn [Lifecycle.act] in Ha.
  - apply when_some in Ha as [Hb ->]. apply andb_true_iff in Hb as [(t & Ht & _)%idle_inv _]. left. by eapply inv_run.
  - apply when_some in Ha as [Hb ->]. left. by apply inv_push.
  - apply when_some in Ha as [Hb ->]. apply andb_true_iff in Hb as [? ?]. left. by apply inv_query.
  - apply when_some in Ha as [[t Ht]%reading_inv ->]. left. by eapply inv_run.
  - apply when_some in Ha as [Hb ->]. destruct Hc. left. by eapply inv_event.
  - destruct (event w) as [e |] eqn:He; [| discriminate Ha]. cbn in Ha. injection Ha as <-. by eapply inv_end.
  - destruct (query w) eqn:Hq; try discriminate Ha. injection Ha as <-. left. by apply inv_return.
  - destruct (query w) eqn:Hq; try discriminate Ha. injection Ha as <-. left. by apply inv_started.
  - destruct (query w) eqn:Hq; try discriminate Ha. apply when_some in Ha as [_ ->]. left. by apply inv_qclose.
  - destruct (thread w) eqn:Hth; try discriminate Ha. injection Ha as <-. left. by apply inv_connect.
  - destruct (thread w) eqn:Hth; try discriminate Ha. injection Ha as <-. left. apply inv_test; auto.
  - destruct (thread w) eqn:Hth; try discriminate Ha. injection Ha as <-. left. by apply inv_enter.
  - destruct (thread w) as [| | | | [] | | | |] eqn:Hth; try discriminate Ha. injection Ha as <-.
    left. apply inv_take; auto.
  - destruct (thread w) eqn:Hth; try discriminate Ha. injection Ha as <-. left. by apply inv_send.
  - destruct (thread w) eqn:Hth; try discriminate Ha. destruct (not_closing w Hi). rewrite Hth. by exists a, None.
  - destruct (thread w) eqn:Hth; try discriminate Ha. destruct (not_closing w Hi). rewrite Hth. by exists a, (Some e).
Qed.

Lemma inv_registered i flow q :
  sim i = 2 ^ 64 - 1 -> queue_ok q PNone [] -> inv (registered lib i flow q s0).
Proof.
  intros Hs Hq. split; [by exists [] |]. cbn -[Z.pow]. split_and!; try done. left. by split_and!.
Qed.

Lemma reach_inv (P : action -> world lib S -> Prop) w0 w :
  (forall a w, P a w -> calm a w /\ (strict = true -> a = ATest -> event w <> Some EReset /\ event w <> Some EWake)) ->
  healthy -> inv w0 -> reach P w0 w -> inv w.
Proof.
  intros HP Hh Hi. induction 1 as [| w a w' _ IH Hc Ha]; [done |]. destruct (HP a w Hc) as [H1 H2].
  destruct (inv_step _ _ _ Hh IH H1 H2 Ha) as [(w'' & [= <-] & ?) | [? _]]; done.
Qed.
End safety.

Section safe.
Context (lib : librtmp) {S : Type} (pfn_callback : S -> res S)
  (calloc_node : queue -> option Z)
  (network : world lib S -> list Z * Z) (alloc_ok dup_ok : world lib S -> bool)
  (s0 s1 : S) (Hcb : pfn_callback s0 = Ok s1)
  (Hcalloc : forall q, exists a, calloc_node q = Some a /\ fresh_address q a).

Abbreviation act := (act lib pfn_callback calloc_node network alloc_ok dup_ok).
Abbreviation reach := (reach lib pfn_callback calloc_node network alloc_ok dup_ok).
Implicit Types (w : world lib S) (t : stream_node).

End safe.

(** ** The races *)

Section races.
Context (lib : librtmp) {S : Type} (pfn_callback : S -> res S)
  (calloc_node : queue -> option Z)
  (network : world lib S -> list Z * Z) (alloc_ok dup_ok : world lib S -> bool)
  (s0 s1 : S) (Hcb : pfn_callback s0 = Ok s1).

Abbreviation act := (act lib pfn_callback calloc_node network alloc_ok dup_ok).
Abbreviation run := (run lib pfn_callback calloc_node network alloc_ok dup_ok).
Implicit Types (w : world lib S) (t : stream_node).

(** The node after the connection is disabled. *)
Definition disabled t := set_bev (set_info t (set_cond (info t) 0)) (Some false).

Lemma event_eof w t :
  stream w = Live t -> running (info t) = 0 -> client_bev t = Some true ->
  act (AEvent BEV_EVENT_EOF) w = Some
    (let w1 := set_stream lib w (Live (disabled t)) in
     if publish t then Ok (set_event lib w1 (Some ERead)) else h264_stream_release lib pfn_callback w1).
Proof.
  intros Ht Hr Hb. cbn [Lifecycle.act]. unfold idle. rewrite Ht, Hr, Hb. cbn [when Z.eqb andb].
  unfold stream_socket_eventcb, thiz. rewrite Ht. done.
Qed.

Lemma run_cons a acts w r : act a w = Some r ->
  run (a :: acts) w = match r with Ok w => run acts w | r => Some r end.
Proof. intros E. cbn [Lifecycle.run]. rewrite E. by destruct r. Qed.

Lemma run_ok a acts w w' : act a w = Some (Ok w') -> run (a :: acts) w = run acts w'.
Proof. apply run_cons. Qed.

(** The node of a publisher that was told to stop. *)
Definition told (p : PublishPriv lib) : PublishPriv lib :=
  MkPublishPriv (pub_req p) RTMP_PUB_STATE_TYPE_EOF 0 (connected p) (publisher p).

(** The event loop up to its call of [pub->pfn_set], and to the end of the callback. *)
Lemma event_tells w t p acts :
  stream w = Live t -> running (info t) = 0 -> client_bev t = Some true -> publish t = true -> pub w = Some p ->
  run (AEvent BEV_EVENT_EOF :: AEnd :: AEnd :: acts) w =
  run acts (MkWorld (Live (disabled t)) (packets w) (Some (told p)) (thread w) (query w) (Some EReset) (publishers w) (srv w)).
Proof.
  intros Ht Hr Hb Hp Hpub. erewrite run_ok by (rewrite (event_eof _ _ Ht Hr Hb), Hp; reflexivity).
  erewrite run_ok.
  2:{ cbn. unfold thiz. cbn. rewrite Hp. reflexivity. }
  erewrite run_ok; [reflexivity |]. cbn. unfold rtmp_publish_set. cbn. rewrite Hpub. reflexivity.
Qed.

Definition client_leaves : list action := [AEvent BEV_EVENT_EOF; AEnd; AEnd; AEnd; AEnd].

Lemma event_ends w t p acts :
  stream w = Live t -> running (info t) = 0 -> client_bev t = Some true -> publish t = true -> pub w = Some p ->
  run (client_leaves ++ acts) w =
  run acts (set_event lib (broadcast lib (MkWorld (Live (set_publish (disabled t) false)) (packets w) (Some (told p)) (thread w) (query w)
    (Some EWake) (publishers w) (srv w))) None).
Proof.
  intros Ht Hr Hb Hp Hpub. unfold client_leaves. cbn [app]. rewrite (event_tells w t p) by done.
  erewrite run_ok by reflexivity. by erewrite run_ok by reflexivity.
Qed.

(** A failing send is answered by closing the connection. *)
Definition send_fails (now : Z) (p : PublishPriv lib) (pkg : RTMPPacket) : Prop :=
  (tima_rtmp_send lib (publisher p) pkg now).1.1 < 0.

Lemma send_failing w t a now n p :
  stream w = Live t -> client_bev t <> None -> pkts (packets w) !! a = Some n ->
  thread w = PSend a -> pub w = Some p -> send_fails now p (package n) ->
  exists p', pub_cond p' = pub_cond p /\ pfncb (pub_req p') = pfncb (pub_req p) /\
  act (ASend now) w = Some (Ok (MkWorld (Live (disabled t)) (packets w) (Some p') (PClose a) (query w) (event w) (publishers w) (srv w))).
Proof.
  intros Ht Hb Hn Hth Hp Hf. cbn [Lifecycle.act]. rewrite Hth. unfold traverse_send. rewrite Hn.
  cbn [of_option mbind res_bind]. unfold rtmp_stream_pub. rewrite Hp. cbn [of_option mbind res_bind].
  unfold send_fails in Hf. destruct (tima_rtmp_send lib (publisher p) (package n) now) as [[ret st] x].
  cbn [fst mbind res_bind] in Hf |- *. rewrite (proj2 (Z.ltb_lt _ _)) by done. unfold close_begin, thiz.
  cbn [set_pub stream]. rewrite Ht. cbn [mbind res_bind]. destruct (client_bev t); [| done].
  cbn [of_option mbind res_bind]. eexists. split; [| split; [| done]]; done.
Qed.

(** C32.  Five orders of events break the life of a stream.  (1) When the client leaves while the
    query for its address is out, the stream is freed, and the query's callback uses it; (2) it is freed as well when the
    publisher has been started and [thiz->publish] is not set yet, and used when that is set.  (3) When the
    client leaves while the publishing thread is sending and the send fails, the thread frees the
    stream on the failure, and uses it when its own loop ends.  (4) When the client leaves between the
    publishing thread's test and its wait on an empty list, the broadcast is lost: the thread waits,
    nothing can run any more and the stream is never freed.  (5) When the publishing thread sees that it is to stop before
    the event loop has reset [thiz->publish], it frees the stream, and the event loop uses it. *)
Theorem stream_life_races (w : world lib S) (t : stream_node) (xs : list (Z * nal_node_t))
    (Ht : stream w = Live t) (Hc : callback t = true) (Hs : srv w = s0)
    (Hq : queue_ok (packets w) (thread w) xs) (Hr : running (info t) = 0) (Hb : client_bev t = Some true) :
  (forall msg uri, query w = QPending -> publish t = false ->
     run [AEvent BEV_EVENT_EOF; AQueryReturn msg uri] w = Some UB) /\
  (query w = QStarting -> publish t = false -> run [AEvent BEV_EVENT_EOF; AStarted] w = Some UB) /\
  (forall p a n now, publish t = true -> pub w = Some p -> pfncb (pub_req p) = true -> thread w = PSend a ->
     pkts (packets w) !! a = Some n -> send_fails now p (package n) ->
     run (client_leaves ++ [ASend now; AClose; ATest]) w = Some UB) /\
  (forall p, publish t = true -> pub w = Some p -> thread w = PTake -> xs = [] -> query w = QDone ->
     exists w' t', run (client_leaves ++ [ATake]) w = Some (Ok w') /\ stream w' = Live t' /\
       forall a, act a w' = None) /\
  (forall p, publish t = true -> pub w = Some p -> pfncb (pub_req p) = true -> thread w = PTest ->
     run [AEvent BEV_EVENT_EOF; AEnd; AEnd; ATest; AEnd] w = Some UB).
Proof.
  assert (Hfree : publish t = false -> exists q l, act (AEvent BEV_EVENT_EOF) w =
      Some (Ok (MkWorld (Freed l) q (pub w) (thread w) (query w) (event w) (publishers w) s1))).
  { intros Hp. rewrite (event_eof _ _ Ht Hr Hb), Hp. cbn zeta.
    destruct (release_ok lib pfn_callback s0 s1 Hcb (set_stream lib w (Live (disabled t))) (disabled t) xs)
      as (q & l & -> & _); [done .. |]. by exists q, l. }
  split_and!.
  - intros msg uri Hqp Hp. destruct (Hfree Hp) as (q & l & E). rewrite (run_cons _ _ _ _ E). cbn. by rewrite Hqp.
  - intros Hqp Hp. destruct (Hfree Hp) as (q & l & E). rewrite (run_cons _ _ _ _ E). cbn. by rewrite Hqp.
  - intros p a n now Hp Hpub Hpc Hth Hn Hf. rewrite (event_ends w t p) by done. unfold broadcast. cbn [thread]. rewrite Hth.
    edestruct send_failing as (p' & Hp'c & Hp'cb & E);
      [| | | | | | rewrite (run_cons _ _ _ _ E); clear E]; [reflexivity | done | exact Hn | done | reflexivity | exact Hf |].
    cbn [packets query event publishers srv set_event] in *. unfold run, Lifecycle.run. cbn [Lifecycle.act thread query].
    unfold reading. cbn [stream disabled set_publish set_bev set_info info set_cond running]. rewrite Hr.
    cbn [Z.eqb negb when]. unfold close_end, thiz. cbn [stream mbind res_bind publish disabled set_bev set_info set_publish negb andb].
    destruct (release_ok lib pfn_callback s0 s1 Hcb
      (MkWorld (Live (disabled (set_publish (disabled t) false))) (packets w) (Some p') (PClose a) (query w) None (publishers w) (srv w))
      (disabled (set_publish (disabled t) false)) xs) as (q & l & E & _ & Hq'); [done .. | |].
    { eapply queue_ok_thread; [exact Hq |]. by rewrite Hth. }
    rewrite E. cbn [mbind res_bind]. unfold closing, traverse_destroy. cbn [packets fst snd].
    destruct (queue_destroy _ a _ _ Hq' eq_refl) as (q2 & -> & _). cbn [mbind res_bind set_packets set_thread thread].
    unfold publish_test. cbn [pub set_packets set_thread of_option mbind res_bind]. rewrite Hp'c. cbn [pub_cond told Z.eqb].
    rewrite (node_release_spec lib pub (set_pub lib) (free_publisher lib) _ ltac:(done) ltac:(done) _ p') by done. rewrite Hp'cb. cbn [pub_req told]. rewrite Hpc.
    unfold without. by destruct (connected p' =? 0), (publisher p').
  - intros p Hp Hpub Hth -> Hqd. rewrite (event_ends w t p) by done. unfold broadcast. cbn [thread]. rewrite Hth. erewrite run_cons.
    2:{ cbn [Lifecycle.act thread set_event]. unfold traverse_enter, thiz. cbn [stream mbind res_bind packets set_event].
        rewrite (list_empty_holds _ _ (qk_holds _ _ _ Hq)). reflexivity. }
    cbn iota. eexists _, _. split; [done |]. split; [done |].
    intros a. destruct a; cbn [Lifecycle.act set_thread thread query event set_event]; rewrite ?Hqd; try done;
      unfold idle, reading; cbn [set_thread set_event stream disabled set_publish set_bev set_info info set_cond running client_bev];
      by rewrite Hr.
  - intros p Hp Hpub Hpc Hth. rewrite (event_tells w t p) by done. erewrite run_cons.
    2:{ cbn [Lifecycle.act thread]. rewrite Hth. unfold publish_test. cbn [pub of_option mbind res_bind told pub_cond Z.eqb].
        rewrite (node_release_spec lib pub (set_pub lib) (free_publisher lib) _ ltac:(done) ltac:(done) _ (told p)) by done. cbn [pub_req told]. rewrite Hpc. reflexivity. }
    set (w1 := without _ _ _ _ _ _). assert (D : exists n, w1 = MkWorld (Live (disabled t)) (packets w) None PTest (query w) (Some EReset) n (srv w)).
    { unfold w1, without. cbn [publisher connected told]. by destruct (connected p =? 0), (publisher p); eexists. }
    destruct D as [n ->]. unfold h264_stream_callback.
    edestruct (release_ok lib pfn_callback s0 s1 Hcb (MkWorld (Live (disabled t)) (packets w) None PTest (query w) (Some EReset) n (srv w)) (disabled t) xs)
      as (q & l & -> & _); [done.. | | done]. cbn [packets thread]. by rewrite Hth in Hq.
Qed.
End races.

(** ** Witnesses *)

(** A library that takes everything, and one that connects but takes nothing. *)
Definition taking : librtmp :=
  Librtmp unit tt (fun _ _ => (true, tt)) (fun _ => tt) (fun _ => (true, tt)) (fun _ => (true, tt))
    (fun _ => tt) (fun _ => true) (fun _ _ => (true, tt)) (fun _ => 1).

Definition sample_info : PrivInfo () :=
  MkPriv (2 ^ 64 - 1) (MkChannel 0 (MkBuffer (Some (replicate 65 (Some 0))) 0 64) 0 (Meta 0 [])) 0 0 0 1 0 ().

Lemma sample_queue_ok k : held k = None -> queue_ok empty_queue k [].
Proof.
  intros Hk. split; [| done | by rewrite Hk | rewrite Hk].
  - split; [split; [by_decide | cbn; repeat split] | constructor | done].
  - intros a. cbn. rewrite lookup_empty. split; [by intros [? ?] |].
    intros [H%not_elem_of_nil | H]; [done | discriminate].
Defined.

(** The client of [taking] sends a packet, the address arrives, the packet is published, and the client
    leaves while the publishing thread waits. *)
Definition sample_life : list action :=
  [AReadBegin; AQuery 13800138000 1; APush (blank 4); AReadEnd; AQueryReturn 0 (chars "/live/1"); AConnect; AStarted;
   ATest; ATake; ASend 7; ATest; ATake; AEvent BEV_EVENT_EOF; AEnd; AEnd; AEnd; AEnd; AWake; ATest].

Definition sample_world (lib : librtmp) : world lib Z := registered lib sample_info 1 empty_queue 5.

Definition leaves (n : Z) : res Z := Ok (n - 1).

Abbreviation sample_run lib := (run lib leaves fresh_node (fun _ => (chars "10.0.0.1", 1935)) (fun _ => true) (fun _ => true)).


(** The connection is refused: a publisher is left when the stream is gone. *)
Example refused_left : exists w, sample_run refusing
    [AReadBegin; AQuery 13800138000 1; AReadEnd; AQueryReturn 0 (chars "/live/1"); AStarted; AConnect; ATest; ATake;
     AEvent BEV_EVENT_EOF; AEnd; AEnd; AEnd; AEnd; AWake; ATest] (sample_world refusing) = Some (Ok w) /\
  (exists l, stream w = Freed l) /\ publishers w = 1.
Proof. eexists. split; [vm_compute; reflexivity |]. split; [by eexists | done]. Qed.

(** The client leaves while its query is out. *)
Lemma stream_life_races_witness :
  sample_run taking [AReadBegin; AQuery 13800138000 1; AReadEnd; AEvent BEV_EVENT_EOF; AQueryReturn 0 []]
    (sample_world taking) = Some UB /\
  exists w, sample_run taking [AReadBegin; AQuery 13800138000 1; AReadEnd] (sample_world taking) = Some (Ok w) /\
    sample_run taking [AEvent BEV_EVENT_EOF; AQueryReturn 0 []] w = Some UB.
Proof.
  split; [vm_compute; reflexivity |]. eexists. split; [vm_compute; reflexivity |].
  match goal with |- Lifecycle.run _ _ _ _ _ _ _ ?w = _ =>
    destruct (stream_life_races taking leaves fresh_node (fun _ => (chars "10.0.0.1", 1935))
      (fun _ => true) (fun _ => true) 5 4 eq_refl w _ [] eq_refl eq_refl eq_refl
      (sample_queue_ok PNone eq_refl) eq_refl eq_refl) as [H _]; exact (H 0 [] eq_refl eq_refl) end.
Defined.
