(* ===== verification/Delivery.v ===== *)
(** * From the client's bytes to the RTMP connection

    The composition of the stream's parts.  Section [delivery]: in every interleaving of [Lifecycle]'s threads the
    packets that were added to the list are given to librtmp in that order, each once.  Section [video]: what
    [stream_input_handler] adds for a run of video packets.  Together they say what a client's bytes become. *)

From S2P Require Import Prelude List Jt1078 H264 Buffer RtmpPack Queue Publish Stream Lifecycle.

Section delivery.
Context (lib : librtmp) {S : Type} (pfn_callback : S -> res S)
  (calloc_node : queue -> option Z)
  (network : world lib S -> list Z * Z) (alloc_ok dup_ok : world lib S -> bool).

Abbreviation act := (act lib pfn_callback calloc_node network alloc_ok dup_ok).
Implicit Types (w : world lib S) (t : stream_node).

Definition packages (xs : list (Z * nal_node_t)) : list RTMPPacket := map (fun x => package x.2) xs.

(** The packet a step adds to the list, and the one it gives to librtmp. *)
Definition pushed_by (a : action) : list RTMPPacket := match a with APush pkg => [pkg] | _ => [] end.

Definition held_package w : list RTMPPacket :=
  match held (thread w) with
  | Some a => match pkts (packets w) !! a with Some n => [package n] | None => [] end
  | None => []
  end.

Definition sent_by (a : action) w : list RTMPPacket := match a with ASend _ => held_package w | _ => [] end.

(** What was added and what was sent on the way to a world. *)
Inductive history (w0 : world lib S) : list RTMPPacket -> list RTMPPacket -> world lib S -> Prop :=
| history_start : history w0 [] [] w0
| history_step ps ds w a w' :
    history w0 ps ds w -> calm lib a w -> act a w = Some (Ok w') ->
    history w0 (ps ++ pushed_by a) (ds ++ sent_by a w) w'.

Lemma history_reach w0 ps ds w :
  history w0 ps ds w -> reach lib pfn_callback calloc_node network alloc_ok dup_ok (calm lib) w0 w.
Proof. induction 1 as [| ps ds w a w' _ IH Hc Ha]; [constructor | by eapply reach_step]. Qed.

(** The packets that wait, the one the thread holds first. *)
Definition pending w (qs : list RTMPPacket) : Prop :=
  exists xs, queue_ok (packets w) (thread w) xs /\ qs = held_package w ++ packages xs.

(** The connection, and what it is after it was given [ds]. *)
Definition link w : option (rtmp lib) := p ← pub w; x ← publisher p; Some (priv x).

Definition starting (k : pc) : Prop := k = PNone \/ k = PStart.

Definition carried w (ds : list RTMPPacket) : Prop :=
  starting (thread w) /\ ds = [] \/
  ~ starting (thread w) /\ exists r0, link w = Some (foldl (fun r pkg => (RTMP_SendPacket lib r pkg).2) r0 ds).

(** The delivered packets and the pending ones are those that were added. *)
Definition delivering w (ps ds : list RTMPPacket) : Prop :=
  match stream w with
  | Live _ => (exists qs, pending w qs /\ ps = ds ++ qs) /\ carried w ds
  | Freed _ => exists qs, ps = ds ++ qs
  end.

(** Steps that leave the list and the thread's packet alone. *)
Lemma pending_same w w' qs :
  pending w qs -> packets w' = packets w -> held (thread w') = held (thread w) -> pending w' qs.
Proof.
  intros (xs & Hq & ->) Ep Et. exists xs. unfold held_package. rewrite Ep, Et. split; [| done].
  by eapply queue_ok_thread.
Qed.

(** Steps that do not concern the packets. *)
Record quiet w w' : Prop := {
  qt_packets : packets w' = packets w;
  qt_held : held (thread w') = held (thread w);
  qt_link : link w' = link w;
  qt_starting : starting (thread w') <-> starting (thread w)
}.

Lemma quiet_refl w : quiet w w.
Proof. by split. Qed.

Lemma quiet_trans w1 w2 w3 : quiet w1 w2 -> quiet w2 w3 -> quiet w1 w3.
Proof. intros [] []. split; [congruence | congruence | congruence | tauto]. Qed.

Lemma quiet_broadcast w : quiet w (broadcast lib w).
Proof.
  unfold broadcast. destruct (thread w) eqn:E; try apply quiet_refl. split; cbn; try done; rewrite ?E; [done |].
  split; intros [? | ?]; done.
Qed.

Lemma delivering_quiet w w' ps ds t :
  delivering w ps ds -> stream w = Live t -> quiet w w' -> delivering w' ps ds.
Proof.
  unfold delivering. intros H Ht [Qp Qh Ql Qs]. rewrite Ht in H. destruct H as [(qs & Hp & E) Hc].
  destruct (stream w') as [t' | l]; [| by exists qs]. split.
  - exists qs. split; [by eapply pending_same | done].
  - unfold carried. rewrite Qs, Ql. exact Hc.
Qed.

Lemma delivering_freed w w' ps ds l : delivering w ps ds -> stream w' = Freed l -> delivering w' ps ds.
Proof.
  unfold delivering. intros H ->. destruct (stream w); [| done].
  destruct H as [(qs & _ & E) _]. by exists qs.
Qed.

(** ** Each action *)

Lemma thiz_live w t : thiz lib w = Ok t -> stream w = Live t.
Proof. unfold thiz. destruct (stream w); [by intros [= ->] | done]. Qed.

Lemma close_begin_quiet w w' : close_begin lib w = Ok w' -> quiet w w'.
Proof.
  unfold close_begin. intros (t & Ht & H)%bind_Ok_inv. apply bind_Ok_inv in H as (b & _ & [= <-]).
  by split.
Qed.

Lemma push_end_quiet st e e' w w' : st <> RTMP_PUB_STATE_TYPE_START -> rtmp_push_end lib st e w = Ok (e', w') -> quiet w w'.
Proof.
  intros Hst. destruct e; cbn [rtmp_push_end].
  - intros (t & _ & [= _ <-])%bind_Ok_inv. apply quiet_refl.
  - intros (w1 & H1 & [= _ <-])%bind_Ok_inv. unfold rtmp_publish_set in H1.
    apply bind_Ok_inv in H1 as (p & Hp & H2). destruct (pub w) as [p' |] eqn:Ep; [| done]. injection Hp as ->.
    rewrite (proj2 (Z.eqb_neq _ _) Hst) in H2.
    destruct (_ || _); injection H2 as <-; (split; [done | done | | done]); unfold link; cbn; by rewrite Ep.
  - intros (t & _ & [= _ <-])%bind_Ok_inv. by split.
  - intros (t & _ & [= _ <-])%bind_Ok_inv. apply quiet_broadcast.
Qed.

Lemma release_freed w w' : h264_stream_release lib pfn_callback w = Ok w' -> exists l, stream w' = Freed l.
Proof.
  unfold h264_stream_release. intros (t & _ & H)%bind_Ok_inv. apply bind_Ok_inv in H as (s & _ & H).
  apply bind_Ok_inv in H as (q & _ & H). unfold bll_h264_delete in H. apply bind_Ok_inv in H as (t' & _ & [= <-]).
  by eexists.
Qed.

Lemma event_effect event w w' :
  stream_socket_eventcb lib pfn_callback event w = Ok w' -> quiet w w' \/ exists l, stream w' = Freed l.
Proof.
  unfold stream_socket_eventcb. intros (t & Ht & H)%bind_Ok_inv. destruct (_ && _); [injection H as <-; left; apply quiet_refl |].
  destruct (publish t); [left | right; by apply release_freed in H]. injection H as <-. by split.
Qed.

Lemma publish_release_freed w w' :
  rtmp_publish_release lib pub (set_pub lib) (free_publisher lib) (fun w => snd <$> h264_stream_callback lib pfn_callback NODE_SUCCESS w) w = Ok w' ->
  exists l, stream w' = Freed l.
Proof.
  unfold rtmp_publish_release. intros (p & _ & H)%bind_Ok_inv. apply bind_Ok_inv in H as (w1 & _ & H).
  apply bind_Ok_inv in H as (w2 & _ & H). destruct (pfncb _); [| done]. unfold h264_stream_callback in H.
  destruct (h264_stream_release lib pfn_callback w2) as [w3 | |] eqn:E; cbn in H; [| done | done]. injection H as <-.
  by eapply release_freed.
Qed.

Lemma set_run_quiet v w w' : set_run lib v w = Ok w' -> quiet w w'.
Proof. unfold set_run. intros (t & _ & [= <-])%bind_Ok_inv. by split. Qed.

Lemma first_packet_quiet s c w w' : first_packet lib s c w = Ok w' -> quiet w w'.
Proof. unfold first_packet. intros (t & _ & [= <-])%bind_Ok_inv. by split. Qed.

Context (s0 s1 : S) (Hcb : pfn_callback s0 = Ok s1)
  (Hcalloc : forall q, exists a, calloc_node q = Some a /\ fresh_address q a) (Hl : healthy lib alloc_ok dup_ok).

Abbreviation inv := (inv lib s0 s1 false).

Lemma packages_app xs ys : packages (xs ++ ys) = packages xs ++ packages ys.
Proof. apply map_app. Qed.

Lemma pending_fun w qs xs : pending w qs -> queue_ok (packets w) (thread w) xs -> qs = held_package w ++ packages xs.
Proof.
  intros (ys & Hy & ->) Hx. f_equal. f_equal.
  assert (E : ys.*1 = xs.*1) by (eapply ring_fun; eapply holds_ring, qk_holds; eassumption).
  pose proof (holds_pkts _ _ (qk_holds _ _ _ Hx)) as Px. pose proof (holds_pkts _ _ (qk_holds _ _ _ Hy)) as Py.
  clear Hx Hy. revert xs E Px; induction ys as [| [a n] ys IH]; intros [| [b m] xs] E Px; try done.
  injection E as -> E. apply Forall_cons_1 in Py as [Ey Py]. apply Forall_cons_1 in Px as [Ex Px]. cbn in *.
  f_equal; [congruence | by apply IH].
Qed.

(** The list grows by what is pushed. *)
Lemma push_effect pkg w w' ps ds t :
  inv w -> stream w = Live t -> calm lib (APush pkg) w -> push_packet lib calloc_node pkg w = Ok w' ->
  delivering w ps ds -> delivering w' (ps ++ [pkg]) ds.
Proof.
  intros Hi Ht Hc E H. destruct (inv_live lib s0 s1 false w t Hi Ht) as (xs & Hq & _).
  unfold push_packet, thiz in E. rewrite Ht in E. cbn [mbind res_bind] in E.
  destruct (queue_push calloc_node _ _ _ pkg (ch_id (channel (info t))) Hcalloc Hq Hc)
    as (a & q1 & q2 & E1 & E2 & Hq2 & Hk). rewrite E1 in E. cbn [mbind res_bind] in E. rewrite E2 in E.
  cbn [mbind res_bind] in E.
  assert (D : delivering (set_packets lib w q2) (ps ++ [pkg]) ds).
  { unfold delivering in *. cbn [stream set_packets]. rewrite Ht in *. destruct H as [(qs & Hp & ->) Hcar].
    split; [| exact Hcar]. rewrite (pending_fun _ _ _ Hp Hq). eexists. split.
    - exists (xs ++ [(a, MkNode (ch_id (channel (info t))) 0 0 pkg)]). split; [exact Hq2 | reflexivity].
    - rewrite packages_app, <- !app_assoc. f_equal. f_equal. unfold held_package. cbn [thread packets set_packets].
      destruct (held (thread w)) as [b |] eqn:Eb; [| done]. by rewrite (Hk b eq_refl). }
  destruct (_ =? 0); injection E as <-; [| done].
  eapply delivering_quiet; [exact D | exact Ht | apply quiet_broadcast].
Qed.

(** Taking moves the first packet from the list to the thread. *)
Lemma take_effect w w' ps ds :
  inv w -> thread w = PTake \/ thread w = PWait true -> traverse_take lib w = Ok w' ->
  delivering w ps ds -> delivering w' ps ds.
Proof.
  intros Hi Hth E H. destruct (inv_sending lib s0 s1 false w Hi) as (t & Ht & Hp); [by destruct Hth as [-> | ->] |].
  destruct (inv_live lib s0 s1 false w t Hi Ht) as (xs & Hok & _). unfold traverse_take, thiz in E. rewrite Ht in E. cbn [mbind res_bind] in E.
  assert (Hh : held (thread w) = None) by (by destruct Hth as [-> | ->]).
  destruct (queue_take _ _ _ Hok Hh) as (q & E1 & Hq & Hn). rewrite E1 in E. cbn [mbind res_bind] in E. injection E as <-.
  unfold delivering in *. cbn [stream set_thread set_packets]. rewrite Ht in *.
  destruct H as [(qs & Hpe & ->) Hc]. split.
  - rewrite (pending_fun _ _ _ Hpe Hok). unfold held_package at 1. rewrite Hh. cbn [app]. eexists. split; [| reflexivity].
    exists (tail xs). destruct xs as [| [a n] xs]; [by split |]. split; [exact Hq |].
    unfold held_package. cbn. by rewrite (Hn a n eq_refl).
  - destruct Hc as [[[? | ?] _] | [_ Hc]]; [destruct Hth; congruence.. | right]. split; [by destruct xs as [| []]; intros [? | ?] | exact Hc].
Qed.

(** Sending gives librtmp the packet the thread holds. *)
Lemma send_effect now a w w' ps ds :
  inv w -> thread w = PSend a -> traverse_send lib now a w = Ok w' ->
  delivering w ps ds -> delivering w' ps (ds ++ held_package w).
Proof.
  intros Hi Hth E H. destruct (inv_sending lib s0 s1 false w Hi) as (t & Ht & Hpu); [by rewrite Hth |].
  destruct Hpu as (p & Hp & _ & _ & Hpub & _). unfold linked in Hpub. rewrite Hth in Hpub. destruct Hpub as [Hpub _].
  destruct (inv_live lib s0 s1 false w t Hi Ht) as (xs & Hok & _). unfold traverse_send in E.
  destruct (proj2 (qk_pkts _ _ _ Hok a)) as [n Hn]; [right; by rewrite Hth |]. rewrite Hn in E. cbn [of_option mbind res_bind] in E.
  unfold rtmp_stream_pub in E. rewrite Hp in E. cbn [of_option mbind res_bind] in E.
  destruct (publisher p) as [x |] eqn:Ex; [| done].
  unfold tima_rtmp_send in E. rewrite (hl_connected _ _ _ Hl) in E. cbn [negb] in E.
  pose proof (hl_send _ _ _ Hl (priv x) (package n)) as Hsd. destruct (RTMP_SendPacket lib (priv x) (package n)) as [ok r] eqn:Er. cbn in Hsd.
  subst ok. cbn [negb mbind res_bind] in E. change (0 <? 0) with false in E. cbn iota in E.
  unfold traverse_destroy in E. cbn [set_pub packets] in E.
  destruct (queue_destroy _ a _ _ Hok) as (q & E1 & Hq); [by rewrite Hth |]. rewrite E1 in E. cbn [mbind res_bind] in E.
  injection E as <-. unfold delivering in *. cbn [stream set_thread set_packets set_pub]. rewrite Ht in *.
  assert (Hhp : held_package w = [package n]) by (unfold held_package; rewrite Hth; cbn [held]; by rewrite Hn).
  destruct H as [(qs & Hpe & ->) Hc]. split.
  - rewrite (pending_fun _ _ _ Hpe Hok), app_assoc. eexists. split; [| reflexivity]. exists xs. split; [exact Hq | done].
  - destruct Hc as [[[? | ?] _] | [_ [r0 Hc]]]; [congruence.. |]. right. split; [by intros [? | ?] |]. exists r0. unfold link in *. rewrite Hp in Hc.
    cbn [mbind option_bind] in Hc. rewrite Ex in Hc. cbn [mbind option_bind] in Hc. injection Hc as Hc.
    cbn. rewrite Hhp, foldl_app. cbn [foldl]. by rewrite <- Hc, Er.
Qed.
(** The publisher is created while nothing was sent. *)
Lemma push_start_effect uri w w' ps ds t :
  stream w = Live t -> querying lib w t -> rtmp_push_start lib uri w = Ok w' ->
  delivering w ps ds -> delivering w' ps ds.
Proof.
  intros Ht (Hp & Hth & _) E H. unfold rtmp_push_start, thiz in E. rewrite Ht in E. cbn [mbind res_bind] in E.
  unfold rtmp_publish_set in E. cbn [set_pub pub of_option mbind res_bind] in E. injection E as <-.
  unfold delivering in *. cbn [stream set_thread set_pub]. rewrite Ht in *. destruct H as [(qs & Hpe & E) Hc]. split.
  - exists qs. split; [| done]. eapply pending_same; [exact Hpe | done |]. cbn. by rewrite Hth.
  - destruct Hc as [[_ ->] | [Hn _]]; [left; split; [by right | done] |]. destruct Hn. by left.
Qed.

(** A stream that is gone is not used by an event loop that goes on. *)
Lemma inv_end_freed w e e' w' l : inv w -> stream w = Freed l -> event w = Some e -> rtmp_push_end lib RTMP_PUB_STATE_TYPE_EOF e w = Ok (e', w') -> False.
Proof.
  intros [_ Hi] Hf He E. rewrite Hf in Hi. destruct Hi as (_ & _ & _ & _ & _ & _ & H & _). rewrite He in H.
  destruct H as [? | (_ & [[= ->] | [= ->]])]; [done | |]; cbn [rtmp_push_end] in E; unfold thiz in E; by rewrite Hf in E.
Qed.

Lemma step_effect a w w' ps ds :
  inv w -> calm lib a w -> act a w = Some (Ok w') -> delivering w ps ds ->
  delivering w' (ps ++ pushed_by a) (ds ++ sent_by a w).
Proof.
  intros Hi Hc Ha H. destruct a; cbn [Lifecycle.act pushed_by sent_by] in Ha |- *; rewrite ?app_nil_r.
  - apply when_some in Ha as [Hb E]. apply andb_true_iff in Hb as [(t & Ht & _)%idle_inv _].
    eapply delivering_quiet; [done | done | by eapply set_run_quiet].
  - apply when_some in Ha as [Hb E]. destruct (reading_inv lib w Hb) as [t Ht]. by eapply push_effect.
  - apply when_some in Ha as [Hb E]. apply andb_true_iff in Hb as [[t Ht]%reading_inv _].
    eapply delivering_quiet; [done | done | by eapply first_packet_quiet].
  - apply when_some in Ha as [[t Ht]%reading_inv E]. eapply delivering_quiet; [done | done | by eapply set_run_quiet].
  - apply when_some in Ha as [(t & Ht & _)%idle_inv E].
    destruct (event_effect event w w') as [Hq | [l Hf]]; [done | by eapply delivering_quiet | by eapply delivering_freed].
  - destruct (event w) as [e |] eqn:He; [| discriminate Ha]. cbn in Ha. injection Ha as Ha. apply bind_Ok_inv in Ha as ([e' w1] & E & [= <-]).
    destruct (stream w) as [t | l] eqn:Ht.
    + eapply delivering_quiet; [done | done |]. eapply quiet_trans; [by apply (push_end_quiet RTMP_PUB_STATE_TYPE_EOF e e' w w1) | by split].
    + destruct (inv_end_freed w e e' w1 l Hi Ht He E).
  - destruct (query w) eqn:Hq; try discriminate Ha. injection Ha as Ha.
    apply bind_Ok_inv in Ha as (t & Ht%thiz_live & Ha). destruct (negb _); apply bind_Ok_inv in Ha as (w1 & E & [= <-]).
    + eapply delivering_quiet; [done | done |]. eapply quiet_trans; [by eapply close_begin_quiet | by split].
    + destruct (inv_live lib s0 s1 false w t Hi Ht) as (xs & _ & _ & _ & _ & _ & Hqu). pose proof (asking lib w t Hqu (or_introl Hq)) as Hqu'.
      assert (D : delivering w1 ps ds) by (by eapply push_start_effect).
      destruct (stream w1) as [t1 | l] eqn:E1; [eapply delivering_quiet; [exact D | exact E1 | by split] |].
      by eapply delivering_freed.
  - destruct (query w) eqn:Hq; try discriminate Ha. injection Ha as Ha. apply bind_Ok_inv in Ha as (w1 & E & [= <-]).
    apply bind_Ok_inv in E as (t & Ht%thiz_live & [= <-]). eapply delivering_quiet; [done | done | by split].
  - destruct (query w) eqn:Hq; try discriminate Ha. apply when_some in Ha as [_ Ha]. symmetry in Ha.
    apply bind_Ok_inv in Ha as ([e w1] & E & [= <-]). unfold close_end in E. apply bind_Ok_inv in E as (t & Ht & E). cbn [negb andb] in E.
    apply bind_Ok_inv in E as (w2 & E & [= _ <-]). destruct (release_freed _ _ E) as [l Hf]. by eapply (delivering_freed _ _ _ _ l).
  - destruct (thread w) eqn:Hth; try discriminate Ha. injection Ha as Ha.
    destruct (inv_sending lib s0 s1 false w Hi) as (t & Ht & p & Hp & _); [by rewrite Hth |]. unfold publish_connect in Ha.
    destruct (connect_publisher lib pub (set_pub lib) (calloc_publisher lib) network alloc_ok dup_ok w p Hp
      (hl_alloc _ _ _ Hl w) (hl_dup _ _ _ Hl w)) as (x & _ & _ & E). rewrite E in Ha. cbn [mbind res_bind] in Ha. injection Ha as <-.
    unfold delivering in *. cbn [stream set_thread set_pub calloc_publisher set_publishers]. rewrite Ht in *. destruct H as [(qs & Hpe & ->) Hca]. split.
    + exists qs. split; [| done]. eapply pending_same; [exact Hpe | done | by rewrite Hth].
    + destruct Hca as [[_ ->] | [Hn _]]; [| destruct Hn; by right]. right. split; [by intros [? | ?] |]. by exists (priv x).
  - destruct (thread w) eqn:Hth; try discriminate Ha. injection Ha as Ha.
    destruct (inv_sending lib s0 s1 false w Hi) as (t & Ht & p & Hp & _); [by rewrite Hth |].
    unfold publish_test in Ha. rewrite Hp in Ha. cbn [of_option mbind res_bind] in Ha.
    destruct (_ =? 0); [| injection Ha as <-; eapply delivering_quiet; [done | done |]].
    + apply bind_Ok_inv in Ha as (w1 & E & [= <-]). destruct (publish_release_freed _ _ E) as [l Hf].
      by eapply (delivering_freed _ _ _ _ l).
    + split; cbn; try done; rewrite Hth; [done |]. split; by intros [? | ?].
  - destruct (thread w) eqn:Hth; try discriminate Ha. injection Ha as Ha.
    destruct (inv_sending lib s0 s1 false w Hi) as (t & Ht & _); [by rewrite Hth |].
    unfold traverse_enter, thiz in Ha. rewrite Ht in Ha. cbn [mbind res_bind] in Ha.
    apply bind_Ok_inv in Ha as (e & _ & Ha). destruct e; [| eapply take_effect; eauto].
    injection Ha as <-. eapply delivering_quiet; [done | done |].
    split; cbn; try done; rewrite Hth; [done |]. split; by intros [? | ?].
  - destruct (thread w) as [| | | | [] | | | |] eqn:Hth; try discriminate Ha. injection Ha as Ha. eapply take_effect; eauto.
  - destruct (thread w) eqn:Hth; try discriminate Ha. injection Ha as Ha. by eapply send_effect.
  - destruct (thread w) eqn:Hth; try discriminate Ha. destruct (not_closing lib s0 s1 false w Hi). rewrite Hth. by exists a, None.
  - destruct (thread w) eqn:Hth; try discriminate Ha. destruct (not_closing lib s0 s1 false w Hi). rewrite Hth. by exists a, (Some e).
Qed.

Lemma history_delivers (i : PrivInfo ()) (flow : Z) (q : queue) (ps ds : list RTMPPacket) (w : world lib S) :
  sim i = 2 ^ 64 - 1 -> queue_ok q PNone [] -> history (registered lib i flow q s0) ps ds w -> delivering w ps ds.
Proof.
  intros Hi Hq Hr. induction Hr as [| ps ds w a w' Hr IH Hc Ha].
  - split; [exists []; split; [by exists [] | done] | left; split; [by left | done]].
  - eapply step_effect; [| done | done | done].
    eapply (reach_inv lib pfn_callback calloc_node network alloc_ok dup_ok s0 s1 false Hcb Hcalloc (calm lib)); [by intros ? ? ? | exact Hl | by apply inv_registered | by eapply history_reach].
Qed.

(** ** Sequences of actions *)

Abbreviation run := (run lib pfn_callback calloc_node network alloc_ok dup_ok).
Abbreviation all_calm := (always lib pfn_callback calloc_node network alloc_ok dup_ok (calm lib)).

Definition pushes (acts : list action) : list RTMPPacket := flat_map pushed_by acts.

Fixpoint sends (acts : list action) w : list RTMPPacket :=
  match acts with
  | [] => []
  | a :: acts => sent_by a w ++ match act a w with Some (Ok w') => sends acts w' | _ => [] end
  end.

Lemma run_history w0 ps ds acts w w' :
  history w0 ps ds w -> all_calm acts w -> run acts w = Some (Ok w') -> history w0 (ps ++ pushes acts) (ds ++ sends acts w) w'.
Proof.
  revert ps ds w; induction acts as [| a acts IH]; intros ps ds w Hh Hc Hr; cbn [Lifecycle.run Lifecycle.always pushes flat_map sends] in *.
  - injection Hr as <-. by rewrite !app_nil_r.
  - destruct Hc as [Hc Ha]. destruct (act a w) as [[w1 | |] |] eqn:E; try done.
    rewrite !app_assoc. apply IH; [by eapply history_step | done | done].
Qed.
End delivery.

(** ** Video packets through the input handler *)

Section video.
Context {Q : Type} `{!PacketStore Q} (alloc : Z -> bool) (sizeof_packet : Z)
  (copyout : list Z -> Z -> option (list Z)) (remove : list Z -> Z -> list Z)
  (stream_url_query : PrivInfo Q -> Z -> Z -> res (PrivInfo Q))
  (copyout_spec : forall input n, 0 <= n -> copyout input n = Some (take (Z.to_nat n) input))
  (remove_spec : forall input n, 0 <= n -> remove input n = drop (Z.to_nat n) input)
  (query_spec : forall t s c, stream_url_query t s c = Ok t)
  (alloc_ok : forall n, alloc n = true) (sizeof_ok : 0 <= sizeof_packet <= 2 ^ 16).

Abbreviation packager := H264.tima_h264_rtmp_create.
Abbreviation media := (media_stream_proc alloc sizeof_packet packager copyout stream_url_query).
Abbreviation proc := (h264_stream_proc alloc sizeof_packet packager).
Implicit Types (t : PrivInfo Q) (p : video_packet).

(** A packet with a piece of an H.264 stream. *)
Record carries p : Prop := {
  ca_wf : video_packet_wf p;
  ca_body : (1 <= length (vp_body p) <= 950)%nat;
  ca_type : Z.land (vp_mtype p) 0xf0 <> 0x30 /\ Z.land (vp_mtype p) 0xf0 <> 0x40
}.

(** The stream once the packet's SIM number and channel are noted. *)
Definition latched t p : PrivInfo Q :=
  let t := if sim t =? 2 ^ 64 - 1 then set_channel (set_sim t (vp_sim p)) (set_id (channel t) (vp_channel p)) else t in
  set_channel t (set_id (channel t) (vp_channel p)).

Lemma media_video t p rest :
  carries p -> Forall is_byte rest ->
  exists after, media t (Some (encode p ++ rest)) =
    ('(_, t) ← proc (latched t p) (vp_body p ++ after) (Z.of_nat (length (vp_body p))); Ok (Z.of_nat (length (encode p)), t)).
Proof.
  intros [Hwf Hb Ht] Hr. pose proof (encode_length p Hwf) as Hl.
  assert (Hbytes : Forall is_byte (encode p ++ rest)) by (apply Forall_app; auto using encode_byte).
  assert (Hne : encode p ++ rest <> []) by (intros E; apply (f_equal length) in E; rewrite length_app in E; cbn in E; lia).
  destruct (copied_front (encode p) rest) as [x Hx]; [lia |]. exists x.
  rewrite (media_parse alloc sizeof_packet packager copyout stream_url_query copyout_spec) by done. cbv zeta. rewrite Hx.
  rewrite parsed_header_encode by done. cbn [simno Jt1078.channel mtype bodylen encoded_header].
  rewrite decide_True by done.
  assert (Hbl : body_length (encode p ++ x) = Z.of_nat (length (vp_body p)))
    by exact (f_equal bodylen (parsed_header_encode p x header0 Hwf)).
  assert (Hcl : Z.of_nat (length (encode p)) <= copied_len (encode p ++ rest)) by (unfold copied_len; rewrite length_app; lia).
  rewrite Hbl, (proj2 (Z.leb_le (Z.of_nat (length (vp_body p))) (copied_len (encode p ++ rest) - 30))) by lia.
  rewrite (proj2 (Z.leb_gt _ 0)) by lia.
  rewrite (proj2 (Z.eqb_neq _ _) (proj1 Ht)), (proj2 (Z.eqb_neq _ _) (proj2 Ht)). cbn [orb].
  replace (drop 30 (encode p ++ x)) with (vp_body p ++ x).
  2:{ rewrite drop_app_le by lia. f_equal. unfold encode in *. rewrite !app_assoc in *.
      by rewrite drop_app_length' by (rewrite length_app in Hl; lia). }
  replace (Z.of_nat (length (vp_body p)) + 30) with (Z.of_nat (length (encode p))) by lia.
  unfold latched. destruct (sim t =? _); [rewrite query_spec |]; done.
Qed.

(** Chunks [ds] arriving at a buffer of [B] bytes that holds [xs]: the units they complete and the rest. *)
Inductive cut (B : Z) : list Z -> list (list Z) -> list (list Z * bool) -> list Z -> Prop :=
| cut_end xs : cut B xs [] [] xs
| cut_chunk xs d ds us us' tail xs' :
    d <> [] -> xs ++ d = flat us ++ tail -> Forall (good_unit 1) us -> tail <> [] ->
    no_code (xs ++ d) (length (xs ++ d)) (length (flat us)) ->
    Z.of_nat (length (xs ++ d)) < Z.min (2 ^ 31) B ->
    cut B tail ds us' xs' -> cut B xs (d :: ds) (us ++ us') xs'.

(** A started stream with [xs] in its buffer and [ns] waiting. *)
Record started_with (B : Z) t (xs : list Z) (ns : list nal_node_t) (cfg : RTMPPacket) : Prop := {
  sw_started : started (channel t) <> 0;
  sw_buffered : buffered t xs;
  sw_total : buffer_total (ch_buffer (channel t)) = B;
  sw_waiting : waiting t ns;
  sw_config : config_packet alloc sizeof_packet packager t cfg;
  sw_cond : cond t <> 0;
  sw_sim : sim t <> 2 ^ 64 - 1
}.

Lemma latched_named t p : sim t <> 2 ^ 64 - 1 -> latched t p = set_channel t (set_id (channel t) (vp_channel p)).
Proof. intros H. unfold latched. by rewrite (proj2 (Z.eqb_neq _ _) H). Qed.

Lemma input_loop_video B : forall fuel t ps rest xs us xs' ns cfg,
  Forall carries ps -> Forall is_byte rest -> ~ whole_packet rest -> cut B xs (map vp_body ps) us xs' ->
  started_with B t xs ns cfg -> Z.of_nat (length ns) + 2 * Z.of_nat (length us) < INT_MAX ->
  (length ps < fuel)%nat -> Z.of_nat (length (concat (map encode ps) ++ rest)) < 2 ^ 63 ->
  exists t' new,
    input_loop alloc sizeof_packet packager copyout remove stream_url_query fuel t (concat (map encode ps) ++ rest)
      (Z.of_nat (length (concat (map encode ps) ++ rest))) = Ok (t', rest) /\
    started_with B t' xs' (ns ++ new) cfg /\
    bodies new = flat_map (fun u => unit_bodies h264_tag (body cfg) u.1) us /\ sim t' = sim t.
Proof.
  induction fuel as [| fuel IH]; intros t ps rest xs us xs' ns cfg Hps Hr Hw Hcut Hst Hl Hf Hlen; [lia |].
  cbn [input_loop]. destruct ps as [| p ps].
  - inversion Hcut; subst. cbn [map concat app].
    destruct (media_stalls alloc sizeof_packet packager copyout stream_url_query copyout_spec t rest Hr Hw) as (ret & Hret & ->).
    cbn [mbind res_bind]. rewrite Z.gtb_ltb, (proj2 (Z.ltb_ge _ _)) by lia. exists t, []. by rewrite app_nil_r.
  - apply Forall_cons_1 in Hps as [Hp Hps]. cbn [map concat] in *. rewrite <- app_assoc in *.
    assert (Hbs : Forall is_byte (concat (map encode ps) ++ rest)).
    { rewrite Forall_app. split; [| done]. apply Forall_concat, Forall_map. eapply Forall_impl; [exact Hps |].
      intros q Hq. by apply encode_byte, ca_wf. }
    inversion Hcut as [| ? ? ? us1 us2 tail ? Hd Hxd Hgood Htail Hno Hroom Hcut']; subst.
    destruct Hst as [H1 H2 H3 H4 H5 H6 H7].
    destruct (media_video t p (concat (map encode ps) ++ rest) Hp Hbs) as [after ->].
    rewrite latched_named by done. set (t0 := set_channel t _).
    rewrite length_app in Hl.
    destruct (proc_units alloc sizeof_packet packager 1 h264_tag alloc_ok sizeof_ok t0 xs (vp_body p) after us1 tail ns cfg)
      as (t1 & new1 & -> & W1 & B1 & F1 & [S1 N1] & M1 & C1 & _ & T1); try done; [change (ch_buffer (channel t0)) with (ch_buffer (channel t)); rewrite H3; lia | lia |].
    cbn [mbind res_bind]. pose proof (encode_length p (ca_wf p Hp)) as Hel.
    rewrite Z.gtb_ltb, (proj2 (Z.ltb_lt _ _)) by lia. rewrite remove_spec, Nat2Z.id, drop_app_length by lia.
    rewrite length_app in Hlen |- *.
    replace (Z.of_nat (length (encode p) + length (concat (map encode ps) ++ rest)) - Z.of_nat (length (encode p)))
      with (Z.of_nat (length (concat (map encode ps) ++ rest))) by lia.
    rewrite wrap_small by lia. rewrite C1. change (cond t0) with (cond t). rewrite (proj2 (Z.eqb_neq _ _) H6), andb_true_r, Z.gtb_ltb.
    assert (Hn1 : (length new1 <= 2 * length us1)%nat).
    { apply (f_equal length) in B1. unfold bodies in B1. rewrite length_map in B1. rewrite B1. clear.
      induction us1 as [| u us1 IH]; [done |]. cbn [flat_map length]. rewrite length_app. unfold unit_bodies at 1.
      rewrite length_app. destruct (_ =? 5), (parameter_set _); cbn [length]; lia. }
    assert (Hst1 : started_with B t1 tail (ns ++ new1) cfg).
    { split; [by rewrite S1 | done | by rewrite T1 | done | | by rewrite C1 | by rewrite N1].
      unfold config_packet in *. by rewrite M1. }
    destruct (Z.ltb_spec 30 (Z.of_nat (length (concat (map encode ps) ++ rest)))) as [Hgt | Hle].
    + destruct (IH t1 ps rest tail us2 xs' (ns ++ new1) cfg) as (t2 & new2 & -> & W2 & B2 & N2); try done;
        [rewrite length_app; lia | cbn [length] in Hf; lia | lia |].
      exists t2, (new1 ++ new2). rewrite app_assoc, flat_map_app. unfold bodies in *. rewrite map_app, B1, B2.
      split_and!; [done | done | done |]. by rewrite N2, N1.
    + destruct ps as [| p2 ps]; [| exfalso].
      2:{ apply Forall_cons_1 in Hps as [Hp2 _]. pose proof (encode_length p2 (ca_wf p2 Hp2)). pose proof (ca_body p2 Hp2).
          cbn [map concat] in Hle. rewrite !length_app in Hle. lia. }
      inversion Hcut'; subst. exists t1, new1. rewrite app_nil_r. cbn [map concat app]. by split_and!.
Qed.
(** A stream as [h264_stream_init] leaves it, with a buffer of [B] bytes. *)
Record unnamed_stream (B : Z) t : Prop := {
  us_sim : sim t = 2 ^ 64 - 1;
  us_started : started (channel t) = 0;
  us_buffered : buffered t [];
  us_total : buffer_total (ch_buffer (channel t)) = B /\ 32 <= B;
  us_waiting : waiting t [];
  us_cond : cond t <> 0
}.

(** A client's packets: the first has the two parameter sets in front of its units, and the pieces give the
    complete units [us] and a rest. *)
Record client_video (B : Z) (p : video_packet) (ps : list video_packet) (sps pps : list Z) (us : list (list Z * bool))
    (xs' : list Z) : Prop := {
  cv_packets : Forall carries (p :: ps);
  cv_sets : parameter_sets sps pps;
  cv_cut : exists l1 l2 l3 us0 us1 tail, us = us0 ++ us1 /\
    let d := stream_header l1 l2 l3 sps pps ++ flat us0 ++ tail in
    vp_body p = d /\ Forall (good_unit 1) us0 /\ tail <> [] /\
    no_code d (length d) (length (stream_header l1 l2 l3 sps pps ++ flat us0)) /\
    Z.of_nat (length d) < Z.min (2 ^ 31) B /\ cut B tail (map vp_body ps) us1 xs'
}.

Definition stream_bodies (sps pps : list Z) (us : list (list Z * bool)) : list (list Z) :=
  avc_config sps pps :: flat_map (fun u => unit_bodies h264_tag (avc_config sps pps) u.1) us.

Lemma handler_video B t p ps sps pps us xs' rest fuel :
  unnamed_stream B t -> client_video B p ps sps pps us xs' ->
  Forall is_byte rest -> ~ whole_packet rest -> 2 * Z.of_nat (length us) + 2 < INT_MAX ->
  (length ps + 1 < fuel)%nat -> Z.of_nat (length (concat (map encode (p :: ps)) ++ rest)) < 2 ^ 63 ->
  exists t' new wm,
    stream_input_handler alloc sizeof_packet packager copyout remove stream_url_query fuel t
      (concat (map encode (p :: ps)) ++ rest) = Ok (t', rest, wm) /\
    waiting t' new /\ bodies new = stream_bodies sps pps us /\ buffered t' xs' /\ sim t' = vp_sim p /\ running t' = 0.
Proof.
  intros [U1 U2 U3 [U4 U5] U6 U7] [Hps Hsets (l1 & l2 & l3 & us0 & us1 & tail & -> & Hd & Hg & Ht & Hno & Hroom & Hcut)] Hr Hw Hn Hf Hlen.
  apply Forall_cons_1 in Hps as [Hp Hps]. unfold stream_input_handler. rewrite (proj2 (Z.eqb_neq _ _) U7).
  assert (Hwm : exists wm t1, stream_set_wartermark (set_running t 1) = (wm, t1) /\ sim t1 = sim t /\ channel t1 = channel t /\
    store t1 = store t /\ cond t1 = cond t).
  { unfold stream_set_wartermark. destruct (_ =? 1); by eexists _, _. }
  destruct Hwm as (wm & t1 & -> & E1 & E2 & E3 & E4). destruct fuel as [| fuel]; [lia |]. cbn [input_loop].
  cbn [map concat] in *. rewrite <- app_assoc in *.
  assert (Hbs : Forall is_byte (concat (map encode ps) ++ rest)).
  { rewrite Forall_app. split; [| done]. apply Forall_concat, Forall_map. eapply Forall_impl; [exact Hps |].
    intros q Hq. by apply encode_byte, ca_wf. }
  destruct (media_video t1 p (concat (map encode ps) ++ rest) Hp Hbs) as [after ->]. rewrite Hd.
  set (t2 := latched t1 p).
  assert (L : sim t2 = vp_sim p /\ started (channel t2) = 0 /\ ch_buffer (channel t2) = ch_buffer (channel t) /\ store t2 = store t /\ cond t2 = cond t).
  { unfold t2, latched. rewrite E1, U1. cbn [Z.eqb]. change (2 ^ 64 - 1 =? 2 ^ 64 - 1) with true. cbn. by rewrite E2. }
  destruct L as (L1 & L2 & L3 & L4 & L5). rewrite length_app in Hn.
  destruct (proc_start alloc sizeof_packet alloc_ok sizeof_ok t2 l1 l2 l3 sps pps after us0 tail [] Hsets L2)
    as (t3 & new & -> & W3 & B3 & F3 & S3 & N3 & C3 & _ & T3 & cfg & G3 & G3'); try done.
  { unfold buffered. by rewrite L3. }
  { cbv zeta. rewrite L3, U4. by split. }
  { rewrite L3, U4. done. }
  { unfold waiting. by rewrite L4. }
  { cbn [length]. lia. }
  cbn [app] in W3. cbn [mbind res_bind]. pose proof (encode_length p (ca_wf p Hp)) as Hel.
  rewrite Z.gtb_ltb, (proj2 (Z.ltb_lt _ _)) by lia. rewrite remove_spec, Nat2Z.id, drop_app_length by lia.
  rewrite length_app in Hlen |- *.
  replace (Z.of_nat (length (encode p) + length (concat (map encode ps) ++ rest)) - Z.of_nat (length (encode p)))
    with (Z.of_nat (length (concat (map encode ps) ++ rest))) by lia.
  rewrite wrap_small by lia. rewrite C3, L5, (proj2 (Z.eqb_neq _ _) U7), andb_true_r, Z.gtb_ltb.
  assert (Hst : started_with B t3 tail new cfg).
  { split; [by rewrite S3 | done | by rewrite T3, L3 | done | done | by rewrite C3, L5 |].
    rewrite N3, L1. destruct (wf_sim p (ca_wf p Hp)). lia. }
  assert (Hn1 : (length new <= 1 + 2 * length us0)%nat).
  { apply (f_equal length) in B3. unfold bodies in B3. rewrite length_map in B3. rewrite B3. clear. cbn [length].
    apply le_n_S. induction us0 as [| u us1 IH]; [done |]. cbn [flat_map length]. rewrite length_app. unfold unit_bodies at 1.
    rewrite length_app. destruct (_ =? 5), (parameter_set _); cbn [length]; lia. }
  destruct (Z.ltb_spec 30 (Z.of_nat (length (concat (map encode ps) ++ rest)))) as [Hgt | Hle].
  - destruct (input_loop_video B fuel t3 ps rest tail us1 xs' new cfg) as (t4 & new2 & -> & W4 & B4 & N4); try done; [lia | lia | lia |].
    cbn [mbind res_bind]. exists (set_running t4 0), (new ++ new2), wm. split; [done |].
    destruct W4 as [_ W4b _ W4 _ _ _]. split_and!; [exact W4 | | exact W4b | cbn; congruence | done].
    unfold stream_bodies. rewrite flat_map_app. unfold bodies in *. by rewrite map_app, B3, B4, G3'.
  - destruct ps as [| p2 ps].
    + inversion Hcut; subst. cbn [map concat app mbind res_bind]. exists (set_running t3 0), new, wm. rewrite app_nil_r.
      split; [done |]. split_and!; [exact W3 | exact B3 | exact F3 | cbn; congruence | done].
    + exfalso. apply Forall_cons_1 in Hps as [Hp2 _]. pose proof (encode_length p2 (ca_wf p2 Hp2)). pose proof (ca_body p2 Hp2).
      cbn [map concat] in Hle. rewrite !length_app in Hle. lia.
Qed.
End video.

(** ** The whole way *)

Section whole.
Context {Q : Type} `{!PacketStore Q} (alloc : Z -> bool) (sizeof_packet : Z)
  (copyout : list Z -> Z -> option (list Z)) (remove : list Z -> Z -> list Z)
  (stream_url_query : PrivInfo Q -> Z -> Z -> res (PrivInfo Q))
  (copyout_spec : forall input n, 0 <= n -> copyout input n = Some (take (Z.to_nat n) input))
  (remove_spec : forall input n, 0 <= n -> remove input n = drop (Z.to_nat n) input)
  (query_spec : forall t s c, stream_url_query t s c = Ok t)
  (alloc_all : forall n, alloc n = true) (sizeof_ok : 0 <= sizeof_packet <= 2 ^ 16).
Context (lib : librtmp) {S : Type} (pfn_callback : S -> res S) (calloc_node : queue -> option Z)
  (network : world lib S -> list Z * Z) (alloc_ok dup_ok : world lib S -> bool)
  (s0 s1 : S) (Hcb : pfn_callback s0 = Ok s1)
  (Hcalloc : forall q, exists a, calloc_node q = Some a /\ fresh_address q a) (Hl : healthy lib alloc_ok dup_ok).

Abbreviation run := (run lib pfn_callback calloc_node network alloc_ok dup_ok).
Abbreviation all_calm := (always lib pfn_callback calloc_node network alloc_ok dup_ok (calm lib)).
Abbreviation sends := (sends lib pfn_callback calloc_node network alloc_ok dup_ok).

(** C1.  From the client's bytes to the RTMP connection.  The input is a run of whole video packets, the first of which
    starts with the two parameter sets, and then something that is not a whole packet.  The input handler consumes exactly
    the packets and adds packets whose bodies are the AVC sequence header and then the FLV tags of the complete units in
    order (each IDR unit after a sequence header).  In every interleaving of the connection's thread, the query's
    callback and the publishing thread in which the connection's thread has added the first of these, what librtmp was
    given so far are the first of those bodies, each once and in order, whatever the other threads did; they are all of
    them once everything was added, the list is empty and the thread holds no packet; and the connection is what it
    becomes by being given exactly these packets. *)
Theorem client_to_server (B : Z) (t : PrivInfo Q) (p : video_packet) (ps : list video_packet) (sps pps : list Z)
    (us : list (list Z * bool)) (xs' rest : list Z) (fuel : nat)
    (i : PrivInfo ()) (flow : Z) (q : queue) (acts : list action) (w : world lib S)
    (Ht : unnamed_stream B t) (Hv : client_video B p ps sps pps us xs')
    (Hrest : Forall is_byte rest) (Hw : ~ whole_packet rest) (Hn : 2 * Z.of_nat (length us) + 2 < INT_MAX)
    (Hf : (length ps + 1 < fuel)%nat) (Hlen : Z.of_nat (length (concat (map encode (p :: ps)) ++ rest)) < 2 ^ 63)
    (Hi : sim i = 2 ^ 64 - 1) (Hq : queue_ok q PNone [])
    (Hc : all_calm acts (registered lib i flow q s0)) (Hr : run acts (registered lib i flow q s0) = Some (Ok w)) :
  exists t' new wm,
    stream_input_handler alloc sizeof_packet H264.tima_h264_rtmp_create copyout remove stream_url_query fuel t
      (concat (map encode (p :: ps)) ++ rest) = Ok (t', rest, wm) /\
    waiting t' new /\ bodies new = stream_bodies sps pps us /\ sim t' = vp_sim p /\
    let sent := sends acts (registered lib i flow q s0) in
    (pushes acts `prefix_of` map package new -> map body sent `prefix_of` stream_bodies sps pps us) /\
    (forall n, stream w = Live n -> pushes acts = map package new -> pending lib w [] ->
       map body sent = stream_bodies sps pps us /\
       exists r0, link lib w = Some (foldl (fun r pkg => (RTMP_SendPacket lib r pkg).2) r0 sent)).
Proof.
  destruct (handler_video alloc sizeof_packet copyout remove stream_url_query copyout_spec remove_spec query_spec
    alloc_all sizeof_ok B t p ps sps pps us xs' rest fuel Ht Hv Hrest Hw Hn Hf Hlen) as (t' & new & wm & E & W & Hb & _ & Hs & _).
  exists t', new, wm. split_and!; [done .. |]. cbv zeta.
  pose proof (run_history lib pfn_callback calloc_node network alloc_ok dup_ok _ [] [] acts _ w (history_start _ _ _ _ _ _ _) Hc Hr) as H.
  pose proof (history_delivers lib pfn_callback calloc_node network alloc_ok dup_ok s0 s1 Hcb Hcalloc Hl i flow q _ _ w Hi Hq H) as D.
  cbn [app] in D. set (sent := sends acts _) in *.
  assert (Hbs : map body (map package new) = stream_bodies sps pps us) by (rewrite <- Hb; unfold bodies; by rewrite map_map).
  split.
  - intros [more Hp]. unfold delivering in D. rewrite <- Hbs, Hp.
    destruct (stream w); [destruct D as [(qs & _ & ->) _] | destruct D as [qs ->]];
      rewrite !map_app, <- app_assoc; by eexists.
  - intros n Hlive Hp Hpe. unfold delivering in D. rewrite Hlive in D. destruct D as [(qs & Hqs & Ep) Hca].
    destruct Hpe as (xs & Hok & Ex). symmetry in Ex. apply app_eq_nil in Ex as [Ex1 Ex2].
    rewrite (pending_fun lib w qs xs Hqs Hok), Ex1, Ex2 in Ep. cbn [app] in Ep. rewrite app_nil_r in Ep.
    split; [by rewrite <- Hbs, <- Hp, Ep |]. destruct Hca as [[_ E0] | [_ Hca]]; [| done].
    exfalso. rewrite E0 in Ep. rewrite Hp in Ep. rewrite Ep in Hbs. done.
Qed.
End whole.

(** ** A client *)

(** A library that records what it is given. *)
Definition recording : librtmp :=
  Librtmp (list RTMPPacket) [] (fun r _ => (true, r)) (fun r => r) (fun r => (true, r)) (fun r => (true, r))
    (fun r => r) (fun _ => true) (fun r pkg => (true, r ++ [pkg])) (fun _ => 1).

(** A store that is the list of its packets. *)
#[local] Instance list_store : PacketStore (list nal_node_t).
Proof.
  refine {| ps_create pkg size' cid' seq' q := Ok (Some 0, q ++ [MkNode cid' seq' size' pkg]); ps_add _ q := Ok q;
            ps_waiting q ns := q = ns |}.
  intros q ns pkg size' cid' seq' -> _. by eexists _, _, _.
Defined.

Definition sample_packet (body : list Z) : video_packet := VideoPacket 0x81 0xe2 [0; 1] 13800138000 2 0x10 (replicate 12 0) body.

Definition sample_first : video_packet :=
  sample_packet (stream_header true false true sample_sps sample_pps ++ [0x41; 2; 0; 0; 1; 0x41; 3]).
Definition sample_second : video_packet := sample_packet [0; 0; 1; 0x65; 4].

Definition sample_client : PrivInfo (list nal_node_t) :=
  MkPriv (2 ^ 64 - 1) (MkChannel 0 (MkBuffer (Some (replicate 65 (Some 0))) 0 64) 0 (Meta 0 [])) 0 0 0 1 0 [].

Definition sample_input : list Z := concat (map encode [sample_first; sample_second]) ++ [0x30].

Definition sample_handled : res (PrivInfo (list nal_node_t) * list Z * bool) :=
  stream_input_handler (fun _ => true) 64 H264.tima_h264_rtmp_create take_front drop_front (fun t _ _ => Ok t) 3 sample_client sample_input.

Definition sample_pushes : list action :=
  match sample_handled with Ok (t, _, _) => map (fun n => APush (package n)) (store t) | _ => [] end.

(** The packets are added while the address arrives, and then sent. *)
Definition sample_acts : list action :=
  [AReadBegin; AQuery 13800138000 2] ++ take 2 sample_pushes ++ [AQueryReturn 0 (chars "/live/1"); AConnect; ATest; AStarted; ATake] ++
  drop 2 sample_pushes ++ [ASend 7; ATest; AReadEnd; ATake; ASend 8; ATest; ATake; ASend 9; ATest; ATake].

Lemma sample_carries b : (1 <= length b <= 950)%nat -> Forall is_byte b -> carries (sample_packet b).
Proof.
  intros Hl Hb. split; [| exact Hl | split; discriminate]. split; cbn -[Z.pow]; try by_decide; try done; unfold is_byte; lia.
Qed.

Lemma sample_client_ok : unnamed_stream 64 sample_client.
Proof.
  split; try done. split_and!; [eexists; split; [done |]; split; [apply blk_holds_nil | done] | | split; discriminate].
  eexists. split; [done |]. by exists (replicate 64 (Some 0)).
Qed.

Lemma sample_video_ok :
  client_video 64 sample_first [sample_second] sample_sps sample_pps ([([0x41; 2], false)] ++ [([0x41; 3], false)] ++ []) [0x65; 4].
Proof.
  split; [constructor; [| constructor; [| constructor]]; (apply sample_carries; [cbn; lia | by_decide]) | exact sample_sets |].
  exists true, false, true, [([0x41; 2], false)], ([([0x41; 3], false)] ++ []), [0x41; 3]. split; [done |].
  split_and!; [done | constructor; [exact sample_unit | constructor] | done | intros k Hk; cbn in Hk; lia | cbn; lia |].
  cbn [map]. apply (cut_chunk 64 [0x41; 3] [0; 0; 1; 0x65; 4] [] [([0x41; 3], false)] [] [0x65; 4] [0x65; 4]); try done.
  - constructor; [| constructor]. split_and!; [split; [done | by exists 3] | cbn; lia | cbn; lia].
  - intros k Hk; cbn in Hk; lia.
  - constructor.
Qed.

Lemma drained {lib S} (w : world lib S) :
  ring (mem (packets w)) (nalu_head (packets w)) [] -> list_size (packets w) = 0 -> pkts (packets w) = ∅ ->
  held (thread w) = None -> pending lib w [].
Proof.
  intros Hr Hs Hp Hh. exists []. unfold held_package. rewrite Hh. split; [| done].
  split; [split; [done | constructor | done] | done | by rewrite Hh |].
  intros a. rewrite Hp, lookup_empty, Hh. split; [by intros [? ?] |]. by intros [?%not_elem_of_nil | ?].
Qed.

Lemma client_to_server_witness :
  exists w, run recording leaves fresh_node (fun _ => (chars "10.0.0.1", 1935)) (fun _ => true) (fun _ => true) sample_acts
      (sample_world recording) = Some (Ok w) /\
    map body (sends recording leaves fresh_node (fun _ => (chars "10.0.0.1", 1935)) (fun _ => true) (fun _ => true) sample_acts
      (sample_world recording)) = [avc_config sample_sps sample_pps; h264_tag [0x41; 2]; h264_tag [0x41; 3]].
Proof.
  eexists. split; [vm_compute; reflexivity |].
  destruct (client_to_server (fun _ => true) 64 take_front drop_front (fun t _ _ => Ok t) (fun _ _ _ => eq_refl) (fun _ _ _ => eq_refl)
    (fun _ _ _ => eq_refl) (fun _ => eq_refl) ltac:(lia) recording leaves fresh_node (fun _ => (chars "10.0.0.1", 1935))
    (fun _ => true) (fun _ => true) 5 4 eq_refl fresh_node_ok
    ltac:(split; [intros ?; reflexivity | intros ? ?; reflexivity | reflexivity | reflexivity])
    64 sample_client sample_first [sample_second] sample_sps sample_pps _ [0x65; 4] [0x30] 3 sample_info 1 empty_queue sample_acts _
    sample_client_ok sample_video_ok ltac:(by_decide) ltac:(intros [H _]; discriminate H) ltac:(cbn; unfold INT_MAX; lia)
    ltac:(cbn; lia) ltac:(vm_compute; reflexivity) eq_refl (sample_queue_ok PNone eq_refl)
    ltac:(vm_compute; repeat split; discriminate) ltac:(vm_compute; reflexivity)) as (t' & new & wm & E & W & _ & _ & _ & H).
  edestruct H as [Hs _]; [reflexivity | | |].
  - assert (Es : sample_handled = Ok (t', [0x30], wm)) by exact E. cbn in W. rewrite <- W. clear - Es.
    assert (pushes sample_acts = match sample_handled with Ok (t, _, _) => map package (store t) | _ => [] end) as -> by (vm_compute; reflexivity).
    by rewrite Es.
  - apply drained; [split; [by_decide | vm_compute; repeat split] | vm_compute; reflexivity..].
  - exact Hs.
Defined.
