(* ===== verification/Server.v ===== *)
(** * Accepting connections

    [mw/server/server_listener.c] and the server part of [bll/bll_core.c]: the listener's thread takes
    a connection, chooses one of the stream servers by a hash of the descriptor and sends the
    connection as bytes through the server's bufferevent pair; the server's thread reads it back and
    starts a stream for it.  The threads of the servers share the core's counter of streams, and a stream may end in any thread:
    nothing locks the counters, so each access of one is a step of its own.  The layout of the structure that is sent is a parameter. *)

From S2P Require Import Prelude.

Definition AF_INET : Z := 2.
Definition AF_INET6 : Z := 10.

(** The union of socket addresses: its family, its address and its port in network order. *)
Record vpk_sockaddr := MkAddr {
  sa_family : Z;
  sin_addr : list Z;
  sin6_addr : list Z;
  sin_port : list Z
}.

Definition known_family (a : vpk_sockaddr) : bool := (sa_family a =? AF_INET) || (sa_family a =? AF_INET6).

Definition vpk_sockaddr_get_addr (a : vpk_sockaddr) : option (list Z) :=
  if negb (known_family a) then None
  else if sa_family a =? AF_INET6 then Some (sin6_addr a) else Some (sin_addr a).

(** The port is at the same place in both structures. *)
Definition vpk_sockaddr_get_port (a : vpk_sockaddr) : Z :=
  if negb (known_family a) then 0xFFFF
  else Z.lor (Z.shiftl (nth 0 (sin_port a) 0) 8) (nth 1 (sin_port a) 0).

(** [inet_ntop] is the C library's: [ntop] is the text, or [None] with [errno]. *)
Definition vpk_inet_ntop (ntop : Z -> list Z -> Z -> option (list Z)) (errno : Z) (af : Z)
    (src : option (list Z)) (size : Z) : Z * option (list Z) :=
  match src with
  | None => (-1, None)
  | Some src =>
      if size =? 0 then (-1, None)
      else if negb ((af =? AF_INET) || (af =? AF_INET6)) then (-2, Some [])
      else match ntop af src size with
           | None => ((if errno =? 0 then -3 else errno), Some [])
           | Some text => (0, Some text)
           end
  end.

Definition hash_int32 (a : Z) : Z :=
  let a := Z.lxor a (Z.shiftr a 4) in
  let a := u32 (Z.lxor a 0xdeadbeef + u32 (Z.shiftl a 5)) in
  Z.lxor a (Z.shiftr a 11).

Record vmp_socket_t := MkSocket {
  peer_addr : vpk_sockaddr;
  fd : Z;
  sock_base : Z;            (* event_base of the stream server *)
  sock_e : Z
}.

Definition VMP_STREAM_JT1078 : Z := 2.

Record vmp_connection_t := MkConn { conn_t : Z; stream_server : Z; sock : vmp_socket_t }.

(** A stream server; [pipe] is what its bufferevent pair holds, [None] before [setup_server]. *)
Record vmp_server_t := MkServer {
  id : Z;
  core : Z;
  event_base : Z;
  e : Z;
  pipe : option (list Z);
  client_cnt : Z
}.

(** The request a stream is started with. *)
Record H264StreamReq := MkReq { req_flowid : Z; req_e : Z; req_client : vmp_socket_t; req_s : Z }.

Definition MAX_STREAM_SERVER_NUM : Z := 8.

(** Where the thread of a server is in [handle_message]: before it reads [flowid], before it writes it with the value read; the
    same for the count of the server; before it starts the stream. *)
Inductive handling : Type := HFlow | HFlowAdd (f : Z) | HCount | HCountAdd (n : Z) | HStart.

(** [service] is the context's launcher (its event base), [flowid] the core's counter, [streams] the
    requests of the streams started, [closed_fds] the descriptors closed without a stream; [relaying] has what the
    thread of each server handles, [releasing] the threads inside [handle_message_callback], with their server and the count they read. *)
Record world := MkWorld {
  service : option Z;
  flowid : Z;
  servers : list vmp_server_t;
  streams : list H264StreamReq;
  closed_fds : list Z;
  relaying : gmap nat (vmp_socket_t * handling);
  releasing : gmap nat (nat * Z)
}.

Section code.
Context (sizeof_conn : nat) (encode : vmp_connection_t -> list Z) (decode : list Z -> vmp_connection_t).
(** The core's [PrivInfo], the address of the launcher, and whether [on_connect] is set. *)
Context (core_addr e_addr : Z) (on_connect : bool).

Definition set_pipe (s : vmp_server_t) (p : option (list Z)) : vmp_server_t :=
  MkServer (id s) (core s) (event_base s) (e s) p (client_cnt s).
Definition set_cnt (s : vmp_server_t) (n : Z) : vmp_server_t :=
  MkServer (id s) (core s) (event_base s) (e s) (pipe s) n.
Definition set_server (w : world) (i : nat) (s : vmp_server_t) : world :=
  MkWorld (service w) (flowid w) (<[i := s]> (servers w)) (streams w) (closed_fds w) (relaying w) (releasing w).
Definition set_flowid (w : world) (f : Z) : world :=
  MkWorld (service w) f (servers w) (streams w) (closed_fds w) (relaying w) (releasing w).
Definition set_relaying (w : world) (r : gmap nat (vmp_socket_t * handling)) : world :=
  MkWorld (service w) (flowid w) (servers w) (streams w) (closed_fds w) r (releasing w).
Definition set_releasing (w : world) (r : gmap nat (nat * Z)) : world :=
  MkWorld (service w) (flowid w) (servers w) (streams w) (closed_fds w) (relaying w) r.
Definition add_stream (w : world) (r : H264StreamReq) : world :=
  MkWorld (service w) (flowid w) (servers w) (streams w ++ [r]) (closed_fds w) (relaying w) (releasing w).

(** The servers as [stream_server_general] creates them: [id] is an [unsigned char]. *)
Definition stream_server_general (num : nat) : list vmp_server_t :=
  map (fun i => MkServer (u8 (Z.of_nat i + 1)) 0 0 0 None 0) (seq 0 num).

Definition vmp_stream_service_create (base : option Z) (new_base : Z) : Z :=
  match base with Some b => b | None => new_base end.

(** [init_server]: the context's service is created once. *)
Definition init_server (new_base : Z) (w : world) : world :=
  match service w with
  | Some _ => w
  | None => MkWorld (Some (vmp_stream_service_create (Some new_base) 0)) (flowid w) (servers w) (streams w) (closed_fds w) (relaying w) (releasing w)
  end.

(** [setup_server] for server [i]; [base] is the base given ([None] for NULL), [new_base] what
    [event_base_new] returns for the service. *)
Definition setup_server (i : nat) (base : option Z) (new_base : Z) (w : world) : res world :=
  let w := init_server new_base w in
  s ← of_option (servers w !! i);
  b ← of_option (match base with Some b => Some b | None => service w end);
  Ok (set_server w i (MkServer (id s) core_addr b e_addr (Some []) (client_cnt s))).

(** [stream_server_setup]: a server without a base gets a new one. *)
Definition stream_server_setup (i : nat) (base : option Z) (fresh_base new_base : Z) (w : world) : res world :=
  setup_server i (Some (match base with Some b => b | None => fresh_base end)) new_base w.

(** [add_ok]: whether [evbuffer_add] succeeds.  The pair of a server that is not set up is NULL. *)
Definition send_socket_to_core (add_ok : bool) (sm : vmp_connection_t) (i : nat) (w : world) : res (Z * world) :=
  s ← of_option (servers w !! i);
  let conn := MkConn VMP_STREAM_JT1078 (stream_server sm) (sock sm) in
  p ← of_option (pipe s);
  if add_ok then Ok (0, set_server w i (set_pipe s (Some (p ++ encode conn)))) else Ok (-1, w).

Definition server_index (fd' : Z) : nat := Z.to_nat (hash_int32 (u32 fd') mod MAX_STREAM_SERVER_NUM).

Definition server_accept_handler (add_ok : bool) (fd' : Z) (address : vpk_sockaddr) (w : world) : res world :=
  if negb on_connect then
    Ok (MkWorld (service w) (flowid w) (servers w) (streams w) (closed_fds w ++ [fd']) (relaying w) (releasing w))
  else
    let index := server_index fd' in
    server ← of_option (servers w !! index);
    let conn := MkConn 0 (Z.of_nat index) (MkSocket address fd' (event_base server) (e server)) in
    '(_, w) ← send_socket_to_core add_ok conn index w;
    Ok w.

(** [handle_message] from one access of a counter to the next: [thiz->flowid++], [ss->client_cnt++], then the request, with
    [thiz->flowid] read once more, and the start of the stream.  [None] when it has returned. *)
Definition handle_message (i : nat) (sck : vmp_socket_t) (k : handling) (w : world) : res (option handling * world) :=
  ss ← of_option (servers w !! i);
  match k with
  | HFlow => Ok (Some (HFlowAdd (flowid w)), w)
  | HFlowAdd f => Ok (Some HCount, set_flowid w (u64 (f + 1)))
  | HCount => Ok (Some (HCountAdd (client_cnt ss)), w)
  | HCountAdd n => Ok (Some HStart, set_server w i (set_cnt ss (u32 (n + 1))))
  | HStart => Ok (None, add_stream w (MkReq (flowid w) (e ss) sck (Z.of_nat i)))
  end.

(** [evbuffer_remove(input, &session, sizeof(vmp_connection_t))] *)
Definition evbuffer_remove (input : list Z) : Z * list Z * list Z :=
  let got := take sizeof_conn input in (Z.of_nat (length got), got, drop sizeof_conn input).

(** A turn of the loop of [relay_receive_message]: a message is read and handled from then on, a part of one is dropped. *)
Definition relay_receive_message (i : nat) (w : world) : res world :=
  ss ← of_option (servers w !! i);
  input ← of_option (pipe ss);
  let '(n, session, input) := evbuffer_remove input in
  if n >? 0 then
    let w := set_server w i (set_pipe ss (Some input)) in
    if negb (n =? Z.of_nat sizeof_conn) then Ok w
    else Ok (set_relaying w (<[i := (sock (decode session), HFlow)]> (relaying w)))
  else Ok w.

(** What the thread of server [i] does next. *)
Definition relay_step (i : nat) (w : world) : res world :=
  match relaying w !! i with
  | None => relay_receive_message i w
  | Some (sck, k) =>
      '(k, w) ← handle_message i sck k w;
      Ok (set_relaying w (match k with Some k => <[i := (sck, k)]> (relaying w) | None => delete i (relaying w) end))
  end.

(** [handle_message_callback] in thread [c]: a stream of server [i] is gone.  [client_cnt--] is a read and a write. *)
Definition handle_message_callback (c i : nat) (msg : Z) (w : world) : res (Z * world) :=
  if negb (msg =? 0) then Ok (-1, w) else
  ss ← of_option (servers w !! i);
  Ok (0, set_releasing w (<[c := (i, client_cnt ss)]> (releasing w))).

Definition write_count (c i : nat) (n : Z) (w : world) : res world :=
  ss ← of_option (servers w !! i);
  Ok (set_releasing (set_server w i (set_cnt ss (u32 (n - 1)))) (delete c (releasing w))).

(** ** Orders of events *)

Inductive event : Type :=
| Setup (i : nat) (fresh_base new_base : Z)
| Accept (add_ok : bool) (fd' : Z) (address : vpk_sockaddr)
| Relay (i : nat)
| Closed (c i : nat) | Counted (c : nat).

(** [None] where the thread cannot do this. *)
Definition happen (ev : event) (w : world) : option (res world) :=
  match ev with
  | Setup i b n => Some (stream_server_setup i None b n w)
  | Accept ok f a => Some (server_accept_handler ok f a w)
  | Relay i => Some (relay_step i w)
  | Closed c i => match releasing w !! c with None => Some (snd <$> handle_message_callback c i 0 w) | Some _ => None end
  | Counted c => match releasing w !! c with Some (i, n) => Some (write_count c i n w) | None => None end
  end.

Fixpoint happens (evs : list event) (w : world) : option (res world) :=
  match evs with
  | [] => Some (Ok w)
  | ev :: evs => match happen ev w with Some (Ok w) => happens evs w | r => r end
  end.

(** The threads that are between two accesses of the counters, and runs in which there is never more than one. *)
Definition busy (w : world) : nat := base.size (relaying w) + base.size (releasing w).

Fixpoint one_at_a_time (evs : list event) (w : world) : Prop :=
  match evs with
  | [] => True
  | ev :: evs => match happen ev w with Some (Ok w) => (busy w <= 1)%nat /\ one_at_a_time evs w | _ => True end
  end.

Definition start_world : world :=
  MkWorld None 0 (stream_server_general (Z.to_nat MAX_STREAM_SERVER_NUM)) [] [] ∅ ∅.

(** The listener's thread sets the service up before it creates the servers. *)
Definition listening_world (base : Z) : world := init_server base start_world.
End code.

(** ** Every accepted connection becomes one stream *)

(** A connection as it is accepted: its descriptor and the client's address. *)
Definition accepted (k : nat) (evs : list event) : list (Z * vpk_sockaddr) :=
  omap (fun ev => match ev with
                  | Accept true f a => if decide (server_index f = k) then Some (f, a) else None
                  | _ => None end) evs.

Definition handled (k : nat) (l : list H264StreamReq) : list (Z * vpk_sockaddr) :=
  omap (fun r => if decide (req_s r = Z.of_nat k) then Some (fd (req_client r), peer_addr (req_client r)) else None) l.

Definition gone (k : nat) (evs : list event) : list () :=
  omap (fun ev => match ev with Closed _ i => if decide (i = k) then Some () else None | _ => None end) evs.

Definition setups (evs : list event) : list nat :=
  omap (fun ev => match ev with Setup i _ _ => Some i | _ => None end) evs.

Lemma server_index_lt f : (server_index f < 8)%nat.
Proof. unfold server_index. pose proof (Z.mod_pos_bound (hash_int32 (u32 f)) 8). unfold MAX_STREAM_SERVER_NUM. lia. Qed.

Section dispatch.
Context (sizeof_conn : nat) (encode : vmp_connection_t -> list Z) (decode : list Z -> vmp_connection_t)
  (core_addr e_addr : Z)
  (Hsize : (0 < sizeof_conn)%nat)
  (Hlen : forall c, length (encode c) = sizeof_conn)
  (Hdec : forall c, decode (encode c) = c).

Abbreviation happen := (happen sizeof_conn encode decode core_addr e_addr true).
Abbreviation happens := (happens sizeof_conn encode decode core_addr e_addr true).
Abbreviation one_at_a_time := (one_at_a_time sizeof_conn encode decode core_addr e_addr true).
Abbreviation relay_step := (relay_step sizeof_conn decode).
Implicit Types (w : world) (s : vmp_server_t).

Definition conn_of (sck : vmp_socket_t) : Z * vpk_sockaddr := (fd sck, peer_addr sck).

(** What the thread of a server handles. *)
Definition in_hand (k : nat) w : list vmp_socket_t := match relaying w !! k with Some (sck, _) => [sck] | None => [] end.

(** What server [k] holds: the connections [cs] not read yet, after the one in hand and those handled before. *)
Record srv_ok (evs : list event) w (k : nat) s (cs : list vmp_connection_t) : Prop := {
  so_pipe : pipe s = if decide (k ∈ setups evs) then Some (concat (map encode cs)) else None;
  so_none : k ∉ setups evs -> cs = [] /\ relaying w !! k = None;
  so_all : handled k (streams w) ++ map conn_of (in_hand k w ++ map sock cs) = accepted k evs
}.

Record inv (evs : list event) w : Prop := {
  inv_length : length (servers w) = 8%nat;
  inv_there : forall k, is_Some (relaying w !! k) -> (k < 8)%nat;
  inv_servers k s : servers w !! k = Some s -> exists cs, srv_ok evs w k s cs
}.

Lemma u_add n a b : 0 <= n -> wrap n (wrap n a + b) = wrap n (a + b).
Proof. intros. unfold wrap. by rewrite Zplus_mod_idemp_l. Qed.

Lemma handled_other k l r : req_s r <> Z.of_nat k -> handled k (l ++ [r]) = handled k l.
Proof. intros H. unfold handled. rewrite omap_app. cbn. rewrite decide_False by done. by rewrite app_nil_r. Qed.

Lemma handled_own k l f e' sck :
  handled k (l ++ [MkReq f e' sck (Z.of_nat k)]) = handled k l ++ [conn_of sck].
Proof. unfold handled. rewrite omap_app. cbn. by rewrite decide_True. Qed.

(** A step that concerns server [k] only. *)
Lemma inv_at evs evs' w w' k s cs :
  inv evs w -> length (servers w') = 8%nat -> (forall j, is_Some (relaying w' !! j) -> (j < 8)%nat) ->
  servers w' !! k = Some s -> srv_ok evs' w' k s cs ->
  (forall j, j <> k -> servers w' !! j = servers w !! j /\ relaying w' !! j = relaying w !! j /\ handled j (streams w') = handled j (streams w) /\
     accepted j evs' = accepted j evs /\ (j ∈ setups evs' <-> j ∈ setups evs)) ->
  inv evs' w'.
Proof.
  intros [H1 H2 H4] Hl Ht Hk Hs Ho. split; [done | done |]. intros j s' Hj. destruct (decide (j = k)) as [-> | Hne].
  - exists cs. congruence.
  - destruct (Ho j Hne) as (E1 & E2 & E3 & E4 & E5). rewrite E1 in Hj. destruct (H4 j s' Hj) as [cs' [P N A]]. exists cs'.
    split; unfold in_hand in *; rewrite ?E2, ?E3, ?E4; try done.
    + rewrite P. destruct (decide (j ∈ setups evs)), (decide (j ∈ setups evs')); tauto.
    + intros Hx. apply N. tauto.
Qed.

Lemma inv_same evs ev w w' :
  (forall k, accepted k [ev] = [] /\ k ∉ setups [ev]) -> relaying w' = relaying w -> streams w' = streams w -> length (servers w') = length (servers w) ->
  (forall k s', servers w' !! k = Some s' -> exists s, servers w !! k = Some s /\ pipe s' = pipe s) ->
  inv evs w -> inv (evs ++ [ev]) w'.
Proof.
  intros He E1 E2 E3 E4 [H1 H2 H3]. split; [congruence | by rewrite E1 |]. intros k s' Hk. destruct (E4 k s' Hk) as (s & Hs & Ep).
  destruct (H3 k s Hs) as [cs [P N A]]. exists cs. destruct (He k) as [Ha Hx].
  assert (X : k ∈ setups (evs ++ [ev]) <-> k ∈ setups evs) by (unfold setups in *; rewrite omap_app; set_solver).
  split; unfold in_hand in *; rewrite ?E1, ?E2; [| intros Hn; apply N; tauto |].
  - rewrite Ep, P. destruct (decide (k ∈ setups evs)), (decide (k ∈ setups (evs ++ [ev]))); tauto.
  - unfold accepted in *. by rewrite omap_app, Ha, app_nil_r.
Qed.

(** The thread of server [k] has moved on. *)
Lemma moved evs w k s w' s' cs' : inv evs w -> servers w !! k = Some s -> servers w' = <[k := s']> (servers w) ->
  (forall j, j <> k -> relaying w' !! j = relaying w !! j) -> (forall j, j <> k -> handled j (streams w') = handled j (streams w)) ->
  srv_ok evs w' k s' cs' -> inv evs w' /\ servers w' !! k = Some s'.
Proof.
  intros Hi Hk E1 E2 E3 Hs. pose proof (lookup_lt_Some _ _ _ Hk) as Hlt. pose proof Hlt as Hlt'. rewrite (inv_length _ _ Hi) in Hlt'.
  assert (F : servers w' !! k = Some s') by (rewrite E1; by apply list_lookup_insert_eq). split; [| done].
  eapply (inv_at evs evs w w' k s' cs'); try done.
  - rewrite E1, length_insert. apply Hi.
  - intros j Hj. destruct (decide (j = k)) as [-> |]; [done |]. rewrite E2 in Hj by done. by apply Hi.
  - intros j Hj. rewrite E1, list_lookup_insert_ne by done. auto.
Qed.

(** The next place of the thread that handles a connection. *)
Definition next_place w s (sck : vmp_socket_t) (h : handling) : option (vmp_socket_t * handling) :=
  match h with
  | HFlow => Some (sck, HFlowAdd (flowid w)) | HFlowAdd _ => Some (sck, HCount)
  | HCount => Some (sck, HCountAdd (client_cnt s)) | HCountAdd _ => Some (sck, HStart) | HStart => None
  end.

(** A step in the middle of [handle_message]. *)
Lemma handle_inv evs w k s cs sck h : inv evs w -> servers w !! k = Some s -> k ∈ setups evs -> srv_ok evs w k s cs -> relaying w !! k = Some (sck, h) ->
  exists w' s', relay_step k w = Ok w' /\ inv evs w' /\ servers w' !! k = Some s' /\ srv_ok evs w' k s' cs /\ relaying w' !! k = next_place w s sck h.
Proof.
  intros Hi Hk Hset Hs Er. pose proof Hs as [P N A]. rewrite decide_True in P by done. unfold in_hand in A. rewrite Er in A. cbn [app map] in A.
  assert (G : forall w' s' h', servers w' = <[k := s']> (servers w) -> pipe s' = pipe s -> streams w' = streams w -> relaying w' = <[k := (sck, h')]> (relaying w) ->
    inv evs w' /\ servers w' !! k = Some s' /\ srv_ok evs w' k s' cs /\ relaying w' !! k = Some (sck, h')).
  { intros w' s' h' E1 E2 E3 E4. assert (S : srv_ok evs w' k s' cs).
    { split; unfold in_hand; rewrite ?E2, ?E3, ?E4, ?lookup_insert_eq, ?decide_True by done; done. }
    destruct (moved evs w k s w' s' cs Hi Hk E1) as [? ?]; [| by rewrite E3 | done |].
    - intros j Hj. by rewrite E4, lookup_insert_ne.
    - split_and!; try done. by rewrite E4, lookup_insert_eq. }
  unfold Server.relay_step. rewrite Er. unfold handle_message. rewrite Hk. cbn [of_option mbind res_bind].
  destruct h; cbn [mbind res_bind next_place].
  - eexists _, s. split; [done |]. apply G; cbn; try done. by rewrite list_insert_id.
  - eexists _, s. split; [done |]. apply G; cbn; try done. by rewrite list_insert_id.
  - eexists _, s. split; [done |]. apply G; cbn; try done. by rewrite list_insert_id.
  - eexists _, _. split; [done |]. by apply G.
  - eexists _, s. split; [done |]. match goal with |- inv _ ?w' /\ _ => assert (S : srv_ok evs w' k s cs) end.
    { split; unfold in_hand; cbn [set_relaying add_stream relaying streams]; rewrite ?lookup_delete_eq, ?decide_True by done; try done. rewrite handled_own, <- A, <- app_assoc. done. }
    match goal with |- inv _ ?w' /\ _ => destruct (moved evs w k s w' s cs Hi Hk) as [? ?] end; cbn; try done.
    + by rewrite list_insert_id.
    + intros j Hj. by rewrite lookup_delete_ne.
    + intros j Hj. apply handled_other. cbn. lia.
    + split_and!; try done. apply lookup_delete_eq.
Qed.

(** The thread takes the next connection. *)
Lemma take_inv evs w k s c cs : inv evs w -> servers w !! k = Some s -> k ∈ setups evs -> srv_ok evs w k s (c :: cs) -> relaying w !! k = None ->
  exists w' s', relay_step k w = Ok w' /\ inv evs w' /\ servers w' !! k = Some s' /\ srv_ok evs w' k s' cs /\ relaying w' !! k = Some (sock c, HFlow).
Proof.
  intros Hi Hk Hset Hs Er. pose proof Hs as [P N A]. rewrite decide_True in P by done. unfold in_hand in A. rewrite Er in A. cbn [app map] in A.
  unfold Server.relay_step. rewrite Er. unfold relay_receive_message. rewrite Hk. cbn [of_option mbind res_bind]. rewrite P. cbn [of_option mbind res_bind map concat].
  unfold evbuffer_remove. rewrite take_app_ge, drop_app_ge by (rewrite Hlen; lia). rewrite Hlen, Nat.sub_diag, take_0, drop_0, app_nil_r, Hlen.
  rewrite (proj2 (Z.gtb_lt _ _)), Z.eqb_refl by lia. cbn [negb]. rewrite Hdec. eexists _, _. split; [done |].
  set (s1 := set_pipe s (Some (concat (map encode cs)))).
  match goal with |- inv _ ?w' /\ _ => assert (S : srv_ok evs w' k s1 cs) end.
  { split; unfold in_hand; cbn; rewrite ?lookup_insert_eq, ?decide_True by done; done. }
  match goal with |- inv _ ?w' /\ _ => destruct (moved evs w k s w' s1 cs Hi Hk) as [? ?] end; cbn; try done.
  - intros j Hj. by rewrite lookup_insert_ne.
  - split_and!; try done. apply lookup_insert_eq.
Qed.

Lemma here evs w k : inv evs w -> k ∈ setups evs -> (k < 8)%nat -> exists s cs, servers w !! k = Some s /\ srv_ok evs w k s cs.
Proof.
  intros Hi Hset Hk. destruct (lookup_lt_is_Some_2 (servers w) k) as [s Hs]; [by rewrite (inv_length _ _ Hi) |].
  destruct (inv_servers _ _ Hi k s Hs) as [cs ?]. by exists s, cs.
Qed.

(** The thread of a server has nothing to do. *)
Lemma idle_step evs w k s : inv evs w -> servers w !! k = Some s -> k ∈ setups evs -> srv_ok evs w k s [] -> relaying w !! k = None -> relay_step k w = Ok w.
Proof.
  intros Hi Hk Hset [P _ _] Er. rewrite decide_True in P by done. unfold Server.relay_step. rewrite Er. unfold relay_receive_message.
  rewrite Hk. cbn [of_option mbind res_bind]. rewrite P. cbn [of_option mbind res_bind map concat]. unfold evbuffer_remove. by rewrite take_nil.
Qed.

Lemma happens_app evs1 evs2 w w1 : happens evs1 w = Some (Ok w1) -> happens (evs1 ++ evs2) w = happens evs2 w1.
Proof.
  revert w; induction evs1 as [| ev evs1 IH]; intros w; cbn [Server.happens app]; [by intros [= ->] |].
  destruct (happen ev w) as [[w2 | |] |]; try done. apply IH.
Qed.

(** Alone, the thread of a server handles all that was sent to it. *)
Definition gets_there evs k w : Prop :=
  exists n w', happens (replicate n (Relay k)) w = Some (Ok w') /\ handled k (streams w') = accepted k evs.

Lemma there_step evs k w w1 : relay_step k w = Ok w1 -> gets_there evs k w1 -> gets_there evs k w.
Proof. intros E (n & w' & H). exists (S n), w'. cbn [replicate Server.happens Server.happen]. by rewrite E. Qed.

Definition rank (h : handling) : nat := match h with HFlow => 4 | HFlowAdd _ => 3 | HCount => 2 | HCountAdd _ => 1 | HStart => 0 end.

(** It ends what it has in hand. *)
Lemma there_hand evs k cs d : k ∈ setups evs ->
  (forall w s, inv evs w -> servers w !! k = Some s -> srv_ok evs w k s cs -> relaying w !! k = None -> gets_there evs k w) ->
  forall w s sck h, rank h = d -> inv evs w -> servers w !! k = Some s -> srv_ok evs w k s cs -> relaying w !! k = Some (sck, h) -> gets_there evs k w.
Proof.
  intros Hset Hend. induction d as [| d IH]; intros w s sck h Hd Hi Hk Hs Er;
    destruct (handle_inv evs w k s cs sck h Hi Hk Hset Hs Er) as (w' & s' & E & Hi' & Hk' & Hs' & Er'); apply (there_step evs k w w' E).
  - destruct h; try done. by apply (Hend w' s').
  - destruct h; try done; cbn [next_place] in Er'; (eapply IH; [| exact Hi' | exact Hk' | exact Hs' | exact Er']); cbn in *; lia.
Qed.

Lemma there evs k cs : k ∈ setups evs -> forall w s, inv evs w -> servers w !! k = Some s -> srv_ok evs w k s cs -> gets_there evs k w.
Proof.
  intros Hset.
  assert (G : forall w s, inv evs w -> servers w !! k = Some s -> srv_ok evs w k s cs -> relaying w !! k = None -> gets_there evs k w).
  { induction cs as [| c cs IH]; intros w s Hi Hk Hs Er.
    - exists 0%nat, w. split; [done |]. rewrite <- (so_all _ _ _ _ _ Hs). unfold in_hand. by rewrite Er, app_nil_r.
    - destruct (take_inv evs w k s c cs Hi Hk Hset Hs Er) as (w' & s' & E & Hi' & Hk' & Hs' & Er'). apply (there_step evs k w w' E).
      by apply (there_hand evs k cs 4 Hset IH w' s' (sock c) HFlow). }
  intros w s Hi Hk Hs. destruct (relaying w !! k) as [[sck h] |] eqn:Er; [| by apply (G w s)].
  by apply (there_hand evs k cs (rank h) Hset G w s sck h).
Qed.

(** ** Every event keeps the connections *)

Lemma inv_setup evs i b n w w' :
  inv evs w -> i ∉ setups evs -> happen (Setup i b n) w = Some (Ok w') -> inv (evs ++ [Setup i b n]) w'.
Proof.
  intros Hi Hn. cbn [Server.happen]. unfold stream_server_setup, setup_server.
  assert (Hi' : inv evs (init_server n w)) by (unfold init_server; destruct (service w); [done | destruct Hi; split; try done; intros k s Hk; destruct (inv_servers0 k s Hk) as [cs []]; by exists cs]).
  set (v := init_server n w) in *. clearbody v.
  destruct (servers v !! i) as [s |] eqn:Hs; [| done]. cbn [of_option mbind res_bind]. intros [= <-].
  destruct (inv_servers _ _ Hi' i s Hs) as [cs [P N A]]. destruct (N Hn) as [-> Er]. unfold in_hand in A. rewrite Er in A.
  assert (X : forall j, j ∈ setups (evs ++ [Setup i b n]) <-> j ∈ setups evs \/ j = i) by (intros j; unfold setups; rewrite omap_app; set_solver).
  assert (Y : forall j, accepted j (evs ++ [Setup i b n]) = accepted j evs) by (intros j; unfold accepted; by rewrite omap_app, app_nil_r).
  pose proof (lookup_lt_Some _ _ _ Hs) as Hlt.
  eapply (inv_at evs _ v _ i _ []); cbn [set_server servers relaying streams]; [done | rewrite length_insert; apply Hi' | apply Hi' | by apply list_lookup_insert_eq | |].
  - split; unfold in_hand; cbn [set_server relaying streams pipe].
    + rewrite decide_True; [done |]. apply X. by right.
    + rewrite X. tauto.
    + by rewrite Er, Y.
  - intros j Hj. rewrite list_lookup_insert_ne, Y, X by done. split_and!; try done. tauto.
Qed.

Lemma inv_accept evs ok f a w w' :
  inv evs w -> happen (Accept ok f a) w = Some (Ok w') -> inv (evs ++ [Accept ok f a]) w'.
Proof.
  intros Hi. cbn [Server.happen]. unfold server_accept_handler. cbn [negb].
  destruct (servers w !! server_index f) as [s |] eqn:Hs; [| done]. cbn [of_option mbind res_bind].
  unfold send_socket_to_core. rewrite Hs. cbn [of_option mbind res_bind].
  destruct (pipe s) as [p |] eqn:Hp; [| done]. cbn [of_option mbind res_bind sock].
  assert (X : forall j, j ∈ setups (evs ++ [Accept ok f a]) <-> j ∈ setups evs) by (intros j; unfold setups; rewrite omap_app; set_solver).
  destruct ok; cbn [mbind res_bind]; intros [= <-].
  2: { apply (inv_same evs _ w w); try done; [by intros k; split; [| apply not_elem_of_nil] |]. intros k s' Hk. by exists s'. }
  destruct (inv_servers _ _ Hi _ s Hs) as [cs [P N A]]. set (c := MkConn _ _ _).
  assert (Hset : server_index f ∈ setups evs) by (destruct (decide (server_index f ∈ setups evs)); [done | congruence]). rewrite decide_True in P by done.
  assert (Y : forall j, accepted j (evs ++ [Accept true f a]) = accepted j evs ++ if decide (server_index f = j) then [(f, a)] else []).
  { intros j. unfold accepted. rewrite omap_app. cbn. by destruct (decide (server_index f = j)). }
  pose proof (lookup_lt_Some _ _ _ Hs) as Hlt.
  eapply (inv_at evs _ w _ (server_index f) _ (cs ++ [c])); cbn [set_server servers relaying streams]; [done | rewrite length_insert; apply Hi | apply Hi | by apply list_lookup_insert_eq | |].
  - split; unfold in_hand in *; cbn [set_server relaying streams set_pipe pipe].
    + rewrite decide_True by (by apply X). rewrite map_app, concat_app. cbn. rewrite app_nil_r. congruence.
    + rewrite X. tauto.
    + rewrite Y, decide_True, <- A by done. rewrite !map_app, !app_assoc. done.
  - intros j Hj. rewrite list_lookup_insert_ne, Y, decide_False, app_nil_r, X by done. by split_and!.
Qed.

Lemma inv_relay evs i w w' : inv evs w -> relay_step i w = Ok w' -> inv evs w'.
Proof.
  intros Hi H. destruct (servers w !! i) as [s |] eqn:Hs.
  2: { unfold Server.relay_step, relay_receive_message, handle_message in H. rewrite Hs in H. by destruct (relaying w !! i) as [[] |]. }
  destruct (inv_servers _ _ Hi i s Hs) as [cs Hc]. destruct (decide (i ∈ setups evs)) as [Hx | Hx].
  - destruct (relaying w !! i) as [[sck h] |] eqn:Er.
    + destruct (handle_inv evs w i s cs sck h Hi Hs Hx Hc Er) as (w1 & s1 & E & H1 & _). congruence.
    + destruct cs as [| c cs]; [rewrite (idle_step evs w i s Hi Hs Hx Hc Er) in H; congruence |].
      destruct (take_inv evs w i s c cs Hi Hs Hx Hc Er) as (w1 & s1 & E & H1 & _). congruence.
  - destruct Hc as [P N _]. destruct (N Hx) as [_ Er]. rewrite decide_False in P by done.
    unfold Server.relay_step, relay_receive_message in H. rewrite Er, Hs in H. cbn [of_option mbind res_bind] in H. by rewrite P in H.
Qed.

Lemma inv_happen evs ev w w' :
  inv evs w -> NoDup (setups (evs ++ [ev])) -> happen ev w = Some (Ok w') -> inv (evs ++ [ev]) w'.
Proof.
  intros Hi Hn H.
  assert (S : forall i s s', servers w !! i = Some s -> pipe s' = pipe s -> forall k x, <[i := s']> (servers w) !! k = Some x -> exists y, servers w !! k = Some y /\ pipe x = pipe y).
  { intros i s s' Hs Hp k x. rewrite list_lookup_insert_Some. intros [(<- & <- & _) | [_ Hl]]; eauto. }
  destruct ev as [i b n | ok f a | i | c i | c].
  - apply (inv_setup evs i b n w); [done | | done]. unfold setups in *. rewrite omap_app in Hn. apply NoDup_app in Hn as (_ & Hn & _).
    intros Hx. apply (Hn i Hx). cbn. set_solver.
  - by apply (inv_accept evs ok f a w).
  - cbn [Server.happen] in H. injection H as H. apply (inv_same evs (Relay i) w' w'); try done; [intros k; split; [done | apply not_elem_of_nil] | eauto | by apply (inv_relay evs i w)].
  - cbn [Server.happen] in H. destruct (releasing w !! c); [done |]. unfold handle_message_callback in H. cbn [negb Z.eqb] in H.
    destruct (servers w !! i) as [s |] eqn:Hs; [| done]. injection H as <-.
    apply (inv_same evs _ w); try done; [intros k; split; [done | apply not_elem_of_nil] | eauto].
  - cbn [Server.happen] in H. destruct (releasing w !! c) as [[i n] |]; [| done]. unfold write_count in H.
    destruct (servers w !! i) as [s |] eqn:Hs; [| done]. injection H as <-.
    apply (inv_same evs _ w); try done; [intros k; split; [done | apply not_elem_of_nil] | cbn; by rewrite length_insert | by apply (S i s)].
Qed.

Lemma inv_start base : inv [] (listening_world base).
Proof.
  split; [done | by intros k [] |]. intros k s Hk. exists [].
  assert (Hp : pipe s = None).
  { unfold listening_world, init_server, start_world, stream_server_general in Hk. cbn [servers service] in Hk.
    apply list_lookup_fmap_Some in Hk as (i & -> & _). done. }
  by split.
Qed.

Lemma happens_inv evs' : forall evs w w', inv evs w -> NoDup (setups (evs ++ evs')) ->
  happens evs' w = Some (Ok w') -> inv (evs ++ evs') w'.
Proof.
  induction evs' as [| ev evs' IH]; intros evs w w' Hi Hn; cbn [Server.happens].
  - intros [= <-]. by rewrite app_nil_r.
  - destruct (happen ev w) as [[w1 | |] |] eqn:E; try done. intros H. rewrite (cons_middle ev), app_assoc in *.
    eapply IH; [| done | done]. eapply inv_happen; [done | | done].
    unfold setups in *. rewrite omap_app in Hn. by apply NoDup_app in Hn as [? _].
Qed.
(** ** The counters, when one thread at a time counts *)

(** Who is between two accesses of the counters. *)
Inductive counting : Type := Nobody | Handler (i : nat) (sck : vmp_socket_t) (h : handling) | Releaser (c i : nat) (n : Z).

(** What they have added to the counters for a stream that is not there yet, or that is gone already. *)
Definition more_flow (m : counting) : Z := match m with Handler _ _ (HCount | HCountAdd _ | HStart) => 1 | _ => 0 end.
Definition more_count (m : counting) (k : nat) : Z :=
  match m with
  | Handler i _ HStart => if decide (i = k) then 1 else 0
  | Releaser _ i _ => if decide (i = k) then 1 else 0
  | _ => 0
  end.

Record exact (evs : list event) w (m : counting) : Prop := {
  ex_relaying : relaying w = match m with Handler i sck h => {[i := (sck, h)]} | _ => ∅ end;
  ex_releasing : releasing w = match m with Releaser c i n => {[c := (i, n)]} | _ => ∅ end;
  ex_flow : flowid w = u64 (Z.of_nat (length (streams w)) + more_flow m);
  ex_flows : map req_flowid (streams w) = map (fun i => u64 (Z.of_nat i + 1)) (seq 0 (length (streams w)));
  ex_count : forall k s, servers w !! k = Some s ->
    client_cnt s = u32 (Z.of_nat (length (handled k (streams w))) - Z.of_nat (length (gone k evs)) + more_count m k);
  ex_read : match m with
    | Handler _ _ (HFlowAdd f) => f = flowid w
    | Handler i _ (HCountAdd n) | Releaser _ i n => forall s, servers w !! i = Some s -> n = client_cnt s
    | _ => True end
}.

Lemma exact_busy evs w m : exact evs w m -> busy w = match m with Nobody => 0%nat | _ => 1%nat end.
Proof. intros [E1 E2 _ _ _ _]. unfold busy. rewrite E1, E2. destruct m; by rewrite ?map_size_singleton, ?map_size_empty. Qed.

(** A step that is no access of a counter. *)
Lemma exact_same evs ev w w' m : exact evs w m -> (forall k, gone k [ev] = []) -> relaying w' = relaying w -> releasing w' = releasing w ->
  flowid w' = flowid w -> streams w' = streams w ->
  (forall k s', servers w' !! k = Some s' -> exists s, servers w !! k = Some s /\ client_cnt s' = client_cnt s) ->
  exact (evs ++ [ev]) w' m.
Proof.
  intros [E1 E2 E3 E4 E5 E6] Hg R1 R2 R3 R4 Hc. split; rewrite ?R1, ?R2, ?R3, ?R4; try done.
  - intros k s' Hk. destruct (Hc k s' Hk) as (s & Hs & ->). unfold gone in *. rewrite omap_app, Hg, app_nil_r. by apply E5.
  - destruct m as [| i sck [] | c i n]; try done; intros s' Hk; destruct (Hc i s' Hk) as (s & Hs & ->); by apply E6.
Qed.

Lemma insert_count w k s s' j x : servers w !! k = Some s -> client_cnt s' = client_cnt s -> <[k := s']> (servers w) !! j = Some x ->
  exists y, servers w !! j = Some y /\ client_cnt x = client_cnt y.
Proof. intros Hs Hc. rewrite list_lookup_insert_Some. intros [(<- & <- & _) | [_ Hl]]; eauto. Qed.

Lemma exact_handle evs w i sck h w' : exact evs w (Handler i sck h) -> relay_step i w = Ok w' -> exists m, exact (evs ++ [Relay i]) w' m.
Proof.
  intros [E1 E2 E3 E4 E5 E6] H. unfold Server.relay_step in H. rewrite E1, lookup_singleton_eq in H. unfold handle_message in H.
  destruct (servers w !! i) as [s |] eqn:Hs; [| done]. cbn [of_option mbind res_bind] in H.
  assert (Hg : forall k, gone k (evs ++ [Relay i]) = gone k evs) by (intros k; unfold gone; by rewrite omap_app, app_nil_r).
  destruct h; cbn [mbind res_bind] in H; injection H as <-.
  - exists (Handler i sck (HFlowAdd (flowid w))). split; cbn [set_relaying relaying releasing flowid streams servers]; try done; [by rewrite E1, insert_singleton_eq |].
    intros k x Hk. rewrite Hg. by apply E5.
  - exists (Handler i sck HCount). subst f. split; cbn [set_flowid set_relaying relaying releasing flowid streams servers]; try done; [by rewrite E1, insert_singleton_eq | |].
    + rewrite E3. cbn. rewrite u_add by done. f_equal. lia.
    + intros k x Hk. rewrite Hg. by apply E5.
  - exists (Handler i sck (HCountAdd (client_cnt s))). split; cbn [set_relaying relaying releasing flowid streams servers]; try done; [by rewrite E1, insert_singleton_eq | |].
    + intros k x Hk. rewrite Hg. by apply E5.
    + intros x Hx. congruence.
  - exists (Handler i sck HStart). split; cbn [set_server set_relaying relaying releasing flowid streams servers]; try done; [by rewrite E1, insert_singleton_eq |].
    intros k x. rewrite Hg, list_lookup_insert_Some. intros [(<- & <- & _) | [Hne Hk]]; cbn; [| rewrite (E5 k x Hk); cbn; by rewrite decide_False].
    rewrite (E6 s eq_refl), (E5 i s Hs), decide_True by done. cbn. rewrite u_add by done. f_equal. lia.
  - exists Nobody. cbn in E3. split; cbn [add_stream set_relaying relaying releasing flowid streams servers more_flow]; try done; [by rewrite E1, delete_singleton_eq | | |].
    + rewrite E3, length_app. cbn. f_equal. lia.
    + rewrite map_app, length_app, Nat.add_1_r, seq_S, map_app, E4. cbn. by rewrite E3.
    + intros k x Hk. rewrite Hg, (E5 k x Hk). cbn. destruct (decide (i = k)) as [<- | Hne].
      * rewrite handled_own, length_app. cbn. f_equal. lia.
      * rewrite handled_other by (cbn; lia). done.
Qed.

(** A server's thread reads a message while another thread may count. *)
Lemma exact_take evs w m i w' : exact evs w m -> relaying w !! i = None -> relay_step i w = Ok w' -> (busy w' <= 1)%nat ->
  exists m', exact (evs ++ [Relay i]) w' m'.
Proof.
  intros He Er H Hb. pose proof (exact_busy evs w m He) as Hw. unfold Server.relay_step in H. rewrite Er in H. unfold relay_receive_message in H.
  destruct (servers w !! i) as [s |] eqn:Hs; [| done]. cbn [of_option mbind res_bind] in H.
  destruct (pipe s) as [p |]; [| done]. cbn [of_option mbind res_bind] in H. destruct (evbuffer_remove sizeof_conn p) as [[n got] rest].
  destruct (n >? 0); [| injection H as <-; exists m; apply (exact_same evs _ w); try done; eauto].
  destruct (negb _).
  { injection H as <-. exists m. apply (exact_same evs _ w); try done. intros k x. by apply (insert_count w i s). }
  injection H as <-. set (sck := sock (decode got)) in *.
  assert (m = Nobody) as ->.
  { destruct m; [done | |]; exfalso; unfold busy in Hb, Hw; cbn [set_relaying set_server relaying releasing] in Hb; rewrite map_size_insert_None in Hb by done; lia. }
  exists (Handler i sck HFlow). destruct He as [E1 E2 E3 E4 E5 _]. split; cbn [set_relaying set_server relaying releasing flowid streams servers]; try done.
  - by rewrite E1.
  - intros k x Hk. destruct (insert_count w i s (set_pipe s (Some rest)) k x Hs eq_refl Hk) as (y & Hy & ->). rewrite (E5 k y Hy). unfold gone. by rewrite omap_app, app_nil_r.
Qed.

Lemma exact_release evs w m c i w' : exact evs w m -> releasing w !! c = None -> happen (Closed c i) w = Some (Ok w') -> (busy w' <= 1)%nat ->
  exists m', exact (evs ++ [Closed c i]) w' m'.
Proof.
  intros He Er H Hb. pose proof (exact_busy evs w m He) as Hw. cbn [Server.happen] in H. rewrite Er in H. unfold handle_message_callback in H. cbn [negb Z.eqb] in H.
  destruct (servers w !! i) as [s |] eqn:Hs; [| done]. injection H as <-.
  assert (m = Nobody) as ->.
  { destruct m; [done | |]; exfalso; unfold busy in Hb, Hw; cbn [set_releasing relaying releasing] in Hb; rewrite map_size_insert_None in Hb by done; lia. }
  exists (Releaser c i (client_cnt s)). destruct He as [E1 E2 E3 E4 E5 _]. split; cbn [set_releasing relaying releasing flowid streams servers]; try done.
  - by rewrite E2.
  - intros k x Hk. rewrite (E5 k x Hk). unfold gone. rewrite omap_app, length_app. cbn. destruct (decide (i = k)); cbn; f_equal; lia.
  - intros x Hx. congruence.
Qed.

Lemma exact_counted evs w m c w' : exact evs w m -> happen (Counted c) w = Some (Ok w') -> exists m', exact (evs ++ [Counted c]) w' m'.
Proof.
  intros [E1 E2 E3 E4 E5 E6] H. cbn [Server.happen] in H. rewrite E2 in H. destruct m as [| | c0 i n]; [done | done |].
  destruct (decide (c0 = c)) as [-> |]; [| by rewrite lookup_singleton_ne in H]. rewrite lookup_singleton_eq in H. unfold write_count in H.
  destruct (servers w !! i) as [s |] eqn:Hs; [| done]. injection H as <-.
  exists Nobody. split; cbn [set_releasing set_server relaying releasing flowid streams servers]; try done; [by rewrite E2, delete_singleton_eq |].
  intros k x. unfold gone. rewrite omap_app, app_nil_r. fold (gone k evs). rewrite list_lookup_insert_Some. intros [(<- & <- & _) | [Hne Hk]]; cbn.
  - rewrite (E6 s eq_refl), (E5 i s Hs). cbn. rewrite decide_True, <- Z.add_opp_r, u_add by done. f_equal. lia.
  - rewrite (E5 k x Hk). cbn. by rewrite decide_False.
Qed.

Lemma exact_happen evs ev w w' m : exact evs w m -> happen ev w = Some (Ok w') -> (busy w' <= 1)%nat -> exists m', exact (evs ++ [ev]) w' m'.
Proof.
  intros He H Hb. destruct ev as [i b n | ok f a | i | c i | c].
  - cbn [Server.happen] in H. injection H as H. unfold stream_server_setup, setup_server in H. exists m.
    assert (He' : relaying (init_server n w) = relaying w /\ releasing (init_server n w) = releasing w /\ flowid (init_server n w) = flowid w /\
      streams (init_server n w) = streams w /\ servers (init_server n w) = servers w) by (unfold init_server; by destruct (service w)).
    destruct He' as (R1 & R2 & R3 & R4 & R5). destruct (servers (init_server n w) !! i) as [s |] eqn:Hs; [| done]. injection H as <-.
    apply (exact_same evs _ w); try done. cbn [set_server servers]. rewrite R5 in *. intros k x. by apply (insert_count w i s).
  - cbn [Server.happen] in H. injection H as H. unfold server_accept_handler in H. cbn [negb] in H. exists m.
    destruct (servers w !! server_index f) as [s |] eqn:Hs; [| done]. cbn [of_option mbind res_bind] in H. unfold send_socket_to_core in H. rewrite Hs in H.
    cbn [of_option mbind res_bind] in H. destruct (pipe s) as [p |]; [| done]. cbn [of_option mbind res_bind] in H.
    destruct ok; injection H as <-; apply (exact_same evs _ w); try done; [intros k x; by apply (insert_count w (server_index f) s) | eauto].
  - cbn [Server.happen] in H. injection H as H. destruct (relaying w !! i) as [[sck h] |] eqn:Er; [| by apply (exact_take evs w m i)].
    pose proof (ex_relaying evs w m He) as E. rewrite E in Er. destruct m as [| i' sck' h' |]; try done.
    apply lookup_singleton_Some in Er as [-> [= -> ->]]. by apply (exact_handle evs w i sck h).
  - destruct (releasing w !! c) as [x |] eqn:Er; [cbn [Server.happen] in H; by rewrite Er in H |]. by apply (exact_release evs w m c i).
  - by apply (exact_counted evs w m c).
Qed.

Lemma exact_start base : exact [] (listening_world base) Nobody.
Proof.
  split; try done. intros k s Hk. unfold listening_world, init_server, start_world, stream_server_general in Hk. cbn [servers service] in Hk.
  apply list_lookup_fmap_Some in Hk as (i & -> & _). done.
Qed.

Lemma happens_exact evs' : forall evs w w' m, exact evs w m -> one_at_a_time evs' w -> happens evs' w = Some (Ok w') -> exists m', exact (evs ++ evs') w' m'.
Proof.
  induction evs' as [| ev evs' IH]; intros evs w w' m He; cbn [Server.happens Server.one_at_a_time].
  - intros _ [= <-]. rewrite app_nil_r. by exists m.
  - destruct (happen ev w) as [[w1 | |] |] eqn:E; try done. intros [Hb Ho] H. rewrite (cons_middle ev), app_assoc.
    destruct (exact_happen evs ev w w1 m He E Hb) as [m1 He1]. by apply (IH _ w1 w' m1).
Qed.
Lemma accept_defined evs w ok f a : inv evs w -> server_index f ∈ setups evs <-> happen (Accept ok f a) w <> Some UB.
Proof.
  intros Hi. destruct (lookup_lt_is_Some_2 (servers w) (server_index f)) as [s Hs].
  { rewrite (inv_length _ _ Hi). apply server_index_lt. }
  destruct (inv_servers _ _ Hi _ s Hs) as [cs [P _ _]]. cbn [Server.happen]. unfold server_accept_handler.
  cbn [negb]. rewrite Hs. cbn [of_option mbind res_bind]. unfold send_socket_to_core. rewrite Hs.
  cbn [of_option mbind res_bind]. rewrite P.
  destruct (decide (server_index f ∈ setups evs)) as [Hx | Hx]; cbn; [by destruct ok | naive_solver].
Qed.

(** ** What goes wrong when two threads count *)

(** One access, and where the thread of the server is then. *)
Lemma one_access w i s sck h : servers w !! i = Some s -> relaying w !! i = Some (sck, h) ->
  exists w', relay_step i w = Ok w' /\
    relaying w' = match next_place w s sck h with Some x => <[i := x]> (relaying w) | None => delete i (relaying w) end /\
    flowid w' = (match h with HFlowAdd f => u64 (f + 1) | _ => flowid w end) /\
    map req_flowid (streams w') = map req_flowid (streams w) ++ (match h with HStart => [flowid w] | _ => [] end) /\
    servers w' = (match h with HCountAdd n => <[i := set_cnt s (u32 (n + 1))]> (servers w) | _ => servers w end) /\ releasing w' = releasing w.
Proof.
  intros Hs Hr. unfold Server.relay_step. rewrite Hr. unfold handle_message. rewrite Hs. cbn [of_option mbind res_bind].
  destruct h; cbn [mbind res_bind]; eexists; (split; [reflexivity |]); cbn; rewrite ?app_nil_r; try done. by rewrite map_app.
Qed.

(** The count of a server and the start of its stream, alone. *)
Lemma count_and_start w i s sck : servers w !! i = Some s -> relaying w !! i = Some (sck, HCount) ->
  exists w', happens (replicate 3 (Relay i)) w = Some (Ok w') /\ flowid w' = flowid w /\ map req_flowid (streams w') = map req_flowid (streams w) ++ [flowid w] /\
    (forall j, j <> i -> relaying w' !! j = relaying w !! j /\ servers w' !! j = servers w !! j).
Proof.
  intros Hs Hr. destruct (one_access w i s sck HCount Hs Hr) as (w1 & E1 & R1 & F1 & S1 & V1 & _). cbn [next_place] in R1. rewrite app_nil_r in S1.
  destruct (one_access w1 i s sck (HCountAdd (client_cnt s))) as (w2 & E2 & R2 & F2 & S2 & V2 & _); [by rewrite V1 | by rewrite R1, lookup_insert_eq |].
  cbn [next_place] in R2. rewrite app_nil_r in S2. rewrite V1 in V2. pose proof (lookup_lt_Some _ _ _ Hs) as Hlt.
  destruct (one_access w2 i (set_cnt s (u32 (client_cnt s + 1))) sck HStart) as (w3 & E3 & R3 & F3 & S3 & V3 & _);
    [by rewrite V2, list_lookup_insert_eq | by rewrite R2, lookup_insert_eq |]. cbn [next_place] in R3.
  exists w3. cbn [replicate Server.happens Server.happen]. rewrite E1, E2, E3. split_and!; [done | congruence | by rewrite S3, S2, S1, F2, F1 |].
  intros j Hj. rewrite R3, R2, R1, V3, V2. by rewrite lookup_delete_ne, !lookup_insert_ne, list_lookup_insert_ne.
Qed.

Lemma same_number evs w i j si sj : inv evs w -> i <> j -> relaying w !! i = Some (si, HFlow) -> relaying w !! j = Some (sj, HFlow) ->
  exists w', happens ([Relay i; Relay j; Relay i; Relay j] ++ replicate 3 (Relay i) ++ replicate 3 (Relay j)) w = Some (Ok w') /\
    map req_flowid (streams w') = map req_flowid (streams w) ++ [u64 (flowid w + 1); u64 (flowid w + 1)].
Proof.
  intros Hi Hne Hri Hrj.
  assert (T : forall k x, relaying w !! k = Some x -> exists s, servers w !! k = Some s).
  { intros k x Hk. apply lookup_lt_is_Some_2. rewrite (inv_length _ _ Hi). apply (inv_there _ _ Hi). by eexists. }
  destruct (T i _ Hri) as [s1 Hs1], (T j _ Hrj) as [s2 Hs2]. clear T.
  destruct (one_access w i s1 si HFlow Hs1 Hri) as (w1 & E1 & R1 & F1 & S1 & V1 & _). cbn [next_place] in R1. rewrite app_nil_r in S1.
  destruct (one_access w1 j s2 sj HFlow) as (w2 & E2 & R2 & F2 & S2 & V2 & _); [by rewrite V1 | by rewrite R1, lookup_insert_ne |]. cbn [next_place] in R2. rewrite app_nil_r in S2.
  destruct (one_access w2 i s1 si (HFlowAdd (flowid w))) as (w3 & E3 & R3 & F3 & S3 & V3 & _);
    [by rewrite V2, V1 | by rewrite R2, lookup_insert_ne, R1, lookup_insert_eq |]. cbn [next_place] in R3. rewrite app_nil_r in S3.
  destruct (one_access w3 j s2 sj (HFlowAdd (flowid w1))) as (w4 & E4 & R4 & F4 & S4 & V4 & _);
    [by rewrite V3, V2, V1 | by rewrite R3, lookup_insert_ne, R2, lookup_insert_eq |]. cbn [next_place] in R4. rewrite app_nil_r in S4.
  destruct (count_and_start w4 i s1 si) as (w5 & E5 & F5 & S5 & O5); [by rewrite V4, V3, V2, V1 | by rewrite R4, lookup_insert_ne, R3, lookup_insert_eq |].
  destruct (O5 j ltac:(done)) as [Oj Vj].
  destruct (count_and_start w5 j s2 sj) as (w6 & E6 & F6 & S6 & _); [by rewrite Vj, V4, V3, V2, V1 | by rewrite Oj, R4, lookup_insert_eq |].
  exists w6. rewrite (happens_app [Relay i; Relay j; Relay i; Relay j] _ w w4) by (cbn; by rewrite E1, E2, E3, E4).
  rewrite (happens_app _ _ w4 w5 E5), E6. split; [done |]. by rewrite S6, S5, S4, S3, S2, S1, F5, F4, F1, <- app_assoc.
Qed.

Lemma lost_count w c i si s : relaying w !! i = Some (si, HCount) -> releasing w !! c = None -> servers w !! i = Some s ->
  exists w' s', happens [Relay i; Closed c i; Counted c; Relay i] w = Some (Ok w') /\ servers w' !! i = Some s' /\ client_cnt s' = u32 (client_cnt s + 1).
Proof.
  intros Hr Hc Hs. pose proof (lookup_lt_Some _ _ _ Hs) as Hlt.
  destruct (one_access w i s si HCount Hs Hr) as (w1 & E1 & R1 & _ & _ & V1 & C1). cbn [next_place] in R1.
  set (w2 := set_releasing w1 (<[c := (i, client_cnt s)]> (releasing w1))).
  set (w3 := set_releasing (set_server w2 i (set_cnt s (u32 (client_cnt s - 1)))) (delete c (releasing w2))).
  destruct (one_access w3 i (set_cnt s (u32 (client_cnt s - 1))) si (HCountAdd (client_cnt s))) as (w4 & E4 & _ & _ & _ & V4 & _).
  { cbn. rewrite V1. by apply list_lookup_insert_eq. }
  { cbn. rewrite R1. apply lookup_insert_eq. }
  exists w4. eexists. cbn [Server.happens Server.happen]. rewrite E1, C1, Hc. unfold handle_message_callback. cbn [negb Z.eqb]. rewrite V1, Hs.
  cbn [of_option mbind res_bind fmap res_fmap snd]. fold w2. change (releasing w2 !! c) with (<[c := (i, client_cnt s)]> (releasing w1) !! c).
  rewrite lookup_insert_eq. unfold write_count. change (servers w2) with (servers w1). rewrite V1, Hs. cbn [of_option mbind res_bind]. fold w3. rewrite E4.
  split; [done |]. rewrite V4. split; [apply list_lookup_insert_eq; cbn; rewrite V1; by rewrite length_insert | done].
Qed.

(** C11.  Every accepted connection becomes exactly one stream.  From the state the listener starts in, whatever the order in which the
    servers are set up (once each), connections are accepted, and the threads of the servers and those in which streams end
    move, one access of a counter at a time:
    each server has started a stream for a prefix of the connections accepted for it, in their order,
    and has the rest; its thread alone starts all of them; the server is the one the descriptor's
    hash names; accepting a connection for a server that is not set up yet is undefined.  The counters are not locked.  In the runs in which
    never more than one thread is between two accesses of them, the streams are numbered 1, 2, 3, ... in the order they are started,
    and the count of a server is the streams it started less those that ended.  In the others they go wrong: from every state in which
    the threads of two servers are about to count, there is a run in which their streams get the same number; and a stream that ends while
    another of its server is counted is never taken off the count. *)
Theorem server_dispatch (base : Z) (evs : list event) (w : world) (Hn : NoDup (setups evs))
    (Hrun : happens evs (listening_world base) = Some (Ok w)) :
  (forall k s, servers w !! k = Some s ->
     handled k (streams w) `prefix_of` accepted k evs /\
     (k ∈ setups evs -> exists n w', happens (replicate n (Relay k)) w = Some (Ok w') /\ handled k (streams w') = accepted k evs)) /\
  (forall ok f a, (server_index f < 8)%nat /\
     (server_index f ∈ setups evs <-> happen (Accept ok f a) w <> Some UB)) /\
  (one_at_a_time evs (listening_world base) ->
     map req_flowid (streams w) = map (fun i => u64 (Z.of_nat i + 1)) (seq 0 (length (streams w))) /\
     forall k s, servers w !! k = Some s -> busy w = 0%nat ->
       client_cnt s = u32 (Z.of_nat (length (handled k (streams w))) - Z.of_nat (length (gone k evs)))) /\
  (forall i j si sj, i <> j -> relaying w !! i = Some (si, HFlow) -> relaying w !! j = Some (sj, HFlow) ->
     exists w', happens ([Relay i; Relay j; Relay i; Relay j] ++ replicate 3 (Relay i) ++ replicate 3 (Relay j)) w = Some (Ok w') /\
       map req_flowid (streams w') = map req_flowid (streams w) ++ [u64 (flowid w + 1); u64 (flowid w + 1)]) /\
  (forall c i si s, relaying w !! i = Some (si, HCount) -> releasing w !! c = None -> servers w !! i = Some s ->
     exists w' s', happens [Relay i; Closed c i; Counted c; Relay i] w = Some (Ok w') /\
       servers w' !! i = Some s' /\ client_cnt s' = u32 (client_cnt s + 1)).
Proof.
  pose proof (happens_inv evs [] _ _ (inv_start base) Hn Hrun) as Hi. cbn [app] in Hi. split_and!.
  - intros k s Hk. destruct (inv_servers _ _ Hi k s Hk) as [cs Hs]. split.
    + rewrite <- (so_all _ _ _ _ _ Hs). by eexists.
    + intros Hx. by apply (there evs k cs Hx w s).
  - intros ok f a. split; [apply server_index_lt |]. by apply (accept_defined evs).
  - intros Ho. destruct (happens_exact evs [] _ _ _ (exact_start base) Ho Hrun) as [m He]. cbn [app] in He. split; [apply (ex_flows _ _ _ He) |].
    intros k s Hk Hb. rewrite (ex_count _ _ _ He k s Hk). rewrite (exact_busy _ _ _ He) in Hb. destruct m; try done. cbn. by rewrite Z.add_0_r.
  - intros i j si sj Hne Hri Hrj. by apply (same_number evs w i j si sj).
  - intros c i si s Hr Hc Hs. by apply (lost_count w c i si s).
Qed.
End dispatch.

(** A layout: one cell that codes the structure. *)
Definition to_tuple (c : vmp_connection_t) : Z * Z * (Z * list Z * list Z * list Z) * (Z * Z * Z) :=
  let s := sock c in let a := peer_addr s in
  (conn_t c, stream_server c, (sa_family a, sin_addr a, sin6_addr a, sin_port a), (fd s, sock_base s, sock_e s)).

Definition of_tuple (t : Z * Z * (Z * list Z * list Z * list Z) * (Z * Z * Z)) : vmp_connection_t :=
  let '(ct, ss, (fam, a4, a6, p), (f, b, e')) := t in MkConn ct ss (MkSocket (MkAddr fam a4 a6 p) f b e').

Definition sample_encode (c : vmp_connection_t) : list Z := [Zpos (encode (to_tuple c))].
Definition sample_decode (l : list Z) : vmp_connection_t :=
  match l with
  | Zpos p :: _ => match countable.decode p with Some t => of_tuple t | None => MkConn 0 0 (MkSocket (MkAddr 0 [] [] []) 0 0 0) end
  | _ => MkConn 0 0 (MkSocket (MkAddr 0 [] [] []) 0 0 0)
  end.

Lemma sample_layout c : sample_decode (sample_encode c) = c.
Proof. unfold sample_decode, sample_encode. rewrite decode_encode. by destruct c as [? ? [[] ? ? ?]]. Qed.

Definition sample_addr : vpk_sockaddr := MkAddr AF_INET [127; 0; 0; 1] [] [0x27; 0x0f].

(** The server is set up and given two connections; its thread starts both streams, and the first one ends. *)
Definition sample_events : list event :=
  [Setup (server_index 12) 100 1; Accept true 12 sample_addr; Accept true 12 sample_addr] ++
  replicate 12 (Relay (server_index 12)) ++ [Closed 9 (server_index 12); Counted 9].

Definition sample_world : world :=
  match happens 1 sample_encode sample_decode 7 8 true sample_events (listening_world 1) with Some (Ok w) => w | _ => listening_world 1 end.

Lemma server_dispatch_witness :
  happens 1 sample_encode sample_decode 7 8 true sample_events (listening_world 1) = Some (Ok sample_world) /\
    map req_flowid (streams sample_world) = [1; 2] /\
    (forall s, servers sample_world !! server_index 12 = Some s ->
       client_cnt s = 1 /\ handled (server_index 12) (streams sample_world) `prefix_of` [(12, sample_addr); (12, sample_addr)]).
Proof.
  assert (E : happens 1 sample_encode sample_decode 7 8 true sample_events (listening_world 1) = Some (Ok sample_world)) by (vm_compute; reflexivity).
  assert (Hn : NoDup (setups sample_events)) by (apply NoDup_singleton).
  destruct (server_dispatch 1 sample_encode sample_decode 7 8 ltac:(lia) (fun _ => eq_refl) sample_layout 1 sample_events sample_world Hn E) as (H1 & _ & H2 & _).
  destruct H2 as [H2 H3]; [vm_compute; repeat (split; [repeat constructor |]); exact I |].
  split; [exact E |]. split; [exact (eq_trans H2 eq_refl) |]. intros s Hs. destruct (H1 _ s Hs) as [H _].
  split; [exact (eq_trans (H3 _ s Hs ltac:(vm_compute; reflexivity)) ltac:(vm_compute; reflexivity)) | exact H].
Defined.
