(* ===== verification/Dictionary.v ===== *)
(** * The dictionary

    [common/utils/dictionary.c]: an array of keys with their hashes and values, searched from the
    start, filled at the first free slot from [d->n] on.  A string is the list of its bytes; [None] is
    NULL.  A failed [calloc] of one of the arrays is an empty array, any access to which is undefined. *)

From S2P Require Import Prelude.

Record dictionary := MkDict {
  n : Z;
  size : Z;
  val : list (option cstr);
  key : list (option cstr);
  hash : list Z
}.

Definition DICTMINSZ : Z := 128.

Definition xstrdup (ok : bool) (s : option cstr) : option cstr :=
  match s with None => None | Some s => if ok then Some s else None end.

(** The bytes are read through a [char] and added as an [unsigned]. *)
Definition hash_char (h c : Z) : Z :=
  let h := u32 (h + u32 (schar c)) in
  let h := u32 (h + u32 (Z.shiftl h 10)) in
  Z.lxor h (Z.shiftr h 6).

Definition dictionary_hash (k : option cstr) : Z :=
  match k with
  | None => 0
  | Some k =>
      let h := fold_left hash_char k 0 in
      let h := u32 (h + u32 (Z.shiftl h 3)) in
      let h := Z.lxor h (Z.shiftr h 11) in
      u32 (h + u32 (Z.shiftl h 15))
  end.

(** [ok]: whether the three allocations succeed. *)
Definition dictionary_grow (ok : bool) (d : dictionary) : Z * dictionary :=
  if negb ok then (-1, d) else
  let m := Z.to_nat (size d) in
  (0, MkDict (n d) (size d * 2) (take m (val d) ++ replicate m None) (take m (key d) ++ replicate m None)
        (take m (hash d) ++ replicate m 0)).

Definition dictionary_new (ok ok_val ok_key ok_hash : bool) (size' : Z) : option dictionary :=
  let size' := if size' <? DICTMINSZ then DICTMINSZ else size' in
  let m := Z.to_nat size' in
  if ok then Some (MkDict 0 size' (if ok_val then replicate m None else []) (if ok_key then replicate m None else [])
                     (if ok_hash then replicate m 0 else []))
  else None.

(** Every slot is visited. *)
Definition dictionary_del (d : option dictionary) : res () :=
  match d with
  | None => Ok ()
  | Some d => _ ← mapM (rd (key d)) (seq 0 (Z.to_nat (size d)));
              _ ← mapM (rd (val d)) (seq 0 (Z.to_nat (size d))); Ok ()
  end.

(** [strcmp] with a key of the dictionary: a NULL argument is undefined. *)
Definition strcmp_eq (k : option cstr) (s : cstr) : res bool :=
  k ← of_option k; Ok (bool_decide (k = s)).

(** The search loop, from slot [i] for [cnt] slots. *)
Fixpoint find (d : dictionary) (k : option cstr) (h : Z) (cnt i : nat) : res (option nat) :=
  match cnt with
  | O => Ok None
  | S cnt =>
      ki ← rd (key d) i;
      match ki with
      | None => find d k h cnt (S i)
      | Some s =>
          hi ← rd (hash d) i;
          if h =? hi then
            b ← strcmp_eq k s;
            if (b : bool) then Ok (Some i) else find d k h cnt (S i)
          else find d k h cnt (S i)
      end
  end.

Definition search (d : dictionary) (k : option cstr) : res (option nat) :=
  find d k (dictionary_hash k) (Z.to_nat (size d)) 0.

(** The result is a pointer of a type [P]: the one of a stored value, or [def]. *)
Definition dictionary_get {P} (str : option cstr -> P) (d : dictionary) (k : option cstr) (def : P) : res P :=
  o ← search d k;
  match o with Some i => v ← rd (val d) i; Ok (str v) | None => Ok def end.

(** The loop that looks for a free slot. *)
Fixpoint probe (fuel : nat) (d : dictionary) (i : nat) : res nat :=
  match fuel with
  | O => NoFuel
  | S fuel =>
      ki ← rd (key d) i;
      match ki with
      | None => Ok i
      | Some _ => probe fuel d (if Z.of_nat (S i) =? size d then 0%nat else S i)
      end
  end.

Definition store_slot (d : dictionary) (i : nat) (k v : option cstr) (h n' : Z) : res dictionary :=
  ks ← wr (key d) i k; vs ← wr (val d) i v; hs ← wr (hash d) i h;
  Ok (MkDict n' (size d) vs ks hs).

(** [ok_grow], [ok_key] and [ok_val]: whether the allocations of the grown arrays and of the copies
    succeed. *)
Definition dictionary_set (ok_grow ok_key ok_val : bool) (d : option dictionary) (k v : option cstr)
    : res (Z * option dictionary) :=
  match d, k with
  | None, _ => Ok (-1, None)
  | Some d, None => Ok (-1, Some d)
  | Some d, Some _ =>
      o ← (if n d >? 0 then search d k else Ok None);
      match o with
      | Some i => vs ← wr (val d) i (xstrdup ok_val v);
                  Ok (0, Some (MkDict (n d) (size d) vs (key d) (hash d)))
      | None =>
          let '(rc, d) := if n d =? size d then dictionary_grow ok_grow d else (0, d) in
          if negb (rc =? 0) then Ok (-1, Some d) else
          start ← ptr_off (n d);
          i ← probe (2 * Z.to_nat (size d)) d start;
          n' ← int_op (n d + 1);
          d ← store_slot d i (xstrdup ok_key k) (xstrdup ok_val v) (dictionary_hash k) n';
          Ok (0, Some d)
      end
  end.

Definition dictionary_unset (d : option dictionary) (k : option cstr) : res (option dictionary) :=
  match d, k with
  | Some d, Some _ =>
      o ← search d k;
      match o with
      | None => Ok (Some d)
      | Some i =>
          n' ← int_op (n d - 1);
          d ← store_slot d i None None 0 n';
          Ok (Some d)
      end
  | _, _ => Ok d
  end.

(** The text [dictionary_dump] prints: [%20s] pads on the left. *)
Definition pad20 (s : cstr) : cstr := replicate (20 - length s) 32 ++ s.

Definition dump_line (k : cstr) (v : option cstr) : cstr :=
  pad20 k ++ [9; 91] ++ default (chars "UNDEF") v ++ [93; 10].

Definition dictionary_dump (d : option dictionary) (out : bool) : cstr :=
  match d with
  | None => []
  | Some d =>
      if negb out then [] else
      if n d <? 1 then chars "empty dictionary" ++ [10] else
      concat (zip_with (fun k v => match k with Some k => dump_line k v | None => [] end) (key d) (val d))
  end.

(** ** A dictionary is a finite map *)

(** Arrays of the announced size, entries that are distinct, each with its hash. *)
Record shape (d : dictionary) : Prop := {
  sh_size : 0 < size d < 2 ^ 30;
  sh_key : length (key d) = Z.to_nat (size d);
  sh_val : length (val d) = Z.to_nat (size d);
  sh_hash : length (hash d) = Z.to_nat (size d);
  sh_inj (i j : nat) k : key d !! i = Some (Some k) -> key d !! j = Some (Some k) -> i = j;
  sh_hashes (i : nat) k : key d !! i = Some (Some k) -> hash d !! i = Some (dictionary_hash (Some k))
}.

(** [d->n] counts the entries. *)
Record wf (d : dictionary) : Prop := {
  wf_shape : shape d;
  wf_n : n d = Z.of_nat (length (omap id (key d)))
}.

(** It stands for the map [m]: a key bound to NULL is present. *)
Definition rep (d : dictionary) (m : gmap cstr (option cstr)) : Prop :=
  wf d /\ forall k v, m !! k = Some v <-> exists i : nat, key d !! i = Some (Some k) /\ val d !! i = Some v.

Lemma find_spec d k cnt i :
  shape d -> (i + cnt = Z.to_nat (size d))%nat ->
  (exists j, (i <= j)%nat /\ key d !! j = Some (Some k) /\
     find d (Some k) (dictionary_hash (Some k)) cnt i = Ok (Some j)) \/
  ((forall j, (i <= j)%nat -> key d !! j <> Some (Some k)) /\
     find d (Some k) (dictionary_hash (Some k)) cnt i = Ok None).
Proof.
  intros Hw. revert i; induction cnt as [| cnt IH]; intros i Hi; cbn [find].
  - right. split; [| done]. intros j Hj Hk. apply lookup_lt_Some in Hk. rewrite (sh_key _ Hw) in Hk. lia.
  - destruct (rd_lt (key d) i) as (ki & -> & Hki); [rewrite (sh_key _ Hw); lia |]. cbn [mbind res_bind].
    assert (Hnext : ki <> Some k ->
      find d (Some k) (dictionary_hash (Some k)) (S cnt) i = find d (Some k) (dictionary_hash (Some k)) cnt (S i) ->
      (exists j, (i <= j)%nat /\ key d !! j = Some (Some k) /\
         find d (Some k) (dictionary_hash (Some k)) (S cnt) i = Ok (Some j)) \/
      ((forall j, (i <= j)%nat -> key d !! j <> Some (Some k)) /\
         find d (Some k) (dictionary_hash (Some k)) (S cnt) i = Ok None)).
    { intros Hne ->. destruct (IH (S i) ltac:(lia)) as [(j & ? & ? & ?) | [Hno E]].
      - left. exists j. split_and!; [lia | done | done].
      - right. split; [| done]. intros j Hj Hk. destruct (decide (i = j)) as [<- |]; [congruence |].
        apply (Hno j); [lia | done]. }
    cbn [find] in Hnext. rewrite (rd_Ok _ _ _ Hki) in Hnext. cbn [mbind res_bind] in Hnext.
    destruct ki as [s |]; [| by apply Hnext].
    rewrite (rd_Ok _ _ _ (sh_hashes _ Hw i s Hki)) in Hnext |- *. cbn [mbind res_bind] in Hnext |- *.
    unfold strcmp_eq in *. cbn [of_option mbind res_bind] in *.
    destruct (decide (k = s)) as [-> | Hne].
    + left. exists i. split_and!; [lia | done |]. by rewrite Z.eqb_refl, bool_decide_true.
    + rewrite bool_decide_false in * by done. destruct (_ =? _); apply Hnext; congruence.
Qed.

Lemma search_spec d k :
  shape d ->
  (exists j, key d !! j = Some (Some k) /\ search d (Some k) = Ok (Some j)) \/
  ((forall j, key d !! j <> Some (Some k)) /\ search d (Some k) = Ok None).
Proof.
  intros Hw. destruct (find_spec d k (Z.to_nat (size d)) 0 Hw) as [(j & _ & H & E) | [H E]]; [lia | |].
  - left. by exists j.
  - right. split; [| done]. intros j. apply H. lia.
Qed.

(** The free slot is found going up and around. *)
Lemma probe_spec d : forall fuel i j,
  length (key d) = Z.to_nat (size d) -> (i < length (key d))%nat -> key d !! j = Some None ->
  ((if decide (i <= j)%nat then j - i else length (key d) - i + j) < fuel)%nat ->
  exists l, probe fuel d i = Ok l /\ key d !! l = Some None.
Proof.
  induction fuel as [| fuel IH]; intros i j Hl Hi Hj Hf; [lia |]. cbn [probe].
  destruct (rd_lt (key d) i Hi) as (ki & -> & Hki). cbn [mbind res_bind].
  destruct ki as [s |]; [| by exists i].
  assert (i <> j) by congruence. apply lookup_lt_Some in Hj as Hjl.
  destruct (Z.eqb_spec (Z.of_nat (S i)) (size d)) as [E | E].
  - apply (IH 0%nat j); [done | lia | done |]. rewrite decide_True by lia. case_decide; lia.
  - apply (IH (S i) j); [done | lia | done |]. repeat case_decide; lia.
Qed.

(** Cutting an array at a slot. *)
Lemma cut {A} (l : list A) (i : nat) (x : A) : l !! i = Some x ->
  exists l1 l2, l = l1 ++ x :: l2 /\ i = length l1.
Proof.
  intros H. exists (take i l), (drop (S i) l). split; [by rewrite take_drop_middle |].
  rewrite length_take. apply lookup_lt_Some in H. lia.
Qed.

Lemma count_insert (l : list (option cstr)) (i : nat) (x y : option cstr) :
  l !! i = Some x -> Z.of_nat (length (omap id (<[i := y]> l))) =
    Z.of_nat (length (omap id l)) - (if x then 1 else 0) + (if y then 1 else 0).
Proof.
  intros (l1 & l2 & -> & ->) % cut. rewrite insert_app_r_alt, Nat.sub_diag by done. cbn [insert list_insert].
  rewrite !omap_app, !length_app. cbn. destruct x, y; cbn; lia.
Qed.

Lemma omap_le (l : list (option cstr)) : (length (omap id l) <= length l)%nat.
Proof. induction l as [| [x |] l IH]; cbn; lia. Qed.

(** A dictionary that is not full has a free slot. *)
Lemma free_slot (l : list (option cstr)) : (length (omap id l) < length l)%nat -> exists j : nat, l !! j = Some None.
Proof.
  induction l as [| [x |] l IH]; cbn; [lia | | by exists 0%nat].
  intros H. destruct IH as [j Hj]; [lia |]. by exists (S j).
Qed.

Lemma store_ok d i k v h n' :
  shape d -> (i < length (key d))%nat ->
  store_slot d i k v h n' = Ok (MkDict n' (size d) (<[i := v]> (val d)) (<[i := k]> (key d)) (<[i := h]> (hash d))).
Proof.
  intros Hw Hi. unfold store_slot. rewrite (sh_key _ Hw) in Hi.
  rewrite !wr_ok by (rewrite ?(sh_key _ Hw), ?(sh_val _ Hw), ?(sh_hash _ Hw); done). done.
Qed.

Lemma rep_shape d m : rep d m -> shape d.
Proof. by intros [[? _] _]. Qed.

(** The search and the map agree. *)
Lemma search_rep d m k :
  rep d m ->
  (exists i v, search d (Some k) = Ok (Some i) /\ key d !! i = Some (Some k) /\ val d !! i = Some v /\ m !! k = Some v) \/
  (search d (Some k) = Ok None /\ m !! k = None /\ forall j : nat, key d !! j <> Some (Some k)).
Proof.
  intros Hr. pose proof (rep_shape _ _ Hr) as Hs. destruct (search_spec d k Hs) as [(i & Hi & E) | [Hno E]].
  - left. destruct (lookup_lt_is_Some_2 (val d) i) as [v Hv].
    { rewrite (sh_val _ Hs), <- (sh_key _ Hs). by eapply lookup_lt_Some. }
    exists i, v. split_and!; [done | done | done |]. apply Hr. by exists i.
  - right. split_and!; [done | | done]. apply eq_None_not_Some. intros [v Hv].
    apply Hr in Hv as (i & Hi & _). by apply (Hno i).
Qed.

Lemma insert_Some_inv {A} (l : list A) (i j : nat) x y :
  <[i := x]> l !! j = Some y -> (i = j /\ x = y) \/ (i <> j /\ l !! j = Some y).
Proof. rewrite list_lookup_insert_Some. naive_solver. Qed.

(** A new entry in a free slot. *)
Lemma rep_insert d m (i : nat) k v :
  rep d m -> key d !! i = Some None -> m !! k = None ->
  rep (MkDict (n d + 1) (size d) (<[i := v]> (val d)) (<[i := Some k]> (key d))
         (<[i := dictionary_hash (Some k)]> (hash d))) (<[k := v]> m).
Proof.
  intros [[[H1 H2 H3 H4 H5 H6] Hn] Hm] Hi Hk.
  assert (Hno : forall j : nat, key d !! j <> Some (Some k)).
  { intros j Hj. destruct (lookup_lt_is_Some_2 (val d) j) as [v' Hv'].
    - rewrite H3, <- H2. by eapply lookup_lt_Some.
    - assert (m !! k = Some v') by (apply Hm; by exists j). congruence. }
  pose proof (lookup_lt_Some _ _ _ Hi) as Hl.
  split; [split; [split |] |]; cbn [size key val hash n]; rewrite ?length_insert; try done.
  - intros a b k' [[<- [= <-]] | [? Ha]]%insert_Some_inv [[<- E] | [? Hb]]%insert_Some_inv;
      [done | by destruct (Hno b) | injection E as ->; by destruct (Hno a) | by eapply H5].
  - intros a k' [[<- [= <-]] | [? Ha]]%insert_Some_inv.
    + apply list_lookup_insert_eq. lia.
    + rewrite list_lookup_insert_ne by done. by apply H6.
  - rewrite (count_insert _ _ _ _ Hi), Hn. lia.
  - intros k' v'. rewrite lookup_insert_Some. split.
    + intros [[<- <-] | [Hne Hm']].
      * exists i. rewrite !list_lookup_insert_eq by lia. done.
      * apply Hm in Hm' as (j & Hj & Hv). exists j. assert (i <> j) by congruence.
        by rewrite !list_lookup_insert_ne.
    + intros (j & [[<- [= <-]] | [? Hj]]%insert_Some_inv & Hv).
      * left. apply insert_Some_inv in Hv as [[_ ?] | [? _]]; done.
      * apply insert_Some_inv in Hv as [[? _] | [_ Hv]]; [done |].
        right. split; [intros <-; by apply (Hno j) | apply Hm; by exists j].
Qed.

(** A new value for an entry. *)
Lemma rep_update d m (i : nat) k v :
  rep d m -> key d !! i = Some (Some k) ->
  rep (MkDict (n d) (size d) (<[i := v]> (val d)) (key d) (hash d)) (<[k := v]> m).
Proof.
  intros [[[H1 H2 H3 H4 H5 H6] Hn] Hm] Hi. pose proof (lookup_lt_Some _ _ _ Hi) as Hl.
  split; [split; [split |] |]; cbn [size key val hash n]; rewrite ?length_insert; try done.
  intros k' v'. rewrite lookup_insert_Some. split.
  - intros [[<- <-] | [Hne Hm']].
    + exists i. split; [done |]. apply list_lookup_insert_eq. lia.
    + apply Hm in Hm' as (j & Hj & Hv). exists j. split; [done |]. rewrite list_lookup_insert_ne; [done |].
      intros <-. congruence.
  - intros (j & Hj & [[<- <-] | [? Hv]]%insert_Some_inv); [left; by simplify_eq |].
    right. split; [| apply Hm; by exists j]. intros <-. by pose proof (H5 _ _ _ Hi Hj).
Qed.

(** An entry removed. *)
Lemma rep_delete d m (i : nat) k :
  rep d m -> key d !! i = Some (Some k) ->
  rep (MkDict (n d - 1) (size d) (<[i := None]> (val d)) (<[i := None]> (key d)) (<[i := 0]> (hash d))) (delete k m).
Proof.
  intros [[[H1 H2 H3 H4 H5 H6] Hn] Hm] Hi. pose proof (lookup_lt_Some _ _ _ Hi) as Hl.
  split; [split; [split |] |]; cbn [size key val hash n]; rewrite ?length_insert; try done.
  - intros a b k' [[_ ?] | [? Ha]]%insert_Some_inv [[_ ?] | [? Hb]]%insert_Some_inv; try done. by eapply H5.
  - intros a k' [[_ ?] | [? Ha]]%insert_Some_inv; [done |]. rewrite list_lookup_insert_ne by done. by apply H6.
  - rewrite (count_insert _ _ _ _ Hi), Hn. lia.
  - intros k' v'. rewrite lookup_delete_Some. split.
    + intros [Hne Hm']. apply Hm in Hm' as (j & Hj & Hv). exists j. assert (i <> j) by congruence.
      by rewrite !list_lookup_insert_ne.
    + intros (j & [[_ ?] | [? Hj]]%insert_Some_inv & [[? _] | [_ Hv]]%insert_Some_inv); try done.
      split; [| apply Hm; by exists j]. intros <-. by pose proof (H5 _ _ _ Hi Hj).
Qed.

(** Twice as many slots, the same entries. *)
Lemma rep_grow d m :
  rep d m -> size d < 2 ^ 29 ->
  exists d', dictionary_grow true d = (0, d') /\ rep d' m /\ n d' = n d /\ size d' = 2 * size d.
Proof.
  intros [[[H1 H2 H3 H4 H5 H6] Hn] Hm] Hs. unfold dictionary_grow. cbn [negb].
  rewrite !take_ge by lia. eexists. split; [done |].
  assert (K : forall (j : nat) k, (key d ++ replicate (Z.to_nat (size d)) None) !! j = Some (Some k) <-> key d !! j = Some (Some k)).
  { intros j k. rewrite lookup_app_Some. split; [| auto]. intros [? | [_ [? _]%lookup_replicate]]; done. }
  split; [split; [split; [split |] |] | cbn; lia]; cbn [size key val hash n];
    rewrite ?length_app, ?length_replicate; try lia.
  - intros a b k Ha%K Hb%K. by eapply H5.
  - intros a k Ha%K. apply lookup_app_l_Some. by apply H6.
  - rewrite omap_app, length_app, Hn.
    assert (E : forall c, omap id (replicate c (@None cstr)) = []) by (intros c; induction c; cbn; auto).
    rewrite E. cbn. lia.
  - intros k v. rewrite Hm. split; intros (j & Hj & Hv); exists j; rewrite ?K in *; (split; [done |]).
    + by apply lookup_app_l_Some.
    + rewrite lookup_app_l in Hv; [done |]. rewrite H3, <- H2. by eapply lookup_lt_Some.
Qed.

Lemma set_full ok_key ok_val d m k v :
  rep d m -> n d = size d -> m !! k = None ->
  dictionary_set false ok_key ok_val (Some d) (Some k) v = Ok (-1, Some d).
Proof.
  intros Hr Hfull Hk. unfold dictionary_set.
  destruct (search_rep d m k Hr) as [(i & v' & _ & _ & _ & ?) | (E & _ & _)]; [congruence |].
  assert (En : (if n d >? 0 then search d (Some k) else Ok None) = Ok None) by (destruct (n d >? 0); done).
  rewrite En. cbn [mbind res_bind]. by rewrite Hfull, Z.eqb_refl.
Qed.

(** The slot an absent key goes to, with its copies [k'] and [v']. *)
Lemma set_absent ok_key ok_val d m k v :
  rep d m -> n d < size d -> m !! k = None ->
  exists i : nat, key d !! i = Some None /\
    dictionary_set true ok_key ok_val (Some d) (Some k) v =
      Ok (0, Some (MkDict (n d + 1) (size d) (<[i := xstrdup ok_val v]> (val d)) (<[i := xstrdup ok_key (Some k)]> (key d))
                     (<[i := dictionary_hash (Some k)]> (hash d)))).
Proof.
  intros Hr Hlt Hk. pose proof (rep_shape _ _ Hr) as Hs. destruct (Hr) as [[_ Hn] _].
  destruct (search_rep d m k Hr) as [(i & v' & _ & _ & _ & ?) | (E & _ & _)]; [congruence |].
  assert (En : (if n d >? 0 then search d (Some k) else Ok None) = Ok None) by (destruct (n d >? 0); done).
  unfold dictionary_set. rewrite En. cbn [mbind res_bind]. rewrite (proj2 (Z.eqb_neq _ _)) by lia.
  cbn [negb Z.eqb]. rewrite ptr_off_Ok by lia. cbn [mbind res_bind].
  pose proof (sh_key _ Hs) as Hl. pose proof (sh_size _ Hs) as Hsz.
  destruct (free_slot (key d)) as [j Hj]; [lia |].
  apply lookup_lt_Some in Hj as Hjl.
  destruct (probe_spec d (2 * Z.to_nat (size d)) (Z.to_nat (n d)) j) as (i & -> & Hi); [done | lia | done | case_decide; lia |].
  cbn [mbind res_bind]. rewrite int_op_in by (unfold INT_MIN, INT_MAX; lia). cbn [mbind res_bind].
  rewrite store_ok by (done || by eapply lookup_lt_Some). cbn [mbind res_bind]. by exists i.
Qed.

Lemma set_grown ok_key ok_val d d' m k v :
  rep d m -> n d = size d -> m !! k = None -> dictionary_grow true d = (0, d') -> n d' < size d' -> rep d' m ->
  dictionary_set true ok_key ok_val (Some d) (Some k) v = dictionary_set true ok_key ok_val (Some d') (Some k) v.
Proof.
  intros Hr Hfull Hk Hg Hlt Hr'. unfold dictionary_set.
  destruct (search_rep d m k Hr) as [(i & v' & _ & _ & _ & ?) | (E & _ & _)]; [congruence |].
  destruct (search_rep d' m k Hr') as [(i & v' & _ & _ & _ & ?) | (E' & _ & _)]; [congruence |].
  assert (En : (if n d >? 0 then search d (Some k) else Ok None) = Ok None) by (destruct (n d >? 0); done).
  assert (En' : (if n d' >? 0 then search d' (Some k) else Ok None) = Ok None) by (destruct (n d' >? 0); done).
  rewrite En, En'. cbn [mbind res_bind]. rewrite Hfull, Z.eqb_refl, Hg, (proj2 (Z.eqb_neq (n d') _)) by lia. done.
Qed.

(** The arrays double when they are full, and only then. *)
Lemma set_ok_size d m k v :
  rep d m -> size d < 2 ^ 29 ->
  exists d', dictionary_set true true true (Some d) (Some k) v = Ok (0, Some d') /\ rep d' (<[k := v]> m) /\
    size d' <= Z.max (size d) (2 * n d).
Proof.
  intros Hr Hsz.
  destruct (m !! k) as [v0 |] eqn:Hk.
  - destruct (search_rep d m k Hr) as [(i & v' & E & Hi & Hv & _) | (_ & ? & _)]; [| congruence].
    destruct (Hr) as [[Hs Hn] _]. unfold dictionary_set.
    assert (0 < n d).
    { rewrite Hn. pose proof (count_insert (key d) i (Some k) None Hi). cbn in *. lia. }
    rewrite (proj2 (Z.gtb_lt _ _)), E by done. cbn [mbind res_bind].
    rewrite wr_ok by (by eapply lookup_lt_Some). cbn [mbind res_bind]. eexists. split; [done |].
    split; [| cbn [size]; lia].
    replace (xstrdup true v) with v by (by destruct v). by apply rep_update.
  - assert (Hn : n d <= size d).
    { destruct (Hr) as [[Hs Hn] _]. pose proof (omap_le (key d)). rewrite (sh_key _ Hs) in *.
      pose proof (sh_size _ Hs). lia. }
    assert (G : exists d1, rep d1 m /\ n d1 < size d1 /\ size d1 <= Z.max (size d) (2 * n d) /\
      dictionary_set true true true (Some d) (Some k) v = dictionary_set true true true (Some d1) (Some k) v).
    { destruct (decide (n d = size d)) as [Hfull | ?]; [| exists d; split_and!; [done | lia | lia | done]].
      destruct (rep_grow d m Hr Hsz) as (d1 & Hg & Hr1 & Hn1 & Hs1).
      pose proof (sh_size _ (rep_shape _ _ Hr)). assert (n d1 < size d1) by lia.
      exists d1. split_and!; [done | done | lia |]. by eapply set_grown. }
    destruct G as (d1 & Hr1 & Hlt & Hmax & ->).
    destruct (set_absent true true d1 m k v Hr1 Hlt Hk) as (i & Hi & ->). eexists. split; [done |].
    split; [| exact Hmax].
    replace (xstrdup true v) with v by (by destruct v). by apply rep_insert.
Qed.

Lemma set_ok d m k v :
  rep d m -> size d < 2 ^ 29 ->
  exists d', dictionary_set true true true (Some d) (Some k) v = Ok (0, Some d') /\ rep d' (<[k := v]> m).
Proof. intros Hr Hs. destruct (set_ok_size d m k v Hr Hs) as (d' & E & Hr' & _). by exists d'. Qed.

(** [d->n] is the size of the map. *)
Lemma distinct_NoDup (l : list (option cstr)) :
  (forall (i j : nat) k, l !! i = Some (Some k) -> l !! j = Some (Some k) -> i = j) -> NoDup (omap id l).
Proof.
  induction l as [| x l IH]; intros H; [constructor |].
  assert (Hl : NoDup (omap id l)) by (apply IH; intros i j k Hi Hj; enough (S i = S j) by lia; by apply (H (S i) (S j) k)).
  destruct x as [k |]; [| exact Hl]. constructor; [| exact Hl].
  intros (y & Hy & E)%list_elem_of_omap. cbn in E. subst y. apply list_elem_of_lookup_1 in Hy as [j Hj]. specialize (H 0%nat (S j) k eq_refl Hj). lia.
Qed.

Lemma rep_size d m : rep d m -> n d = Z.of_nat (base.size m).
Proof.
  intros [[Hs Hn] Hm]. rewrite Hn. f_equal. rewrite <- size_dom.
  replace (dom m) with (list_to_set (omap id (key d)) : gset cstr).
  - by rewrite size_list_to_set by apply distinct_NoDup, Hs.
  - apply set_eq. intros k. rewrite elem_of_list_to_set, list_elem_of_omap, elem_of_dom. split.
    + intros (y & Hy & E). cbn in E. subst y. apply list_elem_of_lookup_1 in Hy as [i Hi].
      destruct (rd_lt (val d) i) as (v & _ & Hv); [rewrite (sh_val _ Hs), <- (sh_key _ Hs); by eapply lookup_lt_Some |].
      exists v. apply Hm. by exists i.
    + intros [v (i & Hi & _)%Hm]. exists (Some k). split; [by eapply list_elem_of_lookup_2 | done].
Qed.

Lemma get_ok {P} (str : option cstr -> P) d m k def :
  rep d m -> dictionary_get str d (Some k) def = Ok (match m !! k with Some v => str v | None => def end).
Proof.
  intros Hr. unfold dictionary_get.
  destruct (search_rep d m k Hr) as [(i & v & -> & Hi & Hv & ->) | (-> & -> & _)]; cbn [mbind res_bind]; [| done].
  by rewrite (rd_Ok _ _ _ Hv).
Qed.

Lemma unset_ok d m k :
  rep d m -> exists d', dictionary_unset (Some d) (Some k) = Ok (Some d') /\ rep d' (delete k m).
Proof.
  intros Hr. unfold dictionary_unset.
  destruct (search_rep d m k Hr) as [(i & v & -> & Hi & Hv & Hk) | (-> & Hk & _)]; cbn [mbind res_bind].
  - destruct (Hr) as [[Hs Hn] _]. pose proof (sh_size _ Hs) as Hb. pose proof (omap_le (key d)) as Hle.
    rewrite (sh_key _ Hs) in Hle. rewrite int_op_in by (unfold INT_MIN, INT_MAX; lia). cbn [mbind res_bind].
    rewrite store_ok by (done || by eapply lookup_lt_Some). cbn [mbind res_bind]. eexists. split; [done |].
    by apply rep_delete.
  - exists d. split; [done |]. by rewrite delete_id.
Qed.

(** C17.  A dictionary implements a finite map from strings to strings or NULL.  On a dictionary that
    represents [m]: looking a key up gives its value, or the default when it is absent; setting a key
    binds it, growing the arrays when they are full; unsetting removes it; a full dictionary that
    cannot grow refuses a new key and is unchanged; NULL arguments are refused.  A new key whose copy
    cannot be allocated is reported as set although it is not in the dictionary, and counted. *)
Theorem dictionary_map (d : dictionary) (m : gmap cstr (option cstr)) (Hr : rep d m) (Hsz : size d < 2 ^ 29) :
  (forall P (str : option cstr -> P) k def,
     dictionary_get str d (Some k) def = Ok (match m !! k with Some v => str v | None => def end)) /\
  (forall k v, exists d', dictionary_set true true true (Some d) (Some k) v = Ok (0, Some d') /\ rep d' (<[k := v]> m)) /\
  (forall k, exists d', dictionary_unset (Some d) (Some k) = Ok (Some d') /\ rep d' (delete k m)) /\
  (forall k v b c, n d = size d -> m !! k = None -> dictionary_set false b c (Some d) (Some k) v = Ok (-1, Some d)) /\
  (forall v a b c, dictionary_set a b c (Some d) None v = Ok (-1, Some d) /\ dictionary_unset (Some d) None = Ok (Some d)) /\
  (forall k v c, n d < size d -> m !! k = None ->
     exists d', dictionary_set true false c (Some d) (Some k) v = Ok (0, Some d') /\
       n d' = n d + 1 /\ key d' = key d).
Proof.
  split_and!.
  - intros. by apply get_ok.
  - intros k v. by apply set_ok.
  - intros k. by apply unset_ok.
  - intros k v b c. by apply set_full.
  - done.
  - intros k v c Hlt Hk. destruct (set_absent false c d m k v Hr Hlt Hk) as (i & Hi & ->). eexists. split; [done |].
    cbn. split; [done |]. by apply list_insert_id.
Qed.

Lemma dictionary_new_rep size' d :
  size' < 2 ^ 30 -> dictionary_new true true true true size' = Some d -> rep d ∅ /\ DICTMINSZ <= size d.
Proof.
  intros Hs [= <-]. set (sz := if size' <? DICTMINSZ then DICTMINSZ else size').
  assert (Hsz : DICTMINSZ <= sz < 2 ^ 30).
  { unfold sz. destruct (Z.ltb_spec size' DICTMINSZ); unfold DICTMINSZ in *; lia. }
  assert (E : forall c, omap id (replicate c (@None cstr)) = []) by (intros c; induction c; cbn; auto).
  split; [split; [split; [split |] |] | cbn; lia]; cbn [size key val hash n]; rewrite ?length_replicate; try done;
    [unfold DICTMINSZ in *; lia | | | by rewrite E |].
  - intros i j k [? _]%lookup_replicate. done.
  - intros i k [? _]%lookup_replicate. done.
  - intros k v. rewrite lookup_empty. split; [done |]. intros (i & [? _]%lookup_replicate & _). done.
Qed.

Definition sample_dict : dictionary :=
  MkDict 1 2 [None; Some [49]] [None; Some [97]] [0; dictionary_hash (Some [97])].

Lemma sample_dict_rep : rep sample_dict {[ [97] := Some [49] ]}.
Proof.
  split; [split; [split |] |]; try done.
  - intros [| [| [| ?]]] [| [| [| ?]]] k; cbn; congruence.
  - intros [| [| [| ?]]] k [=]; by subst.
  - intros k v. rewrite lookup_singleton_Some. split.
    + intros [<- <-]. by exists 1%nat.
    + intros ([| [| [| ?]]] & Hk & Hv); cbn in *; naive_solver.
Defined.

Lemma dictionary_map_witness :
  dictionary_get id sample_dict (Some [97]) None = Ok (Some [49]) /\
  exists d', dictionary_set true true true (Some sample_dict) (Some [98]) (Some [50]) = Ok (0, Some d') /\
    rep d' (<[[98] := Some [50]]> {[ [97] := Some [49] ]}).
Proof.
  destruct (dictionary_map sample_dict _ sample_dict_rep eq_refl) as (H1 & H2 & _).
  split; [exact (H1 _ id [97] None) | exact (H2 [98] (Some [50]))].
Defined.
