(* ===== verification/Ini.v ===== *)
(** * Configuration lookups

    The accessors of [common/utils/iniparser.c] over the dictionary; a key is "section:name" in lower
    case, a section is a key without a colon, bound to NULL.  Files are
    in [IniFile]. *)

From S2P Require Import Prelude Dictionary.

Definition ASCIILINESZ : Z := 1024.

Definition tolower (c : Z) : Z := if isupper c then c + 32 else c.

Definition isspace (c : Z) : bool := (c =? 32) || ((9 <=? c) && (c <=? 13)).

(** [len] is the size of the output buffer. *)
Definition strlwc (inp : option cstr) (len : Z) : option cstr :=
  match inp with
  | None => None
  | Some s => if len =? 0 then None else Some (map tolower (take (Z.to_nat (len - 1)) s))
  end.

(** The string after its leading and before its trailing blanks, and its length. *)
Fixpoint drop_space (s : cstr) : cstr :=
  match s with c :: s' => if isspace c then drop_space s' else s | [] => [] end.

Definition strstrip (s : option cstr) : Z * option cstr :=
  match s with
  | None => (0, None)
  | Some s => let s := rev (drop_space (rev (drop_space s))) in (Z.of_nat (length s), Some s)
  end.

(** A pointer a lookup returns: a string of the dictionary (or NULL), or [INI_INVALID_KEY]. *)
Inductive ptr : Type := Str (s : option cstr) | INI_INVALID_KEY.

Section accessors.
(** [strtol(s, NULL, 0)] of the C library. *)
Context (strtol : cstr -> Z).

Definition iniparser_getstring {P} (str : option cstr -> P) (d : option dictionary) (k : option cstr) (def : P) : res P :=
  match d, k with
  | Some d, Some _ => dictionary_get str d (strlwc k (ASCIILINESZ + 1)) def
  | _, _ => Ok def
  end.

(** A key bound to NULL makes [strtol] read NULL. *)
Definition iniparser_getlongint (d : option dictionary) (k : option cstr) (notfound : Z) : res Z :=
  str ← iniparser_getstring Str d k INI_INVALID_KEY;
  match str with
  | INI_INVALID_KEY => Ok notfound
  | Str s => s ← of_option s; Ok (strtol s)
  end.

Definition iniparser_getint (d : option dictionary) (k : option cstr) (notfound : Z) : res Z :=
  v ← iniparser_getlongint d k notfound; Ok (i32 v).

(** [atof] makes a value of a type [D]. *)
Definition iniparser_getdouble {D} (atof : cstr -> D) (d : option dictionary) (k : option cstr) (notfound : D) : res D :=
  str ← iniparser_getstring Str d k INI_INVALID_KEY;
  match str with
  | INI_INVALID_KEY => Ok notfound
  | Str s => s ← of_option s; Ok (atof s)
  end.

Definition one_of (c : Z) (l : cstr) : bool := existsb (Z.eqb c) l.

Definition iniparser_getboolean (d : option dictionary) (k : option cstr) (notfound : Z) : res Z :=
  str ← iniparser_getstring Str d k INI_INVALID_KEY;
  match str with
  | INI_INVALID_KEY => Ok notfound
  | Str s =>
      s ← of_option s;
      let c := nth 0 s 0 in
      Ok (if one_of c (chars "yY1tT") then 1 else if one_of c (chars "nN0fF") then 0 else notfound)
  end.

Definition iniparser_find_entry (ini : option dictionary) (entry : option cstr) : res Z :=
  str ← iniparser_getstring Str ini entry INI_INVALID_KEY;
  Ok (match str with INI_INVALID_KEY => 0 | Str _ => 1 end).

Definition iniparser_set (og ok ov : bool) (ini : option dictionary) (entry v : option cstr) :=
  dictionary_set og ok ov ini (strlwc entry (ASCIILINESZ + 1)) v.

Definition iniparser_unset (ini : option dictionary) (entry : option cstr) :=
  dictionary_unset ini (strlwc entry (ASCIILINESZ + 1)).

(** [strchr(key, ':') == NULL] *)
Definition is_section (k : option cstr) : bool :=
  match k with Some k => negb (one_of 58 k) | None => false end.

Definition iniparser_getnsec (d : option dictionary) : Z :=
  match d with None => -1 | Some d => Z.of_nat (length (List.filter is_section (key d))) end.

(** The loop over the slots that counts sections until more than [n']. *)
Fixpoint secname_loop (ks : list (option cstr)) (found n' : Z) : option cstr :=
  match ks with
  | [] => None
  | k :: ks =>
      if is_section k then if found + 1 >? n' then k else secname_loop ks (found + 1) n'
      else secname_loop ks found n'
  end.

Definition iniparser_getsecname (d : option dictionary) (n' : Z) : option cstr :=
  match d with
  | None => None
  | Some d => if n' <? 0 then None else secname_loop (key d) 0 n'
  end.

Definition iniparser_dump (d : option dictionary) (f : bool) : cstr :=
  match d with
  | None => []
  | Some d =>
      if negb f then [] else
      concat (zip_with (fun k v => match k, v with
        | None, _ => []
        | Some k, Some v => [91] ++ k ++ chars "]=[" ++ v ++ [93; 10]
        | Some k, None => [91] ++ k ++ chars "]=UNDEF" ++ [10] end) (key d) (val d))
  end.
End accessors.

(** ** Lookups ignore case *)

(** The name an entry is stored under. *)
Definition entry_name (k : cstr) : cstr := map tolower (take 1024 k).

Lemma tolower_idem c : tolower (tolower c) = tolower c.
Proof.
  unfold tolower, isupper. destruct ((65 <=? c) && (c <=? 90)) eqn:E; [| by rewrite E].
  apply andb_true_iff in E as [H1%Z.leb_le H2%Z.leb_le]. by rewrite (proj2 (Z.leb_gt (c + 32) 90)), andb_false_r by lia.
Qed.

Lemma entry_name_idem k : entry_name (entry_name k) = entry_name k.
Proof.
  change (fmap tolower (take 1024 (fmap tolower (take 1024 k))) = fmap tolower (take 1024 k)).
  rewrite !fmap_take, take_take, Nat.min_id, <- list_fmap_compose. f_equal. apply list_fmap_ext.
  intros ? c _. apply tolower_idem.
Qed.

Lemma getstring_rep {P} (str : option cstr -> P) d m k def :
  rep d m -> iniparser_getstring str (Some d) (Some k) def =
    Ok (match m !! entry_name k with Some v => str v | None => def end).
Proof. intros Hr. by apply (get_ok str d m). Qed.

Lemma filter_nth (ks : list (option cstr)) found n' :
  found <= n' -> secname_loop ks found n' =
    match List.filter is_section ks !! Z.to_nat (n' - found) with Some k => k | None => None end.
Proof.
  revert found; induction ks as [| k ks IH]; intros found H; cbn [secname_loop List.filter]; [done |].
  destruct (is_section k); [| by apply IH]. destruct (Z.gtb_spec (found + 1) n').
  - by replace (n' - found) with 0 by lia.
  - rewrite IH by lia. by replace (Z.to_nat (n' - found)) with (S (Z.to_nat (n' - (found + 1)))) by lia.
Qed.

(** Configuration lookups.  On a dictionary that represents [m], with names cut to 1024 bytes and
    compared in lower case: a string is the entry's value or the default; an integer is the value read
    by [strtol] and cut to an [int], the default when there is no entry, and an access through NULL
    when the name is a section's; a boolean depends on the first character only; an entry set under one
    spelling is found under every other one and gone after it is unset; the sections are the keys
    without a colon, each returned for one index below their number. *)
Theorem iniparser_lookup (strtol : cstr -> Z) (d : dictionary) (m : gmap cstr (option cstr))
    (Hr : rep d m) (Hsz : size d < 2 ^ 29) :
  (forall k def, iniparser_getstring id (Some d) (Some k) def = Ok (default def (m !! entry_name k))) /\
  (forall k z, iniparser_getint strtol (Some d) (Some k) z =
     match m !! entry_name k with Some (Some s) => Ok (i32 (strtol s)) | Some None => UB | None => Ok (i32 z) end) /\
  (forall k z, iniparser_find_entry (Some d) (Some k) = Ok (if m !! entry_name k then 1 else 0) /\
     forall c s, m !! entry_name k = Some (Some (c :: s)) ->
       iniparser_getboolean (Some d) (Some k) z =
         Ok (if decide (c ∈ chars "yY1tT") then 1 else if decide (c ∈ chars "nN0fF") then 0 else z)) /\
  (forall k v, exists d', iniparser_set true true true (Some d) (Some k) v = Ok (0, Some d') /\
     forall k' def, entry_name k' = entry_name k -> iniparser_getstring id (Some d') (Some k') def = Ok v) /\
  (forall k, exists d', iniparser_unset (Some d) (Some k) = Ok (Some d') /\
     forall k', entry_name k' = entry_name k -> iniparser_find_entry (Some d') (Some k') = Ok 0) /\
  (forall i, 0 <= i -> iniparser_getsecname (Some d) i = None <-> iniparser_getnsec (Some d) <= i).
Proof.
  split_and!.
  - intros k def. rewrite (getstring_rep id d m k def Hr). by destruct (m !! entry_name k).
  - intros k z. unfold iniparser_getint, iniparser_getlongint. rewrite (getstring_rep Str d m _ _ Hr). cbn [mbind res_bind].
    by destruct (m !! entry_name k) as [[s |] |].
  - intros k z. unfold iniparser_find_entry, iniparser_getboolean. rewrite (getstring_rep Str d m _ _ Hr). cbn [mbind res_bind].
    split; [by destruct (m !! entry_name k) |]. intros c s ->. cbn [of_option mbind res_bind nth].
    assert (E : forall l, one_of c l = bool_decide (c ∈ l)).
    { intros l. unfold one_of. apply eq_bool_prop_intro. rewrite bool_decide_spec.
      rewrite Is_true_true, existsb_exists, list_elem_of_In. setoid_rewrite Z.eqb_eq. naive_solver. }
    rewrite !E. unfold bool_decide. by repeat case_decide.
  - intros k v. destruct (set_ok d m (entry_name k) v Hr Hsz) as (d' & E & Hr'). exists d'. split; [exact E |].
    intros k' def Hk. rewrite (getstring_rep id d' _ _ _ Hr'), Hk, lookup_insert_eq. done.
  - intros k. destruct (unset_ok d m (entry_name k) Hr) as (d' & E & Hr'). exists d'. split; [exact E |].
    intros k' Hk. unfold iniparser_find_entry. by rewrite (getstring_rep Str d' _ _ _ Hr'), Hk, lookup_delete_eq.
  - intros i Hi. cbn [iniparser_getsecname iniparser_getnsec]. rewrite (proj2 (Z.ltb_ge _ _)), filter_nth, Z.sub_0_r by lia.
    destruct (List.filter is_section (key d) !! Z.to_nat i) as [k |] eqn:E.
    + pose proof (lookup_lt_Some _ _ _ E). split; [| lia]. intros ->.
      apply list_elem_of_lookup_2, list_elem_of_In, filter_In in E as [_ E]. done.
    + apply lookup_ge_None in E. split; [lia | done].
Qed.

Lemma iniparser_lookup_witness :
  iniparser_getstring id (Some sample_dict) (Some (chars "A")) None = Ok (Some [49]) /\
  iniparser_getint (fun _ => 1) (Some sample_dict) (Some [98]) 7 = Ok 7.
Proof.
  destruct (iniparser_lookup (fun _ => 1) sample_dict _ sample_dict_rep eq_refl) as (H1 & H2 & _).
  split; [exact (H1 (chars "A") None) | exact (H2 [98] 7)].
Defined.
