(* ===== verification/Cache.v ===== *)
(** * The configuration cache

    [mw/cache/cache.c] and [mw/cache/cache_tima.c]: the node that keeps the addresses of the network,
    loaded from the configuration file.  Text is kept in buffers of 64 bytes.  [load] is the dictionary
    [iniparser_load] makes of the file, [None] when it cannot. *)

From S2P Require Import Prelude Dictionary Ini.

Record CacheNetworkConfig := MkConfig {
  http_ip : list Z;
  http_port : Z;
  rtmp_ip : list Z;
  rtmp_port : Z
}.

Definition CACHE_TIMA_BEGIN : Z := 0.
Definition CACHE_TIMA_NETWORK : Z := 1.
Definition CACHE_TIMA_END : Z := 2.

(** [strcpy] and [strncpy] into a buffer. *)
Definition strcpy (buf : list Z) (s : cstr) : res (list Z) := blk_store 0 (s ++ [0]) buf.

Definition strncpy (buf : list Z) (s : cstr) (n' : nat) : res (list Z) :=
  blk_store 0 (take n' s ++ replicate (n' - length s) 0) buf.

(** The string a buffer holds: reading goes on past a buffer without a zero. *)
Fixpoint cstr_of (buf : list Z) : res cstr :=
  match buf with
  | [] => UB
  | c :: buf => if c =? 0 then Ok [] else s ← cstr_of buf; Ok (c :: s)
  end.

Section code.
Context (strtol : cstr -> Z) (load : option dictionary).

(** The memory of [cache_tima_create]. *)
Definition cache_tima_create : CacheNetworkConfig := MkConfig (replicate 64 0) 0 (replicate 64 0) 0.

(** A value that is set and not empty is copied, otherwise the default is. *)
Definition load_ip (ini : dictionary) (name : string) (def : string) (buf : list Z) : res (list Z) :=
  s ← iniparser_getstring id (Some ini) (Some (chars name)) None;
  match s with
  | Some (c :: s) => strncpy buf (c :: s) 64
  | _ => strcpy buf (chars def)
  end.

Definition cache_tima_load_conf (thiz : CacheNetworkConfig) : res (Z * CacheNetworkConfig) :=
  match load with
  | None => Ok (-1, thiz)
  | Some ini =>
      hip ← load_ip ini "network:http_ip" "tg.test.timanetwork.cn" (http_ip thiz);
      hport ← iniparser_getint strtol (Some ini) (Some (chars "network:http_port")) 8114;
      rip ← load_ip ini "network:rtmp_ip" "127.0.0.1" (rtmp_ip thiz);
      rport ← iniparser_getint strtol (Some ini) (Some (chars "network:rtmp_port")) 1935;
      Ok (0, MkConfig hip (u32 hport) rip (u32 rport))
  end.

Definition cache_tima_start (thiz : CacheNetworkConfig) : res CacheNetworkConfig :=
  hip ← strcpy (http_ip thiz) (chars "tg.test.timanetwork.cn");
  rip ← strcpy (rtmp_ip thiz) (chars "127.0.0.1");
  '(_, thiz) ← cache_tima_load_conf (MkConfig hip 8114 rip 1935);
  Ok thiz.

(** [data] is the caller's structure; the result is the return value and what is in it afterwards. *)
Definition cache_tima_get (thiz : CacheNetworkConfig) (id : Z) (data : CacheNetworkConfig) : Z * CacheNetworkConfig :=
  if id =? CACHE_TIMA_NETWORK then (0, thiz) else (-1, data).

Definition cache_tima_set (thiz : CacheNetworkConfig) (id : Z) (data : CacheNetworkConfig) : Z * CacheNetworkConfig :=
  if id =? CACHE_TIMA_NETWORK then (0, data) else (-1, thiz).

(** The cache node holds the network node once it is started. *)
Definition in_tima (id : Z) : bool := (id >? CACHE_TIMA_BEGIN) && (id <? CACHE_TIMA_END).

Definition cache_get (tima : option CacheNetworkConfig) (id : Z) (data : CacheNetworkConfig)
    : res (Z * CacheNetworkConfig) :=
  if in_tima id then t ← of_option tima; Ok (0, (cache_tima_get t id data).2) else Ok (0, data).

Definition cache_set (tima : option CacheNetworkConfig) (id : Z) (data : CacheNetworkConfig)
    : res (Z * option CacheNetworkConfig) :=
  if in_tima id then t ← of_option tima; Ok (0, Some (cache_tima_set t id data).2) else Ok (0, tima).

Definition cache_start (tima : option CacheNetworkConfig) : res (option CacheNetworkConfig) :=
  match tima with
  | None => t ← cache_tima_start cache_tima_create; Ok (Some t)
  | Some t => Ok (Some t)
  end.
End code.

(** ** What the rest of the program reads *)

(** A configured text: bound and not empty. *)
Definition text (m : gmap cstr (option cstr)) (name : string) : option cstr :=
  match m !! chars name with Some (Some (c :: s)) => Some (c :: s) | _ => None end.

(** What a buffer of 64 bytes gives back for a text. *)
Definition read_back (s : option cstr) (def : string) : res cstr :=
  match s with
  | None => Ok (chars def)
  | Some s => if decide (length s < 64)%nat then Ok s else UB
  end.

Definition number (strtol : cstr -> Z) (m : gmap cstr (option cstr)) (name : string) (def : Z) : Z :=
  match m !! chars name with Some (Some s) => u32 (i32 (strtol s)) | _ => def end.

Lemma cstr_of_app s rest : Forall (fun c => c <> 0) s -> cstr_of (s ++ 0 :: rest) = Ok s.
Proof.
  induction 1 as [| c s Hc _ IH]; [done |]. cbn. rewrite (proj2 (Z.eqb_neq _ _)) by done. cbn in IH. by rewrite IH.
Qed.

Lemma cstr_of_none s : Forall (fun c => c <> 0) s -> cstr_of s = UB.
Proof. induction 1 as [| c s Hc _ IH]; [done |]. cbn. rewrite (proj2 (Z.eqb_neq _ _)) by done. by rewrite IH. Qed.

Lemma strcpy_ok buf s : (length s < length buf)%nat -> Forall (fun c => c <> 0) s ->
  exists b, strcpy buf s = Ok b /\ length b = length buf /\ cstr_of b = Ok s.
Proof.
  intros Hl Hs. unfold strcpy, blk_store. rewrite decide_True by (rewrite length_app; cbn; lia).
  eexists. split; [done |]. rewrite take_0. cbn [app]. split.
  - rewrite !length_app, length_drop. cbn. lia.
  - rewrite <- app_assoc. by apply cstr_of_app.
Qed.

Lemma strncpy_ok (cap : nat) buf s : length buf = cap -> Forall (fun c => c <> 0) s ->
  exists b, strncpy buf s cap = Ok b /\ length b = cap /\
    cstr_of b = if decide (length s < cap)%nat then Ok s else UB.
Proof.
  intros Hl Hs. unfold strncpy, blk_store.
  assert (Hn : length (take cap s ++ replicate (cap - length s) 0) = cap)
    by (rewrite length_app, length_take, length_replicate; lia).
  rewrite decide_True by lia. eexists. split; [done |]. rewrite take_0. cbn [app].
  rewrite (drop_ge buf) by lia. rewrite app_nil_r. split; [done |]. case_decide.
  - rewrite take_ge by lia. destruct (cap - length s)%nat as [| j] eqn:E; [lia |]. by apply cstr_of_app.
  - replace (cap - length s)%nat with 0%nat by lia. rewrite app_nil_r. apply cstr_of_none. by apply Forall_take.
Qed.

(** Names in lower case are stored as they are. *)
Lemma load_ip_ok d m name def buf :
  rep d m -> entry_name (chars name) = chars name -> length buf = 64%nat ->
  (length (chars def) < 64)%nat -> Forall (fun c => c <> 0) (chars def) ->
  (forall s, text m name = Some s -> Forall (fun c => c <> 0) s) ->
  exists b, load_ip d name def buf = Ok b /\ length b = 64%nat /\ cstr_of b = read_back (text m name) def.
Proof.
  intros Hr Hn Hb Hd Hdz Ht. unfold load_ip. rewrite (getstring_rep id d m _ _ Hr), Hn. cbn [mbind res_bind].
  unfold text in *. destruct (m !! chars name) as [[[| c s] |] |]; cbn [id];
    try (destruct (strcpy_ok buf (chars def)) as (b & -> & Hl & E); [lia | done | exists b; by rewrite Hl]).
  destruct (strncpy_ok 64 buf (c :: s) Hb) as (b & -> & Hl & E); [by apply Ht |]. by exists b.
Qed.

(** C34.  The network configuration.  Starting the cache loads it: an address is the configured text,
    the built-in one when it is missing or empty, and one that cannot be read (no terminating zero)
    when the text has 64 bytes or more; a port is the configured number or the built-in one; without a
    file everything is built in.  Getting the configuration returns it, setting it replaces it, and
    every other identifier changes nothing. *)
Theorem cache_network_config (strtol : cstr -> Z) (d : dictionary) (m : gmap cstr (option cstr))
    (Hr : rep d m)
    (Hz : forall k s, m !! k = Some (Some s) -> Forall (fun c => c <> 0) s)
    (Hp : forall k, k = "network:http_port" \/ k = "network:rtmp_port" -> m !! chars k <> Some None) :
  (exists t, cache_start strtol (Some d) None = Ok (Some t) /\
     cstr_of (http_ip t) = read_back (text m "network:http_ip") "tg.test.timanetwork.cn" /\
     cstr_of (rtmp_ip t) = read_back (text m "network:rtmp_ip") "127.0.0.1" /\
     http_port t = number strtol m "network:http_port" 8114 /\
     rtmp_port t = number strtol m "network:rtmp_port" 1935) /\
  (exists t, cache_start strtol None None = Ok (Some t) /\
     cstr_of (http_ip t) = Ok (chars "tg.test.timanetwork.cn") /\ http_port t = 8114 /\
     cstr_of (rtmp_ip t) = Ok (chars "127.0.0.1") /\ rtmp_port t = 1935) /\
  (forall t data, cache_get (Some t) CACHE_TIMA_NETWORK data = Ok (0, t) /\
     cache_set (Some t) CACHE_TIMA_NETWORK data = Ok (0, Some data) /\
     forall id, id <> CACHE_TIMA_NETWORK -> cache_get (Some t) id data = Ok (0, data) /\
       cache_set (Some t) id data = Ok (0, Some t)).
Proof.
  assert (Ht : forall name s, text m name = Some s -> Forall (fun c => c <> 0) s).
  { intros name s. unfold text. destruct (m !! chars name) as [[[| c l] |] |] eqn:E; try done. intros [= <-].
    by eapply Hz. }
  assert (Hint : forall name z, entry_name (chars name) = chars name -> m !! chars name <> Some None -> 0 <= z < 2 ^ 31 ->
    exists v, iniparser_getint strtol (Some d) (Some (chars name)) z = Ok v /\ u32 v = number strtol m name z).
  { intros name z Hn Hm Hz'. unfold iniparser_getint, iniparser_getlongint.
    rewrite (getstring_rep Str d m _ _ Hr), Hn. cbn [mbind res_bind]. unfold number.
    destruct (m !! chars name) as [[s |] |]; [by eexists | done |]. eexists. split; [done |].
    rewrite swrap_small by (cbn; lia). apply wrap_small. lia. }
  assert (Hid : forall id, id <> CACHE_TIMA_NETWORK -> in_tima id = false).
  { intros id Hn. unfold in_tima, CACHE_TIMA_NETWORK, CACHE_TIMA_BEGIN, CACHE_TIMA_END in *.
    destruct (Z.gtb_spec id 0), (Z.ltb_spec id 2); cbn; lia || done. }
  split_and!.
  - unfold cache_start, cache_tima_start. destruct (strcpy_ok (http_ip cache_tima_create) (chars "tg.test.timanetwork.cn"))
      as (b1 & -> & L1 & _); [by_decide | by_decide |]. cbn [mbind res_bind].
    destruct (strcpy_ok (rtmp_ip cache_tima_create) (chars "127.0.0.1")) as (b2 & -> & L2 & _); [by_decide | by_decide |].
    cbn [mbind res_bind]. unfold cache_tima_load_conf. cbn [http_ip rtmp_ip].
    destruct (load_ip_ok d m "network:http_ip" "tg.test.timanetwork.cn" b1 Hr) as (h1 & -> & _ & E1);
      [done | done | by_decide | by_decide | apply Ht |]. cbn [mbind res_bind].
    destruct (Hint "network:http_port" 8114) as (p1 & -> & P1); [done | apply Hp; auto | lia |]. cbn [mbind res_bind].
    destruct (load_ip_ok d m "network:rtmp_ip" "127.0.0.1" b2 Hr) as (h2 & -> & _ & E2);
      [done | done | by_decide | by_decide | apply Ht |]. cbn [mbind res_bind].
    destruct (Hint "network:rtmp_port" 1935) as (p2 & -> & P2); [done | apply Hp; auto | lia |]. cbn [mbind res_bind].
    eexists. split; [done |]. cbn [http_ip rtmp_ip http_port rtmp_port]. done.
  - eexists. split; [vm_compute; reflexivity |]. done.
  - intros t data. split_and!; [done | done |]. intros id Hn. unfold cache_get, cache_set. by rewrite (Hid id Hn).
Qed.


(** A configuration with an RTMP address only. *)
Definition empty_dict : dictionary := MkDict 0 128 (replicate 128 None) (replicate 128 None) (replicate 128 0).

Definition sample_ini : dictionary :=
  match dictionary_set true true true (Some empty_dict) (Some (chars "network:rtmp_ip")) (Some (chars "10.0.0.7")) with
  | Ok (_, Some d) => d
  | _ => empty_dict
  end.

Lemma cache_network_config_witness :
  exists t, cache_start (fun _ => 0) (Some sample_ini) None = Ok (Some t) /\
    cstr_of (http_ip t) = Ok (chars "tg.test.timanetwork.cn") /\ cstr_of (rtmp_ip t) = Ok (chars "10.0.0.7") /\
    http_port t = 8114 /\ rtmp_port t = 1935.
Proof.
  destruct (dictionary_new_rep 0 empty_dict eq_refl eq_refl) as [Hr0 _].
  destruct (set_ok empty_dict ∅ (chars "network:rtmp_ip") (Some (chars "10.0.0.7")) Hr0 eq_refl) as (d & E & Hr).
  assert (Hd : d = sample_ini) by (unfold sample_ini; rewrite E; reflexivity). rewrite Hd in Hr.
  refine (proj1 (cache_network_config (fun _ => 0) sample_ini _ Hr _ _)).
  - intros k s [[_ [= <-]] | [_ ?]]%lookup_insert_Some; [by_decide | done].
  - intros k [-> | ->]; vm_compute; discriminate.
Defined.
