(* ===== verification/Http.v ===== *)
(** * Asking for a stream's address over HTTP

    [mw/http/tima_http.c], [mw/http/tima_http_client.c] (the request and its answer),
    [mw/http/tima_get_property.c] and [mw/http/http_token.c] (the two requests and the parsing of their
    answers).  JSON is jansson's: a record of its operations.  evhttp's steps are flags that tell
    whether they succeed, its answer a value. *)

From S2P Require Import Prelude Buffer Cache.

Record jansson := Jansson {
  json : Type;
  json_loads : list Z -> option json;
  json_object_get : json -> list Z -> option json;
  json_string_value : json -> option (list Z);
  json_integer_value : json -> Z;
  json_dumps : list (list Z * list Z) -> list Z      (* of an object of strings *)
}.

Definition MAX_LEN : nat := 256.

Definition NODE_SUCCESS : Z := 0.
Definition NODE_FAIL : Z := 1.

(** ** The request *)

Definition HTTP_REQ_POST : Z := 0.
Definition HTTP_REQ_GET : Z := 1.
Definition HTTP_REQ_PUT : Z := 2.

Record TimaUri := MkUri { uri_type : Z; uri_ip : list Z; uri_port : Z; uri_path : list Z }.

(** [host] is a buffer of 32 bytes. *)
Record TimaHttpReq := MkHttpReq {
  req_id : Z;
  reqtype : Z;
  host : list Z;
  req_port : Z;
  req_url : list Z;
  req_data : option (list Z);
  req_retry : Z
}.

Record TimaHttpRsp := MkRsp { rsp_id : Z; status : Z; rsp_data : option (list Z); rsp_size : Z }.

Record HttpClient := MkClient { client_id : Z; client_rsp : TimaHttpRsp; retries : Z; client_req : TimaHttpReq }.

(** What evhttp does with a request that was started: no answer and the socket's error, or a status and
    a body. *)
Inductive answer : Type := NoAnswer (errcode : Z) | Answer (code : Z) (body : list Z).

Section request.
(** Whether the buffer, the connection and the request are created and the request started. *)
Context (ok_buffer ok_conn ok_req ok_make : bool).

(** The result is 0 and the client whose answer is awaited, or -1. *)
Definition tima_http_handle (req : TimaHttpReq) (rsp : TimaHttpRsp) : Z * option HttpClient :=
  let r := if req_retry req >? 1 then req_retry req else 1 in
  let req := MkHttpReq (req_id req) (reqtype req) (host req) (if req_port req =? 0 then 80 else req_port req)
               (req_url req) (req_data req) (req_retry req) in
  if ok_buffer && ok_conn && ok_req && ok_make then (0, Some (MkClient (req_id req) rsp r req)) else (-1, None).

(** [hbase]: whether the event base of the HTTP thread is there; [t_id] is the counter of requests.
    The return value of [tima_http_handle] is dropped. *)
Definition tima_http_post (hbase alloc_ok : bool) (t_id : Z) (uri : TimaUri) (post_data : list Z) (retry : Z)
    : res (Z * Z * option HttpClient) :=
  if negb hbase then Ok (-1, t_id, None) else
  if negb alloc_ok then Ok (-1, t_id, None) else
  t_id ← int_op (t_id + 1);
  host' ← strncpy (replicate 32 0) (uri_ip uri) 32;
  let req :=
    if uri_type uri =? HTTP_REQ_GET
    then MkHttpReq t_id (uri_type uri) host' (uri_port uri) (uri_path uri ++ post_data) None retry
    else MkHttpReq t_id (uri_type uri) host' (uri_port uri) (uri_path uri) (Some post_data) retry in
  Ok (0, t_id, (tima_http_handle req (MkRsp t_id 0 None 0)).2).
End request.

Section answer.
Context {W : Type} (callback : TimaHttpRsp -> W -> res W).

(** [client] is freed by every path: only its answer is passed on. *)
Definition http_handle_failed (errcode : Z) (client : HttpClient) (w : W) : res W :=
  let rsp := client_rsp client in
  callback (MkRsp (rsp_id rsp) errcode (rsp_data rsp) (rsp_size rsp)) w.

Definition http_handle_200 (input : list Z) (client : HttpClient) (w : W) : res W :=
  let rsp := client_rsp client in
  let len := Z.of_nat (length input) in
  let rsp := if len >? 0 then MkRsp (rsp_id rsp) (status rsp) (Some input) len else rsp in
  callback (MkRsp (rsp_id rsp) 200 (rsp_data rsp) (rsp_size rsp)) w.

Definition http_request_done (req : answer) (client : HttpClient) (w : W) : res W :=
  match req with
  | NoAnswer errcode => http_handle_failed errcode client w
  | Answer code body => if code =? 200 then http_handle_200 body client w else http_handle_failed code client w
  end.
End answer.

(** ** The stream's address and properties *)

Record TimaGetPropertyReq := MkPropReq { prop_flowid : Z; prop_sim : list Z; prop_ch : Z; prop_pfncb : bool }.

(** [uri] and [property] are the strings in buffers of [MAX_LEN] bytes. *)
Record PropertyPriv := MkProp {
  prop_req : TimaGetPropertyReq;
  uri : list Z;
  property : list Z;
  audio_type : Z;
  video_type : Z;
  post_data : option (list Z)
}.

(** [strcpy] into a field of [MAX_LEN] bytes. *)
Definition strcpy_field (s : list Z) : res (list Z) := if decide (length s < MAX_LEN)%nat then Ok s else UB.

(** The node's world: its private data until it is freed, and the calls of the requester's callback. *)
Record prop_world := MkPropWorld {
  prop : option PropertyPriv;
  calls : list (Z * option (list Z))
}.

Section property.
Context (J : jansson).

Definition set_codec (t : PropertyPriv) (a v : Z) := MkProp (prop_req t) (uri t) (property t) a v (post_data t).

(** The node's memory after [tima_get_property_create]. *)
Definition tima_get_property_create : PropertyPriv := MkProp (MkPropReq 0 [] 0 false) [] [] 0 0 (Some []).

Definition tima_get_property_set (t : PropertyPriv) (req : TimaGetPropertyReq) : PropertyPriv :=
  MkProp req (uri t) (property t) (audio_type t) (video_type t) (post_data t).

(** [alloc_ok]: whether the copy of the text can be allocated; the log reads it either way. *)
Definition tima_get_property_json_create (alloc_ok : bool) (t : PropertyPriv) : res PropertyPriv :=
  let req := prop_req t in
  let ch := dec (prop_ch req) in
  _ ← assert_ok (bool_decide (length ch < 8)%nat);
  let text := json_dumps J [(chars "simNo", prop_sim req); (chars "number", ch)] in
  if alloc_ok then Ok (MkProp req (uri t) (property t) (audio_type t) (video_type t) (Some text)) else UB.

Definition tima_get_property_json_free (t : PropertyPriv) : PropertyPriv :=
  MkProp (prop_req t) (uri t) (property t) (audio_type t) (video_type t) None.

Definition tima_json_property_parse (t : PropertyPriv) (data : list Z) : bool * PropertyPriv :=
  match json_loads J data with
  | None => (false, t)
  | Some root =>
      match json_object_get J root (chars "audioCodeType") with
      | None => (false, t)
      | Some a =>
          let t := set_codec t (json_integer_value J a) (video_type t) in
          match json_object_get J root (chars "videoCodeType") with
          | None => (false, t)
          | Some v => (true, set_codec t (audio_type t) (json_integer_value J v))
          end
      end
  end.

(** [json_loads(NULL)] fails. *)
Definition tima_get_property_json_parse (t : PropertyPriv) (data : option (list Z)) : res (bool * PropertyPriv) :=
  match d ← data; json_loads J d with
  | None => Ok (false, t)
  | Some root =>
      match json_object_get J root (chars "playAddress") ≫= json_string_value J with
      | None => Ok (false, t)
      | Some play =>
          if decide (length play < 2)%nat then Ok (false, t) else
          u ← strcpy_field play;
          let t := MkProp (prop_req t) u (property t) (audio_type t) (video_type t) (post_data t) in
          match json_object_get J root (chars "property") with
          | None => Ok (false, t)
          | Some j =>
              match json_string_value J j with
              | None => Ok (true, t)
              | Some s =>
                  pr ← strcpy_field s;
                  Ok (tima_json_property_parse
                        (MkProp (prop_req t) (uri t) pr (audio_type t) (video_type t) (post_data t)) s)
              end
          end
      end
  end.

Definition tima_get_property_delete (w : prop_world) : res prop_world :=
  _ ← of_option (prop w); Ok (MkPropWorld None (calls w)).

Definition tima_get_property_callback (rsp : TimaHttpRsp) (w : prop_world) : res prop_world :=
  t ← of_option (prop w);
  '(ret, t) ← (if status rsp =? 200 then
                 '(ret, t) ← tima_get_property_json_parse t (rsp_data rsp);
                 Ok (if negb (video_type t =? 98) then (false, t) else (ret, t))
               else Ok (false, t));
  let call := if ret : bool then (NODE_SUCCESS, Some (uri t)) else (NODE_FAIL, None) in
  tima_get_property_delete (MkPropWorld (Some t) (if prop_pfncb (prop_req t) then calls w ++ [call] else calls w)).

Definition TIMA_GETPROPERTY_URL : list Z := chars "/sp-device/v1/realtime/video/video-url-and-property".

(** [cfg] is the configuration in the cache; the host is its text. *)
Definition tima_get_property_start (ok_buffer ok_conn ok_req ok_make hbase alloc_ok alloc_text : bool) (t_id : Z)
    (cfg : CacheNetworkConfig) (t : PropertyPriv) : res (Z * option HttpClient * PropertyPriv) :=
  ip ← cstr_of (http_ip cfg);
  t ← tima_get_property_json_create alloc_text t;
  text ← of_option (post_data t);
  '(_, t_id, c) ← tima_http_post ok_buffer ok_conn ok_req ok_make hbase alloc_ok t_id
                    (MkUri HTTP_REQ_POST ip (http_port cfg) TIMA_GETPROPERTY_URL) text 3;
  Ok (t_id, c, tima_get_property_json_free t).
End property.

(** ** The token *)

Record HttpTokenReq := MkTokenReq { devtype : list Z; seriesno : list Z }.

Record TokenPriv := MkToken { token_req : HttpTokenReq; token : list Z; token_buffer : option TimaBuffer }.

Record token_world := MkTokenWorld { token_priv : option TokenPriv; token_calls : list (Z * option (list Z)) }.

Section token.
Context (J : jansson) (alloc : Z -> bool).

Definition append (b : TimaBuffer) (s : list Z) : res TimaBuffer :=
  '(_, b) ← tima_buffer_strdup alloc b s (Z.of_nat (length s)) true; Ok b.

(** The parameters of the request, in a buffer of twice their length. *)
Definition token_json_create (req : HttpTokenReq) : res TimaBuffer :=
  let q1 := chars "?deviceType=" in
  let q2 := chars "&deviceSeriesNo=" in
  let data_len := Z.of_nat (length q1 + length (devtype req) + length q2 + length (seriesno req)) in
  b ← tima_buffer_init alloc (Z.shiftl data_len 1);
  b ← append b q1; b ← append b (devtype req);
  b ← append b q2; append b (seriesno req).

Definition token_json_parse (t : TokenPriv) (data : option (list Z)) : res (bool * TokenPriv) :=
  match d ← data; json_loads J d with
  | None => Ok (false, t)
  | Some root =>
      match json_object_get J root (chars "token") ≫= json_string_value J with
      | None => Ok (false, t)
      | Some tok =>
          if decide (length tok < 2)%nat then Ok (false, t) else
          tok ← strcpy_field tok;
          Ok (true, MkToken (token_req t) tok (token_buffer t))
      end
  end.

Definition TIMA_GETOKEN_URL : list Z := chars "/carNet/sc/tg/token".

Definition http_token_set (t : TokenPriv) (req : HttpTokenReq) : TokenPriv := MkToken req (token t) (token_buffer t).

(** [tima_buffer_clean] of the parameters' buffer: the request holds a copy of its text. *)
Definition token_json_free (t : TokenPriv) : TokenPriv := MkToken (token_req t) (token t) None.

(** The parameters are sent as the zero-terminated text in their buffer ([post_data]). *)
Definition http_token_start (ok_buffer ok_conn ok_req ok_make hbase alloc_ok : bool) (t_id : Z) (t : TokenPriv)
    : res (Z * option HttpClient * TokenPriv) :=
  b ← token_json_create (token_req t);
  blk ← of_option (buffer b);
  text ← cstr_of (initialised blk);
  '(_, t_id, c) ← tima_http_post ok_buffer ok_conn ok_req ok_make hbase alloc_ok t_id
                    (MkUri HTTP_REQ_GET (chars "tg.test.timanetwork.cn") 8114 TIMA_GETOKEN_URL) text 3;
  Ok (t_id, c, token_json_free t).

(** [callback]: whether the node's [pfn_callback] is set; the node is freed after it. *)
Definition http_token_callback (callback : bool) (rsp : TimaHttpRsp) (w : token_world) : res token_world :=
  t ← of_option (token_priv w);
  '(ret, t) ← (if status rsp =? 200 then token_json_parse t (rsp_data rsp) else Ok (false, t));
  let call := if ret : bool then (NODE_SUCCESS, Some (token t)) else (NODE_FAIL, None) in
  Ok (MkTokenWorld None (if callback then token_calls w ++ [call] else token_calls w)).
End token.

(** ** Every answer is reported once *)

(** The address an answer gives: its play address, when its properties say that the video is H.264. *)
Definition play_address (J : jansson) (data : list Z) : option (list Z) :=
  root ← json_loads J data;
  play ← json_object_get J root (chars "playAddress") ≫= json_string_value J;
  if decide (length play < 2)%nat then None else
  s ← json_object_get J root (chars "property") ≫= json_string_value J;
  props ← json_loads J s;
  _ ← json_object_get J props (chars "audioCodeType");
  v ← json_object_get J props (chars "videoCodeType");
  if json_integer_value J v =? 98 then Some play else None.

(** The texts of the answer fit the node's fields. *)
Definition fits (J : jansson) (data : list Z) : Prop :=
  forall root, json_loads J data = Some root ->
    (forall j s, json_object_get J root (chars "playAddress") = Some j -> json_string_value J j = Some s -> (length s < MAX_LEN)%nat) /\
    (forall j s, json_object_get J root (chars "property") = Some j -> json_string_value J j = Some s -> (length s < MAX_LEN)%nat).

Lemma strcpy_field_ok s : (length s < MAX_LEN)%nat -> strcpy_field s = Ok s.
Proof. intros. unfold strcpy_field. by rewrite decide_True. Qed.

Lemma property_json J t data :
  video_type t = 0 -> fits J data ->
  exists ret t', tima_get_property_json_parse J t (Some data) = Ok (ret, t') /\ prop_req t' = prop_req t /\
    match play_address J data with
    | Some play => ret = true /\ video_type t' = 98 /\ uri t' = play
    | None => ret = false \/ video_type t' <> 98
    end.
Proof.
  intros Hv Hf. unfold tima_get_property_json_parse, play_address. cbn [mbind option_bind].
  destruct (json_loads J data) as [root |] eqn:El; [| exists false, t; cbn; auto]. cbn [mbind option_bind].
  destruct (Hf root El) as [Hf1 Hf2].
  destruct (json_object_get J root (chars "playAddress")) as [j1 |] eqn:E1; cbn [mbind option_bind]; [| exists false, t; cbn; auto].
  destruct (json_string_value J j1) as [play |] eqn:E2; cbn [mbind option_bind]; [| exists false, t; cbn; auto].
  case_decide; [exists false, t; cbn; auto |]. rewrite (strcpy_field_ok play) by eauto. cbn [mbind res_bind].
  destruct (json_object_get J root (chars "property")) as [j2 |] eqn:E3; cbn [mbind option_bind]; [| eexists _, _; split; [done |]; cbn; auto].
  destruct (json_string_value J j2) as [s |] eqn:E4; cbn [mbind option_bind].
  2:{ eexists _, _. split; [done |]. split; [done |]. right. cbn. by rewrite Hv. }
  rewrite (strcpy_field_ok s) by eauto. cbn [mbind res_bind]. unfold tima_json_property_parse.
  destruct (json_loads J s) as [props |]; cbn [mbind option_bind]; [| eexists _, _; split; [done |]; cbn; auto].
  destruct (json_object_get J props (chars "audioCodeType")) as [a |]; cbn [mbind option_bind]; [| eexists _, _; split; [done |]; cbn; auto].
  destruct (json_object_get J props (chars "videoCodeType")) as [v |]; cbn [mbind option_bind]; [| eexists _, _; split; [done |]; cbn; auto].
  eexists _, _. split; [done |]. split; [done |]. cbn [set_codec video_type uri].
  destruct (Z.eqb_spec (json_integer_value J v) 98); cbn; auto.
Qed.

Lemma strncpy_host ip : (length ip < 32)%nat -> Forall (fun c => c <> 0) ip ->
  exists h, strncpy (replicate 32 0) ip 32 = Ok h /\ cstr_of h = Ok ip.
Proof.
  intros Hl Hz. unfold strncpy, blk_store.
  rewrite decide_True by (rewrite length_app, length_take, !length_replicate; lia). eexists. split; [done |].
  rewrite take_0, take_ge by lia. cbn [app]. rewrite drop_ge by (rewrite length_app, !length_replicate; lia).
  rewrite app_nil_r. destruct (32 - length ip)%nat as [| j] eqn:E; [lia |]. by apply cstr_of_app.
Qed.

(** The answer to the address query.  Whatever the server answers, the requester's callback is
    called exactly once and the query node is freed: with the play address when the answer is a 200
    whose body names one of at least two characters together with properties of an H.264 video (type
    98), with a failure otherwise.  An address that does not fit its field of 256 bytes overflows it. *)
Lemma property_answered (J : jansson) (client : HttpClient) (t : PropertyPriv) (l : list (Z * option (list Z)))
    (Hv : video_type t = 0) (Hcb : prop_pfncb (prop_req t) = true) (Hd : rsp_data (client_rsp client) = None) :
  (forall body, fits J body ->
     http_request_done (tima_get_property_callback J) (Answer 200 body) client (MkPropWorld (Some t) l) =
       Ok (MkPropWorld None (l ++ [if decide (body = []) then (NODE_FAIL, None) else
             match play_address J body with
             | Some play => (NODE_SUCCESS, Some play)
             | None => (NODE_FAIL, None) end]))) /\
  (forall code body, code <> 200 ->
     http_request_done (tima_get_property_callback J) (Answer code body) client (MkPropWorld (Some t) l) =
       Ok (MkPropWorld None (l ++ [(NODE_FAIL, None)]))) /\
  (forall errcode, errcode <> 200 ->
     http_request_done (tima_get_property_callback J) (NoAnswer errcode) client (MkPropWorld (Some t) l) =
       Ok (MkPropWorld None (l ++ [(NODE_FAIL, None)]))) /\
  (forall body root j play, body <> [] -> json_loads J body = Some root ->
     json_object_get J root (chars "playAddress") = Some j -> json_string_value J j = Some play ->
     (MAX_LEN <= length play)%nat ->
     http_request_done (tima_get_property_callback J) (Answer 200 body) client (MkPropWorld (Some t) l) = UB).
Proof.
  assert (Hfail : forall code, code <> 200 -> http_handle_failed (tima_get_property_callback J) code client
    (MkPropWorld (Some t) l) = Ok (MkPropWorld None (l ++ [(NODE_FAIL, None)]))).
  { intros code Hc. unfold http_handle_failed, tima_get_property_callback. cbn [prop of_option mbind res_bind status].
    rewrite (proj2 (Z.eqb_neq _ _)) by done. cbn [mbind res_bind calls]. by rewrite Hcb. }
  split_and!.
  - intros body Hf. cbn [http_request_done]. change (200 =? 200) with true. cbn iota. unfold http_handle_200. cbv zeta.
    case_decide as Hb.
    + subst body. cbn [length]. change (Z.of_nat 0 >? 0) with false. cbn iota. rewrite Hd.
      unfold tima_get_property_callback. cbn [prop of_option mbind res_bind status rsp_data]. change (200 =? 200) with true.
      cbn [tima_get_property_json_parse mbind option_bind res_bind]. rewrite Hv. cbn [Z.eqb negb mbind res_bind calls].
      by rewrite Hcb.
    + rewrite (proj2 (Z.gtb_lt _ _)) by (destruct body; cbn; [done | lia]). cbn [rsp_id rsp_data rsp_size].
      unfold tima_get_property_callback. cbn [prop of_option mbind res_bind status rsp_data]. change (200 =? 200) with true.
      destruct (property_json J t body Hv Hf) as (ret & t' & -> & Hreq & Hres). cbn [mbind res_bind].
      destruct (play_address J body) as [play |].
      * destruct Hres as (-> & -> & Hu). cbn [Z.eqb Pos.eqb negb mbind res_bind calls]. by rewrite Hreq, Hcb, Hu.
      * destruct (Z.eqb_spec (video_type t') 98); cbn [negb mbind res_bind calls]; rewrite Hreq, Hcb; [| done].
        by destruct Hres as [-> | ?].
  - intros code body Hc. cbn [http_request_done]. rewrite (proj2 (Z.eqb_neq _ _)) by done. by apply Hfail.
  - intros errcode Hc. by apply Hfail.
  - intros body root j play Hb El E1 E2 Hl. cbn [http_request_done]. change (200 =? 200) with true. cbn iota.
    unfold http_handle_200. rewrite (proj2 (Z.gtb_lt _ _)) by (destruct body; cbn; [done | lia]).
    unfold tima_get_property_callback. cbn [prop of_option mbind res_bind status rsp_data]. change (200 =? 200) with true.
    unfold tima_get_property_json_parse. cbn [mbind option_bind]. rewrite El, E1. cbn [mbind option_bind]. rewrite E2.
    unfold MAX_LEN in Hl. rewrite decide_False by lia. unfold strcpy_field. rewrite decide_False by (unfold MAX_LEN; lia).
    done.
Qed.

(** Sending the address query.  With the base of the HTTP thread there and every step of evhttp
    successful, the request that is started has the next number, the configured host and port (80 for
    0), the path of the service, and the JSON text of the query as its data; when the base is missing
    or any step fails nothing is started: no answer will come and the requester is never told. *)
Lemma property_requested (J : jansson) (cfg : CacheNetworkConfig) (t : PropertyPriv) (ip : list Z) (t_id : Z)
    (Hip : cstr_of (http_ip cfg) = Ok ip) (Hz : Forall (fun c => c <> 0) ip) (Hlen : (length ip < 32)%nat)
    (Hch : (length (dec (prop_ch (prop_req t))) < 8)%nat) (Hid : 0 <= t_id < INT_MAX) :
  (exists c t', tima_get_property_start J true true true true true true true t_id cfg t = Ok (t_id + 1, Some c, t') /\
     req_id (client_req c) = t_id + 1 /\ cstr_of (host (client_req c)) = Ok ip /\
     req_port (client_req c) = (if http_port cfg =? 0 then 80 else http_port cfg) /\
     req_url (client_req c) = TIMA_GETPROPERTY_URL /\
     req_data (client_req c) = Some (json_dumps J [(chars "simNo", prop_sim (prop_req t)); (chars "number", dec (prop_ch (prop_req t)))]) /\
     retries c = 3 /\ rsp_data (client_rsp c) = None /\ video_type t' = video_type t /\ prop_req t' = prop_req t) /\
  (forall b1 b2 b3 b4 hbase ok, b1 && b2 && b3 && b4 && hbase && ok = false ->
     exists id t', tima_get_property_start J b1 b2 b3 b4 hbase ok true t_id cfg t = Ok (id, None, t')).
Proof.
  destruct (strncpy_host ip Hlen Hz) as (h & Hh & Hc).
  unfold tima_get_property_start. rewrite Hip. cbn [mbind res_bind]. unfold tima_get_property_json_create.
  rewrite bool_decide_true by done. cbn [assert_ok mbind res_bind post_data of_option].
  unfold tima_http_post. cbn [negb mbind res_bind]. rewrite int_op_in by (unfold INT_MIN; lia). cbn [mbind res_bind].
  cbn [uri_ip]. rewrite Hh. cbn [mbind res_bind uri_type]. split.
  - eexists _, _. split; [done |]. cbn. by split_and!.
  - intros b1 b2 b3 b4 hbase ok Hb. destruct hbase, ok; cbn [negb mbind res_bind]; eauto.
    rewrite !andb_true_r in Hb. unfold tima_http_handle. rewrite Hb. eauto.
Qed.

(** ** The token's request *)

Section token_request.
Context (alloc : Z -> bool) (alloc_ok : forall n, alloc n = true).

Lemma append_text b xs s :
  Buffer.holds b xs -> terminated b xs -> sized b -> buffer_used b + Z.of_nat (length s) < buffer_total b ->
  buffer_total b < 2 ^ 31 ->
  exists b', append alloc b s = Ok b' /\ Buffer.holds b' (xs ++ s) /\ terminated b' (xs ++ s) /\ buffer_total b' = buffer_total b.
Proof.
  intros Hh Ht Hs Hr Hm. unfold append. destruct s as [| c s].
  - cbn [length]. exists b. rewrite app_nil_r. done.
  - destruct (strdup_append_room alloc b xs (c :: s) [] Hh Hs) as (b' & E & H1 & H2 & H3); [done | done | lia |].
    rewrite app_nil_r in E. rewrite E. cbn [mbind res_bind]. eauto.
Qed.

Definition token_query (req : HttpTokenReq) : list Z :=
  chars "?deviceType=" ++ devtype req ++ chars "&deviceSeriesNo=" ++ seriesno req.

Lemma token_text req :
  Z.of_nat (length (token_query req)) < 2 ^ 29 ->
  exists b, token_json_create alloc req = Ok b /\ Buffer.holds b (token_query req) /\ terminated b (token_query req).
Proof.
  intros Hl. unfold token_json_create. set (n := Z.of_nat _).
  assert (En : n = Z.of_nat (length (token_query req))) by (unfold n, token_query; rewrite !length_app; lia).
  assert (H28 : 28 <= n) by (unfold n; change (length (chars "?deviceType=")) with 12%nat; change (length (chars "&deviceSeriesNo=")) with 16%nat; lia).
  clearbody n. rewrite <- En in Hl.
  rewrite Z.shiftl_mul_pow2 by lia. change (2 ^ 1) with 2. unfold tima_buffer_init. rewrite wrap_small, alloc_ok by lia.
  cbn [mbind res_bind]. set (b0 := MkBuffer _ _ _).
  assert (Hsz : forall b, buffer_total b = n * 2 -> sized b) by (unfold sized; lia).
  assert (H0 : Buffer.holds b0 [] /\ terminated b0 []).
  { split; (eexists; split; [done |]); [split; [apply blk_holds_nil |]; split; [done |]; unfold b0; cbn [buffer_total]; rewrite length_replicate; lia |].
    destruct (Z.to_nat (n * 2 + 1)) as [| k] eqn:E; [lia |]. by exists (replicate k (Some 0)). }
  assert (Hu : forall b xs, Buffer.holds b xs -> buffer_used b = Z.of_nat (length xs)) by (by intros b xs (? & _ & _ & ? & _)).
  unfold token_query in *. rewrite !length_app in En. rewrite !Nat2Z.inj_add in En.
  assert (E0 : buffer_total b0 = n * 2) by done.
  assert (Hroom : forall b xs s, Buffer.holds b xs -> terminated b xs -> buffer_total b = n * 2 -> Z.of_nat (length (xs ++ s)) <= n ->
    exists b', append alloc b s = Ok b' /\ Buffer.holds b' (xs ++ s) /\ terminated b' (xs ++ s) /\ buffer_total b' = n * 2).
  { intros b xs s Hh Ht Hb Hx. rewrite length_app, Nat2Z.inj_add in Hx. rewrite <- Hb.
    apply append_text; [done | done | by apply Hsz | rewrite (Hu _ _ Hh), Hb; lia | lia]. }
  destruct (Hroom b0 [] (chars "?deviceType=") (proj1 H0) (proj2 H0) E0) as (b1 & -> & H1 & T1 & E1); [rewrite ?length_app; cbn [length]; lia |]. cbn [mbind res_bind].
  destruct (Hroom b1 _ (devtype req) H1 T1 E1) as (b2 & -> & H2 & T2 & E2); [rewrite ?length_app; cbn [length]; lia |]. cbn [mbind res_bind].
  destruct (Hroom b2 _ (chars "&deviceSeriesNo=") H2 T2 E2) as (b3 & -> & H3 & T3 & E3); [rewrite ?length_app; cbn [length]; lia |]. cbn [mbind res_bind].
  destruct (Hroom b3 _ (seriesno req) H3 T3 E3) as (b4 & -> & H4 & T4 & E4); [rewrite ?length_app; cbn [length]; lia |].
  exists b4. rewrite <- !app_assoc in H4, T4. done.
Qed.

(** Asking for a token: a GET of the service's path with the device's type and number as its parameters. *)
Lemma token_requested (t : TokenPriv) (t_id : Z)
    (Hz : Forall (fun c => c <> 0) (devtype (token_req t)) /\ Forall (fun c => c <> 0) (seriesno (token_req t)))
    (Hl : Z.of_nat (length (token_query (token_req t))) < 2 ^ 29) (Hid : 0 <= t_id < INT_MAX) :
  exists c, http_token_start alloc true true true true true true t_id t = Ok (t_id + 1, Some c, token_json_free t) /\
    req_id (client_req c) = t_id + 1 /\ reqtype (client_req c) = HTTP_REQ_GET /\ req_port (client_req c) = 8114 /\
    cstr_of (host (client_req c)) = Ok (chars "tg.test.timanetwork.cn") /\
    req_url (client_req c) = TIMA_GETOKEN_URL ++ token_query (token_req t) /\ req_data (client_req c) = None.
Proof.
  destruct (token_text _ Hl) as (b & E & _ & (blk & Eb & Hh)). unfold http_token_start. rewrite E. cbn [mbind res_bind].
  rewrite Eb. cbn [of_option mbind res_bind]. destruct (initialised_holds _ _ Hh) as [junk ->].
  rewrite <- app_assoc. cbn [app]. rewrite cstr_of_app.
  2:{ unfold token_query. rewrite !Forall_app. split_and!; [by_decide | apply Hz | by_decide | apply Hz]. }
  cbn [mbind res_bind]. unfold tima_http_post. cbn [negb]. rewrite int_op_in by (unfold INT_MIN; lia). cbn [mbind res_bind].
  destruct (strncpy_host (chars "tg.test.timanetwork.cn")) as (h & Hh' & Hc); [vm_compute; lia | by_decide |].
  cbn [uri_ip]. rewrite Hh'. cbn [mbind res_bind uri_type]. eexists. split; [done |]. cbn. by split_and!.
Qed.
End token_request.

(** A parser that reads every text as an object whose members are their own names. *)
Definition sample_json : jansson :=
  Jansson (list Z) (fun l => Some l) (fun _ name => Some name) (fun j => Some j) (fun _ => 98)
    (fun fields => concat (map (fun f => f.1 ++ [58] ++ f.2 ++ [44]) fields)).

Definition sample_query : PropertyPriv :=
  tima_get_property_set tima_get_property_create (MkPropReq 1 (chars "013800138000") 1 true).

Definition sample_cfg : CacheNetworkConfig := MkConfig (chars "10.0.0.1" ++ replicate 56 0) 8114 (replicate 64 0) 1935.

Lemma sample_fits body : fits sample_json body.
Proof. intros root _. split; intros j s [= <-] [= <-]; by_decide. Qed.

(** C29.  The query for a stream's address, from its start to its answer.  With the base of the HTTP thread there and every step of evhttp
    successful, the request that is started has the next number, the configured host and port (80 for 0), the path of the service, and the JSON
    text of the query as its data.  Whatever the server answers to it, the requester's callback is called exactly once and the query node is freed:
    with the play address when the answer is a 200 whose body names one of at least two characters together with properties of an H.264 video
    (type 98), with a failure otherwise; an address that does not fit its field of 256 bytes overflows it.  When the base is missing or any step
    fails nothing is started: no answer will come and the requester is never told. *)
Theorem get_property_query (J : jansson) (cfg : CacheNetworkConfig) (t : PropertyPriv) (ip : list Z) (t_id : Z)
    (Hip : cstr_of (http_ip cfg) = Ok ip) (Hz : Forall (fun c => c <> 0) ip) (Hlen : (length ip < 32)%nat)
    (Hch : (length (dec (prop_ch (prop_req t))) < 8)%nat) (Hid : 0 <= t_id < INT_MAX)
    (Hv : video_type t = 0) (Hcb : prop_pfncb (prop_req t) = true) :
  (exists c t', tima_get_property_start J true true true true true true true t_id cfg t = Ok (t_id + 1, Some c, t') /\
     req_id (client_req c) = t_id + 1 /\ cstr_of (host (client_req c)) = Ok ip /\
     req_port (client_req c) = (if http_port cfg =? 0 then 80 else http_port cfg) /\
     req_url (client_req c) = TIMA_GETPROPERTY_URL /\
     req_data (client_req c) = Some (json_dumps J [(chars "simNo", prop_sim (prop_req t)); (chars "number", dec (prop_ch (prop_req t)))]) /\
     forall l, let done := fun a => http_request_done (tima_get_property_callback J) a c (MkPropWorld (Some t') l) in
       let failed := Ok (MkPropWorld None (l ++ [(NODE_FAIL, None)])) in
       (forall body, fits J body -> done (Answer 200 body) =
          if decide (body = []) then failed else
          match play_address J body with
          | Some play => Ok (MkPropWorld None (l ++ [(NODE_SUCCESS, Some play)]))
          | None => failed
          end) /\
       (forall code body, code <> 200 -> done (Answer code body) = failed) /\
       (forall errcode, errcode <> 200 -> done (NoAnswer errcode) = failed) /\
       (forall body root j play, body <> [] -> json_loads J body = Some root ->
          json_object_get J root (chars "playAddress") = Some j -> json_string_value J j = Some play ->
          (MAX_LEN <= length play)%nat -> done (Answer 200 body) = UB)) /\
  (forall b1 b2 b3 b4 hbase ok, b1 && b2 && b3 && b4 && hbase && ok = false ->
     exists id t', tima_get_property_start J b1 b2 b3 b4 hbase ok true t_id cfg t = Ok (id, None, t')).
Proof.
  destruct (property_requested J cfg t ip t_id Hip Hz Hlen Hch Hid) as [(c & t' & E & H1 & H2 & H3 & H4 & H5 & _ & H6 & H7 & H8) Hf].
  split; [| exact Hf]. exists c, t'. split_and!; try done. intros l.
  destruct (property_answered J c t' l) as (A1 & A2 & A3 & A4); [congruence | congruence | done |]. cbv zeta. split_and!; [| done | done | done].
  intros body Hb. rewrite A1 by done. case_decide; [done |]. by destruct (play_address J body).
Qed.

Lemma get_property_query_witness :
  exists c t', tima_get_property_start sample_json true true true true true true true 6 sample_cfg sample_query = Ok (7, Some c, t') /\
    cstr_of (host (client_req c)) = Ok (chars "10.0.0.1") /\
    http_request_done (tima_get_property_callback sample_json) (Answer 200 (chars "{}")) c (MkPropWorld (Some t') []) =
      Ok (MkPropWorld None [(NODE_SUCCESS, Some (chars "playAddress"))]).
Proof.
  destruct (proj1 (get_property_query sample_json sample_cfg sample_query (chars "10.0.0.1") 6 eq_refl
    ltac:(by_decide) ltac:(vm_compute; lia) ltac:(vm_compute; lia) ltac:(unfold INT_MAX; lia) eq_refl eq_refl))
    as (c & t' & E & _ & H2 & _ & _ & _ & H).
  exists c, t'. split; [exact E | split; [exact H2 |]]. exact (proj1 (H []) (chars "{}") (sample_fits _)).
Defined.
