(* ===== verification/Libc.v ===== *)
(** * Sorting and searching

    [selection_sort] and [vpk_bsearch] of [vmp/src/vpk_libc.c], over an array of elements of [el_size]
    bytes each; positions are byte offsets and [cmp] compares the bytes of two elements. *)

From S2P Require Import Prelude.
From Stdlib Require Import Sorting.Sorted.

Section code.
Context (cmp : list Z -> list Z -> Z).

(** [SWAP]: the bytes are exchanged one after the other; its loop is run for a size of at least one. *)
Fixpoint SWAP (base : list Z) (a b size : nat) : res (list Z) :=
  match size with
  | O => Ok base
  | S size =>
      tmp ← rd base a;
      c ← rd base b;
      base ← blk_store a [c] base;
      base ← blk_store b [tmp] base;
      SWAP base (S a) (S b) size
  end.

(** The element at an offset. *)
Definition elem (base : list Z) (off el_size : nat) : res (list Z) := blk_copy off el_size base.

Fixpoint inner_loop (fuel : nat) (base : list Z) (start_i start_j stop el_size : nat) : res (list Z) :=
  match fuel with
  | O => NoFuel
  | S fuel =>
      if (start_j <? stop)%nat then
        x ← elem base start_i el_size;
        y ← elem base start_j el_size;
        base ← (if cmp x y <? 0 then SWAP base start_i start_j el_size else Ok base);
        inner_loop fuel base start_i (start_j + el_size) stop el_size
      else Ok base
  end.

Fixpoint outer_loop (fuel : nat) (base : list Z) (start_i stop el_size : nat) : res (list Z) :=
  match fuel with
  | O => NoFuel
  | S fuel' =>
      if (start_i <? stop)%nat then
        base ← inner_loop fuel base start_i (start_i + el_size) stop el_size;
        outer_loop fuel' base (start_i + el_size) stop el_size
      else Ok base
  end.

(** A round per element and one to stop. *)
Definition selection_sort (base : list Z) (nsize el_size : nat) : res (list Z) :=
  outer_loop (S nsize) base 0 (nsize * el_size) el_size.

(** The result is the offset of the element found, [None] for NULL. *)
Fixpoint bsearch_loop (fuel : nat) (key base : list Z) (l u size : nat) : res (option nat) :=
  match fuel with
  | O => NoFuel
  | S fuel =>
      if (l <? u)%nat then
        let idx := ((l + u) / 2)%nat in
        p ← elem base (idx * size) size;
        let comparison := cmp key p in
        if comparison <? 0 then bsearch_loop fuel key base l idx size
        else if comparison >? 0 then bsearch_loop fuel key base (S idx) u size
        else Ok (Some (idx * size)%nat)
      else Ok None
  end.

Definition vpk_bsearch (key base : list Z) (nmemb size : nat) : res (option nat) :=
  bsearch_loop (S nmemb) key base 0 nmemb size.
End code.

(** ** Arrays of elements *)

(** The array holds the elements, each of the given size. *)
Definition array (el : nat) (es : list (list Z)) (base : list Z) : Prop :=
  Forall (fun e => length e = el) es /\ base = concat es.

Lemma concat_size el (es : list (list Z)) : Forall (fun e => length e = el) es -> length (concat es) = (length es * el)%nat.
Proof. induction 1 as [| e es He _ IH]; cbn; [done |]. rewrite length_app, IH, He. done. Qed.

Lemma elem_ok el es1 e es2 :
  Forall (fun e => length e = el) es1 -> length e = el ->
  elem (concat (es1 ++ e :: es2)) (length es1 * el) el = Ok e.
Proof.
  intros H1 He. unfold elem. rewrite concat_app. cbn [concat]. rewrite <- (concat_size el es1 H1), <- He.
  apply blk_copy_app.
Qed.

(** Exchanging two runs of bytes, the exchanged parts growing from the left. *)
Lemma SWAP_ok : forall n x y pre x' mid y' post,
  length x = n -> length y = n ->
  SWAP (pre ++ (x' ++ x) ++ mid ++ (y' ++ y) ++ post) (length pre + length x')
    (length pre + length x' + length x + length mid + length y') n =
  Ok (pre ++ (x' ++ y) ++ mid ++ (y' ++ x) ++ post).
Proof.
  induction n as [| n IH]; intros x y pre x' mid y' post Hx Hy.
  { destruct x, y; try discriminate. done. }
  destruct x as [| a x]; [discriminate |]. destruct y as [| b y]; [discriminate |].
  injection Hx as Hx. injection Hy as Hy. cbn [SWAP].
  set (A := pre ++ x'). set (B := x ++ mid ++ y').
  assert (E : forall a b, pre ++ (x' ++ a :: x) ++ mid ++ (y' ++ b :: y) ++ post = A ++ a :: (B ++ b :: (y ++ post))).
  { intros a' b'. unfold A, B. rewrite <- ?app_assoc. cbn. by rewrite <- ?app_assoc. }
  assert (LA : (length pre + length x' = length A)%nat) by (unfold A; by rewrite length_app).
  assert (LB : (length pre + length x' + length (a :: x) + length mid + length y' = length (A ++ a :: B))%nat).
  { unfold A, B. rewrite !length_app. cbn. rewrite !length_app. lia. }
  rewrite E, LB, LA. rewrite (rd_Ok _ _ a (list_lookup_middle A _ a _ eq_refl)). cbn [mbind res_bind].
  assert (Hb : (A ++ a :: B ++ b :: y ++ post) !! length (A ++ a :: B) = Some b).
  { replace (A ++ a :: B ++ b :: y ++ post) with ((A ++ a :: B) ++ b :: y ++ post) by (by rewrite <- app_assoc).
    exact (list_lookup_middle (A ++ a :: B) _ b _ eq_refl). }
  rewrite (rd_Ok _ _ _ Hb). cbn [mbind res_bind].
  change (A ++ a :: B ++ b :: y ++ post) with (A ++ [a] ++ (B ++ b :: y ++ post)).
  rewrite blk_store_app by done. cbn [mbind res_bind].
  replace (A ++ [b] ++ B ++ b :: y ++ post) with ((A ++ b :: B) ++ [b] ++ (y ++ post)) by (by rewrite <- app_assoc).
  replace (length (A ++ a :: B)) with (length (A ++ b :: B)) by (rewrite !length_app; done).
  rewrite blk_store_app by done. cbn [mbind res_bind].
  specialize (IH x y pre (x' ++ [b]) mid (y' ++ [a]) post Hx Hy).
  rewrite !length_app in IH. cbn [length] in IH.
  replace (S (length A)) with (length pre + (length x' + 1))%nat by lia.
  replace (S (length (A ++ b :: B))) with (length pre + (length x' + 1) + length x + length mid + (length y' + 1))%nat.
  2:{ unfold A, B. rewrite !length_app. cbn. rewrite !length_app. lia. }
  match goal with |- SWAP ?l _ _ _ = Ok ?r =>
    replace l with (pre ++ ((x' ++ [b]) ++ x) ++ mid ++ ((y' ++ [a]) ++ y) ++ post);
    [rewrite IH; f_equal |] end.
  - by rewrite <- ?app_assoc.
  - unfold A, B. rewrite <- ?app_assoc. cbn. by rewrite <- ?app_assoc.
Qed.

Lemma SWAP_elems es1 x es2 y es3 el :
  length x = el -> length y = el -> Forall (fun e => length e = el) es1 -> Forall (fun e => length e = el) es2 ->
  SWAP (concat (es1 ++ x :: es2 ++ y :: es3)) (length es1 * el) ((length es1 + 1 + length es2) * el) el =
  Ok (concat (es1 ++ y :: es2 ++ x :: es3)).
Proof.
  intros Hx Hy H1 H2. pose proof (SWAP_ok el x y (concat es1) [] (concat es2) [] (concat es3) Hx Hy) as E.
  cbn [app length] in E. rewrite (concat_size el es1 H1), (concat_size el es2 H2), Hx in E.
  rewrite !concat_app. cbn [concat]. rewrite !concat_app. cbn [concat].
  rewrite !Nat.add_0_r in E. rewrite <- E. f_equal. lia.
Qed.

(** ** Sorting *)

Section sorting.
Context (cmp : list Z -> list Z -> Z).

(** What a round leaves first, and the rest. *)
Fixpoint bubble (x : list Z) (ys : list (list Z)) : list Z * list (list Z) :=
  match ys with
  | [] => (x, [])
  | y :: ys =>
      if cmp x y <? 0 then let '(m, r) := bubble y ys in (m, x :: r)
      else let '(m, r) := bubble x ys in (m, y :: r)
  end.

Lemma bubble_perm ys : forall x, let '(m, r) := bubble x ys in m :: r ≡ₚ x :: ys.
Proof.
  induction ys as [| y ys IH]; intros x; cbn [bubble]; [done |].
  destruct (cmp x y <? 0).
  - specialize (IH y). destruct (bubble y ys) as [m r]. rewrite Permutation_swap, IH. done.
  - specialize (IH x). destruct (bubble x ys) as [m r]. rewrite Permutation_swap, IH. apply Permutation_swap.
Qed.

Lemma bubble_size el ys x : length x = el -> Forall (fun e => length e = el) ys ->
  let '(m, r) := bubble x ys in length m = el /\ Forall (fun e => length e = el) r /\ length r = length ys.
Proof.
  intros Hx Hys. pose proof (bubble_perm ys x) as Hp. destruct (bubble x ys) as [m r].
  assert (F : Forall (fun e => length e = el) (m :: r)) by (rewrite Hp; by constructor).
  apply Forall_cons_1 in F as [? ?]. apply Permutation_length in Hp. cbn in Hp. split_and!; [done | done | lia].
Qed.

Lemma inner_ok el ys : forall fuel es1 x es2,
  Forall (fun e => length e = el) (es1 ++ x :: es2 ++ ys) -> (0 < el)%nat -> (length ys < fuel)%nat ->
  inner_loop cmp fuel (concat (es1 ++ x :: es2 ++ ys)) (length es1 * el) ((length es1 + 1 + length es2) * el)
    ((length es1 + 1 + length es2 + length ys) * el) el =
  Ok (concat (es1 ++ (bubble x ys).1 :: es2 ++ (bubble x ys).2)).
Proof.
  induction ys as [| y ys IH]; intros fuel es1 x es2 HF Hel Hf; (destruct fuel as [| fuel]; [cbn in Hf; lia |]);
    cbn [inner_loop bubble].
  - rewrite (proj2 (Nat.ltb_ge _ _)) by (cbn; lia). done.
  - rewrite (proj2 (Nat.ltb_lt _ _)) by (cbn [length]; nia).
    pose proof HF as HF'. apply Forall_app in HF' as [F1 [Hx F2]%Forall_cons_1]. apply Forall_app in F2 as [F2 [Hy F3]%Forall_cons_1].
    rewrite elem_ok by done. cbn [mbind res_bind].
    replace (es1 ++ x :: es2 ++ y :: ys) with ((es1 ++ x :: es2) ++ y :: ys) at 1 by (by rewrite <- app_assoc).
    replace ((length es1 + 1 + length es2) * el)%nat with (length (es1 ++ x :: es2) * el)%nat at 1
      by (rewrite length_app; cbn; lia).
    rewrite elem_ok by first [done | apply Forall_app; split; [done | by constructor]]. cbn [mbind res_bind].
    assert (G : forall x' y', length x' = el -> length y' = el -> inner_loop cmp fuel (concat (es1 ++ x' :: es2 ++ y' :: ys)) (length es1 * el)
      ((length es1 + 1 + length es2) * el + el) ((length es1 + 1 + length es2 + length (y :: ys)) * el) el =
      Ok (concat (es1 ++ (bubble x' ys).1 :: es2 ++ y' :: (bubble x' ys).2))).
    { intros x' y' Hx' Hy'. specialize (IH fuel es1 x' (es2 ++ [y'])). rewrite <- !app_assoc in IH. cbn [app] in IH.
      rewrite length_app in IH. cbn [length] in IH |- *.
      replace ((length es1 + 1 + length es2) * el + el)%nat with ((length es1 + 1 + (length es2 + 1)) * el)%nat by lia.
      replace (length es1 + 1 + length es2 + S (length ys))%nat with (length es1 + 1 + (length es2 + 1) + length ys)%nat by lia.
      apply IH; [| done | cbn in Hf; lia]. apply Forall_app. split; [done |]. constructor; [done |].
      apply Forall_app. split; [done | by constructor]. }
    destruct (cmp x y <? 0).
    + rewrite SWAP_elems by done. cbn [mbind res_bind]. rewrite G by done. by destruct (bubble y ys).
    + cbn [mbind res_bind]. rewrite G by done. by destruct (bubble x ys).
Qed.

(** The sort by rounds. *)
Fixpoint rounds (n : nat) (l : list (list Z)) : list (list Z) :=
  match n, l with
  | S n, x :: l => (bubble x l).1 :: rounds n (bubble x l).2
  | _, _ => l
  end.

Lemma outer_ok el : forall fuel es1 es2,
  Forall (fun e => length e = el) (es1 ++ es2) -> (0 < el)%nat -> (length es2 < fuel)%nat ->
  outer_loop cmp fuel (concat (es1 ++ es2)) (length es1 * el) ((length es1 + length es2) * el) el =
  Ok (concat (es1 ++ rounds (length es2) es2)).
Proof.
  induction fuel as [| fuel IH]; intros es1 es2 HF Hel Hf; [lia |]. cbn [outer_loop].
  destruct es2 as [| x es2]; [rewrite (proj2 (Nat.ltb_ge _ _)) by (cbn; lia); done |].
  rewrite (proj2 (Nat.ltb_lt _ _)) by (cbn [length]; nia).
  pose proof (inner_ok el es2 (S fuel) es1 x [] HF Hel) as E. cbn [app length] in E, Hf.
  replace ((length es1 + 1 + 0) * el)%nat with (length es1 * el + el)%nat in E by lia.
  replace (length es1 + 1 + 0 + length es2)%nat with (length es1 + length (x :: es2))%nat in E by (cbn; lia).
  rewrite E by lia. cbn [mbind res_bind rounds length].
  apply Forall_app in HF as [F1 [Hx F2]%Forall_cons_1].
  pose proof (bubble_size el es2 x Hx F2) as Hs. destruct (bubble x es2) as [m r] eqn:Eb. destruct Hs as (Hm & Hr & Hl).
  specialize (IH (es1 ++ [m]) r). rewrite <- !app_assoc, length_app in IH. cbn [app length fst snd] in IH |- *.
  replace (length es1 * el + el)%nat with ((length es1 + 1) * el)%nat by lia.
  replace (length es1 + S (length es2))%nat with (length es1 + 1 + length r)%nat by lia.
  rewrite IH, Hl; [done | | done | lia]. apply Forall_app. split; [done | by constructor].
Qed.

Context (Htotal : forall x y, cmp x y < 0 -> 0 <= cmp y x)
  (Htrans : forall x y z, 0 <= cmp x y -> 0 <= cmp y z -> 0 <= cmp x z).

Lemma bubble_max ys : forall x, let '(m, r) := bubble x ys in 0 <= cmp m x /\ Forall (fun y => 0 <= cmp m y) r.
Proof.
  assert (Hrefl : forall x, 0 <= cmp x x) by (intros x; destruct (Z.le_gt_cases 0 (cmp x x)); [done | by apply Htotal]).
  induction ys as [| y ys IH]; intros x; cbn [bubble]; [by split |].
  destruct (Z.ltb_spec (cmp x y) 0) as [Hlt | Hge].
  - specialize (IH y). destruct (bubble y ys) as [m r]. destruct IH as [Hm Hr].
    assert (0 <= cmp m x) by (eapply Htrans; [done | by apply Htotal]). split; [done | by constructor].
  - specialize (IH x). destruct (bubble x ys) as [m r]. destruct IH as [Hm Hr]. split; [done |].
    constructor; [by eapply Htrans | done].
Qed.

Lemma rounds_sorted n : forall l, (length l <= n)%nat ->
  rounds n l ≡ₚ l /\ StronglySorted (fun a b => 0 <= cmp a b) (rounds n l).
Proof.
  induction n as [| n IH]; intros l Hl; [destruct l; [| cbn in Hl; lia]; split; [done | constructor] |].
  destruct l as [| x l]; [split; [done | constructor] |]. cbn [rounds length] in *.
  pose proof (bubble_perm l x) as Hp. pose proof (bubble_max l x) as Hm.
  destruct (bubble x l) as [m r]. destruct Hm as [_ Hm]. cbn [fst snd].
  assert (length r = length l) by (apply Permutation_length in Hp; cbn in Hp; lia).
  destruct (IH r ltac:(lia)) as [Hp' Hs]. split; [by rewrite Hp' |]. constructor; [done |]. by rewrite Hp'.
Qed.

(** The selection sort.  For a comparison that orders the elements, sorting an array of elements
    of at least one byte ends, stays inside the array and leaves a permutation of the elements in
    descending order: no element compares less than one behind it. *)
Lemma selection_sort_spec (el : nat) (es : list (list Z)) (base : list Z)
    (Hel : (0 < el)%nat) (Ha : array el es base) :
  exists es', selection_sort cmp base (length es) el = Ok (concat es') /\ array el es' (concat es') /\
    es' ≡ₚ es /\ StronglySorted (fun a b => 0 <= cmp a b) es'.
Proof.
  destruct Ha as [HF ->]. destruct (rounds_sorted (length es) es) as [Hp Hs]; [done |].
  exists (rounds (length es) es). split_and!; [| split; [by rewrite Hp | done] | done | done].
  apply (outer_ok el (S (length es)) [] es); [done | done | lia].
Qed.
End sorting.

(** ** Searching *)

(** In the order of the search: the key is above the elements at the front and below those behind. *)
Definition searchable (cmp : list Z -> list Z -> Z) (key : list Z) (es : list (list Z)) : Prop :=
  forall (i j : nat) e f, (i <= j)%nat -> es !! i = Some e -> es !! j = Some f ->
    (cmp key e < 0 -> cmp key f < 0) /\ (0 < cmp key f -> 0 < cmp key e).

Lemma bsearch_ok cmp key el es : forall fuel l u,
  Forall (fun e => length e = el) es -> (u <= length es)%nat -> (u - l < fuel)%nat ->
  exists o, bsearch_loop cmp fuel key (concat es) l u el = Ok o /\
    (forall off, o = Some off -> exists i e, off = (i * el)%nat /\ es !! i = Some e /\ cmp key e = 0) /\
    (searchable cmp key es -> o = None -> forall i e, (l <= i < u)%nat -> es !! i = Some e -> cmp key e <> 0).
Proof.
  induction fuel as [| fuel IH]; intros l u HF Hu Hf; [lia |]. cbn [bsearch_loop].
  destruct (Nat.ltb_spec l u) as [Hlu | Hlu].
  2:{ exists None. split_and!; [done | done |]. intros _ _ i e Hi. lia. }
  set (idx := ((l + u) / 2)%nat).
  assert (Hidx : (l <= idx < u)%nat).
  { unfold idx. split; [apply Nat.div_le_lower_bound; lia | apply Nat.Div0.div_lt_upper_bound; lia]. }
  destruct (lookup_lt_is_Some_2 es idx) as [e He]; [lia |].
  assert (E : elem (concat es) (idx * el) el = Ok e).
  { pose proof (take_drop_middle es idx e He) as Hes. rewrite <- Hes at 1.
    replace (idx * el)%nat with (length (take idx es) * el)%nat by (rewrite length_take; f_equal; lia).
    apply elem_ok; [by apply Forall_take | exact (Forall_lookup_1 _ _ _ _ HF He)]. }
  rewrite E. cbn [mbind res_bind]. destruct (Z.ltb_spec (cmp key e) 0) as [Hlt | Hge].
  - destruct (IH l idx HF) as (o & -> & Hsome & Hnone); [lia | lia |]. exists o. split_and!; [done | done |].
    intros Hs Ho i f Hi Hf'. destruct (decide (i < idx)%nat); [apply (Hnone Hs Ho i f); [lia | done] |].
    destruct (Hs idx i e f) as [H _]; [lia | done | done |]. specialize (H Hlt). lia.
  - destruct (Z.gtb_spec (cmp key e) 0) as [Hgt | Hle].
    + destruct (IH (S idx) u HF) as (o & -> & Hsome & Hnone); [lia | lia |]. exists o. split_and!; [done | done |].
      intros Hs Ho i f Hi Hf'. destruct (decide (idx < i)%nat); [apply (Hnone Hs Ho i f); [lia | done] |].
      destruct (Hs i idx f e) as [_ H]; [lia | done | done |]. specialize (H Hgt). lia.
    + exists (Some (idx * el)%nat). split_and!; [done | | done]. intros off [= <-]. exists idx, e. split_and!; [done | done | lia].
Qed.

(** The binary search.  On an array of elements the search ends and stays inside the array; what
    it returns is the place of an element that compares equal to the key; and when the array is in
    ascending order for the key it returns NULL only if there is no such element. *)
Lemma vpk_bsearch_spec (cmp : list Z -> list Z -> Z) (key : list Z) (el : nat) (es : list (list Z)) (base : list Z)
    (Ha : array el es base) :
  exists o, vpk_bsearch cmp key base (length es) el = Ok o /\
    (forall off, o = Some off -> exists i e, off = (i * el)%nat /\ es !! i = Some e /\ cmp key e = 0) /\
    (searchable cmp key es -> o = None -> forall i e, es !! i = Some e -> cmp key e <> 0).
Proof.
  destruct Ha as [HF ->]. destruct (bsearch_ok cmp key el es (S (length es)) 0 (length es) HF) as (o & E & H1 & H2); [lia | lia |].
  exists o. split_and!; [done | done |]. intros Hs Ho i e He. apply (H2 Hs Ho i e); [| done].
  apply lookup_lt_Some in He. lia.
Qed.

(** An array in descending order is searchable for the comparison turned around. *)
Lemma descending_searchable (cmp : list Z -> list Z -> Z)
    (Htrans : forall x y z, 0 <= cmp x y -> 0 <= cmp y z -> 0 <= cmp x z)
    (Hopp : forall x y, cmp x y < 0 <-> 0 < cmp y x) key es :
  StronglySorted (fun a b => 0 <= cmp a b) es -> searchable (fun a b => cmp b a) key es.
Proof.
  intros Hs i j e f Hij He Hf.
  assert (Hef : 0 <= cmp e f \/ i = j).
  { destruct (decide (i = j)); [by right | left]. clear key. revert i j Hij He Hf n. induction Hs as [| x es Hs IH Hx]; [done |].
    intros [| i] [| j] Hij He Hf Hne; cbn in *; try lia.
    - injection He as ->. exact (proj1 (Forall_lookup _ _) Hx j f Hf).
    - apply (IH i j); [lia | done | done | lia]. }
  destruct Hef as [Hef | ->]; [| rewrite He in Hf; by injection Hf as ->]. split; intros H.
  - destruct (Z.lt_ge_cases (cmp f key) 0); [done |]. specialize (Htrans e f key Hef H0). lia.
  - destruct (Z.lt_ge_cases 0 (cmp e key)); [done |]. apply Hopp in H.
    assert (0 <= cmp key e) by (destruct (Z.lt_ge_cases (cmp key e) 0) as [C | ?]; [apply Hopp in C; lia | done]).
    specialize (Htrans key e f H1 Hef). lia.
Qed.

(** One probe. *)
Lemma probe_ok es el l u : Forall (fun e => length e = el) es -> (u <= length es)%nat -> (l < u)%nat ->
  (l <= (l + u) / 2 < u)%nat /\ exists e, es !! ((l + u) / 2)%nat = Some e /\ elem (concat es) ((l + u) / 2 * el) el = Ok e.
Proof.
  intros HF Hu Hlu. assert (Hidx : (l <= (l + u) / 2 < u)%nat) by (split; [apply Nat.div_le_lower_bound; lia | apply Nat.Div0.div_lt_upper_bound; lia]).
  split; [done |]. destruct (lookup_lt_is_Some_2 es ((l + u) / 2)%nat) as [e He]; [lia |]. exists e. split; [done |].
  pose proof (take_drop_middle es _ e He) as Hes. rewrite <- Hes at 1.
  replace ((l + u) / 2 * el)%nat with (length (take ((l + u) / 2) es) * el)%nat by (rewrite length_take; f_equal; lia).
  apply elem_ok; [by apply Forall_take | exact (Forall_lookup_1 _ _ _ _ HF He)].
Qed.

(** Where all elements are on the same side of the key, nothing is found. *)
Lemma bsearch_miss cmp key el es : Forall (fun e => length e = el) es -> forall fuel l u, (u <= length es)%nat -> (u - l < fuel)%nat ->
  (forall i e, (l <= i < u)%nat -> es !! i = Some e -> cmp key e < 0) \/ (forall i e, (l <= i < u)%nat -> es !! i = Some e -> 0 < cmp key e) ->
  bsearch_loop cmp fuel key (concat es) l u el = Ok None.
Proof.
  intros HF. induction fuel as [| fuel IH]; intros l u Hu Hf Hside; [lia |]. cbn [bsearch_loop].
  destruct (Nat.ltb_spec l u) as [Hlu |]; [| done]. destruct (probe_ok es el l u HF Hu Hlu) as (Hidx & e & He & ->). cbn [mbind res_bind].
  destruct Hside as [Hs | Hs]; specialize (Hs _ e Hidx He) as Hc.
  - rewrite (proj2 (Z.ltb_lt _ _) Hc). apply IH; [lia | lia |]. left. intros i f Hi. apply Hs. lia.
  - rewrite (proj2 (Z.ltb_ge _ _)), (proj2 (Z.gtb_lt _ _) Hc) by lia. apply IH; [lia | lia |]. right. intros i f Hi. apply Hs. lia.
Qed.

Lemma descending_at cmp es i j e f : StronglySorted (fun a b : list Z => 0 <= cmp a b) es -> (i < j)%nat -> es !! i = Some e -> es !! j = Some f -> 0 <= cmp e f.
Proof.
  intros Hs. revert i j. induction Hs as [| x es Hs IH Hx]; [done |]. intros [| i] [| j] Hij He Hf; cbn in *; try lia.
  - injection He as ->. exact (proj1 (Forall_lookup _ _) Hx j f Hf).
  - apply (IH i j); [lia | done | done].
Qed.

(** With the comparison it is sorted by, a sorted array is searched on the wrong side: only its middle is ever found. *)
Lemma search_same cmp (Htrans : forall x y z, 0 <= cmp x y -> 0 <= cmp y z -> 0 <= cmp x z) (Hopp : forall x y, cmp x y < 0 <-> 0 < cmp y x) key el es :
  Forall (fun e => length e = el) es -> StronglySorted (fun a b => 0 <= cmp a b) es ->
  vpk_bsearch cmp key (concat es) (length es) el =
    Ok (m ← es !! (length es / 2)%nat; if cmp key m =? 0 then Some (length es / 2 * el)%nat else None).
Proof.
  intros HF Hs. unfold vpk_bsearch. cbn [bsearch_loop]. destruct (Nat.ltb_spec 0 (length es)) as [Hl | Hl].
  2: { assert (es = []) as -> by (destruct es; [done | cbn in Hl; lia]). done. }
  destruct (probe_ok es el 0 (length es) HF) as (Hidx & e & He & E); [done | done |]. rewrite Nat.add_0_l in *. rewrite E, He. cbn [mbind res_bind option_bind].
  set (m := (length es / 2)%nat) in *.
  destruct (Z.ltb_spec (cmp key e) 0) as [Hlt | Hge].
  - rewrite (proj2 (Z.eqb_neq _ 0)) by lia. apply bsearch_miss; [done | lia | lia |]. left. intros i f Hi Hf.
    pose proof (descending_at cmp es i m f e Hs ltac:(lia) Hf He) as Hfe. destruct (Z.lt_ge_cases (cmp key f) 0) as [| Hk]; [done |].
    specialize (Htrans key f e Hk Hfe). lia.
  - destruct (Z.gtb_spec (cmp key e) 0) as [Hgt | Hle]; [| by replace (cmp key e) with 0 by lia].
    rewrite (proj2 (Z.eqb_neq _ 0)) by lia. apply bsearch_miss; [done | lia | lia |]. right. intros i f Hi Hf.
    pose proof (descending_at cmp es m i e f Hs ltac:(lia) He Hf) as Hef. apply Hopp.
    destruct (Z.lt_ge_cases (cmp f key) 0) as [| Hk]; [done |]. specialize (Htrans e f key Hef Hk). apply Hopp in Hgt. lia.
Qed.

(** C36.  Sorting and searching.  For a comparison that orders the elements, sorting an array of elements of
    at least one byte ends, stays inside the array and leaves a permutation of the elements in descending
    order.  The binary search of the sorted array ends and stays inside the array.  With the arguments of the comparison exchanged it
    finds a place that holds an element equal to the key exactly when the array that was sorted has one.  With the comparison of the
    sort it looks on the wrong side, and finds a key only when the middle element, its first probe, is equal to it. *)
Theorem sort_then_search (cmp : list Z -> list Z -> Z)
    (Htrans : forall x y z, 0 <= cmp x y -> 0 <= cmp y z -> 0 <= cmp x z)
    (Hopp : forall x y, cmp x y < 0 <-> 0 < cmp y x)
    (el : nat) (es : list (list Z)) (base : list Z) (Hel : (0 < el)%nat) (Ha : array el es base) :
  exists es', selection_sort cmp base (length es) el = Ok (concat es') /\ es' ≡ₚ es /\
    StronglySorted (fun a b => 0 <= cmp a b) es' /\
    forall key, exists o, vpk_bsearch (fun a b => cmp b a) key (concat es') (length es) el = Ok o /\
      (forall off, o = Some off -> exists i e, off = (i * el)%nat /\ es' !! i = Some e /\ cmp e key = 0) /\
      (is_Some o <-> exists e, e ∈ es /\ cmp e key = 0) /\
      vpk_bsearch cmp key (concat es') (length es) el =
        Ok (m ← es' !! (length es / 2)%nat; if cmp key m =? 0 then Some (length es / 2 * el)%nat else None).
Proof.
  destruct (selection_sort_spec cmp ltac:(intros; apply Z.lt_le_incl; by apply Hopp) Htrans el es base Hel Ha) as (es' & E & A & P & S).
  exists es'. split_and!; [done | done | done |]. intros key.
  destruct (vpk_bsearch_spec (fun a b => cmp b a) key el es' (concat es') A) as (o & Eo & Hf & Hn).
  rewrite (Permutation_length P) in Eo. exists o. split_and!; [done | done | | rewrite <- (Permutation_length P); apply search_same; [done | done | apply A | done]]. split.
  - intros [off Ho]. destruct (Hf off Ho) as (i & e & _ & He & H0). exists e. split; [| done].
    rewrite <- P. by apply list_elem_of_lookup_2 in He.
  - intros (e & He & H0). destruct o; [by eexists |]. exfalso. rewrite <- P in He. apply list_elem_of_lookup in He as [i He].
    by apply (Hn (descending_searchable cmp Htrans Hopp key es' S) eq_refl i e).
Qed.

(** Single bytes, compared as numbers. *)
Definition byte_cmp (a b : list Z) : Z := nth 0 a 0 - nth 0 b 0.

Lemma sort_then_search_witness :
  exists es', selection_sort byte_cmp [2; 3; 1] 3 1 = Ok (concat es') /\ es' ≡ₚ [[2]; [3]; [1]].
Proof.
  destruct (sort_then_search byte_cmp ltac:(unfold byte_cmp; lia) ltac:(unfold byte_cmp; lia) 1 [[2]; [3]; [1]] [2; 3; 1]
    ltac:(lia) ltac:(split; [by_decide | reflexivity])) as (es' & E & Hp & _).
  exists es'. split; [exact E | exact Hp].
Defined.

(** The two do not fit together: after sorting, the search with the same comparison misses elements. *)
Lemma sorted_not_searchable :
  selection_sort byte_cmp [2; 3; 1] 3 1 = Ok [3; 2; 1] /\ vpk_bsearch byte_cmp [1] [3; 2; 1] 3 1 = Ok None.
Proof. split; reflexivity. Qed.
