(* ===== verification/Text.v ===== *)
(** * Text helpers

    The string functions of [vmp/src/vpk_util.c] and the time macros of [vmp/vpk_util.h].  The functions
    that change a string in place work on its buffer: the bytes, a zero and what is behind it. *)

From S2P Require Import Prelude Publish.

Definition vpk_hex_to_int (c : Z) : Z :=
  if (48 <=? c) && (c <=? 57) then c - 48
  else if (65 <=? c) && (c <=? 70) then c - 65 + 0x0A
  else if (97 <=? c) && (c <=? 102) then c - 97 + 0x0a
  else 0.

Definition HEX_PARSE_DIGIT_STR (a b c d : Z) : Z :=
  Z.lor (Z.lor (Z.lor (Z.shiftl (vpk_hex_to_int a) 12) (Z.shiftl (vpk_hex_to_int b) 8))
               (Z.shiftl (vpk_hex_to_int c) 4)) (vpk_hex_to_int d).

(** The copying loop of [vpk_strstrip] and [remove_colons], from [s] down to [d]. *)
Fixpoint strip_loop (fuel : nat) (c : Z) (buf : list Z) (s d : nat) : res (list Z) :=
  match fuel with
  | O => NoFuel
  | S fuel =>
      x ← rd buf s;
      if x =? 0 then blk_store d [0] buf
      else if negb (x =? c) then buf ← blk_store d [x] buf; strip_loop fuel c buf (S s) (S d)
      else strip_loop fuel c buf (S s) d
  end.

Definition vpk_strstrip (buf : list Z) (c : Z) : res (list Z) := strip_loop (S (length buf)) c buf 0 0.

(** [strlen]: reading past the buffer is undefined. *)
Fixpoint strlen (buf : list Z) : res nat :=
  match buf with
  | [] => UB
  | x :: buf => if x =? 0 then Ok 0%nat else n ← strlen buf; Ok (S n)
  end.

(** The loop that clears the colons at the end, [p] being an offset. *)
Fixpoint trailing_loop (fuel : nat) (buf : list Z) (p : Z) : res (list Z) :=
  match fuel with
  | O => NoFuel
  | S fuel =>
      if p =? 0 then Ok buf else
      i ← ptr_off p;
      x ← rd buf i;
      if x =? 58 then buf ← blk_store i [0] buf; trailing_loop fuel buf (p - 1) else Ok buf
  end.

(** The loop that skips the colons at the front. *)
Fixpoint leading_loop (fuel : nat) (buf : list Z) (p : nat) : res nat :=
  match fuel with
  | O => NoFuel
  | S fuel =>
      x ← rd buf p;
      if negb (x =? 0) && (x =? 58) then leading_loop fuel buf (S p) else Ok p
  end.

Definition remove_colons (buf : list Z) : res (list Z) :=
  n ← strlen buf;
  buf ← trailing_loop (S (length buf)) buf (Z.of_nat n - 1);
  p ← leading_loop (S (length buf)) buf 0;
  strip_loop (S (length buf)) 58 buf p 0.

(** [strstr]: what is behind the first occurrence of [s2] in [s1]. *)
Fixpoint strstr (s1 s2 : list Z) : option (list Z) :=
  if decide (take (length s2) s1 = s2) then Some (drop (length s2) s1)
  else match s1 with [] => None | _ :: s1 => strstr s1 s2 end.

Fixpoint count_loop (fuel : nat) (s1 s2 : list Z) (cnt : Z) : res Z :=
  match fuel with
  | O => NoFuel
  | S fuel =>
      if decide (s1 = []) then Ok cnt else
      match strstr s1 s2 with
      | None => Ok cnt
      | Some s1 => cnt ← int_op (cnt + 1); count_loop fuel s1 s2 cnt
      end
  end.

(** Strings without their zero. *)
Definition vpk_strcntstr (s1 s2 : list Z) : res Z :=
  if decide (s2 = []) then Ok 0 else count_loop (S (length s1)) s1 s2 0.

(** [text] is the formatted text; the buffer is given [len] bytes. *)
Definition vpk_snprintf (buf : list Z) (pos len : Z) (text : list Z) : res (list Z * Z) :=
  p ← ptr_off pos;
  room ← ptr_off (u64 (len - pos));
  buf ← (if decide (room = 0%nat) then Ok buf else blk_store p (snprintf room text ++ [0]) buf);
  let pos := u32 (pos + Z.of_nat (length text)) in
  if pos >=? len then l ← ptr_off len; buf ← blk_store l [0] buf; Ok (buf, u32 len) else Ok (buf, pos).

(** [struct timeval] and the macros, on [long] values that do not overflow. *)
Record timeval := MkTime { tv_sec : Z; tv_usec : Z }.

Definition vpk_timeradd (t u : timeval) : timeval :=
  let s := tv_sec t + tv_sec u in
  let us := tv_usec t + tv_usec u in
  if us >=? 1000000 then MkTime (s + 1) (us - 1000000) else MkTime s us.

Definition vpk_timersub (t u : timeval) : timeval :=
  let s := tv_sec t - tv_sec u in
  let us := tv_usec t - tv_usec u in
  if us <? 0 then MkTime (s - 1) (us + 1000000) else MkTime s us.

(** [vpk_timercmp(t, u, <)] *)
Definition vpk_timerlt (t u : timeval) : bool :=
  if tv_sec t =? tv_sec u then tv_usec t <? tv_usec u else tv_sec t <? tv_sec u.

(** ** Hexadecimal digits and times *)

Lemma hex_to_int_char n : 0 <= n < 16 -> vpk_hex_to_int (TO_HEX_CHAR n) = n.
Proof.
  intros Hn. assert (In n (map Z.of_nat (seq 0 16))) as Hin.
  { apply in_map_iff. exists (Z.to_nat n). split; [lia |]. apply in_seq. lia. }
  cbn in Hin. repeat (destruct Hin as [<- | Hin]; [done |]). done.
Qed.

Definition normal (t : timeval) : Prop := 0 <= tv_usec t < 1000000.

(** Times keep their form, subtraction undoes addition, and the comparison is the one of microseconds. *)
Lemma timer_laws t u : normal t -> normal u ->
  normal (vpk_timeradd t u) /\ normal (vpk_timersub t u) /\ vpk_timersub (vpk_timeradd t u) u = t /\
  (vpk_timerlt t u = true <-> tv_sec t * 1000000 + tv_usec t < tv_sec u * 1000000 + tv_usec u).
Proof.
  unfold normal, vpk_timeradd, vpk_timersub, vpk_timerlt. destruct t as [s us], u as [s' us']. cbn [tv_sec tv_usec]. intros Ht Hu.
  split; [| split; [| split]].
  - destruct (Z.geb_spec (us + us') 1000000); cbn [tv_usec]; lia.
  - destruct (Z.ltb_spec (us - us') 0); cbn [tv_usec]; lia.
  - destruct (Z.geb_spec (us + us') 1000000); cbn [tv_sec tv_usec].
    + rewrite (proj2 (Z.ltb_lt _ _)) by lia. f_equal; lia.
    + rewrite (proj2 (Z.ltb_ge _ _)) by lia. f_equal; lia.
  - destruct (Z.eqb_spec s s') as [<- |]; rewrite Z.ltb_lt; lia.
Qed.

(** ** Removing a character *)

Definition without (c : Z) (s : list Z) : list Z := List.filter (fun x => negb (x =? c)) s.

(** Lengths of concatenations. *)
Ltac len_app := do 4 (rewrite ?length_app in *; cbn [length app] in * ); lia.

(** What is left of the string and the copied prefix in front of it. *)
Lemma strip_ok c s : forall fuel kept junk post,
  Forall (fun x => x <> 0) s -> (length s < fuel)%nat ->
  exists rest, strip_loop fuel c (kept ++ junk ++ s ++ 0 :: post) (length kept + length junk) (length kept) =
    Ok (kept ++ without c s ++ 0 :: rest) /\
    length (kept ++ without c s ++ 0 :: rest) = length (kept ++ junk ++ s ++ 0 :: post).
Proof.
  induction s as [| x s IH]; intros fuel kept junk post Hs Hf; (destruct fuel as [| fuel]; [cbn in Hf; lia |]);
    cbn [strip_loop].
  - assert (R : rd (kept ++ junk ++ [] ++ 0 :: post) (length kept + length junk) = Ok 0).
    { rewrite app_assoc, <- length_app. apply rd_Ok. apply (list_lookup_middle _ _ _ _ eq_refl). }
    rewrite R. cbn [mbind res_bind Z.eqb without List.filter app].
    destruct junk as [| z junk].
    + cbn [app]. exists post. change (0 :: post) with ([0] ++ post) at 1. rewrite blk_store_app by done. done.
    + exists (junk ++ 0 :: post). change ((z :: junk) ++ 0 :: post) with ([z] ++ (junk ++ 0 :: post)).
      rewrite blk_store_app by done. split; [done |]. rewrite !length_app. cbn. rewrite !length_app. cbn. lia.
  - apply Forall_cons_1 in Hs as [Hx Hs]. cbn in Hf.
    assert (R : rd (kept ++ junk ++ (x :: s) ++ 0 :: post) (length kept + length junk) = Ok x).
    { rewrite app_assoc, <- length_app. apply rd_Ok. apply (list_lookup_middle _ _ _ _ eq_refl). }
    rewrite R. cbn [mbind res_bind]. rewrite (proj2 (Z.eqb_neq x 0)) by done.
    assert (W : without c (x :: s) = if negb (x =? c) then x :: without c s else without c s) by done.
    rewrite W. destruct (negb (x =? c)) eqn:E; cbn [app].
    + destruct junk as [| z junk].
      * cbn [app]. change (x :: s ++ 0 :: post) with ([x] ++ (s ++ 0 :: post)). rewrite blk_store_app by done.
        cbn [mbind res_bind]. destruct (IH fuel (kept ++ [x]) [] post Hs ltac:(lia)) as (rest & E' & L').
        exists rest. rewrite <- !app_assoc, length_app in E', L'. cbn [app length] in E', L'.
        replace (S (length kept + length (@nil Z))) with (length kept + 1 + 0)%nat by (cbn; lia).
        replace (S (length kept)) with (length kept + 1)%nat by lia. split; [exact E' |].
        by len_app.
      * change ((z :: junk) ++ x :: s ++ 0 :: post) with ([z] ++ (junk ++ x :: s ++ 0 :: post)).
        rewrite blk_store_app by done. cbn [mbind res_bind].
        destruct (IH fuel (kept ++ [x]) (junk ++ [x]) post Hs ltac:(lia)) as (rest & E' & L').
        exists rest. rewrite <- !app_assoc in E', L'. rewrite !length_app in E'. cbn [app length] in E', L' |- *.
        replace (S (length kept + S (length junk))) with (length kept + 1 + (length junk + 1))%nat by lia.
        replace (S (length kept)) with (length kept + 1)%nat by lia. split; [exact E' |].
        by len_app.
    + destruct (IH fuel kept (junk ++ [x]) post Hs ltac:(lia)) as (rest & E' & L').
      exists rest. rewrite <- !app_assoc, length_app in E', L'. cbn [app length] in E', L'.
      replace (S (length kept + length junk)) with (length kept + (length junk + 1))%nat by lia. split; [exact E' |].
      by len_app.
Qed.

Lemma without_app c s t : without c (s ++ t) = without c s ++ without c t.
Proof. apply List.filter_app. Qed.

Lemma without_run c m : without c (replicate m c) = [].
Proof. induction m as [| m IH]; [done |]. unfold without in *. cbn. by rewrite Z.eqb_refl. Qed.

Lemma strlen_ok s post : Forall (fun x => x <> 0) s -> strlen (s ++ 0 :: post) = Ok (length s).
Proof.
  induction 1 as [| x s Hx _ IH]; [done |]. cbn [app strlen]. rewrite (proj2 (Z.eqb_neq x 0)), IH by done. done.
Qed.

(** The colons at the end are cut off, except for a first character. *)
Lemma trailing_ok a : forall x post fuel, (length a < fuel)%nat ->
  exists b m z, trailing_loop fuel (a ++ x :: 0 :: post) (Z.of_nat (length a)) = Ok (b ++ 0 :: z) /\
    a ++ [x] = b ++ replicate m 58 /\ length (b ++ 0 :: z) = length (a ++ x :: 0 :: post).
Proof.
  induction a as [| y a IH] using rev_ind; intros x post fuel Hf; (destruct fuel as [| fuel]; [lia |]);
    cbn [trailing_loop].
  - exists [x], 0%nat, post. done.
  - rewrite (proj2 (Z.eqb_neq _ _)) by (rewrite length_app; cbn; lia). rewrite (ptr_off_Ok (Z.of_nat _)), Nat2Z.id by lia.
    cbn [mbind res_bind]. rewrite (rd_Ok _ _ x (list_lookup_middle _ _ _ _ eq_refl)). cbn [mbind res_bind].
    destruct (Z.eqb_spec x 58) as [-> | Hx].
    + change (58 :: 0 :: post) with ([58] ++ 0 :: post) at 1. rewrite blk_store_app by done. cbn [mbind res_bind app].
      rewrite length_app in *. cbn [length] in *. replace (Z.of_nat (length a + 1) - 1) with (Z.of_nat (length a)) by lia.
      destruct (IH y (0 :: post) fuel ltac:(lia)) as (b & m & z & E & Hb & Hl). exists b, (m + 1)%nat, z.
      rewrite <- !app_assoc. cbn [app]. split_and!; [exact E | | ].
      * rewrite replicate_add, app_assoc, <- Hb, <- app_assoc. done.
      * rewrite Hl. by len_app.
    + exists ((a ++ [y]) ++ [x]), 0%nat, post. rewrite app_nil_r, <- !app_assoc. done.
Qed.

Lemma leading_ok b : forall fuel pre z, Forall (fun x => x <> 0) b -> (length b < fuel)%nat ->
  exists m b', b = replicate m 58 ++ b' /\
    leading_loop fuel (pre ++ b ++ 0 :: z) (length pre) = Ok (length pre + m)%nat.
Proof.
  induction b as [| x b IH]; intros fuel pre z Hb Hf; (destruct fuel as [| fuel]; [cbn in Hf; lia |]); cbn [leading_loop].
  - exists 0%nat, []. split; [done |]. cbn [app]. rewrite (rd_Ok _ _ 0 (list_lookup_middle _ _ _ _ eq_refl)). cbn.
    by rewrite Nat.add_0_r.
  - apply Forall_cons_1 in Hb as [Hx Hb]. cbn [app]. rewrite (rd_Ok _ _ x (list_lookup_middle _ _ _ _ eq_refl)).
    cbn [mbind res_bind]. rewrite (proj2 (Z.eqb_neq x 0)) by done. cbn [negb andb].
    destruct (Z.eqb_spec x 58) as [-> | _].
    + destruct (IH fuel (pre ++ [58]) z Hb) as (m & b' & -> & E); [cbn in Hf; lia |].
      exists (S m), b'. split; [done |]. rewrite <- app_assoc, length_app in E. cbn [app length] in E.
      replace (S (length pre)) with (length pre + 1)%nat by lia. rewrite E. f_equal. lia.
    + exists 0%nat, (x :: b). split; [done |]. by rewrite Nat.add_0_r.
Qed.

Lemma strstrip_ok c s post : Forall (fun x => x <> 0) s ->
  exists rest, vpk_strstrip (s ++ 0 :: post) c = Ok (without c s ++ 0 :: rest) /\
    length (without c s ++ 0 :: rest) = length (s ++ 0 :: post).
Proof.
  intros Hs. destruct (strip_ok c s (S (length (s ++ 0 :: post))) [] [] post Hs) as (rest & E & L); [len_app |].
  by exists rest.
Qed.

(** Removing a character in place.  [vpk_strstrip] leaves the string without any [c], inside its
    buffer; [remove_colons] leaves a non-empty string without any colon; on an empty string it reads
    in front of the buffer. *)
Lemma strip_spec (s post : list Z) (Hs : Forall (fun x => x <> 0) s) :
  (forall c, exists rest, vpk_strstrip (s ++ 0 :: post) c = Ok (without c s ++ 0 :: rest) /\
     length (without c s ++ 0 :: rest) = length (s ++ 0 :: post)) /\
  (s <> [] -> exists rest, remove_colons (s ++ 0 :: post) = Ok (without 58 s ++ 0 :: rest) /\
     length (without 58 s ++ 0 :: rest) = length (s ++ 0 :: post)) /\
  (s = [] -> remove_colons (s ++ 0 :: post) = UB).
Proof.
  split_and!.
  - intros c. by apply strstrip_ok.
  - intros Hne. unfold remove_colons. rewrite strlen_ok by done. cbn [mbind res_bind].
    destruct (exists_last Hne) as (a & x & ->). rewrite <- app_assoc. cbn [app].
    replace (Z.of_nat (length (a ++ [x])) - 1) with (Z.of_nat (length a)) by (rewrite length_app; cbn; lia).
    destruct (trailing_ok a x post (S (length (a ++ x :: 0 :: post)))) as (b & m & z & -> & Hb & Hl); [len_app |].
    cbn [mbind res_bind]. assert (Hbz : Forall (fun x => x <> 0) b) by (rewrite Hb in Hs; by apply Forall_app in Hs as [? _]).
    destruct (leading_ok b (S (length (b ++ 0 :: z))) [] z Hbz) as (k & b' & Hb' & E); [len_app |].
    cbn [app length Nat.add] in E. rewrite E. cbn [mbind res_bind]. rewrite Hb' in *. rewrite <- app_assoc.
    destruct (strip_ok 58 b' (S (length (replicate k 58 ++ b' ++ 0 :: z))) [] (replicate k 58) z) as (rest & E' & L').
    { by apply Forall_app in Hbz as [_ ?]. }
    { len_app. }
    cbn [app length Nat.add] in E', L'. rewrite length_replicate in E'. exists rest.
    assert (W : without 58 (a ++ [x]) = without 58 b') by (rewrite Hb, !without_app, !without_run; by rewrite app_nil_r).
    rewrite W, E'. split; [done |]. rewrite L', <- Hl. by rewrite app_assoc.
  - by intros ->.
Qed.

(** The bounded print.  When the text fits behind [pos] it is appended with a zero and [pos] moves
    behind it; when it does not, the buffer keeps what fits and [pos] becomes [len], but the zero at
    [buf[len]] is written behind a buffer of [len] bytes. *)
Theorem vpk_snprintf_spec (done old text : list Z) (len : Z)
    (Hlen : len = Z.of_nat (length (done ++ old))) (Hold : old <> [])
    (Hbig : Z.of_nat (length done) + Z.of_nat (length text) < 2 ^ 32) (Hl : len < 2 ^ 32) :
  ((length text < length old)%nat ->
     vpk_snprintf (done ++ old) (Z.of_nat (length done)) len text =
       Ok (done ++ text ++ 0 :: drop (S (length text)) old, Z.of_nat (length done + length text))) /\
  ((length old <= length text)%nat ->
     vpk_snprintf (done ++ old) (Z.of_nat (length done)) len text = UB /\
     forall x more, vpk_snprintf (done ++ old ++ x :: more) (Z.of_nat (length done)) len text =
       Ok (done ++ take (length old - 1) text ++ [0] ++ 0 :: more, len)).
Proof.
  assert (Hroom : u64 (len - Z.of_nat (length done)) = Z.of_nat (length old)).
  { rewrite Hlen, length_app in *. rewrite wrap_small; lia. }
  assert (Ho : (0 < length old)%nat) by (destruct old; [done | cbn; lia]).
  assert (S : forall post, blk_store (length done) (snprintf (length old) text ++ [0]) (done ++ old ++ post) =
    Ok (done ++ (snprintf (length old) text ++ [0]) ++ drop (length (snprintf (length old) text ++ [0])) old ++ post)).
  { intros post. unfold snprintf. set (t := take (length old - 1) text).
    assert (Ht : (length (t ++ [0%Z]) <= length old)%nat) by (unfold t; rewrite length_app, length_take; cbn; lia).
    rewrite <- (take_drop (length (t ++ [0%Z])) old) at 1. rewrite <- app_assoc. apply blk_store_app.
    rewrite length_take. lia. }
  assert (E : forall post, vpk_snprintf (done ++ old ++ post) (Z.of_nat (length done)) len text =
    let buf := done ++ (snprintf (length old) text ++ [0]) ++ drop (length (snprintf (length old) text ++ [0])) old ++ post in
    if Z.of_nat (length done + length text) >=? len then b ← blk_store (length (done ++ old)) [0] buf; Ok (b, len)
    else Ok (buf, Z.of_nat (length done + length text))).
  { intros post. unfold vpk_snprintf. rewrite (ptr_off_Ok (Z.of_nat _)), Nat2Z.id by lia. cbn [mbind res_bind].
    rewrite Hroom, (ptr_off_Ok (Z.of_nat _)), Nat2Z.id by lia. cbn [mbind res_bind]. rewrite decide_False by lia. rewrite S.
    cbn [mbind res_bind]. rewrite wrap_small by lia. rewrite <- Nat2Z.inj_add.
    destruct (_ >=? len); [| done]. rewrite Hlen, (ptr_off_Ok (Z.of_nat _)), Nat2Z.id by lia. cbn [mbind res_bind].
    by rewrite (wrap_small 32) by lia. }
  pose proof (E []) as E0. rewrite app_nil_r in E0. rewrite length_app in Hlen. split.
  - intros Ht. rewrite E0. cbv zeta. unfold snprintf. rewrite take_ge by lia.
    destruct (Z.geb_spec (Z.of_nat (length done + length text)) len); [lia |].
    rewrite app_nil_r, length_app, <- app_assoc. cbn [length app]. by rewrite Nat.add_1_r.
  - intros Ht.
    assert (Hs : length (snprintf (length old) text ++ [0]) = length old)
      by (unfold snprintf; rewrite length_app, length_take; cbn; lia).
    split.
    + rewrite E0. cbv zeta. destruct (Z.geb_spec (Z.of_nat (length done + length text)) len); [| lia].
      rewrite Hs, drop_all, !app_nil_r. rewrite (proj2 (blk_store_UB _ _ _)); [done |].
      rewrite !(length_app done), Hs. cbn. lia.
    + intros x more. rewrite E. cbv zeta. destruct (Z.geb_spec (Z.of_nat (length done + length text)) len); [| lia].
      rewrite Hs, drop_all. cbn [app]. set (t := snprintf (length old) text ++ [0]) in *.
      replace (length (done ++ old)) with (length (done ++ t)) by (rewrite !length_app; lia).
      rewrite app_assoc. change (x :: more) with ([x] ++ more). rewrite blk_store_app by done. cbn [mbind res_bind].
      unfold t, snprintf. by rewrite <- !app_assoc.
Qed.

Lemma strip_spec_witness :
  (exists rest, vpk_strstrip [97; 45; 98; 0] 45 = Ok ([97; 98] ++ 0 :: rest)) /\ remove_colons [0; 1] = UB.
Proof.
  split.
  - destruct (proj1 (strip_spec [97; 45; 98] [] ltac:(by_decide)) 45) as (rest & E & _). exists rest. exact E.
  - exact (proj2 (proj2 (strip_spec [] [1] ltac:(by_decide))) eq_refl).
Defined.

Lemma vpk_snprintf_spec_witness :
  vpk_snprintf [97; 1; 1; 1] 1 4 [98; 99] = Ok ([97; 98; 99; 0], 3) /\ vpk_snprintf [97; 1] 1 2 [98; 99] = UB.
Proof.
  split.
  - exact (proj1 (vpk_snprintf_spec [97] [1; 1; 1] [98; 99] 4 eq_refl ltac:(discriminate) ltac:(cbn; lia) ltac:(lia)) ltac:(cbn; lia)).
  - exact (proj1 (proj2 (vpk_snprintf_spec [97] [1] [98; 99] 2 eq_refl ltac:(discriminate) ltac:(cbn; lia) ltac:(lia)) ltac:(cbn; lia))).
Defined.
