(* ===== verification/Audio.v ===== *)
(** * G.711 A-law audio

    [mw/trancode/audio_trancode.c]: the two tables, the decoder to 16-bit samples, the encoder, and the
    conversion to AAC with the encoder library as parameters.  Buffers are bytes; samples lie in memory in
    little-endian order. *)

From S2P Require Import Prelude.

(** The sample of each A-law byte. *)
Definition alawtos16 : list Z := [
   -5504; -5248; -6016; -5760; -4480; -4224; -4992; -4736;
   -7552; -7296; -8064; -7808; -6528; -6272; -7040; -6784;
   -2752; -2624; -3008; -2880; -2240; -2112; -2496; -2368;
   -3776; -3648; -4032; -3904; -3264; -3136; -3520; -3392;
   -22016; -20992; -24064; -23040; -17920; -16896; -19968; -18944;
   -30208; -29184; -32256; -31232; -26112; -25088; -28160; -27136;
   -11008; -10496; -12032; -11520; -8960; -8448; -9984; -9472;
   -15104; -14592; -16128; -15616; -13056; -12544; -14080; -13568;
   -344; -328; -376; -360; -280; -264; -312; -296;
   -472; -456; -504; -488; -408; -392; -440; -424;
   -88; -72; -120; -104; -24; -8; -56; -40;
   -216; -200; -248; -232; -152; -136; -184; -168;
   -1376; -1312; -1504; -1440; -1120; -1056; -1248; -1184;
   -1888; -1824; -2016; -1952; -1632; -1568; -1760; -1696;
   -688; -656; -752; -720; -560; -528; -624; -592;
   -944; -912; -1008; -976; -816; -784; -880; -848;
   5504; 5248; 6016; 5760; 4480; 4224; 4992; 4736;
   7552; 7296; 8064; 7808; 6528; 6272; 7040; 6784;
   2752; 2624; 3008; 2880; 2240; 2112; 2496; 2368;
   3776; 3648; 4032; 3904; 3264; 3136; 3520; 3392;
   22016; 20992; 24064; 23040; 17920; 16896; 19968; 18944;
   30208; 29184; 32256; 31232; 26112; 25088; 28160; 27136;
   11008; 10496; 12032; 11520; 8960; 8448; 9984; 9472;
   15104; 14592; 16128; 15616; 13056; 12544; 14080; 13568;
   344; 328; 376; 360; 280; 264; 312; 296;
   472; 456; 504; 488; 408; 392; 440; 424;
   88; 72; 120; 104; 24; 8; 56; 40;
   216; 200; 248; 232; 152; 136; 184; 168;
   1376; 1312; 1504; 1440; 1120; 1056; 1248; 1184;
   1888; 1824; 2016; 1952; 1632; 1568; 1760; 1696;
   688; 656; 752; 720; 560; 528; 624; 592;
   944; 912; 1008; 976; 816; 784; 880; 848].

(** The entries are bytes; the array stores them as [int8_t]. *)
Definition alaw_encode : list Z := [
   0xD5; 0xD4; 0xD7; 0xD6; 0xD1; 0xD0; 0xD3; 0xD2; 0xDD; 0xDC; 0xDF; 0xDE;
   0xD9; 0xD8; 0xDB; 0xDA; 0xC5; 0xC4; 0xC7; 0xC6; 0xC1; 0xC0; 0xC3; 0xC2;
   0xCD; 0xCC; 0xCF; 0xCE; 0xC9; 0xC8; 0xCB; 0xCA; 0xF5; 0xF5; 0xF4; 0xF4;
   0xF7; 0xF7; 0xF6; 0xF6; 0xF1; 0xF1; 0xF0; 0xF0; 0xF3; 0xF3; 0xF2; 0xF2;
   0xFD; 0xFD; 0xFC; 0xFC; 0xFF; 0xFF; 0xFE; 0xFE; 0xF9; 0xF9; 0xF8; 0xF8;
   0xFB; 0xFB; 0xFA; 0xFA; 0xE5; 0xE5; 0xE5; 0xE5; 0xE4; 0xE4; 0xE4; 0xE4;
   0xE7; 0xE7; 0xE7; 0xE7; 0xE6; 0xE6; 0xE6; 0xE6; 0xE1; 0xE1; 0xE1; 0xE1;
   0xE0; 0xE0; 0xE0; 0xE0; 0xE3; 0xE3; 0xE3; 0xE3; 0xE2; 0xE2; 0xE2; 0xE2;
   0xED; 0xED; 0xED; 0xED; 0xEC; 0xEC; 0xEC; 0xEC; 0xEF; 0xEF; 0xEF; 0xEF;
   0xEE; 0xEE; 0xEE; 0xEE; 0xE9; 0xE9; 0xE9; 0xE9; 0xE8; 0xE8; 0xE8; 0xE8;
   0xEB; 0xEB; 0xEB; 0xEB; 0xEA; 0xEA; 0xEA; 0xEA; 0x95; 0x95; 0x95; 0x95;
   0x95; 0x95; 0x95; 0x95; 0x94; 0x94; 0x94; 0x94; 0x94; 0x94; 0x94; 0x94;
   0x97; 0x97; 0x97; 0x97; 0x97; 0x97; 0x97; 0x97; 0x96; 0x96; 0x96; 0x96;
   0x96; 0x96; 0x96; 0x96; 0x91; 0x91; 0x91; 0x91; 0x91; 0x91; 0x91; 0x91;
   0x90; 0x90; 0x90; 0x90; 0x90; 0x90; 0x90; 0x90; 0x93; 0x93; 0x93; 0x93;
   0x93; 0x93; 0x93; 0x93; 0x92; 0x92; 0x92; 0x92; 0x92; 0x92; 0x92; 0x92;
   0x9D; 0x9D; 0x9D; 0x9D; 0x9D; 0x9D; 0x9D; 0x9D; 0x9C; 0x9C; 0x9C; 0x9C;
   0x9C; 0x9C; 0x9C; 0x9C; 0x9F; 0x9F; 0x9F; 0x9F; 0x9F; 0x9F; 0x9F; 0x9F;
   0x9E; 0x9E; 0x9E; 0x9E; 0x9E; 0x9E; 0x9E; 0x9E; 0x99; 0x99; 0x99; 0x99;
   0x99; 0x99; 0x99; 0x99; 0x98; 0x98; 0x98; 0x98; 0x98; 0x98; 0x98; 0x98;
   0x9B; 0x9B; 0x9B; 0x9B; 0x9B; 0x9B; 0x9B; 0x9B; 0x9A; 0x9A; 0x9A; 0x9A;
   0x9A; 0x9A; 0x9A; 0x9A; 0x85; 0x85; 0x85; 0x85; 0x85; 0x85; 0x85; 0x85;
   0x85; 0x85; 0x85; 0x85; 0x85; 0x85; 0x85; 0x85; 0x84; 0x84; 0x84; 0x84;
   0x84; 0x84; 0x84; 0x84; 0x84; 0x84; 0x84; 0x84; 0x84; 0x84; 0x84; 0x84;
   0x87; 0x87; 0x87; 0x87; 0x87; 0x87; 0x87; 0x87; 0x87; 0x87; 0x87; 0x87;
   0x87; 0x87; 0x87; 0x87; 0x86; 0x86; 0x86; 0x86; 0x86; 0x86; 0x86; 0x86;
   0x86; 0x86; 0x86; 0x86; 0x86; 0x86; 0x86; 0x86; 0x81; 0x81; 0x81; 0x81;
   0x81; 0x81; 0x81; 0x81; 0x81; 0x81; 0x81; 0x81; 0x81; 0x81; 0x81; 0x81;
   0x80; 0x80; 0x80; 0x80; 0x80; 0x80; 0x80; 0x80; 0x80; 0x80; 0x80; 0x80;
   0x80; 0x80; 0x80; 0x80; 0x83; 0x83; 0x83; 0x83; 0x83; 0x83; 0x83; 0x83;
   0x83; 0x83; 0x83; 0x83; 0x83; 0x83; 0x83; 0x83; 0x82; 0x82; 0x82; 0x82;
   0x82; 0x82; 0x82; 0x82; 0x82; 0x82; 0x82; 0x82; 0x82; 0x82; 0x82; 0x82;
   0x8D; 0x8D; 0x8D; 0x8D; 0x8D; 0x8D; 0x8D; 0x8D; 0x8D; 0x8D; 0x8D; 0x8D;
   0x8D; 0x8D; 0x8D; 0x8D; 0x8C; 0x8C; 0x8C; 0x8C; 0x8C; 0x8C; 0x8C; 0x8C;
   0x8C; 0x8C; 0x8C; 0x8C; 0x8C; 0x8C; 0x8C; 0x8C; 0x8F; 0x8F; 0x8F; 0x8F;
   0x8F; 0x8F; 0x8F; 0x8F; 0x8F; 0x8F; 0x8F; 0x8F; 0x8F; 0x8F; 0x8F; 0x8F;
   0x8E; 0x8E; 0x8E; 0x8E; 0x8E; 0x8E; 0x8E; 0x8E; 0x8E; 0x8E; 0x8E; 0x8E;
   0x8E; 0x8E; 0x8E; 0x8E; 0x89; 0x89; 0x89; 0x89; 0x89; 0x89; 0x89; 0x89;
   0x89; 0x89; 0x89; 0x89; 0x89; 0x89; 0x89; 0x89; 0x88; 0x88; 0x88; 0x88;
   0x88; 0x88; 0x88; 0x88; 0x88; 0x88; 0x88; 0x88; 0x88; 0x88; 0x88; 0x88;
   0x8B; 0x8B; 0x8B; 0x8B; 0x8B; 0x8B; 0x8B; 0x8B; 0x8B; 0x8B; 0x8B; 0x8B;
   0x8B; 0x8B; 0x8B; 0x8B; 0x8A; 0x8A; 0x8A; 0x8A; 0x8A; 0x8A; 0x8A; 0x8A;
   0x8A; 0x8A; 0x8A; 0x8A; 0x8A; 0x8A; 0x8A; 0x8A; 0xB5; 0xB5; 0xB5; 0xB5;
   0xB5; 0xB5; 0xB5; 0xB5; 0xB5; 0xB5; 0xB5; 0xB5; 0xB5; 0xB5; 0xB5; 0xB5;
   0xB5; 0xB5; 0xB5; 0xB5; 0xB5; 0xB5; 0xB5; 0xB5; 0xB5; 0xB5; 0xB5; 0xB5;
   0xB5; 0xB5; 0xB5; 0xB5; 0xB4; 0xB4; 0xB4; 0xB4; 0xB4; 0xB4; 0xB4; 0xB4;
   0xB4; 0xB4; 0xB4; 0xB4; 0xB4; 0xB4; 0xB4; 0xB4; 0xB4; 0xB4; 0xB4; 0xB4;
   0xB4; 0xB4; 0xB4; 0xB4; 0xB4; 0xB4; 0xB4; 0xB4; 0xB4; 0xB4; 0xB4; 0xB4;
   0xB7; 0xB7; 0xB7; 0xB7; 0xB7; 0xB7; 0xB7; 0xB7; 0xB7; 0xB7; 0xB7; 0xB7;
   0xB7; 0xB7; 0xB7; 0xB7; 0xB7; 0xB7; 0xB7; 0xB7; 0xB7; 0xB7; 0xB7; 0xB7;
   0xB7; 0xB7; 0xB7; 0xB7; 0xB7; 0xB7; 0xB7; 0xB7; 0xB6; 0xB6; 0xB6; 0xB6;
   0xB6; 0xB6; 0xB6; 0xB6; 0xB6; 0xB6; 0xB6; 0xB6; 0xB6; 0xB6; 0xB6; 0xB6;
   0xB6; 0xB6; 0xB6; 0xB6; 0xB6; 0xB6; 0xB6; 0xB6; 0xB6; 0xB6; 0xB6; 0xB6;
   0xB6; 0xB6; 0xB6; 0xB6; 0xB1; 0xB1; 0xB1; 0xB1; 0xB1; 0xB1; 0xB1; 0xB1;
   0xB1; 0xB1; 0xB1; 0xB1; 0xB1; 0xB1; 0xB1; 0xB1; 0xB1; 0xB1; 0xB1; 0xB1;
   0xB1; 0xB1; 0xB1; 0xB1; 0xB1; 0xB1; 0xB1; 0xB1; 0xB1; 0xB1; 0xB1; 0xB1;
   0xB0; 0xB0; 0xB0; 0xB0; 0xB0; 0xB0; 0xB0; 0xB0; 0xB0; 0xB0; 0xB0; 0xB0;
   0xB0; 0xB0; 0xB0; 0xB0; 0xB0; 0xB0; 0xB0; 0xB0; 0xB0; 0xB0; 0xB0; 0xB0;
   0xB0; 0xB0; 0xB0; 0xB0; 0xB0; 0xB0; 0xB0; 0xB0; 0xB3; 0xB3; 0xB3; 0xB3;
   0xB3; 0xB3; 0xB3; 0xB3; 0xB3; 0xB3; 0xB3; 0xB3; 0xB3; 0xB3; 0xB3; 0xB3;
   0xB3; 0xB3; 0xB3; 0xB3; 0xB3; 0xB3; 0xB3; 0xB3; 0xB3; 0xB3; 0xB3; 0xB3;
   0xB3; 0xB3; 0xB3; 0xB3; 0xB2; 0xB2; 0xB2; 0xB2; 0xB2; 0xB2; 0xB2; 0xB2;
   0xB2; 0xB2; 0xB2; 0xB2; 0xB2; 0xB2; 0xB2; 0xB2; 0xB2; 0xB2; 0xB2; 0xB2;
   0xB2; 0xB2; 0xB2; 0xB2; 0xB2; 0xB2; 0xB2; 0xB2; 0xB2; 0xB2; 0xB2; 0xB2;
   0xBD; 0xBD; 0xBD; 0xBD; 0xBD; 0xBD; 0xBD; 0xBD; 0xBD; 0xBD; 0xBD; 0xBD;
   0xBD; 0xBD; 0xBD; 0xBD; 0xBD; 0xBD; 0xBD; 0xBD; 0xBD; 0xBD; 0xBD; 0xBD;
   0xBD; 0xBD; 0xBD; 0xBD; 0xBD; 0xBD; 0xBD; 0xBD; 0xBC; 0xBC; 0xBC; 0xBC;
   0xBC; 0xBC; 0xBC; 0xBC; 0xBC; 0xBC; 0xBC; 0xBC; 0xBC; 0xBC; 0xBC; 0xBC;
   0xBC; 0xBC; 0xBC; 0xBC; 0xBC; 0xBC; 0xBC; 0xBC; 0xBC; 0xBC; 0xBC; 0xBC;
   0xBC; 0xBC; 0xBC; 0xBC; 0xBF; 0xBF; 0xBF; 0xBF; 0xBF; 0xBF; 0xBF; 0xBF;
   0xBF; 0xBF; 0xBF; 0xBF; 0xBF; 0xBF; 0xBF; 0xBF; 0xBF; 0xBF; 0xBF; 0xBF;
   0xBF; 0xBF; 0xBF; 0xBF; 0xBF; 0xBF; 0xBF; 0xBF; 0xBF; 0xBF; 0xBF; 0xBF;
   0xBE; 0xBE; 0xBE; 0xBE; 0xBE; 0xBE; 0xBE; 0xBE; 0xBE; 0xBE; 0xBE; 0xBE;
   0xBE; 0xBE; 0xBE; 0xBE; 0xBE; 0xBE; 0xBE; 0xBE; 0xBE; 0xBE; 0xBE; 0xBE;
   0xBE; 0xBE; 0xBE; 0xBE; 0xBE; 0xBE; 0xBE; 0xBE; 0xB9; 0xB9; 0xB9; 0xB9;
   0xB9; 0xB9; 0xB9; 0xB9; 0xB9; 0xB9; 0xB9; 0xB9; 0xB9; 0xB9; 0xB9; 0xB9;
   0xB9; 0xB9; 0xB9; 0xB9; 0xB9; 0xB9; 0xB9; 0xB9; 0xB9; 0xB9; 0xB9; 0xB9;
   0xB9; 0xB9; 0xB9; 0xB9; 0xB8; 0xB8; 0xB8; 0xB8; 0xB8; 0xB8; 0xB8; 0xB8;
   0xB8; 0xB8; 0xB8; 0xB8; 0xB8; 0xB8; 0xB8; 0xB8; 0xB8; 0xB8; 0xB8; 0xB8;
   0xB8; 0xB8; 0xB8; 0xB8; 0xB8; 0xB8; 0xB8; 0xB8; 0xB8; 0xB8; 0xB8; 0xB8;
   0xBB; 0xBB; 0xBB; 0xBB; 0xBB; 0xBB; 0xBB; 0xBB; 0xBB; 0xBB; 0xBB; 0xBB;
   0xBB; 0xBB; 0xBB; 0xBB; 0xBB; 0xBB; 0xBB; 0xBB; 0xBB; 0xBB; 0xBB; 0xBB;
   0xBB; 0xBB; 0xBB; 0xBB; 0xBB; 0xBB; 0xBB; 0xBB; 0xBA; 0xBA; 0xBA; 0xBA;
   0xBA; 0xBA; 0xBA; 0xBA; 0xBA; 0xBA; 0xBA; 0xBA; 0xBA; 0xBA; 0xBA; 0xBA;
   0xBA; 0xBA; 0xBA; 0xBA; 0xBA; 0xBA; 0xBA; 0xBA; 0xBA; 0xBA; 0xBA; 0xBA;
   0xBA; 0xBA; 0xBA; 0xBA; 0xA5; 0xA5; 0xA5; 0xA5; 0xA5; 0xA5; 0xA5; 0xA5;
   0xA5; 0xA5; 0xA5; 0xA5; 0xA5; 0xA5; 0xA5; 0xA5; 0xA5; 0xA5; 0xA5; 0xA5;
   0xA5; 0xA5; 0xA5; 0xA5; 0xA5; 0xA5; 0xA5; 0xA5; 0xA5; 0xA5; 0xA5; 0xA5;
   0xA5; 0xA5; 0xA5; 0xA5; 0xA5; 0xA5; 0xA5; 0xA5; 0xA5; 0xA5; 0xA5; 0xA5;
   0xA5; 0xA5; 0xA5; 0xA5; 0xA5; 0xA5; 0xA5; 0xA5; 0xA5; 0xA5; 0xA5; 0xA5;
   0xA5; 0xA5; 0xA5; 0xA5; 0xA5; 0xA5; 0xA5; 0xA5; 0xA4; 0xA4; 0xA4; 0xA4;
   0xA4; 0xA4; 0xA4; 0xA4; 0xA4; 0xA4; 0xA4; 0xA4; 0xA4; 0xA4; 0xA4; 0xA4;
   0xA4; 0xA4; 0xA4; 0xA4; 0xA4; 0xA4; 0xA4; 0xA4; 0xA4; 0xA4; 0xA4; 0xA4;
   0xA4; 0xA4; 0xA4; 0xA4; 0xA4; 0xA4; 0xA4; 0xA4; 0xA4; 0xA4; 0xA4; 0xA4;
   0xA4; 0xA4; 0xA4; 0xA4; 0xA4; 0xA4; 0xA4; 0xA4; 0xA4; 0xA4; 0xA4; 0xA4;
   0xA4; 0xA4; 0xA4; 0xA4; 0xA4; 0xA4; 0xA4; 0xA4; 0xA4; 0xA4; 0xA4; 0xA4;
   0xA7; 0xA7; 0xA7; 0xA7; 0xA7; 0xA7; 0xA7; 0xA7; 0xA7; 0xA7; 0xA7; 0xA7;
   0xA7; 0xA7; 0xA7; 0xA7; 0xA7; 0xA7; 0xA7; 0xA7; 0xA7; 0xA7; 0xA7; 0xA7;
   0xA7; 0xA7; 0xA7; 0xA7; 0xA7; 0xA7; 0xA7; 0xA7; 0xA7; 0xA7; 0xA7; 0xA7;
   0xA7; 0xA7; 0xA7; 0xA7; 0xA7; 0xA7; 0xA7; 0xA7; 0xA7; 0xA7; 0xA7; 0xA7;
   0xA7; 0xA7; 0xA7; 0xA7; 0xA7; 0xA7; 0xA7; 0xA7; 0xA7; 0xA7; 0xA7; 0xA7;
   0xA7; 0xA7; 0xA7; 0xA7; 0xA6; 0xA6; 0xA6; 0xA6; 0xA6; 0xA6; 0xA6; 0xA6;
   0xA6; 0xA6; 0xA6; 0xA6; 0xA6; 0xA6; 0xA6; 0xA6; 0xA6; 0xA6; 0xA6; 0xA6;
   0xA6; 0xA6; 0xA6; 0xA6; 0xA6; 0xA6; 0xA6; 0xA6; 0xA6; 0xA6; 0xA6; 0xA6;
   0xA6; 0xA6; 0xA6; 0xA6; 0xA6; 0xA6; 0xA6; 0xA6; 0xA6; 0xA6; 0xA6; 0xA6;
   0xA6; 0xA6; 0xA6; 0xA6; 0xA6; 0xA6; 0xA6; 0xA6; 0xA6; 0xA6; 0xA6; 0xA6;
   0xA6; 0xA6; 0xA6; 0xA6; 0xA6; 0xA6; 0xA6; 0xA6; 0xA1; 0xA1; 0xA1; 0xA1;
   0xA1; 0xA1; 0xA1; 0xA1; 0xA1; 0xA1; 0xA1; 0xA1; 0xA1; 0xA1; 0xA1; 0xA1;
   0xA1; 0xA1; 0xA1; 0xA1; 0xA1; 0xA1; 0xA1; 0xA1; 0xA1; 0xA1; 0xA1; 0xA1;
   0xA1; 0xA1; 0xA1; 0xA1; 0xA1; 0xA1; 0xA1; 0xA1; 0xA1; 0xA1; 0xA1; 0xA1;
   0xA1; 0xA1; 0xA1; 0xA1; 0xA1; 0xA1; 0xA1; 0xA1; 0xA1; 0xA1; 0xA1; 0xA1;
   0xA1; 0xA1; 0xA1; 0xA1; 0xA1; 0xA1; 0xA1; 0xA1; 0xA1; 0xA1; 0xA1; 0xA1;
   0xA0; 0xA0; 0xA0; 0xA0; 0xA0; 0xA0; 0xA0; 0xA0; 0xA0; 0xA0; 0xA0; 0xA0;
   0xA0; 0xA0; 0xA0; 0xA0; 0xA0; 0xA0; 0xA0; 0xA0; 0xA0; 0xA0; 0xA0; 0xA0;
   0xA0; 0xA0; 0xA0; 0xA0; 0xA0; 0xA0; 0xA0; 0xA0; 0xA0; 0xA0; 0xA0; 0xA0;
   0xA0; 0xA0; 0xA0; 0xA0; 0xA0; 0xA0; 0xA0; 0xA0; 0xA0; 0xA0; 0xA0; 0xA0;
   0xA0; 0xA0; 0xA0; 0xA0; 0xA0; 0xA0; 0xA0; 0xA0; 0xA0; 0xA0; 0xA0; 0xA0;
   0xA0; 0xA0; 0xA0; 0xA0; 0xA3; 0xA3; 0xA3; 0xA3; 0xA3; 0xA3; 0xA3; 0xA3;
   0xA3; 0xA3; 0xA3; 0xA3; 0xA3; 0xA3; 0xA3; 0xA3; 0xA3; 0xA3; 0xA3; 0xA3;
   0xA3; 0xA3; 0xA3; 0xA3; 0xA3; 0xA3; 0xA3; 0xA3; 0xA3; 0xA3; 0xA3; 0xA3;
   0xA3; 0xA3; 0xA3; 0xA3; 0xA3; 0xA3; 0xA3; 0xA3; 0xA3; 0xA3; 0xA3; 0xA3;
   0xA3; 0xA3; 0xA3; 0xA3; 0xA3; 0xA3; 0xA3; 0xA3; 0xA3; 0xA3; 0xA3; 0xA3;
   0xA3; 0xA3; 0xA3; 0xA3; 0xA3; 0xA3; 0xA3; 0xA3; 0xA2; 0xA2; 0xA2; 0xA2;
   0xA2; 0xA2; 0xA2; 0xA2; 0xA2; 0xA2; 0xA2; 0xA2; 0xA2; 0xA2; 0xA2; 0xA2;
   0xA2; 0xA2; 0xA2; 0xA2; 0xA2; 0xA2; 0xA2; 0xA2; 0xA2; 0xA2; 0xA2; 0xA2;
   0xA2; 0xA2; 0xA2; 0xA2; 0xA2; 0xA2; 0xA2; 0xA2; 0xA2; 0xA2; 0xA2; 0xA2;
   0xA2; 0xA2; 0xA2; 0xA2; 0xA2; 0xA2; 0xA2; 0xA2; 0xA2; 0xA2; 0xA2; 0xA2;
   0xA2; 0xA2; 0xA2; 0xA2; 0xA2; 0xA2; 0xA2; 0xA2; 0xA2; 0xA2; 0xA2; 0xA2;
   0xAD; 0xAD; 0xAD; 0xAD; 0xAD; 0xAD; 0xAD; 0xAD; 0xAD; 0xAD; 0xAD; 0xAD;
   0xAD; 0xAD; 0xAD; 0xAD; 0xAD; 0xAD; 0xAD; 0xAD; 0xAD; 0xAD; 0xAD; 0xAD;
   0xAD; 0xAD; 0xAD; 0xAD; 0xAD; 0xAD; 0xAD; 0xAD; 0xAD; 0xAD; 0xAD; 0xAD;
   0xAD; 0xAD; 0xAD; 0xAD; 0xAD; 0xAD; 0xAD; 0xAD; 0xAD; 0xAD; 0xAD; 0xAD;
   0xAD; 0xAD; 0xAD; 0xAD; 0xAD; 0xAD; 0xAD; 0xAD; 0xAD; 0xAD; 0xAD; 0xAD;
   0xAD; 0xAD; 0xAD; 0xAD; 0xAC; 0xAC; 0xAC; 0xAC; 0xAC; 0xAC; 0xAC; 0xAC;
   0xAC; 0xAC; 0xAC; 0xAC; 0xAC; 0xAC; 0xAC; 0xAC; 0xAC; 0xAC; 0xAC; 0xAC;
   0xAC; 0xAC; 0xAC; 0xAC; 0xAC; 0xAC; 0xAC; 0xAC; 0xAC; 0xAC; 0xAC; 0xAC;
   0xAC; 0xAC; 0xAC; 0xAC; 0xAC; 0xAC; 0xAC; 0xAC; 0xAC; 0xAC; 0xAC; 0xAC;
   0xAC; 0xAC; 0xAC; 0xAC; 0xAC; 0xAC; 0xAC; 0xAC; 0xAC; 0xAC; 0xAC; 0xAC;
   0xAC; 0xAC; 0xAC; 0xAC; 0xAC; 0xAC; 0xAC; 0xAC; 0xAF; 0xAF; 0xAF; 0xAF;
   0xAF; 0xAF; 0xAF; 0xAF; 0xAF; 0xAF; 0xAF; 0xAF; 0xAF; 0xAF; 0xAF; 0xAF;
   0xAF; 0xAF; 0xAF; 0xAF; 0xAF; 0xAF; 0xAF; 0xAF; 0xAF; 0xAF; 0xAF; 0xAF;
   0xAF; 0xAF; 0xAF; 0xAF; 0xAF; 0xAF; 0xAF; 0xAF; 0xAF; 0xAF; 0xAF; 0xAF;
   0xAF; 0xAF; 0xAF; 0xAF; 0xAF; 0xAF; 0xAF; 0xAF; 0xAF; 0xAF; 0xAF; 0xAF;
   0xAF; 0xAF; 0xAF; 0xAF; 0xAF; 0xAF; 0xAF; 0xAF; 0xAF; 0xAF; 0xAF; 0xAF;
   0xAE; 0xAE; 0xAE; 0xAE; 0xAE; 0xAE; 0xAE; 0xAE; 0xAE; 0xAE; 0xAE; 0xAE;
   0xAE; 0xAE; 0xAE; 0xAE; 0xAE; 0xAE; 0xAE; 0xAE; 0xAE; 0xAE; 0xAE; 0xAE;
   0xAE; 0xAE; 0xAE; 0xAE; 0xAE; 0xAE; 0xAE; 0xAE; 0xAE; 0xAE; 0xAE; 0xAE;
   0xAE; 0xAE; 0xAE; 0xAE; 0xAE; 0xAE; 0xAE; 0xAE; 0xAE; 0xAE; 0xAE; 0xAE;
   0xAE; 0xAE; 0xAE; 0xAE; 0xAE; 0xAE; 0xAE; 0xAE; 0xAE; 0xAE; 0xAE; 0xAE;
   0xAE; 0xAE; 0xAE; 0xAE; 0xA9; 0xA9; 0xA9; 0xA9; 0xA9; 0xA9; 0xA9; 0xA9;
   0xA9; 0xA9; 0xA9; 0xA9; 0xA9; 0xA9; 0xA9; 0xA9; 0xA9; 0xA9; 0xA9; 0xA9;
   0xA9; 0xA9; 0xA9; 0xA9; 0xA9; 0xA9; 0xA9; 0xA9; 0xA9; 0xA9; 0xA9; 0xA9;
   0xA9; 0xA9; 0xA9; 0xA9; 0xA9; 0xA9; 0xA9; 0xA9; 0xA9; 0xA9; 0xA9; 0xA9;
   0xA9; 0xA9; 0xA9; 0xA9; 0xA9; 0xA9; 0xA9; 0xA9; 0xA9; 0xA9; 0xA9; 0xA9;
   0xA9; 0xA9; 0xA9; 0xA9; 0xA9; 0xA9; 0xA9; 0xA9; 0xA8; 0xA8; 0xA8; 0xA8;
   0xA8; 0xA8; 0xA8; 0xA8; 0xA8; 0xA8; 0xA8; 0xA8; 0xA8; 0xA8; 0xA8; 0xA8;
   0xA8; 0xA8; 0xA8; 0xA8; 0xA8; 0xA8; 0xA8; 0xA8; 0xA8; 0xA8; 0xA8; 0xA8;
   0xA8; 0xA8; 0xA8; 0xA8; 0xA8; 0xA8; 0xA8; 0xA8; 0xA8; 0xA8; 0xA8; 0xA8;
   0xA8; 0xA8; 0xA8; 0xA8; 0xA8; 0xA8; 0xA8; 0xA8; 0xA8; 0xA8; 0xA8; 0xA8;
   0xA8; 0xA8; 0xA8; 0xA8; 0xA8; 0xA8; 0xA8; 0xA8; 0xA8; 0xA8; 0xA8; 0xA8;
   0xAB; 0xAB; 0xAB; 0xAB; 0xAB; 0xAB; 0xAB; 0xAB; 0xAB; 0xAB; 0xAB; 0xAB;
   0xAB; 0xAB; 0xAB; 0xAB; 0xAB; 0xAB; 0xAB; 0xAB; 0xAB; 0xAB; 0xAB; 0xAB;
   0xAB; 0xAB; 0xAB; 0xAB; 0xAB; 0xAB; 0xAB; 0xAB; 0xAB; 0xAB; 0xAB; 0xAB;
   0xAB; 0xAB; 0xAB; 0xAB; 0xAB; 0xAB; 0xAB; 0xAB; 0xAB; 0xAB; 0xAB; 0xAB;
   0xAB; 0xAB; 0xAB; 0xAB; 0xAB; 0xAB; 0xAB; 0xAB; 0xAB; 0xAB; 0xAB; 0xAB;
   0xAB; 0xAB; 0xAB; 0xAB; 0xAA; 0xAA; 0xAA; 0xAA; 0xAA; 0xAA; 0xAA; 0xAA;
   0xAA; 0xAA; 0xAA; 0xAA; 0xAA; 0xAA; 0xAA; 0xAA; 0xAA; 0xAA; 0xAA; 0xAA;
   0xAA; 0xAA; 0xAA; 0xAA; 0xAA; 0xAA; 0xAA; 0xAA; 0xAA; 0xAA; 0xAA; 0xAA;
   0xAA; 0xAA; 0xAA; 0xAA; 0xAA; 0xAA; 0xAA; 0xAA; 0xAA; 0xAA; 0xAA; 0xAA;
   0xAA; 0xAA; 0xAA; 0xAA; 0xAA; 0xAA; 0xAA; 0xAA; 0xAA; 0xAA; 0xAA; 0xAA;
   0xAA; 0xAA; 0xAA; 0xAA; 0xAA; 0xAA; 0xAA; 0xAA; 0x2A].

(** The loop of the decoder: a sample of two bytes per byte of input. *)
Fixpoint decode_loop (fuel : nat) (dst src : list Z) (i in_len : Z) : res (list Z) :=
  match fuel with
  | O => NoFuel
  | S fuel =>
      if i <? in_len then
        b ← rd src (Z.to_nat i);
        s ← rd alawtos16 (Z.to_nat b);
        dst ← blk_store (2 * Z.to_nat i) (le 2 s) dst;
        decode_loop fuel dst src (i + 1) in_len
      else Ok dst
  end.

(** The results: the value returned, the output buffer and what [*pout_len] becomes. *)
Definition g711a_decode (pout_buf : option (list Z)) (pout_len : option Z) (pin_buf : option (list Z)) (in_len : Z) :
    res (Z * option (list Z) * option Z) :=
  match pout_buf, pout_len, pin_buf with
  | Some dst, Some room, Some src =>
      if in_len =? 0 then Ok (-1, pout_buf, pout_len) else
      need ← int_op (2 * in_len);
      if room <? need then Ok (-2, pout_buf, pout_len) else
      dst ← decode_loop (S (Z.to_nat in_len)) dst src 0 in_len;
      Ok (need, Some dst, Some need)
  | _, _, _ => Ok (-1, pout_buf, pout_len)
  end.

(** The byte of one sample. *)
Definition encode_sample (s : Z) : res Z :=
  if s >=? 0 then i ← ptr_off (s ÷ 16); rd alaw_encode i
  else i ← ptr_off (s ÷ -16); b ← rd alaw_encode i; Ok (u8 (Z.land 0x7F (schar b))).

Fixpoint encode_loop (fuel : nat) (dst src : list Z) (i n : Z) : res (list Z) :=
  match fuel with
  | O => NoFuel
  | S fuel =>
      if i <? n then
        cells ← blk_copy (2 * Z.to_nat i) 2 src;
        b ← encode_sample (swrap 16 (le_val cells));
        dst ← blk_store (Z.to_nat i) [b] dst;
        encode_loop fuel dst src (i + 1) n
      else Ok dst
  end.

Definition g711a_encode (pout_buf : option (list Z)) (pout_len : option Z) (pin_buf : option (list Z)) (in_len : Z) :
    res (Z * option (list Z) * option Z) :=
  match pout_buf, pout_len, pin_buf with
  | Some dst, Some room, Some src =>
      if in_len =? 0 then Ok (-1, pout_buf, pout_len) else
      let n := in_len ÷ 2 in
      if room <? n then Ok (-2, pout_buf, pout_len) else
      dst ← encode_loop (S (Z.to_nat n)) dst src 0 n;
      Ok (n, Some dst, Some n)
  | _, _, _ => Ok (-1, pout_buf, pout_len)
  end.

(** ** To AAC *)
Section aac.
(** The encoder library: its constants, an opened encoder with its number of input samples and of output bytes, the
    configuration it is given, an encoding and the close. *)
Context {enc : Type} (FAAC_INPUT_16BIT LOW MPEG2 : Z)
  (faacEncOpen : Z -> Z -> option (enc * Z * Z))
  (faacEncSetConfiguration : enc -> Z -> Z -> Z -> Z -> Z -> enc * Z)
  (faacEncEncode : enc -> list Z -> Z -> list Z -> Z -> enc * Z * list Z)
  (faacEncClose : enc -> Z).

(** [calloc_ok]: what [malloc] and the [memset] behind it give. *)
Definition calloc_ok (ok : bool) (size : Z) : res (list Z) :=
  if ok then Ok (replicate (Z.to_nat size) 0) else UB.

(** The end of the conversion, with [nPCMRead] bytes of samples in [tmp] and nothing in [pcm] yet. *)
Definition encode_pcm (ok : bool) (h : enc) (pcm aac tmp : list Z) (nPCMBufferSize nMaxOutputBytes nPCMRead : Z) :
    res (Z * option (list Z * Z)) :=
  let nCount := 0 in
  '(h, pcm, aac, nCount, nStatus) ← (if nPCMBufferSize - nCount <? nPCMRead then
      pcm ← memcpy pcm (Z.to_nat nCount) tmp 0 (nPCMBufferSize - nCount);
      let '(h, _, aac) := faacEncEncode h pcm (nPCMBufferSize ÷ 2) (replicate (length aac) 0) nMaxOutputBytes in
      let nTmp := nPCMRead - (nPCMBufferSize - nCount) in
      pcm ← memcpy (replicate (Z.to_nat nPCMBufferSize) 0) 0 tmp (nPCMBufferSize - nCount) nTmp;
      Ok (h, pcm, aac, nTmp, 1)
    else Ok (h, pcm, aac, nCount, 0));
  '(pcm, nCount) ← (if nStatus =? 0 then
      pcm ← memcpy pcm (Z.to_nat nCount) tmp 0 nPCMRead; Ok (pcm, nCount + nPCMRead)
    else Ok (pcm, nCount));
  let '(h, aac) := if nPCMRead <? 320 then
      let '(h, _, aac) := faacEncEncode h pcm (nCount ÷ 2) aac nMaxOutputBytes in (h, aac)
    else (h, aac) in
  let nRet := faacEncClose h in
  if ok then Ok (nRet, Some (aac, nRet)) else UB.

(** [pbG711ABuffer] is the caller's block, [None] for NULL; [len] is not used.  The results: the value
    returned and the packet, if one is made. *)
Definition g711a2aac (malloc_ok : nat -> bool) (pbG711ABuffer : option (list Z)) (len : Z) :
    res (Z * option (list Z * Z)) :=
  let PCMSize := 320 in
  let gBytesRead := 0 in
  match pbG711ABuffer with
  | None => Ok (-1, None)
  | Some g711 =>
      match faacEncOpen 8000 1 with
      | None => Ok (-1, None)
      | Some (h, nInputSamples, nMaxOutputBytes) =>
          let nPCMBufferSize := i32 (u64 (nInputSamples * 2)) in
          pcm ← calloc_ok (malloc_ok 0%nat) (u64 nPCMBufferSize);
          aac ← calloc_ok (malloc_ok 1%nat) (u64 nMaxOutputBytes);
          tmp ← calloc_ok (malloc_ok 2%nat) PCMSize;
          let '(h, _) := faacEncSetConfiguration h FAAC_INPUT_16BIT 1 0 LOW MPEG2 in
          _ ← assert_ok (4 <=? Z.of_nat (length g711));
          '(nPCMRead, tmp, _) ← g711a_decode (Some tmp) (Some PCMSize) (Some (drop 4 g711)) (gBytesRead - 4);
          tmp ← of_option tmp;
          if nPCMRead <? 0 then Ok (-1, None) else
          encode_pcm (malloc_ok 3%nat) h pcm aac tmp nPCMBufferSize nMaxOutputBytes nPCMRead
      end
  end.
End aac.

(** ** One sample *)

(** The value of a byte, and the byte of a sample. *)
Definition expand (b : Z) : Z := nth (Z.to_nat b) alawtos16 0.
Definition compress (s : Z) : Z := match encode_sample s with Ok b => b | _ => 0 end.

Definition is_sample (s : Z) : Prop := - 32768 <= s < 32768.

(** What is to be checked of the entry at an index: the byte and the one of the negative samples are bytes
    with opposite values, near to the samples of the entry. *)
Definition entry_ok (k : nat) (b : Z) : bool :=
  let n := u8 (Z.land 0x7F (schar b)) in
  let v := expand b in
  let lo := 16 * Z.of_nat k in
  let room := 8 + lo / 32 in
  bool_decide (is_byte b) && (expand n =? - v) && (lo + 15 - room <=? v) && (v <=? lo + room).

Definition entries_ok : bool := forallb (fun '(k, b) => entry_ok k b) (zip (seq 0 2048) alaw_encode).

Lemma entries_hold : entries_ok = true.
Proof. vm_compute. reflexivity. Qed.

Fixpoint ascending (l : list Z) : bool :=
  match l with x :: ((y :: _) as l') => (x <=? y) && ascending l' | _ => true end.

Lemma values_ascend : ascending (map expand (take 2048 alaw_encode)) = true.
Proof. vm_compute. reflexivity. Qed.

Lemma alaw_encode_length : length alaw_encode = 2049%nat.
Proof. vm_compute. reflexivity. Qed.

#[local] Opaque alaw_encode alawtos16.

Definition value (k : nat) : Z := expand (nth k alaw_encode 0).

Lemma entry_at k : (k < 2048)%nat -> alaw_encode !! k = Some (nth k alaw_encode 0) /\ entry_ok k (nth k alaw_encode 0) = true.
Proof.
  intros Hk. assert (E : alaw_encode !! k = Some (nth k alaw_encode 0)).
  { destruct (lookup_lt_is_Some_2 alaw_encode k) as [b Hb]; [rewrite alaw_encode_length; lia |].
    rewrite Hb. by rewrite (nth_lookup_Some _ _ 0 _ Hb). }
  split; [done |]. pose proof entries_hold as H. unfold entries_ok in H. rewrite forallb_forall in H.
  apply (H (k, nth k alaw_encode 0)). apply list_elem_of_In, list_elem_of_lookup. exists k.
  apply lookup_zip_with_Some. exists k, (nth k alaw_encode 0). split_and!; [done | | done].
  by apply lookup_seq_lt.
Qed.

Lemma ascending_le l : ascending l = true -> forall i j x y, (i <= j)%nat -> l !! i = Some x -> l !! j = Some y -> x <= y.
Proof.
  induction l as [| a l IH]; intros H i j x y Hij Hi Hj; [done |].
  assert (Hl : ascending l = true) by (destruct l; [done |]; by apply andb_true_iff in H as [_ ?]).
  destruct i as [| i], j as [| j]; cbn in Hi, Hj; [simplify_eq; lia | | lia | apply (IH Hl i j); auto; lia].
  injection Hi as ->. destruct l as [| b l]; [done |]. apply andb_true_iff in H as [H%Z.leb_le _].
  etrans; [exact H |]. apply (IH Hl 0%nat j); [lia | done | done].
Qed.

Lemma value_le i j : (i <= j < 2048)%nat -> value i <= value j.
Proof.
  intros H. assert (V : forall k, (k < 2048)%nat -> map expand (take 2048 alaw_encode) !! k = Some (value k)).
  { intros k Hk. rewrite (list_lookup_fmap expand), lookup_take_lt, (proj1 (entry_at k Hk)) by lia. done. }
  apply (ascending_le _ values_ascend i j); [lia | apply V | apply V]; lia.
Qed.

(** The byte of a sample and the value it stands for. *)
Lemma encode_sample_ok s : is_sample s ->
  exists b, encode_sample s = Ok b /\ is_byte b /\
    expand b = if decide (s = -32768) then -32256 else if decide (0 <= s) then value (Z.to_nat (s / 16)) else - value (Z.to_nat (- s / 16)).
Proof.
  intros Hs. unfold is_sample in Hs. unfold encode_sample. destruct (Z.geb_spec s 0) as [H | H].
  - rewrite Z.quot_div_nonneg by lia. rewrite ptr_off_Ok by (apply Z.div_pos; lia). cbn [mbind res_bind].
    assert (s / 16 < 2048) by (apply Z.div_lt_upper_bound; lia).
    destruct (entry_at (Z.to_nat (s / 16))) as [E Ho]; [lia |]. exists (nth (Z.to_nat (s / 16)) alaw_encode 0).
    rewrite (rd_Ok _ _ _ E), decide_False, decide_True by lia. split_and!; [done | | done].
    unfold entry_ok in Ho. rewrite !andb_true_iff in Ho. destruct Ho as [[[Ho _] _] _]. by apply bool_decide_eq_true in Ho.
  - replace (s ÷ -16) with (- s / 16) by (change (-16) with (- (16)); rewrite Z.quot_opp_r, <- Z.quot_opp_l, Z.quot_div_nonneg by lia; done).
    rewrite ptr_off_Ok by (apply Z.div_pos; lia). cbn [mbind res_bind]. case_decide as E1.
    { subst s. eexists. split; [vm_compute; reflexivity |]. split; [by_decide | done]. }
    rewrite decide_False by lia.
    assert (- s / 16 < 2048) by (apply Z.div_lt_upper_bound; lia).
    destruct (entry_at (Z.to_nat (- s / 16))) as [E Ho]; [lia |].
    rewrite (rd_Ok _ _ _ E). cbn [mbind res_bind]. eexists. split_and!; [done | apply u8_byte |].
    unfold entry_ok in Ho. rewrite !andb_true_iff in Ho. destruct Ho as [[[_ Ho%Z.eqb_eq] _] _]. exact Ho.
Qed.

Lemma value_near k : (k < 2048)%nat -> forall r, 0 <= r < 16 -> Z.abs (value k - (16 * Z.of_nat k + r)) <= 8 + (16 * Z.of_nat k + r) / 32.
Proof.
  intros Hk r Hr. destruct (entry_at k Hk) as [_ Ho]. unfold entry_ok in Ho.
  rewrite !andb_true_iff, !Z.leb_le in Ho. fold (value k) in Ho. destruct Ho as [[_ H1] H2].
  assert (E : 16 * Z.of_nat k / 32 <= (16 * Z.of_nat k + r) / 32) by (apply Z.div_le_mono; lia).
  lia.
Qed.

Lemma compress_near s : is_sample s -> Z.abs (expand (compress s) - s) <= 8 + Z.abs s / 32.
Proof.
  intros Hs. destruct (encode_sample_ok s Hs) as (b & E & _ & V). unfold compress. rewrite E, V. unfold is_sample in Hs.
  case_decide; [subst; vm_compute; discriminate |].
  assert (N : forall a, 0 <= a < 32768 -> Z.abs (value (Z.to_nat (a / 16)) - a) <= 8 + a / 32).
  { intros a Ha. pose proof (Z.div_mod a 16). pose proof (Z.mod_pos_bound a 16).
    assert (0 <= a / 16 < 2048) by (split; [apply Z.div_pos | apply Z.div_lt_upper_bound]; lia).
    pose proof (value_near (Z.to_nat (a / 16)) ltac:(lia) (a mod 16) ltac:(lia)) as V'.
    rewrite Z2Nat.id in V' by lia. rewrite <- (Z.div_mod a 16) in V' by lia. exact V'. }
  case_decide.
  - rewrite (Z.abs_eq s) by lia. apply N. lia.
  - rewrite (Z.abs_neq s) by lia. specialize (N (- s) ltac:(lia)). lia.
Qed.

Lemma compress_mono s t : is_sample s -> is_sample t -> s <= t -> expand (compress s) <= expand (compress t).
Proof.
  intros Hs Ht Hst. destruct (encode_sample_ok s Hs) as (b & E & _ & V), (encode_sample_ok t Ht) as (c & E' & _ & V').
  unfold compress. rewrite E, E', V, V'. unfold is_sample in Hs, Ht.
  assert (D : forall a, 0 <= a < 32768 -> (Z.to_nat (a / 16) < 2048)%nat).
  { intros a Ha. assert (0 <= a / 16 < 2048) by (split; [apply Z.div_pos | apply Z.div_lt_upper_bound]; lia). lia. }
  assert (P : forall a, 0 <= a < 32768 -> 0 <= value (Z.to_nat (a / 16)) <= 32256).
  { intros a Ha. specialize (D a Ha). split.
    - etrans; [| apply (value_le 0); lia]. by_decide.
    - etrans; [apply (value_le _ 2047); lia |]. by_decide. }
  assert (M : forall a b, 0 <= a <= b -> b < 32768 -> value (Z.to_nat (a / 16)) <= value (Z.to_nat (b / 16))).
  { intros a b' Hab Hb. apply value_le. split; [| apply D; lia]. apply Z2Nat.inj_le; [apply Z.div_pos | apply Z.div_pos |]; try lia.
    apply Z.div_le_mono; lia. }
  repeat case_decide; try lia; try (apply M; lia);
    try (pose proof (P t ltac:(lia)); try pose proof (P (- s) ltac:(lia)); lia);
    try (pose proof (P (- t) ltac:(lia)); lia).
  specialize (M (- t) (- s) ltac:(lia) ltac:(lia)). lia.
Qed.

Lemma expand_sample b : is_byte b -> is_sample (expand b) /\ compress (expand b) = b /\ alawtos16 !! Z.to_nat b = Some (expand b).
Proof.
  intros Hb. assert (A : forallb (fun n => bool_decide (- 32768 <= expand (Z.of_nat n) < 32768) && (compress (expand (Z.of_nat n)) =? Z.of_nat n)
    && bool_decide (alawtos16 !! n = Some (expand (Z.of_nat n)))) (seq 0 256) = true) by (vm_compute; reflexivity).
  rewrite forallb_forall in A. unfold is_byte in Hb. specialize (A (Z.to_nat b)). rewrite Z2Nat.id, !andb_true_iff in A by lia.
  destruct A as [[A1%bool_decide_eq_true A2%Z.eqb_eq] A3%bool_decide_eq_true]; [apply in_seq; lia | done].
Qed.

(** ** Buffers *)

Definition samples (ss : list Z) : list Z := concat (map (le 2) ss).

Lemma samples_length ss : length (samples ss) = (2 * length ss)%nat.
Proof. induction ss as [| s ss IH]; [done |]. unfold samples in *. cbn [map concat]. rewrite length_app, IH, le_length. cbn. lia. Qed.

Lemma decode_loop_ok : forall bs fuel o old rest pre post,
  Forall is_byte bs -> (length bs < fuel)%nat -> length o = (2 * length pre)%nat -> length old = (2 * length bs)%nat ->
  decode_loop fuel (o ++ old ++ rest) (pre ++ bs ++ post) (Z.of_nat (length pre)) (Z.of_nat (length pre + length bs)) =
    Ok (o ++ samples (map expand bs) ++ rest).
Proof.
  induction bs as [| b bs IH]; intros [| fuel] o old rest pre post Hb Hf Ho Hold; cbn in Hf; [lia | | lia |].
  - destruct old; [| discriminate]. cbn [decode_loop]. rewrite (proj2 (Z.ltb_ge _ _)) by (cbn; lia). done.
  - apply Forall_cons_1 in Hb as [Hb Hbs]. cbn [length] in Hold. cbn [decode_loop].
    rewrite (proj2 (Z.ltb_lt _ _)) by (cbn; lia). rewrite Nat2Z.id, rd_middle. cbn [mbind res_bind].
    destruct (expand_sample b Hb) as (_ & _ & E). rewrite (rd_Ok _ _ _ E). cbn [mbind res_bind].
    destruct old as [| x [| y old]]; try (cbn in Hold; lia). rewrite <- Ho.
    change (o ++ (x :: y :: old) ++ rest) with (o ++ [x; y] ++ old ++ rest). rewrite blk_store_app by (by rewrite le_length).
    cbn [mbind res_bind]. specialize (IH fuel (o ++ le 2 (expand b)) old rest (pre ++ [b]) post Hbs).
    rewrite !length_app, le_length, <- !app_assoc in IH. cbn [app length] in IH. rewrite <- Nat.add_assoc, Nat2Z.inj_add in IH.
    change (1 + length bs)%nat with (length (b :: bs)) in IH. change (Z.of_nat 1) with 1 in IH. cbn [app].
    rewrite IH by (cbn in Hold; lia).
    unfold samples. cbn [map concat]. by rewrite <- app_assoc.
Qed.

Lemma swrap_le s : is_sample s -> swrap 16 (le_val (le 2 s)) = s.
Proof.
  intros Hs. rewrite le_val_le. unfold swrap, wrap. change (8 * Z.of_nat 2) with 16.
  rewrite Zplus_mod_idemp_l. apply (swrap_small 16 s); [lia |]. exact Hs.
Qed.

Lemma encode_loop_ok : forall ss fuel o old rest pre post,
  Forall is_sample ss -> (length ss < fuel)%nat -> length pre = (2 * length o)%nat -> length old = length ss ->
  encode_loop fuel (o ++ old ++ rest) (pre ++ samples ss ++ post) (Z.of_nat (length o)) (Z.of_nat (length o + length ss)) =
    Ok (o ++ map compress ss ++ rest).
Proof.
  induction ss as [| s ss IH]; intros [| fuel] o old rest pre post Hs Hf Ho Hold; cbn in Hf; [lia | | lia |].
  - destruct old; [| discriminate]. cbn [encode_loop]. rewrite (proj2 (Z.ltb_ge _ _)) by (cbn; lia). done.
  - apply Forall_cons_1 in Hs as [Hs Hss]. cbn [encode_loop]. rewrite (proj2 (Z.ltb_lt _ _)) by (cbn; lia).
    rewrite Nat2Z.id, <- Ho. unfold samples. cbn [map concat]. rewrite <- (le_length 2 s) at 1.
    rewrite <- app_assoc, blk_copy_app. cbn [mbind res_bind]. rewrite swrap_le by done.
    destruct (encode_sample_ok s Hs) as (b & E & _ & _). assert (C : compress s = b) by (unfold compress; by rewrite E).
    rewrite E. cbn [mbind res_bind]. destruct old as [| x old]; [discriminate |]. injection Hold as Hold.
    change (o ++ (x :: old) ++ rest) with (o ++ [x] ++ old ++ rest). rewrite blk_store_app by done. cbn [mbind res_bind].
    specialize (IH fuel (o ++ [b]) old rest (pre ++ le 2 s) post Hss). rewrite !length_app, le_length, <- !app_assoc in IH.
    cbn [app length] in IH. rewrite <- Nat.add_assoc, Nat2Z.inj_add in IH.
    change (1 + length ss)%nat with (length (s :: ss)) in IH. change (Z.of_nat 1) with 1 in IH.
    unfold samples in IH. cbn [app]. rewrite IH by lia. by rewrite C.
Qed.

(** C37.  The A-law codec.  [n > 0] bytes decode to [n] samples of two bytes and [2 * n] is returned and
    stored as the length; samples encode to a byte each, whatever 16-bit values they are, without leaving
    the tables; the encoder gives back what the decoder was given; encoding a sample loses no more than
    [8 + |s| / 32] and keeps the order.  Both refuse NULL and an empty input with -1, and an output that is too short for the input
    with -2, leaving the buffer and the length as they were.  [g711a2aac] decodes [0 - 4] bytes, which the decoder takes, and fails for every input. *)
Theorem g711a_codec (bs old rest : list Z) (Hb : Forall is_byte bs) (Hn : bs <> [])
    (Hold : length old = (2 * length bs)%nat) (Hbig : 2 * Z.of_nat (length bs) <= INT_MAX) :
  let n := Z.of_nat (length bs) in
  (forall room post, 2 * n <= room ->
     g711a_decode (Some (old ++ rest)) (Some room) (Some (bs ++ post)) n =
       Ok (2 * n, Some (samples (map expand bs) ++ rest), Some (2 * n))) /\
  (forall ss room dst tail post, Forall is_sample ss -> length ss = length bs -> length dst = length bs -> n <= room ->
     g711a_encode (Some (dst ++ tail)) (Some room) (Some (samples ss ++ post)) (2 * n) =
       Ok (n, Some (map compress ss ++ tail), Some n)) /\
  map compress (map expand bs) = bs /\ Forall is_sample (map expand bs) /\
  (forall s, is_sample s -> Z.abs (expand (compress s) - s) <= 8 + Z.abs s / 32) /\
  (forall s t, is_sample s -> is_sample t -> s <= t -> expand (compress s) <= expand (compress t)) /\
  (forall out room inp m, (out = None \/ room = None \/ inp = None \/ m = 0) ->
     g711a_decode out room inp m = Ok (-1, out, room) /\ g711a_encode out room inp m = Ok (-1, out, room)) /\
  (forall out room inp m, m <> 0 -> INT_MIN <= 2 * m <= INT_MAX -> room < 2 * m ->
     g711a_decode (Some out) (Some room) (Some inp) m = Ok (-2, Some out, Some room)) /\
  (forall out room inp m, m <> 0 -> room < m ÷ 2 ->
     g711a_encode (Some out) (Some room) (Some inp) m = Ok (-2, Some out, Some room)) /\
  (forall enc a b c (o : Z -> Z -> option (enc * Z * Z)) set encode close len, (4 <= length bs)%nat ->
     g711a2aac a b c o set encode close (fun _ => true) (Some bs) len = Ok (-1, None)).
Proof.
  intros n. assert (0 < n) by (destruct bs; [done | cbn in *; lia]).
  assert (E : map compress (map expand bs) = bs).
  { rewrite map_map. rewrite <- (map_id bs) at 2. apply map_ext_in. intros b Hi%list_elem_of_In.
    apply expand_sample. by apply (proj1 (Forall_forall _ _) Hb). }
  split_and!.
  - intros room post Hr. unfold g711a_decode. rewrite (proj2 (Z.eqb_neq _ _)), int_op_in by (unfold INT_MIN; lia).
    cbn [mbind res_bind]. rewrite (proj2 (Z.ltb_ge _ _)) by lia. unfold n. rewrite Nat2Z.id.
    pose proof (decode_loop_ok bs (S (length bs)) [] old rest [] post Hb ltac:(lia) eq_refl Hold) as D.
    cbn [app length Nat.add] in D. change (Z.of_nat 0) with 0 in D. by rewrite D.
  - intros ss room dst tail post Hs Hl Hd Hr. unfold g711a_encode. rewrite (proj2 (Z.eqb_neq _ _)) by lia.
    replace (2 * n ÷ 2) with n by (rewrite Z.mul_comm, Z.quot_mul; lia).
    rewrite (proj2 (Z.ltb_ge _ _)) by lia. unfold n. rewrite Nat2Z.id.
    pose proof (encode_loop_ok ss (S (length bs)) [] dst tail [] post Hs ltac:(lia) eq_refl ltac:(lia)) as D.
    cbn [app length Nat.add] in D. change (Z.of_nat 0) with 0 in D. rewrite Hl in D. by rewrite D.
  - exact E.
  - apply Forall_forall. intros s Hs%list_elem_of_In. apply in_map_iff in Hs as (b & <- & Hi%list_elem_of_In).
    apply expand_sample. by apply (proj1 (Forall_forall _ _) Hb).
  - apply compress_near.
  - apply compress_mono.
  - intros [out |] [room |] [inp |] m Ho; try done. destruct Ho as [Ho | [Ho | [Ho | ->]]]; done.
  - intros out room inp m Hm Hi Hr. unfold g711a_decode. rewrite (proj2 (Z.eqb_neq _ _)), int_op_in by lia.
    cbn [mbind res_bind]. by rewrite (proj2 (Z.ltb_lt _ _)) by lia.
  - intros out room inp m Hm Hr. unfold g711a_encode. rewrite (proj2 (Z.eqb_neq _ _)) by lia. by rewrite (proj2 (Z.ltb_lt _ _)) by lia.
  - intros enc a b c o set encode close len H4. unfold g711a2aac. destruct (o 8000 1) as [[[h i] m] |]; [| done].
    cbn [calloc_ok mbind res_bind]. destruct (set h a 1 0 b c) as [h' r]. rewrite (proj2 (Z.leb_le _ _)) by lia. done.
Qed.

Lemma g711a_codec_witness :
  g711a_decode (Some [0; 0; 0; 0; 9]) (Some 4) (Some [0xD5; 0x55]) 2 = Ok (4, Some (samples [8; -8] ++ [9]), Some 4).
Proof.
  exact (proj1 (g711a_codec [0xD5; 0x55] [0; 0; 0; 0] [9] ltac:(by_decide) ltac:(discriminate) eq_refl ltac:(vm_compute; discriminate))
    4 [] ltac:(cbn; lia)).
Defined.
