(* ===== verification/ThreadPool.v ===== *)
(** * The thread pool

    [common/threadpool/ThreadPool.c], which runs every thread of the program.  A function of the library
    holds the mutex except where it waits on a condition variable, so a thread moves from wait to wait in
    stretches that no other thread interleaves with: those are the actions here.  A wait may return at any
    time, as POSIX allows it, so signals and broadcasts add no behaviour.  The statistics in floating point are left out. *)

From S2P Require Import Prelude Text.

(** [ThreadPriority]; an [int], since callers may pass others. *)
Definition LOW_PRIORITY : Z := 0.
Definition MED_PRIORITY : Z := 1.
Definition HIGH_PRIORITY : Z := 2.
Definition DEFAULT_PRIORITY : Z := MED_PRIORITY.

Definition EAGAIN : Z := 11.
Definition EINVAL : Z := 22.
Definition EMAXTHREADS : Z := Z.land (-8) (Z.shiftl 1 29).
Definition INVALID_JOB_ID : Z := Z.land (-2) (Z.shiftl 1 29).
Definition EOUTOFMEM : Z := Z.land (-7) (Z.shiftl 1 29).

(** Functions and arguments are pointers; [stop_func] is [None] while it is indeterminate. *)
Record ThreadPoolJob := MkJob {
  func : Z; arg : Z; free_func : option Z; stop_func : option Z;
  requestTime : timeval; priority : Z; jobId : Z
}.

Record ThreadPoolAttr := MkAttr {
  minThreads : Z; maxThreads : Z; stackSize : Z; maxIdleTime : Z; jobsPerThread : Z; maxJobsTotal : Z;
  starvationTime : Z; schedPolicy : Z
}.

(** The thread counts, those of [stats] included. *)
Record counts := MkCounts {
  totalThreads : Z; busyThreads : Z; persistentThreads : Z; workerThreads : Z; idleThreads : Z
}.

(** The counts of jobs in [stats], and its [maxThreads]. *)
Record ThreadPoolStats := MkStats { totalJobsHQ : Z; totalJobsMQ : Z; totalJobsLQ : Z; mostThreads : Z }.

Record ThreadPool := MkPool {
  attr : ThreadPoolAttr;
  lastJobId : Z; shutdown : bool; pendingWorkerThreadStart : bool;
  highJobQ : list ThreadPoolJob; medJobQ : list ThreadPoolJob; lowJobQ : list ThreadPoolJob;
  persistentJob : option ThreadPoolJob;
  threads : counts; stats : ThreadPoolStats
}.

(** ** Updates *)

Definition set_attr tp a := MkPool a (lastJobId tp) (shutdown tp) (pendingWorkerThreadStart tp)
  (highJobQ tp) (medJobQ tp) (lowJobQ tp) (persistentJob tp) (threads tp) (stats tp).
Definition set_last tp i := MkPool (attr tp) i (shutdown tp) (pendingWorkerThreadStart tp)
  (highJobQ tp) (medJobQ tp) (lowJobQ tp) (persistentJob tp) (threads tp) (stats tp).
Definition set_pending tp b := MkPool (attr tp) (lastJobId tp) (shutdown tp) b
  (highJobQ tp) (medJobQ tp) (lowJobQ tp) (persistentJob tp) (threads tp) (stats tp).
Definition set_queues tp h m l := MkPool (attr tp) (lastJobId tp) (shutdown tp) (pendingWorkerThreadStart tp)
  h m l (persistentJob tp) (threads tp) (stats tp).
Definition set_persistent tp j := MkPool (attr tp) (lastJobId tp) (shutdown tp) (pendingWorkerThreadStart tp)
  (highJobQ tp) (medJobQ tp) (lowJobQ tp) j (threads tp) (stats tp).
Definition set_shutdown tp := MkPool (attr tp) (lastJobId tp) true (pendingWorkerThreadStart tp)
  (highJobQ tp) (medJobQ tp) (lowJobQ tp) (persistentJob tp) (threads tp) (stats tp).
Definition set_stats tp s := MkPool (attr tp) (lastJobId tp) (shutdown tp) (pendingWorkerThreadStart tp)
  (highJobQ tp) (medJobQ tp) (lowJobQ tp) (persistentJob tp) (threads tp) s.

(** The counts move by the given amounts: total, busy, persistent, worker and idle threads. *)
Definition tally tp (t b p w i : Z) : ThreadPool :=
  let c := threads tp in
  MkPool (attr tp) (lastJobId tp) (shutdown tp) (pendingWorkerThreadStart tp)
    (highJobQ tp) (medJobQ tp) (lowJobQ tp) (persistentJob tp)
    (MkCounts (totalThreads c + t) (busyThreads c + b) (persistentThreads c + p) (workerThreads c + w) (idleThreads c + i))
    (stats tp).

Abbreviation total tp := (totalThreads (threads tp)).

(** ** Jobs and attributes *)

Definition TPAttrInit : ThreadPoolAttr := MkAttr 1 10 0 10000 10 100 500 0.

Definition TPAttrSetMaxThreads a v := MkAttr (minThreads a) v (stackSize a) (maxIdleTime a) (jobsPerThread a) (maxJobsTotal a) (starvationTime a) (schedPolicy a).
Definition TPAttrSetMinThreads a v := MkAttr v (maxThreads a) (stackSize a) (maxIdleTime a) (jobsPerThread a) (maxJobsTotal a) (starvationTime a) (schedPolicy a).
Definition TPAttrSetIdleTime a v := MkAttr (minThreads a) (maxThreads a) (stackSize a) v (jobsPerThread a) (maxJobsTotal a) (starvationTime a) (schedPolicy a).
Definition TPAttrSetJobsPerThread a v := MkAttr (minThreads a) (maxThreads a) (stackSize a) (maxIdleTime a) v (maxJobsTotal a) (starvationTime a) (schedPolicy a).
Definition TPAttrSetMaxJobsTotal a v := MkAttr (minThreads a) (maxThreads a) (stackSize a) (maxIdleTime a) (jobsPerThread a) v (starvationTime a) (schedPolicy a).

Definition TPAttrSetStackSize a v := MkAttr (minThreads a) (maxThreads a) v (maxIdleTime a) (jobsPerThread a) (maxJobsTotal a) (starvationTime a) (schedPolicy a).
Definition TPAttrSetStarvationTime a v := MkAttr (minThreads a) (maxThreads a) (stackSize a) (maxIdleTime a) (jobsPerThread a) (maxJobsTotal a) v (schedPolicy a).
Definition TPAttrSetSchedPolicy a v := MkAttr (minThreads a) (maxThreads a) (stackSize a) (maxIdleTime a) (jobsPerThread a) (maxJobsTotal a) (starvationTime a) v.

(** A job on the stack: [TPJobInit] leaves the other fields as they were. *)
Definition TPJobInit (job : ThreadPoolJob) (f : option Z) (a : Z) : Z * ThreadPoolJob :=
  match f with
  | None => (EINVAL, job)
  | Some f => (0, MkJob f a None (stop_func job) (requestTime job) DEFAULT_PRIORITY (jobId job))
  end.

Definition TPJobSetPriority (job : ThreadPoolJob) (p : Z) : Z * ThreadPoolJob :=
  if (p =? LOW_PRIORITY) || (p =? MED_PRIORITY) || (p =? HIGH_PRIORITY)
  then (0, MkJob (func job) (arg job) (free_func job) (stop_func job) (requestTime job) p (jobId job))
  else (EINVAL, job).

Definition TPJobSetFreeFunction (job : ThreadPoolJob) (f : option Z) : Z * ThreadPoolJob :=
  (0, MkJob (func job) (arg job) f (stop_func job) (requestTime job) (priority job) (jobId job)).

Definition TPJobSetStopFunction (job : ThreadPoolJob) (f : option Z) : Z * ThreadPoolJob :=
  (0, MkJob (func job) (arg job) (free_func job) f (requestTime job) (priority job) (jobId job)).

(** The difference in milliseconds, cut to a [long]. *)
Definition DiffMillis (time1 time2 : timeval) : Z :=
  ((tv_sec time1 - tv_sec time2) * 1000000 + (tv_usec time1 - tv_usec time2)) ÷ 1000.

Definition StatsAccountHQ tp := let s := stats tp in
  set_stats tp (MkStats (totalJobsHQ s + 1) (totalJobsMQ s) (totalJobsLQ s) (mostThreads s)).
Definition StatsAccountMQ tp := let s := stats tp in
  set_stats tp (MkStats (totalJobsHQ s) (totalJobsMQ s + 1) (totalJobsLQ s) (mostThreads s)).
Definition StatsAccountLQ tp := let s := stats tp in
  set_stats tp (MkStats (totalJobsHQ s) (totalJobsMQ s) (totalJobsLQ s + 1) (mostThreads s)).

(** The job has waited for at least the given time. *)
Definition starved (now : timeval) (limit : Z) (j : ThreadPoolJob) : bool :=
  limit <=? DiffMillis now (requestTime j).

(** A round of the loop of [BumpPriority]: the first medium job moves up, else the first low one.  [ListAddTail] needs a
    list node; when there is none ([ok] is false) the job is in no queue any more.  The jobs lost are returned. *)
Definition bump_low (ok : bool) (now : timeval) tp : option (list ThreadPoolJob * ThreadPool) :=
  match lowJobQ tp with
  | j :: low =>
      if starved now (maxIdleTime (attr tp)) j then
        let tp := StatsAccountLQ tp in
        Some (if ok then ([], set_queues tp (highJobQ tp) (medJobQ tp ++ [j]) low)
              else ([j], set_queues tp (highJobQ tp) (medJobQ tp) low))
      else None
  | [] => None
  end.

Definition bump (ok : bool) (now : timeval) tp : option (list ThreadPoolJob * ThreadPool) :=
  match medJobQ tp with
  | j :: med =>
      if starved now (starvationTime (attr tp)) j then
        let tp := StatsAccountMQ tp in
        Some (if ok then ([], set_queues tp (highJobQ tp ++ [j]) med (lowJobQ tp))
              else ([j], set_queues tp (highJobQ tp) med (lowJobQ tp)))
      else bump_low ok now tp
  | [] => bump_low ok now tp
  end.

(** [nodes i] is whether the [i]-th round gets a list node. *)
Fixpoint bump_loop (fuel : nat) (nodes : nat -> bool) (i : nat) (now : timeval) tp : res (list ThreadPoolJob * ThreadPool) :=
  match fuel with
  | O => NoFuel
  | S fuel =>
      match bump (nodes i) now tp with
      | Some (js, tp) => '(ks, tp) ← bump_loop fuel nodes (S i) now tp; Ok (js ++ ks, tp)
      | None => Ok ([], tp)
      end
  end.

(** A job is moved at most twice. *)
Definition BumpPriority (nodes : nat -> bool) (now : timeval) tp : res (list ThreadPoolJob * ThreadPool) :=
  bump_loop (S (length (medJobQ tp) + 2 * length (lowJobQ tp))) nodes 0 now tp.

(** The absolute time of a wait: seconds and nanoseconds. *)
Definition SetRelTimeout (now : timeval) (relMillis : Z) : Z * Z :=
  (tv_sec now + relMillis ÷ 1000, (tv_usec now ÷ 1000 + Z.rem relMillis 1000) * 1000000).

(** The nanoseconds are in their range for idle times of whole seconds, not for all others. *)
Lemma SetRelTimeout_range now s : normal now -> 0 <= s -> 0 <= (SetRelTimeout now (s * 1000)).2 < 10 ^ 9.
Proof.
  unfold normal, SetRelTimeout. intros Hn Hs. cbn [snd]. rewrite Z.rem_mul, Z.add_0_r, Z.quot_div_nonneg by lia.
  pose proof (Z.div_pos (tv_usec now) 1000). pose proof (Z.div_lt_upper_bound (tv_usec now) 1000 1000). lia.
Qed.

Lemma SetRelTimeout_overflow : (SetRelTimeout (MkTime 0 999999) 1).2 = 10 ^ 9.
Proof. reflexivity. Qed.

(** ** Worker threads *)

(** What a worker does next: wait, end, or run a job; [persistent] is its variable of that name. *)
Inductive outcome : Type := Wait | Exit | Run (persistent : Z) (job : ThreadPoolJob).

Definition no_job tp : bool :=
  match lowJobQ tp, medJobQ tp, highJobQ tp, persistentJob tp with [], [], [], None => true | _, _, _, _ => false end.

(** The first job of the highest queue that has one. *)
Definition pick tp : option (ThreadPoolJob * ThreadPool) :=
  match highJobQ tp with
  | j :: q => Some (j, set_queues (StatsAccountHQ tp) q (medJobQ tp) (lowJobQ tp))
  | [] =>
      match medJobQ tp with
      | j :: q => Some (j, set_queues (StatsAccountMQ tp) [] q (lowJobQ tp))
      | [] =>
          match lowJobQ tp with
          | j :: q => Some (j, set_queues (StatsAccountLQ tp) [] [] q)
          | [] => None
          end
      end
  end.

(** [exit_function]: the thread is gone. *)
Definition exit_function tp : outcome * ThreadPool := (Exit, tally tp (-1) 0 0 0 0).

(** The loop that waits for a job, from its test on, and what follows it; the jobs that moving starved ones lost are in the
    middle. *)
Definition worker_loop (timedout : bool) (nodes : nat -> bool) (now : timeval) tp : res (outcome * list ThreadPoolJob * ThreadPool) :=
  let a := attr tp in
  if no_job tp && negb (shutdown tp) then
    if (timedout && (minThreads a <? total tp)) || (negb (maxThreads a =? -1) && (maxThreads a <? total tp))
    then let '(o, tp) := exit_function (tally tp 0 0 0 0 (-1)) in Ok (o, [], tp) else Ok (Wait, [], tp)
  else
    '(js, tp) ← BumpPriority nodes now (tally tp 0 0 0 0 (-1));
    if shutdown tp then let '(o, tp) := exit_function tp in Ok (o, js, tp) else
    match persistentJob tp with
    | Some j => Ok (Run 1 j, js, tally (set_persistent tp None) 0 1 1 0 0)
    | None =>
        match pick tp with
        | Some (j, tp) => Ok (Run 0 j, js, tally tp 0 1 0 1 0)
        | None => let '(o, tp) := exit_function tp in Ok (o, js, tp)
        end
    end.

(** The start of the thread, and the top of its loop with the job it has run. *)
Definition worker_start tp : ThreadPool := set_pending (tally tp 1 0 0 0 0) false.

Definition worker_top (persistent : Z) (job : option ThreadPoolJob) tp : ThreadPool :=
  let tp := tally tp 0 (if job then -1 else 0) 0 0 1 in
  if persistent =? 0 then tally tp 0 0 0 (-1) 0
  else if persistent =? 1 then tally tp 0 0 (-1) 0 0 else tp.

(** A worker: created, before the top of its loop, waiting, running a job. *)
Inductive worker : Type :=
| Created | Top (persistent : Z) (job : option ThreadPoolJob) | Waiting (persistent : Z) | Running (persistent : Z) (job : ThreadPoolJob).

(** ** Callers

    What waits inside [CreateWorker]: [AddWorker] of [ThreadPoolAdd] with the result so far, and its [jobs]
    and [threads]; [ThreadPoolAddPersistent] with its job; the loop that starts the minimum of threads, at
    its [i]. *)
Inductive frame : Type :=
| FAdd (rc jobs threads : Z) | FPersistent (job : ThreadPoolJob) | FMin (i : Z).

(** A call: waiting for another thread to start, or for its own; waiting for its persistent job to be taken;
    shutting down because threads could not be started; waiting for the threads to end; returned, with
    what [*jobId] is if it was set.  [Draining] has what the call returns. *)
Inductive caller : Type :=
| Pending (f : frame) | Started (f : frame) | Taking | Failing (rc : Z) | Draining (rc : Z)
| Returned (rc : Z) (id : option Z).

(** What the system gives a call: memory for a job and for a list node, the time, a new thread. *)
Record env := MkEnv { job_ok : bool; node_ok : bool; now : timeval; create : option nat }.

(** [accepted], [started], [removed], [overwritten], [dropped] and [lost] record, for the statements only, which jobs
    were queued, run, taken out by [ThreadPoolRemove], lost by a second persistent job, dropped by the
    shutdown, and lost for want of a list node; [destroyed] is set when the mutex is. *)
Record world := MkWorld {
  pool : ThreadPool; workers : gmap nat worker; callers : gmap nat caller;
  accepted : list ThreadPoolJob; started : list ThreadPoolJob; removed : list ThreadPoolJob;
  overwritten : list ThreadPoolJob; dropped : list ThreadPoolJob; lost : list ThreadPoolJob; destroyed : bool
}.

Definition set_pool w tp := MkWorld tp (workers w) (callers w) (accepted w) (started w) (removed w) (overwritten w) (dropped w) (lost w) (destroyed w).
Definition set_workers w ws := MkWorld (pool w) ws (callers w) (accepted w) (started w) (removed w) (overwritten w) (dropped w) (lost w) (destroyed w).
Definition set_caller w c k := MkWorld (pool w) (workers w) (<[c := k]> (callers w)) (accepted w) (started w) (removed w) (overwritten w) (dropped w) (lost w) (destroyed w).
Definition log_accepted w j := MkWorld (pool w) (workers w) (callers w) (accepted w ++ [j]) (started w) (removed w) (overwritten w) (dropped w) (lost w) (destroyed w).
Definition log_started w j := MkWorld (pool w) (workers w) (callers w) (accepted w) (started w ++ [j]) (removed w) (overwritten w) (dropped w) (lost w) (destroyed w).
Definition log_removed w j := MkWorld (pool w) (workers w) (callers w) (accepted w) (started w) (removed w ++ [j]) (overwritten w) (dropped w) (lost w) (destroyed w).
Definition log_overwritten w js := MkWorld (pool w) (workers w) (callers w) (accepted w) (started w) (removed w) (overwritten w ++ js) (dropped w) (lost w) (destroyed w).
Definition log_dropped w js := MkWorld (pool w) (workers w) (callers w) (accepted w) (started w) (removed w) (overwritten w) (dropped w ++ js) (lost w) (destroyed w).
Definition log_lost w js := MkWorld (pool w) (workers w) (callers w) (accepted w) (started w) (removed w) (overwritten w) (dropped w) (lost w ++ js) (destroyed w).
Definition set_destroyed w := MkWorld (pool w) (workers w) (callers w) (accepted w) (started w) (removed w) (overwritten w) (dropped w) (lost w) true.

(** [*jobId = tp->lastJobId++] and the return. *)
Definition return_id (rc : Z) w : res (caller * world) :=
  id ← int_op (lastJobId (pool w) + 1);
  Ok (Returned rc (Some (lastJobId (pool w))), set_pool w (set_last (pool w) id)).

(** [CreateThreadPoolJob]: the copy, [None] when there is no memory. *)
Definition CreateThreadPoolJob (e : env) (job : ThreadPoolJob) tp : option ThreadPoolJob :=
  if job_ok e then Some (MkJob (func job) (arg job) (free_func job) (stop_func job) (now e) (priority job) (lastJobId tp))
  else None.

(** The end of [ThreadPoolAddPersistent], up to its wait. *)
Definition place_persistent (e : env) (job : ThreadPoolJob) w : res (caller * world) :=
  match CreateThreadPoolJob e job (pool w) with
  | None => Ok (Returned EOUTOFMEM (Some INVALID_JOB_ID), w)
  | Some j =>
      let w := log_overwritten (log_accepted w j) (option_list (persistentJob (pool w))) in
      Ok (Taking, set_pool w (set_persistent (pool w) (Some j)))
  end.

(** What follows a [CreateWorker] that fails. *)
Definition failed (e : env) (f : frame) (rc : Z) w : res (caller * world) :=
  match f with
  | FAdd arc _ _ => return_id arc w
  | FPersistent job => place_persistent e job w
  | FMin _ => Ok (Failing rc, w)
  end.

Definition note_most tp : ThreadPool :=
  let s := stats tp in
  if mostThreads s <? total tp
  then set_stats tp (MkStats (totalJobsHQ s) (totalJobsMQ s) (totalJobsLQ s) (total tp)) else tp.

(** [CreateWorker], from its test of the limit, up to its second wait. *)
Definition create_thread (e : env) (f : frame) w : res (caller * world) :=
  let tp := pool w in
  if negb (maxThreads (attr tp) =? -1) && (maxThreads (attr tp) <? total tp + 1) then failed e f EMAXTHREADS w
  else match create e with
       | None => failed e f EAGAIN (set_pool w (note_most tp))
       | Some n => Ok (Started f, set_pool (set_workers w (<[n := Created]> (workers w))) (set_pending tp true))
       end.

Definition CreateWorker (e : env) (f : frame) w : res (caller * world) :=
  if pendingWorkerThreadStart (pool w) then Ok (Pending f, w) else create_thread e f w.

(** The loop of [AddWorker]. *)
Definition AddWorker (e : env) (rc jobs threads : Z) w : res (caller * world) :=
  let tp := pool w in
  if (threads =? 0) || (jobsPerThread (attr tp) <=? jobs ÷ threads) || (total tp =? busyThreads (ThreadPool.threads tp))
  then CreateWorker e (FAdd rc jobs threads) w else return_id rc w.

(** The loop of [ThreadPoolInit] and [ThreadPoolSetAttr] that starts threads. *)
Definition start_min (e : env) (i : Z) w : res (caller * world) :=
  if i <? minThreads (attr (pool w)) then CreateWorker e (FMin i) w else Ok (Returned 0 None, w).

(** What follows when the new thread has started. *)
Definition created (e : env) (f : frame) w : res (caller * world) :=
  let w := set_pool w (note_most (pool w)) in
  match f with
  | FAdd rc jobs threads => AddWorker e rc jobs (threads + 1) w
  | FPersistent job => place_persistent e job w
  | FMin i => start_min e (i + 1) w
  end.

(** ** The calls

    Each is the stretch from taking the mutex to the first wait or the return; arguments are not NULL. *)

Definition queued tp : list ThreadPoolJob := highJobQ tp ++ medJobQ tp ++ lowJobQ tp.

(** [ListAddTail] on the queue of the job's priority. *)
Definition enqueue (j : ThreadPoolJob) tp : ThreadPool :=
  if priority j =? HIGH_PRIORITY then set_queues tp (highJobQ tp ++ [j]) (medJobQ tp) (lowJobQ tp)
  else if priority j =? MED_PRIORITY then set_queues tp (highJobQ tp) (medJobQ tp ++ [j]) (lowJobQ tp)
  else set_queues tp (highJobQ tp) (medJobQ tp) (lowJobQ tp ++ [j]).

Definition ThreadPoolAdd (e : env) (job : ThreadPoolJob) w : res (caller * world) :=
  let tp := pool w in
  if maxJobsTotal (attr tp) <=? Z.of_nat (length (queued tp)) then Ok (Returned EOUTOFMEM None, w) else
  match CreateThreadPoolJob e job tp with
  | None => Ok (Returned EOUTOFMEM (Some INVALID_JOB_ID), w)
  | Some j =>
      let '(rc, w) := if node_ok e then (0, log_accepted (set_pool w (enqueue j tp)) j) else (EOUTOFMEM, w) in
      let tp := pool w in
      AddWorker e rc (Z.of_nat (length (queued tp))) (total tp - persistentThreads (threads tp)) w
  end.

Definition ThreadPoolAddPersistent (e : env) (job : ThreadPoolJob) w : res (caller * world) :=
  let tp := pool w in
  if total tp <? maxThreads (attr tp) then CreateWorker e (FPersistent job) w
  else if total tp - persistentThreads (threads tp) - 1 =? 0 then Ok (Returned EMAXTHREADS (Some INVALID_JOB_ID), w)
  else place_persistent e job w.

(** [ListFind] by the id, and the queue without what it finds. *)
Fixpoint ListFind (id : Z) (q : list ThreadPoolJob) : option (ThreadPoolJob * list ThreadPoolJob) :=
  match q with
  | [] => None
  | j :: q => if jobId j =? id then Some (j, q) else '(j', q') ← ListFind id q; Some (j', j :: q')
  end.

(** The job with an id, and the pool without it. *)
Definition find_job (id : Z) tp : option (ThreadPoolJob * ThreadPool) :=
  match ListFind id (highJobQ tp) with
  | Some (j, q) => Some (j, set_queues tp q (medJobQ tp) (lowJobQ tp))
  | None =>
  match ListFind id (medJobQ tp) with
  | Some (j, q) => Some (j, set_queues tp (highJobQ tp) q (lowJobQ tp))
  | None =>
  match ListFind id (lowJobQ tp) with
  | Some (j, q) => Some (j, set_queues tp (highJobQ tp) (medJobQ tp) q)
  | None =>
  match persistentJob tp with
  | Some j => if jobId j =? id then Some (j, set_persistent tp None) else None
  | None => None
  end end end end.

(** The value returned and what [*out] becomes. *)
Definition ThreadPoolRemove (id : Z) w : Z * option ThreadPoolJob * world :=
  match find_job id (pool w) with
  | Some (j, tp) => (0, Some j, log_removed (set_pool w tp) j)
  | None => (INVALID_JOB_ID, None, w)
  end.

(** The value returned and the function that is called with its argument: nothing says that a job has one. *)
Definition ThreadPoolStop (id : Z) w : res (Z * option (Z * Z)) :=
  match find_job id (pool w) with
  | Some (j, _) => f ← of_option (stop_func j); Ok (0, Some (f, arg j))
  | None => Ok (INVALID_JOB_ID, None)
  end.

Definition ThreadPoolSetAttr (e : env) (a : ThreadPoolAttr) w : res (caller * world) :=
  let w := set_pool w (set_attr (pool w) a) in start_min e (total (pool w)) w.

(** The calls of [free_func] the shutdown makes. *)
Definition freed (js : list ThreadPoolJob) : list (Z * Z) :=
  omap (fun j => f ← free_func j; Some (f, arg j)) js.

(** [rc] is what the call returns in the end: 0 for [ThreadPoolShutdown], the code of the failure for the calls that shut
    the pool down because threads could not be started. *)
Definition finish_shutdown (rc : Z) w : caller * world :=
  if 0 <? total (pool w) then (Draining rc, w) else (Returned rc None, set_destroyed w).

Definition ThreadPoolShutdown (rc : Z) w : caller * world :=
  let tp := pool w in
  let js := queued tp ++ option_list (persistentJob tp) in
  finish_shutdown rc (log_dropped (set_pool w (set_shutdown (set_persistent (set_queues tp [] [] []) None))) js).

Definition ThreadPoolGetAttr w : ThreadPoolAttr := attr (pool w).

(** What [ThreadPoolGetStats] adds to [stats]: the counts and the lengths of the queues. *)
Definition ThreadPoolGetStats w : ThreadPoolStats * counts * (Z * Z * Z) :=
  let tp := pool w in
  (stats tp, threads tp, (Z.of_nat (length (highJobQ tp)), Z.of_nat (length (medJobQ tp)), Z.of_nat (length (lowJobQ tp)))).

(** [ThreadPoolInit], its locks and the scheduling policy being granted. *)
Definition fresh_pool (a : ThreadPoolAttr) : ThreadPool :=
  MkPool a 0 false false [] [] [] None (MkCounts 0 0 0 0 0) (MkStats 0 0 0 0).

Definition no_world (a : ThreadPoolAttr) : world := MkWorld (fresh_pool a) ∅ ∅ [] [] [] [] [] [] false.

Definition ThreadPoolInit (e : env) (a : ThreadPoolAttr) : res (caller * world) := start_min e 0 (no_world a).

(** The attributes [tp_init] of [mw/common/tp.c] sets. *)
Definition tp_init_attr : ThreadPoolAttr :=
  TPAttrSetMaxJobsTotal (TPAttrSetIdleTime (TPAttrSetJobsPerThread (TPAttrSetMinThreads
    (TPAttrSetMaxThreads TPAttrInit 6000) 0) 1) 5000) 6000.

(** ** Actions *)

Inductive action : Type :=
| AAdd (c : nat) (e : env) (job : ThreadPoolJob)
| AAddPersistent (c : nat) (e : env) (job : ThreadPoolJob)
| ARemove (id : Z)
| ASetAttr (c : nat) (e : env) (a : ThreadPoolAttr)
| AShutdown (c : nat)
| AResume (c : nat) (e : env)
| AStart (n : nat) | ATop (n : nat) (nodes : nat -> bool) (now : timeval)
| AWake (n : nat) (timedout : bool) (nodes : nat -> bool) (now : timeval) | AFinish (n : nat).

(** What becomes of worker [n] after [worker_loop]. *)
Definition settle (n : nat) (persistent : Z) (o : outcome) w : world :=
  match o with
  | Wait => set_workers w (<[n := Waiting persistent]> (workers w))
  | Exit => set_workers w (delete n (workers w))
  | Run p j => log_started (set_workers w (<[n := Running p j]> (workers w))) j
  end.

Definition go_on (n : nat) (persistent : Z) (timedout : bool) (nodes : nat -> bool) (now : timeval) w : res world :=
  '(o, js, tp) ← worker_loop timedout nodes now (pool w); Ok (settle n persistent o (log_lost (set_pool w tp) js)).

(** A call that goes on is no longer where it waited. *)
Definition hide w (c : nat) : world := MkWorld (pool w) (workers w) (delete c (callers w)) (accepted w) (started w) (removed w) (overwritten w) (dropped w) (lost w) (destroyed w).

Definition enter (c : nat) (r : res (caller * world)) : res world := '(k, w) ← r; Ok (set_caller w c k).

(** A thread identity the system may give: one that no worker has. *)
Definition env_ok (e : env) w : bool :=
  match create e with Some n => bool_decide (workers w !! n = None) | None => true end.

(** [None] where the thread cannot do this; any use of a destroyed mutex is undefined. *)
Definition locked w (r : res world) : res world := if destroyed w then UB else r.

Definition act (a : action) w : option (res world) :=
  match a with
  | AAdd c e job =>
      if decide (callers w !! c = None) then
        if env_ok e w then Some (locked w (enter c (ThreadPoolAdd e job w))) else None else None
  | AAddPersistent c e job =>
      if decide (callers w !! c = None) then
        if env_ok e w then Some (locked w (enter c (ThreadPoolAddPersistent e job w))) else None else None
  | ARemove id => Some (locked w (Ok (ThreadPoolRemove id w).2))
  | ASetAttr c e a =>
      if decide (callers w !! c = None) then
        if env_ok e w then Some (locked w (enter c (ThreadPoolSetAttr e a w))) else None else None
  | AShutdown c =>
      if decide (callers w !! c = None) then Some (locked w (enter c (Ok (ThreadPoolShutdown 0 w)))) else None
  | AResume c e =>
      if negb (env_ok e w) then None else
      match callers w !! c with
      | Some (Pending f) =>
          if pendingWorkerThreadStart (pool w) then None else Some (locked w (enter c (create_thread e f (hide w c))))
      | Some (Started f) =>
          if pendingWorkerThreadStart (pool w) then None else Some (locked w (enter c (created e f (hide w c))))
      | Some Taking =>
          if persistentJob (pool w) then None else Some (locked w (enter c (return_id 0 (hide w c))))
      | Some (Failing rc) => Some (locked w (enter c (Ok (ThreadPoolShutdown rc (hide w c)))))
      | Some (Draining rc) => Some (locked w (enter c (Ok (finish_shutdown rc (hide w c)))))
      | _ => None
      end
  | AStart n =>
      match workers w !! n with
      | Some Created =>
          Some (locked w (Ok (set_workers (set_pool w (worker_start (pool w))) (<[n := Top (-1) None]> (workers w)))))
      | _ => None
      end
  | ATop n nodes now =>
      match workers w !! n with
      | Some (Top p job) => Some (locked w (go_on n p false nodes now (set_pool w (worker_top p job (pool w)))))
      | _ => None
      end
  | AWake n timedout nodes now =>
      match workers w !! n with
      | Some (Waiting p) => Some (locked w (go_on n p timedout nodes now w))
      | _ => None
      end
  | AFinish n =>
      match workers w !! n with
      | Some (Running p j) => Some (Ok (set_workers w (<[n := Top p (Some j)]> (workers w))))
      | _ => None
      end
  end.

Fixpoint run (acts : list action) w : option (res world) :=
  match acts with
  | [] => Some (Ok w)
  | a :: acts => match act a w with Some (Ok w) => run acts w | r => r end
  end.

(** ** Queues *)

Definition fixed tp : ThreadPoolAttr * Z * bool * bool := (attr tp, lastJobId tp, shutdown tp, pendingWorkerThreadStart tp).

(** The jobs the pool holds. *)
Definition held_jobs tp : list ThreadPoolJob := queued tp ++ option_list (persistentJob tp).

Lemma bump_same ok now tp js tp' : bump ok now tp = Some (js, tp') ->
  fixed tp' = fixed tp /\ threads tp' = threads tp /\ persistentJob tp' = persistentJob tp /\ queued tp ≡ₚ queued tp' ++ js /\
  (length (medJobQ tp') + 2 * length (lowJobQ tp') < length (medJobQ tp) + 2 * length (lowJobQ tp))%nat /\
  highJobQ tp `prefix_of` highJobQ tp' /\ (ok = true -> js = []) /\
  (forall k, k ∈ medJobQ tp' ++ lowJobQ tp' -> k ∈ medJobQ tp ++ lowJobQ tp).
Proof.
  unfold bump, bump_low, queued. intros H. repeat case_match; simplify_eq; cbn; rewrite ?length_app, ?app_nil_r; cbn.
  all: try match goal with E : medJobQ _ = _ |- _ => rewrite ?E end; cbn.
  all: split_and!; try done; try lia; try (by eexists); try (intros k; set_solver); try solve_Permutation.
Qed.

(** Nothing more has starved. *)
Definition settled now tp : Prop :=
  (forall j, head (medJobQ tp) = Some j -> DiffMillis now (requestTime j) < starvationTime (attr tp)) /\
  (forall j, head (lowJobQ tp) = Some j -> DiffMillis now (requestTime j) < maxIdleTime (attr tp)).

Lemma bump_none ok now tp : bump ok now tp = None -> settled now tp.
Proof.
  assert (Low : bump_low ok now tp = None -> forall j, head (lowJobQ tp) = Some j -> DiffMillis now (requestTime j) < maxIdleTime (attr tp)).
  { unfold bump_low. destruct (lowJobQ tp) as [| j low]; [done |]. case_match eqn:E; [done |].
    apply Z.leb_gt in E. intros _ j' [= <-]. done. }
  unfold bump. intros H. destruct (medJobQ tp) as [| j med] eqn:E; [| case_match eqn:E'; [done | apply Z.leb_gt in E']];
    (split; [| by apply Low]); rewrite E; [done |]. intros j' [= <-]. done.
Qed.

(** Moving the starved jobs ends, moves nothing forward but to the end of a queue, and loses jobs only without list nodes. *)
Lemma bump_ok nodes now tp : exists js tp', BumpPriority nodes now tp = Ok (js, tp') /\ fixed tp' = fixed tp /\ threads tp' = threads tp /\
  persistentJob tp' = persistentJob tp /\ queued tp ≡ₚ queued tp' ++ js /\ settled now tp' /\ highJobQ tp `prefix_of` highJobQ tp' /\
  ((forall i, nodes i = true) -> js = []) /\ (forall k, k ∈ medJobQ tp' ++ lowJobQ tp' -> k ∈ medJobQ tp ++ lowJobQ tp).
Proof.
  unfold BumpPriority.
  enough (G : forall fuel i tp, (length (medJobQ tp) + 2 * length (lowJobQ tp) < fuel)%nat -> exists js tp', bump_loop fuel nodes i now tp = Ok (js, tp') /\
    fixed tp' = fixed tp /\ threads tp' = threads tp /\ persistentJob tp' = persistentJob tp /\ queued tp ≡ₚ queued tp' ++ js /\
    settled now tp' /\ highJobQ tp `prefix_of` highJobQ tp' /\ ((forall i, nodes i = true) -> js = []) /\
    (forall k, k ∈ medJobQ tp' ++ lowJobQ tp' -> k ∈ medJobQ tp ++ lowJobQ tp)) by (apply G; lia).
  clear tp. intros fuel. induction fuel as [| fuel IH]; intros i tp Hf; [lia |]. cbn [bump_loop].
  destruct (bump (nodes i) now tp) as [[js tp1] |] eqn:E.
  - destruct (bump_same _ now tp js tp1 E) as (H1 & H2 & H3 & H4 & H5 & H6 & H7 & H8).
    destruct (IH (S i) tp1) as (ks & tp' & -> & G1 & G2 & G3 & G4 & G5 & G6 & G7 & G8); [lia |]. cbn [mbind res_bind]. exists (js ++ ks), tp'.
    split_and!; [done | congruence | congruence | congruence | rewrite H4, G4; solve_Permutation | done | by etrans | | auto].
    intros Hn. by rewrite (H7 (Hn i)), (G7 Hn).
  - exists [], tp. pose proof (bump_none _ now tp E). rewrite app_nil_r. split_and!; done.
Qed.

(** ** Counting threads *)

Inductive counter : Type := CTotal | CBusy | CPersistent | CWorker | CIdle.

Definition get (k : counter) (c : counts) : Z :=
  match k with
  | CTotal => totalThreads c | CBusy => busyThreads c | CPersistent => persistentThreads c
  | CWorker => workerThreads c | CIdle => idleThreads c
  end.

(** What a worker counts for. *)
Definition contrib (k : counter) (x : worker) : Z :=
  match k, x with
  | CTotal, Created => 0
  | CTotal, _ => 1
  | CBusy, (Running _ _ | Top _ (Some _)) => 1
  | CPersistent, (Running p _ | Top p _) => if p =? 1 then 1 else 0
  | CWorker, (Running p _ | Top p _) => if p =? 0 then 1 else 0
  | CIdle, Waiting _ => 1
  | _, _ => 0
  end.

Definition is_created (x : worker) : Z := match x with Created => 1 | _ => 0 end.

Definition sum (f : worker -> Z) (ws : gmap nat worker) : Z := map_fold (fun _ x n => f x + n) 0 ws.

Lemma sum_insert f ws n x : ws !! n = None -> sum f (<[n := x]> ws) = f x + sum f ws.
Proof. intros H. unfold sum. rewrite map_fold_insert_L; [done | intros; lia | done]. Qed.

Lemma sum_delete f ws n x : ws !! n = Some x -> sum f (delete n ws) = sum f ws - f x.
Proof.
  intros H. rewrite <- (insert_delete_id ws n x H) at 2. rewrite sum_insert by apply lookup_delete_eq. lia.
Qed.

Lemma sum_replace f ws n x y : ws !! n = Some x -> sum f (<[n := y]> ws) = sum f ws - f x + f y.
Proof.
  intros H. rewrite <- insert_delete_eq, sum_insert, (sum_delete f ws n x) by (done || apply lookup_delete_eq). lia.
Qed.

Lemma sum_at f ws n x : (forall y, 0 <= f y) -> ws !! n = Some x -> f x <= sum f ws.
Proof.
  intros Hf H. assert (P : forall ws, 0 <= sum f ws).
  { intros m. induction m as [| i y m Hi IH] using map_ind; [done |]. rewrite sum_insert by done. specialize (Hf y). lia. }
  rewrite <- (insert_delete_id ws n x H), sum_insert by apply lookup_delete_eq. specialize (P (delete n ws)). lia.
Qed.

Definition counted (c : counts) (ws : gmap nat worker) : Prop := forall k, get k c = sum (contrib k) ws.

(** The variable [persistent] of each worker. *)
Definition shaped (x : worker) : Prop :=
  match x with
  | Top p None => p = -1
  | Top p (Some _) | Running p _ => p = 0 \/ p = 1
  | _ => True
  end.

(** ** The loop of a worker *)

(** The worker that [worker_loop] leaves, if it does. *)
Definition left_by (p : Z) (o : outcome) : option worker :=
  match o with Wait => Some (Waiting p) | Exit => None | Run p j => Some (Running p j) end.

Definition gain (k : counter) (o : option worker) : Z := match o with Some x => contrib k x | None => 0 end.

Lemma worker_top_counts p job tp k : shaped (Top p job) ->
  get k (threads (worker_top p job tp)) = get k (threads tp) - contrib k (Top p job) + contrib k (Waiting p).
Proof.
  unfold worker_top. destruct job; cbn [shaped]; [intros [-> | ->] | intros ->]; destruct k; cbn; lia.
Qed.

(** A round of a worker, from its test on. *)
Record round (timedout : bool) (nodes : nat -> bool) tp (p : Z) (o : outcome) (js : list ThreadPoolJob) tp' : Prop := {
  rd_fixed : fixed tp' = fixed tp;
  rd_counts : forall k, get k (threads tp') = get k (threads tp) - contrib k (Waiting p) + gain k (left_by p o);
  rd_jobs : held_jobs tp ≡ₚ held_jobs tp' ++ (match o with Run _ j => [j] | _ => [] end) ++ js;
  rd_shaped : forall x, left_by p o = Some x -> shaped x;
  rd_down : shutdown tp = true -> o = Exit;
  rd_slot : persistentJob tp' <> None -> persistentJob tp <> None;
  rd_length : (length (queued tp') <= length (queued tp))%nat;
  rd_kept : (forall i, nodes i = true) -> js = [];
  rd_serves : shutdown tp = false -> no_job tp = false -> js = [] \/ highJobQ tp <> [] \/ persistentJob tp <> None -> exists q j, o = Run q j
}.

Lemma pick_some tp j tp' : pick tp = Some (j, tp') ->
  fixed tp' = fixed tp /\ threads tp' = threads tp /\ persistentJob tp' = persistentJob tp /\ queued tp = j :: queued tp'.
Proof. unfold pick, queued. intros H. repeat case_match; simplify_eq; cbn; repeat split; congruence. Qed.

Lemma pick_none tp : pick tp = None -> queued tp = [].
Proof. unfold pick, queued. intros H. by repeat case_match. Qed.

Lemma no_job_spec tp : no_job tp = true <-> queued tp = [] /\ persistentJob tp = None.
Proof. unfold no_job, queued. destruct (lowJobQ tp), (medJobQ tp), (highJobQ tp), (persistentJob tp); cbn; naive_solver. Qed.

Lemma worker_loop_ok timedout nodes now tp p : exists o js tp', worker_loop timedout nodes now tp = Ok (o, js, tp') /\
  round timedout nodes tp p o js tp'.
Proof.
  unfold worker_loop. destruct (no_job tp && negb (shutdown tp)) eqn:En.
  { apply andb_true_iff in En as [E1 E2%negb_true_iff].
    case_match; eexists _, _, _; (split; [done |]); split; try done; try congruence; try (by rewrite ?app_nil_r).
    - intros k. destruct k; cbn; lia.
    - intros k. cbn. lia.
    - intros x [= <-]. done. }
  destruct (bump_ok nodes now (tally tp 0 0 0 0 (-1))) as (js & tp1 & -> & F & T & P & Q & _ & Pre & Kept & _). cbn [mbind res_bind].
  assert (Hs : shutdown tp1 = shutdown tp) by (unfold fixed in F; cbn in F; congruence). rewrite Hs.
  change (queued (tally tp 0 0 0 0 (-1))) with (queued tp) in Q. change (highJobQ (tally tp 0 0 0 0 (-1))) with (highJobQ tp) in Pre. cbn in P.
  pose proof (Permutation_length Q) as L. rewrite length_app in L.
  destruct (shutdown tp) eqn:Esh.
  { cbn [exit_function]. eexists _, _, _. split; [done |]. split; try done; try congruence.
    - intros k. cbn. rewrite T. destruct k; cbn; lia.
    - unfold held_jobs. cbn [persistentJob tally]. change (queued (tally tp1 (-1) 0 0 0 0)) with (queued tp1). rewrite P, Q. cbn. solve_Permutation.
    - cbn. by rewrite P.
    - change (queued (tally tp1 (-1) 0 0 0 0)) with (queued tp1). lia. }
  destruct (persistentJob tp1) as [j |] eqn:Ep.
  { eexists _, _, _. split; [done |]. split; try done; try congruence.
    - intros k. cbn. rewrite T. destruct k; cbn; lia.
    - unfold held_jobs. rewrite <- P. cbn. change (queued (tally (set_persistent tp1 None) 0 1 1 0 0)) with (queued tp1). rewrite Q. solve_Permutation.
    - intros x [= <-]. by right.
    - change (queued (tally (set_persistent tp1 None) 0 1 1 0 0)) with (queued tp1). lia.
    - eauto. }
  destruct (pick tp1) as [[j tp2] |] eqn:Epk.
  - destruct (pick_some tp1 j tp2 Epk) as (G1 & G2 & G3 & G4). eexists _, _, _. split; [done |]. split; try done; try congruence.
    + change (fixed (tally tp2 0 1 0 1 0)) with (fixed tp2). by rewrite G1.
    + intros k. cbn. rewrite G2, T. destruct k; cbn; lia.
    + unfold held_jobs. rewrite <- P. cbn. change (queued (tally tp2 0 1 0 1 0)) with (queued tp2).
      rewrite G3, Ep, Q, G4. cbn. solve_Permutation.
    + intros x [= <-]. by left.
    + cbn. by rewrite G3, Ep.
    + change (length (queued tp2) <= length (queued tp))%nat. rewrite G4 in L. cbn in L. lia.
    + eauto.
  - pose proof (pick_none tp1 Epk) as N. cbn [exit_function]. eexists _, _, _. split; [done |]. split; try done; try congruence.
    + intros k. cbn. rewrite T. destruct k; cbn; lia.
    + unfold held_jobs. cbn. change (queued (tally tp1 (-1) 0 0 0 0)) with (queued tp1). rewrite Ep, <- P, Q. cbn. solve_Permutation.
    + change (queued (tally tp1 (-1) 0 0 0 0)) with (queued tp1). lia.
    + intros _ Hn [-> | [Hh | Hp]]; exfalso; [| | by rewrite <- P in Hp].
      * rewrite N in Q. apply Permutation_nil_r in Q. pose proof (proj2 (no_job_spec tp) (conj Q (eq_sym P))). congruence.
      * unfold queued in N. apply app_nil in N as [N _]. rewrite N in Pre. by apply prefix_nil_inv in Pre.
Qed.

(** ** The invariant *)

(** A call that has a persistent job still to place. *)
Definition placing (k : caller) : Prop :=
  match k with Pending (FPersistent _) | Started (FPersistent _) => True | _ => False end.

Definition returned (k : caller) : Prop := match k with Returned _ _ => True | _ => False end.

Definition draining (k : caller) : bool := match k with Draining _ => true | _ => false end.

Record inv w : Prop := {
  iv_counts : counted (threads (pool w)) (workers w);
  iv_pending : sum is_created (workers w) = if pendingWorkerThreadStart (pool w) then 1 else 0;
  iv_starter : pendingWorkerThreadStart (pool w) = true -> exists c f, callers w !! c = Some (Started f);
  iv_shaped : forall n x, workers w !! n = Some x -> shaped x;
  iv_bound : maxThreads (attr (pool w)) = -1 \/ total (pool w) + sum is_created (workers w) <= Z.max 0 (maxThreads (attr (pool w)));
  iv_queue : Z.of_nat (length (queued (pool w))) <= Z.max 0 (maxJobsTotal (attr (pool w)));
  iv_jobs : accepted w ≡ₚ held_jobs (pool w) ++ started w ++ removed w ++ dropped w ++ lost w;
  iv_over : overwritten w = [];
  iv_one : forall c c' k k', callers w !! c = Some k -> callers w !! c' = Some k' ->
    placing k -> placing k' -> c = c';
  iv_slot : forall c k, callers w !! c = Some k -> placing k -> persistentJob (pool w) = None;
  iv_down : shutdown (pool w) = true -> held_jobs (pool w) = [] /\ pendingWorkerThreadStart (pool w) = false /\
    (forall c k, callers w !! c = Some k -> returned k \/ draining k = true) /\
    (forall c c' k k', callers w !! c = Some k -> callers w !! c' = Some k' -> draining k = true -> draining k' = true -> c = c');
  iv_drain : forall c k, callers w !! c = Some k -> draining k = true -> shutdown (pool w) = true;
  iv_gone : destroyed w = true -> shutdown (pool w) = true /\ workers w = ∅ /\
    forall c k, callers w !! c = Some k -> returned k
}.

(** The fields of the world that a call leaves alone, or moves together. *)
Lemma inv_up w : inv w -> shutdown (pool w) = false -> destroyed w = false.
Proof. intros H Hs. destruct (destroyed w) eqn:E; [| done]. destruct (iv_gone w H E) as [? _]. congruence. Qed.

(** The call is served: it goes on, or has returned, and the invariant holds. *)
Definition served (c : nat) (r : res (caller * world)) : Prop :=
  exists k w', r = Ok (k, w') /\ inv (set_caller w' c k).

(** A persistent job may be added: the one before has been taken. *)
Definition alone w : Prop :=
  persistentJob (pool w) = None /\ forall c k, callers w !! c = Some k -> ~ placing k.

Lemma inv_put w c k : inv w -> callers w !! c = None -> shutdown (pool w) = false ->
  draining k = false -> (placing k -> alone w) -> inv (set_caller w c k).
Proof.
  intros [] Hc Hs Hd Ha. split; cbn; try done.
  - intros Hp. destruct (iv_starter0 Hp) as (c' & f & E). exists c', f. rewrite lookup_insert_ne by congruence. done.
  - intros c1 c2 k1 k2 H1 H2 A1 A2. apply lookup_insert_Some in H1, H2.
    destruct H1 as [[<- <-] | [? H1]], H2 as [[<- <-] | [? H2]]; try done.
    + by destruct (proj2 (Ha A1) c2 k2 H2).
    + by destruct (proj2 (Ha A2) c1 k1 H1).
    + by apply (iv_one0 c1 c2 k1 k2).
  - intros c' k' H A. apply lookup_insert_Some in H as [[_ <-] | [_ H]]; [by apply Ha | by apply (iv_slot0 c' k')].
  - congruence.
  - intros c' k' E D. apply lookup_insert_Some in E as [[_ <-] | [_ E]]; [cbn in D; congruence | by apply (iv_drain0 c' k')].
  - intros E. destruct (iv_gone0 E) as [? _]. congruence.
Qed.

(** Changes of the pool the invariant does not see. *)
Lemma inv_pool w tp : inv w ->
  fixed tp = fixed (pool w) \/ (exists i, tp = set_last (pool w) i) ->
  threads tp = threads (pool w) -> queued tp = queued (pool w) -> persistentJob tp = persistentJob (pool w) ->
  inv (set_pool w tp).
Proof.
  intros [] Hf Ht Hq Hp.
  assert (F : attr tp = attr (pool w) /\ shutdown tp = shutdown (pool w) /\
    pendingWorkerThreadStart tp = pendingWorkerThreadStart (pool w)).
  { destruct Hf as [[= -> _ -> ->] | [i ->]]; done. }
  destruct F as (F1 & F2 & F3). assert (Hh : held_jobs tp = held_jobs (pool w)) by (unfold held_jobs; by rewrite Hq, Hp).
  split; cbn; rewrite ?F1, ?F2, ?F3, ?Ht, ?Hq, ?Hp, ?Hh; done.
Qed.

Definition room w : Prop := lastJobId (pool w) < INT_MAX /\ INT_MIN < lastJobId (pool w).

Lemma return_id_served rc w c : inv w -> callers w !! c = None -> shutdown (pool w) = false -> room w ->
  served c (return_id rc w).
Proof.
  intros Hi Hc Hs [H1 H2]. unfold return_id. rewrite int_op_in by (unfold INT_MIN in *; lia). cbn [mbind res_bind].
  eexists _, _. split; [done |]. apply inv_put; [| done..].
  apply inv_pool; [done | right; by eexists | done..].
Qed.

Lemma place_persistent_served e job w c : inv w -> callers w !! c = None -> shutdown (pool w) = false -> alone w ->
  served c (place_persistent e job w).
Proof.
  intros Hi Hc Hs Ha. unfold place_persistent. destruct (CreateThreadPoolJob e job (pool w)) as [j |].
  2: { eexists _, _. split; [done |]. by apply inv_put. }
  destruct Ha as [P Ha].
  eexists _, _. split; [done |]. destruct Hi. split; cbn; try done.
  - intros Hp. destruct (iv_starter0 Hp) as (c' & f & E). exists c', f. rewrite lookup_insert_ne by congruence. done.
  - unfold held_jobs in *. cbn. rewrite P in iv_jobs0. cbn in iv_jobs0. rewrite iv_jobs0.
    change (queued (set_persistent (pool w) (Some j))) with (queued (pool w)). solve_Permutation.
  - rewrite P, iv_over0. done.
  - intros c1 c2 k1 k2 H1 H2 A1 A2. apply lookup_insert_Some in H1, H2.
    destruct H1 as [[<- <-] | [? H1]], H2 as [[<- <-] | [? H2]]; try done. by apply (iv_one0 c1 c2 k1 k2).
  - intros c' k' H A. apply lookup_insert_Some in H as [[_ <-] | [_ H]]; [done | by destruct (Ha c' k' H)].
  - congruence.
  - intros c' k' E D. apply lookup_insert_Some in E as [[_ <-] | [_ E]]; [cbn in D; congruence | by apply (iv_drain0 c' k')].
  - intros E. destruct (iv_gone0 E) as [? _]. congruence.
Qed.

(** A call that may go on: its frame does not add a second persistent job. *)
Definition calls w (c : nat) (f : frame) : Prop :=
  inv w /\ callers w !! c = None /\ shutdown (pool w) = false /\ room w /\
  match f with FPersistent _ => alone w | _ => True end.

Lemma failed_served e f rc w c : calls w c f -> served c (failed e f rc w).
Proof.
  intros (Hi & Hc & Hs & Hr & Ha). destruct f; cbn [failed].
  - by apply return_id_served.
  - by apply place_persistent_served.
  - eexists _, _. split; [done |]. by apply inv_put.
Qed.

Lemma note_most_calls w c f : calls w c f -> calls (set_pool w (note_most (pool w))) c f.
Proof.
  intros (Hi & Hc & Hs & Hr & Ha).
  assert (N : fixed (note_most (pool w)) = fixed (pool w) /\ threads (note_most (pool w)) = threads (pool w) /\
    queued (note_most (pool w)) = queued (pool w) /\ persistentJob (note_most (pool w)) = persistentJob (pool w)).
  { unfold note_most. destruct (_ <? _); repeat split. }
  destruct N as (N1 & N2 & N3 & N4). pose proof N1 as [= _ N5 N6 _]. split_and!; cbn; try done.
  - apply inv_pool; auto.
  - congruence.
  - unfold room in *. cbn. by rewrite N5.
  - destruct f; try done. destruct Ha as [Ha ?]. split; [by rewrite <- Ha | done].
Qed.

Lemma create_thread_served e f w c : calls w c f -> pendingWorkerThreadStart (pool w) = false -> env_ok e w = true ->
  served c (create_thread e f w).
Proof.
  intros H Hp He. unfold create_thread. case_match eqn:El; [by apply failed_served |].
  unfold env_ok in He. destruct (create e) as [n |].
  2: { apply (failed_served e f EAGAIN), note_most_calls, H. }
  apply bool_decide_eq_true in He. destruct H as (Hi & Hc & Hs & Hr & Ha). eexists _, _. split; [done |].
  pose proof (iv_counts w Hi CTotal) as Ht. pose proof (iv_pending w Hi) as Hcr. rewrite Hp in Hcr.
  destruct Hi. split; cbn; try done.
  - intros k. rewrite sum_insert by done. rewrite (iv_counts0 k). destruct k; cbn; lia.
  - rewrite sum_insert, Hcr by done. done.
  - intros _. exists c, f. apply lookup_insert_eq.
  - intros m x Hm. apply lookup_insert_Some in Hm as [[_ <-] | [_ Hm]]; [done | by apply (iv_shaped0 m)].
  - rewrite sum_insert, Hcr by done. cbn. apply andb_false_iff in El as [E%negb_false_iff%Z.eqb_eq | E%Z.ltb_ge]; [by left |].
    right. lia.
  - intros c1 c2 k1 k2 H1 H2 A1 A2. apply lookup_insert_Some in H1, H2.
    destruct H1 as [[<- <-] | [? H1]], H2 as [[<- <-] | [? H2]]; try done.
    + destruct f; try done. by destruct (proj2 Ha c2 k2 H2).
    + destruct f; try done. by destruct (proj2 Ha c1 k1 H1).
    + by apply (iv_one0 c1 c2 k1 k2).
  - intros c' k' H A. apply lookup_insert_Some in H as [[_ <-] | [_ H]]; [| by apply (iv_slot0 c' k')].
    destruct f; try done. by destruct Ha.
  - congruence.
  - intros c' k' E D. apply lookup_insert_Some in E as [[_ <-] | [_ E]]; [cbn in D; congruence | by apply (iv_drain0 c' k')].
  - intros E. destruct (iv_gone0 E) as [? _]. congruence.
Qed.

Lemma CreateWorker_served e f w c : calls w c f -> env_ok e w = true -> served c (CreateWorker e f w).
Proof.
  intros H He. unfold CreateWorker. destruct (pendingWorkerThreadStart (pool w)) eqn:Ep; [| by apply create_thread_served].
  destruct H as (Hi & Hc & Hs & Hr & Ha). eexists _, _. split; [done |]. apply inv_put; try done. by destruct f.
Qed.

Lemma AddWorker_served e rc jobs ths w c : calls w c (FAdd rc jobs ths) -> env_ok e w = true ->
  served c (AddWorker e rc jobs ths w).
Proof.
  intros H He. unfold AddWorker. case_match; [by apply CreateWorker_served |]. destruct H as (? & ? & ? & ? & _).
  by apply return_id_served.
Qed.

Lemma start_min_served e i w c : calls w c (FMin i) -> env_ok e w = true -> served c (start_min e i w).
Proof.
  intros H He. unfold start_min. case_match; [by apply CreateWorker_served |]. destruct H as (? & ? & ? & ? & _).
  eexists _, _. split; [done |]. by apply inv_put.
Qed.

Lemma created_served e f w c : calls w c f -> env_ok e w = true -> served c (created e f w).
Proof.
  intros H He. unfold created. pose proof (note_most_calls w c f H) as H'.
  destruct f; [by apply AddWorker_served | | by apply start_min_served].
  destruct H' as (? & ? & ? & ? & ?). by apply place_persistent_served.
Qed.

(** ** The actions keep the invariant *)

Lemma hide_inv w c k : inv w -> callers w !! c = Some k ->
  (forall f, k = Started f -> pendingWorkerThreadStart (pool w) = false) -> inv (hide w c).
Proof.
  intros [] Hc Hst. split; cbn; try done.
  - intros Hp. destruct (iv_starter0 Hp) as (c' & f & E). exists c', f. rewrite lookup_delete_ne; [done |].
    intros ->. rewrite Hc in E. injection E as ->. rewrite (Hst f eq_refl) in Hp. done.
  - intros c1 c2 k1 k2 H1 H2. apply lookup_delete_Some in H1 as [_ H1], H2 as [_ H2]. by apply (iv_one0 c1 c2 k1 k2).
  - intros c' k' H. apply lookup_delete_Some in H as [_ H]. by apply (iv_slot0 c').
  - intros E. destruct (iv_down0 E) as (? & ? & H3 & H4). split_and!; try done.
    + intros c' k' Hx. apply lookup_delete_Some in Hx as [_ Hx]. by apply (H3 c').
    + intros c1 c2 k1 k2 H1 H2. apply lookup_delete_Some in H1 as [_ H1], H2 as [_ H2]. by apply (H4 c1 c2 k1 k2).
  - intros c' k' E. apply lookup_delete_Some in E as [_ E]. by apply (iv_drain0 c' k').
  - intros E. destruct (iv_gone0 E) as (? & ? & H3). split_and!; try done.
    intros c' k' Hx. apply lookup_delete_Some in Hx as [_ Hx]. by apply (H3 c').
Qed.

Lemma hide_alone w c k : inv w -> callers w !! c = Some k -> placing k -> alone (hide w c).
Proof.
  intros Hi Hc Hk. split; [by apply (iv_slot w Hi c k) |]. intros c' k' H Hk'. cbn in H. apply lookup_delete_Some in H as [Hne H].
  apply Hne. apply (iv_one w Hi c c' k k'); done.
Qed.

Lemma sum_settled f ws n x o : ws !! n = Some x ->
  sum f (match o with Some y => <[n := y]> ws | None => delete n ws end) = sum f ws - f x + match o with Some y => f y | None => 0 end.
Proof. intros H. destruct o; [by apply sum_replace | rewrite (sum_delete f ws n x H); lia]. Qed.

(** Pools that differ in their counts only. *)
Definition same_jobs tp tp' : Prop :=
  fixed tp' = fixed tp /\ highJobQ tp' = highJobQ tp /\ medJobQ tp' = medJobQ tp /\ lowJobQ tp' = lowJobQ tp /\ persistentJob tp' = persistentJob tp.

Lemma worker_top_same p job tp : same_jobs tp (worker_top p job tp).
Proof. unfold worker_top. by destruct (p =? 0), (p =? 1). Qed.

(** Moving a worker that is not [Created] to a state of its loop. *)
Lemma settle_inv w n x timedout nodes o p js tp0 tp : inv w -> workers w !! n = Some x -> x <> Created -> same_jobs (pool w) tp0 ->
  (forall k, get k (threads tp0) = get k (threads (pool w)) - contrib k x + contrib k (Waiting p)) ->
  round timedout nodes tp0 p o js tp -> inv (settle n p o (log_lost (set_pool w tp) js)).
Proof.
  intros Hi Hn Hx (Hf & Q1 & Q2 & Q3 & Q4) Hk0 [Hfx Hk Hq Hy _ Hp Hl _ _].
  assert (Hh : held_jobs tp0 = held_jobs (pool w) /\ queued tp0 = queued (pool w)) by (unfold held_jobs, queued; by rewrite Q1, Q2, Q3, Q4).
  destruct Hh as [Hh Hqu]. rewrite Hf in Hfx. injection Hfx as F1 _ F2 F3. rewrite Hh in Hq. rewrite Hqu in Hl. rewrite Q4 in Hp.
  assert (Hcr : is_created x = 0) by (by destruct x).
  set (w' := settle n p o _).
  assert (W : workers w' = match left_by p o with Some y => <[n := y]> (workers w) | None => delete n (workers w) end) by (by destruct o).
  assert (Hnd : destroyed w = true -> False).
  { intros E. destruct (iv_gone w Hi E) as (_ & E' & _). rewrite E', lookup_empty in Hn. done. }
  assert (Pl : pool w' = tp) by (by destruct o).
  assert (Cl : callers w' = callers w) by (by destruct o).
  assert (C0 : forall y, left_by p o = Some y -> is_created y = 0) by (intros y; destruct o; intros [= <-]; done).
  assert (S0 : sum is_created (workers w') = sum is_created (workers w)).
  { rewrite W, (sum_settled is_created _ n x _ Hn). destruct (left_by p o) eqn:E; [rewrite (C0 _ eq_refl) |]; lia. }
  assert (T : total tp <= total (pool w)).
  { pose proof (Hk CTotal) as E. rewrite (Hk0 CTotal) in E. replace (contrib CTotal x) with 1 in E by (by destruct x). destruct o; cbn in E; lia. }
  destruct Hi. split; rewrite ?Pl, ?Cl, ?S0, ?F1, ?F2, ?F3; try done.
  - intros k. rewrite W, (sum_settled (contrib k) _ n x _ Hn), Hk, Hk0, (iv_counts0 k). unfold gain. destruct (left_by p o); lia.
  - intros m y Hm. rewrite W in Hm. destruct (left_by p o) as [z |] eqn:E.
    + apply lookup_insert_Some in Hm as [[_ <-] | [_ Hm]]; [by apply Hy | by apply (iv_shaped0 m)].
    + apply lookup_delete_Some in Hm as [_ Hm]. by apply (iv_shaped0 m).
  - destruct iv_bound0; [by left | right; lia].
  - lia.
  - replace (accepted w') with (accepted w) by (by destruct o).
    rewrite iv_jobs0, Hq. unfold w'. destruct o; cbn; solve_Permutation.
  - by destruct o.
  - intros c k H A. specialize (iv_slot0 c k H A). destruct (persistentJob tp); [| done]. by destruct (Hp ltac:(done)).
  - intros Hs. destruct (iv_down0 Hs) as (Hh' & ? & ? & ?). split_and!; try done.
    rewrite Hh' in Hq. apply Permutation_nil_l, eq_sym in Hq. by apply app_nil in Hq as [? _].
  - replace (destroyed w') with (destroyed w) by (by destruct o). intros E. by destruct (Hnd E).
Qed.

Lemma up_of_worker w n x : inv w -> workers w !! n = Some x -> destroyed w = false.
Proof.
  intros Hi Hn. destruct (destroyed w) eqn:E; [| done]. destruct (iv_gone w Hi E) as (_ & E' & _).
  rewrite E', lookup_empty in Hn. done.
Qed.

Lemma wake_inv w n p timedout nodes now : inv w -> workers w !! n = Some (Waiting p) ->
  exists w', go_on n p timedout nodes now w = Ok w' /\ inv w'.
Proof.
  intros Hi Hn. unfold go_on. destruct (worker_loop_ok timedout nodes now (pool w) p) as (o & js & tp & -> & H).
  cbn [mbind res_bind]. eexists. split; [done |]. eapply (settle_inv w n (Waiting p)); [done | done | done | done | | exact H]. intros k. lia.
Qed.

Lemma top_inv w n p job nodes now : inv w -> workers w !! n = Some (Top p job) ->
  exists w', go_on n p false nodes now (set_pool w (worker_top p job (pool w))) = Ok w' /\ inv w'.
Proof.
  intros Hi Hn. pose proof (iv_shaped w Hi n _ Hn) as Hs. unfold go_on. cbn [pool set_pool].
  destruct (worker_loop_ok false nodes now (worker_top p job (pool w)) p) as (o & js & tp & -> & H).
  cbn [mbind res_bind]. eexists. split; [done |].
  change (set_pool (set_pool w (worker_top p job (pool w))) tp) with (set_pool w tp).
  eapply (settle_inv w n (Top p job)); [done | done | done | apply worker_top_same | | exact H].
  intros k. by apply worker_top_counts.
Qed.

Lemma start_inv w n : inv w -> workers w !! n = Some Created ->
  inv (set_workers (set_pool w (worker_start (pool w))) (<[n := Top (-1) None]> (workers w))).
Proof.
  intros Hi Hn. pose proof (up_of_worker w n _ Hi Hn) as Hd.
  assert (S1 : sum is_created (workers w) = 1 /\ pendingWorkerThreadStart (pool w) = true).
  { pose proof (sum_at is_created (workers w) n Created) as H. pose proof (iv_pending w Hi) as E.
    assert (is_created Created <= sum is_created (workers w)) by (apply H; [by intros [] | done]). cbn in *.
    destruct (pendingWorkerThreadStart (pool w)); [done | lia]. }
  destruct S1 as [S1 S2]. destruct Hi. split; cbn; try done.
  - intros k. rewrite (sum_replace (contrib k) _ n _ _ Hn). rewrite <- (iv_counts0 k). destruct k; cbn; lia.
  - rewrite (sum_replace is_created _ n _ _ Hn), S1. done.
  - intros m x Hm. apply lookup_insert_Some in Hm as [[_ <-] | [_ Hm]]; [done | by apply (iv_shaped0 m)].
  - rewrite (sum_replace is_created _ n _ _ Hn), S1. cbn. destruct iv_bound0; [by left | right; lia].
  - intros E. destruct (iv_down0 E) as (_ & ? & _). congruence.
  - congruence.
Qed.

Lemma finish_inv w n p j : inv w -> workers w !! n = Some (Running p j) ->
  inv (set_workers w (<[n := Top p (Some j)]> (workers w))).
Proof.
  intros Hi Hn. pose proof (up_of_worker w n _ Hi Hn) as Hd. pose proof (iv_shaped w Hi n _ Hn) as Hp.
  destruct Hi. split; cbn; try done.
  - intros k. rewrite (sum_replace (contrib k) _ n _ _ Hn), (iv_counts0 k). destruct k; cbn; lia.
  - rewrite (sum_replace is_created _ n _ _ Hn), iv_pending0. cbn. lia.
  - intros m x Hm. apply lookup_insert_Some in Hm as [[_ <-] | [_ Hm]]; [done | by apply (iv_shaped0 m)].
  - rewrite (sum_replace is_created _ n _ _ Hn). cbn. by rewrite Z.sub_0_r, Z.add_0_r.
  - congruence.
Qed.

Lemma ListFind_perm id q j q' : ListFind id q = Some (j, q') -> q ≡ₚ j :: q'.
Proof.
  revert q'; induction q as [| x q IH]; intros q'; cbn [ListFind]; [done |]. case_match; [by intros [= -> ->] |].
  intros (a & E & Ha) % bind_Some. destruct a as [j1 q1]. injection Ha as -> <-. rewrite (IH q1 E). apply perm_swap.
Qed.

Lemma find_job_ok id tp j tp' : find_job id tp = Some (j, tp') ->
  fixed tp' = fixed tp /\ threads tp' = threads tp /\ held_jobs tp ≡ₚ j :: held_jobs tp' /\
  (persistentJob tp' <> None -> persistentJob tp <> None) /\ (length (queued tp') <= length (queued tp))%nat /\ jobId j = id.
Proof.
  assert (Id : forall q q', ListFind id q = Some (j, q') -> jobId j = id).
  { induction q as [| x q IH]; intros q'; cbn [ListFind]; [done |]. case_match eqn:E.
    - apply Z.eqb_eq in E. intros [= -> _]. done.
    - intros (a & E' & Ha) % bind_Some. destruct a. injection Ha as -> _. by apply (IH l). }
  unfold find_job, held_jobs, queued. repeat case_match; try done; intros [= <- <-]; cbn;
    try match goal with E : ListFind _ _ = Some _ |- _ => pose proof (Id _ _ E); pose proof (ListFind_perm _ _ _ _ E) as P end.
  - split_and!; try done; [by rewrite P | by rewrite P; cbn; rewrite !length_app; lia].
  - split_and!; try done; rewrite P; [solve_Permutation | rewrite !length_app; cbn; lia].
  - split_and!; try done; rewrite P; [solve_Permutation | rewrite !length_app; cbn; lia].
  - split_and!; try done; [| by apply Z.eqb_eq].
    cbn. rewrite app_nil_r. solve_Permutation.
Qed.

Lemma remove_inv w id : inv w -> destroyed w = false -> inv (ThreadPoolRemove id w).2.
Proof.
  intros Hi Hd. unfold ThreadPoolRemove. destruct (find_job id (pool w)) as [[j tp] |] eqn:E; [| done]. cbn.
  destruct (find_job_ok id _ j tp E) as ([= F1 _ F2 F3] & T & P & Hp & Hl & _).
  destruct Hi. split; cbn; rewrite ?T, ?F1, ?F2, ?F3; try done.
  - lia.
  - rewrite iv_jobs0, P. solve_Permutation.
  - intros c k H A. specialize (iv_slot0 c k H A). destruct (persistentJob tp); [| done]. by destruct (Hp ltac:(done)).
  - intros H. destruct (iv_down0 H) as (H1 & _). rewrite H1 in P. by apply Permutation_nil_l in P.
Qed.

(** ** Shutting down *)

Lemma finish_shutdown_inv rc w c : inv w -> destroyed w = false -> shutdown (pool w) = true ->
  (forall c' k, callers w !! c' = Some k -> returned k) -> inv (set_caller (finish_shutdown rc w).2 c (finish_shutdown rc w).1).
Proof.
  intros Hi Hd Hs Hr. destruct (iv_down w Hi Hs) as (Hh & Hp & _). unfold finish_shutdown.
  pose proof (iv_counts w Hi CTotal) as Hc. pose proof (iv_pending w Hi) as Hcr. rewrite Hp in Hcr.
  assert (Hslot : persistentJob (pool w) = None) by (unfold held_jobs in Hh; apply app_nil in Hh as [_ Hh]; by destruct (persistentJob (pool w))).
  assert (Hnd : forall c' k, callers w !! c' = Some k -> draining k = false /\ ~ placing k) by (intros c' k H; specialize (Hr c' k H); destruct k; cbn in *; naive_solver).
  set (k0 := (if 0 <? total (pool w) then (Draining rc, w) else (Returned rc None, set_destroyed w)).1).
  assert (Hk0 : ~ placing k0 /\ (returned k0 \/ draining k0 = true)) by (unfold k0; destruct (_ <? _); cbn; auto).
  assert (H1 : forall c1 c2 k1 k2, <[c := k0]> (callers w) !! c1 = Some k1 -> <[c := k0]> (callers w) !! c2 = Some k2 ->
    draining k1 = true -> draining k2 = true -> c1 = c2).
  { intros c1 c2 k1 k2 E1 E2 D1 D2. apply lookup_insert_Some in E1, E2.
    destruct E1 as [[<- <-] | [? E1]]; [| destruct (Hnd _ _ E1); congruence]. destruct E2 as [[<- <-] | [? E2]]; [done | destruct (Hnd _ _ E2); congruence]. }
  assert (H2 : forall c' k, <[c := k0]> (callers w) !! c' = Some k -> ~ placing k /\ (returned k \/ draining k = true)).
  { intros c' k E. apply lookup_insert_Some in E as [[_ <-] | [_ E]]; [done |]. split; [by apply (Hnd c' k) | left; by apply (Hr c' k)]. }
  assert (H3 : inv (set_caller w c k0)).
  { clearbody k0. destruct Hi. split; cbn; try done.
    - congruence.
    - intros c1 c2 k1 k2 E1 _ A1 _. by destruct (H2 c1 k1 E1).
    - intros _. split_and!; try done. intros c' k E. by destruct (H2 c' k E).
    - congruence. }
  unfold k0 in H3. destruct (Z.ltb_spec 0 (total (pool w))) as [Hl | Hl]; [exact H3 |]. cbn [fst snd].
  destruct H3. split; try done. intros _. cbn in *. split_and!; [done | |].
  - apply map_empty. intros n. destruct (workers w !! n) as [x |] eqn:E; [| done]. exfalso.
    rewrite Hc in Hl. assert (x = Created \/ contrib CTotal x = 1) as [-> | Hx] by (destruct x; auto).
    * pose proof (sum_at is_created (workers w) n Created ltac:(by intros []) E). cbn in *. lia.
    * pose proof (sum_at (contrib CTotal) (workers w) n x ltac:(by intros []) E). lia.
  - intros c' k H. apply lookup_insert_Some in H as [[_ <-] | [_ H]]; [done | by apply (Hr c')].
Qed.

Lemma shutdown_inv rc w c : inv w -> shutdown (pool w) = false -> (forall c' k, callers w !! c' = Some k -> returned k) ->
  inv (set_caller (ThreadPoolShutdown rc w).2 c (ThreadPoolShutdown rc w).1).
Proof.
  intros Hi Hs Hr. pose proof (inv_up w Hi Hs) as Hd. unfold ThreadPoolShutdown. apply finish_shutdown_inv; try done.
  destruct Hi. split; cbn; try done.
  - lia.
  - rewrite iv_jobs0. fold (held_jobs (pool w)). cbn. solve_Permutation.
  - intros _. assert (pendingWorkerThreadStart (pool w) = false) as ->.
    { destruct (pendingWorkerThreadStart (pool w)); [| done]. destruct (iv_starter0 eq_refl) as (c' & f & H). by specialize (Hr _ _ H). }
    split_and!; try done; [intros c' k H; left; by apply (Hr c') |].
    intros c1 c2 k1 k2 H1 _ D1 _. specialize (Hr _ _ H1). by destruct k1.
  - congruence.
Qed.

(** ** Safety *)

(** The calls the safety theorem is about: a persistent job is added when the one before has been taken, the pool is shut down
    when every other call has returned and not called again, and new attributes fit what is running. *)
Definition calm (a : action) w : Prop :=
  match a with
  | AAdd _ _ _ => shutdown (pool w) = false /\ room w
  | AAddPersistent _ _ _ => shutdown (pool w) = false /\ room w /\ alone w
  | ARemove _ => destroyed w = false
  | ASetAttr _ _ a => shutdown (pool w) = false /\ room w /\
      (maxThreads a = -1 \/ total (pool w) + sum is_created (workers w) <= Z.max 0 (maxThreads a)) /\
      Z.of_nat (length (queued (pool w))) <= Z.max 0 (maxJobsTotal a)
  | AShutdown c => shutdown (pool w) = false /\ forall c' k, callers w !! c' = Some k -> returned k
  | AResume c _ => room w /\
      forall rc c' k, callers w !! c = Some (Failing rc) -> callers w !! c' = Some k -> c' = c \/ returned k
  | _ => True
  end.

Inductive reach (w0 : world) : world -> Prop :=
| reach_start : reach w0 w0
| reach_step w a w' : reach w0 w -> calm a w -> act a w = Some (Ok w') -> reach w0 w'.

Lemma add_served e job w c : inv w -> callers w !! c = None -> shutdown (pool w) = false -> room w -> env_ok e w = true ->
  served c (ThreadPoolAdd e job w).
Proof.
  intros Hi Hc Hs Hr He. unfold ThreadPoolAdd.
  destruct (Z.leb_spec (maxJobsTotal (attr (pool w))) (Z.of_nat (length (queued (pool w))))) as [Hl | Hl].
  { eexists _, _. split; [done |]. by apply inv_put. }
  destruct (CreateThreadPoolJob e job (pool w)) as [j |].
  2: { eexists _, _. split; [done |]. by apply inv_put. }
  destruct (node_ok e); [| by apply AddWorker_served].
  apply AddWorker_served; [| done].
  assert (Q : queued (enqueue j (pool w)) ≡ₚ j :: queued (pool w)).
  { unfold enqueue, queued. repeat case_match; cbn; rewrite <- ?app_assoc; solve_Permutation. }
  assert (F : fixed (enqueue j (pool w)) = fixed (pool w) /\ threads (enqueue j (pool w)) = threads (pool w) /\
    persistentJob (enqueue j (pool w)) = persistentJob (pool w)).
  { unfold enqueue. destruct (priority j =? HIGH_PRIORITY), (priority j =? MED_PRIORITY); repeat split. }
  destruct F as ([= F1 F4 F2 F3] & T & P). split_and!; cbn; try done; [| by rewrite F2 | unfold room; cbn; by rewrite F4].
  destruct Hi. split; cbn; rewrite ?T, ?F1, ?F2, ?F3, ?P; try done.
  - rewrite Q. cbn. lia.
  - unfold held_jobs. rewrite Q, P, iv_jobs0. unfold held_jobs. cbn. solve_Permutation.
  - congruence.
Qed.

Lemma add_persistent_served e job w c : inv w -> callers w !! c = None -> shutdown (pool w) = false -> room w -> alone w ->
  env_ok e w = true -> served c (ThreadPoolAddPersistent e job w).
Proof.
  intros Hi Hc Hs Hr Ha He. unfold ThreadPoolAddPersistent. case_match; [by apply CreateWorker_served |].
  case_match; [| by apply place_persistent_served]. eexists _, _. split; [done |]. by apply inv_put.
Qed.

Lemma set_attr_served e a w c : inv w -> callers w !! c = None -> calm (ASetAttr c e a) w -> env_ok e w = true ->
  served c (ThreadPoolSetAttr e a w).
Proof.
  intros Hi Hc (Hs & Hr & Hm & Hq) He. unfold ThreadPoolSetAttr. apply start_min_served; [| done].
  split_and!; cbn; try done. destruct Hi. by split.
Qed.

Lemma enter_ok c r : served c r -> exists w', enter c r = Ok w' /\ inv w'.
Proof. intros (k & w' & -> & Hi). cbn. by eexists. Qed.

Lemma enter_Ok c kw : enter c (Ok kw) = Ok (set_caller kw.2 c kw.1).
Proof. by destruct kw. Qed.

Lemma resume_inv w c e k : inv w -> callers w !! c = Some k -> calm (AResume c e) w ->
  forall r, act (AResume c e) w = Some r -> exists w', r = Ok w' /\ inv w'.
Proof.
  intros Hi Hc [Hr Hf] r. cbn [act]. rewrite Hc. destruct (env_ok e w) eqn:He; [| done]. cbn [negb].
  assert (Up : ~ (returned k \/ draining k = true) -> shutdown (pool w) = false /\ destroyed w = false).
  { intros Hk. destruct (shutdown (pool w)) eqn:Es.
    - destruct (iv_down w Hi Es) as (_ & _ & H & _). by destruct (Hk (H c k Hc)).
    - split; [done | by apply inv_up]. }
  assert (Hn : callers (hide w c) !! c = None) by apply lookup_delete_eq.
  destruct k as [f | f | | rc | rc | rc id]; try done.
  - destruct (pendingWorkerThreadStart (pool w)) eqn:Ep; [done |]. intros [= <-].
    destruct Up as [Hs Hd]; [by intros [? | ?] |]. unfold locked. rewrite Hd. apply enter_ok, create_thread_served; try done.
    split_and!; try done; [by apply (hide_inv w c (Pending f)) |]. destruct f; try done. by apply (hide_alone w c (Pending (FPersistent job))).
  - destruct (pendingWorkerThreadStart (pool w)) eqn:Ep; [done |]. intros [= <-].
    destruct Up as [Hs Hd]; [by intros [? | ?] |]. unfold locked. rewrite Hd. apply enter_ok, created_served; try done.
    split_and!; try done; [by apply (hide_inv w c (Started f)) |]. destruct f; try done. by apply (hide_alone w c (Started (FPersistent job))).
  - destruct (persistentJob (pool w)) eqn:Ep; [done |]. intros [= <-].
    destruct Up as [Hs Hd]; [by intros [? | ?] |]. unfold locked. rewrite Hd. apply enter_ok, return_id_served; try done.
    by apply (hide_inv w c Taking).
  - intros [= <-]. destruct Up as [Hs Hd]; [by intros [? | ?] |]. unfold locked. rewrite Hd. eexists. split; [exact (enter_Ok c (ThreadPoolShutdown rc (hide w c))) |].
    apply shutdown_inv; [by apply (hide_inv w c (Failing rc)) | done |].
    intros c' k H. cbn in H. apply lookup_delete_Some in H as [Hne H]. by destruct (Hf rc c' k Hc H) as [-> | ?].
  - intros [= <-]. destruct (destroyed w) eqn:Hd; [destruct (iv_gone w Hi Hd) as (_ & _ & H); by specialize (H c _ Hc) |].
    unfold locked. rewrite Hd. eexists. split; [exact (enter_Ok c (finish_shutdown rc (hide w c))) |].
    destruct (shutdown (pool w)) eqn:Es.
    + destruct (iv_down w Hi Es) as (_ & _ & H & H1). apply finish_shutdown_inv; [by apply (hide_inv w c (Draining rc)) | done | done |].
      intros c' k Hk. cbn in Hk. apply lookup_delete_Some in Hk as [Hne Hk]. destruct (H c' k Hk) as [? | Hdr]; [done |].
      destruct Hne. by apply (H1 c c' (Draining rc) k).
    + rewrite (iv_drain w Hi c _ Hc eq_refl) in Es. done.
Qed.

Lemma act_inv a w : inv w -> calm a w -> forall r, act a w = Some r -> exists w', r = Ok w' /\ inv w'.
Proof.
  intros Hi Hc. destruct a as [c e job | c e job | id | c e a | c | c e | n | n nodes now | n timedout nodes now | n]; cbn [act calm] in *.
  - destruct Hc as [Hs Hr]. case_decide as Hn; [| done]. destruct (env_ok e w) eqn:He; [| done]. intros r [= <-].
    unfold locked. rewrite (inv_up w Hi Hs). by apply enter_ok, add_served.
  - destruct Hc as (Hs & Hr & Ha). case_decide as Hn; [| done]. destruct (env_ok e w) eqn:He; [| done]. intros r [= <-].
    unfold locked. rewrite (inv_up w Hi Hs). by apply enter_ok, add_persistent_served.
  - intros r [= <-]. unfold locked. rewrite Hc. eexists. split; [done |]. by apply remove_inv.
  - destruct Hc as (Hs & Hr). case_decide as Hn; [| done]. destruct (env_ok e w) eqn:He; [| done]. intros r [= <-].
    unfold locked. rewrite (inv_up w Hi Hs). apply enter_ok, set_attr_served; try done.
  - destruct Hc as (Hs & Hr). case_decide as Hn; [| done]. intros r [= <-].
    unfold locked. rewrite (inv_up w Hi Hs). eexists. split; [exact (enter_Ok c (ThreadPoolShutdown 0 w)) |]. by apply shutdown_inv.
  - intros r H. destruct (callers w !! c) as [k |] eqn:E; [| by destruct (negb (env_ok e w))].
    assert (Hc' : calm (AResume c e) w) by (destruct Hc as [? Hf]; split; [done | intros rc c' k'; rewrite E; apply Hf]).
    apply (resume_inv w c e k Hi E Hc' r). cbn [act]. by rewrite E.
  - destruct (workers w !! n) as [[] |] eqn:E; try done. intros r [= <-]. unfold locked.
    rewrite (up_of_worker w n _ Hi E). eexists. split; [done |]. by apply start_inv.
  - destruct (workers w !! n) as [[] |] eqn:E; try done. intros r [= <-]. unfold locked.
    rewrite (up_of_worker w n _ Hi E). by apply top_inv.
  - destruct (workers w !! n) as [[] |] eqn:E; try done. intros r [= <-]. unfold locked.
    rewrite (up_of_worker w n _ Hi E). by apply wake_inv.
  - destruct (workers w !! n) as [[] |] eqn:E; try done. intros r [= <-]. eexists. split; [done |]. by eapply finish_inv.
Qed.

Lemma no_world_inv a : inv (no_world a).
Proof. split; cbn; try done; [by intros [] | right; change (sum is_created ∅) with 0; lia | lia]. Qed.

Lemma reach_pool_inv a w : reach (no_world a) w -> inv w.
Proof.
  induction 1 as [| w1 b w2 _ IH Hc Ha]; [apply no_world_inv |].
  destruct (act_inv b w1 IH Hc _ Ha) as (w' & [= <-] & Hi). done.
Qed.

Lemma sum_size ws : Z.of_nat (size ws) = sum (contrib CTotal) ws + sum is_created ws.
Proof.
  induction ws as [| n x ws Hn IH] using map_ind; [done |]. rewrite map_size_insert_None, !sum_insert by done.
  destruct x; cbn; lia.
Qed.

(** ** Accounts *)

(** Every job that was accepted is in one place. *)
Definition conserved w : Prop :=
  accepted w ≡ₚ held_jobs (pool w) ++ started w ++ removed w ++ dropped w ++ lost w ++ overwritten w.

(** The action does not take jobs out of the queues to remove or drop them. *)
Definition keeps (a : action) w : Prop :=
  match a with
  | ARemove _ | AShutdown _ => False
  | AResume c _ => forall rc, callers w !! c <> Some (Failing rc)
  | _ => True
  end.

(** The action has the list nodes that moving jobs needs. *)
Definition has_nodes (a : action) : Prop :=
  match a with ATop _ nodes _ | AWake _ _ nodes _ => forall i, nodes i = true | _ => True end.

(** What a call does to the jobs: it may add one, and overwrite the persistent one. *)
Record adds w w' : Prop := {
  ad_started : started w' = started w;
  ad_high : highJobQ (pool w) `prefix_of` highJobQ (pool w');
  ad_lost : lost w' = lost w;
  ad_over : overwritten w `prefix_of` overwritten w';
  ad_conserved : conserved w -> conserved w'
}.

Definition only_adds w (r : res (caller * world)) : Prop := forall k w', r = Ok (k, w') -> adds w w'.

Lemma adds_refl w : adds w w.
Proof. by split. Qed.

Lemma adds_trans w w1 w2 : adds w w1 -> adds w1 w2 -> adds w w2.
Proof. intros [A1 A2 A3 A4 A5] [B1 B2 B3 B4 B5]. split; [congruence | by etrans | congruence | by etrans | auto]. Qed.

(** Only fields that the accounts do not see. *)
Lemma adds_same w w' : accepted w' = accepted w -> started w' = started w -> removed w' = removed w -> dropped w' = dropped w -> lost w' = lost w ->
  overwritten w' = overwritten w -> highJobQ (pool w') = highJobQ (pool w) -> held_jobs (pool w') = held_jobs (pool w) -> adds w w'.
Proof. intros E1 E2 E3 E4 E5 E6 E7 E8. split; [done | by rewrite E7 | done | by rewrite E6 |]. unfold conserved. by rewrite E1, E2, E3, E4, E5, E6, E8. Qed.

Lemma only_adds_trans w w1 r : adds w w1 -> only_adds w1 r -> only_adds w r.
Proof. intros H1 H k w' E. eapply adds_trans; [exact H1 | by eapply H]. Qed.

Lemma only_adds_here w k : only_adds w (Ok (k, w)).
Proof. intros k' w' [= _ <-]. apply adds_refl. Qed.

Lemma return_id_adds rc w : only_adds w (return_id rc w).
Proof. intros k w' E. unfold return_id in E. destruct (int_op _); [| done..]. injection E as _ <-. by apply adds_same. Qed.

Lemma place_persistent_adds e job w : only_adds w (place_persistent e job w).
Proof.
  intros k w' E. unfold place_persistent in E. case_match; injection E as _ <-; [| apply adds_refl].
  split; cbn; [done | done | done | by eexists |]. unfold conserved, held_jobs. cbn. intros ->.
  change (queued (set_persistent (pool w) (Some t))) with (queued (pool w)). destruct (persistentJob (pool w)); cbn; solve_Permutation.
Qed.

Lemma failed_adds e f rc w : only_adds w (failed e f rc w).
Proof. destruct f; [apply return_id_adds | apply place_persistent_adds | apply only_adds_here]. Qed.

Lemma note_most_same tp : highJobQ (note_most tp) = highJobQ tp /\ held_jobs (note_most tp) = held_jobs tp.
Proof. unfold note_most. by destruct (_ <? _). Qed.

Lemma note_most_adds w : adds w (set_pool w (note_most (pool w))).
Proof. by apply adds_same; try done; apply note_most_same. Qed.

Lemma create_thread_adds e f w : only_adds w (create_thread e f w).
Proof.
  unfold create_thread. case_match; [apply failed_adds |]. destruct (create e) as [n |].
  - intros k w' E. injection E as _ <-. by apply adds_same.
  - eapply only_adds_trans; [apply note_most_adds | apply failed_adds].
Qed.

Lemma CreateWorker_adds e f w : only_adds w (CreateWorker e f w).
Proof. unfold CreateWorker. case_match; [apply only_adds_here | apply create_thread_adds]. Qed.

Lemma AddWorker_adds e rc jobs ths w : only_adds w (AddWorker e rc jobs ths w).
Proof. unfold AddWorker. case_match; [apply CreateWorker_adds | apply return_id_adds]. Qed.

Lemma start_min_adds e i w : only_adds w (start_min e i w).
Proof. unfold start_min. case_match; [apply CreateWorker_adds | apply only_adds_here]. Qed.

Lemma created_adds e f w : only_adds w (created e f w).
Proof.
  unfold created. eapply only_adds_trans; [apply note_most_adds |].
  destruct f; [apply AddWorker_adds | apply place_persistent_adds | apply start_min_adds].
Qed.

Lemma enqueue_spec j tp : queued (enqueue j tp) ≡ₚ j :: queued tp /\ persistentJob (enqueue j tp) = persistentJob tp /\ highJobQ tp `prefix_of` highJobQ (enqueue j tp).
Proof.
  unfold enqueue, queued. repeat case_match; cbn; rewrite <- ?app_assoc; (split; [solve_Permutation | split; [done |]]); try done. by eexists.
Qed.

Lemma add_adds e job w : only_adds w (ThreadPoolAdd e job w).
Proof.
  unfold ThreadPoolAdd. case_match; [apply only_adds_here |].
  destruct (CreateThreadPoolJob e job (pool w)) as [j |]; [| apply only_adds_here].
  destruct (node_ok e); [| apply AddWorker_adds]. eapply only_adds_trans; [| apply AddWorker_adds].
  destruct (enqueue_spec j (pool w)) as (Q & P & Hh). split; cbn; [done | done | done | done |].
  unfold conserved, held_jobs. cbn. rewrite Q, P. intros ->. solve_Permutation.
Qed.

Lemma add_persistent_adds e job w : only_adds w (ThreadPoolAddPersistent e job w).
Proof.
  unfold ThreadPoolAddPersistent. case_match; [apply CreateWorker_adds |].
  case_match; [apply only_adds_here | apply place_persistent_adds].
Qed.

Lemma set_attr_adds e a w : only_adds w (ThreadPoolSetAttr e a w).
Proof. unfold ThreadPoolSetAttr. eapply only_adds_trans; [| apply start_min_adds]. by apply adds_same. Qed.

Lemma finish_adds rc w : only_adds w (Ok (finish_shutdown rc w)).
Proof. intros k w' E. unfold finish_shutdown in E. destruct (_ <? _); injection E as _ <-; [apply adds_refl | by apply adds_same]. Qed.

Lemma hide_adds w c : adds w (hide w c).
Proof. by apply adds_same. Qed.

Lemma enter_adds c w r w' : only_adds w r -> enter c r = Ok w' -> adds w w'.
Proof.
  intros H E. unfold enter in E. destruct r as [[k w1] | |]; [| done..]. injection E as <-.
  eapply adds_trans; [by eapply H | by apply adds_same].
Qed.

Lemma locked_Ok w r w' : locked w r = Ok w' -> r = Ok w'.
Proof. unfold locked. by destruct (destroyed w). Qed.

(** A call, or a worker that starts or ends a job. *)
Lemma call_adds a w w' : act a w = Some (Ok w') -> keeps a w ->
  (forall n nodes now, a <> ATop n nodes now) -> (forall n t nodes now, a <> AWake n t nodes now) -> adds w w'.
Proof.
  intros H Hk Ht Hw.
  destruct a as [c e job | c e job | id | c e a | c | c e | n | n nodes now | n t nodes now | n]; cbn [act keeps] in *; try done.
  - case_decide; [| done]. case_match; [| done]. injection H as H%locked_Ok. eapply enter_adds; [apply add_adds | exact H].
  - case_decide; [| done]. case_match; [| done]. injection H as H%locked_Ok. eapply enter_adds; [apply add_persistent_adds | exact H].
  - case_decide; [| done]. case_match; [| done]. injection H as H%locked_Ok. eapply enter_adds; [apply set_attr_adds | exact H].
  - case_match; [done |]. destruct (callers w !! c) as [[f | f | | rc | rc | rc id] |]; try done.
    + destruct (pendingWorkerThreadStart (pool w)); [done |]. injection H as H%locked_Ok.
      eapply enter_adds; [eapply only_adds_trans; [apply hide_adds | apply create_thread_adds] | exact H].
    + destruct (pendingWorkerThreadStart (pool w)); [done |]. injection H as H%locked_Ok.
      eapply enter_adds; [eapply only_adds_trans; [apply hide_adds | apply created_adds] | exact H].
    + destruct (persistentJob (pool w)); [done |]. injection H as H%locked_Ok.
      eapply enter_adds; [eapply only_adds_trans; [apply hide_adds | apply return_id_adds] | exact H].
    + by destruct (Hk rc).
    + injection H as H%locked_Ok. change (enter c (Ok (finish_shutdown rc (hide w c))) = Ok w') in H.
      eapply enter_adds; [eapply only_adds_trans; [apply hide_adds | apply finish_adds] | exact H].
  - destruct (workers w !! n) as [[] |]; try done. injection H as H%locked_Ok. injection H as <-. by apply adds_same.
  - by destruct (Ht n nodes now).
  - by destruct (Hw n t nodes now).
  - destruct (workers w !! n) as [[] |]; try done. injection H as <-. by apply adds_same.
Qed.

(** What any step does to the accounts. *)
Record accounted w w' : Prop := {
  ac_conserved : conserved w -> conserved w';
  ac_over : overwritten w `prefix_of` overwritten w';
  ac_lost : lost w `prefix_of` lost w'
}.

Lemma adds_accounted w w' : adds w w' -> accounted w w'.
Proof. intros [_ _ H1 H2 H3]. split; [done | done | by rewrite H1]. Qed.

Lemma accounted_trans w w1 w2 : accounted w w1 -> accounted w1 w2 -> accounted w w2.
Proof. intros [A1 A2 A3] [B1 B2 B3]. split; [auto | by etrans | by etrans]. Qed.

Lemma go_on_accounted n p timedout nodes now w w' : go_on n p timedout nodes now w = Ok w' -> accounted w w' /\ ((forall i, nodes i = true) -> lost w' = lost w).
Proof.
  unfold go_on. destruct (worker_loop_ok timedout nodes now (pool w) p) as (o & js & tp & -> & H). cbn [mbind res_bind]. intros [= <-].
  assert (El : lost (settle n p o (log_lost (set_pool w tp) js)) = lost w ++ js) by (by destruct o). split.
  2:{ intros Hn. by rewrite El, (rd_kept _ _ _ _ _ _ _ H Hn), app_nil_r. }
  split; [| by destruct o | rewrite El; by eexists]. unfold conserved. rewrite (rd_jobs _ _ _ _ _ _ _ H).
  intros Ha. replace (accepted (settle n p o (log_lost (set_pool w tp) js))) with (accepted w) by (by destruct o). rewrite Ha.
  destruct o; cbn; solve_Permutation.
Qed.

Lemma shutdown_accounted c rc w w' : enter c (Ok (ThreadPoolShutdown rc w)) = Ok w' -> accounted w w'.
Proof.
  intros H. unfold ThreadPoolShutdown in H. eapply accounted_trans; [| apply adds_accounted; eapply enter_adds; [apply finish_adds | exact H]].
  split; [| done | done]. unfold conserved. cbn. intros ->. unfold held_jobs. cbn. solve_Permutation.
Qed.

Lemma step_accounted a w w' : act a w = Some (Ok w') -> accounted w w' /\ (has_nodes a -> lost w' = lost w).
Proof.
  intros H. assert (G : keeps a w -> (forall n nodes now, a <> ATop n nodes now) -> (forall n t nodes now, a <> AWake n t nodes now) ->
    accounted w w' /\ (has_nodes a -> lost w' = lost w)).
  { intros Hk Ht Hw. pose proof (call_adds a w w' H Hk Ht Hw) as Ha. split; [by apply adds_accounted | intros _; apply Ha]. }
  assert (Hl : forall c rc w0, enter c (Ok (ThreadPoolShutdown rc w0)) = Ok w' -> lost w' = lost w0).
  { intros c rc w0 E. unfold ThreadPoolShutdown, finish_shutdown in E. destruct (_ <? _); by injection E as <-. }
  destruct a as [c e job | c e job | id | c e a | c | c e | n | n nodes now | n t nodes now | n]; try (by apply G).
  - cbn [act] in H. injection H as H%locked_Ok. injection H as <-. unfold ThreadPoolRemove.
    destruct (find_job id (pool w)) as [[j tp] |] eqn:E; [| by split; [apply adds_accounted, adds_refl |]].
    destruct (find_job_ok id _ j tp E) as (_ & _ & P & _). split; [| done]. split; [| done | done]. unfold conserved. cbn. rewrite P. intros ->. solve_Permutation.
  - cbn [act] in H. case_decide; [| done]. injection H as H%locked_Ok. split; [by eapply shutdown_accounted | intros _; by eapply Hl].
  - destruct (callers w !! c) as [[f | f | | rc | rc | rc id] |] eqn:Ec; try (by apply G; [intros rc'; rewrite Ec | |]).
    cbn [act] in H. rewrite Ec in H. case_match; [done |]. injection H as H%locked_Ok.
    split; [eapply accounted_trans; [apply adds_accounted, (hide_adds w c) | by eapply shutdown_accounted] | intros _; by apply Hl in H].
  - cbn [act] in H. destruct (workers w !! n) as [[] |]; try done. injection H as H%locked_Ok. apply go_on_accounted in H as [H1 H2]. split; [| exact H2].
    eapply accounted_trans; [| exact H1]. apply adds_accounted. destruct (worker_top_same persistent job (pool w)) as (_ & E1 & E2 & E3 & E4).
    apply adds_same; try done. unfold held_jobs, queued. cbn [pool set_pool]. by rewrite E1, E2, E3, E4.
  - cbn [act] in H. destruct (workers w !! n) as [[] |]; try done. injection H as H%locked_Ok. by apply go_on_accounted in H.
Qed.

Lemma run_accounted acts w w' : run acts w = Some (Ok w') -> accounted w w'.
Proof.
  revert w; induction acts as [| a acts IH]; intros w; cbn [run]; [intros [= <-]; apply adds_accounted, adds_refl |].
  destruct (act a w) as [[w1 | |] |] eqn:E; try done. intros H. eapply accounted_trans; [by apply (step_accounted a) | by apply IH].
Qed.

(** C4.  The thread pool, in its calm interleavings: those of calls and workers in which a persistent job is added when
    the one before has been taken, the pool is shut down when every other call has returned and is not called again,
    new attributes fit what is running, and the identities do not leave the range of an [int] (without the first two,
    [thread_pool_races] shows what happens).  In each of them no use of the pool is undefined; the counts
    are the numbers of threads started, busy, running persistent jobs, running others, and idle; there
    are never more threads than [maxThreads] nor more queued jobs than [maxJobsTotal]; every accepted job
    is in exactly one place: queued, waiting as the persistent job, started, removed, dropped by the
    shutdown, or lost by the moving of starved jobs, which loses none when it gets its list nodes; and when the mutex is
    destroyed no thread is left and no accepted job is still queued. *)
Theorem thread_pool_safe (a : ThreadPoolAttr) (w : world) (Hr : reach (no_world a) w) :
  (forall b, calm b w -> act b w <> Some UB /\ act b w <> Some NoFuel) /\
  counted (threads (pool w)) (workers w) /\
  (maxThreads (attr (pool w)) = -1 \/ Z.of_nat (size (workers w)) <= Z.max 0 (maxThreads (attr (pool w)))) /\
  Z.of_nat (length (queued (pool w))) <= Z.max 0 (maxJobsTotal (attr (pool w))) /\
  accepted w ≡ₚ queued (pool w) ++ option_list (persistentJob (pool w)) ++ started w ++ removed w ++ dropped w ++ lost w /\
  (forall b w', act b w = Some (Ok w') -> has_nodes b -> lost w' = lost w) /\
  (destroyed w = true -> workers w = ∅ /\ accepted w ≡ₚ started w ++ removed w ++ dropped w ++ lost w).
Proof.
  pose proof (reach_pool_inv a w Hr) as Hi. split_and!.
  - intros b Hb. destruct (act b w) as [r |] eqn:E; [| done]. destruct (act_inv b w Hi Hb r E) as (w' & -> & _). done.
  - apply iv_counts, Hi.
  - pose proof (iv_bound w Hi) as Hb. pose proof (iv_counts w Hi CTotal) as Hc. cbn in Hc. rewrite sum_size, <- Hc. exact Hb.
  - apply iv_queue, Hi.
  - rewrite (iv_jobs w Hi). unfold held_jobs. by rewrite <- app_assoc.
  - intros b w' Ha. by apply step_accounted.
  - intros E. destruct (iv_gone w Hi E) as (Hs & Hw & _). split; [done |].
    rewrite (iv_jobs w Hi). by destruct (iv_down w Hi Hs) as (-> & _).
Qed.

(** ** What goes wrong without those conditions *)

Lemma create_worker_waits e rc jobs ths w k w1 : CreateWorker e (FAdd rc jobs ths) w = Ok (k, w1) ->
  accepted w1 = accepted w /\ (returned k \/ lastJobId (pool w1) = lastJobId (pool w)).
Proof.
  assert (R : forall w0, accepted w0 = accepted w -> return_id rc w0 = Ok (k, w1) ->
    accepted w1 = accepted w /\ (returned k \/ lastJobId (pool w1) = lastJobId (pool w))).
  { intros w0 E H. unfold return_id in H. destruct (int_op _); [| done..]. injection H as <- <-. split; [done | by left]. }
  unfold CreateWorker, create_thread. case_match; [intros [= <- <-]; auto |]. case_match; [by apply R |].
  destruct (create e); [intros [= <- <-]; auto | by apply R].
Qed.

Lemma add_worker_waits e rc jobs ths w k w1 : AddWorker e rc jobs ths w = Ok (k, w1) ->
  accepted w1 = accepted w /\ (returned k \/ lastJobId (pool w1) = lastJobId (pool w)).
Proof.
  unfold AddWorker. case_match; [apply create_worker_waits |].
  unfold return_id. destruct (int_op _); [| done..]. intros [= <- <-]. split; [done | by left].
Qed.

(** A call that queues a job gives it the next identity, which stays the next one if the call goes on to wait. *)
Lemma add_queues c e job w w1 : act (AAdd c e job) w = Some (Ok w1) -> job_ok e = true -> node_ok e = true ->
  Z.of_nat (length (queued (pool w))) < maxJobsTotal (attr (pool w)) ->
  exists j k, accepted w1 = accepted w ++ [j] /\ func j = func job /\ jobId j = lastJobId (pool w) /\
    callers w1 !! c = Some k /\ (returned k \/ lastJobId (pool w1) = lastJobId (pool w)).
Proof.
  intros H Hj Hn Hq. cbn [act] in H. case_decide; [| done]. case_match; [| done]. injection H as H%locked_Ok.
  unfold ThreadPoolAdd, CreateThreadPoolJob in H. rewrite (proj2 (Z.leb_gt _ _) Hq), Hj, Hn in H.
  unfold enter in H. destruct (AddWorker _ _ _ _ _) as [[k w2] | |] eqn:E; [| done..]. injection H as <-.
  destruct (add_worker_waits _ _ _ _ _ _ _ E) as [E1 E2]. eexists _, k. cbn. split_and!; [exact E1 | done | done | by apply lookup_insert_eq |].
  destruct E2 as [? | ->]; [by left | right]. unfold enqueue. by repeat case_match.
Qed.

(** The call places its persistent job without a new thread: there are as many threads as there may be, or the one it needs
    cannot be created. *)
Definition places_at_once (e : env) w : Prop :=
  job_ok e = true /\ create e = None /\
  ((maxThreads (attr (pool w)) <= total (pool w) /\ total (pool w) - persistentThreads (threads (pool w)) <> 1) \/
   (total (pool w) < maxThreads (attr (pool w)) /\ pendingWorkerThreadStart (pool w) = false)).

Lemma place_overwrites e job w : job_ok e = true -> exists w1 j, place_persistent e job w = Ok (Taking, w1) /\
  callers w1 = callers w /\ started w1 = started w /\ overwritten w1 = overwritten w ++ option_list (persistentJob (pool w)) /\
  destroyed w1 = destroyed w /\ persistentJob (pool w1) = Some j /\ func j = func job.
Proof. intros H. unfold place_persistent, CreateThreadPoolJob. rewrite H. eexists _, _. split; [reflexivity |]. by split_and!. Qed.

Lemma places c e job w : callers w !! c = None -> destroyed w = false -> places_at_once e w ->
  exists w1 j, act (AAddPersistent c e job) w = Some (Ok w1) /\ callers w1 = <[c := Taking]> (callers w) /\ started w1 = started w /\
    overwritten w1 = overwritten w ++ option_list (persistentJob (pool w)) /\ destroyed w1 = false /\
    persistentJob (pool w1) = Some j /\ func j = func job.
Proof.
  intros Hc Hd (Hj & He & Hp). cbn [act]. rewrite decide_True by done. unfold env_ok. rewrite He. unfold locked. rewrite Hd.
  assert (P : exists w0, callers w0 = callers w /\ started w0 = started w /\ overwritten w0 = overwritten w /\ destroyed w0 = false /\
    persistentJob (pool w0) = persistentJob (pool w) /\ ThreadPoolAddPersistent e job w = place_persistent e job w0).
  { unfold ThreadPoolAddPersistent. destruct Hp as [[H1 H2] | [H1 H2]].
    - exists w. split_and!; try done. rewrite (proj2 (Z.ltb_ge _ _) H1). by rewrite (proj2 (Z.eqb_neq _ 0)) by lia.
    - rewrite (proj2 (Z.ltb_lt _ _) H1). unfold CreateWorker, create_thread. rewrite H2, He.
      rewrite (proj2 (Z.ltb_ge (maxThreads (attr (pool w))) (total (pool w) + 1)) ltac:(lia)), andb_false_r. cbn [failed].
      exists (set_pool w (note_most (pool w))). split_and!; try done. cbn. unfold note_most. by destruct (_ <? _). }
  destruct P as (w0 & E1 & E2 & E3 & E4 & E5 & ->). destruct (place_overwrites e job w0 Hj) as (w1 & j & -> & F1 & F2 & F3 & F4 & F5 & F6).
  unfold enter. cbn [mbind res_bind]. exists (set_caller w1 c Taking), j. cbn. rewrite F1, F2, F3, F4, F5, E1, E2, E3, E4, E5. by split_and!.
Qed.

(** C6.  Three races of the calls, each from every state of any interleaving in which it can happen, whatever follows.  A persistent
    job is added while one waits to be taken: the new one replaces it.  The job replaced is in no other place, and never
    will be, so that it does not run (what each step does to the jobs, [conserved], holds in every interleaving), though the
    call that added it returns 0 as soon as no persistent job waits.  A job is queued while another call that has queued one
    waits for a new thread: both jobs get the same identity.  The pool is shut down while a thread has been created and none
    has started: the mutex is destroyed at once, and the thread uses it. *)
Theorem thread_pool_races (a : ThreadPoolAttr) (past : list action) (w : world)
    (Hpast : run past (no_world a) = Some (Ok w)) (Hu : destroyed w = false) :
  (forall c e job j0, callers w !! c = None -> places_at_once e w -> persistentJob (pool w) = Some j0 ->
     exists w1 j, act (AAddPersistent c e job) w = Some (Ok w1) /\ callers w1 = <[c := Taking]> (callers w) /\ started w1 = started w /\
       persistentJob (pool w1) = Some j /\ func j = func job /\
       forall acts w2, run acts w1 = Some (Ok w2) -> overwritten w ++ [j0] `prefix_of` overwritten w2 /\
         accepted w2 ≡ₚ held_jobs (pool w2) ++ started w2 ++ removed w2 ++ dropped w2 ++ lost w2 ++ overwritten w2) /\
  (forall c e, callers w !! c = Some Taking -> persistentJob (pool w) = None -> env_ok e w = true -> lastJobId (pool w) < INT_MAX ->
     INT_MIN < lastJobId (pool w) ->
     exists w1, act (AResume c e) w = Some (Ok w1) /\ callers w1 !! c = Some (Returned 0 (Some (lastJobId (pool w))))) /\
  (forall c1 c2 e1 e2 job1 job2 w1 w2 k, act (AAdd c1 e1 job1) w = Some (Ok w1) -> act (AAdd c2 e2 job2) w1 = Some (Ok w2) ->
     job_ok e1 = true -> node_ok e1 = true -> job_ok e2 = true -> node_ok e2 = true ->
     Z.of_nat (length (queued (pool w))) < maxJobsTotal (attr (pool w)) ->
     Z.of_nat (length (queued (pool w1))) < maxJobsTotal (attr (pool w1)) ->
     callers w1 !! c1 = Some k -> ~ returned k ->
     exists j1 j2, accepted w2 = accepted w ++ [j1; j2] /\ func j1 = func job1 /\ func j2 = func job2 /\ jobId j1 = jobId j2) /\
  (forall c n, callers w !! c = None -> workers w !! n = Some Created -> total (pool w) <= 0 -> run [AShutdown c; AStart n] w = Some UB).
Proof.
  assert (Hcons : conserved w) by (apply (ac_conserved _ _ (run_accounted past (no_world a) w Hpast)); vm_compute; constructor). split_and!.
  - intros c e job j0 Hc Hp Hj. destruct (places c e job w Hc Hu Hp) as (w1 & j & Ha & H1 & H2 & H3 & H4 & H5 & H6).
    exists w1, j. split_and!; try done. intros acts w2 Hr. destruct (run_accounted acts w1 w2 Hr) as [G1 G2 _].
    rewrite H3, Hj in G2. split; [exact G2 |]. apply G1. by apply (step_accounted _ w w1 Ha).
  - intros c e Hc Hp He H1 H2. cbn [act]. rewrite He, Hc, Hp. cbn [negb]. unfold locked, return_id. rewrite Hu.
    change (pool (hide w c)) with (pool w). rewrite int_op_in by (unfold INT_MIN in *; lia). cbn. eexists. split; [done |]. cbn. apply lookup_insert_eq.
  - intros c1 c2 e1 e2 job1 job2 w1 w2 k H1 H2 A1 A2 B1 B2 Q1 Q2 Hk Hr.
    destruct (add_queues _ _ _ _ _ H1 A1 A2 Q1) as (j1 & k' & E1 & E2 & E3 & E4 & E5). rewrite Hk in E4. injection E4 as <-.
    destruct E5 as [? | E5]; [done |]. destruct (add_queues _ _ _ _ _ H2 B1 B2 Q2) as (j2 & _ & F1 & F2 & F3 & _).
    exists j1, j2. rewrite F1, E1, <- app_assoc. split_and!; try done. congruence.
  - intros c n Hc Hn Ht. cbn [run act]. rewrite decide_True by done. unfold locked. rewrite Hu. unfold ThreadPoolShutdown, finish_shutdown. cbn.
    rewrite (proj2 (Z.ltb_ge 0 _)) by exact Ht. cbn. by rewrite Hn.
Qed.

(** A job of a caller, and what the system gives: memory, and a new thread. *)
Definition sample_job (f : Z) : ThreadPoolJob := MkJob f 0 None None (MkTime 0 0) MED_PRIORITY 0.
Definition gives (n : nat) : env := MkEnv true true (MkTime 0 0) (Some n).
Definition no_thread : env := MkEnv true true (MkTime 0 0) None.

Definition after (acts : list action) (a : ThreadPoolAttr) : world :=
  match run acts (no_world a) with Some (Ok w) => w | _ => no_world a end.

Lemma thread_pool_races_witness :
  (exists w1, act (AAddPersistent 2 no_thread (sample_job 6)) (after [AAddPersistent 1 no_thread (sample_job 5)] tp_init_attr) = Some (Ok w1) /\
     callers w1 !! 1%nat = Some Taking /\ callers w1 !! 2%nat = Some Taking /\
     forall acts w2, run acts w1 = Some (Ok w2) -> [MkJob 5 0 None None (MkTime 0 0) MED_PRIORITY 0] `prefix_of` overwritten w2) /\
  run [AShutdown 2; AStart 1] (after [AAdd 1 (gives 1) (sample_job 5)] tp_init_attr) = Some UB.
Proof.
  split.
  - destruct (proj1 (thread_pool_races tp_init_attr [AAddPersistent 1 no_thread (sample_job 5)] (after [AAddPersistent 1 no_thread (sample_job 5)] tp_init_attr)
      ltac:(vm_compute; reflexivity) ltac:(reflexivity)) 2%nat no_thread (sample_job 6) (MkJob 5 0 None None (MkTime 0 0) MED_PRIORITY 0))
      as (w1 & j & H1 & H2 & _ & _ & _ & H3).
    + vm_compute. reflexivity.
    + split; [reflexivity | split; [reflexivity | right; split; [apply Z.ltb_lt; vm_compute; reflexivity | reflexivity]]].
    + vm_compute. reflexivity.
    + exists w1. split; [exact H1 |]. rewrite H2. split; [vm_compute; reflexivity |]. split; [apply lookup_insert_eq |].
      intros acts w2 Hr. exact (proj1 (H3 acts w2 Hr)).
  - refine (proj2 (proj2 (proj2 (thread_pool_races tp_init_attr [AAdd 1 (gives 1) (sample_job 5)] (after [AAdd 1 (gives 1) (sample_job 5)] tp_init_attr)
      ltac:(vm_compute; reflexivity) ltac:(reflexivity)))) 2%nat 1%nat _ _ _); [reflexivity | reflexivity | apply Z.leb_le; reflexivity].
Defined.

(** ** Jobs are served *)

(** The action makes a worker take a job from the queues. *)
Definition takes (r : res (outcome * list ThreadPoolJob * ThreadPool)) : nat := match r with Ok (Run 0 _, _, _) => 1 | _ => 0 end.

Definition taken (a : action) w : nat :=
  match a with
  | ATop n nodes now => match workers w !! n with Some (Top p job) => takes (worker_loop false nodes now (worker_top p job (pool w))) | _ => 0 end
  | AWake n timedout nodes now => match workers w !! n with Some (Waiting _) => takes (worker_loop timedout nodes now (pool w)) | _ => 0 end
  | _ => 0
  end.

Fixpoint run_taken (acts : list action) w : nat :=
  match acts with
  | [] => 0
  | a :: acts => (taken a w + match act a w with Some (Ok w) => run_taken acts w | _ => 0 end)%nat
  end.

Fixpoint all_keep (acts : list action) w : Prop :=
  match acts with
  | [] => True
  | a :: acts => keeps a w /\ match act a w with Some (Ok w) => all_keep acts w | _ => True end
  end.

(** A round of a worker: the first job of the high queue is taken, or the queue keeps its jobs in order. *)
Lemma loop_serves timedout nodes now tp o js tp' pre j post : worker_loop timedout nodes now tp = Ok (o, js, tp') ->
  highJobQ tp = pre ++ j :: post ->
  (takes (Ok (o, js, tp')) = 1%nat /\ pre = [] /\ o = Run 0 j) \/
  exists pre' post', highJobQ tp' = pre' ++ j :: post' /\ (length pre' + takes (Ok (o, js, tp')) <= length pre)%nat.
Proof.
  intros H Hq. unfold worker_loop in H.
  assert (En : no_job tp = false).
  { unfold no_job. rewrite Hq. destruct (lowJobQ tp), (medJobQ tp); try done. by destruct pre. }
  rewrite En in H. cbn [andb] in H. destruct (bump_ok nodes now (tally tp 0 0 0 0 (-1))) as (ks & tp1 & E1 & _ & _ & _ & _ & _ & [k Hh] & _).
  rewrite E1 in H. cbn [mbind res_bind] in H. cbn in Hh. rewrite Hq, <- app_assoc in Hh. cbn in Hh.
  destruct (shutdown tp1); [injection H as <- <- <-; right; exists pre, (post ++ k); split; [done | cbn; lia] |].
  destruct (persistentJob tp1) as [pj |]; [injection H as <- <- <-; right; exists pre, (post ++ k); split; [done | cbn; lia] |].
  unfold pick in H. rewrite Hh in H. destruct pre as [| x pre]; cbn in H; injection H as <- <- <-; [by left |].
  right. exists pre, (post ++ k). split; [done |]. cbn. lia.
Qed.

Lemma settle_fields n p o w tp js : pool (settle n p o (log_lost (set_pool w tp) js)) = tp /\
 started (settle n p o (log_lost (set_pool w tp) js)) = started w ++ (match o with Run _ j => [j] | _ => [] end).
Proof. destruct o; cbn; rewrite ?app_nil_r; done. Qed.

Lemma step_serves a w w' pre j post : act a w = Some (Ok w') -> keeps a w -> highJobQ (pool w) = pre ++ j :: post ->
  exists l, started w' = started w ++ l /\
   (j ∈ l \/ exists pre' post', highJobQ (pool w') = pre' ++ j :: post' /\ (length pre' + taken a w <= length pre)%nat).
Proof.
  intros H Hk Hq.
  assert (G : forall n p timedout nodes now tp w0, pool w0 = tp -> started w0 = started w -> highJobQ tp = pre ++ j :: post ->
    go_on n p timedout nodes now w0 = Ok w' -> exists l, started w' = started w ++ l /\
   (j ∈ l \/ exists pre' post', highJobQ (pool w') = pre' ++ j :: post' /\ (length pre' + takes (worker_loop timedout nodes now tp) <= length pre)%nat)).
  { intros n p timedout nodes now tp w0 Hp Hs Hq' E. unfold go_on in E. rewrite Hp in E.
    destruct (worker_loop timedout nodes now tp) as [[[o js] tp'] | |] eqn:El; [| done..]. injection E as <-.
    destruct (settle_fields n p o w0 tp' js) as [P1 P2]. rewrite P2, Hs. eexists. split; [done |].
    destruct (loop_serves timedout nodes now tp o js tp' pre j post El Hq') as [(_ & _ & ->) | (pre' & post' & E1 & E2)].
    - left. set_solver.
    - right. exists pre', post'. by rewrite P1. }
  destruct a as [c e job | c e job | id | c e a | c | c e | n | n nodes now | n t nodes now | n];
    try (destruct (call_adds _ w w' H Hk) as [Es [l Eh] _ _ _]; [done | done |]; exists []; rewrite app_nil_r; split; [done |];
         right; exists pre, (post ++ l); rewrite Eh, Hq, <- app_assoc; split; [done | cbn; lia]).
  - cbn [act taken] in *. destruct (workers w !! n) as [[] |]; try done. injection H as H%locked_Ok.
    eapply (G n); [| | | exact H]; [done | done |]. destruct (worker_top_same persistent job (pool w)) as (_ & -> & _). done.
  - cbn [act taken] in *. destruct (workers w !! n) as [[] |]; try done. injection H as H%locked_Ok.
    by eapply (G n); [| | | exact H].
Qed.

Lemma step_grows a w w' : act a w = Some (Ok w') -> keeps a w -> started w `prefix_of` started w'.
Proof.
  intros H Hk.
  assert (G : forall n p timedout nodes now w0, started w0 = started w -> go_on n p timedout nodes now w0 = Ok w' -> started w `prefix_of` started w').
  { intros n p timedout nodes now w0 Hs E. unfold go_on in E. destruct (worker_loop timedout nodes now (pool w0)) as [[[o js] tp'] | |]; [| done..].
    injection E as <-. destruct (settle_fields n p o w0 tp' js) as [_ ->]. rewrite Hs. by eexists. }
  destruct a as [c e job | c e job | id | c e a | c | c e | n | n nodes now | n t nodes now | n];
    try (by destruct (call_adds _ w w' H Hk) as [-> _ _ _ _]); cbn [act] in H.
  - destruct (workers w !! n) as [[] |]; try done. injection H as H%locked_Ok. by eapply G in H.
  - destruct (workers w !! n) as [[] |]; try done. injection H as H%locked_Ok. by eapply G in H.
Qed.

Lemma run_grows acts w w' : run acts w = Some (Ok w') -> all_keep acts w -> started w `prefix_of` started w'.
Proof.
  revert w; induction acts as [| a acts IH]; intros w; cbn [run all_keep]; [by intros [= <-] |].
  destruct (act a w) as [[w1 | |] |] eqn:E; try done. intros Hrun [Hk Hks].
  etrans; [by eapply step_grows | by apply IH].
Qed.

(** C5.  Jobs are served.  In every run that neither removes jobs nor shuts the pool down, a job of the high
    queue is started once the workers have taken more jobs from the queues than it had in front of it:
    no later job overtakes it.  A worker that comes to its loop while a job is there and the pool is up
    takes one, it neither waits nor ends; for this, moving starved jobs must get its list nodes, or there must be a job that
    need not move.  And a job of the other queues gets there: once all of them have
    waited for the starvation and the idle time, the next worker that gets list nodes moves them up and loses none. *)
Theorem pool_serves (acts : list action) (w w' : world) (pre post : list ThreadPoolJob) (j : ThreadPoolJob)
    (Hrun : run acts w = Some (Ok w')) (Hkeep : all_keep acts w) (Hq : highJobQ (pool w) = pre ++ j :: post)
    (Htaken : (length pre < run_taken acts w)%nat) :
  (exists l, started w' = started w ++ l /\ j ∈ l) /\
 (forall timedout nodes now tp, shutdown tp = false -> no_job tp = false ->
     (forall i, nodes i = true) \/ highJobQ tp <> [] \/ persistentJob tp <> None ->
     exists p k js tp', worker_loop timedout nodes now tp = Ok (Run p k, js, tp') /\ ((forall i, nodes i = true) -> js = [])) /\
 (forall nodes now tp, (forall i, nodes i = true) ->
     (forall k, k ∈ medJobQ tp ++ lowJobQ tp ->
        starvationTime (attr tp) <= DiffMillis now (requestTime k) /\ maxIdleTime (attr tp) <= DiffMillis now (requestTime k)) ->
     exists tp', BumpPriority nodes now tp = Ok ([], tp') /\ highJobQ tp' ≡ₚ queued tp /\ medJobQ tp' = [] /\ lowJobQ tp' = []).
Proof.
  split_and!.
  - revert w pre post Hrun Hkeep Hq Htaken. induction acts as [| a acts IH]; intros w pre post; cbn [run all_keep run_taken]; [lia |].
    destruct (act a w) as [[w1 | |] |] eqn:E; try done. intros Hrun [Hk Hks] Hq Ht.
    destruct (step_serves a w w1 pre j post E Hk Hq) as (l & Hl & [Hj | (pre' & post' & Hq' & Hlen)]).
    + destruct (run_grows acts w1 w' Hrun Hks) as [l' ->]. exists (l ++ l'). rewrite Hl, app_assoc. set_solver.
    + destruct (IH w1 pre' post' Hrun Hks Hq' ltac:(lia)) as (l' & -> & Hj). exists (l ++ l'). rewrite Hl, app_assoc. set_solver.
  - intros timedout nodes now tp Hs Hn Hd. destruct (worker_loop_ok timedout nodes now tp 0) as (o & js & tp' & E & H).
    destruct (rd_serves _ _ _ _ _ _ _ H Hs Hn) as (p & k & ->); [| exists p, k, js, tp'; split; [exact E | apply H]].
    destruct Hd as [Hd | Hd]; [left; by apply H | by right].
  - intros nodes now tp Hnodes Hold. destruct (bump_ok nodes now tp) as (js & tp' & E & [= F _ _ _] & _ & _ & Q & [S1 S2] & _ & Kept & Hb).
    rewrite (Kept Hnodes) in E, Q. rewrite app_nil_r in Q. exists tp'.
    assert (M : medJobQ tp' = []).
    { destruct (medJobQ tp') as [| k med]; [done |]. specialize (S1 k eq_refl). destruct (Hold k (Hb k ltac:(set_solver))).
      rewrite F in S1. lia. }
    assert (L : lowJobQ tp' = []).
    { destruct (lowJobQ tp') as [| k low]; [done |]. specialize (S2 k eq_refl). destruct (Hold k (Hb k ltac:(set_solver))).
      rewrite F in S2. lia. }
    split_and!; try done. unfold queued in Q at 2. by rewrite M, L, app_nil_r in Q.
Qed.

(** A job of high priority is added to the pool of [tp_init] and two threads are started for it. *)
Definition sample_high (f : Z) : ThreadPoolJob := MkJob f 0 None None (MkTime 0 0) HIGH_PRIORITY 0.
Definition sample_acts : list action :=
  [AAdd 1 (gives 1) (sample_high 7); AStart 1; AResume 1 (gives 2); AStart 2; AResume 1 (gives 3)].
Definition sample_pool : world := after sample_acts tp_init_attr.

Fixpoint all_calm (acts : list action) w : Prop :=
  match acts with
  | [] => True
  | a :: acts => calm a w /\ match act a w with Some (Ok w) => all_calm acts w | _ => True end
  end.

Lemma run_reach_pool acts w0 w w' : reach w0 w -> all_calm acts w -> run acts w = Some (Ok w') -> reach w0 w'.
Proof.
  revert w; induction acts as [| a acts IH]; intros w Hr; cbn [run all_calm]; [by intros _ [= <-] |].
  destruct (act a w) as [[w1 | |] |] eqn:E; try done. intros [Hc Hcs]. apply IH; [by eapply reach_step | done].
Qed.

Lemma sample_reach : reach (no_world tp_init_attr) sample_pool.
Proof.
  apply (run_reach_pool sample_acts _ (no_world tp_init_attr)); [apply reach_start | | vm_compute; reflexivity].
  vm_compute. repeat split; intros; by simplify_eq.
Qed.

Lemma thread_pool_safe_witness :
  Z.of_nat (length (queued (pool sample_pool))) <= 6000 /\ (destroyed sample_pool = true -> workers sample_pool = ∅).
Proof.
  destruct (thread_pool_safe tp_init_attr sample_pool sample_reach) as (_ & _ & _ & H1 & _ & _ & H2).
  split; [exact H1 | intros E; exact (proj1 (H2 E))].
Defined.

Definition sample_next : world :=
  match run [ATop 1 (fun _ => true) (MkTime 0 0)] sample_pool with Some (Ok w) => w | _ => sample_pool end.

Lemma pool_serves_witness :
  run [ATop 1 (fun _ => true) (MkTime 0 0)] sample_pool = Some (Ok sample_next) /\
  exists l, started sample_next = started sample_pool ++ l /\ sample_high 7 ∈ l.
Proof.
  assert (E : run [ATop 1 (fun _ => true) (MkTime 0 0)] sample_pool = Some (Ok sample_next)) by (vm_compute; reflexivity).
  split; [exact E |].
  exact (proj1 (pool_serves [ATop 1 (fun _ => true) (MkTime 0 0)] sample_pool sample_next [] [] (sample_high 7) E
    ltac:(vm_compute; split; exact I) ltac:(vm_compute; reflexivity) ltac:(apply Nat.ltb_lt; vm_compute; reflexivity))).
Defined.
