(* ===== verification/IniFile.v ===== *)
(** * Configuration files

    Reading and writing files in [common/utils/iniparser.c]: [iniparser_line] over a model of the [sscanf]
    formats it uses, [iniparser_load] over the bytes of the file, and the functions that print a dictionary
    as a file or list a section's keys.  Strings are without their zero. *)

From S2P Require Import Prelude Dictionary Ini.

(** ** [sscanf]

    The directives of the formats: blanks, a character, [%[...]] as the set it accepts.  The result is the
    list of the strings assigned. *)
Inductive directive : Type := Space | Lit (c : Z) | Scan (p : Z -> bool).

Fixpoint span (p : Z -> bool) (s : cstr) : cstr * cstr :=
  match s with
  | c :: s' => if p c then let '(a, b) := span p s' in (c :: a, b) else ([], s)
  | [] => ([], [])
  end.

Fixpoint sscanf (fmt : list directive) (s : cstr) : list cstr :=
  match fmt with
  | [] => []
  | Space :: fmt => sscanf fmt (drop_space s)
  | Lit c :: fmt => match s with x :: s => if x =? c then sscanf fmt s else [] | [] => [] end
  | Scan p :: fmt => let '(a, b) := span p s in match a with [] => [] | _ => a :: sscanf fmt b end
  end.

Definition but (c x : Z) : bool := negb (x =? c).

(** [%[^]]], then [%[^=] = ...] with the value in double quotes, in single quotes, and without; the last two
    are for empty values. *)
Definition fmt_section : list directive := [Lit 91; Scan (but 93)].
Definition fmt_key : list directive := [Scan (but 61); Space; Lit 61; Space].
Definition fmt_dquote : list directive := fmt_key ++ [Lit 34; Scan (but 34); Lit 34].
Definition fmt_squote : list directive := fmt_key ++ [Lit 39; Scan (but 39); Lit 39].
Definition fmt_plain : list directive := fmt_key ++ [Scan (fun x => negb ((x =? 59) || (x =? 35)))].
Definition fmt_comment : list directive := fmt_key ++ [Scan (fun x => (x =? 59) || (x =? 35))].
Definition fmt_equals : list directive := [Scan (but 61); Space; Scan (fun x => x =? 61)].

(** ** A line *)

Inductive line_status : Type :=
| LINE_UNPROCESSED | LINE_ERROR | LINE_EMPTY | LINE_COMMENT | LINE_SECTION | LINE_VALUE.

(** [sscanf(line, fmt, key, value) == 2], and the buffers [key] and [value] after it. *)
Definition scan_pair (fmt : list directive) (line : cstr) (kv : cstr * cstr) : bool * (cstr * cstr) :=
  match sscanf fmt line with
  | [] => (false, kv)
  | [k] => (false, (k, kv.2))
  | k :: v :: _ => (true, (k, v))
  end.

(** The first format of the list that assigns both. *)
Fixpoint scan_any (fmts : list (list directive)) (line : cstr) (kv : cstr * cstr) : bool * (cstr * cstr) :=
  match fmts with
  | [] => (false, kv)
  | fmt :: fmts => let '(b, kv) := scan_pair fmt line kv in if b then (true, kv) else scan_any fmts line kv
  end.

Definition stripped (s : cstr) : cstr := default [] (strstrip (Some s)).2.
Definition lowered (s : cstr) (len : Z) : cstr := default s (strlwc (Some s) len).

(** [ok]: whether the copy of the line is made.  The buffers [section], [key] and [value] are the caller's. *)
Definition iniparser_line (ok : bool) (input_line section key value : cstr) : line_status * (cstr * cstr * cstr) :=
  let '(len, line) := strstrip (xstrdup ok (Some input_line)) in
  let line := default [] line in
  let same := (section, key, value) in
  if len <? 1 then (LINE_EMPTY, same)
  else if (nth 0 line 0 =? 35) || (nth 0 line 0 =? 59) then (LINE_COMMENT, same)
  else if (nth 0 line 0 =? 91) && (List.last line 0 =? 93) then
    let section := match sscanf fmt_section line with s :: _ => s | [] => section end in
    (LINE_SECTION, (lowered (stripped section) len, key, value))
  else
    let '(b, (key, value)) := scan_any [fmt_dquote; fmt_squote] line (key, value) in
    if b then (LINE_VALUE, (section, lowered (stripped key) len, value)) else
    let '(b, (key, value)) := scan_pair fmt_plain line (key, value) in
    if b then
      let value := stripped value in
      (LINE_VALUE, (section, lowered (stripped key) len, if decide (value = [34; 34] \/ value = [39; 39]) then [] else value))
    else
    let '(b, (key, value)) := scan_any [fmt_comment; fmt_equals] line (key, value) in
    if b then (LINE_VALUE, (section, lowered (stripped key) len, []))
    else (LINE_ERROR, (section, key, value)).

(** ** A file *)

(** What [fgets] reads: at most [k] bytes, up to a newline; and whether it met the end of the file. *)
Fixpoint read_line (k : nat) (file : list Z) : list Z * list Z * bool :=
  match k, file with
  | O, _ => ([], file, false)
  | _, [] => ([], [], true)
  | S k, c :: file => if c =? 10 then ([10], file, false) else let '(l, r, e) := read_line k file in (c :: l, r, e)
  end.

Definition fgets (size : Z) (file : list Z) : option (list Z) * list Z * bool :=
  let '(l, r, e) := read_line (Z.to_nat (size - 1)) file in
  match l with [] => (None, r, e) | _ => (Some l, r, e) end.

(** The variables of [iniparser_load]: the line buffer up to its zero, [last], the other buffers, [errs] and
    the dictionary. *)
Record loader := MkLoader {
  line : cstr; last : nat; section : cstr; lkey : cstr; lval : cstr; errs : Z; dict : option dictionary
}.

(** What the allocations of a line's round give: the copy of the line, and those of [dictionary_set]. *)
Record allocs := MkAllocs { dup_ok : bool; grow_ok : bool; key_ok : bool; val_ok : bool }.

(** The [switch]: the buffers, the dictionary and [mem_err]. *)
Definition process (a : allocs) (l : loader) (ln : cstr) (mem_err : Z) : res (loader * Z) :=
  let '(sta, (s, k, v)) := iniparser_line (dup_ok a) ln (section l) (lkey l) (lval l) in
  let done d := MkLoader [] 0 s k v (errs l) d in
  match sta with
  | LINE_SECTION => '(rc, d) ← dictionary_set (grow_ok a) (key_ok a) (val_ok a) (dict l) (Some s) None; Ok (done d, rc)
  | LINE_VALUE =>
      '(rc, d) ← dictionary_set (grow_ok a) (key_ok a) (val_ok a) (dict l) (Some (s ++ 58 :: k)) (Some v); Ok (done d, rc)
  | LINE_ERROR => Ok (MkLoader [] 0 s k v (errs l + 1) (dict l), mem_err)
  | _ => Ok (done (dict l), mem_err)
  end.

(** The line without the blanks at its end. *)
Definition trim_end (s : cstr) : cstr := rev (drop_space (rev s)).

(** The end: the dictionary is deleted when a line was wrong. *)
Definition finish (l : loader) : res (option dictionary) :=
  if errs l =? 0 then Ok (dict l) else _ ← dictionary_del (dict l); Ok None.

Fixpoint load_loop (fuel : nat) (alloc : nat -> allocs) (lineno : nat) (file : list Z) (l : loader) (mem_err : Z) :
    res (option dictionary) :=
  match fuel with
  | O => NoFuel
  | S fuel =>
      match fgets (ASCIILINESZ - Z.of_nat (last l)) file with
      | (None, _, _) => finish l
      | (Some chunk, file, eof) =>
          let ln := upto_nul (take (last l) (line l) ++ chunk) in
          if (length ln <=? 1)%nat
          then load_loop fuel alloc (S lineno) file (MkLoader ln (last l) (section l) (lkey l) (lval l) (errs l) (dict l)) mem_err
          else if negb (List.last ln 0 =? 10) && negb eof then _ ← dictionary_del (dict l); Ok None
          else
            let ln := trim_end ln in
            if List.last ln 0 =? 92
            then load_loop fuel alloc (S lineno) file
                   (MkLoader ln (length ln - 1) (section l) (lkey l) (lval l) (errs l) (dict l)) mem_err
            else
              '(l, mem_err) ← process (alloc lineno) l ln mem_err;
              if mem_err <? 0 then finish l else load_loop fuel alloc (S lineno) file l mem_err
      end
  end.

(** [file]: the bytes, [None] when it cannot be opened.  A round reads at least a byte. *)
Definition iniparser_load (alloc : nat -> allocs) (new_ok : bool * bool * bool * bool) (file : option (list Z)) :
    res (option dictionary) :=
  match file with
  | None => Ok None
  | Some file =>
      let '(a, b, c, e) := new_ok in
      match dictionary_new a b c e 0 with
      | None => Ok None
      | Some d => load_loop (S (length file)) alloc 0 file (MkLoader [] 0 [] [] [] 0 (Some d)) 0
      end
  end.

Definition iniparser_freedict (d : option dictionary) : res () := dictionary_del d.

(** ** Printing *)

(** [%-30s] pads on the right; a NULL string is undefined. *)
Definition pad30 (s : cstr) : cstr := s ++ replicate (30 - length s) 32.

(** The entries with a prefix, in the order of the slots. *)
Definition with_prefix (p : cstr) (d : dictionary) : list (cstr * option cstr) :=
  omap (fun '(k, v) => k ← (k : option cstr); if decide (take (length p) k = p) then Some (k, v) else None) (zip (key d) (val d)).

Definition ini_entry (seclen : nat) (e : cstr * option cstr) : cstr :=
  pad30 (drop (S seclen) e.1) ++ chars " = " ++ default [] e.2 ++ [10].

(** [keym] has room for 1025 bytes. *)
Definition iniparser_dumpsection_ini (d : option dictionary) (s : cstr) (f : bool) : res cstr :=
  match d with
  | None => Ok []
  | Some d =>
      if negb f then Ok [] else
      found ← iniparser_find_entry (Some d) (Some s);
      if found =? 0 then Ok [] else
      _ ← assert_ok (Z.of_nat (length s) + 2 <=? ASCIILINESZ + 1);
      Ok ([10; 91] ++ s ++ [93; 10] ++ concat (map (ini_entry (length s)) (with_prefix (s ++ [58]) d)) ++ [10])
  end.

(** Without sections every entry is printed as it is; [%s] of a NULL value is undefined. *)
Definition dump_plain (d : dictionary) : res cstr :=
  ls ← mapM (fun '(k, v) => match (k : option cstr) with
                            | None => Ok []
                            | Some k => v ← of_option (v : option cstr); Ok (k ++ chars " = " ++ v ++ [10])
                            end) (zip (key d) (val d));
  Ok (concat ls).

Definition iniparser_dump_ini (d : option dictionary) (f : bool) : res cstr :=
  match d with
  | None => Ok []
  | Some d' =>
      if negb f then Ok [] else
      if iniparser_getnsec d <? 1 then dump_plain d' else
      ls ← mapM (fun i => match iniparser_getsecname d (Z.of_nat i) with Some s => iniparser_dumpsection_ini d s f | None => Ok [] end)
                (seq 0 (Z.to_nat (iniparser_getnsec d)));
      Ok (concat ls ++ [10])
  end.

(** [keym]: the name in lower case and a colon, 1025 bytes. *)
Definition section_prefix (s : cstr) : res cstr :=
  _ ← assert_ok (Z.of_nat (length s) <=? ASCIILINESZ);
  Ok (map tolower s ++ [58]).

Definition iniparser_getseckeys (d : option dictionary) (s : cstr) : res (option (list cstr)) :=
  match d with
  | None => Ok None
  | Some d =>
      found ← iniparser_find_entry (Some d) (Some s);
      if found =? 0 then Ok None else
      p ← section_prefix s; Ok (Some (map fst (with_prefix p d)))
  end.

Definition iniparser_getsecnkeys (d : option dictionary) (s : cstr) : res Z :=
  ks ← iniparser_getseckeys d s; Ok (match ks with Some ks => Z.of_nat (length ks) | None => 0 end).

(** ** Scanning *)

(** Lists equal up to the bracketing of [++]. *)
Ltac app_eq := repeat (progress (rewrite <- ?app_assoc; cbn [app])); done.

Lemma span_stop p a c b : Forall (fun x => p x = true) a -> p c = false -> span p (a ++ c :: b) = (a, c :: b).
Proof. intros Ha Hc. induction Ha as [| x a Hx _ IH]; cbn; [by rewrite Hc | by rewrite Hx, IH]. Qed.

Lemma span_all p a : Forall (fun x => p x = true) a -> span p a = (a, []).
Proof. induction 1 as [| x a Hx _ IH]; cbn; [done | by rewrite Hx, IH]. Qed.

(** Text without blanks at its ends. *)
Definition tight (s : cstr) : Prop := s <> [] /\ isspace (nth 0 s 0) = false /\ isspace (List.last s 0) = false.

Lemma drop_space_tight c s : isspace c = false -> drop_space (c :: s) = c :: s.
Proof. intros H. cbn. by rewrite H. Qed.

Lemma drop_space_run n s : drop_space (replicate n 32 ++ s) = drop_space s.
Proof. by induction n. Qed.

Lemma last_nth_rev (s : cstr) : s <> [] -> exists c t, s = t ++ [c] /\ List.last s 0 = c.
Proof. intros H. destruct (exists_last H) as (t & c & ->). exists c, t. by rewrite List.last_last. Qed.

Lemma trim_tight s n : tight s -> trim_end (s ++ replicate n 32) = s.
Proof.
  intros (Hs & _ & Hl). unfold trim_end. rewrite rev_app_distr.
  replace (rev (replicate n 32)) with (replicate n 32) by (rewrite rev_alt; symmetry; apply (reverse_replicate n 32)).
  rewrite drop_space_run. destruct (last_nth_rev s Hs) as (c & t & -> & E). rewrite E in Hl.
  rewrite rev_app_distr. cbn [rev app]. rewrite drop_space_tight by done. cbn [rev]. by rewrite rev_involutive.
Qed.

Lemma strstrip_tight s n : tight s -> strstrip (Some (s ++ replicate n 32)) = (Z.of_nat (length s), Some s).
Proof.
  intros H. pose proof (trim_tight s n H) as E. destruct H as (Hs & Hf & _). destruct s as [| c s]; [done |]. cbn in Hf.
  unfold strstrip. cbn [app]. rewrite drop_space_tight by done. unfold trim_end in E. cbn [app] in E. by rewrite E.
Qed.

Lemma strstrip_id s : tight s -> strstrip (Some s) = (Z.of_nat (length s), Some s).
Proof. intros H. pose proof (strstrip_tight s 0 H) as E. by rewrite app_nil_r in E. Qed.

Lemma stripped_tight s n : tight s -> stripped (s ++ replicate n 32) = s.
Proof. intros H. unfold stripped. by rewrite strstrip_tight. Qed.

Lemma lowered_id s len : map tolower s = s -> Z.of_nat (length s) < len -> lowered s len = s.
Proof.
  intros Hs Hl. unfold lowered, strlwc. rewrite (proj2 (Z.eqb_neq _ _)) by lia. cbn [default].
  rewrite take_ge by lia. done.
Qed.

(** ** The lines a printed dictionary has *)

Definition no_char (c : Z) (s : cstr) : Prop := Forall (fun x => but c x = true) s.

(** Names of sections and entries, and values, that a file can hold. *)
Record section_ok (s : cstr) : Prop := {
  so_tight : tight s; so_lower : map tolower s = s; so_bracket : no_char 93 s; so_colon : no_char 58 s;
  so_nul : no_char 0 s; so_line : no_char 10 s; so_len : (length s <= 1020)%nat
}.

Record name_ok (s : cstr) : Prop := {
  no_tight : tight s; no_lower : map tolower s = s; no_equals : no_char 61 s; no_nul : no_char 0 s; no_line : no_char 10 s;
  no_first : nth 0 s 0 <> 35 /\ nth 0 s 0 <> 59 /\ nth 0 s 0 <> 91
}.

Record value_ok (v : cstr) : Prop := {
  vo_tight : v = [] \/ tight v;
  vo_comment : Forall (fun x => negb ((x =? 59) || (x =? 35)) = true) v;
  vo_nul : no_char 0 v; vo_line : no_char 10 v;
  vo_first : nth 0 v 0 <> 34 /\ nth 0 v 0 <> 39; vo_last : List.last v 0 <> 92
}.

Lemma line_section s sec k v : section_ok s ->
  iniparser_line true ([91] ++ s ++ [93]) sec k v = (LINE_SECTION, (s, k, v)).
Proof.
  intros [Ht Hl Hb _ _ _ _]. unfold iniparser_line. cbn [xstrdup].
  assert (T : tight ([91] ++ s ++ [93])).
  { split_and!; [done | done |]. rewrite app_assoc, List.last_last. done. }
  rewrite (strstrip_id _ T). cbn [from_option id]. rewrite (proj2 (Z.ltb_ge _ _)) by (rewrite !length_app; cbn; lia).
  cbn [app nth Z.eqb orb Pos.eqb]. rewrite (app_comm_cons s [93] 91), List.last_last. cbn [Z.eqb Pos.eqb andb].
  unfold fmt_section. cbn [sscanf app Z.eqb Pos.eqb]. rewrite (span_stop (but 93) s 93 []) by done.
  destruct s as [| c s]; [by destruct Ht |].
  pose proof (stripped_tight (c :: s) 0 Ht) as E. rewrite app_nil_r in E. rewrite E.
  rewrite lowered_id; [done | done |]. cbn [length]. rewrite length_app. cbn. lia.
Qed.

Lemma trim_last x c t : isspace c = false -> Forall (fun y => isspace y = true) t -> trim_end (x ++ c :: t) = x ++ [c].
Proof.
  intros Hc Ht. unfold trim_end. rewrite rev_app_distr. cbn [rev]. rewrite <- app_assoc. cbn [app].
  assert (D : forall u r, Forall (fun y => isspace y = true) u -> drop_space (u ++ r) = drop_space r).
  { intros u r. induction 1 as [| y u Hy _ IH]; cbn; [done | by rewrite Hy]. }
  rewrite D by (by apply List.Forall_rev). rewrite drop_space_tight by done. cbn [rev]. by rewrite rev_involutive.
Qed.

(** An entry's line as it is printed, without the blanks at its end. *)
Definition value_part (v : cstr) : cstr := match v with [] => [] | _ => 32 :: v end.
Definition entry_line (name v : cstr) : cstr := pad30 name ++ [32; 61] ++ value_part v.

Lemma pad30_run name : pad30 name ++ [32] = name ++ replicate (S (30 - length name)) 32.
Proof. unfold pad30. rewrite <- app_assoc. f_equal. by rewrite <- replicate_cons_app. Qed.

Lemma trim_entry name v : value_ok v -> trim_end (pad30 name ++ chars " = " ++ v ++ [10]) = entry_line name v.
Proof.
  intros Hv. unfold entry_line. change (chars " = ") with [32; 61; 32]. destruct (vo_tight v Hv) as [-> | Ht]; cbn [value_part app].
  - change [32; 61; 32; 10] with ([32] ++ 61 :: [32; 10]). rewrite app_assoc, trim_last by (done || by_decide). app_eq.
  - destruct Ht as (Hne & _ & Hl). destruct (last_nth_rev v Hne) as (c & t & -> & E). rewrite E in Hl.
    replace (pad30 name ++ 32 :: 61 :: 32 :: (t ++ [c]) ++ [10]) with ((pad30 name ++ 32 :: 61 :: 32 :: t) ++ c :: [10])
      by app_eq.
    rewrite trim_last by (done || by_decide). destruct t; app_eq.
Qed.

Lemma entry_line_head name v : name_ok name -> nth 0 (entry_line name v) 0 = nth 0 name 0.
Proof. intros H. destruct (no_tight name H) as (Hn & _). unfold entry_line, pad30. by destruct name. Qed.

Lemma entry_line_tight name v : name_ok name -> value_ok v -> tight (entry_line name v).
Proof.
  intros Hn Hv. destruct (no_tight name Hn) as (Hne & Hf & _). split_and!.
  - unfold entry_line, pad30. by destruct name.
  - by rewrite entry_line_head.
  - unfold entry_line. destruct (vo_tight v Hv) as [-> | (Hv' & _ & Hl)].
    + cbn [value_part]. change [32; 61] with ([32] ++ [61]). rewrite app_nil_r, app_assoc, List.last_last. done.
    + destruct (last_nth_rev v Hv') as (c & t & -> & E). rewrite E in Hl.
      replace (pad30 name ++ [32; 61] ++ value_part (t ++ [c])) with ((pad30 name ++ [32; 61; 32] ++ t) ++ [c])
        by (destruct t; app_eq).
      by rewrite List.last_last.
Qed.

Lemma sscanf_key fmt name v : name_ok name -> value_ok v ->
  sscanf (fmt_key ++ fmt) (entry_line name v) = (pad30 name ++ [32]) :: sscanf fmt v.
Proof.
  intros Hn Hv. unfold entry_line, fmt_key. change (pad30 name ++ [32; 61] ++ value_part v) with (pad30 name ++ [32] ++ 61 :: value_part v).
  rewrite app_assoc. cbn [app sscanf]. rewrite (span_stop (but 61)); [| | done].
  2:{ rewrite pad30_run. apply Forall_app. split; [apply (no_equals name Hn) |]. by apply Forall_replicate. }
  assert (E : drop_space (value_part v) = v).
  { destruct (vo_tight v Hv) as [-> | (Hv' & Hf & _)]; [done |]. destruct v as [| c v]; [done |]. cbn in *. by rewrite Hf. }
  rewrite drop_space_tight by done. cbn [Z.eqb Pos.eqb]. rewrite E.
  destruct (pad30 name ++ [32]) eqn:En; [by destruct (pad30 name) | done].
Qed.

Lemma line_entry name v sec k v0 : name_ok name -> value_ok v ->
  iniparser_line true (entry_line name v) sec k v0 = (LINE_VALUE, (sec, name, v)).
Proof.
  intros Hn Hv. unfold iniparser_line. cbn [xstrdup]. pose proof (entry_line_tight name v Hn Hv) as T.
  rewrite (strstrip_id _ T). cbn [from_option id]. rewrite (entry_line_head name v Hn).
  destruct (no_first name Hn) as (F1 & F2 & F3). rewrite (proj2 (Z.eqb_neq _ _) F1), (proj2 (Z.eqb_neq _ _) F2), (proj2 (Z.eqb_neq _ _) F3).
  cbn [orb andb]. assert (Hlen : Z.of_nat (length name) + 2 <= Z.of_nat (length (entry_line name v))).
  { unfold entry_line, pad30. rewrite !length_app. cbn. lia. }
  rewrite (proj2 (Z.ltb_ge _ _)) by lia.
  assert (Q : forall c, c = 34 \/ c = 39 -> scan_pair (fmt_key ++ [Lit c; Scan (but c); Lit c]) (entry_line name v) (k, v0) = (false, (pad30 name ++ [32], v0))
    /\ scan_pair (fmt_key ++ [Lit c; Scan (but c); Lit c]) (entry_line name v) (pad30 name ++ [32], v0) = (false, (pad30 name ++ [32], v0))).
  { intros c Hc. unfold scan_pair. rewrite (sscanf_key _ name v Hn Hv). destruct v as [| x v]; [done |]. cbn [sscanf].
    destruct (vo_first _ Hv) as [G1 G2]. cbn in G1, G2. rewrite (proj2 (Z.eqb_neq x c)) by (destruct Hc; congruence). done. }
  cbn [scan_any]. unfold fmt_dquote, fmt_squote. rewrite (proj1 (Q 34 (or_introl eq_refl))), (proj2 (Q 39 (or_intror eq_refl))).
  assert (K : lowered (stripped (pad30 name ++ [32])) (Z.of_nat (length (entry_line name v))) = name).
  { rewrite pad30_run, stripped_tight by apply (no_tight name Hn). apply lowered_id; [apply (no_lower name Hn) | lia]. }
  unfold scan_pair at 1. unfold fmt_plain. rewrite (sscanf_key _ name v Hn Hv). destruct v as [| x v].
  - cbn [sscanf span]. unfold scan_pair. unfold fmt_comment. rewrite (sscanf_key _ name [] Hn Hv). cbn [sscanf span snd fst].
    unfold fmt_equals. cbn [sscanf]. unfold entry_line at 1. cbn [value_part]. rewrite app_nil_r.
    change [32; 61] with ([32] ++ 61 :: []). rewrite app_assoc, (span_stop (but 61)); [| | done].
    2:{ rewrite pad30_run. apply Forall_app. split; [apply (no_equals name Hn) |]. by apply Forall_replicate. }
    destruct (pad30 name ++ [32]) eqn:En; [by destruct (pad30 name) |]. cbn [drop_space isspace Z.eqb Z.leb Pos.eqb Z.compare Pos.compare Pos.compare_cont andb orb span].
    cbn [andb orb]. rewrite K. done.
  - cbn [sscanf]. rewrite (span_all _ _ (vo_comment _ Hv)). rewrite K.
    assert (St : stripped (x :: v) = x :: v).
    { destruct (vo_tight _ Hv) as [? | Ht]; [done |]. pose proof (stripped_tight _ 0 Ht) as E. by rewrite app_nil_r in E. }
    rewrite St. rewrite decide_False; [done |]. destruct (vo_first _ Hv) as [G1 G2]. cbn in G1, G2. intros [[= -> _] | [= -> _]]; done.
Qed.

(** ** The lines of a file, read one by one *)

(** A printed dictionary is a list of lines of three kinds. *)
Inductive item : Type := Blank | Sec (s : cstr) | Ent (name v : cstr).

Definition text (i : item) : cstr :=
  match i with
  | Blank => [10]
  | Sec s => [91] ++ s ++ [93; 10]
  | Ent name v => pad30 name ++ chars " = " ++ v ++ [10]
  end.

Lemma text_pos i : (0 < length (text i))%nat.
Proof. destruct i; cbn [text]; rewrite ?length_app; change (length (chars " = ")) with 3%nat; cbn [length]; lia. Qed.

Lemma text_length its : (length its <= length (concat (map text its)))%nat.
Proof. induction its as [| i its IH]; [done |]. cbn [map concat length]. rewrite length_app. pose proof (text_pos i). lia. Qed.

(** An entry with its line fits in the buffer. *)
Definition item_ok (i : item) : Prop :=
  match i with
  | Blank => True
  | Sec s => section_ok s
  | Ent name v => name_ok name /\ value_ok v /\ (Nat.max 30 (length name) + length v <= 1019)%nat
  end.

(** The section after the line, and the binding it makes. *)
Definition next_section (i : item) (sec : cstr) : cstr := match i with Sec s => s | _ => sec end.

Definition binding (i : item) (sec : cstr) : option (cstr * option cstr) :=
  match i with Blank => None | Sec s => Some (s, None) | Ent name v => Some (sec ++ 58 :: name, Some v) end.

Fixpoint bindings (its : list item) (sec : cstr) : list (cstr * option cstr) :=
  match its with
  | [] => []
  | i :: its => option_list (binding i sec) ++ bindings its (next_section i sec)
  end.

Lemma read_line_full t file k : no_char 10 t -> (length t < k)%nat -> read_line k (t ++ 10 :: file) = (t ++ [10], file, false).
Proof.
  revert k; induction t as [| c t IH]; intros [| k] Ht Hk; cbn in Hk; try lia; [done |].
  apply Forall_cons in Ht as [Hc Ht]. unfold but in Hc. apply negb_true_iff in Hc. cbn. by rewrite Hc, IH by (done || lia).
Qed.

Lemma fgets_line t file : no_char 10 t -> (length t < 1023)%nat -> fgets ASCIILINESZ (t ++ 10 :: file) = (Some (t ++ [10]), file, false).
Proof.
  intros Ht Hl. unfold fgets. rewrite read_line_full; [by destruct t | done | change (Z.to_nat (ASCIILINESZ - 1)) with 1023%nat; lia].
Qed.

(** Between lines: nothing held back, no error so far. *)
Record ready (l : loader) (m : gmap cstr (option cstr)) (sec : cstr) (d : dictionary) : Prop := {
  rd_last : last l = 0%nat; rd_errs : errs l = 0; rd_section : section l = sec; rd_dict : dict l = Some d; rd_rep : rep d m
}.

Definition all_ok : allocs := MkAllocs true true true true.

(** A round of the loop that reads a line of at least two bytes. *)
Lemma load_round fuel lineno t file l m sec d : ready l m sec d -> no_char 10 t -> no_char 0 t -> (0 < length t < 1023)%nat ->
  List.last (trim_end (t ++ [10])) 0 <> 92 ->
  load_loop (S fuel) (fun _ => all_ok) lineno (t ++ 10 :: file) l 0 =
    ('(l, mem_err) ← process all_ok l (trim_end (t ++ [10])) 0;
     if mem_err <? 0 then finish l else load_loop fuel (fun _ => all_ok) (S lineno) file l mem_err).
Proof.
  intros [Hl _ _ _ _] H10 H0 Hlen Hlast. cbn [load_loop]. rewrite Hl, Z.sub_0_r, fgets_line by (done || lia).
  rewrite take_0. cbn [app]. rewrite upto_nul_app by (eapply Forall_impl; [exact H0 |]; intros c Hc%negb_true_iff%Z.eqb_neq; done).
  change (upto_nul [10]) with [10].
  rewrite length_app. cbn [length]. rewrite (proj2 (Nat.leb_gt _ _)) by lia.
  rewrite List.last_last. cbn [Z.eqb Pos.eqb negb andb]. by rewrite (proj2 (Z.eqb_neq _ _) Hlast).
Qed.

Lemma process_set l m sec d ln st s k v key v' :
  ready l m sec d -> size d < 2 ^ 29 ->
  iniparser_line true ln sec (lkey l) (lval l) = (st, (s, k, v)) ->
  (st, key, v') = (LINE_SECTION, s, None) \/ (st, key, v') = (LINE_VALUE, s ++ 58 :: k, Some v) ->
  exists l' d', process all_ok l ln 0 = Ok (l', 0) /\ ready l' (<[key := v']> m) s d' /\ size d' <= Z.max (size d) (2 * n d).
Proof.
  intros [H1 H2 H3 H4 H5] Hs E Hk. destruct (set_ok_size d m key v' H5 Hs) as (d' & Ed & Hr' & Hs').
  exists (MkLoader [] 0 s k v (errs l) (Some d')), d'. split_and!; [| by split | done].
  unfold process. rewrite H3, H4. cbn [dup_ok grow_ok key_ok val_ok all_ok]. rewrite E.
  destruct Hk as [[= -> -> ->] | [= -> -> ->]]; rewrite Ed; done.
Qed.

(** A line of the file, read. *)
Lemma load_item i fuel lineno file l m sec d : ready l m sec d -> item_ok i -> size d < 2 ^ 29 ->
  exists l' d', load_loop (S fuel) (fun _ => all_ok) lineno (text i ++ file) l 0 = load_loop fuel (fun _ => all_ok) (S lineno) file l' 0 /\
    ready l' (match binding i sec with Some (k, v) => <[k := v]> m | None => m end) (next_section i sec) d' /\
    size d' <= Z.max (size d) (2 * n d).
Proof.
  intros Hr Hi Hs. destruct i as [| s | name v]; cbn [item_ok text binding next_section] in *.
  - destruct Hr as [H1 H2 H3 H4 H5]. exists (MkLoader [10] 0 (section l) (lkey l) (lval l) (errs l) (dict l)), d.
    split_and!; [| by split | lia]. cbn [load_loop app]. rewrite H1, Z.sub_0_r. change (10 :: file) with ([] ++ 10 :: file).
    rewrite fgets_line by (apply List.Forall_nil || (cbn; lia)). by rewrite take_0.
  - replace (([91] ++ s ++ [93; 10]) ++ file) with (([91] ++ s ++ [93]) ++ 10 :: file) by app_eq.
    assert (T : trim_end (([91] ++ s ++ [93]) ++ [10]) = [91] ++ s ++ [93]).
    { replace (([91] ++ s ++ [93]) ++ [10]) with (([91] ++ s) ++ 93 :: [10]) by app_eq. rewrite trim_last by (done || by_decide). app_eq. }
    assert (N : forall c, no_char c s -> but c 91 = true -> but c 93 = true -> no_char c ([91] ++ s ++ [93])).
    { intros c ? ? ?. apply Forall_cons. split; [done |]. apply Forall_app. split; [done | by constructor]. }
    rewrite (load_round _ _ _ _ _ m sec d) ; [| done | apply N; [apply (so_line s Hi) | done | done] | apply N; [apply (so_nul s Hi) | done | done] | |].
    + rewrite T. destruct (process_set l m sec d _ _ _ _ _ s None Hr Hs (line_section s sec (lkey l) (lval l) Hi) (or_introl eq_refl))
        as (l' & d' & -> & Hr' & Hs'). cbn [mbind res_bind]. by exists l', d'.
    + pose proof (so_len s Hi). rewrite !length_app. cbn [length]. lia.
    + rewrite T, app_assoc, List.last_last. done.
  - destruct Hi as (Hn & Hv & Hl).
    replace ((pad30 name ++ chars " = " ++ v ++ [10]) ++ file) with ((pad30 name ++ chars " = " ++ v) ++ 10 :: file) by app_eq.
    pose proof (trim_entry name v Hv) as T.
    replace (pad30 name ++ chars " = " ++ v ++ [10]) with ((pad30 name ++ chars " = " ++ v) ++ [10]) in T by app_eq.
    assert (N : forall c, no_char c name -> no_char c v -> but c 32 = true -> but c 61 = true -> no_char c (pad30 name ++ chars " = " ++ v)).
    { intros c ? ? ? ?. unfold pad30. repeat apply Forall_app_2; [done | by apply Forall_replicate | by repeat constructor | done]. }
    rewrite (load_round _ _ _ _ _ m sec d) ; [| done
      | apply N; [apply (no_line name Hn) | apply (vo_line v Hv) | done | done]
      | apply N; [apply (no_nul name Hn) | apply (vo_nul v Hv) | done | done] | |].
    + rewrite T. destruct (process_set l m sec d _ _ _ _ _ (sec ++ 58 :: name) (Some v) Hr Hs (line_entry name v sec (lkey l) (lval l) Hn Hv) (or_intror eq_refl))
        as (l' & d' & -> & Hr' & Hs'). cbn [mbind res_bind]. by exists l', d'.
    + unfold pad30. rewrite !length_app, length_replicate. change (length (chars " = ")) with 3%nat. lia.
    + rewrite T. unfold entry_line. destruct v as [| c v].
      * cbn [value_part]. change [32; 61] with ([32] ++ [61]). rewrite app_nil_r, app_assoc, List.last_last. done.
      * destruct (last_nth_rev (c :: v) ltac:(done)) as (x & t & Et & E). pose proof (vo_last _ Hv) as Hx. rewrite Et, List.last_last in Hx.
        cbn [value_part]. rewrite Et. replace (pad30 name ++ [32; 61] ++ 32 :: t ++ [x]) with ((pad30 name ++ [32; 61; 32] ++ t) ++ [x]) by app_eq.
        by rewrite List.last_last.
Qed.

(** The lines of a file whose bindings are all those of a map [M]. *)
Lemma load_items (M : gmap cstr (option cstr)) (HM : 2 * Z.of_nat (base.size M) < 2 ^ 29) its :
  forall fuel lineno l m sec d, ready l m sec d -> Forall item_ok its -> m ⊆ M ->
  Forall (fun kv => M !! kv.1 = Some kv.2) (bindings its sec) -> size d <= Z.max DICTMINSZ (2 * n d) -> (length its < fuel)%nat ->
  exists d' m', load_loop fuel (fun _ => all_ok) lineno (concat (map text its)) l 0 = Ok (Some d') /\ rep d' m' /\ m ⊆ m' /\ m' ⊆ M /\
    Forall (fun kv => m' !! kv.1 = Some kv.2) (bindings its sec).
Proof.
  induction its as [| i its IH]; intros fuel lineno l m sec d Hr Hi Hm Hb Hs Hf; (destruct fuel as [| fuel]; [cbn in Hf; lia |]).
  - destruct Hr as [H1 H2 _ H4 H5]. exists d, m. split_and!; [| done | done | done | constructor].
    cbn [map concat load_loop]. rewrite H1. unfold fgets. change (Z.to_nat (ASCIILINESZ - Z.of_nat 0 - 1)) with (S 1022).
    cbn [read_line]. unfold finish. by rewrite H2, H4.
  - apply Forall_cons in Hi as [Hi His]. cbn [bindings] in Hb |- *. apply Forall_app in Hb as [Hb Hbs].
    pose proof (rep_size _ _ (rd_rep _ _ _ _ Hr)) as Hn. pose proof (map_subseteq_size _ _ Hm) as Hle.
    cbn [map concat]. destruct (load_item i fuel lineno (concat (map text its)) l m sec d Hr Hi) as (l1 & d1 & -> & Hr1 & Hs1);
      [unfold DICTMINSZ in Hs; lia |].
    set (m1 := match binding i sec with Some (k, v) => <[k := v]> m | None => m end) in *.
    assert (Hm1 : m1 ⊆ M /\ m ⊆ m1 /\ Forall (fun kv => m1 !! kv.1 = Some kv.2) (option_list (binding i sec))).
    { subst m1. destruct (binding i sec) as [[k v] |]; simpl option_list in Hb |- *; [| done].
      apply Forall_cons in Hb as [Hb _]. cbn [fst snd] in Hb.
      split_and!; [by apply insert_subseteq_l | | apply Forall_singleton; cbn [fst snd]; by rewrite lookup_insert_eq].
      destruct (m !! k) as [v' |] eqn:E; [| by apply insert_subseteq]. pose proof (lookup_weaken _ _ _ _ E Hm).
      replace v with v' by congruence. by rewrite insert_id. }
    destruct Hm1 as (Hm1 & Hmm & Hb1). pose proof (rep_size _ _ (rd_rep _ _ _ _ Hr1)) as Hn1.
    pose proof (map_subseteq_size _ _ Hmm) as Hle1.
    destruct (IH fuel (S lineno) l1 m1 (next_section i sec) d1 Hr1 His Hm1 Hbs) as (d' & m' & E & Hr' & Hl & Hu & HF); [lia | cbn in Hf; lia |].
    exists d', m'. split_and!; [done | done | by etrans | done |]. apply Forall_app. split; [| done].
    eapply Forall_impl; [exact Hb1 |]. intros kv H. by eapply (lookup_weaken m1 m').
Qed.

(** ** What is printed *)

Definition entry_item (s : cstr) (e : cstr * option cstr) : item := Ent (drop (S (length s)) e.1) (default [] e.2).

Definition section_items (d : dictionary) (s : cstr) : list item :=
  [Blank; Sec s] ++ map (entry_item s) (with_prefix (s ++ [58]) d) ++ [Blank].

(** What a file can hold: the sections, and the entries of these sections, each on one line. *)
Definition loadable (m : gmap cstr (option cstr)) : Prop :=
  forall k v, m !! k = Some v ->
    (v = None /\ section_ok k) \/
    (exists s name w, k = s ++ 58 :: name /\ v = Some w /\ m !! s = Some None /\ name_ok name /\ value_ok w /\
       (Nat.max 30 (length name) + length w <= 1019)%nat).

Lemma colon_split s s' a b : no_char 58 s -> no_char 58 s' -> s ++ 58 :: a = s' ++ 58 :: b -> s = s' /\ a = b.
Proof.
  intros Hs Hs' E. pose proof (span_stop (but 58) s 58 a Hs eq_refl) as E1.
  pose proof (span_stop (but 58) s' 58 b Hs' eq_refl) as E2. rewrite E in E1. rewrite E1 in E2. by injection E2.
Qed.

Lemma colon_free s a : ~ no_char 58 (s ++ 58 :: a).
Proof. intros H. apply Forall_app in H as [_ H]. by apply Forall_cons in H as [H _]. Qed.

Lemma is_section_spec s : is_section (Some s) = true <-> no_char 58 s.
Proof.
  unfold is_section, one_of, no_char, but. rewrite negb_true_iff, <- not_true_iff_false, existsb_exists, List.Forall_forall.
  setoid_rewrite Z.eqb_eq. setoid_rewrite negb_true_iff. setoid_rewrite Z.eqb_neq. naive_solver.
Qed.

(** The entries of a loadable dictionary's section. *)
Lemma with_prefix_spec d m s k v : rep d m -> loadable m -> section_ok s ->
  (k, v) ∈ with_prefix (s ++ [58]) d <-> m !! k = Some v /\ exists name w, k = s ++ 58 :: name /\ v = Some w /\ name_ok name /\ value_ok w /\
       (Nat.max 30 (length name) + length w <= 1019)%nat.
Proof.
  intros [_ Hm] Hl Hs. unfold with_prefix. rewrite list_elem_of_omap. split.
  - intros ([k0 v0] & Hin & E). destruct k0 as [k0 |]; [| done]. cbn in E. case_decide as Ht; [| done]. injection E as -> ->.
    apply list_elem_of_lookup_1 in Hin as [i Hi]. apply lookup_zip_with_Some in Hi as (k' & v' & [= <- <-] & Hk & Hv).
    assert (E : m !! k = Some v) by (apply Hm; by exists i). split; [done |].
    pose proof (take_drop (length (s ++ [58])) k) as Ek. rewrite Ht in Ek. set (r := drop _ k) in *.
    rewrite <- app_assoc in Ek. cbn in Ek.
    destruct (Hl k v E) as [[_ Hk'] | (s' & name & w & -> & -> & Hs' & Hn & Hw & Hlen)].
    { destruct (colon_free s r). rewrite Ek. apply (so_colon _ Hk'). }
    destruct (Hl s' None Hs') as [[_ Ho'] | (? & ? & ? & ? & ? & _)]; [| done].
    destruct (colon_split s s' r name (so_colon _ Hs) (so_colon _ Ho') Ek) as [-> _]. by exists name, w.
  - intros (E & name & w & -> & -> & _). apply Hm in E as (i & Hk & Hv). exists (Some (s ++ 58 :: name), Some w). split.
    + apply (list_elem_of_lookup_2 _ i). apply lookup_zip_with_Some. by exists (Some (s ++ 58 :: name)), (Some w).
    + cbn. rewrite decide_True; [done |]. replace (s ++ 58 :: name) with ((s ++ [58]) ++ name) by app_eq. by rewrite take_app_length.
Qed.

Lemma mapM_seq {A B} (f : nat -> res B) (g : A -> B) l : forall o,
  (forall i x, l !! i = Some x -> f (o + i)%nat = Ok (g x)) -> mapM f (seq o (length l)) = Ok (map g l).
Proof.
  induction l as [| x l IH]; intros o H; [done |]. cbn [length seq mapM map].
  pose proof (H 0%nat x eq_refl) as E. rewrite Nat.add_0_r in E. rewrite E. cbn [mbind res_bind].
  rewrite IH; [done |]. intros i y Hy. by rewrite <- (H (S i) y Hy), Nat.add_succ_comm.
Qed.

Section printed.
Context (d : dictionary) (m : gmap cstr (option cstr)) (Hr : rep d m) (Hl : loadable m).

Lemma section_loadable s : m !! s = Some None -> section_ok s.
Proof. intros H. by destruct (Hl s None H) as [[_ ?] | (? & ? & ? & ? & ? & _)]. Qed.

Lemma dumpsection_items s : m !! s = Some None -> iniparser_dumpsection_ini (Some d) s true = Ok (concat (map text (section_items d s))).
Proof.
  intros Hs. pose proof (section_loadable s Hs) as Ho. unfold iniparser_dumpsection_ini, iniparser_find_entry. cbn [negb].
  pose proof (so_len s Ho) as Hlen.
  assert (En : entry_name s = s) by (unfold entry_name; rewrite take_ge by lia; apply (so_lower s Ho)).
  rewrite (getstring_rep Str d m _ _ Hr), En, Hs. cbn [mbind res_bind Z.eqb].
  rewrite (proj2 (assert_ok_true _)) by (unfold ASCIILINESZ; lia). cbn [mbind res_bind]. f_equal.
  unfold section_items. rewrite !map_app, !concat_app, map_map. cbn [map concat text]. app_eq.
Qed.

(** The sections, in the order of the slots. *)
Definition sections : list (option cstr) := List.filter is_section (key d).

Definition of_section {A} (f : cstr -> list A) (k : option cstr) : list A := match k with Some s => f s | None => [] end.

Lemma sections_spec s : Some s ∈ sections <-> m !! s = Some None.
Proof.
  unfold sections. rewrite list_elem_of_In, filter_In, <- list_elem_of_In, is_section_spec. split.
  - intros [[i Hi]%list_elem_of_lookup_1 Hc]. destruct Hr as [[Hsh _] Hm].
    destruct (rd_lt (val d) i) as (v & _ & Hv); [rewrite (sh_val _ Hsh), <- (sh_key _ Hsh); by eapply lookup_lt_Some |].
    assert (E : m !! s = Some v) by (apply Hm; by exists i).
    destruct (Hl s v E) as [[-> _] | (s' & name & w & -> & _)]; [done |]. by apply colon_free in Hc.
  - intros E. split; [| apply (so_colon s (section_loadable s E))]. destruct Hr as [_ Hm].
    apply Hm in E as (i & Hi & _). by eapply list_elem_of_lookup_2.
Qed.

Lemma sections_Some i k : sections !! i = Some k -> exists s, k = Some s /\ m !! s = Some None.
Proof.
  intros H. apply list_elem_of_lookup_2 in H as Hin. pose proof Hin as Hf. unfold sections in Hf.
  apply list_elem_of_In, filter_In in Hf as [_ Hf]. destruct k as [s |]; [| done]. exists s. split; [done |]. by apply sections_spec.
Qed.

Definition dump_items : list item := concat (map (of_section (section_items d)) sections) ++ [Blank].

Lemma dump_ini_items : sections <> [] -> iniparser_dump_ini (Some d) true = Ok (concat (map text dump_items)).
Proof.
  intros Hne. unfold iniparser_dump_ini, iniparser_getnsec. fold sections. cbn [negb].
  rewrite (proj2 (Z.ltb_ge _ _)) by (destruct sections; [done | cbn; lia]). rewrite Nat2Z.id.
  rewrite (mapM_seq _ (of_section (fun s => concat (map text (section_items d s)))) sections).
  - cbn [mbind res_bind]. f_equal. unfold dump_items. rewrite map_app, concat_app. cbn [map concat text]. f_equal.
    clear. induction sections as [| k l IH]; [done |]. cbn [map concat]. rewrite map_app, concat_app, IH. by destruct k.
  - intros i k Hi. cbn [Nat.add iniparser_getsecname]. rewrite (proj2 (Z.ltb_ge _ _)), filter_nth by lia. fold sections.
    rewrite Z.sub_0_r, Nat2Z.id, Hi. destruct (sections_Some i k Hi) as (s & -> & Hs). by apply dumpsection_items.
Qed.

Lemma dump_ini_empty : sections = [] -> iniparser_dump_ini (Some d) true = Ok [] /\ m = ∅.
Proof.
  intros He. assert (Hm : m = ∅).
  { apply map_empty. intros k. destruct (m !! k) as [v |] eqn:E; [| done]. exfalso.
    assert (exists s, m !! s = Some None) as [s Hs%sections_spec].
    { destruct (Hl k v E) as [[-> _] | (s & _ & _ & _ & _ & ? & _)]; eauto. }
    rewrite He in Hs. by apply not_elem_of_nil in Hs. }
  split; [| done]. unfold iniparser_dump_ini, iniparser_getnsec. fold sections. rewrite He. cbn [negb length Z.of_nat Z.ltb Z.compare].
  assert (Hk : Forall (fun kv => kv.1 = None) (zip (key d) (val d))).
  { apply Forall_lookup. intros i [k v] (k' & v' & [= <- <-] & Hki & Hvi)%lookup_zip_with_Some. cbn. destruct k as [k |]; [| done].
    destruct Hr as [_ H]. assert (m !! k = Some v) by (apply H; by exists i). by rewrite Hm in *. }
  unfold dump_plain. clear - Hk. induction Hk as [| [k v] l Hkv _ IH]; [done |]. cbn in Hkv. subst k. cbn [mapM mbind res_bind].
  destruct (mapM _ l); cbn in *; congruence.
Qed.

Lemma dump_items_ok : Forall item_ok dump_items.
Proof.
  apply Forall_app. split; [| by constructor]. apply Forall_concat, Forall_map, Forall_lookup. intros i k Hi.
  destruct (sections_Some i k Hi) as (s & -> & Hs). pose proof (section_loadable s Hs) as Ho. cbn [of_section]. unfold section_items.
  apply Forall_cons. split; [done |]. apply Forall_cons. split; [done |]. apply Forall_app. split; [| by constructor].
  apply Forall_map, Forall_forall. intros [k v] Hin. apply (with_prefix_spec d m s k v Hr Hl Ho) in Hin as (_ & name & w & -> & -> & H).
  cbn [compose entry_item item_ok fst snd default]. replace (drop _ (s ++ 58 :: name)) with name; [done |].
  replace (s ++ 58 :: name) with ((s ++ [58]) ++ name) by app_eq. rewrite <- (drop_app_length (s ++ [58]) name) at 1.
  by rewrite length_app, Nat.add_1_r.
Qed.
End printed.

Lemma bindings_entries s l rest : Forall (fun e => exists name w, e = (s ++ 58 :: name, Some w)) l ->
  bindings (map (entry_item s) l ++ rest) s = l ++ bindings rest s.
Proof.
  induction 1 as [| e l (name & w & ->) _ IH]; [done |]. simpl. rewrite IH. repeat f_equal.
  replace (s ++ 58 :: name) with ((s ++ [58]) ++ name) by app_eq. rewrite <- (drop_app_length (s ++ [58]) name) at 2.
  by rewrite length_app, Nat.add_1_r.
Qed.

(** What the lines of a section bind. *)
Lemma bindings_section d m s rest x : rep d m -> loadable m -> m !! s = Some None ->
  bindings (section_items d s ++ rest) x = (s, None) :: with_prefix (s ++ [58]) d ++ bindings rest s.
Proof.
  intros Hr Hl Hs. pose proof (section_loadable m Hl s Hs) as Ho.
  change (bindings (section_items d s ++ rest) x)
    with ((s, None) :: bindings ((map (entry_item s) (with_prefix (s ++ [58]) d) ++ [Blank]) ++ rest) s).
  rewrite <- app_assoc. rewrite bindings_entries; [done |].
  apply Forall_forall. intros [k v] (_ & name & w & -> & -> & _)%(with_prefix_spec d m s k v Hr Hl Ho). by exists name, w.
Qed.

Lemma bindings_spec d m (Hr : rep d m) (Hl : loadable m) :
  Forall (fun kv => m !! kv.1 = Some kv.2) (bindings (dump_items d) []) /\
  forall k v, m !! k = Some v -> (k, v) ∈ bindings (dump_items d) [].
Proof.
  unfold dump_items.
  assert (G : forall l x, (forall i k, l !! i = Some k -> exists s, k = Some s /\ m !! s = Some None) ->
    Forall (fun kv => m !! kv.1 = Some kv.2) (bindings (concat (map (of_section (section_items d)) l) ++ [Blank]) x) /\
    forall s, Some s ∈ l -> forall kv, kv ∈ (s, None) :: with_prefix (s ++ [58]) d ->
      kv ∈ bindings (concat (map (of_section (section_items d)) l) ++ [Blank]) x).
  { induction l as [| k l IH]; intros x H; [split; [by constructor | by intros s ?%not_elem_of_nil] |].
    destruct (H 0%nat k eq_refl) as (s & -> & Hs). cbn [map concat of_section].
    rewrite <- app_assoc, (bindings_section d m) by done. destruct (IH s) as [I1 I2]; [intros i k' Hi; by apply (H (S i)) |]. split.
    - apply Forall_cons. split; [done |]. apply Forall_app. split; [| done]. apply Forall_forall.
      intros [k v] (Hk & _)%(with_prefix_spec d m s k v Hr Hl (section_loadable m Hl s Hs)). done.
    - intros s' [[= ->] | Hs']%elem_of_cons kv Hkv; [set_solver |]. specialize (I2 s' Hs' kv Hkv). set_solver. }
  destruct (G (sections d) []) as [G1 G2]; [intros i k; by apply (sections_Some d m) |]. split; [done |].
  intros k v Hk. destruct (Hl k v Hk) as [[-> _] | (s & name & w & -> & -> & Hs & H)].
  - apply (G2 k); [by apply (sections_spec d m) | by left].
  - apply (G2 s); [by apply (sections_spec d m) |]. right.
    apply (with_prefix_spec d m s _ _ Hr Hl (section_loadable m Hl s Hs)). split; [done |]. by exists name, w.
Qed.

Lemma new_ready : exists d0, dictionary_new true true true true 0 = Some d0 /\ ready (MkLoader [] 0 [] [] [] 0 (Some d0)) ∅ [] d0 /\
  size d0 = DICTMINSZ.
Proof.
  destruct (dictionary_new true true true true 0) as [d0 |] eqn:E; [| done]. exists d0. pose proof E as E0.
  apply dictionary_new_rep in E as [Hr _]; [| done]. split_and!; [done | by split |]. by injection E0 as <-.
Qed.

(** C18.  A dictionary survives a file.  For a dictionary of sections and entries that a file can hold
    (lower case names without the characters of the syntax, values without comment characters or quotes in front, lines of at most 1023 bytes),
    what [iniparser_dump_ini] prints, [iniparser_load] reads back, without an error, into a dictionary that
    represents the same map. *)
Theorem dump_load (d : dictionary) (m : gmap cstr (option cstr)) (Hr : rep d m) (Hl : loadable m) (Hs : size d < 2 ^ 28) :
  exists file d', iniparser_dump_ini (Some d) true = Ok file /\
    iniparser_load (fun _ => all_ok) (true, true, true, true) (Some file) = Ok (Some d') /\ rep d' m.
Proof.
  destruct new_ready as (d0 & E0 & R0 & S0). destruct (sections d) as [| k l] eqn:Hsec.
  - destruct (dump_ini_empty d m Hr Hl Hsec) as [E ->]. exists [], d0. split_and!; [done | | apply R0].
    cbn [iniparser_load]. by rewrite E0.
  - assert (Hne : sections d <> []) by (by rewrite Hsec). rewrite (dump_ini_items d m Hr Hl Hne). clear Hsec k l.
    destruct (bindings_spec d m Hr Hl) as [B1 B2].
    pose proof (text_length (dump_items d)) as Hlen.
    assert (HM : 2 * Z.of_nat (base.size m) < 2 ^ 29).
    { pose proof (rep_size _ _ Hr). destruct Hr as [[Hsh Hn] _]. pose proof (omap_le (key d)). rewrite (sh_key _ Hsh) in *. lia. }
    destruct (load_items m HM (dump_items d) (S (length (concat (map text (dump_items d))))) 0 _ ∅ [] d0 R0 (dump_items_ok d m Hr Hl))
      as (d' & m' & E & Hr' & _ & Hsub & HF); [apply map_empty_subseteq | done | lia | lia |].
    exists (concat (map text (dump_items d))), d'. split_and!; [done | cbn [iniparser_load]; by rewrite E0 |].
    replace m with m'; [done |]. apply (anti_symm (⊆)); [done |]. apply map_subseteq_spec. intros k v Hk.
    by apply (proj1 (Forall_forall _ _) HF _ (B2 k v Hk)).
Qed.

Definition sample_ini : dictionary :=
  MkDict 2 2 [Some [49]; None] [Some (chars "a:k"); Some (chars "a")] [dictionary_hash (Some (chars "a:k")); dictionary_hash (Some (chars "a"))].

Definition sample_map : gmap cstr (option cstr) := <[chars "a:k" := Some [49]]> {[ chars "a" := None ]}.

Lemma sample_ini_rep : rep sample_ini sample_map.
Proof.
  split; [split; [split |] |]; try done.
  - intros [| [| [| ?]]] [| [| [| ?]]] k; cbn; congruence.
  - intros [| [| [| ?]]] k [=]; by subst.
  - intros k v. unfold sample_map. rewrite lookup_insert_Some, lookup_singleton_Some. split.
    + intros [[<- <-] | (_ & <- & <-)]; [by exists 0%nat | by exists 1%nat].
    + intros ([| [| [| ?]]] & Hk & Hv); cbn in *; naive_solver.
Defined.

Lemma sample_loadable : loadable sample_map.
Proof.
  intros k v. unfold sample_map. rewrite lookup_insert_Some, lookup_singleton_Some. intros [[<- <-] | (_ & <- & <-)].
  - right. exists (chars "a"), (chars "k"), [49]. split_and!; [done | done | done | | | cbn; lia].
    + split; [split_and!; done | done | by repeat constructor | by repeat constructor | by repeat constructor | done].
    + split; [by right; split_and! | by repeat constructor | by repeat constructor | by repeat constructor | done | done].
  - left. split; [done |].
    split; [split_and!; done | done | by repeat constructor | by repeat constructor | by repeat constructor | by repeat constructor | cbn; lia].
Defined.

Lemma dump_load_witness : exists file d', iniparser_dump_ini (Some sample_ini) true = Ok file /\
  iniparser_load (fun _ => all_ok) (true, true, true, true) (Some file) = Ok (Some d') /\ rep d' sample_map.
Proof. apply (dump_load sample_ini sample_map sample_ini_rep sample_loadable). vm_compute. reflexivity. Defined.

(** ** Every file is read *)

Lemma read_line_length k : forall file l r e, read_line k file = (l, r, e) -> (length l + length r = length file)%nat.
Proof.
  induction k as [| k IH]; intros file l r e H; [by injection H as <- <- _ |]. destruct file as [| c file]; [by injection H as <- <- _ |].
  cbn [read_line] in H. destruct (c =? 10); [by injection H as <- <- _ |].
  destruct (read_line k file) as [[l' r'] e'] eqn:E. injection H as <- <- _. apply IH in E. cbn. lia.
Qed.

Lemma fgets_less size file chunk r e : fgets size file = (Some chunk, r, e) -> (length r < length file)%nat.
Proof.
  unfold fgets. destruct (read_line _ file) as [[l r'] e'] eqn:E. apply read_line_length in E.
  destruct l as [| c l]; [done |]. intros [= _ <- _]. cbn in E. lia.
Qed.

Lemma del_ok d m : rep d m -> dictionary_del (Some d) = Ok ().
Proof.
  intros [[Hs _] _]. unfold dictionary_del.
  assert (G : forall (l : list (option cstr)), length l = Z.to_nat (size d) -> exists l', mapM (rd l) (seq 0 (Z.to_nat (size d))) = Ok l').
  { intros l <-. exists (map id l). apply mapM_seq. intros i x Hx. by apply rd_Ok. }
  destruct (G (key d) (sh_key _ Hs)) as [? ->], (G (val d) (sh_val _ Hs)) as [? ->]. done.
Qed.

(** After [k] rounds: a dictionary of at most [k] entries, at most half empty once it has grown. *)
Definition loading (l : loader) (k : nat) : Prop :=
  exists d m, dict l = Some d /\ rep d m /\ (base.size m <= k)%nat /\ size d <= Z.max DICTMINSZ (2 * n d).

Lemma loading_set d m k key v : rep d m -> (base.size m <= k)%nat -> size d <= Z.max DICTMINSZ (2 * n d) -> Z.of_nat k < 2 ^ 28 ->
  exists d' m', dictionary_set true true true (Some d) (Some key) v = Ok (0, Some d') /\ rep d' m' /\ (base.size m' <= S k)%nat /\
    size d' <= Z.max DICTMINSZ (2 * n d').
Proof.
  intros Hr Hk Hs Hb. pose proof (rep_size _ _ Hr) as Hn. destruct (set_ok_size d m key v Hr) as (d' & E & Hr' & Hs');
    [unfold DICTMINSZ in Hs; lia |].
  exists d', (<[key := v]> m). pose proof (rep_size _ _ Hr') as Hn'. rewrite map_size_insert in Hn' |- *.
  revert Hn'. destruct (m !! key); cbn [id]; intros Hn'; (split_and!; [done | done | lia | lia]).
Qed.

Lemma process_total l ln k : loading l k -> Z.of_nat k < 2 ^ 28 -> exists l', process all_ok l ln 0 = Ok (l', 0) /\ loading l' (S k).
Proof.
  intros (d & m & Hd & Hr & Hk & Hs) Hb. unfold process. rewrite Hd. cbn [dup_ok grow_ok key_ok val_ok all_ok].
  destruct (iniparser_line true ln (section l) (lkey l) (lval l)) as [sta [[s ky] v]].
  destruct sta; try (eexists; split; [done |]; exists d, m; split_and!; cbn; auto; lia).
  - destruct (loading_set d m k s None Hr Hk Hs Hb) as (d' & m' & -> & H). eexists. split; [done |]. by exists d', m'.
  - destruct (loading_set d m k (s ++ 58 :: ky) (Some v) Hr Hk Hs Hb) as (d' & m' & -> & H). eexists. split; [done |]. by exists d', m'.
Qed.

Lemma finish_total l k : loading l k -> exists r, finish l = Ok r /\ forall d, r = Some d -> exists m, rep d m.
Proof.
  intros (d & m & Hd & Hr & _). unfold finish. rewrite Hd. destruct (_ =? _).
  - exists (Some d). split; [done |]. intros d' [= <-]. by exists m.
  - rewrite (del_ok d m Hr). by exists None.
Qed.

Lemma loading_S l k : loading l k -> loading l (S k).
Proof. intros (d & m & ? & ? & ? & ?). exists d, m. split_and!; auto. Qed.

Lemma load_loop_total fuel : forall lineno file l k, loading l k -> (length file < fuel)%nat -> Z.of_nat (k + length file) < 2 ^ 28 ->
  exists r, load_loop fuel (fun _ => all_ok) lineno file l 0 = Ok r /\ forall d, r = Some d -> exists m, rep d m.
Proof.
  induction fuel as [| fuel IH]; intros lineno file l k Hl Hf Hb; [lia |]. cbn [load_loop].
  destruct (fgets _ file) as [[[chunk |] r] e] eqn:Ef; [| by eapply finish_total]. apply fgets_less in Ef. cbv zeta.
  destruct (_ <=? 1)%nat; [apply (IH _ _ _ k); [done | lia | lia] |].
  destruct (negb _ && negb e); [destruct Hl as (d & m & -> & Hr & _); rewrite (del_ok d m Hr); by exists None |].
  destruct (_ =? 92); [apply (IH _ _ _ k); [done | lia | lia] |].
  destruct (process_total l (trim_end (upto_nul (take (last l) (line l) ++ chunk))) k Hl) as (l' & -> & Hl'); [lia |].
  cbn [mbind res_bind]. apply (IH _ _ _ (S k)); [done | lia | lia].
Qed.

(** Loading any file ends.  Whatever its bytes, [iniparser_load] with enough memory reads the file to its end or to the first line that is
    too long, without an access outside its arrays, and gives NULL or a well-formed dictionary: distinct keys, each with its hash. *)
Theorem load_total (file : list Z) (Hb : Z.of_nat (length file) < 2 ^ 28) :
  exists r, iniparser_load (fun _ => all_ok) (true, true, true, true) (Some file) = Ok r /\ forall d, r = Some d -> exists m, rep d m.
Proof.
  destruct new_ready as (d0 & E0 & R0 & S0). cbn [iniparser_load]. rewrite E0.
  apply (load_loop_total _ _ _ _ 0); [| lia | lia]. exists d0, ∅. split_and!; [done | apply R0 | done | unfold DICTMINSZ in *; lia].
Qed.

Lemma load_total_witness : exists r, iniparser_load (fun _ => all_ok) (true, true, true, true) (Some (chars "a=" ++ [92; 10; 0; 91])) = Ok r /\
  forall d, r = Some d -> exists m, rep d m.
Proof. apply (load_total (chars "a=" ++ [92; 10; 0; 91])). vm_compute. reflexivity. Defined.

(** ** Where the file functions differ from what their comments say *)

(** [[]]: no section name is read, and the previous one is cut to a byte. *)
Lemma empty_header : iniparser_line true (chars "[]") (chars "net") [] [] = (LINE_SECTION, (chars "n", [], [])).
Proof. vm_compute. reflexivity. Qed.

(** A file loaded when every allocation succeeds. *)
Definition load (file : list Z) : res (option dictionary) := iniparser_load (fun _ => all_ok) (true, true, true, true) (Some file).

(** An entry without a section, printed and loaded again, has another name. *)
Lemma plain_dump_renamed :
  (d ← load (chars "k=1" ++ [10]); file ← iniparser_dump_ini d true; d' ← load file;
   a ← iniparser_find_entry d (Some (chars ":k")); b ← iniparser_find_entry d' (Some (chars ":k")); Ok (file, a, b)) =
    Ok (chars ":k = 1" ++ [10], 1, 0).
Proof. vm_compute. reflexivity. Qed.

(** A section asked for in upper case is found, counted, and printed without its entries. *)
Lemma dumpsection_case : iniparser_dumpsection_ini (Some sample_ini) (chars "A") true = Ok ([10; 91] ++ chars "A" ++ [93; 10] ++ [10]) /\
  iniparser_getsecnkeys (Some sample_ini) (chars "A") = Ok 1.
Proof. split; vm_compute; reflexivity. Qed.

(** A line whose copy cannot be allocated is dropped without an error. *)
Lemma line_dropped :
  (d ← iniparser_load (fun _ => MkAllocs false true true true) (true, true, true, true) (Some (chars "k=1" ++ [10]));
   iniparser_find_entry d (Some (chars ":k"))) = Ok 0.
Proof. vm_compute. reflexivity. Qed.

(** A NULL value of an entry without a section is printed with [%s]. *)
Lemma plain_dump_null : iniparser_dump_ini (Some (MkDict 1 1 [None] [Some (chars ":k")] [dictionary_hash (Some (chars ":k"))])) true = UB.
Proof. vm_compute. reflexivity. Qed.
