(* ===== verification/FileSys.v ===== *)
(** * Files and paths

    [vmp/src/vpk_ifilesys.c].  The system calls are the operations of a class, over a type of states of the
    file system; a second class has what their documentation says of [mkdir].  A path that comes back is a
    string or an offset into the path given. *)

From S2P Require Import Prelude.

Inductive file_kind : Type := S_IFREG | S_IFDIR | S_IFOTHER.

#[export] Instance file_kind_eq_dec : EqDecision file_kind.
Proof. solve_decision. Defined.

(** [access(path, F_OK) == 0], the kind and size [lstat] and [stat] give, and the calls that change the
    state: whether they succeed, and the state after them; [opendir] with what [readdir] returns. *)
Class FileSystem (W : Type) := {
  access : W -> cstr -> bool;
  lstat : W -> cstr -> option (file_kind * Z);
  stat : W -> cstr -> option (file_kind * Z);
  mkdir : W -> cstr -> bool * W;
  creat : W -> cstr -> bool * W;
  rename : W -> cstr -> cstr -> bool * W;
  remove : W -> cstr -> bool * W;
  opendir : W -> cstr -> option (list cstr)
}.

(** A directory that is made is there, nothing that was there goes away or changes its kind; a call that
    fails changes nothing. *)
Class FileSystemLaws (W : Type) `{FileSystem W} := {
  mkdir_made w p w' : mkdir w p = (true, w') -> access w' p = true /\ exists n, lstat w' p = Some (S_IFDIR, n);
  mkdir_keeps w p w' q k n : mkdir w p = (true, w') -> lstat w q = Some (k, n) -> exists n', lstat w' q = Some (k, n');
  mkdir_fails w p w' : mkdir w p = (false, w') -> w' = w
}.

Section calls.
Context {W : Type} `{FileSystem W}.

Definition vpk_exists (w : W) (path : cstr) : Z := if access w path then 1 else 0.

Definition vpk_file_length (w : W) (path : cstr) : Z :=
  match lstat w path with None => -1 | Some (S_IFREG, n) => n | Some _ => 0 end.

Definition vpk_isdir (w : W) (path : cstr) : Z :=
  match lstat w path with None => 0 | Some (k, _) => if decide (k = S_IFDIR) then 1 else 0 end.

Definition vpk_mkdir (w : W) (path : cstr) : Z * W :=
  match stat w path with
  | None => let '(ok, w) := mkdir w path in (if ok then 0 else -1, w)
  | Some (k, _) => (if decide (k = S_IFDIR) then 0 else -1, w)
  end.

Definition FILENAME_MAX : Z := 4096.

(** The body of the loop of [vpk_mkdir_mult] for a prefix: it is made, or it is there already. *)
Definition make_one (w : W) (p : cstr) : bool * W :=
  if access w p then (vpk_isdir w p =? 1, w) else mkdir w p.

(** The loop from index [i], for [cnt] rounds, over the buffer [tmp] that is cut and mended. *)
Fixpoint mkdir_loop (cnt i : nat) (tmp : list Z) (w : W) : res (Z * W) :=
  match cnt with
  | O => Ok (0, w)
  | S cnt =>
      c ← rd tmp i;
      if (c =? 47) && (0 <? i)%nat then
        tmp ← wr tmp i 0;
        let '(ok, w) := make_one w (upto_nul tmp) in
        if negb ok then Ok (-1, w) else
        tmp ← wr tmp i 47; mkdir_loop cnt (S i) tmp w
      else mkdir_loop cnt (S i) tmp w
  end.

Definition vpk_mkdir_mult (w : W) (path : option cstr) : res (Z * W) :=
  match path with
  | None => Ok (-1, w)
  | Some path =>
      let len := Z.of_nat (length path) in
      if len >=? FILENAME_MAX - 1 then Ok (-1, w) else
      let tmp := path ++ replicate (Z.to_nat (FILENAME_MAX - len)) 0 in
      last ← ptr_off (len - 1); c ← rd tmp last;
      tmp ← (if negb (c =? 47) then tmp ← wr tmp (length path) 47; wr tmp (S (length path)) 0 else Ok tmp);
      mkdir_loop (length path) 0 tmp w
  end.

(** The descriptor [creat] gives is not closed. *)
Definition vpk_create_file (w : W) (path : cstr) : Z * W :=
  let '(ok, w) := creat w path in (if ok then 0 else -1, w).

(** A NULL name is only reported: the call is made with it. *)
Definition vpk_rename (w : W) (oldname newname : option cstr) : res (Z * W) :=
  oldname ← of_option oldname; newname ← of_option newname;
  let '(ok, w) := rename w oldname newname in Ok (if ok then 0 else -1, w).

Definition vpk_remove (w : W) (path : cstr) : Z * W :=
  if vpk_exists w path =? 0 then (-1, w) else let '(ok, w) := remove w path in (if ok then 0 else -1, w).

(** The names the callback is called with. *)
Definition vpk_enumerate (w : W) (folder : cstr) : list cstr :=
  match opendir w folder with
  | None => []
  | Some names =>
      List.filter (fun name => negb (bool_decide (name = chars ".") || bool_decide (name = chars ".."))
                            && (vpk_isdir w (snprintf (Z.to_nat FILENAME_MAX) (folder ++ 47 :: name)) =? 0)) names
  end.
End calls.

(** ** Parts of a path *)

(** [strrchr(s, c)], as an offset. *)
Fixpoint strrchr (s : cstr) (c : Z) : option nat :=
  match s with
  | [] => None
  | x :: s => match strrchr s c with Some i => Some (S i) | None => if x =? c then Some 0%nat else None end
  end.

(** [strcpy] to a buffer of [size] bytes. *)
Definition strcpy_to (size : nat) (s : cstr) : res cstr := if decide (length s < size)%nat then Ok s else UB.

(** [size]: of the caller's buffer. *)
Definition vpk_pathname_get {W} `{FileSystem W} (w : W) (size : nat) (full : cstr) : res cstr :=
  match strrchr full 47 with
  | None => strcpy_to size (if vpk_isdir w full =? 1 then full ++ [47] else chars "./")
  | Some pos => strcpy_to size (take (S pos) full)
  end.

Definition vpk_filename_get (size : nat) (full : cstr) : res cstr :=
  match strrchr full 47 with
  | None => strcpy_to size full
  | Some pos => strcpy_to size (drop (S pos) full)
  end.

Definition IS_SEPARATOR (c : Z) : bool := (c =? 47) || (c =? 92).

(** The loop, with [p] at offset [i]. *)
Fixpoint ext_loop (path : cstr) (i : nat) : res (option nat) :=
  match i with
  | O => Ok None
  | S j =>
      c ← rd path i;
      if IS_SEPARATOR c then Ok None else
      c ← rd path j;
      if c =? 46 then Ok (Some j) else ext_loop path j
  end.

Definition vpk_path_extension (path : cstr) : res (option nat) :=
  p ← ptr_off (Z.of_nat (length path) - 1); ext_loop path p.

(** ** Making the directories of a path *)

(** What comes before the slashes of a path, the one in front excepted. *)
Definition parents (path : cstr) : list cstr :=
  map (fun i => take i path) (List.filter (fun i => (nth i path 0 =? 47) && (0 <? i)%nat) (seq 0 (length path))).

Lemma parents_spec q path : q ∈ parents path <-> q <> [] /\ exists r, path = q ++ 47 :: r.
Proof.
  unfold parents. rewrite list_elem_of_fmap. setoid_rewrite list_elem_of_In. setoid_rewrite filter_In. setoid_rewrite in_seq.
  setoid_rewrite andb_true_iff. setoid_rewrite Z.eqb_eq. setoid_rewrite Nat.ltb_lt. split.
  - intros (i & -> & Hi & Hc & H0). split; [intros E%(f_equal length); rewrite length_take in E; cbn in E; lia |].
    exists (drop (S i) path). rewrite <- (take_drop i path) at 1. f_equal.
    destruct (lookup_lt_is_Some_2 path i) as [c Hl]; [lia |]. rewrite (drop_S _ c) by done. f_equal.
    by rewrite (nth_lookup_Some _ _ 0 c Hl) in Hc.
  - intros [Hq [r ->]]. exists (length q). rewrite take_app_length. split_and!; [done | lia | | | destruct q; [done | cbn; lia]].
    + rewrite length_app. cbn. lia.
    + by rewrite app_nth2, Nat.sub_diag by lia.
Qed.

(** A path that ends with a slash is among its parents. *)
Lemma parents_slash p : p <> [] -> p ∈ parents (p ++ [47]).
Proof. intros Hp. apply parents_spec. split; [done |]. by exists []. Qed.

Section making.
Context {W : Type} `{FileSystemLaws W}.

Fixpoint make_all (w : W) (ps : list cstr) : bool * W :=
  match ps with
  | [] => (true, w)
  | p :: ps => let '(ok, w) := make_one w p in if ok then make_all w ps else (false, w)
  end.

Lemma cut_prefix path rest i : Forall (fun c => c <> 0) path -> path !! i = Some 47 ->
  upto_nul (<[i := 0]> (path ++ rest)) = take i path /\ <[i := 47]> (<[i := 0]> (path ++ rest)) = path ++ rest.
Proof.
  intros Hp Hi. apply lookup_lt_Some in Hi as Hlt. split.
  - rewrite insert_app_l by done. rewrite insert_take_drop by done. rewrite <- app_assoc. cbn [app].
    rewrite upto_nul_app by by apply Forall_take. cbn. apply app_nil_r.
  - rewrite list_insert_insert, decide_True by done. apply list_insert_id. by apply lookup_app_l_Some.
Qed.

Lemma mkdir_loop_spec path rest : Forall (fun c => c <> 0) path -> forall cnt i w, (i + cnt = length path)%nat ->
  mkdir_loop cnt i (path ++ rest) w =
    Ok (let '(ok, w) := make_all w (map (fun i => take i path) (List.filter (fun i => (nth i path 0 =? 47) && (0 <? i)%nat) (seq i cnt))) in
        (if ok then 0 else -1, w)).
Proof.
  intros Hp. induction cnt as [| cnt IH]; intros i w Hi; [done |]. cbn [mkdir_loop seq List.filter].
  destruct (lookup_lt_is_Some_2 path i) as [c Hc]; [lia |].
  rewrite (rd_Ok _ _ c) by (by apply lookup_app_l_Some). cbn [mbind res_bind]. rewrite (nth_lookup_Some _ _ 0 c Hc).
  destruct (Z.eqb_spec c 47) as [-> |]; cbn [andb]; [| apply IH; lia].
  destruct (Nat.ltb_spec 0 i); [| apply IH; lia]. destruct (cut_prefix path rest i Hp Hc) as [E1 E2].
  rewrite wr_ok by (rewrite length_app; lia). cbn [mbind res_bind]. rewrite E1. cbn [map make_all].
  destruct (make_one w (take i path)) as [[|] w']; [| done]. cbn [negb].
  rewrite wr_ok by (rewrite length_insert, length_app; lia). cbn [mbind res_bind]. rewrite E2. apply IH. lia.
Qed.

Lemma isdir_spec w p : vpk_isdir w p = 1 <-> exists n, lstat w p = Some (S_IFDIR, n).
Proof. unfold vpk_isdir. destruct (lstat w p) as [[k n] |]; [case_decide |]; naive_solver. Qed.

(** What is there stays. *)
Definition grows (w w' : W) : Prop := forall q k n, lstat w q = Some (k, n) -> exists n', lstat w' q = Some (k, n').

#[local] Instance grows_refl : Reflexive grows.
Proof. intros w q k n E. by exists n. Qed.

#[local] Instance grows_trans : Transitive grows.
Proof. intros a b c H1 H2 q k n E. destruct (H1 _ _ _ E) as [n' E']. exact (H2 _ _ _ E'). Qed.

Lemma grows_isdir w w' p : grows w w' -> vpk_isdir w p = 1 -> vpk_isdir w' p = 1.
Proof. rewrite !isdir_spec. intros G [n E]. exact (G _ _ _ E). Qed.

Lemma make_one_spec w p ok w' : make_one w p = (ok, w') -> grows w w' /\ if ok then vpk_isdir w' p = 1 else w' = w.
Proof.
  unfold make_one. destruct (access w p).
  - intros [= <- <-]. split; [done |]. by destruct (Z.eqb_spec (vpk_isdir w p) 1).
  - destruct ok; intros E.
    + split; [intros q k n; by apply (mkdir_keeps w p) | apply isdir_spec; by apply (mkdir_made w p)].
    + apply mkdir_fails in E as ->. done.
Qed.

Lemma make_all_spec ps : forall w ok w', make_all w ps = (ok, w') ->
  grows w w' /\ if ok then Forall (fun q => vpk_isdir w' q = 1) ps
                else exists qs q rest, ps = qs ++ q :: rest /\ Forall (fun q => vpk_isdir w' q = 1) qs /\ make_one w' q = (false, w').
Proof.
  induction ps as [| p ps IH]; intros w ok w' E; cbn in E; [injection E as <- <-; split; [done | constructor] |].
  destruct (make_one w p) as [ok1 w1] eqn:E1. destruct (make_one_spec w p ok1 w1 E1) as [G1 D1].
  destruct ok1; [| injection E as <- <-; subst w1; split; [done |]; by exists [], p, ps].
  destruct (IH w1 ok w' E) as [G D]. split; [by etrans |]. apply (grows_isdir w1 w' p G) in D1.
  destruct ok; [by constructor |]. destruct D as (qs & q & rest & -> & Hqs & Hq). exists (p :: qs), q, rest.
  split_and!; [done | by constructor | done].
Qed.

Lemma mkdir_mult_parents w path : Forall (fun c => c <> 0) path -> path <> [] -> Z.of_nat (length path) < FILENAME_MAX - 1 ->
  vpk_mkdir_mult w (Some path) = Ok (let '(ok, w') := make_all w (parents path) in (if ok then 0 else -1, w')).
Proof.
  intros Hz Hne Hl. unfold vpk_mkdir_mult. rewrite Z.geb_leb, (proj2 (Z.leb_gt _ _)) by lia.
  assert (0 < length path)%nat by (destruct path; [done | cbn; lia]). rewrite ptr_off_Ok by lia. cbn [mbind res_bind].
  destruct (rd_lt (path ++ replicate (Z.to_nat (FILENAME_MAX - Z.of_nat (length path))) 0) (Z.to_nat (Z.of_nat (length path) - 1))) as (c & -> & _);
    [rewrite length_app; lia |]. cbn [mbind res_bind].
  destruct (negb (c =? 47)); [| by apply mkdir_loop_spec].
  rewrite wr_ok by (rewrite length_app, length_replicate; unfold FILENAME_MAX in *; lia). cbn [mbind res_bind].
  rewrite wr_ok by (rewrite length_insert, length_app, length_replicate; unfold FILENAME_MAX in *; lia). cbn [mbind res_bind].
  rewrite insert_app_r_alt by lia. rewrite insert_app_r_alt by lia. by apply mkdir_loop_spec.
Qed.

(** The directories of a path.  For a path that is not empty and fits: the prefixes before its slashes are made in order, and those that are
    there are left alone; with 0 each of them is a directory, with -1 all those before the first that could not be made, and what was there keeps its kind.  The whole
    path is among them when it ends with a slash; otherwise its last part is not made, and a path without a slash
    makes nothing. *)
Theorem vpk_mkdir_mult_spec (w : W) (path : cstr) (Hz : Forall (fun c => c <> 0) path) (Hne : path <> []) (Hl : Z.of_nat (length path) < FILENAME_MAX - 1) :
  exists r w', vpk_mkdir_mult w (Some path) = Ok (r, w') /\ grows w w' /\
    ((r = 0 /\ forall q, q <> [] /\ (exists s, path = q ++ 47 :: s) -> vpk_isdir w' q = 1) \/
     (r = -1 /\ exists qs q rest, parents path = qs ++ q :: rest /\ Forall (fun q => vpk_isdir w' q = 1) qs /\ make_one w' q = (false, w'))) /\
    (47 ∉ path -> r = 0 /\ w' = w).
Proof.
  pose proof (mkdir_mult_parents w path Hz Hne Hl) as E.
  rewrite E. destruct (make_all w (parents path)) as [ok w'] eqn:Em. exists (if ok then 0 else -1), w'.
  destruct (make_all_spec _ _ _ _ Em) as [G D]. split_and!; [done | done | |].
  - destruct ok; [left; split; [done |] | by right]. intros q Hq%parents_spec. by apply (proj1 (Forall_forall _ _) D).
  - intros Hs. assert (Ep : parents path = []).
    { destruct (parents path) as [| q ps] eqn:Ep; [done |]. assert (Hq : q ∈ parents path) by (rewrite Ep; by left).
      apply parents_spec in Hq as [_ [r ->]]. set_solver. }
    rewrite Ep in Em. by injection Em as <- <-.
Qed.
End making.

(** ** The parts of a path *)

Lemma strrchr_spec s c : match strrchr s c with Some i => s !! i = Some c /\ c ∉ drop (S i) s | None => c ∉ s end.
Proof.
  induction s as [| x s IH]; cbn [strrchr]; [apply not_elem_of_nil |]. destruct (strrchr s c) as [i |]; [exact IH |].
  destruct (Z.eqb_spec x c) as [-> | Hx]; [done |]. apply not_elem_of_cons. split; [congruence | done].
Qed.

(** The dot at [j] that the loop finds from offset [i]. *)
Definition dot_before (path : cstr) (i j : nat) : Prop :=
  (j < i)%nat /\ path !! j = Some 46 /\ (forall k c, (j < k <= i)%nat -> path !! k = Some c -> IS_SEPARATOR c = false) /\
  (forall k, (j < k < i)%nat -> path !! k <> Some 46).

Lemma ext_loop_spec path i : (i < length path)%nat -> exists o, ext_loop path i = Ok o /\ forall j, o = Some j <-> dot_before path i j.
Proof.
  induction i as [| i IH]; intros Hi; cbn [ext_loop].
  - exists None. split; [done |]. intros j. split; [done | intros (? & _); lia].
  - destruct (rd_lt path (S i) Hi) as (c & -> & Hc). cbn [mbind res_bind]. destruct (IS_SEPARATOR c) eqn:Es.
    { exists None. split; [done |]. intros j. split; [done |]. intros (Hj & _ & Hs & _). rewrite (Hs (S i) c) in Es; [done | lia | done]. }
    destruct (rd_lt path i) as (c' & -> & Hc'); [lia |]. cbn [mbind res_bind]. destruct (Z.eqb_spec c' 46) as [-> | Hd].
    + exists (Some i). split; [done |]. intros j. split.
      * intros [= <-]. split_and!; [lia | done | | intros k ?; lia]. intros k x Hk. replace k with (S i) by lia. by intros [= <-]%(eq_trans (eq_sym Hc)).
      * intros (Hj & Hdot & _ & Hnd). destruct (decide (j = i)) as [-> | ?]; [done |]. destruct (Hnd i); [lia | done].
    + destruct IH as (o & -> & Ho); [lia |]. exists o. split; [done |]. intros j. rewrite Ho. unfold dot_before. split.
      * intros (Hj & Hdot & Hs & Hnd). split_and!; [lia | done | |].
        -- intros k x Hk Hx. destruct (decide (k = S i)) as [-> | ?]; [congruence | apply (Hs k); [lia | done]].
        -- intros k Hk. destruct (decide (k = i)) as [-> | ?]; [congruence | apply Hnd; lia].
      * intros (Hj & Hdot & Hs & Hnd). assert (j <> i) by congruence.
        split_and!; [lia | done | intros k x Hk; apply Hs; lia | intros k Hk; apply Hnd; lia].
Qed.

(** The parts of a path.  Into buffers that are large enough: the directory ends with the last slash, the name has none, and together they are
    the path; without a slash the directory is the path itself when it is one, else the current one.  The extension of a path that is not empty
    starts at the last dot that is neither its last byte nor before a separator, if there is one. *)
Theorem path_parts {W} `{FileSystem W} (w : W) (size : nat) (full : cstr) (Hs : (length full + 2 < size)%nat) :
  (47 ∈ full -> exists p n, vpk_pathname_get w size full = Ok (p ++ [47]) /\ vpk_filename_get size full = Ok n /\ full = (p ++ [47]) ++ n /\ 47 ∉ n) /\
  (47 ∉ full -> vpk_pathname_get w size full = Ok (if vpk_isdir w full =? 1 then full ++ [47] else chars "./") /\ vpk_filename_get size full = Ok full) /\
  (full <> [] -> exists o, vpk_path_extension full = Ok o /\ forall j, o = Some j <-> dot_before full (length full - 1) j).
Proof.
  assert (Hc : forall s, (length s < size)%nat -> strcpy_to size s = Ok s) by (intros s Hlt; unfold strcpy_to; by rewrite decide_True).
  split_and!.
  - intros Hin. unfold vpk_pathname_get, vpk_filename_get. pose proof (strrchr_spec full 47) as Hr. destruct (strrchr full 47) as [i |]; [| done].
    destruct Hr as [Hi Hn]. exists (take i full), (drop (S i) full). rewrite !Hc by (rewrite ?length_take, ?length_drop; lia).
    rewrite <- (take_S_r full i 47 Hi), take_drop. done.
  - intros Hin. unfold vpk_pathname_get, vpk_filename_get. pose proof (strrchr_spec full 47) as Hr. destruct (strrchr full 47) as [i |].
    { destruct Hr as [Hi _]. by apply list_elem_of_lookup_2 in Hi. }
    rewrite !Hc; [done | lia |]. destruct (_ =? 1); [rewrite length_app; cbn; lia | cbn; lia].
  - intros Hne. unfold vpk_path_extension. assert (0 < length full)%nat by (destruct full; [done | cbn; lia]). rewrite ptr_off_Ok by lia. cbn [mbind res_bind].
    replace (Z.to_nat (Z.of_nat (length full) - 1)) with (length full - 1)%nat by lia. apply ext_loop_spec. lia.
Qed.

(** ** A file system *)

(** The paths that are there, with their kinds; a directory is made in one that is there. *)
Abbreviation flat := (gmap cstr (file_kind * Z)).

Definition make_dir (w : flat) (p : cstr) : bool * flat :=
  match w !! p, strrchr p 47 with
  | None, Some (S i) => match w !! take (S i) p with Some (S_IFDIR, _) => (true, <[p := (S_IFDIR, 4096)]> w) | _ => (false, w) end
  | None, _ => if decide (p = []) then (false, w) else (true, <[p := (S_IFDIR, 4096)]> w)
  | Some _, _ => (false, w)
  end.

#[export] Instance flat_fs : FileSystem flat := {
  access w p := bool_decide (is_Some (w !! p));
  lstat w p := w !! p;
  stat w p := w !! p;
  mkdir := make_dir;
  creat w p := match w !! p with Some (S_IFDIR, _) => (false, w) | _ => (true, <[p := (S_IFREG, 0)]> w) end;
  rename w p q := match w !! p with Some k => (true, <[q := k]> (delete p w)) | None => (false, w) end;
  remove w p := match w !! p with Some k => (true, delete p w) | None => (false, w) end;
  opendir w p := match w !! p with Some (S_IFDIR, _) => Some [] | _ => None end
}.

Lemma make_dir_cases w p : make_dir w p = (false, w) \/ w !! p = None /\ make_dir w p = (true, <[p := (S_IFDIR, 4096)]> w).
Proof. unfold make_dir. repeat case_match; auto. Qed.

#[export] Instance flat_laws : FileSystemLaws flat.
Proof.
  split.
  - intros w p w' E. change (make_dir w p = (true, w')) in E. destruct (make_dir_cases w p) as [E' | [Hp E']]; rewrite E' in E; [done |].
    injection E as <-. cbn [access lstat flat_fs]. rewrite lookup_insert_eq. split; [by apply bool_decide_eq_true | by eexists].
  - intros w p w' q k n E Hq. change (make_dir w p = (true, w')) in E. change (w !! q = Some (k, n)) in Hq. exists n.
    destruct (make_dir_cases w p) as [E' | [Hp E']]; rewrite E' in E; [done |]. injection E as <-. cbn [lstat flat_fs]. rewrite lookup_insert_ne; [done | congruence].
  - intros w p w' E. change (make_dir w p = (false, w')) in E. destruct (make_dir_cases w p) as [E' | [Hp E']]; rewrite E' in E; [by injection E | done].
Qed.

Lemma vpk_mkdir_mult_spec_witness :
  (exists r w', vpk_mkdir_mult (∅ : flat) (Some (chars "a/b")) = Ok (r, w') /\ grows (∅ : flat) w') /\
  vpk_mkdir_mult (∅ : flat) (Some (chars "a/b/")) = Ok (0, <[chars "a/b" := (S_IFDIR, 4096)]> (<[chars "a" := (S_IFDIR, 4096)]> ∅)).
Proof.
  split; [| vm_compute; reflexivity].
  destruct (vpk_mkdir_mult_spec (∅ : flat) (chars "a/b")) as (r & w' & E & G & _); [by repeat constructor | done | vm_compute; reflexivity |].
  by exists r, w'.
Defined.

Lemma path_parts_witness : vpk_pathname_get (∅ : flat) 256 (chars "a/b.c") = Ok (chars "a/") /\ vpk_path_extension (chars "a/b.c") = Ok (Some 3%nat) /\
  exists o, vpk_path_extension (chars "a/b.c") = Ok o /\ forall j, o = Some j <-> dot_before (chars "a/b.c") 4 j.
Proof. split_and!; [reflexivity | reflexivity |]. apply (path_parts (∅ : flat) 256 (chars "a/b.c")); [cbn; lia | done]. Defined.

(** ** What the comments promise *)

(** The directory asked for is not made unless its name ends with a slash. *)
Lemma mkdir_mult_last : vpk_mkdir_mult (∅ : flat) (Some (chars "log")) = Ok (0, ∅).
Proof. vm_compute. reflexivity. Qed.

(** An empty path reads before the buffer; so does the extension of an empty path. *)
Lemma mkdir_mult_empty {W} `{FileSystem W} (w : W) : vpk_mkdir_mult w (Some []) = UB /\ vpk_path_extension [] = UB.
Proof. done. Qed.
