(* ===== verification/Logs.v ===== *)
(** * Setting up the log

    [mw/support/tima_logs.c]: the configuration of the log, and the file written for the log library.
    The library's [dzlog_init] and the writing of a file are parameters; [load] is the dictionary
    [iniparser_load] makes. *)

From S2P Require Import Prelude Dictionary Ini IniFile Cache Text FileSys.

Definition MAX_PATH_SIZE : Z := 260.

Record TimaLogConfig := MkLog {
  data_path : list Z;
  log_path : list Z;
  log_mode : Z;
  log_level : Z;
  file_len : Z;
  file_cnt : Z
}.

Definition LOG_LEVELS : list cstr := [chars "FATAL"; chars "ERROR"; chars "WARN"; chars "INFO"; chars "DEBUG"].

(** [strcmp(LOG_LEVELS[i], LOG_LEVELS[level])] for the indices from [i]; [last] is [LOG_LEVELS[i-1]]. *)
Fixpoint level_loop (names : list cstr) (level : Z) (last : cstr) : res cstr :=
  match names with
  | [] => Ok last
  | name :: names => l ← ptr_off level; s ← rd LOG_LEVELS l; if decide (name = s) then Ok name else level_loop names level name
  end.

Definition get_log_level_value (level : Z) : res cstr := level_loop LOG_LEVELS level [].

Section logs.
Context {W : Type} `{FileSystem W}.
(** The file of that name with that text, [None] when it cannot be opened; [dzlog_init(file, "vmp")]; [strtol]. *)
Context (save : W -> cstr -> cstr -> option W) (dzlog_init : W -> cstr -> Z) (strtol : cstr -> Z).

(** A directory that is not there is made; its name goes through a buffer of 256 bytes, the result is only printed. *)
Definition ensure (w : W) (path : cstr) : res W :=
  if vpk_exists w path =? 0 then
    _ ← vpk_pathname_get w 256 path;
    '(_, w) ← vpk_mkdir_mult w (Some path); Ok w
  else Ok w.

Definition nl : cstr := [10].
Definition quote : cstr := [34].

(** What is printed into the file. *)
Definition preamble : cstr :=
  chars "[global]" ++ nl ++ chars "buffer min = 1024" ++ nl ++ chars "buffer max = 2MB" ++ nl ++
  chars "rotate lock file = /tmp/zlog.lock" ++ nl ++
  chars "default format = " ++ quote ++ chars "%d(%F %T) %-6V (%F:%L) - %m%n" ++ quote ++ nl ++ chars "[formats]" ++ nl ++
  chars "default" ++ [9] ++ chars "= " ++ quote ++ chars "%d(%F %T).%us %-6V (%F:%L) - %m%n" ++ quote ++ nl ++ chars "[rules]" ++ nl.

Definition stdout_rule (level : cstr) : cstr := chars "*." ++ level ++ chars "         >stdout;default" ++ nl.

Definition file_rule (level path : cstr) (len cnt : Z) : cstr :=
  chars "*." ++ level ++ chars "       " ++ quote ++ path ++ chars "tima.log" ++ quote ++ chars "," ++ dec len ++ chars "MB * " ++ dec cnt ++
  chars " ~ " ++ quote ++ path ++ chars "tima.log.#2r" ++ quote ++ chars ";" ++ nl.

Definition tima_zlog_conf (w : W) (config : TimaLogConfig) : res (Z * W) :=
  conf_path ← cstr_of (data_path config);
  w ← ensure w conf_path;
  file ← (if vpk_exists w conf_path =? 0 then strcpy (replicate 256 0) (chars "/tmp/zlog.conf")
          else '(file, _) ← vpk_snprintf (replicate 256 0) 0 MAX_PATH_SIZE (conf_path ++ chars "/" ++ chars "zlog.conf"); Ok file);
  file ← cstr_of file;
  r1 ← (if negb (Z.land (log_mode config) 1 =? 0) then l ← get_log_level_value (log_level config); Ok (stdout_rule l) else Ok []);
  r2 ← (if negb (Z.land (log_mode config) 2 =? 0) then
          l ← get_log_level_value (log_level config); p ← cstr_of (log_path config); Ok (file_rule l p (file_len config) (file_cnt config))
        else Ok []);
  w ← of_option (save w file (preamble ++ r1 ++ r2));
  log_path ← cstr_of (log_path config);
  w ← ensure w log_path;
  if dzlog_init w file =? 0 then Ok (0, w) else Ok (-1, w).

(** A path that is set and not empty, or the built-in one. *)
Definition load_path (ini : dictionary) (name : string) (notfound : option cstr) (def : string) (buf : list Z) : res (list Z) :=
  s ← iniparser_getstring id (Some ini) (Some (chars name)) notfound;
  match s with
  | Some (c :: s) => strncpy buf (c :: s) 261
  | _ => strcpy buf (chars def)
  end.

Definition load_log_conf (load : option dictionary) (l : TimaLogConfig) : res (Z * TimaLogConfig) :=
  match load with
  | None => Ok (-1, l)
  | Some ini =>
      dp ← load_path ini "log:conf_path" None "./tima/" (data_path l);
      mode ← iniparser_getint strtol (Some ini) (Some (chars "log:log_mode")) 3;
      level ← iniparser_getint strtol (Some ini) (Some (chars "log:log_level")) 4;
      lp ← load_path ini "log:log_path" (Some (chars "./log/")) "./log/" (log_path l);
      len ← iniparser_getint strtol (Some ini) (Some (chars "log:log_file_len")) 10;
      cnt ← iniparser_getint strtol (Some ini) (Some (chars "log:log_file_cnt")) 15;
      _ ← iniparser_freedict (Some ini);
      Ok (0, MkLog dp lp mode level len cnt)
  end.

(** [TimaLogConfig config = {0}]; the result of [load_log_conf] is ignored. *)
Definition tima_log_init (w : W) (load : option dictionary) : res (Z * W) :=
  '(_, config) ← load_log_conf load (MkLog (replicate 261 0) (replicate 261 0) 0 0 0 0);
  tima_zlog_conf w config.
End logs.

(** ** What is set up *)

Lemma get_log_level_value_spec level : get_log_level_value level = (l ← ptr_off level; rd LOG_LEVELS l).
Proof.
  destruct (decide (0 <= level < 5)) as [Hl | Hl].
  - assert (level = 0 \/ level = 1 \/ level = 2 \/ level = 3 \/ level = 4) as [-> | [-> | [-> | [-> | ->]]]] by lia; reflexivity.
  - unfold get_log_level_value. cbn [LOG_LEVELS level_loop]. destruct (Z.leb_spec 0 level) as [H0 | H0].
    + rewrite (ptr_off_Ok level H0). cbn [mbind res_bind]. unfold rd. by rewrite lookup_ge_None_2 by (cbn; lia).
    + unfold ptr_off. by rewrite (proj2 (Z.leb_gt _ _)) by lia.
Qed.

(** A configured number. *)
Definition setting (strtol : cstr -> Z) (m : gmap cstr (option cstr)) (name : string) (def : Z) : Z :=
  match m !! chars name with Some (Some s) => i32 (strtol s) | _ => def end.

Definition path_of (m : gmap cstr (option cstr)) (name def : string) : cstr := default (chars def) (text m name).

(** The rules for a mode and a level. *)
Definition rules (mode : Z) (level path : cstr) (len cnt : Z) : cstr :=
  preamble ++ (if negb (Z.land mode 1 =? 0) then stdout_rule level else []) ++
    (if negb (Z.land mode 2 =? 0) then file_rule level path len cnt else []).

Lemma load_path_ok d m name notfound def buf :
  rep d m -> entry_name (chars name) = chars name -> notfound = None \/ notfound = Some (chars def) -> length buf = 261%nat ->
  (length (path_of m name def) < 261)%nat -> Forall (fun c => c <> 0) (path_of m name def) ->
  (length (chars def) < 261)%nat -> Forall (fun c => c <> 0) (chars def) ->
  exists b, load_path d name notfound def buf = Ok b /\ length b = 261%nat /\ cstr_of b = Ok (path_of m name def).
Proof.
  intros Hr Hn Hnf Hb Hl Hz Hd Hdz. unfold load_path. rewrite (getstring_rep id d m _ _ Hr), Hn. cbn [mbind res_bind].
  assert (C : exists b, strcpy buf (chars def) = Ok b /\ length b = 261%nat /\ cstr_of b = Ok (chars def)).
  { destruct (strcpy_ok buf (chars def)) as (b & -> & L & E); [lia | done |]. exists b. by rewrite L. }
  assert (S : forall s, (length s < 261)%nat -> Forall (fun c => c <> 0) s -> exists b, strncpy buf s 261 = Ok b /\ length b = 261%nat /\ cstr_of b = Ok s).
  { intros s L Z. destruct (strncpy_ok 261 buf s Hb Z) as (b & -> & Lb & E). exists b. by rewrite E, decide_True. }
  unfold path_of, text in *. destruct (m !! chars name) as [[[| c s] |] |]; cbn [id default] in *; try exact C; [by apply S |].
  destruct Hnf as [-> | ->]; [exact C |]. destruct (chars def) as [| c s] eqn:E; [exact C |]. by apply S.
Qed.

Lemma setting_ok strtol d m name z : rep d m -> entry_name (chars name) = chars name -> m !! chars name <> Some None -> 0 <= z < 2 ^ 31 ->
  iniparser_getint strtol (Some d) (Some (chars name)) z = Ok (setting strtol m name z).
Proof.
  intros Hr Hn Hm Hz. unfold iniparser_getint, iniparser_getlongint. rewrite (getstring_rep Str d m _ _ Hr), Hn. cbn [mbind res_bind].
  unfold setting. destruct (m !! chars name) as [[s |] |]; [done | done |]. cbn [mbind res_bind].
  by rewrite swrap_small by (cbn; lia).
Qed.

Section set_up.
Context {W : Type} `{FileSystemLaws W}.
Context (save : W -> cstr -> cstr -> option W) (dzlog_init : W -> cstr -> Z) (strtol : cstr -> Z).

(** What becomes of the file system when a directory is made sure of: nothing when the path is there; otherwise what comes before each
    slash of the path is made in order.  All of them are directories then, or those before the first one that is something else or
    cannot be made. *)
Definition made (w : W) (path : cstr) (w' : W) : Prop :=
  if access w path then w' = w
  else w' = (make_all w (parents path)).2 /\ grows w w' /\
    ((forall q s, q <> [] -> path = q ++ 47 :: s -> vpk_isdir w' q = 1) \/
     (exists qs q rest, parents path = qs ++ q :: rest /\ Forall (fun q => vpk_isdir w' q = 1) qs /\ make_one w' q = (false, w'))).

Lemma ensure_ok w path : path <> [] -> Forall (fun c => c <> 0) path -> (length path < 254)%nat -> exists w', ensure w path = Ok w' /\ made w path w'.
Proof.
  intros Hne Hz Hl. unfold ensure, made, vpk_exists. destruct (access w path); cbn [Z.eqb]; [by exists w |].
  assert (P : exists p, vpk_pathname_get w 256 path = Ok p).
  { unfold vpk_pathname_get, strcpy_to. destruct (strrchr path 47); [rewrite decide_True by (rewrite length_take; lia); by eexists |].
    destruct (_ =? 1); rewrite decide_True by (rewrite ?length_app; cbn; lia); by eexists. }
  destruct P as [p ->]. cbn [mbind res_bind].
  destruct (make_all w (parents path)) as [ok w'] eqn:Em. destruct (make_all_spec _ _ _ _ Em) as [G D].
  rewrite (mkdir_mult_parents w path Hz Hne) by (unfold FILENAME_MAX; lia). rewrite Em. exists w'. split_and!; [done | done | done |].
  destruct ok; [left | by right]. intros q s Hq ->. apply (proj1 (Forall_forall _ _) D), parents_spec. split; [done | by exists s].
Qed.

Lemma ensure_empty w : access w [] = false -> ensure w [] = UB.
Proof.
  intros Hempty. unfold ensure, vpk_exists. rewrite Hempty. cbn [Z.eqb]. unfold vpk_pathname_get. cbn [strrchr]. unfold strcpy_to.
  destruct (vpk_isdir w [] =? 1); rewrite decide_True by (cbn; lia); done.
Qed.

Lemma log_file_name path : (length path < 246)%nat -> Forall (fun c => c <> 0) path ->
  exists b p, vpk_snprintf (replicate 256 0) 0 MAX_PATH_SIZE (path ++ chars "/" ++ chars "zlog.conf") = Ok (b, p) /\ cstr_of b = Ok (path ++ chars "/zlog.conf").
Proof.
  intros Hl Hz. set (t := path ++ chars "/" ++ chars "zlog.conf").
  assert (Ht : (length t < 256)%nat) by (unfold t; rewrite !length_app; cbn; lia).
  assert (Hf : Forall (fun c => c <> 0) t) by (unfold t; apply Forall_app; split; [done | by_decide]).
  unfold vpk_snprintf. change (ptr_off 0) with (Ok 0%nat). cbn [mbind res_bind].
  change (ptr_off (u64 (MAX_PATH_SIZE - 0))) with (Ok 260%nat). cbn [mbind res_bind]. unfold snprintf. rewrite take_ge by lia. cbn [decide].
  assert (B : exists b, blk_store 0 (t ++ [0]) (replicate 256 0) = Ok b /\ cstr_of b = Ok t).
  { destruct (strcpy_ok (replicate 256 0) t) as (b & E & _ & C); [rewrite length_replicate; lia | done |]. by exists b. }
  destruct B as (b & E & C). rewrite decide_False by done. rewrite E. cbn [mbind res_bind]. rewrite wrap_small by lia.
  rewrite Z.geb_leb, (proj2 (Z.leb_gt _ _)) by (unfold MAX_PATH_SIZE; lia). by exists b, (0 + Z.of_nat (length t)).
Qed.

Lemma load_log_conf_ok d m : rep d m ->
  (forall name, In name ["log:log_mode"; "log:log_level"; "log:log_file_len"; "log:log_file_cnt"]%string -> m !! chars name <> Some None) ->
  (length (path_of m "log:conf_path" "./tima/") < 261)%nat -> Forall (fun c => c <> 0) (path_of m "log:conf_path" "./tima/") ->
  (length (path_of m "log:log_path" "./log/") < 261)%nat -> Forall (fun c => c <> 0) (path_of m "log:log_path" "./log/") ->
  exists dp lp, cstr_of dp = Ok (path_of m "log:conf_path" "./tima/") /\ cstr_of lp = Ok (path_of m "log:log_path" "./log/") /\
    load_log_conf strtol (Some d) (MkLog (replicate 261 0) (replicate 261 0) 0 0 0 0) =
      Ok (0, MkLog dp lp (setting strtol m "log:log_mode" 3) (setting strtol m "log:log_level" 4)
               (setting strtol m "log:log_file_len" 10) (setting strtol m "log:log_file_cnt" 15)).
Proof.
  intros Hr Hn L1 Z1 L2 Z2. unfold load_log_conf. cbn [data_path log_path].
  destruct (load_path_ok d m "log:conf_path" None "./tima/" (replicate 261 0) Hr) as (dp & -> & _ & Cd);
    [done | by left | done | done | done | cbn; lia | by_decide |].
  cbn [mbind res_bind]. rewrite !(setting_ok strtol d m) by (done || lia || (apply Hn; cbn; auto 6)). cbn [mbind res_bind].
  destruct (load_path_ok d m "log:log_path" (Some (chars "./log/")) "./log/" (replicate 261 0) Hr) as (lp & -> & _ & Cl);
    [done | by right | done | done | done | cbn; lia | by_decide |].
  cbn [mbind res_bind]. unfold iniparser_freedict. rewrite (del_ok d m Hr). by exists dp, lp.
Qed.

(** C38.  The log.  With a configuration whose paths fit (less than 246 and 254 bytes, the defaults among them): unless the directory of
    the data is there, what comes before each slash of its path is made, in order, up to the first one that cannot be a directory, and
    nothing else; the file in that directory, or the one in /tmp when there is still no such directory, gets the preamble and the rules of the
    mode and the level; then the directory of the log is made in the same way, and the result is the one of the log library.  What was
    there before keeps its kind.  A file that cannot be written, a level other than 0 to 4 when a rule needs it, and a configuration file
    that cannot be read are undefined: a NULL stream, a read outside the table of the names, and the directory of an empty path. *)
Theorem log_set_up (w : W) (d : dictionary) (m : gmap cstr (option cstr)) (Hr : rep d m)
    (Hn : forall name, In name ["log:log_mode"; "log:log_level"; "log:log_file_len"; "log:log_file_cnt"]%string -> m !! chars name <> Some None)
    (dp lp : cstr) (Edp : path_of m "log:conf_path" "./tima/" = dp) (Elp : path_of m "log:log_path" "./log/" = lp)
    (Ldp : (length dp < 246)%nat) (Llp : (length lp < 254)%nat) (Zdp : Forall (fun c => c <> 0) dp) (Zlp : Forall (fun c => c <> 0) lp)
    (Hempty : access w [] = false) :
  let mode := setting strtol m "log:log_mode" 3 in
  let level := setting strtol m "log:log_level" 4 in
  let init := tima_log_init save dzlog_init strtol in
  (exists w1, made w dp w1 /\
    let file := if vpk_exists w1 dp =? 0 then chars "/tmp/zlog.conf" else dp ++ chars "/zlog.conf" in
    (forall l w2, 0 <= level /\ rd LOG_LEVELS (Z.to_nat level) = Ok l \/ Z.land mode 1 = 0 /\ Z.land mode 2 = 0 ->
       save w1 file (rules mode l lp (setting strtol m "log:log_file_len" 10) (setting strtol m "log:log_file_cnt" 15)) = Some w2 ->
       exists w3, made w2 lp w3 /\ init w (Some d) = Ok (if dzlog_init w3 file =? 0 then 0 else -1, w3)) /\
    ((forall t, save w1 file t = None) -> init w (Some d) = UB)) /\
  (~ 0 <= level < 5 -> Z.land mode 1 <> 0 \/ Z.land mode 2 <> 0 -> init w (Some d) = UB) /\
  init w None = UB.
Proof.
  cbv zeta. assert (Nd : dp <> []). { rewrite <- Edp. unfold path_of, text. by destruct (m !! _) as [[[|] |] |]. }
  assert (Nl : lp <> []). { rewrite <- Elp. unfold path_of, text. by destruct (m !! _) as [[[|] |] |]. }
  destruct (load_log_conf_ok d m Hr Hn) as (dpb & lpb & Cd & Cl & E); rewrite ?Edp, ?Elp; [lia | done | lia | done |]. rewrite Edp in Cd. rewrite Elp in Cl.
  destruct (ensure_ok w dp Nd Zdp) as (w1 & E1 & G1); [lia |].
  set (mode := setting strtol m "log:log_mode" 3) in *. set (level := setting strtol m "log:log_level" 4) in *.
  set (len := setting strtol m "log:log_file_len" 10) in *. set (cnt := setting strtol m "log:log_file_cnt" 15) in *.
  set (file := if vpk_exists w1 dp =? 0 then chars "/tmp/zlog.conf" else dp ++ chars "/zlog.conf").
  assert (F : forall X (k : cstr -> res X), (b ← (if vpk_exists w1 dp =? 0 then strcpy (replicate 256 0) (chars "/tmp/zlog.conf")
          else '(file, _) ← vpk_snprintf (replicate 256 0) 0 MAX_PATH_SIZE (dp ++ chars "/" ++ chars "zlog.conf"); Ok file); b ← cstr_of b; k b) = k file).
  { intros X k. unfold file. destruct (vpk_exists w1 dp =? 0).
    - destruct (strcpy_ok (replicate 256 0) (chars "/tmp/zlog.conf")) as (b & -> & _ & C); [cbn; lia | by_decide |]. cbn [mbind res_bind]. by rewrite C.
    - destruct (log_file_name dp Ldp Zdp) as (b & p & -> & C). cbn [mbind res_bind]. by rewrite C. }
  assert (S : tima_log_init save dzlog_init strtol w (Some d) =
    (r1 ← (if negb (Z.land mode 1 =? 0) then l ← get_log_level_value level; Ok (stdout_rule l) else Ok []);
     r2 ← (if negb (Z.land mode 2 =? 0) then l ← get_log_level_value level; p ← Ok lp; Ok (file_rule l p len cnt) else Ok []);
     w ← of_option (save w1 file (preamble ++ r1 ++ r2)); w ← ensure w lp;
     if dzlog_init w file =? 0 then Ok (0, w) else Ok (-1, w))).
  { unfold tima_log_init. rewrite E. cbn [mbind res_bind]. unfold tima_zlog_conf. cbn [data_path log_path log_mode log_level file_len file_cnt].
    rewrite Cd. cbn [mbind res_bind]. rewrite E1. cbn [mbind res_bind]. cbn [mbind res_bind] in F. rewrite F, Cl. done. }
  split_and!.
  - exists w1. fold file. split_and!; [done | |].
    + intros l w2 Hl Hs. rewrite S, !get_log_level_value_spec.
      unfold rules in Hs. destruct (ensure_ok w2 lp Nl Zlp Llp) as (w3 & E3 & G3). exists w3. split; [done |].
      destruct Hl as [[Hge Hl] | [M1 M2]].
      * rewrite (ptr_off_Ok level Hge). cbn [mbind res_bind]. rewrite Hl. cbn [mbind res_bind].
        destruct (negb (Z.land mode 1 =? 0)), (negb (Z.land mode 2 =? 0)); cbn [mbind res_bind]; rewrite Hs; cbn [of_option mbind res_bind]; rewrite E3;
          cbn [mbind res_bind]; by destruct (dzlog_init w3 file =? 0).
      * rewrite M1, M2 in Hs |- *. cbn [Z.eqb negb mbind res_bind] in Hs |- *. rewrite Hs. cbn [of_option mbind res_bind]. rewrite E3.
        cbn [mbind res_bind]. by destruct (dzlog_init w3 file =? 0).
    + intros Hs. rewrite S, !get_log_level_value_spec. destruct (l ← ptr_off level; rd LOG_LEVELS l) as [l | |] eqn:El.
      * destruct (negb (Z.land mode 1 =? 0)), (negb (Z.land mode 2 =? 0)); cbn [mbind res_bind]; by rewrite Hs.
      * destruct (negb (Z.land mode 1 =? 0)), (negb (Z.land mode 2 =? 0)); cbn [mbind res_bind]; by rewrite ?Hs.
      * unfold ptr_off, rd in El. destruct (0 <=? level); cbn in El; [destruct (LOG_LEVELS !! _) | ]; done.
  - intros Hlev Hmode. rewrite S, !get_log_level_value_spec.
    replace (l ← ptr_off level; rd LOG_LEVELS l) with (@UB cstr).
    + destruct Hmode as [Hm | Hm]; rewrite (proj2 (Z.eqb_neq _ _) Hm); cbn [negb]; [done |]. by destruct (negb (Z.land mode 1 =? 0)).
    + unfold ptr_off. destruct (Z.leb_spec 0 level) as [Hge |]; [| done]. cbn [mbind res_bind]. unfold rd. by rewrite lookup_ge_None_2 by (cbn; lia).
  - unfold tima_log_init. cbn [load_log_conf mbind res_bind]. unfold tima_zlog_conf. cbn [data_path log_path log_mode].
    change (cstr_of (replicate 261 0)) with (@Ok cstr []). cbn [mbind res_bind]. by rewrite (ensure_empty w Hempty).
Qed.
End set_up.

(** A file system that stores what is written; an empty configuration. *)
Definition save_file (w : flat) (file text : cstr) : option flat := Some (<[file := (S_IFREG, Z.of_nat (length text))]> w).

Lemma log_set_up_witness :
  exists w3, tima_log_init save_file (fun _ _ => 0) (fun _ => 0) (∅ : flat) (Some empty_dict) = Ok (0, w3) /\ vpk_isdir w3 (chars "./log") = 1.
Proof.
  destruct (dictionary_new_rep 0 empty_dict eq_refl eq_refl) as [Hr _].
  destruct (log_set_up save_file (fun _ _ => 0) (fun _ => 0) (∅ : flat) empty_dict ∅ Hr ltac:(by intros) (chars "./tima/") (chars "./log/") eq_refl eq_refl
    ltac:(cbn; lia) ltac:(cbn; lia) ltac:(by repeat constructor) ltac:(by repeat constructor) eq_refl) as ((w1 & M1 & H & _) & _).
  cbn [access flat_fs made] in M1. destruct M1 as [-> _].
  destruct (H (chars "DEBUG") _ ltac:(left; done) eq_refl) as (w3 & M3 & E). exists w3. split; [done |].
  destruct M3 as [-> _]. vm_compute. reflexivity.
Defined.
