(* ===== verification/LinkedList.v ===== *)
(** * Linked lists with a free list

    [common/threadpool/LinkedList.c] and [FreeList.c]: doubly linked lists between two sentinels of the
    structure, whose nodes come from a list of freed elements or from [malloc].  A node of a list is in
    the heap of links and has an item; an element of a free list is known by its [next] word; both are
    among the allocated blocks.  The address 0 is NULL. *)

From S2P Require Import Prelude List.

(** ** Freed elements *)

(** The blocks [malloc] gave that were not freed, and the [next] words of the elements kept for reuse. *)
Record store := MkStore { blocks : gset Z; kept : gmap Z Z }.

Record FreeList := MkFreeList { free_head : Z; freeListLength : Z; maxFreeListLength : Z }.

Definition FreeListInit (maxFreeListLength : Z) : FreeList := MkFreeList 0 0 maxFreeListLength.

Definition free (a : Z) (s : store) : res store :=
  if a =? 0 then Ok s else if decide (a ∈ blocks s) then Ok (MkStore (blocks s ∖ {[a]}) (kept s)) else UB.

(** [m]: what [malloc] returns, when it is asked. *)
Definition FreeListAlloc (m : Z) (fl : FreeList) (s : store) : res (Z * FreeList * store) :=
  if negb (free_head fl =? 0) then
    next ← of_option (kept s !! free_head fl);
    Ok (free_head fl, MkFreeList next (freeListLength fl - 1) (maxFreeListLength fl), MkStore (blocks s) (delete (free_head fl) (kept s)))
  else Ok (m, fl, if m =? 0 then s else MkStore ({[m]} ∪ blocks s) (kept s)).

Definition FreeListFree (element : Z) (fl : FreeList) (s : store) : res (FreeList * store) :=
  if negb (element =? 0) && (freeListLength fl + 1 <? maxFreeListLength fl) then
    _ ← assert_ok (bool_decide (element ∈ blocks s));
    Ok (MkFreeList element (freeListLength fl + 1) (maxFreeListLength fl), MkStore (blocks s) (<[element := free_head fl]> (kept s)))
  else s ← free element s; Ok (fl, s).

Fixpoint free_all (fuel : nat) (head : Z) (s : store) : res store :=
  match fuel with
  | O => NoFuel
  | S fuel =>
      if head =? 0 then Ok s else
      temp ← of_option (kept s !! head);
      s ← free head (MkStore (blocks s) (delete head (kept s))); free_all fuel temp s
  end.

Definition FreeListDestroy (fuel : nat) (fl : FreeList) (s : store) : res (FreeList * store) :=
  s ← free_all fuel (free_head fl) s; Ok (MkFreeList 0 0 (maxFreeListLength fl), s).

(** ** Lists *)

Section lists.
Context {A : Type} `{EqDecision A}.

(** The sentinels are at [head] and [tail]. *)
Record LinkedList := MkList {
  head : Z; tail : Z; size : Z; freeNodeList : FreeList; has_free_func : bool; cmp_func : option (A -> A -> bool)
}.

Record memory := MkMem { links : heap; items : gmap Z A; elems : store }.

Definition get_item (a : Z) (M : memory) : res A := of_option (items M !! a).

Definition with_links (M : memory) (h : heap) : memory := MkMem h (items M) (elems M).

Definition grown (l : LinkedList) (by_ : Z) (fl : FreeList) : LinkedList :=
  MkList (head l) (tail l) (size l + by_) fl (has_free_func l) (cmp_func l).

(** The node is no longer one. *)
Definition freeListNode (node : Z) (l : LinkedList) (M : memory) : res (LinkedList * memory) :=
  '(fl, s) ← FreeListFree node (freeNodeList l) (elems M);
  Ok (grown l 0 fl, MkMem (Heap (delete node (nexts (links M))) (delete node (prevs (links M)))) (delete node (items M)) s).

Definition CreateListNode (m : Z) (item : A) (l : LinkedList) (M : memory) : res (Z * LinkedList * memory) :=
  '(temp, fl, s) ← FreeListAlloc m (freeNodeList l) (elems M);
  if temp =? 0 then Ok (0, grown l 0 fl, MkMem (links M) (items M) s) else
  Ok (temp, grown l 0 fl, MkMem (Heap (<[temp := 0]> (nexts (links M))) (<[temp := 0]> (prevs (links M)))) (<[temp := item]> (items M)) s).

(** The structure at [hd] and [tl]. *)
Definition ListInit (hd tl : Z) (cmp : option (A -> A -> bool)) (free_func : bool) (M : memory) : Z * LinkedList * memory :=
  (0, MkList hd tl 0 (FreeListInit 100) free_func cmp,
   with_links M (Heap (<[tl := 0]> (<[hd := tl]> (nexts (links M)))) (<[tl := hd]> (<[hd := 0]> (prevs (links M)))))).

Definition ListAddAfter (m : Z) (l : LinkedList) (item : A) (bnode : Z) (M : memory) : res (Z * LinkedList * memory) :=
  if bnode =? 0 then Ok (0, l, M) else
  '(newNode, l, M) ← CreateListNode m item l M;
  if newNode =? 0 then Ok (0, l, M) else
  let h := links M in
  temp ← get_next bnode h;
  h ← set_next bnode newNode h;
  h ← set_prev newNode bnode h;
  h ← set_next newNode temp h;
  h ← set_prev temp newNode h;
  Ok (newNode, grown l 1 (freeNodeList l), with_links M h).

Definition ListAddBefore (m : Z) (l : LinkedList) (item : A) (anode : Z) (M : memory) : res (Z * LinkedList * memory) :=
  if anode =? 0 then Ok (0, l, M) else
  '(newNode, l, M) ← CreateListNode m item l M;
  if newNode =? 0 then Ok (0, l, M) else
  let h := links M in
  temp ← get_prev anode h;
  h ← set_prev anode newNode h;
  h ← set_next newNode anode h;
  h ← set_prev newNode temp h;
  h ← set_next temp newNode h;
  Ok (newNode, grown l 1 (freeNodeList l), with_links M h).

Definition ListAddHead (m : Z) (l : LinkedList) (item : A) (M : memory) := ListAddAfter m l item (head l) M.
Definition ListAddTail (m : Z) (l : LinkedList) (item : A) (M : memory) := ListAddBefore m l item (tail l) M.

(** The item, [None] when it was given to [free_func]; the items that were. *)
Definition ListDelNode (l : LinkedList) (dnode : Z) (freeItem : bool) (M : memory) : res (option A * list A * LinkedList * memory) :=
  _ ← assert_ok (negb (dnode =? head l) && negb (dnode =? tail l));
  if dnode =? 0 then Ok (None, [], l, M) else
  temp ← get_item dnode M;
  let h := links M in
  p ← get_prev dnode h; n ← get_next dnode h; h ← set_next p n h;
  n ← get_next dnode h; p ← get_prev dnode h; h ← set_prev n p h;
  '(l, M) ← freeListNode dnode l (with_links M h);
  let l := grown l (-1) (freeNodeList l) in
  if freeItem && has_free_func l then Ok (None, [temp], l, M) else Ok (Some temp, [], l, M).

Fixpoint destroy_loop (fuel : nat) (l : LinkedList) (dnode : Z) (freeItem : bool) (M : memory) : res (list A * LinkedList * memory) :=
  match fuel with
  | O => NoFuel
  | S fuel =>
      if dnode =? tail l then Ok ([], l, M) else
      temp ← get_next dnode (links M);
      '(_, freed, l, M) ← ListDelNode l dnode freeItem M;
      '(more, l, M) ← destroy_loop fuel l temp freeItem M; Ok (freed ++ more, l, M)
  end.

Definition ListDestroy (fuel : nat) (l : LinkedList) (freeItem : bool) (M : memory) : res (list A * LinkedList * memory) :=
  first ← get_next (head l) (links M);
  '(freed, l, M) ← destroy_loop fuel l first freeItem M;
  '(fl, s) ← FreeListDestroy fuel (freeNodeList l) (elems M);
  Ok (freed, MkList (head l) (tail l) 0 fl (has_free_func l) (cmp_func l), MkMem (links M) (items M) s).

Definition ListHead (l : LinkedList) (M : memory) : res Z := if size l =? 0 then Ok 0 else get_next (head l) (links M).
Definition ListTail (l : LinkedList) (M : memory) : res Z := if size l =? 0 then Ok 0 else get_prev (tail l) (links M).

Definition ListNext (l : LinkedList) (node : Z) (M : memory) : res Z :=
  n ← get_next node (links M); Ok (if n =? tail l then 0 else n).
Definition ListPrev (l : LinkedList) (node : Z) (M : memory) : res Z :=
  p ← get_prev node (links M); Ok (if p =? head l then 0 else p).

Fixpoint find_loop (fuel : nat) (l : LinkedList) (finger : Z) (item : A) (M : memory) : res Z :=
  match fuel with
  | O => NoFuel
  | S fuel =>
      if finger =? tail l then Ok 0 else
      x ← get_item finger M;
      if match cmp_func l with Some cmp => cmp item x | None => bool_decide (item = x) end then Ok finger else
      next ← get_next finger (links M); find_loop fuel l next item M
  end.

Definition ListFind (fuel : nat) (l : LinkedList) (start : Z) (item : A) (M : memory) : res Z :=
  let start := if start =? 0 then head l else start in
  finger ← get_next start (links M); find_loop fuel l finger item M.

Definition ListSize (l : LinkedList) : Z := size l.
End lists.
Arguments LinkedList A : clear implicits.
Arguments memory A : clear implicits.

(** ** The free list *)

Fixpoint fchain (k : gmap Z Z) (a : Z) (fs : list Z) : Prop :=
  match fs with [] => a = 0 | f :: fs => a = f /\ exists next, k !! f = Some next /\ fchain k next fs end.

(** The elements kept, in order: fewer than the limit. *)
Record flist (fl : FreeList) (s : store) (fs : list Z) : Prop := {
  fl_chain : fchain (kept s) (free_head fl) fs;
  fl_NoDup : NoDup (0 :: fs);
  fl_length : freeListLength fl = Z.of_nat (length fs);
  fl_max : freeListLength fl < maxFreeListLength fl;
  fl_blocks : forall a, a ∈ fs -> a ∈ blocks s
}.

Lemma fchain_frame k k' a fs : (forall x, x ∈ fs -> k' !! x = k !! x) -> fchain k a fs -> fchain k' a fs.
Proof.
  revert a; induction fs as [| f fs IH]; intros a Hk; cbn [fchain]; [done |]. intros (-> & next & Hn & H). split; [done |].
  exists next. rewrite Hk by left. split; [done |]. apply IH; [| done]. intros x Hx. apply Hk. by right.
Qed.

Lemma alloc_kept m fl s f fs : flist fl s (f :: fs) ->
  exists fl' s', FreeListAlloc m fl s = Ok (f, fl', s') /\ flist fl' s' fs /\ blocks s' = blocks s.
Proof.
  intros [(Hh & next & Hn & Hc) Hd Hl Hm Hb]. unfold FreeListAlloc. rewrite Hh.
  assert (f <> 0) by (intros ->; apply NoDup_cons in Hd as [Hd _]; apply Hd; left).
  rewrite (proj2 (Z.eqb_neq _ _)) by done. cbn [negb]. rewrite Hn. cbn [of_option mbind res_bind]. eexists _, _. split; [done |].
  split; [| done]. rewrite !NoDup_cons in Hd. cbn in Hl. split; cbn [free_head kept freeListLength maxFreeListLength blocks]; [| | lia | lia | set_solver].
  - apply (fchain_frame (kept s)); [| done]. intros x Hx. rewrite lookup_delete_ne; [done | set_solver].
  - rewrite NoDup_cons. set_solver.
Qed.

Lemma alloc_new m fl s : flist fl s [] ->
  exists s', FreeListAlloc m fl s = Ok (m, fl, s') /\ flist fl s' [] /\ blocks s' = if m =? 0 then blocks s else {[m]} ∪ blocks s.
Proof.
  intros [Hh Hd Hl Hm Hb]. cbn in Hh. unfold FreeListAlloc. rewrite Hh. cbn [Z.eqb negb]. eexists. split; [done |].
  destruct (m =? 0); (split; [by split; try done; set_solver | done]).
Qed.

(** An element given back is kept, or freed when the limit is reached. *)
Lemma free_spec a fl s fs : flist fl s fs -> a ∈ blocks s -> a ∉ 0 :: fs ->
  exists fl' s', FreeListFree a fl s = Ok (fl', s') /\
    ((flist fl' s' (a :: fs) /\ blocks s' = blocks s) \/ (flist fl' s' fs /\ blocks s' = blocks s ∖ {[a]})).
Proof.
  intros [Hc Hd Hl Hm Hb] Ha Hn. assert (a <> 0) by set_solver. unfold FreeListFree. rewrite (proj2 (Z.eqb_neq a 0)) by done. cbn [negb andb].
  destruct (Z.ltb_spec (freeListLength fl + 1) (maxFreeListLength fl)).
  - rewrite bool_decide_true by done. cbn [assert_ok mbind res_bind]. eexists _, _. split; [done |]. left. split; [| done].
    split; cbn [free_head kept freeListLength maxFreeListLength blocks].
    + split; [done |]. exists (free_head fl). rewrite lookup_insert_eq. split; [done |].
      apply (fchain_frame (kept s)); [| done]. intros x Hx. rewrite lookup_insert_ne; [done | set_solver].
    + rewrite !NoDup_cons in *. set_solver.
    + cbn. lia.
    + lia.
    + set_solver.
  - unfold free. rewrite (proj2 (Z.eqb_neq a 0)), decide_True by done. cbn [mbind res_bind]. eexists _, _. split; [done |]. right.
    split; [| done]. split; cbn [kept blocks]; try done. set_solver.
Qed.

Lemma free_all_spec fs : forall fuel a s, fchain (kept s) a fs -> NoDup (0 :: fs) -> (forall x, x ∈ fs -> x ∈ blocks s) -> (length fs < fuel)%nat ->
  exists s', free_all fuel a s = Ok s' /\ blocks s' = blocks s ∖ list_to_set fs.
Proof.
  induction fs as [| f fs IH]; intros fuel a s Hc Hd Hb Hf; (destruct fuel as [| fuel]; [cbn in Hf; lia |]); cbn [free_all].
  - cbn in Hc. subst a. exists s. split; [done |]. set_solver.
  - destruct Hc as (-> & next & Hn & Hc). rewrite !NoDup_cons in Hd. destruct Hd as (H0 & Hff & Hd). assert (f <> 0) by set_solver.
    rewrite (proj2 (Z.eqb_neq f 0)), Hn by done. cbn [of_option mbind res_bind]. unfold free at 1. rewrite (proj2 (Z.eqb_neq f 0)) by done. cbn [blocks kept].
    rewrite decide_True by (apply Hb; left). cbn [mbind res_bind].
    destruct (IH fuel next (MkStore (blocks s ∖ {[f]}) (delete f (kept s)))) as (s' & -> & E); cbn [blocks kept].
    + apply (fchain_frame (kept s)); [| done]. intros x Hx. rewrite lookup_delete_ne; [done | set_solver].
    + apply NoDup_cons. set_solver.
    + intros x Hx. assert (x ∈ blocks s) by (apply Hb; by right). set_solver.
    + cbn in Hf. lia.
    + exists s'. split; [done |]. rewrite E. cbn [blocks list_to_set]. set_solver.
Qed.

(** ** Paths between the sentinels *)

(** A position of a path from [x] to [y]. *)
Lemma path_edge h x y l1 l2 : linked h x (l1 ++ l2 ++ [y]) -> edge h (before x l1) (after l2 y).
Proof. rewrite linked_split. tauto. Qed.

Lemma path_ends x y l1 l2 : before x l1 ∈ x :: l1 ++ l2 /\ after l2 y ∈ y :: l1 ++ l2.
Proof.
  split; [| destruct l2; cbn; set_solver].
  destruct l1 as [| z l1 _] using rev_ind; cbn; [set_solver |]. rewrite before_snoc. set_solver.
Qed.

(** Whatever the order of the four stores. *)
Lemma path_insert h h' x y l1 l2 a : NoDup (x :: l1 ++ l2) -> y ∉ l1 ++ l2 -> linked h x (l1 ++ l2 ++ [y]) -> a ∉ x :: y :: l1 ++ l2 ->
  nexts h' = <[a := after l2 y]> (<[before x l1 := a]> (nexts h)) ->
  prevs h' = <[a := before x l1]> (<[after l2 y := a]> (prevs h)) ->
  linked h' x (l1 ++ a :: l2 ++ [y]).
Proof.
  intros Hd Hy Hl Ha En Ep. pose proof (path_ends x y l1 l2) as [Hb Hf]. apply linked_split in Hl as (H1 & _ & H3).
  assert (a <> before x l1) by (intros ->; set_solver). assert (a <> after l2 y) by (intros ->; set_solver).
  apply (bridge_path h h' x y l1 [a] l2); [done.. | | |].
  - intros u Hu Hne. rewrite En, !lookup_insert_ne; [done | done | set_solver].
  - intros v Hv Hne. rewrite Ep, !lookup_insert_ne; [done | done | set_solver].
  - cbn. unfold edge. rewrite En, Ep. split_and!; [| | | | done]; rewrite ?lookup_insert_eq; try done.
    + rewrite lookup_insert_ne by done. by rewrite lookup_insert_eq.
    + rewrite lookup_insert_ne by done. by rewrite lookup_insert_eq.
Qed.

Lemma path_delete h h' x y l1 l2 a : NoDup (x :: l1 ++ a :: l2) -> y ∉ l1 ++ a :: l2 -> linked h x (l1 ++ a :: l2 ++ [y]) ->
  nexts h' = delete a (<[before x l1 := after l2 y]> (nexts h)) ->
  prevs h' = delete a (<[after l2 y := before x l1]> (prevs h)) -> y <> a ->
  linked h' x (l1 ++ l2 ++ [y]).
Proof.
  intros Hd Hy Hl En Ep Hya. assert (Hd' : NoDup (x :: l1 ++ l2) /\ a ∉ x :: l1 ++ l2) by by apply ring_NoDup_del.
  destruct Hd' as [Hd1 Ha]. pose proof (path_ends x y l1 l2) as [Hb Hf].
  assert (a <> before x l1) by (intros ->; set_solver). assert (a <> after l2 y) by (intros ->; set_solver).
  pose proof (linked_split h x l1 (a :: l2) y) as S. cbn [app after hd] in S. apply S in Hl as (H1 & _ & H3).
  apply (linked_split h a [] l2 y) in H3 as (_ & _ & H3).
  apply (bridge_path h h' x y l1 [] l2); [done | set_solver | done | done | | |].
  - intros u Hu Hne. rewrite En, lookup_delete_ne, lookup_insert_ne; [done | done | set_solver].
  - intros v Hv Hne. rewrite Ep, lookup_delete_ne, lookup_insert_ne; [done | done | set_solver].
  - cbn. unfold edge. rewrite En, Ep. split; [| done]. split; rewrite lookup_delete_ne by done; by rewrite lookup_insert_eq.
Qed.

(** ** A list *)

Section spec.
Context {A : Type} `{EqDecision A}.
Implicit Types (l : LinkedList A) (M : memory A) (xs : list (Z * A)).

(** The list holds the nodes and items [xs]; its free list holds [fs]; the other blocks are [B]. *)
Record llist l M xs (fs : list Z) (B : gset Z) : Prop := {
  ll_nodes : NoDup (0 :: head l :: tail l :: xs.*1 ++ fs);
  ll_links : linked (links M) (head l) (xs.*1 ++ [tail l]);
  ll_items : Forall (fun ax => items M !! ax.1 = Some ax.2) xs;
  ll_size : size l = Z.of_nat (length xs);
  ll_free : flist (freeNodeList l) (elems M) fs;
  ll_blocks : blocks (elems M) = list_to_set (xs.*1 ++ fs) ∪ B;
  ll_apart : forall a, a ∈ head l :: tail l :: xs.*1 ++ fs -> a ∉ B
}.

(** What [malloc] may return. *)
Definition fresh l M (m : Z) : Prop := m = 0 \/ (m ∉ blocks (elems M) /\ m <> head l /\ m <> tail l).

Definition same_list l l' : Prop := head l' = head l /\ tail l' = tail l /\ has_free_func l' = has_free_func l /\ cmp_func l' = cmp_func l.

Lemma ll_paths l M xs1 xs2 fs B : llist l M (xs1 ++ xs2) fs B ->
  NoDup (head l :: xs1.*1 ++ xs2.*1) /\ tail l ∉ xs1.*1 ++ xs2.*1 /\ linked (links M) (head l) (xs1.*1 ++ xs2.*1 ++ [tail l]).
Proof.
  intros [Hd Hl _ _ _ _ _]. rewrite fmap_app in Hd. rewrite fmap_app, <- app_assoc in Hl. rewrite !NoDup_cons in Hd.
  destruct Hd as (_ & Hh & Ht & Hd). apply NoDup_app in Hd as (Hd & _ & _). split_and!; [| set_solver | done].
  apply NoDup_cons. split; [set_solver | done].
Qed.

(** A node is taken for an item. *)
Lemma node_taken l M xs fs B m item : llist l M xs fs B -> fresh l M m ->
  (fs = [] /\ m = 0 /\ exists l' M', CreateListNode m item l M = Ok (0, l', M') /\ llist l' M' xs [] B /\ same_list l l') \/
  (exists a l' M' fs', CreateListNode m item l M = Ok (a, l', M') /\ a ∉ 0 :: head l :: tail l :: xs.*1 ++ fs' /\ a ∉ B /\ same_list l l' /\
     NoDup (0 :: head l :: tail l :: xs.*1 ++ fs') /\ size l' = size l /\ flist (freeNodeList l') (elems M') fs' /\
     blocks (elems M') = {[a]} ∪ list_to_set (xs.*1 ++ fs') ∪ B /\ (forall b, b ∈ head l :: tail l :: xs.*1 ++ fs' -> b ∉ B) /\
     links M' = Heap (<[a := 0]> (nexts (links M))) (<[a := 0]> (prevs (links M))) /\ items M' = <[a := item]> (items M)).
Proof.
  intros [Hd Hl Hi Hs Hf Hb Ha] Hm. unfold CreateListNode. destruct fs as [| f fs].
  - destruct (alloc_new m _ _ Hf) as (s' & -> & Hf' & Hb'). cbn [mbind res_bind]. destruct (Z.eqb_spec m 0) as [-> | Hm0].
    + left. split_and!; [done | done |]. eexists _, _. split; [done |]. split; [| done].
      split; cbn [grown head tail size freeNodeList links items elems]; rewrite ?Hb'; try done. lia.
    + right. destruct Hm as [? | (Hm & Hmh & Hmt)]; [done |]. exists m. eexists _, _, []. split; [done |]. rewrite Hb in Hm.
      cbn [grown head tail size freeNodeList links items elems]. split_and!; try done; [set_solver | set_solver | lia | rewrite Hb', Hb; set_solver].
  - right. destruct (alloc_kept m _ _ f fs Hf) as (fl' & s' & -> & Hf' & Hb'). cbn [mbind res_bind].
    assert (P : 0 :: head l :: tail l :: xs.*1 ++ f :: fs ≡ₚ f :: 0 :: head l :: tail l :: xs.*1 ++ fs).
    { symmetry. apply (Permutation_middle (0 :: head l :: tail l :: xs.*1) fs f). }
    pose proof Hd as Hd0. rewrite P in Hd. apply NoDup_cons in Hd as [Hff Hd]. rewrite (proj2 (Z.eqb_neq f 0)) by set_solver.
    exists f. eexists _, _, fs. split; [done |]. cbn [grown head tail size freeNodeList links items elems].
    split_and!; try done; [apply Ha; set_solver | lia | rewrite Hb', Hb; rewrite !list_to_set_app_L; cbn [list_to_set]; set_solver | intros b Hbin; apply Ha; set_solver].
Qed.

Lemma front_to_back (a x y z : Z) (s : list Z) : x :: y :: z :: a :: s ≡ₚ a :: x :: y :: z :: s.
Proof. symmetry. apply (Permutation_middle [x; y; z] s a). Qed.

Lemma front_or_back (a y z : Z) (s : list Z) : y :: z :: a :: s ≡ₚ a :: y :: z :: s.
Proof. symmetry. apply (Permutation_middle [y; z] s a). Qed.

(** What is known of a list with a new node between [xs1] and [xs2] once the links are made. *)
Lemma inserted l M xs1 xs2 fs B l' M' a x s : llist l M (xs1 ++ xs2) fs B ->
  a ∉ 0 :: head l :: tail l :: (xs1 ++ xs2).*1 ++ s -> a ∉ B -> same_list l l' -> NoDup (0 :: head l :: tail l :: (xs1 ++ xs2).*1 ++ s) ->
  size l' = size l + 1 -> flist (freeNodeList l') (elems M') s -> blocks (elems M') = {[a]} ∪ list_to_set ((xs1 ++ xs2).*1 ++ s) ∪ B ->
  (forall b, b ∈ head l :: tail l :: (xs1 ++ xs2).*1 ++ s -> b ∉ B) -> items M' = <[a := x]> (items M) ->
  nexts (links M') = <[a := after xs2.*1 (tail l)]> (<[before (head l) xs1.*1 := a]> (nexts (links M))) ->
  prevs (links M') = <[a := before (head l) xs1.*1]> (<[after xs2.*1 (tail l) := a]> (prevs (links M))) ->
  llist l' M' (xs1 ++ (a, x) :: xs2) s B.
Proof.
  intros Hl Ha HaB (Eh & Et & _) Hd Hs Hf Hb HB Hi En Ep. pose proof (ll_paths _ _ _ _ _ _ Hl) as (P1 & P2 & P3).
  assert (Pm : (xs1 ++ (a, x) :: xs2).*1 ++ s ≡ₚ a :: (xs1 ++ xs2).*1 ++ s).
  { rewrite !fmap_app. cbn [fmap list_fmap fst]. rewrite <- Permutation_middle. done. }
  split.
  - rewrite Pm, Eh, Et. rewrite (front_to_back a). by apply NoDup_cons.
  - rewrite Eh, Et, fmap_app, <- app_assoc. cbn [fmap list_fmap fst app].
    apply (path_insert (links M)); [done | done | done | | done | done]. rewrite fmap_app in Ha. set_solver.
  - pose proof (ll_items _ _ _ _ _ Hl) as Hit. rewrite Hi.
    assert (Hold : forall ys, (forall y, y ∈ ys -> y ∈ xs1 ++ xs2) -> Forall (fun ax => <[a := x]> (items M) !! ax.1 = Some ax.2) ys).
    { intros ys Hys. apply Forall_forall. intros [b y] Hby. apply Hys in Hby as Hin. cbn [fst snd]. rewrite lookup_insert_ne; [by apply (proj1 (Forall_forall _ _) Hit (b, y)) |].
      intros <-. apply Ha. apply (list_elem_of_fmap_2 fst) in Hin. cbn in Hin. set_solver. }
    apply Forall_app. split; [apply Hold; intros y Hy; apply elem_of_app; auto |].
    apply Forall_cons. split; [cbn; by rewrite lookup_insert_eq | apply Hold; intros y Hy; apply elem_of_app; auto].
  - rewrite Hs, (ll_size _ _ _ _ _ Hl), !length_app. cbn. lia.
  - done.
  - rewrite Hb. apply set_eq. intros b. rewrite !elem_of_union, !elem_of_list_to_set, Pm, elem_of_singleton, elem_of_cons. tauto.
  - rewrite Eh, Et. intros b. rewrite Pm, (front_or_back a), elem_of_cons. intros [-> | Hin]; [done | by apply HB].
Qed.

(** The position of a node: after those before it, before those behind it. *)
Definition place_before l xs1 : Z := before (head l) xs1.*1.
Definition place_after l xs2 : Z := after xs2.*1 (tail l).

Lemma outside l xs1 xs2 a (s : list Z) : a ∉ 0 :: head l :: tail l :: (xs1 ++ xs2).*1 ++ s ->
  a <> 0 /\ a <> place_before l xs1 /\ a <> place_after l xs2.
Proof.
  intros Ha. pose proof (path_ends (head l) (tail l) xs1.*1 xs2.*1) as [Hb Hf]. fold (place_before l xs1) in Hb. fold (place_after l xs2) in Hf.
  rewrite fmap_app, !not_elem_of_cons, not_elem_of_app in Ha. rewrite elem_of_cons in Hb, Hf. destruct Ha as (? & ? & ? & Ha & _).
  split_and!; [done | |]; intros ->; naive_solver.
Qed.

Lemma not_null l M xs1 xs2 fs B : llist l M (xs1 ++ xs2) fs B -> place_before l xs1 <> 0 /\ place_after l xs2 <> 0 /\
  place_before l xs1 ∈ head l :: xs1.*1 /\ place_after l xs2 ∈ tail l :: xs2.*1.
Proof.
  intros [Hd _ _ _ _ _ _]. unfold place_before, place_after.
  pose proof (path_ends (head l) (tail l) xs1.*1 []) as [Hb _]. pose proof (path_ends (head l) (tail l) [] xs2.*1) as [_ Hf]. rewrite app_nil_r in Hb.
  rewrite fmap_app, !NoDup_cons in Hd. split_and!; [| | done | done]; intros E; rewrite E in *; set_solver.
Qed.

Lemma insert_spec l M xs1 xs2 fs B m item : llist l M (xs1 ++ xs2) fs B -> fresh l M m ->
  forall add, add = ListAddAfter m l item (place_before l xs1) M \/ add = ListAddBefore m l item (place_after l xs2) M ->
  exists r l' M' fs', add = Ok (r, l', M') /\ same_list l l' /\
    (r = 0 /\ m = 0 /\ fs = [] /\ llist l' M' (xs1 ++ xs2) fs' B \/ r <> 0 /\ llist l' M' (xs1 ++ (r, item) :: xs2) fs' B).
Proof.
  intros Hl Hm add Hadd. destruct (not_null _ _ _ _ _ _ Hl) as (N1 & N2 & I1 & I2).
  pose proof (ll_paths _ _ _ _ _ _ Hl) as (P1 & P2 & P3). pose proof (path_edge _ _ _ _ _ P3) as [En Ep].
  fold (place_before l xs1) (place_after l xs2) in En, Ep.
  destruct (node_taken l M (xs1 ++ xs2) fs B m item Hl Hm) as [(-> & -> & l' & M' & E & Hl' & Hsame) | (a & l' & M' & fs' & E & Ha & HaB & Hsame & Hd & Hs & Hf & Hb & HB & Hk & Hi)].
  - exists 0, l', M', []. split; [| split; [done | left; by split_and!]].
    destruct Hadd as [-> | ->]; unfold ListAddAfter, ListAddBefore; [rewrite (proj2 (Z.eqb_neq _ _) N1) | rewrite (proj2 (Z.eqb_neq _ _) N2)];
      rewrite E; done.
  - destruct (outside l xs1 xs2 a fs' Ha) as (Ha0 & Ha1 & Ha2).
    assert (R : exists h', add = Ok (a, grown l' 1 (freeNodeList l'), with_links M' h') /\
      nexts h' = <[a := place_after l xs2]> (<[place_before l xs1 := a]> (nexts (links M))) /\
      prevs h' = <[a := place_before l xs1]> (<[place_after l xs2 := a]> (prevs (links M)))).
    { destruct Hadd as [-> | ->]; unfold ListAddAfter, ListAddBefore; [rewrite (proj2 (Z.eqb_neq _ _) N1) | rewrite (proj2 (Z.eqb_neq _ _) N2)];
        rewrite E; cbn [mbind res_bind]; rewrite (proj2 (Z.eqb_neq a 0)), Hk by done; unfold get_next, get_prev; cbn [nexts prevs];
        rewrite lookup_insert_ne, ?En, ?Ep by done; cbn [of_option mbind res_bind].
      - rewrite set_next_Ok by (cbn [nexts]; rewrite lookup_insert_ne by done; eauto). cbn [mbind res_bind nexts prevs].
        rewrite set_prev_Ok by (cbn [prevs]; rewrite lookup_insert_eq; eauto). cbn [mbind res_bind nexts prevs].
        rewrite set_next_Ok by (cbn [nexts]; rewrite lookup_insert_ne, lookup_insert_eq by done; eauto). cbn [mbind res_bind nexts prevs].
        rewrite set_prev_Ok by (cbn [prevs]; rewrite !lookup_insert_ne by done; eauto). cbn [mbind res_bind nexts prevs].
        eexists. split; [done |]. cbn [nexts prevs]. split; apply map_eq; intros b; destruct (decide (b = a)) as [-> | ?]; [by look | | by look | ];
          [destruct (decide (b = place_before l xs1)) as [-> | ?]; by look | destruct (decide (b = place_after l xs2)) as [-> | ?]; by look].
      - rewrite set_prev_Ok by (cbn [prevs]; rewrite lookup_insert_ne by done; eauto). cbn [mbind res_bind nexts prevs].
        rewrite set_next_Ok by (cbn [nexts]; rewrite lookup_insert_eq; eauto). cbn [mbind res_bind nexts prevs].
        rewrite set_prev_Ok by (cbn [prevs]; rewrite lookup_insert_ne, lookup_insert_eq by done; eauto). cbn [mbind res_bind nexts prevs].
        rewrite set_next_Ok by (cbn [nexts]; rewrite !lookup_insert_ne by done; eauto). cbn [mbind res_bind nexts prevs].
        eexists. split; [done |]. cbn [nexts prevs]. split; apply map_eq; intros b; destruct (decide (b = a)) as [-> | ?]; [by look | | by look | ];
          [destruct (decide (b = place_before l xs1)) as [-> | ?]; by look | destruct (decide (b = place_after l xs2)) as [-> | ?]; by look]. }
    destruct R as (h' & -> & E1 & E2). exists a, (grown l' 1 (freeNodeList l')), (with_links M' h'), fs'. split_and!; [done | done | right; split; [done |]].
    apply (inserted l M xs1 xs2 fs B _ _ a item fs' Hl); try done; cbn [grown size]; lia.
Qed.

(** A node taken out: its block is kept or freed. *)
Lemma list_del_spec l M xs1 xs2 fs B a x b : llist l M (xs1 ++ (a, x) :: xs2) fs B ->
  exists l' M' fs', ListDelNode l a b M = Ok (if b && has_free_func l then None else Some x, if b && has_free_func l then [x] else [], l', M') /\
    same_list l l' /\ llist l' M' (xs1 ++ xs2) fs' B /\ (length fs' <= S (length fs))%nat /\
    nexts (links M') = delete a (<[place_before l xs1 := place_after l xs2]> (nexts (links M))).
Proof.
  intros Hl. pose proof (ll_paths l M xs1 ((a, x) :: xs2) fs B Hl) as (P1 & P2 & P3). cbn [fmap list_fmap fst app] in P1, P2, P3.
  pose proof (linked_split (links M) (head l) xs1.*1 (a :: xs2.*1) (tail l)) as Sp. cbn [app after hd] in Sp.
  pose proof (proj1 Sp P3) as (_ & [E1 E1'] & E3). apply (linked_split _ a [] xs2.*1) in E3 as (_ & [E2 E2'] & _).
  fold (place_before l xs1) in E1, E1'. cbn [before] in E2, E2'. fold (place_after l xs2) in E2, E2'. change (before a []) with a in *.
  destruct Hl as [Hd Hlk Hi Hs Hf Hb Ha].
  assert (Pm : (xs1 ++ (a, x) :: xs2).*1 ++ fs ≡ₚ a :: (xs1 ++ xs2).*1 ++ fs).
  { rewrite !fmap_app. cbn [fmap list_fmap fst]. rewrite <- Permutation_middle. done. }
  pose proof Hd as Hd0. rewrite Pm, front_to_back in Hd. apply NoDup_cons in Hd as [Hna Hdn].
  destruct (outside l xs1 xs2 a fs Hna) as (A0 & B1%not_eq_sym & B2%not_eq_sym). pose proof Hna as Hna'.
  rewrite !not_elem_of_cons, not_elem_of_app in Hna'. destruct Hna' as (_ & A1 & A2 & Da & Df).
  unfold ListDelNode. rewrite (proj2 (Z.eqb_neq a (head l))), (proj2 (Z.eqb_neq a (tail l))), (proj2 (Z.eqb_neq a 0)) by done.
  cbn [negb andb assert_ok mbind res_bind]. unfold get_item.
  assert (Hx : items M !! a = Some x) by (apply (proj1 (Forall_forall _ _) Hi (a, x)), elem_of_app; right; left).
  rewrite Hx. cbn [of_option mbind res_bind]. unfold get_prev, get_next. cbn [with_links links nexts prevs]. rewrite E1'. cbn [of_option mbind res_bind].
  rewrite E2. cbn [of_option mbind res_bind].
  rewrite set_next_Ok by (cbn [nexts]; eauto). cbn [mbind res_bind nexts prevs].
  rewrite lookup_insert_ne, E2 by done. cbn [of_option mbind res_bind]. rewrite E1'. cbn [of_option mbind res_bind]. rewrite set_prev_Ok by (cbn [prevs]; eauto). cbn [mbind res_bind nexts prevs].
  assert (Hab : a ∈ blocks (elems M)) by (rewrite Hb, elem_of_union, elem_of_list_to_set, Pm; left; left).
  destruct (free_spec a _ _ fs Hf Hab) as (fl' & s' & Ef & Hfs); [by apply not_elem_of_cons |].
  unfold freeListNode. cbn [with_links elems links items nexts prevs]. rewrite Ef. cbn [mbind res_bind].
  set (M' := MkMem _ _ s'). set (l' := grown (grown l 0 fl') (-1) _).
  assert (G : forall fs', flist fl' s' fs' -> blocks s' = list_to_set ((xs1 ++ xs2).*1 ++ fs') ∪ B -> NoDup (0 :: head l :: tail l :: (xs1 ++ xs2).*1 ++ fs') ->
    (forall b, b ∈ head l :: tail l :: (xs1 ++ xs2).*1 ++ fs' -> b ∉ B) -> llist l' M' (xs1 ++ xs2) fs' B).
  { intros fs' F1 F2 F3 F4. split; subst l' M'; cbn [grown head tail size freeNodeList links items elems]; try done.
    - rewrite fmap_app, <- app_assoc. by apply (path_delete (links M) _ (head l) (tail l) xs1.*1 xs2.*1 a).
    - apply Forall_forall. intros [c y] Hc. cbn [fst snd]. rewrite lookup_delete_ne; [apply (proj1 (Forall_forall _ _) Hi (c, y)) |].
      + apply elem_of_app in Hc. apply elem_of_app. rewrite elem_of_cons. tauto.
      + intros <-. by apply Da, (list_elem_of_fmap_2 fst _ (a, y)).
    - rewrite Hs, !length_app. cbn. lia. }
  assert (HaB : a ∉ B) by (apply Ha; rewrite Pm, front_or_back; left).
  destruct Hfs as [[F1 F2] | [F1 F2]].
  - exists l', M', (a :: fs). split_and!; [change (has_free_func l') with (has_free_func l); by destruct (b && has_free_func l) | done | | cbn; lia | done]. apply G; [done | | |].
    + rewrite F2, Hb. f_equal. apply list_to_set_perm_L. rewrite Pm. apply Permutation_middle.
    + assert (P : (xs1 ++ xs2).*1 ++ a :: fs ≡ₚ (xs1 ++ (a, x) :: xs2).*1 ++ fs) by (rewrite Pm; symmetry; apply Permutation_middle). by rewrite P.
    + intros c Hc. apply Ha. rewrite Pm, Permutation_middle. done.
  - exists l', M', fs. split_and!; [change (has_free_func l') with (has_free_func l); by destruct (b && has_free_func l) | done | | lia | done]. apply G; [done | | |].
    + rewrite F2, Hb. apply set_eq. intros c.
      rewrite elem_of_difference, !elem_of_union, !elem_of_list_to_set, Pm, elem_of_singleton, elem_of_cons, elem_of_app.
      destruct (decide (c = a)) as [-> | ?]; tauto.
    + done.
    + intros c Hc. apply Ha. rewrite Pm, front_or_back. by right.
Qed.

Lemma empty_list_spec hd tl cmp f M : NoDup [0; hd; tl] -> hd ∉ blocks (elems M) -> tl ∉ blocks (elems M) ->
  exists l' M', ListInit hd tl cmp f M = (0, l', M') /\ llist l' M' [] [] (blocks (elems M)) /\ head l' = hd /\ tail l' = tl /\
    has_free_func l' = f /\ cmp_func l' = cmp.
Proof.
  intros Hd Hh Ht. eexists _, _. split; [done |]. split_and!; try done.
  assert (hd <> tl) by (intros ->; rewrite !NoDup_cons in Hd; set_solver).
  split; cbn [head tail size freeNodeList links items elems with_links nexts prevs fmap list_fmap app length]; try done.
  - cbn. unfold edge. cbn [nexts prevs]. rewrite lookup_insert_ne, !lookup_insert_eq by done. done.
  - split; cbn; try done; [apply NoDup_singleton | by intros a ?%not_elem_of_nil].
  - set_solver.
  - intros a. rewrite !elem_of_cons. intros [-> | [-> | ?%not_elem_of_nil]]; done.
Qed.

Lemma next_spec l M xs1 a x xs2 fs B : llist l M (xs1 ++ (a, x) :: xs2) fs B ->
  get_next a (links M) = Ok (place_after l xs2) /\ get_prev a (links M) = Ok (place_before l xs1) /\ get_item a M = Ok x /\ a <> 0 /\ a <> tail l.
Proof.
  intros Hl. pose proof (ll_paths l M xs1 ((a, x) :: xs2) fs B Hl) as (P1 & P2 & P3). cbn [fmap list_fmap fst app] in P1, P2, P3.
  pose proof (linked_split (links M) (head l) xs1.*1 (a :: xs2.*1) (tail l)) as Sp. cbn [app after hd] in Sp.
  pose proof (proj1 Sp P3) as (_ & [_ E1] & E3). apply (linked_split _ a [] xs2.*1) in E3 as (_ & [E2 _] & _).
  fold (place_before l xs1) in E1. change (before a []) with a in E2. fold (place_after l xs2) in E2. unfold get_next, get_prev, get_item. rewrite E1, E2.
  rewrite (proj1 (Forall_forall _ _) (ll_items _ _ _ _ _ Hl) (a, x)) by (apply elem_of_app; right; left). cbn [fst snd].
  pose proof (ll_nodes _ _ _ _ _ Hl) as Hd. rewrite fmap_app in Hd. rewrite !NoDup_cons, !not_elem_of_cons, !not_elem_of_app in Hd. cbn [fmap list_fmap fst] in Hd.
  rewrite !not_elem_of_cons in Hd. naive_solver.
Qed.

Lemma first_spec l M xs fs B : llist l M xs fs B -> get_next (head l) (links M) = Ok (place_after l xs) /\ get_prev (tail l) (links M) = Ok (place_before l xs).
Proof.
  intros Hl. pose proof (ll_links _ _ _ _ _ Hl) as H. split.
  - apply (path_edge _ _ _ [] xs.*1) in H as [H _]. change (before (head l) []) with (head l) in H. unfold get_next. by rewrite H.
  - apply (path_edge _ _ _ xs.*1 []) in H as [_ H]. change (after [] (tail l)) with (tail l) in H. unfold get_prev. by rewrite H.
Qed.

(** Looking along the list, with NULL at its ends. *)
Lemma ends_spec l M xs fs B : llist l M xs fs B ->
  ListHead l M = Ok (after xs.*1 0) /\ ListTail l M = Ok (before 0 xs.*1) /\ ListSize l = Z.of_nat (length xs).
Proof.
  intros Hl. pose proof (first_spec _ _ _ _ _ Hl) as [E1 E2]. pose proof (ll_size _ _ _ _ _ Hl) as Hs. unfold ListHead, ListTail, ListSize. rewrite Hs.
  destruct xs as [| [a x] xs]; [done |]. rewrite (proj2 (Z.eqb_neq _ _)), E1, E2 by (cbn; lia).
  unfold place_after, place_before. cbn [fmap list_fmap fst]. by rewrite !before_cons.
Qed.

Lemma step_spec l M xs1 a x xs2 fs B : llist l M (xs1 ++ (a, x) :: xs2) fs B ->
  ListNext l a M = Ok (after xs2.*1 0) /\ ListPrev l a M = Ok (before 0 xs1.*1).
Proof.
  intros Hl. destruct (next_spec _ _ _ _ _ _ _ _ Hl) as (E1 & E2 & _). unfold ListNext, ListPrev. rewrite E1, E2. cbn [mbind res_bind].
  unfold place_after, place_before. split.
  - destruct xs2 as [| [b y] xs2]; [cbn; by rewrite Z.eqb_refl |]. cbn [fmap list_fmap fst after hd].
    assert (b <> tail l); [| by rewrite (proj2 (Z.eqb_neq _ _))].
    replace (xs1 ++ (a, x) :: (b, y) :: xs2) with ((xs1 ++ [(a, x)]) ++ (b, y) :: xs2) in Hl by by rewrite <- app_assoc.
    apply (next_spec _ _ _ _ _ _ _ _ Hl).
  - destruct xs1 as [| [b y] xs1 _] using rev_ind; [cbn; by rewrite Z.eqb_refl |]. rewrite fmap_app. cbn [fmap list_fmap fst]. rewrite !before_snoc.
    assert (b <> head l); [| by rewrite (proj2 (Z.eqb_neq _ _))].
    pose proof (ll_nodes _ _ _ _ _ Hl) as Hd. rewrite !fmap_app in Hd. cbn [fmap list_fmap fst] in Hd.
    rewrite !NoDup_cons, !not_elem_of_cons, !not_elem_of_app, !not_elem_of_cons in Hd. naive_solver.
Qed.

Definition same_item l (item x : A) : bool := match cmp_func l with Some cmp => cmp item x | None => bool_decide (item = x) end.

(** The first item behind the start that is the one looked for. *)
Lemma seek_spec l M item xs2 : forall xs1 fs B fuel, llist l M (xs1 ++ xs2) fs B -> (length xs2 < fuel)%nat ->
  find_loop fuel l (place_after l xs2) item M = Ok (match List.find (fun ax => same_item l item ax.2) xs2 with Some ax => ax.1 | None => 0 end).
Proof.
  induction xs2 as [| [a x] xs2 IH]; intros xs1 fs B fuel Hl Hf; (destruct fuel as [| fuel]; [cbn in Hf; lia |]); cbn [find_loop].
  - unfold place_after. cbn. by rewrite Z.eqb_refl.
  - destruct (next_spec _ _ _ _ _ _ _ _ Hl) as (E1 & _ & E3 & _ & Ht). unfold place_after. cbn [fmap list_fmap fst after hd].
    rewrite (proj2 (Z.eqb_neq _ _) Ht), E3. cbn [mbind res_bind List.find snd]. fold (same_item l item x). destruct (same_item l item x); [done |].
    rewrite E1. cbn [mbind res_bind]. apply (IH (xs1 ++ [(a, x)]) fs B); [by rewrite <- app_assoc | cbn in Hf; lia].
Qed.

Lemma destroy_spec b xs : forall l M fs B fuel, llist l M xs fs B -> (length xs < fuel)%nat ->
  exists l' M' fs', destroy_loop fuel l (place_after l xs) b M = Ok (if b && has_free_func l then xs.*2 else [], l', M') /\ same_list l l' /\
    llist l' M' [] fs' B /\ (length fs' <= length xs + length fs)%nat.
Proof.
  induction xs as [| [a x] xs IH]; intros l M fs B fuel Hl Hf; (destruct fuel as [| fuel]; [cbn in Hf; lia |]); cbn [destroy_loop].
  - unfold place_after at 1. cbn. rewrite Z.eqb_refl. exists l, M, fs. split_and!; [by destruct (b && _) | done | done | lia].
  - destruct (next_spec l M [] a x xs fs B Hl) as (E1 & _ & _ & _ & Ht). change (place_after l ((a, x) :: xs)) with a.
    rewrite (proj2 (Z.eqb_neq _ _) Ht), E1. cbn [mbind res_bind].
    destruct (list_del_spec l M [] xs fs B a x b Hl) as (l1 & M1 & fs1 & -> & S1 & Hl1 & Hfs & _). cbn [mbind res_bind app] in Hl1 |- *.
    destruct (IH l1 M1 fs1 B fuel Hl1) as (l2 & M2 & fs2 & E & S2 & Hl2 & Hfs2); [cbn in Hf; lia |].
    destruct S1 as (S11 & S12 & S13 & S14). unfold place_after in *. rewrite S12 in E. rewrite E. cbn [mbind res_bind].
    exists l2, M2, fs2. destruct S2 as (S21 & S22 & S23 & S24). split_and!; [| split_and!; congruence | done | cbn; lia].
    rewrite S13. by destruct (b && has_free_func l).
Qed.

Lemma list_destroy_spec b l M xs fs B fuel : llist l M xs fs B -> (length xs + length fs < fuel)%nat ->
  exists l' M', ListDestroy fuel l b M = Ok (if b && has_free_func l then xs.*2 else [], l', M') /\ llist l' M' [] [] B /\ blocks (elems M') = B.
Proof.
  intros Hl Hf. unfold ListDestroy. destruct (first_spec _ _ _ _ _ Hl) as [-> _]. cbn [mbind res_bind].
  destruct (destroy_spec b xs l M fs B fuel Hl) as (l1 & M1 & fs1 & -> & S1 & Hl1 & Hfs); [lia |]. cbn [mbind res_bind].
  destruct Hl1 as [Hd Hlk Hi Hs [Hc Hn Hlen Hm Hb] Hbl Ha]. unfold FreeListDestroy.
  destruct (free_all_spec fs1 fuel (free_head (freeNodeList l1)) (elems M1) Hc Hn Hb) as (s' & -> & Eb); [lia |]. cbn [mbind res_bind].
  assert (EB : blocks s' = B).
  { rewrite Eb, Hbl. cbn [fmap list_fmap app]. apply set_eq. intros a. rewrite elem_of_difference, elem_of_union, !elem_of_list_to_set.
    specialize (Ha a). cbn [fmap list_fmap app] in Ha. rewrite !elem_of_cons in Ha. tauto. }
  eexists _, _. split; [done |]. split; [| done]. cbn [fmap list_fmap app] in *.
  split; cbn [head tail size freeNodeList links items elems fmap list_fmap app length]; try done.
  - by apply (NoDup_app [0; head l1; tail l1] fs1) in Hd as (? & _).
  - split; cbn; try done; [apply NoDup_singleton | lia | by intros a ?%not_elem_of_nil].
  - rewrite EB. set_solver.
  - intros a Hin. apply Ha. rewrite !elem_of_cons in *. destruct Hin as [? | [? | ?%not_elem_of_nil]]; tauto.
Qed.
End spec.

(** C20.  A linked list is a sequence.  On a list that holds the nodes and items [xs]: an item is added behind or in front of any position, the node coming from
    the free list or from [malloc], or nothing changes when there is no memory; a node taken out leaves the others in order and gives its
    item to the caller or to the free function; looking along the list in both directions and for an item follows the sequence; destroying it
    frees every item once when asked to, and every block of the list, and no other. *)
Theorem linked_list_sequence {A} `{EqDecision A} (l : LinkedList A) (M : memory A) (xs : list (Z * A)) (fs : list Z) (B : gset Z) (Hl : llist l M xs fs B) :
  (forall xs1 xs2 m item add, xs = xs1 ++ xs2 -> fresh l M m ->
     add = ListAddAfter m l item (place_before l xs1) M \/ add = ListAddBefore m l item (place_after l xs2) M ->
     exists r l' M' fs', add = Ok (r, l', M') /\
       (r = 0 /\ m = 0 /\ fs = [] /\ llist l' M' xs fs' B \/ r <> 0 /\ llist l' M' (xs1 ++ (r, item) :: xs2) fs' B)) /\
  (forall xs1 a x xs2 b, xs = xs1 ++ (a, x) :: xs2 ->
     (exists l' M' fs', ListDelNode l a b M = Ok (if b && has_free_func l then None else Some x, if b && has_free_func l then [x] else [], l', M') /\
       llist l' M' (xs1 ++ xs2) fs' B) /\
     ListNext l a M = Ok (after xs2.*1 0) /\ ListPrev l a M = Ok (before 0 xs1.*1) /\
     forall item fuel, (length xs2 < fuel)%nat ->
       ListFind fuel l a item M = Ok (match List.find (fun ax => same_item l item ax.2) xs2 with Some ax => ax.1 | None => 0 end)) /\
  ListHead l M = Ok (after xs.*1 0) /\ ListTail l M = Ok (before 0 xs.*1) /\ ListSize l = Z.of_nat (length xs) /\
  (forall item fuel, (length xs < fuel)%nat ->
     ListFind fuel l 0 item M = Ok (match List.find (fun ax => same_item l item ax.2) xs with Some ax => ax.1 | None => 0 end)) /\
  (forall b fuel, (length xs + length fs < fuel)%nat ->
     exists l' M', ListDestroy fuel l b M = Ok (if b && has_free_func l then xs.*2 else [], l', M') /\ llist l' M' [] [] B /\ blocks (elems M') = B).
Proof.
  split_and!.
  - intros xs1 xs2 m item add -> Hm Hadd. destruct (insert_spec l M xs1 xs2 fs B m item Hl Hm add Hadd) as (r & l' & M' & fs' & E & _ & H).
    by exists r, l', M', fs'.
  - intros xs1 a x xs2 b ->. destruct (step_spec _ _ _ _ _ _ _ _ Hl) as [E1 E2]. split_and!; [| done | done |].
    + destruct (list_del_spec l M xs1 xs2 fs B a x b Hl) as (l' & M' & fs' & E & _ & H & _). by exists l', M', fs'.
    + intros item fuel Hf. destruct (next_spec _ _ _ _ _ _ _ _ Hl) as (E & _ & _ & Ha & _). unfold ListFind. rewrite (proj2 (Z.eqb_neq _ _) Ha), E.
      cbn [mbind res_bind]. apply (seek_spec l M item xs2 (xs1 ++ [(a, x)]) fs B); [by rewrite <- app_assoc | done].
  - apply (ends_spec _ _ _ _ _ Hl).
  - apply (ends_spec _ _ _ _ _ Hl).
  - apply (ends_spec _ _ _ _ _ Hl).
  - intros item fuel Hf. destruct (first_spec _ _ _ _ _ Hl) as [E _]. unfold ListFind. cbn [Z.eqb]. rewrite E. cbn [mbind res_bind].
    by apply (seek_spec l M item xs [] fs B).
  - intros b fuel Hf. by apply (list_destroy_spec b l M xs fs B).
Qed.

Definition no_memory : memory Z := MkMem (Heap ∅ ∅) ∅ (MkStore ∅ ∅).

Lemma linked_list_sequence_witness :
  exists r l' M', ListAddTail 3 (ListInit 1 2 None true no_memory).1.2 77 (ListInit 1 2 None true no_memory).2 = Ok (r, l', M') /\
    exists fs', r <> 0 /\ llist l' M' [(r, 77)] fs' ∅.
Proof.
  destruct (empty_list_spec 1 2 None true no_memory) as (l & M & E & Hl & _); [by_decide | by_decide | by_decide |]. rewrite E. cbn [fst snd].
  destruct (linked_list_sequence l M [] [] _ Hl) as (H & _). injection E as <- <-.
  match type of Hl with llist ?l0 ?M0 _ _ _ => assert (Hf : fresh l0 M0 3) by (right; split_and!; [by_decide | done | done]) end.
  destruct (H [] [] 3 77 _ eq_refl Hf (or_intror eq_refl))
    as (r & l' & M' & fs' & E & [(_ & ? & _) | [Hr Hl']]); [done |].
  exists r, l', M'. split; [exact E |]. by exists fs'.
Defined.
