(* ===== verification/Timer.v ===== *)
(** * The timer thread

    [common/threadpool/TimerThread.c]: a queue of events in the order of their times, and a thread that
    gives the due ones to the thread pool.  A function holds the mutex except where it waits, so the stretches
    between waits are the actions.  The queue is used through an interface that linked lists implement;
    events are elements of a free list.  Giving a job to the pool is a parameter. *)

From Stdlib Require Import Sorting.Sorted.
From S2P Require Import Prelude List Text ThreadPool LinkedList.

(** ** The queue *)

(** [holds q xs]: the nodes and items, in order; [q_fresh q m]: what [malloc] may return. *)
Class EventQueue (Q : Type) := {
  holds : Q -> list (Z * Z) -> Prop;
  q_fresh : Q -> Z -> Prop;
  q_size : Q -> Z;
  q_head : Q -> res Z;
  q_next : Q -> Z -> res Z;
  q_item : Q -> Z -> res Z;
  q_add_before : Z -> Q -> Z -> Z -> res (Z * Q);
  q_add_tail : Z -> Q -> Z -> res (Z * Q);
  q_del : Q -> Z -> res Q;
  q_destroy : Q -> res Q
}.

(** What the timer relies on. *)
Class EventQueueLaws (Q : Type) `{EventQueue Q} := {
  law_size q xs : holds q xs -> q_size q = Z.of_nat (length xs);
  law_head q xs : holds q xs -> q_head q = Ok (hd 0 xs.*1);
  law_node q xs1 a x xs2 : holds q (xs1 ++ (a, x) :: xs2) -> a <> 0 /\ q_item q a = Ok x /\ q_next q a = Ok (hd 0 xs2.*1);
  law_add_before q xs1 a x xs2 m item : holds q (xs1 ++ (a, x) :: xs2) -> q_fresh q m ->
    exists r q', q_add_before m q item a = Ok (r, q') /\
      (r = 0 /\ m = 0 /\ holds q' (xs1 ++ (a, x) :: xs2) \/ r <> 0 /\ holds q' (xs1 ++ (r, item) :: (a, x) :: xs2));
  law_add_tail q xs m item : holds q xs -> q_fresh q m ->
    exists r q', q_add_tail m q item = Ok (r, q') /\ (r = 0 /\ m = 0 /\ holds q' xs \/ r <> 0 /\ holds q' (xs ++ [(r, item)]));
  law_del q xs1 a x xs2 : holds q (xs1 ++ (a, x) :: xs2) -> exists q', q_del q a = Ok q' /\ holds q' (xs1 ++ xs2);
  law_destroy q xs : holds q xs -> exists q', q_destroy q = Ok q' /\ holds q' []
}.

(** ** The timer *)

Definition INVALID_EVENT_ID : Z := Z.land (-10) (Z.shiftl 1 29).

Inductive TimeoutType : Type := ABS_SEC | REL_SEC.
Inductive Duration : Type := SHORT_TERM | PERSISTENT.

Record TimerEvent := MkEvent { job : ThreadPoolJob; eventTime : Z; persistent : Duration; id : Z }.

Section timer.
Context {Q : Type} `{EventQueue Q}.
(** The pool, and [ThreadPoolAdd] and [ThreadPoolAddPersistent] with the value they return. *)
Context {P : Type} (submit : Duration -> ThreadPoolJob -> P -> Z * P).

Record TimerThread := MkTimer {
  lastEventId : Z; eventQ : Q; stopping : bool; freeEvents : FreeList; kept_events : store; events : gmap Z TimerEvent
}.

Definition set_queue t q := MkTimer (lastEventId t) q (stopping t) (freeEvents t) (kept_events t) (events t).
Definition set_stopping t b := MkTimer (lastEventId t) (eventQ t) b (freeEvents t) (kept_events t) (events t).
Definition set_last_id t i := MkTimer i (eventQ t) (stopping t) (freeEvents t) (kept_events t) (events t).

Definition FreeTimerEvent (t : TimerThread) (event : Z) : res TimerThread :=
  '(fl, s) ← FreeListFree event (freeEvents t) (kept_events t);
  Ok (MkTimer (lastEventId t) (eventQ t) (stopping t) fl s (delete event (events t))).

(** A sum of [time_t], which is a signed integer of 64 bits. *)
Definition time_op (z : Z) : res Z := if (- 2 ^ 63 <=? z) && (z <? 2 ^ 63) then Ok z else UB.

(** [now]: what [time] gives. *)
Definition CalculateEventTime (now timeout : Z) (type : TimeoutType) : res Z :=
  match type with ABS_SEC => Ok timeout | REL_SEC => time_op (timeout + now) end.

(** [m]: what [malloc] gives. *)
Definition CreateTimerEvent (m : Z) (t : TimerThread) (j : ThreadPoolJob) (d : Duration) (time i : Z) : res (Z * TimerThread) :=
  '(temp, fl, s) ← FreeListAlloc m (freeEvents t) (kept_events t);
  let evs := if temp =? 0 then events t else <[temp := MkEvent j time d i]> (events t) in
  Ok (temp, MkTimer (lastEventId t) (eventQ t) (stopping t) fl s evs).

Definition event_at (t : TimerThread) (node : Z) : res (Z * TimerEvent) :=
  e ← q_item (eventQ t) node; ev ← of_option (events t !! e); Ok (e, ev).

(** The loop of [TimerThreadSchedule]: the result of [ListAddBefore] at the first event that is not earlier. *)
Fixpoint place_event (fuel : nat) (m : Z) (t : TimerThread) (newEvent timeout tempNode : Z) : res (option Z * TimerThread) :=
  match fuel with
  | O => NoFuel
  | S fuel =>
      if tempNode =? 0 then Ok (None, t) else
      '(_, temp) ← event_at t tempNode;
      if eventTime temp >=? timeout then '(r, q) ← q_add_before m (eventQ t) newEvent tempNode; Ok (Some r, set_queue t q)
      else next ← q_next (eventQ t) tempNode; place_event fuel m t newEvent timeout next
  end.

(** The value returned and the identifier given; [m1] and [m2]: the memory for the event and its node. *)
Definition TimerThreadSchedule (now m1 m2 : Z) (t : TimerThread) (timeout : Z) (type : TimeoutType) (j : ThreadPoolJob) (d : Duration)
    : res (Z * Z * TimerThread) :=
  timeout ← CalculateEventTime now timeout type;
  '(newEvent, t) ← CreateTimerEvent m1 t j d timeout (lastEventId t);
  if newEvent =? 0 then Ok (EOUTOFMEM, INVALID_EVENT_ID, t) else
  tempNode ← q_head (eventQ t);
  '(found, t) ← place_event (S (Z.to_nat (q_size (eventQ t)))) m2 t newEvent timeout tempNode;
  '(r, t) ← (match found with Some r => Ok (r, t) | None => '(r, q) ← q_add_tail m2 (eventQ t) newEvent; Ok (r, set_queue t q) end);
  t ← (if r =? 0 then FreeTimerEvent t newEvent else Ok t);
  let i := lastEventId t in
  n ← int_op (i + 1);
  Ok (if r =? 0 then EOUTOFMEM else 0, i, set_last_id t n).

Fixpoint remove_loop (fuel : nat) (i : Z) (t : TimerThread) (tempNode : Z) : res (Z * option ThreadPoolJob * TimerThread) :=
  match fuel with
  | O => NoFuel
  | S fuel =>
      if tempNode =? 0 then Ok (INVALID_EVENT_ID, None, t) else
      '(e, temp) ← event_at t tempNode;
      if id temp =? i then
        q ← q_del (eventQ t) tempNode; t ← FreeTimerEvent (set_queue t q) e; Ok (0, Some (job temp), t)
      else next ← q_next (eventQ t) tempNode; remove_loop fuel i t next
  end.

(** The value returned, and what [*out] becomes. *)
Definition TimerThreadRemove (t : TimerThread) (i : Z) : res (Z * option ThreadPoolJob * TimerThread) :=
  tempNode ← q_head (eventQ t); remove_loop (S (Z.to_nat (q_size (eventQ t)))) i t tempNode.

(** Where the worker waits, or the end of its function. *)
Inductive worker_out : Type := Stopped | Waits (until : option Z).

(** The arguments given to their [free_func] because the pool refused the job. *)
Definition refused (rc : Z) (j : ThreadPoolJob) : list ThreadPoolJob :=
  if negb (rc =? 0) && negb (arg j =? 0) && (match free_func j with Some _ => true | None => false end) then [j] else [].

(** From the top of the loop to the next wait; [clock]: what [time] gives in each round. *)
Fixpoint TimerThreadWorker (fuel : nat) (clock : nat -> Z) (t : TimerThread) (p : P) : res (worker_out * list ThreadPoolJob * TimerThread * P) :=
  match fuel with
  | O => NoFuel
  | S fuel =>
      if stopping t then Ok (Stopped, [], set_stopping t false, p) else
      if q_size (eventQ t) >? 0 then
        head ← q_head (eventQ t);
        if head =? 0 then Ok (Stopped, [], t, p) else
        '(e, nextEvent) ← event_at t head;
        if clock 0%nat >=? eventTime nextEvent then
          let '(rc, p) := submit (persistent nextEvent) (job nextEvent) p in
          q ← q_del (eventQ t) head;
          t ← FreeTimerEvent (set_queue t q) e;
          '(o, freed, t, p) ← TimerThreadWorker fuel (fun i => clock (S i)) t p;
          Ok (o, refused rc (job nextEvent) ++ freed, t, p)
        else Ok (Waits (Some (eventTime nextEvent)), [], t, p)
      else Ok (Waits None, [], t, p)
  end.

(** The loop of [TimerThreadShutdown]: the jobs whose argument is given to their [free_func]. *)
Fixpoint drop_events (fuel : nat) (t : TimerThread) (tempNode : Z) : res (list ThreadPoolJob * TimerThread) :=
  match fuel with
  | O => NoFuel
  | S fuel =>
      if tempNode =? 0 then Ok ([], t) else
      '(e, temp) ← event_at t tempNode;
      next ← q_next (eventQ t) tempNode;
      q ← q_del (eventQ t) tempNode;
      t ← FreeTimerEvent (set_queue t q) e;
      '(freed, t) ← drop_events fuel t next;
      Ok ((match free_func (job temp) with Some _ => [job temp] | None => [] end) ++ freed, t)
  end.

(** Up to the wait for the thread's answer; [fuel]: for the elements of the free list. *)
Definition TimerThreadShutdown (fuel : nat) (t : TimerThread) : res (list ThreadPoolJob * TimerThread) :=
  let t := set_stopping t true in
  tempNode ← q_head (eventQ t);
  '(freed, t) ← drop_events (S (Z.to_nat (q_size (eventQ t)))) t tempNode;
  q ← q_destroy (eventQ t);
  '(fl, s) ← FreeListDestroy fuel (freeEvents t) (kept_events t);
  Ok (freed, MkTimer (lastEventId t) q (stopping t) fl s (events t)).

(** [q]: the queue that [ListInit] makes; [s]: the blocks there are; [job0]: the memory of the job; [worker] and
    [self]: the function of the thread and its argument. *)
Definition TimerThreadInit (q : Q) (s : store) (job0 : ThreadPoolJob) (worker self : Z) (p : P) : res (Z * TimerThread * P) :=
  let worker_job := (TPJobSetPriority (TPJobInit job0 (Some worker) self).2 HIGH_PRIORITY).2 in
  let '(rc, p) := submit PERSISTENT worker_job p in
  if rc =? 0 then Ok (rc, MkTimer 0 q false (FreeListInit 100) s ∅, p) else
  '(fl, s) ← FreeListDestroy 1 (FreeListInit 100) s; q ← q_destroy q; Ok (rc, MkTimer 0 q false fl s ∅, p).
End timer.
Arguments TimerThread Q : clear implicits.

(** ** The invariant *)

Section spec.
Context {Q : Type} `{EventQueueLaws Q} {P : Type} (submit : Duration -> ThreadPoolJob -> P -> Z * P).
Implicit Types (t : TimerThread Q) (xs : list (Z * Z)) (vs : list TimerEvent).

(** The queue holds [xs], whose items are the elements of the events [vs]; [fs] are the free elements and [B] the other blocks. *)
Record timed t xs vs (fs : list Z) (B : gset Z) : Prop := {
  td_holds : holds (eventQ t) xs;
  td_events : Forall2 (fun x e => events t !! x.2 = Some e) xs vs;
  td_free : flist (freeEvents t) (kept_events t) fs;
  td_NoDup : NoDup (0 :: xs.*2 ++ fs);
  td_blocks : blocks (kept_events t) = list_to_set (xs.*2 ++ fs) ∪ B;
  td_apart : forall a, a ∈ xs.*2 ++ fs -> a ∉ B
}.

(** In the order of their times, under different identifiers that were given before. *)
Definition in_order vs : Prop := StronglySorted (fun a b => eventTime a <= eventTime b) vs.
Definition numbered (last : Z) vs : Prop := NoDup (map id vs) /\ Forall (fun e => id e < last) vs.

Lemma event_at_spec t xs1 n a xs2 v1 v v2 : holds (eventQ t) (xs1 ++ (n, a) :: xs2) ->
  Forall2 (fun x e => events t !! x.2 = Some e) (xs1 ++ (n, a) :: xs2) (v1 ++ v :: v2) -> length xs1 = length v1 ->
  event_at t n = Ok (a, v) /\ n <> 0 /\ q_next (eventQ t) n = Ok (hd 0 xs2.*1).
Proof.
  intros Hh He Hl. destruct (law_node _ _ _ _ _ Hh) as (Hn & Ei & En). unfold event_at. rewrite Ei. cbn [mbind res_bind].
  apply Forall2_app_inv in He as [_ He]; [| done]. apply Forall2_cons in He as [He _]. cbn in He. by rewrite He.
Qed.

(** The same, with an element [a] in use that is not in the queue. *)
Record ready t (a : Z) xs vs (fs : list Z) (B : gset Z) : Prop := {
  rd_holds : holds (eventQ t) xs;
  rd_events : Forall2 (fun x e => events t !! x.2 = Some e) xs vs;
  rd_free : flist (freeEvents t) (kept_events t) fs;
  rd_NoDup : NoDup (a :: 0 :: xs.*2 ++ fs);
  rd_blocks : blocks (kept_events t) = list_to_set (a :: xs.*2 ++ fs) ∪ B;
  rd_apart : forall c, c ∈ a :: xs.*2 ++ fs -> c ∉ B
}.

Definition same_timer t t' : Prop := lastEventId t' = lastEventId t /\ stopping t' = stopping t.

Lemma Forall2_events (m m' : gmap Z TimerEvent) xs vs : (forall x, x ∈ xs.*2 -> m' !! x = m !! x) ->
  Forall2 (fun x e => m !! x.2 = Some e) xs vs -> Forall2 (fun x e => m' !! x.2 = Some e) xs vs.
Proof.
  intros Hm. induction 1 as [| x e xs vs Hx _ IH]; constructor; [rewrite Hm; [done | left] |]. apply IH. intros y Hy. apply Hm. by right.
Qed.

(** Out of the queue. *)
Lemma unqueue t q xs1 n a xs2 v1 v v2 fs B : timed t (xs1 ++ (n, a) :: xs2) (v1 ++ v :: v2) fs B -> length xs1 = length v1 ->
  holds q (xs1 ++ xs2) -> ready (set_queue t q) a (xs1 ++ xs2) (v1 ++ v2) fs B.
Proof.
  intros [Hh He Hf Hd Hb Ha] Hl Hq.
  assert (Pm : (xs1 ++ (n, a) :: xs2).*2 ++ fs ≡ₚ a :: (xs1 ++ xs2).*2 ++ fs).
  { rewrite !fmap_app. cbn [fmap list_fmap snd]. rewrite <- Permutation_middle. done. }
  split; cbn [set_queue eventQ events freeEvents kept_events]; try done.
  - apply Forall2_app_inv in He as [He1 He2]; [| done]. apply Forall2_cons in He2 as [_ He2]. by apply Forall2_app.
  - rewrite Pm, (Permutation_swap a 0) in Hd. done.
  - rewrite Hb. f_equal. by apply list_to_set_perm_L.
  - intros c Hc. apply Ha. by rewrite Pm.
Qed.

Lemma FreeTimerEvent_spec t a xs vs fs B : ready t a xs vs fs B ->
  exists t' fs', FreeTimerEvent t a = Ok t' /\ timed t' xs vs fs' B /\ (length fs' <= S (length fs))%nat /\ same_timer t t' /\ eventQ t' = eventQ t.
Proof.
  intros [Hh He Hf Hd Hb Ha]. assert (Hab : a ∈ blocks (kept_events t)) by (rewrite Hb, elem_of_union, elem_of_list_to_set; left; left).
  apply NoDup_cons in Hd as [Hna Hd]. pose proof Hna as Hna'. rewrite not_elem_of_cons, not_elem_of_app in Hna'. destruct Hna' as (A0 & Ax & Af).
  destruct (free_spec a _ _ fs Hf Hab) as (fl' & s' & E & Hfs); [by apply not_elem_of_cons |].
  unfold FreeTimerEvent. rewrite E. cbn [mbind res_bind]. assert (HaB : a ∉ B) by (apply Ha; left).
  assert (Hev : Forall2 (fun x e => delete a (events t) !! x.2 = Some e) xs vs).
  { apply (Forall2_events (events t)); [| done]. intros x Hx. rewrite lookup_delete_ne; [done | congruence]. }
  destruct Hfs as [[F1 F2] | [F1 F2]].
  - eexists _, (a :: fs). split; [done |]. split_and!; try done. split; cbn [eventQ events freeEvents kept_events]; try done.
    + rewrite <- Permutation_middle. rewrite (Permutation_swap a 0). by apply NoDup_cons.
    + rewrite F2, Hb. f_equal. apply list_to_set_perm_L. apply Permutation_middle.
    + intros c Hc. apply Ha. by rewrite Permutation_middle.
  - eexists _, fs. split; [done |]. split_and!; try done; [| lia]. split; cbn [eventQ events freeEvents kept_events]; try done.
    + rewrite F2, Hb. apply set_eq. intros c.
      rewrite elem_of_difference, !elem_of_union, !elem_of_list_to_set, elem_of_singleton, elem_of_cons, elem_of_app.
      destruct (decide (c = a)) as [-> | ?]; tauto.
    + intros c Hc. apply Ha. by right.
Qed.

(** What [malloc] may return for an event. *)
Definition fresh_event t (m : Z) : Prop := m = 0 \/ m ∉ blocks (kept_events t).

Lemma CreateTimerEvent_spec m t xs vs fs B j d time i : timed t xs vs fs B -> fresh_event t m ->
  exists a t', CreateTimerEvent m t j d time i = Ok (a, t') /\ same_timer t t' /\ eventQ t' = eventQ t /\
    (a = 0 /\ m = 0 /\ timed t' xs vs fs B \/
     a <> 0 /\ events t' !! a = Some (MkEvent j time d i) /\ exists fs', ready t' a xs vs fs' B).
Proof.
  intros [Hh He Hf Hd Hb Ha] Hm. unfold CreateTimerEvent. destruct fs as [| f fs].
  - destruct (alloc_new m _ _ Hf) as (s' & -> & Hf' & Hb'). cbn [mbind res_bind]. eexists m, _. split; [done |]. split_and!; try done.
    destruct (Z.eqb_spec m 0) as [-> | Hm0].
    + left. split_and!; try done. split; cbn [eventQ events freeEvents kept_events]; try done. by rewrite Hb'.
    + right. destruct Hm as [? | Hm]; [done |]. rewrite Hb, elem_of_union, elem_of_list_to_set in Hm.
      assert (Hmx : m ∉ xs.*2) by (intros ?; apply Hm; left; apply elem_of_app; by left).
      split_and!; [done | cbn [events]; by rewrite lookup_insert_eq |]. exists [].
      split; cbn [eventQ events freeEvents kept_events]; try done.
      * apply (Forall2_events (events t)); [| done]. intros x Hx. rewrite lookup_insert_ne; [done | congruence].
      * apply NoDup_cons. split; [| done]. rewrite not_elem_of_cons. tauto.
      * rewrite Hb', Hb. cbn [list_to_set]. by rewrite (assoc_L (∪)).
      * intros c. rewrite elem_of_cons. intros [-> | Hc]; [tauto | by apply Ha].
  - destruct (alloc_kept m _ _ f fs Hf) as (fl' & s' & -> & Hf' & Hb'). cbn [mbind res_bind].
    rewrite <- Permutation_middle in Hd. rewrite (Permutation_swap f 0) in Hd. pose proof Hd as Hd'. apply NoDup_cons in Hd' as [Hnf _].
    rewrite not_elem_of_cons, not_elem_of_app in Hnf. destruct Hnf as (F0 & Fx & _). rewrite (proj2 (Z.eqb_neq f 0)) by done.
    eexists f, _. split; [done |]. split_and!; try done. right. split_and!; [done | cbn [events]; by rewrite lookup_insert_eq |]. exists fs.
    split; cbn [eventQ events freeEvents kept_events]; try done.
    + apply (Forall2_events (events t)); [| done]. intros x Hx. rewrite lookup_insert_ne; [done | congruence].
    + rewrite Hb', Hb. f_equal. apply list_to_set_perm_L. symmetry. apply Permutation_middle.
    + intros c Hc. apply Ha. by rewrite <- Permutation_middle.
Qed.

(** Into the queue. *)
Lemma enqueue t q a n e xs1 xs2 v1 v2 fs B : ready t a (xs1 ++ xs2) (v1 ++ v2) fs B -> length xs1 = length v1 -> events t !! a = Some e ->
  holds q (xs1 ++ (n, a) :: xs2) -> timed (set_queue t q) (xs1 ++ (n, a) :: xs2) (v1 ++ e :: v2) fs B.
Proof.
  intros [Hh He Hf Hd Hb Ha] Hl Hev Hq.
  assert (Pm : (xs1 ++ (n, a) :: xs2).*2 ++ fs ≡ₚ a :: (xs1 ++ xs2).*2 ++ fs).
  { rewrite !fmap_app. cbn [fmap list_fmap snd]. rewrite <- Permutation_middle. done. }
  split; cbn [set_queue eventQ events freeEvents kept_events]; try done.
  - apply Forall2_app_inv in He as [He1 He2]; [| done]. apply Forall2_app; [done |]. by constructor.
  - rewrite Pm, (Permutation_swap a 0). done.
  - rewrite Hb. f_equal. apply list_to_set_perm_L. by rewrite Pm.
  - intros c Hc. apply Ha. by rewrite <- Pm.
Qed.

Lemma hd_null xs q : holds q xs -> hd 0 xs.*1 = 0 <-> xs = [].
Proof.
  intros Hh. destruct xs as [| [n a] xs]; [done |]. destruct (law_node q [] n a xs Hh) as [Hn _]. cbn. split; [congruence | done].
Qed.

(** The place of the new event: behind the earlier ones, in front of the others. *)
Lemma place_event_spec m t newEvent timeout xs2 : forall fuel xs1 v1 v2, holds (eventQ t) (xs1 ++ xs2) ->
  Forall2 (fun x e => events t !! x.2 = Some e) (xs1 ++ xs2) (v1 ++ v2) -> length xs1 = length v1 -> q_fresh (eventQ t) m -> (length xs2 < fuel)%nat ->
  exists x1 x2 w1 w2, xs2 = x1 ++ x2 /\ v2 = w1 ++ w2 /\ length x1 = length w1 /\ Forall (fun e => eventTime e < timeout) w1 /\
    ((x2 = [] /\ w2 = [] /\ place_event fuel m t newEvent timeout (hd 0 xs2.*1) = Ok (None, t)) \/
     (exists e w, w2 = e :: w /\ timeout <= eventTime e /\ exists r q', place_event fuel m t newEvent timeout (hd 0 xs2.*1) = Ok (Some r, set_queue t q') /\
        (r = 0 /\ m = 0 /\ holds q' (xs1 ++ xs2) \/ r <> 0 /\ holds q' (xs1 ++ x1 ++ (r, newEvent) :: x2)))).
Proof.
  induction xs2 as [| [n a] xs2 IH]; intros fuel xs1 v1 v2 Hh He Hl Hm Hf; (destruct fuel as [| fuel]; [cbn in Hf; lia |]); cbn [place_event].
  - apply Forall2_app_inv in He as [_ He]; [| done]. apply Forall2_nil_inv_l in He as ->. exists [], [], [], []. split_and!; try done. by left.
  - pose proof (Forall2_app_inv _ _ _ _ _ Hl He) as [_ He2]. apply Forall2_cons_inv_l in He2 as (v & w2 & _ & _ & ->).
    destruct (event_at_spec t xs1 n a xs2 v1 v w2 Hh He Hl) as (Ea & Hn & En). cbn [fmap list_fmap fst hd]. rewrite (proj2 (Z.eqb_neq _ _) Hn), Ea.
    cbn [mbind res_bind]. destruct (Z.geb_spec (eventTime v) timeout) as [Hge | Hlt].
    + destruct (law_add_before _ xs1 n a xs2 m newEvent Hh Hm) as (r & q' & -> & Hr). cbn [mbind res_bind].
      exists [], ((n, a) :: xs2), [], (v :: w2). split_and!; try done. right. exists v, w2. split_and!; [done | lia |]. by exists r, q'.
    + rewrite En. cbn [mbind res_bind].
      destruct (IH fuel (xs1 ++ [(n, a)]) (v1 ++ [v]) w2) as (x1 & x2 & u1 & u2 & -> & -> & Hlen & Hu & Hres);
        [by rewrite <- app_assoc | by rewrite <- !app_assoc | rewrite !length_app; cbn; lia | done | cbn in Hf; lia |].
      exists ((n, a) :: x1), x2, (v :: u1), u2. split_and!; try done; [cbn; lia | constructor; [lia | done] |].
      destruct Hres as [(-> & -> & E) | (e & w & -> & He' & r & q' & E & Hr)]; [left; done | right].
      exists e, w. split_and!; try done. exists r, q'. split; [done |]. rewrite <- !app_assoc in Hr. done.
Qed.

Lemma sorted_insert e w1 w2 : in_order (w1 ++ w2) -> Forall (fun x => eventTime x < eventTime e) w1 -> Forall (fun x => eventTime e <= eventTime x) w2 ->
  in_order (w1 ++ e :: w2).
Proof.
  unfold in_order. induction w1 as [| x w1 IH]; intros Hs H1 H2; cbn in *; [by constructor |].
  apply StronglySorted_inv in Hs as [Hs Hx]. apply Forall_cons in H1 as [Hxe H1]. constructor; [by apply IH |].
  apply List.Forall_app in Hx as [Hx1 Hx2]. apply List.Forall_app. split; [done |]. constructor; [lia | done].
Qed.

Lemma sorted_app w1 w2 : in_order (w1 ++ w2) -> in_order w1 /\ in_order w2 /\ forall x y, x ∈ w1 -> y ∈ w2 -> eventTime x <= eventTime y.
Proof.
  unfold in_order. induction w1 as [| x w1 IH]; intros Hs; cbn in *; [split_and!; [constructor | done | by intros ? ? ?%not_elem_of_nil] |].
  apply StronglySorted_inv in Hs as [Hs Hx]. destruct (IH Hs) as (I1 & I2 & I3). apply List.Forall_app in Hx as [Hx1 Hx2].
  split_and!; [by constructor | done |]. intros a b [-> | Ha]%elem_of_cons Hb; [by apply (proj1 (Forall_forall _ _) Hx2) | by apply I3].
Qed.

Lemma Schedule_spec now m1 m2 t xs vs fs B timeout type j d when : CalculateEventTime now timeout type = Ok when -> timed t xs vs fs B -> in_order vs -> fresh_event t m1 -> q_fresh (eventQ t) m2 ->
  0 <= lastEventId t < INT_MAX ->
  let e := MkEvent j when d (lastEventId t) in
  exists rc i t', TimerThreadSchedule now m1 m2 t timeout type j d = Ok (rc, i, t') /\ stopping t' = stopping t /\
    ((rc = 0 /\ i = lastEventId t /\ lastEventId t' = lastEventId t + 1 /\ exists w1 w2 xs' fs', vs = w1 ++ w2 /\ timed t' xs' (w1 ++ e :: w2) fs' B /\
        Forall (fun x => eventTime x < eventTime e) w1 /\ Forall (fun x => eventTime e <= eventTime x) w2) \/
     (rc = EOUTOFMEM /\ (m1 = 0 \/ m2 = 0) /\ lastEventId t <= lastEventId t' /\ exists fs', timed t' xs vs fs' B)).
Proof.
  intros Hwhen Ht Hs Hm1 Hm2 Hid e. unfold TimerThreadSchedule. rewrite Hwhen. cbn [mbind res_bind].
  destruct (CreateTimerEvent_spec m1 t xs vs fs B j d when (lastEventId t) Ht Hm1)
    as (a & t1 & -> & [Sl Ss] & Sq & [(-> & -> & Ht1) | (Ha & Hev & fs1 & Hr1)]); cbn [mbind res_bind].
  { cbn [Z.eqb]. exists EOUTOFMEM, INVALID_EVENT_ID, t1. split_and!; [done | done | right]. split_and!; [done | by left | lia | by exists fs]. }
  rewrite (proj2 (Z.eqb_neq _ _) Ha). pose proof Hr1 as [Hh He _ _ _ _]. pose proof (law_size _ _ Hh) as Hsz.
  rewrite (law_head _ _ Hh). cbn [mbind res_bind].
  destruct (place_event_spec m2 t1 a when xs (S (Z.to_nat (q_size (eventQ t1)))) [] [] vs Hh He)
    as (x1 & x2 & w1 & w2 & -> & -> & Hlen & Hw1 & Hres); [done | by rewrite Sq | lia |].
  assert (Hw2 : forall y w, w2 = y :: w -> when <= eventTime y -> Forall (fun x => eventTime e <= eventTime x) w2).
  { intros y w -> Hy. apply sorted_app in Hs as (_ & Hs2 & _). apply StronglySorted_inv in Hs2 as [_ Hs2]. constructor; [done |].
    apply Forall_forall. intros z Hz. pose proof (proj1 (List.Forall_forall _ _) Hs2 z (proj1 (list_elem_of_In _ _) Hz)). cbn in *. lia. }
  assert (G : forall r q', (r = 0 /\ m2 = 0 /\ holds q' (x1 ++ x2) \/ r <> 0 /\ holds q' (x1 ++ (r, a) :: x2)) -> Forall (fun x => eventTime e <= eventTime x) w2 ->
    exists rc i t', (t ← (if r =? 0 then FreeTimerEvent (set_queue t1 q') a else Ok (set_queue t1 q'));
       n ← int_op (lastEventId t + 1); Ok (if r =? 0 then EOUTOFMEM else 0, lastEventId t, set_last_id t n)) = Ok (rc, i, t') /\ stopping t' = stopping t /\
    ((rc = 0 /\ i = lastEventId t /\ lastEventId t' = lastEventId t + 1 /\ exists v1 v2 xs' fs', w1 ++ w2 = v1 ++ v2 /\ timed t' xs' (v1 ++ e :: v2) fs' B /\
        Forall (fun x => eventTime x < eventTime e) v1 /\ Forall (fun x => eventTime e <= eventTime x) v2) \/
     (rc = EOUTOFMEM /\ (m1 = 0 \/ m2 = 0) /\ lastEventId t <= lastEventId t' /\ exists fs', timed t' (x1 ++ x2) (w1 ++ w2) fs' B))).
  { intros r q' Hr Hw2'. destruct Hr as [(-> & -> & Hq) | [Hr0 Hq]].
    - cbn [Z.eqb]. destruct (FreeTimerEvent_spec (set_queue t1 q') a (x1 ++ x2) (w1 ++ w2) fs1 B) as (t2 & fs2 & -> & Ht2 & _ & [Sl2 Ss2] & _).
      { destruct Hr1. by split. }
      cbn [mbind res_bind set_queue lastEventId stopping] in *. rewrite int_op_in by (unfold INT_MIN, INT_MAX in *; lia). cbn [mbind res_bind].
      eexists _, _, _. split; [done |]. split; [cbn; congruence |]. right. split_and!; [done | by right | cbn; lia |]. exists fs2. destruct Ht2. by split.
    - rewrite (proj2 (Z.eqb_neq _ _) Hr0). cbn [mbind res_bind set_queue lastEventId]. rewrite int_op_in by (unfold INT_MIN, INT_MAX in *; lia). cbn [mbind res_bind].
      eexists _, _, _. split; [done |]. split; [cbn; congruence |]. left. split_and!; [done | done | cbn; lia |].
      pose proof (enqueue t1 q' a r e x1 x2 w1 w2 fs1 B Hr1 Hlen Hev Hq) as [T1 T2 T3 T4 T5 T6].
      exists w1, w2, (x1 ++ (r, a) :: x2), fs1. split_and!; [done | by split | done | done]. }
  destruct Hres as [(-> & -> & E) | (y & w & Ey & Hy & r & q' & E & Hr)]; rewrite E; cbn [mbind res_bind].
  - rewrite app_nil_r in Hh. destruct (law_add_tail _ x1 m2 a Hh) as (r & q' & Eq & Hr); [by rewrite Sq |]. rewrite Eq. cbn [mbind res_bind].
    apply G; [| constructor]. rewrite app_nil_r. exact Hr.
  - apply G; [exact Hr | by apply (Hw2 y w)].
Qed.

Lemma Remove_spec t xs vs fs B i : timed t xs vs fs B ->
  (exists v1 e v2 x1 x2 t' fs', vs = v1 ++ e :: v2 /\ id e = i /\ Forall (fun x => id x <> i) v1 /\ TimerThreadRemove t i = Ok (0, Some (job e), t') /\
     timed t' (x1 ++ x2) (v1 ++ v2) fs' B /\ same_timer t t') \/
  (Forall (fun x => id x <> i) vs /\ TimerThreadRemove t i = Ok (INVALID_EVENT_ID, None, t)).
Proof.
  intros Ht. unfold TimerThreadRemove. rewrite (law_head _ _ (td_holds _ _ _ _ _ Ht)), (law_size _ _ (td_holds _ _ _ _ _ Ht)). cbn [mbind res_bind].
  rewrite Nat2Z.id. assert (G : forall x2 x1 v1 v2 fuel, xs = x1 ++ x2 -> vs = v1 ++ v2 -> length x1 = length v1 -> Forall (fun x => id x <> i) v1 -> (length x2 < fuel)%nat ->
    (exists v1 e v2 x1 x2' t' fs', vs = v1 ++ e :: v2 /\ id e = i /\ Forall (fun x => id x <> i) v1 /\ remove_loop fuel i t (hd 0 x2.*1) = Ok (0, Some (job e), t') /\
     timed t' (x1 ++ x2') (v1 ++ v2) fs' B /\ same_timer t t') \/
    (Forall (fun x => id x <> i) vs /\ remove_loop fuel i t (hd 0 x2.*1) = Ok (INVALID_EVENT_ID, None, t))).
  { pose proof (td_events _ _ _ _ _ Ht) as He. pose proof (td_holds _ _ _ _ _ Ht) as Hh.
    induction x2 as [| [n a] x2 IH]; intros x1 v1 v2 fuel -> -> Hl Hv1 Hf; (destruct fuel as [| fuel]; [cbn in Hf; lia |]); cbn [remove_loop].
    - apply Forall2_app_inv in He as [_ He]; [| done]. apply Forall2_nil_inv_l in He as ->. rewrite app_nil_r. right. done.
    - pose proof (Forall2_app_inv _ _ _ _ _ Hl He) as [_ He2]. apply Forall2_cons_inv_l in He2 as (v & w2 & _ & _ & ->).
      destruct (event_at_spec t x1 n a x2 v1 v w2 Hh He Hl) as (Ea & Hn & En). cbn [fmap list_fmap fst hd]. rewrite (proj2 (Z.eqb_neq _ _) Hn), Ea.
      cbn [mbind res_bind]. destruct (Z.eqb_spec (id v) i) as [Hi | Hi].
      + left. destruct (law_del _ _ _ _ _ Hh) as (q' & -> & Hq). cbn [mbind res_bind].
        destruct (FreeTimerEvent_spec _ a _ _ fs B (unqueue t q' x1 n a x2 v1 v w2 fs B Ht Hl Hq)) as (t' & fs' & -> & Ht' & _ & Hst & _). cbn [mbind res_bind].
        exists v1, v, w2, x1, x2, t', fs'. split_and!; done.
      + rewrite En. cbn [mbind res_bind]. apply (IH (x1 ++ [(n, a)]) (v1 ++ [v]) w2); [by rewrite <- app_assoc | by rewrite <- app_assoc | rewrite !length_app; cbn; lia | | cbn in Hf; lia].
        apply Forall_app. by split; [| constructor]. }
  destruct (G xs [] [] vs (S (length xs))) as [(v1 & e & v2 & x1 & x2 & t' & fs' & H') | H']; [done | done | done | constructor | lia | left | by right].
  by exists v1, e, v2, x1, x2, t', fs'.
Qed.

(** Events given to the pool one after the other: what was freed because the pool refused it, and the pool. *)
Fixpoint submit_all vs (p : P) : list ThreadPoolJob * P :=
  match vs with
  | [] => ([], p)
  | v :: vs => let '(rc, p) := submit (persistent v) (job v) p in let '(freed, p) := submit_all vs p in (refused rc (job v) ++ freed, p)
  end.

Lemma Worker_spec vs : forall fuel clock t xs fs B p, timed t xs vs fs B -> stopping t = false -> (length vs < fuel)%nat ->
  exists k xs' t' fs', (k <= length vs)%nat /\
    TimerThreadWorker submit fuel clock t p = Ok (Waits (eventTime <$> vs !! k), (submit_all (take k vs) p).1, t', (submit_all (take k vs) p).2) /\
    timed t' xs' (drop k vs) fs' B /\ same_timer t t' /\
    (forall i v, (i < k)%nat -> vs !! i = Some v -> eventTime v <= clock i) /\ (forall v, vs !! k = Some v -> clock k < eventTime v).
Proof.
  induction vs as [| v vs IH]; intros fuel clock t xs fs B p Ht Hst Hf; (destruct fuel as [| fuel]; [cbn in Hf; lia |]); cbn [TimerThreadWorker]; rewrite Hst;
    pose proof (td_events _ _ _ _ _ Ht) as He; pose proof (td_holds _ _ _ _ _ Ht) as Hh; rewrite (law_size _ _ Hh).
  - apply Forall2_nil_inv_r in He as ->. cbn. exists 0%nat, [], t, fs. split_and!; done || lia.
  - apply Forall2_cons_inv_r in He as ([n a] & xs' & Hev & He' & ->). rewrite (proj2 (Z.gtb_lt _ _)) by (cbn; lia).
    rewrite (law_head _ _ Hh). cbn [mbind res_bind fmap list_fmap fst hd].
    destruct (event_at_spec t [] n a xs' [] v vs Hh (td_events _ _ _ _ _ Ht) eq_refl) as (Ea & Hn & _). rewrite (proj2 (Z.eqb_neq _ _) Hn), Ea. cbn [mbind res_bind].
    destruct (Z.geb_spec (clock 0%nat) (eventTime v)) as [Hdue | Hlater].
    + destruct (submit (persistent v) (job v) p) as [rc p1] eqn:Es. destruct (law_del _ [] n a xs' Hh) as (q' & -> & Hq). cbn [mbind res_bind].
      destruct (FreeTimerEvent_spec _ a _ _ fs B (unqueue t q' [] n a xs' [] v vs fs B Ht eq_refl Hq)) as (t1 & fs1 & -> & Ht1 & _ & [Sl Ss] & _).
      cbn [mbind res_bind app set_queue stopping lastEventId] in *.
      destruct (IH fuel (fun i => clock (S i)) t1 xs' fs1 B p1 Ht1) as (k & xs2 & t2 & fs2 & Hk & -> & Ht2 & [Sl2 Ss2] & Hd1 & Hd2); [congruence | cbn in Hf; lia |].
      exists (S k), xs2, t2, fs2. cbn [take drop submit_all length lookup list_lookup mbind res_bind]. rewrite Es. destruct (submit_all (take k vs) p1) as [freed p2].
      split_and!; [lia | done | done | split; congruence | | exact Hd2]. intros [| i] w Hi Hw; [by injection Hw as <- | by apply (Hd1 i); [lia |]].
    + exists 0%nat, ((n, a) :: xs'), t, fs. cbn. split_and!; try done; [lia | lia | intros w [= <-]; lia].
Qed.

Lemma drop_events_spec vs : forall fuel t xs fs B, timed t xs vs fs B -> (length vs < fuel)%nat ->
  exists t' fs', drop_events fuel t (hd 0 xs.*1) = Ok (List.filter (fun j => match free_func j with Some _ => true | None => false end) (map job vs), t') /\
    timed t' [] [] fs' B /\ same_timer t t' /\ (length fs' <= length vs + length fs)%nat.
Proof.
  induction vs as [| v vs IH]; intros fuel t xs fs B Ht Hf; (destruct fuel as [| fuel]; [cbn in Hf; lia |]); cbn [drop_events];
    pose proof (td_events _ _ _ _ _ Ht) as He; pose proof (td_holds _ _ _ _ _ Ht) as Hh.
  - apply Forall2_nil_inv_r in He as ->. cbn. exists t, fs. split_and!; done || lia.
  - apply Forall2_cons_inv_r in He as ([n a] & xs' & Hev & He' & ->). cbn [fmap list_fmap fst hd].
    destruct (event_at_spec t [] n a xs' [] v vs Hh (td_events _ _ _ _ _ Ht) eq_refl) as (Ea & Hn & En). rewrite (proj2 (Z.eqb_neq _ _) Hn), Ea, En. cbn [mbind res_bind].
    destruct (law_del _ [] n a xs' Hh) as (q' & -> & Hq). cbn [mbind res_bind].
    destruct (FreeTimerEvent_spec _ a _ _ fs B (unqueue t q' [] n a xs' [] v vs fs B Ht eq_refl Hq)) as (t1 & fs1 & -> & Ht1 & Hl1 & [Sl Ss] & _).
    cbn [mbind res_bind app set_queue stopping lastEventId] in *.
    destruct (IH fuel t1 xs' fs1 B Ht1) as (t2 & fs2 & E & Ht2 & [Sl2 Ss2] & Hl2); [cbn in Hf; lia |]. rewrite E. cbn [mbind res_bind map List.filter].
    exists t2, fs2. split_and!; [by destruct (free_func (job v)) | done | split; congruence | cbn; lia].
Qed.

Lemma Shutdown_spec t xs vs fs B fuel : timed t xs vs fs B -> (length vs + length fs < fuel)%nat ->
  exists t', TimerThreadShutdown fuel t = Ok (List.filter (fun j => match free_func j with Some _ => true | None => false end) (map job vs), t') /\
    timed t' [] [] [] B /\ stopping t' = true /\ blocks (kept_events t') = B.
Proof.
  intros Ht Hf. unfold TimerThreadShutdown. pose proof Ht as [Hh He _ _ _ _].
  assert (Ht0 : timed (set_stopping t true) xs vs fs B) by (destruct Ht; by split).
  change (eventQ (set_stopping t true)) with (eventQ t). rewrite (law_head _ _ Hh), (law_size _ _ Hh), Nat2Z.id. cbn [mbind res_bind].
  destruct (drop_events_spec vs (S (length xs)) _ xs fs B Ht0) as (t1 & fs1 & -> & Ht1 & [Sl Ss] & Hl1); [rewrite (Forall2_length _ _ _ He); lia |].
  cbn [mbind res_bind]. destruct Ht1 as [Hh1 He1 [Hc Hn Hlen Hm Hb] Hd1 Hb1 Ha1]. destruct (law_destroy _ _ Hh1) as (q' & -> & Hq'). cbn [mbind res_bind].
  unfold FreeListDestroy. destruct (free_all_spec fs1 fuel _ _ Hc Hn Hb) as (s' & -> & Eb); [lia |]. cbn [mbind res_bind].
  cbn [fmap list_fmap app] in *.
  assert (EB : blocks s' = B).
  { rewrite Eb, Hb1. apply set_eq. intros c. rewrite elem_of_difference, elem_of_union, !elem_of_list_to_set. specialize (Ha1 c). tauto. }
  eexists. split; [done |]. cbn [stopping set_stopping] in *. split_and!; [| done | done].
  split; cbn [eventQ events freeEvents kept_events fmap list_fmap app]; try done; [ | apply NoDup_singleton | rewrite EB; set_solver | by intros c ?%not_elem_of_nil].
  split; cbn; try done; [apply NoDup_singleton | lia | by intros a ?%not_elem_of_nil].
Qed.

(** The events that wait in the timer. *)
Definition waiting t vs (B : gset Z) : Prop := (exists xs fs, timed t xs vs fs B) /\ in_order vs /\ numbered (lastEventId t) vs.

Lemma in_order_del v1 e v2 : in_order (v1 ++ e :: v2) -> in_order (v1 ++ v2).
Proof.
  unfold in_order. induction v1 as [| x v1 IH]; intros Hs; cbn in *; apply StronglySorted_inv in Hs as [Hs Hx]; [done |].
  constructor; [by apply IH |]. apply List.Forall_app in Hx as [Hx1 Hx2]. apply List.Forall_app. split; [done |]. by inversion Hx2.
Qed.

Lemma numbered_perm last vs vs' : vs ≡ₚ vs' -> numbered last vs -> numbered last vs'.
Proof. intros Hp [H1 H2]. unfold numbered. by rewrite <- Hp. Qed.

(** Cut at a time: the events of a prefix are due and the next one is not. *)
Lemma due_split vs now k : in_order vs -> (forall i v, (i < k)%nat -> vs !! i = Some v -> eventTime v <= now) -> (forall v, vs !! k = Some v -> now < eventTime v) ->
  take k vs = List.filter (fun e => eventTime e <=? now) vs /\ drop k vs = List.filter (fun e => now <? eventTime e) vs.
Proof.
  revert k; induction vs as [| v vs IH]; intros k Hs Hd Hl; [by destruct k |]. pose proof (StronglySorted_inv Hs) as [Hs' Hv]. cbn [List.filter]. destruct k as [| k].
  - specialize (Hl v eq_refl). rewrite (proj2 (Z.leb_gt _ _)), (proj2 (Z.ltb_lt _ _)) by done. cbn [take drop].
    assert (G : Forall (fun e => now < eventTime e) vs).
    { apply Forall_forall. intros e He. pose proof (proj1 (List.Forall_forall _ _) Hv e (proj1 (list_elem_of_In _ _) He)). cbn in *. lia. }
    clear - G. assert (E : [] = List.filter (fun e => eventTime e <=? now) vs /\ vs = List.filter (fun e => now <? eventTime e) vs).
    { induction G as [| e vs He _ [IH1 IH2]]; [done |]. cbn. rewrite (proj2 (Z.leb_gt _ _)), (proj2 (Z.ltb_lt _ _)) by done. by rewrite <- IH1, <- IH2. }
    destruct E as [-> E]. split; [done |]. by rewrite <- E.
  - assert (eventTime v <= now) by (apply (Hd 0%nat); [lia | done]). rewrite (proj2 (Z.leb_le _ _)), (proj2 (Z.ltb_ge _ _)) by done. cbn [take drop].
    destruct (IH k) as [E1 E2]; [done | intros i w Hi Hw; apply (Hd (S i)); [lia | done] | intros w Hw; by apply Hl |]. by rewrite E1, E2.
Qed.

Lemma in_order_app_r w1 w2 : in_order (w1 ++ w2) -> in_order w2.
Proof. intros Hs. by apply sorted_app in Hs as (_ & ? & _). Qed.

Lemma numbered_drop last vs k : numbered last vs -> numbered last (drop k vs).
Proof.
  intros [H1 H2]. rewrite <- (take_drop k vs), map_app in H1. rewrite <- (take_drop k vs) in H2.
  apply NoDup_app in H1 as (_ & _ & H1). apply Forall_app in H2 as [_ H2]. done.
Qed.

(** C19.  The timer.  A scheduled event is put behind the earlier events and in front of the others, under a new identifier, or nothing is scheduled for want of
    memory (a relative time whose sum with the clock does not fit a [time_t] is undefined); an event is removed by its identifier; the thread, when it wakes up, gives to the pool all the events that are due, in the order
    of their times and each once, and goes on waiting for the first of the others; the arguments of the jobs the pool refuses, and of the events that are dropped at the end, are
    given to their free functions, and no element is lost. *)
Theorem timer_thread t vs (B : gset Z) (Ht : waiting t vs B) :
  (forall now m1 m2 timeout type j d, fresh_event t m1 -> q_fresh (eventQ t) m2 -> 0 <= lastEventId t < INT_MAX ->
     let when := match type with ABS_SEC => timeout | REL_SEC => timeout + now end in
     let e := MkEvent j when d (lastEventId t) in
     (type = REL_SEC -> ~ - 2 ^ 63 <= when < 2 ^ 63 -> TimerThreadSchedule now m1 m2 t timeout type j d = UB) /\
     (type = ABS_SEC \/ - 2 ^ 63 <= when < 2 ^ 63 ->
     exists rc i t', TimerThreadSchedule now m1 m2 t timeout type j d = Ok (rc, i, t') /\
       ((rc = 0 /\ i = lastEventId t /\ exists w1 w2, vs = w1 ++ w2 /\ waiting t' (w1 ++ e :: w2) B /\
           Forall (fun x => eventTime x < eventTime e) w1 /\ Forall (fun x => eventTime e <= eventTime x) w2) \/
        (rc = EOUTOFMEM /\ (m1 = 0 \/ m2 = 0) /\ waiting t' vs B)))) /\
  (forall i, (exists v1 e v2 t', vs = v1 ++ e :: v2 /\ id e = i /\ TimerThreadRemove t i = Ok (0, Some (job e), t') /\ waiting t' (v1 ++ v2) B) \/
     (Forall (fun x => id x <> i) vs /\ TimerThreadRemove t i = Ok (INVALID_EVENT_ID, None, t))) /\
  (forall now p fuel, stopping t = false -> (length vs < fuel)%nat ->
     let due := List.filter (fun e => eventTime e <=? now) vs in
     let later := List.filter (fun e => now <? eventTime e) vs in
     exists t', TimerThreadWorker submit fuel (fun _ => now) t p = Ok (Waits (eventTime <$> hd_error later), (submit_all due p).1, t', (submit_all due p).2) /\
       waiting t' later B /\ stopping t' = false) /\
  (exists n, forall fuel, (n <= fuel)%nat -> exists t',
     TimerThreadShutdown fuel t = Ok (List.filter (fun j => match free_func j with Some _ => true | None => false end) (map job vs), t') /\
       waiting t' [] B /\ blocks (kept_events t') = B /\ forall p, TimerThreadWorker submit 1 (fun _ => 0) t' p = Ok (Stopped, [], set_stopping t' false, p)).
Proof.
  destruct Ht as ((xs & fs & Ht) & Hs & Hn). split_and!.
  - intros now m1 m2 timeout type j d H1 H2 H3 when e. split.
    { intros -> Hr. unfold TimerThreadSchedule, CalculateEventTime, time_op. fold when.
      by destruct (Z.leb_spec (- 2 ^ 63) when), (Z.ltb_spec when (2 ^ 63)); [destruct Hr; lia | ..]. }
    intros Hr. assert (Hwhen : CalculateEventTime now timeout type = Ok when).
    { destruct type; [done |]. destruct Hr as [? | Hr]; [done |]. unfold CalculateEventTime, time_op. fold when.
      by rewrite (proj2 (Z.leb_le _ _)), (proj2 (Z.ltb_lt _ _)) by lia. }
    destruct (Schedule_spec now m1 m2 t xs vs fs B timeout type j d when Hwhen Ht Hs H1 H2 H3)
      as (rc & i & t' & E & _ & [(-> & -> & Hid & w1 & w2 & xs' & fs' & -> & Ht' & Hw1 & Hw2) | (-> & Hm & Hid & fs' & Ht')]).
    + exists 0, (lastEventId t), t'. split; [done |]. left. split_and!; [done | done |]. exists w1, w2. split_and!; [done | | done | done].
      split_and!; [by exists xs', fs' | by apply sorted_insert |]. apply (numbered_perm _ (e :: w1 ++ w2)); [apply Permutation_middle |].
      destruct Hn as [N1 N2]. rewrite Hid. split; cbn [map].
      * apply NoDup_cons. split; [| done]. rewrite list_elem_of_fmap. intros (x & Ex & Hx). apply (proj1 (Forall_forall _ _) N2) in Hx. cbn in Ex. lia.
      * constructor; [cbn; lia |]. eapply Forall_impl; [exact N2 |]. cbn. lia.
    + exists EOUTOFMEM, i, t'. split; [done |]. right. split_and!; [done | done |]. split_and!; [by exists xs, fs' | done |].
      destruct Hn as [N1 N2]. split; [done |]. eapply Forall_impl; [exact N2 |]. cbn. lia.
  - intros i. destruct (Remove_spec t xs vs fs B i Ht) as [(v1 & e & v2 & x1 & x2 & t' & fs' & -> & Hi & _ & E & Ht' & [Sl _]) | [Hi E]]; [left | by right].
    exists v1, e, v2, t'. split_and!; [done | done | done |]. split_and!; [by exists (x1 ++ x2), fs' | by apply in_order_del in Hs |].
    rewrite Sl. apply (numbered_perm _ _ (e :: v1 ++ v2)) in Hn; [| symmetry; apply Permutation_middle]. apply (numbered_drop _ _ 1 Hn).
  - intros now p fuel Hst Hf due later. destruct (Worker_spec vs fuel (fun _ => now) t xs fs B p Ht Hst Hf) as (k & xs' & t' & fs' & Hk & -> & Ht' & [Sl Ss] & D1 & D2).
    destruct (due_split vs now k Hs D1 D2) as [E1 E2]. fold due in E1. fold later in E2. exists t'. rewrite E1. split_and!; [| | congruence].
    + assert (Eh : hd_error later = vs !! k) by (rewrite <- E2, head_lookup, lookup_drop, Nat.add_0_r; done). by rewrite Eh.
    + rewrite <- E2. split_and!; [by exists xs', fs' | | rewrite Sl; by apply numbered_drop]. rewrite <- (take_drop k vs) in Hs. by apply in_order_app_r in Hs.
  - exists (S (length vs + length fs)). intros fuel Hf. destruct (Shutdown_spec t xs vs fs B fuel Ht) as (t' & E & Ht' & St & Eb); [lia |].
    exists t'. split_and!; [done | | done |].
    + split_and!; [by exists [], [] | constructor | split; constructor].
    + intros p. cbn [TimerThreadWorker]. by rewrite St.
Qed.
End spec.

(** ** Linked lists are queues *)

Definition linked_queue : Type := LinkedList Z * memory Z.

#[export] Instance linked_queue_ops : EventQueue linked_queue := {
  holds q xs := exists fs B, llist q.1 q.2 xs fs B;
  q_fresh q m := fresh q.1 q.2 m;
  q_size q := size q.1;
  q_head q := ListHead q.1 q.2;
  q_next q a := ListNext q.1 a q.2;
  q_item q a := get_item a q.2;
  q_add_before m q item a := '(r, l, M) ← ListAddBefore m q.1 item a q.2; Ok (r, (l, M));
  q_add_tail m q item := '(r, l, M) ← ListAddTail m q.1 item q.2; Ok (r, (l, M));
  q_del q a := '(_, _, l, M) ← ListDelNode q.1 a false q.2; Ok (l, M);
  q_destroy q := '(_, l, M) ← ListDestroy (S (Z.to_nat (size q.1 + freeListLength (freeNodeList q.1)))) q.1 false q.2; Ok (l, M)
}.

#[export] Instance linked_queue_laws : EventQueueLaws linked_queue.
Proof.
  split.
  - intros [l M] xs (fs & B & Hl). apply (ll_size _ _ _ _ _ Hl).
  - intros [l M] xs (fs & B & Hl). apply (ends_spec _ _ _ _ _ Hl).
  - intros [l M] xs1 a x xs2 (fs & B & Hl). destruct (next_spec _ _ _ _ _ _ _ _ Hl) as (_ & _ & E & Ha & _). split_and!; [done | done |].
    apply (step_spec _ _ _ _ _ _ _ _ Hl).
  - intros [l M] xs1 a x xs2 m item (fs & B & Hl) Hm.
    destruct (insert_spec l M xs1 ((a, x) :: xs2) fs B m item Hl Hm _ (or_intror eq_refl)) as (r & l' & M' & fs' & E & _ & Hr).
    change (place_after l ((a, x) :: xs2)) with a in E. cbn [q_add_before linked_queue_ops fst snd]. rewrite E. exists r, (l', M'). split; [done |].
    destruct Hr as [(? & ? & _ & Hl') | [? Hl']]; [left | right]; split_and!; try done; by exists fs', B.
  - intros [l M] xs m item (fs & B & Hl) Hm. rewrite <- (app_nil_r xs) in Hl.
    destruct (insert_spec l M xs [] fs B m item Hl Hm _ (or_intror eq_refl)) as (r & l' & M' & fs' & E & _ & Hr).
    change (place_after l []) with (tail l) in E. cbn [q_add_tail linked_queue_ops fst snd]. unfold ListAddTail. rewrite E. exists r, (l', M'). split; [done |].
    rewrite app_nil_r in Hr. destruct Hr as [(? & ? & _ & Hl') | [? Hl']]; [left | right]; split_and!; try done; by exists fs', B.
  - intros [l M] xs1 a x xs2 (fs & B & Hl). destruct (list_del_spec l M xs1 xs2 fs B a x false Hl) as (l' & M' & fs' & E & _ & Hl' & _).
    cbn [q_del linked_queue_ops fst snd]. rewrite E. exists (l', M'). split; [done |]. by exists fs', B.
  - intros [l M] xs (fs & B & Hl). cbn [q_destroy linked_queue_ops fst snd] in Hl |- *.
    destruct (list_destroy_spec false l M xs fs B (S (Z.to_nat (size l + freeListLength (freeNodeList l)))) Hl) as (l' & M' & -> & Hl' & _).
    { rewrite (ll_size _ _ _ _ _ Hl), (fl_length _ _ _ (ll_free _ _ _ _ _ Hl)). lia. }
    exists (l', M'). split; [done |]. by exists [], B.
Qed.

(** A timer just started. *)
Definition no_submit (d : Duration) (j : ThreadPoolJob) (p : list ThreadPoolJob) : Z * list ThreadPoolJob := (0, p ++ [j]).

Definition new_queue : linked_queue := let '(_, l, M) := ListInit 1 2 None false no_memory in (l, M).

Definition new_timer : TimerThread linked_queue := MkTimer 0 new_queue false (FreeListInit 100) (MkStore ∅ ∅) ∅.

Lemma new_timer_waiting : waiting new_timer [] ∅.
Proof.
  split_and!; [| constructor | split; constructor]. exists [], []. split; try done; [| | apply NoDup_singleton].
  - destruct (empty_list_spec 1 2 None false no_memory) as (l & M & E & Hl & _); [by_decide | by_decide | by_decide |]. injection E as <- <-. by exists [], ∅.
  - split; cbn; try done; [apply NoDup_singleton | by intros c ?%not_elem_of_nil].
Defined.

Lemma timer_thread_witness :
  exists rc i t', TimerThreadSchedule 100 7 8 new_timer 5 REL_SEC (MkJob 1 2 None None (MkTime 0 0) 1 0) SHORT_TERM = Ok (rc, i, t') /\ rc = 0.
Proof.
  destruct (timer_thread no_submit new_timer [] ∅ new_timer_waiting) as (H & _).
  edestruct (H 100 7 8 5 REL_SEC (MkJob 1 2 None None (MkTime 0 0) 1 0) SHORT_TERM) as [_ (rc & i & t' & E & [(? & _) | (_ & [? | ?] & _)])]; [| | | right; lia | | done | done].
  - right. by_decide.
  - right. split_and!; [by_decide | done | done].
  - split; [done | by_decide].
  - by exists rc, i, t'.
Defined.
