(* ===== verification/Utf.v ===== *)
(** * UTF-8

    [common/jansson/utf.c].  Bytes are numbers below 256; a read past the end of a text is undefined. *)

From S2P Require Import Prelude.

(** The result is the returned code and the bytes stored. *)
Definition utf8_encode (codepoint : Z) : Z * list Z :=
  if codepoint <? 0 then (-1, [])
  else if codepoint <? 0x80 then (0, [u8 codepoint])
  else if codepoint <? 0x800 then
    (0, [u8 (0xC0 + Z.shiftr (Z.land codepoint 0x7C0) 6); u8 (0x80 + Z.land codepoint 0x03F)])
  else if codepoint <? 0x10000 then
    (0, [u8 (0xE0 + Z.shiftr (Z.land codepoint 0xF000) 12); u8 (0x80 + Z.shiftr (Z.land codepoint 0x0FC0) 6);
         u8 (0x80 + Z.land codepoint 0x003F)])
  else if codepoint <=? 0x10FFFF then
    (0, [u8 (0xF0 + Z.shiftr (Z.land codepoint 0x1C0000) 18); u8 (0x80 + Z.shiftr (Z.land codepoint 0x03F000) 12);
         u8 (0x80 + Z.shiftr (Z.land codepoint 0x000FC0) 6); u8 (0x80 + Z.land codepoint 0x00003F)])
  else (-1, []).

Definition utf8_check_first (u : Z) : Z :=
  if u <? 0x80 then 1
  else if (0x80 <=? u) && (u <=? 0xBF) then 0
  else if (u =? 0xC0) || (u =? 0xC1) then 0
  else if (0xC2 <=? u) && (u <=? 0xDF) then 2
  else if (0xE0 <=? u) && (u <=? 0xEF) then 3
  else if (0xF0 <=? u) && (u <=? 0xF4) then 4
  else 0.

(** The loop over the continuation bytes [i] to [i + n - 1]; [None] when one is not. *)
Fixpoint continuation (n i : nat) (value : Z) (buffer : list Z) : res (option Z) :=
  match n with
  | O => Ok (Some value)
  | S n =>
      u ← rd buffer i;
      if (u <? 0x80) || (u >? 0xBF) then Ok None
      else continuation n (S i) (Z.shiftl value 6 + Z.land u 0x3F) buffer
  end.

(** [None] for 0, and the code point. *)
Definition utf8_check_full (buffer : list Z) (size : Z) : res (option Z) :=
  u ← rd buffer 0;
  if (size =? 2) || (size =? 3) || (size =? 4) then
    let value := if size =? 2 then Z.land u 0x1F else if size =? 3 then Z.land u 0xF else Z.land u 0x7 in
    v ← continuation (Z.to_nat size - 1) 1 value buffer;
    match v with
    | None => Ok None
    | Some value =>
        if value >? 0x10FFFF then Ok None
        else if (0xD800 <=? value) && (value <=? 0xDFFF) then Ok None
        else if ((size =? 2) && (value <? 0x80)) || ((size =? 3) && (value <? 0x800)) || ((size =? 4) && (value <? 0x10000))
        then Ok None else Ok (Some value)
    end
  else Ok None.

(** The result is how far the pointer moves and the code point, [None] for NULL; without bytes the code
    point is not stored. *)
Definition utf8_iterate (buffer : list Z) (bufsize : Z) : res (option (Z * option Z)) :=
  if bufsize =? 0 then Ok (Some (0, None)) else
  u ← rd buffer 0;
  let count := utf8_check_first u in
  if count <=? 0 then Ok None else
  if count =? 1 then Ok (Some (1, Some u)) else
  if count >? bufsize then Ok None else
  v ← utf8_check_full buffer count;
  Ok (match v with Some value => Some (count, Some value) | None => None end).

Fixpoint check_loop (fuel : nat) (i : Z) (string : list Z) (length : Z) : res Z :=
  match fuel with
  | O => NoFuel
  | S fuel =>
      if i <? length then
        c ← rd string (Z.to_nat i);
        let count := utf8_check_first c in
        if count =? 0 then Ok 0
        else if count >? 1 then
          if count >? length - i then Ok 0 else
          v ← utf8_check_full (drop (Z.to_nat i) string) count;
          match v with None => Ok 0 | Some _ => check_loop fuel (i + (count - 1) + 1) string length end
        else check_loop fuel (i + 1) string length
      else Ok 1
  end.

Definition utf8_check_string (string : list Z) (length : Z) : res Z := check_loop (S (Z.to_nat length)) 0 string length.

(** ** Code points *)

(** What UTF-8 encodes: the code points without the surrogates. *)
Definition scalar (c : Z) : Prop := 0 <= c <= 0x10FFFF /\ ~ (0xD800 <= c <= 0xDFFF).

#[export] Instance scalar_dec c : Decision (scalar c).
Proof. unfold scalar. apply _. Defined.

(** Its encoding, by arithmetic. *)
Definition encoding (c : Z) : list Z :=
  if c <? 0x80 then [c]
  else if c <? 0x800 then [0xC0 + c / 64; 0x80 + c mod 64]
  else if c <? 0x10000 then [0xE0 + c / 4096; 0x80 + c / 64 mod 64; 0x80 + c mod 64]
  else [0xF0 + c / 262144; 0x80 + c / 4096 mod 64; 0x80 + c / 64 mod 64; 0x80 + c mod 64].

Definition is_utf8 (s : list Z) : Prop := exists cs, Forall scalar cs /\ s = concat (map encoding cs).

(** The bits of a mask that is a run of ones. *)
Lemma land_run c k n : 0 <= k -> 0 <= n -> Z.shiftr (Z.land c (Z.shiftl (Z.ones n) k)) k = c / 2 ^ k mod 2 ^ n.
Proof.
  intros Hk Hn. rewrite Z.shiftr_land, <- Z.land_ones, <- Z.shiftr_div_pow2 by lia. f_equal.
  rewrite Z.shiftr_shiftl_l, Z.sub_diag by lia. apply Z.shiftl_0_r.
Qed.

Lemma encode_encoding c : 0 <= c <= 0x10FFFF -> utf8_encode c = (0, encoding c).
Proof.
  intros Hc. unfold utf8_encode, encoding. rewrite (proj2 (Z.ltb_ge c 0)) by lia.
  assert (Hl : forall n, 0 <= n -> Z.land c (Z.ones n) = c mod 2 ^ n) by (intros; by apply Z.land_ones).
  pose proof (Hl 6 ltac:(lia)) as H6. change (Z.ones 6) with 63 in H6. change (2 ^ 6) with 64 in H6.
  pose proof (Z.mod_pos_bound c 64 ltac:(lia)) as B6.
  pose proof (land_run c 6 6 ltac:(lia) ltac:(lia)) as R6. change (Z.shiftl (Z.ones 6) 6) with 0xFC0 in R6. change (2 ^ 6) with 64 in R6.
  pose proof (Z.mod_pos_bound (c / 64) 64 ltac:(lia)) as B66.
  pose proof (land_run c 12 6 ltac:(lia) ltac:(lia)) as R12. change (Z.shiftl (Z.ones 6) 12) with 0x3F000 in R12.
  change (2 ^ 12) with 4096 in R12. change (2 ^ 6) with 64 in R12.
  pose proof (Z.mod_pos_bound (c / 4096) 64 ltac:(lia)) as B126.
  destruct (Z.ltb_spec c 0x80); [by rewrite wrap_small by lia |].
  destruct (Z.ltb_spec c 0x800).
  { pose proof (land_run c 6 5 ltac:(lia) ltac:(lia)) as R. change (Z.shiftl (Z.ones 5) 6) with 0x7C0 in R.
    change (2 ^ 6) with 64 in R. change (2 ^ 5) with 32 in R. change 0x03F with 63. rewrite R, H6.
    assert (c / 64 < 32) by (apply Z.div_lt_upper_bound; lia). assert (0 <= c / 64) by (apply Z.div_pos; lia).
    rewrite (Z.mod_small (c / 64)) by lia. by rewrite !wrap_small by lia. }
  destruct (Z.ltb_spec c 0x10000).
  { pose proof (land_run c 12 4 ltac:(lia) ltac:(lia)) as R. change (Z.shiftl (Z.ones 4) 12) with 0xF000 in R.
    change (2 ^ 12) with 4096 in R. change (2 ^ 4) with 16 in R. change 0x003F with 63. rewrite R, R6, H6.
    assert (c / 4096 < 16) by (apply Z.div_lt_upper_bound; lia). assert (0 <= c / 4096) by (apply Z.div_pos; lia).
    rewrite (Z.mod_small (c / 4096)) by lia. by rewrite !wrap_small by lia. }
  rewrite (proj2 (Z.leb_le _ _)) by lia.
  pose proof (land_run c 18 3 ltac:(lia) ltac:(lia)) as R. change (Z.shiftl (Z.ones 3) 18) with 0x1C0000 in R.
  change (2 ^ 18) with 262144 in R. change (2 ^ 3) with 8 in R. change 0x00003F with 63. change 0x000FC0 with 0xFC0. change 0x03F000 with 0x3F000.
  rewrite R, R12, R6, H6.
  assert (c / 262144 < 8) by (apply Z.div_lt_upper_bound; lia). assert (0 <= c / 262144) by (apply Z.div_pos; lia).
  rewrite (Z.mod_small (c / 262144)) by lia. by rewrite !wrap_small by lia.
Qed.

(** ** Checking *)

Definition cont (u : Z) : Prop := 0x80 <= u <= 0xBF.

Lemma land_mask u n : 0 <= n -> Z.land u (Z.ones n) = u mod 2 ^ n.
Proof. apply Z.land_ones. Qed.

Lemma cont_value u : cont u -> Z.land u 0x3F = u - 128.
Proof. intros [? ?]. change 0x3F with (Z.ones 6). rewrite land_mask by lia. change (2 ^ 6) with 64. Z.to_euclidean_division_equations. lia. Qed.

(** The continuation bytes, most significant first. *)
Lemma continuation_spec (l pre post : list Z) value :
  continuation (length l) (length pre) value (pre ++ l ++ post) =
    Ok (if decide (Forall cont l) then Some (foldl (fun v u => v * 64 + (u - 128)) value l) else None).
Proof.
  revert pre value; induction l as [| u l IH]; intros pre value; [done |].
  cbn [length continuation]. rewrite rd_middle. cbn [mbind res_bind].
  destruct (decide (cont u)) as [Hu | Hu].
  - assert ((u <? 0x80) || (u >? 0xBF) = false) as -> by (destruct Hu; lia).
    specialize (IH (pre ++ [u]) (Z.shiftl value 6 + Z.land u 0x3F)).
    rewrite length_app, Nat.add_1_r, <- app_assoc in IH. cbn [app] in *. rewrite IH. cbn [foldl].
    rewrite Z.shiftl_mul_pow2, (cont_value u Hu) by lia. change (2 ^ 6) with 64. f_equal.
    destruct (decide (Forall cont l)) as [Hl | Hl].
    + by rewrite decide_True by (by constructor).
    + rewrite decide_False; [done |]. by intros [_ ?]%Forall_cons_1.
  - assert ((u <? 0x80) || (u >? 0xBF) = true) as -> by (unfold cont in Hu; lia).
    rewrite decide_False; [done |]. by intros [? _]%Forall_cons_1.
Qed.

Definition lead_value (u size : Z) : Z :=
  if size =? 2 then u - 0xC0 else if size =? 3 then u - 0xE0 else u - 0xF0.

Lemma check_first_cases u : is_byte u ->
  (u < 0x80 /\ utf8_check_first u = 1) \/
  (0xC2 <= u <= 0xDF /\ utf8_check_first u = 2) \/
  (0xE0 <= u <= 0xEF /\ utf8_check_first u = 3) \/
  (0xF0 <= u <= 0xF4 /\ utf8_check_first u = 4) \/
  ((0x80 <= u <= 0xC1 \/ 0xF5 <= u) /\ utf8_check_first u = 0).
Proof.
  intros [? ?]. unfold utf8_check_first.
  repeat match goal with
  | |- context [?a <? ?b] => destruct (Z.ltb_spec a b)
  | |- context [?a <=? ?b] => destruct (Z.leb_spec a b)
  | |- context [?a =? ?b] => destruct (Z.eqb_spec a b)
  end; cbn [andb orb]; lia.
Qed.

Lemma lead_mask u size :
  utf8_check_first u = size -> is_byte u -> 2 <= size ->
  (if size =? 2 then Z.land u 0x1F else if size =? 3 then Z.land u 0xF else Z.land u 0x7) = lead_value u size.
Proof.
  intros E Hu Hs. unfold lead_value. destruct (check_first_cases u Hu) as [[? E'] | [[? E'] | [[? E'] | [[? E'] | [? E']]]]]; rewrite E' in E; subst size; try lia; cbn [Z.eqb Pos.eqb].
  - change 0x1F with (Z.ones 5). rewrite land_mask by lia. change (2 ^ 5) with 32. Z.to_euclidean_division_equations. lia.
  - change 0xF with (Z.ones 4). rewrite land_mask by lia. change (2 ^ 4) with 16. Z.to_euclidean_division_equations. lia.
  - change 0x7 with (Z.ones 3). rewrite land_mask by lia. change (2 ^ 3) with 8. Z.to_euclidean_division_equations. lia.
Qed.

Definition value_ok (size v : Z) : Prop :=
  scalar v /\ (if size =? 2 then 0x80 else if size =? 3 then 0x800 else 0x10000) <= v.

(** The check of a sequence whose bytes are there. *)
Lemma check_full_spec u l post :
  is_byte u -> utf8_check_first u = Z.of_nat (S (length l)) -> (1 <= length l)%nat ->
  utf8_check_full (u :: l ++ post) (Z.of_nat (S (length l))) =
    Ok (let v := foldl (fun v u => v * 64 + (u - 128)) (lead_value u (Z.of_nat (S (length l)))) l in
        if decide (Forall cont l /\ value_ok (Z.of_nat (S (length l))) v) then Some v else None).
Proof.
  intros Hu E Hl. set (size := Z.of_nat _) in *. unfold utf8_check_full. cbn [rd lookup list_lookup of_option mbind res_bind].
  assert (Hs : size = 2 \/ size = 3 \/ size = 4).
  { destruct (check_first_cases u Hu) as [[? E'] | [[? E'] | [[? E'] | [[? E'] | [? E']]]]]; lia. }
  assert ((size =? 2) || (size =? 3) || (size =? 4) = true) as -> by lia.
  rewrite (lead_mask u size E Hu) by lia.
  replace (Z.to_nat size - 1)%nat with (length l) by lia.
  pose proof (continuation_spec l [u] post (lead_value u size)) as C. cbn [app length] in C. rewrite C. cbn [mbind res_bind].
  set (v := foldl _ _ l). cbv zeta. destruct (decide (Forall cont l)) as [Hf | Hf]; [| by rewrite decide_False by tauto].
  assert (Hv : 0 <= v).
  { unfold v. assert (0 <= lead_value u size).
    { unfold lead_value. destruct (check_first_cases u Hu) as [[? E'] | [[? E'] | [[? E'] | [[? E'] | [? E']]]]]; rewrite E' in E; rewrite <- E; cbn; lia. }
    clear - H Hf. revert H. generalize (lead_value u size). induction Hf as [| x l Hx _ IH]; intros z Hz; [done |]. cbn [foldl]. apply IH.
    destruct Hx. lia. }
  unfold value_ok, scalar. destruct (Z.gtb_spec v 0x10FFFF); [by rewrite decide_False by lia |].
  destruct (Z.leb_spec 0xD800 v), (Z.leb_spec v 0xDFFF); cbn [andb]; try (by rewrite decide_False by lia);
    destruct Hs as [-> | [-> | ->]]; cbn [Z.eqb Pos.eqb andb orb]; rewrite ?orb_false_r;
    (destruct (Z.ltb_spec v 0x80) || idtac); (destruct (Z.ltb_spec v 0x800) || idtac); (destruct (Z.ltb_spec v 0x10000) || idtac);
    first [rewrite decide_True by (split; [done | lia]); done | rewrite decide_False by lia; done].
Qed.

Lemma encoding_byte c : scalar c -> Forall is_byte (encoding c).
Proof.
  intros [[? ?] _]. unfold encoding, is_byte. repeat case_match; repeat constructor;
    repeat match goal with H : (_ <? _) = true |- _ => apply Z.ltb_lt in H | H : (_ <? _) = false |- _ => apply Z.ltb_ge in H end;
    Z.to_euclidean_division_equations; lia.
Qed.

(** Unfold the value of a sequence of known length. *)
Ltac small :=
  cbn [foldl length]; unfold lead_value; change (Z.of_nat 2) with 2; change (Z.of_nat 3) with 3; change (Z.of_nat 4) with 4;
  cbn [Z.eqb Pos.eqb].

(** A checked sequence is the encoding of its value. *)
Lemma encoding_checked u l :
  is_byte u -> utf8_check_first u = Z.of_nat (S (length l)) -> (1 <= length l)%nat -> Forall cont l ->
  let v := foldl (fun v u => v * 64 + (u - 128)) (lead_value u (Z.of_nat (S (length l)))) l in
  value_ok (Z.of_nat (S (length l))) v -> encoding v = u :: l.
Proof.
  intros Hu E Hl Hf v [[Hv _] Hmin]. revert E Hl Hf v Hv Hmin.
  destruct (check_first_cases u Hu) as [[Hr E'] | [[Hr E'] | [[Hr E'] | [[Hr E'] | [Hr E']]]]]; rewrite E'; intros E Hl Hf; try lia.
  - destruct l as [| a [| ? ?]]; cbn [length] in *; try lia. apply Forall_cons_1 in Hf as [Ha _].
    small. intros Hv Hmin. unfold cont in *. unfold encoding.
    rewrite (proj2 (Z.ltb_ge _ 0x80)), (proj2 (Z.ltb_lt _ 0x800)) by lia. f_equal; [| f_equal]; Z.to_euclidean_division_equations; lia.
  - destruct l as [| a [| b [| ? ?]]]; cbn [length] in *; try lia. apply Forall_cons_1 in Hf as [Ha Hf]. apply Forall_cons_1 in Hf as [Hb _].
    small. intros Hv Hmin. unfold cont in *. unfold encoding.
    rewrite (proj2 (Z.ltb_ge _ 0x80)), (proj2 (Z.ltb_ge _ 0x800)), (proj2 (Z.ltb_lt _ 0x10000)) by lia.
    f_equal; [| f_equal; [| f_equal]]; Z.to_euclidean_division_equations; lia.
  - destruct l as [| a [| b [| d [| ? ?]]]]; cbn [length] in *; try lia.
    apply Forall_cons_1 in Hf as [Ha Hf]. apply Forall_cons_1 in Hf as [Hb Hf]. apply Forall_cons_1 in Hf as [Hd _].
    small. intros Hv Hmin. unfold cont in *. unfold encoding.
    rewrite (proj2 (Z.ltb_ge _ 0x80)), (proj2 (Z.ltb_ge _ 0x800)), (proj2 (Z.ltb_ge _ 0x10000)) by lia.
    f_equal; [| f_equal; [| f_equal; [| f_equal]]]; Z.to_euclidean_division_equations; lia.
Qed.

(** The encoding of a code point above ASCII is a checked sequence. *)
Lemma checked_encoding c :
  scalar c -> 0x80 <= c -> exists u l, encoding c = u :: l /\ is_byte u /\ utf8_check_first u = Z.of_nat (S (length l)) /\
    (1 <= length l)%nat /\ Forall cont l /\ value_ok (Z.of_nat (S (length l))) c /\
    foldl (fun v u => v * 64 + (u - 128)) (lead_value u (Z.of_nat (S (length l)))) l = c.
Proof.
  intros Hc Hm. pose proof (encoding_byte c Hc) as Hb. destruct Hc as [[H1 H2] H3]. unfold encoding in *.
  rewrite (proj2 (Z.ltb_ge c 0x80)) in * by lia.
  destruct (Z.ltb_spec c 0x800); [| destruct (Z.ltb_spec c 0x10000)]; eexists _, _; (split; [reflexivity |]);
    apply Forall_cons_1 in Hb as [Hb _]; (split; [done |]); cbn [length]; unfold cont, value_ok, scalar;
    (split_and!; [| lia | repeat constructor; Z.to_euclidean_division_equations; lia
                 | small; lia .. |]).
  all: try (small; Z.to_euclidean_division_equations; lia).
  all: match goal with |- utf8_check_first ?u = _ => destruct (check_first_cases u Hb) as [[Hr ->] | [[Hr ->] | [[Hr ->] | [[Hr ->] | [Hr ->]]]]] end;
    try done; exfalso; clear Hb; Z.to_euclidean_division_equations; lia.
Qed.

Lemma encoding_ascii c : 0 <= c < 0x80 -> encoding c = [c].
Proof. intros. unfold encoding. by rewrite (proj2 (Z.ltb_lt _ _)) by lia. Qed.

Lemma check_first_length c rest : scalar c -> utf8_check_first (hd 0 (encoding c ++ rest)) = Z.of_nat (length (encoding c)).
Proof.
  intros Hc. destruct (Z.ltb_spec c 0x80) as [Ha | Ha].
  - rewrite encoding_ascii by (destruct Hc; lia). cbn [hd app length]. unfold utf8_check_first. by rewrite (proj2 (Z.ltb_lt _ _)).
  - destruct (checked_encoding c Hc Ha) as (u & l & -> & _ & E & _). exact E.
Qed.

Lemma check_full_encoding c rest :
  scalar c -> 0x80 <= c -> utf8_check_full (encoding c ++ rest) (Z.of_nat (length (encoding c))) = Ok (Some c).
Proof.
  intros Hc Ha. destruct (checked_encoding c Hc Ha) as (u & l & -> & Hu & E & Hl & Hf & Hv & Ev).
  cbn [app length]. rewrite check_full_spec by done. cbv zeta. rewrite Ev. by rewrite decide_True.
Qed.

(** Any sequence whose bytes are there: the check accepts exactly the encodings. *)
Lemma check_full_sequence s n :
  Forall is_byte s -> utf8_check_first (hd 0 s) = Z.of_nat n -> (2 <= n <= length s)%nat ->
  utf8_check_full s (Z.of_nat n) = Ok None /\ (forall c rest, scalar c -> s <> encoding c ++ rest) \/
  exists c, utf8_check_full s (Z.of_nat n) = Ok (Some c) /\ scalar c /\ 0x80 <= c /\ take n s = encoding c.
Proof.
  intros Hb E Hn. destruct s as [| u s]; [cbn in Hn; lia |]. apply Forall_cons_1 in Hb as [Hu Hb]. cbn [hd] in E.
  destruct n as [| n]; [lia |]. cbn [length] in Hn. set (l := take n s).
  assert (Hl : length l = n) by (unfold l; rewrite length_take; lia).
  rewrite <- Hl in E |- *. rewrite <- (take_drop n s). fold l. rewrite check_full_spec by (done || lia). cbv zeta. set (v := foldl _ _ l).
  case_decide as Hd.
  - right. exists v. destruct Hd as [Hf Hv]. assert (Ev : encoding v = u :: l) by (apply encoding_checked; (done || lia)).
    split_and!; [done | apply Hv | | by rewrite Ev, Hl; cbn [take]; rewrite take_app_length' by done].
    destruct Hv as [_ Hv]. repeat case_match; lia.
  - left. split; [done |]. intros c rest Hc Es.
    pose proof (check_first_length c rest Hc) as Hf. rewrite <- Es in Hf. cbn [hd] in Hf. rewrite E in Hf. apply Nat2Z.inj in Hf.
    destruct (Z.ltb_spec c 0x80) as [Ha | Ha].
    { rewrite encoding_ascii in Hf by (destruct Hc; lia). cbn in Hf. lia. }
    destruct (checked_encoding c Hc Ha) as (u' & l' & Ee & Hu' & E' & Hl' & Hf' & Hv' & Ev').
    rewrite Ee in Es, Hf. cbn [app length] in Es, Hf. injection Es as -> Es.
    apply app_inj_1 in Es as [<- _]; [| lia]. apply Hd. unfold v. rewrite Ev'. done.
Qed.

(** Stepping over one code point. *)
Lemma iterate_encoding c rest size :
  scalar c -> Z.of_nat (length (encoding c)) <= size ->
  utf8_iterate (encoding c ++ rest) size = Ok (Some (Z.of_nat (length (encoding c)), Some c)).
Proof.
  intros Hc Hs. pose proof (check_first_length c rest Hc) as Hf. unfold utf8_iterate.
  assert (Hne : encoding c <> []) by (unfold encoding; repeat case_match; done).
  destruct (encoding c) as [| u l] eqn:Ee; [done |]. cbn [app hd length] in *.
  rewrite (proj2 (Z.eqb_neq size 0)) by lia. cbn [rd lookup list_lookup of_option mbind res_bind]. rewrite Hf.
  rewrite (proj2 (Z.leb_gt _ 0)) by lia. destruct (Z.ltb_spec c 0x80) as [Ha | Ha].
  - rewrite encoding_ascii in Ee by (destruct Hc; lia). injection Ee as <- <-. done.
  - destruct (checked_encoding c Hc Ha) as (u' & l' & Ee' & _ & _ & Hl & _). rewrite Ee in Ee'. injection Ee' as <- <-.
    rewrite (proj2 (Z.eqb_neq _ 1)) by lia. rewrite Z.gtb_ltb, (proj2 (Z.ltb_ge _ _)) by lia.
    pose proof (check_full_encoding c rest Hc Ha) as F. rewrite Ee in F. cbn [app length] in F. by rewrite F.
Qed.

Lemma is_utf8_nil : is_utf8 [].
Proof. by exists []. Qed.

Lemma is_utf8_cons c s : scalar c -> is_utf8 (encoding c ++ s) <-> is_utf8 s.
Proof.
  intros Hc. split.
  - intros ([| d cs] & Hcs & E).
    { exfalso. assert (encoding c <> []) by (unfold encoding; repeat case_match; done). by destruct (encoding c). }
    apply Forall_cons_1 in Hcs as [Hd Hcs]. cbn [map concat] in E.
    pose proof (iterate_encoding c s _ Hc (Z.le_refl _)) as I1. rewrite E in I1.
    pose proof (check_first_length c s Hc) as F1. rewrite E, (check_first_length d _ Hd) in F1.
    rewrite <- F1 in I1. rewrite (iterate_encoding d _ _ Hd (Z.le_refl _)) in I1. injection I1 as <-.
    apply app_inv_head in E. by exists cs.
  - intros (cs & Hcs & ->). exists (c :: cs). split; [by constructor | done].
Qed.

Lemma is_utf8_app_ascii a s : Forall (fun c => 0 <= c < 0x80) a -> is_utf8 (a ++ s) <-> is_utf8 s.
Proof.
  induction 1 as [| c a Hc Ha IH]; [done |]. cbn [app]. change (c :: a ++ s) with ([c] ++ (a ++ s)).
  rewrite <- (encoding_ascii c) by done. rewrite is_utf8_cons by (unfold scalar; lia). exact IH.
Qed.

(** The bytes of a text. *)
Lemma encoding_range c : scalar c -> Forall (fun b => 0 <= b < 0xF5 /\ (b < 0x80 -> b = c)) (encoding c).
Proof.
  intros [[? ?] _]. unfold encoding. repeat case_match; repeat constructor;
    repeat match goal with H : (_ <? _) = true |- _ => apply Z.ltb_lt in H | H : (_ <? _) = false |- _ => apply Z.ltb_ge in H end;
    Z.to_euclidean_division_equations; lia.
Qed.

Lemma encoding_nonempty c : encoding c <> [].
Proof. unfold encoding. by repeat case_match. Qed.

Lemma is_utf8_range s : is_utf8 s -> Forall (fun b => 0 <= b < 0xF5) s.
Proof.
  intros (cs & Hcs & ->). induction Hcs as [| c cs Hc _ IH]; cbn; [done |]. apply Forall_app. split; [| done].
  eapply Forall_impl; [by apply encoding_range |]. cbn. tauto.
Qed.

Lemma is_utf8_app s1 s2 : is_utf8 s1 -> is_utf8 s2 -> is_utf8 (s1 ++ s2).
Proof. intros (c1 & H1 & ->) (c2 & H2 & ->). exists (c1 ++ c2). split; [by apply Forall_app |]. by rewrite map_app, concat_app. Qed.

(** An ASCII byte ends one character and starts the next. *)
Lemma is_utf8_split a c b : is_utf8 (a ++ c :: b) -> 0 <= c < 0x80 -> is_utf8 a /\ is_utf8 b.
Proof.
  intros (cs & Hcs & E) Hc. revert a E. induction Hcs as [| x cs Hx Hcs IH]; intros a E; cbn in E; [by destruct a |].
  symmetry in E. apply app_eq_inv in E as [(k & E1 & E2) | (k & E1 & E2)].
  - destruct k as [| y k]; cbn in E2.
    + rewrite app_nil_r in E1. subst. destruct (IH [] E2) as [Ha Hb]. split; [| done].
      rewrite <- (app_nil_r (encoding x)). by apply is_utf8_cons.
    + injection E2 as <- ->. pose proof (encoding_range x Hx) as Hr. rewrite E1 in Hr.
      apply Forall_app in Hr as [_ Hr]. apply Forall_cons in Hr as [[_ Hr] _]. specialize (Hr ltac:(lia)). subst x.
      rewrite encoding_ascii in E1 by lia. destruct a as [| z a]; [| by destruct a]. injection E1 as <-.
      split; [by exists [] | by exists cs].
  - subst a. destruct (IH k (eq_sym E2)) as [Ha Hb]. split; [| done]. by apply is_utf8_cons.
Qed.

Lemma check_loop_spec string : Forall is_byte string -> forall fuel i,
  (i <= length string)%nat -> (length string - i < fuel)%nat ->
  exists b : bool, check_loop fuel (Z.of_nat i) string (Z.of_nat (length string)) = Ok (if b then 1 else 0) /\
    (b = true <-> is_utf8 (drop i string)).
Proof.
  intros Hb. induction fuel as [| fuel IH]; intros i Hi Hf; [lia |]. cbn [check_loop].
  destruct (Z.ltb_spec (Z.of_nat i) (Z.of_nat (length string))) as [Hlt | Hge].
  2:{ exists true. split; [done |]. rewrite drop_ge by lia. split; [intros _; apply is_utf8_nil | done]. }
  rewrite Nat2Z.id. destruct (rd_lt string i) as (u & -> & Hu); [lia |]. cbn [mbind res_bind].
  pose proof (Forall_lookup_1 _ _ _ _ Hb Hu) as Hub.
  pose proof (drop_S string u i Hu) as Hdr.
  set (s := drop i string) in *. assert (Hlen : length s = (length string - i)%nat) by (unfold s; by rewrite length_drop).
  assert (Hbs : Forall is_byte s) by (by apply Forall_drop).
  destruct (check_first_cases u Hub) as [[Hr E] | [[Hr E] | [[Hr E] | [[Hr E] | [Hr E]]]]]; rewrite E.
  1:{ change (1 =? 0) with false. change (1 >? 1) with false. cbn iota.
      destruct (IH (S i)) as (b & Eb & Hbb); [lia | lia |]. exists b. replace (Z.of_nat i + 1) with (Z.of_nat (S i)) by lia. rewrite Eb. split; [done |].
      rewrite Hbb, Hdr. symmetry. pose proof (is_utf8_cons u (drop (S i) string)) as C.
      rewrite encoding_ascii in C by (destruct Hub; lia). apply C. unfold scalar. destruct Hub. lia. }
  4:{ exists false. split; [done |]. split; [done |]. intros ([| c cs] & Hcs & Es).
      { rewrite Hdr in Es. done. }
      apply Forall_cons_1 in Hcs as [Hc _]. pose proof (check_first_length c (concat (map encoding cs)) Hc) as F.
      cbn [map concat] in Es. rewrite <- Es, Hdr in F. cbn [hd] in F.
      assert (encoding c <> []) by (unfold encoding; repeat case_match; done). destruct (encoding c); [done | cbn [length] in F; lia]. }
  all: match goal with H : utf8_check_first _ = ?k |- _ => set (n := Z.to_nat k); assert (En : k = Z.of_nat n) by done;
      assert (Hn2 : (2 <= n)%nat) by (unfold n; lia); rewrite En in H |- *; clearbody n end;
    rewrite (proj2 (Z.eqb_neq _ 0)) by lia; rewrite (proj2 (Z.gtb_lt _ 1)) by lia;
    (destruct (Z.gtb_spec (Z.of_nat n) (Z.of_nat (length string) - Z.of_nat i)) as [Hgt | Hle];
     [exists false; split; [done |]; split; [done |]; intros (cs & Hcs & Es);
      destruct cs as [| c cs]; [rewrite Hdr in Es; done |];
      apply Forall_cons_1 in Hcs as [Hc _]; pose proof (check_first_length c (concat (map encoding cs)) Hc) as F;
      cbn [map concat] in Es; rewrite <- Es, Hdr in F; cbn [hd] in F;
      apply (f_equal length) in Es; rewrite length_app in Es; lia
     | ]).
  all: destruct (check_full_sequence s n Hbs) as [[F Hno] | (c & F & Hc & Ha & Et)];
      [rewrite Hdr; cbn [hd]; lia | lia | fold s; rewrite F; cbn [mbind res_bind]; exists false; split; [done |]; split; [done |];
        intros ([| c cs] & Hcs & Es); [rewrite Hdr in Es; done |]; apply Forall_cons_1 in Hcs as [Hc _]; by destruct (Hno c (concat (map encoding cs)))
      | fold s; rewrite F; cbn [mbind res_bind];
        destruct (IH (i + n)%nat) as (b & Eb & Hbb); [lia | lia |]; exists b;
        replace (Z.of_nat i + (Z.of_nat n - 1) + 1) with (Z.of_nat (i + n)) by lia; rewrite Eb; split; [done |];
        rewrite Hbb, <- (take_drop n s), Et, (is_utf8_cons c _ Hc); unfold s; by rewrite drop_drop ].
Qed.

(** C39.  UTF-8.  Checking a text of bytes always ends with 0 or 1, without reading past it, and 1 says exactly that the
    text is a sequence of encodings of code points that are not surrogates.  Encoding such a code point succeeds,
    gives between one and four bytes, and stepping over them gives the code point back. *)
Theorem utf8_spec (string : list Z) (c : Z) (rest : list Z) (Hb : Forall is_byte string) (Hc : scalar c) :
  (exists b : bool, utf8_check_string string (Z.of_nat (length string)) = Ok (if b then 1 else 0) /\ (b = true <-> is_utf8 string)) /\
  (exists bytes, utf8_encode c = (0, bytes) /\ (1 <= length bytes <= 4)%nat /\ Forall is_byte bytes /\
     forall size, Z.of_nat (length bytes) <= size ->
       utf8_iterate (bytes ++ rest) size = Ok (Some (Z.of_nat (length bytes), Some c))).
Proof.
  split.
  - unfold utf8_check_string. rewrite Nat2Z.id. apply (check_loop_spec string Hb _ 0%nat); lia.
  - exists (encoding c). rewrite encode_encoding by (destruct Hc; lia). split_and!; [done | | | by apply encoding_byte |].
    1-2: unfold encoding; repeat case_match; cbn; lia.
    intros size Hs. by apply iterate_encoding.
Qed.

Lemma utf8_spec_witness :
  utf8_encode 0x20AC = (0, [0xE2; 0x82; 0xAC]) /\ utf8_check_string [0x41; 0xE2; 0x82; 0xAC] 4 = Ok 1 /\
  exists bytes, utf8_encode 0x20AC = (0, bytes) /\ utf8_iterate (bytes ++ [0x41]) 4 = Ok (Some (3, Some 0x20AC)).
Proof.
  split; [reflexivity |]. split; [reflexivity |].
  destruct (utf8_spec [0x41; 0xE2; 0x82; 0xAC] 0x20AC [0x41] ltac:(by_decide) ltac:(by_decide)) as (_ & bytes & E & _ & _ & H).
  exists bytes. split; [exact E |]. injection E as <-. exact (H 4 ltac:(cbn; lia)).
Defined.
