(* ===== verification/Strbuf.v ===== *)
(** * Growing strings

    [common/jansson/strbuffer.c] and the allocation wrappers of [common/jansson/memory.c].  A string buffer is a block
    of possibly indeterminate bytes ([None] for NULL) with its length and capacity as [size_t] values; [alloc n] tells
    whether an allocation of [n] bytes succeeds. *)

From S2P Require Import Prelude.

Section code.
Context (alloc : Z -> bool).

(** [jsonp_malloc], [jsonp_strndup] and [jsonp_strdup]; the text ends at its zero byte. *)
Definition jsonp_malloc (size : Z) : option (block Z) :=
  if size =? 0 then None else if alloc size then Some (blk_malloc (Z.to_nat size)) else None.

Definition jsonp_strndup (str : list Z) (len : nat) : res (option (block Z)) :=
  match jsonp_malloc (u64 (Z.of_nat len + 1)) with
  | None => Ok None
  | Some new_str =>
      bytes ← blk_copy 0 len str;
      new_str ← blk_store 0 (Some <$> bytes) new_str;
      new_str ← blk_store len [Some 0] new_str;
      Ok (Some new_str)
  end.

Definition jsonp_strdup (str : list Z) : res (option (block Z)) := jsonp_strndup str (length str).

Record strbuffer_t := MkStrbuffer { value : option (block Z); sb_length : Z; sb_size : Z }.

Definition STRBUFFER_MIN_SIZE : Z := 16.
Definition STRBUFFER_FACTOR : Z := 2.
Definition STRBUFFER_SIZE_MAX : Z := 2 ^ 64 - 1.

Definition strbuffer_init : res (Z * strbuffer_t) :=
  match jsonp_malloc STRBUFFER_MIN_SIZE with
  | None => Ok (-1, MkStrbuffer None 0 STRBUFFER_MIN_SIZE)
  | Some v => v ← blk_store 0 [Some 0] v; Ok (0, MkStrbuffer (Some v) 0 STRBUFFER_MIN_SIZE)
  end.

Definition strbuffer_close (sb : strbuffer_t) : strbuffer_t := MkStrbuffer None 0 0.

Definition strbuffer_clear (sb : strbuffer_t) : res strbuffer_t :=
  v ← of_option (value sb); v ← blk_store 0 [Some 0] v; Ok (MkStrbuffer (Some v) 0 (sb_size sb)).

Definition strbuffer_value (sb : strbuffer_t) : option (block Z) := value sb.

Definition strbuffer_steal_value (sb : strbuffer_t) : option (block Z) * strbuffer_t :=
  (value sb, MkStrbuffer None (sb_length sb) (sb_size sb)).

(** Growing: [None] when the size would overflow or there is no memory. *)
Definition grow (sb : strbuffer_t) (size : Z) : res (option strbuffer_t) :=
  if (sb_size sb >? STRBUFFER_SIZE_MAX / STRBUFFER_FACTOR) || (size >? STRBUFFER_SIZE_MAX - 1)
     || (sb_length sb >? STRBUFFER_SIZE_MAX - 1 - size) then Ok None else
  let new_size := Z.max (u64 (sb_size sb * STRBUFFER_FACTOR)) (u64 (sb_length sb + size + 1)) in
  match jsonp_malloc new_size with
  | None => Ok None
  | Some new_value =>
      old ← of_option (value sb);
      cells ← blk_copy 0 (Z.to_nat (sb_length sb)) old;
      new_value ← blk_store 0 cells new_value;
      Ok (Some (MkStrbuffer (Some new_value) (sb_length sb) new_size))
  end.

Definition strbuffer_append_bytes (sb : strbuffer_t) (data : list Z) (size : Z) : res (Z * strbuffer_t) :=
  g ← (if u64 (sb_size sb - sb_length sb) <=? size then grow sb size else Ok (Some sb));
  match g with
  | None => Ok (-1, sb)
  | Some sb =>
      v ← of_option (value sb);
      bytes ← blk_copy 0 (Z.to_nat size) data;
      v ← blk_store (Z.to_nat (sb_length sb)) (Some <$> bytes) v;
      let len := u64 (sb_length sb + size) in
      v ← blk_store (Z.to_nat len) [Some 0] v;
      Ok (0, MkStrbuffer (Some v) len (sb_size sb))
  end.

Definition strbuffer_append_byte (sb : strbuffer_t) (byte : Z) : res (Z * strbuffer_t) := strbuffer_append_bytes sb [byte] 1.

Definition strbuffer_pop (sb : strbuffer_t) : res (Z * strbuffer_t) :=
  if sb_length sb >? 0 then
    let len := sb_length sb - 1 in
    v ← of_option (value sb);
    c ← rd v (Z.to_nat len); c ← of_option c;
    v ← blk_store (Z.to_nat len) [Some 0] v;
    Ok (c, MkStrbuffer (Some v) len (sb_size sb))
  else Ok (0, sb).
End code.

(** ** The contents *)

(** The buffer holds the bytes [bs] and the zero behind them. *)
Record holds (sb : strbuffer_t) (bs : list Z) : Prop := {
  hd_value : exists blk, value sb = Some blk /\ blk_holds (bs ++ [0]) blk /\ Z.of_nat (length blk) = sb_size sb;
  hd_length : sb_length sb = Z.of_nat (length bs);
  hd_size : sb_length sb < sb_size sb <= 2 ^ 62
}.

Lemma blk_holds_malloc n : blk_holds (A := Z) [] (blk_malloc n).
Proof. apply blk_holds_nil. Qed.

(** Storing the terminator behind what is held. *)
Lemma store_zero xs (blk : block Z) :
  blk_holds xs blk -> (length xs < length blk)%nat ->
  exists blk', blk_store (length xs) [Some 0] blk = Ok blk' /\ blk_holds (xs ++ [0]) blk' /\ length blk' = length blk.
Proof.
  intros H Hl. destruct (blk_store_append xs [0] blk H) as (blk' & E & H'); [cbn; lia |].
  exists blk'. split_and!; [done | done | by eapply blk_store_length].
Qed.

Lemma init_holds (alloc : Z -> bool) : alloc STRBUFFER_MIN_SIZE = true ->
  exists sb, strbuffer_init alloc = Ok (0, sb) /\ holds sb [] /\ sb_size sb = STRBUFFER_MIN_SIZE.
Proof.
  intros Ha. unfold strbuffer_init, jsonp_malloc. rewrite Ha.
  destruct (store_zero [] (blk_malloc 16) (blk_holds_nil _)) as (blk & E & H & L); [cbn; lia |].
  change (if STRBUFFER_MIN_SIZE =? 0 then None else Some (blk_malloc (Z.to_nat STRBUFFER_MIN_SIZE)))
    with (Some (blk_malloc (A := Z) 16)). cbv iota beta. cbn [length] in E. rewrite E. cbn [mbind res_bind].
  eexists. split; [done |]. split; [| done]. split; [exists blk; split_and!; [done | done | by rewrite L] | done | done].
Qed.

Lemma clear_holds sb bs : holds sb bs -> exists sb', strbuffer_clear sb = Ok sb' /\ holds sb' [] /\ sb_size sb' = sb_size sb.
Proof.
  intros [(blk & E & H & L) H1 H2]. unfold strbuffer_clear. rewrite E. cbn [of_option mbind res_bind].
  destruct (store_zero [] blk (blk_holds_nil _)) as (blk' & E' & H' & L'); [cbn; lia |]. cbn [length] in E'. rewrite E'.
  cbn [mbind res_bind]. eexists. split; [done |]. split; [| done]. split; cbn; [exists blk'; split_and!; [done | done | lia] | done | lia].
Qed.

(** What a new size is, and what there is after growing: the bytes without their terminator. *)
Definition grown (sb : strbuffer_t) (size : Z) : Z := Z.max (2 * sb_size sb) (sb_length sb + size + 1).

Lemma jsonp_malloc_some (alloc : Z -> bool) n : n <> 0 -> alloc n = true -> jsonp_malloc alloc n = Some (blk_malloc (Z.to_nat n)).
Proof. intros Hn Ha. unfold jsonp_malloc. by rewrite (proj2 (Z.eqb_neq _ _) Hn), Ha. Qed.

Lemma jsonp_malloc_none (alloc : Z -> bool) n : alloc n = false -> jsonp_malloc alloc n = None.
Proof. intros Ha. unfold jsonp_malloc. rewrite Ha. by destruct (_ =? 0). Qed.

Lemma grow_overflow (alloc : Z -> bool) sb bs size :
  holds sb bs -> 2 ^ 64 - 1 <= sb_length sb + size -> 0 <= size < 2 ^ 64 -> grow alloc sb size = Ok None.
Proof.
  intros [_ _ H2] Ho Hs. unfold grow. change (STRBUFFER_SIZE_MAX / STRBUFFER_FACTOR) with (2 ^ 63 - 1).
  unfold STRBUFFER_SIZE_MAX. rewrite (proj2 (Z.gtb_lt (sb_length sb) _)) by lia. by rewrite !orb_true_r.
Qed.

Lemma grow_spec (alloc : Z -> bool) sb bs size :
  holds sb bs -> 0 <= size -> sb_length sb + size < 2 ^ 64 - 1 ->
  if alloc (grown sb size)
  then exists blk, grow alloc sb size = Ok (Some (MkStrbuffer (Some blk) (sb_length sb) (grown sb size))) /\
         blk_holds bs blk /\ Z.of_nat (length blk) = grown sb size
  else grow alloc sb size = Ok None.
Proof.
  intros [(blk & E & [r ->] & L) H1 H2] Hs Hb.
  assert (G : grow alloc sb size = match jsonp_malloc alloc (grown sb size) with
    | None => Ok None
    | Some nv => old ← of_option (value sb); cells ← blk_copy 0 (Z.to_nat (sb_length sb)) old; nv ← blk_store 0 cells nv;
        Ok (Some (MkStrbuffer (Some nv) (sb_length sb) (grown sb size)))
    end).
  { unfold grow. change (STRBUFFER_SIZE_MAX / STRBUFFER_FACTOR) with (2 ^ 63 - 1). unfold STRBUFFER_SIZE_MAX, STRBUFFER_FACTOR.
    rewrite !Z.gtb_ltb, (proj2 (Z.ltb_ge _ (sb_size sb))), (proj2 (Z.ltb_ge _ size)), (proj2 (Z.ltb_ge _ (sb_length sb))) by lia.
    cbn [orb]. rewrite !wrap_small by lia. by replace (sb_size sb * 2) with (2 * sb_size sb) by lia. }
  rewrite G. destruct (alloc (grown sb size)) eqn:Ha; [| by rewrite jsonp_malloc_none].
  assert (0 < grown sb size) by (unfold grown; lia).
  rewrite (jsonp_malloc_some alloc (grown sb size)), E by (done || lia). cbn [of_option mbind res_bind].
  rewrite H1, Nat2Z.id. rewrite fmap_app, <- app_assoc.
  pose proof (blk_copy_app [] (Some <$> bs) ((Some <$> [0]) ++ r)) as C. rewrite length_fmap in C. cbn [length app] in C.
  change (list_fmap Z (option Z) Some) with (fmap (M := list) (A := Z) (B := option Z) Some) in *. rewrite C. cbn [mbind res_bind].
  destruct (blk_store_append [] bs (blk_malloc (Z.to_nat (grown sb size))) (blk_holds_nil _)) as (nb & E' & H').
  { unfold blk_malloc. rewrite length_replicate. unfold grown in *. cbn [length]. lia. }
  cbn [length] in E'. rewrite E'. cbn [mbind res_bind]. exists nb. split_and!; [done | exact H' |].
  rewrite (blk_store_length _ _ _ _ E'). unfold blk_malloc. rewrite length_replicate. lia.
Qed.

(** Writing behind what a block holds, with the terminator. *)
Lemma write_behind sb blk bs data :
  value sb = Some blk -> blk_holds bs blk -> sb_length sb = Z.of_nat (length bs) ->
  (length bs + length data < length blk)%nat -> Z.of_nat (length blk) = sb_size sb -> sb_size sb <= 2 ^ 62 ->
  exists sb', (v ← of_option (value sb);
      bytes ← blk_copy 0 (length data) data;
      v ← blk_store (Z.to_nat (sb_length sb)) (Some <$> bytes) v;
      let len := u64 (sb_length sb + Z.of_nat (length data)) in
      v ← blk_store (Z.to_nat len) [Some 0] v;
      Ok (0, MkStrbuffer (Some v) len (sb_size sb))) = Ok (0, sb') /\ holds sb' (bs ++ data) /\ sb_size sb' = sb_size sb.
Proof.
  intros E H H1 Hl L Hs. rewrite E. cbn [of_option mbind res_bind].
  pose proof (blk_copy_app [] data []) as C. rewrite app_nil_r in C. cbn [app length] in C. rewrite C. cbn [mbind res_bind].
  rewrite H1, Nat2Z.id. destruct (blk_store_append bs data blk H) as (b1 & E1 & K1); [lia |]. rewrite E1. cbn [mbind res_bind].
  pose proof (blk_store_length _ _ _ _ E1) as L1.
  rewrite wrap_small by lia. rewrite <- Nat2Z.inj_add, Nat2Z.id, <- length_app.
  destruct (store_zero (bs ++ data) b1 K1) as (b2 & E2 & K2 & L2); [rewrite length_app; lia |]. rewrite E2. cbn [mbind res_bind].
  eexists. split; [done |]. split; [| done]. split; cbn [value sb_length sb_size]; [| done | rewrite length_app; lia].
  exists b2. split_and!; [done | done | lia].
Qed.

Lemma holds_prefix sb bs : holds sb bs -> exists blk, value sb = Some blk /\ blk_holds bs blk /\ Z.of_nat (length blk) = sb_size sb.
Proof.
  intros [(blk & E & H & L) _ _]. exists blk. split_and!; [done | | done].
  rewrite <- (take_app_length bs [0]). by apply blk_holds_take.
Qed.

(** The size an append leaves. *)
Definition size_after (sb : strbuffer_t) (size : Z) : Z :=
  if sb_size sb - sb_length sb <=? size then grown sb size else sb_size sb.

(** Appending to a string buffer, in every case: a sum of lengths that does not fit in a [size_t] and an allocation
    that fails are reported with -1 and leave the buffer as it was; otherwise the buffer holds the bytes followed by
    the new ones and a terminator, in a block that stays when they fit and is otherwise at least twice as large. *)
Theorem strbuffer_append_bytes_outcome (alloc : Z -> bool) sb bs data :
  holds sb bs -> Z.of_nat (length data) < 2 ^ 64 ->
  let size := Z.of_nat (length data) in
  let result := strbuffer_append_bytes alloc sb data size in
  if decide (2 ^ 64 - 1 <= sb_length sb + size) then result = Ok (-1, sb)
  else if (size_after sb size =? sb_size sb) || alloc (grown sb size)
  then size_after sb size <= 2 ^ 62 ->
       exists sb', result = Ok (0, sb') /\ holds sb' (bs ++ data) /\ sb_size sb' = size_after sb size
  else result = Ok (-1, sb).
Proof.
  intros Hh Hn size result. assert (Hs : 0 <= size) by lia.
  pose proof (hd_length _ _ Hh) as H1. pose proof (hd_size _ _ Hh) as H2.
  subst result. unfold strbuffer_append_bytes, size_after. rewrite (wrap_small 64 (_ - _)) by lia.
  case_decide as Ho.
  { rewrite (proj2 (Z.leb_le _ _)) by lia. by rewrite (grow_overflow alloc sb bs size) by (done || lia). }
  assert (Ht : Z.to_nat size = length data) by lia.
  destruct (Z.leb_spec (sb_size sb - sb_length sb) size) as [Hg | Hg].
  - rewrite (proj2 (Z.eqb_neq _ _)) by (unfold grown; lia). cbn [orb].
    pose proof (grow_spec alloc sb bs size Hh Hs ltac:(lia)) as G. destruct (alloc (grown sb size)); [| by rewrite G].
    destruct G as (blk & -> & K & L). intros Hm. cbn [mbind res_bind]. rewrite Ht.
    assert (sb_length sb + size < grown sb size) by (unfold grown; lia).
    apply (write_behind (MkStrbuffer (Some blk) (sb_length sb) (grown sb size)) blk); cbn [value sb_length sb_size]; done || lia.
  - rewrite Z.eqb_refl. cbn [orb mbind res_bind]. intros _. rewrite Ht.
    destruct (holds_prefix _ _ Hh) as (blk & E & K & L). apply (write_behind sb blk); done || lia.
Qed.

Lemma strbuffer_append_bytes_outcome_witness :
  let sb := MkStrbuffer (Some (Some <$> [97; 98; 0] ++ replicate 13 7)) 2 16 in
  holds sb [97; 98] /\
  (forall sb', strbuffer_append_bytes (fun _ => true) sb [99] 1 = Ok (0, sb') -> initialised (default [] (value sb')) = [97; 98; 99; 0] ++ replicate 12 7) /\
  strbuffer_append_bytes (fun _ => false) sb (replicate 14 1) 14 = Ok (-1, sb) /\
  exists sb', strbuffer_append_bytes (fun _ => true) sb [99] 1 = Ok (0, sb') /\ holds sb' [97; 98; 99] /\ sb_size sb' = 16.
Proof.
  assert (H : holds (MkStrbuffer (Some (Some <$> [97; 98; 0] ++ replicate 13 7)) 2 16) [97; 98]).
  { split; [| done | done]. eexists. split; [done |]. split; [exists (replicate 13 (Some 7)); reflexivity | reflexivity]. }
  split_and!; [exact H | vm_compute; intros ? [= <-]; reflexivity | vm_compute; reflexivity |].
  apply (strbuffer_append_bytes_outcome (fun _ => true) _ [97; 98] [99] H ltac:(done)). done.
Defined.

(** Appending a byte, and taking the last one back. *)
Lemma append_byte_holds (alloc : Z -> bool) sb bs c :
  holds sb bs -> (forall n, alloc n = true) -> Z.of_nat (length bs) < 2 ^ 60 -> sb_size sb <= 2 ^ 61 ->
  exists sb', strbuffer_append_byte alloc sb c = Ok (0, sb') /\ holds sb' (bs ++ [c]) /\ sb_size sb' <= 2 ^ 61.
Proof.
  intros Hh Ha Hl Hs. pose proof (hd_length _ _ Hh) as H1. pose proof (hd_size _ _ Hh) as H2.
  unfold strbuffer_append_byte, strbuffer_append_bytes. rewrite (wrap_small 64 (_ - _)) by lia.
  destruct (Z.leb_spec (sb_size sb - sb_length sb) 1) as [Hg | Hg].
  - pose proof (grow_spec alloc sb bs 1 Hh ltac:(lia) ltac:(lia)) as G. rewrite Ha in G. destruct G as (blk & -> & K & L).
    cbn [mbind res_bind]. unfold grown in *.
    destruct (write_behind (MkStrbuffer (Some blk) (sb_length sb) (grown sb 1)) blk bs [c]) as (sb' & E & K' & L');
      unfold grown; cbn [value sb_length sb_size length]; try (done || lia).
    exists sb'. split_and!; [exact E | done |]. rewrite L'. unfold grown. cbn [sb_size]. lia.
  - cbn [mbind res_bind]. destruct (holds_prefix _ _ Hh) as (blk & E & K & L).
    destruct (write_behind sb blk bs [c]) as (sb' & E' & K' & L'); cbn [length]; try (done || lia).
    exists sb'. split_and!; [exact E' | done | lia].
Qed.

Lemma strbuffer_pop_holds sb bs c :
  holds sb (bs ++ [c]) -> exists sb', strbuffer_pop sb = Ok (c, sb') /\ holds sb' bs /\ sb_size sb' = sb_size sb.
Proof.
  intros [(blk & E & [r ->] & L) H1 H2]. rewrite length_app in H1. cbn [length] in H1. unfold strbuffer_pop.
  rewrite (proj2 (Z.gtb_lt _ _)) by lia. rewrite E. cbn [of_option mbind res_bind].
  assert (Hb : (Some <$> ((bs ++ [c]) ++ [0])) ++ r = (Some <$> bs) ++ [Some c] ++ (Some 0 :: r))
    by (rewrite !fmap_app, <- !app_assoc; reflexivity).
  rewrite Hb in *. assert (Hn : Z.to_nat (sb_length sb - 1) = length (Some <$> bs)) by (rewrite length_fmap; lia). rewrite Hn.
  unfold rd. cbn [app]. rewrite list_lookup_middle by done. cbn [of_option mbind res_bind].
  rewrite (blk_store_app (Some <$> bs) [Some c] [Some 0] (Some 0 :: r)) by done. cbn [mbind res_bind].
  eexists. split; [done |]. split; [| done]. split; cbn [value sb_length sb_size]; [| lia | lia].
  eexists. split; [done |]. split; [exists (Some 0 :: r); by rewrite fmap_app, <- app_assoc |].
  rewrite <- L. rewrite !length_app. cbn. lia.
Qed.

Lemma strbuffer_pop_empty sb : holds sb [] -> strbuffer_pop sb = Ok (0, sb).
Proof. intros [_ H1 _]. unfold strbuffer_pop. by rewrite H1. Qed.
