(* ===== verification/Hash.v ===== *)
(** * Hashing object keys

    [hashlittle] of [common/jansson/lookup3.h] and the seed of [common/jansson/hashtable_seed.c].  A key is read through
    a memory [mem], a byte at each offset from the key's address: the aligned path reads whole words, also behind the
    key, and masks what does not belong to it. *)

From S2P Require Import Prelude.

(** ** lookup3 *)

Definition rot (x k : Z) : Z := Z.lor (u32 (Z.shiftl x k)) (Z.shiftr x (32 - k)).

(** The macros [mix] and [final] on the three words of the state. *)
Definition mix (s : Z * Z * Z) : Z * Z * Z :=
  let '(a, b, c) := s in
  let a := u32 (a - c) in let a := Z.lxor a (rot c 4) in let c := u32 (c + b) in
  let b := u32 (b - a) in let b := Z.lxor b (rot a 6) in let a := u32 (a + c) in
  let c := u32 (c - b) in let c := Z.lxor c (rot b 8) in let b := u32 (b + a) in
  let a := u32 (a - c) in let a := Z.lxor a (rot c 16) in let c := u32 (c + b) in
  let b := u32 (b - a) in let b := Z.lxor b (rot a 19) in let a := u32 (a + c) in
  let c := u32 (c - b) in let c := Z.lxor c (rot b 4) in let b := u32 (b + a) in
  (a, b, c).

Definition final (s : Z * Z * Z) : Z * Z * Z :=
  let '(a, b, c) := s in
  let c := Z.lxor c b in let c := u32 (c - rot b 14) in
  let a := Z.lxor a c in let a := u32 (a - rot c 11) in
  let b := Z.lxor b a in let b := u32 (b - rot a 25) in
  let c := Z.lxor c b in let c := u32 (c - rot b 16) in
  let a := Z.lxor a c in let a := u32 (a - rot c 4) in
  let b := Z.lxor b a in let b := u32 (b - rot a 14) in
  let c := Z.lxor c b in let c := u32 (c - rot b 24) in
  (a, b, c).

Section reads.
Context (mem : nat -> Z).

(** Little-endian loads of 16 and 32 bits. *)
Definition load16 (o : nat) : Z := mem o + Z.shiftl (mem (o + 1)) 8.
Definition load32 (o : nat) : Z := load16 o + Z.shiftl (load16 (o + 2)) 16.

(** The loop over the blocks of 12 bytes and the last block, by the alignment of the key: whole words, half words, bytes.
    [None] is the early return of [c]. *)
Definition words_block (o : nat) (s : Z * Z * Z) : Z * Z * Z :=
  let '(a, b, c) := s in (u32 (a + load32 o), u32 (b + load32 (o + 4)), u32 (c + load32 (o + 8))).

Definition words_tail (length o : nat) (s : Z * Z * Z) : option (Z * Z * Z) :=
  let '(a, b, c) := s in
  let k := fun i : nat => load32 (o + 4 * i) in
  match length with
  | 12 => Some (u32 (a + k 0%nat), u32 (b + k 1%nat), u32 (c + k 2%nat))
  | 11 => Some (u32 (a + k 0%nat), u32 (b + k 1%nat), u32 (c + Z.land (k 2%nat) 0xffffff))
  | 10 => Some (u32 (a + k 0%nat), u32 (b + k 1%nat), u32 (c + Z.land (k 2%nat) 0xffff))
  | 9 => Some (u32 (a + k 0%nat), u32 (b + k 1%nat), u32 (c + Z.land (k 2%nat) 0xff))
  | 8 => Some (u32 (a + k 0%nat), u32 (b + k 1%nat), c)
  | 7 => Some (u32 (a + k 0%nat), u32 (b + Z.land (k 1%nat) 0xffffff), c)
  | 6 => Some (u32 (a + k 0%nat), u32 (b + Z.land (k 1%nat) 0xffff), c)
  | 5 => Some (u32 (a + k 0%nat), u32 (b + Z.land (k 1%nat) 0xff), c)
  | 4 => Some (u32 (a + k 0%nat), b, c)
  | 3 => Some (u32 (a + Z.land (k 0%nat) 0xffffff), b, c)
  | 2 => Some (u32 (a + Z.land (k 0%nat) 0xffff), b, c)
  | 1 => Some (u32 (a + Z.land (k 0%nat) 0xff), b, c)
  | _ => None
  end%nat.

Definition halves_word (o : nat) : Z := u32 (load16 o + Z.shiftl (load16 (o + 2)) 16).

Definition halves_block (o : nat) (s : Z * Z * Z) : Z * Z * Z :=
  let '(a, b, c) := s in (u32 (a + halves_word o), u32 (b + halves_word (o + 4)), u32 (c + halves_word (o + 8))).

Definition halves_tail (length o : nat) (s : Z * Z * Z) : option (Z * Z * Z) :=
  let '(a, b, c) := s in
  let k8 := fun i : nat => mem (o + i) in
  let k := fun i : nat => load16 (o + 2 * i) in
  let w := fun i : nat => halves_word (o + 4 * i) in
  match length with
  | 12 => Some (u32 (a + w 0%nat), u32 (b + w 1%nat), u32 (c + w 2%nat))
  | 11 => Some (u32 (a + w 0%nat), u32 (b + w 1%nat), u32 (u32 (c + Z.shiftl (k8 10%nat) 16) + k 4%nat))
  | 10 => Some (u32 (a + w 0%nat), u32 (b + w 1%nat), u32 (c + k 4%nat))
  | 9 => Some (u32 (a + w 0%nat), u32 (b + w 1%nat), u32 (c + k8 8%nat))
  | 8 => Some (u32 (a + w 0%nat), u32 (b + w 1%nat), c)
  | 7 => Some (u32 (a + w 0%nat), u32 (u32 (b + Z.shiftl (k8 6%nat) 16) + k 2%nat), c)
  | 6 => Some (u32 (a + w 0%nat), u32 (b + k 2%nat), c)
  | 5 => Some (u32 (a + w 0%nat), u32 (b + k8 4%nat), c)
  | 4 => Some (u32 (a + w 0%nat), b, c)
  | 3 => Some (u32 (u32 (a + Z.shiftl (k8 2%nat) 16) + k 0%nat), b, c)
  | 2 => Some (u32 (a + k 0%nat), b, c)
  | 1 => Some (u32 (a + k8 0%nat), b, c)
  | _ => None
  end%nat.

(** One word of the byte path: its bytes are added one by one, below [n] of them. *)
Definition add_byte (x : Z) (o i : nat) : Z := u32 (x + Z.shiftl (mem (o + i)) (8 * Z.of_nat i)).
Definition add_up (x : Z) (o n : nat) : Z := fold_left (fun x i => add_byte x o i) (seq 0 (n `min` 4)) x.
Definition add_down (x : Z) (o n : nat) : Z := fold_left (fun x i => add_byte x o i) (rev (seq 0 (n `min` 4))) x.

Definition bytes_block (o : nat) (s : Z * Z * Z) : Z * Z * Z :=
  let '(a, b, c) := s in (add_up a o 4, add_up b (o + 4) 4, add_up c (o + 8) 4).

(** The cases all fall through: the last byte present first, down to the first of the word. *)
Definition bytes_tail (length o : nat) (s : Z * Z * Z) : option (Z * Z * Z) :=
  let '(a, b, c) := s in
  match length with
  | O => None
  | _ => Some (add_down a o length, add_down b (o + 4) (length - 4), add_down c (o + 8) (length - 8))
  end%nat.

Fixpoint hash_loop (block : nat -> Z * Z * Z -> Z * Z * Z) (tail : nat -> nat -> Z * Z * Z -> option (Z * Z * Z))
    (fuel length o : nat) (s : Z * Z * Z) : res Z :=
  match fuel with
  | O => NoFuel
  | S fuel =>
      if decide (12 < length)%nat then hash_loop block tail fuel (length - 12) (o + 12) (mix (block o s)) else
      match tail length o s with
      | None => Ok s.2
      | Some s => Ok (final s).2
      end
  end.

(** [addr] is the address of the key; the machine is little-endian. *)
Definition hashlittle (addr : Z) (length : nat) (initval : Z) : res Z :=
  let a := u32 (0xdeadbeef + u32 (Z.of_nat length) + initval) in
  let run := fun block tail => hash_loop block tail (S length) length 0 (a, a, a) in
  if Z.land addr 3 =? 0 then run words_block words_tail
  else if Z.land addr 1 =? 0 then run halves_block halves_tail
  else run bytes_block bytes_tail.
End reads.

(** ** What the hash is *)

(** Four bytes as a little-endian word; the key is cut into blocks of 12 bytes, the last one padded with zeros. *)
Definition byte_of (key : list Z) (i : nat) : Z := nth i key 0.
Definition word_of (key : list Z) (o : nat) : Z :=
  byte_of key o + 2 ^ 8 * byte_of key (o + 1) + 2 ^ 16 * byte_of key (o + 2) + 2 ^ 24 * byte_of key (o + 3).

Definition absorb (key : list Z) (o : nat) (s : Z * Z * Z) : Z * Z * Z :=
  let '(a, b, c) := s in (u32 (a + word_of key o), u32 (b + word_of key (o + 4)), u32 (c + word_of key (o + 8))).

(** [n] full blocks with more behind them, then the rest. *)
Fixpoint blocks (key : list Z) (n o : nat) (s : Z * Z * Z) : nat * (Z * Z * Z) :=
  match n with
  | O => (o, s)
  | S n => blocks key n (o + 12) (mix (absorb key o s))
  end.

Definition lookup3 (key : list Z) (initval : Z) : Z :=
  let a := u32 (0xdeadbeef + Z.of_nat (length key) + initval) in
  let '(o, s) := blocks key ((length key - 1) / 12) 0 (a, a, a) in
  if decide (length key = O) then s.2 else (final (absorb key o s)).2.

(** ** The three ways of reading agree *)

Lemma wrap_add_l w x y : wrap w (wrap w x + y) = wrap w (x + y).
Proof. unfold wrap. by rewrite Zplus_mod_idemp_l. Qed.

Lemma shl8 x : Z.shiftl x 8 = 256 * x.
Proof. rewrite Z.shiftl_mul_pow2 by lia. lia. Qed.
Lemma shl16 x : Z.shiftl x 16 = 65536 * x.
Proof. rewrite Z.shiftl_mul_pow2 by lia. lia. Qed.
Lemma shl24 x : Z.shiftl x 24 = 16777216 * x.
Proof. rewrite Z.shiftl_mul_pow2 by lia. lia. Qed.

Lemma land_mask8 x : Z.land x 0xff = x mod 256.
Proof. exact (Z.land_ones x 8 ltac:(lia)). Qed.
Lemma land_mask16 x : Z.land x 0xffff = x mod 65536.
Proof. exact (Z.land_ones x 16 ltac:(lia)). Qed.
Lemma land_mask24 x : Z.land x 0xffffff = x mod 16777216.
Proof. exact (Z.land_ones x 24 ltac:(lia)). Qed.

(** A word of the machine from its four bytes. *)
Definition word (b0 b1 b2 b3 : Z) : Z := b0 + 256 * b1 + 65536 * b2 + 16777216 * b3.

Section agree.
Context (mem : nat -> Z) (key : list Z).
Hypothesis Hmem : forall i, (i < length key)%nat -> mem i = byte_of key i.
Hypothesis Hbyte : forall i, is_byte (mem i).

(** What a read of the [n] first bytes of a word gives, the others being 0. *)
Definition part (o n : nat) : Z :=
  word (if decide (0 < n)%nat then mem o else 0) (if decide (1 < n)%nat then mem (o + 1) else 0)
       (if decide (2 < n)%nat then mem (o + 2) else 0) (if decide (3 < n)%nat then mem (o + 3) else 0).

Lemma byte_of_over i : (length key <= i)%nat -> byte_of key i = 0.
Proof. apply nth_overflow. Qed.

Lemma part_word o n : (n = length key - o)%nat -> (o <= length key)%nat -> part o n = word_of key o.
Proof.
  intros -> Ho. unfold part, word, word_of.
  assert (B : forall i, (if decide (i < length key - o)%nat then mem (o + i) else 0) = byte_of key (o + i)).
  { intros i. case_decide; [apply Hmem | symmetry; apply byte_of_over]; lia. }
  pose proof (B 0%nat) as B0. rewrite Nat.add_0_r in B0. rewrite B0, !B. lia.
Qed.

Lemma word_over o : (length key <= o)%nat -> word_of key o = 0.
Proof. intros Ho. unfold word_of. rewrite !byte_of_over by lia. done. Qed.

Lemma part_full o n : (4 <= n)%nat -> part o n = part o 4.
Proof. intros. unfold part. by rewrite !decide_True by lia. Qed.

(** The [n]th read of a word, and what is behind the key. *)
Lemma part_of o k n : (o + n = length key)%nat -> (k <= n)%nat -> part (o + k) (n - k) = word_of key (o + k).
Proof. intros H Hk. apply part_word; lia. Qed.

Lemma part_values o :
  part o 0 = 0 /\ part o 1 = mem o /\ part o 2 = mem o + 256 * mem (o + 1) /\
  part o 3 = mem o + 256 * mem (o + 1) + 65536 * mem (o + 2) /\
  part o 4 = mem o + 256 * mem (o + 1) + 65536 * mem (o + 2) + 16777216 * mem (o + 3).
Proof.
  change (word 0 0 0 0 = 0 /\ word (mem o) 0 0 0 = mem o /\ word (mem o) (mem (o + 1)) 0 0 = mem o + 256 * mem (o + 1) /\
    word (mem o) (mem (o + 1)) (mem (o + 2)) 0 = mem o + 256 * mem (o + 1) + 65536 * mem (o + 2) /\
    word (mem o) (mem (o + 1)) (mem (o + 2)) (mem (o + 3)) =
      mem o + 256 * mem (o + 1) + 65536 * mem (o + 2) + 16777216 * mem (o + 3)).
  unfold word. lia.
Qed.

Lemma load32_part o : load32 mem o = part o 4.
Proof.
  destruct (part_values o) as (_ & _ & _ & _ & ->). unfold load32, load16. rewrite shl16, !shl8.
  replace (o + 2 + 1)%nat with (o + 3)%nat by lia. lia.
Qed.

Lemma bytes_at o : 0 <= mem o < 256 /\ 0 <= mem (o + 1) < 256 /\ 0 <= mem (o + 2) < 256 /\ 0 <= mem (o + 3) < 256.
Proof. split_and!; apply Hbyte. Qed.

Lemma halves_part o : halves_word mem o = part o 4.
Proof.
  unfold halves_word. fold (load32 mem o). rewrite load32_part. apply (wrap_small 32). change (2 ^ 32) with 4294967296.
  destruct (part_values o) as (_ & _ & _ & _ & ->). pose proof (bytes_at o). lia.
Qed.

(** Masked and partial reads. *)
Lemma mod_part a b m : 0 <= a < m -> (a + m * b) mod m = a.
Proof. intros. rewrite Z.mul_comm, Z.mod_add, Z.mod_small by lia. done. Qed.

Lemma mask_part o : Z.land (load32 mem o) 0xff = part o 1 /\ Z.land (load32 mem o) 0xffff = part o 2 /\
  Z.land (load32 mem o) 0xffffff = part o 3.
Proof.
  rewrite land_mask8, land_mask16, land_mask24, load32_part. destruct (part_values o) as (_ & -> & -> & -> & ->).
  pose proof (bytes_at o) as (B0 & B1 & B2 & B3). split_and!.
  - etrans; [| apply (mod_part (mem o) (mem (o + 1) + 256 * mem (o + 2) + 65536 * mem (o + 3)) 256); lia]. f_equal. lia.
  - etrans; [| apply (mod_part (mem o + 256 * mem (o + 1)) (mem (o + 2) + 256 * mem (o + 3)) 65536); lia]. f_equal. lia.
  - apply (mod_part (mem o + 256 * mem (o + 1) + 65536 * mem (o + 2))). lia.
Qed.

Lemma half_part o : load16 mem o = part o 2 /\ mem o = part o 1 /\
  forall x, u32 (u32 (x + Z.shiftl (mem (o + 2)) 16) + load16 mem o) = u32 (x + part o 3).
Proof.
  destruct (part_values o) as (_ & -> & -> & -> & _). unfold load16. rewrite shl8. split_and!; [lia | done |].
  intros x. rewrite wrap_add_l, shl16. f_equal. lia.
Qed.

Lemma add_up_part x o n : x = u32 x -> add_up mem x o n = u32 (x + part o n) /\ add_down mem x o n = u32 (x + part o n).
Proof.
  intros Hx. assert (n = 0 \/ n = 1 \/ n = 2 \/ n = 3 \/ 4 <= n)%nat as [-> | [-> | [-> | [-> | Hn]]]] by lia.
  5: rewrite (part_full o n Hn); unfold add_up, add_down; rewrite (Nat.min_r n 4) by lia.
  all: destruct (part_values o) as (P0 & P1 & P2 & P3 & P4); rewrite ?P0, ?P1, ?P2, ?P3, ?P4; unfold add_up, add_down, add_byte;
    cbn [seq Nat.min rev app fold_left]; rewrite ?wrap_add_l, ?Nat.add_0_r; change (8 * Z.of_nat 0) with 0;
    change (8 * Z.of_nat 1) with 8; change (8 * Z.of_nat 2) with 16; change (8 * Z.of_nat 3) with 24;
    rewrite ?Z.shiftl_0_r, ?shl8, ?shl16, ?shl24, ?Z.add_0_r; split; try exact Hx; rewrite <- ?Z.add_assoc, ?wrap_add_l; f_equal; lia.
Qed.
End agree.

(** ** Every path computes [lookup3] *)

Definition words3 (s : Z * Z * Z) : Prop := let '(a, b, c) := s in a = u32 a /\ b = u32 b /\ c = u32 c.

Lemma u32_idem x : u32 x = u32 (u32 x).
Proof. unfold wrap. by rewrite Zmod_mod. Qed.

Lemma absorb_words key o s : words3 (absorb key o s).
Proof. destruct s as [[a b] c]. repeat split; apply u32_idem. Qed.

(** A way of reading absorbs a full block, and the last one as if zeros followed. *)
Definition reads (key : list Z) (block : nat -> Z * Z * Z -> Z * Z * Z) (tail : nat -> nat -> Z * Z * Z -> option (Z * Z * Z)) : Prop :=
  (forall o s, words3 s -> (o + 12 < length key)%nat -> block o s = absorb key o s) /\
  (forall n o s, words3 s -> (o + n = length key)%nat -> (0 < n <= 12)%nat -> tail n o s = Some (absorb key o s)) /\
  (forall o s, tail O o s = None).

Lemma lt_log2 y : 0 <= y -> (0 <= y < 2 ^ 32 <-> Z.log2 y < 32).
Proof.
  intros Hy. destruct (Z.eq_dec y 0) as [-> | ?]; [done |]. rewrite Z.log2_lt_pow2 by lia. lia.
Qed.

Lemma rot_range x k : 0 <= x < 2 ^ 32 -> 0 <= k <= 32 -> 0 <= rot x k < 2 ^ 32.
Proof.
  intros Hx Hk. unfold rot. pose proof (wrap_range 32 (Z.shiftl x k) ltac:(lia)) as H1.
  assert (H2 : 0 <= Z.shiftr x (32 - k) < 2 ^ 32).
  { rewrite Z.shiftr_div_pow2 by lia. assert (0 < 2 ^ (32 - k)) by lia. split; [apply Z.div_pos; lia |].
    apply Z.div_lt_upper_bound; nia. }
  assert (0 <= Z.lor (u32 (Z.shiftl x k)) (Z.shiftr x (32 - k))) by (apply Z.lor_nonneg; lia).
  apply lt_log2; [done |]. rewrite Z.log2_lor by lia. apply lt_log2 in H1, H2; lia.
Qed.

Lemma lxor_range x y : 0 <= x < 2 ^ 32 -> 0 <= y < 2 ^ 32 -> 0 <= Z.lxor x y < 2 ^ 32.
Proof.
  intros Hx Hy. assert (0 <= Z.lxor x y) by (apply Z.lxor_nonneg; lia). apply lt_log2; [done |].
  pose proof (Z.log2_lxor x y ltac:(lia) ltac:(lia)). apply lt_log2 in Hx, Hy; lia.
Qed.

Lemma u32_range x : 0 <= x < 2 ^ 32 -> x = u32 x.
Proof. intros. by rewrite wrap_small. Qed.

Lemma mix_words s : words3 s -> words3 (mix s).
Proof.
  destruct s as [[a b] c]. intros (Ha & Hb & Hc). unfold mix. split_and!; [apply u32_idem | apply u32_idem |].
  assert (R : forall x, 0 <= u32 x < 2 ^ 32) by (intros; apply wrap_range; lia).
  pose proof (R c) as Rc. rewrite <- Hc in Rc. apply u32_range.
  repeat first [apply R | exact Rc | apply lxor_range | apply rot_range; [| lia]].
Qed.

Section paths.
Context (mem : nat -> Z) (key : list Z).
Hypothesis Hmem : forall i, (i < length key)%nat -> mem i = byte_of key i.
Hypothesis Hbyte : forall i, is_byte (mem i).

(** The words of a block, as parts. *)
Lemma block_parts o n : (o + n = length key)%nat ->
  word_of key o = part mem o n /\ word_of key (o + 4) = part mem (o + 4) (n - 4) /\ word_of key (o + 8) = part mem (o + 8) (n - 8).
Proof.
  intros Hn.
  assert (W : forall k, word_of key (o + k) = part mem (o + k) (n - k)).
  { intros k. destruct (decide (k <= n)%nat); [symmetry; apply (part_word mem key Hmem); lia |].
    rewrite word_over by lia. replace (n - k)%nat with 0%nat by lia. done. }
  pose proof (W 0%nat) as W0. rewrite Nat.add_0_r, Nat.sub_0_r in W0. split_and!; done.
Qed.

Lemma full_parts o : (o + 12 <= length key)%nat ->
  word_of key o = part mem o 4 /\ word_of key (o + 4) = part mem (o + 4) 4 /\ word_of key (o + 8) = part mem (o + 8) 4.
Proof.
  intros Hn. destruct (block_parts o (length key - o) ltac:(lia)) as (-> & -> & ->).
  split_and!; apply part_full; lia.
Qed.

Lemma words_reads : reads key (words_block mem) (words_tail mem).
Proof.
  split_and!.
  - intros o [[a b] c] _ Ho. destruct (full_parts o ltac:(lia)) as (E1 & E2 & E3). unfold absorb, words_block.
    by rewrite E1, E2, E3, !load32_part.
  - intros n o [[a b] c] (Ha & Hb & Hc) Ho Hn. destruct (block_parts o n Ho) as (E1 & E2 & E3). unfold absorb. rewrite E1, E2, E3.
    destruct (mask_part mem Hbyte o) as (M1 & M2 & M3). destruct (mask_part mem Hbyte (o + 4)) as (M4 & M5 & M6).
    destruct (mask_part mem Hbyte (o + 8)) as (M7 & M8 & M9).
    do 13 (destruct n as [| n]; [try lia; unfold words_tail; change (4 * 0)%nat with 0%nat; change (4 * 1)%nat with 4%nat;
      change (4 * 2)%nat with 8%nat; rewrite ?Nat.add_0_r, ?M1, ?M2, ?M3, ?M4, ?M5, ?M6, ?M7, ?M8, ?M9, ?load32_part;
      repeat f_equal; first [reflexivity | by rewrite Z.add_0_r] |]). lia.
  - intros o [[a b] c]. done.
Qed.
Lemma halves_reads : reads key (halves_block mem) (halves_tail mem).
Proof.
  split_and!.
  - intros o [[a b] c] _ Ho. destruct (full_parts o ltac:(lia)) as (E1 & E2 & E3). unfold absorb, halves_block.
    by rewrite E1, E2, E3, !(halves_part mem Hbyte).
  - intros n o [[a b] c] (Ha & Hb & Hc) Ho Hn. destruct (block_parts o n Ho) as (E1 & E2 & E3). unfold absorb. rewrite E1, E2, E3.
    destruct (half_part mem o) as (M1 & M2 & M3). destruct (half_part mem (o + 4)) as (M4 & M5 & M6).
    destruct (half_part mem (o + 8)) as (M7 & M8 & M9). 
    assert (N6 : (o + 6 = o + 4 + 2)%nat) by lia. assert (N10 : (o + 10 = o + 8 + 2)%nat) by lia.
    do 13 (destruct n as [| n]; [try lia; unfold halves_tail; change (4 * 0)%nat with 0%nat; change (4 * 1)%nat with 4%nat;
      change (4 * 2)%nat with 8%nat; change (2 * 0)%nat with 0%nat; change (2 * 2)%nat with 4%nat; change (2 * 4)%nat with 8%nat;
      rewrite ?Nat.add_0_r, ?N6, ?N10, ?M3, ?M6, ?M9, ?M1, ?M4, ?M7, ?(halves_part mem Hbyte);
      repeat f_equal; first [reflexivity | by rewrite Z.add_0_r | exact M2 | exact M5 | exact M8] |]). lia.
  - intros o [[a b] c]. done.
Qed.

Lemma bytes_reads : reads key (bytes_block mem) (bytes_tail mem).
Proof.
  split_and!.
  - intros o [[a b] c] (Ha & Hb & Hc) Ho. destruct (full_parts o ltac:(lia)) as (E1 & E2 & E3). unfold absorb, bytes_block.
    rewrite E1, E2, E3. repeat f_equal; by apply add_up_part.
  - intros n o [[a b] c] (Ha & Hb & Hc) Ho Hn. destruct (block_parts o n Ho) as (E1 & E2 & E3). unfold absorb, bytes_tail.
    rewrite E1, E2, E3. destruct n; [lia |]. repeat f_equal; by apply add_up_part.
  - intros o [[a b] c]. done.
Qed.

Lemma hash_loop_blocks block tail fuel n o s :
  reads key block tail -> (o + n = length key)%nat -> (n < fuel)%nat -> words3 s ->
  hash_loop block tail fuel n o s =
    let '(o', s') := blocks key ((n - 1) / 12) o s in Ok (if decide (n = O) then s'.2 else (final (absorb key o' s')).2).
Proof.
  intros (Hb & Ht & H0). revert n o s; induction fuel as [| fuel IH]; intros n o s Ho Hf Hs; [lia |]. cbn [hash_loop].
  case_decide as Hn.
  - rewrite (Hb o s Hs) by lia. rewrite IH by (lia || by apply mix_words, absorb_words).
    replace ((n - 1) / 12)%nat with (S ((n - 12 - 1) / 12)).
    2: { replace (n - 1)%nat with (1 * 12 + (n - 12 - 1))%nat by lia. by rewrite Nat.div_add_l by lia. }
    cbn [blocks]. destruct (blocks _ _ _ _) as [o' s']. rewrite !decide_False by lia. done.
  - rewrite (Nat.div_small (n - 1) 12) by lia. cbn [blocks]. destruct n as [| n].
    + by rewrite H0.
    + rewrite (Ht (S n) o s Hs) by lia. done.
Qed.
End paths.

Lemma hash_run (mem : nat -> Z) (key : list Z) (addr initval : Z) :
  (forall i, (i < length key)%nat -> mem i = byte_of key i) -> (forall i, is_byte (mem i)) ->
  hashlittle mem addr (length key) initval = Ok (lookup3 key initval) /\ 0 <= lookup3 key initval < 2 ^ 32.
Proof.
  intros Hmem Hbyte.
  set (a := u32 (0xdeadbeef + Z.of_nat (length key) + initval)).
  assert (Hs : words3 (a, a, a)) by (split_and!; apply u32_idem).
  assert (Ha : u32 (0xdeadbeef + u32 (Z.of_nat (length key)) + initval) = a).
  { subst a. replace (0xdeadbeef + u32 (Z.of_nat (length key)) + initval) with (u32 (Z.of_nat (length key)) + (0xdeadbeef + initval)) by lia.
    rewrite wrap_add_l. f_equal. lia. }
  assert (L : forall block tail, reads key block tail ->
    hash_loop block tail (S (length key)) (length key) 0 (a, a, a) = Ok (lookup3 key initval)).
  { intros block tail Hr. rewrite (hash_loop_blocks key block tail) by (done || lia). unfold lookup3. fold a. by destruct (blocks _ _ _ _). }
  split.
  - unfold hashlittle. rewrite Ha. destruct (_ =? 0); [| destruct (_ =? 0)]; apply L;
      [apply words_reads | apply halves_reads | apply bytes_reads]; done.
  - unfold lookup3. fold a. assert (B : forall n o s, words3 s -> words3 (blocks key n o s).2).
    { induction n as [| n IH]; intros o s H; [done |]. cbn [blocks]. apply IH, mix_words, absorb_words. }
    specialize (B ((length key - 1) / 12)%nat 0%nat (a, a, a) Hs). destruct (blocks _ _ _ _) as [o' s']. cbn [snd] in B.
    case_decide; [destruct s' as [[? ?] c]; destruct B as (_ & _ & ->); cbn [snd] |
      destruct (absorb key o' s') as [[? ?] ?]; cbn [final snd]]; apply (wrap_range 32); lia.
Qed.

(** A key and what follows it in memory. *)
Definition key_memory (key behind : list Z) (i : nat) : Z := nth i (key ++ behind) 0.

Lemma key_memory_spec key behind : (forall b, b ∈ key ++ behind -> is_byte b) ->
  (forall i, (i < length key)%nat -> key_memory key behind i = byte_of key i) /\ (forall i, is_byte (key_memory key behind i)).
Proof.
  intros Hb. unfold key_memory, byte_of. split; [intros i Hi; by apply app_nth1 |].
  intros i. destruct (nth_in_or_default i (key ++ behind) 0) as [H | ->]; [by apply Hb, list_elem_of_In | by_decide].
Qed.

(** The hash of a key is the same however the key is aligned: reading it by words, by half words or by bytes gives
    [lookup3], the hash of its bytes alone, whatever the bytes are that the aligned path reads behind the key.  In a table
    this is what makes a key found again from a copy of it at another address. *)
Theorem hashlittle_lookup3 (mem : nat -> Z) (key : list Z) (addr initval : Z)
    (Hmem : forall i, (i < length key)%nat -> mem i = byte_of key i) (Hbyte : forall i, is_byte (mem i)) :
  hashlittle mem addr (length key) initval = Ok (lookup3 key initval) /\ 0 <= lookup3 key initval < 2 ^ 32.
Proof. by apply hash_run. Qed.

Lemma hashlittle_lookup3_witness :
  let key := [105; 110; 102; 111; 114; 109; 97; 116; 105; 111; 110; 45; 117; 114; 108] in
  hashlittle (key_memory key [0; 7; 9]) 4096 15 1234 = hashlittle (key_memory key [0; 99]) 4098 15 1234 /\
  hashlittle (key_memory key [0; 7; 9]) 4096 15 1234 = Ok (lookup3 key 1234).
Proof.
  assert (H : forall behind, (forall b, b ∈ [105; 110; 102; 111; 114; 109; 97; 116; 105; 111; 110; 45; 117; 114; 108] ++ behind -> is_byte b) ->
    forall addr, hashlittle (key_memory [105; 110; 102; 111; 114; 109; 97; 116; 105; 111; 110; 45; 117; 114; 108] behind) addr 15 1234 =
      Ok (lookup3 [105; 110; 102; 111; 114; 109; 97; 116; 105; 111; 110; 45; 117; 114; 108] 1234)).
  { intros behind Hb addr. destruct (key_memory_spec _ _ Hb) as [H1 H2].
    apply (hashlittle_lookup3 _ [105; 110; 102; 111; 114; 109; 97; 116; 105; 111; 110; 45; 117; 114; 108] addr 1234 H1 H2). }
  split; rewrite !H; try reflexivity; apply Forall_forall; by_decide.
Defined.

(** Known answers. *)
Example lookup3_known : lookup3 [] 0 = 0xdeadbeef /\
  lookup3 (Z.of_nat ∘ Ascii.nat_of_ascii <$> String.list_ascii_of_string "Four score and seven years ago") 0 = 0x17770551 /\
  lookup3 (Z.of_nat ∘ Ascii.nat_of_ascii <$> String.list_ascii_of_string "Four score and seven years ago") 1 = 0xcd628161.
Proof. vm_compute. auto. Qed.

(** ** The seed

    Every hash uses [hashtable_seed].  [json_object_seed] sets it, once, whichever threads call it at the same time: a
    thread runs the actions of [seeding], one at a time, in any order with the other threads. *)

Definition buf_to_uint32 (data : list Z) : Z := fold_left (fun result b => Z.lor (u32 (Z.shiftl result 8)) (u8 b)) data 0.

(** What the system answers: the bytes read from [/dev/urandom] (no file: [None]), the time, the process. *)
Record seed_source := SeedSource { urandom : option (list Z); tv_sec : Z; tv_usec : Z; pid : Z }.

Definition seed_from_urandom (s : seed_source) : option Z :=
  data ← urandom s; if decide (length data = 4%nat) then Some (buf_to_uint32 data) else None.

Definition seed_from_timestamp_and_pid (s : seed_source) : Z :=
  Z.lxor (Z.lxor (u32 (tv_sec s)) (u32 (tv_usec s))) (u32 (pid s)).

Definition generate_seed (s : seed_source) : Z :=
  let seed := match seed_from_urandom s with Some seed => seed | None => seed_from_timestamp_and_pid s end in
  if seed =? 0 then 1 else seed.

(** The shared words. *)
Record seed_state := SeedState { hashtable_seed : Z; seed_initialized : bool }.

(** Where a thread is in [json_object_seed(seed)]. *)
Inductive seeder :=
| Enter (seed : Z) (s : seed_source)
| TestAndSet (seed : Z) (s : seed_source)
| Store (seed : Z) (s : seed_source)
| Wait
| Return.

Definition json_object_seed (t : seeder) (m : seed_state) : seeder * seed_state :=
  match t with
  | Enter seed s => (if hashtable_seed m =? 0 then TestAndSet seed s else Return, m)
  | TestAndSet seed s =>
      if seed_initialized m then (Wait, m) else (Store seed s, SeedState (hashtable_seed m) true)
  | Store seed s =>
      let new_seed := u32 seed in
      let new_seed := if new_seed =? 0 then generate_seed s else new_seed in
      (Return, SeedState new_seed (seed_initialized m))
  | Wait => (if hashtable_seed m =? 0 then Wait else Return, m)
  | Return => (Return, m)
  end.

(** One action of one of the threads. *)
Inductive seeding : list seeder * seed_state -> list seeder * seed_state -> Prop :=
| seeding_step ts i t m t' m' :
    ts !! i = Some t -> json_object_seed t m = (t', m') -> seeding (ts, m) (<[i := t']> ts, m').

Lemma generate_seed_nonzero s : generate_seed s <> 0.
Proof. unfold generate_seed. destruct (_ =? 0) eqn:E; [done |]. by apply Z.eqb_neq. Qed.

Definition is_store (t : seeder) : bool := match t with Store _ _ => true | _ => false end.

(** A thread has taken the flag and not stored yet. *)
Definition storing (m : seed_state) : bool := seed_initialized m && (hashtable_seed m =? 0).

Record seed_inv (c : list seeder * seed_state) : Prop := {
  si_stores : length (filter (fun t => is_store t = true) c.1) = if storing c.2 then 1%nat else 0%nat;
  si_seed : seed_initialized c.2 = false -> hashtable_seed c.2 = 0;
  si_waiting : Wait ∈ c.1 -> seed_initialized c.2 = true;
  si_returned : Return ∈ c.1 -> hashtable_seed c.2 <> 0
}.

Lemma filter_insert_count {A} (P : A -> Prop) `{forall x, Decision (P x)} (l : list A) i x y :
  l !! i = Some x ->
  (length (filter P (<[i := y]> l)) + (if decide (P x) then 1 else 0) = length (filter P l) + (if decide (P y) then 1 else 0))%nat.
Proof.
  intros E. apply list_elem_of_split_length in E as (l1 & l2 & -> & ->).
  rewrite insert_app_r_alt, Nat.sub_diag by done. cbn [insert list_insert].
  rewrite !filter_app, !filter_cons, !length_app. repeat case_decide; cbn [length]; lia.
Qed.

Lemma elem_of_insert {A} (l : list A) i x y : x ∈ <[i := y]> l -> x = y \/ x ∈ l.
Proof. intros (j & Hj)%list_elem_of_lookup. apply list_lookup_insert_Some in Hj as [(_ & -> & _) | [_ Hj]]; [by left | right; eapply list_elem_of_lookup_2; done]. Qed.

(** A step keeps the invariant and a seed that is set. *)
Lemma seeding_inv c c' : seed_inv c -> seeding c c' ->
  seed_inv c' /\ (hashtable_seed c.2 <> 0 -> hashtable_seed c'.2 = hashtable_seed c.2).
Proof.
  intros [H1 H2 H3 H4] Hstep. destruct Hstep as [ts i t m t' m' Ei Hs]. cbn [fst snd] in *.
  pose proof (filter_insert_count (fun t => is_store t = true) ts i t t' Ei) as Hc.
  assert (Hi : t ∈ ts) by (eapply list_elem_of_lookup_2; done).
  assert (Hin : forall x, x ∈ <[i := t']> ts -> x = t' \/ x ∈ ts) by (intros; by eapply elem_of_insert).
  destruct t; cbn [json_object_seed] in Hs.
  - destruct (Z.eqb_spec (hashtable_seed m) 0); simplify_eq/=; split; try done; split; cbn [fst snd] in *; try done; intros.
    all: try lia. all: try (destruct (Hin _ ltac:(eassumption)); [done | by auto]).
  - unfold storing in *. destruct (seed_initialized m) eqn:Ef; simplify_eq/=; (split; [split |]); cbn [fst snd] in *; rewrite ?Ef; try done; intros.
    all: try (destruct (Hin _ ltac:(eassumption)); [done | by auto]).
    + unfold storing. rewrite Ef. cbn. lia.
    + unfold storing. cbn. rewrite H2 by done. cbn. lia.
  - injection Hs as <- <-. simpl in Hc. assert (Hm : seed_initialized m = true /\ hashtable_seed m = 0).
    { revert H1. unfold storing. destruct (seed_initialized m), (Z.eqb_spec (hashtable_seed m) 0); cbn in *; intros; lia || done. }
    destruct Hm as [Hf H0]. set (n := if u32 seed =? 0 then generate_seed s else u32 seed) in *.
    assert (Hn : n <> 0) by (subst n; destruct (Z.eqb_spec (u32 seed) 0); [apply generate_seed_nonzero | done]).
    split; [split |]; cbn [fst snd hashtable_seed seed_initialized] in *; try done; try congruence.
    unfold storing in *. cbn [seed_initialized hashtable_seed] in *. rewrite Hf, H0 in *. rewrite (proj2 (Z.eqb_neq n 0)) by done.
    rewrite andb_false_r. cbn in H1. lia.
  - destruct (Z.eqb_spec (hashtable_seed m) 0); simplify_eq/=; split; try done; split; cbn [fst snd] in *; try done; intros.
    all: try lia. all: try (destruct (Hin _ ltac:(eassumption)); [done | by auto]). all: auto.
  - simplify_eq/=. split; [split |]; cbn [fst snd] in *; try done; intros; try lia. 
    all: try (destruct (Hin _ ltac:(eassumption)); simplify_eq; by auto).
Qed.

Definition unseeded : seed_state := SeedState 0 false.

Lemma seed_inv_start calls : seed_inv ((fun c => Enter c.1 c.2) <$> calls, unseeded).
Proof.
  assert (Hin : forall x, x ∈ ((fun c : Z * seed_source => Enter c.1 c.2) <$> calls) -> exists c, x = Enter c.1 c.2)
    by (intros x (c & -> & _)%list_elem_of_fmap; eauto).
  split; cbn; try done.
  - induction calls as [| c calls IH]; [done |]. rewrite fmap_cons, filter_cons_False by done. apply IH.
    intros x Hx. apply Hin. by right.
  - by intros [? [=]]%Hin.
  - by intros [? [=]]%Hin.
Qed.

(** C40. However many threads make their first object at the same time, the seed is stored once: in every state they can
    reach, in any order of their actions, a thread that has returned finds a nonzero seed, and from a state with a seed on
    the seed never changes, so that the hashes in a table made meanwhile stay valid. *)
Theorem seed_set_once (calls : list (Z * seed_source)) (c c' : list seeder * seed_state) :
  rtc seeding ((fun c => Enter c.1 c.2) <$> calls, unseeded) c ->
  (Return ∈ c.1 -> hashtable_seed c.2 <> 0) /\
  (rtc seeding c c' -> hashtable_seed c.2 <> 0 -> hashtable_seed c'.2 = hashtable_seed c.2).
Proof.
  intros Hc.
  assert (Hr : forall c1 c2, rtc seeding c1 c2 -> seed_inv c1 ->
    seed_inv c2 /\ (hashtable_seed c1.2 <> 0 -> hashtable_seed c2.2 = hashtable_seed c1.2)).
  { intros c1 c2. induction 1 as [| x y z Hxy Hyz IH]; intros Hi; [done |].
    destruct (seeding_inv x y Hi Hxy) as [Hy E]. destruct (IH Hy) as [Hz E2]. split; [done |].
    intros Hn. rewrite <- (E Hn). apply E2. by rewrite (E Hn). }
  destruct (Hr _ _ Hc (seed_inv_start calls)) as [Hi _]. split; [apply Hi |]. intros Hcc. by apply Hr.
Qed.

Lemma seed_set_once_witness :
  let s := SeedSource (Some [1; 2; 3; 4]) 0 0 0 in
  let c0 := ((fun c => Enter c.1 c.2) <$> [(0, s); (0, s)], unseeded) in
  exists c, rtc seeding c0 c /\ c = ([Return; Wait], SeedState 0x1020304 true) /\ hashtable_seed c.2 <> 0.
Proof.
  set (s := SeedSource (Some [1; 2; 3; 4]) 0 0 0). exists ([Return; Wait], SeedState 0x1020304 true).
  assert (R : rtc seeding ((fun c => Enter c.1 c.2) <$> [(0, s); (0, s)], unseeded) ([Return; Wait], SeedState 0x1020304 true)).
  { eapply rtc_l; [by apply (seeding_step _ 0 (Enter 0 s) _ (TestAndSet 0 s)) |].
    eapply rtc_l; [by apply (seeding_step _ 1 (Enter 0 s) _ (TestAndSet 0 s)) |].
    eapply rtc_l; [by apply (seeding_step _ 0 (TestAndSet 0 s) _ (Store 0 s)) |].
    eapply rtc_l; [by apply (seeding_step _ 1 (TestAndSet 0 s) _ Wait) |].
    eapply rtc_l; [by apply (seeding_step _ 0 (Store 0 s) _ Return) |]. apply rtc_refl. }
  split; [exact R |]. split; [reflexivity |].
  apply (seed_set_once [(0, s); (0, s)] _ ([Return; Wait], SeedState 0x1020304 true) R). left.
Defined.
