(* ===== verification/ObjectTable.v ===== *)
(** * What objects use of their tables

    The class [ObjectTable] has the operations of a table of members by key, for values that are addresses; it is what
    [common/jansson/value.c] calls of [hashtable.c].  [ObjectTableSpec] is what they promise, in terms of the list of the
    members in the order in which their keys were first set. *)

From S2P Require Import Prelude.

(** What an object promises: its members in the order in which their keys were first set. *)
Section members.
Context {V : Type}.
Implicit Types (al : list (list Z * V)) (k : list Z).

Fixpoint assoc k al : option V :=
  match al with [] => None | (k', v) :: al => if decide (k' = k) then Some v else assoc k al end.

Fixpoint assoc_set k v al : list (list Z * V) :=
  match al with
  | [] => [(k, v)]
  | (k', v') :: al => if decide (k' = k) then (k, v) :: al else (k', v') :: assoc_set k v al
  end.

Definition assoc_del k al : list (list Z * V) := filter (fun m => m.1 <> k) al.

Lemma assoc_in k v a1 a2 : k ∉ a1.*1 -> assoc k (a1 ++ (k, v) :: a2) = Some v.
Proof.
  induction a1 as [| [k' v'] a1 IH]; cbn; intros H; [by rewrite decide_True |].
  rewrite decide_False by set_solver. apply IH. set_solver.
Qed.

Lemma assoc_out k al : k ∉ al.*1 -> assoc k al = None.
Proof. induction al as [| [k' v'] al IH]; cbn; intros H; [done |]. rewrite decide_False by set_solver. apply IH. set_solver. Qed.

Lemma assoc_set_in k v v' a1 a2 : k ∉ a1.*1 -> assoc_set k v' (a1 ++ (k, v) :: a2) = a1 ++ (k, v') :: a2.
Proof.
  induction a1 as [| [k' w] a1 IH]; cbn; intros H; [by rewrite decide_True |].
  rewrite decide_False by set_solver. f_equal. apply IH. set_solver.
Qed.

Lemma assoc_set_out k v al : k ∉ al.*1 -> assoc_set k v al = al ++ [(k, v)].
Proof. induction al as [| [k' v'] al IH]; cbn; intros H; [done |]. rewrite decide_False by set_solver. f_equal. apply IH. set_solver. Qed.

Lemma assoc_del_out k al : k ∉ al.*1 -> assoc_del k al = al.
Proof.
  unfold assoc_del. induction al as [| [k' v'] al IH]; intros H; [done |]. rewrite fmap_cons in H. cbn [fst] in H.
  rewrite filter_cons_True by (cbn [fst]; set_solver). f_equal. apply IH. set_solver.
Qed.

Lemma assoc_del_in k v a1 a2 : k ∉ a1.*1 -> k ∉ a2.*1 -> assoc_del k (a1 ++ (k, v) :: a2) = a1 ++ a2.
Proof.
  intros H1 H2. unfold assoc_del. rewrite filter_app, filter_cons_False by (cbn; tauto).
  f_equal; by apply assoc_del_out.
Qed.
End members.

(** The bytes of a key. *)
Definition key_bytes (k : list Z) : Prop := Forall is_byte k.

(** The operations.  [alloc] tells whether an allocation of that size succeeds; the lists returned are the values the
    caller has to release. *)
Class ObjectTable := {
  otable : Type;
  ot_init : (Z -> bool) -> res (option otable);
  ot_size : otable -> Z;
  ot_get : list Z -> otable -> res (option Z);
  ot_set : (Z -> bool) -> list Z -> Z -> otable -> res (Z * otable * list Z);
  ot_del : list Z -> otable -> res (Z * otable * list Z);
  ot_clear : otable -> res (otable * list Z);
  ot_close : otable -> res (list Z);
  ot_iter : otable -> res (option Z);
  ot_iter_at : list Z -> otable -> res (option Z);
  ot_iter_next : Z -> otable -> res (option Z);
  ot_iter_key : Z -> otable -> res (list Z);
  ot_iter_value : Z -> otable -> res Z;
  ot_iter_set : Z -> Z -> otable -> res (otable * list Z)
}.

(** The laws: [members] is the list of members, [iterators] the iterators of a table, one for each member. *)
Class ObjectTableSpec (O : ObjectTable) := {
  members : otable -> list (list Z * Z) -> Prop;
  iterators : otable -> list Z -> list (list Z * Z) -> Prop;
  members_keys t al : members t al -> NoDup al.*1;
  init_law alloc : (exists t, ot_init alloc = Ok (Some t) /\ members t []) \/ (ot_init alloc = Ok None /\ exists n, alloc n = false);
  size_law t al : members t al -> ot_size t = Z.of_nat (length al);
  get_law t al k : members t al -> key_bytes k -> ot_get k t = Ok (assoc k al);
  set_law alloc t al k v : members t al -> key_bytes k -> Z.of_nat (length al) < 2 ^ 31 -> Z.of_nat (length k) < 2 ^ 62 ->
    exists t', (ot_set alloc k v t = Ok (0, t', option_list (assoc k al)) /\ members t' (assoc_set k v al)) \/
               (ot_set alloc k v t = Ok (-1, t', []) /\ members t' al /\ exists n, alloc n = false);
  del_law t al k : members t al -> key_bytes k ->
    match assoc k al with
    | Some v => exists t', ot_del k t = Ok (0, t', [v]) /\ members t' (assoc_del k al)
    | None => ot_del k t = Ok (-1, t, [])
    end;
  clear_law t al : members t al -> exists t' vs, ot_clear t = Ok (t', vs) /\ members t' [] /\ vs ≡ₚ al.*2;
  close_law t al : members t al -> exists vs, ot_close t = Ok vs /\ vs ≡ₚ al.*2;
  iterators_law t al : members t al -> exists its, iterators t its al;
  iterators_members t its al : iterators t its al -> members t al /\ length its = length al;
  iter_law t its al : iterators t its al -> ot_iter t = Ok (head its);
  iter_next_law t al its1 i its2 : iterators t (its1 ++ i :: its2) al -> ot_iter_next i t = Ok (head its2);
  iter_member_law t al its1 i its2 : iterators t (its1 ++ i :: its2) al ->
    exists al1 k v al2, al = al1 ++ (k, v) :: al2 /\ length al1 = length its1 /\ ot_iter_key i t = Ok k /\ ot_iter_value i t = Ok v;
  iter_at_law t its al k : iterators t its al -> key_bytes k ->
    exists o, ot_iter_at k t = Ok o /\
      match o with
      | Some i => exists its1 its2 al1 v al2, its = its1 ++ i :: its2 /\ al = al1 ++ (k, v) :: al2 /\ length its1 = length al1
      | None => k ∉ al.*1
      end;
  iter_set_law t al its1 i its2 v : iterators t (its1 ++ i :: its2) al ->
    exists t' al1 k old al2, ot_iter_set i v t = Ok (t', [old]) /\ al = al1 ++ (k, old) :: al2 /\ length al1 = length its1 /\
      iterators t' (its1 ++ i :: its2) (al1 ++ (k, v) :: al2)
}.
