(* ===== verification/Hashtable.v ===== *)
(** * Hash tables

    [common/jansson/hashtable.c]: an object's members.  The pairs are on two intrusive lists, the list of all buckets
    one after the other and the list in the order of insertion; a bucket is the first and the last node of its stretch.
    The table keeps its links and pairs by address: a pair is at the address of its [list] node, its [ordered_list] node
    16 bytes behind.  Values are of any type; where the code releases a value the model returns it, for the caller to
    release.  At the end the tables of values by address are an instance of [ObjectTable]. *)

From S2P Require Import Prelude List Hash ObjectTable.

(** ** The code *)

Section code.
Context {V : Type} (seed : Z).

Record pair_t := MkPair { hash : Z; value : V; key : list Z }.

Record hashtable_t := MkTable {
  size : Z;
  buckets : list (Z * Z);
  order : Z;
  links : heap;
  pairs : gmap Z pair_t;
  next_pair : Z  (* where the allocator puts the next pair *)
}.

(** The addresses of the table's own nodes, and of a pair's second node. *)
Definition LIST : Z := 24.
Definition ORDERED_LIST : Z := 40.
Definition ordered_list (pair : Z) : Z := pair + 16.
Definition ordered_list_to_pair (list : Z) : Z := list - 16.

Definition hashsize (n : Z) : Z := u32 (Z.shiftl 1 n).
Definition hashmask (n : Z) : Z := u32 (hashsize n - 1).
Definition hash_str (key : list Z) : res Z := hashlittle (key_memory key [0]) 1 (length key) seed.

Definition list_init (list : Z) (h : heap) : res heap := h ← set_next list list h; set_prev list list h.

Definition list_insert (list node : Z) (h : heap) : res heap :=
  h ← set_next node list h;
  prev ← get_prev list h;
  h ← set_prev node prev h;
  prev ← get_prev list h;
  h ← set_next prev node h;
  set_prev list node h.

Definition list_remove (list : Z) (h : heap) : res heap :=
  prev ← get_prev list h; next ← get_next list h;
  h ← set_next prev next h;
  next ← get_next list h; prev ← get_prev list h;
  set_prev next prev h.

Definition set_links (h : heap) (t : hashtable_t) : hashtable_t :=
  MkTable (size t) (buckets t) (order t) h (pairs t) (next_pair t).
Definition set_bucket (i : nat) (b : Z * Z) (t : hashtable_t) : hashtable_t :=
  MkTable (size t) (<[i := b]> (buckets t)) (order t) (links t) (pairs t) (next_pair t).
Definition set_pair (p : Z) (pr : pair_t) (t : hashtable_t) : hashtable_t :=
  MkTable (size t) (buckets t) (order t) (links t) (<[p := pr]> (pairs t)) (next_pair t).

Definition bucket_is_empty (bucket : Z * Z) : bool := (bucket.1 =? LIST) && (bucket.1 =? bucket.2).

Definition insert_to_bucket (i : nat) (list : Z) (t : hashtable_t) : res hashtable_t :=
  bucket ← rd (buckets t) i;
  if bucket_is_empty bucket then
    h ← list_insert LIST list (links t); Ok (set_bucket i (list, list) (set_links h t))
  else
    h ← list_insert bucket.1 list (links t); Ok (set_bucket i (list, bucket.2) (set_links h t)).

(** The walk of [hashtable_find_pair] from the node [list]. *)
Fixpoint find_from (fuel : nat) (t : hashtable_t) (k : list Z) (h : Z) (list last : Z) : res (option Z) :=
  match fuel with
  | O => NoFuel
  | S fuel =>
      pr ← of_option (pairs t !! list);
      if (hash pr =? h) && bool_decide (key pr = k) then Ok (Some list) else
      if list =? last then Ok None else
      next ← get_next list (links t); find_from fuel t k h next last
  end.

Definition hashtable_find_pair (t : hashtable_t) (bucket : Z * Z) (k : list Z) (h : Z) : res (option Z) :=
  if bucket_is_empty bucket then Ok None else find_from (S (Z.to_nat (size t))) t k h bucket.1 bucket.2.

(** Freeing a pair: its two nodes and itself. *)
Definition free_pair (p : Z) (t : hashtable_t) : hashtable_t :=
  MkTable (size t) (buckets t) (order t)
    (Heap (delete p (delete (ordered_list p) (nexts (links t)))) (delete p (delete (ordered_list p) (prevs (links t)))))
    (delete p (pairs t)) (next_pair t).

Definition index_of (h : Z) (t : hashtable_t) : nat := Z.to_nat (Z.land h (hashmask (order t))).

(** The bucket's ends when [p] leaves it. *)
Definition leave_bucket (index : nat) (bucket : Z * Z) (p : Z) (t : hashtable_t) : res hashtable_t :=
  if (p =? bucket.1) && (p =? bucket.2) then Ok (set_bucket index (LIST, LIST) t)
  else if p =? bucket.1 then n ← get_next p (links t); Ok (set_bucket index (n, bucket.2) t)
  else if p =? bucket.2 then q ← get_prev p (links t); Ok (set_bucket index (bucket.1, q) t)
  else Ok t.

(** What is returned last is what the code releases with [json_decref]. *)
Definition hashtable_do_del (k : list Z) (h : Z) (t : hashtable_t) : res (Z * hashtable_t * list V) :=
  let index := index_of h t in
  bucket ← rd (buckets t) index;
  found ← hashtable_find_pair t bucket k h;
  match found with
  | None => Ok (-1, t, [])
  | Some p =>
      t ← leave_bucket index bucket p t;
      h ← list_remove p (links t);
      h ← list_remove (ordered_list p) h;
      pr ← of_option (pairs t !! p);
      let t := free_pair p (set_links h t) in
      Ok (0, MkTable (u64 (size t - 1)) (buckets t) (order t) (links t) (pairs t) (next_pair t), [value pr])
  end.

(** The loop of [hashtable_do_clear]. *)
Fixpoint clear_from (fuel : nat) (node : Z) (t : hashtable_t) : res (hashtable_t * list V) :=
  match fuel with
  | O => NoFuel
  | S fuel =>
      if node =? LIST then Ok (t, []) else
      next ← get_next node (links t);
      pr ← of_option (pairs t !! node);
      '(t, vs) ← clear_from fuel next (free_pair node t);
      Ok (t, value pr :: vs)
  end.

Definition hashtable_do_clear (t : hashtable_t) : res (hashtable_t * list V) :=
  list ← get_next LIST (links t); clear_from (S (Z.to_nat (size t))) list t.

Definition empty_buckets (order : Z) : list (Z * Z) := replicate (Z.to_nat (hashsize order)) (LIST, LIST).

(** The loop of [hashtable_do_rehash] over the old list. *)
Fixpoint rehash_from (fuel : nat) (list new_size : Z) (t : hashtable_t) : res hashtable_t :=
  match fuel with
  | O => NoFuel
  | S fuel =>
      if list =? LIST then Ok t else
      next ← get_next list (links t);
      pr ← of_option (pairs t !! list);
      t ← insert_to_bucket (Z.to_nat (hash pr mod new_size)) list t;
      rehash_from fuel next new_size t
  end.

(** [alloc] tells whether an allocation of that size succeeds; a shift by 32 is undefined. *)
Definition hashtable_do_rehash (alloc : Z -> bool) (t : hashtable_t) : res (Z * hashtable_t) :=
  let new_order := order t + 1 in
  _ ← assert_ok (new_order <? 32);
  let new_size := hashsize new_order in
  if negb (alloc (new_size * 16)) then Ok (-1, t) else
  list ← get_next LIST (links t);
  h ← list_init LIST (links t);
  t ← rehash_from (S (Z.to_nat (size t))) list new_size
        (MkTable (size t) (empty_buckets new_order) new_order h (pairs t) (next_pair t));
  Ok (0, t).

Definition INITIAL_HASHTABLE_ORDER : Z := 3.

Definition hashtable_init (alloc : Z -> bool) : res (option hashtable_t) :=
  if negb (alloc (hashsize INITIAL_HASHTABLE_ORDER * 16)) then Ok None else
  h ← list_init LIST (Heap {[ LIST := 0; ORDERED_LIST := 0 ]} {[ LIST := 0; ORDERED_LIST := 0 ]});
  h ← list_init ORDERED_LIST h;
  Ok (Some (MkTable 0 (empty_buckets INITIAL_HASHTABLE_ORDER) INITIAL_HASHTABLE_ORDER h ∅ 64)).

Definition hashtable_close (t : hashtable_t) : res (list V) := '(_, vs) ← hashtable_do_clear t; Ok vs.

(** Allocating a pair of [n] bytes: two nodes not yet initialised, the address rounded up to 64. *)
Definition malloc_pair (n : Z) (pr : pair_t) (t : hashtable_t) : Z * hashtable_t :=
  let p := next_pair t in
  (p, MkTable (size t) (buckets t) (order t)
        (Heap (<[p := 0]> (<[ordered_list p := 0]> (nexts (links t)))) (<[p := 0]> (<[ordered_list p := 0]> (prevs (links t)))))
        (<[p := pr]> (pairs t)) (p + 64 * (n / 64 + 1))).

Definition hashtable_set (alloc : Z -> bool) (k : list Z) (v : V) (t : hashtable_t) : res (Z * hashtable_t * list V) :=
  '(r, t) ← (if size t >=? hashsize (order t) then hashtable_do_rehash alloc t else Ok (0, t));
  if negb (r =? 0) then Ok (-1, t, []) else
  h ← hash_str k;
  let index := index_of h t in
  bucket ← rd (buckets t) index;
  found ← hashtable_find_pair t bucket k h;
  match found with
  | Some p =>
      pr ← of_option (pairs t !! p);
      Ok (0, set_pair p (MkPair (hash pr) v (key pr)) t, [value pr])
  | None =>
      let len := Z.of_nat (length k) in
      if len >=? 2 ^ 64 - 1 - 48 then Ok (-1, t, []) else
      if negb (alloc (48 + len + 1)) then Ok (-1, t, []) else
      let '(p, t) := malloc_pair (48 + len + 1) (MkPair h v k) t in
      g ← list_init p (links t);
      g ← list_init (ordered_list p) g;
      t ← insert_to_bucket index p (set_links g t);
      g ← list_insert ORDERED_LIST (ordered_list p) (links t);
      Ok (0, MkTable (u64 (size t + 1)) (buckets t) (order t) g (pairs t) (next_pair t), [])
  end.

(** Looking a key up: the pair's address. *)
Definition lookup_pair (k : list Z) (t : hashtable_t) : res (option Z) :=
  h ← hash_str k; bucket ← rd (buckets t) (index_of h t); hashtable_find_pair t bucket k h.

Definition hashtable_get (k : list Z) (t : hashtable_t) : res (option V) :=
  found ← lookup_pair k t;
  match found with
  | None => Ok None
  | Some p => pr ← of_option (pairs t !! p); Ok (Some (value pr))
  end.

Definition hashtable_del (k : list Z) (t : hashtable_t) : res (Z * hashtable_t * list V) :=
  h ← hash_str k; hashtable_do_del k h t.

Definition hashtable_clear (t : hashtable_t) : res (hashtable_t * list V) :=
  '(t, vs) ← hashtable_do_clear t;
  h ← list_init LIST (links t);
  h ← list_init ORDERED_LIST h;
  Ok (MkTable 0 (empty_buckets (order t)) (order t) h (pairs t) (next_pair t), vs).

(** Iterators are addresses of [ordered_list] nodes. *)
Definition hashtable_iter_next (iter : Z) (t : hashtable_t) : res (option Z) :=
  n ← get_next iter (links t); Ok (if n =? ORDERED_LIST then None else Some n).

Definition hashtable_iter (t : hashtable_t) : res (option Z) := hashtable_iter_next ORDERED_LIST t.

Definition hashtable_iter_at (k : list Z) (t : hashtable_t) : res (option Z) :=
  found ← (lookup_pair k t : res (option Z)); Ok (option_map ordered_list found).

Definition hashtable_iter_key (iter : Z) (t : hashtable_t) : res (list Z) :=
  pr ← of_option (pairs t !! ordered_list_to_pair iter); Ok (key pr).

Definition hashtable_iter_value (iter : Z) (t : hashtable_t) : res V :=
  pr ← of_option (pairs t !! ordered_list_to_pair iter); Ok (value pr).

Definition hashtable_iter_set (iter : Z) (v : V) (t : hashtable_t) : res (hashtable_t * list V) :=
  pr ← of_option (pairs t !! ordered_list_to_pair iter);
  Ok (set_pair (ordered_list_to_pair iter) (MkPair (hash pr) v (key pr)) t, [value pr]).
End code.
Arguments pair_t : clear implicits.
Arguments hashtable_t : clear implicits.

(** A table in use: nine members of the same hash order, one of them replaced, one deleted. *)
Definition demo : res (list (list Z * Z)) :=
  let ok := fun _ : Z => true in
  o ← hashtable_init (V := Z) ok; t ← of_option o;
  t ← foldl (fun t i => t ← t; '(_, t, _) ← hashtable_set 7 ok [65 + i; 66] (100 + i) t; Ok t) (Ok t) (seqZ 0 12);
  '(_, t, _) ← hashtable_set 7 ok [68; 66] 999 t;
  '(_, t, _) ← hashtable_del 7 [70; 66] t;
  i ← hashtable_iter t;
  (fix go fuel i := match fuel, i with
    | S fuel, Some i => k ← hashtable_iter_key i t; v ← hashtable_iter_value i t;
        n ← hashtable_iter_next i t; rest ← go fuel n; Ok ((k, v) :: rest)
    | _, _ => Ok []
    end) 20%nat i.

Example demo_runs : demo = Ok (([65; 66], 100) :: ([66; 66], 101) :: ([67; 66], 102) :: ([68; 66], 999) :: ([69; 66], 104)
  :: ((fun i => ([65 + i; 66], 100 + i)) <$> seqZ 6 6)).
Proof. vm_compute. reflexivity. Qed.

(** ** The list primitives

    They differ from those of [List] in the order of their stores only. *)

Lemma list_insert_add h node prev list :
  get_prev list h = Ok prev -> is_Some (nexts h !! node) -> is_Some (prevs h !! node) -> is_Some (nexts h !! prev) ->
  node <> list -> node <> prev ->
  list_insert list node h = __list_add node prev list h.
Proof.
  intros Hp [? Hn1] [? Hn2] [? Hp1] Hnl Hnp. unfold list_insert, __list_add, get_prev in *.
  destruct (prevs h !! list) as [q |] eqn:E; [| done]. cbn in Hp. injection Hp as ->.
  stores. rewrite E. cbn [of_option mbind res_bind]. stores. rewrite lookup_insert_ne, E by done. cbn [of_option mbind res_bind]. stores.
  do 2 f_equal. by apply insert_insert_ne.
Qed.

Lemma list_insert_at h x l1 l2 new :
  ring h x (l1 ++ l2) -> node h new -> new ∉ x :: l1 ++ l2 ->
  exists h', list_insert (after l2 x) new h = Ok h' /\
    ring h' x (l1 ++ new :: l2) /\ only (new :: x :: l1 ++ l2) h h' /\ alloc_same h h'.
Proof.
  intros Hr Hn Hnew. destruct (ring_edge _ _ _ _ Hr) as [E1 E2]. destruct (position_in x l1 l2) as [Hb Ha].
  rewrite (list_insert_add h new (before x l1)); [by apply list_add_at | | apply Hn | apply Hn | by eexists | |].
  - unfold get_prev. by rewrite E2.
  - intros ->. done.
  - intros ->. done.
Qed.

Lemma list_remove_at h x l1 e l2 :
  ring h x (l1 ++ e :: l2) ->
  exists h', list_remove e h = Ok h' /\ ring h' x (l1 ++ l2) /\ only (x :: l1 ++ l2) h h' /\ alloc_same h h'.
Proof.
  intros Hr. destruct (list_del_at _ _ _ _ _ Hr) as (h' & E & R & O & A). exists h'. split_and!; [| done..].
  destruct (ring_at _ _ _ _ _ Hr) as [[E1 E2] [E3 E4]]. destruct Hr as [Hd _]. apply ring_NoDup_del in Hd as [_ He].
  destruct (position_in x l1 l2) as [Hb Ha].
  assert (before x l1 <> e) by (intros <-; done). assert (after l2 x <> e) by (intros <-; done).
  revert E. unfold list_del, list_remove, __list_del, get_prev, get_next. rewrite E2, E3. cbn [of_option mbind res_bind].
  stores. rewrite lookup_insert_ne by done. rewrite E2, E3. cbn [of_option mbind res_bind]. stores. done.
Qed.

Lemma list_init_at h a :
  node h a -> exists h', list_init a h = Ok h' /\ ring h' a [] /\ only [a] h h' /\ alloc_same h h'.
Proof. apply init_spec. Qed.

(** ** The buckets

    [segs] gives the stretch of each bucket that is not empty, in the order in which the stretches follow each other. *)

Section buckets.
Context {V : Type}.
Implicit Types (t : hashtable_t V) (segs : list (nat * list Z)).

Definition nodes (segs : list (nat * list Z)) : list Z := concat segs.*2.

(** The pair at [p] belongs to bucket [i]. *)
Definition in_bucket (t : hashtable_t V) (i : nat) (p : Z) : Prop :=
  exists pr, pairs t !! p = Some pr /\ index_of (hash pr) t = i.

Definition ends (s : list Z) : Z * Z := (hd LIST s, List.last s LIST).

Record bucketed (t : hashtable_t V) (segs : list (nat * list Z)) : Prop := {
  bk_ring : ring (links t) LIST (nodes segs);
  bk_index : NoDup segs.*1;
  bk_segment : forall i s, (i, s) ∈ segs -> s <> [] /\ buckets t !! i = Some (ends s) /\ (forall p, p ∈ s -> in_bucket t i p);
  bk_empty : forall i, (i < length (buckets t))%nat -> i ∉ segs.*1 -> buckets t !! i = Some (LIST, LIST)
}.

Lemma nodes_app s1 s2 : nodes (s1 ++ s2) = nodes s1 ++ nodes s2.
Proof. unfold nodes. by rewrite fmap_app, concat_app. Qed.

Lemma nodes_cons i s segs : nodes ((i, s) :: segs) = s ++ nodes segs.
Proof. done. Qed.

Lemma nodes_elem p segs : p ∈ nodes segs <-> exists i s, (i, s) ∈ segs /\ p ∈ s.
Proof.
  unfold nodes. induction segs as [| [i s] segs IH]; cbn.
  - split; [intros H; inversion H | intros (? & ? & H & _); inversion H].
  - rewrite elem_of_app, IH. split.
    + intros [H | (j & s' & H1 & H2)]; [exists i, s; split; [left | done] | exists j, s'; split; [by right | done]].
    + intros (j & s' & H1 & H2). apply elem_of_cons in H1 as [[= -> ->] | H1]; [by left | right; eauto].
Qed.

Lemma segs_elem i segs : i ∈ segs.*1 <-> exists s, (i, s) ∈ segs.
Proof. rewrite list_elem_of_fmap. split; [intros ([j s] & -> & H); eauto | intros [s H]; by exists (i, s)]. Qed.

Lemma segs_split i segs : NoDup segs.*1 -> i ∈ segs.*1 ->
  exists s1 s s2, segs = s1 ++ (i, s) :: s2 /\ i ∉ s1.*1 /\ i ∉ s2.*1.
Proof.
  intros Hd [s H]%segs_elem. apply list_elem_of_split in H as (s1 & s2 & ->). exists s1, s, s2. split; [done |].
  rewrite fmap_app, fmap_cons in Hd. apply NoDup_app in Hd as (_ & H12 & H2). apply NoDup_cons in H2 as [H2 _].
  split; [| done]. intros H. apply (H12 i H). by left.
Qed.

Lemma segment_in_nodes p i s segs : (i, s) ∈ segs -> p ∈ s -> p ∈ nodes segs.
Proof. intros. apply nodes_elem. eauto. Qed.

(** What [insert_to_bucket] changes. *)
Definition with_buckets (bs : list (Z * Z)) (h : heap) (t : hashtable_t V) : hashtable_t V :=
  MkTable (size t) bs (order t) h (pairs t) (next_pair t).

Lemma hd_not_list t segs i f r : bucketed t segs -> (i, f :: r) ∈ segs -> f <> LIST.
Proof.
  intros Hb Hs ->. destruct (bk_ring _ _ Hb) as [Hd _]. apply NoDup_cons in Hd as [Hd _]. apply Hd.
  eapply segment_in_nodes; [done | by left].
Qed.

Lemma bucket_nonempty t segs i f r : bucketed t segs -> (i, f :: r) ∈ segs -> bucket_is_empty (ends (f :: r)) = false.
Proof.
  intros Hb Hs. unfold bucket_is_empty, ends. cbn [fst snd hd].
  rewrite (proj2 (Z.eqb_neq _ _)); [done |]. by eapply hd_not_list.
Qed.

Lemma insert_to_bucket_spec t segs p i :
  bucketed t segs -> in_bucket t i p -> (i < length (buckets t))%nat -> node (links t) p -> p ∉ LIST :: nodes segs ->
  exists bs h segs', insert_to_bucket i p t = Ok (with_buckets bs h t) /\ bucketed (with_buckets bs h t) segs' /\
    nodes segs' ≡ₚ p :: nodes segs /\ only (p :: LIST :: nodes segs) (links t) h /\ alloc_same (links t) h /\
    length bs = length (buckets t).
Proof.
  intros Hb Hp Hi Hn Hx. pose proof Hb as [Hr Hd Hs He]. unfold insert_to_bucket.
  destruct (decide (i ∈ segs.*1)) as [Hin | Hout].
  - destruct (segs_split i segs Hd Hin) as (s1 & s & s2 & -> & Hi1 & Hi2).
    destruct (Hs i s) as (Hne & Hbk & Hps); [set_solver |]. destruct s as [| f r]; [done |].
    rewrite (rd_Ok _ _ _ Hbk). cbn [mbind res_bind]. rewrite (bucket_nonempty t (s1 ++ (i, f :: r) :: s2) i) by (done || set_solver).
    rewrite nodes_app, nodes_cons in *. destruct (list_insert_at (links t) LIST (nodes s1) ((f :: r) ++ nodes s2) p) as (h & E & R & O & A); [done.. |].
    cbn [ends fst snd hd]. cbn [after hd app] in E. rewrite E. cbn [mbind res_bind].
    exists (<[i := (p, List.last (f :: r) LIST)]> (buckets t)), h, (s1 ++ (i, p :: f :: r) :: s2).
    rewrite nodes_app, nodes_cons. split_and!; [done | | | | done | by rewrite length_insert].
    + split; cbn [links buckets with_buckets].
      * by rewrite nodes_app, nodes_cons.
      * rewrite fmap_app, fmap_cons in *. done.
      * intros j s' Hjs. apply elem_of_app in Hjs. rewrite elem_of_cons in Hjs.
        destruct (decide (j = i)) as [-> | Hji].
        -- destruct Hjs as [Hjs | [[= ->] | Hjs]]; [exfalso; apply Hi1, segs_elem; eauto | | exfalso; apply Hi2, segs_elem; eauto].
           split_and!; [done | by rewrite list_lookup_insert_eq |]. intros q [-> | Hq]%elem_of_cons; [done | by apply Hps].
        -- rewrite list_lookup_insert_ne by done. apply Hs. destruct Hjs as [Hjs | [[= -> ->] | Hjs]]; [set_solver | done | set_solver].
      * rewrite length_insert. intros j Hj Hjs. rewrite list_lookup_insert_ne; [apply He; [done |] |].
        -- rewrite fmap_app, fmap_cons in *. done.
        -- intros ->. apply Hjs. rewrite fmap_app, fmap_cons. set_solver.
    + symmetry. apply (Permutation_middle (nodes s1) ((f :: r) ++ nodes s2) p).
    + done.
  - rewrite (rd_Ok _ _ _ (He i Hi Hout)). cbn [mbind res_bind]. change (bucket_is_empty (LIST, LIST)) with true. cbv iota.
    rewrite <- (app_nil_r (nodes segs)) in Hr, Hx. destruct (list_insert_at (links t) LIST (nodes segs) [] p) as (h & E & R & O & A); [done.. |].
    rewrite app_nil_r in *. cbn [after hd] in E. rewrite E. cbn [mbind res_bind].
    exists (<[i := (p, p)]> (buckets t)), h, (segs ++ [(i, [p])]).
    rewrite nodes_app, nodes_cons. cbn [app]. split_and!; [done | | | done | done | by rewrite length_insert].
    + split; cbn [links buckets with_buckets].
      * by rewrite nodes_app, nodes_cons.
      * rewrite fmap_app. apply NoDup_app. split_and!; [done | intros j Hj [= ->]%list_elem_of_singleton; done | apply NoDup_singleton].
      * intros j s' [Hjs | [= -> ->]%list_elem_of_singleton]%elem_of_app.
        -- assert (j <> i) by (intros ->; apply Hout, segs_elem; eauto). rewrite list_lookup_insert_ne by done. by apply Hs.
        -- split_and!; [done | by rewrite list_lookup_insert_eq |]. intros q ->%list_elem_of_singleton. done.
      * rewrite length_insert, fmap_app. intros j Hj Hjs. rewrite list_lookup_insert_ne; [apply He; [done |]; set_solver |].
        intros ->. apply Hjs. set_solver.
    + rewrite Permutation_app_comm. done.
Qed.

(** ** Finding a pair *)

Definition matches (t : hashtable_t V) (k : list Z) (h p : Z) : bool :=
  match pairs t !! p with Some pr => (hash pr =? h) && bool_decide (key pr = k) | None => false end.

Lemma last_snoc {A} (l : list A) x d : List.last (l ++ [x]) d = x.
Proof. apply last_last. Qed.

Lemma last_app_ne (s0 : list Z) r d : r <> [] -> List.last (s0 ++ r) d = List.last r d.
Proof. destruct r as [| x r _] using rev_ind; [done |]. intros _. by rewrite app_assoc, !last_snoc. Qed.

Lemma last_in (r : list Z) d : r <> [] -> List.last r d ∈ r.
Proof. destruct r as [| x r _] using rev_ind; [done |]. intros _. rewrite last_snoc. set_solver. Qed.

Lemma find_from_spec t segs i s k h fuel : bucketed t segs -> (i, s) ∈ segs ->
  forall s0 r, s = s0 ++ r -> r <> [] -> (length r <= fuel)%nat ->
  find_from fuel t k h (hd LIST r) (List.last s LIST) = Ok (List.find (matches t k h) r).
Proof.
  intros Hb Hin. destruct (bk_segment _ _ Hb _ _ Hin) as (_ & _ & Hps).
  induction fuel as [| fuel IH]; intros s0 r -> Hr Hf; [destruct r; [done | cbn in Hf; lia] |].
  destruct r as [| p r]; [done |]. cbn [hd find_from List.find]. unfold matches at 1.
  destruct (Hps p) as (pr & Ep & _); [set_solver |]. rewrite Ep. cbn [of_option mbind res_bind].
  destruct (_ && _); [done |]. rewrite last_app_ne by done. destruct r as [| q r].
  - cbn [List.last]. by rewrite Z.eqb_refl.
  - assert (Hd : NoDup (s0 ++ p :: q :: r)).
    { destruct (bk_ring _ _ Hb) as [Hd _]. apply NoDup_cons in Hd as [_ Hd]. apply list_elem_of_split in Hin as (s1 & s2 & ->).
      rewrite nodes_app, nodes_cons in Hd. apply NoDup_app in Hd as (_ & _ & Hd). by apply NoDup_app in Hd as (Hd & _ & _). }
    change (List.last (p :: q :: r) LIST) with (List.last (q :: r) LIST).
    rewrite (proj2 (Z.eqb_neq _ _)).
    2: { apply NoDup_app in Hd as (_ & _ & Hd). apply NoDup_cons in Hd as [Hd _]. intros ->. apply Hd. by apply last_in. }
    assert (En : get_next p (links t) = Ok q).
    { destruct (bk_ring _ _ Hb) as [_ Hl]. apply list_elem_of_split in Hin as (s1 & s2 & ->). rewrite nodes_app, nodes_cons in Hl.
      destruct (linked_pair _ _ _ (LIST :: nodes s1 ++ s0) p q (r ++ nodes s2 ++ [LIST]) Hl) as [E _].
      - cbn [app]. f_equal. by rewrite <- !app_assoc.
      - unfold get_next. by rewrite E. }
    rewrite En. cbn [mbind res_bind]. rewrite <- (last_app_ne (s0 ++ [p]) (q :: r)) by done.
    replace ((s0 ++ [p]) ++ q :: r) with (s0 ++ p :: q :: r) by (by rewrite <- app_assoc).
    apply (IH (s0 ++ [p]) (q :: r)); [by rewrite <- app_assoc | done | cbn in *; lia].
Qed.

Lemma segment_length i s segs : (i, s) ∈ segs -> (length s <= length (nodes segs))%nat.
Proof. intros H. apply list_elem_of_split in H as (s1 & s2 & ->). rewrite nodes_app, nodes_cons, !length_app. lia. Qed.

(** A search gives a pair of that hash and key, when the table has one. *)
Lemma find_pair_spec t segs k h i :
  bucketed t segs -> (i < length (buckets t))%nat -> i = index_of h t -> (length (nodes segs) <= Z.to_nat (size t))%nat ->
  exists b found, buckets t !! i = Some b /\ hashtable_find_pair t b k h = Ok found /\
    match found with
    | Some p => (exists s, (i, s) ∈ segs /\ p ∈ s /\ b = ends s) /\ matches t k h p = true
    | None => forall p, p ∈ nodes segs -> matches t k h p = false
    end.
Proof.
  intros Hb Hi Ei Hsz. pose proof Hb as [_ Hd Hs He]. unfold hashtable_find_pair.
  assert (Hother : forall j s p, (j, s) ∈ segs -> p ∈ s -> j <> i -> matches t k h p = false).
  { intros j s p Hjs Hp Hji. destruct (Hs j s Hjs) as (_ & _ & Hps). destruct (Hps p Hp) as (pr & Ep & Ej). unfold matches. rewrite Ep.
    destruct (Z.eqb_spec (hash pr) h); [| done]. subst. done. }
  destruct (decide (i ∈ segs.*1)) as [[s Hin]%segs_elem | Hout].
  - destruct (Hs i s Hin) as (Hne & Hbk & Hps). exists (ends s), (List.find (matches t k h) s). split; [done |].
    destruct s as [| f r]; [done |]. rewrite (bucket_nonempty t segs i) by done. split.
    + apply (find_from_spec t segs i (f :: r) k h _ Hb Hin [] (f :: r)); [done | done |].
      pose proof (segment_length _ _ _ Hin). lia.
    + destruct (List.find _ _) as [p |] eqn:Ef.
      * apply find_some in Ef as [Hp Hm]. split; [exists (f :: r); split_and!; [done | by apply list_elem_of_In | done] | done].
      * intros p (j & s & Hjs & Hp)%nodes_elem. destruct (decide (j = i)) as [-> | Hji]; [| by eapply Hother].
        assert (s = f :: r) as ->.
        { apply list_elem_of_split in Hin as (s1 & s2 & ->). rewrite fmap_app, fmap_cons in Hd. apply NoDup_app in Hd as (_ & H12 & H2).
          apply NoDup_cons in H2 as [H2 _]. apply elem_of_app in Hjs as [Hjs | Hjs].
          - exfalso. apply (H12 i); [apply segs_elem; eauto | left].
          - apply elem_of_cons in Hjs as [[= ->] | Hjs]; [done |]. exfalso. apply H2, segs_elem. eauto. }
        by eapply find_none; [| apply list_elem_of_In].
  - exists (LIST, LIST), None. split; [by apply He |]. split; [done |].
    intros p (j & s & Hjs & Hp)%nodes_elem. eapply Hother; [done | done |]. intros ->. apply Hout, segs_elem. eauto.
Qed.

(** ** Taking a pair out of its bucket *)

Lemma ring_unlink t segs i s0 p s3 s1 s2 :
  bucketed t segs -> segs = s1 ++ (i, s0 ++ p :: s3) :: s2 ->
  exists h, list_remove p (links t) = Ok h /\ ring h LIST (nodes s1 ++ (s0 ++ s3) ++ nodes s2) /\
    only (LIST :: nodes s1 ++ (s0 ++ s3) ++ nodes s2) (links t) h /\ alloc_same (links t) h.
Proof.
  intros [Hr _ _ _] ->. rewrite nodes_app, nodes_cons in Hr.
  destruct (list_remove_at (links t) LIST (nodes s1 ++ s0) p (s3 ++ nodes s2)) as (h & E & R & O & A).
  - rewrite <- !app_assoc in *. exact Hr.
  - exists h. rewrite <- !app_assoc in *. done.
Qed.

(** The bucket of a stretch with [p] taken out. *)
Definition shrunk (i : nat) (s : list Z) : list (nat * list Z) := match s with [] => [] | _ => [(i, s)] end.

Lemma nodes_shrunk i s : nodes (shrunk i s) = s.
Proof. destruct s; [done |]. cbn [shrunk]. unfold nodes. cbn. by rewrite app_nil_r. Qed.

Lemma shrunk_bucketed t segs h i s s' s1 s2 :
  bucketed t segs -> segs = s1 ++ (i, s) :: s2 -> s' ⊆ s -> (i < length (buckets t))%nat ->
  ring h LIST (nodes s1 ++ s' ++ nodes s2) ->
  bucketed (with_buckets (<[i := ends s']> (buckets t)) h t) (s1 ++ shrunk i s' ++ s2).
Proof.
  intros [Hr Hd Hs He] -> Hsub Hi Hring. rewrite fmap_app, fmap_cons in Hd. pose proof Hd as Hd'.
  apply NoDup_app in Hd' as (Hd1 & H12 & Hd2). apply NoDup_cons in Hd2 as [Hi2 Hd2]. cbn [fst] in *.
  assert (Hi1 : i ∉ s1.*1) by (intros H; apply (H12 i H); left).
  split; cbn [links buckets with_buckets].
  - by rewrite !nodes_app, nodes_shrunk.
  - destruct s' as [| ? ?]; cbn [shrunk app]; [| by rewrite fmap_app, fmap_cons].
    rewrite fmap_app. apply NoDup_app. split_and!; [done | | done]. intros j Hj1 Hj2. apply (H12 j Hj1). by right.
  - intros j r Hjr.
    assert (C : (j = i /\ r = s' /\ s' <> []) \/ (j <> i /\ (j, r) ∈ s1 ++ (i, s) :: s2)).
    { apply elem_of_app in Hjr as [H | H]; [right; split; [intros ->; apply Hi1, segs_elem; eauto | set_solver] |].
      apply elem_of_app in H as [H | H]; [| right; split; [intros ->; apply Hi2, segs_elem; eauto | set_solver]].
      destruct s'; [inversion H |]. apply list_elem_of_singleton in H as [= -> ->]. by left. }
    destruct C as [(-> & -> & Hne) | [Hji Hin]].
    + split_and!; [done | by rewrite list_lookup_insert_eq |]. intros q Hq. destruct (Hs i s) as (_ & _ & Hps); [set_solver |].
      apply Hps. set_solver.
    + rewrite list_lookup_insert_ne by done. by apply Hs.
  - rewrite length_insert. intros j Hj Hjs. destruct (decide (j = i)) as [-> | Hji].
    + rewrite list_lookup_insert_eq by done. destruct s'; [done |]. exfalso. apply Hjs. rewrite !fmap_app. set_solver.
    + rewrite list_lookup_insert_ne by done. apply He; [done |]. rewrite !fmap_app in *. destruct s'; set_solver.
Qed.

Lemma leave_bucket_spec t segs i s p :
  bucketed t segs -> (i, s) ∈ segs -> p ∈ s -> (i < length (buckets t))%nat ->
  exists bs h segs', leave_bucket i (ends s) p t = Ok (with_buckets bs (links t) t) /\ list_remove p (links t) = Ok h /\
    bucketed (with_buckets bs h t) segs' /\ nodes segs ≡ₚ p :: nodes segs' /\
    only (LIST :: nodes segs') (links t) h /\ alloc_same (links t) h /\ length bs = length (buckets t).
Proof.
  intros Hb Hin Hp Hi. apply list_elem_of_split in Hin as (s1 & s2 & E). apply list_elem_of_split in Hp as (a & b & ->).
  destruct (ring_unlink t segs i a p b s1 s2 Hb E) as (h & Er & Rr & O & A).
  assert (Hsub : a ++ b ⊆ a ++ p :: b) by set_solver.
  pose proof (shrunk_bucketed t segs h i _ _ s1 s2 Hb E Hsub Hi Rr) as Hb'.
  assert (Hl : leave_bucket i (ends (a ++ p :: b)) p t = Ok (with_buckets (<[i := ends (a ++ b)]> (buckets t)) (links t) t)).
  { destruct (bk_segment _ _ Hb i (a ++ p :: b)) as (_ & Hbk & _); [subst; set_solver |].
    pose proof (bk_ring _ _ Hb) as Hr. subst segs. rewrite nodes_app, nodes_cons in Hr.
    assert (Hr' : ring (links t) LIST ((nodes s1 ++ a) ++ p :: b ++ nodes s2)) by (rewrite <- !app_assoc in *; exact Hr).
    destruct (ring_at _ _ _ _ _ Hr') as [[Ep1 Ep2] [Ep3 Ep4]]. destruct Hr' as [Hd _].
    apply NoDup_cons in Hd as [_ Hd]. apply NoDup_app in Hd as (Hd1 & Hd12 & Hd2). apply NoDup_cons in Hd2 as [Hpb _].
    unfold leave_bucket, ends, get_next, get_prev. cbn [fst snd].
    destruct a as [| x a]; cbn [app hd].
    - rewrite Z.eqb_refl. cbn [andb]. destruct b as [| y b].
      + cbn [List.last]. rewrite Z.eqb_refl. done.
      + rewrite (proj2 (Z.eqb_neq p _)).
        2: { change (List.last (p :: y :: b) LIST) with (List.last (y :: b) LIST). intros ->. apply Hpb. apply elem_of_app. left. by apply last_in. }
        rewrite Ep3. cbn [after hd app of_option mbind res_bind]. done.
    - assert (p <> x) by (intros ->; apply (Hd12 x); set_solver). rewrite (proj2 (Z.eqb_neq p x)) by done. cbn [andb].
      destruct b as [| y b].
      + change (x :: a ++ [p]) with ((x :: a) ++ [p]). rewrite last_snoc, Z.eqb_refl, app_nil_r. rewrite Ep2. cbn [of_option mbind res_bind].
        unfold before. rewrite last_app_ne by done. reflexivity.
      + change (x :: a ++ p :: y :: b) with ((x :: a) ++ p :: y :: b). change (x :: a ++ y :: b) with ((x :: a) ++ y :: b).
        rewrite !(last_app_ne (x :: a)) by done. change (List.last (p :: y :: b) LIST) with (List.last (y :: b) LIST).
        rewrite (proj2 (Z.eqb_neq p _)).
        2: { intros ->. apply Hpb. apply elem_of_app. left. by apply last_in. }
        f_equal. unfold with_buckets. destruct t. cbn in *. f_equal. symmetry. apply list_insert_id.
        rewrite Hbk. unfold ends. cbn [hd app]. do 2 f_equal. by apply (last_app_ne (x :: a) (p :: y :: b)). }
  exists (<[i := ends (a ++ b)]> (buckets t)), h, (s1 ++ shrunk i (a ++ b) ++ s2). split_and!; [done | done | done | | | done | by rewrite length_insert].
  - subst segs. rewrite !nodes_app, nodes_cons, nodes_shrunk, <- !app_assoc. rewrite (app_assoc (nodes s1) a), (app_assoc (nodes s1) a).
    symmetry. apply Permutation_middle.
  - by rewrite !nodes_app, nodes_shrunk.
Qed.

(** ** Rehashing *)

Lemma hashsize_pow n : 0 <= n < 32 -> hashsize n = 2 ^ n.
Proof.
  intros Hn. unfold hashsize. rewrite Z.shiftl_mul_pow2 by lia. rewrite Z.mul_1_l. apply wrap_small.
  split; [apply Z.pow_nonneg; lia | apply Z.pow_lt_mono_r; lia].
Qed.

Lemma index_of_mod h t : 0 <= order t < 32 -> index_of h t = Z.to_nat (h mod 2 ^ order t).
Proof.
  intros Ho. unfold index_of, hashmask. rewrite hashsize_pow by done. rewrite wrap_small.
  - by rewrite Z.sub_1_r, <- Z.ones_equiv, Z.land_ones by lia.
  - pose proof (Z.pow_pos_nonneg 2 (order t)). pose proof (Z.pow_lt_mono_r 2 (order t) 32). lia.
Qed.

Lemma index_of_lt h t : 0 <= order t < 32 -> length (buckets t) = Z.to_nat (2 ^ order t) -> (index_of h t < length (buckets t))%nat.
Proof.
  intros Ho ->. rewrite index_of_mod by done. pose proof (Z.mod_pos_bound h (2 ^ order t)). pose proof (Z.pow_pos_nonneg 2 (order t)). lia.
Qed.

(** The nodes still to be moved, linked forward to the list's head. *)
Fixpoint chain (h : heap) (r : list Z) : Prop :=
  match r with [] => True | a :: r => nexts h !! a = Some (hd LIST r) /\ chain h r end.

Lemma chain_frame h h' ns r : chain h r -> only ns h h' -> (forall a, a ∈ r -> a ∉ ns) -> chain h' r.
Proof.
  induction r as [| a r IH]; intros Hc Ho Hr; [done |]. destruct Hc as [Ha Hc]. split; [| apply IH; set_solver].
  destruct (Ho a) as [-> _]; set_solver.
Qed.

Lemma ring_chain h r : linked h LIST (r ++ [LIST]) -> chain h r.
Proof.
  generalize LIST at 1. induction r as [| a r IH]; intros x H; [done |]. cbn in H. destruct H as [_ H]. split; [| by eapply IH].
  destruct r as [| b r]; cbn in H; destruct H as [[H _] _]; done.
Qed.

Lemma rehash_from_spec r : forall t segs fuel,
  0 <= order t < 32 -> length (buckets t) = Z.to_nat (2 ^ order t) ->
  bucketed t segs -> chain (links t) r -> NoDup r -> (forall a, a ∈ r -> a ∉ LIST :: nodes segs) ->
  (forall a, a ∈ r -> node (links t) a /\ is_Some (pairs t !! a)) -> (length r < fuel)%nat ->
  exists bs h segs', rehash_from fuel (hd LIST r) (2 ^ order t) t = Ok (with_buckets bs h t) /\
    bucketed (with_buckets bs h t) segs' /\ nodes segs' ≡ₚ r ++ nodes segs /\
    only (LIST :: r ++ nodes segs) (links t) h /\ alloc_same (links t) h /\ length bs = length (buckets t).
Proof.
  induction r as [| a r IH]; intros t segs [| fuel] Ho Hl Hb Hc Hd Hx Hn Hf; try (cbn in Hf; lia).
  - exists (buckets t), (links t), segs. destruct t; cbn. split_and!; try done.
  - cbn [rehash_from hd]. destruct (Hn a) as [Hna [pr Epr]]; [left |]. destruct Hc as [Ha Hc]. apply NoDup_cons in Hd as [Har Hd].
    rewrite (proj2 (Z.eqb_neq _ _)) by (specialize (Hx a); set_solver). unfold get_next. rewrite Ha, Epr. cbn [of_option mbind res_bind].
    rewrite <- index_of_mod by done.
    destruct (insert_to_bucket_spec t segs a (index_of (hash pr) t) Hb) as (bs & h & segs1 & E & Hb1 & P1 & O1 & A1 & L1);
      [by exists pr | by apply index_of_lt | done | apply Hx; left |].
    rewrite E. cbn [mbind res_bind].
    destruct (IH (with_buckets bs h t) segs1 fuel) as (bs2 & h2 & segs2 & E2 & Hb2 & P2 & O2 & A2 & L2); cbn [order buckets links pairs with_buckets].
    + done.
    + by rewrite L1.
    + done.
    + eapply chain_frame; [done | done |]. intros b Hbr. specialize (Hx b). set_solver.
    + done.
    + intros b Hbr. rewrite P1. specialize (Hx b). set_solver.
    + intros b Hbr. destruct (Hn b) as [H1 H2]; [by right |]. split; [by eapply node_alloc | done].
    + cbn in Hf. lia.
    + exists bs2, h2, segs2. split_and!; [exact E2 | exact Hb2 | | | by eapply alloc_trans | by rewrite L2].
      * rewrite P2, P1. symmetry. apply (Permutation_middle r (nodes segs) a).
      * eapply only_weaken; [by eapply only_trans |]. intros b Hb'. rewrite P1 in Hb'. set_solver.
Qed.

(** The table after its buckets were doubled. *)
Definition rehashed (bs : list (Z * Z)) (h : heap) (t : hashtable_t V) : hashtable_t V :=
  MkTable (size t) bs (order t + 1) h (pairs t) (next_pair t).

Lemma do_rehash_spec (alloc : Z -> bool) t segs :
  bucketed t segs -> 0 <= order t -> length (nodes segs) = Z.to_nat (size t) ->
  order t + 1 < 32 -> alloc (hashsize (order t + 1) * 16) = true ->
  exists bs h segs', hashtable_do_rehash alloc t = Ok (0, rehashed bs h t) /\ bucketed (rehashed bs h t) segs' /\
    nodes segs' ≡ₚ nodes segs /\ only (LIST :: nodes segs) (links t) h /\ alloc_same (links t) h /\
    length bs = Z.to_nat (2 ^ (order t + 1)).
Proof.
  intros Hb Ho Hsz Ho2 Ha. pose proof (bk_ring _ _ Hb) as Hr. unfold hashtable_do_rehash.
  rewrite (proj2 (Z.ltb_lt _ _)) by lia. cbn [assert_ok mbind res_bind]. rewrite Ha. cbn [negb].
  destruct (ring_head _ _ _ Hr) as [En _]. unfold get_next. rewrite En. cbn [of_option mbind res_bind].
  destruct (list_init_at (links t) LIST) as (h0 & E0 & R0 & O0 & A0); [eapply ring_node; [done | left] |]. rewrite E0. cbn [mbind res_bind].
  pose proof Hr as [Hd Hl]. apply NoDup_cons in Hd as [Hx Hd].
  set (t0 := MkTable (size t) (empty_buckets (order t + 1)) (order t + 1) h0 (pairs t) (next_pair t)).
  assert (Hlen : length (empty_buckets (order t + 1)) = Z.to_nat (2 ^ (order t + 1))).
  { unfold empty_buckets. rewrite length_replicate, hashsize_pow by lia. done. }
  rewrite hashsize_pow by lia.
  destruct (rehash_from_spec (nodes segs) t0 [] (S (Z.to_nat (size t)))) as (bs & h & segs' & E & Hb' & P & O & A & L); subst t0; cbn [order buckets links pairs].
  - lia.
  - done.
  - split; cbn [links buckets]; [done | apply NoDup_nil_2 | intros ? ? H; inversion H |].
    intros i Hi _. unfold empty_buckets in *. rewrite length_replicate in Hi. by apply lookup_replicate_2.
  - eapply chain_frame; [by apply ring_chain | done |]. intros a Ha' ->%list_elem_of_singleton. done.
  - done.
  - intros a Ha' ->%list_elem_of_singleton. done.
  - intros a Ha'. split; [eapply node_alloc; [done |]; eapply ring_node; [done | by right] |].
    apply nodes_elem in Ha' as (i & s & His & Has). destruct (bk_segment _ _ Hb i s His) as (_ & _ & Hps).
    destruct (Hps a Has) as (pr & Ep & _). eauto.
  - lia.
  - cbn [order] in E. rewrite app_nil_r in *. fold (after (nodes segs) LIST) in E. rewrite E. cbn [mbind res_bind].
    exists bs, h, segs'. split_and!; [done | exact Hb' | done | | by eapply alloc_trans | by rewrite L].
    eapply only_weaken; [by eapply only_trans |]. set_solver.
Qed.
End buckets.

(** ** Tables as lists of members *)

Section tables.
Context {V : Type} (seed : Z).
Implicit Types (t : hashtable_t V) (ps : list Z) (al : list (list Z * V)).

(** A table whose pairs are [ps] in the order of insertion. *)
Record wf (t : hashtable_t V) (ps : list Z) : Prop := {
  wf_order : 3 <= order t < 32;
  wf_length : length (buckets t) = Z.to_nat (2 ^ order t);
  wf_segs : exists segs, bucketed t segs /\ nodes segs ≡ₚ ps;
  wf_ring : ring (links t) ORDERED_LIST (ordered_list <$> ps);
  wf_pairs : forall p, is_Some (pairs t !! p) <-> p ∈ ps;
  wf_hash : forall p pr, pairs t !! p = Some pr -> hash pr = lookup3 (key pr) seed;
  wf_keys : forall p q pr qr, pairs t !! p = Some pr -> pairs t !! q = Some qr -> key pr = key qr -> p = q;
  wf_addr : forall p, p ∈ ps -> 64 <= p < next_pair t /\ p mod 64 = 0;
  wf_next : 64 <= next_pair t /\ next_pair t mod 64 = 0;
  wf_size : size t = Z.of_nat (length ps) /\ size t <= 2 ^ order t
}.

Definition member (t : hashtable_t V) (p : Z) (m : list Z * V) : Prop :=
  exists pr, pairs t !! p = Some pr /\ m = (key pr, value pr).

(** The members of a table, in order. *)
Definition table (t : hashtable_t V) (al : list (list Z * V)) : Prop := exists ps, wf t ps /\ Forall2 (member t) ps al.

Lemma hash_str_ok k : key_bytes k -> hash_str seed k = Ok (lookup3 k seed) /\ 0 <= lookup3 k seed < 2 ^ 32.
Proof.
  intros Hk. unfold hash_str. destruct (key_memory_spec k [0]) as [H1 H2].
  - intros b [Hb | ->%list_elem_of_singleton]%elem_of_app; [by eapply Forall_forall in Hk | by_decide].
  - by apply hash_run.
Qed.

Lemma wf_NoDup t ps : wf t ps -> NoDup ps.
Proof. intros H. destruct (wf_ring _ _ H) as [Hd _]. apply NoDup_cons in Hd as [_ Hd]. by apply NoDup_fmap_1 in Hd. Qed.

(** The nodes of the pairs are different from each other and from the table's own. *)
Lemma wf_apart t ps p : wf t ps -> p ∈ ps ->
  p <> LIST /\ p <> ORDERED_LIST /\ ordered_list p <> LIST /\ ordered_list p <> ORDERED_LIST /\ (forall q, q ∈ ps -> ordered_list q <> p).
Proof.
  intros H Hp. unfold LIST, ORDERED_LIST, ordered_list. destruct (wf_addr _ _ H p Hp) as [H1 H2]. split_and!; try lia.
  intros q Hq. destruct (wf_addr _ _ H q Hq) as [H3 H4]. intros <-. rewrite Zplus_mod, H4 in H2. done.
Qed.

Lemma members_split t ps al p :
  Forall2 (member t) ps al -> p ∈ ps -> exists ps1 ps2 al1 al2 pr, ps = ps1 ++ p :: ps2 /\ al = al1 ++ (key pr, value pr) :: al2 /\
    pairs t !! p = Some pr /\ Forall2 (member t) ps1 al1 /\ Forall2 (member t) ps2 al2.
Proof.
  intros Hm Hp. apply list_elem_of_split in Hp as (ps1 & ps2 & ->).
  apply Forall2_app_inv_l in Hm as (al1 & al' & H1 & H2 & ->). inversion H2 as [| ? ? ? al2 (pr & Ep & ->) H3]; subst.
  exists ps1, ps2, al1, al2, pr. done.
Qed.

Lemma member_key t ps al k : Forall2 (member t) ps al -> k ∈ al.*1 -> exists p pr, p ∈ ps /\ pairs t !! p = Some pr /\ key pr = k.
Proof.
  induction 1 as [| p m ps al (pr & Ep & ->) _ IH]; cbn; intros Hk; [inversion Hk |].
  apply elem_of_cons in Hk as [-> | Hk]; [exists p, pr; split; [left | done] |].
  destruct (IH Hk) as (q & qr & Hq & ?). exists q, qr. split; [by right | done].
Qed.

(** Where a pair is in the table, its key is nowhere else. *)
Lemma members_at t ps al p : wf t ps -> Forall2 (member t) ps al -> p ∈ ps ->
  exists ps1 ps2 al1 al2 pr, ps = ps1 ++ p :: ps2 /\ al = al1 ++ (key pr, value pr) :: al2 /\ pairs t !! p = Some pr /\
    Forall2 (member t) ps1 al1 /\ Forall2 (member t) ps2 al2 /\ key pr ∉ al1.*1 /\ key pr ∉ al2.*1 /\ p ∉ ps1 /\ p ∉ ps2.
Proof.
  intros H Hm Hp. destruct (members_split t ps al p Hm Hp) as (ps1 & ps2 & al1 & al2 & pr & -> & -> & Ep & H1 & H2).
  pose proof (wf_NoDup _ _ H) as Hd. apply NoDup_app in Hd as (_ & H12 & Hd). apply NoDup_cons in Hd as [Hp2 _].
  assert (Hp1 : p ∉ ps1) by (intros Hp1; apply (H12 p Hp1); left).
  exists ps1, ps2, al1, al2, pr. split_and!; try done; intros Hk; eapply member_key in Hk as (q & qr & Hq & Eq & Ek); try done;
    by rewrite <- (wf_keys _ _ H _ _ _ _ Eq Ep Ek) in *.
Qed.

Lemma find_key t ps al k : wf t ps -> Forall2 (member t) ps al -> key_bytes k ->
  let h := lookup3 k seed in
  exists b found, rd (buckets t) (index_of h t) = Ok b /\ hashtable_find_pair t b k h = Ok found /\
    match found with
    | Some p => (exists segs s, bucketed t segs /\ nodes segs ≡ₚ ps /\ (index_of h t, s) ∈ segs /\ p ∈ s /\ b = ends s) /\
        exists pr, pairs t !! p = Some pr /\ key pr = k
    | None => k ∉ al.*1
    end.
Proof.
  intros H Hm Hk h. destruct (wf_segs _ _ H) as (segs & Hb & Hp). pose proof (wf_order _ _ H) as Ho.
  assert (Hlen : length (nodes segs) = Z.to_nat (size t)) by (destruct (wf_size _ _ H) as [-> _]; rewrite Hp, Nat2Z.id; done).
  destruct (find_pair_spec t segs k h _ Hb (index_of_lt h t ltac:(lia) (wf_length _ _ H)) eq_refl ltac:(lia)) as (b & found & Eb & Ef & Hf).
  exists b, found. split; [by apply rd_Ok |]. split; [done |]. destruct found as [p |].
  - destruct Hf as [(s & Hs & Hps & Es) Hmt]. split; [by exists segs, s |]. unfold matches in Hmt.
    destruct (pairs t !! p) as [pr |] eqn:Ep; [| done]. exists pr. split; [done |].
    apply andb_prop in Hmt as [_ Hmt]. by apply bool_decide_eq_true in Hmt.
  - intros Hin. destruct (member_key _ _ _ _ Hm Hin) as (p & pr & Hpp & Ep & <-). rewrite <- Hp in Hpp.
    specialize (Hf p Hpp). unfold matches in Hf. rewrite Ep, (wf_hash _ _ H p pr Ep) in Hf. subst h.
    rewrite Z.eqb_refl, bool_decide_true in Hf; done.
Qed.

(** *** Reading *)

Lemma get_spec t al k : table t al -> key_bytes k -> hashtable_get seed k t = Ok (assoc k al).
Proof.
  intros (ps & H & Hm) Hk. unfold hashtable_get, lookup_pair. rewrite (proj1 (hash_str_ok k Hk)). cbn [mbind res_bind].
  destruct (find_key t ps al k H Hm Hk) as (b & found & -> & E & Hf). cbn [mbind res_bind]. rewrite E. cbn [mbind res_bind].
  destruct found as [p |]; [| by rewrite assoc_out].
  destruct Hf as [_ (pr & Ep & Ek)]. rewrite Ep. cbn [of_option mbind res_bind].
  destruct (members_at t ps al p H Hm) as (? & ? & al1 & al2 & pr' & _ & -> & Ep' & _ & _ & H1 & _); [by apply (wf_pairs _ _ H) |].
  rewrite Ep in Ep'. injection Ep' as <-. subst k. by rewrite assoc_in.
Qed.

(** *** Setting *)

Lemma bucketed_frame t t' segs ns : bucketed t segs -> buckets t' = buckets t -> order t' = order t ->
  only ns (links t) (links t') -> (forall a, a ∈ LIST :: nodes segs -> a ∉ ns) ->
  (forall p pr, p ∈ nodes segs -> pairs t !! p = Some pr -> exists pr', pairs t' !! p = Some pr' /\ hash pr' = hash pr) ->
  bucketed t' segs.
Proof.
  intros [Hr Hd Hs He] Eb Eo O Hn Hp. split; [by eapply ring_frame | done | | by rewrite Eb].
  intros i s His. destruct (Hs i s His) as (H1 & H2 & H3). rewrite Eb. split_and!; [done | done |].
  intros q Hq. destruct (H3 q Hq) as (pr & Eq & Ei). destruct (Hp q pr) as (pr' & Eq' & Eh); [by eapply segment_in_nodes | done |].
  exists pr'. split; [done |]. unfold index_of in *. by rewrite Eo, Eh.
Qed.

Lemma only_refl h : only [] h h.
Proof. done. Qed.

(** The pairs with another value at [p]. *)
Lemma set_pair_wf t ps p pr v : wf t ps -> pairs t !! p = Some pr -> wf (set_pair p (MkPair (hash pr) v (key pr)) t) ps.
Proof.
  intros H Ep. pose proof H as [H1 H2 (segs & Hb & P) H4 H5 H6 H7 H8 H9 H10].
  assert (Hpr : forall q qr, <[p := MkPair (hash pr) v (key pr)]> (pairs t) !! q = Some qr -> exists qr', pairs t !! q = Some qr' /\ hash qr' = hash qr /\ key qr' = key qr).
  { intros q qr. rewrite lookup_insert_Some. intros [[-> <-] | [_ E]]; eauto. }
  split; cbn [set_pair order buckets links pairs next_pair size]; try done.
  - exists segs. split; [| done]. apply (bucketed_frame t _ segs []); try done; [set_solver |].
    intros q qr _ Eq. cbn [set_pair pairs]. destruct (decide (q = p)) as [-> |].
    + rewrite lookup_insert_eq. rewrite Ep in Eq. injection Eq as <-. by eexists.
    + rewrite lookup_insert_ne by done. eauto.
  - intros q. rewrite lookup_insert_is_Some', <- H5. split; [intros [<- | ?]; [by eexists | done] | by right].
  - intros q qr Eq. destruct (Hpr q qr Eq) as (qr' & Eq' & Eh & Ek). rewrite <- Eh, <- Ek. by eapply H6.
  - intros q r qr rr Eq Er Ek. destruct (Hpr q qr Eq) as (qr' & Eq' & _ & Ek'). destruct (Hpr r rr Er) as (rr' & Er' & _ & Ek'').
    eapply H7; [done | done | congruence].
Qed.

Lemma member_frame t t' ps al : Forall2 (member t) ps al -> (forall p, p ∈ ps -> pairs t' !! p = pairs t !! p) -> Forall2 (member t') ps al.
Proof.
  induction 1 as [| p m ps al (pr & Ep & ->) H IH]; intros Hp; [constructor |].
  constructor; [exists pr; rewrite Hp by left; done | apply IH; intros; apply Hp; by right].
Qed.

Lemma set_pair_table t ps al p pr v : wf t ps -> Forall2 (member t) ps al -> pairs t !! p = Some pr ->
  table (set_pair p (MkPair (hash pr) v (key pr)) t) (assoc_set (key pr) v al) /\ assoc (key pr) al = Some (value pr).
Proof.
  intros H Hm Ep.
  destruct (members_at t ps al p H Hm) as (ps1 & ps2 & al1 & al2 & pr' & E & -> & Ep' & M1 & M2 & K1 & K2 & P1 & P2);
    [by apply (wf_pairs _ _ H) |].
  rewrite Ep in Ep'. injection Ep' as <-. rewrite assoc_set_in, assoc_in by done. split; [| done].
  exists ps. split; [by apply set_pair_wf |]. rewrite E. apply Forall2_app; [| constructor].
  - eapply member_frame; [done |]. intros q Hq. cbn. apply lookup_insert_ne. by intros ->.
  - exists (MkPair (hash pr) v (key pr)). cbn. by rewrite lookup_insert_eq.
  - eapply member_frame; [done |]. intros q Hq. cbn. apply lookup_insert_ne. by intros ->.
Qed.

Lemma ordered_frame h h' ps ns : ring h ORDERED_LIST (ordered_list <$> ps) -> only ns h h' ->
  ORDERED_LIST ∉ ns -> (forall p, p ∈ ps -> ordered_list p ∉ ns) -> ring h' ORDERED_LIST (ordered_list <$> ps).
Proof.
  intros Hr O H1 H2. eapply ring_frame; [done | done |]. intros a [-> | (p & -> & Hp)%list_elem_of_fmap]%elem_of_cons; auto.
Qed.

(** Doubling the buckets. *)
Lemma rehash_wf (alloc : Z -> bool) t ps : wf t ps -> order t + 1 < 32 -> 
  if alloc (hashsize (order t + 1) * 16)
  then exists bs h, hashtable_do_rehash alloc t = Ok (0, rehashed bs h t) /\ wf (rehashed bs h t) ps
  else hashtable_do_rehash alloc t = Ok (-1, t).
Proof.
  intros H Ho. pose proof H as [H1 H2 (segs & Hb & P) H4 H5 H6 H7 H8 H9 [H10 H11]]. destruct (alloc _) eqn:Ha.
  - destruct (do_rehash_spec alloc t segs) as (bs & h & segs' & E & Hb' & P' & O & A & L); [done | lia | by rewrite P, H10, Nat2Z.id | done | done |].
    exists bs, h. split; [done |]. split; cbn [rehashed order buckets links pairs next_pair size]; try done; try lia.
    + exists segs'. split; [done |]. by rewrite P'.
    + eapply ordered_frame; [done | done | |].
      * rewrite P, elem_of_cons. intros [? | Hin]; [done |]. by apply (wf_apart t ps ORDERED_LIST H) in Hin as (_ & ? & _).
      * intros p Hp. rewrite P. intros [E' | Hin]%elem_of_cons; [by apply (wf_apart t ps p H Hp) in E' |].
        by apply (wf_apart t ps (ordered_list p) H Hin) in Hp.
    + split; [done |]. rewrite Z.pow_add_r by lia. lia.
  - unfold hashtable_do_rehash. rewrite (proj2 (Z.ltb_lt _ _)) by lia. cbn [assert_ok mbind res_bind]. by rewrite Ha.
Qed.

(** A pair not in the table before, behind the others. *)
Lemma fresh_pair t ps : wf t ps -> let p := next_pair t in
  p ∉ ps /\ p ∉ ordered_list <$> ps /\ ordered_list p ∉ ps /\ ordered_list p ∉ ordered_list <$> ps /\
  p <> LIST /\ p <> ORDERED_LIST /\ ordered_list p <> LIST /\ ordered_list p <> ORDERED_LIST /\ ordered_list p <> p.
Proof.
  intros H p. destruct (wf_next _ _ H) as [N1 N2]. unfold ordered_list, LIST, ORDERED_LIST. fold p in N1, N2.
  assert (A : forall q, q ∈ ps -> q < p /\ q mod 64 = 0) by (intros q Hq; destruct (wf_addr _ _ H q Hq); unfold p in *; split; lia).
  split_and!; try lia.
  - intros Hp. apply A in Hp. lia.
  - intros (q & E & Hq)%list_elem_of_fmap. apply A in Hq as [? M]. rewrite E, Zplus_mod, M in N2. done.
  - intros Hp. apply A in Hp. lia.
  - intros (q & E & Hq)%list_elem_of_fmap. apply A in Hq. lia.
Qed.

Lemma malloc_pair_spec t ps n pr : wf t ps ->
  exists t1 g, malloc_pair n pr t = (next_pair t, t1) /\
    (g ← list_init (next_pair t) (links t1); list_init (ordered_list (next_pair t)) g) = Ok g /\
    only [next_pair t; ordered_list (next_pair t)] (links t) g /\ node g (next_pair t) /\ node g (ordered_list (next_pair t)) /\
    t1 = MkTable (size t) (buckets t) (order t) (links t1) (<[next_pair t := pr]> (pairs t)) (next_pair t + 64 * (n / 64 + 1)).
Proof.
  intros H. unfold malloc_pair. set (p := next_pair t).
  set (h1 := Heap (<[p := 0]> (<[ordered_list p := 0]> (nexts (links t)))) (<[p := 0]> (<[ordered_list p := 0]> (prevs (links t))))).
  assert (Hne : ordered_list p <> p) by (unfold ordered_list; lia).
  assert (N : node h1 p /\ node h1 (ordered_list p)).
  { split; split; subst h1; cbn [nexts prevs]; rewrite ?lookup_insert_eq, ?lookup_insert_ne, ?lookup_insert_eq by done; by eexists. }
  destruct (list_init_at h1 p (proj1 N)) as (h2 & E2 & R2 & O2 & A2).
  destruct (list_init_at h2 (ordered_list p)) as (h3 & E3 & R3 & O3 & A3); [apply (node_alloc h1 _ _ A2), N |].
  eexists _, h3. split; [done |]. cbn [links]. fold h1. rewrite E2. cbn [mbind res_bind]. split_and!; [exact E3 | | | | done].
  - assert (O1 : only [p; ordered_list p] (links t) h1).
    { intros a Ha. subst h1. cbn [nexts prevs]. rewrite !lookup_insert_ne by set_solver. done. }
    eapply only_weaken; [eapply only_trans; [exact O1 |]; by eapply only_trans |]. set_solver.
  - apply (node_alloc h1 _ _ (alloc_trans _ _ _ A2 A3)), N.
  - apply (node_alloc h1 _ _ (alloc_trans _ _ _ A2 A3)), N.
Qed.

(** The new pair in place. *)
Lemma insert_pair t ps al k v n :
  wf t ps -> Forall2 (member t) ps al -> k ∉ al.*1 -> size t < 2 ^ order t -> 0 <= n ->
  let h := lookup3 k seed in
  exists t', (let '(p, t) := malloc_pair n (MkPair h v k) t in
      g ← list_init p (links t);
      g ← list_init (ordered_list p) g;
      t ← insert_to_bucket (index_of h t) p (set_links g t);
      g ← list_insert ORDERED_LIST (ordered_list p) (links t);
      Ok (0, MkTable (u64 (size t + 1)) (buckets t) (order t) g (pairs t) (next_pair t), [])) = Ok (0, t', @nil V) /\
    table t' (al ++ [(k, v)]).
Proof.
  intros H Hm Hk Hsz Hn h. set (p := next_pair t). destruct (fresh_pair t ps H) as (F1 & F2 & F3 & F4 & F5 & F6 & F7 & F8 & F9). fold p in F1, F2, F3, F4, F5, F6, F7, F8, F9.
  destruct (malloc_pair_spec t ps n (MkPair h v k) H) as (t1 & g & Em & Eg & Og & Np & No & E1). fold p in Em, Eg, Og, Np, No, E1.
  rewrite Em. destruct (list_init p (links t1)) as [g0 | |]; [| done..]. cbn [mbind res_bind] in Eg |- *. rewrite Eg. cbn [mbind res_bind].
  pose proof H as [H1 H2 (segs & Hb & P) H4 H5 H6 H7 H8 [H9 H9'] [H10 H11]].
  assert (Hfresh : pairs t !! p = None).
  { destruct (pairs t !! p) eqn:E; [| done]. exfalso. apply F1, H5. by eexists. }
  set (t2 := set_links g t1).
  assert (Hbl : buckets t2 = buckets t /\ order t2 = order t /\ pairs t2 = <[p := MkPair h v k]> (pairs t) /\ links t2 = g /\ size t2 = size t /\ next_pair t2 = p + 64 * (n / 64 + 1))
    by (subst t2; rewrite E1; done). destruct Hbl as (B1 & B2 & B3 & B4 & B5 & B6).
  assert (Ei1 : index_of h t1 = index_of h t2) by reflexivity. rewrite Ei1.
  assert (Ei2 : index_of h t2 = index_of h t) by (unfold index_of; by rewrite B2).
  assert (Hb2 : bucketed t2 segs).
  { apply (bucketed_frame t t2 segs [p; ordered_list p] Hb B1 B2); [by rewrite B4 | |].
    - intros a. rewrite P. set_solver.
    - intros q qr Hq Eq. rewrite B3, lookup_insert_ne by (intros <-; congruence). eauto. }
  destruct (insert_to_bucket_spec t2 segs p (index_of h t2) Hb2) as (bs & g2 & segs' & E2 & Hb3 & P3 & O3 & A3 & L3).
  { exists (MkPair h v k). rewrite B3, lookup_insert_eq. done. }
  { rewrite Ei2, B1. apply index_of_lt; lia || done. }
  { by rewrite B4. }
  { rewrite P. set_solver. }
  rewrite E2. cbn [mbind res_bind]. rewrite B4 in O3, A3.
  assert (Ro : ring g2 ORDERED_LIST (ordered_list <$> ps)).
  { eapply ordered_frame; [eapply ordered_frame; [exact H4 | exact Og | set_solver |] | exact O3 | rewrite P |].
    - intros q Hq. intros [E' | E'%list_elem_of_singleton]%elem_of_cons; [apply F2; rewrite <- E'; by apply list_elem_of_fmap_2 |].
      apply F4. rewrite <- E'. by apply list_elem_of_fmap_2.
    - intros [E' | [E' | Hin]%elem_of_cons]%elem_of_cons; [done | done |]. by apply (wf_apart t ps ORDERED_LIST H) in Hin as (_ & ? & _).
    - intros q Hq. rewrite P. intros [E' | [E' | Hin]%elem_of_cons]%elem_of_cons.
      + apply F2. rewrite <- E'. by apply list_elem_of_fmap_2.
      + by apply (wf_apart t ps q H Hq) in E'.
      + by apply (wf_apart t ps (ordered_list q) H Hin) in Hq. }
  rewrite <- (app_nil_r (ordered_list <$> ps)) in Ro, F4.
  destruct (list_insert_at g2 ORDERED_LIST (ordered_list <$> ps) [] (ordered_list p)) as (g3 & E3 & R3 & O4 & A4); [done | by eapply node_alloc | set_solver |].
  cbn [after hd] in E3. cbn [with_buckets links size buckets order pairs next_pair]. rewrite E3. cbn [mbind res_bind]. rewrite app_nil_r in O4, F4.
  eexists. split; [done |]. exists (ps ++ [p]). rewrite B1 in L3. rewrite B2, B3, B5, B6. split.
  - split; cbn [order buckets links pairs next_pair size]; try done.
    + by rewrite L3.
    + exists segs'. split; [| rewrite P3, P; apply Permutation_cons_append].
      eapply (bucketed_frame _ _ segs' (ordered_list p :: ORDERED_LIST :: (ordered_list <$> ps)) Hb3); cbn [with_buckets buckets order links pairs]; try done.
      * intros a Ha. rewrite P3, P in Ha. intros Hin.
        apply elem_of_cons in Ha as [-> | [-> | Ha]%elem_of_cons].
        -- apply elem_of_cons in Hin as [E' | [E' | (q & E' & Hq)%list_elem_of_fmap]%elem_of_cons]; [done | done |].
           symmetry in E'. by apply (wf_apart t ps q H Hq) in E'.
        -- apply elem_of_cons in Hin as [E' | [E' | Hin]%elem_of_cons]; done.
        -- apply elem_of_cons in Hin as [E' | [E' | (q & E' & Hq)%list_elem_of_fmap]%elem_of_cons].
           ++ subst a. done.
           ++ by apply (wf_apart t ps a H Ha) in E'.
           ++ symmetry in E'. by apply (wf_apart t ps a H Ha) in E'.
      * rewrite B3. intros q qr _ Eq. eauto.
    + rewrite fmap_app. exact R3.
    + intros q. rewrite lookup_insert_is_Some', H5, elem_of_app, list_elem_of_singleton. split; intros [?|?]; auto.
    + intros q qr [[<- <-] | [_ Eq]]%lookup_insert_Some; [done | by eapply H6].
    + assert (Hnk : forall q qr, pairs t !! q = Some qr -> key qr <> k).
      { intros q qr Eq <-. destruct (members_at t ps al q H Hm) as (? & ? & al1 & al2 & qr' & _ & -> & Eq' & _); [apply H5; by eexists |].
        rewrite Eq in Eq'. injection Eq' as <-. apply Hk. rewrite fmap_app, fmap_cons. set_solver. }
      intros q r qr rr Eq Er Ek. apply lookup_insert_Some in Eq as [[<- <-] | [Nq Eq]], Er as [[<- <-] | [Nr Er]]; try done.
      * cbn in Ek. exfalso. by apply (Hnk _ _ Er).
      * cbn in Ek. exfalso. by apply (Hnk _ _ Eq).
      * by eapply H7.
    + pose proof (Z.div_pos n 64). intros q [Hq | ->%list_elem_of_singleton]%elem_of_app; [destruct (H8 q Hq); unfold p; lia |]. unfold p. lia.
    + pose proof (Z.div_pos n 64). fold p in H9, H9'. split; [lia |]. rewrite Zplus_mod, H9', Z.mul_comm, Z.mod_mul by lia. done.
    + rewrite length_app. cbn [length]. assert (2 ^ order t < 2 ^ 32) by (apply Z.pow_lt_mono_r; lia). change (2 ^ 32) with 4294967296 in *.
      rewrite wrap_small by (change (2 ^ 64) with 18446744073709551616; lia). lia.
  - apply Forall2_app.
    + eapply member_frame; [done |]. intros q Hq. cbn [pairs]. apply lookup_insert_ne. by intros <-.
    + constructor; [| constructor]. exists (MkPair h v k). cbn [pairs]. by rewrite lookup_insert_eq.
Qed.

(** What setting a member gives: the new members and the value replaced, or a failure that changes no member. *)
Definition set_outcome (alloc : Z -> bool) k v al (r : res (Z * hashtable_t V * list V)) : Prop :=
  exists t', (r = Ok (0, t', option_list (assoc k al)) /\ table t' (assoc_set k v al)) \/
             (r = Ok (-1, t', []) /\ table t' al /\ exists n, alloc n = false).

Lemma set_present alloc t al k v : table t al -> key_bytes k -> size t < 2 ^ order t -> Z.of_nat (length k) < 2 ^ 62 ->
  set_outcome alloc k v al (h ← hash_str seed k;
    let index := index_of h t in
    bucket ← rd (buckets t) index;
    found ← hashtable_find_pair t bucket k h;
    match found with
    | Some p =>
        pr ← of_option (pairs t !! p);
        Ok (0, set_pair p (MkPair (hash pr) v (key pr)) t, [value pr])
    | None =>
        let len := Z.of_nat (length k) in
        if len >=? 2 ^ 64 - 1 - 48 then Ok (-1, t, []) else
        if negb (alloc (48 + len + 1)) then Ok (-1, t, []) else
        let '(p, t) := malloc_pair (48 + len + 1) (MkPair h v k) t in
        g ← list_init p (links t);
        g ← list_init (ordered_list p) g;
        t ← insert_to_bucket index p (set_links g t);
        g ← list_insert ORDERED_LIST (ordered_list p) (links t);
        Ok (0, MkTable (u64 (size t + 1)) (buckets t) (order t) g (pairs t) (next_pair t), [])
    end).
Proof.
  intros (ps & H & Hm) Hk Hsz Hlen. rewrite (proj1 (hash_str_ok k Hk)). cbn [mbind res_bind]. unfold set_outcome.
  destruct (find_key t ps al k H Hm Hk) as (b & found & -> & E & Hf). cbn [mbind res_bind]. rewrite E. cbn [mbind res_bind].
  destruct found as [p |].
  - destruct Hf as [_ (pr & Ep & <-)]. rewrite Ep. cbn [of_option mbind res_bind].
    destruct (set_pair_table t ps al p pr v H Hm Ep) as [Ht ->]. eexists. left. done.
  - rewrite Z.geb_leb, (proj2 (Z.leb_gt _ _)) by lia. rewrite (assoc_out k al Hf).
    destruct (alloc (48 + Z.of_nat (length k) + 1)) eqn:Ea; cbn [negb].
    + destruct (insert_pair t ps al k v (48 + Z.of_nat (length k) + 1) H Hm Hf Hsz ltac:(lia)) as (t' & E' & Ht).
      exists t'. left. split; [exact E' |]. by rewrite assoc_set_out.
    + exists t. right. split; [done |]. split; [by exists ps | by eexists].
Qed.

Lemma set_spec alloc t al k v : table t al -> key_bytes k -> Z.of_nat (length al) < 2 ^ 31 -> Z.of_nat (length k) < 2 ^ 62 ->
  set_outcome alloc k v al (hashtable_set seed alloc k v t).
Proof.
  intros Ht Hk Hn Hlen. pose proof Ht as (ps & H & Hm). pose proof (wf_order _ _ H) as Ho. destruct (wf_size _ _ H) as [Hs1 Hs2].
  assert (El : length ps = length al) by (by eapply Forall2_length). unfold hashtable_set. rewrite (hashsize_pow (order t)) by lia.
  rewrite (Z.geb_leb (size t)). destruct (Z.leb_spec (2 ^ order t) (size t)) as [Hfull | Hroom].
  - assert (Hb : order t + 1 < 32).
    { assert (order t < 31); [| lia]. apply (Z.pow_lt_mono_r_iff 2); lia. }
    pose proof (rehash_wf alloc t ps H Hb) as Hr. destruct (alloc (hashsize (order t + 1) * 16)) eqn:Ea.
    + destruct Hr as (bs & h & -> & H'). cbn [mbind res_bind]. change (negb (0 =? 0)) with false. cbv iota.
      apply set_present; [| done | | done].
      * exists ps. split; [done |]. eapply member_frame; [done |]. done.
      * cbn [rehashed size order]. rewrite Z.pow_add_r by lia. pose proof (Z.pow_pos_nonneg 2 (order t)). lia.
    + rewrite Hr. cbn [mbind res_bind]. change (negb (-1 =? 0)) with true. cbv iota. exists t. right. split; [done |]. split; [done | by eexists].
  - cbn [mbind res_bind]. change (negb (0 =? 0)) with false. cbv iota. by apply set_present.
Qed.

(** *** Deleting *)

Lemma free_pair_only t p : only [p; ordered_list p] (links t) (links (free_pair p t)).
Proof. intros a Ha. cbn [free_pair links nexts prevs]. rewrite !lookup_delete_ne by set_solver. done. Qed.

Lemma ordered_nodes ps a : a ∈ ordered_list <$> ps <-> exists p, p ∈ ps /\ a = ordered_list p.
Proof. rewrite list_elem_of_fmap. naive_solver. Qed.

(** The pair [p] taken out of everything. *)
Lemma unlink_wf t ps1 p ps2 segs i s :
  wf t (ps1 ++ p :: ps2) -> bucketed t segs -> nodes segs ≡ₚ ps1 ++ p :: ps2 -> (i, s) ∈ segs -> p ∈ s -> (i < length (buckets t))%nat ->
  exists bs h t', leave_bucket i (ends s) p t = Ok (with_buckets bs (links t) t) /\
    (h ← list_remove p (links t); list_remove (ordered_list p) h) = Ok h /\
    t' = free_pair p (set_links h (with_buckets bs (links t) t)) /\
    wf (MkTable (u64 (size t - 1)) (buckets t') (order t') (links t') (pairs t') (next_pair t')) (ps1 ++ ps2).
Proof.
  intros H Hb P Hin Hp Hi. pose proof H as [H1 H2 _ H4 H5 H6 H7 H8 H9 [H10 H11]]. pose proof (wf_NoDup _ _ H) as Hnd.
  destruct (leave_bucket_spec t segs i s p Hb Hin Hp Hi) as (bs & h & segs' & E1 & E2 & Hb' & P' & O & A & L).
  assert (Hpn : p ∉ ps1 ++ ps2 /\ NoDup (ps1 ++ ps2)).
  { rewrite <- Permutation_middle in Hnd. apply NoDup_cons in Hnd. done. }
  assert (P2 : nodes segs' ≡ₚ ps1 ++ ps2).
  { apply (Permutation_cons_inv (a := p)). rewrite <- P', P. symmetry. apply Permutation_middle. }
  assert (Hsub : forall q, q ∈ ps1 ++ ps2 -> q ∈ ps1 ++ p :: ps2) by (intros q; rewrite !elem_of_app, elem_of_cons; tauto).
  assert (Hp' : p ∈ ps1 ++ p :: ps2) by set_solver.
  destruct (wf_apart t _ p H Hp') as (W1 & W2 & W3 & W4 & W5).
  assert (Ro : ring h ORDERED_LIST (ordered_list <$> (ps1 ++ p :: ps2))).
  { eapply ordered_frame; [done | exact O | |].
    - rewrite P2. intros [? | Hin']%elem_of_cons; [done |]. by apply Hsub, (wf_apart t _ ORDERED_LIST H) in Hin' as (_ & ? & _).
    - intros q Hq. rewrite P2. intros [E' | Hin']%elem_of_cons; [by apply (wf_apart t _ q H Hq) in E' |].
      by apply Hsub, (wf_apart t _ _ H) in Hin' as (_ & _ & _ & _ & Hin'); apply (Hin' q). }
  rewrite fmap_app, fmap_cons in Ro. destruct (list_remove_at h ORDERED_LIST _ _ _ Ro) as (h2 & E3 & R3 & O3 & A3).
  rewrite <- fmap_app in R3, O3. set (t0 := set_links h2 (with_buckets bs (links t) t)).
  exists bs, h2, (free_pair p t0). rewrite E2. cbn [mbind res_bind]. split_and!; [done | done | done |].
  pose proof (free_pair_only t0 p) as O4.
  assert (Hring : ring (links (free_pair p t0)) ORDERED_LIST (ordered_list <$> (ps1 ++ ps2))).
  { eapply ordered_frame; [exact R3 | exact O4 | set_solver |]. intros q Hq.
    assert (q <> p) by (intros ->; tauto).
    intros [E' | E'%list_elem_of_singleton]%elem_of_cons; [by apply (W5 q (Hsub q Hq)) | unfold ordered_list in E'; lia]. }
  split; cbn [order buckets links pairs next_pair size]; try done.
  - cbn. by rewrite L.
  - exists segs'. split; [| done].
    eapply (bucketed_frame _ _ segs' ((ORDERED_LIST :: (ordered_list <$> (ps1 ++ ps2))) ++ [p; ordered_list p]) Hb'); cbn [with_buckets buckets order links pairs]; try done.
    + eapply only_trans; [exact O3 | exact O4].
    + intros a Ha Hin'. rewrite P2 in Ha. rewrite elem_of_app, !elem_of_cons, ordered_nodes, elem_of_nil in Hin'.
      apply elem_of_cons in Ha as [-> | Ha].
      * destruct Hin' as [[? | (q & Hq & E')] | [? | [? | []]]]; [done | | congruence | congruence].
        apply Hsub, (wf_apart t _ q H) in Hq as (_ & _ & ? & _). congruence.
      * destruct (wf_apart t _ a H (Hsub a Ha)) as (_ & ? & _ & _ & Wa).
        destruct Hin' as [[? | (q & Hq & E')] | [-> | [-> | []]]]; [done | by apply (Wa q (Hsub q Hq)) | tauto | by apply (Wa p Hp')].
    + intros q qr Hq Eq. rewrite P2 in Hq. exists qr. split; [| done]. cbn. rewrite lookup_delete_ne; [done |]. intros ->. tauto.
  - intros q. cbn. rewrite lookup_delete_is_Some, H5, !elem_of_app, elem_of_cons. rewrite elem_of_app in Hpn.
    destruct (decide (q = p)) as [-> |]; [split; [tauto | intros; exfalso; tauto] |]. split; [tauto | intros [|]; split; auto].
  - intros q qr Eq. change (delete p (pairs t) !! q = Some qr) in Eq. apply lookup_delete_Some in Eq as [_ Eq]. by eapply H6.
  - intros q r qr rr Eq Er. change (delete p (pairs t) !! q = Some qr) in Eq. change (delete p (pairs t) !! r = Some rr) in Er.
    apply lookup_delete_Some in Eq as [_ Eq], Er as [_ Er]. by eapply H7.
  - intros q Hq. apply H8. auto.
  - rewrite length_app in *. cbn [length] in *. rewrite H10. assert (2 ^ order t < 2 ^ 32) by (apply Z.pow_lt_mono_r; lia).
    change (2 ^ 32) with 4294967296 in *. rewrite wrap_small by (change (2 ^ 64) with 18446744073709551616; lia).
    cbn [free_pair order t0 set_links with_buckets]. lia.
Qed.

Lemma del_spec t al k : table t al -> key_bytes k ->
  match assoc k al with
  | Some v => exists t', hashtable_del seed k t = Ok (0, t', [v]) /\ table t' (assoc_del k al)
  | None => hashtable_del seed k t = Ok (-1, t, [])
  end.
Proof.
  intros (ps & H & Hm) Hk. unfold hashtable_del, hashtable_do_del. rewrite (proj1 (hash_str_ok k Hk)). cbn [mbind res_bind].
  destruct (find_key t ps al k H Hm Hk) as (b & found & -> & E & Hf). cbn [mbind res_bind]. rewrite E. cbn [mbind res_bind].
  destruct found as [p |]; [| by rewrite assoc_out].
  destruct Hf as [(segs & s & Hb & P & Hin & Hp & ->) (pr & Ep & Ek)].
  destruct (members_at t ps al p H Hm) as (ps1 & ps2 & al1 & al2 & pr' & -> & -> & Ep' & M1 & M2 & K1 & K2 & P1 & P2);
    [by apply (wf_pairs _ _ H) |]. rewrite Ep in Ep'. injection Ep' as <-. subst k. rewrite assoc_in, assoc_del_in by done.
  pose proof (wf_order _ _ H) as Ho.
  destruct (unlink_wf t ps1 p ps2 segs _ s H Hb P Hin Hp (index_of_lt _ t ltac:(lia) (wf_length _ _ H))) as (bs & h & t' & E1 & E2 & -> & H').
  rewrite E1. cbn [mbind res_bind]. cbn [links with_buckets]. destruct (list_remove p (links t)) as [h0 | |]; [| done..].
  cbn [mbind res_bind] in E2 |- *. rewrite E2. cbn [mbind res_bind]. cbn [pairs with_buckets]. rewrite Ep. cbn [of_option mbind res_bind].
  eexists. split; [done |]. exists (ps1 ++ ps2). split; [exact H' |].
  apply Forall2_app; (eapply member_frame; [done |]; intros q Hq; cbn; apply lookup_delete_ne; by intros <-).
Qed.

(** *** Emptying *)

Definition value_at (t : hashtable_t V) (p : Z) : option V := value <$> pairs t !! p.

Lemma clear_from_spec r : forall t fuel,
  chain (links t) r -> NoDup r -> LIST ∉ r -> (forall a b, a ∈ r -> b ∈ r -> ordered_list a <> b) ->
  (forall a, a ∈ r -> is_Some (pairs t !! a)) -> (length r < fuel)%nat ->
  exists t' vs, clear_from fuel (hd LIST r) t = Ok (t', vs) /\ Some <$> vs = value_at t <$> r /\
    t' = MkTable (size t) (buckets t) (order t) (links t') (pairs t') (next_pair t) /\
    (forall q, pairs t' !! q = if decide (q ∈ r) then None else pairs t !! q) /\
    only (r ++ (ordered_list <$> r)) (links t) (links t').
Proof.
  induction r as [| a r IH]; intros t [| fuel] Hc Hd Hx Ho Hp Hf; try (cbn in Hf; lia).
  - exists t, []. cbn. split_and!; [done | done | by destruct t | done | done].
  - cbn [clear_from hd]. destruct Hc as [Ha Hc]. apply NoDup_cons in Hd as [Har Hd]. destruct (Hp a) as [pr Epr]; [left |].
    rewrite (proj2 (Z.eqb_neq _ _)) by set_solver. unfold get_next. rewrite Ha, Epr. cbn [of_option mbind res_bind].
    destruct (IH (free_pair a t) fuel) as (t' & vs & E & Ev & Et & Eq & O).
    + eapply chain_frame; [done | apply free_pair_only |].
      intros b Hb [-> | ->%list_elem_of_singleton]%elem_of_cons; [done |]. by apply (Ho a (ordered_list a)); [left | right |].
    + done.
    + set_solver.
    + intros b c Hb Hcc. apply Ho; by right.
    + intros b Hb. cbn. rewrite lookup_delete_ne by (intros <-; done). apply Hp. by right.
    + cbn in Hf. lia.
    + rewrite E. cbn [mbind res_bind]. exists t', (value pr :: vs). split_and!; [done | | exact Et | |].
      * rewrite !fmap_cons. unfold value_at at 1. rewrite Epr, Ev. cbn. f_equal. apply list_fmap_ext.
        intros i b Hb. apply list_elem_of_lookup_2 in Hb. unfold value_at. cbn. by rewrite lookup_delete_ne by (intros <-; done).
      * intros q. rewrite Eq. cbn. destruct (decide (q = a)) as [-> | Hqa].
        -- rewrite (decide_True (P := a ∈ a :: r)) by left. case_decide; [done | apply lookup_delete_eq].
        -- rewrite lookup_delete_ne by done. destruct (decide (q ∈ r)); [by rewrite decide_True by (by right) |].
           rewrite decide_False; [done |]. by intros [? | ?]%elem_of_cons.
      * eapply only_weaken; [eapply only_trans; [apply free_pair_only | exact O] |]. rewrite fmap_cons. set_solver.
Qed.

Lemma members_values t ps al : Forall2 (member t) ps al -> value_at t <$> ps = Some <$> al.*2.
Proof. induction 1 as [| p m ps al (pr & Ep & ->) _ IH]; [done |]. rewrite !fmap_cons, IH. unfold value_at. by rewrite Ep. Qed.

Lemma some_perm (l1 l2 : list V) : Some <$> l1 ≡ₚ Some <$> l2 -> l1 ≡ₚ l2.
Proof.
  intros H. assert (E : forall l : list V, omap id (Some <$> l) = l) by (induction l as [| x l IH]; [done | cbn; by rewrite IH]).
  rewrite <- (E l1), <- (E l2). by rewrite H.
Qed.

Lemma do_clear_spec t ps al : wf t ps -> Forall2 (member t) ps al ->
  exists t' vs, hashtable_do_clear t = Ok (t', vs) /\ vs ≡ₚ al.*2 /\
    t' = MkTable (size t) (buckets t) (order t) (links t') (pairs t') (next_pair t) /\ pairs t' = ∅ /\
    only (ps ++ (ordered_list <$> ps)) (links t) (links t').
Proof.
  intros H Hm. pose proof H as [H1 H2 (segs & Hb & P) H4 H5 H6 H7 H8 H9 [H10 H11]]. unfold hashtable_do_clear, get_next.
  rewrite (proj1 (ring_head _ _ _ (bk_ring _ _ Hb))). cbn [of_option mbind res_bind]. fold (hd LIST (nodes segs)). 
  destruct (bk_ring _ _ Hb) as [Hd Hl]. apply NoDup_cons in Hd as [Hx Hd].
  destruct (clear_from_spec (nodes segs) t (S (Z.to_nat (size t)))) as (t' & vs & E & Ev & Et & Eq & O).
  - by apply ring_chain.
  - done.
  - done.
  - intros a b. rewrite P. intros Ha Hb'. by apply (wf_apart t ps b H Hb').
  - intros a. rewrite P. apply H5.
  - rewrite P, H10, Nat2Z.id. lia.
  - exists t', vs. split_and!; [exact E | | done | |].
    + apply some_perm. rewrite Ev, <- (members_values _ _ _ Hm). by rewrite P.
    + apply map_eq. intros q. rewrite Eq, lookup_empty. case_decide as Hq; [done |]. rewrite P in Hq.
      destruct (pairs t !! q) eqn:Eqq; [| done]. exfalso. apply Hq, H5. by eexists.
    + eapply only_weaken; [exact O |]. intros a. rewrite !elem_of_app, !ordered_nodes, P. setoid_rewrite P. done.
Qed.

Lemma empty_wf t : 3 <= order t < 32 -> buckets t = empty_buckets (order t) -> pairs t = ∅ -> size t = 0 ->
  ring (links t) LIST [] -> ring (links t) ORDERED_LIST [] -> 64 <= next_pair t /\ next_pair t mod 64 = 0 -> table t [].
Proof.
  intros Ho Eb Ep Es R1 R2 Hn. exists []. split; [| constructor].
  assert (L : length (buckets t) = Z.to_nat (2 ^ order t)) by (rewrite Eb; unfold empty_buckets; rewrite length_replicate, hashsize_pow by lia; done).
  split; try done.
  - exists []. split; [| done]. split; [done | apply NoDup_nil_2 | intros ? ? Hin; inversion Hin |].
    intros i Hi _. rewrite Eb in *. unfold empty_buckets in *. rewrite length_replicate in Hi. by apply lookup_replicate_2.
  - intros p. rewrite Ep, lookup_empty. split; [by intros [] | by intros ?%elem_of_nil].
  - intros p pr. by rewrite Ep, lookup_empty.
  - intros p q pr qr. by rewrite Ep, lookup_empty.
  - intros p Hp. inversion Hp.
  - rewrite Es. split; [done |]. apply Z.pow_nonneg. lia.
Qed.

Lemma init_table (alloc : Z -> bool) :
  if alloc 128 then exists t, hashtable_init (V := V) alloc = Ok (Some t) /\ table t [] else hashtable_init (V := V) alloc = Ok None.
Proof.
  unfold hashtable_init. change (hashsize INITIAL_HASHTABLE_ORDER * 16) with 128. destruct (alloc 128); cbn [negb]; [| done].
  eexists. split; [vm_compute; reflexivity |]. apply empty_wf; [done | reflexivity | done | done | | | done].
  all: split; [by_decide |]; repeat split; vm_compute; reflexivity.
Qed.

Lemma clear_spec t al : table t al -> exists t' vs, hashtable_clear t = Ok (t', vs) /\ table t' [] /\ vs ≡ₚ al.*2.
Proof.
  intros (ps & H & Hm). destruct (do_clear_spec t ps al H Hm) as (t1 & vs & E & Pv & Et & Ep & O). unfold hashtable_clear. rewrite E. cbn [mbind res_bind].
  destruct (wf_segs _ _ H) as (segs & Hb & P). pose proof (bk_ring _ _ Hb) as Hr. pose proof (wf_ring _ _ H) as Hro.
  assert (Hn : forall a, a = LIST \/ a = ORDERED_LIST -> node (links t1) a).
  { intros a Ha. assert (Hna : node (links t) a) by (destruct Ha as [-> | ->]; [eapply (ring_node _ LIST) | eapply (ring_node _ ORDERED_LIST)]; try done; left).
    destruct (O a) as [E1 E2]; [| by unfold node; rewrite E1, E2].
    rewrite elem_of_app, ordered_nodes. intros [Hin | (q & Hq & E')].
    - apply (wf_apart t ps a H) in Hin as (? & ? & _). naive_solver.
    - apply (wf_apart t ps q H) in Hq as (_ & _ & ? & ? & _). naive_solver. }
  destruct (list_init_at (links t1) LIST) as (h1 & E1 & R1 & O1 & A1); [apply Hn; auto |]. rewrite E1. cbn [mbind res_bind].
  destruct (list_init_at h1 ORDERED_LIST) as (h2 & E2 & R2 & O2 & A2); [eapply node_alloc; [done |]; apply Hn; auto |]. rewrite E2. cbn [mbind res_bind].
  eexists _, vs. split; [done |]. split; [| done]. rewrite Et. cbn [order buckets links pairs next_pair size].
  apply empty_wf; cbn; try done.
  - apply (wf_order _ _ H).
  - eapply ring_frame; [exact R1 | exact O2 |]. intros a ->%list_elem_of_singleton ?%list_elem_of_singleton. done.
  - apply (wf_next _ _ H).
Qed.

Lemma close_spec t al : table t al -> exists vs, hashtable_close t = Ok vs /\ vs ≡ₚ al.*2.
Proof.
  intros (ps & H & Hm). destruct (do_clear_spec t ps al H Hm) as (t1 & vs & E & Pv & _). unfold hashtable_close. rewrite E. cbn [mbind res_bind]. eauto.
Qed.

(** *** Iterating *)

(** The iterators of a table, one for each member, in order. *)
Definition iterators (t : hashtable_t V) (its : list Z) (al : list (list Z * V)) : Prop :=
  exists ps, wf t ps /\ Forall2 (member t) ps al /\ its = ordered_list <$> ps.

Lemma iter_begin t its al : iterators t its al -> hashtable_iter t = Ok (head its).
Proof.
  intros (ps & H & Hm & ->). unfold hashtable_iter, hashtable_iter_next, get_next.
  rewrite (proj1 (ring_head _ _ _ (wf_ring _ _ H))). cbn [of_option mbind res_bind]. destruct ps as [| p ps]; [done |]. cbn.
  rewrite (proj2 (Z.eqb_neq _ _)); [done |]. by apply (wf_apart t _ p H); left.
Qed.

Lemma iter_advance t its al its1 i its2 : iterators t its al -> its = its1 ++ i :: its2 -> hashtable_iter_next i t = Ok (head its2).
Proof.
  intros (ps & H & Hm & ->) E. pose proof (wf_ring _ _ H) as Hr. rewrite E in Hr.
  destruct (ring_at _ _ _ _ _ Hr) as [_ [En _]]. unfold hashtable_iter_next, get_next. rewrite En. cbn [of_option mbind res_bind].
  destruct its2 as [| j its2]; cbn; [done |]. rewrite (proj2 (Z.eqb_neq _ _)); [done |]. intros ->. destruct Hr as [Hd _]. apply NoDup_cons in Hd as [Hd _]. apply Hd. set_solver.
Qed.

Lemma iter_member t its al its1 i its2 : iterators t its al -> its = its1 ++ i :: its2 ->
  exists al1 k v al2, al = al1 ++ (k, v) :: al2 /\ length al1 = length its1 /\ hashtable_iter_key i t = Ok k /\ hashtable_iter_value i t = Ok v.
Proof.
  intros (ps & H & Hm & ->) E. apply fmap_app_inv in E as (ps1 & ps' & -> & E' & ->). symmetry in E'.
  apply fmap_cons_inv in E' as (p & ps2 & -> & -> & ->).
  apply Forall2_app_inv_l in Hm as (al1 & al' & H1 & H2 & ->). inversion H2 as [| ? ? ? al2 (pr & Ep & ->) H3]; subst.
  exists al1, (key pr), (value pr), al2. unfold hashtable_iter_key, hashtable_iter_value, ordered_list_to_pair, ordered_list.
  replace (p + 16 - 16) with p by lia. rewrite Ep. split_and!; [done | | done | done]. rewrite length_fmap. symmetry. by eapply Forall2_length.
Qed.

Lemma table_iterators t al : table t al -> exists its, iterators t its al.
Proof. intros (ps & H & Hm). exists (ordered_list <$> ps). by exists ps. Qed.

Lemma split_unique (x : Z) l1 l2 k1 k2 : NoDup (l1 ++ x :: l2) -> l1 ++ x :: l2 = k1 ++ x :: k2 -> l1 = k1 /\ l2 = k2.
Proof.
  revert k1; induction l1 as [| y l1 IH]; intros [| z k1] Hd E; cbn in *; [by injection E as -> | injection E as -> -> | injection E as -> <- |].
  - apply NoDup_cons in Hd as [Hx _]. set_solver.
  - apply NoDup_cons in Hd as [Hx _]. set_solver.
  - injection E as -> E. apply NoDup_cons in Hd as [_ Hd]. destruct (IH k1 Hd E) as [-> ->]. done.
Qed.

Lemma iter_at_spec t its al k : iterators t its al -> key_bytes k ->
  exists o, hashtable_iter_at seed k t = Ok o /\
    match o with
    | Some i => exists its1 its2 al1 v al2, its = its1 ++ i :: its2 /\ al = al1 ++ (k, v) :: al2 /\ length its1 = length al1
    | None => k ∉ al.*1
    end.
Proof.
  intros (ps & H & Hm & ->) Hk. unfold hashtable_iter_at, lookup_pair. rewrite (proj1 (hash_str_ok k Hk)). cbn [mbind res_bind].
  destruct (find_key t ps al k H Hm Hk) as (b & found & -> & E & Hf). cbn [mbind res_bind]. rewrite E. cbn [mbind res_bind].
  eexists. split; [done |]. destruct found as [p |]; cbn [option_map]; [| done]. destruct Hf as [_ (pr & Ep & Ek)].
  destruct (members_at t ps al p H Hm) as (ps1 & ps2 & al1 & al2 & pr' & -> & -> & Ep' & M1 & _); [by apply (wf_pairs _ _ H) |].
  rewrite Ep in Ep'. injection Ep' as <-. exists (ordered_list <$> ps1), (ordered_list <$> ps2), al1, (value pr), al2. subst k.
  rewrite fmap_app, fmap_cons. split_and!; [done | done |]. rewrite length_fmap. by eapply Forall2_length.
Qed.

Lemma iter_set_spec t its al its1 i its2 v : iterators t its al -> its = its1 ++ i :: its2 ->
  exists t' al1 k old al2, hashtable_iter_set i v t = Ok (t', [old]) /\ al = al1 ++ (k, old) :: al2 /\ length al1 = length its1 /\
    iterators t' its (al1 ++ (k, v) :: al2).
Proof.
  intros (ps & H & Hm & ->) E. apply fmap_app_inv in E as (ps1 & ps' & -> & E' & ->). symmetry in E'.
  apply fmap_cons_inv in E' as (p & ps2 & -> & -> & ->).
  destruct (members_at t _ al p H Hm) as (qs1 & qs2 & al1 & al2 & pr & Eq & -> & Ep & M1 & M2 & K1 & K2 & P1 & P2); [set_solver |].
  assert (ps1 = qs1 /\ ps2 = qs2) as [-> ->].
  { eapply split_unique; [| exact Eq]. by eapply wf_NoDup. }
  unfold hashtable_iter_set, ordered_list_to_pair, ordered_list. replace (p + 16 - 16) with p by lia. rewrite Ep. cbn [of_option mbind res_bind].
  exists (set_pair p (MkPair (hash pr) v (key pr)) t), al1, (key pr), (value pr), al2. split_and!; [done | done | |].
  - rewrite length_fmap. symmetry. by eapply Forall2_length.
  - exists (qs1 ++ p :: qs2). split_and!; [by apply set_pair_wf | | first [done | by rewrite !fmap_app, !fmap_cons]].
    apply Forall2_app; [| constructor].
    + eapply member_frame; [done |]. intros q Hq. cbn. apply lookup_insert_ne. by intros ->.
    + exists (MkPair (hash pr) v (key pr)). cbn. by rewrite lookup_insert_eq.
    + eapply member_frame; [done |]. intros q Hq. cbn. apply lookup_insert_ne. by intros ->.
Qed.

Lemma size_spec t al : table t al -> size t = Z.of_nat (length al).
Proof. intros (ps & H & Hm). rewrite (proj1 (wf_size _ _ H)). f_equal. by eapply Forall2_length. Qed.

Lemma iterators_table t its al : iterators t its al -> table t al.
Proof. intros (ps & H & Hm & _). by exists ps. Qed.

Lemma keys_NoDup t al : table t al -> NoDup al.*1.
Proof.
  intros (ps & H & Hm). apply NoDup_alt. intros i j k Hi Hj.
  apply list_lookup_fmap_Some in Hi as (m1 & -> & Hi), Hj as (m2 & Ek & Hj).
  destruct (Forall2_lookup_r _ _ _ _ _ Hm Hi) as (p & Hp & pr & Ep & ->).
  destruct (Forall2_lookup_r _ _ _ _ _ Hm Hj) as (q & Hq & qr & Eq & ->). cbn in Ek.
  eapply NoDup_lookup; [by eapply wf_NoDup | exact Hp |]. by rewrite (wf_keys _ _ H _ _ _ _ Ep Eq Ek).
Qed.

(** C10. A table refines the list of its members in the order in which their keys were first set.  Setting a key replaces
    its value where the member is, or puts a new member at the end, and gives back the value to release, also when the
    buckets are doubled; when there is no memory it fails with -1 and no member changes.  Looking a key up gives its value,
    deleting it takes exactly its member out and gives back its value, clearing gives back all the values, and iterating
    visits the members in order. *)
Theorem table_refines (alloc : Z -> bool) (t : hashtable_t V) (al : list (list Z * V)) (k : list Z) (v : V)
    (Ht : table t al) (Hk : key_bytes k) (Hlen : Z.of_nat (length k) < 2 ^ 62) (Hsize : Z.of_nat (length al) < 2 ^ 31) :
  (exists t', (hashtable_set seed alloc k v t = Ok (0, t', option_list (assoc k al)) /\ table t' (assoc_set k v al)) \/
              (hashtable_set seed alloc k v t = Ok (-1, t', []) /\ table t' al /\ exists n, alloc n = false)) /\
  hashtable_get seed k t = Ok (assoc k al) /\
  match assoc k al with
  | Some old => exists t', hashtable_del seed k t = Ok (0, t', [old]) /\ table t' (assoc_del k al)
  | None => hashtable_del seed k t = Ok (-1, t, [])
  end /\
  (exists t' vs, hashtable_clear t = Ok (t', vs) /\ table t' [] /\ vs ≡ₚ al.*2) /\
  (exists vs, hashtable_close t = Ok vs /\ vs ≡ₚ al.*2) /\
  exists its, length its = length al /\ hashtable_iter t = Ok (head its) /\
    (forall n i, its !! n = Some i -> exists k v, al !! n = Some (k, v) /\
       hashtable_iter_key i t = Ok k /\ hashtable_iter_value i t = Ok v /\ hashtable_iter_next i t = Ok (its !! S n)).
Proof.
  split_and!; [by apply set_spec | by apply get_spec | by apply del_spec | by apply clear_spec | by eapply close_spec |].
  destruct (table_iterators t al Ht) as [its Hi]. exists its. split_and!.
  - destruct Hi as (ps & H & Hm & ->). rewrite length_fmap. by eapply Forall2_length.
  - by eapply iter_begin.
  - intros n i Hn. apply list_elem_of_split_length in Hn as (its1 & its2 & E & ->).
    destruct (iter_member t its al its1 i its2 Hi E) as (al1 & k' & v' & al2 & -> & El & Ek & Ev). exists k', v'. split_and!; [| done | done |].
    + rewrite <- El. by rewrite list_lookup_middle.
    + rewrite (iter_advance t its _ its1 i its2 Hi E), E. f_equal. rewrite lookup_app_r by lia.
      replace (S (length its1) - length its1)%nat with 1%nat by lia. by destruct its2.
Qed.
End tables.

Lemma table_refines_witness :
  exists t, table 7 t [([97], 1); ([98], 2)] /\
    hashtable_get 7 [98] t = Ok (Some 2) /\
    exists t', hashtable_set 7 (fun _ => true) [97] 5 t = Ok (0, t', [1]) /\ table 7 t' [([97], 5); ([98], 2)].
Proof.
  pose proof (init_table (V := Z) 7 (fun _ => true)) as (t0 & _ & H0).
  destruct (set_spec 7 (fun _ => true) t0 [] [97] 1 H0) as (t1 & [[_ H1] | (_ & _ & n & [=])]); [by_decide | done | done |].
  destruct (set_spec 7 (fun _ => true) t1 _ [98] 2 H1) as (t2 & [[_ H2] | (_ & _ & n & [=])]); [by_decide | done | done |].
  exists t2. split; [exact H2 |].
  destruct (table_refines 7 (fun _ => true) t2 [([97], 1); ([98], 2)] [97] 5 H2) as ((t3 & [[E3 H3] | (_ & _ & n & [=])]) & _);
    [by_decide | done | done |].
  destruct (table_refines 7 (fun _ => true) t2 [([97], 1); ([98], 2)] [98] 5 H2) as (_ & E4 & _); [by_decide | done | done |].
  split; [exact E4 |]. exists t3. split; [exact E3 | exact H3].
Defined.

(** ** The interface *)

#[export] Instance hashtable_objects (seed : Z) : ObjectTable := {
  otable := hashtable_t Z;
  ot_init := hashtable_init;
  ot_size := size;
  ot_get := hashtable_get seed;
  ot_set := hashtable_set seed;
  ot_del := hashtable_del seed;
  ot_clear := hashtable_clear;
  ot_close := hashtable_close;
  ot_iter := hashtable_iter;
  ot_iter_at := hashtable_iter_at seed;
  ot_iter_next := hashtable_iter_next;
  ot_iter_key := hashtable_iter_key;
  ot_iter_value := hashtable_iter_value;
  ot_iter_set := hashtable_iter_set
}.

#[export] Instance hashtable_objects_spec (seed : Z) : ObjectTableSpec (hashtable_objects seed).
Proof.
  refine (Build_ObjectTableSpec (hashtable_objects seed) (table (V := Z) seed) (iterators (V := Z) seed)
    _ _ _ _ _ _ _ _ _ _ _ _ _ _ _); cbn [ot_init ot_size ot_get ot_set ot_del ot_clear
    ot_close ot_iter ot_iter_at ot_iter_next ot_iter_key ot_iter_value ot_iter_set hashtable_objects otable].
  - apply keys_NoDup.
  - intros alloc. pose proof (init_table (V := Z) seed alloc) as H. destruct (alloc 128) eqn:E; [by left | right; eauto].
  - apply size_spec.
  - apply get_spec.
  - intros alloc t al k v. apply set_spec.
  - apply del_spec.
  - apply clear_spec.
  - apply close_spec.
  - apply table_iterators.
  - intros t its al Hi. split; [by eapply iterators_table |]. destruct Hi as (ps & H & Hm & ->). rewrite length_fmap. by eapply Forall2_length.
  - apply iter_begin.
  - intros t al its1 i its2 Hi. by eapply iter_advance.
  - intros t al its1 i its2 Hi. by eapply iter_member.
  - apply iter_at_spec.
  - intros t al its1 i its2 v Hi. by eapply iter_set_spec.
Qed.
