(* ===== verification/Json.v ===== *)
(** * JSON values

    [common/jansson/value.c] and the reference counts of [jansson.h].  Values live at addresses: a cell has the count and
    the value, with the blocks it owns (the table of an array, the text of a string, the members of an object); the
    constants [true], [false] and [null] are cells whose count never changes.  Objects use their members through
    [ObjectTable].  [alloc next n] tells whether an allocation of [n] bytes succeeds, when the next cell would be at
    [next].  A real is a [spec_float]. *)

From Stdlib Require Import SpecFloat.
From S2P Require Import Prelude Utf Strbuf ObjectTable.

(** Finite reals of 53 bits of precision. *)
Definition prec : Z := 53.
Definition emax : Z := 1024.
Definition isnan (x : spec_float) : bool := match x with S754_nan => true | _ => false end.
Definition isinf (x : spec_float) : bool := match x with S754_infinity _ => true | _ => false end.

Section json.
Context {OT : ObjectTable}.

(** A value: its type with its data. *)
Inductive json_value :=
| JSON_OBJECT (hashtable : otable) (visited : Z)
| JSON_ARRAY (asize entries : Z) (tbl : block Z) (visited : Z)
| JSON_STRING (text : block Z) (len : Z)
| JSON_INTEGER (n : Z)
| JSON_REAL (x : spec_float)
| JSON_TRUE
| JSON_FALSE
| JSON_NULL.

Record json_t := MkJson { refcount : Z; jvalue : json_value }.

Record jheap := MkHeap { cells : gmap Z json_t; next : Z }.

Definition SIZE_MAX : Z := 2 ^ 64 - 1.

Definition NULL : Z := 0.

Definition cell (p : Z) (h : jheap) : res json_t := of_option (cells h !! p).
Definition set_cell (p : Z) (c : json_t) (h : jheap) : jheap := MkHeap (<[p := c]> (cells h)) (next h).
Definition set_jvalue (p : Z) (c : json_t) (v : json_value) (h : jheap) : jheap := set_cell p (MkJson (refcount c) v) h.
Definition jsonp_free (p : Z) (h : jheap) : jheap := MkHeap (delete p (cells h)) (next h).

(** The tests of a type; a NULL pointer is of none. *)
Definition json_is (test : json_value -> bool) (p : Z) (h : jheap) : res bool :=
  if p =? NULL then Ok false else c ← cell p h; Ok (test (jvalue c)).
Definition is_object (v : json_value) : bool := match v with JSON_OBJECT _ _ => true | _ => false end.
Definition is_array (v : json_value) : bool := match v with JSON_ARRAY _ _ _ _ => true | _ => false end.
Definition is_string (v : json_value) : bool := match v with JSON_STRING _ _ => true | _ => false end.
Definition is_integer (v : json_value) : bool := match v with JSON_INTEGER _ => true | _ => false end.
Definition is_real (v : json_value) : bool := match v with JSON_REAL _ => true | _ => false end.
Definition json_is_object := json_is is_object.
Definition json_is_array := json_is is_array.

(** The data of a value of a type already tested. *)
Definition json_to_object (p : Z) (h : jheap) : res (json_t * otable * Z) :=
  c ← cell p h; match jvalue c with JSON_OBJECT t visited => Ok (c, t, visited) | _ => UB end.

Record json_array_t := MkArray { asize : Z; entries : Z; tbl : block Z; avisited : Z }.
Definition array_value (a : json_array_t) : json_value := JSON_ARRAY (asize a) (entries a) (tbl a) (avisited a).

Definition json_to_array (p : Z) (h : jheap) : res (json_t * json_array_t) :=
  c ← cell p h; match jvalue c with JSON_ARRAY n e t v => Ok (c, MkArray n e t v) | _ => UB end.

(** ** Reference counts *)

Definition json_incref (p : Z) (h : jheap) : res jheap :=
  if p =? NULL then Ok h else
  c ← cell p h;
  if refcount c =? SIZE_MAX then Ok h else Ok (set_cell p (MkJson (u64 (refcount c + 1)) (jvalue c)) h).

(** Releasing a list of values, one after the other. *)
Definition each (f : Z -> jheap -> res jheap) (ps : list Z) (h : jheap) : res jheap :=
  fold_left (fun h p => h ← h; f p h) ps (Ok h).

(** [json_decref] with [json_delete], which calls it for what the value holds; the fuel bounds the nesting. *)
Fixpoint json_decref (fuel : nat) (p : Z) (h : jheap) : res jheap :=
  match fuel with
  | O => NoFuel
  | S fuel =>
      if p =? NULL then Ok h else
      c ← cell p h;
      if refcount c =? SIZE_MAX then Ok h else
      let n := u64 (refcount c - 1) in
      let h := set_cell p (MkJson n (jvalue c)) h in
      if n =? 0 then
        match jvalue c with
        | JSON_OBJECT t _ => vs ← ot_close t; h ← each (json_decref fuel) vs h; Ok (jsonp_free p h)
        | JSON_ARRAY _ e t _ => vs ← blk_load 0 (Z.to_nat e) t; h ← each (json_decref fuel) vs h; Ok (jsonp_free p h)
        | JSON_STRING _ _ | JSON_INTEGER _ | JSON_REAL _ => Ok (jsonp_free p h)
        | JSON_TRUE | JSON_FALSE | JSON_NULL => Ok h
        end
      else Ok h
  end.

(** Enough for any heap: no chain of values is longer than the heap has cells. *)
Definition heap_fuel (h : jheap) : nat := S (S (base.size (cells h))).
Definition decref (p : Z) (h : jheap) : res jheap := json_decref (heap_fuel h) p h.

Section alloc.
Context (alloc : Z -> Z -> bool).

(** A new cell of [n] bytes with count 1. *)
Definition new_cell (n : Z) (v : json_value) (h : jheap) : Z * jheap :=
  if alloc (next h) n then (next h, MkHeap (<[next h := MkJson 1 v]> (cells h)) (next h + 64)) else (NULL, h).

(** ** Objects *)

Definition json_object (h : jheap) : res (Z * jheap) :=
  if negb (alloc (next h) 80) then Ok (NULL, h) else
  t ← ot_init (alloc (next h));
  match t with
  | None => Ok (NULL, h)
  | Some t => Ok (next h, MkHeap (<[next h := MkJson 1 (JSON_OBJECT t 0)]> (cells h)) (next h + 64))
  end.

Definition json_object_size (json : Z) (h : jheap) : res Z :=
  b ← json_is_object json h;
  if negb b then Ok 0 else '(_, t, _) ← json_to_object json h; Ok (ot_size t).

Definition json_object_get (json : Z) (key : option (list Z)) (h : jheap) : res Z :=
  match key with
  | None => Ok NULL
  | Some key =>
      b ← json_is_object json h;
      if negb b then Ok NULL else
      '(_, t, _) ← json_to_object json h;
      v ← ot_get key t; Ok (default NULL v)
  end.

Definition json_object_set_new_nocheck (json : Z) (key : option (list Z)) (val : Z) (h : jheap) : res (Z * jheap) :=
  if val =? NULL then Ok (-1, h) else
  b ← json_is_object json h;
  match key with
  | Some key =>
      if negb b || (json =? val) then h ← decref val h; Ok (-1, h) else
      '(c, t, visited) ← json_to_object json h;
      '(r, t, old) ← ot_set (alloc (next h)) key val t;
      let h := set_jvalue json c (JSON_OBJECT t visited) h in
      h ← each decref old h;
      if r =? 0 then Ok (0, h) else h ← decref val h; Ok (-1, h)
  | None => h ← decref val h; Ok (-1, h)
  end.

Definition json_object_set_new (json : Z) (key : option (list Z)) (val : Z) (h : jheap) : res (Z * jheap) :=
  ok ← match key with None => Ok 0 | Some key => utf8_check_string key (Z.of_nat (length key)) end;
  if ok =? 0 then h ← decref val h; Ok (-1, h) else json_object_set_new_nocheck json key val h.

Definition json_object_set_nocheck (json : Z) (key : option (list Z)) (val : Z) (h : jheap) : res (Z * jheap) :=
  h ← json_incref val h; json_object_set_new_nocheck json key val h.

Definition json_object_set (json : Z) (key : option (list Z)) (val : Z) (h : jheap) : res (Z * jheap) :=
  h ← json_incref val h; json_object_set_new json key val h.

Definition json_object_del (json : Z) (key : option (list Z)) (h : jheap) : res (Z * jheap) :=
  match key with
  | None => Ok (-1, h)
  | Some key =>
      b ← json_is_object json h;
      if negb b then Ok (-1, h) else
      '(c, t, visited) ← json_to_object json h;
      '(r, t, old) ← ot_del key t;
      let h := set_jvalue json c (JSON_OBJECT t visited) h in
      h ← each decref old h; Ok (r, h)
  end.

Definition json_object_clear (json : Z) (h : jheap) : res (Z * jheap) :=
  b ← json_is_object json h;
  if negb b then Ok (-1, h) else
  '(c, t, visited) ← json_to_object json h;
  '(t, old) ← ot_clear t;
  let h := set_jvalue json c (JSON_OBJECT t visited) h in
  h ← each decref old h; Ok (0, h).

(** Iterators; the address of a member's key stands for its iterator, as [json_object_key_to_iter] computes it. *)
Definition json_object_iter (json : Z) (h : jheap) : res (option Z) :=
  b ← json_is_object json h;
  if negb b then Ok None else '(_, t, _) ← json_to_object json h; ot_iter t.

Definition json_object_iter_at (json : Z) (key : option (list Z)) (h : jheap) : res (option Z) :=
  match key with
  | None => Ok None
  | Some key => b ← json_is_object json h; if negb b then Ok None else '(_, t, _) ← json_to_object json h; ot_iter_at key t
  end.

Definition json_object_iter_next (json : Z) (iter : option Z) (h : jheap) : res (option Z) :=
  b ← json_is_object json h;
  match iter with
  | Some iter => if negb b then Ok None else '(_, t, _) ← json_to_object json h; ot_iter_next iter t
  | None => Ok None
  end.

Definition json_object_iter_key (json : Z) (iter : option Z) (h : jheap) : res (option (list Z)) :=
  match iter with
  | None => Ok None
  | Some iter => '(_, t, _) ← json_to_object json h; k ← ot_iter_key iter t; Ok (Some k)
  end.

Definition json_object_iter_value (json : Z) (iter : option Z) (h : jheap) : res Z :=
  match iter with
  | None => Ok NULL
  | Some iter => '(_, t, _) ← json_to_object json h; ot_iter_value iter t
  end.

Definition json_object_iter_set_new (json : Z) (iter : option Z) (val : Z) (h : jheap) : res (Z * jheap) :=
  b ← json_is_object json h;
  match iter with
  | Some iter =>
      if negb b || (val =? NULL) then Ok (-1, h) else
      '(c, t, visited) ← json_to_object json h;
      '(t, old) ← ot_iter_set iter val t;
      let h := set_jvalue json c (JSON_OBJECT t visited) h in
      h ← each decref old h; Ok (0, h)
  | None => Ok (-1, h)
  end.

(** [json_object_foreach(object, key, value) body]; the body tells whether to go on. *)
Fixpoint foreach {A} (fuel : nat) (object : Z) (iter : option Z)
    (body : list Z -> Z -> A -> jheap -> res (bool * A * jheap)) (a : A) (h : jheap) : res (A * jheap) :=
  match fuel with
  | O => NoFuel
  | S fuel =>
      key ← json_object_iter_key object iter h;
      match key with
      | None => Ok (a, h)
      | Some key =>
          val ← json_object_iter_value object iter h;
          if val =? NULL then Ok (a, h) else
          '(go, a, h) ← body key val a h;
          if (go : bool) then iter ← json_object_iter_next object iter h; foreach fuel object iter body a h else Ok (a, h)
      end
  end.

Definition json_object_foreach {A} (object : Z) (body : list Z -> Z -> A -> jheap -> res (bool * A * jheap))
    (a : A) (h : jheap) : res (A * jheap) :=
  iter ← json_object_iter object h; n ← json_object_size object h; foreach (S (Z.to_nat n)) object iter body a h.

Definition json_object_update (object other : Z) (h : jheap) : res (Z * jheap) :=
  b1 ← json_is_object object h; b2 ← json_is_object other h;
  if negb b1 || negb b2 then Ok (-1, h) else
  json_object_foreach other (fun key val _ h =>
    '(r, h) ← json_object_set_nocheck object (Some key) val h;
    if r =? 0 then Ok (true, 0, h) else Ok (false, -1, h)) 0 h.

Definition json_object_update_existing (object other : Z) (h : jheap) : res (Z * jheap) :=
  b1 ← json_is_object object h; b2 ← json_is_object other h;
  if negb b1 || negb b2 then Ok (-1, h) else
  json_object_foreach other (fun key val _ h =>
    old ← json_object_get object (Some key) h;
    if negb (old =? NULL) then '(_, h) ← json_object_set_nocheck object (Some key) val h; Ok (true, 0, h)
    else Ok (true, 0, h)) 0 h.

Definition json_object_update_missing (object other : Z) (h : jheap) : res (Z * jheap) :=
  b1 ← json_is_object object h; b2 ← json_is_object other h;
  if negb b1 || negb b2 then Ok (-1, h) else
  json_object_foreach other (fun key val _ h =>
    old ← json_object_get object (Some key) h;
    if old =? NULL then '(_, h) ← json_object_set_nocheck object (Some key) val h; Ok (true, 0, h)
    else Ok (true, 0, h)) 0 h.

(** ** Arrays *)

Definition json_array (h : jheap) : res (Z * jheap) :=
  if negb (alloc (next h) 48) then Ok (NULL, h) else
  if negb (alloc (next h) (8 * 8)) then Ok (NULL, h) else
  Ok (next h, MkHeap (<[next h := MkJson 1 (JSON_ARRAY 8 0 (blk_malloc 8) 0)]> (cells h)) (next h + 64)).

Definition json_array_size (json : Z) (h : jheap) : res Z :=
  b ← json_is_array json h; if negb b then Ok 0 else '(_, a) ← json_to_array json h; Ok (entries a).

(** One pointer of a table. *)
Definition table_at (t : block Z) (i : Z) : res Z := x ← rd t (Z.to_nat i); of_option x.

Definition json_array_get (json index : Z) (h : jheap) : res Z :=
  b ← json_is_array json h;
  if negb b then Ok NULL else
  '(_, a) ← json_to_array json h;
  if index >=? entries a then Ok NULL else table_at (tbl a) index.

Definition json_array_set_new (json index val : Z) (h : jheap) : res (Z * jheap) :=
  if val =? NULL then Ok (-1, h) else
  b ← json_is_array json h;
  if negb b || (json =? val) then h ← decref val h; Ok (-1, h) else
  '(_, a) ← json_to_array json h;
  if index >=? entries a then h ← decref val h; Ok (-1, h) else
  old ← table_at (tbl a) index;
  h ← decref old h;
  '(c, a) ← json_to_array json h;
  t ← blk_store (Z.to_nat index) [Some val] (tbl a);
  Ok (0, set_jvalue json c (array_value (MkArray (asize a) (entries a) t (avisited a))) h).

(** [array_move] inside a table and [array_copy] between two. *)
Definition array_move (dest src count : Z) (t : block Z) : res (block Z) :=
  l ← blk_copy (Z.to_nat src) (Z.to_nat count) t; blk_store (Z.to_nat dest) l t.
Definition array_copy (dest : block Z) (dpos : Z) (src : block Z) (spos count : Z) : res (block Z) :=
  l ← blk_copy (Z.to_nat spos) (Z.to_nat count) src; blk_store (Z.to_nat dpos) l dest.

(** [None]: no memory.  Otherwise the array, and the old table when a new one was made and is not filled. *)
Definition json_array_grow (t0 : Z) (a : json_array_t) (amount : Z) (copy : bool) : res (option (json_array_t * option (block Z))) :=
  if u64 (entries a + amount) <=? asize a then Ok (Some (a, None)) else
  let new_size := Z.max (u64 (asize a + amount)) (u64 (asize a * 2)) in
  match jsonp_malloc (alloc t0) (u64 (new_size * 8)) with
  | None => Ok None
  | Some bytes =>
      let new_table := blk_malloc (length bytes / 8) in
      if copy then
        t ← array_copy new_table 0 (tbl a) 0 (entries a);
        Ok (Some (MkArray new_size (entries a) t (avisited a), None))
      else Ok (Some (MkArray new_size (entries a) new_table (avisited a), Some (tbl a)))
  end.

Definition json_array_append_new (json val : Z) (h : jheap) : res (Z * jheap) :=
  if val =? NULL then Ok (-1, h) else
  b ← json_is_array json h;
  if negb b || (json =? val) then h ← decref val h; Ok (-1, h) else
  '(c, a) ← json_to_array json h;
  g ← json_array_grow (next h) a 1 true;
  match g with
  | None => h ← decref val h; Ok (-1, h)
  | Some (a, _) =>
      t ← blk_store (Z.to_nat (entries a)) [Some val] (tbl a);
      Ok (0, set_jvalue json c (array_value (MkArray (asize a) (u64 (entries a + 1)) t (avisited a))) h)
  end.

Definition json_array_append (json val : Z) (h : jheap) : res (Z * jheap) :=
  h ← json_incref val h; json_array_append_new json val h.

Definition json_array_insert_new (json index val : Z) (h : jheap) : res (Z * jheap) :=
  if val =? NULL then Ok (-1, h) else
  b ← json_is_array json h;
  if negb b || (json =? val) then h ← decref val h; Ok (-1, h) else
  '(c, a) ← json_to_array json h;
  if index >? entries a then h ← decref val h; Ok (-1, h) else
  g ← json_array_grow (next h) a 1 false;
  match g with
  | None => h ← decref val h; Ok (-1, h)
  | Some (a, old) =>
      t ← match old with
          | Some old_table =>
              t ← array_copy (tbl a) 0 old_table 0 index;
              array_copy t (index + 1) old_table index (u64 (entries a - index))
          | None => array_move (index + 1) index (u64 (entries a - index)) (tbl a)
          end;
      t ← blk_store (Z.to_nat index) [Some val] t;
      Ok (0, set_jvalue json c (array_value (MkArray (asize a) (u64 (entries a + 1)) t (avisited a))) h)
  end.

Definition json_array_remove (json index : Z) (h : jheap) : res (Z * jheap) :=
  b ← json_is_array json h;
  if negb b then Ok (-1, h) else
  '(_, a) ← json_to_array json h;
  if index >=? entries a then Ok (-1, h) else
  old ← table_at (tbl a) index;
  h ← decref old h;
  '(c, a) ← json_to_array json h;
  t ← (if index <? u64 (entries a - 1) then array_move index (index + 1) (u64 (entries a - index - 1)) (tbl a) else Ok (tbl a));
  Ok (0, set_jvalue json c (array_value (MkArray (asize a) (u64 (entries a - 1)) t (avisited a))) h).

Definition json_array_clear (json : Z) (h : jheap) : res (Z * jheap) :=
  b ← json_is_array json h;
  if negb b then Ok (-1, h) else
  '(_, a) ← json_to_array json h;
  vs ← blk_load 0 (Z.to_nat (entries a)) (tbl a);
  h ← each decref vs h;
  '(c, a) ← json_to_array json h;
  Ok (0, set_jvalue json c (array_value (MkArray (asize a) 0 (tbl a) (avisited a))) h).

Definition json_array_extend (json other_json : Z) (h : jheap) : res (Z * jheap) :=
  b1 ← json_is_array json h; b2 ← json_is_array other_json h;
  if negb b1 || negb b2 then Ok (-1, h) else
  '(c, a) ← json_to_array json h; '(_, other) ← json_to_array other_json h;
  g ← json_array_grow (next h) a (entries other) true;
  match g with
  | None => Ok (-1, h)
  | Some (a, _) =>
      let h := set_jvalue json c (array_value a) h in
      '(_, other) ← json_to_array other_json h;
      vs ← blk_load 0 (Z.to_nat (entries other)) (tbl other);
      h ← each json_incref vs h;
      t ← array_copy (tbl a) (entries a) (tbl other) 0 (entries other);
      c ← cell json h;
      Ok (0, set_jvalue json c (array_value (MkArray (asize a) (u64 (entries a + entries other)) t (avisited a))) h)
  end.

(** ** Strings *)

(** [string_create]: [value] is the block of an owned text or the memory the bytes are copied from. *)
Definition string_create (value : option (block Z + list Z)) (len : Z) (h : jheap) : res (Z * jheap) :=
  match value with
  | None => Ok (NULL, h)
  | Some value =>
      v ← match value with inl own => Ok (Some own) | inr bytes => jsonp_strndup (alloc (next h)) bytes (Z.to_nat len) end;
      match v with
      | None => Ok (NULL, h)
      | Some v => Ok (new_cell 32 (JSON_STRING v len) h)
      end
  end.

Definition c_len (bytes : list Z) : Z := Z.of_nat (length bytes).

(** A [char *] argument is the bytes before its zero byte; [json_stringn] takes [len] bytes from memory. *)
Definition json_string_nocheck (value : option (list Z)) (h : jheap) : res (Z * jheap) :=
  match value with None => Ok (NULL, h) | Some v => string_create (Some (inr v)) (c_len v) h end.

Definition json_stringn_nocheck (value : option (list Z)) (len : Z) (h : jheap) : res (Z * jheap) :=
  string_create (option_map inr value) len h.

Definition jsonp_stringn_nocheck_own (value : option (block Z)) (len : Z) (h : jheap) : res (Z * jheap) :=
  string_create (option_map inl value) len h.

Definition json_stringn (value : option (list Z)) (len : Z) (h : jheap) : res (Z * jheap) :=
  match value with
  | None => Ok (NULL, h)
  | Some v => ok ← utf8_check_string v len; if ok =? 0 then Ok (NULL, h) else json_stringn_nocheck (Some v) len h
  end.

Definition json_string (value : option (list Z)) (h : jheap) : res (Z * jheap) :=
  match value with None => Ok (NULL, h) | Some v => json_stringn (Some v) (c_len v) h end.

Definition json_string_value (json : Z) (h : jheap) : res (option (block Z)) :=
  if json =? NULL then Ok None else
  c ← cell json h; match jvalue c with JSON_STRING v _ => Ok (Some v) | _ => Ok None end.

Definition json_string_length (json : Z) (h : jheap) : res Z :=
  if json =? NULL then Ok 0 else
  c ← cell json h; match jvalue c with JSON_STRING _ len => Ok len | _ => Ok 0 end.

Definition json_string_setn_nocheck (json : Z) (value : option (list Z)) (len : Z) (h : jheap) : res (Z * jheap) :=
  b ← json_is is_string json h;
  match value with
  | Some v =>
      if negb b then Ok (-1, h) else
      dup ← jsonp_strndup (alloc (next h)) v (Z.to_nat len);
      match dup with
      | None => Ok (-1, h)
      | Some dup => c ← cell json h; Ok (0, set_jvalue json c (JSON_STRING dup len) h)
      end
  | None => Ok (-1, h)
  end.

Definition json_string_set_nocheck (json : Z) (value : option (list Z)) (h : jheap) : res (Z * jheap) :=
  match value with None => Ok (-1, h) | Some v => json_string_setn_nocheck json (Some v) (c_len v) h end.

Definition json_string_setn (json : Z) (value : option (list Z)) (len : Z) (h : jheap) : res (Z * jheap) :=
  match value with
  | None => Ok (-1, h)
  | Some v => ok ← utf8_check_string v len; if ok =? 0 then Ok (-1, h) else json_string_setn_nocheck json (Some v) len h
  end.

Definition json_string_set (json : Z) (value : option (list Z)) (h : jheap) : res (Z * jheap) :=
  match value with None => Ok (-1, h) | Some v => json_string_setn json (Some v) (c_len v) h end.

(** ** Numbers and constants *)

Definition json_integer (value : Z) (h : jheap) : Z * jheap := new_cell 24 (JSON_INTEGER value) h.

Definition json_integer_value (json : Z) (h : jheap) : res Z :=
  if json =? NULL then Ok 0 else c ← cell json h; match jvalue c with JSON_INTEGER n => Ok n | _ => Ok 0 end.

Definition json_integer_set (json value : Z) (h : jheap) : res (Z * jheap) :=
  b ← json_is is_integer json h;
  if negb b then Ok (-1, h) else c ← cell json h; Ok (0, set_jvalue json c (JSON_INTEGER value) h).

Definition json_real (value : spec_float) (h : jheap) : Z * jheap :=
  if isnan value || isinf value then (NULL, h) else new_cell 24 (JSON_REAL value) h.

Definition json_real_value (json : Z) (h : jheap) : res spec_float :=
  if json =? NULL then Ok (S754_zero false) else
  c ← cell json h; match jvalue c with JSON_REAL x => Ok x | _ => Ok (S754_zero false) end.

Definition json_real_set (json : Z) (value : spec_float) (h : jheap) : res (Z * jheap) :=
  b ← json_is is_real json h;
  if negb b || isnan value || isinf value then Ok (-1, h) else c ← cell json h; Ok (0, set_jvalue json c (JSON_REAL value) h).

Definition json_number_value (json : Z) (h : jheap) : res spec_float :=
  b ← json_is is_integer json h;
  if (b : bool) then n ← json_integer_value json h; Ok (binary_normalize prec emax n 0 false) else
  r ← json_is is_real json h;
  if (r : bool) then json_real_value json h else Ok (S754_zero false).

(** The static values. *)
Definition THE_TRUE : Z := 8.
Definition THE_FALSE : Z := 24.
Definition THE_NULL : Z := 40.
Definition statics : gmap Z json_t :=
  {[ THE_TRUE := MkJson SIZE_MAX JSON_TRUE; THE_FALSE := MkJson SIZE_MAX JSON_FALSE; THE_NULL := MkJson SIZE_MAX JSON_NULL ]}.

Definition json_true : Z := THE_TRUE.
Definition json_false : Z := THE_FALSE.
Definition json_null : Z := THE_NULL.

(** The heap before any value is made. *)
Definition empty_heap : jheap := MkHeap statics 64.

(** ** Equality *)

Definition json_array_equal (equal : Z -> Z -> jheap -> res Z) (array1 array2 : Z) (h : jheap) : res Z :=
  size ← json_array_size array1 h;
  size2 ← json_array_size array2 h;
  if negb (size =? size2) then Ok 0 else
  (fix go (n : nat) (i : Z) := match n with
    | O => Ok 1
    | S n =>
        value1 ← json_array_get array1 i h;
        value2 ← json_array_get array2 i h;
        e ← equal value1 value2 h;
        if e =? 0 then Ok 0 else go n (i + 1)
    end) (Z.to_nat size) 0.

Definition json_object_equal (equal : Z -> Z -> jheap -> res Z) (object1 object2 : Z) (h : jheap) : res Z :=
  size ← json_object_size object1 h;
  size2 ← json_object_size object2 h;
  if negb (size =? size2) then Ok 0 else
  '(r, _) ← json_object_foreach object1 (fun key value1 _ h =>
    value2 ← json_object_get object2 (Some key) h;
    e ← equal value1 value2 h;
    if e =? 0 then Ok (false, 0, h) else Ok (true, 1, h)) 1 h;
  Ok r.

Definition SF_eqb (x y : spec_float) : bool := SFeqb x y.

Fixpoint json_equal (fuel : nat) (json1 json2 : Z) (h : jheap) : res Z :=
  match fuel with
  | O => NoFuel
  | S fuel =>
      if (json1 =? NULL) || (json2 =? NULL) then Ok 0 else
      c1 ← cell json1 h; c2 ← cell json2 h;
      match jvalue c1, jvalue c2 with
      | JSON_OBJECT _ _, JSON_OBJECT _ _ => if json1 =? json2 then Ok 1 else json_object_equal (json_equal fuel) json1 json2 h
      | JSON_ARRAY _ _ _ _, JSON_ARRAY _ _ _ _ => if json1 =? json2 then Ok 1 else json_array_equal (json_equal fuel) json1 json2 h
      | JSON_STRING v1 n1, JSON_STRING v2 n2 =>
          if json1 =? json2 then Ok 1 else
          if negb (n1 =? n2) then Ok 0 else
          s1 ← blk_load 0 (Z.to_nat n1) v1; s2 ← blk_load 0 (Z.to_nat n1) v2; Ok (if decide (s1 = s2) then 1 else 0)
      | JSON_INTEGER n1, JSON_INTEGER n2 => if json1 =? json2 then Ok 1 else Ok (if n1 =? n2 then 1 else 0)
      | JSON_REAL x1, JSON_REAL x2 => if json1 =? json2 then Ok 1 else Ok (if SF_eqb x1 x2 then 1 else 0)
      | JSON_TRUE, JSON_TRUE | JSON_FALSE, JSON_FALSE | JSON_NULL, JSON_NULL => Ok (if json1 =? json2 then 1 else 0)
      | _, _ => Ok 0
      end
  end.

(** ** Copying *)

Definition json_string_copy (json : Z) (h : jheap) : res (Z * jheap) :=
  c ← cell json h;
  match jvalue c with
  | JSON_STRING v len => bytes ← blk_load 0 (Z.to_nat len) v; json_stringn_nocheck (Some bytes) len h
  | _ => Ok (NULL, h)
  end.

(** The elements of an array, one after the other. *)
Fixpoint array_loop (fuel : nat) (json i : Z) (body : Z -> jheap -> res jheap) (h : jheap) : res jheap :=
  match fuel with
  | O => NoFuel
  | S fuel =>
      n ← json_array_size json h;
      if i >=? n then Ok h else
      v ← json_array_get json i h; h ← body v h; array_loop fuel json (i + 1) body h
  end.

Definition array_fuel (json : Z) (h : jheap) : res nat := n ← json_array_size json h; Ok (S (Z.to_nat n)).

Definition json_object_copy (object : Z) (h : jheap) : res (Z * jheap) :=
  '(result, h) ← json_object h;
  if result =? NULL then Ok (NULL, h) else
  '(_, h) ← json_object_foreach object (fun key val _ h =>
    '(_, h) ← json_object_set_nocheck result (Some key) val h; Ok (true, 0, h)) 0 h;
  Ok (result, h).

Definition json_array_copy (array : Z) (h : jheap) : res (Z * jheap) :=
  '(result, h) ← json_array h;
  if result =? NULL then Ok (NULL, h) else
  fuel ← array_fuel array h;
  h ← array_loop fuel array 0 (fun v h => '(_, h) ← json_array_append result v h; Ok h) h;
  Ok (result, h).

Definition json_copy (json : Z) (h : jheap) : res (Z * jheap) :=
  if json =? NULL then Ok (NULL, h) else
  c ← cell json h;
  match jvalue c with
  | JSON_OBJECT _ _ => json_object_copy json h
  | JSON_ARRAY _ _ _ _ => json_array_copy json h
  | JSON_STRING _ _ => json_string_copy json h
  | JSON_INTEGER n => Ok (json_integer n h)
  | JSON_REAL x => Ok (json_real x h)
  | JSON_TRUE | JSON_FALSE | JSON_NULL => Ok (json, h)
  end.

Definition json_object_deep_copy (deep : Z -> jheap -> res (Z * jheap)) (object : Z) (h : jheap) : res (Z * jheap) :=
  '(result, h) ← json_object h;
  if result =? NULL then Ok (NULL, h) else
  n ← json_object_size object h;
  iter ← json_object_iter object h;
  h ← (fix go (fuel : nat) (iter : option Z) (h : jheap) : res jheap :=
    match fuel with
    | O => NoFuel
    | S fuel =>
        match iter with
        | None => Ok h
        | Some i =>
            key ← json_object_iter_key object iter h;
            val ← json_object_iter_value object iter h;
            '(copy, h) ← deep val h;
            '(_, h) ← json_object_set_new_nocheck result key copy h;
            iter ← json_object_iter_next object iter h;
            go fuel iter h
        end
    end) (S (Z.to_nat n)) iter h;
  Ok (result, h).

Definition json_array_deep_copy (deep : Z -> jheap -> res (Z * jheap)) (array : Z) (h : jheap) : res (Z * jheap) :=
  '(result, h) ← json_array h;
  if result =? NULL then Ok (NULL, h) else
  fuel ← array_fuel array h;
  h ← array_loop fuel array 0 (fun v h =>
    '(copy, h) ← deep v h; '(_, h) ← json_array_append_new result copy h; Ok h) h;
  Ok (result, h).

Fixpoint json_deep_copy (fuel : nat) (json : Z) (h : jheap) : res (Z * jheap) :=
  match fuel with
  | O => NoFuel
  | S fuel =>
      if json =? NULL then Ok (NULL, h) else
      c ← cell json h;
      match jvalue c with
      | JSON_OBJECT _ _ => json_object_deep_copy (json_deep_copy fuel) json h
      | JSON_ARRAY _ _ _ _ => json_array_deep_copy (json_deep_copy fuel) json h
      | JSON_STRING _ _ => json_string_copy json h
      | JSON_INTEGER n => Ok (json_integer n h)
      | JSON_REAL x => Ok (json_real x h)
      | JSON_TRUE | JSON_FALSE | JSON_NULL => Ok (json, h)
      end
  end.
End alloc.
End json.
