(* ===== verification/JsonTree.v ===== *)
(** * What a JSON value is

    The values of [Json] as trees, and who owns what: [own p t m] says that the cells [m], and no others, make up the
    tree [t] at the address [p], each with the count 1.  The constants own nothing.  The laws of reference counting
    follow: releasing the root of a tree frees exactly its cells, and the operations that build a value move what they
    are given into it or free it. *)

From Stdlib Require Import SpecFloat.
From S2P Require Import Prelude Strbuf ObjectTable Json.

Inductive json :=
| TObject (ms : list (list Z * json))
| TArray (ts : list json)
| TString (s : list Z)
| TInteger (n : Z)
| TReal (x : spec_float)
| TTrue
| TFalse
| TNull.

(** Induction that reaches the trees inside. *)
Section induction.
Context (P : json -> Prop).
Context (HO : forall ms, Forall (fun m => P m.2) ms -> P (TObject ms)) (HA : forall ts, Forall P ts -> P (TArray ts))
  (HS : forall s, P (TString s)) (HI : forall n, P (TInteger n)) (HR : forall x, P (TReal x))
  (HT : P TTrue) (HF : P TFalse) (HN : P TNull).

Fixpoint json_tree_ind (t : json) : P t :=
  match t with
  | TObject ms => HO ms ((fix go ms : Forall (fun m : list Z * json => P m.2) ms :=
      match ms with [] => Forall_nil_2 _ | m :: ms => Forall_cons_2 _ m ms (json_tree_ind m.2) (go ms) end) ms)
  | TArray ts => HA ts ((fix go ts : Forall P ts :=
      match ts with [] => Forall_nil_2 _ | t :: ts => Forall_cons_2 _ t ts (json_tree_ind t) (go ts) end) ts)
  | TString s => HS s
  | TInteger n => HI n
  | TReal x => HR x
  | TTrue => HT
  | TFalse => HF
  | TNull => HN
  end.
End induction.

(** How deep a tree is. *)
Fixpoint depth (t : json) : nat :=
  match t with
  | TObject ms => S (list_max ((fun m => depth m.2) <$> ms))
  | TArray ts => S (list_max (depth <$> ts))
  | _ => 1
  end.

Section own.
Context {OT : ObjectTable} {OS : ObjectTableSpec OT}.

Inductive own : Z -> json -> gmap Z json_t -> Prop :=
| own_true : own THE_TRUE TTrue ∅
| own_false : own THE_FALSE TFalse ∅
| own_null : own THE_NULL TNull ∅
| own_string p s v : p <> NULL -> blk_holds (s ++ [0]) v -> own p (TString s) {[p := MkJson 1 (JSON_STRING v (Z.of_nat (length s)))]}
| own_integer p n : p <> NULL -> own p (TInteger n) {[p := MkJson 1 (JSON_INTEGER n)]}
| own_real p x : p <> NULL -> isnan x || isinf x = false -> own p (TReal x) {[p := MkJson 1 (JSON_REAL x)]}
| own_array p n t ps ts m :
    p <> NULL -> blk_holds ps t -> n = Z.of_nat (length t) -> 8 <= n < 2 ^ 60 -> owns ps ts m -> m !! p = None ->
    own p (TArray ts) (<[p := MkJson 1 (JSON_ARRAY n (Z.of_nat (length ps)) t 0)]> m)
| own_object p tb ks ps ts m :
    p <> NULL -> members tb (zip ks ps) -> length ks = length ps -> owns ps ts m -> m !! p = None ->
    own p (TObject (zip ks ts)) (<[p := MkJson 1 (JSON_OBJECT tb 0)]> m)
with owns : list Z -> list json -> gmap Z json_t -> Prop :=
| owns_nil : owns [] [] ∅
| owns_cons p ps t ts m1 m2 : own p t m1 -> owns ps ts m2 -> m1 ##ₘ m2 -> owns (p :: ps) (t :: ts) (m1 ∪ m2).

Scheme own_mind := Minimality for own Sort Prop
  with owns_mind := Minimality for owns Sort Prop.
Combined Scheme own_owns_ind from own_mind, owns_mind.

Lemma owns_length ps ts m : owns ps ts m -> length ps = length ts.
Proof. induction 1; cbn; congruence. Qed.

Lemma own_nonnull p t m : own p t m -> p <> NULL.
Proof. destruct 1; done. Qed.

Lemma owns_nonnull ps ts m p : owns ps ts m -> p ∈ ps -> p <> NULL.
Proof. induction 1 as [| q ps t ts m1 m2 Ho Hos IH]; intros Hp; [inversion Hp |]. apply elem_of_cons in Hp as [-> | Hp]; [by eapply own_nonnull | auto]. Qed.

(** The cell of the root. *)
Lemma own_root p t m : own p t m ->
  (m = ∅ /\ exists v, statics !! p = Some (MkJson SIZE_MAX v) /\ (t, v) ∈ [(TTrue, JSON_TRUE); (TFalse, JSON_FALSE); (TNull, JSON_NULL)]) \/
  (exists v, m !! p = Some (MkJson 1 v)).
Proof.
  destruct 1; try (right; eexists; rewrite ?lookup_singleton_eq, ?lookup_insert_eq; done).
  all: left; split; [done |]; eexists; split; [vm_compute; reflexivity | set_solver].
Qed.

(** *** Sequences of trees *)

Lemma owns_app ps1 ts1 m1 ps2 ts2 m2 : owns ps1 ts1 m1 -> owns ps2 ts2 m2 -> m1 ##ₘ m2 -> owns (ps1 ++ ps2) (ts1 ++ ts2) (m1 ∪ m2).
Proof.
  induction 1 as [| p ps t ts ma mb Ho Hos IH Hd]; intros H2 Hdd; [by rewrite (left_id_L ∅ (∪)) |].
  apply map_disjoint_union_l in Hdd as [D1 D2]. cbn [app]. rewrite <- (assoc_L (∪)). constructor; [done | by apply IH |].
  by apply map_disjoint_union_r.
Qed.

Lemma owns_app_inv ps1 ps2 ts m : owns (ps1 ++ ps2) ts m ->
  exists ts1 ts2 m1 m2, ts = ts1 ++ ts2 /\ m = m1 ∪ m2 /\ owns ps1 ts1 m1 /\ owns ps2 ts2 m2 /\ m1 ##ₘ m2.
Proof.
  revert ts m; induction ps1 as [| p ps1 IH]; intros ts m H.
  - exists [], ts, ∅, m. rewrite (left_id_L ∅ (∪)). split_and!; [done | done | constructor | done | apply map_disjoint_empty_l].
  - cbn [app] in H. inversion H as [| ? ? t ts' ma mb Ho Hos Hd]; subst.
    destruct (IH _ _ Hos) as (ts1 & ts2 & m1 & m2 & -> & -> & H1 & H2 & D). apply map_disjoint_union_r in Hd as [D1 D2].
    exists (t :: ts1), ts2, (ma ∪ m1), m2. split_and!; [done | by rewrite (assoc_L (∪)) | by constructor | done |].
    by apply map_disjoint_union_l.
Qed.

Lemma owns_perm ps ps' : ps ≡ₚ ps' -> forall ts m, owns ps ts m -> exists ts', owns ps' ts' m /\ ts ≡ₚ ts'.
Proof.
  induction 1 as [| p ps ps' Hp IH | p q ps | ps1 ps2 ps3 H1 IH1 H2 IH2]; intros ts m H.
  - exists ts. done.
  - inversion H as [| ? ? t ts' m1 m2 Ho Hos Hd]; subst. destruct (IH _ _ Hos) as (ts2 & H2 & Pt). exists (t :: ts2).
    split; [by constructor | by constructor].
  - inversion H as [| ? ? t ts' m1 m2 Ho Hos Hd]; subst. inversion Hos as [| ? ? t2 ts2 m3 m4 Ho2 Hos2 Hd2]; subst.
    apply map_disjoint_union_r in Hd as [D1 D2]. exists (t2 :: t :: ts2). split; [| apply perm_swap].
    rewrite (assoc_L (∪)), (map_union_comm m1 m3), <- (assoc_L (∪)) by done.
    constructor; [done | by constructor |]. apply map_disjoint_union_r. done.
  - destruct (IH1 _ _ H) as (ts2 & H' & P1). destruct (IH2 _ _ H') as (ts3 & H'' & P2). exists ts3. split; [done | by etrans].
Qed.

(** *** Releasing a tree *)

Lemma depth_list (ts : list json) n : (list_max (depth <$> ts) <= n)%nat <-> Forall (fun t => depth t <= n)%nat ts.
Proof. rewrite List.list_max_le. by rewrite Forall_fmap. Qed.

Lemma depth_members (ks : list (list Z)) ts : length ks = length ts -> (fun m : list Z * json => depth m.2) <$> zip ks ts = depth <$> ts.
Proof. intros H. rewrite <- (snd_zip ks ts) at 2 by lia. by rewrite <- list_fmap_compose. Qed.

(** Every level of a tree has a cell of its own, but for a constant at the bottom. *)
Lemma own_depth :
  (forall p t m, own p t m -> depth t <= S (base.size m))%nat /\
  (forall ps ts m, owns ps ts m -> list_max (depth <$> ts) <= S (base.size m))%nat.
Proof.
  apply own_owns_ind; intros; cbn [depth fmap list_fmap list_max]; try (rewrite ?map_size_singleton; lia).
  - rewrite map_size_insert_None by done. lia.
  - rewrite depth_members by (erewrite <- owns_length by done; done). rewrite map_size_insert_None by done. lia.
  - cbn. lia.
  - rewrite map_size_disj_union by done. cbn [list_max] in *. unfold list_max in *. cbn [fold_right] in *. lia.
Qed.

Definition statics_in (h : gmap Z json_t) : Prop := statics ⊆ h.

Lemma each_app f ps qs h : each f (ps ++ qs) h = (h ← each f ps h; each f qs h).
Proof.
  unfold each. rewrite fold_left_app. destruct (fold_left _ ps (Ok h)) as [h' | |]; [done | |]; cbn [mbind res_bind].
  all: induction qs as [| q qs IH]; [done |]; exact IH.
Qed.

Lemma each_cons f p ps h : each f (p :: ps) h = (h ← f p h; each f ps h).
Proof. apply (each_app f [p] ps). Qed.

Lemma insert_union p (c : json_t) (m h : gmap Z json_t) : <[p := c]> m ∪ h = <[p := c]> (m ∪ h).
Proof. by rewrite insert_union_l. Qed.

(** The root's cell, in a heap that has the tree. *)
Lemma lookup_root p (c : json_t) (m h : gmap Z json_t) : (<[p := c]> m ∪ h) !! p = Some c.
Proof. rewrite insert_union. apply lookup_insert_eq. Qed.

Lemma static_lookup h p v : statics_in h -> statics !! p = Some v -> h !! p = Some v.
Proof. intros Hs Hp. exact (lookup_weaken _ _ _ _ Hp Hs). Qed.

(** Values that [f] can release, with the cells it frees for each; in any order. *)
Inductive releases (f : Z -> jheap -> res jheap) : list Z -> gmap Z json_t -> Prop :=
| releases_nil : releases f [] ∅
| releases_cons p ps m1 m2 :
    (forall h n, m1 ##ₘ h -> statics_in h -> f p (MkHeap (m1 ∪ h) n) = Ok (MkHeap h n)) ->
    releases f ps m2 -> m1 ##ₘ m2 -> releases f (p :: ps) (m1 ∪ m2).

Lemma releases_perm f ps ps' : ps ≡ₚ ps' -> forall m, releases f ps m -> releases f ps' m.
Proof.
  induction 1 as [| p ps ps' Hp IH | p q ps | ps1 ps2 ps3 H1 IH1 H2 IH2]; intros m H; [done | | |].
  - inversion H as [| ? ? m1 m2 Ho Hos Hd]; subst. constructor; auto.
  - inversion H as [| ? ? m1 m2 Ho Hos Hd]; subst. inversion Hos as [| ? ? m3 m4 Ho2 Hos2 Hd2]; subst.
    apply map_disjoint_union_r in Hd as [D1 D2].
    rewrite (assoc_L (∪)), (map_union_comm m1 m3), <- (assoc_L (∪)) by done.
    constructor; [done | by constructor |]. apply map_disjoint_union_r. done.
  - auto.
Qed.

Lemma statics_in_union m h : m ##ₘ h -> statics_in h -> statics_in (m ∪ h).
Proof. intros Hd Hs. unfold statics_in. etrans; [done |]. by apply map_union_subseteq_r. Qed.

Lemma statics_in_insert p c h : h !! p = None -> statics_in h -> statics_in (<[p := c]> h).
Proof. intros Hp Hs. unfold statics_in. etrans; [done |]. by apply insert_subseteq. Qed.

Lemma releases_each f ps m : releases f ps m -> forall h n, m ##ₘ h -> statics_in h -> each f ps (MkHeap (m ∪ h) n) = Ok (MkHeap h n).
Proof.
  induction 1 as [| p ps m1 m2 Hp Hps IH Hd]; intros h n Hdh Hs; [by rewrite (left_id_L ∅ (∪)) |].
  rewrite each_cons. apply map_disjoint_union_l in Hdh as [D1 D2]. rewrite <- (assoc_L (∪)), Hp; [by apply IH | by apply map_disjoint_union_r |].
  by apply statics_in_union.
Qed.

Lemma decref_own :
  (forall p t m, own p t m -> forall h n fuel, m ##ₘ h -> statics_in h -> (depth t <= fuel)%nat ->
     json_decref fuel p (MkHeap (m ∪ h) n) = Ok (MkHeap h n)) /\
  (forall ps ts m, owns ps ts m -> forall fuel, (list_max (depth <$> ts) <= fuel)%nat -> releases (json_decref fuel) ps m).
Proof.
  assert (Hst : forall p v h n fuel, statics !! p = Some (MkJson SIZE_MAX v) -> p <> NULL -> statics_in h -> (1 <= fuel)%nat ->
    json_decref fuel p (MkHeap (∅ ∪ h) n) = Ok (MkHeap h n)).
  { intros p v h n [| fuel] Hp Hn Hs Hf; [lia |]. rewrite (left_id_L ∅ (∪)). cbn [json_decref]. rewrite (proj2 (Z.eqb_neq _ _)) by done.
    unfold cell. cbn [cells]. rewrite (static_lookup h p _ Hs Hp). done. }
  assert (Hone : forall p v h n fuel, p <> NULL -> (<[p := MkJson 1 v]> ∅ : gmap Z json_t) ##ₘ h -> (1 <= fuel)%nat ->
    (is_string v || is_integer v || is_real v) = true ->
    json_decref fuel p (MkHeap ({[p := MkJson 1 v]} ∪ h) n) = Ok (MkHeap h n)).
  { intros p v h n [| fuel] Hn Hd Hf Hv; [lia |]. cbn [json_decref]. rewrite (proj2 (Z.eqb_neq _ _)) by done. unfold cell. cbn [cells].
    rewrite <- insert_empty, lookup_root. cbn [of_option mbind res_bind refcount jvalue]. change (1 =? SIZE_MAX) with false. cbv iota.
    change (u64 (1 - 1)) with 0. cbn [Z.eqb]. apply map_disjoint_insert_l in Hd as [Hp _].
    assert (E : jsonp_free p (set_cell p (MkJson 0 v) (MkHeap (<[p := MkJson 1 v]> ∅ ∪ h) n)) = MkHeap h n).
    { unfold jsonp_free, set_cell. cbn [cells next]. f_equal. rewrite insert_union, (left_id_L ∅ (∪)), insert_insert_eq. by apply delete_insert_id. }
    destruct v; try discriminate Hv; by rewrite E. }
  apply own_owns_ind.
  - intros. by eapply (Hst THE_TRUE).
  - intros. by eapply (Hst THE_FALSE).
  - intros. by eapply (Hst THE_NULL).
  - intros. by apply Hone.
  - intros. by apply Hone.
  - intros. by apply Hone.
  - intros p n t ps ts m Hn Hb Hl Hsz Hos IH Hp h nx [| fuel] Hd Hs Hf; [cbn in Hf; lia |]. cbn [json_decref].
    rewrite (proj2 (Z.eqb_neq _ _)) by done. unfold cell. cbn [cells]. rewrite lookup_root. cbn [of_option mbind res_bind refcount jvalue].
    change (1 =? SIZE_MAX) with false. cbv iota. change (u64 (1 - 1)) with 0. cbn [Z.eqb].
    rewrite Nat2Z.id, (blk_load_holds 0 (length ps) ps t Hb), drop_0, take_ge by (cbn; lia). cbn [mbind res_bind].
    apply map_disjoint_insert_l in Hd as [Hh Hd].
    unfold set_cell. cbn [cells next]. rewrite insert_union, insert_insert_eq.
    rewrite insert_union_r by done. rewrite (releases_each _ _ m (IH fuel ltac:(cbn [depth] in Hf; lia)));
      [| by apply map_disjoint_insert_r_2 | by apply statics_in_insert].
    cbn [mbind res_bind]. unfold jsonp_free. cbn [cells next]. by rewrite delete_insert_id.
  - intros p tb ks ps ts m Hn Hmem Hl Hos IH Hp h nx [| fuel] Hd Hs Hf; [cbn in Hf; lia |]. cbn [json_decref].
    rewrite (proj2 (Z.eqb_neq _ _)) by done. unfold cell. cbn [cells]. rewrite lookup_root. cbn [of_option mbind res_bind refcount jvalue].
    change (1 =? SIZE_MAX) with false. cbv iota. change (u64 (1 - 1)) with 0. cbn [Z.eqb].
    destruct (close_law tb _ Hmem) as (vs & -> & Hvs). cbn [mbind res_bind]. rewrite snd_zip in Hvs by lia.
    apply map_disjoint_insert_l in Hd as [Hh Hd].
    unfold set_cell. cbn [cells next]. rewrite insert_union, insert_insert_eq.
    rewrite insert_union_r by done. cbn [depth] in Hf. rewrite depth_members in Hf by (erewrite <- owns_length by done; done).
    pose proof (releases_perm _ _ vs (symmetry Hvs) m (IH fuel ltac:(lia))) as Hr.
    rewrite (releases_each _ _ m Hr); [| by apply map_disjoint_insert_r_2 | by apply statics_in_insert]. cbn [mbind res_bind]. unfold jsonp_free. cbn [cells next]. by rewrite delete_insert_id.
  - intros fuel Hf. constructor.
  - intros p ps t ts m1 m2 Ho IHo Hos IHos Hd12 fuel Hf. unfold list_max in *. cbn [fold_right fmap list_fmap] in *.
    constructor; [| apply IHos; lia | done]. intros h n Hd Hs. apply IHo; [done | done | lia].
Qed.

(** [json_decref] on the root of a tree frees the tree. *)
Lemma decref_tree p t m h n : own p t m -> m ##ₘ h -> statics_in h -> decref p (MkHeap (m ∪ h) n) = Ok (MkHeap h n).
Proof.
  intros Ho Hd Hs. unfold decref. apply (proj1 decref_own p t); [done | done | done |].
  pose proof (proj1 own_depth p t m Ho). unfold heap_fuel. cbn [cells]. rewrite map_size_disj_union by done. lia.
Qed.

(** *** A second reference, for a while *)

Lemma own_not_static p t m h v : own p t m -> m ##ₘ h -> statics_in h -> m !! p = Some v -> statics !! p = None.
Proof.
  intros Ho Hd Hs Hp. destruct (statics !! p) as [c |] eqn:E; [| done].
  exfalso. eapply (proj1 (map_disjoint_spec m h) Hd p v c Hp). by apply (static_lookup h).
Qed.

(** [json_incref], and the [json_decref] that takes it back. *)
Lemma incref_tree p t m h n : own p t m -> m ##ₘ h -> statics_in h ->
  exists m2, json_incref p (MkHeap (m ∪ h) n) = Ok (MkHeap (m2 ∪ h) n) /\ dom m2 = dom m /\
    forall h' n', m2 ##ₘ h' -> statics_in h' -> decref p (MkHeap (m2 ∪ h') n') = Ok (MkHeap (m ∪ h') n').
Proof.
  intros Ho Hd Hs. pose proof (own_nonnull _ _ _ Ho) as Hn. unfold json_incref. rewrite (proj2 (Z.eqb_neq _ _) Hn).
  unfold cell. cbn [cells].
  destruct (own_root _ _ _ Ho) as [(-> & v & Hp & _) | (v & Hp)].
  - rewrite (left_id_L ∅ (∪)), (static_lookup h p _ Hs Hp). cbn. exists ∅. rewrite (left_id_L ∅ (∪)). split_and!; [done | done |].
    intros h' n' _ Hs'. rewrite (left_id_L ∅ (∪)). unfold decref, heap_fuel. cbn [json_decref]. rewrite (proj2 (Z.eqb_neq _ _) Hn).
    unfold cell. cbn [cells]. by rewrite (static_lookup h' p _ Hs' Hp).
  - rewrite (lookup_union_Some_l _ _ _ _ Hp). cbn [of_option mbind res_bind refcount jvalue]. change (1 =? SIZE_MAX) with false. cbv iota.
    change (u64 (1 + 1)) with 2. exists (<[p := MkJson 2 v]> m). unfold set_cell. cbn [cells next]. rewrite insert_union_l. split_and!; [done | |].
    + apply dom_insert_lookup_L. by eexists.
    + intros h' n' Hd' Hs'. unfold decref, heap_fuel. cbn [json_decref]. rewrite (proj2 (Z.eqb_neq _ _) Hn).
      unfold cell. cbn [cells]. rewrite lookup_root. cbn [of_option mbind res_bind refcount jvalue]. change (2 =? SIZE_MAX) with false. cbv iota.
      change (u64 (2 - 1)) with 1. cbn [Z.eqb]. unfold set_cell. cbn [cells next].
      rewrite insert_union, insert_insert_eq, <- insert_union. by rewrite insert_id.
Qed.

(** *** Setting a member *)

Lemma assoc_zip_split {A} (k : list Z) (ks : list (list Z)) (ps : list A) q : length ks = length ps -> assoc k (zip ks ps) = Some q ->
  exists k1 k2 p1 p2, ks = k1 ++ k :: k2 /\ ps = p1 ++ q :: p2 /\ length k1 = length p1 /\ k ∉ k1.
Proof.
  revert ps; induction ks as [| k' ks IH]; intros [| p ps] Hl H; try discriminate. cbn in Hl, H. case_decide as E.
  - injection H as ->. subst k'. exists [], ks, [], ps. split_and!; [done | done | done | set_solver].
  - destruct (IH ps ltac:(lia) H) as (k1 & k2 & p1 & p2 & -> & -> & El & Hk). exists (k' :: k1), k2, (p :: p1), p2. cbn.
    split_and!; [done | done | lia | set_solver].
Qed.

Lemma assoc_zip_none {A} (k : list Z) (ks : list (list Z)) (ps : list A) : length ks = length ps -> assoc k (zip ks ps) = None -> k ∉ ks.
Proof.
  revert ps; induction ks as [| k' ks IH]; intros [| p ps] Hl H; try discriminate; [set_solver |]. cbn in Hl, H. case_decide as E; [done |].
  specialize (IH ps ltac:(lia) H). set_solver.
Qed.

Lemma zip_middle {A} (k : list Z) k1 k2 (p1 : list A) q p2 : length k1 = length p1 -> zip (k1 ++ k :: k2) (p1 ++ q :: p2) = zip k1 p1 ++ (k, q) :: zip k2 p2.
Proof. intros H. by rewrite zip_with_app. Qed.

Lemma zip_snoc {A} (k : list Z) ks (ps : list A) q : length ks = length ps -> zip ks ps ++ [(k, q)] = zip (ks ++ [k]) (ps ++ [q]).
Proof. intros H. by rewrite zip_with_app. Qed.

Lemma fst_zip_notin {A} (k : list Z) k1 (p1 : list A) : length k1 = length p1 -> k ∉ k1 -> k ∉ (zip k1 p1).*1.
Proof. intros Hl Hk. rewrite fst_zip by lia. done. Qed.

Definition obj_cell (t : otable) : json_t := MkJson 1 (JSON_OBJECT t 0).

(** The table with the member set, and the object around it when the value is there. *)
Lemma set_members (alloc : Z -> bool) tb ks ps ts mm k v :
  members tb (zip ks ps) -> length ks = length ps -> owns ps ts mm -> key_bytes k ->
  Z.of_nat (length ks) < 2 ^ 31 -> Z.of_nat (length k) < 2 ^ 62 ->
  exists r tb' old, ot_set alloc k v tb = Ok (r, tb', old) /\
    ((r = -1 /\ old = [] /\ members tb' (zip ks ps) /\ exists x, alloc x = false) \/
     (r = 0 /\ exists m1 mq, mm = m1 ∪ mq /\ m1 ##ₘ mq /\
        (forall h n, mq ##ₘ h -> statics_in h -> each decref old (MkHeap (mq ∪ h) n) = Ok (MkHeap h n)) /\
        forall tv mv, own v tv mv -> m1 ##ₘ mv -> exists ks' ps' ts', owns ps' ts' (m1 ∪ mv) /\ members tb' (zip ks' ps') /\
          length ks' = length ps' /\ zip ks' ts' = assoc_set k tv (zip ks ts))).
Proof.
  intros Hm Hl Hos Hk Hn Hkl. pose proof (owns_length _ _ _ Hos) as Hpt.
  destruct (set_law alloc tb _ k v Hm Hk) as (tb' & [[E Hm'] | (E & Hm' & Ha)]); [rewrite length_zip_with; lia | done | |].
  2: { exists (-1), tb', []. split; [done |]. by left. }
  exists 0, tb', (option_list (assoc k (zip ks ps))). split; [done |]. right. split; [done |].
  destruct (assoc k (zip ks ps)) as [q |] eqn:Ea.
  - destruct (assoc_zip_split k ks ps q Hl Ea) as (k1 & k2 & p1 & p2 & -> & -> & El & Hk1).
    apply owns_app_inv in Hos as (t1 & t2' & m1 & m2' & -> & -> & O1 & O2 & D12).
    inversion O2 as [| ? ? tq t2 mq m2 Oq Op2 Dq]; subst. apply map_disjoint_union_r in D12 as [D1q D12].
    exists (m1 ∪ m2), mq. split_and!.
    + rewrite <- (assoc_L (∪)). f_equal. by apply map_union_comm.
    + apply map_disjoint_union_l. split; [done | by apply map_disjoint_sym].
    + intros h n Hd Hs. change (option_list (Some q)) with [q]. rewrite each_cons. rewrite (decref_tree q tq) by done. done.
    + intros tv mv Hv Hd. apply map_disjoint_union_l in Hd as [Dv1 Dv2].
      exists (k1 ++ k :: k2), (p1 ++ v :: p2), (t1 ++ tv :: t2). rewrite length_app in Hpt, Hl. rewrite (zip_middle k k1 k2 p1 q p2 El) in Hm'.
      rewrite assoc_set_in in Hm' by (by apply fst_zip_notin).
      pose proof (owns_length _ _ _ O1). rewrite !zip_middle by lia. rewrite assoc_set_in by (apply fst_zip_notin; [lia | done]).
      split_and!; [| done | rewrite !length_app in *; cbn [length] in *; lia | done].
      replace (m1 ∪ m2 ∪ mv) with (m1 ∪ (mv ∪ m2)) by (rewrite <- (assoc_L (∪)); f_equal; apply map_union_comm; by apply map_disjoint_sym).
      apply owns_app; [done | constructor; [done | done | by apply map_disjoint_sym] |]. by apply map_disjoint_union_r.
  - pose proof (assoc_zip_none k ks ps Hl Ea) as Hout. exists mm, ∅. split_and!; [by rewrite (right_id_L ∅ (∪)) | apply map_disjoint_empty_r | |].
    + intros h n _ _. cbn. by rewrite (left_id_L ∅ (∪)).
    + intros tv mv Hv Hd. exists (ks ++ [k]), (ps ++ [v]), (ts ++ [tv]).
      rewrite assoc_set_out in Hm' by (by apply fst_zip_notin). rewrite assoc_set_out by (apply fst_zip_notin; [lia | done]).
      rewrite <- !zip_snoc by lia. split_and!; [| done | rewrite !length_app; cbn; lia | done].
      apply owns_app; [done | | done]. rewrite <- (right_id_L ∅ (∪) mv). constructor; [done | constructor | apply map_disjoint_empty_r].
Qed.

(** Looking a key up: the value is a part of the object. *)
Lemma object_get_tree p al m h n k : own p (TObject al) m -> key_bytes k ->
  exists q, json_object_get p (Some k) (MkHeap (m ∪ h) n) = Ok q /\
    match assoc k al with Some t => exists mq mr, own q t mq /\ m = mq ∪ mr /\ mq ##ₘ mr | None => q = NULL end.
Proof.
  intros Ho Hk. inversion Ho as [| | | | | | | ? tb ks ps ts mm Hp Hm Hl Hos Hmp]; subst. pose proof (owns_length _ _ _ Hos) as Hpt.
  unfold json_object_get, json_is_object, json_is, json_to_object. rewrite (proj2 (Z.eqb_neq _ _) Hp). unfold cell. cbn [cells].
  rewrite lookup_root. cbn [of_option mbind res_bind jvalue is_object negb]. rewrite (get_law _ _ _ Hm Hk). cbn [mbind res_bind].
  eexists. split; [done |]. destruct (assoc k (zip ks ps)) as [q |] eqn:Ea; cbn [default].
  - destruct (assoc_zip_split k ks ps q Hl Ea) as (k1 & k2 & p1 & p2 & -> & -> & El & Hk1).
    apply owns_app_inv in Hos as (t1 & t2' & m1 & m2' & -> & -> & O1 & O2 & D12). inversion O2 as [| ? ? tq t2 mq m2 Oq Op2 Dq]; subst.
    pose proof (owns_length _ _ _ O1). rewrite zip_middle, assoc_in by (lia || (apply fst_zip_notin; [lia | done])).
    apply map_disjoint_union_r in D12 as [D1q D12]. exists mq, (<[p := MkJson 1 (JSON_OBJECT tb 0)]> (m1 ∪ m2)). split; [done |].
    apply lookup_union_None in Hmp as [Hp1 Hp2]. apply lookup_union_None in Hp2 as [Hp2 Hp3].
    assert (Hu : m1 ∪ (mq ∪ m2) = mq ∪ (m1 ∪ m2)) by (by rewrite !(assoc_L (∪)), (map_union_comm m1 mq)).
    split; [rewrite Hu; by rewrite insert_union_r |]. apply map_disjoint_insert_r_2; [done |]. apply map_disjoint_union_r. split; [by apply map_disjoint_sym | done].
  - pose proof (assoc_zip_none k ks ps Hl Ea) as Hout. by rewrite assoc_out by (apply fst_zip_notin; [lia | done]).
Qed.

Section building.
Context (alloc : Z -> Z -> bool).

Lemma json_is_root test p v m h n : p <> NULL -> json_is test p (MkHeap (<[p := MkJson 1 v]> m ∪ h) n) = Ok (test v).
Proof. intros Hp. unfold json_is. rewrite (proj2 (Z.eqb_neq _ _) Hp). unfold cell. cbn [cells]. by rewrite lookup_root. Qed.

(** What remains of an object when the value set is taken out again: with the value it is the object with the member. *)
Lemma set_new_tree p al m v h n k :
  own p (TObject al) m -> m ##ₘ h -> statics_in h -> v <> NULL -> v <> p -> key_bytes k ->
  Z.of_nat (length al) < 2 ^ 31 -> Z.of_nat (length k) < 2 ^ 62 ->
  exists m', dom m' ⊆ dom m /\
    ((json_object_set_new_nocheck alloc p (Some k) v (MkHeap (m ∪ h) n) = Ok (0, MkHeap (m' ∪ h) n) /\
        forall tv mv, own v tv mv -> m' ##ₘ mv -> own p (TObject (assoc_set k tv al)) (m' ∪ mv)) \/
     (json_object_set_new_nocheck alloc p (Some k) v (MkHeap (m ∪ h) n) = (h' ← decref v (MkHeap (m' ∪ h) n); Ok (-1, h')) /\
        own p (TObject al) m' /\ exists x, alloc n x = false)).
Proof.
  intros Ho Hd Hs Hv Hvp Hk Hn Hkl. inversion Ho as [| | | | | | | ? tb ks ps ts mm Hp Hm Hl Hos Hmp]; subst. clear Ho.
  pose proof (owns_length _ _ _ Hos) as Hpt. rewrite length_zip_with in Hn.
  unfold json_object_set_new_nocheck. rewrite (proj2 (Z.eqb_neq _ _) Hv). unfold json_is_object. rewrite json_is_root by done.
  cbn [mbind res_bind is_object negb orb]. rewrite (proj2 (Z.eqb_neq p v)) by done. unfold json_to_object, cell. cbn [cells next].
  rewrite lookup_root. cbn [of_option mbind res_bind jvalue].
  destruct (set_members (alloc n) tb ks ps ts mm k v Hm Hl Hos Hk ltac:(lia) Hkl) as (r & tb' & old & -> & Hr). cbn [mbind res_bind].
  unfold set_jvalue, set_cell. cbn [refcount cells next]. rewrite insert_union, insert_insert_eq. apply map_disjoint_insert_l in Hd as [Hph Hd].
  destruct Hr as [(-> & -> & Hm' & Hx) | (-> & m1 & mq & -> & D1q & Hold & Hnew)].
  - exists (<[p := obj_cell tb']> mm). split; [by rewrite !dom_insert_L | right]. cbn [each fold_left mbind res_bind].
    change (-1 =? 0) with false. cbv iota. rewrite <- insert_union. split_and!; [done | by eapply own_object | done].
  - exists (<[p := obj_cell tb']> m1). split; [rewrite !dom_insert_L, dom_union_L; set_solver | left].
    apply map_disjoint_union_l in Hd as [Dm1 Dmq]. apply lookup_union_None in Hmp as [Hp1 Hpq].
    assert (E : <[p := MkJson 1 (JSON_OBJECT tb' 0)]> (m1 ∪ mq ∪ h) = mq ∪ (<[p := obj_cell tb']> m1 ∪ h)).
    { rewrite insert_union, (map_union_comm m1 mq), <- (assoc_L (∪)) by done. by rewrite insert_union_r. }
    rewrite E. rewrite Hold.
    + cbn [mbind res_bind]. change (0 =? 0) with true. cbv iota. split; [done |]. intros tv mv Hown Hdis.
      apply map_disjoint_insert_l in Hdis as [Hpv Hdis]. destruct (Hnew tv mv Hown Hdis) as (ks' & ps' & ts' & Hos' & Hm' & Hl' & <-).
      rewrite insert_union, <- insert_union. rewrite insert_union. apply own_object with (ps := ps'); [done | done | done | done |].
      apply lookup_union_None. done.
    + apply map_disjoint_union_r. split; [| done]. apply map_disjoint_insert_r_2; [done | by apply map_disjoint_sym].
    + apply statics_in_union; [| done]. by apply map_disjoint_insert_l_2.
Qed.

(** What an operation makes of the tree [t] at [p] with a value it is given: [f v] for the value at [v], or a failure
    that leaves the tree and releases the value. *)
Definition takes (op : jheap -> res (Z * jheap)) (p : Z) (t : json) (new : json -> json) (m : gmap Z json_t) (v n : Z) : Prop :=
  forall h, m ##ₘ h -> statics_in h -> v <> p -> exists m', dom m' ⊆ dom m /\
    ((op (MkHeap (m ∪ h) n) = Ok (0, MkHeap (m' ∪ h) n) /\ forall tv mv, own v tv mv -> m' ##ₘ mv -> own p (new tv) (m' ∪ mv)) \/
     (op (MkHeap (m ∪ h) n) = (h' ← decref v (MkHeap (m' ∪ h) n); Ok (-1, h')) /\ own p t m' /\ exists x, alloc n x = false)).

(** Such an operation with [json_incref] before it and [json_decref] behind it, as the parser has them: the tree takes the
    value, or it stays what it was and the value is freed. *)
Lemma take_then_release op p t new m v tv mv h n :
  takes op p t new m v n -> own p t m -> m <> ∅ -> own v tv mv -> m ##ₘ mv -> m ##ₘ h -> mv ##ₘ h -> statics_in h ->
  exists r h1 m', (h ← json_incref v (MkHeap (m ∪ (mv ∪ h)) n); op h) = Ok (r, h1) /\
    decref v h1 = Ok (MkHeap (m' ∪ h) n) /\ dom m' ⊆ dom m ∪ dom mv /\
    ((r = 0 /\ own p (new tv) m') \/ (r = -1 /\ own p t m' /\ exists x, alloc n x = false)).
Proof.
  intros Hop Ho Hne Hv Dmv Dmh Dvh Hs.
  assert (Hsm : statics_in (m ∪ h)) by (by apply statics_in_union).
  destruct (incref_tree v tv mv (m ∪ h) n Hv) as (m2 & E & Edom & Hback); [by apply map_disjoint_union_r | done |].
  assert (Hc : forall (x y z : gmap Z json_t), x ##ₘ y -> x ∪ (y ∪ z) = y ∪ (x ∪ z)).
  { intros x y z D. by rewrite !(assoc_L (∪)), (map_union_comm x y). }
  assert (Dm2 : m ##ₘ m2 /\ m2 ##ₘ h) by (rewrite !map_disjoint_dom, Edom, <- !map_disjoint_dom; done). destruct Dm2 as [Dm2 D2h].
  rewrite Hc, E by done. cbn [mbind res_bind]. rewrite <- (Hc m m2) by done.
  assert (Hvp : v <> p).
  { destruct (own_root _ _ _ Ho) as [(-> & _) | (w & Hw)]; [done |].
    destruct (own_root _ _ _ Hv) as [(-> & u & Hu & _) | (u & Hu)]; intros ->.
    - by rewrite (own_not_static _ _ _ _ _ Ho Dmh Hs Hw) in Hu.
    - exact (proj1 (map_disjoint_spec m mv) Dmv p _ _ Hw Hu). }
  destruct (Hop (m2 ∪ h)) as (m' & Hdom & Hr); [by apply map_disjoint_union_r | by apply statics_in_union | done |].
  assert (D' : m' ##ₘ m2 /\ m' ##ₘ h /\ m' ##ₘ mv).
  { rewrite !map_disjoint_dom in *. set_solver. } destruct D' as (D1 & D2 & D3).
  assert (Hs' : statics_in (m' ∪ h)) by (by apply statics_in_union).
  assert (Hb : decref v (MkHeap (m' ∪ (m2 ∪ h)) n) = Ok (MkHeap (m' ∪ (mv ∪ h)) n)).
  { rewrite (Hc m' m2) by done. rewrite Hback; [by rewrite (Hc mv m') by (by apply map_disjoint_sym) | by apply map_disjoint_union_r | done]. }
  destruct Hr as [(-> & Hnew) | (-> & Hold & Hx)].
  - exists 0, (MkHeap (m' ∪ (m2 ∪ h)) n), (m' ∪ mv). split_and!; [done | by rewrite <- (assoc_L (∪)) | rewrite dom_union_L; set_solver |].
    left. split; [done |]. by apply Hnew.
  - rewrite Hb. cbn [mbind res_bind]. exists (-1), (MkHeap (m' ∪ (mv ∪ h)) n), m'. split_and!; [done | | set_solver |].
    + rewrite (Hc m' mv) by done. apply (decref_tree v tv); [done | by apply map_disjoint_union_r; split; [apply map_disjoint_sym |] | done].
    + right. done.
Qed.

Lemma own_container_nonempty p t m : own p t m -> match t with TObject _ | TArray _ => m <> ∅ | _ => True end.
Proof. destruct 1; try done; apply insert_non_empty. Qed.

Lemma set_then_release p al m v tv mv h n k :
  own p (TObject al) m -> own v tv mv -> m ##ₘ mv -> m ##ₘ h -> mv ##ₘ h -> statics_in h -> key_bytes k ->
  Z.of_nat (length al) < 2 ^ 31 -> Z.of_nat (length k) < 2 ^ 62 ->
  exists r h1 m', json_object_set_nocheck alloc p (Some k) v (MkHeap (m ∪ (mv ∪ h)) n) = Ok (r, h1) /\
    decref v h1 = Ok (MkHeap (m' ∪ h) n) /\ dom m' ⊆ dom m ∪ dom mv /\
    ((r = 0 /\ own p (TObject (assoc_set k tv al)) m') \/ (r = -1 /\ own p (TObject al) m' /\ exists x, alloc n x = false)).
Proof.
  intros Ho Hv Dmv Dmh Dvh Hs Hk Hn Hkl.
  apply (take_then_release (json_object_set_new_nocheck alloc p (Some k) v) p (TObject al) (fun tv => TObject (assoc_set k tv al)) m v tv mv h n); try done.
  - intros h' Hd' Hs' Hvp. apply set_new_tree; try done. by eapply own_nonnull.
  - apply (own_container_nonempty _ _ _ Ho).
Qed.

(** *** Appending an element *)

Lemma grow_array t0 n e t :
  0 <= e <= n -> 8 <= n -> n = Z.of_nat (length t) -> e < 2 ^ 58 -> n < 2 ^ 60 ->
  forall ps, blk_holds ps t -> e = Z.of_nat (length ps) ->
  (exists n' t', json_array_grow alloc t0 (MkArray n e t 0) 1 true = Ok (Some (MkArray n' e t' 0, None)) /\
     blk_holds ps t' /\ n' = Z.of_nat (length t') /\ e < n' /\ 8 <= n' < 2 ^ 60) \/
  (json_array_grow alloc t0 (MkArray n e t 0) 1 true = Ok None /\ exists x, alloc t0 x = false).
Proof.
  intros He Hn Hl Hb Hn2 ps Hh Hps. unfold json_array_grow. cbn [entries Json.asize tbl avisited].
  rewrite wrap_small by lia. destruct (Z.leb_spec (e + 1) n).
  - left. exists n, t. split_and!; try done; lia.
  - rewrite (wrap_small 64 (n + 1)), (wrap_small 64 (n * 2)), (Z.max_r (n + 1) (n * 2)), (wrap_small 64 (n * 2 * 8)) by lia.
    destruct (alloc t0 (n * 2 * 8)) eqn:Ea.
    + rewrite (jsonp_malloc_some (alloc t0)) by (lia || done). left. cbv iota beta.
      assert (Lm : length (blk_malloc (A := Z) (Z.to_nat (n * 2 * 8))) = Z.to_nat (n * 2 * 8)) by apply length_replicate. rewrite Lm.
      replace (Z.to_nat (n * 2 * 8) / 8)%nat with (Z.to_nat (n * 2)).
      2: { replace (Z.to_nat (n * 2 * 8)) with (Z.to_nat (n * 2) * 8)%nat by lia. by rewrite Nat.div_mul. }
      unfold array_copy. change (Z.to_nat 0) with 0%nat. rewrite Hps, Nat2Z.id. destruct Hh as [rest ->].
      pose proof (blk_copy_app [] (Some <$> ps) rest) as C. rewrite length_fmap in C. cbn [length app] in C. rewrite C. cbn [mbind res_bind].
      destruct (blk_store_append [] ps (blk_malloc (Z.to_nat (n * 2))) (blk_holds_nil _)) as (t' & E & Hh').
      { unfold blk_malloc. rewrite length_replicate. cbn [length]. lia. }
      cbn [length] in E. rewrite E. cbn [mbind res_bind]. exists (n * 2), t'. split_and!; try done; try lia.
      rewrite (blk_store_length _ _ _ _ E). unfold blk_malloc. rewrite length_replicate. lia.
    + right. rewrite (jsonp_malloc_none (alloc t0)) by done. eauto.
Qed.

Lemma append_takes p ts m v n : own p (TArray ts) m -> v <> NULL -> Z.of_nat (length ts) < 2 ^ 58 ->
  takes (json_array_append_new alloc p v) p (TArray ts) (fun tv => TArray (ts ++ [tv])) m v n.
Proof.
  intros Ho Hv Hn h Hd Hs Hvp. inversion Ho as [| | | | | | ? sz t ps ? mm Hp Hb Hl Hsz Hos Hmp |]; subst. 
  pose proof (owns_length _ _ _ Hos) as Hpt.
  unfold json_array_append_new. rewrite (proj2 (Z.eqb_neq _ _) Hv). unfold json_is_array. rewrite json_is_root by done.
  cbn [mbind res_bind is_array negb orb]. rewrite (proj2 (Z.eqb_neq p v)) by done. unfold json_to_array, cell. cbn [cells next].
  rewrite lookup_root. cbn [of_option mbind res_bind jvalue].
  pose proof (blk_holds_length _ _ Hb).
  destruct (grow_array n (Z.of_nat (length t)) (Z.of_nat (length ps)) t ltac:(lia) ltac:(lia) eq_refl ltac:(lia) ltac:(lia) ps Hb eq_refl)
    as [(n' & t' & -> & Hb' & En & He & Hn') | (-> & Hx)]; cbn [mbind res_bind].
  - cbn [entries Json.asize tbl avisited]. rewrite Nat2Z.id.
    destruct (blk_store_append ps [v] t' Hb') as (t2 & E2 & Hb2); [cbn; lia |]. cbn [fmap list_fmap] in E2. rewrite E2. cbn [mbind res_bind].
    pose proof (blk_store_length _ _ _ _ E2) as L2. rewrite wrap_small by lia.
    set (c := MkJson 1 (JSON_ARRAY n' (Z.of_nat (length (ps ++ [v]))) t2 0)).
    exists (<[p := c]> mm). split; [by rewrite !dom_insert_L | left]. split.
    + unfold set_jvalue, set_cell, array_value. cbn [refcount cells next entries Json.asize tbl avisited].
      rewrite !insert_union, insert_insert_eq. subst c. rewrite length_app. cbn [length]. do 5 f_equal. f_equal. f_equal. lia.
    + intros tv mv Hown Hdis. apply map_disjoint_insert_l in Hdis as [Hpv Hdis].
      rewrite insert_union. subst c. apply own_array; [done | done | lia | lia | | apply lookup_union_None; done].
      apply owns_app; [done | | done]. rewrite <- (right_id_L ∅ (∪) mv). constructor; [done | constructor | apply map_disjoint_empty_r].
  - eexists. split; [done |]. right. split_and!; [done | done | done].
Qed.

Lemma append_then_release p ts m v tv mv h n :
  own p (TArray ts) m -> own v tv mv -> m ##ₘ mv -> m ##ₘ h -> mv ##ₘ h -> statics_in h -> Z.of_nat (length ts) < 2 ^ 58 ->
  exists r h1 m', json_array_append alloc p v (MkHeap (m ∪ (mv ∪ h)) n) = Ok (r, h1) /\
    decref v h1 = Ok (MkHeap (m' ∪ h) n) /\ dom m' ⊆ dom m ∪ dom mv /\
    ((r = 0 /\ own p (TArray (ts ++ [tv])) m') \/ (r = -1 /\ own p (TArray ts) m' /\ exists x, alloc n x = false)).
Proof.
  intros Ho Hv Dmv Dmh Dvh Hs Hn.
  apply (take_then_release (json_array_append_new alloc p v) p (TArray ts) (fun tv => TArray (ts ++ [tv])) m v tv mv h n); try done.
  - apply append_takes; try done. by eapply own_nonnull.
  - apply (own_container_nonempty _ _ _ Ho).
Qed.

(** *** New values *)

(** A heap that has the constants and no cell from [next] on, nor at NULL. *)
Definition heap_ok (h : jheap) : Prop := statics_in (cells h) /\ 64 <= next h /\ forall p, next h <= p -> cells h !! p = None.

(** A value made in the heap [h]: nothing but its cells is new. *)
Definition makes (h : jheap) (p : Z) (t : json) (h' : jheap) : Prop :=
  exists m, own p t m /\ m ##ₘ cells h /\ cells h' = m ∪ cells h /\ heap_ok h' /\ next h <= next h'.

Lemma makes_one h v t n : heap_ok h -> own (next h) t {[next h := MkJson 1 v]} -> 0 < n ->
  makes h (next h) t (MkHeap (<[next h := MkJson 1 v]> (cells h)) (next h + n)).
Proof.
  intros (Hs & Hn & Hf) Ho Hp. exists {[next h := MkJson 1 v]}. cbn [cells next]. rewrite <- insert_empty, insert_union, (left_id_L ∅ (∪)).
  split_and!; [by rewrite insert_empty | | done | | lia].
  - apply map_disjoint_insert_l_2; [apply Hf; lia | apply map_disjoint_empty_l].
  - split_and!; cbn [cells next]; [apply statics_in_insert; [apply Hf; lia | done] | lia |].
    intros p Hle. rewrite lookup_insert_ne by lia. apply Hf. lia.
Qed.

Lemma makes_static h p t : heap_ok h -> own p t ∅ -> makes h p t h.
Proof. intros H Ho. exists ∅. rewrite (left_id_L ∅ (∪)). split_and!; [done | apply map_disjoint_empty_l | done | done | lia]. Qed.

(** A constructor makes its tree, or there is no memory and nothing changes. *)
Definition constructs (h : jheap) (t : json) (r : res (Z * jheap)) : Prop :=
  exists p h', r = Ok (p, h') /\ ((p <> NULL /\ makes h p t h') \/ (p = NULL /\ h' = h /\ exists x, alloc (next h) x = false)).

Lemma new_cell_spec h n v t : heap_ok h -> own (next h) t {[next h := MkJson 1 v]} -> constructs h t (Ok (new_cell alloc n v h)).
Proof.
  intros H Ho. unfold new_cell. destruct (alloc (next h) n) eqn:E.
  - eexists _, _. split; [done |]. left. split; [by eapply own_nonnull | by apply makes_one].
  - eexists _, _. split; [done |]. right. eauto.
Qed.

Lemma next_nonnull h : heap_ok h -> next h <> NULL.
Proof. intros (_ & H & _). unfold NULL. lia. Qed.

Lemma integer_constructs h n : heap_ok h -> constructs h (TInteger n) (Ok (json_integer alloc n h)).
Proof. intros H. apply new_cell_spec; [done |]. constructor. by apply next_nonnull. Qed.

Lemma real_constructs h x : heap_ok h -> isnan x || isinf x = false -> constructs h (TReal x) (Ok (json_real alloc x h)).
Proof. intros H Hx. unfold json_real. rewrite Hx. apply new_cell_spec; [done |]. constructor; [by apply next_nonnull | done]. Qed.

Lemma own_string_constructs h s v : heap_ok h -> blk_holds (s ++ [0]) v ->
  constructs h (TString s) (jsonp_stringn_nocheck_own alloc (Some v) (Z.of_nat (length s)) h).
Proof. intros H Hv. apply new_cell_spec; [done |]. constructor; [by apply next_nonnull | done]. Qed.

Lemma array_constructs h : heap_ok h -> constructs h (TArray []) (json_array alloc h).
Proof.
  intros H. unfold json_array. destruct (alloc (next h) 48) eqn:E1; cbn [negb]; [| eexists _, _; split; [done |]; right; eauto].
  destruct (alloc (next h) (8 * 8)) eqn:E2; cbn [negb]; [| eexists _, _; split; [done |]; right; eauto].
  eexists _, _. split; [done |]. left. split; [by apply next_nonnull |]. apply makes_one; [done | | lia].
  rewrite <- insert_empty. apply (own_array _ 8 (blk_malloc 8) [] []); [by apply next_nonnull | apply blk_holds_nil | done | lia | constructor | done].
Qed.

Lemma object_constructs h : heap_ok h -> constructs h (TObject []) (json_object alloc h).
Proof.
  intros H. unfold json_object. destruct (alloc (next h) 80) eqn:E1; cbn [negb]; [| eexists _, _; split; [done |]; right; eauto].
  destruct (init_law (alloc (next h))) as [(t & -> & Hm) | (-> & x & Hx)]; cbn [mbind res_bind]; [| eexists _, _; split; [done |]; right; eauto].
  eexists _, _. split; [done |]. left. split; [by apply next_nonnull |]. apply makes_one; [done | | lia].
  rewrite <- insert_empty. apply (own_object _ t [] [] []); [by apply next_nonnull | done | done | constructor | done].
Qed.

End building.
End own.
