(* ===== verification/JsonLex.v ===== *)
(** * Reading JSON: the lexical analyzer

    The first half of [common/jansson/load.c], with [jsonp_strtod] of [strconv.c] and the error record of [error.c].  The
    input is a source of bytes (a C string or a buffer); the stream checks its UTF-8, counts lines and columns, and can
    take a character back; the lexer collects the text of a token in a string buffer.  The error a caller passes is a
    field of the lexer.  [text_alloc] tells whether the string buffer gets its memory, [alloc] is for the strings made.
    A failed [assert] is undefined.  The numeric locale is "C": the program never calls [setlocale]. *)

From Stdlib Require Import SpecFloat.
From S2P Require Import Prelude Utf Strbuf Json.

(** ** Constants and characters *)

Definition STREAM_STATE_OK : Z := 0.
Definition STREAM_STATE_EOF : Z := -1.
Definition STREAM_STATE_ERROR : Z := -2.

Definition TOKEN_INVALID : Z := -1.
Definition TOKEN_EOF : Z := 0.
Definition TOKEN_STRING : Z := 256.
Definition TOKEN_INTEGER : Z := 257.
Definition TOKEN_REAL : Z := 258.
Definition TOKEN_TRUE : Z := 259.
Definition TOKEN_FALSE : Z := 260.
Definition TOKEN_NULL : Z := 261.

Definition JSON_REJECT_DUPLICATES : Z := 0x1.
Definition JSON_DISABLE_EOF_CHECK : Z := 0x2.
Definition JSON_DECODE_ANY : Z := 0x4.
Definition JSON_DECODE_INT_AS_REAL : Z := 0x8.
Definition JSON_ALLOW_NUL : Z := 0x10.
Definition flag (flags f : Z) : bool := negb (Z.land flags f =? 0).

Definition l_isupper (c : Z) : bool := (65 <=? c) && (c <=? 90).
Definition l_islower (c : Z) : bool := (97 <=? c) && (c <=? 122).
Definition l_isalpha (c : Z) : bool := l_isupper c || l_islower c.
Definition l_isdigit (c : Z) : bool := (48 <=? c) && (c <=? 57).
Definition l_isxdigit (c : Z) : bool := l_isdigit c || ((65 <=? c) && (c <=? 70)) || ((97 <=? c) && (c <=? 102)).

(** [%x] and [%04X] of a number that is not negative. *)
Fixpoint hex_loop (fuel : nat) (upper : bool) (n : Z) (acc : list Z) : list Z :=
  match fuel with
  | O => acc
  | S fuel =>
      let d := n mod 16 in
      let c := if d <? 10 then 48 + d else if upper then 55 + d else 87 + d in
      if n <? 16 then c :: acc else hex_loop fuel upper (n / 16) (c :: acc)
  end.
Definition fmt_x (n : Z) : list Z := hex_loop 8 false (u32 n) [].
Definition fmt_04X (n : Z) : list Z := let d := hex_loop 8 true (u32 n) [] in replicate (4 - length d) 48 ++ d.

(** ** Errors *)

Definition JSON_ERROR_TEXT_LENGTH : nat := 160.
Definition JSON_ERROR_SOURCE_LENGTH : nat := 80.

(** The texts are the bytes before their zero byte. *)
Record json_error_t := MkError { e_line : Z; e_column : Z; e_position : Z; e_source : list Z; e_text : list Z }.

Definition jsonp_error_set_source (source : list Z) (e : json_error_t) : json_error_t :=
  let n := length source in
  let s := if decide (n < JSON_ERROR_SOURCE_LENGTH)%nat then source
           else chars "..." ++ drop (n - JSON_ERROR_SOURCE_LENGTH + 4) source in
  MkError (e_line e) (e_column e) (e_position e) s (e_text e).

Definition jsonp_error_init (source : option (list Z)) (e : option json_error_t) : option json_error_t :=
  match e with
  | None => None
  | Some e =>
      let e := MkError (-1) (-1) 0 (e_source e) [] in
      Some (match source with Some s => jsonp_error_set_source s e | None => MkError (-1) (-1) 0 [] [] end)
  end.

(** [vsnprintf] into the text. *)
Definition fit (msg : list Z) : list Z := take (JSON_ERROR_TEXT_LENGTH - 1) msg.

Definition jsonp_error_set (line column position : Z) (msg : list Z) (e : option json_error_t) : option json_error_t :=
  match e with
  | None => None
  | Some e => if decide (e_text e = []) then Some (MkError line column (i32 position) (e_source e) (fit msg)) else Some e
  end.

(** ** Numbers *)

(** The decimal digits at the front, and the rest. *)
Fixpoint digits_of (s : list Z) : list Z * list Z :=
  match s with
  | c :: r => if l_isdigit c then let '(d, r) := digits_of r in (c :: d, r) else ([], s)
  | [] => ([], [])
  end.

Definition number_of (d : list Z) : Z := fold_left (fun n c => 10 * n + (c - 48)) d 0.

Definition signed (s : list Z) : bool * list Z :=
  match s with 45 :: r => (true, r) | 43 :: r => (false, r) | _ => (false, s) end.

Definition LLONG_MAX : Z := 2 ^ 63 - 1.
Definition LLONG_MIN : Z := - 2 ^ 63.

(** [strtoll(s, &end, 10)] of a text without leading blanks: the value, how far [end] is, and whether [errno] is ERANGE. *)
Definition strtoll (s : list Z) : Z * nat * bool :=
  let '(neg, r) := signed s in
  let '(d, r') := digits_of r in
  if decide (d = []) then (0, O, false) else
  let n := if neg : bool then - number_of d else number_of d in
  (Z.max LLONG_MIN (Z.min LLONG_MAX n), (length s - length r')%nat, (n <? LLONG_MIN) || (n >? LLONG_MAX)).

(** The double nearest to [m * 10 ^ e]; exponents far outside the range need no arithmetic. *)
Definition to_double (neg : bool) (m e : Z) : spec_float :=
  if m =? 0 then S754_zero neg else
  let size := Z.log2 m / 3 + 1 + e in
  if size >? 700 then S754_infinity neg else
  if size <? -700 then S754_zero neg else
  if 0 <=? e then binary_round prec emax neg (Z.to_pos (m * 10 ^ e)) 0 else
  let '(mz, ez, lz) := SFdiv_core_binary prec emax m 0 (10 ^ (- e)) 0 in
  binary_round_aux prec emax neg mz ez lz.

(** [strtod] of a text without leading blanks that starts with a number: the value and how far [end] is. *)
Definition strtod (s : list Z) : spec_float * nat :=
  let '(neg, r) := signed s in
  let '(d, r) := digits_of r in
  let '(f, r) := match r with 46 :: r' => digits_of r' | _ => ([], r) end in
  let '(e, r) :=
    match r with
    | c :: r' => if (c =? 101) || (c =? 69) then
                   let '(eneg, r'') := signed r' in
                   let '(ed, r''') := digits_of r'' in
                   if decide (ed = []) then (0, r) else (if eneg : bool then - number_of ed else number_of ed, r''')
                 else (0, r)
    | [] => (0, r)
    end in
  (to_double neg (number_of (d ++ f)) (e - Z.of_nat (length f)), (length s - length r)%nat).

(** The C string in a block, up to its zero byte; the text of a string buffer. *)
Fixpoint c_text (v : block Z) : res (list Z) :=
  match v with
  | Some c :: v => if c =? 0 then Ok [] else t ← c_text v; Ok (c :: t)
  | _ => UB
  end.

Definition text_of (sb : strbuffer_t) : res (list Z) := v ← of_option (value sb); c_text v.

(** [None]: the overflow of [strtod]. *)
Definition jsonp_strtod (sb : strbuffer_t) : res (option spec_float) :=
  s ← text_of sb;
  let '(x, n) := strtod s in
  _ ← assert_ok (Z.of_nat n =? sb_length sb);
  Ok (if isinf x then None else Some x).

(** ** The stream *)

Section source.
Context {D : Type} (get : D -> res (Z * D)).

(** [buffer] has five bytes, not initialised at first. *)
Record stream_t := MkStream {
  data : D;
  buffer : block Z;
  buffer_pos : Z;
  state : Z;
  line : Z;
  column : Z;
  last_column : option Z;
  position : Z
}.

(** The union [value]. *)
Inductive lex_value :=
| VNone
| VString (val : option (block Z)) (len : Z)
| VInteger (n : Z)
| VReal (x : spec_float).

Record lex_t := MkLex {
  stream : stream_t;
  saved_text : strbuffer_t;
  lflags : Z;
  ldepth : Z;
  token : Z;
  lvalue : lex_value;
  lerror : option json_error_t
}.

Definition with_stream (s : stream_t) (l : lex_t) : lex_t := MkLex s (saved_text l) (lflags l) (ldepth l) (token l) (lvalue l) (lerror l).
Definition with_text (t : strbuffer_t) (l : lex_t) : lex_t := MkLex (stream l) t (lflags l) (ldepth l) (token l) (lvalue l) (lerror l).
Definition with_depth (d : Z) (l : lex_t) : lex_t := MkLex (stream l) (saved_text l) (lflags l) d (token l) (lvalue l) (lerror l).
Definition with_token (k : Z) (l : lex_t) : lex_t := MkLex (stream l) (saved_text l) (lflags l) (ldepth l) k (lvalue l) (lerror l).
Definition with_value (v : lex_value) (l : lex_t) : lex_t := MkLex (stream l) (saved_text l) (lflags l) (ldepth l) (token l) v (lerror l).
Definition with_error (e : option json_error_t) (l : lex_t) : lex_t := MkLex (stream l) (saved_text l) (lflags l) (ldepth l) (token l) (lvalue l) e.

(** [error_set] with a lexer; [msg] is the formatted message. *)
Definition error_set (msg : list Z) (l : lex_t) : res lex_t :=
  match lerror l with
  | None => Ok l
  | Some _ =>
      let msg_text := fit msg in
      first ← match value (saved_text l) with None => Ok 0 | Some v => c ← rd v 0; of_option c end;
      result ← (if negb (first =? 0) then
                  if sb_length (saved_text l) <=? 20 then
                    saved ← text_of (saved_text l); Ok (fit (msg_text ++ chars " near '" ++ saved ++ chars "'"))
                  else Ok msg_text
                else if state (stream l) =? STREAM_STATE_ERROR then Ok msg_text
                else Ok (fit (msg_text ++ chars " near end of file")));
      Ok (with_error (jsonp_error_set (line (stream l)) (column (stream l)) (position (stream l)) result (lerror l)) l)
  end.

Definition stream_init (d : D) : stream_t := MkStream d (Some 0 :: replicate 4 None) 0 STREAM_STATE_OK 1 0 None 0.

Definition char_at (b : block Z) (i : Z) : res Z := c ← rd b (Z.to_nat i); c ← of_option c; Ok c.
Definition put_char (i : Z) (c : Z) (b : block Z) : res (block Z) := blk_store (Z.to_nat i) [Some (u8 c)] b.

(** The bytes [i] to [i + n - 1] of a sequence. *)
Fixpoint read_more (n : nat) (i : Z) (d : D) (b : block Z) : res (D * block Z) :=
  match n with
  | O => Ok (d, b)
  | S n => '(c, d) ← get d; b ← put_char i c b; read_more n (i + 1) d b
  end.

(** Counting the character [c], after it is taken from the buffer. *)
Definition count_char (c : Z) (s : stream_t) : res stream_t :=
  let position := u64 (position s + 1) in
  if c =? 10 then
    line ← int_op (line s + 1);
    Ok (MkStream (data s) (buffer s) (buffer_pos s) (state s) line 0 (Some (column s)) position)
  else if negb (utf8_check_first (u8 c) =? 0) then
    column ← int_op (column s + 1);
    Ok (MkStream (data s) (buffer s) (buffer_pos s) (state s) (line s) column (last_column s) position)
  else Ok (MkStream (data s) (buffer s) (buffer_pos s) (state s) (line s) (column s) (last_column s) position).

Definition set_state (k : Z) (s : stream_t) : stream_t :=
  MkStream (data s) (buffer s) (buffer_pos s) k (line s) (column s) (last_column s) (position s).
Definition set_input (d : D) (b : block Z) (pos : Z) (s : stream_t) : stream_t :=
  MkStream d b pos (state s) (line s) (column s) (last_column s) (position s).

(** The character under [buffer_pos], taken from the buffer. *)
Definition take_char (s : stream_t) : res (Z * stream_t) :=
  c ← char_at (buffer s) (buffer_pos s);
  let c := schar c in
  s ← count_char c (set_input (data s) (buffer s) (buffer_pos s + 1) s);
  Ok (c, s).

(** The failure exit. *)
Definition stream_out (c : Z) (l : lex_t) : res (Z * lex_t) :=
  l ← error_set (chars "unable to decode byte 0x" ++ fmt_x c) (with_stream (set_state STREAM_STATE_ERROR (stream l)) l);
  Ok (STREAM_STATE_ERROR, l).

Definition stream_get (l : lex_t) : res (Z * lex_t) :=
  let s := stream l in
  if negb (state s =? STREAM_STATE_OK) then Ok (state s, l) else
  c ← char_at (buffer s) (buffer_pos s);
  if negb (c =? 0) then '(c, s) ← take_char s; Ok (c, with_stream s l) else
  '(c, d) ← get (data s);
  if c =? -1 then Ok (STREAM_STATE_EOF, with_stream (set_state STREAM_STATE_EOF (set_input d (buffer s) (buffer_pos s) s)) l) else
  b ← put_char 0 c (buffer s);
  if (0x80 <=? c) && (c <=? 0xFF) then
    let count := utf8_check_first (u8 c) in
    if count =? 0 then stream_out c (with_stream (set_input d b 0 s) l) else
    _ ← assert_ok (2 <=? count);
    '(d, b) ← read_more (Z.to_nat count - 1) 1 d b;
    bytes ← of_option (mapM id (take (Z.to_nat count) b));
    v ← utf8_check_full bytes count;
    match v with
    | None => stream_out c (with_stream (set_input d b 0 s) l)
    | Some _ =>
        b ← put_char count 0 b;
        '(c, s) ← take_char (set_input d b 0 s); Ok (c, with_stream s l)
    end
  else
    b ← put_char 1 0 b;
    '(c, s) ← take_char (set_input d b 0 s); Ok (c, with_stream s l).

Definition stream_unget (c : Z) (s : stream_t) : res stream_t :=
  if (c =? STREAM_STATE_EOF) || (c =? STREAM_STATE_ERROR) then Ok s else
  let position := u64 (position s - 1) in
  s ← (if c =? 10 then
         line ← int_op (line s - 1); column ← of_option (last_column s);
         Ok (MkStream (data s) (buffer s) (buffer_pos s) (state s) line column (last_column s) position)
       else if negb (utf8_check_first (u8 c) =? 0) then
         column ← int_op (column s - 1);
         Ok (MkStream (data s) (buffer s) (buffer_pos s) (state s) (line s) column (last_column s) position)
       else Ok (MkStream (data s) (buffer s) (buffer_pos s) (state s) (line s) (column s) (last_column s) position));
  _ ← assert_ok (0 <? buffer_pos s);
  let s := set_input (data s) (buffer s) (buffer_pos s - 1) s in
  d ← char_at (buffer s) (buffer_pos s);
  _ ← assert_ok (schar d =? c);
  Ok s.

(** ** The lexer *)

Context (text_alloc alloc : Z -> bool).

Definition lex_get (l : lex_t) : res (Z * lex_t) := stream_get l.

(** The result of the append is not looked at. *)
Definition lex_save (c : Z) (l : lex_t) : res lex_t :=
  '(_, t) ← strbuffer_append_byte text_alloc (saved_text l) (u8 c); Ok (with_text t l).

Definition at_end (c : Z) : bool := (c =? STREAM_STATE_EOF) || (c =? STREAM_STATE_ERROR).

Definition lex_get_save (l : lex_t) : res (Z * lex_t) :=
  '(c, l) ← stream_get l;
  if at_end c then Ok (c, l) else l ← lex_save c l; Ok (c, l).

Definition lex_unget (c : Z) (l : lex_t) : res lex_t := s ← stream_unget c (stream l); Ok (with_stream s l).

Definition lex_unget_unsave (c : Z) (l : lex_t) : res lex_t :=
  if at_end c then Ok l else
  l ← lex_unget c l;
  '(d, t) ← strbuffer_pop (saved_text l);
  _ ← assert_ok (c =? schar d);
  Ok (with_text t l).

(** The rest of a UTF-8 sequence: at most five bytes. *)
Fixpoint save_cached (fuel : nat) (l : lex_t) : res lex_t :=
  match fuel with
  | O => NoFuel
  | S fuel =>
      let s := stream l in
      c ← char_at (buffer s) (buffer_pos s);
      if c =? 0 then Ok l else
      l ← lex_save (schar c) l;
      save_cached fuel (with_stream (MkStream (data s) (buffer s) (buffer_pos s + 1) (state s) (line s) (column s)
                                       (last_column s) (u64 (position s + 1))) l)
  end.
Definition lex_save_cached (l : lex_t) : res lex_t := save_cached 6 l.

Definition lex_free_string (l : lex_t) : lex_t := with_value (VString None 0) l.

(** *** Strings *)

Definition hex_digit (c : Z) : option Z :=
  if l_isdigit c then Some (c - 48) else if l_islower c then Some (c - 97 + 10) else if l_isupper c then Some (c - 65 + 10) else None.

(** [p] is the text from the character [u] on. *)
Definition decode_unicode_escape (p : list Z) : res Z :=
  u ← rd p 0; _ ← assert_ok (u =? 117);
  (fix go (n i : nat) (value : Z) := match n with
    | O => Ok value
    | S n =>
        c ← rd p i;
        match hex_digit (schar c) with
        | None => Ok (-1)
        | Some d => go n (S i) (Z.shiftl value 4 + d)
        end
    end) 4%nat 1%nat 0.

(** The loop that checks and saves the characters of a string; [false] for the exit [out]. *)
Fixpoint hex_run (n : nat) (c : Z) (l : lex_t) : res (bool * Z * lex_t) :=
  match n with
  | O => Ok (true, c, l)
  | S n =>
      if l_isxdigit c then '(c, l) ← lex_get_save l; hex_run n c l
      else l ← error_set (chars "invalid escape") l; Ok (false, c, l)
  end.

Definition simple_escape (c : Z) : bool :=
  (c =? 34) || (c =? 92) || (c =? 47) || (c =? 98) || (c =? 102) || (c =? 110) || (c =? 114) || (c =? 116).

Fixpoint string_loop (fuel : nat) (c : Z) (l : lex_t) : res (bool * lex_t) :=
  match fuel with
  | O => NoFuel
  | S fuel =>
      if c =? 34 then Ok (true, l) else
      if c =? STREAM_STATE_ERROR then Ok (false, l) else
      if c =? STREAM_STATE_EOF then l ← error_set (chars "premature end of input") l; Ok (false, l) else
      if (0 <=? c) && (c <=? 0x1F) then
        l ← lex_unget_unsave c l;
        l ← error_set (if c =? 10 then chars "unexpected newline" else chars "control character 0x" ++ fmt_x c) l;
        Ok (false, l)
      else if c =? 92 then
        '(c, l) ← lex_get_save l;
        if c =? 117 then
          '(c, l) ← lex_get_save l;
          '(ok, c, l) ← hex_run 4 c l;
          if negb ok then Ok (false, l) else string_loop fuel c l
        else if simple_escape c then '(c, l) ← lex_get_save l; string_loop fuel c l
        else l ← error_set (chars "invalid escape") l; Ok (false, l)
      else '(c, l) ← lex_get_save l; string_loop fuel c l
  end.

(** A code point into the block [t] at [i]. *)
Definition put_bytes (i : nat) (bs : list Z) (t : block Z) : res (block Z) := blk_store i (Some <$> bs) t.

(** [%.6s] of [p - 1]. *)
Definition six (p : list Z) : list Z := take 6 (upto_nul p).

(** One escape: [p] is the text behind the backslash [bs].  [inl]: the error message. *)
Definition unicode_escape (p : list Z) : res (list Z + (Z * list Z)) :=
  value ← decode_unicode_escape p;
  if value <? 0 then Ok (inl (chars "invalid Unicode escape '" ++ six (92 :: p) ++ chars "'")) else
  let p := drop 5 p in
  if (0xD800 <=? value) && (value <=? 0xDBFF) then
    c0 ← rd p 0;
    c1 ← (if c0 =? 92 then rd p 1 else Ok 0);
    if (c0 =? 92) && (c1 =? 117) then
      let p := drop 1 p in
      value2 ← decode_unicode_escape p;
      if value2 <? 0 then Ok (inl (chars "invalid Unicode escape '" ++ six (92 :: p) ++ chars "'")) else
      let p := drop 5 p in
      if (0xDC00 <=? value2) && (value2 <=? 0xDFFF) then
        Ok (inr (Z.shiftl (value - 0xD800) 10 + (value2 - 0xDC00) + 0x10000, p))
      else Ok (inl (chars "invalid Unicode '\u" ++ fmt_04X value ++ chars "\u" ++ fmt_04X value2 ++ chars "'"))
    else Ok (inl (chars "invalid Unicode '\u" ++ fmt_04X value ++ chars "'"))
  else if (0xDC00 <=? value) && (value <=? 0xDFFF) then
    Ok (inl (chars "invalid Unicode '\u" ++ fmt_04X value ++ chars "'"))
  else Ok (inr (value, p)).

Definition unescape (c : Z) : res Z :=
  if (c =? 34) || (c =? 92) || (c =? 47) then Ok c
  else if c =? 98 then Ok 8 else if c =? 102 then Ok 12 else if c =? 110 then Ok 10
  else if c =? 114 then Ok 13 else if c =? 116 then Ok 9 else UB.

(** The loop that copies the value into the block [t]; the text [p] ends in its quote.  [inl]: the error message. *)
Fixpoint copy_loop (fuel : nat) (p : list Z) (i : nat) (t : block Z) : res (list Z + (nat * block Z)) :=
  match fuel with
  | O => NoFuel
  | S fuel =>
      c ← rd p 0;
      if c =? 34 then Ok (inr (i, t)) else
      if c =? 92 then
        let p := drop 1 p in
        c ← rd p 0;
        if c =? 117 then
          r ← unicode_escape p;
          match r with
          | inl msg => Ok (inl msg)
          | inr (value, p) =>
              let '(r, bs) := utf8_encode value in
              _ ← assert_ok (r =? 0);
              t ← put_bytes i bs t; copy_loop fuel p (i + length bs) t
          end
        else v ← unescape c; t ← put_bytes i [v] t; copy_loop fuel (drop 1 p) (i + 1) t
      else t ← put_bytes i [c] t; copy_loop fuel (drop 1 p) (i + 1) t
  end.

(** [n] bounds the characters left. *)
Definition lex_scan_string (n : nat) (l : lex_t) : res lex_t :=
  let l := with_token TOKEN_INVALID (with_value (VString None 0) l) in
  '(c, l) ← lex_get_save l;
  '(ok, l) ← string_loop n c l;
  if negb (ok : bool) then Ok (lex_free_string l) else
  match jsonp_malloc alloc (u64 (sb_length (saved_text l) + 1)) with
  | None => Ok (lex_free_string l)
  | Some t =>
      v ← of_option (value (saved_text l));
      r ← copy_loop n (drop 1 (initialised v)) 0 t;
      match r with
      | inl msg => l ← error_set msg l; Ok (lex_free_string l)
      | inr (i, t) => t ← put_bytes i [0] t; Ok (with_token TOKEN_STRING (with_value (VString (Some t) (Z.of_nat i)) l))
      end
  end.

(** *** Numbers *)

Fixpoint digit_run (fuel : nat) (l : lex_t) : res (Z * lex_t) :=
  match fuel with
  | O => NoFuel
  | S fuel => '(c, l) ← lex_get_save l; if l_isdigit c then digit_run fuel l else Ok (c, l)
  end.

(** [inl]: the exit [out]; otherwise the character behind the integer part. *)
Definition scan_int (n : nat) (c : Z) (l : lex_t) : res (lex_t + (Z * lex_t)) :=
  '(c, l) ← (if c =? 45 then lex_get_save l else Ok (c, l));
  if c =? 48 then
    '(c, l) ← lex_get_save l;
    if l_isdigit c then l ← lex_unget_unsave c l; Ok (inl l) else Ok (inr (c, l))
  else if l_isdigit c then '(c, l) ← digit_run n l; Ok (inr (c, l))
  else l ← lex_unget_unsave c l; Ok (inl l).

Definition scan_integer (c : Z) (l : lex_t) : res (Z * lex_t) :=
  l ← lex_unget_unsave c l;
  s ← text_of (saved_text l);
  let '(intval, len, erange) := strtoll s in
  if erange : bool then
    l ← error_set (if intval <? 0 then chars "too big negative integer" else chars "too big integer") l; Ok (-1, l)
  else
    _ ← assert_ok (Z.of_nat len =? sb_length (saved_text l));
    Ok (0, with_value (VInteger intval) (with_token TOKEN_INTEGER l)).

(** The fraction and the exponent; [inl]: the exit [out]. *)
Definition scan_fraction (n : nat) (c : Z) (l : lex_t) : res (lex_t + (Z * lex_t)) :=
  if c =? 46 then
    '(c, l) ← lex_get l;
    if negb (l_isdigit c) then l ← lex_unget c l; Ok (inl l) else
    l ← lex_save c l;
    '(c, l) ← digit_run n l; Ok (inr (c, l))
  else Ok (inr (c, l)).

Definition scan_exponent (n : nat) (c : Z) (l : lex_t) : res (lex_t + (Z * lex_t)) :=
  if (c =? 69) || (c =? 101) then
    '(c, l) ← lex_get_save l;
    '(c, l) ← (if (c =? 43) || (c =? 45) then lex_get_save l else Ok (c, l));
    if negb (l_isdigit c) then l ← lex_unget_unsave c l; Ok (inl l) else
    '(c, l) ← digit_run n l; Ok (inr (c, l))
  else Ok (inr (c, l)).

Definition lex_scan_number (n : nat) (c : Z) (l : lex_t) : res (Z * lex_t) :=
  let l := with_token TOKEN_INVALID l in
  r ← scan_int n c l;
  match r with
  | inl l => Ok (-1, l)
  | inr (c, l) =>
      if negb (flag (lflags l) JSON_DECODE_INT_AS_REAL) && negb (c =? 46) && negb (c =? 69) && negb (c =? 101) then scan_integer c l else
      r ← scan_fraction n c l;
      match r with
      | inl l => Ok (-1, l)
      | inr (c, l) =>
          r ← scan_exponent n c l;
          match r with
          | inl l => Ok (-1, l)
          | inr (c, l) =>
              l ← lex_unget_unsave c l;
              d ← jsonp_strtod (saved_text l);
              match d with
              | None => l ← error_set (chars "real number overflow") l; Ok (-1, l)
              | Some x => Ok (0, with_value (VReal x) (with_token TOKEN_REAL l))
              end
          end
      end
  end.

(** *** Tokens *)

Definition is_blank (c : Z) : bool := (c =? 32) || (c =? 9) || (c =? 10) || (c =? 13).

Fixpoint skip_blanks (fuel : nat) (l : lex_t) : res (Z * lex_t) :=
  match fuel with
  | O => NoFuel
  | S fuel => '(c, l) ← lex_get l; if is_blank c then skip_blanks fuel l else Ok (c, l)
  end.

Fixpoint alpha_run (fuel : nat) (l : lex_t) : res (Z * lex_t) :=
  match fuel with
  | O => NoFuel
  | S fuel => '(c, l) ← lex_get_save l; if l_isalpha c then alpha_run fuel l else Ok (c, l)
  end.

Definition is_punct (c : Z) : bool := (c =? 123) || (c =? 125) || (c =? 91) || (c =? 93) || (c =? 58) || (c =? 44).

Definition word_token (s : list Z) : Z :=
  if decide (s = chars "true") then TOKEN_TRUE else if decide (s = chars "false") then TOKEN_FALSE
  else if decide (s = chars "null") then TOKEN_NULL else TOKEN_INVALID.

Definition free_old_string (l : lex_t) : lex_t := if token l =? TOKEN_STRING then lex_free_string l else l.

Definition lex_scan (n : nat) (l : lex_t) : res lex_t :=
  t ← strbuffer_clear (saved_text l);
  let l := free_old_string (with_text t l) in
  '(c, l) ← skip_blanks n l;
  if c =? STREAM_STATE_EOF then Ok (with_token TOKEN_EOF l) else
  if c =? STREAM_STATE_ERROR then Ok (with_token TOKEN_INVALID l) else
  l ← lex_save c l;
  if is_punct c then Ok (with_token c l)
  else if c =? 34 then lex_scan_string n l
  else if l_isdigit c || (c =? 45) then '(_, l) ← lex_scan_number n c l; Ok l
  else if l_isalpha c then
    '(c, l) ← alpha_run n l;
    l ← lex_unget_unsave c l;
    s ← text_of (saved_text l);
    Ok (with_token (word_token s) l)
  else l ← lex_save_cached l; Ok (with_token TOKEN_INVALID l).

Definition lex_steal_string (l : lex_t) : res (option (block Z) * Z * lex_t) :=
  if token l =? TOKEN_STRING then
    match lvalue l with
    | VString val len => Ok (val, len, with_value (VString None 0) l)
    | _ => UB
    end
  else Ok (None, 0, l).

Definition lex_init (flags : Z) (d : D) (e : option json_error_t) : res (option lex_t) :=
  '(r, t) ← strbuffer_init text_alloc;
  if negb (r =? 0) then Ok None else Ok (Some (MkLex (stream_init d) t flags 0 TOKEN_INVALID VNone e)).

Definition lex_close (l : lex_t) : lex_t := with_text (strbuffer_close (saved_text l)) (free_old_string l).
End source.
Arguments stream_t : clear implicits.
Arguments lex_t : clear implicits.

(** ** The sources *)

(** A C string, with its zero byte behind it; the index is an [int]. *)
Record string_data_t := MkString { sdata : list Z; spos : Z }.
Definition string_get (s : string_data_t) : res (Z * string_data_t) :=
  c ← rd (sdata s ++ [0]) (Z.to_nat (spos s));
  if c =? 0 then Ok (-1, s) else pos ← int_op (spos s + 1); Ok (c, MkString (sdata s) pos).

Record buffer_data_t := MkBuffer { bdata : list Z; blen : Z; bpos : Z }.
Definition buffer_get (s : buffer_data_t) : res (Z * buffer_data_t) :=
  if bpos s >=? blen s then Ok (-1, s) else
  c ← rd (bdata s) (Z.to_nat (bpos s)); Ok (c, MkBuffer (bdata s) (blen s) (bpos s + 1)).

(** A callback fills a buffer of 1024 bytes; [calls] is what it will answer: the bytes, or [None] for [(size_t)-1]. *)
Record callback_data_t := MkCallback { cdata : list Z; cpos : Z; calls : list (option (list Z)) }.
Definition callback_get (s : callback_data_t) : res (Z * callback_data_t) :=
  if cpos s >=? Z.of_nat (length (cdata s)) then
    match calls s with
    | Some (c :: r) :: calls => Ok (c, MkCallback (c :: r) 1 calls)
    | Some [] :: calls => Ok (-1, MkCallback [] 0 calls)
    | None :: calls => Ok (-1, MkCallback (cdata s) 0 calls)
    | [] => Ok (-1, MkCallback [] 0 [])
    end
  else c ← rd (cdata s) (Z.to_nat (cpos s)); Ok (c, MkCallback (cdata s) (cpos s + 1) (calls s)).
