(* ===== verification/JsonLoad.v ===== *)
(** * Reading JSON: the parser

    The second half of [common/jansson/load.c], over the lexer of [JsonLex] and the values of [Json]. *)

From Stdlib Require Import SpecFloat.
From S2P Require Import Prelude Utf Strbuf ObjectTable Hashtable Json JsonTree JsonLex.

Section parser.
Context {OT : ObjectTable} {D : Type} (get : D -> res (Z * D)) (text_alloc : Z -> bool) (alloc : Z -> Z -> bool).

Definition JSON_PARSER_MAX_DEPTH : Z := 2048.

(** Reading the next token in the heap [h]; [n] bounds the characters of a token. *)
Definition scan (n : nat) (l : lex_t D) (h : jheap) : res (lex_t D) := lex_scan get text_alloc (alloc (next h)) n l.

(** [memchr(s, 0, len)]. *)
Definition has_nul (v : block Z) (len : Z) : res bool :=
  bytes ← blk_load 0 (Z.to_nat len) v; Ok (bool_decide (0 ∈ bytes)).

(** The exits [error] of [parse_object] and [parse_array]. *)
Definition fail_with (container : Z) (msg : option (list Z)) (l : lex_t D) (h : jheap) : res (Z * lex_t D * jheap) :=
  l ← match msg with Some msg => error_set msg l | None => Ok l end;
  h ← decref container h; Ok (NULL, l, h).

Fixpoint parse_value (fuel n : nat) (flags : Z) (l : lex_t D) (h : jheap) : res (Z * lex_t D * jheap) :=
  match fuel with
  | O => NoFuel
  | S fuel =>
      let l := with_depth (u64 (ldepth l + 1)) l in
      if ldepth l >? JSON_PARSER_MAX_DEPTH then l ← error_set (chars "maximum parsing depth reached") l; Ok (NULL, l, h) else
      '(json, l, h) ←
        (if token l =? TOKEN_STRING then
           match lvalue l with
           | VString val len =>
               v ← of_option val;
               nul ← (if negb (flag flags JSON_ALLOW_NUL) then has_nul v len else Ok false);
               if nul : bool then
                 l ← error_set (chars "\u0000 is not allowed without JSON_ALLOW_NUL") l; Ok (NULL, l, h)
               else
                 '(json, h) ← jsonp_stringn_nocheck_own alloc val len h;
                 Ok (json, if json =? NULL then l else with_value (VString None 0) l, h)
           | _ => UB
           end
         else if token l =? TOKEN_INTEGER then
           match lvalue l with VInteger n => let '(json, h) := json_integer alloc n h in Ok (json, l, h) | _ => UB end
         else if token l =? TOKEN_REAL then
           match lvalue l with VReal x => let '(json, h) := json_real alloc x h in Ok (json, l, h) | _ => UB end
         else if token l =? TOKEN_TRUE then Ok (json_true, l, h)
         else if token l =? TOKEN_FALSE then Ok (json_false, l, h)
         else if token l =? TOKEN_NULL then Ok (json_null, l, h)
         else if token l =? 123 then
           '(object, h) ← json_object alloc h;
           if object =? NULL then Ok (NULL, l, h) else
           l ← scan n l h;
           if token l =? 125 then Ok (object, l, h) else parse_members fuel n flags object l h
         else if token l =? 91 then
           '(array, h) ← json_array alloc h;
           if array =? NULL then Ok (NULL, l, h) else
           l ← scan n l h;
           if token l =? 93 then Ok (array, l, h) else parse_elements fuel n flags array l h
         else if token l =? TOKEN_INVALID then l ← error_set (chars "invalid token") l; Ok (NULL, l, h)
         else l ← error_set (chars "unexpected token") l; Ok (NULL, l, h));
      if json =? NULL then Ok (NULL, l, h) else Ok (json, with_depth (u64 (ldepth l - 1)) l, h)
  end
(** The loop of [parse_object]. *)
with parse_members (fuel n : nat) (flags object : Z) (l : lex_t D) (h : jheap) : res (Z * lex_t D * jheap) :=
  match fuel with
  | O => NoFuel
  | S fuel =>
      if negb (token l =? TOKEN_STRING) then fail_with object (Some (chars "string or '}' expected")) l h else
      '(stolen, len, l) ← lex_steal_string l;
      match stolen with
      | None => Ok (NULL, l, h)
      | Some key =>
          nul ← has_nul key len;
          if nul : bool then fail_with object (Some (chars "NUL byte in object key not supported")) l h else
          key ← c_text key;
          old ← (if flag flags JSON_REJECT_DUPLICATES then json_object_get object (Some key) h else Ok NULL);
          if negb (old =? NULL) then fail_with object (Some (chars "duplicate object key")) l h else
          l ← scan n l h;
          if negb (token l =? 58) then fail_with object (Some (chars "':' expected")) l h else
          l ← scan n l h;
          '(val, l, h) ← parse_value fuel n flags l h;
          if val =? NULL then fail_with object None l h else
          '(r, h) ← json_object_set_nocheck alloc object (Some key) val h;
          h ← decref val h;
          if negb (r =? 0) then fail_with object None l h else
          l ← scan n l h;
          if token l =? 44 then l ← scan n l h; parse_members fuel n flags object l h
          else if token l =? 125 then Ok (object, l, h)
          else fail_with object (Some (chars "'}' expected")) l h
      end
  end
(** The loop of [parse_array]. *)
with parse_elements (fuel n : nat) (flags array : Z) (l : lex_t D) (h : jheap) : res (Z * lex_t D * jheap) :=
  match fuel with
  | O => NoFuel
  | S fuel =>
      let last := fun l h => if token l =? 93 then Ok (array, l, h) else fail_with array (Some (chars "']' expected")) l h in
      if token l =? TOKEN_EOF then last l h else
      '(elem, l, h) ← parse_value fuel n flags l h;
      if elem =? NULL then fail_with array None l h else
      '(r, h) ← json_array_append alloc array elem h;
      h ← decref elem h;
      if negb (r =? 0) then fail_with array None l h else
      l ← scan n l h;
      if token l =? 44 then l ← scan n l h; parse_elements fuel n flags array l h else last l h
  end.

(** The fuel for an input of [n] bytes: a round of a loop reads a token, a nested value a character. *)
Definition parse_fuel (n : nat) : nat := 2 * n + 5.

Definition parse_json (n : nat) (flags : Z) (l : lex_t D) (h : jheap) : res (Z * lex_t D * jheap) :=
  let l := with_depth 0 l in
  l ← scan (n + 2) l h;
  if negb (flag flags JSON_DECODE_ANY) && negb (token l =? 91) && negb (token l =? 123) then
    l ← error_set (chars "'[' or '{' expected") l; Ok (NULL, l, h)
  else
    '(result, l, h) ← parse_value (parse_fuel n) (n + 2) flags l h;
    if result =? NULL then Ok (NULL, l, h) else
    let finish := fun l h =>
      let e := match lerror l with
               | Some e => Some (MkError (e_line e) (e_column e) (i32 (position (stream l))) (e_source e) (e_text e))
               | None => None
               end in Ok (result, with_error e l, h) in
    if flag flags JSON_DISABLE_EOF_CHECK then finish l h else
    l ← scan (n + 2) l h;
    if negb (token l =? TOKEN_EOF) then
      l ← error_set (chars "end of file expected") l; h ← decref result h; Ok (NULL, l, h)
    else finish l h.

(** The loaders differ in their source only. *)
Definition load (n : nat) (d : D) (flags : Z) (e : option json_error_t) (h : jheap) : res (Z * option json_error_t * jheap) :=
  l ← lex_init text_alloc flags d e;
  match l with
  | None => Ok (NULL, e, h)
  | Some l => '(result, l, h) ← parse_json n flags l h; Ok (result, lerror (lex_close l), h)
  end.
End parser.

(** A NULL input gives the error "wrong arguments". *)
Definition wrong_arguments (e : option json_error_t) : option json_error_t := jsonp_error_set (-1) (-1) 0 (chars "wrong arguments") e.

Section loaders.
Context {OT : ObjectTable} (text_alloc : Z -> bool) (alloc : Z -> Z -> bool).

Definition json_loads (string : option (list Z)) (flags : Z) (e : option json_error_t) (h : jheap) : res (Z * option json_error_t * jheap) :=
  let e := jsonp_error_init (Some (chars "<string>")) e in
  match string with
  | None => Ok (NULL, wrong_arguments e, h)
  | Some s => load string_get text_alloc alloc (length s) (MkString s 0) flags e h
  end.

Definition json_loadb (buffer : option (list Z)) (buflen : Z) (flags : Z) (e : option json_error_t) (h : jheap) : res (Z * option json_error_t * jheap) :=
  let e := jsonp_error_init (Some (chars "<buffer>")) e in
  match buffer with
  | None => Ok (NULL, wrong_arguments e, h)
  | Some b => load buffer_get text_alloc alloc (Z.to_nat buflen) (MkBuffer b buflen 0) flags e h
  end.

Definition json_load_callback (callback : option (list (option (list Z)))) (flags : Z) (e : option json_error_t) (h : jheap) : res (Z * option json_error_t * jheap) :=
  let e := jsonp_error_init (Some (chars "<callback>")) e in
  match callback with
  | None => Ok (NULL, wrong_arguments e, h)
  | Some calls => load callback_get text_alloc alloc (length (concat (omap id calls))) (MkCallback [] 0 calls) flags e h
  end.
End loaders.

(** Loading with the hash tables of the library. *)
Definition loads (text : string) : res (Z * option json_error_t * jheap) :=
  json_loads (OT := hashtable_objects 7) (fun _ => true) (fun _ _ => true) (Some (chars text)) 0 (Some (MkError 0 0 0 [] [])) empty_heap.
