(* ===== verification/JsonText.v ===== *)
(** * JSON texts

    What a JSON text denotes, as functions on lists of bytes without streams, buffers, addresses or errors: the tokens of
    a text, and a parser that returns a tree.  [JsonParse] shows that the functions of [load.c] compute this; here are
    the facts about it that need no machine: reading ends, and what is read is well typed. *)

From Stdlib Require Import SpecFloat.
From S2P Require Import Prelude Utf ObjectTable Json JsonTree JsonLex JsonLoad.

(** ** Characters *)

(** The text up to the first byte that cannot be read as UTF-8, and the rest. *)
Fixpoint utf8_split (fuel : nat) (s : list Z) : list Z * list Z :=
  match fuel, s with
  | S fuel, _ :: _ =>
      match utf8_iterate s (Z.of_nat (length s)) with
      | Ok (Some (n, Some _)) => let '(u, bad) := utf8_split fuel (drop (Z.to_nat n) s) in (take (Z.to_nat n) s ++ u, bad)
      | _ => ([], s)
      end
  | _, _ => ([], s)
  end.

(** ** Tokens *)

Inductive tok :=
| KEnd
| KBad
| KPunct (c : Z)
| KString (s : list Z)
| KInteger (n : Z)
| KReal (x : spec_float)
| KTrue
| KFalse
| KNull.

(** The text of a string up to its quote, and the text behind the quote. *)
Fixpoint string_end (s : list Z) : option (list Z * list Z) :=
  match s with
  | [] => None
  | c :: r =>
      if c =? 34 then Some ([], r) else if c <=? 0x1F then None else
      if c =? 92 then
        match r with
        | [] => None
        | e :: r1 =>
            if e =? 117 then
              match r1 with
              | a :: b :: c' :: d :: r2 =>
                  if l_isxdigit a && l_isxdigit b && l_isxdigit c' && l_isxdigit d
                  then prod_map (app [92; 117; a; b; c'; d]) id <$> string_end r2 else None
              | _ => None
              end
            else if simple_escape e then prod_map (app [92; e]) id <$> string_end r1 else None
        end
      else prod_map (cons c) id <$> string_end r
  end.

Definition hex_value (c : Z) : Z := default 0 (hex_digit c).
Definition hex4 (a b c d : Z) : Z := ((hex_value a * 16 + hex_value b) * 16 + hex_value c) * 16 + hex_value d.
Definition high_surrogate (v : Z) : bool := (0xD800 <=? v) && (v <=? 0xDBFF).
Definition low_surrogate (v : Z) : bool := (0xDC00 <=? v) && (v <=? 0xDFFF).

Definition unescaped (e : Z) : Z :=
  if e =? 98 then 8 else if e =? 102 then 12 else if e =? 110 then 10 else if e =? 114 then 13 else if e =? 116 then 9 else e.

(** The value of a string's text. *)
Fixpoint text_value (s : list Z) : option (list Z) :=
  match s with
  | [] => Some []
  | c :: r =>
      if c =? 92 then
        match r with
        | [] => None
        | e :: r1 =>
            if e =? 117 then
              match r1 with
              | a :: b :: c' :: d :: r2 =>
                  let v := hex4 a b c' d in
                  if high_surrogate v then
                    match r2 with
                    | x :: y :: a2 :: b2 :: c2 :: d2 :: r3 =>
                        let v2 := hex4 a2 b2 c2 d2 in
                        if (x =? 92) && (y =? 117) && low_surrogate v2
                        then app (encoding (0x10000 + (v - 0xD800) * 1024 + (v2 - 0xDC00))) <$> text_value r3 else None
                    | _ => None
                    end
                  else if low_surrogate v then None else app (encoding v) <$> text_value r2
              | _ => None
              end
            else cons (unescaped e) <$> text_value r1
        end
      else cons c <$> text_value r
  end.

Definition string_token (s : list Z) : tok * list Z :=
  match string_end s with
  | None => (KBad, [])
  | Some (body, r) => match text_value body with Some v => (KString v, r) | None => (KBad, []) end
  end.

(** The parts of a number: sign, digits, fraction and exponent, each with the rest. *)
Definition int_part (s : list Z) : option (list Z * list Z) :=
  match s with
  | c :: r =>
      if c =? 48 then if l_isdigit (hd 0 r) then None else Some ([48], r)
      else if l_isdigit c then let '(d, r) := digits_of r in Some (c :: d, r) else None
  | [] => None
  end.

Definition frac_part (s : list Z) : option (list Z * list Z) :=
  match s with
  | c :: r =>
      if c =? 46 then
        if l_isdigit (hd 0 r) then let '(d, r) := digits_of r in Some (46 :: d, r) else None
      else Some ([], s)
  | [] => Some ([], [])
  end.

Definition exp_part (s : list Z) : option (list Z * list Z) :=
  match s with
  | c :: r =>
      if (c =? 69) || (c =? 101) then
        let '(sg, r) := match r with x :: r' => if (x =? 43) || (x =? 45) then ([x], r') else ([], r) | [] => ([], []) end in
        if l_isdigit (hd 0 r) then let '(d, r) := digits_of r in Some (c :: sg ++ d, r) else None
      else Some ([], s)
  | [] => Some ([], [])
  end.

Definition minus_part (s : list Z) : list Z * list Z := match s with c :: r => if c =? 45 then ([45], r) else ([], s) | [] => ([], []) end.

(** A number without a fraction and an exponent is an integer, unless integers are read as reals. *)
Definition number_token (as_real : bool) (s : list Z) : tok * list Z :=
  let '(sg, r) := minus_part s in
  match int_part r with
  | None => (KBad, [])
  | Some (i, r) =>
      let c := hd 0 r in
      if negb as_real && negb (c =? 46) && negb (c =? 69) && negb (c =? 101) then
        let '(n, _, erange) := strtoll (sg ++ i) in if erange : bool then (KBad, []) else (KInteger n, r)
      else
        match frac_part r with
        | None => (KBad, [])
        | Some (f, r) =>
            match exp_part r with
            | None => (KBad, [])
            | Some (e, r) =>
                let x := (strtod (sg ++ i ++ f ++ e)).1 in if isinf x then (KBad, []) else (KReal x, r)
            end
        end
  end.

Fixpoint alphas (s : list Z) : list Z * list Z :=
  match s with c :: r => if l_isalpha c then let '(w, r) := alphas r in (c :: w, r) else ([], s) | [] => ([], []) end.

Definition word_tok (w : list Z) : tok :=
  if decide (w = chars "true") then KTrue else if decide (w = chars "false") then KFalse
  else if decide (w = chars "null") then KNull else KBad.

Fixpoint skip_blank (s : list Z) : list Z := match s with c :: r => if is_blank c then skip_blank r else s | [] => [] end.

Section reading.
Context (flags : Z) (clean : bool).

(** The next token and the text behind it; [clean] tells whether the end of the text is the end of the input. *)
Definition next_token (s : list Z) : tok * list Z :=
  match skip_blank s with
  | [] => (if clean then KEnd else KBad, [])
  | c :: r =>
      if is_punct c then (KPunct c, r)
      else if c =? 34 then string_token r
      else if l_isdigit c || (c =? 45) then number_token (flag flags JSON_DECODE_INT_AS_REAL) (c :: r)
      else if l_isalpha c then let '(w, r) := alphas (c :: r) in (word_tok w, r)
      else (KBad, [])
  end.

Definition is_tok (c : Z) (k : tok) : bool := match k with KPunct x => x =? c | _ => false end.

(** ** Values

    The token [k] has been read, the text [s] is behind it; [d] is the depth.  [None] for what is not a value. *)
Fixpoint read_value (fuel : nat) (d : Z) (k : tok) (s : list Z) : res (option (json * list Z)) :=
  match fuel with
  | O => NoFuel
  | S fuel =>
      if d + 1 >? JSON_PARSER_MAX_DEPTH then Ok None else
      match k with
      | KString v => Ok (if negb (flag flags JSON_ALLOW_NUL) && bool_decide (0 ∈ v) then None else Some (TString v, s))
      | KInteger n => Ok (Some (TInteger n, s))
      | KReal x => Ok (if isnan x || isinf x then None else Some (TReal x, s))
      | KTrue => Ok (Some (TTrue, s))
      | KFalse => Ok (Some (TFalse, s))
      | KNull => Ok (Some (TNull, s))
      | KPunct c =>
          let '(k, r) := next_token s in
          if c =? 123 then if is_tok 125 k then Ok (Some (TObject [], r)) else read_members fuel (d + 1) [] k r
          else if c =? 91 then if is_tok 93 k then Ok (Some (TArray [], r)) else read_elements fuel (d + 1) [] k r
          else Ok None
      | KEnd | KBad => Ok None
      end
  end
with read_members (fuel : nat) (d : Z) (ms : list (list Z * json)) (k : tok) (s : list Z) : res (option (json * list Z)) :=
  match fuel with
  | O => NoFuel
  | S fuel =>
      match k with
      | KString key =>
          if bool_decide (0 ∈ key) then Ok None else
          if flag flags JSON_REJECT_DUPLICATES && bool_decide (is_Some (assoc key ms)) then Ok None else
          let '(k, s) := next_token s in
          if negb (is_tok 58 k) then Ok None else
          let '(k, s) := next_token s in
          v ← read_value fuel d k s;
          match v with
          | None => Ok None
          | Some (t, s) =>
              let ms := assoc_set key t ms in
              let '(k, s) := next_token s in
              if is_tok 44 k then let '(k, s) := next_token s in read_members fuel d ms k s
              else Ok (if is_tok 125 k then Some (TObject ms, s) else None)
          end
      | _ => Ok None
      end
  end
with read_elements (fuel : nat) (d : Z) (ts : list json) (k : tok) (s : list Z) : res (option (json * list Z)) :=
  match fuel with
  | O => NoFuel
  | S fuel =>
      match k with
      | KEnd => Ok None
      | _ =>
          v ← read_value fuel d k s;
          match v with
          | None => Ok None
          | Some (t, s) =>
              let '(k, s) := next_token s in
              if is_tok 44 k then let '(k, s) := next_token s in read_elements fuel d (ts ++ [t]) k s
              else Ok (if is_tok 93 k then Some (TArray (ts ++ [t]), s) else None)
          end
      end
  end.

(** A whole text, of [n] bytes. *)
Definition read_text (n : nat) (s : list Z) : res (option json) :=
  let '(k, s) := next_token s in
  if negb (flag flags JSON_DECODE_ANY) && negb (is_tok 91 k) && negb (is_tok 123 k) then Ok None else
  v ← read_value (parse_fuel n) 0 k s;
  Ok match v with
     | None => None
     | Some (t, s) =>
         if flag flags JSON_DISABLE_EOF_CHECK then Some t
         else match (next_token s).1 with KEnd => Some t | _ => None end
     end.
End reading.

(** What a text denotes under the flags. *)
Definition read (flags : Z) (s : list Z) : res (option json) :=
  let '(u, bad) := utf8_split (length s) s in read_text flags (bool_decide (bad = [])) (length s) u.

(** ** What is read of a text *)

Definition ascii (c : Z) : Prop := 0 <= c < 0x80.

Lemma digit_ascii c : l_isdigit c = true -> ascii c.
Proof. unfold l_isdigit, ascii. intros H. lia. Qed.

Lemma alpha_ascii c : l_isalpha c = true -> ascii c.
Proof. unfold l_isalpha, l_isupper, l_islower, ascii. intros H. lia. Qed.

Lemma blank_ascii c : is_blank c = true -> ascii c.
Proof. unfold is_blank, ascii. intros H. lia. Qed.

Lemma xdigit_ascii c : l_isxdigit c = true -> ascii c.
Proof. unfold l_isxdigit, l_isdigit, ascii. intros H. lia. Qed.

Lemma punct_ascii c : is_punct c = true -> ascii c.
Proof. unfold is_punct, ascii. intros H. lia. Qed.

(** The C string in a block. *)
Lemma c_text_spec s v : blk_holds (s ++ [0]) v -> 0 ∉ s -> c_text v = Ok s.
Proof.
  intros [r ->] Hs. induction s as [| c s IH]; cbn; [done |]. apply not_elem_of_cons in Hs as [Hc Hs].
  rewrite (proj2 (Z.eqb_neq c 0)) by congruence. cbn in IH. by rewrite (IH Hs).
Qed.

Lemma key_bytes_utf8 k : is_utf8 k -> key_bytes k.
Proof. intros H%is_utf8_range. eapply Forall_impl; [exact H |]. unfold is_byte. cbn. lia. Qed.

Lemma digits_spec s d r : digits_of s = (d, r) ->
  s = d ++ r /\ Forall (fun c => l_isdigit c = true) d /\ l_isdigit (hd 0 r) = false.
Proof.
  revert d r; induction s as [| c s IH]; cbn; intros d r H; [by injection H as <- <- |].
  destruct (l_isdigit c) eqn:E; [| by injection H as <- <-].
  destruct (digits_of s) as [d' r']. injection H as <- <-. destruct (IH _ _ eq_refl) as (-> & Hd & Hr). split_and!; [done | by constructor | done].
Qed.

Lemma alphas_spec s w r : alphas s = (w, r) ->
  s = w ++ r /\ Forall (fun c => l_isalpha c = true) w /\ l_isalpha (hd 0 r) = false.
Proof.
  revert w r; induction s as [| c s IH]; cbn; intros d r H; [by injection H as <- <- |].
  destruct (l_isalpha c) eqn:E; [| by injection H as <- <-].
  destruct (alphas s) as [d' r']. injection H as <- <-. destruct (IH _ _ eq_refl) as (-> & Hd & Hr). split_and!; [done | by constructor | done].
Qed.

Lemma skip_blank_spec s : exists w, s = w ++ skip_blank s /\ Forall (fun c => is_blank c = true) w /\ is_blank (hd 0 (skip_blank s)) = false.
Proof.
  induction s as [| c s IH]; cbn; [by exists [] |]. destruct (is_blank c) eqn:E; [| by exists []].
  destruct IH as (w & E' & Hw & Hh). exists (c :: w). split_and!; [cbn; by f_equal | by constructor | done].
Qed.

(** The text of a string: characters, and escapes. *)
Inductive escaped : list Z -> Prop :=
| esc_nil : escaped []
| esc_char c s : c <> 34 -> c <> 92 -> 0x1F < c -> escaped s -> escaped (c :: s)
| esc_simple e s : simple_escape e = true -> escaped s -> escaped (92 :: e :: s)
| esc_unicode a b c d s : l_isxdigit a = true -> l_isxdigit b = true -> l_isxdigit c = true -> l_isxdigit d = true ->
    escaped s -> escaped (92 :: 117 :: a :: b :: c :: d :: s).

Lemma string_end_spec n : forall s b r, (length s <= n)%nat -> string_end s = Some (b, r) -> s = b ++ 34 :: r /\ escaped b.
Proof.
  induction n as [| n IH]; intros [| c s] b r Hl H; try done; [cbn in Hl; lia |]. cbn in Hl, H.
  destruct (Z.eqb_spec c 34) as [-> | Hc]; [injection H as <- <-; split; [done | constructor] |].
  destruct (Z.leb_spec c 0x1F); [done |].
  destruct (Z.eqb_spec c 92) as [-> | Hc'].
  - destruct s as [| e s]; [done |]. destruct (Z.eqb_spec e 117) as [-> | He].
    + destruct s as [| x1 [| x2 [| x3 [| x4 s]]]]; try done. destruct (_ && _) eqn:Ex; [| done].
      apply andb_true_iff in Ex as [[[E1 E2]%andb_true_iff E3]%andb_true_iff E4].
      destruct (string_end s) as [[b' r'] |] eqn:E; [| done]. injection H as <- <-.
      destruct (IH s b' r') as [-> Hb]; [cbn in Hl; lia | done |]. split; [done | by constructor].
    + destruct (simple_escape e) eqn:Es; [| done]. destruct (string_end s) as [[b' r'] |] eqn:E; [| done]. injection H as <- <-.
      destruct (IH s b' r') as [-> Hb]; [cbn in Hl; lia | done |]. split; [done | by constructor].
  - destruct (string_end s) as [[b' r'] |] eqn:E; [| done]. injection H as <- <-.
    destruct (IH s b' r') as [-> Hb]; [lia | done |]. split; [done | by constructor].
Qed.

(** And back. *)
Lemma string_end_escaped b r : escaped b -> string_end (b ++ 34 :: r) = Some (b, r).
Proof.
  induction 1 as [| c s H1 H2 H3 Hs IH | e s He Hs IH | a b' c d s Ha Hb Hc Hd Hs IH]; cbn [app string_end]; [done | | |].
  - rewrite (proj2 (Z.eqb_neq _ _) H1), (proj2 (Z.eqb_neq _ _) H2), (proj2 (Z.leb_gt _ _)) by lia. by rewrite IH.
  - assert (e =? 117 = false) as -> by (unfold simple_escape in He; lia). cbn [Z.eqb Pos.eqb Z.leb Z.compare Pos.compare Pos.compare_cont]. rewrite He. by rewrite IH.
  - cbn [Z.eqb Pos.eqb Z.leb Z.compare Pos.compare Pos.compare_cont]. rewrite Ha, Hb, Hc, Hd. cbn [andb]. by rewrite IH.
Qed.

(** An induction for [text_value], which looks at up to twelve bytes: on the length. *)
Lemma length_ind_bytes (P : list Z -> Prop) : (forall s, (forall s', (length s' < length s)%nat -> P s') -> P s) -> forall s, P s.
Proof.
  intros H s. enough (forall n s, (length s <= n)%nat -> P s) by eauto. clear s. intros n.
  induction n as [| n IH]; intros s Hl; apply H; intros s' Hs; [lia |]. apply IH. lia.
Qed.

Lemma hex_value_range c : l_isxdigit c = true -> 0 <= hex_value c < 16.
Proof.
  unfold l_isxdigit, hex_value, hex_digit, l_isdigit, l_islower, l_isupper. intros H.
  repeat case_match; cbn; lia.
Qed.

Lemma hex4_range a b c d : l_isxdigit a = true -> l_isxdigit b = true -> l_isxdigit c = true -> l_isxdigit d = true -> 0 <= hex4 a b c d < 65536.
Proof. unfold hex4. intros Ha%hex_value_range Hb%hex_value_range Hc%hex_value_range Hd%hex_value_range. lia. Qed.

Lemma unescaped_ascii e : simple_escape e = true -> ascii (unescaped e).
Proof. unfold simple_escape, unescaped, ascii. intros H. repeat case_match; lia. Qed.

Lemma fmap_Some_app {A} (f : list A -> list A) (o : option (list A)) v : f <$> o = Some v -> exists w, o = Some w /\ v = f w.
Proof. destruct o; [| done]. cbn. intros [= <-]. eauto. Qed.

Lemma surrogates_scalar v v2 : high_surrogate v = true -> low_surrogate v2 = true -> scalar (0x10000 + (v - 0xD800) * 1024 + (v2 - 0xDC00)).
Proof. unfold high_surrogate, low_surrogate, scalar. lia. Qed.

(** Bytes other than backslashes are copied. *)
Lemma text_value_copy l w : Forall (fun b => b <> 92) l -> text_value (l ++ w) = app l <$> text_value w.
Proof.
  induction l as [| y l IH]; intros Hl; [cbn; by destruct (text_value w) |]. apply Forall_cons in Hl as [Hy Hl].
  cbn [app text_value]. rewrite (proj2 (Z.eqb_neq _ _) Hy), IH by done. by destruct (text_value w).
Qed.

Lemma escaped_behind l w : Forall (fun b => b <> 92) l -> escaped (l ++ w) -> escaped w.
Proof.
  induction l as [| y l IH]; [done |]. intros Hn H. apply Forall_cons in Hn as [Hy Hn]. inversion H; subst; try congruence. auto.
Qed.

Lemma encoding_no_backslash x : scalar x -> x <> 92 -> Forall (fun b => b <> 92) (encoding x).
Proof. intros Hx Hn. eapply Forall_impl; [by apply encoding_range |]. cbn. intros b [? Hb] ->. specialize (Hb ltac:(lia)). congruence. Qed.

Lemma unicode_ascii a b c d : l_isxdigit a = true -> l_isxdigit b = true -> l_isxdigit c = true -> l_isxdigit d = true ->
  Forall (fun c => 0 <= c < 0x80) [92; 117; a; b; c; d].
Proof. intros Ha Hb Hc Hd. repeat apply Forall_cons_2; [lia | lia | by apply xdigit_ascii .. | constructor]. Qed.

(** The values of well-formed texts are UTF-8. *)
Lemma text_value_utf8 s : forall v, escaped s -> is_utf8 s -> text_value s = Some v -> is_utf8 v.
Proof.
  induction s as [s IH] using length_ind_bytes. intros v He Hu Hv.
  destruct He as [| c s H1 H2 H3 Hs | e s He Hs | a b c d s Ha Hb Hc Hd Hs].
  - injection Hv as <-. apply is_utf8_nil.
  - destruct Hu as ([| x cs] & Hcs & E); [done |]. apply Forall_cons in Hcs as [Hx Hcs]. cbn in E.
    assert (Hne : Forall (fun b => b <> 92) (encoding x)) by (apply encoding_no_backslash; [done |]; intros ->; injection E as ?; congruence).
    rewrite E, text_value_copy in Hv by done. apply fmap_Some_app in Hv as (w & Hw & ->). apply is_utf8_cons; [done |].
    apply (IH (concat (map encoding cs))); [| | by exists cs | done].
    + rewrite E, length_app. pose proof (encoding_nonempty x). destruct (encoding x); [done | cbn; lia].
    + apply (escaped_behind (encoding x)); [done |]. rewrite <- E. by constructor.
  - assert (Hu' : is_utf8 s).
    { apply (is_utf8_app_ascii [92; e]); [| exact Hu]. repeat constructor; unfold simple_escape in He; lia. }
    cbn [text_value] in Hv. assert (e =? 117 = false) as Ee by (unfold simple_escape in He; lia). cbn [Z.eqb Pos.eqb] in Hv. rewrite Ee in Hv.
    apply fmap_Some_app in Hv as (w & Hw & ->). apply (is_utf8_app_ascii [unescaped e]); [repeat constructor; by apply unescaped_ascii in He as [? ?] |].
    apply (IH s); [cbn; lia | done ..].
  - assert (Hu' : is_utf8 s) by (apply (is_utf8_app_ascii [92; 117; a; b; c; d]); [by apply unicode_ascii | exact Hu]).
    cbn [text_value] in Hv. cbn [Z.eqb Pos.eqb] in Hv. pose proof (hex4_range a b c d Ha Hb Hc Hd) as Hr.
    destruct (high_surrogate (hex4 a b c d)) eqn:Eh.
    + destruct s as [| x [| y [| a2 [| b2 [| c2 [| d2 s]]]]]]; try done. destruct (_ && _) eqn:Ex in Hv; [| done].
      apply andb_true_iff in Ex as [[E1 E2]%andb_true_iff El]. apply Z.eqb_eq in E1, E2. subst x y.
      apply fmap_Some_app in Hv as (w & Hw & ->). apply is_utf8_cons; [by apply surrogates_scalar |].
      inversion Hs as [| | e s' He | a' b' c' d' s' Ha' Hb' Hc' Hd' Hs']; subst; [congruence | by unfold simple_escape in He |].
      apply (IH s); [cbn; lia | done | | done].
      apply (is_utf8_app_ascii [92; 117; a2; b2; c2; d2]); [by apply unicode_ascii | exact Hu'].
    + destruct (low_surrogate (hex4 a b c d)) eqn:El; [done |].
      apply fmap_Some_app in Hv as (w & Hw & ->). apply is_utf8_cons; [unfold high_surrogate, low_surrogate, scalar in *; lia |].
      apply (IH s); [cbn; lia | done ..].
Qed.

(** The parts of a number. *)
Notation all_digits := (Forall (fun c => l_isdigit c = true)).

Lemma digits_start r : l_isdigit (hd 0 r) = true -> exists c d r', digits_of r = (c :: d, r') /\ r = c :: d ++ r' /\ all_digits (c :: d).
Proof.
  destruct r as [| c r]; [done |]. cbn [hd]. intros Hc. cbn [digits_of]. rewrite Hc. destruct (digits_of r) as [d r'] eqn:E.
  apply digits_spec in E as (-> & Hd & _). exists c, d, r'. split_and!; [done | done | by constructor].
Qed.

Lemma signed_digit c s : l_isdigit c = true -> signed (c :: s) = (false, c :: s).
Proof.
  unfold l_isdigit. intros H. assert (c ∈ [48; 49; 50; 51; 52; 53; 54; 55; 56; 57]) as Hc by (rewrite !elem_of_cons; lia).
  repeat (apply elem_of_cons in Hc as [-> | Hc]; [done |]). by apply not_elem_of_nil in Hc.
Qed.

Lemma digits_all d r : all_digits d -> l_isdigit (hd 0 r) = false -> digits_of (d ++ r) = (d, r).
Proof.
  intros Hd Hr. induction Hd as [| c d Hc Hd IH]; cbn [app digits_of]; [| by rewrite Hc, IH].
  destruct r as [| c r]; [done |]. cbn [hd] in Hr. cbn [digits_of]. by rewrite Hr.
Qed.

Lemma minus_part_spec s sg r : minus_part s = (sg, r) -> s = sg ++ r /\ (sg = [] \/ sg = [45]).
Proof. destruct s as [| c s]; cbn; [intros [= <- <-]; auto |]. destruct (Z.eqb_spec c 45) as [-> |]; intros [= <- <-]; auto. Qed.

Lemma int_part_spec s i r : int_part s = Some (i, r) -> s = i ++ r /\ i <> [] /\ all_digits i.
Proof.
  destruct s as [| c s]; [done |]. cbn [int_part]. destruct (Z.eqb_spec c 48) as [-> |].
  - destruct (l_isdigit (hd 0 s)); [done |]. intros [= <- <-]. split_and!; [done | done | by repeat constructor].
  - destruct (l_isdigit c) eqn:Ec; [| done]. destruct (digits_of s) as [d r'] eqn:E. apply digits_spec in E as (-> & Hd & _).
    intros [= <- <-]. split_and!; [done | done | by constructor].
Qed.

Definition fraction (f : list Z) : Prop := f = [] \/ exists d, f = 46 :: d /\ d <> [] /\ all_digits d.
Definition exponent (e : list Z) : Prop :=
  e = [] \/ exists c sg d, e = c :: sg ++ d /\ (c = 69 \/ c = 101) /\ (sg = [] \/ sg = [43] \/ sg = [45]) /\ d <> [] /\ all_digits d.

Lemma frac_part_spec s f r : frac_part s = Some (f, r) -> s = f ++ r /\ fraction f.
Proof.
  destruct s as [| c s]; cbn [frac_part]; [intros [= <- <-]; split; [done | by left] |].
  destruct (Z.eqb_spec c 46) as [-> |]; [| intros [= <- <-]; split; [done | by left]].
  destruct (l_isdigit (hd 0 s)) eqn:Ed; [| done]. apply digits_start in Ed as (c & d & r' & -> & -> & Hd).
  intros [= <- <-]. split; [done |]. right. by exists (c :: d).
Qed.

Lemma exp_part_spec s e r : exp_part s = Some (e, r) -> s = e ++ r /\ exponent e.
Proof.
  destruct s as [| c s]; cbn [exp_part]; [intros [= <- <-]; split; [done | by left] |].
  destruct ((c =? 69) || (c =? 101)) eqn:Ec; [| intros [= <- <-]; split; [done | by left]].
  assert (Hs : exists sg q, match s with x :: r' => if (x =? 43) || (x =? 45) then ([x], r') else ([], s) | [] => ([], []) end = (sg, q) /\
    s = sg ++ q /\ (sg = [] \/ sg = [43] \/ sg = [45])).
  { destruct s as [| x s]; [by exists [], []; auto |]. destruct ((x =? 43) || (x =? 45)) eqn:Ex; [| exists [], (x :: s); auto].
    exists [x], s. split_and!; [done | done |]. right. destruct (Z.eqb_spec x 43) as [-> |]; [by left | right; f_equal; lia]. }
  destruct Hs as (sg & q & -> & -> & Hsg). destruct (l_isdigit (hd 0 q)) eqn:Ed; [| done].
  apply digits_start in Ed as (c' & d & r' & -> & -> & Hd). intros [= <- <-]. split; [cbn; by rewrite <- app_assoc |].
  right. exists c, sg, (c' :: d). split_and!; [done | lia | done | done | done].
Qed.

Lemma digits_ascii d : all_digits d -> Forall ascii d.
Proof. intros H. eapply Forall_impl; [exact H |]. apply digit_ascii. Qed.

Lemma fraction_ascii f : fraction f -> Forall ascii f.
Proof. intros [-> | (d & -> & _ & Hd)]; [constructor |]. constructor; [unfold ascii; lia | by apply digits_ascii]. Qed.

Lemma exponent_ascii e : exponent e -> Forall ascii e.
Proof.
  intros [-> | (c & sg & d & -> & Hc & Hsg & _ & Hd)]; [constructor |]. constructor; [unfold ascii; lia |].
  apply Forall_app. split; [| by apply digits_ascii]. destruct Hsg as [-> | [-> | ->]]; repeat constructor; unfold ascii; lia.
Qed.

(** What the tokens hold. *)
Definition tok_ok (k : tok) : Prop :=
  match k with
  | KString v => is_utf8 v
  | KInteger n => LLONG_MIN <= n <= LLONG_MAX
  | KReal x => isinf x = false
  | _ => True
  end.

(** A token takes something from the text; what it takes ends with a character. *)
Definition takes_token (s : list Z) (p : tok * list Z) : Prop :=
  (p.2 = [] /\ (p.1 = KBad \/ p.1 = KEnd)) \/
  (exists w, s = w ++ p.2 /\ w <> [] /\ (is_utf8 s -> is_utf8 p.2 /\ tok_ok p.1)).

Lemma takes_ascii s k w r : s = w ++ r -> w <> [] -> Forall ascii w -> tok_ok k -> takes_token s (k, r).
Proof. intros -> Hw Ha Hk. right. exists w. split_and!; [done | done |]. intros Hu. split; [| done]. by apply (is_utf8_app_ascii w). Qed.

Lemma string_token_spec s : takes_token (34 :: s) (string_token s).
Proof.
  unfold string_token. destruct (string_end s) as [[b r] |] eqn:E; [| left; auto].
  apply (string_end_spec (length s)) in E as [-> He]; [| done]. destruct (text_value b) as [v |] eqn:Ev; [| left; auto].
  right. exists (34 :: b ++ [34]). cbn [fst snd]. split_and!; [by rewrite <- app_comm_cons, <- app_assoc | done |]. intros Hu.
  apply (is_utf8_app_ascii [34] (b ++ 34 :: r)) in Hu; [| by repeat constructor]. apply is_utf8_split in Hu as [Hb Hr]; [| lia].
  split; [done |]. by apply (text_value_utf8 b).
Qed.

Lemma strtoll_range s n len : strtoll s = (n, len, false) -> LLONG_MIN <= n <= LLONG_MAX.
Proof.
  unfold strtoll. destruct (signed s) as [neg r]. destruct (digits_of r) as [d r']. case_decide.
  - intros [= <- _]. unfold LLONG_MIN, LLONG_MAX. lia.
  - intros [= <- _ _]. unfold LLONG_MIN, LLONG_MAX. lia.
Qed.

Lemma number_token_spec b s : takes_token s (number_token b s).
Proof.
  unfold number_token. destruct (minus_part s) as [sg r] eqn:E1. apply minus_part_spec in E1 as [-> Hsg].
  assert (Hm : Forall ascii sg) by (destruct Hsg as [-> | ->]; repeat constructor; unfold ascii; lia).
  destruct (int_part r) as [[i r2] |] eqn:E2; [| left; auto]. apply int_part_spec in E2 as (-> & Hn & Hi).
  assert (Hne : sg ++ i <> []) by (destruct sg; [done | discriminate]).
  destruct (_ && _).
  - destruct (strtoll (sg ++ i)) as [[n len] []] eqn:E3; [left; auto |].
    apply (takes_ascii _ _ (sg ++ i)); [by rewrite app_assoc | done | apply Forall_app; split; [done | by apply digits_ascii] |].
    by eapply strtoll_range.
  - destruct (frac_part r2) as [[f r3] |] eqn:E3; [| left; auto]. apply frac_part_spec in E3 as (-> & Hf).
    destruct (exp_part r3) as [[e r4] |] eqn:E4; [| left; auto]. apply exp_part_spec in E4 as (-> & He).
    destruct (isinf _) eqn:Ei; [left; auto |]. apply (takes_ascii _ _ (sg ++ i ++ f ++ e)); [by rewrite <- !app_assoc | | | done].
    + intros H. apply Hne. apply app_eq_nil in H as [-> H]. by apply app_eq_nil in H as [-> _].
    + rewrite !Forall_app. split_and!; [done | by apply digits_ascii | by apply fraction_ascii | by apply exponent_ascii].
Qed.

Lemma word_tok_ok w : tok_ok (word_tok w).
Proof. unfold word_tok. by repeat case_decide. Qed.

Lemma next_token_spec flags clean s : takes_token s (next_token flags clean s).
Proof.
  unfold next_token. destruct (skip_blank_spec s) as (w & E & Hw & _).
  assert (Hwa : Forall ascii w) by (eapply Forall_impl; [exact Hw | apply blank_ascii]).
  destruct (skip_blank s) as [| c r]; [destruct clean; left; auto |]. subst s.
  assert (Hb : forall p, takes_token (c :: r) p -> takes_token (w ++ c :: r) p).
  { intros [k q] [H | (x & Ex & Hx & Hk)]; [by left |]. right. exists (w ++ x). rewrite Ex, <- app_assoc. split_and!; [done | |].
    - intros H. by apply app_eq_nil in H as [_ H].
    - intros Hu. apply Hk. rewrite Ex. by apply (is_utf8_app_ascii w). }
  apply Hb. destruct (is_punct c) eqn:Ep.
  { apply (takes_ascii _ _ [c]); [done | done | repeat constructor; by apply punct_ascii in Ep as [? ?] | done]. }
  destruct (Z.eqb_spec c 34) as [-> |]; [apply string_token_spec |].
  destruct (_ || _); [apply number_token_spec |]. destruct (l_isalpha c) eqn:Ea; [| left; auto].
  destruct (alphas (c :: r)) as [x q] eqn:E. assert (Hx : x <> []) by (cbn in E; rewrite Ea in E; destruct (alphas r); by injection E as <- _).
  apply alphas_spec in E as (-> & Hal & _). apply (takes_ascii _ _ x); [done | done | | apply word_tok_ok].
  eapply Forall_impl; [exact Hal | apply alpha_ascii].
Qed.

Lemma next_token_punct flags clean s c r : next_token flags clean s = (KPunct c, r) -> is_punct c = true.
Proof.
  unfold next_token, string_token, number_token, word_tok. destruct (skip_blank s) as [| x q]; [by destruct clean |].
  destruct (is_punct x) eqn:E; [by intros [= <- _] |]. intros H. exfalso. repeat (case_match || case_decide); congruence.
Qed.

(** ** Reading ends *)

Section ends.
Context (flags : Z) (clean : bool).
#[local] Abbreviation next_token := (next_token flags clean).
#[local] Abbreviation read_value := (read_value flags clean).
#[local] Abbreviation read_members := (read_members flags clean).
#[local] Abbreviation read_elements := (read_elements flags clean).

(** Fuel for the token [k] and the text [s]. *)
Definition enough (m c : nat) (k : tok) (s : list Z) (fuel : nat) : Prop :=
  (m <= fuel)%nat /\ (k = KBad \/ k = KEnd \/ 2 * length s + c <= fuel)%nat.

Lemma next_enough m c s k r fuel : next_token s = (k, r) -> (2 * length s + c <= fuel + 2)%nat -> (m <= fuel)%nat ->
  enough m c k r fuel /\ (length r <= length s)%nat.
Proof.
  intros E Hf Hm. pose proof (next_token_spec flags clean s) as H. rewrite E in H.
  destruct H as [(Hr & Hk) | (w & Hs & Hw & _)]; cbn [fst snd] in *.
  - subst r. cbn. split; [split; [done | tauto] | lia].
  - subst s. rewrite length_app in *. destruct w; [done |]. cbn [length] in *. split; [split; [done | lia] | lia].
Qed.

(** The result is reached, and what is left is no longer than the text. *)
Definition ends (s : list Z) (r : res (option (json * list Z))) : Prop :=
  exists o, r = Ok o /\ forall t q, o = Some (t, q) -> (length q <= length s)%nat.

Lemma ends_none s : ends s (Ok None).
Proof. by exists None. Qed.

Lemma ends_here s t r : (length r <= length s)%nat -> ends s (Ok (Some (t, r))).
Proof. intros H. eexists. split; [done |]. by intros ? ? [= <- <-]. Qed.

Lemma ends_weaken s s' r : (length s' <= length s)%nat -> ends s' r -> ends s r.
Proof. intros Hl (o & -> & H). exists o. split; [done |]. intros t q Hq. specialize (H _ _ Hq). lia. Qed.

Hint Resolve ends_none : core.

Lemma read_ends fuel :
  (forall d k s, enough 1 3 k s fuel -> ends s (read_value fuel d k s)) /\
  (forall d ms k s, enough 2 4 k s fuel -> ends s (read_members fuel d ms k s)) /\
  (forall d ts k s, enough 2 4 k s fuel -> ends s (read_elements fuel d ts k s)).
Proof.
  induction fuel as [| fuel (IHv & IHm & IHe)]; [by split_and!; intros; unfold enough in *; lia |]. split_and!.
  - intros d k s [Hf Hk]. simpl. destruct (_ >? _); [done |].
    destruct k as [| | c | v | n | x | | |]; try done; try (by apply ends_here).
    + destruct (next_token s) as [k r] eqn:E. destruct Hk as [? | [? | Hk]]; [done | done |].
      destruct (next_enough 2 4 s k r fuel E ltac:(lia) ltac:(lia)) as [He Hl].
      destruct (c =? 123); [| destruct (c =? 91); [| done]].
      all: destruct (is_tok _ k); [by apply ends_here | eapply ends_weaken; [exact Hl | auto]].
    + destruct (_ && _); [done | by apply ends_here].
    + destruct (_ || _); [done | by apply ends_here].
  - intros d ms k s [Hf Hk]. simpl. destruct k as [| | c | key | n | x | | |]; try done.
    destruct Hk as [? | [? | Hk]]; [done | done |]. destruct (bool_decide _); [done |]. destruct (_ && _); [done |].
    destruct (next_token s) as [k1 s1] eqn:E1. destruct (next_enough 1 3 s k1 s1 fuel E1 ltac:(lia) ltac:(lia)) as [He1 Hl1].
    destruct (negb _); [done |].
    destruct (next_token s1) as [k2 s2] eqn:E2. destruct (next_enough 1 3 s1 k2 s2 fuel E2 ltac:(lia) ltac:(lia)) as [He2 Hl2].
    destruct (IHv d k2 s2 He2) as (o & -> & Ho). cbn [mbind res_bind]. destruct o as [[t s3] |]; [| done].
    specialize (Ho _ _ eq_refl).
    destruct (next_token s3) as [k4 s4] eqn:E4. destruct (next_enough 1 3 s3 k4 s4 fuel E4 ltac:(lia) ltac:(lia)) as [_ Hl4].
    destruct (is_tok 44 k4); [| destruct (is_tok 125 k4); [apply ends_here; lia | done]].
    destruct (next_token s4) as [k5 s5] eqn:E5. destruct (next_enough 2 4 s4 k5 s5 fuel E5 ltac:(lia) ltac:(lia)) as [He5 Hl5].
    apply (ends_weaken _ s5); [lia | auto].
  - intros d ts k s [Hf Hk]. simpl.
    assert (Hv : enough 1 3 k s fuel) by (split; [lia |]; destruct Hk as [? | [? | Hk]]; [tauto | tauto | right; right; lia]).
    destruct (IHv d k s Hv) as (o & Eo & Ho).
    assert (Hgo : ends s (v ← read_value fuel d k s;
      match v with
      | None => Ok None
      | Some (t, s) => let '(k, s) := next_token s in
          if is_tok 44 k then let '(k, s) := next_token s in read_elements fuel d (ts ++ [t]) k s
          else Ok (if is_tok 93 k then Some (TArray (ts ++ [t]), s) else None)
      end)).
    { rewrite Eo. cbn [mbind res_bind]. destruct o as [[t s3] |]; [| done]. specialize (Ho _ _ eq_refl).
      assert (Hf' : (2 * length s3 + 3 <= fuel)%nat).
      { destruct Hk as [-> | [-> | Hk]]; [| | lia]; destruct fuel; cbn [JsonText.read_value] in Eo; try done; destruct (_ >? _); done. }
      destruct (next_token s3) as [k4 s4] eqn:E4. destruct (next_enough 1 3 s3 k4 s4 fuel E4 ltac:(lia) ltac:(lia)) as [_ Hl4].
      destruct (is_tok 44 k4); [| destruct (is_tok 93 k4); [apply ends_here; lia | done]].
      destruct (next_token s4) as [k5 s5] eqn:E5. destruct (next_enough 2 4 s4 k5 s5 fuel E5 ltac:(lia) ltac:(lia)) as [He5 Hl5].
      apply (ends_weaken _ s5); [lia | auto]. }
    destruct k; done.
Qed.

Lemma read_text_ends n s : (length s <= n)%nat -> exists o, read_text flags clean n s = Ok o.
Proof.
  intros Hn. unfold read_text. destruct (next_token s) as [k r] eqn:E. destruct (_ && _); [by eexists |].
  destruct (next_enough 1 3 s k r (parse_fuel n) E) as [He _]; [unfold parse_fuel; lia | unfold parse_fuel; lia |].
  destruct (proj1 (read_ends (parse_fuel n)) 0 k r He) as (o & -> & _). cbn [mbind res_bind]. by eexists.
Qed.
End ends.

(** ** What is read is well typed *)

Definition key_ok (k : list Z) : Prop := is_utf8 k /\ 0 ∉ k.

Inductive typed : json -> Prop :=
| typed_object ms : NoDup ms.*1 -> Forall (fun m => key_ok m.1 /\ typed m.2) ms -> typed (TObject ms)
| typed_array ts : Forall typed ts -> typed (TArray ts)
| typed_string s : is_utf8 s -> typed (TString s)
| typed_integer n : LLONG_MIN <= n <= LLONG_MAX -> typed (TInteger n)
| typed_real x : isnan x || isinf x = false -> typed (TReal x)
| typed_true : typed TTrue
| typed_false : typed TFalse
| typed_null : typed TNull.

(** A tree that fits below [d] levels. *)
Definition fits (d : Z) (t : json) : Prop := typed t /\ d + Z.of_nat (depth t) <= JSON_PARSER_MAX_DEPTH.

Lemma assoc_set_keys {V} k (v : V) al : (assoc_set k v al).*1 = if decide (k ∈ al.*1) then al.*1 else al.*1 ++ [k].
Proof.
  induction al as [| [k' v'] al IH]; cbn; [done |]. destruct (decide (k' = k)) as [-> | Hn]; cbn.
  - by rewrite decide_True by (by left).
  - rewrite IH. destruct (decide (k ∈ al.*1)); [rewrite decide_True; [done | by right] | rewrite decide_False; [done |]].
    intros H. apply elem_of_cons in H as [? | ?]; [congruence | done].
Qed.

Lemma assoc_set_NoDup {V} k (v : V) al : NoDup al.*1 -> NoDup (assoc_set k v al).*1.
Proof.
  intros H. rewrite assoc_set_keys. destruct (decide (k ∈ al.*1)); [done |]. apply NoDup_app. split_and!; [done | | apply NoDup_singleton].
  intros x Hx Hk. apply list_elem_of_singleton in Hk. by subst.
Qed.

Lemma assoc_set_Forall {V} (P : list Z * V -> Prop) k v al : Forall P al -> P (k, v) -> Forall P (assoc_set k v al).
Proof. intros H Hk. induction H as [| [k' v'] al Hx H IH]; cbn; [by constructor |]. destruct (decide (k' = k)); by constructor. Qed.

(** The members and the elements read so far. *)
Definition members_fit (d : Z) (ms : list (list Z * json)) : Prop := NoDup ms.*1 /\ Forall (fun m => key_ok m.1 /\ fits d m.2) ms.

Lemma object_fits d ms : members_fit (d + 1) ms -> d < JSON_PARSER_MAX_DEPTH -> fits d (TObject ms).
Proof.
  intros [Hn Hm] Hd. split.
  - constructor; [done |]. eapply Forall_impl; [exact Hm |]. cbn. unfold fits. tauto.
  - cbn [depth]. assert ((list_max ((fun m => depth m.2) <$> ms) <= Z.to_nat (JSON_PARSER_MAX_DEPTH - (d + 1)))%nat) as Hl; [| unfold JSON_PARSER_MAX_DEPTH in *; lia].
    apply List.list_max_le. rewrite Forall_fmap. eapply Forall_impl; [exact Hm |]. cbn. unfold fits. intros [k t] [_ [_ ?]]. cbn in *. lia.
Qed.

Lemma array_fits d ts : Forall (fits (d + 1)) ts -> d < JSON_PARSER_MAX_DEPTH -> fits d (TArray ts).
Proof.
  intros Hm Hd. split.
  - constructor. eapply Forall_impl; [exact Hm |]. unfold fits. tauto.
  - cbn [depth]. assert ((list_max (depth <$> ts) <= Z.to_nat (JSON_PARSER_MAX_DEPTH - (d + 1)))%nat) as Hl; [| unfold JSON_PARSER_MAX_DEPTH in *; lia].
    apply depth_list. eapply Forall_impl; [exact Hm |]. unfold fits. intros t [_ ?]. lia.
Qed.

Section types.
Context (flags : Z) (clean : bool).
#[local] Abbreviation next_token := (next_token flags clean).
#[local] Abbreviation read_value := (read_value flags clean).
#[local] Abbreviation read_members := (read_members flags clean).
#[local] Abbreviation read_elements := (read_elements flags clean).

Lemma next_typed s k r : next_token s = (k, r) -> is_utf8 s -> (is_utf8 r /\ tok_ok k) /\ (length r <= length s)%nat.
Proof.
  intros E Hu. pose proof (next_token_spec flags clean s) as H. rewrite E in H.
  destruct H as [(Hr & Hk) | (w & Hs & Hw & H)]; cbn [fst snd] in *.
  - subst r. split; [split; [apply is_utf8_nil | by destruct Hk as [-> | ->]] | cbn; lia].
  - split; [by apply H |]. rewrite Hs, length_app. lia.
Qed.

(** A proper token takes something. *)
Lemma next_shorter s k r : next_token s = (k, r) -> k <> KBad -> k <> KEnd -> (length r < length s)%nat.
Proof.
  intros E H1 H2. pose proof (next_token_spec flags clean s) as H. rewrite E in H.
  destruct H as [(_ & [? | ?]) | (w & Hs & Hw & _)]; [done | done |]. cbn [snd] in Hs. rewrite Hs, length_app. destruct w; [done | cbn; lia].
Qed.

Ltac next_typed := repeat match goal with
  | H : context [let '(_, _) := next_token ?s in _] |- _ =>
      let k := fresh "k" in let r := fresh "r" in let E := fresh "E" in destruct (next_token s) as [k r] eqn:E;
      apply next_typed in E as [[? ?] ?]; [| assumption]
  end.

Lemma read_types fuel :
  (forall d k s t r, read_value fuel d k s = Ok (Some (t, r)) -> is_utf8 s -> tok_ok k -> (is_utf8 r /\ fits d t) /\ (length r <= length s)%nat) /\
  (forall d ms k s t r, read_members fuel (d + 1) ms k s = Ok (Some (t, r)) -> is_utf8 s -> tok_ok k -> members_fit (d + 1) ms ->
     d < JSON_PARSER_MAX_DEPTH -> (is_utf8 r /\ fits d t) /\ (length r <= length s)%nat) /\
  (forall d ts k s t r, read_elements fuel (d + 1) ts k s = Ok (Some (t, r)) -> is_utf8 s -> tok_ok k -> Forall (fits (d + 1)) ts ->
     d < JSON_PARSER_MAX_DEPTH -> (is_utf8 r /\ fits d t) /\ (length r <= length s)%nat).
Proof.
  induction fuel as [| fuel (IHv & IHm & IHe)]; [done |]. split_and!.
  - intros d k s t r H Hs Hk. simpl in H. destruct (Z.gtb_spec (d + 1) JSON_PARSER_MAX_DEPTH) as [| Hd]; [done |].
    assert (Hleaf : forall t, typed t -> depth t = 1%nat -> fits d t) by (intros t' Ht Hdt; split; [done | rewrite Hdt; lia]).
    destruct k as [| | c | v | n | x | | |]; try done.
    + next_typed. destruct (c =? 123); [| destruct (c =? 91); [| done]].
      * destruct (is_tok 125 k).
        { injection H as <- <-. split; [split; [done |] | done]. apply Hleaf; [by constructor; [apply NoDup_nil |] | done]. }
        apply (IHm d) in H as [H ?]; [split; [done | lia] | done | done | split; [apply NoDup_nil_2 | constructor] | lia].
      * destruct (is_tok 93 k).
        { injection H as <- <-. split; [split; [done |] | done]. apply Hleaf; [by constructor | done]. }
        apply (IHe d) in H as [H ?]; [split; [done | lia] | done | done | constructor | lia].
    + destruct (_ && _) in H; [done |]. injection H as <- <-. split; [split; [done | apply Hleaf; [by constructor | done]] | done].
    + injection H as <- <-. split; [split; [done | apply Hleaf; [by constructor | done]] | done].
    + destruct (_ || _) eqn:E in H; [done |]. injection H as <- <-. split; [split; [done | apply Hleaf; [by constructor | done]] | done].
    + injection H as <- <-. split; [split; [done | apply Hleaf; [by constructor | done]] | done].
    + injection H as <- <-. split; [split; [done | apply Hleaf; [by constructor | done]] | done].
    + injection H as <- <-. split; [split; [done | apply Hleaf; [by constructor | done]] | done].
  - intros d ms k s t r H Hs Hk [Hn Hm] Hd. simpl in H. destruct k as [| | c | key | n | x | | |]; try done.
    destruct (bool_decide_reflect (0 ∈ key)) as [| H0]; [done |]. destruct (_ && _) in H; [done |].
    next_typed. destruct (negb _); [done |]. next_typed.
    destruct (read_value fuel (d + 1) k0 r1) as [[[t' s'] |] | |] eqn:Ev; cbn [mbind res_bind] in H; try done.
    apply IHv in Ev as [[? ?] ?]; [| done | done]. next_typed.
    assert (Hset : members_fit (d + 1) (assoc_set key t' ms)) by (split; [by apply assoc_set_NoDup | by apply assoc_set_Forall]).
    destruct (is_tok 44 k1); [next_typed; apply (IHm d) in H as [H ?]; [split; [done | lia] | done ..] |].
    destruct (is_tok 125 k1); [| done]. injection H as <- <-. split; [split; [done | by apply object_fits] | lia].
  - intros d ts k s t r H Hs Hk Hm Hd. simpl in H.
    assert (Hgo : (v ← read_value fuel (d + 1) k s;
      match v with
      | None => Ok None
      | Some (t, s) => let '(k, s) := next_token s in
          if is_tok 44 k then let '(k, s) := next_token s in read_elements fuel (d + 1) (ts ++ [t]) k s
          else Ok (if is_tok 93 k then Some (TArray (ts ++ [t]), s) else None)
      end) = Ok (Some (t, r))) by (by destruct k). clear H.
    destruct (read_value fuel (d + 1) k s) as [[[t' s'] |] | |] eqn:Ev; cbn [mbind res_bind] in Hgo; try done.
    apply IHv in Ev as [[? ?] ?]; [| done | done]. next_typed.
    assert (Hset : Forall (fits (d + 1)) (ts ++ [t'])) by (apply Forall_app; by rewrite Forall_singleton).
    destruct (is_tok 44 k0); [next_typed; apply (IHe d) in Hgo as [Hgo ?]; [split; [done | lia] | done ..] |].
    destruct (is_tok 93 k0); [| done]. injection Hgo as <- <-. split; [split; [done | by apply array_fits] | lia].
Qed.

Lemma read_text_types n s t : is_utf8 s -> read_text flags clean n s = Ok (Some t) -> fits 0 t.
Proof.
  intros Hs H. unfold read_text in H. next_typed. destruct (_ && _); [done |].
  destruct (read_value (parse_fuel n) 0 k r) as [[[t' s'] |] | |] eqn:Ev; cbn [mbind res_bind] in H; try done.
  apply (proj1 (read_types _)) in Ev as [[_ ?] _]; [| done | done].
  destruct (flag _ _); [by injection H as <- |]. destruct (next_token s').1; try done; by injection H as <-.
Qed.
End types.

(** ** Splitting off what is not UTF-8 *)

(** No character starts here. *)
Definition stuck (bad : list Z) : Prop := forall c rest, scalar c -> bad <> encoding c ++ rest.

Lemma stuck_nil : stuck [].
Proof. intros c rest _ H. symmetry in H. apply app_eq_nil in H as [H _]. by apply encoding_nonempty in H. Qed.

(** The iterator finds a character, or none starts here. *)
Lemma iterate_cases b s : Forall is_byte (b :: s) ->
  (exists c rest, scalar c /\ b :: s = encoding c ++ rest) \/
  (utf8_iterate (b :: s) (Z.of_nat (length (b :: s))) = Ok None /\ stuck (b :: s)).
Proof.
  intros Hs. pose proof (Forall_inv Hs) as Hb. set (t := b :: s) in *.
  assert (D : utf8_iterate t (Z.of_nat (length t)) = Ok None \/ utf8_iterate t (Z.of_nat (length t)) <> Ok None)
    by (destruct (utf8_iterate t _) as [[x |] | |]; auto).
  destruct D as [E | E].
  - right. split; [done |]. intros c rest Hc Et. rewrite Et, iterate_encoding in E; [done | done | rewrite length_app; lia].
  - left. unfold utf8_iterate in E. rewrite (proj2 (Z.eqb_neq _ _)) in E by (subst t; cbn; lia).
    change (rd t 0) with (Ok b) in E. cbn [mbind res_bind] in E.
    destruct (Z.leb_spec (utf8_check_first b) 0); [done |]. destruct (Z.eqb_spec (utf8_check_first b) 1) as [E1 | E1].
    + exists b, s. destruct (check_first_cases b Hb) as [[? ?] | [[? ?] | [[? ?] | [[? ?] | [? ?]]]]]; try lia.
      unfold is_byte in Hb. split; [unfold scalar; lia | by rewrite encoding_ascii by lia].
    + destruct (Z.gtb_spec (utf8_check_first b) (Z.of_nat (length t))); [done |].
      destruct (check_full_sequence t (Z.to_nat (utf8_check_first b)) Hs) as [(E2 & _) | (c & E2 & Hc & _ & Ec)].
      * subst t. cbn [hd]. lia.
      * lia.
      * rewrite Z2Nat.id in E2 by lia. rewrite E2 in E. done.
      * exists c, (drop (Z.to_nat (utf8_check_first b)) t). split; [done |]. by rewrite <- Ec, take_drop.
Qed.

Lemma utf8_split_spec fuel : forall s, Forall is_byte s -> (length s <= fuel)%nat ->
  let '(u, bad) := utf8_split fuel s in s = u ++ bad /\ is_utf8 u /\ stuck bad.
Proof.
  induction fuel as [| fuel IH]; intros [| b s] Hs Hl; try (cbn; split_and!; [done | apply is_utf8_nil | apply stuck_nil]); [cbn in Hl; lia |].
  cbn [utf8_split]. destruct (iterate_cases b s Hs) as [(c & rest & Hc & Et) | (E & Hst)].
  - rewrite Et, iterate_encoding by (done || (rewrite length_app; lia)). rewrite Nat2Z.id, drop_app_length, take_app_length.
    rewrite Et in Hs, Hl. apply Forall_app in Hs as [_ Hs]. pose proof (encoding_nonempty c). rewrite length_app in Hl.
    specialize (IH rest Hs ltac:(destruct (encoding c); [done | cbn in Hl; lia])). destruct (utf8_split fuel rest) as [u bad].
    destruct IH as (-> & Hu & Hb). split_and!; [by rewrite app_assoc | by apply is_utf8_cons | done].
  - rewrite E. split_and!; [done | apply is_utf8_nil | done].
Qed.
