(* ===== verification/JsonStream.v ===== *)
(** * The characters the lexer sees

    [stream_get] and [stream_unget] of [common/jansson/load.c] against the list of the bytes that are left: for any source
    of bytes (the class [ByteSource]), getting returns the bytes of the longest readable text in turn and then the end
    or an error, the counters stay in range, and a character just read can be put back. *)

From Stdlib Require Import SpecFloat.
From S2P Require Import Prelude Utf Strbuf JsonLex JsonText.

(** A source with the bytes it still gives; at its end it returns EOF. *)
Class ByteSource {D : Type} (get : D -> res (Z * D)) := {
  left : D -> list Z -> Prop;
  get_end d : left d [] -> exists d', get d = Ok (-1, d') /\ left d' [];
  get_byte d b s : left d (b :: s) -> exists d', get d = Ok (b, d') /\ left d' s
}.

(** ** Characters *)

(** The bytes of a text without NUL. *)
Definition text_byte (b : Z) : Prop := 0 < b < 0xF5.

Lemma text_bytes s : is_utf8 s -> Forall (fun b => b <> 0) s -> Forall text_byte s.
Proof.
  intros Hu Hz. apply is_utf8_range in Hu. rewrite Forall_forall in Hu, Hz |- *. intros b Hb. specialize (Hu b Hb). specialize (Hz b Hb).
  unfold text_byte. lia.
Qed.

Lemma u8_schar b : text_byte b -> u8 (schar b) = b.
Proof. unfold text_byte, schar, wrap. intros H. destruct (Z.ltb_spec b 128); Z.to_euclidean_division_equations; lia. Qed.

Lemma schar_ascii b : 0 <= b < 0x80 -> schar b = b.
Proof. intros H. unfold schar. by rewrite (proj2 (Z.ltb_lt _ _)) by lia. Qed.

Lemma schar_eqb b k : text_byte b -> 0 <= k < 0x80 -> (schar b =? k) = (b =? k).
Proof. unfold text_byte, schar. intros Hb Hk. destruct (Z.ltb_spec b 128); [done |]. lia. Qed.

Lemma schar_at_end b : text_byte b -> at_end (schar b) = false.
Proof. unfold text_byte, at_end, STREAM_STATE_EOF, STREAM_STATE_ERROR, schar. intros H. destruct (Z.ltb_spec b 128); lia. Qed.

Section stream.
Context {D : Type} {get : D -> res (Z * D)} {BS : ByteSource get}.

(** The counters when [k] characters were read. *)
Record counted (st : stream_t D) (k : nat) : Prop := {
  ct_line : 1 <= line st <= 1 + Z.of_nat k;
  ct_column : 0 <= column st <= Z.of_nat k;
  ct_last : forall c, last_column st = Some c -> 0 <= c <= Z.of_nat k
}.

(** What [count_char] keeps. *)
Definition same_input (s s' : stream_t D) : Prop :=
  data s' = data s /\ buffer s' = buffer s /\ buffer_pos s' = buffer_pos s /\ state s' = state s.

(** The counting part of [stream_unget]. *)
Definition uncount_char (c : Z) (s : stream_t D) : res (stream_t D) :=
  let position := u64 (position s - 1) in
  if c =? 10 then
    line ← int_op (line s - 1); column ← of_option (last_column s);
    Ok (MkStream (data s) (buffer s) (buffer_pos s) (state s) line column (last_column s) position)
  else if negb (utf8_check_first (u8 c) =? 0) then
    column ← int_op (column s - 1);
    Ok (MkStream (data s) (buffer s) (buffer_pos s) (state s) (line s) column (last_column s) position)
  else Ok (MkStream (data s) (buffer s) (buffer_pos s) (state s) (line s) (column s) (last_column s) position).

Lemma count_uncount c s k : counted s k -> Z.of_nat k < 2 ^ 30 ->
  exists s', count_char c s = Ok s' /\ same_input s s' /\ counted s' (S k) /\
    forall d b p st, exists s'', uncount_char c (MkStream d b p st (line s') (column s') (last_column s') (position s')) = Ok s'' /\
      same_input (MkStream d b p st 0 0 None 0) s'' /\ counted s'' k.
Proof.
  intros [H1 H2 H3] Hk. unfold count_char, uncount_char, same_input.
  destruct (c =? 10); [| destruct (negb (utf8_check_first (u8 c) =? 0))].
  - rewrite int_op_in by (unfold INT_MIN, INT_MAX; lia). cbn [mbind res_bind]. eexists. split_and!; [done .. | |].
    + split; cbn; [lia | lia |]. intros c' [= <-]. lia.
    + intros d b p st. cbn [JsonLex.line JsonLex.last_column of_option]. rewrite int_op_in by (unfold INT_MIN, INT_MAX; lia). cbn [mbind res_bind].
      eexists. split_and!; [done .. |]. split; cbn; [lia | lia |]. intros c' [= <-]. lia.
  - rewrite int_op_in by (unfold INT_MIN, INT_MAX; lia). cbn [mbind res_bind]. eexists. split_and!; [done .. | |].
    + split; cbn; [lia | lia |]. intros c' Hc. specialize (H3 _ Hc). lia.
    + intros d b p st. cbn [JsonLex.column]. rewrite int_op_in by (unfold INT_MIN, INT_MAX; lia). cbn [mbind res_bind].
      eexists. split_and!; [done .. |]. split; cbn; [lia | lia |]. intros c' Hc. specialize (H3 _ Hc). lia.
  - eexists. split_and!; [done .. | |].
    + split; cbn; [lia | lia |]. intros c' Hc. specialize (H3 _ Hc). lia.
    + intros d b p st. eexists. split_and!; [done .. |]. split; cbn; [lia | lia |]. intros c' Hc. specialize (H3 _ Hc). lia.
Qed.

Context (bad : list Z).

(** What [stream_get] returns at the end. *)
Definition end_mark : Z := if bool_decide (bad = []) then STREAM_STATE_EOF else STREAM_STATE_ERROR.

(** The stream has given [pre] and will give [post]: the rest of the sequence in the buffer, and what the source has. *)
Inductive at_stream (st : stream_t D) (pre post : list Z) : Prop :=
| at_live dn td u :
    state st = STREAM_STATE_OK -> buffer_pos st = Z.of_nat (length dn) -> blk_holds (dn ++ td ++ [0]) (buffer st) ->
    length (buffer st) = 5%nat -> dn `suffix_of` pre -> post = td ++ u -> left (data st) (u ++ bad) -> is_utf8 u ->
    Forall text_byte (td ++ u) -> counted st (length pre) -> at_stream st pre post
| at_dead : state st = end_mark -> post = [] -> counted st (length pre) -> at_stream st pre post.

Lemma at_counted st pre post : at_stream st pre post -> counted st (length pre).
Proof. by destruct 1. Qed.

(** The next character, or the end. *)
Definition peek (post : list Z) : Z := match post with [] => end_mark | b :: _ => schar b end.

Lemma rd_holds xs c ys (b : block Z) : blk_holds (xs ++ c :: ys) b -> char_at b (Z.of_nat (length xs)) = Ok c.
Proof.
  intros [r ->]. unfold char_at. rewrite Nat2Z.id. rewrite fmap_app, fmap_cons, <- app_assoc. cbn [app].
  unfold rd. rewrite list_lookup_middle by (by rewrite length_fmap). done.
Qed.

(** The rest of a sequence is in the buffer. *)
Definition cached (st : stream_t D) : Prop :=
  exists dn td, buffer_pos st = Z.of_nat (length dn) /\ blk_holds (dn ++ td ++ [0]) (buffer st) /\ length (buffer st) = 5%nat /\ Forall text_byte td.

(** Taking a character that is in the buffer, and putting it back. *)
Lemma take_char_spec st pre dn b td u :
  state st = STREAM_STATE_OK -> buffer_pos st = Z.of_nat (length dn) -> blk_holds (dn ++ (b :: td) ++ [0]) (buffer st) ->
  length (buffer st) = 5%nat -> dn `suffix_of` pre -> left (data st) (u ++ bad) -> is_utf8 u -> Forall text_byte (b :: td ++ u) ->
  counted st (length pre) -> Z.of_nat (length pre) < 2 ^ 30 ->
  exists st', take_char st = Ok (schar b, st') /\ at_stream st' (pre ++ [b]) (td ++ u) /\ cached st' /\
    exists st'', stream_unget (schar b) st' = Ok st'' /\ at_stream st'' pre (b :: td ++ u).
Proof.
  intros Hs Hp Hb Hl Hd Hd2 Hu Ht Hc Hk. pose proof (Forall_inv Ht) as Hbt. unfold take_char.
  rewrite Hp, (rd_holds dn b (td ++ [0])) by done. cbn [mbind res_bind].
  destruct (count_uncount (schar b) (set_input (data st) (buffer st) (Z.of_nat (length dn) + 1) st) (length pre)) as (s' & E & (D1 & D2 & D3 & D4) & C & U).
  { by destruct Hc. } { done. }
  rewrite E. cbn [mbind res_bind]. cbn [set_input data buffer buffer_pos state] in D1, D2, D3, D4. eexists. split; [done |]. split.
  { apply (at_live _ _ _ (dn ++ [b]) td u); rewrite ?D1, ?D2, ?D3, ?D4; try done.
    - rewrite length_app. cbn. lia.
    - by rewrite <- app_assoc.
    - destruct Hd as [q ->]. exists q. by rewrite app_assoc.
    - by apply Forall_cons in Ht as [_ Ht].
    - by rewrite length_app, Nat.add_1_r. }
  split.
  { exists (dn ++ [b]), td. rewrite D2, D3. split_and!; [rewrite length_app; cbn; lia | by rewrite <- app_assoc | done |].
    apply Forall_cons in Ht as [_ Ht]. by apply Forall_app in Ht as [? _]. }
  destruct s' as [d0 b0 p0 st0 li co la po]. cbn in D1, D2, D3, D4. subst d0 b0 p0 st0.
  destruct (U (data st) (buffer st) (Z.of_nat (length dn) + 1) (state st)) as (s2 & E2 & (A1 & A2 & A3 & A4) & C2).
  cbn [line column last_column position] in E2. cbn [data buffer buffer_pos state] in A1, A2, A3, A4. unfold stream_unget.
  pose proof (schar_at_end b Hbt) as He. unfold at_end in He. rewrite He. cbv zeta. cbn [position line column last_column data buffer buffer_pos state].
  unfold uncount_char in E2. cbn [position line column last_column data buffer buffer_pos state] in E2. rewrite E2. cbn [mbind res_bind].
  rewrite A3. rewrite (proj2 (Z.ltb_lt 0 _)) by lia. cbn [assert_ok mbind res_bind set_input data buffer buffer_pos].
  rewrite Z.add_simpl_r, A2, (rd_holds dn b (td ++ [0])) by done. cbn [mbind res_bind]. rewrite Z.eqb_refl. cbn [assert_ok mbind res_bind].
  eexists. split; [done |]. apply (at_live _ _ _ dn (b :: td) u); cbn [set_input data buffer buffer_pos state]; rewrite ?A1, ?A2, ?A3, ?A4; try done.
  by destruct C2.
Qed.

(** *** Errors *)

(** The lexer's buffer holds some text. *)
Definition texted (l : lex_t D) : Prop := exists t, holds (saved_text l) t.

(** Only the stream and the error change. *)
Definition same (l l' : lex_t D) : Prop :=
  lflags l' = lflags l /\ ldepth l' = ldepth l /\ token l' = token l /\ lvalue l' = lvalue l.

Lemma c_text_holds t v : blk_holds (t ++ [0]) v -> exists s, c_text v = Ok s.
Proof.
  intros [r ->]. induction t as [| c t IH]; cbn; [by eexists |]. destruct (c =? 0); [by eexists |].
  destruct IH as [s IH]. cbn in IH. rewrite IH. by eexists.
Qed.

Lemma error_set_spec msg l : texted l -> exists e, error_set msg l = Ok (with_error e l).
Proof.
  intros (t & [(v & Ev & Hv & _) _ _]). unfold error_set. destruct (lerror l) as [e |] eqn:Ee.
  2:{ exists None. destruct l. cbn in Ee. by rewrite Ee. }
  rewrite Ev. assert (Hf : exists c, (c ← rd v 0; of_option c) = Ok c) by (destruct Hv as [r ->]; destruct t; by eexists).
  destruct Hf as [c ->]. cbn [mbind res_bind].
  unfold text_of. rewrite Ev. cbn [of_option mbind res_bind]. destruct (c_text_holds t v Hv) as [s ->].
  destruct (negb (c =? 0)); [destruct (_ <=? _) | destruct (_ =? _)]; cbn [mbind res_bind]; by eexists.
Qed.

(** ** Getting a character *)

Lemma filled_cons n (s : list Z) : take (S n) (s ++ replicate (S n) 255) = hd 255 s :: take n (drop 1 s ++ replicate n 255).
Proof.
  destruct s as [| b s]; [done |]. cbn [app take hd drop]. rewrite drop_0. f_equal. rewrite !take_app. f_equal.
  rewrite !take_replicate. f_equal. lia.
Qed.

(** The bytes behind the first of a sequence; an EOF is stored as 255. *)
Lemma read_more_spec n d s xs (blk : block Z) :
  left d s -> blk_holds xs blk -> (length xs + n <= length blk)%nat -> Forall is_byte s ->
  exists d' blk', read_more get n (Z.of_nat (length xs)) d blk = Ok (d', blk') /\ left d' (drop n s) /\
    blk_holds (xs ++ take n (s ++ replicate n 255)) blk' /\ length blk' = length blk.
Proof.
  revert d s xs blk; induction n as [| n IH]; intros d s xs blk Hd Hb Hl Hs.
  { exists d, blk. rewrite take_0, app_nil_r. by split_and!. }
  assert (Hg : exists c d1, get d = Ok (c, d1) /\ left d1 (drop 1 s) /\ u8 c = hd 255 s).
  { destruct s as [| b s].
    - destruct (get_end _ Hd) as (d1 & E & Hd1). exists (-1), d1. by split_and!.
    - destruct (get_byte _ _ _ Hd) as (d1 & E & Hd1). exists b, d1. split_and!; [done | done |]. cbn.
      rewrite wrap_small; [done |]. by apply Forall_cons in Hs as [Hs _]. }
  destruct Hg as (c & d1 & E & Hd1 & Ec). cbn [read_more]. rewrite E. cbn [mbind res_bind]. unfold put_char.
  rewrite Nat2Z.id, Ec. destruct (blk_store_append xs [hd 255 s] blk Hb) as (blk1 & E1 & Hb1); [cbn; lia |].
  change (Some <$> [hd 255 s]) with [Some (hd 255 s)] in E1. rewrite E1. cbn [mbind res_bind]. pose proof (blk_store_length _ _ _ _ E1) as L1.
  destruct (IH d1 (drop 1 s) (xs ++ [hd 255 s]) blk1 Hd1 Hb1) as (d' & blk' & E' & Hd' & Hb' & L'); [rewrite length_app; cbn; lia | by apply Forall_drop |].
  rewrite length_app in E'. cbn [length] in E'. replace (Z.of_nat (length xs) + 1) with (Z.of_nat (length xs + 1)) by lia. rewrite E'.
  exists d', blk'. split_and!; [done | by rewrite drop_drop in Hd' | | lia].
  rewrite <- app_assoc in Hb'. rewrite filled_cons. exact Hb'.
Qed.

Lemma stored_bytes xs n (b : block Z) : blk_holds xs b -> n = length xs -> of_option (mapM id (take n b)) = Ok xs.
Proof.
  intros [r ->] ->. rewrite <- (length_fmap Some xs), take_app_length. by rewrite mapM_id_Some.
Qed.

(** The buffer after a whole sequence was read. *)
Lemma terminate xs (b : block Z) : blk_holds xs b -> (length xs < length b)%nat ->
  exists b', put_char (Z.of_nat (length xs)) 0 b = Ok b' /\ blk_holds (xs ++ [0]) b' /\ length b' = length b.
Proof. intros H Hl. unfold put_char. rewrite Nat2Z.id. by apply store_zero. Qed.

Context (Hbad : stuck bad) (Hbytes : Forall is_byte bad).

Definition gives (l : lex_t D) (pre post : list Z) : Prop :=
  exists c l', stream_get get l = Ok (c, l') /\ c = peek post /\ same l l' /\ saved_text l' = saved_text l /\
    at_stream (stream l') (pre ++ take 1 post) (drop 1 post) /\ (post = [] \/ cached (stream l')) /\
    exists s'', stream_unget c (stream l') = Ok s'' /\ at_stream s'' pre post.

(** Taking the character at the front of the buffer. *)
Lemma gives_taken l st pre dn b td u :
  state st = STREAM_STATE_OK -> buffer_pos st = Z.of_nat (length dn) -> blk_holds (dn ++ (b :: td) ++ [0]) (buffer st) ->
  length (buffer st) = 5%nat -> dn `suffix_of` pre -> left (data st) (u ++ bad) -> is_utf8 u -> Forall text_byte (b :: td ++ u) ->
  counted st (length pre) -> Z.of_nat (length pre) < 2 ^ 30 ->
  stream_get get l = ('(c, s) ← take_char st; Ok (c, with_stream s l)) -> gives l pre (b :: td ++ u).
Proof.
  intros H1 H2 H3 H4 H5 H6 H7 H8 H9 H10 E.
  destruct (take_char_spec st pre dn b td u H1 H2 H3 H4 H5 H6 H7 H8 H9 H10) as (s' & E1 & A & C & U). rewrite E1 in E. cbn [mbind res_bind] in E.
  exists (schar b), (with_stream s' l). cbn [take drop stream with_stream saved_text]. rewrite take_0, drop_0. split_and!; try done; [by destruct l .. | by right].
Qed.

(** At the end. *)
Lemma gives_end l l' pre : stream_get get l = Ok (end_mark, l') -> same l l' -> saved_text l' = saved_text l ->
  state (stream l') = end_mark -> counted (stream l') (length pre) -> gives l pre [].
Proof.
  intros E Hs Ht Hst Hc. exists end_mark, l'. rewrite take_nil, app_nil_r, drop_nil. split_and!; [done .. | by apply at_dead | by left |].
  exists (stream l'). split; [| by apply at_dead]. unfold stream_unget, end_mark. by case_bool_decide.
Qed.

Lemma counted_with st d b p k n : counted st n -> counted (set_state k (set_input d b p st)) n.
Proof. by destruct 1. Qed.

(** The failure exit of [stream_get]. *)
Lemma gives_error l pre c d b p : bad <> [] -> texted l -> counted (stream l) (length pre) ->
  stream_get get l = stream_out c (with_stream (set_input d b p (stream l)) l) -> gives l pre [].
Proof.
  intros Hne Ht Hc E. assert (Hm : end_mark = STREAM_STATE_ERROR) by (unfold end_mark; by rewrite bool_decide_false).
  unfold stream_out in E.
  destruct (error_set_spec (chars "unable to decode byte 0x" ++ fmt_x c)
    (with_stream (set_state STREAM_STATE_ERROR (stream (with_stream (set_input d b p (stream l)) l))) (with_stream (set_input d b p (stream l)) l))) as [e Ee].
  { destruct Ht as [t Ht]. by exists t. }
  rewrite Ee in E. cbn [mbind res_bind] in E. rewrite <- Hm in E. eapply gives_end; [exact E | done | done | done |].
  by apply (counted_with (stream l) d b p end_mark).
Qed.

(** The bytes of a bad sequence do not pass. *)
Lemma bad_sequence b s n : bad = b :: s -> 0x80 <= b -> utf8_check_first b = Z.of_nat (S n) -> (1 <= n)%nat ->
  utf8_check_full (b :: take n (s ++ replicate n 255)) (Z.of_nat (S n)) = Ok None.
Proof.
  intros Eb Hb Hf Hn. set (t := b :: take n (s ++ replicate n 255)).
  assert (Hlen : length t = S n) by (subst t; cbn; rewrite length_take, length_app, length_replicate; lia).
  assert (Ht : Forall is_byte t).
  { subst t. rewrite Eb in Hbytes. apply Forall_cons in Hbytes as [? Hbs]. constructor; [done |]. apply Forall_take, Forall_app. split; [done |].
    apply Forall_replicate. by unfold is_byte. }
  destruct (check_full_sequence t (S n) Ht) as [[E _] | (c & _ & Hc & Hc2 & Ec)]; [done | lia | done |].
  exfalso. rewrite take_ge in Ec by lia. destruct (le_lt_dec n (length s)) as [Hl | Hl].
  - subst t. rewrite take_app_le in Ec by done. apply (Hbad c (drop n s) Hc). by rewrite Eb, <- Ec, <- app_comm_cons, take_drop.
  - (* an EOF is among the bytes *)
    assert (Hin : 255 ∈ encoding c).
    { rewrite <- Ec. subst t. right. rewrite take_app_ge by lia. apply elem_of_app. right. rewrite take_replicate. apply elem_of_replicate. split; [done | lia]. }
    pose proof (encoding_range c Hc) as Hr. rewrite Forall_forall in Hr. specialize (Hr _ Hin). lia.
Qed.

(** The first byte of a sequence gives its length. *)
Lemma lead_length b : is_byte b -> 0x80 <= b -> utf8_check_first b = 0 \/ exists n, utf8_check_first b = Z.of_nat (S n) /\ (1 <= n <= 3)%nat.
Proof.
  intros Hb H. destruct (check_first_cases b Hb) as [[? ?] | [[? E] | [[? E] | [[? E] | [? E]]]]]; rewrite ?E; [lia | right; by exists 1%nat; split; [| lia] | right; by exists 2%nat; split; [| lia] | right; by exists 3%nat; split; [| lia] | by left].
Qed.

Definition refill (l : lex_t D) : Prop :=
  state (stream l) = STREAM_STATE_OK /\ char_at (buffer (stream l)) (buffer_pos (stream l)) = Ok 0 /\ length (buffer (stream l)) = 5%nat.

(** What [stream_get] does with a byte [b] of the source, when the buffer is empty. *)
Lemma get_lead l b s : refill l -> left (data (stream l)) (b :: s) -> is_byte b ->
  exists d blk, left d s /\ blk_holds [b] blk /\ length blk = 5%nat /\
    stream_get get l =
      (if 0x80 <=? b then
         let count := utf8_check_first b in
         if count =? 0 then stream_out b (with_stream (set_input d blk 0 (stream l)) l) else
         _ ← assert_ok (2 <=? count);
         '(d, b') ← read_more get (Z.to_nat count - 1) 1 d blk;
         bytes ← of_option (mapM id (take (Z.to_nat count) b'));
         v ← utf8_check_full bytes count;
         match v with
         | None => stream_out b (with_stream (set_input d b' 0 (stream l)) l)
         | Some _ => b' ← put_char count 0 b'; '(c, s) ← take_char (set_input d b' 0 (stream l)); Ok (c, with_stream s l)
         end
       else blk ← put_char 1 0 blk; '(c, s) ← take_char (set_input d blk 0 (stream l)); Ok (c, with_stream s l)).
Proof.
  intros (Hs & Hc & Hl) Hd Hb. destruct (get_byte _ _ _ Hd) as (d & E & Hd').
  destruct (blk_store_append [] [b] (buffer (stream l)) (blk_holds_nil _)) as (blk & E1 & H1); [cbn; lia |].
  exists d, blk. split_and!; [done | done | by rewrite (blk_store_length _ _ _ _ E1) |].
  unfold stream_get. rewrite Hs. cbn [negb Z.eqb]. rewrite Hc. cbn [mbind res_bind]. rewrite E. cbn [mbind res_bind].
  change (negb (STREAM_STATE_OK =? STREAM_STATE_OK)) with false. cbv iota. change (negb (0 =? 0)) with false. cbv iota.
  assert (E2 : put_char 0 b (buffer (stream l)) = Ok blk) by (unfold put_char; rewrite wrap_small by exact Hb; exact E1).
  rewrite E2, wrap_small by exact Hb. unfold is_byte in Hb. rewrite (proj2 (Z.eqb_neq b (-1))) by lia. cbn [mbind res_bind].
  rewrite (proj2 (Z.leb_le b 255)) by lia. by rewrite andb_true_r.
Qed.

(** A refilled buffer with a whole character. *)
Lemma gives_char l pre x u blk d : texted l -> refill l -> counted (stream l) (length pre) -> Z.of_nat (length pre) < 2 ^ 30 ->
  blk_holds (encoding x ++ [0]) blk -> length blk = 5%nat -> left d (u ++ bad) -> is_utf8 u -> Forall text_byte (encoding x ++ u) ->
  stream_get get l = ('(c, s) ← take_char (set_input d blk 0 (stream l)); Ok (c, with_stream s l)) -> gives l pre (encoding x ++ u).
Proof.
  intros Ht (Hs & _) Hc Hk Hb Hl Hd Hu Hf E. destruct (encoding x) as [| b td] eqn:Ex; [by apply encoding_nonempty in Ex |].
  apply (gives_taken l (set_input d blk 0 (stream l)) pre [] b td u); try done; [by exists pre; rewrite app_nil_r | by destruct Hc].
Qed.

Lemma get_char l pre x u : texted l -> refill l -> counted (stream l) (length pre) -> Z.of_nat (length pre) < 2 ^ 30 ->
  left (data (stream l)) ((encoding x ++ u) ++ bad) -> scalar x -> is_utf8 u -> Forall text_byte (encoding x ++ u) ->
  gives l pre (encoding x ++ u).
Proof.
  intros Ht Hr Hc Hk Hd Hx Hu Hf. destruct (Z.ltb_spec x 0x80) as [Ha | Ha].
  - assert (Hx0 : 0 <= x < 0x80) by (destruct Hx; lia). pose proof (encoding_ascii x Hx0) as Ex. rewrite Ex in Hd. cbn [app] in Hd.
    destruct (get_lead l x (u ++ bad) Hr Hd ltac:(unfold is_byte; lia)) as (d & blk & Hd' & Hb & Hl & E).
    rewrite (proj2 (Z.leb_gt 0x80 x)) in E by lia. destruct (terminate [x] blk Hb) as (b2 & E2 & Hb2 & L2); [cbn; lia |].
    change (Z.of_nat (length [x])) with 1 in E2. rewrite E2 in E. cbn [mbind res_bind] in E.
    apply (gives_char l pre x u b2 d); try done; [by rewrite Ex | lia].
  - destruct (checked_encoding x Hx Ha) as (b & t & Ex & Hbb & Ef & Hn & Hcont & Hv & Ev). rewrite Ex in Hd. cbn [app] in Hd.
    destruct (get_lead l b ((t ++ u) ++ bad) Hr Hd Hbb) as (d & blk & Hd' & Hb & Hl & E).
    assert (Hb80 : 0x80 <= b) by (destruct (check_first_cases b Hbb) as [[? ?] | [[? ?] | [[? ?] | [[? ?] | [? ?]]]]]; lia).
    rewrite (proj2 (Z.leb_le 0x80 b)), Ef in E by lia. cbv zeta in E.
    rewrite (proj2 (Z.eqb_neq _ 0)), (proj2 (Z.leb_le 2 _)) in E by lia. cbn [assert_ok mbind res_bind] in E.
    replace (Z.to_nat (Z.of_nat (S (length t))) - 1)%nat with (length t) in E by lia. rewrite Nat2Z.id in E.
    assert (Hlen : (length t <= 3)%nat) by (destruct (lead_length b Hbb Hb80) as [? | (n & ? & ?)]; lia).
    assert (Hby : Forall is_byte ((t ++ u) ++ bad)).
    { apply Forall_app. split; [| done]. rewrite Ex in Hf. cbn [app] in Hf. apply Forall_cons in Hf as [_ Hf].
      eapply Forall_impl; [exact Hf |]. unfold text_byte, is_byte. lia. }
    destruct (read_more_spec (length t) d ((t ++ u) ++ bad) [b] blk Hd' Hb) as (d2 & b2 & E2 & Hd2 & Hb2 & L2); [cbn; lia | done |].
    change (Z.of_nat (length [b])) with 1 in E2. rewrite E2 in E. cbn [mbind res_bind] in E.
    rewrite <- !app_assoc in Hb2. rewrite <- !app_assoc in Hd2. rewrite take_app_length in Hb2. rewrite drop_app_length in Hd2.
    rewrite (stored_bytes ([b] ++ t)) in E by done. cbn [mbind res_bind] in E.
    pose proof (check_full_encoding x [] Hx Ha) as Hfull. rewrite app_nil_r, Ex in Hfull. cbn [length] in Hfull.
    change ([b] ++ t) with (b :: t) in E, Hb2. rewrite Hfull in E. cbn [mbind res_bind] in E.
    destruct (terminate (b :: t) b2 Hb2) as (b3 & E3 & Hb3 & L3); [cbn; lia |]. cbn [length] in E3. rewrite E3 in E. cbn [mbind res_bind] in E.
    apply (gives_char l pre x u b3 d2); try done; [by rewrite Ex | lia].
Qed.

(** When only bytes that are no text are left. *)
Lemma get_bad l pre b s : texted l -> refill l -> counted (stream l) (length pre) -> left (data (stream l)) bad -> bad = b :: s -> gives l pre [].
Proof.
  intros Ht Hr Hc Hd Eb. assert (Hne : bad <> []) by (by rewrite Eb). assert (Hbb : is_byte b /\ Forall is_byte s) by (rewrite Eb in Hbytes; by apply Forall_cons).
  destruct Hbb as [Hbb Hsb]. assert (Hd0 : left (data (stream l)) (b :: s)) by (by rewrite <- Eb).
  destruct (get_lead l b s Hr Hd0 Hbb) as (d & blk & Hd' & Hb & Hl & E).
  destruct (Z.leb_spec 0x80 b) as [H80 | H80].
  2:{ exfalso. unfold is_byte in Hbb. apply (Hbad b s); [unfold scalar; lia | by rewrite Eb, encoding_ascii by lia]. }
  cbv zeta in E. destruct (lead_length b Hbb H80) as [Ef | (n & Ef & Hn)]; rewrite Ef in E.
  { rewrite Z.eqb_refl in E. by eapply gives_error. }
  rewrite (proj2 (Z.eqb_neq _ 0)), (proj2 (Z.leb_le 2 _)) in E by lia. cbn [assert_ok mbind res_bind] in E.
  replace (Z.to_nat (Z.of_nat (S n)) - 1)%nat with n in E by lia. rewrite Nat2Z.id in E.
  destruct (read_more_spec n d s [b] blk Hd' Hb) as (d2 & b2 & E2 & Hd2 & Hb2 & L2); [cbn; lia | done |].
  change (Z.of_nat (length [b])) with 1 in E2. rewrite E2 in E. cbn [mbind res_bind] in E.
  rewrite (stored_bytes _ _ _ Hb2) in E by (cbn; rewrite length_take, length_app, length_replicate; lia). cbn [mbind res_bind app] in E.
  rewrite (bad_sequence b s n) in E by (done || lia). cbn [mbind res_bind] in E. by eapply gives_error.
Qed.

(** Getting a character of a text: the next one, or the end; and it can be put back. *)
Lemma stream_get_spec l pre post : at_stream (stream l) pre post -> texted l -> Z.of_nat (length pre) < 2 ^ 30 -> gives l pre post.
Proof.
  intros [dn td u Hs Hp Hb Hl Hsuf -> Hd Hu Ht Hc | Hs -> Hc] Hx Hk.
  2:{ eapply (gives_end l l); [| done .. ]. unfold stream_get. rewrite Hs. unfold end_mark. by case_bool_decide. }
  destruct td as [| b td].
  - assert (Hr : refill l).
    { split_and!; [done | | done]. rewrite Hp. apply (rd_holds dn 0 []). by rewrite app_nil_l in Hb. }
    cbn [app] in *. destruct Hu as ([| x cs] & Hcs & ->).
    + cbn [map concat app] in *. assert (Hbc : bad = [] \/ exists b s, bad = b :: s) by (destruct bad; eauto).
      destruct Hbc as [Eb | (b & s & Eb)].
      * rewrite Eb in Hd. destruct (get_end _ Hd) as (d & E & Hd'). destruct Hr as (_ & H0 & _).
        eapply (gives_end l (with_stream (set_state STREAM_STATE_EOF (set_input d (buffer (stream l)) (buffer_pos (stream l)) (stream l))) l));
          [| done | done | unfold end_mark; by rewrite Eb | by apply counted_with].
        unfold stream_get. rewrite Hs. change (negb (STREAM_STATE_OK =? STREAM_STATE_OK)) with false. cbv iota. rewrite H0. cbn [mbind res_bind].
        change (negb (0 =? 0)) with false. cbv iota. rewrite E. cbn [mbind res_bind]. unfold end_mark. by rewrite Eb.
      * by apply (get_bad l pre b s).
    + cbn [map concat] in *. apply Forall_cons in Hcs as [Hx0 Hcs]. by apply get_char; [| | | | | | exists cs |].
  - pose proof (Forall_inv Ht) as Hbt. eapply (gives_taken l (stream l) pre dn b td u); try done.
    unfold stream_get. rewrite Hs. change (negb (STREAM_STATE_OK =? STREAM_STATE_OK)) with false. cbv iota. rewrite Hp, (rd_holds dn b (td ++ [0])) by done.
    cbn [mbind res_bind]. unfold text_byte in Hbt. by rewrite (proj2 (Z.eqb_neq b 0)) by lia.
Qed.

Lemma stream_start d post : left d (post ++ bad) -> is_utf8 post -> Forall text_byte post -> at_stream (stream_init d) [] post.
Proof.
  intros Hd Hu Ht. apply (at_live _ _ _ [] [] post); try done. by exists (replicate 4 None).
Qed.
End stream.
