(* ===== verification/JsonToken.v ===== *)
(** * The tokens the lexer reads

    The lexer of [common/jansson/load.c] computes the tokens of [JsonText]: for a source of bytes, with memory for the
    text of a token, [lex_scan] leaves the next token of the text, or the invalid one when there is none or there is no
    memory for a string.  No assertion fails, nothing is read or written outside its block. *)

From Stdlib Require Import SpecFloat.
From S2P Require Import Prelude Utf Strbuf Json JsonLex JsonText JsonStream.

Section lexer.
Context {D : Type} {get : D -> res (Z * D)} {BS : ByteSource get}.

(** The whole input: a text without NUL and what cannot be read behind it. *)
Context (all bad : list Z) (Hutf : is_utf8 all) (Hall : Forall text_byte all) (Hlen : Z.of_nat (length all) < 2 ^ 30).
Context (Hbad : stuck bad) (Hbytes : Forall is_byte bad).
Context (text_alloc : Z -> bool) (Hta : forall n, text_alloc n = true).

#[local] Abbreviation peek := (peek bad).
#[local] Abbreviation lex_get_save := (lex_get_save get text_alloc).

(** [B] was read before the token, [T] is its text so far, [post] is left. *)
Record lexing (l : lex_t D) (B T post : list Z) : Prop := {
  lx_stream : at_stream bad (stream l) (B ++ T) post;
  lx_text : holds (saved_text l) T;
  lx_size : sb_size (saved_text l) <= 2 ^ 61;
  lx_all : B ++ T ++ post = all
}.

Lemma lexing_texted l B T post : lexing l B T post -> texted l.
Proof. intros []. by exists T. Qed.

Lemma lexing_post l B T post : lexing l B T post -> Forall text_byte post /\ Forall text_byte T /\ (length B + length T + length post = length all)%nat.
Proof.
  intros []. rewrite <- lx_all0 in *. apply Forall_app in Hall as [_ H]. apply Forall_app in H as [? ?]. rewrite !length_app. split_and!; [done | done | lia].
Qed.

Lemma same_refl (l : lex_t D) : same l l.
Proof. by split_and!. Qed.

Lemma same_trans (l l' l'' : lex_t D) : same l l' -> same l' l'' -> same l l''.
Proof. unfold same. intros (? & ? & ? & ?) (? & ? & ? & ?). split_and!; congruence. Qed.

Hint Resolve same_refl same_trans : core.

(** The lexer has just taken the next character, and can put it back. *)
Definition got (l : lex_t D) (B T post : list Z) : Prop :=
  lexing l B (T ++ take 1 post) (drop 1 post) /\
  exists l', lex_unget_unsave (peek post) l = Ok l' /\ lexing l' B T post /\ same l l'.

(** Tests of a character are tests of the next byte. *)
Lemma peek_test (f : Z -> bool) post : (forall c, f c = true -> 1 <= c < 0x80) -> Forall text_byte post -> f (peek post) = f (hd 0 post).
Proof.
  intros Hf Hp. destruct post as [| b post]; cbn.
  - assert (f 0 = false) as -> by (destruct (f 0) eqn:E; [apply Hf in E; lia | done]). destruct (f (end_mark bad)) eqn:E; [| done].
    apply Hf in E. unfold end_mark, STREAM_STATE_EOF, STREAM_STATE_ERROR in E. destruct (bool_decide _); lia.
  - apply Forall_cons in Hp as [Hb _]. unfold schar. destruct (Z.ltb_spec b 128); [done |].
    destruct (f (b - 256)) eqn:E1, (f b) eqn:E2; try done; [apply Hf in E1 | apply Hf in E2]; unfold text_byte in Hb; lia.
Qed.

Lemma peek_eqb k post : 1 <= k < 0x80 -> Forall text_byte post -> (peek post =? k) = (hd 0 post =? k).
Proof. intros Hk Hp. apply (peek_test (fun c => c =? k)); [| done]. intros c Hc. lia. Qed.

Lemma peek_end post : Forall text_byte post -> at_end (peek post) = bool_decide (post = []).
Proof.
  intros Hp. destruct post as [| b post]; [rewrite bool_decide_true by done; cbn; unfold end_mark; by destruct (bool_decide _) |].
  rewrite bool_decide_false by done. apply Forall_cons in Hp as [Hb _]. by apply schar_at_end.
Qed.

Lemma lex_get_spec l B T post : lexing l B T post -> gives (get := get) bad l (B ++ T) post.
Proof.
  intros Hl. pose proof (lexing_post _ _ _ _ Hl) as (_ & _ & Hn). apply stream_get_spec; [done | done | by eapply lx_stream | by eapply lexing_texted |].
  rewrite length_app. lia.
Qed.

(** Saving the character [b] that was taken. *)
Lemma lex_save_spec l1 B T b post : at_stream bad (stream l1) ((B ++ T) ++ [b]) post -> holds (saved_text l1) T -> sb_size (saved_text l1) <= 2 ^ 61 ->
  B ++ T ++ b :: post = all -> text_byte b ->
  exists t, lex_save text_alloc (schar b) l1 = Ok (with_text t l1) /\ lexing (with_text t l1) B (T ++ [b]) post.
Proof.
  intros Hs Ht Hz Ha Hb. unfold lex_save. rewrite u8_schar by done.
  assert (Hlt : (length T <= length all)%nat) by (rewrite <- Ha, !length_app; lia).
  destruct (append_byte_holds text_alloc (saved_text l1) T b Ht Hta) as (t & -> & Ht' & Hz'); [lia | done |].
  cbn [mbind res_bind]. exists t. split; [done |]. split; cbn [stream saved_text with_text]; [by rewrite app_assoc | done | done | by rewrite <- app_assoc].
Qed.

Lemma got_taken l1 l2 B T b post c s'' : at_stream bad (stream l1) ((B ++ T) ++ [b]) post -> holds (saved_text l1) T -> sb_size (saved_text l1) <= 2 ^ 61 ->
  B ++ T ++ b :: post = all -> text_byte b -> c = schar b -> lex_save text_alloc c l1 = Ok l2 ->
  stream_unget c (stream l1) = Ok s'' -> at_stream bad s'' (B ++ T) (b :: post) -> got l2 B T (b :: post) /\ same l1 l2.
Proof.
  intros Hs Ht Hz Ha Hb -> E U A. destruct (lex_save_spec l1 B T b post Hs Ht Hz Ha Hb) as (t & E' & Hl). rewrite E' in E. injection E as <-.
  split; [| by destruct l1]. split; [cbn [take drop]; rewrite take_0, drop_0; exact Hl |].
  unfold lex_unget_unsave. cbn [JsonStream.peek]. rewrite schar_at_end by done. unfold lex_unget. cbn [stream with_text]. rewrite U. cbn [mbind res_bind].
  destruct (strbuffer_pop_holds t T b) as (t' & Ep & Ht' & Hz'); [by destruct Hl |]. cbn [saved_text with_stream with_text]. rewrite Ep. cbn [mbind res_bind].
  rewrite Z.eqb_refl. cbn [assert_ok mbind res_bind]. eexists. split; [done |]. split; [| done].
  split; cbn [stream saved_text with_text with_stream]; [done | done | | done]. rewrite Hz'. by destruct Hl.
Qed.

Lemma lex_get_save_spec l B T post : lexing l B T post -> exists l', lex_get_save l = Ok (peek post, l') /\ got l' B T post /\ same l l'.
Proof.
  intros Hl. pose proof (lexing_post _ _ _ _ Hl) as (Hp & _ & _). destruct (lex_get_spec _ _ _ _ Hl) as (c & l1 & E & -> & Hs1 & Ht1 & A & _ & s'' & U & A').
  unfold JsonLex.lex_get_save. rewrite E. cbn [mbind res_bind]. rewrite peek_end by done. destruct post as [| b post].
  - rewrite bool_decide_true by done. exists l1. split; [done |]. split; [| done]. cbn [take drop] in A. rewrite app_nil_r in A.
    assert (H1 : lexing l1 B T []) by (destruct Hl; split; rewrite ?Ht1; done).
    split; [by rewrite take_nil, app_nil_r, drop_nil |]. exists l1. split_and!; [| done | done]. unfold lex_unget_unsave.
    by rewrite peek_end, bool_decide_true by done.
  - rewrite bool_decide_false by done. cbn [take drop] in A. rewrite take_0, drop_0 in A. pose proof (Forall_inv Hp) as Hb.
    destruct Hl as [H1 H2 H3 H4]. rewrite <- Ht1 in H2, H3. cbn [JsonStream.peek] in *.
    destruct (lex_save_spec l1 B T b post A H2 H3 H4 Hb) as (t & E' & _). rewrite E'. cbn [mbind res_bind]. eexists. split; [done |].
    destruct (got_taken l1 _ B T b post _ s'' A H2 H3 H4 Hb eq_refl E' U A') as [Hg Hs]. split; [done | by eapply same_trans].
Qed.

(** *** Runs of characters *)

Lemma run_spec (test : Z -> bool) (span : list Z -> list Z * list Z) (run : nat -> lex_t D -> res (Z * lex_t D)) :
  (forall c, test c = true -> 1 <= c < 0x80) ->
  (forall s, span s = match s with c :: r => if test c then let '(d, r) := span r in (c :: d, r) else ([], s) | [] => ([], []) end) ->
  (forall fuel l, run (S fuel) l = '(c, l) ← lex_get_save l; if test c then run fuel l else Ok (c, l)) ->
  forall fuel l B T post, lexing l B T post -> (length post < fuel)%nat ->
  let '(d, r) := span post in exists l', run fuel l = Ok (peek r, l') /\ got l' B (T ++ d) r /\ same l l'.
Proof.
  intros Ht Hsp Hrun. induction fuel as [| fuel IH]; intros l B T post Hl Hf; [lia |]. rewrite Hrun, Hsp.
  destruct (lex_get_save_spec _ _ _ _ Hl) as (l1 & -> & Hg & Hs). cbn [mbind res_bind].
  pose proof (lexing_post _ _ _ _ Hl) as (Hp & _ & _). rewrite (peek_test test) by done. destruct post as [| b post]; cbn [hd].
  { assert (test 0 = false) as -> by (destruct (test 0) eqn:E; [apply Ht in E; lia | done]). exists l1. by rewrite app_nil_r. }
  destruct (test b) eqn:Eb; [| exists l1; by rewrite app_nil_r]. destruct Hg as [Hl1 _]. cbn [take drop] in Hl1. rewrite take_0, drop_0 in Hl1.
  specialize (IH l1 B (T ++ [b]) post Hl1 ltac:(cbn in Hf; lia)). destruct (span post) as [d r]. destruct IH as (l' & E & Hg & Hs').
  exists l'. split_and!; [done | by rewrite <- app_assoc in Hg | by eapply same_trans].
Qed.

Lemma isdigit_range c : l_isdigit c = true -> 1 <= c < 0x80.
Proof. unfold l_isdigit. lia. Qed.

Lemma isalpha_range c : l_isalpha c = true -> 1 <= c < 0x80.
Proof. unfold l_isalpha, l_isupper, l_islower. lia. Qed.

Lemma digit_run_spec fuel l B T post : lexing l B T post -> (length post < fuel)%nat ->
  let '(d, r) := digits_of post in exists l', digit_run get text_alloc fuel l = Ok (peek r, l') /\ got l' B (T ++ d) r /\ same l l'.
Proof. apply (run_spec l_isdigit digits_of (digit_run get text_alloc)); [apply isdigit_range | by intros [] | done]. Qed.

Lemma alpha_run_spec fuel l B T post : lexing l B T post -> (length post < fuel)%nat ->
  let '(d, r) := alphas post in exists l', alpha_run get text_alloc fuel l = Ok (peek r, l') /\ got l' B (T ++ d) r /\ same l l'.
Proof. apply (run_spec l_isalpha alphas (alpha_run get text_alloc)); [apply isalpha_range | by intros [] | done]. Qed.

(** What was read behind a character just taken. *)
Lemma got_lexing l B T b post : got l B T (b :: post) -> lexing l B (T ++ [b]) post.
Proof. intros [H _]. cbn [take drop] in H. by rewrite take_0, drop_0 in H. Qed.

Lemma got_texted l B T post : got l B T post -> texted l.
Proof. intros [H _]. by eapply lexing_texted. Qed.

Lemma got_post l B T post : got l B T post -> Forall text_byte post.
Proof. intros [_ (l' & _ & H & _)]. by apply lexing_post in H as [? _]. Qed.

Lemma got_length l B T post : got l B T post -> (length post <= length all)%nat.
Proof. intros [_ (l' & _ & H & _)]. apply lexing_post in H. lia. Qed.

(** Taking another character. *)
Lemma get_next l B T b post : got l B T (b :: post) -> exists l', lex_get_save l = Ok (peek post, l') /\ got l' B (T ++ [b]) post /\ same l l'.
Proof. intros H. apply lex_get_save_spec. by apply got_lexing. Qed.

Lemma text_of_spec l B T post : lexing l B T post -> text_of (saved_text l) = Ok T.
Proof.
  intros Hl. pose proof (lexing_post _ _ _ _ Hl) as (_ & HT & _). destruct Hl as [_ [(v & Ev & [r ->] & _) _ _] _ _].
  unfold text_of. rewrite Ev. cbn [of_option mbind res_bind]. clear Ev. induction T as [| c T IH]; [done |]. apply Forall_cons in HT as [Hc HT].
  cbn. unfold text_byte in Hc. rewrite (proj2 (Z.eqb_neq c 0)) by lia. cbn in IH. by rewrite IH.
Qed.

(** ** Numbers *)

Context (n : nat) (Hn : (length all < n)%nat).

(** Either the exit, or the number goes on. *)
Definition part_read (B T : list Z) (o : option (list Z * list Z)) (l : lex_t D) (r : res (lex_t D + (Z * lex_t D))) : Prop :=
  match o with
  | Some (i, post) => exists l', r = Ok (inr (peek post, l')) /\ got l' B (T ++ i) post /\ same l l'
  | None => exists l', r = Ok (inl l') /\ texted l' /\ same l l'
  end.

Lemma unget_texted l B T post : got l B T post -> exists l', lex_unget_unsave (peek post) l = Ok l' /\ texted l' /\ same l l'.
Proof. intros [_ (l' & E & H & Hs)]. exists l'. split_and!; [done | by eapply lexing_texted | done]. Qed.

Lemma digits_behind l B T b post d r : got l B T (b :: post) -> l_isdigit b = true -> digits_of (b :: post) = (d, r) ->
  exists l', digit_run get text_alloc n l = Ok (peek r, l') /\ got l' B (T ++ d) r /\ same l l'.
Proof.
  intros Hg Hb E. pose proof (got_length _ _ _ _ Hg) as Hl. apply got_lexing in Hg. cbn [digits_of] in E. rewrite Hb in E.
  pose proof (digit_run_spec n l B (T ++ [b]) post Hg) as H. destruct (digits_of post) as [d' r']. injection E as <- <-.
  destruct H as (l' & E & Hg' & Hs); [cbn in Hl; lia |]. exists l'. by rewrite <- app_assoc in Hg'.
Qed.

Lemma scan_int_spec l B T post : got l B T post ->
  let '(sg, r) := minus_part post in
  part_read B (T ++ sg) (int_part r) l (scan_int get text_alloc n (peek post) l).
Proof.
  intros Hg. unfold scan_int. rewrite peek_eqb by (done || by eapply got_post).
  assert (Hm : let '(sg, r) := minus_part post in exists l1,
    (if hd 0 post =? 45 then lex_get_save l else Ok (peek post, l)) = Ok (peek r, l1) /\ got l1 B (T ++ sg) r /\ same l l1).
  { destruct post as [| b post]; cbn [minus_part hd]; [exists l; by rewrite app_nil_r |]. destruct (Z.eqb_spec b 45) as [-> |]; [by apply get_next | exists l; by rewrite app_nil_r]. }
  destruct (minus_part post) as [sg r]. destruct Hm as (l1 & -> & Hg1 & Hs1). cbn [mbind res_bind].
  pose proof (got_post _ _ _ _ Hg1) as Hp. rewrite (peek_eqb 48), (peek_test l_isdigit) by (done || apply isdigit_range).
  destruct r as [| b r]; cbn [hd int_part].
  { destruct (unget_texted _ _ _ _ Hg1) as (l2 & E & Ht & Hs). cbn [Z.eqb]. change (l_isdigit 0) with false. cbv iota. rewrite E. exists l2.
    split_and!; [done | done | by eapply same_trans]. }
  destruct (Z.eqb_spec b 48) as [-> |].
  - destruct (get_next _ _ _ _ _ Hg1) as (l2 & -> & Hg2 & Hs2). cbn [mbind res_bind].
    rewrite (peek_test l_isdigit) by (apply isdigit_range || by eapply got_post). destruct (l_isdigit (hd 0 r)).
    + destruct (unget_texted _ _ _ _ Hg2) as (l3 & -> & Ht & Hs). exists l3. split_and!; [done | done | by eauto using same_trans].
    + exists l2. split_and!; [done | done | by eapply same_trans].
  - destruct (l_isdigit b) eqn:Eb.
    + destruct (digits_of (b :: r)) as [d r'] eqn:Ed. destruct (digits_behind _ _ _ _ _ _ _ Hg1 Eb Ed) as (l2 & -> & Hg2 & Hs2).
      cbn [digits_of] in Ed. rewrite Eb in Ed. destruct (digits_of r). injection Ed as <- <-. exists l2. split_and!; [done | done | by eapply same_trans].
    + destruct (unget_texted _ _ _ _ Hg1) as (l2 & -> & Ht & Hs). exists l2. split_and!; [done | done | by eapply same_trans].
Qed.

Lemma scan_fraction_spec l B T post : got l B T post ->
  part_read B T (frac_part post) l (scan_fraction get text_alloc n (peek post) l).
Proof.
  intros Hg. unfold scan_fraction. rewrite peek_eqb by (done || by eapply got_post).
  destruct post as [| b post]; cbn [hd frac_part Z.eqb]; [exists l; by rewrite app_nil_r |].
  destruct (Z.eqb_spec b 46) as [-> |]; [| exists l; by rewrite app_nil_r].
  pose proof (got_lexing _ _ _ _ _ Hg) as Hl. pose proof (lexing_post _ _ _ _ Hl) as (Hp & _ & Hle).
  destruct (lex_get_spec _ _ _ _ Hl) as (c & l1 & E & -> & Hs1 & Ht1 & A & _ & s'' & U & A'). unfold lex_get. rewrite E. cbn [mbind res_bind].
  rewrite (peek_test l_isdigit) by (apply isdigit_range || done). destruct (l_isdigit (hd 0 post)) eqn:Ed; cbn [negb].
  - destruct post as [| b post]; [done |]. cbn [hd] in Ed. cbn [take drop] in A. rewrite take_0, drop_0 in A. pose proof (Forall_inv Hp) as Hb.
    destruct Hl as [H1 H2 H3 H4]. rewrite <- Ht1 in H2, H3.
    destruct (lex_save_spec l1 B _ b post A H2 H3 H4 Hb) as (t & E' & _). cbn [JsonStream.peek] in *. rewrite E'. cbn [mbind res_bind].
    destruct (got_taken l1 _ B _ b post _ s'' A H2 H3 H4 Hb eq_refl E' U A') as [Hg2 Hs2].
    destruct (digits_of (b :: post)) as [d r] eqn:Eds. destruct (digits_behind _ _ _ _ _ _ _ Hg2 Ed Eds) as (l3 & -> & Hg3 & Hs3).
    cbn [mbind res_bind part_read]. exists l3. rewrite <- app_assoc in Hg3. split_and!; [done | done | by eauto using same_trans].
  - unfold lex_unget. rewrite U. cbn [mbind res_bind part_read]. eexists. split_and!; [done | | done].
    exists (T ++ [46]). destruct Hl as [_ H2 _ _]. by rewrite <- Ht1 in H2.
Qed.

Lemma scan_exponent_spec l B T post : got l B T post ->
  part_read B T (exp_part post) l (scan_exponent get text_alloc n (peek post) l).
Proof.
  intros Hg. unfold scan_exponent. rewrite !peek_eqb by (done || by eapply got_post).
  destruct post as [| b post]; cbn [hd exp_part]; [exists l; by rewrite app_nil_r |].
  destruct ((b =? 69) || (b =? 101)); [| exists l; by rewrite app_nil_r].
  destruct (get_next _ _ _ _ _ Hg) as (l1 & -> & Hg1 & Hs1). cbn [mbind res_bind]. rewrite !peek_eqb by (done || by eapply got_post).
  assert (Hm : let '(sg, r) := match post with x :: r' => if (x =? 43) || (x =? 45) then ([x], r') else ([], post) | [] => ([], []) end in
    exists l2, (if (hd 0 post =? 43) || (hd 0 post =? 45) then lex_get_save l1 else Ok (peek post, l1)) = Ok (peek r, l2) /\
      got l2 B ((T ++ [b]) ++ sg) r /\ same l1 l2).
  { destruct post as [| x post]; cbn [hd]; [exists l1; by rewrite app_nil_r |].
    destruct ((x =? 43) || (x =? 45)); [by apply get_next | exists l1; by rewrite app_nil_r]. }
  destruct (match post with x :: r' => _ | [] => _ end) as [sg r]. destruct Hm as (l2 & -> & Hg2 & Hs2). cbn [mbind res_bind].
  rewrite (peek_test l_isdigit) by (apply isdigit_range || by eapply got_post). destruct (l_isdigit (hd 0 r)) eqn:Ed; cbn [negb].
  - destruct r as [| c r]; [done |]. cbn [hd] in Ed. destruct (digits_of (c :: r)) as [d r'] eqn:Eds.
    destruct (digits_behind _ _ _ _ _ _ _ Hg2 Ed Eds) as (l3 & -> & Hg3 & Hs3). cbn [mbind res_bind part_read]. exists l3.
    rewrite <- !app_assoc in Hg3. split_and!; [done | done | by eauto using same_trans].
  - destruct (unget_texted _ _ _ _ Hg2) as (l3 & -> & Ht & Hs3). exists l3. split_and!; [done | done | by eauto using same_trans].
Qed.

(** The library functions read the whole of a number. *)
Lemma signed_number sg i q : (sg = [] \/ sg = [45]) -> i <> [] -> all_digits i -> exists neg, signed (sg ++ i ++ q) = (neg, i ++ q).
Proof.
  intros [-> | ->] Hne Hi; [| by exists true]. destruct i as [| c i]; [done |]. apply Forall_cons in Hi as [Hc _]. exists false.
  cbn [app]. by apply signed_digit.
Qed.

Lemma strtoll_whole sg i : (sg = [] \/ sg = [45]) -> i <> [] -> all_digits i -> (strtoll (sg ++ i)).1.2 = length (sg ++ i).
Proof.
  intros Hsg Hne Hi. unfold strtoll. destruct (signed_number sg i [] Hsg Hne Hi) as [neg E]. rewrite app_nil_r in E. rewrite E.
  pose proof (digits_all i [] Hi eq_refl) as Ed. rewrite app_nil_r in Ed. rewrite Ed. rewrite decide_False by done. cbn. lia.
Qed.

Lemma exponent_start e : exponent e -> l_isdigit (hd 0 e) = false /\ (hd 0 e =? 46) = false.
Proof. intros [-> | (c & sg & d & -> & [-> | ->] & _)]; done. Qed.

Lemma strtod_whole sg i f e : (sg = [] \/ sg = [45]) -> i <> [] -> all_digits i -> fraction f -> exponent e ->
  (strtod (sg ++ i ++ f ++ e)).2 = length (sg ++ i ++ f ++ e).
Proof.
  intros Hsg Hni Hi Hf He. unfold strtod. destruct (signed_number sg i (f ++ e) Hsg Hni Hi) as [neg ->].
  destruct (exponent_start e He) as [He1 He2]. rewrite digits_all; [| done | by destruct Hf as [-> | (d & -> & _)]].
  assert (E2 : match f ++ e with 46 :: r' => digits_of r' | _ => ([], f ++ e) end = (drop 1 f, e)).
  { destruct Hf as [-> | (d & -> & _ & Hd)]; cbn [app drop].
    - destruct He as [-> | (c & sg' & d' & -> & [-> | ->] & _)]; done.
    - rewrite drop_0. by apply digits_all. }
  rewrite E2. destruct He as [-> | (c & sg' & d' & -> & Hc & Hsg' & Hnd & Hd)].
  - cbn [snd]. cbn [length]. lia.
  - assert (((c =? 101) || (c =? 69)) = true) as -> by lia.
    assert (Hs : exists neg', signed (sg' ++ d') = (neg', d')).
    { destruct Hsg' as [-> | [-> | ->]]; [| by exists false | by exists true]. destruct d' as [| x d']; [done |].
      apply Forall_cons in Hd as [Hx _]. exists false. by apply signed_digit. }
    destruct Hs as [neg' ->]. pose proof (digits_all d' [] Hd eq_refl) as Ed. rewrite app_nil_r in Ed. rewrite Ed, decide_False by done.
    cbn [snd length]. lia.
Qed.

(** What the lexer shows of a token. *)
Definition code (k : tok) : Z :=
  match k with
  | KEnd => TOKEN_EOF | KBad => TOKEN_INVALID | KPunct c => c | KString _ => TOKEN_STRING | KInteger _ => TOKEN_INTEGER
  | KReal _ => TOKEN_REAL | KTrue => TOKEN_TRUE | KFalse => TOKEN_FALSE | KNull => TOKEN_NULL
  end.

Definition shows (l : lex_t D) (k : tok) : Prop :=
  token l = code k /\
  match k with
  | KString s => exists v, lvalue l = VString (Some v) (Z.of_nat (length s)) /\ blk_holds (s ++ [0]) v /\ Z.of_nat (length s) < 2 ^ 30
  | KInteger n => lvalue l = VInteger n
  | KReal x => lvalue l = VReal x
  | _ => True
  end.

(** The text [post] is left. *)
Definition ready (l : lex_t D) (post : list Z) : Prop := exists B T, lexing l B T post.

(** The token and the text behind it; after an invalid token nothing is said about the position. *)
Definition scanned (l : lex_t D) (p : tok * list Z) (l' : lex_t D) : Prop :=
  lflags l' = lflags l /\ ldepth l' = ldepth l /\ texted l' /\ shows l' p.1 /\ (p.1 <> KBad -> ready l' p.2).

Lemma unget_with_token c k (l : lex_t D) : lex_unget_unsave c (with_token k l) = with_token k <$> lex_unget_unsave c l.
Proof.
  destruct l as [s t f d k0 v e]. unfold lex_unget_unsave, lex_unget. destruct (at_end c); [done |]. cbn [stream with_token].
  destruct (stream_unget c s); [| done | done]. cbn [mbind res_bind saved_text with_stream with_token].
  destruct (strbuffer_pop t) as [[x t'] | |]; [| done | done]. cbn [mbind res_bind]. by destruct (c =? schar x).
Qed.

Lemma got_with_token k l B T post : got l B T post -> got (with_token k l) B T post.
Proof.
  intros [[] (l' & E & [] & Hs)]. split; [by split |]. exists (with_token k l'). rewrite unget_with_token, E. split_and!; [done | by split |].
  destruct l, l'. unfold same in *. cbn in *. tauto.
Qed.

Lemma same_kept (l l' : lex_t D) : same l l' -> lflags l' = lflags l /\ ldepth l' = ldepth l.
Proof. unfold same. tauto. Qed.

Lemma scanned_bad (l l' : lex_t D) r : same (with_token TOKEN_INVALID l) l' -> texted l' -> scanned l (KBad, r) l'.
Proof. intros (? & ? & ? & ?) Ht. by split_and!. Qed.

Lemma lexing_value v k l B T post : lexing l B T post -> lexing (with_value v (with_token k l)) B T post.
Proof. intros []. by split. Qed.

Lemma ready_lexing l B T post : lexing l B T post -> ready l post.
Proof. intros H. by exists B, T. Qed.

Lemma lex_scan_number_spec l B post : got l B [] post ->
  exists r l', lex_scan_number get text_alloc n (peek post) l = Ok (r, l') /\
    scanned l (number_token (flag (lflags l) JSON_DECODE_INT_AS_REAL) post) l'.
Proof.
  intros Hg. unfold lex_scan_number, number_token. apply (got_with_token TOKEN_INVALID) in Hg. set (l0 := with_token TOKEN_INVALID l) in *.
  pose proof (scan_int_spec _ _ _ _ Hg) as H. destruct (minus_part post) as [sg r] eqn:E1. apply minus_part_spec in E1 as [-> Hsg].
  destruct (int_part r) as [[i r1] |] eqn:E2; cbn [part_read] in H.
  2:{ destruct H as (l1 & -> & Ht & Hs). cbn [mbind res_bind]. eexists _, _. split; [done |]. by apply scanned_bad. }
  apply int_part_spec in E2 as (-> & Hni & Hi). destruct H as (l1 & -> & Hg1 & Hs1). cbn [mbind res_bind app] in *.
  destruct (same_kept _ _ Hs1) as [Hf1 _]. rewrite Hf1. change (lflags l0) with (lflags l).
  rewrite !peek_eqb by (done || by eapply got_post). destruct (_ && _).
  - unfold scan_integer. destruct Hg1 as [_ (l2 & -> & Hl2 & Hs2)]. cbn [mbind res_bind]. rewrite (text_of_spec _ _ _ _ Hl2). cbn [mbind res_bind].
    pose proof (strtoll_whole sg i Hsg Hni Hi) as Hw. destruct (strtoll (sg ++ i)) as [[v len] erange]. cbn [fst snd] in Hw. subst len.
    assert (Hs : same l0 l2) by eauto. destruct erange.
    + destruct (error_set_spec (if v <? 0 then chars "too big negative integer" else chars "too big integer") l2) as [e ->]; [by eapply lexing_texted |].
      cbn [mbind res_bind]. eexists _, _. split; [done |]. apply scanned_bad; [by destruct Hs as (? & ? & ? & ?) | by exists (sg ++ i); destruct Hl2].
    + rewrite (hd_length _ _ (lx_text _ _ _ _ Hl2)), Z.eqb_refl. cbn [assert_ok mbind res_bind]. eexists _, _. split; [done |].
      pose proof (lexing_value (VInteger v) TOKEN_INTEGER _ _ _ _ Hl2) as Hl3.
      destruct (same_kept _ _ Hs). split_and!; [done | done | by eapply lexing_texted | by split | intros _; by eapply ready_lexing].
  - pose proof (scan_fraction_spec _ _ _ _ Hg1) as H. destruct (frac_part r1) as [[f r2] |] eqn:E3; cbn [part_read] in H.
    2:{ destruct H as (l2 & -> & Ht & Hs). cbn [mbind res_bind]. eexists _, _. split; [done |]. apply scanned_bad; eauto. }
    apply frac_part_spec in E3 as (-> & Hf). destruct H as (l2 & -> & Hg2 & Hs2). cbn [mbind res_bind].
    pose proof (scan_exponent_spec _ _ _ _ Hg2) as H. destruct (exp_part r2) as [[e r3] |] eqn:E4; cbn [part_read] in H.
    2:{ destruct H as (l3 & -> & Ht & Hs). cbn [mbind res_bind]. eexists _, _. split; [done |]. apply scanned_bad; eauto. }
    apply exp_part_spec in E4 as (-> & He). destruct H as (l3 & -> & [_ (l4 & U & Hl4 & Hs4)] & Hs3). cbn [mbind res_bind].
    rewrite U. cbn [mbind res_bind]. rewrite <- !app_assoc in Hl4. unfold jsonp_strtod. rewrite (text_of_spec _ _ _ _ Hl4). cbn [mbind res_bind].
    pose proof (strtod_whole sg i f e Hsg Hni Hi Hf He) as Hw. destruct (strtod (sg ++ i ++ f ++ e)) as [x len]. cbn [fst snd] in Hw |- *. subst len.
    rewrite (hd_length _ _ (lx_text _ _ _ _ Hl4)), Z.eqb_refl. cbn [assert_ok mbind res_bind]. assert (Hs : same l0 l4) by eauto 6. destruct (isinf x).
    + destruct (error_set_spec (chars "real number overflow") l4) as [er ->]; [by eapply lexing_texted |].
      cbn [mbind res_bind]. eexists _, _. split; [done |]. apply scanned_bad; [by destruct Hs as (? & ? & ? & ?) | by exists (sg ++ i ++ f ++ e); destruct Hl4].
    + eexists _, _. split; [done |]. pose proof (lexing_value (VReal x) TOKEN_REAL _ _ _ _ Hl4) as Hl5.
      destruct (same_kept _ _ Hs). split_and!; [done | done | by eapply lexing_texted | by split | intros _; by eapply ready_lexing].
Qed.

(** ** Strings *)

(** The error is set, on a lexer with some text. *)
Lemma set_error {A} msg (l : lex_t D) (k : lex_t D -> res A) : texted l ->
  exists l', (l ← error_set msg l; k l) = k l' /\ texted l' /\ same l l'.
Proof. intros Ht. destruct (error_set_spec msg l Ht) as [e ->]. exists (with_error e l). split_and!; [done | done | by destruct l]. Qed.

Lemma hex_run_spec m : forall l B T post, got l B T post ->
  exists ok c l', hex_run get text_alloc m (peek post) l = Ok (ok, c, l') /\ same l l' /\
    if decide ((m <= length post)%nat /\ Forall (fun c => l_isxdigit c = true) (take m post))
    then ok = true /\ c = peek (drop m post) /\ got l' B (T ++ take m post) (drop m post)
    else ok = false /\ texted l'.
Proof.
  induction m as [| m IH]; intros l B T post Hg.
  { exists true, (peek post), l. rewrite take_0, drop_0, app_nil_r. rewrite decide_True by (split; [lia | constructor]). by split_and!. }
  cbn [hex_run]. assert (Hx : forall c, l_isxdigit c = true -> 1 <= c < 0x80) by (unfold l_isxdigit, l_isdigit; lia).
  rewrite (peek_test l_isxdigit) by (done || by eapply got_post). destruct (l_isxdigit (hd 0 post)) eqn:Ed.
  - destruct post as [| b post]; [done |]. cbn [hd] in Ed. destruct (get_next _ _ _ _ _ Hg) as (l1 & -> & Hg1 & Hs1). cbn [mbind res_bind].
    destruct (IH _ _ _ _ Hg1) as (ok & c & l2 & -> & Hs2 & H). exists ok, c, l2. split_and!; [done | by eapply same_trans |].
    cbn [take drop length]. case_decide as D1.
    + rewrite decide_True by (split; [lia | constructor; tauto]). destruct H as (-> & -> & H). by rewrite <- app_assoc in H.
    + rewrite decide_False; [done |]. intros [? Hf]. apply D1. apply Forall_cons in Hf as [_ Hf]. split; [lia | done].
  - destruct (set_error (chars "invalid escape") l (fun l => Ok (false, peek post, l))) as (l' & -> & Ht & Hs); [by eapply got_texted |].
    exists false, (peek post), l'. split_and!; [done | done |]. rewrite decide_False; [done |]. intros [Hl Hf].
    destruct post as [| b post]; [cbn in Hl; lia |]. apply Forall_cons in Hf as [Hf _]. cbn in Ed. congruence.
Qed.

(** The result of the loop that checks a string. *)
Definition string_read (B T : list Z) (o : option (list Z * list Z)) (l : lex_t D) (r : res (bool * lex_t D)) : Prop :=
  exists l', same l l' /\
  match o with
  | Some (b, post) => r = Ok (true, l') /\ lexing l' B (T ++ b ++ [34]) post
  | None => r = Ok (false, l') /\ texted l'
  end.

Lemma string_read_same B T o l l1 r : same l l1 -> string_read B T o l1 r -> string_read B T o l r.
Proof. intros Hs (l' & Hs' & H). exists l'. split; [by eapply same_trans | done]. Qed.

Lemma string_read_error B T msg l : texted l -> string_read B T None l (l ← error_set msg l; Ok (false, l)).
Proof. intros Ht. destruct (set_error msg l (fun l => Ok (false, l)) Ht) as (l' & -> & ? & ?). by exists l'. Qed.

Lemma string_read_app B T p o l r : string_read B (T ++ p) o l r -> string_read B T (prod_map (app p) id <$> o) l r.
Proof. intros (l' & Hs & H). exists l'. split; [done |]. destruct o as [[b q] |]; cbn; [| done]. by rewrite <- !app_assoc in *. Qed.

Lemma schar_control b : text_byte b -> (0 <=? schar b) && (schar b <=? 0x1F) = (b <=? 0x1F).
Proof. unfold text_byte, schar. intros H. destruct (Z.ltb_spec b 128); lia. Qed.

Lemma string_loop_spec fuel : forall l B T post, got l B T post -> (length post < fuel)%nat ->
  string_read B T (string_end post) l (string_loop get text_alloc fuel (peek post) l).
Proof.
  induction fuel as [| fuel IH]; intros l B T post Hg Hf; [lia |]. cbn [string_loop].
  pose proof (got_post _ _ _ _ Hg) as Hp. pose proof (got_texted _ _ _ _ Hg) as Ht. destruct post as [| b post]; cbn [string_end].
  { rewrite (peek_eqb 34) by done. cbn [hd Z.eqb]. cbn [JsonStream.peek]. unfold end_mark. case_bool_decide.
    - change (STREAM_STATE_EOF =? STREAM_STATE_ERROR) with false. change (STREAM_STATE_EOF =? STREAM_STATE_EOF) with true. cbv iota. by apply string_read_error.
    - change (STREAM_STATE_ERROR =? STREAM_STATE_ERROR) with true. cbv iota. by exists l. }
  pose proof (Forall_inv Hp) as Hb. rewrite (peek_eqb 34), (peek_eqb 92) by done. cbn [hd JsonStream.peek].
  destruct (Z.eqb_spec b 34) as [-> |]; [apply got_lexing in Hg; by exists l |].
  pose proof (schar_at_end b Hb) as He. unfold at_end in He. apply orb_false_iff in He as [-> ->]. rewrite schar_control by done.
  destruct (Z.leb_spec b 0x1F).
  { destruct (unget_texted _ _ _ _ Hg) as (l1 & E & Ht1 & Hs1). cbn [JsonStream.peek] in E. rewrite E. cbn [mbind res_bind].
    eapply string_read_same; [exact Hs1 |]. by apply string_read_error. }
  destruct (get_next _ _ _ _ _ Hg) as (l1 & -> & Hg1 & Hs1). cbn [mbind res_bind]. eapply string_read_same; [exact Hs1 |]. cbn [length] in Hf.
  destruct (Z.eqb_spec b 92) as [-> |].
  2:{ apply (string_read_app _ _ [b]). by apply IH; [| lia]. }
  rewrite (peek_eqb 117), (peek_test simple_escape) by (done || (unfold simple_escape; lia) || by eapply got_post).
  destruct post as [| e post]; cbn [hd].
  { change (0 =? 117) with false. change (simple_escape 0) with false. cbv iota. apply string_read_error. by eapply got_texted. }
  destruct (get_next _ _ _ _ _ Hg1) as (l2 & E2 & Hg2 & Hs2). rewrite !E2. cbn [mbind res_bind].
  destruct (Z.eqb_spec e 117) as [-> |].
  - eapply string_read_same; [exact Hs2 |]. destruct (hex_run_spec 4 _ _ _ _ Hg2) as (ok & c & l3 & -> & Hs3 & H3). cbn [mbind res_bind].
    eapply string_read_same; [exact Hs3 |]. case_decide as D1.
    + destruct D1 as [D1 D2]. destruct post as [| x1 [| x2 [| x3 [| x4 post]]]]; try (cbn in D1; lia). cbn [take drop] in *. rewrite take_0, drop_0 in *.
      rewrite !Forall_cons in D2. destruct D2 as (-> & -> & -> & -> & _). cbn [andb]. destruct H3 as (-> & -> & Hg3). cbn [negb].
      apply (string_read_app _ _ [92; 117; x1; x2; x3; x4]). rewrite <- !app_assoc in Hg3. apply (IH _ _ _ _ Hg3). cbn in Hf. lia.
    + destruct H3 as (-> & Ht3). cbn [negb]. destruct post as [| x1 [| x2 [| x3 [| x4 post]]]]; try by exists l3. destruct (_ && _) eqn:Ex; [| by exists l3].
      exfalso. apply D1. apply andb_true_iff in Ex as [[[? ?]%andb_true_iff ?]%andb_true_iff ?]. split; [cbn; lia | by repeat constructor].
  - destruct (simple_escape e).
    + eapply string_read_same; [exact Hs2 |]. apply (string_read_app _ _ [92; e]). rewrite <- app_assoc in Hg2. apply (IH _ _ _ _ Hg2). cbn in Hf. lia.
    + apply string_read_error. by eapply got_texted.
Qed.

(** *** The value of a string *)

Lemma hex_digit_value c : l_isxdigit c = true -> hex_digit (schar c) = Some (hex_value c).
Proof.
  intros H. pose proof (xdigit_ascii c H) as Ha. rewrite schar_ascii by done. unfold hex_value, hex_digit.
  unfold l_isxdigit, l_isdigit in H. unfold l_isdigit, l_islower, l_isupper.
  destruct ((48 <=? c) && (c <=? 57)) eqn:E1; [done |]. destruct ((97 <=? c) && (c <=? 122)) eqn:E2; [done |].
  destruct ((65 <=? c) && (c <=? 90)) eqn:E3; [done | lia].
Qed.

Lemma decode_spec a b c d q : l_isxdigit a = true -> l_isxdigit b = true -> l_isxdigit c = true -> l_isxdigit d = true ->
  decode_unicode_escape (117 :: a :: b :: c :: d :: q) = Ok (hex4 a b c d).
Proof.
  intros Ha Hb Hc Hd. unfold decode_unicode_escape, rd. cbn [lookup list_lookup of_option mbind res_bind assert_ok Z.eqb Pos.eqb].
  rewrite !hex_digit_value by done. rewrite !Z.shiftl_mul_pow2 by lia. unfold hex4. done.
Qed.

(** What an escape leaves. *)
Lemma unicode_escape_spec a b c d s junk : l_isxdigit a = true -> l_isxdigit b = true -> l_isxdigit c = true -> l_isxdigit d = true -> escaped s ->
  (exists msg, unicode_escape (117 :: a :: b :: c :: d :: s ++ 34 :: junk) = Ok (inl msg) /\ text_value (92 :: 117 :: a :: b :: c :: d :: s) = None) \/
  (exists x s', unicode_escape (117 :: a :: b :: c :: d :: s ++ 34 :: junk) = Ok (inr (x, s' ++ 34 :: junk)) /\ scalar x /\ escaped s' /\
     text_value (92 :: 117 :: a :: b :: c :: d :: s) = app (encoding x) <$> text_value s' /\
     (length (encoding x) + length s' < length s + 6)%nat).
Proof.
  intros Ha Hb Hc Hd Hs. pose proof (hex4_range a b c d Ha Hb Hc Hd) as Hr. unfold unicode_escape. rewrite decode_spec by done. cbn [mbind res_bind].
  rewrite (proj2 (Z.ltb_ge _ 0)) by lia. cbn [drop]. rewrite drop_0. cbn [text_value Z.eqb Pos.eqb].
  change ((0xD800 <=? hex4 a b c d) && (hex4 a b c d <=? 0xDBFF)) with (high_surrogate (hex4 a b c d)).
  change ((0xDC00 <=? hex4 a b c d) && (hex4 a b c d <=? 0xDFFF)) with (low_surrogate (hex4 a b c d)).
  destruct (high_surrogate (hex4 a b c d)) eqn:Eh.
  - destruct Hs as [| x s H1 H2 H3 Hs | e s He Hs | a2 b2 c2 d2 s Ha2 Hb2 Hc2 Hd2 Hs]; cbn [app rd lookup list_lookup of_option mbind res_bind].
    + left. eexists. by split.
    + unfold rd. cbn [lookup list_lookup of_option mbind res_bind]. rewrite (proj2 (Z.eqb_neq _ _) H2). cbn [mbind res_bind andb]. left. eexists.
      split; [done |]. destruct s as [| ? [| ? [| ? [| ? [| ? s]]]]]; done.
    + unfold rd. cbn [lookup list_lookup of_option mbind res_bind Z.eqb Pos.eqb]. assert (e =? 117 = false) as Ee by (unfold simple_escape in He; lia). rewrite Ee. cbn [andb].
      left. eexists. split; [done |]. destruct s as [| ? [| ? [| ? [| ? s]]]]; done.
    + unfold rd. cbn [lookup list_lookup of_option mbind res_bind Z.eqb Pos.eqb andb drop]. rewrite decode_spec by done. cbn [mbind res_bind].
      pose proof (hex4_range a2 b2 c2 d2 Ha2 Hb2 Hc2 Hd2) as Hr2. rewrite (proj2 (Z.ltb_ge (hex4 a2 b2 c2 d2) 0)) by lia. rewrite drop_0.
      change ((0xDC00 <=? hex4 a2 b2 c2 d2) && (hex4 a2 b2 c2 d2 <=? 0xDFFF)) with (low_surrogate (hex4 a2 b2 c2 d2)).
      destruct (low_surrogate (hex4 a2 b2 c2 d2)) eqn:El; [| left; by eexists]. right.
      rewrite Z.shiftl_mul_pow2 by lia. change (2 ^ 10) with 1024.
      replace ((hex4 a b c d - 0xD800) * 1024 + (hex4 a2 b2 c2 d2 - 0xDC00) + 0x10000) with (0x10000 + (hex4 a b c d - 0xD800) * 1024 + (hex4 a2 b2 c2 d2 - 0xDC00)) by lia.
      eexists _, s. split_and!; [done | by apply surrogates_scalar | done | done |].
      unfold encoding. repeat case_match; cbn [length]; lia.
  - destruct (low_surrogate (hex4 a b c d)) eqn:El; [left; by eexists |]. right. eexists _, s.
    split_and!; [done | unfold high_surrogate, low_surrogate, scalar in *; lia | done | done |].
    assert (hex4 a b c d <? 0x10000 = true) as E by lia. unfold encoding. rewrite E. repeat case_match; cbn [length]; lia.
Qed.

Lemma put_bytes_spec acc bs (t : block Z) : blk_holds acc t -> (length acc + length bs <= length t)%nat ->
  exists t', put_bytes (length acc) bs t = Ok t' /\ blk_holds (acc ++ bs) t' /\ length t' = length t.
Proof.
  intros H Hl. destruct (blk_store_append acc bs t H) as (t' & E & H'); [done |]. exists t'. split_and!; [done | done | by eapply blk_store_length].
Qed.

Lemma unescape_spec e : simple_escape e = true -> unescape e = Ok (unescaped e).
Proof. unfold simple_escape, unescape, unescaped. intros H. repeat case_match; try done; lia. Qed.

Definition copied (acc : list Z) (t : block Z) (o : option (list Z)) (r : res (list Z + (nat * block Z))) : Prop :=
  match o with
  | Some v => exists t', r = Ok (inr (length (acc ++ v), t')) /\ blk_holds (acc ++ v) t' /\ length t' = length t /\ (length (acc ++ v) < length t)%nat
  | None => exists msg, r = Ok (inl msg)
  end.

Lemma copied_app acc t t1 bs o r : length t1 = length t -> copied (acc ++ bs) t1 o r -> copied acc t (app bs <$> o) r.
Proof. intros Hl. destruct o as [v |]; cbn; [| done]. rewrite <- app_assoc. by rewrite Hl. Qed.

Lemma copy_loop_spec fuel : forall s junk acc t, escaped s -> (length s < fuel)%nat -> blk_holds acc t -> (length acc + length s < length t)%nat ->
  copied acc t (text_value s) (copy_loop fuel (s ++ 34 :: junk) (length acc) t).
Proof.
  induction fuel as [| fuel IH]; intros s junk acc t Hs Hf Ht Hl; [lia |]. cbn [copy_loop].
  assert (Hput : forall bs s', escaped s' -> (length bs + length s' <= length s)%nat -> (length s' < length s)%nat ->
    copied acc t (app bs <$> text_value s') (t' ← put_bytes (length acc) bs t; copy_loop fuel (s' ++ 34 :: junk) (length acc + length bs) t')).
  { intros bs s' Hs' H1 H2. destruct (put_bytes_spec acc bs t Ht) as (t1 & -> & Ht1 & L1); [lia |]. cbn [mbind res_bind].
    apply (copied_app _ _ t1); [done |]. rewrite <- length_app. apply IH; [done | lia | done | rewrite length_app; lia]. }
  destruct Hs as [| c s H1 H2 H3 Hs | e s He Hs | a b c d s Ha Hb Hc Hd Hs]; unfold rd; cbn [app lookup list_lookup of_option mbind res_bind].
  - cbn [Z.eqb Pos.eqb text_value]. exists t. rewrite app_nil_r. cbn in Hl. split_and!; [done | done | done | lia].
  - rewrite (proj2 (Z.eqb_neq _ _) H1), (proj2 (Z.eqb_neq _ _) H2). cbn [text_value drop]. rewrite ?drop_0, (proj2 (Z.eqb_neq _ _) H2).
    apply (Hput [c] s Hs); cbn; lia.
  - cbn [Z.eqb Pos.eqb drop lookup list_lookup of_option mbind res_bind text_value]. assert (e =? 117 = false) as Ee by (unfold simple_escape in He; lia).
    rewrite Ee, unescape_spec by done. cbn [mbind res_bind drop]. rewrite ?drop_0. apply (Hput [unescaped e] s Hs); cbn; lia.
  - cbn [drop]. rewrite ?drop_0. cbn [Z.eqb Pos.eqb lookup list_lookup of_option mbind res_bind].
    destruct (unicode_escape_spec a b c d s junk Ha Hb Hc Hd Hs) as [(msg & -> & ->) | (x & s' & -> & Hx & Hs' & -> & Hlen')]; cbn [mbind res_bind]; [by exists msg |].
    rewrite encode_encoding by (by destruct Hx). change (0 =? 0) with true. cbn [assert_ok mbind res_bind].
    pose proof (encoding_nonempty x). apply (Hput (encoding x) s' Hs'); cbn [length]; [lia |]. destruct (encoding x); [done | cbn in Hlen'; lia].
Qed.

Context (alloc : Z -> bool).

(** The token, or the invalid one when there was no memory. *)
Definition scans (l : lex_t D) (p : tok * list Z) (r : res (lex_t D)) : Prop :=
  exists l', r = Ok l' /\ (scanned l p l' \/ ((exists x, alloc x = false) /\ (exists v, p.1 = KString v) /\ scanned l (KBad, []) l')).

Lemma texted_free (l : lex_t D) : texted l -> texted (lex_free_string l).
Proof. intros [t H]. by exists t. Qed.

Lemma scanned_freed (l l1 : lex_t D) r : same (with_token TOKEN_INVALID (with_value (VString None 0) l)) l1 -> texted l1 ->
  scanned l (KBad, r) (lex_free_string l1).
Proof. intros (? & ? & ? & _) Ht. split_and!; [done | done | by apply texted_free | by split | by intros []]. Qed.

Lemma lex_scan_string_spec l B post : lexing l B [34] post -> scans l (string_token post) (lex_scan_string get text_alloc alloc n l).
Proof.
  intros Hl. unfold lex_scan_string, scans. set (l0 := with_token TOKEN_INVALID (with_value (VString None 0) l)).
  assert (H0 : lexing l0 B [34] post) by (destruct Hl; by split).
  destruct (lex_get_save_spec _ _ _ _ H0) as (l1 & -> & Hg & Hs1). cbn [mbind res_bind].
  destruct (string_loop_spec n _ _ _ _ Hg) as (l2 & Hs2 & Hr); [apply got_length in Hg; lia |].
  assert (Hs : same l0 l2) by eauto. unfold string_token. destruct (string_end post) as [[b r] |] eqn:Eb.
  2:{ destruct Hr as [-> Ht]. cbn [mbind res_bind negb]. eexists. split; [done |]. left. by apply scanned_freed. }
  destruct Hr as [-> Hl2]. cbn [mbind res_bind negb]. apply (string_end_spec (length post)) in Eb as [-> He]; [| done].
  pose proof (lexing_texted _ _ _ _ Hl2) as Ht2. pose proof (lexing_post _ _ _ _ Hl2) as (_ & _ & Hle). rewrite !length_app in Hle. cbn [length] in Hle.
  pose proof (hd_length _ _ (lx_text _ _ _ _ Hl2)) as Hsb. rewrite !length_app in Hsb. cbn [length] in Hsb. rewrite wrap_small by lia.
  destruct (alloc (sb_length (saved_text l2) + 1)) eqn:Ea.
  2:{ rewrite jsonp_malloc_none by done. eexists. split; [done |].
      destruct (text_value b) as [w |]; [right; split_and!; [by eexists | by eexists | by apply scanned_freed] | left; by apply scanned_freed]. }
  rewrite jsonp_malloc_some by (done || lia). destruct (lx_text _ _ _ _ Hl2) as [(v & Ev & Hv & _) _ _]. rewrite Ev. cbn [of_option mbind res_bind].
  destruct (initialised_holds _ _ Hv) as [junk ->]. rewrite <- !app_assoc. cbn [app drop]. rewrite drop_0.
  set (t0 := blk_malloc (Z.to_nat (sb_length (saved_text l2) + 1))).
  assert (Ht0 : length t0 = (length b + 3)%nat) by (unfold t0, blk_malloc; rewrite length_replicate; lia).
  pose proof (copy_loop_spec n b (0 :: junk) [] t0 He ltac:(lia) (blk_holds_nil _) ltac:(cbn; lia)) as Hc. cbn [length] in Hc.
  destruct (text_value b) as [w |]; cbn [copied] in Hc.
  - destruct Hc as (t' & -> & Ht' & Hlt & Hlw). cbn [mbind res_bind app] in *.
    destruct (put_bytes_spec w [0] t' Ht') as (t2 & -> & Ht2' & _); [cbn; lia |]. cbn [mbind res_bind]. eexists. split; [done |]. left.
    destruct Hs as (? & ? & ? & _). split_and!; [done | done | done | split; [done | exists t2; split_and!; [done | done | lia]] |]. intros _.
    eapply ready_lexing. apply (lexing_value (VString (Some t2) (Z.of_nat (length w))) TOKEN_STRING) in Hl2. destruct Hl2. by split.
  - destruct Hc as [msg ->]. cbn [mbind res_bind]. destruct (set_error msg l2 (fun l => Ok (lex_free_string l))) as (l3 & -> & Ht3 & Hs3); [done |].
    eexists. split; [done |]. left. apply scanned_freed; eauto.
Qed.

(** ** Tokens *)

(** The first character of a token was taken and is not saved. *)
Record peeked (l : lex_t D) (B post : list Z) : Prop := {
  pk_stream : at_stream bad (stream l) (B ++ take 1 post) (drop 1 post);
  pk_cached : post = [] \/ cached (stream l);
  pk_unget : exists s, stream_unget (peek post) (stream l) = Ok s /\ at_stream bad s B post;
  pk_text : holds (saved_text l) [];
  pk_size : sb_size (saved_text l) <= 2 ^ 61;
  pk_all : B ++ post = all
}.

Lemma skip_blanks_spec fuel : forall l B post, lexing l B [] post -> (length post < fuel)%nat ->
  exists l' w, skip_blanks get fuel l = Ok (peek (skip_blank post), l') /\ peeked l' (B ++ w) (skip_blank post) /\ same l l'.
Proof.
  induction fuel as [| fuel IH]; intros l B post Hl Hf; [lia |]. cbn [skip_blanks]. unfold lex_get.
  pose proof (lexing_post _ _ _ _ Hl) as (Hp & _ & _).
  destruct (lex_get_spec _ _ _ _ Hl) as (c & l1 & -> & -> & Hs1 & Ht1 & A & C & U). cbn [mbind res_bind]. rewrite app_nil_r in A, U.
  assert (Hpk : peeked l1 B post) by (destruct Hl; split; rewrite ?Ht1; done).
  rewrite (peek_test is_blank) by (done || (unfold is_blank; lia)). destruct post as [| b post]; cbn [hd skip_blank].
  { exists l1, []. by rewrite app_nil_r. }
  destruct (is_blank b); [| exists l1, []; by rewrite app_nil_r]. cbn [take drop] in A. rewrite take_0, drop_0 in A.
  destruct (IH l1 (B ++ [b]) post) as (l' & w & -> & Hpk' & Hs'); [| cbn in Hf; lia |].
  { destruct Hl as [_ H2 H3 H4]. rewrite <- Ht1 in H2, H3. split; rewrite ?app_nil_r; [done | done | done | by rewrite <- app_assoc]. }
  exists l', (b :: w). split_and!; [done | by rewrite <- app_assoc in Hpk' | by eapply same_trans].
Qed.

Lemma save_cached_spec fuel : forall (l : lex_t D) T dn td, buffer_pos (stream l) = Z.of_nat (length dn) -> blk_holds (dn ++ td ++ [0]) (buffer (stream l)) ->
  Forall text_byte td -> (length td < fuel)%nat -> holds (saved_text l) T -> sb_size (saved_text l) <= 2 ^ 61 ->
  Z.of_nat (length T + length td) < 2 ^ 60 -> exists l', save_cached text_alloc fuel l = Ok l' /\ texted l' /\ same l l'.
Proof.
  induction fuel as [| fuel IH]; intros l T dn td Hp Hb Htd Hf Ht Hz Hk; [lia |]. cbn [save_cached]. rewrite Hp.
  destruct td as [| b td].
  - rewrite (rd_holds dn 0 []) by done. cbn [mbind res_bind Z.eqb]. exists l. split_and!; [done | by exists T | done ..].
  - rewrite (rd_holds dn b (td ++ [0])) by done. cbn [mbind res_bind]. apply Forall_cons in Htd as [Hbb Htd]. unfold text_byte in Hbb.
    rewrite (proj2 (Z.eqb_neq b 0)) by lia. unfold lex_save. rewrite u8_schar by done. cbn [length] in *.
    destruct (append_byte_holds text_alloc (saved_text l) T b Ht Hta) as (t & -> & Ht' & Hz'); [lia | done |]. cbn [mbind res_bind].
    destruct (IH (with_stream (MkStream (data (stream l)) (buffer (stream l)) (Z.of_nat (length dn) + 1) (state (stream l)) (line (stream l)) (column (stream l))
                                       (last_column (stream l)) (u64 (position (stream l) + 1))) (with_text t l)) (T ++ [b]) (dn ++ [b]) td) as (l' & E & Ht2 & Hs);
      cbn [stream with_stream buffer_pos buffer saved_text with_text]; rewrite ?length_app; cbn [length]; try done; try lia; [by rewrite <- app_assoc |].
    rewrite E. exists l'. split_and!; [done | done |]. by destruct l.
Qed.

(** Saving the character that was looked at. *)
Lemma peeked_got l B b post : peeked l B (b :: post) -> exists l', lex_save text_alloc (peek (b :: post)) l = Ok l' /\ got l' B [] (b :: post) /\
  same l l' /\ stream l' = stream l.
Proof.
  intros [A C (s & U & A') H1 H2 H3]. cbn [take drop] in A. rewrite take_0, drop_0 in A.
  assert (Hb : text_byte b) by (rewrite <- H3 in Hall; apply Forall_app in Hall as [_ H]; by apply Forall_inv in H).
  rewrite <- (app_nil_r B) in A, A'. destruct (lex_save_spec l B [] b post A H1 H2 H3 Hb) as (t & E & Hl). cbn [JsonStream.peek] in *. rewrite E.
  eexists. split; [done |]. destruct (got_taken l _ B [] b post _ s A H1 H2 H3 Hb eq_refl E U A') as [Hg Hs]. by split_and!.
Qed.

Lemma lexing_words l B T post k : lexing l B T post -> lexing (with_token k l) B T post.
Proof. intros []. by split. Qed.

Lemma word_tok_code w : code (word_tok w) = word_token w.
Proof. unfold word_tok, word_token. by repeat case_decide. Qed.

Lemma word_tok_shows (l : lex_t D) w : token l = word_token w -> shows l (word_tok w).
Proof. intros E. split; [by rewrite word_tok_code |]. unfold word_tok. by repeat case_decide. Qed.

Lemma scans_here l p l' : scanned l p l' -> scans l p (Ok l').
Proof. intros H. exists l'. auto. Qed.

Lemma scanned_kept l l1 p l2 : lflags l1 = lflags l -> ldepth l1 = ldepth l -> scanned l1 p l2 -> scanned l p l2.
Proof. intros E1 E2 (F1 & F2 & H). split_and!; [congruence | congruence | tauto ..]. Qed.

Lemma scans_kept l l1 p r : lflags l1 = lflags l -> ldepth l1 = ldepth l -> scans l1 p r -> scans l p r.
Proof. intros E1 E2 (l' & E & [H | (Hx & Hv & H)]); exists l'; split; [done | left; by eapply scanned_kept | done | right; split_and!; [done | done | by eapply scanned_kept]]. Qed.

(** A token that starts with the character [b]. *)
Lemma scan_token l B b post : got l B [] (b :: post) -> cached (stream l) ->
  scans l
    (if is_punct b then (KPunct b, post)
     else if b =? 34 then string_token post
     else if l_isdigit b || (b =? 45) then number_token (flag (lflags l) JSON_DECODE_INT_AS_REAL) (b :: post)
     else if l_isalpha b then let '(w, r) := alphas (b :: post) in (word_tok w, r)
     else (KBad, []))
    (let c := schar b in
     if is_punct c then Ok (with_token c l)
     else if c =? 34 then lex_scan_string get text_alloc alloc n l
     else if l_isdigit c || (c =? 45) then '(_, l) ← lex_scan_number get text_alloc n c l; Ok l
     else if l_isalpha c then
       '(c, l) ← alpha_run get text_alloc n l; l ← lex_unget_unsave c l; s ← text_of (saved_text l); Ok (with_token (word_token s) l)
     else l ← lex_save_cached text_alloc l; Ok (with_token TOKEN_INVALID l)).
Proof.
  intros Hg Hc. cbv zeta. pose proof (got_post _ _ _ _ Hg) as Hp. pose proof (Forall_inv Hp) as Hb. pose proof (got_lexing _ _ _ _ _ Hg) as Hl.
  change (schar b) with (peek (b :: post)). rewrite (peek_test is_punct), (peek_test l_isdigit), (peek_test l_isalpha), !peek_eqb
    by (done || (unfold is_punct; lia) || apply isdigit_range || apply isalpha_range). cbn [hd].
  destruct (is_punct b) eqn:Ep.
  { apply scans_here. apply punct_ascii in Ep. cbn [JsonStream.peek]. rewrite schar_ascii by done. pose proof (lexing_words _ _ _ _ b Hl) as Hl'.
    split_and!; [done | done | by eapply lexing_texted | by split | intros _; by eapply ready_lexing]. }
  destruct (b =? 34) eqn:E34; [apply (lex_scan_string_spec l B); by replace b with 34 in Hl by lia |].
  destruct (_ || _) eqn:En.
  { destruct (lex_scan_number_spec l B (b :: post) Hg) as (r & l' & -> & Hs). cbn [mbind res_bind]. by apply scans_here. }
  destruct (l_isalpha b) eqn:Ea.
  - cbn [alphas]. rewrite Ea. pose proof (alpha_run_spec n l B [b] post Hl) as H. destruct (alphas post) as [w r].
    destruct H as (l1 & -> & [_ (l2 & U & Hl2 & Hs2)] & Hs1); [pose proof (lexing_post _ _ _ _ Hl); lia |]. cbn [mbind res_bind]. rewrite U. cbn [mbind res_bind].
    rewrite (text_of_spec _ _ _ _ Hl2). cbn [mbind res_bind app] in *. apply scans_here. assert (Hs : same l l2) by eauto. destruct Hs as (? & ? & _).
    pose proof (lexing_words _ _ _ _ (word_token (b :: w)) Hl2) as Hl3.
    split_and!; [done | done | by eapply lexing_texted | by apply word_tok_shows | intros _; by eapply ready_lexing].
  - destruct Hc as (dn & td & H1 & H2 & H3 & H4). destruct (save_cached_spec 6 l [b] dn td H1 H2 H4) as (l1 & E & Ht1 & Hs1).
    + apply blk_holds_length in H2. rewrite !length_app in H2. cbn in H2. lia.
    + by destruct Hl.
    + by destruct Hl.
    + apply blk_holds_length in H2. rewrite !length_app in H2. cbn [length] in *. lia.
    + unfold lex_save_cached. rewrite E. cbn [mbind res_bind]. apply scans_here. destruct Hs1 as (? & ? & _).
      split_and!; [done | done | by destruct Ht1 as [t Ht1]; exists t | by split | by intros []].
Qed.

Lemma lex_scan_spec l post : ready l post -> scans l (next_token (lflags l) (bool_decide (bad = [])) post) (lex_scan get text_alloc alloc n l).
Proof.
  intros (B & T & Hl). unfold lex_scan. destruct (clear_holds _ _ (lx_text _ _ _ _ Hl)) as (t & -> & Ht & Hz). cbn [mbind res_bind].
  set (l0 := free_old_string (with_text t l)).
  assert (E0 : stream l0 = stream l /\ saved_text l0 = t /\ lflags l0 = lflags l /\ ldepth l0 = ldepth l)
    by (unfold l0, free_old_string; cbn [token with_text]; by destruct (_ =? _)).
  destruct E0 as (Es & Et & Ef & Ed).
  assert (H0 : lexing l0 (B ++ T) [] post).
  { destruct Hl as [H1 _ H3 H4]. split; rewrite ?Es, ?Et, ?app_nil_r; [done | done | by rewrite Hz | by rewrite <- app_assoc]. }
  pose proof (lexing_post _ _ _ _ H0) as (_ & _ & Hle).
  destruct (skip_blanks_spec n l0 (B ++ T) post H0) as (l1 & w & -> & Hpk & Hs1); [lia |]. cbn [mbind res_bind].
  destruct (same_kept _ _ Hs1) as [Ef1 Ed1]. unfold next_token. destruct (skip_blank post) as [| b q].
  - cbn [JsonStream.peek]. assert (Ht1 : texted l1) by (exists []; by destruct Hpk).
    assert (Hr : ready l1 []).
    { exists ((B ++ T) ++ w), []. destruct Hpk as [A _ _ H1 H2 H3]. rewrite take_nil, drop_nil in A. by split; rewrite ?app_nil_r in *. }
    unfold end_mark. case_bool_decide.
    + change (STREAM_STATE_EOF =? STREAM_STATE_EOF) with true. cbv iota. apply scans_here. destruct Hr as (B' & T' & Hr).
      split_and!; cbn [lflags ldepth with_token]; [congruence | congruence | done | by split | intros _; eapply ready_lexing; by apply lexing_words].
    + change (STREAM_STATE_ERROR =? STREAM_STATE_EOF) with false. change (STREAM_STATE_ERROR =? STREAM_STATE_ERROR) with true. cbv iota. apply scans_here.
      split_and!; cbn [lflags ldepth with_token]; [congruence | congruence | done | by split | by intros []].
  - pose proof (pk_cached _ _ _ Hpk) as [? | Hc]; [done |].
    destruct (peeked_got _ _ _ _ Hpk) as (l2 & E2 & Hg & Hs2 & Es2). pose proof (got_post _ _ _ _ Hg) as Hp.
    pose proof (schar_at_end b (Forall_inv Hp)) as He. unfold at_end in He. apply orb_false_iff in He as [He1 He2]. cbn [JsonStream.peek] in *. rewrite He1, He2, E2.
    cbn [mbind res_bind]. destruct (same_kept _ _ Hs2) as [Ef2 Ed2]. apply (scans_kept _ l2); [congruence | congruence |].
    assert (Ef3 : lflags l = lflags l2) by congruence. rewrite Ef3. apply (scan_token l2 ((B ++ T) ++ w)); [done | by rewrite Es2].
Qed.
End lexer.
