(* ===== verification/JsonParse.v ===== *)
(** * What is loaded

    The parser of [common/jansson/load.c] computes the reading of [JsonText].  The heap gets the tree that the text
    denotes and nothing else, or stays as it was; every assertion of the lexer holds, and a value is refused only when the
    text has no reading or there is no memory. *)

From Stdlib Require Import SpecFloat.
From S2P Require Import Prelude Utf Strbuf ObjectTable Hashtable Json JsonTree JsonLex JsonLoad JsonText JsonStream JsonToken.

(** ** Heaps *)

Section heaps.
Context {OT : ObjectTable} {OS : ObjectTableSpec OT}.

(** The heap is as it was. *)
Definition undone (h h' : jheap) : Prop := cells h' = cells h /\ heap_ok h' /\ next h <= next h'.

Lemma undone_refl h : heap_ok h -> undone h h.
Proof. intros H. split_and!; [done | done | lia]. Qed.

Lemma makes_ok h p t h' : makes h p t h' -> heap_ok h'.
Proof. intros (m & _ & _ & _ & ? & _). done. Qed.

Lemma makes_nonnull h p t h' : makes h p t h' -> p <> NULL.
Proof. intros (m & H & _). by eapply own_nonnull. Qed.

Lemma heap_eta h : h = MkHeap (cells h) (next h).
Proof. by destruct h. Qed.

(** A heap in which a part has become smaller. *)
Lemma heap_ok_part m m' (c : gmap Z json_t) k k' : heap_ok (MkHeap (m ∪ c) k) -> m' ##ₘ c -> statics_in c -> k <= k' -> dom m' ⊆ dom m ->
  heap_ok (MkHeap (m' ∪ c) k').
Proof.
  intros (H1 & H2 & H3) Hm Hs Hk Hd. cbn [cells next] in *. split_and!; cbn [cells next]; [by apply statics_in_union | lia |].
  intros p Hp. specialize (H3 p ltac:(lia)). apply lookup_union_None in H3 as [H3 H4]. apply lookup_union_None. split; [| done].
  apply not_elem_of_dom. apply not_elem_of_dom in H3. set_solver.
Qed.

(** Releasing what was made. *)
Lemma decref_makes h p t h' : heap_ok h -> makes h p t h' -> exists h'', decref p h' = Ok h'' /\ undone h h''.
Proof.
  intros (Hs & Hb & Hf) (m & Ho & Hd & Hc & Hok & Hle). exists (MkHeap (cells h) (next h')). split.
  - rewrite (heap_eta h'), Hc. by apply (decref_tree p t).
  - split_and!; [done | | done]. split_and!; cbn [cells next]; [done | lia |]. intros q Hq. apply Hf. lia.
Qed.

Lemma undone_trans h h' h'' : undone h h' -> undone h' h'' -> undone h h''.
Proof. intros (? & _ & ?) (? & ? & ?). split_and!; [congruence | done | lia]. Qed.

(** A heap that is as it was still has the container. *)
Lemma makes_undone h0 p t h h' : makes h0 p t h -> undone h h' -> makes h0 p t h'.
Proof. intros (m & Ho & Hd & Hc & Hok & Hle) (E & Hok' & Hle'). exists m. split_and!; [done | done | congruence | done | lia]. Qed.
End heaps.

(** ** The parser and the reading *)

Section parser.
Context {OT : ObjectTable} {OS : ObjectTableSpec OT} {D : Type} {get : D -> res (Z * D)} {BS : ByteSource get}.
Context (all bad : list Z) (Hutf : is_utf8 all) (Hall : Forall text_byte all) (Hlen : Z.of_nat (length all) < 2 ^ 30).
Context (Hbad : stuck bad) (Hbytes : Forall is_byte bad).
Context (text_alloc : Z -> bool) (Hta : forall n, text_alloc n = true) (alloc : Z -> Z -> bool).
Context (n : nat) (Hn : (length all < n)%nat) (flags : Z).

#[local] Abbreviation clean := (bool_decide (bad = [])).
#[local] Abbreviation next_token := (next_token flags clean).
#[local] Abbreviation read_value := (read_value flags clean).
#[local] Abbreviation read_members := (read_members flags clean).
#[local] Abbreviation read_elements := (read_elements flags clean).
#[local] Abbreviation scan := (scan get text_alloc alloc).
#[local] Abbreviation parse_value := (parse_value get text_alloc alloc).
#[local] Abbreviation parse_members := (parse_members get text_alloc alloc).
#[local] Abbreviation parse_elements := (parse_elements get text_alloc alloc).

Definition oom : Prop := exists a x, alloc a x = false.

(** ** The token at hand *)

(** The lexer shows [k] with the text [s] behind it, or a string for which there was no memory. *)
Definition tok_at (l : lex_t D) (k : tok) (s : list Z) : Prop :=
  lflags l = flags /\ texted l /\ is_utf8 s /\ tok_ok k /\ (forall c, k = KPunct c -> is_punct c = true) /\
  ((shows l k /\ (k <> KBad -> ready all bad l s)) \/ (oom /\ (exists v, k = KString v) /\ token l = TOKEN_INVALID)).

Lemma token_scanned l s h k r : ready all bad l s -> lflags l = flags -> is_utf8 s -> next_token s = (k, r) ->
  exists l', scan n l h = Ok l' /\ tok_at l' k r /\ ldepth l' = ldepth l.
Proof.
  intros Hr Hf Hs E. destruct (lex_scan_spec all bad Hutf Hall Hlen Hbad Hbytes text_alloc Hta n Hn (alloc (next h)) l s Hr) as (l' & E' & H).
  exists l'. split; [exact E' |]. rewrite Hf, E in H. destruct (next_typed flags clean s k r E Hs) as [[Hu Hk] _].
  assert (Hp : forall c, k = KPunct c -> is_punct c = true) by (intros c ->; by eapply next_token_punct).
  destruct H as [(F1 & F2 & F3 & F4 & F5) | ((x & Hx) & Hv & (F1 & F2 & F3 & (F4 & _) & _))]; cbn [fst snd] in *.
  - split; [| done]. split_and!; [congruence | done | done | done | done | by left].
  - split; [| done]. split_and!; [congruence | done | done | done | done | right; split_and!; [by exists (next h), x | done | done]].
Qed.

(** A token is [c] exactly when the text has it there. *)
Lemma tok_at_punct l k s c : tok_at l k s -> is_punct c = true -> (token l =? c) = is_tok c k.
Proof.
  intros (_ & _ & _ & _ & Hp & [[[-> _] _] | (_ & (v & ->) & ->)]) Hc.
  - destruct k; cbn [code is_tok]; try done; unfold is_punct in Hc; destruct (Z.eqb_spec c 0); lia || (apply Z.eqb_neq; unfold TOKEN_INVALID, TOKEN_STRING, TOKEN_INTEGER, TOKEN_REAL, TOKEN_TRUE, TOKEN_FALSE, TOKEN_NULL, TOKEN_EOF; lia).
  - cbn [is_tok]. unfold is_punct in Hc. unfold TOKEN_INVALID. lia.
Qed.

Lemma tok_at_ready l k s : tok_at l k s -> k <> KBad -> (forall v, k <> KString v) -> ready all bad l s.
Proof. intros (_ & _ & _ & _ & _ & [[_ H] | (_ & (v & ->) & _)]) Hk Hv; [auto | by destruct (Hv v)]. Qed.

Lemma is_tok_ready l k s c : tok_at l k s -> is_tok c k = true -> ready all bad l s /\ k <> KBad /\ k <> KEnd.
Proof. intros H Hc. destruct k; try done. split_and!; [by eapply tok_at_ready | done | done]. Qed.

(** ** Values *)

(** The tree of the text and the lexer behind it; or NULL and the heap as it was. *)
Definition parsed (h0 : jheap) (d : Z) (o : option (json * list Z)) (r : res (Z * lex_t D * jheap)) : Prop :=
  exists p l' h', r = Ok (p, l', h') /\
    ((p = NULL /\ undone h0 h' /\ texted l' /\ (o = None \/ oom)) \/
     (exists t s, o = Some (t, s) /\ makes h0 p t h' /\ ready all bad l' s /\ lflags l' = flags /\ ldepth l' = d)).

Lemma parsed_null h0 d o l h : undone h0 h -> texted l -> (o = None \/ oom) -> parsed h0 d o (Ok (NULL, l, h)).
Proof. intros H1 H2 H3. exists NULL, l, h. split; [done |]. by left. Qed.

Lemma parsed_error h0 d o msg l h : undone h0 h -> texted l -> (o = None \/ oom) -> parsed h0 d o (l ← error_set msg l; Ok (NULL, l, h)).
Proof. intros H1 H2 H3. destruct (set_error msg l (fun l => Ok (NULL, l, h)) H2) as (l' & -> & Ht & _). by apply parsed_null. Qed.

(** The exits that release the container. *)
Lemma parsed_fail h0 d o p t msg l h : heap_ok h0 -> makes h0 p t h -> texted l -> (o = None \/ oom) -> parsed h0 d o (fail_with p msg l h).
Proof.
  intros H0 Hm Ht Ho. destruct (decref_makes _ _ _ _ H0 Hm) as (h' & E & Hu). unfold fail_with.
  destruct msg as [msg |]; [destruct (set_error msg l (fun l => h ← decref p h; Ok (NULL, l, h)) Ht) as (l' & -> & Ht' & _) | cbn [mbind res_bind]];
    rewrite E; cbn [mbind res_bind]; by apply parsed_null.
Qed.

(** What the parser and the reading do with the same fuel. *)
Definition agrees (h0 : jheap) (d : Z) (o : res (option (json * list Z))) (r : res (Z * lex_t D * jheap)) : Prop :=
  match o with Ok o => parsed h0 d o r | _ => True end.

(** A new leaf. *)
Lemma leaf_parsed h d t r l s : heap_ok h -> constructs alloc h t r -> ready all bad l s -> lflags l = flags -> ldepth l = d + 1 ->
  0 <= d < JSON_PARSER_MAX_DEPTH ->
  parsed h d (Some (t, s)) ('(json, l, h) ← ('(json, h) ← r; Ok (json, l, h)); if json =? NULL then Ok (NULL, l, h) else Ok (json, with_depth (u64 (ldepth l - 1)) l, h)).
Proof.
  intros Hh (p & h' & -> & H) Hr Hf Hd Hb. cbn [mbind res_bind]. unfold JSON_PARSER_MAX_DEPTH in Hb.
  destruct H as [(Hp & Hm) | (-> & -> & x & Hx)].
  - rewrite (proj2 (Z.eqb_neq p NULL)) by done. rewrite wrap_small by lia. exists p, (with_depth (ldepth l - 1) l), h'. split; [done |].
    right. exists t, s. split_and!; [done | done | | done | cbn; lia]. destruct Hr as (B & T & []). exists B, T. by split.
  - rewrite Z.eqb_refl. apply parsed_null; [by apply undone_refl | | right; by exists (next h), x].
    destruct Hr as (B & T & Hr). by eapply lexing_texted.
Qed.

Lemma static_constructs h p t : heap_ok h -> own p t ∅ -> constructs alloc h t (Ok (p, h)).
Proof. intros H Ho. exists p, h. split; [done |]. left. split; [by eapply own_nonnull | by apply makes_static]. Qed.

(** The end of [parse_value]. *)
Lemma parsed_tail h d o r : 0 <= d < JSON_PARSER_MAX_DEPTH -> parsed h (d + 1) o r ->
  parsed h d o ('(json, l, h) ← r; if json =? NULL then Ok (NULL, l, h) else Ok (json, with_depth (u64 (ldepth l - 1)) l, h)).
Proof.
  intros Hd (p & l & h' & -> & H). cbn [mbind res_bind]. destruct H as [(-> & Hu & Ht & Ho) | (t & s & -> & Hm & Hr & Hf & Hl)].
  - rewrite Z.eqb_refl. by apply parsed_null.
  - pose proof (makes_nonnull _ _ _ _ Hm) as Hp. rewrite (proj2 (Z.eqb_neq p NULL)) by done. unfold JSON_PARSER_MAX_DEPTH in Hd. rewrite wrap_small by lia.
    eexists _, _, _. split; [done |]. right. exists t, s. split_and!; [done | done | | done | cbn; lia].
    destruct Hr as (B & T & []). exists B, T. by split.
Qed.

Lemma ready_depth d l s : ready all bad l s -> ready all bad (with_depth d l) s.
Proof. intros (B & T & []). exists B, T. by split. Qed.

Lemma ready_value v l s : ready all bad l s -> ready all bad (with_value v l) s.
Proof. intros (B & T & []). exists B, T. by split. Qed.

Lemma ready_texted l s : ready all bad l s -> texted l.
Proof. intros (B & T & H). by eapply lexing_texted. Qed.

(** The text of a string token. *)
Lemma has_nul_spec s v : blk_holds (s ++ [0]) v -> has_nul v (Z.of_nat (length s)) = Ok (bool_decide (0 ∈ s)).
Proof.
  intros H. unfold has_nul. rewrite Nat2Z.id. pose proof (blk_load_holds 0 (length s) _ _ H) as E. rewrite E by (rewrite length_app; cbn; lia).
  cbn [mbind res_bind drop]. rewrite ?drop_0, take_app_length. done.
Qed.

Lemma tok_at_depth d l k s : tok_at l k s -> tok_at (with_depth d l) k s.
Proof.
  intros (H1 & H2 & H3 & H4 & H5 & H). split_and!; [done | by destruct H2 as [t ?]; exists t | done | done | done |].
  destruct H as [[Hs Hr] | H]; [left; split; [done | intros Hk; by apply ready_depth, Hr] | by right].
Qed.

Section value.
Context (fuel : nat).
Context (IHm : forall d k s l h0 h p ms, tok_at l k s -> ldepth l = d -> 0 <= d <= JSON_PARSER_MAX_DEPTH -> heap_ok h0 -> makes h0 p (TObject ms) h ->
  (length ms + length s <= length all)%nat -> agrees h0 d (read_members fuel d ms k s) (parse_members fuel n flags p l h)).
Context (IHe : forall d k s l h0 h p ts, tok_at l k s -> ldepth l = d -> 0 <= d <= JSON_PARSER_MAX_DEPTH -> heap_ok h0 -> makes h0 p (TArray ts) h ->
  (length ts + length s <= length all)%nat -> agrees h0 d (read_elements fuel d ts k s) (parse_elements fuel n flags p l h)).

(** The start of a container: the next token is looked at. *)
Lemma container_parsed (close : Z) t0 (rd : Z -> tok -> list Z -> res (option (json * list Z))) (ps : Z -> lex_t D -> jheap -> res (Z * lex_t D * jheap)) r d l h s :
  (forall p h1 k s l, makes h p t0 h1 -> tok_at l k s -> ldepth l = d + 1 -> (length s <= length all)%nat -> agrees h (d + 1) (rd (d + 1) k s) (ps p l h1)) ->
  is_punct close = true -> heap_ok h -> constructs alloc h t0 r -> ready all bad l s -> lflags l = flags -> ldepth l = d + 1 -> is_utf8 s -> 0 <= d < JSON_PARSER_MAX_DEPTH ->
  agrees h d (let '(k, q) := next_token s in if is_tok close k then Ok (Some (t0, q)) else rd (d + 1) k q)
    ('(json, l, h) ← ('(p, h) ← r; if p =? NULL then Ok (NULL, l, h) else l ← scan n l h; if token l =? close then Ok (p, l, h) else ps p l h);
     if json =? NULL then Ok (NULL, l, h) else Ok (json, with_depth (u64 (ldepth l - 1)) l, h)).
Proof.
  intros Hps Hc Hh (p & h1 & -> & H) Hr Hf Hd Hu Hdb. destruct (next_token s) as [k q] eqn:E. cbn [mbind res_bind].
  destruct H as [(Hp & Hm) | (-> & -> & x & Hx)].
  - rewrite (proj2 (Z.eqb_neq p NULL)) by done. destruct (token_scanned l s h1 k q Hr Hf Hu E) as (l1 & -> & Hk & Hd1). cbn [mbind res_bind].
    rewrite (tok_at_punct _ _ _ _ Hk Hc). destruct (is_tok close k) eqn:Ek.
    + apply parsed_tail; [done |]. destruct (is_tok_ready _ _ _ _ Hk Ek) as (Hr1 & _). exists p, l1, h1. split; [done |]. right.
      exists t0, q. split_and!; [done | done | done | by destruct Hk | congruence].
    + destruct (next_typed flags clean s k q E Hu) as [_ Hq].
      assert (Hs : (length s <= length all)%nat) by (destruct Hr as (B & T & Hl); pose proof (lexing_post all bad Hutf Hall Hlen _ _ _ _ Hl); lia).
      specialize (Hps p h1 k q l1 Hm Hk ltac:(congruence) ltac:(lia)). unfold agrees in *. destruct (rd (d + 1) k q); [| done | done].
      by apply parsed_tail.
  - rewrite Z.eqb_refl. cbn [mbind res_bind]. rewrite Z.eqb_refl.
    assert (Hany : forall o, parsed h d o (Ok (NULL, l, h)))
      by (intros o; apply parsed_null; [by apply undone_refl | by eapply ready_texted | right; by exists (next h), x]).
    unfold agrees. case_match; [by apply Hany | done | done].
Qed.

Lemma punct_cases c : is_punct c = true -> c = 123 \/ c = 125 \/ c = 91 \/ c = 93 \/ c = 58 \/ c = 44.
Proof. unfold is_punct. lia. Qed.

(** An error instead of a value. *)
Lemma value_error h d o msg l : heap_ok h -> texted l -> (o = None \/ oom) -> 0 <= d < JSON_PARSER_MAX_DEPTH ->
  parsed h d o ('(json, l, h) ← (l ← error_set msg l; Ok (NULL, l, h)); if json =? NULL then Ok (NULL, l, h) else Ok (json, with_depth (u64 (ldepth l - 1)) l, h)).
Proof. intros Hh Ht Ho Hd. apply parsed_tail; [done |]. apply parsed_error; [by apply undone_refl | done | done]. Qed.

(** A string: the lexer gives its block away. *)
Lemma string_parsed h d l s v str : heap_ok h -> lvalue l = VString (Some v) (Z.of_nat (length str)) -> blk_holds (str ++ [0]) v ->
  ready all bad l s -> lflags l = flags -> ldepth l = d + 1 -> 0 <= d < JSON_PARSER_MAX_DEPTH ->
  parsed h d (if negb (flag flags JSON_ALLOW_NUL) && bool_decide (0 ∈ str) then None else Some (TString str, s))
    ('(json, l, h) ← (match lvalue l with
        | VString val len =>
            v ← of_option val;
            nul ← (if negb (flag flags JSON_ALLOW_NUL) then has_nul v len else Ok false);
            if nul : bool then l ← error_set (chars "\u0000 is not allowed without JSON_ALLOW_NUL") l; Ok (NULL, l, h)
            else '(json, h) ← jsonp_stringn_nocheck_own alloc val len h; Ok (json, if json =? NULL then l else with_value (VString None 0) l, h)
        | _ => UB
        end); if json =? NULL then Ok (NULL, l, h) else Ok (json, with_depth (u64 (ldepth l - 1)) l, h)).
Proof.
  intros Hh Hv Hb Hr Hf Hd Hdb. rewrite Hv. cbn [of_option mbind res_bind]. rewrite (has_nul_spec str v Hb).
  assert (Hn0 : (nul ← (if negb (flag flags JSON_ALLOW_NUL) then Ok (bool_decide (0 ∈ str)) else Ok false);
    Ok nul) = Ok (negb (flag flags JSON_ALLOW_NUL) && bool_decide (0 ∈ str))) by (by destruct (negb _)).
  destruct (negb (flag flags JSON_ALLOW_NUL)); cbn [mbind res_bind andb] in *; [destruct (bool_decide (0 ∈ str)) |].
  1: { apply value_error; [done | by eapply ready_texted | by left | done]. }
  all: destruct (own_string_constructs alloc h str v Hh Hb) as (p & h' & -> & H); cbn [mbind res_bind];
    destruct H as [(Hp & Hm) | (-> & -> & x & Hx)].
  all: try (rewrite !Z.eqb_refl; apply parsed_null; [by apply undone_refl | by eapply ready_texted | right; by exists (next h), x]).
  all: rewrite (proj2 (Z.eqb_neq p NULL)) by done; unfold JSON_PARSER_MAX_DEPTH in Hdb; cbn [ldepth with_value]; rewrite wrap_small by lia;
    eexists _, _, _; (split; [done |]); right; exists (TString str), s; split_and!; [done | done | by apply ready_depth, ready_value | done | cbn; lia].
Qed.

Lemma value_step d k s l h : tok_at l k s -> ldepth l = d -> 0 <= d <= JSON_PARSER_MAX_DEPTH -> heap_ok h ->
  agrees h d (read_value (S fuel) d k s) (parse_value (S fuel) n flags l h).
Proof.
  intros Hk Hd Hdb Hh. simpl. rewrite Hd. pose proof (tok_at_depth (u64 (d + 1)) _ _ _ Hk) as Hk1.
  assert (Hd1 : ldepth (with_depth (u64 (d + 1)) l) = d + 1) by (cbn; apply wrap_small; unfold JSON_PARSER_MAX_DEPTH in Hdb; lia).
  set (l1 := with_depth (u64 (d + 1)) l) in *.
  change (token l) with (token l1). change (lvalue l) with (lvalue l1). change (u64 (d + 1)) with (ldepth l1). clearbody l1. clear Hk l Hd. rewrite Hd1. destruct Hk1 as (Hf & Ht & Hu & Hko & Hp & Hc).
  destruct (Z.gtb_spec (d + 1) JSON_PARSER_MAX_DEPTH) as [| Hlt]; [apply parsed_error; [by apply undone_refl | done | by left] |].
  assert (Hdb' : 0 <= d < JSON_PARSER_MAX_DEPTH) by lia.
  destruct Hc as [[[Et Hv] Hr] | (Ho & (v & ->) & ->)]; [| cbn [agrees]; apply value_error; auto].
  destruct k as [| | c | str | z | x | | |]; cbn [code] in Et; rewrite Et; cbn [agrees].
  - apply value_error; auto.
  - apply value_error; auto.
  - specialize (Hr ltac:(done)). specialize (Hp c eq_refl).
    destruct (punct_cases c Hp) as [-> | [-> | [-> | [-> | [-> | ->]]]]]; cbn [Z.eqb Pos.eqb TOKEN_STRING TOKEN_INTEGER TOKEN_REAL TOKEN_TRUE TOKEN_FALSE TOKEN_NULL TOKEN_INVALID].
    + apply (container_parsed 125 (TObject []) (fun d => read_members fuel d []) (parse_members fuel n flags)); try done; [| by apply object_constructs].
      intros p h1 k' s' l' Hm Hk' Hd' Hs'. apply IHm; try done; lia.
    + destruct (next_token s). apply value_error; auto.
    + apply (container_parsed 93 (TArray []) (fun d => read_elements fuel d []) (parse_elements fuel n flags)); try done; [| by apply array_constructs].
      intros p h1 k' s' l' Hm Hk' Hd' Hs'. apply IHe; try done; lia.
    + destruct (next_token s). apply value_error; auto.
    + destruct (next_token s). apply value_error; auto.
    + destruct (next_token s). apply value_error; auto.
  - destruct Hv as (v & Hv & Hb & _). apply (string_parsed h d l1 s v str); auto.
  - rewrite Hv. apply (leaf_parsed h d (TInteger z) (Ok (json_integer alloc z h)) l1 s); auto. by apply integer_constructs.
  - rewrite Hv. destruct (isnan x || isinf x) eqn:Ex.
    + unfold json_real. rewrite Ex. cbn [mbind res_bind]. rewrite Z.eqb_refl. apply parsed_null; [by apply undone_refl | done | by left].
    + apply (leaf_parsed h d (TReal x) (Ok (json_real alloc x h)) l1 s); auto. by apply real_constructs.
  - apply (leaf_parsed h d TTrue (Ok (json_true, h)) l1 s); auto. apply static_constructs; [done | constructor].
  - apply (leaf_parsed h d TFalse (Ok (json_false, h)) l1 s); auto. apply static_constructs; [done | constructor].
  - apply (leaf_parsed h d TNull (Ok (json_null, h)) l1 s); auto. apply static_constructs; [done | constructor].
Qed.
End value.

(** ** Members and elements *)

(** A container takes a value that was made, and the value is released: the container has it, or is what it was. *)
Lemma taken (op : jheap -> res (Z * jheap)) h0 p t0 h v t h1 new :
  (forall m mv c k, own p t0 m -> own v t mv -> m ##ₘ mv -> m ##ₘ c -> mv ##ₘ c -> statics_in c ->
     exists r h1 m', op (MkHeap (m ∪ (mv ∪ c)) k) = Ok (r, h1) /\ decref v h1 = Ok (MkHeap (m' ∪ c) k) /\ dom m' ⊆ dom m ∪ dom mv /\
       ((r = 0 /\ own p new m') \/ (r = -1 /\ own p t0 m' /\ exists x, alloc k x = false))) ->
  heap_ok h0 -> makes h0 p t0 h -> makes h v t h1 ->
  exists r h2 h3, op h1 = Ok (r, h2) /\ decref v h2 = Ok h3 /\
    ((r = 0 /\ makes h0 p new h3) \/ (r = -1 /\ makes h0 p t0 h3 /\ oom)).
Proof.
  intros Hop (Hs & Hb & Hf) (m & Ho & Hd & Hc & Hok & Hle) (mv & Hov & Hdv & Hcv & Hokv & Hlev).
  rewrite Hc in Hdv, Hcv. apply map_disjoint_union_r in Hdv as [Dm Dc].
  destruct (Hop m mv (cells h0) (next h1) Ho Hov) as (r & h2 & m' & E & E' & Hdom & H); [by apply map_disjoint_sym | done | done | done |].
  assert (Eh : h1 = MkHeap (m ∪ (mv ∪ cells h0)) (next h1)).
  { rewrite (heap_eta h1) at 1. rewrite Hcv. f_equal. by rewrite !(assoc_L (∪)), (map_union_comm mv m). }
  rewrite <- Eh in E. exists r, h2, (MkHeap (m' ∪ cells h0) (next h1)). split_and!; [done | done |].
  assert (Hm' : m' ##ₘ cells h0) by (rewrite !map_disjoint_dom in *; set_solver).
  assert (Hmk : forall t', own p t' m' -> makes h0 p t' (MkHeap (m' ∪ cells h0) (next h1))).
  { intros t' Ht'. exists m'. split_and!; [done | done | done | | cbn [next]; lia].
    apply (heap_ok_part (m ∪ mv) m' (cells h0) (next h1)); [| done | done | lia | by rewrite dom_union_L].
    rewrite <- (assoc_L (∪)), <- Eh. done. }
  destruct H as [(-> & Hw) | (-> & Hw & x & Hx)]; [left | right]; split_and!; auto. by exists (next h1), x.
Qed.

Lemma member_taken h0 p ms h v t h1 key : heap_ok h0 -> makes h0 p (TObject ms) h -> makes h v t h1 -> key_bytes key ->
  Z.of_nat (length ms) < 2 ^ 31 -> Z.of_nat (length key) < 2 ^ 62 ->
  exists r h2 h3, json_object_set_nocheck alloc p (Some key) v h1 = Ok (r, h2) /\ decref v h2 = Ok h3 /\
    ((r = 0 /\ makes h0 p (TObject (assoc_set key t ms)) h3) \/ (r = -1 /\ makes h0 p (TObject ms) h3 /\ oom)).
Proof.
  intros H0 Hm Hv Hk Hl Hkl. apply (taken _ h0 p (TObject ms) h v t h1 (TObject (assoc_set key t ms))); [| done ..].
  intros m mv c k' Ho Hov D1 D2 D3 Hs. by apply set_then_release.
Qed.

Lemma element_taken h0 p ts h v t h1 : heap_ok h0 -> makes h0 p (TArray ts) h -> makes h v t h1 -> Z.of_nat (length ts) < 2 ^ 58 ->
  exists r h2 h3, json_array_append alloc p v h1 = Ok (r, h2) /\ decref v h2 = Ok h3 /\
    ((r = 0 /\ makes h0 p (TArray (ts ++ [t])) h3) \/ (r = -1 /\ makes h0 p (TArray ts) h3 /\ oom)).
Proof.
  intros H0 Hm Hv Hl. apply (taken _ h0 p (TArray ts) h v t h1 (TArray (ts ++ [t]))); [| done ..].
  intros m mv c k' Ho Hov D1 D2 D3 Hs. by apply append_then_release.
Qed.

(** The search for a duplicate. *)
Lemma duplicate_found h0 p ms h key : heap_ok h0 -> makes h0 p (TObject ms) h -> key_bytes key ->
  exists old, (if flag flags JSON_REJECT_DUPLICATES then json_object_get p (Some key) h else Ok NULL) = Ok old /\
    (old =? NULL) = negb (flag flags JSON_REJECT_DUPLICATES && bool_decide (is_Some (assoc key ms))).
Proof.
  intros H0 (m & Ho & Hd & Hc & _) Hk. destruct (flag flags JSON_REJECT_DUPLICATES); [| by exists NULL]. cbn [andb].
  destruct (object_get_tree p ms m (cells h0) (next h) key Ho Hk) as (q & E & H). rewrite <- Hc, <- heap_eta in E. exists q. split; [done |].
  destruct (assoc key ms) as [t |]; [| by subst]. rewrite bool_decide_true by eauto. destruct H as (mq & mr & Hq & _). cbn [negb].
  apply Z.eqb_neq. by eapply own_nonnull.
Qed.

(** After a member or an element: the next token, and on. *)
Lemma tok_at_texted l k s : tok_at l k s -> texted l.
Proof. by intros (_ & ? & _). Qed.

Lemma assoc_set_length {V} key (t : V) ms : (length (assoc_set key t ms) <= S (length ms))%nat.
Proof. induction ms as [| [k v] ms IH]; cbn; [lia |]. destruct (decide (k = key)); cbn; lia. Qed.

Lemma continued close (rd : tok -> list Z -> res (option (json * list Z))) (ps : lex_t D -> jheap -> res (Z * lex_t D * jheap)) h0 h p t msg d l s :
  (forall k s' l', tok_at l' k s' -> ldepth l' = d -> (length s' < length s)%nat -> agrees h0 d (rd k s') (ps l' h)) ->
  is_punct close = true -> heap_ok h0 -> makes h0 p t h -> ready all bad l s -> lflags l = flags -> ldepth l = d -> is_utf8 s ->
  agrees h0 d
    (let '(k, s) := next_token s in
     if is_tok 44 k then let '(k, s) := next_token s in rd k s else Ok (if is_tok close k then Some (t, s) else None))
    (l ← scan n l h;
     if token l =? 44 then l ← scan n l h; ps l h else if token l =? close then Ok (p, l, h) else fail_with p (Some msg) l h).
Proof.
  intros Hps Hc H0 Hm Hr Hf Hd Hu. destruct (next_token s) as [k q] eqn:E.
  destruct (token_scanned l s h k q Hr Hf Hu E) as (l1 & -> & Hk & Hd1). cbn [mbind res_bind].
  rewrite (tok_at_punct _ _ _ 44 Hk eq_refl), (tok_at_punct _ _ _ _ Hk Hc). destruct (is_tok 44 k) eqn:Ek.
  - destruct (is_tok_ready _ _ _ _ Hk Ek) as (Hr1 & Hk1 & Hk2). pose proof (next_shorter flags clean s k q E Hk1 Hk2) as Hlt.
    destruct (next_typed flags clean s k q E Hu) as [[Hq _] _]. destruct (next_token q) as [k2 q2] eqn:E2.
    assert (Hf1 : lflags l1 = flags) by (by destruct Hk). destruct (token_scanned l1 q h k2 q2 Hr1 Hf1 Hq E2) as (l2 & -> & Hk' & Hd2). cbn [mbind res_bind].
    destruct (next_typed flags clean q k2 q2 E2 Hq) as [_ Hle]. apply Hps; [done | congruence | lia].
  - cbn [agrees]. destruct (is_tok close k) eqn:Ek2.
    + destruct (is_tok_ready _ _ _ _ Hk Ek2) as (Hr1 & _). exists p, l1, h. split; [done |]. right. exists t, q.
      split_and!; [done | done | done | by destruct Hk | congruence].
    + apply (parsed_fail h0 d None p t); auto. by eapply tok_at_texted.
Qed.

#[local] Arguments json_object_get : simpl never.

Section containers.
Context (fuel : nat).
Context (IHv : forall d k s l h, tok_at l k s -> ldepth l = d -> 0 <= d <= JSON_PARSER_MAX_DEPTH -> heap_ok h ->
  agrees h d (read_value fuel d k s) (parse_value fuel n flags l h)).

(** A value inside a container: it is read and is well typed, or the container is released. *)
Lemma inner_value h0 h p t0 d k s l (rd : json -> list Z -> res (option (json * list Z))) (ps : Z -> lex_t D -> jheap -> res (Z * lex_t D * jheap)) :
  tok_at l k s -> ldepth l = d -> 0 <= d <= JSON_PARSER_MAX_DEPTH -> heap_ok h0 -> makes h0 p t0 h ->
  (forall v t q l' h', makes h v t h' -> ready all bad l' q -> lflags l' = flags -> ldepth l' = d -> is_utf8 q -> (length q <= length s)%nat ->
     agrees h0 d (rd t q) (ps v l' h')) ->
  agrees h0 d (v ← read_value fuel d k s; match v with None => Ok None | Some (t, s) => rd t s end)
    ('(val, l, h) ← parse_value fuel n flags l h; if val =? NULL then fail_with p None l h else ps val l h).
Proof.
  intros Hk Hd Hdb H0 Hm Hgo. pose proof (IHv d k s l h Hk Hd Hdb (makes_ok _ _ _ _ Hm)) as H.
  destruct (read_value fuel d k s) as [o | |] eqn:E; cbn [agrees mbind res_bind] in *; [| done | done].
  destruct H as (v & l1 & h1 & -> & H). cbn [mbind res_bind]. destruct H as [(-> & Hu & Ht & Ho) | (t & q & -> & Hv & Hr & Hf1 & Hd1)].
  - rewrite Z.eqb_refl. assert (Hany : forall o', (o' = None \/ oom) -> parsed h0 d o' (fail_with p None l1 h1)).
    { intros o' Ho'. apply (parsed_fail h0 d o' p t0); [done | by eapply makes_undone | done | done]. }
    destruct o as [[t q] |]; [| apply Hany; by left]. destruct Ho as [? | Ho]; [done |]. unfold agrees. case_match; [apply Hany; by right | done | done].
  - rewrite (proj2 (Z.eqb_neq v NULL)) by (by eapply makes_nonnull). destruct Hk as (_ & _ & Hus & Hko & _).
    destruct (proj1 (read_types flags clean fuel) d k s t q E Hus Hko) as [[Hq _] Hle]. by apply Hgo.
Qed.

Lemma members_step (IHm : forall d k s l h0 h p ms, tok_at l k s -> ldepth l = d -> 0 <= d <= JSON_PARSER_MAX_DEPTH -> heap_ok h0 -> makes h0 p (TObject ms) h ->
    (length ms + length s <= length all)%nat -> agrees h0 d (read_members fuel d ms k s) (parse_members fuel n flags p l h))
  d k s l h0 h p ms : tok_at l k s -> ldepth l = d -> 0 <= d <= JSON_PARSER_MAX_DEPTH -> heap_ok h0 -> makes h0 p (TObject ms) h ->
  (length ms + length s <= length all)%nat -> agrees h0 d (read_members (S fuel) d ms k s) (parse_members (S fuel) n flags p l h).
Proof.
  intros Hk Hd Hdb H0 Hm Hlen'. simpl. pose proof Hk as (Hf & Ht & Hu & Hko & Hp & Hc).
  assert (Hfail : forall msg l o, texted l -> (o = None \/ oom) -> parsed h0 d o (fail_with p msg l h)) by (intros msg l' o Ht' Ho; by apply (parsed_fail h0 d o p (TObject ms))).
  destruct Hc as [[[Et Hv] Hr] | (Ho & (v & ->) & ->)].
  2:{ cbn [negb]. change (TOKEN_INVALID =? TOKEN_STRING) with false. cbn [negb]. unfold agrees. case_match; [apply Hfail; auto | done | done]. }
  destruct k as [| | c | key | z | x | | |]; cbn [code] in Et; rewrite Et; try (apply Hfail; auto).
  { specialize (Hp c eq_refl). assert (c =? TOKEN_STRING = false) as -> by (unfold is_punct in Hp; unfold TOKEN_STRING; lia). apply Hfail; auto. }
  change (TOKEN_STRING =? TOKEN_STRING) with true. cbn [negb]. unfold lex_steal_string. rewrite Et. change (TOKEN_STRING =? TOKEN_STRING) with true. cbv iota.
  destruct Hv as (v & -> & Hb & Hkl). cbn [mbind res_bind]. rewrite (has_nul_spec key v Hb). cbn [mbind res_bind].
  set (l1 := with_value (VString None 0) l). assert (Ht1 : texted l1) by (by destruct Ht as [t ?]; exists t).
  destruct (bool_decide_reflect (0 ∈ key)) as [| Hz]; [apply Hfail; auto |]. rewrite (c_text_spec key v Hb Hz). cbn [mbind res_bind].
  pose proof (key_bytes_utf8 key Hko) as Hkb. destruct (duplicate_found h0 p ms h key H0 Hm Hkb) as (old & -> & Eold). cbn [mbind res_bind]. rewrite Eold, negb_involutive.
  destruct (_ && _); [apply Hfail; auto |]. assert (Hr1 : ready all bad l1 s) by (apply ready_value; auto).
  destruct (next_token s) as [k1 s1] eqn:E1. destruct (token_scanned l1 s h k1 s1 Hr1 Hf Hu E1) as (l2 & -> & Hk1 & Hd1). cbn [mbind res_bind].
  rewrite (tok_at_punct _ _ _ 58 Hk1 eq_refl). destruct (is_tok 58 k1) eqn:Ek1; cbn [negb]; [| apply Hfail; [by eapply tok_at_texted | by left]].
  destruct (is_tok_ready _ _ _ _ Hk1 Ek1) as (Hr2 & Hn1 & Hn2). pose proof (next_shorter flags clean s k1 s1 E1 Hn1 Hn2) as Hlt.
  destruct (next_typed flags clean s k1 s1 E1 Hu) as [[Hu1 _] _]. assert (Hf2 : lflags l2 = flags) by (by destruct Hk1).
  destruct (next_token s1) as [k2 s2] eqn:E2. destruct (token_scanned l2 s1 h k2 s2 Hr2 Hf2 Hu1 E2) as (l3 & -> & Hk2 & Hd2). cbn [mbind res_bind].
  destruct (next_typed flags clean s1 k2 s2 E2 Hu1) as [_ Hle2]. assert (Hd3 : ldepth l3 = d) by (rewrite Hd2, Hd1; done).
  apply (inner_value h0 h p (TObject ms) d k2 s2 l3 (fun t s => let ms := assoc_set key t ms in let '(k, s) := next_token s in
    if is_tok 44 k then let '(k, s) := next_token s in read_members fuel d ms k s else Ok (if is_tok 125 k then Some (TObject ms, s) else None))
    (fun val l h => '(r, h) ← json_object_set_nocheck alloc p (Some key) val h; h ← decref val h;
       if negb (r =? 0) then fail_with p None l h else l ← scan n l h;
       if token l =? 44 then l ← scan n l h; parse_members fuel n flags p l h
       else if token l =? 125 then Ok (p, l, h) else fail_with p (Some (chars "'}' expected")) l h)); try done.
  intros val t q l4 h4 Hval Hr4 Hf4 Hd4 Hq Hle4. cbv zeta.
  destruct (member_taken h0 p ms h val t h4 key H0 Hm Hval Hkb) as (r & h5 & h6 & -> & E6 & H); [lia | lia |]. cbn [mbind res_bind]. rewrite E6. cbn [mbind res_bind].
  destruct H as [(-> & Hm6) | (-> & Hm6 & Ho)].
  - cbn [negb Z.eqb]. apply (continued 125 (read_members fuel d (assoc_set key t ms)) (parse_members fuel n flags p)); try done.
    intros k' s' l' Hk' Hd' Hs'. apply IHm; try done. pose proof (assoc_set_length key t ms). lia.
  - cbn [negb Z.eqb]. unfold agrees. case_match; [| done | done]. apply (parsed_fail h0 d _ p (TObject ms)); try done; [by eapply ready_texted | by right].
Qed.

Lemma elements_step (IHe : forall d k s l h0 h p ts, tok_at l k s -> ldepth l = d -> 0 <= d <= JSON_PARSER_MAX_DEPTH -> heap_ok h0 -> makes h0 p (TArray ts) h ->
    (length ts + length s <= length all)%nat -> agrees h0 d (read_elements fuel d ts k s) (parse_elements fuel n flags p l h))
  d k s l h0 h p ts : tok_at l k s -> ldepth l = d -> 0 <= d <= JSON_PARSER_MAX_DEPTH -> heap_ok h0 -> makes h0 p (TArray ts) h ->
  (length ts + length s <= length all)%nat -> agrees h0 d (read_elements (S fuel) d ts k s) (parse_elements (S fuel) n flags p l h).
Proof.
  intros Hk Hd Hdb H0 Hm Hlen'. simpl.
  assert (Hgo : agrees h0 d (v ← read_value fuel d k s;
      match v with
      | None => Ok None
      | Some (t, s) => let '(k, s) := next_token s in
          if is_tok 44 k then let '(k, s) := next_token s in read_elements fuel d (ts ++ [t]) k s
          else Ok (if is_tok 93 k then Some (TArray (ts ++ [t]), s) else None)
      end)
    ('(elem, l, h) ← parse_value fuel n flags l h; if elem =? NULL then fail_with p None l h else
       '(r, h) ← json_array_append alloc p elem h; h ← decref elem h;
       if negb (r =? 0) then fail_with p None l h else l ← scan n l h;
       if token l =? 44 then l ← scan n l h; parse_elements fuel n flags p l h
       else if token l =? 93 then Ok (p, l, h) else fail_with p (Some (chars "']' expected")) l h)).
  { apply (inner_value h0 h p (TArray ts) d k s l (fun t s => let '(k, s) := next_token s in
        if is_tok 44 k then let '(k, s) := next_token s in read_elements fuel d (ts ++ [t]) k s else Ok (if is_tok 93 k then Some (TArray (ts ++ [t]), s) else None))
      (fun elem l h => '(r, h) ← json_array_append alloc p elem h; h ← decref elem h;
         if negb (r =? 0) then fail_with p None l h else l ← scan n l h;
         if token l =? 44 then l ← scan n l h; parse_elements fuel n flags p l h
         else if token l =? 93 then Ok (p, l, h) else fail_with p (Some (chars "']' expected")) l h)); try done.
    intros val t q l4 h4 Hval Hr4 Hf4 Hd4 Hq Hle4.
    destruct (element_taken h0 p ts h val t h4 H0 Hm Hval) as (r & h5 & h6 & -> & E6 & H); [lia |]. cbn [mbind res_bind]. rewrite E6. cbn [mbind res_bind].
    destruct H as [(-> & Hm6) | (-> & Hm6 & Ho)].
    - cbn [negb Z.eqb]. apply (continued 93 (read_elements fuel d (ts ++ [t])) (parse_elements fuel n flags p)); try done.
      intros k' s' l' Hk' Hd' Hs'. apply IHe; try done. rewrite length_app. cbn. lia.
    - cbn [negb Z.eqb]. unfold agrees. case_match; [| done | done]. apply (parsed_fail h0 d _ p (TArray ts)); try done; [by eapply ready_texted | by right]. }
  destruct (token l =? TOKEN_EOF) eqn:Eend.
  - assert (Ek : k = KEnd).
    { apply Z.eqb_eq in Eend. destruct Hk as (_ & _ & _ & _ & Hp & [[[Et _] _] | (_ & _ & Et)]); [| rewrite Et in Eend; discriminate].
      rewrite Et in Eend. destruct k as [| | c | | | | | |]; try done. specialize (Hp c eq_refl). cbn in Eend. subst c. done. }
    subst k. apply Z.eqb_eq in Eend. rewrite Eend. apply (parsed_fail h0 d None p (TArray ts)); auto. by eapply tok_at_texted.
  - assert (Ek : k <> KEnd).
    { intros ->. apply Z.eqb_neq in Eend. destruct Hk as (_ & _ & _ & _ & _ & [[[Et _] _] | (_ & (v & ?) & _)]); done. }
    destruct k; done.
Qed.
End containers.

Lemma parse_agrees fuel :
  (forall d k s l h, tok_at l k s -> ldepth l = d -> 0 <= d <= JSON_PARSER_MAX_DEPTH -> heap_ok h ->
     agrees h d (read_value fuel d k s) (parse_value fuel n flags l h)) /\
  (forall d k s l h0 h p ms, tok_at l k s -> ldepth l = d -> 0 <= d <= JSON_PARSER_MAX_DEPTH -> heap_ok h0 -> makes h0 p (TObject ms) h ->
     (length ms + length s <= length all)%nat -> agrees h0 d (read_members fuel d ms k s) (parse_members fuel n flags p l h)) /\
  (forall d k s l h0 h p ts, tok_at l k s -> ldepth l = d -> 0 <= d <= JSON_PARSER_MAX_DEPTH -> heap_ok h0 -> makes h0 p (TArray ts) h ->
     (length ts + length s <= length all)%nat -> agrees h0 d (read_elements fuel d ts k s) (parse_elements fuel n flags p l h)).
Proof.
  induction fuel as [| fuel (IHv & IHm & IHe)]; [done |].
  split_and!; [by apply value_step | by apply members_step | by apply elements_step].
Qed.

(** ** Whole texts *)

Lemma set_error_now msg (l : lex_t D) : texted l -> exists l', error_set msg l = Ok l' /\ texted l'.
Proof. intros Ht. destruct (set_error msg l (fun l => Ok l) Ht) as (l' & E & Ht' & _). exists l'. split; [| done]. by destruct (error_set msg l). Qed.

(** The value of the whole text, or NULL. *)
Definition loaded {E} (h0 : jheap) (o : option json) (r : res (Z * E * jheap)) : Prop :=
  exists p e h, r = Ok (p, e, h) /\
    ((p = NULL /\ undone h0 h /\ (o = None \/ oom)) \/ (exists t, o = Some t /\ makes h0 p t h)).

Lemma loaded_null {E} h0 o (e : E) h : undone h0 h -> (o = None \/ oom) -> loaded h0 o (Ok (NULL, e, h)).
Proof. intros H1 H2. exists NULL, e, h. split; [done |]. by left. Qed.
End parser.

Section loading.
Context {OT : ObjectTable} {OS : ObjectTableSpec OT} {D : Type} {get : D -> res (Z * D)} {BS : ByteSource get}.
Context (all bad : list Z) (Hutf : is_utf8 all) (Hall : Forall text_byte all) (Hlen : Z.of_nat (length all) < 2 ^ 30).
Context (Hbad : stuck bad) (Hbytes : Forall is_byte bad).
Context (text_alloc : Z -> bool) (Hta : forall n, text_alloc n = true) (alloc : Z -> Z -> bool).
Context (n : nat) (Hn : (length all <= n)%nat) (flags : Z).
#[local] Abbreviation clean := (bool_decide (bad = [])).

Lemma parse_json_spec l h o : ready all bad l all -> lflags l = flags -> heap_ok h -> read_text flags clean n all = Ok o ->
  loaded alloc h o (parse_json get text_alloc alloc n flags l h).
Proof.
  intros Hr Hf Hh H. unfold read_text in H. unfold parse_json. destruct (next_token flags clean all) as [k s] eqn:E.
  assert (Hn2 : (length all < n + 2)%nat) by lia.
  destruct (token_scanned all bad Hutf Hall Hlen Hbad Hbytes text_alloc Hta alloc (n + 2) Hn2 flags (with_depth 0 l) all h k s) as (l1 & -> & Hk & Hd1);
    [by apply ready_depth | done | done | done |]. cbn [mbind res_bind].
  rewrite (tok_at_punct all bad alloc (n + 2) Hn2 flags l1 k s 91 Hk eq_refl), (tok_at_punct all bad alloc (n + 2) Hn2 flags l1 k s 123 Hk eq_refl).
  destruct (_ && _).
  { destruct (set_error_now (chars "'[' or '{' expected") l1) as (l2 & -> & _); [by eapply tok_at_texted |]. cbn [mbind res_bind]. injection H as <-.
    apply loaded_null; [by apply undone_refl | by left]. }
  pose proof (proj1 (parse_agrees all bad Hutf Hall Hlen Hbad Hbytes text_alloc Hta alloc (n + 2) Hn2 flags (parse_fuel n)) 0 k s l1 h Hk Hd1 ltac:(unfold JSON_PARSER_MAX_DEPTH; lia) Hh) as Hp.
  destruct Hk as (_ & _ & Hus & Hko & _).
  destruct (read_value flags clean (parse_fuel n) 0 k s) as [v | |] eqn:Ev; cbn [mbind res_bind agrees] in H, Hp; [| done | done]. injection H as <-.
  destruct Hp as (p & l2 & h2 & -> & Hp). cbn [mbind res_bind]. destruct Hp as [(-> & Hu & _ & Ho) | (t & q & -> & Hm & Hr2 & Hf2 & _)].
  { rewrite Z.eqb_refl. apply loaded_null; [done |]. destruct Ho as [-> | ?]; [by left | by right]. }
  rewrite (proj2 (Z.eqb_neq p NULL)) by (by eapply makes_nonnull). destruct (flag flags JSON_DISABLE_EOF_CHECK).
  { eexists _, _, _. split; [done |]. right. by exists t. }
  destruct (proj1 (read_types flags clean _) 0 k s t q Ev Hus Hko) as [[Hq _] _]. destruct (next_token flags clean q) as [k3 q3] eqn:E3.
  destruct (token_scanned all bad Hutf Hall Hlen Hbad Hbytes text_alloc Hta alloc (n + 2) Hn2 flags l2 q h2 k3 q3 Hr2 Hf2 Hq E3) as (l3 & -> & Hk3 & _).
  cbn [mbind res_bind fst]. pose proof (tok_at_texted all bad alloc flags l3 k3 q3 Hk3) as Ht3. destruct Hk3 as (_ & _ & _ & _ & Hp3 & Hc).
  assert (Hfail : forall o, (o = None \/ oom alloc) -> loaded alloc h o (l ← error_set (chars "end of file expected") l3; h ← decref p h2; Ok (NULL, l, h))).
  { intros o Ho. destruct (set_error_now (chars "end of file expected") l3 Ht3) as (l4 & -> & _). cbn [mbind res_bind].
    destruct (decref_makes _ _ _ _ Hh Hm) as (h4 & -> & Hu). by apply loaded_null. }
  destruct Hc as [[[Et _] _] | (Ho & (v & ->) & ->)]; [| by apply Hfail; left].
  rewrite Et. destruct k3 as [| | c | | | | | |]; cbn [code]; try (by apply Hfail; left).
  - change (TOKEN_EOF =? TOKEN_EOF) with true. cbn [negb]. eexists _, _, _. split; [done |]. right. by exists t.
  - specialize (Hp3 c eq_refl). assert (c =? TOKEN_EOF = false) as -> by (unfold is_punct in Hp3; unfold TOKEN_EOF; lia). by apply Hfail; left.
Qed.

Lemma load_spec d e h : left d (all ++ bad) -> heap_ok h ->
  exists o, read_text flags clean n all = Ok o /\ loaded alloc h o (load get text_alloc alloc n d flags e h).
Proof.
  intros Hd Hh. destruct (read_text_ends flags clean n all Hn) as [o E]. exists o. split; [done |]. unfold load, lex_init.
  destruct (init_holds text_alloc) as (sb & -> & Hsb & Hsz); [apply Hta |]. cbn [mbind res_bind negb Z.eqb].
  set (l := MkLex _ _ _ _ _ _ _). assert (Hr : ready all bad l all).
  { exists [], []. split; [by apply stream_start | done | cbn [saved_text l]; rewrite Hsz; done | done]. }
  destruct (parse_json_spec l h o Hr eq_refl Hh E) as (p & l' & h' & -> & H). cbn [mbind res_bind]. by eexists _, _, _.
Qed.
End loading.
