(* ===== verification/JsonRead.v ===== *)
(** * Loading from a string, a buffer and a callback

    The three loaders of [common/jansson/load.c] that do not read with the C library.  Each of their sources gives the
    bytes of the input in turn, and so each of them returns the tree that [JsonText.read] finds in these bytes. *)

From Stdlib Require Import SpecFloat.
From S2P Require Import Prelude Utf Strbuf ObjectTable Hashtable Json JsonTree JsonLex JsonLoad JsonText JsonStream JsonToken JsonParse.

(** ** The sources *)

Lemma rd_here (pre : list Z) c r n : n = Z.of_nat (length pre) -> rd (pre ++ c :: r) (Z.to_nat n) = Ok c.
Proof. intros ->. rewrite Nat2Z.id. unfold rd. by rewrite list_lookup_middle. Qed.

(** A string without NUL; the index fits an [int]. *)
Definition string_left (d : string_data_t) (s : list Z) : Prop :=
  exists pre, sdata d = pre ++ s /\ spos d = Z.of_nat (length pre) /\ Z.of_nat (length (sdata d)) <= INT_MAX /\ Forall (fun c => c <> 0) (sdata d).

#[export] Instance string_source : ByteSource string_get.
Proof.
  refine {| left := string_left |}.
  - intros d (pre & E & Hp & Hl & Hz). exists d. split; [| by exists pre]. unfold string_get. rewrite E, app_nil_r, (rd_here pre) by done. done.
  - intros d b s (pre & E & Hp & Hl & Hz). unfold string_get. rewrite E in Hl, Hz |- *. rewrite <- app_assoc. cbn [app].
    rewrite (rd_here pre) by done. cbn [mbind res_bind]. apply Forall_app in Hz as [Hz1 Hz2]. pose proof (Forall_inv Hz2) as Hb.
    rewrite (proj2 (Z.eqb_neq b 0) Hb). rewrite length_app in Hl. cbn [length] in Hl. rewrite Hp, int_op_in by (unfold INT_MIN; lia). cbn [mbind res_bind].
    eexists. split; [done |]. exists (pre ++ [b]). cbn [sdata spos]. rewrite <- app_assoc. cbn [app].
    split_and!; [done | rewrite length_app; cbn; lia | rewrite length_app; cbn; lia | by apply Forall_app].
Defined.

(** A buffer, with anything behind it. *)
Definition buffer_left (d : buffer_data_t) (s : list Z) : Prop :=
  exists pre junk, bdata d = pre ++ s ++ junk /\ bpos d = Z.of_nat (length pre) /\ blen d = Z.of_nat (length pre + length s).

#[export] Instance buffer_source : ByteSource buffer_get.
Proof.
  refine {| left := buffer_left |}.
  - intros d (pre & junk & E & Hp & Hl). exists d. split; [| by exists pre, junk]. unfold buffer_get. cbn in Hl.
    destruct (Z.geb_spec (bpos d) (blen d)); [done | lia].
  - intros d b s (pre & junk & E & Hp & Hl). unfold buffer_get. cbn [length] in Hl. destruct (Z.geb_spec (bpos d) (blen d)); [lia |].
    rewrite E. cbn [app]. rewrite (rd_here pre) by done. cbn [mbind res_bind]. eexists. split; [done |].
    exists (pre ++ [b]), junk. cbn [bdata bpos blen]. rewrite <- app_assoc. cbn [app]. rewrite length_app. cbn [length]. split_and!; [done | lia | lia].
Defined.

(** A callback that gives the input in pieces and then nothing. *)
Definition callback_left (d : callback_data_t) (s : list Z) : Prop :=
  exists pre cur chunks, cdata d = pre ++ cur /\ cpos d = Z.of_nat (length pre) /\ calls d = Some <$> chunks /\
    Forall (fun c => c <> []) chunks /\ s = cur ++ concat chunks.

#[export] Instance callback_source : ByteSource callback_get.
Proof.
  refine {| left := callback_left |}.
  - intros d (pre & cur & chunks & E & Hp & Hc & Hn & Hs). symmetry in Hs. apply app_eq_nil in Hs as [-> Hs].
    destruct chunks as [| [| c r] chunks]; [| by apply Forall_inv in Hn | done]. unfold callback_get. rewrite E, app_nil_r.
    destruct (Z.geb_spec (cpos d) (Z.of_nat (length pre))); [| lia]. rewrite Hc. eexists. split; [done |].
    by exists [], [], [].
  - intros d b s (pre & cur & chunks & E & Hp & Hc & Hn & Hs). unfold callback_get. rewrite E. destruct cur as [| c cur].
    + destruct (Z.geb_spec (cpos d) (Z.of_nat (length (pre ++ [])))); [| rewrite app_nil_r in *; lia]. rewrite Hc.
      destruct chunks as [| [| c r] chunks]; [done | by apply Forall_inv in Hn |]. cbn [fmap list_fmap]. cbn in Hs. injection Hs as -> ->.
      eexists. split; [done |]. exists [c], r, chunks. apply Forall_cons in Hn as [_ Hn]. by split_and!.
    + cbn in Hs. injection Hs as -> ->. destruct (Z.geb_spec (cpos d) (Z.of_nat (length (pre ++ c :: cur)))) as [H |];
        [rewrite length_app in H; cbn in H; lia |]. rewrite (rd_here pre) by done. cbn [mbind res_bind]. eexists. split; [done |].
      exists (pre ++ [c]), cur, chunks. cbn [cdata cpos calls]. rewrite <- app_assoc, length_app. cbn. split_and!; [done | lia | done ..].
Defined.

(** ** Loading *)

(** The bytes of an input: no NUL, and short enough for the counters of the stream. *)
Definition input (s : list Z) : Prop := Forall (fun c => 0 < c < 256) s /\ Z.of_nat (length s) < 2 ^ 30.

Lemma empty_heap_ok {OT : ObjectTable} : heap_ok empty_heap.
Proof.
  unfold heap_ok, statics_in. split_and!; cbn [cells next]; [done | done |]. intros p Hp. unfold empty_heap, statics, THE_TRUE, THE_FALSE, THE_NULL. cbn [cells].
  cbn [next empty_heap] in Hp. rewrite !lookup_insert_ne by lia. apply lookup_singleton_ne. lia.
Qed.

Section loaders.
Context {OT : ObjectTable} {OS : ObjectTableSpec OT} (text_alloc : Z -> bool) (Hta : forall n, text_alloc n = true) (alloc : Z -> Z -> bool).

Lemma load_reads {D} {get : D -> res (Z * D)} {BS : ByteSource get} s d flags e h : input s -> left d s -> heap_ok h ->
  exists o, read flags s = Ok o /\ loaded alloc h o (load get text_alloc alloc (length s) d flags e h).
Proof.
  intros [Hs Hl] Hd Hh. unfold read. assert (Hb : Forall is_byte s) by (eapply Forall_impl; [exact Hs |]; unfold is_byte; intros; cbv beta in *; lia).
  pose proof (utf8_split_spec (length s) s Hb (le_n _)) as H. destruct (utf8_split (length s) s) as [u bad]. destruct H as (-> & Hu & Hbad).
  apply Forall_app in Hb as [_ Hb]. apply Forall_app in Hs as [Hs _]. rewrite length_app in Hl |- *. apply load_spec; try done; try lia.
  apply text_bytes; [done |]. eapply Forall_impl; [exact Hs |]. cbv beta. lia.
Qed.

Lemma string_loaded s flags e h : input s -> heap_ok h ->
  exists o, read flags s = Ok o /\ loaded alloc h o (json_loads text_alloc alloc (Some s) flags e h).
Proof.
  intros Hs Hh. apply load_reads; [done | | done]. destruct Hs as [Hs Hl]. exists []. cbn [sdata spos]. split_and!; [done | done | unfold INT_MAX; lia |].
  eapply Forall_impl; [exact Hs |]. cbv beta. lia.
Qed.

Lemma buffer_loaded s junk flags e h : input s -> heap_ok h ->
  exists o, read flags s = Ok o /\ loaded alloc h o (json_loadb text_alloc alloc (Some (s ++ junk)) (Z.of_nat (length s)) flags e h).
Proof. intros Hs Hh. unfold json_loadb. rewrite Nat2Z.id. apply load_reads; [done | | done]. by exists [], junk. Qed.

Lemma callback_loaded chunks flags e h : input (concat chunks) -> Forall (fun c => c <> []) chunks -> heap_ok h ->
  exists o, read flags (concat chunks) = Ok o /\ loaded alloc h o (json_load_callback text_alloc alloc (Some (Some <$> chunks)) flags e h).
Proof.
  intros Hs Hc Hh. unfold json_load_callback. assert (E : omap id (Some <$> chunks) = chunks).
  { clear. induction chunks as [| c chunks IH]; [done |]. cbn. by rewrite IH. }
  rewrite E. apply load_reads; [done | | done]. by exists [], [], chunks.
Qed.
End loaders.

(** C12. Loading is reading, when the text buffer of the lexer gets its memory: from a string, from a buffer with anything behind
    it and from a callback that gives the input in pieces, the loaders run to their end without a failed assertion, an access
    outside a block or an overflow, and return the tree that [read] finds in the bytes of the input, in cells of their own.  They
    return NULL only when the input has no reading under the flags or a value (not the text buffer) could not be allocated, and
    then the heap is what it was.  When the text buffer cannot grow there is no such promise: [text_memory] below. *)
Theorem json_loads_reads {OT : ObjectTable} {OS : ObjectTableSpec OT} (text_alloc : Z -> bool) (alloc : Z -> Z -> bool) s flags e h :
  input s -> (forall n, text_alloc n = true) -> heap_ok h ->
  exists o, read flags s = Ok o /\
    loaded alloc h o (json_loads text_alloc alloc (Some s) flags e h) /\
    (forall junk, loaded alloc h o (json_loadb text_alloc alloc (Some (s ++ junk)) (Z.of_nat (length s)) flags e h)) /\
    (forall chunks, concat chunks = s -> Forall (fun c => c <> []) chunks ->
       loaded alloc h o (json_load_callback text_alloc alloc (Some (Some <$> chunks)) flags e h)).
Proof.
  intros Hs Hta Hh. destruct (string_loaded text_alloc Hta alloc s flags e h Hs Hh) as (o & E & H). exists o. split_and!; [done | done | |].
  - intros junk. destruct (buffer_loaded text_alloc Hta alloc s junk flags e h Hs Hh) as (o' & E' & H'). rewrite E in E'. by injection E' as <-.
  - intros chunks <- Hc. destruct (callback_loaded text_alloc Hta alloc chunks flags e h Hs Hc Hh) as (o' & E' & H'). rewrite E in E'. by injection E' as <-.
Qed.

(** A text with apostrophes for its quotation marks. *)
Definition text (s : string) : list Z := map (fun c => if c =? 39 then 34 else c) (chars s).

(** The pointer that a loader returns is NULL. *)
Definition returns_null {OT : ObjectTable} (r : res (Z * option json_error_t * jheap)) : bool := match r with Ok (p, _, _) => p =? NULL | _ => false end.

(** Computing [input]. *)
Lemma input_bool s : forallb (fun c => (0 <? c) && (c <? 256)) s && (Z.of_nat (length s) <? 2 ^ 30) = true -> input s.
Proof.
  intros H. apply andb_prop in H as [H1 H2]. split; [| lia]. rewrite forallb_forall in H1. apply Forall_forall. intros c Hc.
  apply list_elem_of_In, H1 in Hc. lia.
Qed.

Lemma json_loads_reads_witness :
  let objects := hashtable_objects 7 in
  loaded (fun _ _ => true) empty_heap (Some (TObject [(chars "a", TArray [TInteger 1; TTrue]); (chars "b", TString (chars "x"))]))
    (json_loads (OT := objects) (fun _ => true) (fun _ _ => true) (Some (text "{'a': [1, true], 'b': 'x'}")) 0 None empty_heap).
Proof.
  destruct (json_loads_reads (OT := hashtable_objects 7) (fun _ => true) (fun _ _ => true) (text "{'a': [1, true], 'b': 'x'}") 0 None empty_heap) as (o & E & H & _).
  - apply input_bool. by vm_compute.
  - done.
  - apply empty_heap_ok.
  - vm_compute in E. injection E as <-. exact H.
Defined.

(** The condition on the text buffer is needed: when it cannot grow beyond its first 16 bytes, the assertion of [lex_unget_unsave] fails
    on a number of 20 digits. *)
Lemma text_memory :
  match json_loads (OT := hashtable_objects 7) (fun n => n <=? 16) (fun _ _ => true) (Some (text "[12345678901234567890]")) 0 None empty_heap with
  | UB => True | _ => False end.
Proof. by vm_compute. Qed.

(** C13. What is loaded is well typed: every text of the tree is UTF-8, the keys of an object have no NUL and are different,
    integers are in their range and reals finite, and no tree is deeper than the parser allows; a loader that returns NULL leaves
    no cell behind. *)
Theorem json_loads_typed {OT : ObjectTable} {OS : ObjectTableSpec OT} (text_alloc : Z -> bool) (alloc : Z -> Z -> bool) s flags e h :
  input s -> (forall n, text_alloc n = true) -> heap_ok h ->
  exists p e' h', json_loads text_alloc alloc (Some s) flags e h = Ok (p, e', h') /\ heap_ok h' /\
    ((p = NULL /\ cells h' = cells h) \/
     (p <> NULL /\ exists t, makes h p t h' /\ typed t /\ Z.of_nat (depth t) <= JSON_PARSER_MAX_DEPTH)).
Proof.
  intros Hs Hta Hh. destruct (string_loaded text_alloc Hta alloc s flags e h Hs Hh) as (o & E & p & e' & h' & El & H).
  exists p, e', h'. split; [done |]. destruct H as [(-> & (Hc & Hok & _) & _) | (t & -> & Hm)].
  - split; [done |]. by left.
  - split; [by eapply makes_ok |]. right. split; [by eapply makes_nonnull |]. exists t. split; [done |].
    unfold read in E. destruct Hs as [Hs _]. assert (Hb : Forall is_byte s) by (eapply Forall_impl; [exact Hs |]; unfold is_byte; intros; cbv beta in *; lia).
    pose proof (utf8_split_spec (length s) s Hb (le_n _)) as Hsp. destruct (utf8_split (length s) s) as [u bad]. destruct Hsp as (_ & Hu & _).
    destruct (read_text_types flags _ _ u t Hu E) as [Ht Hd]. split; [done | lia].
Qed.

Lemma json_loads_typed_witness :
  exists p e h, json_loads (OT := hashtable_objects 7) (fun _ => true) (fun _ _ => true) (Some (text "['\u00e9', {'k': -1.5e3}]")) 0 None empty_heap = Ok (p, e, h) /\
    exists t, makes empty_heap p t h /\ typed t.
Proof.
  destruct (json_loads_typed (OT := hashtable_objects 7) (fun _ => true) (fun _ _ => true) (text "['\u00e9', {'k': -1.5e3}]") 0 None empty_heap) as (p & e & h & E & _ & H).
  - apply input_bool. by vm_compute.
  - done.
  - apply empty_heap_ok.
  - exists p, e, h. split; [exact E |]. destruct H as [[Hp _] | (_ & t & Hm & Ht & _)]; [| exists t; by split].
    apply (f_equal returns_null) in E. rewrite Hp in E. vm_compute in E. discriminate E.
Defined.
