(* ===== verification/JsonDump.v ===== *)
(** * Printing JSON

    [common/jansson/dump.c], and [jsonp_dtostr] of [strconv.c].  What is printed goes to a callback with its data, here a
    function on a state [T]; it answers 0 or an error.  A container is marked while its members are printed, so the heap
    is passed along.  The keys of an object are C strings without their terminators.  Printing to a file is the C
    library's. *)

From Stdlib Require Import SpecFloat.
From stdpp Require Import sorting.
From S2P Require Import Prelude Utf Strbuf ObjectTable Json JsonLex.

(** ** Flags *)

Definition JSON_COMPACT : Z := 0x20.
Definition JSON_ENSURE_ASCII : Z := 0x40.
Definition JSON_SORT_KEYS : Z := 0x80.
Definition JSON_ENCODE_ANY : Z := 0x200.
Definition JSON_ESCAPE_SLASH : Z := 0x400.
Definition FLAGS_TO_INDENT (f : Z) : Z := Z.land f 0x1F.
Definition FLAGS_TO_PRECISION (f : Z) : Z := Z.land (Z.shiftr f 11) 0x1F.

Definition MAX_INTEGER_STR_LENGTH : nat := 100.
Definition MAX_REAL_STR_LENGTH : nat := 100.

(** ** Reals *)

(** The decimal exponent of [num / den]: how often 10 fits, or how far it is below 1. *)
Fixpoint exponent_up (fuel : nat) (x num den : Z) : Z :=
  match fuel with O => x | S fuel => if num <? 10 * den then x else exponent_up fuel (x + 1) num (10 * den) end.
Fixpoint exponent_down (fuel : nat) (x num den : Z) : Z :=
  match fuel with O => x | S fuel => if den <=? num then x else exponent_down fuel (x - 1) (10 * num) den end.
Definition exponent10 (num den : Z) : Z := if den <=? num then exponent_up 400 0 num den else exponent_down 400 0 num den.

(** The nearest integer, the even one of two. *)
Definition round_even (num den : Z) : Z :=
  let q := num / den in let r := num mod den in
  if (2 * r >? den) || ((2 * r =? den) && Z.odd q) then q + 1 else q.

(** [p] significant digits of [num / den], and the exponent of the first. *)
Definition significant (p num den : Z) : Z * Z :=
  let x := exponent10 num den in
  let k := p - 1 - x in
  let n := if 0 <=? k then round_even (num * 10 ^ k) den else round_even num (den * 10 ^ (- k)) in
  if n =? 10 ^ p then (10 ^ (p - 1), x + 1) else (n, x).

Fixpoint drop_zeros (s : list Z) : list Z := match s with c :: r => if c =? 48 then drop_zeros r else s | [] => [] end.
Definition trim_zeros (s : list Z) : list Z := rev (drop_zeros (rev s)).
Definition with_fraction (i f : list Z) : list Z := match trim_zeros f with [] => i | f => i ++ 46 :: f end.

(** [%.*g] *)
Definition format_g (p : Z) (x : spec_float) : list Z :=
  let sign s := if s : bool then [45] else [] in
  match x with
  | S754_zero s => sign s ++ chars "0"
  | S754_infinity s => sign s ++ chars "inf"
  | S754_nan => chars "nan"
  | S754_finite s m e =>
      let '(n, x) := significant p (Z.pos m * 2 ^ Z.max 0 e) (2 ^ Z.max 0 (- e)) in
      let ds := digits 40 n [] in
      sign s ++
      if (-4 <=? x) && (x <? p) then
        if 0 <=? x then with_fraction (take (Z.to_nat (x + 1)) ds) (drop (Z.to_nat (x + 1)) ds)
        else with_fraction [48] (replicate (Z.to_nat (- x - 1)) 48 ++ ds)
      else
        with_fraction (take 1 ds) (drop 1 ds) ++
        101 :: (if x <? 0 then 45 else 43) :: (if Z.abs x <? 10 then [48] else []) ++ dec (Z.abs x)
  end.

(** [strchr]: how far the first [c] is. *)
Definition strchr (s : list Z) (c : Z) : option nat := fst <$> list_find (eq c) s.

(** [None] for -1; the text has no terminator after its exponent was shortened, the length counts. *)
Definition jsonp_dtostr (size : nat) (value : spec_float) (precision : Z) : option (list Z) :=
  let precision := if precision =? 0 then 17 else precision in
  let buffer := format_g precision value in
  if decide (size <= length buffer)%nat then None else
  buffer ← (match strchr buffer 46, strchr buffer 101 with
            | None, None => if decide (size <= length buffer + 3)%nat then None else Some (buffer ++ chars ".0")
            | _, _ => Some buffer
            end);
  match strchr buffer 101 with
  | None => Some buffer
  | Some i =>
      let start := S i in
      let end_ := S start in
      let start := if decide (buffer !! start = Some 45) then S start else start in
      Some (take start buffer ++ drop_zeros (drop end_ buffer))
  end.

(** ** Strings *)

(** [%04X] of a value below 2^16. *)
Definition hex_char (n : Z) : Z := if n <? 10 then 48 + n else 55 + n.
Definition hex_text (v : Z) : list Z :=
  [hex_char (Z.land (Z.shiftr v 12) 0xF); hex_char (Z.land (Z.shiftr v 8) 0xF); hex_char (Z.land (Z.shiftr v 4) 0xF); hex_char (Z.land v 0xF)].

(** What a character that cannot stand for itself is printed as. *)
Definition escape_text (codepoint : Z) : list Z :=
  if codepoint =? 92 then [92; 92]
  else if codepoint =? 34 then [92; 34]
  else if codepoint =? 8 then [92; 98]
  else if codepoint =? 12 then [92; 102]
  else if codepoint =? 10 then [92; 110]
  else if codepoint =? 13 then [92; 114]
  else if codepoint =? 9 then [92; 116]
  else if codepoint =? 47 then [92; 47]
  else if codepoint <? 0x10000 then [92; 117] ++ hex_text codepoint
  else
    let codepoint := codepoint - 0x10000 in
    let first := Z.lor 0xD800 (Z.shiftr (Z.land codepoint 0xffc00) 10) in
    let last := Z.lor 0xDC00 (Z.land codepoint 0x003ff) in
    [92; 117] ++ hex_text first ++ [92; 117] ++ hex_text last.

Definition must_escape (flags codepoint : Z) : bool :=
  (codepoint =? 92) || (codepoint =? 34) || (codepoint <? 0x20)
  || (flag flags JSON_ESCAPE_SLASH && (codepoint =? 47))
  || (flag flags JSON_ENSURE_ASCII && (codepoint >? 0x7F)).

(** The characters from [pos] that stand for themselves: where they end, and the next character with its end if one is
    left; [None] when it is not UTF-8. *)
Fixpoint plain_run (fuel : nat) (flags : Z) (text : list Z) (pos : Z) : res (option (Z * option (Z * Z))) :=
  match fuel with
  | O => NoFuel
  | S fuel =>
      let lim := Z.of_nat (length text) in
      if pos <? lim then
        e ← utf8_iterate (drop (Z.to_nat pos) text) (lim - pos);
        match e with
        | Some (n, Some codepoint) =>
            if must_escape flags codepoint then Ok (Some (pos, Some (pos + n, codepoint))) else plain_run fuel flags text (pos + n)
        | Some (_, None) => UB
        | None => Ok None
        end
      else Ok (Some (pos, None))
  end.

Section callback.
Context {T : Type} (dump : list Z -> T -> res (Z * T)).

(** [if (dump(...)) return -1;] and on. *)
Definition unless_error (m : res (Z * T)) (k : T -> res (Z * T)) : res (Z * T) :=
  '(r, st) ← m; if r =? 0 then k st else Ok (-1, st).

(** Spaces are printed 32 at a time. *)
Fixpoint print_spaces (fuel : nat) (n_spaces : Z) (st : T) : res (Z * T) :=
  match fuel with
  | O => NoFuel
  | S fuel =>
      if n_spaces >? 0 then
        let cur_n := if n_spaces <? 32 then n_spaces else 32 in
        unless_error (dump (replicate (Z.to_nat cur_n) 32) st) (print_spaces fuel (n_spaces - cur_n))
      else Ok (0, st)
  end.

Definition dump_indent (flags depth : Z) (space : bool) (st : T) : res (Z * T) :=
  if FLAGS_TO_INDENT flags >? 0 then
    let n_spaces := u32 (depth * FLAGS_TO_INDENT flags) in
    unless_error (dump [10] st) (print_spaces (S (Z.to_nat n_spaces)) n_spaces)
  else if space && negb (flag flags JSON_COMPACT) then dump [32] st
  else Ok (0, st).

(** The loop of [dump_string], from [str]. *)
Fixpoint dump_pieces (fuel : nat) (flags : Z) (text : list Z) (str : Z) (st : T) : res (Z * T) :=
  match fuel with
  | O => NoFuel
  | S fuel =>
      e ← plain_run (S (length text)) flags text str;
      match e with
      | None => Ok (-1, st)
      | Some (pos, next) =>
          unless_error
            (if pos =? str then Ok (0, st) else dump (take (Z.to_nat (pos - str)) (drop (Z.to_nat str) text)) st)
            (fun st =>
               match next with
               | None => dump [34] st
               | Some (end_, codepoint) => unless_error (dump (escape_text codepoint) st) (dump_pieces fuel flags text end_)
               end)
      end
  end.

Definition dump_string (flags : Z) (text : list Z) (st : T) : res (Z * T) :=
  unless_error (dump [34] st) (dump_pieces (S (length text)) flags text 0).

(** Behind an element: a comma and the next line, or the line of the end. *)
Definition dump_separator (last : bool) (flags depth : Z) (st : T) : res (Z * T) :=
  if last then dump_indent flags depth false st
  else unless_error (dump [44] st) (dump_indent flags (depth + 1) true).
End callback.

(** [strcmp], and a list of keys in its order: the keys of an object are different. *)
Fixpoint compare_keys (key1 key2 : list Z) : Z :=
  match key1, key2 with
  | [], [] => 0
  | [], _ :: _ => -1
  | _ :: _, [] => 1
  | a :: key1, b :: key2 => if a =? b then compare_keys key1 key2 else if a <? b then -1 else 1
  end.
Definition key_le (key1 key2 : list Z) : Prop := compare_keys key1 key2 <= 0.
#[export] Instance key_le_dec key1 key2 : Decision (key_le key1 key2).
Proof. unfold key_le. apply _. Defined.

(** ** Values *)

Section values.
Context {OT : ObjectTable} {T : Type} (dump : list Z -> T -> res (Z * T)) (alloc : Z -> bool).

(** The callback with the heap beside its data. *)
Definition dump_h (text : list Z) (st : T * jheap) : res (Z * (T * jheap)) := '(r, s) ← dump text st.1; Ok (r, (s, st.2)).

Definition set_visited (json visited : Z) (h : jheap) : res jheap :=
  c ← cell json h;
  match jvalue c with
  | JSON_OBJECT t _ => Ok (set_jvalue json c (JSON_OBJECT t visited) h)
  | JSON_ARRAY n e t _ => Ok (set_jvalue json c (JSON_ARRAY n e t visited) h)
  | _ => UB
  end.

(** A container: marked while its members are printed; already marked, it is inside itself. *)
Definition guarded (json visited : Z) (body : T * jheap -> res (Z * (T * jheap))) (close : list Z) (st : T * jheap) : res (Z * (T * jheap)) :=
  if negb (visited =? 0) then h ← set_visited json 0 st.2; Ok (-1, (st.1, h)) else
  h ← set_visited json 1 st.2;
  '(r, st) ← body (st.1, h);
  h ← set_visited json 0 st.2;
  if r =? 0 then dump_h close (st.1, h) else Ok (-1, (st.1, h)).

(** The loop over an array; [count] elements are left. *)
Fixpoint dump_elements (do_dump : Z -> T * jheap -> res (Z * (T * jheap))) (json flags depth n : Z) (count : nat) (st : T * jheap) : res (Z * (T * jheap)) :=
  match count with
  | O => Ok (0, st)
  | S count =>
      let i := n - Z.of_nat (S count) in
      v ← json_array_get json i st.2;
      unless_error (do_dump v st) (fun st =>
      unless_error (dump_separator dump_h (negb (i <? n - 1)) flags depth st)
        (dump_elements do_dump json flags depth n count))
  end.

(** A key, whose errors are not looked at, and its value. *)
Definition dump_member (do_dump : Z -> T * jheap -> res (Z * (T * jheap))) (flags : Z) (key : list Z) (value : Z) (st : T * jheap) : res (Z * (T * jheap)) :=
  '(_, st) ← dump_string dump_h flags key st;
  unless_error (dump_h (if flag flags JSON_COMPACT then [58] else [58; 32]) st) (do_dump value).

(** The loop over the members in their order. *)
Fixpoint dump_members (do_dump : Z -> T * jheap -> res (Z * (T * jheap))) (fuel : nat) (json flags depth : Z) (iter : option Z) (st : T * jheap) : res (Z * (T * jheap)) :=
  match fuel with
  | O => NoFuel
  | S fuel =>
      match iter with
      | None => Ok (0, st)
      | Some _ =>
          next ← json_object_iter_next json iter st.2;
          key ← json_object_iter_key json iter st.2; key ← of_option key;
          value ← json_object_iter_value json iter st.2;
          unless_error (dump_member do_dump flags key value st) (fun st =>
          unless_error (dump_separator dump_h (bool_decide (next = None)) flags depth st)
            (dump_members do_dump fuel json flags depth next))
      end
  end.

(** The keys of the members from [iter]. *)
Fixpoint collect_keys (fuel : nat) (json : Z) (iter : option Z) (h : jheap) : res (list (list Z)) :=
  match fuel with
  | O => NoFuel
  | S fuel =>
      match iter with
      | None => Ok []
      | Some _ =>
          key ← json_object_iter_key json iter h; key ← of_option key;
          iter ← json_object_iter_next json iter h;
          keys ← collect_keys fuel json iter h; Ok (key :: keys)
      end
  end.

(** The loop over the sorted keys. *)
Fixpoint dump_sorted (do_dump : Z -> T * jheap -> res (Z * (T * jheap))) (json flags depth : Z) (keys : list (list Z)) (st : T * jheap) : res (Z * (T * jheap)) :=
  match keys with
  | [] => Ok (0, st)
  | key :: keys =>
      value ← json_object_get json (Some key) st.2;
      _ ← assert_ok (negb (value =? NULL));
      unless_error (dump_member do_dump flags key value st) (fun st =>
      unless_error (dump_separator dump_h (bool_decide (keys = [])) flags depth st)
        (dump_sorted do_dump json flags depth keys))
  end.

Definition dump_array (do_dump : Z -> T * jheap -> res (Z * (T * jheap))) (json flags depth : Z) (st : T * jheap) : res (Z * (T * jheap)) :=
  n ← json_array_size json st.2;
  unless_error (dump_h [91] st) (fun st =>
  if n =? 0 then Ok (0, st) else
  unless_error (dump_indent dump_h flags (depth + 1) false st)
    (dump_elements do_dump json flags depth n (Z.to_nat n))).

Definition dump_object (do_dump : Z -> T * jheap -> res (Z * (T * jheap))) (json flags depth : Z) (st : T * jheap) : res (Z * (T * jheap)) :=
  iter ← json_object_iter json st.2;
  unless_error (dump_h [123] st) (fun st =>
  match iter with
  | None => Ok (0, st)
  | Some _ =>
      unless_error (dump_indent dump_h flags (depth + 1) false st) (fun st =>
      size ← json_object_size json st.2;
      if flag flags JSON_SORT_KEYS then
        match jsonp_malloc alloc (u64 (size * 8)) with
        | None => Ok (-1, st)
        | Some _ =>
            keys ← collect_keys (S (Z.to_nat size)) json iter st.2;
            _ ← assert_ok (Z.of_nat (length keys) =? size);
            dump_sorted do_dump json flags depth (merge_sort key_le keys) st
        end
      else dump_members do_dump (S (Z.to_nat size)) json flags depth iter st)
  end).

(** The fuel bounds the nesting. *)
Fixpoint do_dump (fuel : nat) (flags depth json : Z) (st : T * jheap) : res (Z * (T * jheap)) :=
  match fuel with
  | O => NoFuel
  | S fuel =>
      if json =? NULL then Ok (-1, st) else
      c ← cell json st.2;
      match jvalue c with
      | JSON_NULL => dump_h (chars "null") st
      | JSON_TRUE => dump_h (chars "true") st
      | JSON_FALSE => dump_h (chars "false") st
      | JSON_INTEGER _ =>
          n ← json_integer_value json st.2;
          if decide (MAX_INTEGER_STR_LENGTH <= length (dec n))%nat then Ok (-1, st) else dump_h (dec n) st
      | JSON_REAL _ =>
          value ← json_real_value json st.2;
          match jsonp_dtostr MAX_REAL_STR_LENGTH value (FLAGS_TO_PRECISION flags) with
          | None => Ok (-1, st)
          | Some buffer => dump_h buffer st
          end
      | JSON_STRING _ _ =>
          text ← json_string_value json st.2; text ← of_option text;
          len ← json_string_length json st.2;
          text ← blk_load 0 (Z.to_nat len) text;
          dump_string dump_h flags text st
      | JSON_ARRAY _ _ _ visited => guarded json visited (dump_array (do_dump fuel flags (depth + 1)) json flags depth) [93] st
      | JSON_OBJECT _ visited => guarded json visited (dump_object (do_dump fuel flags (depth + 1)) json flags depth) [125] st
      end
  end.

Definition json_dump_callback (json flags : Z) (st : T * jheap) : res (Z * (T * jheap)) :=
  a ← json_is_array json st.2; o ← json_is_object json st.2;
  if negb (flag flags JSON_ENCODE_ANY) && negb a && negb o then Ok (-1, st)
  else do_dump (heap_fuel st.2) flags 0 json st.
End values.

(** Printing into a string buffer, whose value is then copied; the copy is returned with the heap. *)
Definition dump_to_strbuffer (alloc : Z -> bool) (text : list Z) (sb : strbuffer_t) : res (Z * strbuffer_t) :=
  strbuffer_append_bytes alloc sb text (Z.of_nat (length text)).

Definition json_dumps {OT : ObjectTable} (alloc : Z -> bool) (json flags : Z) (h : jheap) : res (option (block Z) * jheap) :=
  '(r, strbuff) ← strbuffer_init alloc;
  if negb (r =? 0) then Ok (None, h) else
  '(r, (strbuff, h)) ← json_dump_callback (dump_to_strbuffer alloc) alloc json flags (strbuff, h);
  if negb (r =? 0) then Ok (None, h) else
  text ← text_of strbuff;
  result ← jsonp_strdup alloc text; Ok (result, h).
