(* ===== verification/JsonPrint.v ===== *)
(** * What is printed

    The text of a tree under the flags of [common/jansson/dump.c], as a function; and that the functions of [JsonDump]
    print it: into any callback that takes bytes, without changing the heap, unless the callback fails. *)

From Stdlib Require Import SpecFloat.
From stdpp Require Import sorting.
From S2P Require Import Prelude Utf Strbuf ObjectTable Json JsonTree JsonLex JsonDump.

(** ** The text of a tree *)

(** The code points of a UTF-8 text. *)
Fixpoint points (fuel : nat) (s : list Z) : list Z :=
  match fuel, s with
  | S fuel, _ :: _ =>
      match utf8_iterate s (Z.of_nat (length s)) with
      | Ok (Some (n, Some c)) => c :: points fuel (drop (Z.to_nat n) s)
      | _ => []
      end
  | _, _ => []
  end.

Section print.
Context (flags : Z).

Definition print_char (c : Z) : list Z := if must_escape flags c then escape_text c else encoding c.
Definition print_string (s : list Z) : list Z := 34 :: concat (print_char <$> points (length s) s) ++ [34].

(** The space between two parts: a new line, a space or nothing. *)
Definition indent (d : Z) (space : bool) : list Z :=
  if FLAGS_TO_INDENT flags >? 0 then 10 :: replicate (Z.to_nat (d * FLAGS_TO_INDENT flags)) 32
  else if space && negb (flag flags JSON_COMPACT) then [32] else [].

(** Items with what is behind each of them. *)
Fixpoint items (d : Z) (xs : list (list Z)) : list Z :=
  match xs with
  | [] => []
  | x :: xs => x ++ match xs with [] => indent d false | _ => 44 :: indent (d + 1) true end ++ items d xs
  end.

Definition inside (d : Z) (xs : list (list Z)) : list Z := match xs with [] => [] | _ => indent (d + 1) false ++ items d xs end.
Definition enclosed (open close d : Z) (xs : list (list Z)) : list Z := open :: inside d xs ++ [close].

Definition colon : list Z := if flag flags JSON_COMPACT then [58] else [58; 32].

Definition real_text (x : spec_float) : option (list Z) := jsonp_dtostr MAX_REAL_STR_LENGTH x (FLAGS_TO_PRECISION flags).

Fixpoint print (d : Z) (t : json) : list Z :=
  match t with
  | TObject ms => enclosed 123 125 d ((fun m => print_string m.1 ++ colon ++ print (d + 1) m.2) <$> ms)
  | TArray ts => enclosed 91 93 d (print (d + 1) <$> ts)
  | TString s => print_string s
  | TInteger n => dec n
  | TReal x => default [] (real_text x)
  | TTrue => chars "true"
  | TFalse => chars "false"
  | TNull => chars "null"
  end.

(** The order in which members are printed. *)
Definition member_le (m1 m2 : list Z * json) : Prop := key_le m1.1 m2.1.
#[export] Instance member_le_dec m1 m2 : Decision (member_le m1 m2).
Proof. unfold member_le. apply _. Defined.

Fixpoint arranged (t : json) : json :=
  match t with
  | TObject ms =>
      let ms := (fun m => (m.1, arranged m.2)) <$> ms in
      TObject (if flag flags JSON_SORT_KEYS then merge_sort member_le ms else ms)
  | TArray ts => TArray (arranged <$> ts)
  | t => t
  end.

(** What can be printed: texts and keys in UTF-8, keys without NUL and different, reals that have a text. *)
Inductive printable : json -> Prop :=
| printable_object ms : NoDup ms.*1 -> Forall (fun m => (is_utf8 m.1 /\ 0 ∉ m.1) /\ printable m.2) ms -> printable (TObject ms)
| printable_array ts : Forall printable ts -> printable (TArray ts)
| printable_string s : is_utf8 s -> printable (TString s)
| printable_integer n : LLONG_MIN <= n <= LLONG_MAX -> printable (TInteger n)
| printable_real x : is_Some (real_text x) -> printable (TReal x)
| printable_true : printable TTrue
| printable_false : printable TFalse
| printable_null : printable TNull.
End print.

Lemma points_encoding cs : Forall scalar cs -> forall fuel, (length cs <= fuel)%nat -> points fuel (concat (map encoding cs)) = cs.
Proof.
  induction 1 as [| c cs Hc Hcs IH]; intros fuel Hf; [by destruct fuel |]. destruct fuel as [| fuel]; [cbn in Hf; lia |]. cbn [map concat].
  destruct (encoding c ++ concat (map encoding cs)) as [| b s] eqn:E; [apply app_eq_nil in E as [E _]; by apply encoding_nonempty in E |].
  cbn [points]. rewrite <- E, iterate_encoding by (done || (rewrite length_app; lia)). rewrite Nat2Z.id, drop_app_length. f_equal. apply IH. cbn in Hf. lia.
Qed.

Lemma encodings_length cs : (length cs <= length (concat (map encoding cs)))%nat.
Proof.
  induction cs as [| c cs IH]; [done |]. cbn [map concat length]. rewrite length_app. pose proof (encoding_nonempty c). destruct (encoding c); [done | cbn; lia].
Qed.

Lemma print_string_encoding flags cs : Forall scalar cs ->
  print_string flags (concat (map encoding cs)) = 34 :: concat (print_char flags <$> cs) ++ [34].
Proof. intros H. unfold print_string. rewrite points_encoding; [done | done | apply encodings_length]. Qed.

(** ** Callbacks *)

Section sink.
Context (oom : Prop) (limit : nat).

Section one.
Context {T : Type} (written : T -> list Z -> Prop).

(** Behind [l] the text was written; or, when the callback fails, perhaps less. *)
Definition outputs (l text : list Z) (m : res (Z * T)) : Prop :=
  exists r st, m = Ok (r, st) /\
    ((r = 0 /\ written st (l ++ text)) \/ (oom /\ exists l', written st l' /\ (length l' <= length l + length text)%nat)).

(** A function that writes a text, behind anything with room for it. *)
Definition puts (text : list Z) (f : T -> res (Z * T)) : Prop :=
  forall st l, written st l -> (length l + length text <= limit)%nat -> outputs l text (f st).

Lemma puts_nil : puts [] (fun st => Ok (0, st)).
Proof. intros st l Hw _. exists 0, st. split; [done |]. left. by rewrite app_nil_r. Qed.

Lemma puts_ext text f g : (forall st l, written st l -> f st = g st) -> puts text f -> puts text g.
Proof. intros H Hf st l Hw Hl. rewrite <- (H st l Hw). by apply Hf. Qed.

(** A function whose result is not looked at. *)
Lemma puts_ignored t1 t2 f k : puts t1 f -> puts t2 k -> puts (t1 ++ t2) (fun st => '(_, st) ← f st; k st).
Proof.
  intros Hf Hk st l Hw Hl. rewrite length_app in Hl. destruct (Hf st l Hw ltac:(lia)) as (r & st' & -> & H). cbn [mbind res_bind].
  destruct H as [(_ & Hw') | (Ho & l' & Hw' & Hl')].
  - destruct (Hk st' _ Hw') as (r2 & st2 & -> & H2); [rewrite length_app; lia |]. exists r2, st2. split; [done |].
    destruct H2 as [(-> & H2) | (Ho & l2 & H2 & Hl2)]; [left; by rewrite app_assoc | right]. split; [done |]. exists l2. split; [done |].
    rewrite !length_app in *. lia.
  - destruct (Hk st' _ Hw') as (r2 & st2 & -> & H2); [lia |]. exists r2, st2. split; [done |]. right. split; [done |].
    destruct H2 as [(-> & H2) | (_ & l2 & H2 & Hl2)]; [exists (l' ++ t2) | exists l2]; (split; [done |]); rewrite ?length_app in *; lia.
Qed.

Lemma puts_then t1 t2 f k : puts t1 f -> puts t2 k -> puts (t1 ++ t2) (fun st => unless_error (f st) k).
Proof.
  intros Hf Hk st l Hw Hl. pose proof (puts_ignored _ _ _ _ Hf Hk st l Hw Hl) as H. cbv beta in H. rewrite length_app in Hl.
  destruct (Hf st l Hw ltac:(lia)) as (r & st' & E & H'). unfold unless_error. rewrite E in H |- *. cbn [mbind res_bind] in H |- *.
  destruct (Z.eqb_spec r 0) as [-> | Hr]; [done |]. exists (-1), st'. split; [done |].
  destruct H' as [(-> & _) | (Ho & l' & Hw' & Hl')]; [done |]. right. split; [done |]. exists l'. split; [done |]. rewrite length_app. lia.
Qed.
End one.

Section strings.
Context {T : Type} (dump : list Z -> T -> res (Z * T)) (written : T -> list Z -> Prop).

(** What a callback promises. *)
Definition sink : Prop := forall text, puts written text (dump text).

Context (Hsink : sink) (flags : Z).

Lemma print_spaces_puts fuel : forall n, 0 <= n -> (Z.to_nat n < fuel)%nat -> puts written (replicate (Z.to_nat n) 32) (print_spaces dump fuel n).
Proof.
  induction fuel as [| fuel IH]; intros n Hn Hf; [lia |]. cbn [print_spaces]. destruct (Z.gtb_spec n 0) as [Hp |].
  - assert (Hc : 0 < (if n <? 32 then n else 32) <= n) by (destruct (Z.ltb_spec n 32); lia).
    set (cur := if n <? 32 then n else 32) in *. clearbody cur.
    replace (replicate (Z.to_nat n) 32) with (replicate (Z.to_nat cur) 32 ++ replicate (Z.to_nat (n - cur)) 32)
      by (rewrite <- replicate_add; f_equal; lia).
    apply puts_then; [apply Hsink | apply IH; lia].
  - replace n with 0 by lia. apply puts_nil.
Qed.

Lemma dump_indent_puts d space : 0 <= d <= 2 ^ 27 -> puts written (indent flags d space) (dump_indent dump flags d space).
Proof.
  intros Hd. unfold indent, dump_indent. assert (Hi : 0 <= FLAGS_TO_INDENT flags <= 31).
  { unfold FLAGS_TO_INDENT. change (Z.land flags 0x1F) with (Z.land flags (Z.ones 5)). rewrite Z.land_ones by lia. pose proof (Z.mod_pos_bound flags (2 ^ 5) ltac:(lia)). lia. }
  destruct (Z.gtb_spec (FLAGS_TO_INDENT flags) 0); [| destruct (_ && _); [apply Hsink | apply puts_nil]].
  rewrite wrap_small by nia. apply (puts_then written [10]); [apply Hsink | apply print_spaces_puts; lia].
Qed.

Lemma dump_separator_puts (last : bool) d : 0 <= d < 2 ^ 27 ->
  puts written (if last then indent flags d false else 44 :: indent flags (d + 1) true) (dump_separator dump last flags d).
Proof.
  intros Hd. unfold dump_separator. destruct last; [apply dump_indent_puts; lia |].
  apply (puts_then written [44]); [apply Hsink | apply dump_indent_puts; lia].
Qed.

(** A run of plain characters, up to one that is escaped or the end. *)
Lemma plain_run_spec cs : forall fuel pre, Forall scalar cs -> (length cs < fuel)%nat ->
  exists plain rest, cs = plain ++ rest /\ Forall (fun c => must_escape flags c = false) plain /\
    plain_run fuel flags (pre ++ concat (map encoding cs)) (Z.of_nat (length pre)) =
      Ok (Some (Z.of_nat (length (pre ++ concat (map encoding plain))),
        match rest with [] => None | c :: _ => Some (Z.of_nat (length (pre ++ concat (map encoding plain) ++ encoding c)), c) end)) /\
    match rest with [] => True | c :: _ => must_escape flags c = true end.
Proof.
  induction cs as [| c cs IH]; intros fuel pre Hcs Hf; (destruct fuel as [| fuel]; [cbn in Hf; lia |]); cbn [plain_run].
  - exists [], []. cbn [map concat]. rewrite !app_nil_r, Z.ltb_irrefl. done.
  - apply Forall_cons in Hcs as [Hc Hcs]. cbn [map concat]. pose proof (encoding_nonempty c) as Hne.
    assert (Hlen : (0 < length (encoding c))%nat) by (destruct (encoding c); [done | cbn; lia]).
    rewrite (proj2 (Z.ltb_lt _ _)) by (rewrite !length_app; lia). rewrite Nat2Z.id, drop_app_length.
    rewrite iterate_encoding by (done || (rewrite !length_app; lia)). cbn [mbind res_bind]. destruct (must_escape flags c) eqn:E.
    + exists [], (c :: cs). cbn [map concat]. rewrite app_nil_r, app_nil_l, length_app, Nat2Z.inj_add. done.
    + cbn in Hf. destruct (IH fuel (pre ++ encoding c) Hcs ltac:(lia)) as (plain & rest & -> & Hp & Er & Hr). rewrite <- app_assoc in Er.
      rewrite length_app, Nat2Z.inj_add in Er. rewrite Er. exists (c :: plain), rest. cbn [map concat app]. rewrite <- !app_assoc.
      split_and!; [done | by constructor | by destruct rest; rewrite <- ?app_assoc | done].
Qed.

Lemma print_plain plain : Forall (fun c => must_escape flags c = false) plain -> concat (print_char flags <$> plain) = concat (map encoding plain).
Proof. induction 1 as [| c cs Hc Hcs IH]; [done |]. cbn [fmap list_fmap map concat]. unfold print_char at 1. rewrite Hc. f_equal. exact IH. Qed.

Lemma dump_pieces_puts fuel : forall cs pre text, text = pre ++ concat (map encoding cs) -> Forall scalar cs -> (length cs < fuel)%nat ->
  puts written (concat (print_char flags <$> cs) ++ [34]) (dump_pieces dump fuel flags text (Z.of_nat (length pre))).
Proof.
  induction fuel as [| fuel IH]; intros cs pre text -> Hcs Hf; [lia |]. cbn [dump_pieces].
  destruct (plain_run_spec cs (S (length (pre ++ concat (map encoding cs)))) pre Hcs) as (plain & rest & -> & Hp & -> & Hr).
  { rewrite length_app. pose proof (encodings_length cs). lia. }
  cbn [mbind res_bind]. rewrite fmap_app, concat_app, print_plain by done. rewrite <- app_assoc. apply puts_then.
  - destruct (Z.eqb_spec (Z.of_nat (length (pre ++ concat (map encoding plain)))) (Z.of_nat (length pre))) as [E | E].
    + assert (concat (map encoding plain) = []) as -> by (rewrite length_app in E; apply length_zero_iff_nil; lia). apply puts_nil.
    + rewrite map_app, concat_app, Nat2Z.id, drop_app_length.
      rewrite take_app_length' by (rewrite length_app; lia). apply Hsink.
  - destruct rest as [| c rest]; [apply (Hsink [34]) |]. cbn [fmap list_fmap concat]. unfold print_char at 1. rewrite Hr, <- app_assoc.
    apply puts_then; [apply Hsink |]. apply Forall_app in Hcs as [_ Hcs]. apply Forall_cons in Hcs as [_ Hcs].
    rewrite length_app in Hf. cbn in Hf. apply IH; [| done | lia]. rewrite map_app, concat_app. cbn [map concat]. by rewrite !app_assoc.
Qed.

Lemma dump_string_puts s : is_utf8 s -> puts written (print_string flags s) (dump_string dump flags s).
Proof.
  intros (cs & Hcs & ->). rewrite print_string_encoding by done. apply (puts_then written [34]); [apply Hsink |].
  apply (dump_pieces_puts _ cs []); [done | done |]. pose proof (encodings_length cs). lia.
Qed.
End strings.
End sink.

(** ** Keys in order *)

Lemma compare_keys_eq k1 k2 : compare_keys k1 k2 = 0 <-> k1 = k2.
Proof.
  split; [| intros ->; induction k2; cbn; [done |]; by rewrite Z.eqb_refl].
  revert k2; induction k1 as [| a k1 IH]; intros [| b k2]; cbn; try done. destruct (Z.eqb_spec a b) as [-> |]; [intros H; f_equal; auto | by destruct (a <? b)].
Qed.

Lemma compare_keys_opp k1 k2 : compare_keys k2 k1 = - compare_keys k1 k2.
Proof.
  revert k2; induction k1 as [| a k1 IH]; intros [| b k2]; cbn; try done. rewrite (Z.eqb_sym b a). destruct (Z.eqb_spec a b) as [-> |]; [done |].
  destruct (Z.ltb_spec a b), (Z.ltb_spec b a); lia.
Qed.

#[export] Instance key_le_total : Total key_le.
Proof. intros k1 k2. unfold key_le. rewrite (compare_keys_opp k1 k2). lia. Qed.

#[export] Instance key_le_antisym : AntiSymm eq key_le.
Proof. intros k1 k2 H1 H2. apply compare_keys_eq. unfold key_le in *. rewrite (compare_keys_opp k1 k2) in H2. lia. Qed.

#[export] Instance key_le_trans : Transitive key_le.
Proof.
  intros k1 k2 k3. unfold key_le. revert k1 k3; induction k2 as [| b k2 IH]; intros [| a k1] [| c k3]; cbn; try lia.
  destruct (Z.eqb_spec a b) as [-> | Hab].
  - destruct (Z.eqb_spec b c) as [-> | Hbc]; [apply IH | done].
  - destruct (Z.eqb_spec b c) as [-> | Hbc]; [by rewrite (proj2 (Z.eqb_neq _ _) Hab) |].
    destruct (Z.ltb_spec a b), (Z.ltb_spec b c); try lia. intros _ _. rewrite (proj2 (Z.eqb_neq a c)), (proj2 (Z.ltb_lt a c)) by lia. lia.
Qed.

#[export] Instance member_le_total : Total member_le.
Proof. intros m1 m2. apply (total key_le). Qed.

(** Sorting members sorts their keys. *)
Lemma sorted_keys ms : (merge_sort member_le ms).*1 = merge_sort key_le ms.*1.
Proof.
  apply (StronglySorted_unique key_le).
  - assert (H : Sorted member_le (merge_sort member_le ms)) by apply Sorted_merge_sort, _.
    apply Sorted_StronglySorted; [apply _ |]. induction H as [| m ms' H IH Hd]; [constructor |]. cbn [fmap list_fmap]. constructor; [done |].
    destruct Hd; [constructor |]. by constructor.
  - apply StronglySorted_merge_sort; apply _.
  - rewrite (merge_sort_Permutation key_le). by rewrite (merge_sort_Permutation member_le).
Qed.

(** ** Values *)

Section values.
Context {OT : ObjectTable} {OS : ObjectTableSpec OT} (oom : Prop) (limit : nat).
Context {T : Type} (dump : list Z -> T -> res (Z * T)) (written : T -> list Z -> Prop) (Hsink : sink oom limit dump written).
Context (alloc : Z -> bool) (Hoom : forall n, alloc n = false -> oom) (flags : Z).
Implicit Types (f : Z -> T * jheap -> res (Z * (T * jheap))).

(** The heap [h], and what was written. *)
Definition at_heap (h : jheap) (st : T * jheap) (l : list Z) : Prop := written st.1 l /\ st.2 = h.
#[local] Abbreviation puts h := (puts oom limit (at_heap h)).

Lemma sink_h h : sink oom limit (dump_h dump) (at_heap h).
Proof.
  intros text [s h'] l [Hw Hh] Hl. cbn [fst snd] in Hw, Hh. subst h'. destruct (Hsink text s l Hw Hl) as (r & s' & E & H). unfold dump_h. cbn [fst snd]. rewrite E.
  cbn [mbind res_bind]. exists r, (s', h). split; [done |]. destruct H as [[-> H] | (Ho & l' & H & Hl')]; [by left | right]. split; [done |]. by exists l'.
Qed.

(** The two containers. *)
Inductive container : (Z -> json_value) -> Prop :=
| is_json_array n e t : container (JSON_ARRAY n e t)
| is_json_object t : container (JSON_OBJECT t).

Lemma set_visited_at V p v v' (c : gmap Z json_t) k : container V ->
  set_visited p v' (MkHeap (<[p := MkJson 1 (V v)]> c) k) = Ok (MkHeap (<[p := MkJson 1 (V v')]> c) k).
Proof.
  intros HV. unfold set_visited, cell. cbn [cells]. rewrite lookup_insert_eq. cbn [of_option mbind res_bind].
  destruct HV; cbn [jvalue]; unfold set_jvalue, set_cell; cbn [refcount cells next]; by rewrite insert_insert_eq.
Qed.

Lemma guarded_puts V p (c : gmap Z json_t) k text close body : container V ->
  puts (MkHeap (<[p := MkJson 1 (V 1)]> c) k) text body ->
  puts (MkHeap (<[p := MkJson 1 (V 0)]> c) k) (text ++ close) (guarded dump p 0 body close).
Proof.
  intros HV Hb [s h] l [Hw Hh] Hl. cbn [fst snd] in Hw, Hh. subst h. unfold guarded. cbn [Z.eqb negb fst snd]. rewrite set_visited_at by done. cbn [mbind res_bind].
  rewrite length_app in Hl. destruct (Hb (s, MkHeap (<[p := MkJson 1 (V 1)]> c) k) l) as (r & [s' h'] & -> & H); [by split | lia |]. cbn [mbind res_bind fst snd].
  set (h0 := MkHeap (<[p := MkJson 1 (V 1)]> c) k) in *.
  assert (E : h' = h0) by (by destruct H as [(_ & _ & ?) | (_ & ? & (_ & ?) & _)]). subst h' h0. rewrite set_visited_at by done. cbn [mbind res_bind].
  set (h0 := MkHeap (<[p := MkJson 1 (V 0)]> c) k) in *. destruct (Z.eqb_spec r 0) as [-> | Hr].
  - destruct H as [(_ & Hw' & _) | (Ho & l' & (Hw' & _) & Hl')].
    + destruct (sink_h h0 close (s', h0) (l ++ text)) as (r2 & st2 & -> & H2); [by split | rewrite length_app; lia |]. exists r2, st2. split; [done |].
      rewrite <- app_assoc in H2. destruct H2 as [? | (Ho & l2 & H2 & Hl2)]; [by left | right]. split; [done |]. exists l2. split; [done |]. rewrite !length_app in *. lia.
    + destruct (sink_h h0 close (s', h0) l') as (r2 & st2 & -> & H2); [by split | lia |]. exists r2, st2. split; [done |]. right. split; [done |].
      destruct H2 as [(-> & H2) | (_ & l2 & H2 & Hl2)]; [exists (l' ++ close) | exists l2]; (split; [done |]); rewrite ?length_app in *; lia.
  - destruct H as [(-> & _) | (Ho & l' & (Hw' & _) & Hl')]; [done |]. exists (-1), (s', h0). split; [done |]. right. split; [done |]. exists l'.
    split; [by split |]. rewrite length_app. lia.
Qed.

(** A step that looks at the heap. *)
Lemma puts_look h text (m m' : T * jheap -> res (Z * (T * jheap))) : (forall s, m (s, h) = m' (s, h)) -> puts h text m' -> puts h text m.
Proof. intros H Hg [s h'] l [Hw Hh] Hl. cbn [snd] in Hh. subst h'. rewrite H. by apply Hg. Qed.

Lemma dump_member_puts f h k v x : is_utf8 k -> puts h x (f v) -> puts h (print_string flags k ++ colon flags ++ x) (dump_member dump f flags k v).
Proof.
  intros Hk Hx. apply (puts_ignored oom limit (at_heap h) _ _ (dump_string (dump_h dump) flags k) (fun st => unless_error (dump_h dump (colon flags) st) (f v))).
  - apply dump_string_puts; [apply sink_h | done].
  - apply puts_then; [apply sink_h | done].
Qed.

Lemma items_cons d x xs : items flags d (x :: xs) = x ++ (if bool_decide (xs = []) then indent flags d false else 44 :: indent flags (d + 1) true) ++ items flags d xs.
Proof. by destruct xs. Qed.

(** A step of a loop: an item, what separates it, and the rest. *)
Lemma item_puts h d x xs (m : T * jheap -> res (Z * (T * jheap))) (last : bool) k : 0 <= d < 2 ^ 27 -> last = bool_decide (xs = []) ->
  puts h x m -> puts h (items flags d xs) k ->
  puts h (items flags d (x :: xs)) (fun st => unless_error (m st) (fun st => unless_error (dump_separator (dump_h dump) last flags d st) k)).
Proof.
  intros Hd -> Hm Hk. rewrite items_cons. apply puts_then; [done |].
  apply (puts_then oom limit (at_heap h)); [apply dump_separator_puts; [apply sink_h | done] | done].
Qed.

(** *** Arrays *)

Lemma elements_puts f h p d ps xs : 0 <= d < 2 ^ 27 -> (forall i, 0 <= i < Z.of_nat (length ps) -> json_array_get p i h = of_option (ps !! Z.to_nat i)) ->
  Forall2 (fun q x => puts h x (f q)) ps xs ->
  puts h (items flags d xs) (dump_elements dump f p flags d (Z.of_nat (length ps)) (length xs)).
Proof.
  intros Hd Hget H. enough (G : forall ps1 ps2 ys, ps = ps1 ++ ps2 -> Forall2 (fun q x => puts h x (f q)) ps2 ys ->
    puts h (items flags d ys) (dump_elements dump f p flags d (Z.of_nat (length ps)) (length ys))) by (by apply (G [] ps)).
  clear H. intros ps1 ps2 ys E H. revert ps1 E. induction H as [| q x ps2 ys Hq Hps IH]; intros ps1 E; [apply puts_nil |].
  pose proof (Forall2_length _ _ _ Hps) as Hlen. cbn [length dump_elements].
  assert (Hn : Z.of_nat (length ps) - Z.of_nat (S (length ys)) = Z.of_nat (length ps1)) by (rewrite E, length_app; cbn [length]; lia).
  rewrite Hn. apply (puts_look h _ _ (fun st => unless_error (f q st) (fun st => unless_error
    (dump_separator (dump_h dump) (negb (Z.of_nat (length ps1) <? Z.of_nat (length ps) - 1)) flags d st) (dump_elements dump f p flags d (Z.of_nat (length ps)) (length ys))))).
  - intros s. cbn [snd]. rewrite Hget by (rewrite E, length_app; cbn [length]; lia). by rewrite Nat2Z.id, E, list_lookup_middle.
  - apply item_puts; [done | | done | apply (IH (ps1 ++ [q])); by rewrite <- app_assoc].
    rewrite E, length_app. cbn [length]. destruct ys; [cbn [length] in *; rewrite bool_decide_true by done | cbn [length] in *; rewrite bool_decide_false by done];
      destruct (Z.ltb_spec (Z.of_nat (length ps1)) (Z.of_nat (length ps1 + S (length ps2)) - 1)); (done || lia).
Qed.

(** *** Objects *)

(** The text of a member. *)
Definition member_text (d : Z) (m : list Z * json) : list Z := print_string flags m.1 ++ colon flags ++ print flags d m.2.

Section object.
Context (p : Z) (tb : otable) (v : Z) (h : jheap) (Hp : p <> NULL) (Hcell : cells h !! p = Some (MkJson 1 (JSON_OBJECT tb v))).

Lemma is_object_at : json_is_object p h = Ok true.
Proof. unfold json_is_object, json_is, cell. rewrite (proj2 (Z.eqb_neq p NULL)) by done. by rewrite Hcell. Qed.

Lemma to_object_at : json_to_object p h = Ok (MkJson 1 (JSON_OBJECT tb v), tb, v).
Proof. unfold json_to_object, cell. by rewrite Hcell. Qed.

Lemma get_at al k : members tb al -> key_bytes k -> json_object_get p (Some k) h = Ok (default NULL (assoc k al)).
Proof. intros Hm Hk. unfold json_object_get. rewrite is_object_at. cbn [mbind res_bind negb]. rewrite to_object_at. cbn [mbind res_bind]. by rewrite (get_law tb al) by done. Qed.

Lemma iter_next_at i : json_object_iter_next p (Some i) h = ot_iter_next i tb.
Proof. unfold json_object_iter_next. rewrite is_object_at. cbn [mbind res_bind negb]. by rewrite to_object_at. Qed.

Lemma iter_key_at i : json_object_iter_key p (Some i) h = (k ← ot_iter_key i tb; Ok (Some k)).
Proof. unfold json_object_iter_key. by rewrite to_object_at. Qed.

Lemma iter_value_at i : json_object_iter_value p (Some i) h = ot_iter_value i tb.
Proof. unfold json_object_iter_value. by rewrite to_object_at. Qed.

(** The iterators from one of them on, and their members. *)
Lemma iterators_from its1 i its2 al : iterators tb (its1 ++ i :: its2) al -> exists al1 k q al2, al = al1 ++ (k, q) :: al2 /\
  length al1 = length its1 /\ ot_iter_next i tb = Ok (head its2) /\ ot_iter_key i tb = Ok k /\ ot_iter_value i tb = Ok q.
Proof.
  intros H. destruct (iter_member_law tb al its1 i its2 H) as (al1 & k & q & al2 & E & El & Ek & Ev).
  exists al1, k, q, al2. split_and!; try done. by apply (iter_next_law tb al its1).
Qed.

Lemma members_puts f d its al : 0 <= d < 2 ^ 27 -> iterators tb its al -> forall ms,
  Forall2 (fun kq m => kq.1 = m.1 /\ is_utf8 m.1 /\ puts h (print flags (d + 1) m.2) (f kq.2)) al ms ->
  puts h (items flags d (member_text (d + 1) <$> ms)) (dump_members dump f (S (length al)) p flags d (head its)).
Proof.
  intros Hd Hits ms H. destruct (iterators_members tb its al Hits) as [_ Hlen].
  enough (G : forall fuel its1 its2 al1 al2 ms, its = its1 ++ its2 -> al = al1 ++ al2 -> length al1 = length its1 -> (length al2 < fuel)%nat ->
    Forall2 (fun kq m => kq.1 = m.1 /\ is_utf8 m.1 /\ puts h (print flags (d + 1) m.2) (f kq.2)) al2 ms ->
    puts h (items flags d (member_text (d + 1) <$> ms)) (dump_members dump f fuel p flags d (head its2))) by (apply (G _ [] its [] al); done || lia).
  clear ms H. induction fuel as [| fuel IH]; intros its1 its2 al1 al2 ms Ei Ea El Hf H; [lia |]. cbn [dump_members].
  assert (El2 : length al2 = length its2) by (rewrite Ei, Ea, !length_app in Hlen; lia).
  destruct H as [| [k q] m al2 ms (Hk & Hu & Hq) Hms]; [destruct its2; [apply puts_nil | done] |]. cbn [fst snd] in *. subst k.
  destruct its2 as [| i its2]; [done |]. cbn [head]. destruct (iterators_from its1 i its2 al) as (b1 & k & v' & b2 & Eb & Elb & En & Ek & Ev); [by rewrite <- Ei |].
  rewrite Ea in Eb. apply app_inj_1 in Eb as [<- Eb]; [| lia]. injection Eb as <- <- <-.
  apply (puts_look h _ _ (fun st => unless_error (dump_member dump f flags m.1 q st) (fun st =>
    unless_error (dump_separator (dump_h dump) (bool_decide (head its2 = @None Z)) flags d st) (dump_members dump f fuel p flags d (head its2))))).
  - intros s. cbn [snd]. rewrite iter_next_at, En, iter_key_at, Ek, iter_value_at, Ev. done.
  - cbn [fmap list_fmap]. apply item_puts; [done | | by apply dump_member_puts |].
    + apply bool_decide_ext. cbn [length] in El2. pose proof (Forall2_length _ _ _ Hms). destruct ms, its2; cbn in *; try done; lia.
    + apply (IH (its1 ++ [i]) its2 (al1 ++ [(m.1, q)]) al2); [by rewrite <- app_assoc | by rewrite Ea, <- app_assoc | rewrite !length_app; cbn; lia | cbn in Hf; lia | done].
Qed.

Lemma collect_keys_spec its al : iterators tb its al -> collect_keys (S (length al)) p (head its) h = Ok al.*1.
Proof.
  intros Hits. destruct (iterators_members tb its al Hits) as [_ Hlen].
  enough (G : forall fuel its1 its2 al1 al2, its = its1 ++ its2 -> al = al1 ++ al2 -> length al1 = length its1 -> (length al2 < fuel)%nat ->
    collect_keys fuel p (head its2) h = Ok al2.*1) by (apply (G _ [] its [] al); done || lia).
  induction fuel as [| fuel IH]; intros its1 its2 al1 al2 Ei Ea El Hf; [lia |]. cbn [collect_keys].
  assert (El2 : length al2 = length its2) by (rewrite Ei, Ea, !length_app in Hlen; lia).
  destruct its2 as [| i its2]; [destruct al2; done |]. destruct al2 as [| [k q] al2]; [done |]. cbn [head].
  destruct (iterators_from its1 i its2 al) as (b1 & k' & v' & b2 & Eb & Elb & En & Ek & Ev); [by rewrite <- Ei |].
  rewrite Ea in Eb. apply app_inj_1 in Eb as [<- Eb]; [| lia]. injection Eb as <- <- <-. rewrite iter_key_at, Ek. cbn [mbind res_bind of_option].
  rewrite iter_next_at, En. cbn [mbind res_bind].
  rewrite (IH (its1 ++ [i]) its2 (al1 ++ [(k, q)]) al2); [done | by rewrite <- app_assoc | by rewrite Ea, <- app_assoc | rewrite !length_app; cbn; lia | cbn in Hf; lia].
Qed.

Lemma sorted_puts f d al : 0 <= d < 2 ^ 27 -> members tb al -> forall ms,
  Forall (fun m => is_utf8 m.1 /\ exists q, assoc m.1 al = Some q /\ q <> NULL /\ puts h (print flags (d + 1) m.2) (f q)) ms ->
  puts h (items flags d (member_text (d + 1) <$> ms)) (dump_sorted dump f p flags d ms.*1).
Proof.
  intros Hd Hm ms H. induction H as [| m ms (Hu & q & Ea & Hq & Hput) Hms IH]; [apply puts_nil |]. cbn [fmap list_fmap dump_sorted].
  apply (puts_look h _ _ (fun st => unless_error (dump_member dump f flags m.1 q st) (fun st =>
    unless_error (dump_separator (dump_h dump) (bool_decide (ms.*1 = ([] : list (list Z)))) flags d st) (dump_sorted dump f p flags d ms.*1)))).
  - intros s. cbn [snd]. rewrite (get_at al) by (done || (eapply Forall_impl; [by apply is_utf8_range | unfold is_byte; cbv beta; lia])).
    cbn [mbind res_bind]. rewrite Ea. change (default NULL (Some q)) with q. by rewrite (proj2 (Z.eqb_neq q NULL) Hq).
  - apply item_puts; [done | | by apply dump_member_puts | done]. by destruct ms.
Qed.
End object.

(** *** Trees *)

Context (Hlimit : Z.of_nat limit < 2 ^ 60).

Lemma puts_short h text m : ((length text <= limit)%nat -> puts h text m) -> puts h text m.
Proof. intros H st l Hw Hl. apply H; [lia | done | done]. Qed.

Lemma puts_oom h text (m : T * jheap -> res (Z * (T * jheap))) : oom -> (forall s, m (s, h) = Ok (-1, (s, h))) -> puts h text m.
Proof.
  intros Ho Hm [s h'] l [Hw Hh] Hl. cbn [fst snd] in Hw, Hh. subst h'. exists (-1), (s, h). split; [apply Hm |]. right. split; [done |]. exists l.
  split; [done | lia].
Qed.

Definition dumped (p : Z) (t : json) (m : gmap Z json_t) : Prop :=
  printable flags t -> forall c k d fuel, m ##ₘ c -> statics_in c -> (depth t <= fuel)%nat -> 0 <= d -> d + Z.of_nat (depth t) <= 2 ^ 27 ->
    puts (MkHeap (m ∪ c) k) (print flags d (arranged flags t)) (do_dump dump alloc fuel flags d p).

Definition all_dumped (ps : list Z) (ts : list json) (m : gmap Z json_t) : Prop :=
  Forall (printable flags) ts -> forall c k d fuel, m ##ₘ c -> statics_in c -> 0 <= d ->
    Forall (fun t => (depth t <= fuel)%nat /\ d + Z.of_nat (depth t) <= 2 ^ 27) ts ->
    Forall2 (fun q t => puts (MkHeap (m ∪ c) k) (print flags d (arranged flags t)) (do_dump dump alloc fuel flags d q)) ps ts.

Lemma constant_dumped p v t text : statics !! p = Some (MkJson SIZE_MAX v) -> p <> NULL ->
  (v, text) ∈ [(JSON_TRUE, chars "true"); (JSON_FALSE, chars "false"); (JSON_NULL, chars "null")] ->
  (forall d, print flags d (arranged flags t) = text) -> dumped p t ∅.
Proof.
  intros Hs Hp Hv Ht _ c k d fuel Hd Hst Hf _ _. rewrite Ht, (left_id_L ∅ (∪)). destruct fuel as [| fuel]; [destruct t; cbn in Hf; lia |].
  pose proof (static_lookup c p _ Hst Hs) as Hc. apply (puts_look _ _ _ (dump_h dump text)); [| apply sink_h].
  intros s. cbn [do_dump]. rewrite (proj2 (Z.eqb_neq p NULL) Hp). unfold cell. cbn [snd cells]. rewrite Hc. cbn [of_option mbind res_bind jvalue].
  rewrite !elem_of_cons in Hv. destruct Hv as [[= -> ->] | [[= -> ->] | [[= -> ->] | Hv]]]; [done | done | done | inversion Hv].
Qed.

Lemma leaf_dumped p t v text (m : T * jheap -> res (Z * (T * jheap))) : p <> NULL -> (forall d, print flags d (arranged flags t) = text) ->
  (printable flags t -> forall h, puts h text m) ->
  (printable flags t -> forall c k d fuel s, cells (MkHeap c k) !! p = Some (MkJson 1 v) -> do_dump dump alloc (S fuel) flags d p (s, MkHeap c k) = m (s, MkHeap c k)) ->
  dumped p t {[p := MkJson 1 v]}.
Proof.
  intros Hp Ht Hm Hd Hpr c k d fuel _ _ Hf _ _. rewrite Ht. destruct fuel as [| fuel]; [destruct t; cbn in Hf; lia |].
  apply (puts_look _ _ _ m); [| by apply Hm]. intros s. apply Hd; [done |]. cbn [cells]. rewrite <- insert_empty. apply lookup_root.
Qed.

Lemma string_dumped p s v : p <> NULL -> blk_holds (s ++ [0]) v -> dumped p (TString s) {[p := MkJson 1 (JSON_STRING v (Z.of_nat (length s)))]}.
Proof.
  intros Hp Hb. apply (leaf_dumped _ _ _ (print_string flags s) (dump_string (dump_h dump) flags s)); [done | done | |].
  - intros Hpr h. apply dump_string_puts; [apply sink_h |]. by inversion Hpr.
  - intros _ c k d fuel st Hc. cbn [do_dump]. rewrite (proj2 (Z.eqb_neq p NULL) Hp). unfold json_string_value, json_string_length. rewrite (proj2 (Z.eqb_neq p NULL) Hp).
    unfold cell. cbn [snd]. rewrite Hc. cbn [of_option mbind res_bind jvalue]. rewrite Nat2Z.id.
    pose proof (blk_load_holds 0 (length s) _ _ Hb) as E. rewrite E by (rewrite length_app; cbn; lia). cbn [mbind res_bind].
    rewrite drop_0, take_app_length. done.
Qed.

Lemma dec_short n : LLONG_MIN <= n <= LLONG_MAX -> (length (dec n) <= 26)%nat.
Proof.
  intros _. assert (G : forall fuel k acc, (length (digits fuel k acc) <= fuel + length acc)%nat).
  { induction fuel as [| fuel IH]; intros k acc; cbn [digits]; [lia |]. destruct (k <? 10); [cbn; lia |]. specialize (IH (k / 10) ((48 + k mod 10) :: acc)). cbn [length] in IH. lia. }
  unfold dec. destruct (n <? 0); cbn [length]; [specialize (G 25%nat (- n) []) | specialize (G 25%nat n [])]; cbn [length] in G; lia.
Qed.

Lemma integer_dumped p n : p <> NULL -> dumped p (TInteger n) {[p := MkJson 1 (JSON_INTEGER n)]}.
Proof.
  intros Hp. apply (leaf_dumped _ _ _ (dec n) (dump_h dump (dec n))); [done | done | intros; apply sink_h |].
  intros Hpr c k d fuel st Hc. cbn [do_dump]. rewrite (proj2 (Z.eqb_neq p NULL) Hp). unfold json_integer_value. rewrite (proj2 (Z.eqb_neq p NULL) Hp).
  unfold cell. cbn [snd]. rewrite Hc. cbn [of_option mbind res_bind jvalue].
  rewrite decide_False; [done |]. inversion Hpr as [| | | ? Hn | | | |]; subst. pose proof (dec_short n Hn). unfold MAX_INTEGER_STR_LENGTH. lia.
Qed.

Lemma real_dumped p x : p <> NULL -> dumped p (TReal x) {[p := MkJson 1 (JSON_REAL x)]}.
Proof.
  intros Hp. apply (leaf_dumped _ _ _ (default [] (real_text flags x)) (dump_h dump (default [] (real_text flags x)))); [done | done | intros; apply sink_h |].
  intros Hpr c k d fuel st Hc. cbn [do_dump]. rewrite (proj2 (Z.eqb_neq p NULL) Hp). unfold json_real_value. rewrite (proj2 (Z.eqb_neq p NULL) Hp).
  unfold cell. cbn [snd]. rewrite Hc. cbn [of_option mbind res_bind jvalue].
  inversion Hpr as [| | | | ? [text Ht] | | |]; subst. unfold real_text in *. by rewrite Ht.
Qed.

(** A container and its members in the heap. *)
Lemma container_dumped V p (m c : gmap Z json_t) k fuel d text close body : container V -> p <> NULL ->
  (forall s, do_dump dump alloc (S fuel) flags d p (s, MkHeap (<[p := MkJson 1 (V 0)]> (m ∪ c)) k) = guarded dump p 0 body close (s, MkHeap (<[p := MkJson 1 (V 0)]> (m ∪ c)) k)) ->
  puts (MkHeap (<[p := MkJson 1 (V 1)]> (m ∪ c)) k) text body ->
  puts (MkHeap (<[p := MkJson 1 (V 0)]> m ∪ c) k) (text ++ close) (do_dump dump alloc (S fuel) flags d p).
Proof. intros HV Hp He Hb. rewrite insert_union. apply (puts_look _ _ _ _ He). by apply guarded_puts. Qed.

Lemma below_depth (ts : list json) d fuel : (list_max (depth <$> ts) <= fuel)%nat -> d + Z.of_nat (S (list_max (depth <$> ts))) <= 2 ^ 27 ->
  Forall (fun t => (depth t <= fuel)%nat /\ (d + 1) + Z.of_nat (depth t) <= 2 ^ 27) ts.
Proof.
  intros Hf Hd. assert (H : (list_max (depth <$> ts) <= list_max (depth <$> ts))%nat) by lia. apply depth_list in H.
  eapply Forall_impl; [exact H |]. cbv beta. lia.
Qed.

Lemma array_dumped p n t ps ts m : p <> NULL -> blk_holds ps t -> owns ps ts m -> m !! p = None -> all_dumped ps ts m ->
  dumped p (TArray ts) (<[p := MkJson 1 (JSON_ARRAY n (Z.of_nat (length ps)) t 0)]> m).
Proof.
  intros Hp Hb Hos Hmp IH Hpr c k d fuel Hdc Hst Hf Hd Hdd. destruct fuel as [| fuel]; [cbn in Hf; lia |]. cbn [depth] in Hf, Hdd.
  cbn [arranged print]. unfold enclosed. rewrite app_comm_cons. set (f := do_dump dump alloc fuel flags (d + 1)).
  apply (container_dumped (JSON_ARRAY n (Z.of_nat (length ps)) t) p m c k fuel d _ [93] (dump_array dump f p flags d)); [constructor | done | |].
  { intros s. cbn [do_dump]. rewrite (proj2 (Z.eqb_neq p NULL) Hp). unfold cell. cbn [snd cells]. by rewrite lookup_insert_eq. }
  set (cl := MkJson 1 (JSON_ARRAY n (Z.of_nat (length ps)) t 1)). set (h := MkHeap (<[p := cl]> (m ∪ c)) k).
  assert (Hc : cells h !! p = Some cl) by apply lookup_insert_eq. apply map_disjoint_insert_l in Hdc as [Hpc Hdc].
  assert (His : json_is_array p h = Ok true) by (unfold json_is_array, json_is, cell; rewrite (proj2 (Z.eqb_neq p NULL) Hp); by rewrite Hc).
  assert (Hto : json_to_array p h = Ok (cl, MkArray n (Z.of_nat (length ps)) t 1)) by (unfold json_to_array, cell; by rewrite Hc).
  assert (Hlen : length ps = length ts) by by eapply owns_length.
  apply (puts_look _ _ _ (fun st => unless_error (dump_h dump [91] st) (fun st => if Z.of_nat (length ps) =? 0 then Ok (0, st) else
    unless_error (dump_indent (dump_h dump) flags (d + 1) false st) (dump_elements dump f p flags d (Z.of_nat (length ps)) (length ps))))).
  { intros s. unfold dump_array, json_array_size. cbn [snd]. rewrite His. cbn [mbind res_bind negb]. rewrite Hto. cbn [mbind res_bind entries]. by rewrite Nat2Z.id. }
  apply (puts_then oom limit (at_heap h) [91]); [apply sink_h |]. rewrite <- list_fmap_compose. destruct ps as [| q ps'] eqn:Eps; [destruct ts; [apply puts_nil | done] |].
  rewrite <- Eps in *. assert (Hne : (0 < length ps)%nat) by (rewrite Eps; cbn; lia). rewrite (proj2 (Z.eqb_neq _ 0)) by lia.
  destruct ts as [| t0 ts'] eqn:Ets; [cbn in Hlen; lia |]. rewrite <- Ets in *.
  assert (E : inside flags d ((print flags (d + 1) ∘ arranged flags) <$> ts) = indent flags (d + 1) false ++ items flags d ((print flags (d + 1) ∘ arranged flags) <$> ts))
    by (by rewrite Ets).
  rewrite E. apply puts_then; [apply dump_indent_puts; [apply sink_h | lia] |].
  replace (dump_elements dump f p flags d (Z.of_nat (length ps)) (length ps)) with (dump_elements dump f p flags d (Z.of_nat (length ps)) (length ((print flags (d + 1) ∘ arranged flags) <$> ts)))
    by (by rewrite length_fmap, Hlen).
  apply elements_puts; [lia | |].
  - intros i Hi. unfold json_array_get. rewrite His. cbn [mbind res_bind negb]. rewrite Hto. cbn [mbind res_bind entries tbl]. rewrite Z.geb_leb, (proj2 (Z.leb_gt _ _)) by lia.
    destruct Hb as [rst ->]. unfold table_at, rd. rewrite lookup_app_l, list_lookup_fmap by (rewrite ?length_fmap; lia).
    destruct (lookup_lt_is_Some_2 ps (Z.to_nat i)) as [x Ex]; [lia |]. by rewrite Ex.
  - apply Forall2_fmap_r. assert (Hpt : Forall (printable flags) ts) by (by inversion Hpr).
    assert (Hh : h = MkHeap (m ∪ <[p := cl]> c) k) by (unfold h; by rewrite insert_union_r).
    rewrite Hh. apply (IH Hpt (<[p := cl]> c) k (d + 1) fuel); [by apply map_disjoint_insert_r_2 | by apply statics_in_insert | lia | apply below_depth; lia].
Qed.

Lemma items_length d xs : Forall (fun x => x <> []) xs -> (length xs <= length (items flags d xs))%nat.
Proof. induction 1 as [| x xs Hx Hxs IH]; [done |]. rewrite items_cons, !length_app. cbn [length]. destruct x; [done | cbn [length]; lia]. Qed.

Lemma assoc_elem {V} (al : list (list Z * V)) k q : NoDup al.*1 -> (k, q) ∈ al -> assoc k al = Some q.
Proof.
  intros Hn Hin. apply list_elem_of_split in Hin as (a1 & a2 & ->). rewrite fmap_app, fmap_cons in Hn. apply NoDup_app in Hn as (_ & Hn & _).
  apply assoc_in. intros H. apply (Hn k H). cbn. by left.
Qed.

(** The members that are printed, in their order, with what prints their values. *)
Definition shown_members (h : jheap) (d : Z) f (al : list (list Z * Z)) (ms : list (list Z * json)) : Prop :=
  Forall2 (fun kq m => kq.1 = m.1 /\ is_utf8 m.1 /\ puts h (print flags (d + 1) m.2) (f kq.2)) al ms.

Lemma zip_shown h d f ks ps ts : length ks = length ps -> Forall is_utf8 ks ->
  Forall2 (fun q t => puts h (print flags (d + 1) (arranged flags t)) (f q)) ps ts ->
  shown_members h d f (zip ks ps) ((fun m => (m.1, arranged flags m.2)) <$> zip ks ts).
Proof.
  intros Hl Hu H. revert ks Hl Hu. induction H as [| q t ps ts Hq Hps IH]; intros [| k ks] Hl Hu; try done; [constructor |].
  apply Forall_cons in Hu as [Hk Hu]. constructor; [done | apply IH; [cbn in Hl; lia | done]].
Qed.

Lemma sort_shown h d f al ms : NoDup al.*1 -> Forall (fun kq => kq.2 <> NULL) al -> shown_members h d f al ms ->
  Forall (fun m => is_utf8 m.1 /\ exists q, assoc m.1 al = Some q /\ q <> NULL /\ puts h (print flags (d + 1) m.2) (f q)) (merge_sort member_le ms).
Proof.
  intros Hn Hz H. rewrite (merge_sort_Permutation member_le). apply Forall_forall. intros m Hm. apply list_elem_of_lookup in Hm as [i Hm].
  destruct (Forall2_lookup_r _ _ _ _ _ H Hm) as ([k q] & Hi & Hk & Hu & Hq). cbn [fst snd] in Hk, Hq. subst k. split; [done |]. exists q.
  split_and!; [| | done].
  - apply assoc_elem; [done |]. by eapply list_elem_of_lookup_2.
  - by apply (Forall_lookup_1 _ _ _ _ Hz Hi).
Qed.

Lemma printable_parts ks ts : length ks = length ts -> printable flags (TObject (zip ks ts)) -> Forall (printable flags) ts /\ Forall is_utf8 ks.
Proof.
  intros Hl Hpr. inversion Hpr as [ms0 _ Hall | | | | | | |]; subst. split; apply Forall_lookup; intros i x Hi.
  - destruct (lookup_lt_is_Some_2 ks i) as [kk Hk]; [apply lookup_lt_Some in Hi; lia |].
    apply (Forall_lookup_1 _ _ i (kk, x) Hall). by apply lookup_zip_Some.
  - destruct (lookup_lt_is_Some_2 ts i) as [t Ht]; [apply lookup_lt_Some in Hi; lia |].
    apply (Forall_lookup_1 _ _ i (x, t) Hall). by apply lookup_zip_Some.
Qed.

Section object_body.
Context (p : Z) (tb : otable) (h : jheap) (Hp : p <> NULL) (Hcell : cells h !! p = Some (MkJson 1 (JSON_OBJECT tb 1))).
Context (al : list (list Z * Z)) (Hmem : members tb al) (its : list Z) (Hits : iterators tb its al).
Context f (d : Z) (Hd : 0 <= d < 2 ^ 27) (ms : list (list Z * json)) (Hsh : shown_members h d f al ms) (Hz : Forall (fun kq => kq.2 <> NULL) al).

(** The part of [dump_object] behind the first brace. *)
Definition object_rest (iter : option Z) (st : T * jheap) : res (Z * (T * jheap)) :=
  size ← json_object_size p st.2;
  if flag flags JSON_SORT_KEYS then
    match jsonp_malloc alloc (u64 (size * 8)) with
    | None => Ok (-1, st)
    | Some _ =>
        keys ← collect_keys (S (Z.to_nat size)) p iter st.2;
        _ ← assert_ok (Z.of_nat (length keys) =? size);
        dump_sorted dump f p flags d (merge_sort key_le keys) st
    end
  else dump_members dump f (S (Z.to_nat size)) p flags d iter st.

Definition in_order : list (list Z * json) := if flag flags JSON_SORT_KEYS then merge_sort member_le ms else ms.

Lemma in_order_length : length in_order = length al.
Proof. unfold in_order. rewrite (Forall2_length _ _ _ Hsh). case_match; by rewrite ?(merge_sort_Permutation member_le). Qed.

Lemma shown_keys : ms.*1 = al.*1.
Proof. clear -Hsh. revert Hsh. unfold shown_members. induction 1 as [| kq m al' ms' (Hk & _) _ IH]; [done |]. rewrite !fmap_cons, Hk. by f_equal. Qed.

Lemma object_size_at : json_object_size p h = Ok (Z.of_nat (length al)).
Proof.
  unfold json_object_size. rewrite (is_object_at p tb 1 h Hp Hcell). cbn [mbind res_bind negb]. rewrite (to_object_at p tb 1 h Hcell). cbn [mbind res_bind].
  by rewrite (size_law tb _ Hmem).
Qed.

Lemma object_rest_puts : al <> [] -> puts h (items flags d (member_text (d + 1) <$> in_order)) (object_rest (head its)).
Proof.
  intros Hne. pose proof in_order_length as Hms. pose proof object_size_at as Hsz. pose proof shown_keys as Hks. unfold in_order in *.
  destruct (flag flags JSON_SORT_KEYS) eqn:Es.
  - apply puts_short. intros Hshort. assert (Hsize : (length al <= limit)%nat).
    { etrans; [| exact Hshort]. rewrite <- Hms, <- (length_fmap (member_text (d + 1))). apply items_length. apply Forall_fmap, Forall_true. intros x. by unfold member_text, print_string. }
    assert (Hnz : length al <> O) by (by destruct al).
    destruct (alloc (u64 (Z.of_nat (length al) * 8))) eqn:Ea.
    + apply (puts_look _ _ _ (dump_sorted dump f p flags d (merge_sort key_le al.*1))).
      { intros s. unfold object_rest. cbn [snd]. rewrite Hsz, Es. cbn [mbind res_bind]. rewrite jsonp_malloc_some by (done || (rewrite wrap_small by lia; lia)).
        rewrite Nat2Z.id, (collect_keys_spec p tb 1 h Hp Hcell its _ Hits). cbn [mbind res_bind]. by rewrite length_fmap, Z.eqb_refl. }
      rewrite <- Hks, <- sorted_keys. apply (sorted_puts p tb 1 h Hp Hcell f d al); [lia | done |]. apply sort_shown; [by apply (members_keys tb) | done | done].
    + apply puts_oom; [by eapply Hoom |]. intros s. unfold object_rest. cbn [snd]. rewrite Hsz, Es. cbn [mbind res_bind]. by rewrite jsonp_malloc_none.
  - apply (puts_look _ _ _ (dump_members dump f (S (length al)) p flags d (head its))).
    { intros s. unfold object_rest. cbn [snd]. rewrite Hsz, Es. cbn [mbind res_bind]. by rewrite Nat2Z.id. }
    by apply (members_puts p tb 1 h Hp Hcell f d its al); [lia | |].
Qed.

Lemma object_body_puts :
  puts h (123 :: inside flags d (member_text (d + 1) <$> in_order)) (dump_object dump alloc f p flags d).
Proof.
  destruct (iterators_members _ _ _ Hits) as [_ Hil]. pose proof in_order_length as Hms.
  apply (puts_look _ _ _ (fun st => unless_error (dump_h dump [123] st) (fun st =>
    match head its with None => Ok (0, st) | Some _ => unless_error (dump_indent (dump_h dump) flags (d + 1) false st) (object_rest (head its)) end))).
  { intros s. unfold dump_object, json_object_iter. cbn [snd]. rewrite (is_object_at p tb 1 h Hp Hcell). cbn [mbind res_bind negb].
    rewrite (to_object_at p tb 1 h Hcell). cbn [mbind res_bind]. rewrite (iter_law tb its _ Hits). cbn [mbind res_bind]. by destruct its. }
  apply (puts_then oom limit (at_heap h) [123]); [apply sink_h |].
  destruct (head its) as [i |] eqn:Eh.
  2:{ assert (Ei : its = []) by (by destruct its). rewrite Ei in Hil. destruct in_order; [apply puts_nil | cbn in *; lia]. }
  assert (Hne : al <> []) by (intros E; rewrite E in Hil; by destruct its). rewrite <- Eh.
  assert (Ho : in_order <> []) by (intros E; rewrite E in Hms; by destruct al).
  replace (inside flags d (member_text (d + 1) <$> in_order))
    with (indent flags (d + 1) false ++ items flags d (member_text (d + 1) <$> in_order)) by (by destruct in_order).
  apply puts_then; [apply dump_indent_puts; [apply sink_h | lia] |]. by apply object_rest_puts.
Qed.
End object_body.

Lemma object_dumped p tb ks ps ts m : p <> NULL -> members tb (zip ks ps) -> length ks = length ps -> owns ps ts m -> m !! p = None ->
  all_dumped ps ts m -> dumped p (TObject (zip ks ts)) (<[p := MkJson 1 (JSON_OBJECT tb 0)]> m).
Proof.
  intros Hp Hmem Hl Hos Hmp IH Hpr c k d fuel Hdc Hst Hf Hd Hdd. assert (Hlen : length ps = length ts) by by eapply owns_length.
  destruct fuel as [| fuel]; [cbn in Hf; lia |]. cbn [depth] in Hf, Hdd. rewrite depth_members in Hf, Hdd by lia.
  cbn [arranged print]. unfold enclosed. rewrite app_comm_cons. set (f := do_dump dump alloc fuel flags (d + 1)).
  set (ms := (fun m => (m.1, arranged flags m.2)) <$> zip ks ts).
  apply (container_dumped (JSON_OBJECT tb) p m c k fuel d _ [125] (dump_object dump alloc f p flags d)); [constructor | done | |].
  { intros s. cbn [do_dump]. rewrite (proj2 (Z.eqb_neq p NULL) Hp). unfold cell. cbn [snd cells]. by rewrite lookup_insert_eq. }
  set (cl := MkJson 1 (JSON_OBJECT tb 1)). set (h := MkHeap (<[p := cl]> (m ∪ c)) k).
  assert (Hc : cells h !! p = Some cl) by apply lookup_insert_eq. apply map_disjoint_insert_l in Hdc as [Hpc Hdc].
  destruct (iterators_law tb _ Hmem) as [its Hits].
  assert (Hsh : shown_members h d f (zip ks ps) ms).
  { destruct (printable_parts ks ts) as [Hpt Hu]; [lia | done |]. apply zip_shown; [done | done |].
    assert (Hh : h = MkHeap (m ∪ <[p := cl]> c) k) by (unfold h; by rewrite insert_union_r).
    rewrite Hh. apply (IH Hpt (<[p := cl]> c) k (d + 1) fuel); [by apply map_disjoint_insert_r_2 | by apply statics_in_insert | lia | apply below_depth; lia]. }
  apply (object_body_puts p tb h Hp Hc (zip ks ps) Hmem its Hits f d ltac:(lia) ms Hsh).
  apply Forall_forall. intros [k' q] Hin. apply elem_of_zip_r in Hin. by eapply owns_nonnull.
Qed.

(** Every tree is printed. *)
Lemma tree_dumped : (forall p t m, own p t m -> dumped p t m) /\ (forall ps ts m, owns ps ts m -> all_dumped ps ts m).
Proof.
  apply own_owns_ind.
  - apply (constant_dumped _ JSON_TRUE _ (chars "true")); [done | done | set_solver | done].
  - apply (constant_dumped _ JSON_FALSE _ (chars "false")); [done | done | set_solver | done].
  - apply (constant_dumped _ JSON_NULL _ (chars "null")); [done | done | set_solver | done].
  - intros. by apply string_dumped.
  - intros. by apply integer_dumped.
  - intros. by apply real_dumped.
  - intros. by eapply array_dumped.
  - intros. by eapply object_dumped.
  - intros _ c k d fuel _ _ _ _. constructor.
  - intros p ps t ts m1 m2 Ho IHo Hos IHos Hd12 Hpr c k d fuel Hd Hst Hdp Hall. apply Forall_cons in Hpr as [Hpt Hpts]. apply Forall_cons in Hall as [[Hf Hdt] Hall].
    apply map_disjoint_union_l in Hd as [D1 D2]. constructor.
    + rewrite <- (assoc_L (∪)). apply IHo; try done; [by apply map_disjoint_union_r | by apply statics_in_union].
    + rewrite (map_union_comm m1 m2), <- (assoc_L (∪)) by done. apply IHos; try done; [apply map_disjoint_union_r; split; [by apply map_disjoint_sym | done] | by apply statics_in_union].
Qed.
End values.
