(* ===== verification/JsonRound.v ===== *)
(** * Printing and loading

    What [JsonDump] prints is a text that [JsonText] reads back: the printed text of a tree denotes the tree, with the
    members of its objects in the order in which they were printed.  So [json_loads] of what [json_dumps] returns makes
    the tree again. *)

From Stdlib Require Import SpecFloat.
From stdpp Require Import sorting.
From S2P Require Import Prelude Utf Strbuf ObjectTable Hashtable Json JsonTree JsonLex JsonLoad JsonText JsonStream JsonToken JsonParse JsonRead JsonDump JsonPrint.

(** ** Texts *)

(** A text that the loaders take: UTF-8 without NUL. *)
Definition clean (s : list Z) : Prop := is_utf8 s /\ Forall (fun b => b <> 0) s.

Notation plain := (Forall (fun c => 0 < c < 0x80)).

Lemma clean_app s1 s2 : clean s1 -> clean s2 -> clean (s1 ++ s2).
Proof. intros [H1 H2] [H3 H4]. split; [by apply is_utf8_app | by apply Forall_app]. Qed.

Lemma plain_clean s : plain s -> clean s.
Proof.
  intros H. split; [| eapply Forall_impl; [exact H |]; cbv beta; lia]. rewrite <- (app_nil_r s).
  apply is_utf8_app_ascii; [| apply is_utf8_nil]. eapply Forall_impl; [exact H |]. cbv beta. lia.
Qed.

Lemma clean_nil : clean [].
Proof. by apply plain_clean. Qed.

Lemma clean_one c : 0 < c < 0x80 -> clean [c].
Proof. intros H. apply plain_clean. by constructor. Qed.

Lemma encoding_clean c : scalar c -> c <> 0 -> clean (encoding c).
Proof.
  intros Hc Hz. split; [rewrite <- (app_nil_r (encoding c)); apply is_utf8_cons; [done | apply is_utf8_nil] |].
  eapply Forall_impl; [by apply encoding_range |]. cbv beta. lia.
Qed.

(** *** Hexadecimal digits *)

Lemma hex_char_spec n : 0 <= n < 16 -> l_isxdigit (hex_char n) = true /\ hex_value (hex_char n) = n.
Proof.
  intros H. assert (E : exists i, (i < 16)%nat /\ n = Z.of_nat i) by (exists (Z.to_nat n); lia). destruct E as (i & Hi & ->).
  do 16 (destruct i as [| i]; [by vm_compute |]). lia.
Qed.

Lemma nibble v k : 0 <= v < 65536 -> 0 <= k -> Z.land (Z.shiftr v k) 0xF = v / 2 ^ k mod 16.
Proof. intros Hv Hk. change 0xF with (Z.ones 4). by rewrite Z.land_ones, Z.shiftr_div_pow2 by lia. Qed.

Lemma hex_text_spec v : 0 <= v < 65536 -> exists a b c d, hex_text v = [a; b; c; d] /\ hex4 a b c d = v /\
  l_isxdigit a = true /\ l_isxdigit b = true /\ l_isxdigit c = true /\ l_isxdigit d = true.
Proof.
  intros Hv. unfold hex_text. rewrite !nibble by lia. change (Z.land v 0xF) with (Z.land v (Z.ones 4)). rewrite Z.land_ones by lia.
  assert (M : forall x, 0 <= x mod 16 < 16) by (intros; by apply Z.mod_pos_bound). eexists _, _, _, _. split; [done |].
  destruct (hex_char_spec _ (M (v / 2 ^ 12))) as [A1 A2]. destruct (hex_char_spec _ (M (v / 2 ^ 8))) as [B1 B2].
  destruct (hex_char_spec _ (M (v / 2 ^ 4))) as [C1 C2]. change (2 ^ 4) with 16 in *. destruct (hex_char_spec _ (M v)) as [D1 D2].
  split; [| done]. unfold hex4. rewrite A2, B2, C2, D2. clear -Hv. change (2 ^ 12) with 4096. change (2 ^ 8) with 256. Z.to_euclidean_division_equations. lia.
Qed.

(** ** Strings *)

(** The piece of a string's text that stands for the code point. *)
Definition denotes (c : Z) (piece : list Z) : Prop :=
  clean piece /\ forall w, escaped w -> escaped (piece ++ w) /\ text_value (piece ++ w) = app (encoding c) <$> text_value w.

Lemma denotes_simple c e : simple_escape e = true -> unescaped e = c -> 0 <= c < 0x80 -> denotes c [92; e].
Proof.
  intros He Hu Hc. assert (Hr : 0 < e < 0x80 /\ e <> 117) by (unfold simple_escape in He; lia). split; [apply plain_clean; repeat constructor; lia |].
  intros w Hw. split; [by constructor |]. cbn [app text_value Z.eqb Pos.eqb]. rewrite (proj2 (Z.eqb_neq e 117)) by lia. by rewrite Hu, encoding_ascii by lia.
Qed.

Lemma xdigit_plain c : l_isxdigit c = true -> 0 < c < 0x80.
Proof. unfold l_isxdigit, l_isdigit. lia. Qed.

Lemma unicode_plain a b c d : l_isxdigit a = true -> l_isxdigit b = true -> l_isxdigit c = true -> l_isxdigit d = true -> plain [92; 117; a; b; c; d].
Proof. intros Ha Hb Hc Hd. repeat apply Forall_cons_2; [lia | lia | by apply xdigit_plain .. | constructor]. Qed.

Lemma denotes_bmp c : scalar c -> c < 0x10000 -> denotes c ([92; 117] ++ hex_text c).
Proof.
  intros Hc Hr. destruct (hex_text_spec c) as (a1 & a2 & a3 & a4 & -> & Hv & H1 & H2 & H3 & H4); [unfold scalar in Hc; lia |].
  split; [by apply plain_clean, unicode_plain |]. intros w Hw. cbn [app]. split; [by constructor |]. cbn [text_value Z.eqb Pos.eqb]. rewrite Hv.
  assert (high_surrogate c = false /\ low_surrogate c = false) as [-> ->] by (unfold high_surrogate, low_surrogate, scalar in *; lia). done.
Qed.

Lemma surrogate_bits c : 0x10000 <= c <= 0x10FFFF ->
  Z.lor 0xD800 (Z.shiftr (Z.land (c - 0x10000) 0xffc00) 10) = 0xD800 + (c - 0x10000) / 1024 /\
  Z.lor 0xDC00 (Z.land (c - 0x10000) 0x003ff) = 0xDC00 + (c - 0x10000) mod 1024.
Proof.
  intros Hc. pose proof (land_run (c - 0x10000) 10 10 ltac:(lia) ltac:(lia)) as R. change (Z.shiftl (Z.ones 10) 10) with 0xffc00 in R. rewrite R.
  change (Z.land (c - 0x10000) 0x003ff) with (Z.land (c - 0x10000) (Z.ones 10)). rewrite Z.land_ones by lia. change (2 ^ 10) with 1024.
  assert (G : forall b x, 0 <= x < 1024 -> Z.lor (b * 1024) x = b * 1024 + x).
  { intros b x Hx. rewrite <- Z.add_nocarry_lor; [done |]. apply Z.bits_inj'. intros i Hi. rewrite Z.land_spec, Z.bits_0.
    change 1024 with (2 ^ 10) in *. rewrite <- Z.shiftl_mul_pow2 by lia. destruct (Z.ltb_spec i 10).
    - by rewrite Z.shiftl_spec_low by lia.
    - rewrite <- (Z.mod_small x (2 ^ 10)) by lia. rewrite Z.mod_pow2_bits_high by lia. by rewrite andb_false_r. }
  pose proof (G 54 ((c - 0x10000) / 1024 mod 1024)) as G1. pose proof (G 55 ((c - 0x10000) mod 1024)) as G2.
  change (54 * 1024) with 0xD800 in G1. change (55 * 1024) with 0xDC00 in G2.
  assert (M : 0 <= (c - 0x10000) / 1024 < 1024) by (Z.to_euclidean_division_equations; lia).
  rewrite (Z.mod_small ((c - 0x10000) / 1024)) in * by done. split; [by apply G1 | apply G2; by apply Z.mod_pos_bound].
Qed.

Lemma denotes_pair c : 0x10000 <= c <= 0x10FFFF -> denotes c (escape_text c).
Proof.
  intros Hc. unfold escape_text. repeat rewrite (proj2 (Z.eqb_neq c _)) by lia. rewrite (proj2 (Z.ltb_ge c _)) by lia. cbv zeta.
  destruct (surrogate_bits c Hc) as [-> ->]. set (hi := (c - 0x10000) / 1024). set (lo := (c - 0x10000) mod 1024).
  assert (Hhi : 0 <= hi < 1024) by (unfold hi; Z.to_euclidean_division_equations; lia). assert (Hlo : 0 <= lo < 1024) by (by apply Z.mod_pos_bound).
  assert (E : c = 0x10000 + hi * 1024 + lo) by (unfold hi, lo; Z.to_euclidean_division_equations; lia). clearbody hi lo.
  destruct (hex_text_spec (0xD800 + hi)) as (a1 & a2 & a3 & a4 & -> & Hv & H1 & H2 & H3 & H4); [lia |].
  destruct (hex_text_spec (0xDC00 + lo)) as (b1 & b2 & b3 & b4 & -> & Hw & I1 & I2 & I3 & I4); [lia |]. cbn [app].
  split; [apply plain_clean; apply (Forall_app_2 _ [92; 117; a1; a2; a3; a4]); by apply unicode_plain |].
  intros w Hes. split; [by repeat constructor |]. cbn [app text_value Z.eqb Pos.eqb]. rewrite Hv, Hw.
  assert (high_surrogate (0xD800 + hi) = true /\ low_surrogate (0xDC00 + lo) = true) as [-> ->] by (unfold high_surrogate, low_surrogate; lia). cbn [andb].
  do 3 f_equal. lia.
Qed.

Lemma escape_denotes c : scalar c -> c = 92 \/ c = 34 \/ c < 0x20 \/ c = 47 \/ c > 0x7F -> denotes c (escape_text c).
Proof.
  intros Hc H. destruct (Z.ltb_spec c 0x10000) as [Hb |]; [| apply denotes_pair; unfold scalar in Hc; lia]. unfold escape_text.
  repeat match goal with |- denotes _ (if c =? ?k then _ else _) => destruct (Z.eqb_spec c k) as [-> | ?]; [by apply denotes_simple |] end.
  rewrite (proj2 (Z.ltb_lt c _)) by lia. by apply denotes_bmp.
Qed.

Lemma plain_denotes c : scalar c -> c <> 92 -> c <> 34 -> 0x20 <= c -> denotes c (encoding c).
Proof.
  intros Hc H1 H2 H3. split; [apply encoding_clean; [done | lia] |]. intros w Hw. split.
  - assert (Hr : Forall (fun b => b <> 34 /\ b <> 92 /\ 0x1F < b) (encoding c)) by (eapply Forall_impl; [by apply encoding_range |]; cbv beta; lia).
    induction Hr as [| b l (B1 & B2 & B3) Hl IH]; [done |]. by constructor.
  - apply text_value_copy. by apply encoding_no_backslash.
Qed.

Lemma print_char_denotes flags c : scalar c -> denotes c (print_char flags c).
Proof.
  intros Hc. unfold print_char. destruct (must_escape flags c) eqn:E; unfold must_escape in E.
  - apply escape_denotes; [done |]. destruct (flag flags JSON_ESCAPE_SLASH), (flag flags JSON_ENSURE_ASCII); cbn [andb] in E; lia.
  - apply plain_denotes; [done | lia..].
Qed.

Lemma string_body flags cs : Forall scalar cs ->
  clean (concat (print_char flags <$> cs)) /\ escaped (concat (print_char flags <$> cs)) /\
  text_value (concat (print_char flags <$> cs)) = Some (concat (map encoding cs)).
Proof.
  induction 1 as [| c cs Hc Hcs (IH1 & IH2 & IH3)]; [split_and!; [by apply plain_clean | constructor | done] |].
  cbn [fmap list_fmap concat map]. destruct (print_char_denotes flags c Hc) as [D1 D2]. destruct (D2 _ IH2) as [D3 D4].
  split_and!; [by apply clean_app | done |]. rewrite D4. by rewrite IH3.
Qed.

Lemma print_string_clean flags s : is_utf8 s -> clean (print_string flags s).
Proof.
  intros (cs & Hcs & ->). rewrite print_string_encoding by done. apply (clean_app [34]); [by apply plain_clean; repeat constructor |].
  apply clean_app; [by apply string_body | by apply plain_clean; repeat constructor].
Qed.

(** A printed string is read back. *)
Lemma print_string_read flags s q : is_utf8 s -> exists r, print_string flags s ++ q = 34 :: r /\ string_token r = (KString s, q).
Proof.
  intros (cs & Hcs & ->). rewrite print_string_encoding by done. exists (concat (print_char flags <$> cs) ++ 34 :: q).
  split; [cbn [app]; by rewrite <- app_assoc |]. destruct (string_body flags cs Hcs) as (_ & He & Hv).
  unfold string_token. rewrite string_end_escaped by done. by rewrite Hv.
Qed.

(** ** Numbers *)

Lemma number_of_snoc d c : number_of (d ++ [c]) = 10 * number_of d + (c - 48).
Proof. unfold number_of. by rewrite fold_left_app. Qed.

Lemma digits_number fuel : forall n acc, 0 <= n < 10 ^ Z.of_nat (S fuel) ->
  exists c x, digits (S fuel) n acc = (c :: x) ++ acc /\ all_digits (c :: x) /\ number_of (c :: x) = n /\ (c = 48 -> x = []).
Proof.
  induction fuel as [| fuel IH]; intros n acc Hn; cbn [digits]; (destruct (Z.ltb_spec n 10) as [Hs | Hs]; [| try (change (10 ^ Z.of_nat 1) with 10 in Hn; lia)]).
  1, 2: rewrite Z.mod_small by lia; exists (48 + n), []; split_and!; [done | repeat constructor; unfold l_isdigit; lia | unfold number_of; cbn; lia | done].
  - rewrite Nat2Z.inj_succ, Z.pow_succ_r in Hn by lia. pose proof (Z.div_lt_upper_bound n 10 (10 ^ Z.of_nat (S fuel)) ltac:(lia) ltac:(lia)).
    pose proof (Z.div_le_lower_bound n 10 1 ltac:(lia) ltac:(lia)). pose proof (Z.mod_pos_bound n 10 ltac:(lia)). pose proof (Z.div_mod n 10 ltac:(lia)).
    destruct (IH (n / 10) ((48 + n mod 10) :: acc) ltac:(lia)) as (c & x & E & Hd & Hnum & Hz).
    cbn [digits] in E. rewrite E. exists c, (x ++ [48 + n mod 10]). split_and!.
    + cbn [app]. by rewrite <- app_assoc.
    + apply (Forall_app_2 _ (c :: x)); [done |]. repeat constructor. unfold l_isdigit. lia.
    + rewrite (app_comm_cons x), number_of_snoc, Hnum. lia.
    + intros ->. rewrite (Hz eq_refl) in Hnum. unfold number_of in Hnum. cbn in Hnum. lia.
Qed.

(** What may stand behind a value. *)
Definition stops (q : list Z) : Prop := hd 0 q ∈ [0; 10; 32; 44; 93; 125].

Lemma stops_digit q : stops q -> l_isdigit (hd 0 q) = false /\ l_isalpha (hd 0 q) = false /\ hd 0 q <> 46 /\ hd 0 q <> 69 /\ hd 0 q <> 101.
Proof. unfold stops. rewrite !elem_of_cons. intros [-> | [-> | [-> | [-> | [-> | [-> | H]]]]]]; [done.. | inversion H]. Qed.

Lemma signed_digits d : all_digits d -> d <> [] -> signed d = (false, d).
Proof. destruct d as [| c d]; [done |]. intros Hd _. apply Forall_cons in Hd as [Hc _]. by apply signed_digit. Qed.

Lemma strtoll_number (sg : list Z) d : (sg = [] \/ sg = [45]) -> all_digits d -> d <> [] ->
  let n := if decide (sg = []) then number_of d else - number_of d in
  LLONG_MIN <= n <= LLONG_MAX -> exists len, strtoll (sg ++ d) = (n, len, false).
Proof.
  intros Hsg Hd Hne n Hn. assert (E : signed (sg ++ d) = (bool_decide (sg <> []), d)).
  { destruct Hsg as [-> | ->]; [by apply signed_digits | done]. }
  unfold strtoll. rewrite E. pose proof (digits_all d [] Hd eq_refl) as Ed. rewrite app_nil_r in Ed. rewrite Ed. rewrite decide_False by done.
  assert (En : (if bool_decide (sg <> []) then - number_of d else number_of d) = n) by (unfold n; by destruct Hsg as [-> | ->]).
  cbv zeta. rewrite En. eexists. f_equal; [f_equal; lia |].
  rewrite (proj2 (Z.ltb_ge _ _)) by lia. rewrite Z.gtb_ltb, (proj2 (Z.ltb_ge _ _)) by lia. done.
Qed.

Lemma dec_read n q : LLONG_MIN <= n <= LLONG_MAX -> stops q ->
  plain (dec n) /\ number_token false (dec n ++ q) = (KInteger n, q) /\ exists c r, dec n = c :: r /\ (l_isdigit c || (c =? 45)) = true.
Proof.
  intros Hn Hq. unfold LLONG_MIN, LLONG_MAX in Hn. destruct (stops_digit q Hq) as (Q1 & Q2 & Q3 & Q4 & Q5).
  destruct (digits_number 24 (Z.abs n) []) as (c & x & E & Hd & Hv & Hz); [cbn; lia |]. rewrite app_nil_r in E.
  set (sg := if n <? 0 then [45] else [] : list Z). assert (Ed : dec n = sg ++ c :: x).
  { unfold dec, sg. destruct (Z.ltb_spec n 0); [by rewrite <- E, Z.abs_neq by lia | by rewrite <- E, Z.abs_eq by lia]. }
  assert (Hsg : sg = [] \/ sg = [45]) by (unfold sg; destruct (n <? 0); auto). pose proof (Forall_inv Hd) as Hc.
  rewrite Ed. split_and!.
  - apply Forall_app. split; [destruct Hsg as [-> | ->]; repeat constructor; lia |]. eapply Forall_impl; [exact Hd |]. unfold l_isdigit. cbv beta. lia.
  - unfold number_token. rewrite <- app_assoc. assert (Em : minus_part (sg ++ (c :: x) ++ q) = (sg, (c :: x) ++ q)).
    { destruct Hsg as [-> | ->]; [| done]. cbn [app minus_part]. destruct (Z.eqb_spec c 45) as [-> |]; [by unfold l_isdigit in Hc | done]. }
    rewrite Em. assert (Ei : int_part ((c :: x) ++ q) = Some (c :: x, q)).
    { cbn [app int_part]. destruct (Z.eqb_spec c 48) as [-> |]; [rewrite (Hz eq_refl); cbn [app]; by rewrite Q1 |]. rewrite Hc.
      apply Forall_cons in Hd as [_ Hd]. by rewrite digits_all. }
    rewrite Ei. rewrite (proj2 (Z.eqb_neq _ _) Q3), (proj2 (Z.eqb_neq _ _) Q4), (proj2 (Z.eqb_neq _ _) Q5). cbn [negb andb].
    destruct (strtoll_number sg (c :: x) Hsg Hd ltac:(done)) as [len ->].
    + rewrite Hv. unfold sg, LLONG_MIN, LLONG_MAX. destruct (Z.ltb_spec n 0); case_decide; (done || lia).
    + f_equal. f_equal. rewrite Hv. unfold sg. destruct (Z.ltb_spec n 0); case_decide; (done || lia).
  - destruct Hsg as [-> | ->]; [exists c, x; by rewrite Hc | by eexists _, _].
Qed.

(** A number ends where something else begins. *)
Lemma digits_of_app s d r q : digits_of s = (d, r) -> l_isdigit (hd 0 q) = false -> digits_of (s ++ q) = (d, r ++ q).
Proof.
  intros E Hq. apply digits_spec in E as (-> & Hd & Hr). rewrite <- app_assoc. apply digits_all; [done |]. by destruct r.
Qed.

Lemma hd_app (r q : list Z) : r <> [] -> hd 0 (r ++ q) = hd 0 r.
Proof. by destruct r. Qed.

Lemma int_part_app s i r q : int_part s = Some (i, r) -> l_isdigit (hd 0 q) = false -> int_part (s ++ q) = Some (i, r ++ q).
Proof.
  destruct s as [| c s]; [done |]. cbn [app int_part]. intros H Hq. destruct (c =? 48).
  - destruct (l_isdigit (hd 0 s)) eqn:E; [done |]. injection H as <- <-. assert (l_isdigit (hd 0 (s ++ q)) = false) as -> by (by destruct s). done.
  - destruct (l_isdigit c); [| done]. destruct (digits_of s) as [d r'] eqn:E. injection H as <- <-. by rewrite (digits_of_app _ _ _ _ E).
Qed.

Lemma frac_part_app s f r q : frac_part s = Some (f, r) -> l_isdigit (hd 0 q) = false -> hd 0 q <> 46 -> frac_part (s ++ q) = Some (f, r ++ q).
Proof.
  intros H Hq H46. destruct s as [| c s]; cbn [app frac_part] in *.
  - injection H as <- <-. destruct q as [| c q]; [done |]. cbn [frac_part hd] in *. by rewrite (proj2 (Z.eqb_neq c 46) H46).
  - destruct (c =? 46); [| by injection H as <- <-]. destruct (l_isdigit (hd 0 s)) eqn:E; [| done].
    assert (l_isdigit (hd 0 (s ++ q)) = true) as -> by (by destruct s). destruct (digits_of s) as [d r'] eqn:Ed. injection H as <- <-. by rewrite (digits_of_app _ _ _ _ Ed).
Qed.

Lemma exp_part_app s e r q : exp_part s = Some (e, r) -> l_isdigit (hd 0 q) = false -> hd 0 q <> 69 -> hd 0 q <> 101 -> exp_part (s ++ q) = Some (e, r ++ q).
Proof.
  intros H Hq H1 H2. destruct s as [| c s]; cbn [app exp_part] in *.
  - injection H as <- <-. destruct q as [| c q]; [done |]. cbn [exp_part hd] in *. by rewrite (proj2 (Z.eqb_neq c 69) H1), (proj2 (Z.eqb_neq c 101) H2).
  - destruct ((c =? 69) || (c =? 101)); [| by injection H as <- <-]. destruct s as [| x s]; [done |]. cbn [app].
    destruct ((x =? 43) || (x =? 45)).
    + destruct (l_isdigit (hd 0 s)) eqn:E; [| done]. assert (l_isdigit (hd 0 (s ++ q)) = true) as -> by (by destruct s).
      destruct (digits_of s) as [d r'] eqn:Ed. injection H as <- <-. by rewrite (digits_of_app _ _ _ _ Ed).
    + cbn [hd] in *. destruct (l_isdigit x) eqn:E; [| done]. destruct (digits_of (x :: s)) as [d r'] eqn:Ed. injection H as <- <-.
      pose proof (digits_of_app _ _ _ q Ed Hq) as Ea. cbn [app] in Ea. by rewrite Ea.
Qed.

Lemma real_read text x q : number_token false text = (KReal x, []) -> stops q ->
  number_token false (text ++ q) = (KReal x, q) /\ exists c r, text = c :: r /\ (l_isdigit c || (c =? 45)) = true.
Proof.
  intros H Hq. destruct (stops_digit q Hq) as (Q1 & Q2 & Q3 & Q4 & Q5). unfold number_token in *.
  destruct (minus_part text) as [sg r] eqn:Em. destruct (int_part r) as [[i r2] |] eqn:Ei; [| done].
  assert (Hr : exists c r', r = c :: r' /\ l_isdigit c = true).
  { destruct r as [| c r']; [done |]. exists c, r'. split; [done |]. cbn [int_part] in Ei. destruct (Z.eqb_spec c 48) as [-> |]; [done |]. by destruct (l_isdigit c). }
  assert (Em' : minus_part (text ++ q) = (sg, r ++ q)).
  { destruct text as [| c text]; [injection Em as <- <-; destruct Hr as (? & ? & ? & _); done |]. cbn [app minus_part] in *. destruct (c =? 45); by injection Em as <- <-. }
  rewrite Em', (int_part_app _ _ _ _ Ei Q1). split.
  - assert (Hr2 : r2 <> []) by (intros ->; cbn [hd] in H; cbn in H; destruct (strtoll (sg ++ i)) as [[? ?] []]; done). rewrite hd_app by done.
    destruct (_ && _); [destruct (strtoll (sg ++ i)) as [[? ?] []]; done |].
    destruct (frac_part r2) as [[f r3] |] eqn:Ef; [| done]. rewrite (frac_part_app _ _ _ _ Ef Q1 Q3).
    destruct (exp_part r3) as [[e r4] |] eqn:Ee; [| done]. rewrite (exp_part_app _ _ _ _ Ee Q1 Q4 Q5).
    destruct (isinf _); [done |]. by injection H as -> ->.
  - apply minus_part_spec in Em as [-> [-> | ->]]; [| by eexists _, _]. destruct Hr as (c & r' & -> & Hc). exists c, r'. by rewrite Hc.
Qed.

(** ** Reading back *)

Lemma skip_blank_app w s : Forall (fun c => is_blank c = true) w -> skip_blank (w ++ s) = skip_blank s.
Proof. induction 1 as [| c w Hc Hw IH]; [done |]. cbn [app skip_blank]. by rewrite Hc. Qed.

Lemma alphas_all w q : Forall (fun c => l_isalpha c = true) w -> l_isalpha (hd 0 q) = false -> alphas (w ++ q) = (w, q).
Proof.
  intros Hw Hq. induction Hw as [| c w Hc Hw IH]; cbn [app alphas]; [| by rewrite Hc, IH].
  destruct q as [| c q]; [done |]. cbn [hd] in Hq. cbn [alphas]. by rewrite Hq.
Qed.

Section reading.
Context (flags pflags : Z) (Hint : flag flags JSON_DECODE_INT_AS_REAL = false).
#[local] Abbreviation next_token := (next_token flags true).
#[local] Abbreviation read_value := (read_value flags true).
#[local] Abbreviation read_members := (read_members flags true).
#[local] Abbreviation read_elements := (read_elements flags true).

(** More fuel changes nothing. *)
Lemma read_mono fuel :
  (forall d k s o fuel', read_value fuel d k s = Ok o -> (fuel <= fuel')%nat -> read_value fuel' d k s = Ok o) /\
  (forall d ms k s o fuel', read_members fuel d ms k s = Ok o -> (fuel <= fuel')%nat -> read_members fuel' d ms k s = Ok o) /\
  (forall d ts k s o fuel', read_elements fuel d ts k s = Ok o -> (fuel <= fuel')%nat -> read_elements fuel' d ts k s = Ok o).
Proof.
  induction fuel as [| fuel (IHv & IHm & IHe)]; [split_and!; intros; discriminate |]. split_and!.
  - intros d k s o [| fuel'] H Hf; [lia |]. simpl in *. destruct (_ >? _); [done |]. destruct k; try done.
    destruct (next_token s) as [k r]. destruct (_ =? 123); [destruct (is_tok _ _); [done | apply IHm; [done | lia]] |].
    destruct (_ =? 91); [destruct (is_tok _ _); [done | apply IHe; [done | lia]] | done].
  - intros d ms k s o [| fuel'] H Hf; [lia |]. simpl in *. destruct k; try done. destruct (bool_decide _); [done |]. destruct (_ && _); [done |].
    destruct (next_token s) as [k1 s1]. destruct (negb _); [done |]. destruct (next_token s1) as [k2 s2].
    destruct (read_value fuel d k2 s2) as [v | |] eqn:E; cbn [mbind res_bind] in H; try discriminate H. rewrite (IHv _ _ _ _ fuel' E) by lia. cbn [mbind res_bind].
    destruct v as [[t s3] |]; [| done]. destruct (next_token s3) as [k3 s4]. destruct (is_tok 44 k3); [| done].
    destruct (next_token s4) as [k5 s5]. apply IHm; [done | lia].
  - intros d ts k s o [| fuel'] H Hf; [lia |]. simpl in *.
    assert (G : forall m m' : res (option (json * list Z)), (m = Ok o -> m' = Ok o) -> match k with KEnd => Ok None | _ => m end = Ok o -> match k with KEnd => Ok None | _ => m' end = Ok o)
      by (intros m m' Hm; destruct k; auto).
    revert H. apply G. intros H.
    destruct (read_value fuel d k s) as [v | |] eqn:E; cbn [mbind res_bind] in H; try discriminate H. rewrite (IHv _ _ _ _ fuel' E) by lia. cbn [mbind res_bind].
    destruct v as [[t s3] |]; [| done]. destruct (next_token s3) as [k3 s4]. destruct (is_tok 44 k3); [| done].
    destruct (next_token s4) as [k5 s5]. apply IHe; [done | lia].
Qed.

(** The text [s] starts with a value of the tree [t], and [q] is behind it. *)
Definition reads (d : Z) (s : list Z) (t : json) (q : list Z) : Prop :=
  exists k r, next_token s = (k, r) /\ exists fuel, read_value fuel d k r = Ok (Some (t, q)).

(** What can be read back: what can be printed, with reals whose text denotes them, and NUL in strings when it is allowed. *)
Inductive readable : json -> Prop :=
| readable_object ms : NoDup ms.*1 -> Forall (fun m => (is_utf8 m.1 /\ 0 ∉ m.1) /\ readable m.2) ms -> readable (TObject ms)
| readable_array ts : Forall readable ts -> readable (TArray ts)
| readable_string s : is_utf8 s -> flag flags JSON_ALLOW_NUL = true \/ 0 ∉ s -> readable (TString s)
| readable_integer n : LLONG_MIN <= n <= LLONG_MAX -> readable (TInteger n)
| readable_real x text : real_text pflags x = Some text -> plain text -> number_token false text = (KReal x, []) -> isnan x || isinf x = false -> readable (TReal x)
| readable_true : readable TTrue
| readable_false : readable TFalse
| readable_null : readable TNull.

Lemma readable_printable t : readable t -> printable pflags t.
Proof.
  induction t as [ms IH | ts IH | s | n | x | | |] using json_tree_ind; intros H; inversion H as [ms' Hn Hms | ts' Hts | | | x' text Ht | | |]; subst; try by constructor.
  - constructor; [done |]. rewrite Forall_forall in *. intros m Hm. destruct (Hms m Hm). split; [done |]. by apply IH.
  - constructor. rewrite Forall_forall in *. intros t Ht. apply IH; [done |]. by apply Hts.
Qed.

Lemma next_blank w s : Forall (fun c => is_blank c = true) w -> next_token (w ++ s) = next_token s.
Proof. intros H. unfold JsonText.next_token. by rewrite skip_blank_app. Qed.

Lemma reads_blank w d s t q : Forall (fun c => is_blank c = true) w -> reads d s t q -> reads d (w ++ s) t q.
Proof. intros Hw (k & r & E & H). exists k, r. by rewrite next_blank. Qed.

Lemma next_punct c s : is_punct c = true -> next_token (c :: s) = (KPunct c, s).
Proof.
  intros H. unfold JsonText.next_token. cbn [skip_blank]. assert (is_blank c = false) as -> by (unfold is_punct, is_blank in *; lia). by rewrite H.
Qed.

Lemma next_alpha c r : l_isalpha c = true -> next_token (c :: r) = let '(w, r) := alphas (c :: r) in (word_tok w, r).
Proof.
  intros H. unfold JsonText.next_token. cbn [skip_blank]. unfold l_isalpha, l_isupper, l_islower in H.
  assert (is_blank c = false) as -> by (unfold is_blank; lia). destruct (is_punct c) eqn:E; [unfold is_punct in E; lia |].
  rewrite (proj2 (Z.eqb_neq c 34)) by lia. assert (l_isdigit c || (c =? 45) = false) as -> by (unfold l_isdigit; lia).
  unfold l_isalpha, l_isupper, l_islower. by rewrite H.
Qed.

Lemma next_word w k q : (w, k) ∈ [(chars "true", KTrue); (chars "false", KFalse); (chars "null", KNull)] -> stops q -> next_token (w ++ q) = (k, q).
Proof.
  intros Hw Hq. destruct (stops_digit q Hq) as (_ & Ha & _). rewrite !elem_of_cons in Hw.
  assert (Hc : Forall (fun c => l_isalpha c = true) w /\ word_tok w = k /\ exists c r, w = c :: r).
  { destruct Hw as [[= -> ->] | [[= -> ->] | [[= -> ->] | Hw]]]; [.. | inversion Hw]; (split_and!; [by repeat constructor | done | by eexists _, _]). }
  destruct Hc as (Hal & Hk & c & r & ->). pose proof (alphas_all _ q Hal Ha) as E. cbn [app] in *. rewrite next_alpha by (by apply Forall_inv in Hal).
  rewrite E. by rewrite Hk.
Qed.

Lemma next_number text k q c r : text = c :: r -> (l_isdigit c || (c =? 45)) = true -> number_token false (text ++ q) = (k, q) -> next_token (text ++ q) = (k, q).
Proof.
  intros -> Hc E. unfold JsonText.next_token. cbn [app skip_blank] in *.
  assert (is_blank c = false) as -> by (unfold is_blank, l_isdigit in *; lia). assert (is_punct c = false) as -> by (unfold is_punct, l_isdigit in *; lia).
  rewrite (proj2 (Z.eqb_neq c 34)) by (unfold l_isdigit in Hc; lia). rewrite Hc, Hint. exact E.
Qed.

Lemma next_string s q : is_utf8 s -> next_token (print_string pflags s ++ q) = (KString s, q).
Proof. intros Hs. destruct (print_string_read pflags s q Hs) as (r & -> & E). exact E. Qed.

Lemma reads_leaf d s t q k : d + 1 <= JSON_PARSER_MAX_DEPTH -> next_token s = (k, q) ->
  match k with KString v => flag flags JSON_ALLOW_NUL = true \/ 0 ∉ v | KReal x => isnan x || isinf x = false | _ => True end ->
  match k with KString v => TString v | KInteger n => TInteger n | KReal x => TReal x | KTrue => TTrue | KFalse => TFalse | KNull => TNull | _ => TObject [] end = t ->
  match k with KPunct _ | KEnd | KBad => False | _ => True end -> reads d s t q.
Proof.
  intros Hd E Hk Ht Hno. exists k, q. split; [done |]. exists 1%nat. cbn [JsonText.read_value]. rewrite Z.gtb_ltb, (proj2 (Z.ltb_ge _ _)) by lia.
  destruct k as [| | | v | | x | | |]; try done; subst t; try done.
  - destruct Hk as [-> | Hk]; [done |]. by rewrite bool_decide_false, andb_false_r.
  - by rewrite Hk.
Qed.

(** A value does not begin with a closing bracket. *)
Lemma reads_open d s t q c : c <> 123 -> c <> 91 -> reads d s t q -> exists k r, next_token s = (k, r) /\ is_tok c k = false /\ k <> KEnd /\
  exists fuel, read_value fuel d k r = Ok (Some (t, q)).
Proof.
  intros H1 H2 (k & r & E & fuel & H). exists k, r. split_and!; [done | | | by exists fuel].
  - destruct fuel as [| fuel]; [done |]. destruct k as [| | x | | | | | |]; try done. cbn [is_tok]. apply Z.eqb_neq. intros ->. cbn in H.
    destruct (_ >? _); [done |]. destruct (JsonText.next_token flags true r). by rewrite (proj2 (Z.eqb_neq c 123)), (proj2 (Z.eqb_neq c 91)) in H by done.
  - intros ->. destruct fuel as [| fuel]; [done |]. cbn in H. by destruct (_ >? _).
Qed.

(** *** Containers *)

Lemma indent_blank d space : Forall (fun c => is_blank c = true) (indent pflags d space).
Proof. unfold indent. repeat case_match; repeat constructor. apply Forall_replicate. done. Qed.

(** What is behind an item. *)
Definition behind (d : Z) (xs : list (list Z)) (close : Z) (q : list Z) : list Z :=
  (if bool_decide (xs = []) then indent pflags d false else 44 :: indent pflags (d + 1) true) ++ items pflags d xs ++ close :: q.

Lemma items_behind d x xs close q : items pflags d (x :: xs) ++ close :: q = x ++ behind d xs close q.
Proof. rewrite items_cons. unfold behind. by rewrite <- !app_assoc. Qed.

Lemma behind_stops d xs close q : close = 93 \/ close = 125 -> stops (behind d xs close q).
Proof.
  intros Hc. unfold behind, stops. destruct (bool_decide_reflect (xs = [])) as [-> |]; [| cbn; set_solver].
  cbn [items app]. unfold indent. repeat case_match; cbn; rewrite ?andb_false_l in *; destruct Hc as [-> | ->]; set_solver.
Qed.

Lemma behind_next d xs close q : is_punct close = true ->
  next_token (behind d xs close q) = if bool_decide (xs = []) then (KPunct close, q) else (KPunct 44, indent pflags (d + 1) true ++ items pflags d xs ++ close :: q).
Proof.
  intros Hc. unfold behind. destruct (bool_decide_reflect (xs = [])) as [-> |]; [| cbn [app]; by apply next_punct].
  cbn [items app]. rewrite next_blank by apply indent_blank. by apply next_punct.
Qed.

Lemma elements_read d e f ts : Forall (fun t => forall q, stops q -> reads d (print pflags e t ++ q) t q) ts -> ts <> [] -> forall acc q,
  exists k r, next_token (items pflags f (print pflags e <$> ts) ++ 93 :: q) = (k, r) /\ is_tok 93 k = false /\ k <> KEnd /\
    exists fuel, read_elements fuel d acc k r = Ok (Some (TArray (acc ++ ts), q)).
Proof.
  intros H. induction H as [| t ts Ht Hts IH]; intros Hne acc q; [done |]. cbn [fmap list_fmap]. rewrite items_behind.
  set (xs := print pflags e <$> ts). pose proof (behind_stops f xs 93 q ltac:(auto)) as Hs.
  destruct (reads_open d _ t _ 93 ltac:(done) ltac:(done) (Ht _ Hs)) as (k & r & E & Hk & Hke & fuel1 & H1). exists k, r. split_and!; [done.. |].
  pose proof (behind_next f xs 93 q eq_refl) as En. destruct ts as [| t2 ts].
  - exists (S fuel1). simpl. rewrite H1. cbn [mbind res_bind]. rewrite En. cbn [xs fmap list_fmap]. rewrite bool_decide_true by done. cbn. by destruct k.
  - rewrite bool_decide_false in En by done. destruct (IH ltac:(done) (acc ++ [t]) q) as (k2 & r2 & E2 & _ & _ & fuel2 & H2).
    exists (S (Nat.max fuel1 fuel2)). simpl. rewrite (proj1 (read_mono fuel1) _ _ _ _ (Nat.max fuel1 fuel2) H1) by lia. cbn [mbind res_bind]. rewrite En.
    cbn [is_tok Z.eqb Pos.eqb]. rewrite next_blank by apply indent_blank. fold xs in E2. rewrite E2.
    rewrite (proj2 (proj2 (read_mono fuel2)) _ _ _ _ _ (Nat.max fuel1 fuel2) H2) by lia. rewrite <- app_assoc. by destruct k.
Qed.

Definition mtext (e : Z) (m : list Z * json) : list Z := print_string pflags m.1 ++ colon pflags ++ print pflags e m.2.

Lemma colon_next s : exists w, next_token (colon pflags ++ s) = (KPunct 58, w ++ s) /\ Forall (fun c => is_blank c = true) w.
Proof.
  unfold colon. destruct (flag pflags JSON_COMPACT).
  - exists []. split; [by apply (next_punct 58) | constructor].
  - exists [32]. split; [by apply (next_punct 58 (32 :: s)) | by repeat constructor].
Qed.

Lemma members_read d e f ms : Forall (fun m => (is_utf8 m.1 /\ 0 ∉ m.1) /\ forall q, stops q -> reads d (print pflags e m.2 ++ q) m.2 q) ms -> ms <> [] -> forall acc q,
  NoDup (acc ++ ms).*1 ->
  exists k r, next_token (items pflags f (mtext e <$> ms) ++ 125 :: q) = (k, r) /\ is_tok 125 k = false /\
    exists fuel, read_members fuel d acc k r = Ok (Some (TObject (acc ++ ms), q)).
Proof.
  intros H. induction H as [| [key t] ms [[Hu Hz] Ht] Hms IH]; intros Hne acc q Hnd; [done |]. cbn [fst snd] in *. cbn [fmap list_fmap]. rewrite items_behind.
  set (xs := mtext e <$> ms). pose proof (behind_stops f xs 125 q ltac:(auto)) as Hs. unfold mtext. cbn [fst snd]. rewrite <- !app_assoc.
  eexists _, _. split; [by apply next_string |]. split; [done |].
  destruct (colon_next (print pflags e t ++ behind f xs 125 q)) as (w & Ec & Hw).
  destruct (reads_blank _ d _ t _ Hw (Ht _ Hs)) as (k2 & r2 & E2 & fuel1 & H1).
  assert (Hout : key ∉ acc.*1).
  { rewrite fmap_app, fmap_cons in Hnd. apply NoDup_app in Hnd as (_ & Hd & _). intros Hin. apply (Hd key Hin). cbn. by left. }
  pose proof (behind_next f xs 125 q eq_refl) as En.
  assert (Hstep : forall fuel, (fuel1 <= fuel)%nat -> read_members (S fuel) d acc (KString key) (colon pflags ++ print pflags e t ++ behind f xs 125 q) =
    (let '(k, s) := next_token (behind f xs 125 q) in
     if is_tok 44 k then let '(k, s) := next_token s in read_members fuel d (acc ++ [(key, t)]) k s else Ok (if is_tok 125 k then Some (TObject (acc ++ [(key, t)]), s) else None))).
  { intros fuel Hf. simpl. rewrite bool_decide_false by done. rewrite (bool_decide_false (is_Some (assoc key acc))), andb_false_r by (rewrite assoc_out by done; by intros [? ?]).
    rewrite Ec. cbn [is_tok negb Z.eqb Pos.eqb]. rewrite E2. rewrite (proj1 (read_mono fuel1) _ _ _ _ fuel H1) by lia. cbn [mbind res_bind]. by rewrite assoc_set_out by done. }
  destruct ms as [| m2 ms].
  - exists (S fuel1). rewrite Hstep, En by lia. cbn [xs fmap list_fmap]. by rewrite bool_decide_true by done.
  - rewrite bool_decide_false in En by done. destruct (IH ltac:(done) (acc ++ [(key, t)]) q) as (k3 & r3 & E3 & _ & fuel2 & H2); [by rewrite <- app_assoc |].
    exists (S (Nat.max fuel1 fuel2)). rewrite Hstep, En by lia. cbn [is_tok Z.eqb Pos.eqb]. rewrite next_blank by apply indent_blank. fold xs in E3. rewrite E3.
    rewrite (proj1 (proj2 (read_mono fuel2)) _ _ _ _ _ (Nat.max fuel1 fuel2) H2) by lia. by rewrite <- app_assoc.
Qed.

Lemma inside_items d xs close q : xs <> [] -> inside pflags d xs ++ close :: q = indent pflags (d + 1) false ++ items pflags d xs ++ close :: q.
Proof. intros H. destruct xs; [done |]. cbn [inside]. by rewrite <- app_assoc. Qed.

Lemma depth_in ts t : t ∈ ts -> (depth t <= list_max (depth <$> ts))%nat.
Proof. intros H. assert (G : (list_max (depth <$> ts) <= list_max (depth <$> ts))%nat) by lia. apply depth_list in G. rewrite Forall_forall in G. by apply G. Qed.

Lemma depth_value (ms : list (list Z * json)) m : m ∈ ms -> (depth m.2 <= list_max ((fun m => depth m.2) <$> ms))%nat.
Proof.
  intros H. change ((fun m => depth m.2) <$> ms) with ((depth ∘ snd) <$> ms). rewrite list_fmap_compose. apply depth_in. by apply list_elem_of_fmap_2.
Qed.

(** The printed text of a tree is read as the tree. *)
Lemma tree_read t : readable t -> forall d e q, d + Z.of_nat (depth t) <= JSON_PARSER_MAX_DEPTH -> stops q -> reads d (print pflags e t ++ q) t q.
Proof.
  induction t as [ms IH | ts IH | s | n | x | | |] using json_tree_ind; intros Hr d e q Hd Hq; cbn [depth] in Hd; cbn [print].
  - inversion Hr as [ms' Hn Hms | | | | | | |]; subst. unfold enclosed. cbn [app]. rewrite <- app_assoc. cbn [app]. exists (KPunct 123). eexists. split; [by apply next_punct |].
    destruct ms as [| m0 ms0] eqn:Em.
    + exists 1%nat. cbn [fmap list_fmap inside app]. simpl. rewrite Z.gtb_ltb, (proj2 (Z.ltb_ge _ _)) by lia. done.
    + rewrite <- Em in *. fold (mtext (e + 1)). rewrite inside_items by (by rewrite Em).
      destruct (members_read (d + 1) (e + 1) e ms) with (acc := [] : list (list Z * json)) (q := q) as (k & r & E & Hk & fuel & H); [| by rewrite Em | done |].
      { rewrite Forall_forall in *. intros m Hm. destruct (Hms m Hm) as [Hkey Hv]. split; [done |]. intros q' Hq'. apply IH; [done | done | | done].
        pose proof (depth_value ms m Hm). lia. }
      exists (S fuel). simpl. rewrite Z.gtb_ltb, (proj2 (Z.ltb_ge _ _)) by lia. rewrite next_blank by apply indent_blank. rewrite E, Hk. exact H.
  - inversion Hr as [| ts' Hts | | | | | |]; subst. unfold enclosed. cbn [app]. rewrite <- app_assoc. cbn [app]. exists (KPunct 91). eexists. split; [by apply next_punct |].
    destruct ts as [| t0 ts0] eqn:Em.
    + exists 1%nat. cbn [fmap list_fmap inside app]. simpl. rewrite Z.gtb_ltb, (proj2 (Z.ltb_ge _ _)) by lia. done.
    + rewrite <- Em in *. rewrite inside_items by (by rewrite Em).
      destruct (elements_read (d + 1) (e + 1) e ts) with (acc := [] : list json) (q := q) as (k & r & E & Hk & _ & fuel & H); [| by rewrite Em |].
      { rewrite Forall_forall in *. intros t Ht q' Hq'. apply IH; [done | by apply Hts | | done]. pose proof (depth_in ts t Ht). lia. }
      exists (S fuel). simpl. rewrite Z.gtb_ltb, (proj2 (Z.ltb_ge _ _)) by lia. rewrite next_blank by apply indent_blank. rewrite E, Hk. exact H.
  - inversion Hr; subst. by apply (reads_leaf d _ _ q (KString s)); [lia | apply next_string | | |].
  - inversion Hr; subst. destruct (dec_read n q) as (_ & E & c & r & Ec & Hc); [done | done |].
    by apply (reads_leaf d _ _ q (KInteger n)); [lia | apply (next_number _ _ _ c r) | | |].
  - inversion Hr as [| | | | x' text Ht Hpl Htok Hfin | | |]; subst. rewrite Ht. cbn [default]. destruct (real_read text x q Htok Hq) as (E & c & r & Ec & Hc).
    by apply (reads_leaf d _ _ q (KReal x)); [lia | apply (next_number _ _ _ c r) | | |].
  - by apply (reads_leaf d _ _ q KTrue); [lia | apply (next_word (chars "true")); [set_solver | done] | | |].
  - by apply (reads_leaf d _ _ q KFalse); [lia | apply (next_word (chars "false")); [set_solver | done] | | |].
  - by apply (reads_leaf d _ _ q KNull); [lia | apply (next_word (chars "null")); [set_solver | done] | | |].
Qed.

Lemma print_start t e q : readable t -> stops q -> match t with TObject _ | TArray _ => True | _ => flag flags JSON_DECODE_ANY = true end ->
  flag flags JSON_DECODE_ANY = true \/ exists r, next_token (print pflags e t ++ q) = (KPunct 123, r) \/ next_token (print pflags e t ++ q) = (KPunct 91, r).
Proof.
  intros Hr Hq Ht. destruct t; auto; right; cbn [print]; unfold enclosed; cbn [app]; eexists; [left | right]; by apply next_punct.
Qed.

(** A whole text. *)
Lemma text_read t n : readable t -> Z.of_nat (depth t) <= JSON_PARSER_MAX_DEPTH ->
  match t with TObject _ | TArray _ => True | _ => flag flags JSON_DECODE_ANY = true end -> (length (print pflags 0 t) <= n)%nat ->
  read_text flags true n (print pflags 0 t) = Ok (Some t).
Proof.
  intros Hr Hd Ht Hn. destruct (read_text_ends flags true n (print pflags 0 t) Hn) as [o Ho]. pose proof Ho as Ho'. unfold read_text in Ho |- *.
  assert (Hq : stops []) by (unfold stops; cbn; set_solver). pose proof (tree_read t Hr 0 0 [] ltac:(lia) Hq) as (k & r & E & fuel & H).
  pose proof (print_start t 0 [] Hr Hq Ht) as Hs. rewrite app_nil_r in *. rewrite E in Ho, Hs |- *.
  assert (Hany : (negb (flag flags JSON_DECODE_ANY) && negb (is_tok 91 k) && negb (is_tok 123 k)) = false).
  { destruct Hs as [-> | (r' & [[= -> _] | [= -> _]])]; [done | by rewrite andb_false_r | by rewrite andb_false_r]. }
  rewrite Hany in *. destruct (read_value (parse_fuel n) 0 k r) as [v | |] eqn:Ev; cbn [mbind res_bind] in Ho; try discriminate Ho.
  pose proof (proj1 (read_mono fuel) _ _ _ _ (Nat.max fuel (parse_fuel n)) H ltac:(lia)) as H1.
  pose proof (proj1 (read_mono (parse_fuel n)) _ _ _ _ (Nat.max fuel (parse_fuel n)) Ev ltac:(lia)) as H2.
  rewrite H1 in H2. injection H2 as <-. cbn [mbind res_bind]. by destruct (flag flags JSON_DISABLE_EOF_CHECK).
Qed.
End reading.

(** *** Texts of trees *)

Section texts.
Context (flags pflags : Z).
#[local] Abbreviation readable := (readable flags pflags).

Lemma indent_clean d space : clean (indent pflags d space).
Proof. unfold indent. apply plain_clean. repeat case_match; repeat constructor; try lia. apply Forall_replicate. lia. Qed.

Lemma items_clean d xs : Forall clean xs -> clean (items pflags d xs).
Proof.
  induction 1 as [| x xs Hx Hxs IH]; [apply clean_nil |]. rewrite items_cons. repeat apply clean_app; [done | | done].
  case_match; [apply indent_clean |]. apply (clean_app [44]); [by apply clean_one | apply indent_clean].
Qed.

Lemma enclosed_clean open close d xs : 0 < open < 0x80 -> 0 < close < 0x80 -> Forall clean xs -> clean (enclosed pflags open close d xs).
Proof.
  intros Ho Hc Hxs. unfold enclosed. apply (clean_app [open]); [by apply clean_one |].
  apply clean_app; [| by apply clean_one]. unfold inside. case_match; [apply clean_nil |].
  apply clean_app; [apply indent_clean | by apply items_clean].
Qed.

Lemma tree_clean t : readable t -> forall d, clean (print pflags d t).
Proof.
  induction t as [ms IH | ts IH | s | n | x | | |] using json_tree_ind; intros Hr d; cbn [print].
  - inversion Hr as [ms' Hn Hms | | | | | | |]; subst. apply enclosed_clean; [lia | lia |]. apply Forall_fmap. rewrite Forall_forall in *. intros m Hm.
    destruct (Hms m Hm) as [[Hu _] Hv]. apply clean_app; [by apply print_string_clean |]. apply clean_app; [| by apply IH].
    apply plain_clean. unfold colon. case_match; by repeat constructor.
  - inversion Hr as [| ts' Hts | | | | | |]; subst. apply enclosed_clean; [lia | lia |]. apply Forall_fmap. rewrite Forall_forall in *. intros t Ht.
    apply IH; [done | by apply Hts].
  - inversion Hr; subst. by apply print_string_clean.
  - inversion Hr; subst. apply plain_clean. apply (dec_read n []); [done |]. unfold stops. cbn. set_solver.
  - inversion Hr as [| | | | x' text Ht Hpl | | |]; subst. rewrite Ht. by apply plain_clean.
  - apply plain_clean. by repeat constructor.
  - apply plain_clean. by repeat constructor.
  - apply plain_clean. by repeat constructor.
Qed.

(** Arranging the members changes neither what can be read nor the depth. *)
Lemma arranged_keys ms : (if flag pflags JSON_SORT_KEYS then merge_sort member_le ((fun m => (m.1, arranged pflags m.2)) <$> ms) else (fun m => (m.1, arranged pflags m.2)) <$> ms)
  ≡ₚ (fun m => (m.1, arranged pflags m.2)) <$> ms.
Proof. case_match; [apply merge_sort_Permutation | done]. Qed.

Lemma arranged_readable t : readable t -> readable (arranged pflags t).
Proof.
  induction t as [ms IH | ts IH | s | n | x | | |] using json_tree_ind; intros Hr; try done.
  - inversion Hr as [ms' Hn Hms | | | | | | |]; subst. cbn [arranged]. constructor.
    + rewrite arranged_keys, <- list_fmap_compose. exact Hn.
    + rewrite arranged_keys, Forall_fmap. rewrite Forall_forall in *. intros m Hm. destruct (Hms m Hm) as [Hk Hv]. split; [done |]. by apply IH.
  - inversion Hr as [| ts' Hts | | | | | |]; subst. cbn [arranged]. constructor. apply Forall_fmap. rewrite Forall_forall in *. intros t Ht. apply IH; [done | by apply Hts].
Qed.

Lemma arranged_depth t : (depth (arranged pflags t) <= depth t)%nat.
Proof.
  induction t as [ms IH | ts IH | s | n | x | | |] using json_tree_ind; try done; cbn [arranged depth]; apply le_n_S.
  - apply List.list_max_le. apply Forall_fmap. rewrite arranged_keys, Forall_fmap. rewrite Forall_forall in *. intros m Hm. cbn. etrans; [by apply IH | by apply depth_value].
  - apply List.list_max_le. apply Forall_fmap. rewrite Forall_fmap. rewrite Forall_forall in *. intros t Ht. cbn. etrans; [by apply IH | by apply depth_in].
Qed.
End texts.

Lemma utf8_cancel u s : is_utf8 u -> is_utf8 (u ++ s) -> is_utf8 s.
Proof.
  intros (cs & Hcs & ->). induction Hcs as [| c cs Hc Hcs IH]; [done |]. cbn [map concat]. rewrite <- app_assoc. intros H. apply is_utf8_cons in H; [| done]. by apply IH.
Qed.

Lemma utf8_whole s : is_utf8 s -> utf8_split (length s) s = (s, []).
Proof.
  intros Hs. assert (Hb : Forall is_byte s) by by apply key_bytes_utf8. pose proof (utf8_split_spec (length s) s Hb (le_n _)) as H.
  destruct (utf8_split (length s) s) as [u bad]. destruct H as (-> & Hu & Hst). assert (Hbad : bad = []).
  { destruct (utf8_cancel _ _ Hu Hs) as ([| c cs] & Hcs & ->); [done |]. apply Forall_cons in Hcs as [Hc _]. by destruct (Hst c (concat (map encoding cs)) Hc). }
  by rewrite Hbad, app_nil_r.
Qed.

(** Computing [is_utf8]. *)
Lemma utf8_check s : forallb (fun c => (0 <=? c) && (c <? 256)) s && bool_decide ((utf8_split (length s) s).2 = []) = true -> is_utf8 s.
Proof.
  intros H. apply andb_prop in H as [H1 H2]. apply bool_decide_eq_true in H2. rewrite forallb_forall in H1.
  assert (Hb : Forall is_byte s) by (apply Forall_forall; intros c Hc; apply list_elem_of_In, H1 in Hc; unfold is_byte; lia).
  pose proof (utf8_split_spec (length s) s Hb (le_n _)) as H. destruct (utf8_split (length s) s) as [u bad]. cbn [snd] in H2. subst bad.
  destruct H as (-> & Hu & _). by rewrite app_nil_r.
Qed.

(** ** Printing into a string buffer *)

Definition short_of_memory (alloc : Z -> bool) : Prop := exists n, alloc n = false.

Lemma strbuffer_sink alloc limit : Z.of_nat limit < 2 ^ 60 ->
  sink (short_of_memory alloc) limit (dump_to_strbuffer alloc) (fun sb l => holds sb l /\ sb_size sb <= 2 * Z.of_nat limit + 16).
Proof.
  intros Hl text sb l [Hh Hs] Hlen. pose proof (strbuffer_append_bytes_outcome alloc sb l text Hh ltac:(lia)) as H. cbv zeta in H.
  pose proof (hd_length _ _ Hh) as Hsl. pose proof (hd_size _ _ Hh) as Hsz. rewrite decide_False in H by lia. unfold dump_to_strbuffer.
  assert (Ha : size_after sb (Z.of_nat (length text)) <= 2 * Z.of_nat limit + 16).
  { unfold size_after, grown. destruct (Z.leb_spec (sb_size sb - sb_length sb) (Z.of_nat (length text))); lia. }
  destruct (_ || _) eqn:E.
  - destruct H as (sb' & -> & Hh' & Hs'); [lia |]. exists 0, sb'. split; [done |]. left. split_and!; [done | done | lia].
  - rewrite H. exists (-1), sb. split; [done |]. right. apply orb_false_iff in E as [_ E]. split; [by eexists |]. exists l. split; [done | lia].
Qed.

Lemma jsonp_strdup_spec alloc s : Z.of_nat (length s) < 2 ^ 62 ->
  exists r, jsonp_strdup alloc s = Ok r /\ ((exists v, r = Some v /\ blk_holds (s ++ [0]) v) \/ short_of_memory alloc).
Proof.
  intros Hl. unfold jsonp_strdup, jsonp_strndup. rewrite wrap_small by lia. destruct (alloc (Z.of_nat (length s) + 1)) eqn:E.
  - rewrite jsonp_malloc_some by (done || lia). pose proof (blk_copy_app [] s []) as C. rewrite app_nil_r in C. cbn [app length] in C. rewrite C. cbn [mbind res_bind].
    destruct (blk_store_append [] s (blk_malloc (Z.to_nat (Z.of_nat (length s) + 1))) (blk_holds_nil _)) as (b1 & E1 & H1); [cbn [length]; unfold blk_malloc; rewrite length_replicate; lia |].
    cbn [app length] in E1, H1. rewrite E1. cbn [mbind res_bind]. destruct (store_zero s b1 H1) as (b2 & E2 & H2 & _).
    { apply blk_store_length in E1. rewrite E1. unfold blk_malloc. rewrite length_replicate. lia. }
    rewrite E2. cbn [mbind res_bind]. eexists. split; [done |]. left. by eexists.
  - rewrite jsonp_malloc_none by done. eexists. split; [done |]. right. by eexists.
Qed.

Lemma c_text_total s v : blk_holds (s ++ [0]) v -> exists t, c_text v = Ok t /\ (length t <= length s)%nat.
Proof.
  intros [r ->]. induction s as [| c s (t & E & Hl)]; cbn; [by exists [] |]. destruct (c =? 0); [exists []; cbn; split; [done | lia] |].
  cbn in E. rewrite E. exists (c :: t). cbn. split; [done | lia].
Qed.

(** A container, or anything with the flag. *)
Definition root_ok (any : bool) (t : json) : Prop := match t with TObject _ | TArray _ => True | _ => any = true end.

Section dumps.
Context {OT : ObjectTable} {OS : ObjectTableSpec OT} (alloc : Z -> bool) (flags : Z).

Lemma root_checked p t m c k : own p t m -> statics_in c -> m ##ₘ c -> root_ok (flag flags JSON_ENCODE_ANY) t ->
  exists a o, json_is_array p (MkHeap (m ∪ c) k) = Ok a /\ json_is_object p (MkHeap (m ∪ c) k) = Ok o /\ (negb (flag flags JSON_ENCODE_ANY) && negb a && negb o) = false.
Proof.
  intros Ho Hs Hd Hr. assert (G : forall v, (m ∪ c) !! p = Some v -> (is_array (jvalue v) || is_object (jvalue v)) = true \/ flag flags JSON_ENCODE_ANY = true ->
    exists a o, json_is_array p (MkHeap (m ∪ c) k) = Ok a /\ json_is_object p (MkHeap (m ∪ c) k) = Ok o /\ (negb (flag flags JSON_ENCODE_ANY) && negb a && negb o) = false).
  { intros v Hv Hc. unfold json_is_array, json_is_object, json_is, cell. rewrite (proj2 (Z.eqb_neq p NULL)) by (by eapply own_nonnull). cbn [cells]. rewrite Hv. cbn [of_option mbind res_bind].
    eexists _, _. split_and!; [done | done |]. destruct Hc as [Hc | ->]; [| done]. apply orb_true_iff in Hc as [-> | ->]; by rewrite ?andb_false_r. }
  assert (Hst : forall v, statics !! p = Some v -> m = ∅ -> (m ∪ c) !! p = Some v) by (intros v Hv ->; rewrite (left_id_L ∅ (∪)); by apply static_lookup).
  inversion Ho; subst; cbn in Hr; try (eapply G; [| by right]; first [rewrite <- insert_empty; apply lookup_root | apply Hst; done]); (eapply G; [apply lookup_root | by left]).
Qed.

(** [json_dumps] on a tree. *)
Lemma json_dumps_prints p t m c k : own p t m -> m ##ₘ c -> statics_in c -> printable flags t -> Z.of_nat (depth t) <= 2 ^ 27 ->
  root_ok (flag flags JSON_ENCODE_ANY) t -> Z.of_nat (length (print flags 0 (arranged flags t))) < 2 ^ 60 -> 0 ∉ print flags 0 (arranged flags t) ->
  exists r, json_dumps alloc p flags (MkHeap (m ∪ c) k) = Ok (r, MkHeap (m ∪ c) k) /\
    ((exists v, r = Some v /\ blk_holds (print flags 0 (arranged flags t) ++ [0]) v) \/ short_of_memory alloc).
Proof.
  intros Ho Hd Hs Hp Hdp Hroot Hlen Hz. set (text := print flags 0 (arranged flags t)) in *. set (h := MkHeap (m ∪ c) k). unfold json_dumps.
  destruct (alloc STRBUFFER_MIN_SIZE) eqn:Ea.
  2:{ unfold strbuffer_init. rewrite jsonp_malloc_none by done. cbn [mbind res_bind]. exists None. split; [done |]. right. by eexists. }
  destruct (init_holds alloc Ea) as (sb & -> & Hsb & Hsz). cbn [mbind res_bind Z.eqb negb]. unfold json_dump_callback.
  destruct (root_checked p t m c k Ho Hs Hd Hroot) as (a & o & Eo & Ea' & Eg). fold h in Eo, Ea'. cbn [snd]. rewrite Eo, Ea'. cbn [mbind res_bind]. rewrite Eg.
  pose proof (proj1 (tree_dumped (short_of_memory alloc) (length text) (dump_to_strbuffer alloc) _ (strbuffer_sink alloc (length text) Hlen) alloc
    ltac:(intros n Hn; by exists n) flags Hlen) p t m Ho Hp c k 0 (heap_fuel h)) as G.
  destruct (G Hd Hs) with (st := (sb, h)) (l := [] : list Z) as (r & [sb' h'] & -> & H); [| lia | lia | | done |].
  { pose proof (proj1 own_depth p t m Ho). unfold heap_fuel. cbn [cells h]. rewrite map_size_disj_union by done. lia. }
  { split; [| done]. cbn [fst]. split; [done |]. rewrite Hsz. unfold STRBUFFER_MIN_SIZE. lia. }
  cbn [mbind res_bind]. destruct H as [(-> & [[Hw _] Hh]) | (Hoom & l' & [[Hw _] Hh] & Hl')]; cbn [snd fst] in Hh, Hw; subst h'.
  - cbn [Z.eqb negb]. destruct (hd_value _ _ Hw) as (v & Ev & Hv & _). cbn [app] in Hv. unfold text_of. rewrite Ev. cbn [of_option mbind res_bind].
    rewrite (c_text_spec text v Hv Hz). cbn [mbind res_bind]. destruct (jsonp_strdup_spec alloc text) as (r & -> & Hr); [lia |]. cbn [mbind res_bind]. by exists r.
  - destruct (negb (r =? 0)); [exists None; split; [done | by right] |]. destruct (hd_value _ _ Hw) as (v & Ev & Hv & _). unfold text_of. rewrite Ev. cbn [of_option mbind res_bind].
    destruct (c_text_total _ _ Hv) as (s & -> & Hs'). cbn [mbind res_bind]. destruct (jsonp_strdup_spec alloc s) as (r' & -> & _); [cbn [length] in Hl'; fold text in Hl'; lia |].
    cbn [mbind res_bind]. exists r'. split; [done | by right].
Qed.
End dumps.

Lemma arranged_root any flags t : root_ok any t -> root_ok any (arranged flags t).
Proof. by destruct t. Qed.

(** C14. Printing and loading.  A tree of values whose texts are UTF-8, whose integers are in range and whose reals print as
    numbers that denote them is printed by [json_dumps], under any of its flags, as the text of the tree, with the members
    sorted when that is asked for; the heap is what it was.  Only when memory runs out is the result anything else.
    And [json_loads] of this text makes the tree again, beside the first one. *)
Theorem json_dumps_loads {OT : ObjectTable} {OS : ObjectTableSpec OT} (alloc text_alloc : Z -> bool) (alloc' : Z -> Z -> bool) flags pflags p t h0 h e :
  heap_ok h0 -> makes h0 p t h -> readable flags pflags t -> Z.of_nat (depth t) <= JSON_PARSER_MAX_DEPTH ->
  root_ok (flag pflags JSON_ENCODE_ANY) t -> root_ok (flag flags JSON_DECODE_ANY) t -> flag flags JSON_DECODE_INT_AS_REAL = false ->
  (forall n, text_alloc n = true) ->
  let text := print pflags 0 (arranged pflags t) in Z.of_nat (length text) < 2 ^ 30 ->
  (exists r, json_dumps alloc p pflags h = Ok (r, h) /\ ((exists v, r = Some v /\ c_text v = Ok text) \/ short_of_memory alloc)) /\
  loaded alloc' h (Some (arranged pflags t)) (json_loads text_alloc alloc' (Some text) flags e h).
Proof.
  intros (Hst & _) (m & Ho & Hd & Hc & Hok & _) Hr Hdp Hre Hrd Hint Hta text Hlen. pose proof (arranged_readable flags pflags t Hr) as Ha.
  destruct (tree_clean flags pflags _ Ha 0) as [Hu Hz]. fold text in Hu, Hz. assert (Hnz : 0 ∉ text) by (intros Hin; rewrite Forall_forall in Hz; by apply (Hz 0)).
  split.
  - destruct (json_dumps_prints alloc pflags p t m (cells h0) (next h) Ho Hd Hst) as (r & E & H); try done; [by eapply readable_printable | unfold JSON_PARSER_MAX_DEPTH in Hdp; lia | fold text; lia |].
    rewrite <- Hc, <- heap_eta in E. exists r. split; [done |]. destruct H as [(v & -> & Hv) | ?]; [left | by right]. exists v. split; [done |]. by apply c_text_spec.
  - assert (Hin : input text).
    { split; [| done]. apply is_utf8_range in Hu. rewrite Forall_forall in *. intros b Hb. specialize (Hu b Hb). specialize (Hz b Hb). lia. }
    destruct (string_loaded text_alloc Hta alloc' text flags e h Hin Hok) as (o & E & H). unfold read in E. rewrite utf8_whole in E by done.
    rewrite bool_decide_true in E by done. pose proof (arranged_depth pflags t) as Hda.
    pose proof (text_read flags pflags Hint (arranged pflags t) (length text) Ha ltac:(lia) (arranged_root _ _ _ Hrd) (le_n _)) as R. fold text in R.
    rewrite R in E. by injection E as <-.
Qed.

(** A tree and its sorted text, with the characters escaped and every member on a line of its own. *)
Definition sample_tree : json := TObject [(chars "b", TArray [TInteger 1; TReal (S754_finite false 4503599627370496 (-53))]); (chars "a", TString [0xC3; 0xA9; 47])].

Lemma sample_loaded : exists p h, makes (OT := hashtable_objects 7) empty_heap p sample_tree h.
Proof.
  destruct (string_loaded (OT := hashtable_objects 7) (fun _ => true) (fun _ => eq_refl) (fun _ _ => true) (text "{'b': [1, 0.5], 'a': '\u00e9/'}") 0 None empty_heap)
    as (o & E & p & e & h & _ & H); [apply input_bool; by vm_compute | apply empty_heap_ok |].
  vm_compute in E. injection E as <-. exists p, h. destruct H as [(_ & _ & [? | (? & ? & ?)]) | (t & [= <-] & Hm)]; [done | done | exact Hm].
Qed.

Lemma json_dumps_loads_witness :
  exists p h, makes (OT := hashtable_objects 7) empty_heap p sample_tree h /\
    exists r v, json_dumps (OT := hashtable_objects 7) (fun _ => true) p (JSON_SORT_KEYS + JSON_ENSURE_ASCII + JSON_ESCAPE_SLASH + 1) h = Ok (r, h) /\ r = Some v /\
      c_text v = Ok (text "{" ++ [10] ++ text " 'a': '\u00E9\/'," ++ [10] ++ text " 'b': [" ++ [10] ++ text "  1," ++ [10] ++ text "  0.5" ++ [10] ++ text " ]" ++ [10] ++ text "}").
Proof.
  destruct sample_loaded as (p & h & Hm). exists p, h. split; [exact Hm |].
  destruct (json_dumps_loads (OT := hashtable_objects 7) (fun _ => true) (fun _ => true) (fun _ _ => true) 0 (JSON_SORT_KEYS + JSON_ENSURE_ASCII + JSON_ESCAPE_SLASH + 1)
    p sample_tree empty_heap h None (empty_heap_ok (OT := hashtable_objects 7)) Hm) as [(r & E & H) _].
  - assert (Hnz : forall k : list Z, bool_decide (0 ∈ k) = false -> 0 ∉ k) by (intros k; apply bool_decide_eq_false).
    constructor; [apply (bool_decide_unpack _); by vm_compute |]. constructor; [| constructor; [| constructor]]; cbn [fst snd]; split; [split | | split |].
    + apply utf8_check. by vm_compute.
    + apply Hnz. by vm_compute.
    + constructor. constructor; [constructor; unfold LLONG_MIN, LLONG_MAX; lia | constructor; [| constructor]].
      apply (readable_real _ _ _ (chars "0.5")); [by vm_compute | by repeat constructor | by vm_compute | done].
    + apply utf8_check. by vm_compute.
    + apply Hnz. by vm_compute.
    + constructor; [apply utf8_check; by vm_compute | right; apply Hnz; by vm_compute].
  - by vm_compute.
  - done.
  - done.
  - done.
  - done.
  - by vm_compute.
  - destruct H as [(v & -> & Hv) | (n & Hn)]; [| discriminate Hn]. exists (Some v), v. split; [exact E |]. split; [reflexivity |]. rewrite Hv. by vm_compute.
Defined.

(** ** Without memory

    The result of printing a key is not looked at: when there is no memory for a key and then enough for what is behind
    it, [json_dumps] returns a text in which the key is missing, and which cannot be loaded. *)
Lemma json_dumps_loses_key :
  let few n := n <=? 16 in
  match json_loads (OT := hashtable_objects 7) (fun _ => true) (fun _ _ => true) (Some (text "{'fourteen-bytes': 1}")) 0 None empty_heap with
  | Ok (p, _, h) =>
      match json_dumps (OT := hashtable_objects 7) few p 0 h with
      | Ok (Some v, _) => c_text v = Ok (text "{': 1}") /\ read 0 (text "{': 1}") = Ok None
      | _ => False
      end
  | _ => False
  end.
Proof. by vm_compute. Qed.
