(* ===== verification/HttpJson.v ===== *)
(** * HTTP answers over jansson

    The functions of [mw/http/tima_get_property.c] and [http_token.c] that make and take apart JSON, with every call of
    jansson made on the heap of [Json].  [Http] has them over a record of what jansson promises; here the record is the
    one of trees, and the functions on the heap are shown to do what those of [Http] do, without leaving a cell behind. *)

From Stdlib Require Import SpecFloat.
From S2P Require Import Prelude Http.
From S2P Require Import Utf Strbuf ObjectTable Hashtable Json JsonTree JsonLex JsonLoad JsonText JsonStream JsonToken JsonParse JsonRead JsonDump JsonPrint JsonRound.

(** ** What jansson promises, on trees *)

(** The part of a text in front of a NUL. *)
Fixpoint c_part (s : list Z) : list Z := match s with c :: r => if c =? 0 then [] else c :: c_part r | [] => [] end.

Definition tree_get (t : json) (k : list Z) : option json := match t with TObject ms => assoc k ms | _ => None end.

(** The numbers are read into an [int]. *)
Definition trees : jansson := {|
  Http.json := json;
  Http.json_loads s := match read 0 s with Ok o => o | _ => None end;
  Http.json_object_get := tree_get;
  Http.json_string_value t := match t with TString s => Some (c_part s) | _ => None end;
  Http.json_integer_value t := match t with TInteger n => i32 n | _ => 0 end;
  Http.json_dumps fields := print 0 0 (TObject ((fun f => (f.1, TString f.2)) <$> fields))
|}.

(** ** The functions *)

Section code.
Context {OT : ObjectTable} (text_alloc : Z -> bool) (alloc : Z -> Z -> bool).

(** A string value, as the C string it is used as. *)
Definition string_at (json : Z) (h : jheap) : res (option (list Z)) :=
  v ← json_string_value json h;
  match v with None => Ok None | Some v => s ← c_text v; Ok (Some s) end.

(** Setting a new string in an object; the results are not looked at. *)
Definition set_string (root : Z) (key value : list Z) (h : jheap) : res jheap :=
  '(s, h) ← json_string alloc (Some value) h;
  '(_, h) ← json_object_set_new alloc root (Some key) s h; Ok h.

Definition tima_get_property_json_create (alloc_ok : bool) (t : PropertyPriv) (h : jheap) : res (PropertyPriv * jheap) :=
  let req := prop_req t in
  let ch := dec (prop_ch req) in
  _ ← assert_ok (bool_decide (length ch < 8)%nat);
  '(json_root, h) ← json_object alloc h;
  h ← set_string json_root (chars "simNo") (prop_sim req) h;
  h ← set_string json_root (chars "number") ch h;
  '(data_dump, h) ← json_dumps text_alloc json_root 0 h;
  data_dump ← of_option data_dump; text ← c_text data_dump;
  if negb alloc_ok then UB else
  h ← decref json_root h;
  Ok (MkProp req (uri t) (property t) (audio_type t) (video_type t) (Some text), h).

Definition tima_json_property_parse (t : PropertyPriv) (data : list Z) (h : jheap) : res (bool * PropertyPriv * jheap) :=
  '(json_root, _, h) ← json_loads text_alloc alloc (Some data) 0 None h;
  if json_root =? NULL then Ok (false, t, h) else
  jobject ← json_object_get json_root (Some (chars "audioCodeType")) h;
  if jobject =? NULL then h ← decref json_root h; Ok (false, t, h) else
  audio ← json_integer_value jobject h;
  let t := set_codec t (i32 audio) (video_type t) in
  jobject ← json_object_get json_root (Some (chars "videoCodeType")) h;
  if jobject =? NULL then h ← decref json_root h; Ok (false, t, h) else
  video ← json_integer_value jobject h;
  let t := set_codec t (audio_type t) (i32 video) in
  h ← decref json_root h; Ok (true, t, h).

(** The exit of an answer that cannot be used: its error texts are logged and it is released. *)
Definition parse_end {A} (json_root : Z) (a : A) (h : jheap) : res (bool * A * jheap) :=
  jobject ← json_object_get json_root (Some (chars "returnErrCode")) h;
  _ ← (if jobject =? NULL then Ok None else string_at jobject h);
  jobject ← json_object_get json_root (Some (chars "returnErrMsg")) h;
  _ ← (if jobject =? NULL then Ok None else string_at jobject h);
  h ← decref json_root h; Ok (false, a, h).

Definition tima_get_property_json_parse (t : PropertyPriv) (data : option (list Z)) (h : jheap) : res (bool * PropertyPriv * jheap) :=
  '(json_root, _, h) ← json_loads text_alloc alloc data 0 None h;
  if json_root =? NULL then Ok (false, t, h) else
  jobject ← json_object_get json_root (Some (chars "playAddress")) h;
  if jobject =? NULL then parse_end json_root t h else
  playAddress ← string_at jobject h;
  match playAddress with
  | None => parse_end json_root t h
  | Some playAddress =>
      if decide (length playAddress < 2)%nat then parse_end json_root t h else
      u ← strcpy_field playAddress;
      let t := MkProp (prop_req t) u (property t) (audio_type t) (video_type t) (post_data t) in
      jobject ← json_object_get json_root (Some (chars "property")) h;
      if jobject =? NULL then parse_end json_root t h else
      property ← string_at jobject h;
      match property with
      | None => h ← decref json_root h; Ok (true, t, h)
      | Some s =>
          pr ← strcpy_field s;
          '(ret, t, h) ← tima_json_property_parse (MkProp (prop_req t) (uri t) pr (audio_type t) (video_type t) (post_data t)) s h;
          if negb ret then parse_end json_root t h else h ← decref json_root h; Ok (true, t, h)
      end
  end.

Definition token_json_parse (t : TokenPriv) (data : option (list Z)) (h : jheap) : res (bool * TokenPriv * jheap) :=
  '(json_root, _, h) ← json_loads text_alloc alloc data 0 None h;
  if json_root =? NULL then Ok (false, t, h) else
  jobject ← json_object_get json_root (Some (chars "token")) h;
  if jobject =? NULL then parse_end json_root t h else
  token ← string_at jobject h;
  match token with
  | None => parse_end json_root t h
  | Some tok =>
      if decide (length tok < 2)%nat then parse_end json_root t h else
      tok ← strcpy_field tok;
      h ← decref json_root h;
      Ok (true, MkToken (token_req t) tok (token_buffer t), h)
  end.
End code.


(** ** Values of a tree on the heap *)

(** The part of a text in front of a NUL. *)
Lemma c_text_part s v : blk_holds (s ++ [0]) v -> c_text v = Ok (c_part s).
Proof.
  intros [r ->]. induction s as [| c s IH]; [done |]. cbn. destruct (c =? 0); [done |]. cbn in IH. by rewrite IH.
Qed.

Lemma c_part_bytes s : Forall is_byte s -> Forall (fun c => 0 < c < 256) (c_part s).
Proof.
  induction 1 as [| c s Hc Hs IH]; cbn; [constructor |]. destruct (Z.eqb_spec c 0); [constructor |]. constructor; [destruct Hc; lia | done].
Qed.

Section values.
Context {OT : ObjectTable} {OS : ObjectTableSpec OT}.

(** A tree somewhere in the heap. *)
Definition held (p : Z) (t : json) (h : jheap) : Prop :=
  exists m c, own p t m /\ cells h = m ∪ c /\ m ##ₘ c /\ statics_in c.

(** The data of a value, for its tree. *)
Definition shows (t : json) (v : json_value) : Prop :=
  match t with
  | TObject _ => is_object v = true
  | TString s => exists b n, v = JSON_STRING b n /\ blk_holds (s ++ [0]) b
  | TInteger n => v = JSON_INTEGER n
  | _ => is_object v = false /\ is_string v = false /\ is_integer v = false
  end.

Lemma held_cell p t h : held p t h -> p <> NULL /\ exists n v, cells h !! p = Some (MkJson n v) /\ shows t v.
Proof.
  intros (m & c & Ho & Hc & Hd & Hs). split; [by eapply own_nonnull |]. rewrite Hc. clear Hc Hd.
  assert (Hst : forall p n v, statics !! p = Some (MkJson n v) -> (∅ ∪ c) !! p = Some (MkJson n v)).
  { intros q n v Hq. rewrite (left_id_L ∅ (∪)). by apply static_lookup. }
  inversion Ho; subst; (eexists _, _; split; [first [apply lookup_root | rewrite <- insert_empty; apply lookup_root | apply Hst; done] |]); cbn; eauto.
Qed.

Lemma held_object p t h : held p t h -> match t with TObject _ => True | _ => json_is_object p h = Ok false end.
Proof.
  intros H. apply held_cell in H as (Hp & n & v & Hv & Hs). unfold json_is_object, json_is, cell.
  rewrite (proj2 (Z.eqb_neq _ _)) by done. rewrite Hv. cbn [of_option mbind res_bind jvalue].
  destruct t; cbn in Hs; try done.
  1, 4-7: by destruct Hs as [-> _].
  - by destruct Hs as (? & ? & -> & _).
  - by rewrite Hs.
Qed.

(** [json_object_get] is looking up in the tree. *)
Lemma held_get p t h k : held p t h -> key_bytes k ->
  exists q, json_object_get p (Some k) h = Ok q /\ match tree_get t k with Some t' => q <> NULL /\ held q t' h | None => q = NULL end.
Proof.
  intros Hh Hk. pose proof (held_object p t h Hh) as Hn.
  destruct t as [al | | | | | | |]; [| unfold json_object_get; rewrite Hn; by exists NULL ..]. cbn [tree_get].
  destruct Hh as (m & c & Ho & Hc & Hd & Hs). rewrite (heap_eta h), Hc.
  destruct (object_get_tree p al m c (next h) k Ho Hk) as (q & E & H). exists q. split; [done |].
  destruct (assoc k al) as [t |]; [| done]. destruct H as (mq & mr & Hq & -> & Hdq). split; [by eapply own_nonnull |].
  apply map_disjoint_union_l in Hd as [D1 D2]. exists mq, (mr ∪ c). cbn [cells].
  split_and!; [done | by rewrite (assoc_L (∪)) | by apply map_disjoint_union_r | by apply statics_in_union].
Qed.

Lemma held_string p t h : held p t h -> string_at p h = Ok (Http.json_string_value trees t).
Proof.
  intros H. apply held_cell in H as (Hp & n & v & Hv & Hs). unfold string_at, Json.json_string_value, cell.
  rewrite (proj2 (Z.eqb_neq _ _)) by done. rewrite Hv. cbn [of_option mbind res_bind jvalue].
  destruct t; cbn in Hs |- *; try (destruct v; try done; by destruct Hs as (? & ? & ?)).
  destruct Hs as (b & m & -> & Hb). cbn. by rewrite (c_text_part s b Hb).
Qed.

Lemma held_integer p t h : held p t h -> exists n, Json.json_integer_value p h = Ok n /\ i32 n = Http.json_integer_value trees t.
Proof.
  intros H. apply held_cell in H as (Hp & n & v & Hv & Hs). unfold Json.json_integer_value, cell.
  rewrite (proj2 (Z.eqb_neq _ _)) by done. rewrite Hv. cbn [of_option mbind res_bind jvalue].
  assert (H0 : is_integer v = false -> Http.json_integer_value trees t = 0 -> exists n, match v with JSON_INTEGER n => Ok n | _ => Ok 0 end = Ok n /\ i32 n = Http.json_integer_value trees t).
  { intros Hi ->. exists 0. by destruct v. }
  destruct t; cbn in Hs; try (apply H0; [| done]; try tauto).
  - by destruct v.
  - by destruct Hs as (? & ? & -> & _).
  - subst v. by exists n0.
Qed.

Lemma makes_held h p t h' : heap_ok h -> makes h p t h' -> held p t h'.
Proof. intros (Hs & _) (m & Ho & Hd & Hc & _). by exists m, (cells h). Qed.
End values.

(** ** The answers *)

Section answers.
Context {OT : ObjectTable} {OS : ObjectTableSpec OT} (text_alloc : Z -> bool) (Hta : forall n, text_alloc n = true) (alloc : Z -> Z -> bool).

#[local] Abbreviation oom := (exists a x, alloc a x = false).

(** A function on the heap gives what the one over trees gives; or memory ran out, it reports the failure, and what it was
    filling in is one of [partial].  The heap is what it was. *)
Definition answers {T} (h : jheap) (r : res (bool * T * jheap)) (spec : res (bool * T)) (partial : T -> Prop) : Prop :=
  match r with
  | Ok (ret, t, h') => undone h h' /\ (spec = Ok (ret, t) \/ oom /\ ret = false /\ partial t)
  | UB => spec = UB
  | _ => False
  end.

(** An answer whose address and properties have been copied, and whose properties have not been read. *)
Definition copied (t : PropertyPriv) (data : option (list Z)) (t' : PropertyPriv) : Prop :=
  exists s tr play address prop text, data = Some s /\ Http.json_loads trees s = Some tr /\
    Http.json_object_get trees tr (chars "playAddress") = Some play /\ Http.json_string_value trees play = Some address /\
    Http.json_object_get trees tr (chars "property") = Some prop /\ Http.json_string_value trees prop = Some text /\
    t' = MkProp (prop_req t) address text (audio_type t) (video_type t) (post_data t).

Lemma tree_get_typed t k t' : typed t -> tree_get t k = Some t' -> typed t'.
Proof.
  intros Ht. destruct Ht as [ms Hn Hms | | | | | | |]; cbn [tree_get]; try done. intros H. clear Hn.
  induction Hms as [| [k' v] ms [_ Hv] Hms IH]; cbn [assoc] in H; [done |]. case_match; [by simplify_eq | by apply IH].
Qed.

Lemma loading s h : input s -> heap_ok h ->
  exists p e h', json_loads text_alloc alloc (Some s) 0 None h = Ok (p, e, h') /\
    ((p = NULL /\ undone h h' /\ (Http.json_loads trees s = None \/ oom)) \/
     (exists t, Http.json_loads trees s = Some t /\ typed t /\ p <> NULL /\ makes h p t h')).
Proof.
  intros Hs Hh. destruct (string_loaded text_alloc Hta alloc s 0 None h Hs Hh) as (o & E & p & e & h' & El & H).
  exists p, e, h'. split; [done |]. cbn [Http.json_loads trees]. rewrite E. destruct H as [(-> & Hu & Ho) | (t & -> & Hm)].
  - left. split_and!; [done | done |]. destruct Ho as [-> | Ho]; [by left | by right].
  - right. exists t. split; [done |]. split; [| split; [by eapply makes_nonnull | done]].
    unfold read in E. destruct Hs as [Hs _]. assert (Hb : Forall is_byte s) by (eapply Forall_impl; [exact Hs |]; unfold is_byte; intros; cbv beta in *; lia).
    pose proof (utf8_split_spec (length s) s Hb (le_n _)) as Hsp. destruct (utf8_split (length s) s) as [u bad]. destruct Hsp as (_ & Hu & _).
    by destruct (read_text_types 0 _ _ u t Hu E).
Qed.

(** Whether a text is short enough for the fields. *)
Lemma string_input t s : typed t -> Http.json_string_value trees t = Some s -> (length s < MAX_LEN)%nat -> input s.
Proof.
  intros Ht. destruct Ht as [| | s' Hu | | | | |]; cbn; try done. intros [= <-] Hl. split; [| unfold MAX_LEN in Hl; lia].
  by apply c_part_bytes, key_bytes_utf8.
Qed.

Lemma end_answers {T} p tr (t : T) h h1 spec partial : heap_ok h -> makes h p tr h1 -> spec = Ok (false, t) \/ oom /\ partial t ->
  answers h (parse_end p t h1) spec partial.
Proof.
  intros Hh Hm Hs. pose proof (makes_held h p tr h1 Hh Hm) as Hd. unfold parse_end.
  assert (G : forall q o, match o with Some t' => q <> NULL /\ held q t' h1 | None => q = NULL end ->
    exists x, (if q =? NULL then Ok None else string_at q h1) = Ok x).
  { intros q [t' |]; [intros [Hq Hq'] | intros ->; by exists None]. rewrite (proj2 (Z.eqb_neq _ _)) by done. eexists. by apply held_string. }
  destruct (held_get p tr h1 (chars "returnErrCode") Hd ltac:(by_decide)) as (q1 & E1 & H1). rewrite E1. cbn [mbind res_bind].
  destruct (G _ _ H1) as (x1 & ->). cbn [mbind res_bind].
  destruct (held_get p tr h1 (chars "returnErrMsg") Hd ltac:(by_decide)) as (q2 & E2 & H2). rewrite E2. cbn [mbind res_bind].
  destruct (G _ _ H2) as (x2 & ->). cbn [mbind res_bind].
  destruct (decref_makes h p tr h1 Hh Hm) as (h2 & -> & Hu). split; [done |]. destruct Hs as [-> | [Ho Hp]]; [by left | by right].
Qed.

Lemma released_answers {T} p tr ret (t : T) h h1 spec partial : heap_ok h -> makes h p tr h1 -> spec = Ok (ret, t) ->
  answers h (h ← decref p h1; Ok (ret, t, h)) spec partial.
Proof. intros Hh Hm Hs. destruct (decref_makes h p tr h1 Hh Hm) as (h2 & -> & Hu). split; [done | by left]. Qed.

Lemma property_answers t s h : input s -> heap_ok h ->
  answers h (tima_json_property_parse text_alloc alloc t s h) (Ok (Http.tima_json_property_parse trees t s)) (eq t).
Proof.
  intros Hs Hh. unfold tima_json_property_parse, Http.tima_json_property_parse.
  destruct (loading s h Hs Hh) as (p & e & h1 & -> & [(-> & Hu & Ho) | (tr & -> & _ & Hp & Hm)]); cbn [mbind res_bind].
  - rewrite Z.eqb_refl. split; [done |]. destruct Ho as [-> | Ho]; [by left |]. right. by split_and!.
  - rewrite (proj2 (Z.eqb_neq _ _)) by done. pose proof (makes_held h p tr h1 Hh Hm) as Hd. cbn [Http.json_object_get trees].
    destruct (held_get p tr h1 (chars "audioCodeType") Hd ltac:(by_decide)) as (q & -> & H). cbn [mbind res_bind].
    destruct (tree_get tr _) as [a |]; [destruct H as [Hq Ha] | subst q; rewrite Z.eqb_refl; apply (released_answers p tr); auto].
    rewrite (proj2 (Z.eqb_neq _ _)) by done. destruct (held_integer q a h1 Ha) as (n & -> & Hi). cbn [mbind res_bind]. rewrite Hi.
    destruct (held_get p tr h1 (chars "videoCodeType") Hd ltac:(by_decide)) as (q' & -> & H). cbn [mbind res_bind].
    destruct (tree_get tr (chars "videoCodeType")) as [v |]; [destruct H as [Hq' Hv] | subst q'; rewrite Z.eqb_refl; apply (released_answers p tr); auto].
    rewrite (proj2 (Z.eqb_neq _ _)) by done. destruct (held_integer q' v h1 Hv) as (n' & -> & Hi'). cbn [mbind res_bind]. rewrite Hi'.
    apply (released_answers p tr); auto.
Qed.

(** The string of a member, or what there is instead. *)
Lemma member_string p tr h h1 k : heap_ok h -> makes h p tr h1 -> typed tr -> key_bytes k ->
  exists q, Json.json_object_get p (Some k) h1 = Ok q /\
    match tree_get tr k with
    | Some t => q <> NULL /\ typed t /\ string_at q h1 = Ok (Http.json_string_value trees t)
    | None => q = NULL
    end.
Proof.
  intros Hh Hm Ht Hk. destruct (held_get p tr h1 k (makes_held h p tr h1 Hh Hm) Hk) as (q & E & H). exists q. split; [done |].
  destruct (tree_get tr k) as [t |] eqn:Eg; [| done]. destruct H as [Hq Hd]. split_and!; [done | by eapply tree_get_typed | by apply held_string].
Qed.

Lemma get_property_answers t data h : default True (input <$> data) -> heap_ok h ->
  answers h (tima_get_property_json_parse text_alloc alloc t data h) (Http.tima_get_property_json_parse trees t data) (fun t' => t' = t \/ copied t data t').
Proof.
  intros Hs Hh. destruct data as [s |]; [| split; [by apply undone_refl | by left]]. cbn in Hs.
  unfold tima_get_property_json_parse, Http.tima_get_property_json_parse. cbn [mbind option_bind].
  destruct (loading s h Hs Hh) as (p & e & h1 & -> & [(-> & Hu & Ho) | (tr & Er & Ht & Hp & Hm)]); cbn [mbind res_bind].
  { rewrite Z.eqb_refl. split; [done |]. destruct Ho as [-> | Ho]; [by left |]. right. split_and!; auto. }
  rewrite (proj2 (Z.eqb_neq _ _)) by done. rewrite Er. cbn [Http.json_object_get trees].
  destruct (member_string p tr h h1 (chars "playAddress") Hh Hm Ht ltac:(by_decide)) as (q & -> & H). cbn [mbind res_bind].
  destruct (tree_get tr _) as [j |] eqn:Ej; [destruct H as (Hq & _ & Es) | subst q; rewrite Z.eqb_refl; by apply (end_answers p tr); [| | left]].
  rewrite (proj2 (Z.eqb_neq _ _)) by done. rewrite Es. cbn [mbind res_bind option_bind].
  destruct (Http.json_string_value trees j) as [play |] eqn:Ep; [| by apply (end_answers p tr); [| | left]].
  case_decide; [by apply (end_answers p tr); [| | left] |]. unfold strcpy_field. case_decide; [| done]. cbn [mbind res_bind].
  destruct (member_string p tr h h1 (chars "property") Hh Hm Ht ltac:(by_decide)) as (q' & -> & H'). cbn [mbind res_bind].
  destruct (tree_get tr (chars "property")) as [j' |] eqn:Ej'; [destruct H' as (Hq' & Htj & Es') | subst q'; rewrite Z.eqb_refl; by apply (end_answers p tr); [| | left]].
  rewrite (proj2 (Z.eqb_neq _ _)) by done. rewrite Es'. cbn [mbind res_bind].
  destruct (Http.json_string_value trees j') as [s' |] eqn:Ev; [| by apply (released_answers p tr)].
  case_decide; [| done]. cbn [mbind res_bind Http.prop_req uri audio_type video_type post_data].
  match goal with |- context [HttpJson.tima_json_property_parse _ _ ?t _ _] => set (t' := t) end.
  pose proof (property_answers t' s' h1 ltac:(by eapply string_input) (makes_ok _ _ _ _ Hm)) as Ha.
  destruct (HttpJson.tima_json_property_parse text_alloc alloc t' s' h1) as [[[ret t2] h2] | |]; [| done ..]. cbn [mbind res_bind].
  destruct Ha as [Hu Ha]. pose proof (makes_undone h p tr h1 h2 Hm Hu) as Hm2.
  assert (Ha' : Ok (Http.tima_json_property_parse trees t' s') = Ok (ret, t2) \/ oom /\ ret = false /\ t' = t2) by exact Ha.
  destruct ret; cbn [negb]; [apply (released_answers p tr); [done | done |]; by destruct Ha' as [Ha' | (_ & ? & _)] |].
  apply (end_answers p tr); [done | done |]. destruct Ha' as [Ha' | (Ho & _ & <-)]; [by left | right]. split; [done |]. right.
  by exists s, tr, j, play, j', s'.
Qed.

Lemma token_answers t data h : default True (input <$> data) -> heap_ok h ->
  answers h (token_json_parse text_alloc alloc t data h) (Http.token_json_parse trees t data) (eq t).
Proof.
  intros Hs Hh. destruct data as [s |]; [| split; [by apply undone_refl | by left]]. cbn in Hs.
  unfold token_json_parse, Http.token_json_parse. cbn [mbind option_bind].
  destruct (loading s h Hs Hh) as (p & e & h1 & -> & [(-> & Hu & Ho) | (tr & -> & Ht & Hp & Hm)]); cbn [mbind res_bind].
  { rewrite Z.eqb_refl. split; [done |]. destruct Ho as [-> | Ho]; [by left |]. right. by split_and!. }
  rewrite (proj2 (Z.eqb_neq _ _)) by done. cbn [Http.json_object_get trees].
  destruct (member_string p tr h h1 (chars "token") Hh Hm Ht ltac:(by_decide)) as (q & -> & H). cbn [mbind res_bind].
  destruct (tree_get tr _) as [j |]; [destruct H as (Hq & _ & Es) | subst q; rewrite Z.eqb_refl; by apply (end_answers p tr); [| | left]].
  rewrite (proj2 (Z.eqb_neq _ _)) by done. rewrite Es. cbn [mbind res_bind option_bind].
  destruct (Http.json_string_value trees j) as [tok |]; [| by apply (end_answers p tr); [| | left]].
  case_decide; [by apply (end_answers p tr); [| | left] |]. unfold strcpy_field. case_decide; [| done]. cbn [mbind res_bind].
  by apply (released_answers p tr).
Qed.
End answers.

(** ** The request *)

(** The query that is sent. *)
Definition query (t : PropertyPriv) : json :=
  TObject [(chars "simNo", TString (prop_sim (prop_req t))); (chars "number", TString (dec (prop_ch (prop_req t))))].

Lemma query_readable t : is_utf8 (prop_sim (prop_req t)) -> 0 ∉ prop_sim (prop_req t) ->
  INT_MIN <= prop_ch (prop_req t) <= INT_MAX -> readable 0 0 (query t).
Proof.
  intros Hu Hz Hr. unfold query. assert (Hk : forall k : list Z, bool_decide (0 ∈ k) = false -> 0 ∉ k) by (intros k; apply bool_decide_eq_false).
  destruct (dec_read (prop_ch (prop_req t)) []) as (Hp & _ & _); [unfold INT_MIN, INT_MAX, LLONG_MIN, LLONG_MAX in *; lia | unfold stops; cbn; set_solver |].
  destruct (plain_clean _ Hp) as [Hpu Hpz].
  constructor; [by_decide |]. constructor; [| constructor; [| constructor]]; cbn [fst snd]; (split; [split; [apply utf8_check; by vm_compute | apply Hk; by vm_compute] |]).
  - constructor; [done | by right].
  - constructor; [done |]. right. intros H0. rewrite Forall_forall in Hpz. by apply (Hpz 0).
Qed.

(** What is sent is read as the query. *)
Lemma request_reads t : is_utf8 (prop_sim (prop_req t)) -> 0 ∉ prop_sim (prop_req t) ->
  INT_MIN <= prop_ch (prop_req t) <= INT_MAX -> Http.json_loads trees (print 0 0 (query t)) = Some (query t).
Proof.
  intros Hu Hz Hr. pose proof (query_readable t Hu Hz Hr) as Hq. destruct (tree_clean 0 0 _ Hq 0) as [Hc _].
  cbn [Http.json_loads trees]. unfold read. rewrite utf8_whole by done. rewrite bool_decide_true by done.
  by rewrite (text_read 0 0 eq_refl (query t) _ Hq ltac:(unfold JSON_PARSER_MAX_DEPTH; cbn; lia) I (le_n _)).
Qed.

Section request.
Context {OT : ObjectTable} {OS : ObjectTableSpec OT} (text_alloc : Z -> bool) (Hta : forall n, text_alloc n = true)
  (alloc : Z -> Z -> bool) (Halloc : forall a n, alloc a n = true).

(** With memory, what constructs makes. *)
Lemma constructs_makes h t r : constructs alloc h t r -> exists p h', r = Ok (p, h') /\ p <> NULL /\ makes h p t h'.
Proof. intros (p & h' & -> & [[Hp Hm] | (_ & _ & x & Hx)]); [by exists p, h' | by rewrite Halloc in Hx]. Qed.

Lemma checked s : is_utf8 s -> utf8_check_string s (Z.of_nat (length s)) = Ok 1.
Proof.
  intros Hu. unfold utf8_check_string. rewrite Nat2Z.id.
  destruct (check_loop_spec s (key_bytes_utf8 s Hu) (S (length s)) 0%nat ltac:(lia) ltac:(lia)) as (b & E & H).
  change (Z.of_nat 0) with 0 in E. by rewrite E, (proj2 H).
Qed.

Lemma string_made h s : heap_ok h -> is_utf8 s -> Z.of_nat (length s) < 2 ^ 62 ->
  exists v h1, json_string alloc (Some s) h = Ok (v, h1) /\ v <> NULL /\ makes h v (TString s) h1.
Proof.
  intros Hh Hu Hl. unfold json_string, json_stringn, c_len. rewrite checked by done. cbn [mbind res_bind Z.eqb].
  unfold json_stringn_nocheck, string_create. cbn [option_map]. rewrite Nat2Z.id.
  destruct (jsonp_strdup_spec (alloc (next h)) s Hl) as (r & E & H). unfold jsonp_strdup in E. rewrite E. cbn [mbind res_bind].
  destruct H as [(b & -> & Hb) | (n & Hn)]; [| by rewrite Halloc in Hn]. by apply constructs_makes, own_string_constructs.
Qed.

Lemma member_made h0 p al h k s : heap_ok h0 -> makes h0 p (TObject al) h -> is_utf8 k -> is_utf8 s ->
  Z.of_nat (length al) < 2 ^ 31 -> Z.of_nat (length k) < 2 ^ 62 -> Z.of_nat (length s) < 2 ^ 62 ->
  exists h', set_string alloc p k s h = Ok h' /\ makes h0 p (TObject (assoc_set k (TString s) al)) h'.
Proof.
  intros (Hs & Hb & Hf) Hm Hk Hus Hal Hkl Hsl. unfold set_string.
  destruct (string_made h s (makes_ok _ _ _ _ Hm) Hus Hsl) as (v & h1 & -> & Hv & Hmv). cbn [mbind res_bind].
  destruct Hm as (m & Ho & Hd & Hc & Hok & Hle). destruct Hmv as (mv & Hov & Hdv & Hcv & Hokv & Hlev).
  rewrite Hc in Hdv, Hcv. apply map_disjoint_union_r in Hdv as [Dm Dc].
  assert (Hne : v <> p).
  { intros ->. inversion Ho; subst. inversion Hov; subst. apply map_disjoint_singleton_l in Dm. by rewrite lookup_insert_eq in Dm. }
  assert (Eh : h1 = MkHeap (m ∪ (mv ∪ cells h0)) (next h1)).
  { rewrite (heap_eta h1) at 1. rewrite Hcv. f_equal. by rewrite !(assoc_L (∪)), (map_union_comm mv m). }
  assert (D : m ##ₘ mv ∪ cells h0) by (apply map_disjoint_union_r; split; [by apply map_disjoint_sym | done]).
  destruct (set_new_tree alloc p al m v (mv ∪ cells h0) (next h1) k) as (m' & Hdom & H); try done; [by apply statics_in_union | by apply key_bytes_utf8 |].
  unfold json_object_set_new. rewrite checked by done. cbn [mbind res_bind Z.eqb]. rewrite Eh.
  destruct H as [[-> Hw] | (_ & _ & x & Hx)]; [| by rewrite Halloc in Hx]. cbn [mbind res_bind]. eexists. split; [done |].
  assert (D' : m' ##ₘ mv /\ m' ##ₘ cells h0) by (rewrite !map_disjoint_dom in *; set_solver). destruct D' as [D1 D2].
  exists (m' ∪ mv). cbn [cells next]. split_and!; [by apply Hw | by apply map_disjoint_union_l | by rewrite (assoc_L (∪)) | | lia].
  rewrite (assoc_L (∪)). apply (heap_ok_part (m ∪ mv) (m' ∪ mv) (cells h0) (next h1)); [| by apply map_disjoint_union_l | done | lia | rewrite !dom_union_L; set_solver].
  by rewrite <- (assoc_L (∪)), <- Eh.
Qed.

Lemma request_made t h : heap_ok h -> is_utf8 (prop_sim (prop_req t)) -> 0 ∉ prop_sim (prop_req t) ->
  INT_MIN <= prop_ch (prop_req t) <= INT_MAX -> (length (dec (prop_ch (prop_req t))) < 8)%nat ->
  Z.of_nat (length (print 0 0 (query t))) < 2 ^ 30 -> Z.of_nat (length (prop_sim (prop_req t))) < 2 ^ 62 ->
  exists h', undone h h' /\ tima_get_property_json_create text_alloc alloc true t h =
    Ok (MkProp (prop_req t) (uri t) (property t) (audio_type t) (video_type t) (Some (print 0 0 (query t))), h').
Proof.
  intros Hh Hu Hz Hr Hch Hlen Hsl. pose proof (query_readable t Hu Hz Hr) as Hq. unfold tima_get_property_json_create.
  rewrite bool_decide_true by done. cbn [assert_ok mbind res_bind].
  destruct (constructs_makes h (TObject []) (json_object alloc h)) as (p & h1 & -> & Hp & Hm); [by apply object_constructs |]. cbn [mbind res_bind].
  destruct (dec_read (prop_ch (prop_req t)) []) as (Hpl & _ & _); [unfold INT_MIN, INT_MAX, LLONG_MIN, LLONG_MAX in *; lia | unfold stops; cbn; set_solver |].
  destruct (member_made h p [] h1 (chars "simNo") (prop_sim (prop_req t)) Hh Hm) as (h2 & -> & Hm2);
    [apply utf8_check; by vm_compute | done | cbn; lia | cbn; lia | done |]. cbn [mbind res_bind assoc_set].
  destruct (member_made h p _ h2 (chars "number") (dec (prop_ch (prop_req t))) Hh Hm2) as (h3 & -> & Hm3);
    [apply utf8_check; by vm_compute | by apply plain_clean | vm_compute; done | vm_compute; done | lia |]. cbn [mbind res_bind].
  change (TObject (assoc_set (chars "number") _ _)) with (query t) in Hm3.
  destruct (decref_makes h p (query t) h3 Hh Hm3) as (h4 & E4 & Hun).
  destruct Hm3 as (m & Ho & Hd & Hc & Hok & Hle). destruct (tree_clean 0 0 _ Hq 0) as [_ Hnz].
  assert (Hn0 : 0 ∉ print 0 0 (query t)) by (intros H0; rewrite Forall_forall in Hnz; by apply (Hnz 0)).
  destruct (json_dumps_prints text_alloc 0 p (query t) m (cells h) (next h3) Ho Hd) as (r & E & H).
  1: by destruct Hh. 1: by eapply readable_printable. 1: cbn; lia. 1: done. 1: change (arranged 0 (query t)) with (query t); lia. 1: exact Hn0.
  rewrite <- Hc, <- heap_eta in E. rewrite E. cbn [mbind res_bind]. destruct H as [(v & -> & Hv) | (n & Hn)]; [| by rewrite Hta in Hn].
  cbn [of_option mbind res_bind]. rewrite (c_text_spec _ _ Hv Hn0). cbn [mbind res_bind negb]. rewrite E4. cbn [mbind res_bind]. by exists h4.
Qed.
End request.

(** C30. The answers, on jansson's heap, when the text buffer of the lexer gets its memory.  Taking apart the answer to an
    address query, the properties inside it and the answer to a token query, with every call of jansson made on the heap, gives what
    the functions of [Http] give over trees, the overflow of a field included.  Otherwise an allocation of a value has failed, and
    then false is returned and nothing is filled in, except that of an address query the address and the text of the properties may have been
    copied already.  On every path, errors included, everything that was loaded has been released: the cells are those from before. *)
Theorem answers_on_heap {OT : ObjectTable} {OS : ObjectTableSpec OT} (text_alloc : Z -> bool) (alloc : Z -> Z -> bool) data s h t k :
  (forall n, text_alloc n = true) -> heap_ok h -> default True (input <$> data) -> input s ->
  answers alloc h (tima_get_property_json_parse text_alloc alloc t data h) (Http.tima_get_property_json_parse trees t data)
    (fun t' => t' = t \/ copied t data t') /\
  answers alloc h (tima_json_property_parse text_alloc alloc t s h) (Ok (Http.tima_json_property_parse trees t s)) (eq t) /\
  answers alloc h (token_json_parse text_alloc alloc k data h) (Http.token_json_parse trees k data) (eq k).
Proof. intros Hta Hh Hd Hs. split_and!; [by apply get_property_answers | by apply property_answers | by apply token_answers]. Qed.

(** An answer with properties in it. *)
Definition sample_properties : list Z := text "{'audioCodeType': 6, 'videoCodeType': 98}".
Definition sample_answer : list Z :=
  text "{'returnSuccess': true, 'playAddress': 'rtmp://h/live', 'property': '{\'audioCodeType\': 6, \'videoCodeType\': 98}'}".

(** What a function returned, without the heap. *)
Definition returned {T} (r : res (bool * T * jheap (OT := hashtable_objects 7))) : option (bool * T) :=
  match r with Ok (ret, t, _) => Some (ret, t) | _ => None end.

Lemma answers_on_heap_witness :
  exists t h, tima_get_property_json_parse (OT := hashtable_objects 7) (fun _ => true) (fun _ _ => true) sample_query (Some sample_answer) empty_heap = Ok (true, t, h) /\
    uri t = chars "rtmp://h/live" /\ audio_type t = 6 /\ video_type t = 98 /\ cells h = cells empty_heap.
Proof.
  destruct (answers_on_heap (OT := hashtable_objects 7) (fun _ => true) (fun _ _ => true) (Some sample_answer) sample_properties empty_heap sample_query
    (MkToken (MkTokenReq [] []) [] None)) as (H & _ & _); [done | apply empty_heap_ok | apply input_bool; by vm_compute | apply input_bool; by vm_compute |].
  assert (E : (fun o : option (bool * PropertyPriv) => match o with Some (ret, t) => Some (ret, uri t, audio_type t, video_type t) | None => None end)
    (returned (tima_get_property_json_parse (OT := hashtable_objects 7) (fun _ => true) (fun _ _ => true) sample_query (Some sample_answer) empty_heap)) =
    Some (true, chars "rtmp://h/live", 6, 98)) by (vm_compute; reflexivity).
  destruct (tima_get_property_json_parse _ _ _ _ _) as [[[ret t] h] | |]; [| discriminate E | discriminate E].
  injection E as -> Eu Ea Ev. exists t, h. destruct H as [(Hc & _) _]. split; [reflexivity |]. split; [exact Eu |]. split; [exact Ea |]. split; [exact Ev | exact Hc].
Defined.

(** C31. The request, on jansson's heap.  With memory, the object of the query is made, printed and released: the cells are
    those from before, the text is the one [Http] sends, and whoever reads it finds the query: the SIM number and the
    channel as strings. *)
Theorem request_on_heap {OT : ObjectTable} {OS : ObjectTableSpec OT} (text_alloc : Z -> bool) (alloc : Z -> Z -> bool) t h :
  (forall n, text_alloc n = true) -> (forall a n, alloc a n = true) -> heap_ok h ->
  is_utf8 (prop_sim (prop_req t)) -> 0 ∉ prop_sim (prop_req t) -> Z.of_nat (length (prop_sim (prop_req t))) < 2 ^ 62 ->
  INT_MIN <= prop_ch (prop_req t) <= INT_MAX -> (length (dec (prop_ch (prop_req t))) < 8)%nat ->
  Z.of_nat (length (print 0 0 (query t))) < 2 ^ 30 ->
  exists t' h' s, tima_get_property_json_create text_alloc alloc true t h = Ok (t', h') /\ undone h h' /\
    Http.tima_get_property_json_create trees true t = Ok t' /\ post_data t' = Some s /\ Http.json_loads trees s = Some (query t).
Proof.
  intros Hta Ha Hh Hu Hz Hs Hr Hch Hl. destruct (request_made text_alloc Hta alloc Ha t h) as (h' & Hun & E); try done.
  eexists _, h', _. split; [exact E |]. split; [done |]. split; [| split; [done | by apply request_reads]].
  unfold Http.tima_get_property_json_create. by rewrite bool_decide_true by done.
Qed.

Lemma request_on_heap_witness :
  exists t' h', tima_get_property_json_create (OT := hashtable_objects 7) (fun _ => true) (fun _ _ => true) true sample_query empty_heap = Ok (t', h') /\
    cells h' = cells empty_heap /\ post_data t' = Some (text "{'simNo': '013800138000', 'number': '1'}").
Proof.
  destruct (request_on_heap (OT := hashtable_objects 7) (fun _ => true) (fun _ _ => true) sample_query empty_heap) as (t' & h' & s & E & (Hc & _) & Et & _).
  1-2: done. 1: apply empty_heap_ok. 1: apply utf8_check; by vm_compute. 1: apply (bool_decide_eq_false _); by vm_compute.
  1: by vm_compute. 1: unfold INT_MIN, INT_MAX; cbn; lia. 1: vm_compute; lia. 1: by vm_compute.
  exists t', h'. split; [exact E |]. split; [exact Hc |]. vm_compute in Et. injection Et as <-. reflexivity.
Defined.

(** ** Without memory

    The text that [json_dumps] returns is not looked at: without memory it is NULL, and its length is taken. *)
Lemma request_without_memory :
  match tima_get_property_json_create (OT := hashtable_objects 7) (fun _ => false) (fun _ _ => true) true sample_query empty_heap with UB => True | _ => False end.
Proof. by vm_compute. Qed.
