(* ===== verification/Evbuffer.v ===== *)
(** * Byte buffers of libevent

    The functions of [common/libevent/buffer.c] that the program's connections use, over a heap: chains and buffers live
    at addresses, a buffer points to its first and last chain and to the pointer at the last chain with data (a [slot]).
    The memory of a chain is a block of cells with its data somewhere inside.  Sizes are [size_t] values of 64 bits; a
    failed [EVUTIL_ASSERT] is [UB].  [alloc next n] tells whether an allocation of [n] bytes succeeds, when the next
    address is [next]; [client] is the state of those whose functions are called back.  The locks are held around every
    function, so each is one step.  Chains come from [evbuffer_chain_new]: those of references, file segments and
    multicast are not made here, so what freeing them adds has no part in the model. *)

From S2P Require Import Prelude.

Definition SIZE_MAX : Z := 2 ^ 64 - 1.
Definition EVBUFFER_CHAIN_MAX : Z := 2 ^ 63 - 1.
Definition EVBUFFER_CHAIN_SIZE : Z := 48.
Definition MIN_BUFFER_SIZE : Z := 1024.
Definition EVBUFFER_CHAIN_MAX_AUTO_SIZE : Z := 4096.
Definition MAX_TO_REALIGN_IN_EXPAND : Z := 2048.

Definition EVBUFFER_IMMUTABLE : Z := 8.
Definition EVBUFFER_MEM_PINNED_R : Z := 16.
Definition EVBUFFER_MEM_PINNED_W : Z := 32.
Definition EVBUFFER_MEM_PINNED_ANY : Z := Z.lor EVBUFFER_MEM_PINNED_R EVBUFFER_MEM_PINNED_W.
Definition EVBUFFER_DANGLING : Z := 64.

Definition EVBUFFER_CB_ENABLED : Z := 1.

Definition NULL : Z := 0.

Record evbuffer_chain := MkChain {
  next : Z;
  buffer_len : Z;
  misalign : Z;
  off : Z;
  flags : Z;
  chain_refcnt : Z;
  cbuffer : block Z
}.

(** A pointer to a pointer to a chain: the buffer's first one, or the next one of a chain. *)
Inductive slot := First | NextOf (p : Z).

#[export] Instance slot_eq_dec : EqDecision slot.
Proof. solve_decision. Defined.

(** The functions of callbacks are named by numbers. *)
Record evbuffer_cb_entry := MkCb { cb_func : Z; cbarg : Z; cb_flags : Z }.
Record evbuffer_cb_info := MkInfo { orig_size : Z; n_added : Z; n_deleted : Z }.

Record evbuffer := MkEvbuffer {
  first : Z;
  last : Z;
  last_with_datap : slot;
  total_len : Z;
  n_add_for_cb : Z;
  n_del_for_cb : Z;
  freeze_start : bool;
  freeze_end : bool;
  refcnt : Z;
  callbacks : list evbuffer_cb_entry
}.

Record heap (C : Type) := MkHeap { chains : gmap Z evbuffer_chain; buffers : gmap Z evbuffer; fresh : Z; client : C }.
Arguments MkHeap {C} _ _ _ _.
Arguments chains {C} _.
Arguments buffers {C} _.
Arguments fresh {C} _.
Arguments client {C} _.

(** Changes of one field. *)
Definition set_next (c : evbuffer_chain) p := MkChain p (buffer_len c) (misalign c) (off c) (flags c) (chain_refcnt c) (cbuffer c).
Definition set_off (c : evbuffer_chain) n := MkChain (next c) (buffer_len c) (misalign c) n (flags c) (chain_refcnt c) (cbuffer c).
Definition set_misalign (c : evbuffer_chain) n := MkChain (next c) (buffer_len c) n (off c) (flags c) (chain_refcnt c) (cbuffer c).
Definition set_flags (c : evbuffer_chain) f := MkChain (next c) (buffer_len c) (misalign c) (off c) f (chain_refcnt c) (cbuffer c).
Definition set_chain_refcnt (c : evbuffer_chain) n := MkChain (next c) (buffer_len c) (misalign c) (off c) (flags c) n (cbuffer c).
Definition set_cbuffer (c : evbuffer_chain) b := MkChain (next c) (buffer_len c) (misalign c) (off c) (flags c) (chain_refcnt c) b.

Definition set_first (e : evbuffer) p :=
  MkEvbuffer p (last e) (last_with_datap e) (total_len e) (n_add_for_cb e) (n_del_for_cb e) (freeze_start e) (freeze_end e) (refcnt e) (callbacks e).
Definition set_last (e : evbuffer) p :=
  MkEvbuffer (first e) p (last_with_datap e) (total_len e) (n_add_for_cb e) (n_del_for_cb e) (freeze_start e) (freeze_end e) (refcnt e) (callbacks e).
Definition set_datap (e : evbuffer) s :=
  MkEvbuffer (first e) (last e) s (total_len e) (n_add_for_cb e) (n_del_for_cb e) (freeze_start e) (freeze_end e) (refcnt e) (callbacks e).
Definition set_total (e : evbuffer) n :=
  MkEvbuffer (first e) (last e) (last_with_datap e) n (n_add_for_cb e) (n_del_for_cb e) (freeze_start e) (freeze_end e) (refcnt e) (callbacks e).
Definition set_counts (e : evbuffer) a d :=
  MkEvbuffer (first e) (last e) (last_with_datap e) (total_len e) a d (freeze_start e) (freeze_end e) (refcnt e) (callbacks e).
Definition set_freeze (e : evbuffer) s t :=
  MkEvbuffer (first e) (last e) (last_with_datap e) (total_len e) (n_add_for_cb e) (n_del_for_cb e) s t (refcnt e) (callbacks e).
Definition set_callbacks (e : evbuffer) l :=
  MkEvbuffer (first e) (last e) (last_with_datap e) (total_len e) (n_add_for_cb e) (n_del_for_cb e) (freeze_start e) (freeze_end e) (refcnt e) l.

Section heap_access.
Context {C : Type}.
Implicit Types (w : heap C).

Definition chain_at (p : Z) w : res evbuffer_chain := of_option (chains w !! p).
Definition buf_at (b : Z) w : res evbuffer := of_option (buffers w !! b).
Definition put_chain (p : Z) (c : evbuffer_chain) w : heap C := MkHeap (<[p := c]> (chains w)) (buffers w) (fresh w) (client w).
Definition put_buf (b : Z) (e : evbuffer) w : heap C := MkHeap (chains w) (<[b := e]> (buffers w)) (fresh w) (client w).
Definition mm_free (p : Z) w : heap C := MkHeap (delete p (chains w)) (buffers w) (fresh w) (client w).

(** Loading from and storing to a pointer to a pointer of buffer [b]. *)
Definition get_slot (b : Z) (s : slot) w : res Z :=
  match s with First => e ← buf_at b w; Ok (first e) | NextOf p => c ← chain_at p w; Ok (next c) end.
Definition set_slot (b : Z) (s : slot) (v : Z) w : res (heap C) :=
  match s with
  | First => e ← buf_at b w; Ok (put_buf b (set_first e v) w)
  | NextOf p => c ← chain_at p w; Ok (put_chain p (set_next c v) w)
  end.

(** Enough for any list of chains. *)
Definition chain_fuel w : nat := S (base.size (chains w)).
End heap_access.

Definition CHAIN_PINNED (c : evbuffer_chain) : bool := negb (Z.land (flags c) EVBUFFER_MEM_PINNED_ANY =? 0).
Definition CHAIN_PINNED_R (c : evbuffer_chain) : bool := negb (Z.land (flags c) EVBUFFER_MEM_PINNED_R =? 0).
Definition immutable (c : evbuffer_chain) : bool := negb (Z.land (flags c) EVBUFFER_IMMUTABLE =? 0).

(** Doubling the least allocation until the size fits; 54 steps reach [2 ^ 64]. *)
Fixpoint double_until (fuel : nat) (to_alloc size : Z) : res Z :=
  match fuel with
  | O => NoFuel
  | S fuel => if to_alloc <? size then double_until fuel (u64 (Z.shiftl to_alloc 1)) size else Ok to_alloc
  end.

Section code.
Context {C : Type} (alloc : Z -> Z -> bool) (run_cb : evbuffer_cb_entry -> Z -> evbuffer_cb_info -> heap C -> res (heap C)).
Implicit Types (w : heap C).

(** ** Chains *)

Definition evbuffer_chain_new (size : Z) w : res (Z * heap C) :=
  if size >? EVBUFFER_CHAIN_MAX - EVBUFFER_CHAIN_SIZE then Ok (NULL, w) else
  let size := u64 (size + EVBUFFER_CHAIN_SIZE) in
  to_alloc ← (if size <? EVBUFFER_CHAIN_MAX / 2 then double_until 55 MIN_BUFFER_SIZE size else Ok size);
  if alloc (fresh w) to_alloc then
    let len := u64 (to_alloc - EVBUFFER_CHAIN_SIZE) in
    let chain := MkChain NULL len 0 0 0 1 (blk_malloc (Z.to_nat len)) in
    Ok (fresh w, MkHeap (<[fresh w := chain]> (chains w)) (buffers w) (fresh w + 1) (client w))
  else Ok (NULL, w).

Definition evbuffer_chain_free (chain : Z) w : res (heap C) :=
  c ← chain_at chain w;
  _ ← assert_ok (chain_refcnt c >? 0);
  let n := chain_refcnt c - 1 in
  if n >? 0 then Ok (put_chain chain (set_chain_refcnt c n) w) else
  if CHAIN_PINNED c then Ok (put_chain chain (set_flags (set_chain_refcnt c (n + 1)) (Z.lor (flags c) EVBUFFER_DANGLING)) w)
  else Ok (mm_free chain w).

Fixpoint free_chains (fuel : nat) (chain : Z) w : res (heap C) :=
  match fuel with
  | O => NoFuel
  | S fuel =>
      if chain =? NULL then Ok w else
      c ← chain_at chain w; w ← evbuffer_chain_free chain w; free_chains fuel (next c) w
  end.

Definition evbuffer_free_all_chains (chain : Z) w : res (heap C) := free_chains (chain_fuel w) chain w.

Fixpoint all_empty (fuel : nat) (chain : Z) w : res bool :=
  match fuel with
  | O => NoFuel
  | S fuel =>
      if chain =? NULL then Ok true else
      c ← chain_at chain w; if negb (off c =? 0) then Ok false else all_empty fuel (next c) w
  end.

Definition evbuffer_chains_all_empty (chain : Z) w : res bool := all_empty (chain_fuel w) chain w.

(** The first chain from [ch] on that is empty and not pinned. *)
Fixpoint first_victim (fuel : nat) (b : Z) (ch : slot) w : res slot :=
  match fuel with
  | O => NoFuel
  | S fuel =>
      p ← get_slot b ch w;
      if p =? NULL then Ok ch else
      c ← chain_at p w;
      if negb (off c =? 0) || CHAIN_PINNED c then first_victim fuel b (NextOf p) w else Ok ch
  end.

Definition evbuffer_free_trailing_empty_chains (b : Z) w : res (slot * heap C) :=
  e ← buf_at b w;
  ch ← first_victim (chain_fuel w) b (last_with_datap e) w;
  p ← get_slot b ch w;
  if p =? NULL then Ok (ch, w) else
  empty ← evbuffer_chains_all_empty p w;
  _ ← assert_ok empty;
  w ← evbuffer_free_all_chains p w;
  w ← set_slot b ch NULL w; Ok (ch, w).

Definition slot_is_first (s : slot) : bool := match s with First => true | NextOf _ => false end.

Definition evbuffer_chain_insert (b chain : Z) w : res (heap C) :=
  e ← buf_at b w;
  d ← get_slot b (last_with_datap e) w;
  w ← (if d =? NULL then
         _ ← assert_ok (slot_is_first (last_with_datap e));
         _ ← assert_ok (first e =? NULL);
         Ok (put_buf b (set_last (set_first e chain) chain) w)
       else
         '(chp, w) ← evbuffer_free_trailing_empty_chains b w;
         w ← set_slot b chp chain w;
         c ← chain_at chain w; e ← buf_at b w;
         let e := if negb (off c =? 0) then set_datap e chp else e in
         Ok (put_buf b (set_last e chain) w));
  c ← chain_at chain w; e ← buf_at b w;
  Ok (put_buf b (set_total e (u64 (total_len e + off c))) w).

(** ** Buffers *)

Definition evbuffer_new w : Z * heap C :=
  if alloc (fresh w) 144 then
    (fresh w, MkHeap (chains w) (<[fresh w := MkEvbuffer NULL NULL First 0 0 0 false false 1 []]> (buffers w)) (fresh w + 1) (client w))
  else (NULL, w).

Definition evbuffer_get_length (b : Z) w : res Z := e ← buf_at b w; Ok (total_len e).

Definition evbuffer_freeze (b : Z) (start : bool) w : res (heap C) :=
  e ← buf_at b w;
  Ok (put_buf b (if start then set_freeze e true (freeze_end e) else set_freeze e (freeze_start e) true) w).

Definition evbuffer_unfreeze (b : Z) (start : bool) w : res (heap C) :=
  e ← buf_at b w;
  Ok (put_buf b (if start then set_freeze e false (freeze_end e) else set_freeze e (freeze_start e) false) w).

(** A new callback is the first one. *)
Definition evbuffer_add_cb (b func arg : Z) w : res (bool * heap C) :=
  if negb (alloc (fresh w) 40) then Ok (false, w) else
  e ← buf_at b w;
  Ok (true, put_buf b (set_callbacks e (MkCb func arg EVBUFFER_CB_ENABLED :: callbacks e)) w).

(** The enabled callbacks, one after the other. *)
Fixpoint call_each (l : list evbuffer_cb_entry) (b : Z) (info : evbuffer_cb_info) w : res (heap C) :=
  match l with
  | [] => Ok w
  | cbent :: l =>
      if negb (Z.land (cb_flags cbent) EVBUFFER_CB_ENABLED =? EVBUFFER_CB_ENABLED) then call_each l b info w
      else w ← run_cb cbent b info w; call_each l b info w
  end.

(** The counters are cleared before the callbacks run. *)
Definition evbuffer_run_callbacks (b : Z) w : res (heap C) :=
  e ← buf_at b w;
  if bool_decide (callbacks e = []) then Ok (put_buf b (set_counts e 0 0) w) else
  if (n_add_for_cb e =? 0) && (n_del_for_cb e =? 0) then Ok w else
  let info := MkInfo (u64 (total_len e + n_del_for_cb e - n_add_for_cb e)) (n_add_for_cb e) (n_del_for_cb e) in
  call_each (callbacks e) b info (put_buf b (set_counts e 0 0) w).

(** No callbacks of a buffer are deferred here. *)
Definition evbuffer_invoke_callbacks_ (b : Z) w : res (heap C) :=
  e ← buf_at b w;
  if bool_decide (callbacks e = []) then Ok (put_buf b (set_counts e 0 0) w) else evbuffer_run_callbacks b w.

Definition evbuffer_decref_and_unlock_ (b : Z) w : res (heap C) :=
  e ← buf_at b w;
  _ ← assert_ok (refcnt e >? 0);
  let n := refcnt e - 1 in
  if n >? 0 then
    Ok (put_buf b (MkEvbuffer (first e) (last e) (last_with_datap e) (total_len e) (n_add_for_cb e) (n_del_for_cb e)
                     (freeze_start e) (freeze_end e) n (callbacks e)) w)
  else
    w ← free_chains (chain_fuel w) (first e) w;
    Ok (MkHeap (chains w) (delete b (buffers w)) (fresh w) (client w)).

Definition evbuffer_free (b : Z) w : res (heap C) := evbuffer_decref_and_unlock_ b w.

(** ** Adding *)

(** Helper: realigns the memory of the chain so that [misalign] is 0. *)
Definition evbuffer_chain_align (chain : Z) w : res (heap C) :=
  c ← chain_at chain w;
  _ ← assert_ok (negb (immutable c)); _ ← assert_ok (negb (CHAIN_PINNED c));
  cells ← blk_copy (Z.to_nat (misalign c)) (Z.to_nat (off c)) (cbuffer c);
  blk ← blk_store 0 cells (cbuffer c);
  Ok (put_chain chain (set_misalign (set_cbuffer c blk) 0) w).

Definition evbuffer_chain_should_realign (c : evbuffer_chain) (datlen : Z) : bool :=
  (u64 (buffer_len c - off c) >=? datlen) && (off c <? buffer_len c / 2) && (off c <=? MAX_TO_REALIGN_IN_EXPAND).

(** The cells [data] behind the data of a chain of [b]. *)
Definition append_here (b chain : Z) (data : block Z) w : res (heap C) :=
  c ← chain_at chain w; e ← buf_at b w;
  blk ← blk_store (Z.to_nat (misalign c + off c)) data (cbuffer c);
  let n := Z.of_nat (length data) in
  let w := put_chain chain (set_off (set_cbuffer c blk) (u64 (off c + n))) w in
  Ok (put_buf b (set_counts (set_total e (u64 (total_len e + n))) (u64 (n_add_for_cb e + n)) (n_del_for_cb e)) w).

(** The chain to write to, a new one when there is none; NULL without memory. *)
Definition chain_to_fill (b datlen : Z) w : res (Z * heap C) :=
  e ← buf_at b w;
  d ← get_slot b (last_with_datap e) w;
  let chain := if d =? NULL then last e else d in
  if chain =? NULL then
    '(chain, w) ← evbuffer_chain_new datlen w;
    if chain =? NULL then Ok (NULL, w) else w ← evbuffer_chain_insert b chain w; Ok (chain, w)
  else Ok (chain, w).

(** The rest of the data goes into another chain. *)
Definition add_another (b chain : Z) (data : block Z) w : res (bool * heap C) :=
  c ← chain_at chain w;
  let remain := if immutable c then 0 else u64 (buffer_len c - misalign c - off c) in
  let datlen := Z.of_nat (length data) in
  let to_alloc := if buffer_len c <=? EVBUFFER_CHAIN_MAX_AUTO_SIZE / 2 then u64 (Z.shiftl (buffer_len c) 1) else buffer_len c in
  let to_alloc := if datlen >? to_alloc then datlen else to_alloc in
  '(tmp, w) ← evbuffer_chain_new to_alloc w;
  if tmp =? NULL then Ok (false, w) else
  w ← (if negb (remain =? 0) then append_here b chain (take (Z.to_nat remain) data) w else Ok w);
  let data := drop (Z.to_nat remain) data in
  let n := Z.of_nat (length data) in
  t ← chain_at tmp w;
  blk ← blk_store 0 data (cbuffer t);
  w ← evbuffer_chain_insert b tmp (put_chain tmp (set_off (set_cbuffer t blk) n) w);
  e ← buf_at b w;
  Ok (true, put_buf b (set_counts e (u64 (n_add_for_cb e + n)) (n_del_for_cb e)) w).

(** [evbuffer_add] before its callbacks; [false] is the result -1. *)
Definition add_data (b : Z) (data : block Z) w : res (bool * heap C) :=
  let datlen := Z.of_nat (length data) in
  e ← buf_at b w;
  if freeze_end e then Ok (false, w) else
  if datlen >? SIZE_MAX - total_len e then Ok (false, w) else
  '(chain, w) ← chain_to_fill b datlen w;
  if chain =? NULL then Ok (false, w) else
  c ← chain_at chain w;
  _ ← assert_ok (immutable c || ((0 <=? misalign c) && (misalign c <=? EVBUFFER_CHAIN_MAX)));
  let remain := u64 (buffer_len c - misalign c - off c) in
  if negb (immutable c) && (remain >=? datlen) then w ← append_here b chain data w; Ok (true, w) else
  if negb (immutable c) && negb (CHAIN_PINNED c) && evbuffer_chain_should_realign c datlen then
    w ← evbuffer_chain_align chain w; w ← append_here b chain data w; Ok (true, w)
  else add_another b chain data w.

Definition evbuffer_add (b : Z) (data : block Z) w : res (Z * heap C) :=
  '(ok, w) ← add_data b data w;
  if negb ok then Ok (-1, w) else w ← evbuffer_invoke_callbacks_ b w; Ok (0, w).

(** ** Removing *)

Definition HAS_PINNED_R (e : evbuffer) w : res bool :=
  if last e =? NULL then Ok false else c ← chain_at (last e) w; Ok (CHAIN_PINNED_R c).

Definition ZERO_CHAIN (b : Z) w : res (heap C) :=
  e ← buf_at b w; Ok (put_buf b (set_total (set_datap (set_last (set_first e NULL) NULL) First) 0) w).

Definition slot_eqb (s1 s2 : slot) : bool :=
  match s1, s2 with First, First => true | NextOf p, NextOf q => p =? q | _, _ => false end.

(** Draining part of the data: the chain at which it stops, what is to be taken from it. *)
Fixpoint drain_chains (fuel : nat) (b chain remaining : Z) w : res (Z * Z * heap C) :=
  match fuel with
  | O => NoFuel
  | S fuel =>
      c ← chain_at chain w;
      if negb (remaining >=? off c) then Ok (chain, remaining, w) else
      let remaining := u64 (remaining - off c) in
      e ← buf_at b w;
      d ← get_slot b (last_with_datap e) w;
      let w := if chain =? d then put_buf b (set_datap e First) w else w in
      e ← buf_at b w;
      let w := if slot_eqb (NextOf chain) (last_with_datap e) then put_buf b (set_datap e First) w else w in
      if CHAIN_PINNED_R c then
        _ ← assert_ok (remaining =? 0);
        Ok (chain, remaining, put_chain chain (set_off (set_misalign c (misalign c + off c)) 0) w)
      else
        w ← evbuffer_chain_free chain w; drain_chains fuel b (next c) remaining w
  end.

(** [evbuffer_drain] before its callbacks, when there is something and it may be taken. *)
Definition drain_some (b len : Z) w : res (heap C) :=
  e ← buf_at b w;
  let old_len := total_len e in
  pinned ← HAS_PINNED_R e w;
  if (len >=? old_len) && negb pinned then
    w ← free_chains (chain_fuel w) (first e) w;
    w ← ZERO_CHAIN b w;
    e ← buf_at b w; Ok (put_buf b (set_counts e (n_add_for_cb e) (u64 (n_del_for_cb e + old_len))) w)
  else
    let len := if len >=? old_len then old_len else len in
    let w := put_buf b (set_total e (u64 (total_len e - len))) w in
    '(chain, remaining, w) ← drain_chains (chain_fuel w) b (first e) len w;
    e ← buf_at b w;
    let w := put_buf b (set_first e chain) w in
    _ ← assert_ok (negb (chain =? NULL));
    c ← chain_at chain w;
    _ ← assert_ok (remaining <=? off c);
    let w := put_chain chain (set_off (set_misalign c (misalign c + remaining)) (u64 (off c - remaining))) w in
    e ← buf_at b w; Ok (put_buf b (set_counts e (n_add_for_cb e) (u64 (n_del_for_cb e + len))) w).

Definition evbuffer_drain (b len : Z) w : res (Z * heap C) :=
  e ← buf_at b w;
  if total_len e =? 0 then Ok (0, w) else
  if freeze_start e then Ok (-1, w) else
  w ← drain_some b len w;
  w ← evbuffer_invoke_callbacks_ b w; Ok (0, w).

(** A position: from the start of the buffer, and in its chain. *)
Record evbuffer_ptr := MkPtr { pos : Z; ptr_chain : Z; pos_in_chain : Z }.

(** Copying whole chains: the chain behind them and what is still to be copied. *)
Fixpoint copy_chains (fuel : nat) (chain pos_in_chain datlen : Z) (out : block Z) w : res (Z * Z * Z * block Z) :=
  match fuel with
  | O => NoFuel
  | S fuel =>
      if datlen =? 0 then Ok (chain, pos_in_chain, datlen, out) else
      c ← chain_at chain w;
      let copylen := u64 (off c - pos_in_chain) in
      if negb (datlen >=? copylen) then Ok (chain, pos_in_chain, datlen, out) else
      cells ← blk_copy (Z.to_nat (misalign c + pos_in_chain)) (Z.to_nat copylen) (cbuffer c);
      let datlen := u64 (datlen - copylen) in
      _ ← assert_ok (negb (next c =? NULL) || (datlen =? 0));
      copy_chains fuel (next c) 0 datlen (out ++ cells) w
  end.

(** The result and the cells copied out. *)
Definition evbuffer_copyout_from (b : Z) (from : option evbuffer_ptr) (datlen : Z) w : res (Z * block Z) :=
  e ← buf_at b w;
  let '(chain, pos_in_chain, start) := match from with Some p => (ptr_chain p, pos_in_chain p, pos p) | None => (first e, 0, 0) end in
  if bool_decide (is_Some from) && (datlen >? EVBUFFER_CHAIN_MAX - start) then Ok (-1, []) else
  let datlen := if u64 (datlen + start) >? total_len e then u64 (total_len e - start) else datlen in
  if datlen =? 0 then Ok (0, []) else
  if freeze_start e then Ok (-1, []) else
  '(chain, pos_in_chain, rest, out) ← copy_chains (chain_fuel w) chain pos_in_chain datlen [] w;
  if rest =? 0 then Ok (datlen, out) else
  _ ← assert_ok (negb (chain =? NULL));
  c ← chain_at chain w;
  _ ← assert_ok (rest + pos_in_chain <=? off c);
  cells ← blk_copy (Z.to_nat (misalign c + pos_in_chain)) (Z.to_nat rest) (cbuffer c);
  Ok (datlen, out ++ cells).

Definition evbuffer_copyout (b datlen : Z) w : res (Z * block Z) := evbuffer_copyout_from b None datlen w.

Definition evbuffer_remove (b datlen : Z) w : res (Z * block Z * heap C) :=
  '(n, out) ← evbuffer_copyout_from b None datlen w;
  if n >? 0 then
    '(r, w) ← evbuffer_drain b n w;
    Ok (if r <? 0 then -1 else i32 n, out, w)
  else Ok (i32 n, out, w).

(** ** Moving from one buffer to another *)

(** The chains pinned for reading, which stay: the first and the last one. *)
Definition PRESERVE_PINNED (src : Z) w : res (bool * Z * Z * heap C) :=
  e ← buf_at src w;
  has ← HAS_PINNED_R e w;
  if negb has then Ok (true, NULL, NULL, w) else
  p ← get_slot src (last_with_datap e) w;
  c ← chain_at p w;
  let pinned := if CHAIN_PINNED_R c then last_with_datap e else NextOf p in
  chain ← get_slot src pinned w;
  c ← chain_at chain w;
  _ ← assert_ok (CHAIN_PINNED_R c);
  let first_pinned := chain in
  let last_pinned := last e in
  if negb (off c =? 0) then
    _ ← assert_ok (slot_eqb pinned (last_with_datap e));
    '(tmp, w) ← evbuffer_chain_new (off c) w;
    if tmp =? NULL then Ok (false, first_pinned, last_pinned, w) else
    t ← chain_at tmp w;
    cells ← blk_copy (Z.to_nat (misalign c)) (Z.to_nat (off c)) (cbuffer c);
    blk ← blk_store 0 cells (cbuffer t);
    let w := put_chain tmp (set_off (set_cbuffer t blk) (off c)) w in
    w ← set_slot src (last_with_datap e) tmp w;
    e ← buf_at src w;
    let w := put_buf src (set_last e tmp) w in
    c ← chain_at chain w;
    Ok (true, first_pinned, last_pinned, put_chain chain (set_off (set_misalign c (misalign c + off c)) 0) w)
  else
    l ← get_slot src (last_with_datap e) w;
    w ← set_slot src pinned NULL (put_buf src (set_last e l) w);
    Ok (true, first_pinned, last_pinned, w).

Definition RESTORE_PINNED (src pinned last : Z) w : res (heap C) :=
  if pinned =? NULL then ZERO_CHAIN src w else
  e ← buf_at src w;
  Ok (put_buf src (set_total (set_datap (set_last (set_first e pinned) last) First) 0) w).

Definition COPY_CHAIN (dst src : Z) w : res (heap C) :=
  d ← buf_at dst w; s ← buf_at src w;
  Ok (put_buf dst (set_total (set_last (set_datap (set_first d (first s)) (last_with_datap s)) (last s)) (total_len s)) w).

Definition APPEND_CHAIN (dst src : Z) w : res (heap C) :=
  '(chp, w) ← evbuffer_free_trailing_empty_chains dst w;
  s ← buf_at src w;
  w ← set_slot dst chp (first s) w;
  d ← buf_at dst w;
  let datap := if slot_is_first (last_with_datap s) then chp else last_with_datap s in
  Ok (put_buf dst (set_total (set_last (set_datap d datap) (last s)) (u64 (total_len d + total_len s))) w).

(** [evbuffer_add_buffer] before its callbacks, when there is something to move and it may be moved. *)
Definition move_all (outbuf inbuf : Z) w : res (bool * heap C) :=
  i ← buf_at inbuf w; o ← buf_at outbuf w;
  let in_total_len := total_len i in
  '(ok, pinned, last, w) ← PRESERVE_PINNED inbuf w;
  if negb ok then Ok (false, w) else
  w ← (if total_len o =? 0 then w ← evbuffer_free_all_chains (first o) w; COPY_CHAIN outbuf inbuf w else APPEND_CHAIN outbuf inbuf w);
  w ← RESTORE_PINNED inbuf pinned last w;
  i ← buf_at inbuf w;
  let w := put_buf inbuf (set_counts i (n_add_for_cb i) (u64 (n_del_for_cb i + in_total_len))) w in
  o ← buf_at outbuf w;
  Ok (true, put_buf outbuf (set_counts o (u64 (n_add_for_cb o + in_total_len)) (n_del_for_cb o)) w).

Definition evbuffer_add_buffer (outbuf inbuf : Z) w : res (Z * heap C) :=
  i ← buf_at inbuf w; o ← buf_at outbuf w;
  if (total_len i =? 0) || (outbuf =? inbuf) then Ok (0, w) else
  if freeze_end o || freeze_start i then Ok (-1, w) else
  '(ok, w) ← move_all outbuf inbuf w;
  if negb ok then Ok (-1, w) else
  w ← evbuffer_invoke_callbacks_ inbuf w;
  w ← evbuffer_invoke_callbacks_ outbuf w; Ok (0, w).

(** The chains that [datlen] bytes cover: the one in front of the first that stays, that one, and what they hold. *)
Fixpoint whole_chains (fuel : nat) (src chain previous nread datlen : Z) w : res (Z * Z * Z * Z * heap C) :=
  match fuel with
  | O => NoFuel
  | S fuel =>
      c ← chain_at chain w;
      if negb (off c <=? datlen) then Ok (previous, chain, nread, datlen, w) else
      s ← buf_at src w;
      d ← get_slot src (last_with_datap s) w;
      _ ← assert_ok (negb (chain =? d));
      let w := if slot_eqb (NextOf chain) (last_with_datap s) then put_buf src (set_datap s First) w else w in
      whole_chains fuel src (next c) chain (u64 (nread + off c)) (u64 (datlen - off c)) w
  end.

(** The number of steps is not returned. *)
Fixpoint advance_loop (fuel : nat) (b : Z) w : res (heap C) :=
  match fuel with
  | O => NoFuel
  | S fuel =>
      e ← buf_at b w;
      p ← get_slot b (last_with_datap e) w;
      c ← chain_at p w;
      if next c =? NULL then Ok w else
      n ← chain_at (next c) w;
      if off n =? 0 then Ok w else advance_loop fuel b (put_buf b (set_datap e (NextOf p)) w)
  end.

Definition advance_last_with_data (b : Z) w : res (heap C) :=
  e ← buf_at b w;
  p ← get_slot b (last_with_datap e) w;
  if p =? NULL then Ok w else advance_loop (chain_fuel w) b w.

(** The chains up to [previous] move to [dst]. *)
Definition move_chains (src dst previous chain nread : Z) w : res (heap C) :=
  '(chp, w) ← evbuffer_free_trailing_empty_chains dst w;
  s ← buf_at src w; d ← buf_at dst w;
  w ← (if first d =? NULL then Ok (put_buf dst (set_first d (first s)) w) else set_slot dst chp (first s) w);
  d ← buf_at dst w;
  p ← chain_at previous w;
  let w := put_chain previous (set_next p NULL) (put_buf dst (set_last d previous) w) in
  s ← buf_at src w;
  let w := put_buf src (set_first s chain) w in
  w ← advance_last_with_data dst w;
  d ← buf_at dst w;
  Ok (put_buf dst (set_counts (set_total d (u64 (total_len d + nread))) (u64 (n_add_for_cb d + nread)) (n_del_for_cb d)) w).

Definition evbuffer_remove_buffer (src dst datlen : Z) w : res (Z * heap C) :=
  s ← buf_at src w; d ← buf_at dst w;
  if (datlen =? 0) || (dst =? src) then Ok (0, w) else
  if freeze_end d || freeze_start s then Ok (-1, w) else
  if datlen >=? total_len s then
    let datlen := total_len s in
    '(_, w) ← evbuffer_add_buffer dst src w; Ok (i32 datlen, w)
  else
    '(previous, chain, nread, datlen, w) ← whole_chains (chain_fuel w) src (first s) (first s) 0 datlen w;
    w ← (if negb (nread =? 0) then move_chains src dst previous chain nread w else Ok w);
    c ← chain_at chain w;
    cells ← blk_copy (Z.to_nat (misalign c)) (Z.to_nat datlen) (cbuffer c);
    '(_, w) ← evbuffer_add dst cells w;
    c ← chain_at chain w;
    let w := put_chain chain (set_off (set_misalign c (misalign c + datlen)) (u64 (off c - datlen))) w in
    let nread := u64 (nread + datlen) in
    s ← buf_at src w;
    let w := put_buf src (set_counts (set_total s (u64 (total_len s - nread))) (n_add_for_cb s) (u64 (n_del_for_cb s + nread))) w in
    if nread =? 0 then Ok (i32 nread, w) else
    w ← evbuffer_invoke_callbacks_ dst w;
    w ← evbuffer_invoke_callbacks_ src w; Ok (i32 nread, w).
End code.
