(* ===== verification/EvChains.v ===== *)
(** * What a byte buffer holds

    The buffers of [Evbuffer] as sequences of bytes.  A buffer is a list of nodes: chains with their addresses and the data in
    them, linked in the order of the list; the chains behind the last one with data are empty.  The heap is made of the
    nodes of all buffers and nothing else, so that a chain that is lost shows. *)

From S2P Require Import Prelude Evbuffer.

Record node := Node { addr : Z; ch : evbuffer_chain; dat : list Z }.

(** The data of a chain lies behind [misalign] cells of its block; nothing is pinned or shared. *)
Definition chain_holds (c : evbuffer_chain) (xs : list Z) : Prop :=
  flags c = 0 /\ chain_refcnt c = 1 /\ off c = Z.of_nat (length xs) /\ buffer_len c = Z.of_nat (length (cbuffer c)) /\
  buffer_len c <= 2 ^ 61 - EVBUFFER_CHAIN_SIZE /\ exists pre post, cbuffer c = pre ++ (Some <$> xs) ++ post /\ misalign c = Z.of_nat (length pre).

Definition node_ok (n : node) : Prop := chain_holds (ch n) (dat n).
Definition empty (n : node) : Prop := dat n = [].

Definition content (cs : list node) : list Z := concat (dat <$> cs).

Definition head_at (cs : list node) : Z := match cs with [] => NULL | n :: _ => addr n end.
Definition last_at (cs : list node) : Z := match rev cs with [] => NULL | n :: _ => addr n end.

Fixpoint linked (cs : list node) : Prop :=
  match cs with [] => True | n :: cs => next (ch n) = head_at cs /\ linked cs end.

(** The pointer at the node behind [pre]. *)
Definition slot_after (pre : list node) : slot := match rev pre with [] => First | n :: _ => NextOf (addr n) end.

(** The last node with data is [t], or all are empty and it is the first one. *)
Definition focused (cs : list node) (s : slot) : Prop :=
  (cs = [] /\ s = First) \/
  (exists pre t post, cs = pre ++ t :: post /\ Forall empty post /\ (dat t <> [] \/ pre = []) /\ s = slot_after pre).

(** The buffer [e] has the nodes [cs]. *)
Definition buf_holds (e : evbuffer) (cs : list node) : Prop :=
  first e = head_at cs /\ last e = last_at cs /\ linked cs /\ Forall node_ok cs /\ focused cs (last_with_datap e) /\
  total_len e = Z.of_nat (length (content cs)) /\ total_len e < 2 ^ 63.

(** The chains of the heap are those of the nodes [cs]. *)
Definition cells (cs : list node) : gmap Z evbuffer_chain := list_to_map ((fun n => (addr n, ch n)) <$> cs).

Definition heap_of {C} (w : heap C) (cs : list node) : Prop :=
  chains w = cells cs /\ NoDup (addr <$> cs) /\ Forall (fun n => 0 < addr n < fresh w) cs /\ 0 < fresh w.

Section heaps.
Context {C : Type}.
Implicit Types (w : heap C).

Lemma addr_fst cs : ((fun n => (addr n, ch n)) <$> cs).*1 = addr <$> cs.
Proof. by rewrite <- list_fmap_compose. Qed.

Lemma heap_of_perm w cs cs' : cs ≡ₚ cs' -> heap_of w cs -> heap_of w cs'.
Proof.
  intros Hp (Hc & Hn & Hf & H0). split_and!; [| by rewrite <- Hp | by rewrite <- Hp | done].
  rewrite Hc. unfold cells. apply list_to_map_proper; [by rewrite addr_fst | by rewrite Hp].
Qed.

Lemma cells_middle a n b : NoDup (addr <$> a ++ n :: b) -> cells (a ++ n :: b) = <[addr n := ch n]> (cells (a ++ b)).
Proof.
  intros Hn. transitivity (cells (n :: a ++ b)); [| done]. unfold cells. apply list_to_map_proper; [by rewrite addr_fst |].
  by rewrite <- (Permutation_middle a b n).
Qed.

Lemma cells_none cs p : p ∉ addr <$> cs -> cells cs !! p = None.
Proof. intros H. apply not_elem_of_list_to_map_1. by rewrite addr_fst. Qed.

Lemma nodup_middle (a b : list node) n : NoDup (addr <$> a ++ n :: b) -> NoDup (addr <$> a ++ b) /\ addr n ∉ addr <$> a ++ b.
Proof. rewrite <- (Permutation_middle a b n). cbn. rewrite NoDup_cons. naive_solver. Qed.

Lemma chain_here w a n b : heap_of w (a ++ n :: b) -> chain_at (addr n) w = Ok (ch n).
Proof. intros (Hc & Hn & _). unfold chain_at. by rewrite Hc, cells_middle, lookup_insert_eq by done. Qed.

Lemma addr_here w a n b : heap_of w (a ++ n :: b) -> addr n <> NULL.
Proof. intros (_ & _ & Hf & _). apply Forall_app in Hf as [_ Hf]. apply Forall_cons in Hf as [? _]. unfold NULL. lia. Qed.

Lemma put_here w a n b n' : heap_of w (a ++ n :: b) -> addr n' = addr n -> heap_of (put_chain (addr n) (ch n') w) (a ++ n' :: b).
Proof.
  intros (Hc & Hn & Hf & H0) Ha. assert (E : addr <$> a ++ n' :: b = addr <$> a ++ n :: b) by (rewrite !fmap_app; cbn; by rewrite Ha).
  split_and!; [| by rewrite E | | done].
  - cbn [chains put_chain]. rewrite Hc, cells_middle by done. rewrite (cells_middle a n' b) by (by rewrite E). by rewrite Ha, insert_insert_eq.
  - rewrite Forall_app, Forall_cons in Hf |- *. cbn [fresh put_chain]. by rewrite Ha.
Qed.

Lemma free_here w a n b : heap_of w (a ++ n :: b) -> heap_of (mm_free (addr n) w) (a ++ b).
Proof.
  intros (Hc & Hn & Hf & H0). destruct (nodup_middle _ _ _ Hn) as [H1 H2]. split_and!; [| done | | done].
  - cbn [chains mm_free]. rewrite Hc, cells_middle by done. rewrite delete_insert_id; [done |]. by apply cells_none.
  - rewrite Forall_app, Forall_cons in Hf. rewrite Forall_app. cbn [fresh mm_free]. naive_solver.
Qed.

Lemma put_buf_heap w b e cs : heap_of w cs -> heap_of (put_buf b e w) cs.
Proof. by intros H. Qed.

(** *** Lists of nodes *)

Lemma head_at_app a b : a <> [] -> head_at (a ++ b) = head_at a.
Proof. by destruct a. Qed.

Lemma last_at_snoc a n : last_at (a ++ [n]) = addr n.
Proof. unfold last_at. by rewrite rev_unit. Qed.

Lemma last_at_app a n b : last_at (a ++ n :: b) = last_at (n :: b).
Proof.
  unfold last_at. rewrite rev_app_distr. destruct (rev (n :: b)) as [| m l] eqn:E; [| done].
  apply (f_equal length) in E. rewrite length_rev in E. done.
Qed.

Lemma slot_after_snoc a n : slot_after (a ++ [n]) = NextOf (addr n).
Proof. unfold slot_after. by rewrite rev_unit. Qed.

Lemma content_app a b : content (a ++ b) = content a ++ content b.
Proof. unfold content. by rewrite fmap_app, concat_app. Qed.

Lemma content_empty cs : Forall empty cs -> content cs = [].
Proof. induction 1 as [| n cs Hn Hcs IH]; [done |]. unfold content, empty in *. cbn in *. by rewrite Hn, IH. Qed.

Lemma linked_suffix a b : linked (a ++ b) -> linked b.
Proof. induction a as [| n a IH]; [done |]. cbn. naive_solver. Qed.

Lemma linked_middle a n b : linked (a ++ n :: b) -> next (ch n) = head_at b.
Proof. intros H%linked_suffix. by destruct H. Qed.

(** Linking a list whose last node is changed to point at another one. *)
Lemma linked_snoc a n n' b x : linked (a ++ n :: x) -> addr n' = addr n -> next (ch n') = head_at b -> linked b -> linked (a ++ n' :: b).
Proof.
  intros H Ha Hn Hb. induction a as [| m a IH]; [done |]. cbn in H |- *. destruct H as [H1 H2]. split; [| by apply IH].
  rewrite H1. destruct a; cbn; [by rewrite Ha | done].
Qed.

Lemma linked_change a n n' b : linked (a ++ n :: b) -> addr n' = addr n -> next (ch n') = next (ch n) -> linked (a ++ n' :: b).
Proof.
  intros H Ha Hn. induction a as [| m a IH]; cbn in H |- *; [by rewrite Hn |]. destruct H as [H1 H2]. split; [| by apply IH].
  rewrite H1. destruct a; cbn; [by rewrite Ha | done].
Qed.

(** The pointer at the node behind [pre] is loaded. *)
Lemma get_slot_after w b e pre suf os : buffers w !! b = Some e -> heap_of w (pre ++ suf ++ os) ->
  first e = head_at (pre ++ suf) -> linked (pre ++ suf) -> get_slot b (slot_after pre) w = Ok (head_at suf).
Proof.
  intros Hb Hh Hf Hl. destruct pre as [| m pre' _] using rev_ind.
  - cbn. unfold buf_at. by rewrite Hb; cbn; rewrite Hf.
  - rewrite slot_after_snoc. cbn [get_slot]. rewrite <- !app_assoc in *. cbn [app] in *. rewrite (chain_here w pre' m _ Hh). cbn [mbind res_bind].
    by rewrite (linked_middle _ _ _ Hl).
Qed.
End heaps.

(** ** Chains *)

(** Everything but the chains is the same. *)
Definition rest_same {C} (w w' : heap C) : Prop := buffers w' = buffers w /\ client w' = client w /\ fresh w <= fresh w'.

Lemma double_until_spec fuel : forall j size, 0 <= j <= 61 -> size <= 2 ^ 61 -> 61 - j <= Z.of_nat fuel ->
  exists r, double_until (S fuel) (2 ^ j) size = Ok r /\ size <= r <= 2 ^ 61 /\ 2 ^ j <= r.
Proof.
  induction fuel as [| fuel IH]; intros j size Hj Hs Hf; cbn [double_until].
  - replace j with 61 by lia. rewrite (proj2 (Z.ltb_ge _ _)) by lia. exists (2 ^ 61). split; [done | lia].
  - assert (2 ^ j <= 2 ^ 61) by (apply Z.pow_le_mono_r; lia). assert (0 < 2 ^ j) by (apply Z.pow_pos_nonneg; lia).
    destruct (Z.ltb_spec (2 ^ j) size) as [Hlt | Hge]; [| exists (2 ^ j); split; [done | lia]].
    assert (j < 61) by (apply (Z.pow_lt_mono_r_iff 2); lia). rewrite Z.shiftl_mul_pow2, Z.pow_1_r, wrap_small by lia.
    rewrite Z.mul_comm, <- Z.pow_succ_r by lia. destruct (IH (Z.succ j) size) as (r & E & Hr1 & Hr2); [lia | lia | lia |].
    rewrite Z.pow_succ_r in Hr2 by lia. exists r. split; [exact E | lia].
Qed.

Section chains.
Context {C : Type} (alloc : Z -> Z -> bool).
Implicit Types (w : heap C).

#[local] Abbreviation oom := (exists a n, alloc a n = false).

Lemma fuel_is w cs : heap_of w cs -> chain_fuel w = S (length cs).
Proof.
  intros (Hc & Hn & _). unfold chain_fuel. rewrite Hc. f_equal. unfold cells. rewrite map_size_list_to_map by (by rewrite addr_fst).
  apply length_fmap.
Qed.

(** A new chain, for at least [size] bytes. *)
Lemma chain_new_spec size w cs : heap_of w cs -> 0 <= size <= 2 ^ 61 - EVBUFFER_CHAIN_SIZE ->
  exists p w', evbuffer_chain_new alloc size w = Ok (p, w') /\
    ((p = NULL /\ w' = w /\ oom) \/
     (exists c, heap_of w' (cs ++ [Node p c []]) /\ p <> NULL /\ next c = NULL /\ chain_holds c [] /\ misalign c = 0 /\ size <= buffer_len c /\ rest_same w w')).
Proof.
  intros (Hc & Hn & Hf & H0) Hs. unfold evbuffer_chain_new, EVBUFFER_CHAIN_MAX, EVBUFFER_CHAIN_SIZE in *.
  rewrite Z.gtb_ltb, (proj2 (Z.ltb_ge _ _)) by lia. rewrite wrap_small by lia.
  rewrite (proj2 (Z.ltb_lt (size + 48) _)) by (change ((2 ^ 63 - 1) / 2) with (2 ^ 62 - 1); lia).
  destruct (double_until_spec 54 10 (size + 48)) as (r & E & H1 & H2); [lia | lia | lia |].
  change MIN_BUFFER_SIZE with (2 ^ 10). rewrite E. cbn [mbind res_bind]. destruct (alloc (fresh w) r) eqn:Ea.
  2:{ eexists _, _. split; [done |]. left. split_and!; [done | done | by eexists _, _]. }
  rewrite wrap_small by lia. eexists _, _. split; [done |]. right. exists (MkChain NULL (r - 48) 0 0 0 1 (blk_malloc (Z.to_nat (r - 48)))). cbn [fresh].
  assert (Hfr : fresh w ∉ addr <$> cs).
  { intros (n & E' & Hin)%list_elem_of_fmap. rewrite Forall_forall in Hf. specialize (Hf n Hin). lia. }
  split; [| split; [unfold NULL; lia | split; [done | split; [| split; [done | split; [cbn; lia | split_and!; [done | done | cbn; lia]]]]]]].
  - assert (Hnd : NoDup (addr <$> cs ++ [Node (fresh w) (MkChain NULL (r - 48) 0 0 0 1 (blk_malloc (Z.to_nat (r - 48)))) []])).
    { rewrite fmap_app. apply NoDup_app. split_and!; [done | | apply NoDup_singleton]. intros x Hx Hx'. apply list_elem_of_singleton in Hx'. by subst x. }
    split_and!; [| exact Hnd | | cbn; lia].
    + cbn [chains]. rewrite cells_middle by exact Hnd. by rewrite app_nil_r, Hc.
    + apply Forall_app. split; [| apply Forall_singleton; cbn; lia]. eapply Forall_impl; [exact Hf |]. cbn. lia.
  - split_and!; cbn; [done | done | done | | unfold EVBUFFER_CHAIN_SIZE; lia |]; unfold blk_malloc; [rewrite length_replicate; lia |].
    by exists [], (replicate (Z.to_nat (r - 48)) None).
Qed.

Lemma chain_free_spec w a n b : heap_of w (a ++ n :: b) -> node_ok n -> evbuffer_chain_free (addr n) w = Ok (mm_free (addr n) w).
Proof.
  intros Hh (Hf & Hr & _). unfold evbuffer_chain_free. rewrite (chain_here w a n b Hh). cbn [mbind res_bind]. rewrite Hr.
  cbn. unfold CHAIN_PINNED. by rewrite Hf.
Qed.

Lemma free_chains_spec fuel : forall cs w a os, heap_of w (a ++ cs ++ os) -> linked cs -> Forall node_ok cs -> (length cs < fuel)%nat ->
  exists w', free_chains fuel (head_at cs) w = Ok w' /\ heap_of w' (a ++ os) /\ buffers w' = buffers w /\ client w' = client w /\ fresh w' = fresh w.
Proof.
  induction fuel as [| fuel IH]; intros cs w a os Hh Hl Hok Hf; [lia |]. destruct cs as [| n cs]; cbn [free_chains head_at].
  - rewrite Z.eqb_refl. by exists w.
  - cbn [app] in Hh. rewrite (proj2 (Z.eqb_neq _ _)) by (by eapply addr_here). rewrite (chain_here w a n (cs ++ os) Hh). cbn [mbind res_bind].
    apply Forall_cons in Hok as [Hn Hok]. rewrite (chain_free_spec w a n (cs ++ os) Hh Hn). cbn [mbind res_bind].
    cbn in Hl. destruct Hl as [-> Hl]. apply free_here in Hh. cbn [length] in Hf.
    destruct (IH cs _ a os Hh Hl Hok) as (w' & E & Hh' & Hr); [lia |]. exists w'. split; [exact E |]. split; [done | exact Hr].
Qed.

Lemma all_empty_spec fuel : forall cs w a os, heap_of w (a ++ cs ++ os) -> linked cs -> Forall node_ok cs -> Forall empty cs -> (length cs < fuel)%nat ->
  all_empty fuel (head_at cs) w = Ok true.
Proof.
  induction fuel as [| fuel IH]; intros cs w a os Hh Hl Hok He Hf; [lia |]. destruct cs as [| n cs]; cbn [all_empty head_at]; [done |].
  cbn [app] in Hh. rewrite (proj2 (Z.eqb_neq _ _)) by (by eapply addr_here). rewrite (chain_here w a n (cs ++ os) Hh). cbn [mbind res_bind].
  apply Forall_cons in Hok as [(_ & _ & Ho & _) Hok]. apply Forall_cons in He as [Hn He]. rewrite Ho, Hn. cbn [length Z.of_nat Z.eqb negb].
  cbn in Hl. destruct Hl as [-> Hl]. cbn [length] in Hf. apply (IH cs w (a ++ [n]) os); [by rewrite <- app_assoc | done | done | done | lia].
Qed.
End chains.

(** ** The empty chains at the end *)

(** The nodes with the last one pointing at [v]. *)
Definition relink (pre : list node) (v : Z) : list node :=
  match rev pre with [] => [] | n :: r => rev r ++ [Node (addr n) (set_next (ch n) v) (dat n)] end.

Lemma relink_nil v : relink [] v = [].
Proof. done. Qed.

Lemma relink_snoc a n v : relink (a ++ [n]) v = a ++ [Node (addr n) (set_next (ch n) v) (dat n)].
Proof. unfold relink. by rewrite rev_unit, rev_involutive. Qed.

Ltac snoc_cases pre m pre' := destruct pre as [| m pre' _] using rev_ind; [| rewrite ?relink_snoc, ?slot_after_snoc, ?last_at_snoc].

Lemma relink_parts pre v : addr <$> relink pre v = addr <$> pre /\ dat <$> relink pre v = dat <$> pre /\ head_at (relink pre v) = head_at pre /\
  last_at (relink pre v) = last_at pre /\ slot_after (relink pre v) = slot_after pre.
Proof. snoc_cases pre m pre'; [done |]. rewrite !fmap_app. split_and!; [done | done | by destruct pre' | done | done]. Qed.

Lemma relink_content pre v : content (relink pre v) = content pre.
Proof. unfold content. by rewrite (proj1 (proj2 (relink_parts pre v))). Qed.

Lemma relink_ok pre v : Forall node_ok pre -> Forall node_ok (relink pre v).
Proof.
  snoc_cases pre m pre'; [done |]. rewrite !Forall_app, !Forall_singleton. intros [H1 H2]. split; [done |]. exact H2.
Qed.

Lemma relink_head pre v suf : head_at (relink pre v ++ suf) = head_at (pre ++ suf).
Proof. snoc_cases pre m pre'; [done |]. by destruct pre'. Qed.

Lemma relink_linked pre suf x : linked (pre ++ x) -> linked suf -> linked (relink pre (head_at suf) ++ suf).
Proof.
  snoc_cases pre m pre'; [done |]. rewrite <- !app_assoc. intros H Hs. by eapply linked_snoc.
Qed.

Lemma set_first_id e : set_first e (first e) = e.
Proof. by destruct e. Qed.

Section slots.
Context {C : Type}.
Implicit Types (w : heap C).

(** Storing to the pointer at what is behind [pre]. *)
Lemma set_slot_after w b e pre suf os : heap_of w (pre ++ os) -> buffers w !! b = Some e -> (pre <> [] -> first e = head_at pre) ->
  exists w', set_slot b (slot_after pre) (head_at suf) w = Ok w' /\ heap_of w' (relink pre (head_at suf) ++ os) /\
    buffers w' = <[b := set_first e (head_at (pre ++ suf))]> (buffers w) /\ client w' = client w /\ fresh w' = fresh w.
Proof.
  intros Hh Hb Hf. snoc_cases pre m pre'.
  - unfold buf_at, set_slot, slot_after. cbn [rev]. unfold buf_at. rewrite Hb. cbn [of_option mbind res_bind]. eexists. split; [done |]. by split_and!.
  - cbn [set_slot]. rewrite <- app_assoc in Hh. cbn [app] in Hh. rewrite (chain_here w pre' m os Hh). cbn [mbind res_bind].
    eexists. split; [done |]. split_and!; [| | done | done].
    + rewrite <- app_assoc. cbn [app]. by apply (put_here w pre' m os (Node (addr m) (set_next (ch m) (head_at suf)) (dat m)) Hh).
    + cbn [buffers put_chain]. rewrite head_at_app by (by destruct pre'). rewrite <- (Hf ltac:(by destruct pre')), set_first_id.
      symmetry. by apply insert_id.
Qed.

Lemma first_victim_spec w b e os : buffers w !! b = Some e -> forall fuel pre mid post,
  heap_of w ((pre ++ mid ++ post) ++ os) -> first e = head_at (pre ++ mid ++ post) -> linked (pre ++ mid ++ post) -> Forall node_ok (mid ++ post) ->
  Forall (fun n => dat n <> []) mid -> (forall n r, post = n :: r -> dat n = []) -> (length mid < fuel)%nat ->
  first_victim fuel b (slot_after pre) w = Ok (slot_after (pre ++ mid)).
Proof.
  intros Hb. induction fuel as [| fuel IH]; intros pre mid post Hh Hf Hl Hok Hm Hp Hfu; [lia |]. cbn [first_victim].
  rewrite (get_slot_after w b e pre (mid ++ post) os Hb) by (done || by rewrite app_assoc). cbn [mbind res_bind].
  assert (Hnode : forall n r, mid ++ post = n :: r -> addr n <> NULL /\ chain_at (addr n) w = Ok (ch n)).
  { intros n r E. rewrite E, <- app_assoc in Hh. cbn [app] in Hh. split; [by eapply addr_here | by eapply chain_here]. }
  destruct mid as [| n mid]; cbn [app] in *.
  - rewrite app_nil_r. destruct post as [| n post]; [by rewrite Z.eqb_refl |]. destruct (Hnode n post eq_refl) as [Ha Hc]. cbn [head_at].
    rewrite (proj2 (Z.eqb_neq _ _)), Hc by done. cbn [mbind res_bind]. apply Forall_cons in Hok as [(Hfl & _ & Ho & _) _].
    rewrite Ho, (Hp n post eq_refl). unfold CHAIN_PINNED. by rewrite Hfl.
  - destruct (Hnode n (mid ++ post) eq_refl) as [Ha Hc]. cbn [head_at]. rewrite (proj2 (Z.eqb_neq _ _)), Hc by done. cbn [mbind res_bind].
    pose proof Hok as Hok'. apply Forall_cons in Hok' as [(_ & _ & Ho & _) Hok']. apply Forall_cons in Hm as [Hn Hm].
    rewrite Ho. destruct (dat n) as [| x xs] eqn:Ed; [done |]. cbn [length Z.of_nat Z.eqb negb orb].
    rewrite <- (slot_after_snoc pre n), (IH (pre ++ [n]) mid post); rewrite <- ?app_assoc; try done; [| cbn [length] in Hfu; lia].
    rewrite <- app_assoc in Hh. cbn [app] in Hh. rewrite <- app_assoc in Hh. exact Hh.
Qed.

(** What stays of a buffer without the empty chains at its end. *)
Lemma free_trailing_spec w b e cs os : buffers w !! b = Some e -> heap_of w (cs ++ os) -> first e = head_at cs -> linked cs ->
  Forall node_ok cs -> focused cs (last_with_datap e) ->
  exists body w', evbuffer_free_trailing_empty_chains b w = Ok (slot_after body, w') /\ heap_of w' (body ++ os) /\ linked body /\ Forall node_ok body /\
    content body = content cs /\ buffers w' = <[b := set_first e (head_at body)]> (buffers w) /\ client w' = client w /\ fresh w' = fresh w /\
    ((body = [] /\ last_with_datap e = First) \/ (exists pre t, body = pre ++ [t] /\ dat t <> [] /\ last_with_datap e = slot_after pre)).
Proof.
  intros Hb Hh Hf Hl Hok Hfo. pose proof (fuel_is w _ Hh) as Hfuel. rewrite length_app in Hfuel.
  assert (G : exists pre mid post, cs = pre ++ mid ++ post /\ Forall (fun n => dat n <> []) mid /\ Forall empty post /\ last_with_datap e = slot_after pre /\
    ((mid = [] /\ pre = []) \/ exists t, mid = [t])).
  { destruct Hfo as [[-> Hs] | (pre & t & post & -> & Hp & Ht & Hs)]; [exists [], [], []; cbn; split_and!; auto |].
    destruct (decide (dat t = [])) as [Hd | Hd].
    - destruct Ht as [? | ->]; [done |]. exists [], [], (t :: post). cbn. split_and!; auto.
    - exists pre, [t], post. split_and!; [done | by constructor | done | done | right; by exists t]. }
  destruct G as (pre & mid & post & -> & Hm & Hp & Hs & Hmid). unfold evbuffer_free_trailing_empty_chains, buf_at. rewrite Hb. cbn [of_option mbind res_bind].
  rewrite Hs. rewrite (first_victim_spec w b e os Hb _ pre mid post); [| done | done | done | by apply Forall_app in Hok as [_ ?] | done | | rewrite Hfuel, !length_app; lia].
  2:{ intros n r ->. by apply Forall_cons in Hp as [? _]. }
  cbn [mbind res_bind]. rewrite (app_assoc pre mid post) in Hh, Hl, Hok, Hf, Hfuel |- *. pose proof Hh as Hh'. rewrite <- app_assoc in Hh'.
  rewrite (get_slot_after w b e (pre ++ mid) post os Hb Hh' Hf Hl). cbn [mbind res_bind].
  assert (Hlast : (pre ++ mid = [] /\ slot_after pre = First) \/ (exists pre' t, pre ++ mid = pre' ++ [t] /\ dat t <> [] /\ slot_after pre = slot_after pre')).
  { destruct Hmid as [[-> ->] | (t & ->)]; [by left |]. right. exists pre, t. apply Forall_cons in Hm as [Hm _]. by split_and!. }
  apply Forall_app in Hok as [Hok1 Hok2]. rewrite (content_app (pre ++ mid)), (content_empty post Hp), app_nil_r.
  destruct post as [| n post].
  - cbn [head_at]. rewrite Z.eqb_refl. rewrite app_nil_r in *. exists (pre ++ mid), w. split_and!; try done.
    rewrite <- Hf, set_first_id. symmetry. by apply insert_id.
  - assert (Hn : head_at (n :: post) <> NULL) by (by eapply addr_here).
    rewrite (proj2 (Z.eqb_neq _ _)) by done. unfold evbuffer_chains_all_empty, evbuffer_free_all_chains.
    pose proof (linked_suffix _ _ Hl) as Hlp. rewrite !length_app in Hfuel.
    rewrite (all_empty_spec _ (n :: post) w (pre ++ mid) os) by (done || rewrite Hfuel; cbn; lia). cbn [mbind res_bind assert_ok].
    destruct (free_chains_spec (chain_fuel w) (n :: post) w (pre ++ mid) os) as (w1 & -> & Hh1 & Hb1 & Hc1 & Hf1); [done | done | done | rewrite Hfuel; cbn; lia |]. cbn [mbind res_bind].
    destruct (set_slot_after w1 b e (pre ++ mid) [] os) as (w2 & E2 & Hh2 & Hb2 & Hc2 & Hf2); [done | by rewrite Hb1 | intros Hne; by rewrite Hf, head_at_app |].
    cbn [head_at] in E2. rewrite E2. cbn [mbind res_bind]. destruct (relink_parts (pre ++ mid) NULL) as (P1 & P2 & P3 & P4 & P5).
    exists (relink (pre ++ mid) NULL), w2. rewrite P5, relink_content, P3. rewrite app_nil_r in Hb2. split_and!; try done.
    + pose proof (relink_linked (pre ++ mid) [] (n :: post) Hl I) as H. by rewrite app_nil_r in H.
    + by apply relink_ok.
    + by rewrite Hb2, Hb1.
    + congruence.
    + congruence.
    + destruct Hlast as [[-> ?] | (pre' & t & -> & Ht & E)]; [by left |]. right. rewrite relink_snoc. eexists pre', _. by split_and!.
Qed.
End slots.

(** ** A chain at the end *)

Section buffers.
Context {C : Type}.
Implicit Types (w : heap C).

(** The buffer at [b] is [e] with the nodes [cs], beside the nodes [os] of the others. *)
Definition buf_now w (b : Z) (e : evbuffer) (cs os : list node) : Prop :=
  buffers w !! b = Some e /\ buf_holds e cs /\ heap_of w (cs ++ os).

(** Only the buffer at [b] and chains have changed. *)
Definition upd w w' (b : Z) (e' : evbuffer) : Prop :=
  buffers w' = <[b := e']> (buffers w) /\ client w' = client w /\ fresh w <= fresh w'.

(** What the functions on the data leave alone. *)
Definition kept (e e' : evbuffer) : Prop :=
  freeze_start e' = freeze_start e /\ freeze_end e' = freeze_end e /\ refcnt e' = refcnt e /\ callbacks e' = callbacks e.

Lemma datap_target w b e cs os : buf_now w b e cs os ->
  (cs = [] /\ get_slot b (last_with_datap e) w = Ok NULL /\ last e = NULL /\ last_with_datap e = First /\ first e = NULL) \/
  (exists pre t post, cs = pre ++ t :: post /\ Forall empty post /\ (dat t <> [] \/ pre = []) /\ last_with_datap e = slot_after pre /\
     get_slot b (last_with_datap e) w = Ok (addr t) /\ addr t <> NULL).
Proof.
  intros (Hb & (Hf & Hla & Hl & Hok & Hfo & Ht) & Hh). destruct Hfo as [[-> Hs] | (pre & t & post & -> & Hp & Hd & Hs)].
  - left. split_and!; try done. rewrite Hs. cbn. unfold buf_at. rewrite Hb. cbn. by rewrite Hf.
  - right. exists pre, t, post. split_and!; try done.
    + rewrite Hs. rewrite <- app_assoc in Hh. by rewrite (get_slot_after w b e pre (t :: post) os Hb Hh Hf Hl).
    + rewrite <- app_assoc in Hh. by eapply addr_here.
Qed.

Lemma buf_at_Ok w b e : buffers w !! b = Some e -> buf_at b w = Ok e.
Proof. unfold buf_at. by intros ->. Qed.

Lemma chain_insert_spec w b e cs n os : buf_now w b e cs (n :: os) -> node_ok n -> next (ch n) = NULL -> dat n <> [] \/ cs = [] ->
  total_len e + Z.of_nat (length (dat n)) < 2 ^ 63 ->
  exists w' e' pre, evbuffer_chain_insert b (addr n) w = Ok w' /\ upd w w' b e' /\ buf_now w' b e' (pre ++ [n]) os /\ content pre = content cs /\
    (cs = [] -> pre = []) /\ kept e e' /\ n_add_for_cb e' = n_add_for_cb e /\ n_del_for_cb e' = n_del_for_cb e.
Proof.
  intros Hn Hok Hnx Hd Htot. pose proof Hn as (Hb & (Hf & Hla & Hl & Hoks & Hfo & Ht & Htl) & Hh). unfold evbuffer_chain_insert.
  rewrite (buf_at_Ok _ _ _ Hb). cbn [mbind res_bind]. pose proof Hok as (_ & _ & Ho & _).
  destruct (datap_target w b e cs (n :: os) Hn) as [(-> & -> & _ & Hs & Hfn) | (pre & t & post & Ecs & Hp & Ht' & Hs & -> & Ha)]; cbn [mbind res_bind].
  - rewrite Z.eqb_refl, Hs, Hfn. cbn [slot_is_first assert_ok mbind res_bind]. rewrite Z.eqb_refl. cbn [assert_ok mbind res_bind].
    set (w1 := put_buf b _ w). assert (Hh1 : heap_of w1 (n :: os)) by exact Hh.
    rewrite (chain_here w1 [] n os Hh1). cbn [mbind res_bind]. unfold buf_at. cbn [buffers put_buf w1]. rewrite lookup_insert_eq. cbn [of_option mbind res_bind].
    cbn [total_len set_last set_first]. rewrite Ht. change (Z.of_nat (length (content []))) with 0.
    rewrite Ho, wrap_small by (rewrite Ht in Htot; cbn in Htot; lia).
    eexists _, _, []. split; [done |]. split; [split_and!; [cbn [buffers put_buf w1]; by rewrite insert_insert_eq | done | cbn; lia] |].
    split; [| by split_and!]. split; [cbn [buffers put_buf]; by rewrite lookup_insert_eq |]. split; [| exact Hh].
    split_and!; cbn; try done; try lia.
    + by constructor.
    + right. exists [], n, []. split_and!; [done | constructor | by right | done].
    + unfold content. cbn. rewrite app_nil_r. lia.
  - rewrite (proj2 (Z.eqb_neq _ _)) by done.
    destruct (free_trailing_spec w b e cs (n :: os) Hb Hh Hf Hl Hoks Hfo) as (body & w1 & -> & Hh1 & Hl1 & Hok1 & Hcont & Hb1 & Hc1 & Hf1 & Hlast). cbn [mbind res_bind].
    assert (Hbe1 : buffers w1 !! b = Some (set_first e (head_at body))) by (rewrite Hb1; apply lookup_insert_eq).
    destruct (set_slot_after w1 b _ body [n] (n :: os) Hh1 Hbe1 ltac:(done)) as (w2 & E2 & Hh2 & Hb2 & Hc2 & Hf2). cbn [head_at] in E2. rewrite E2. cbn [mbind res_bind].
    rewrite (chain_here w2 _ n os Hh2). cbn [mbind res_bind].
    assert (Hbe2 : buffers w2 !! b = Some (set_first (set_first e (head_at body)) (head_at (body ++ [n])))) by (rewrite Hb2; apply lookup_insert_eq).
    rewrite (buf_at_Ok _ _ _ Hbe2). cbn [mbind res_bind]. assert (Hdn : dat n <> []) by (destruct Hd as [? | ->]; [done | by destruct pre]).
    rewrite (proj2 (Z.eqb_neq (off (ch n)) 0)) by (rewrite Ho; destruct (dat n); [done | cbn; lia]). cbn [negb].
    set (w3 := put_buf b _ w2). assert (Hh3 : heap_of w3 (relink body (addr n) ++ n :: os)) by exact Hh2.
    rewrite (chain_here w3 _ n os Hh3). cbn [mbind res_bind]. unfold buf_at. cbn [buffers put_buf w3]. rewrite lookup_insert_eq. cbn [of_option mbind res_bind].
    rewrite Ho. cbn [total_len set_last set_datap set_first]. rewrite wrap_small by lia.
    eexists _, _, (relink body (addr n)). split; [done |]. rewrite relink_content.
    split; [split_and!; [cbn [buffers put_buf w3]; by rewrite insert_insert_eq, Hb2, Hb1, !insert_insert_eq | cbn; congruence | cbn; lia] |].
    split; [| split_and!; try done; intros ->; by destruct pre]. split; [cbn [buffers put_buf]; by rewrite lookup_insert_eq |].
    split; [| by rewrite <- app_assoc].
    destruct (relink_parts body (addr n)) as (_ & _ & _ & _ & P5).
    split_and!; cbn [first last total_len last_with_datap set_last set_datap set_first set_total]; try done; try lia.
    + by rewrite relink_head.
    + by rewrite last_at_snoc.
    + apply (relink_linked body [n] []); [by rewrite app_nil_r | done].
    + apply Forall_app. split; [by apply relink_ok | by constructor].
    + right. exists (relink body (addr n)), n, []. split_and!; [done | constructor | by left | by rewrite P5].
    + rewrite content_app, relink_content, length_app, Hcont. unfold content at 2. cbn. rewrite app_nil_r. lia.
Qed.
End buffers.

(** ** Adding data *)

Lemma head_at_change pre t t' post : addr t' = addr t -> head_at (pre ++ t' :: post) = head_at (pre ++ t :: post).
Proof. by destruct pre. Qed.

Lemma last_at_change pre t t' post : addr t' = addr t -> last_at (pre ++ t' :: post) = last_at (pre ++ t :: post).
Proof.
  intros Ha. rewrite !last_at_app. snoc_cases post m post'; [done |].
  change (t' :: post' ++ [m]) with ((t' :: post') ++ [m]). change (t :: post' ++ [m]) with ((t :: post') ++ [m]). by rewrite !last_at_snoc.
Qed.

Section adding.
Context {C : Type} (alloc : Z -> Z -> bool).
Implicit Types (w : heap C).

#[local] Abbreviation oom := (exists a n, alloc a n = false).

(** A chain of a buffer changes, and with it the counts. *)
Lemma change_here w b e pre t post os t' e' : buf_now w b e (pre ++ t :: post) os ->
  addr t' = addr t -> next (ch t') = next (ch t) -> node_ok t' -> focused (pre ++ t' :: post) (last_with_datap e') ->
  first e' = first e -> last e' = last e -> total_len e' = Z.of_nat (length (content (pre ++ t' :: post))) -> total_len e' < 2 ^ 63 ->
  buf_now (put_buf b e' (put_chain (addr t) (ch t') w)) b e' (pre ++ t' :: post) os.
Proof.
  intros (Hb & (Hf & Hla & Hl & Hok & _) & Hh) Ha Hnx Hok' Hfo Hf' Hla' Ht Hm. split; [cbn; by rewrite lookup_insert_eq |].
  split; [| rewrite <- app_assoc in Hh |- *; by apply put_buf_heap, (put_here w pre t (post ++ os) t')].
  split; [by rewrite Hf', (head_at_change pre t t') |]. split; [by rewrite Hla', (last_at_change pre t t') |].
  split; [by apply (linked_change pre t t') |]. split; [| done].
  rewrite Forall_app, Forall_cons in Hok |- *. naive_solver.
Qed.

Lemma chain_extend c xs ys : chain_holds c xs -> misalign c + off c + Z.of_nat (length ys) <= buffer_len c ->
  exists blk, blk_store (Z.to_nat (misalign c + off c)) (Some <$> ys) (cbuffer c) = Ok blk /\
    chain_holds (set_off (set_cbuffer c blk) (off c + Z.of_nat (length ys))) (xs ++ ys).
Proof.
  intros (Hf & Hr & Ho & Hb & Hlim & pre & post & Eb & Em) Hl. rewrite Eb, Em, Ho in *. rewrite !length_app, length_fmap in Hb.
  replace (Z.to_nat (Z.of_nat (length pre) + Z.of_nat (length xs))) with (length (pre ++ (Some <$> xs))) by (rewrite length_app, length_fmap; lia).
  rewrite (app_assoc pre). rewrite <- (take_drop (length ys) post), blk_store_app by (rewrite length_take, length_fmap; lia).
  eexists. split; [done |]. split_and!; cbn; [done | done | rewrite length_app; lia | | done |].
  - rewrite Hb, !length_app, length_drop, !length_fmap. lia.
  - exists pre, (drop (length ys) post). split; [| done]. by rewrite fmap_app, <- !app_assoc.
Qed.

Lemma append_here_spec w b e pre t post os xs : buf_now w b e (pre ++ t :: post) os -> Forall empty post -> dat t <> [] \/ pre = [] ->
  last_with_datap e = slot_after pre -> misalign (ch t) + off (ch t) + Z.of_nat (length xs) <= buffer_len (ch t) ->
  total_len e + Z.of_nat (length xs) < 2 ^ 63 ->
  exists w' e' t', append_here b (addr t) (Some <$> xs) w = Ok w' /\ upd w w' b e' /\ buf_now w' b e' (pre ++ t' :: post) os /\
    dat t' = dat t ++ xs /\ addr t' = addr t /\ ch t' = set_off (set_cbuffer (ch t) (cbuffer (ch t'))) (off (ch t) + Z.of_nat (length xs)) /\
    kept e e' /\ last_with_datap e' = last_with_datap e /\ total_len e' = total_len e + Z.of_nat (length xs) /\
    n_add_for_cb e' = u64 (n_add_for_cb e + Z.of_nat (length xs)) /\ n_del_for_cb e' = n_del_for_cb e.
Proof.
  intros Hn Hp Hd Hs Hroom Htot. pose proof Hn as (Hb & (Hf & Hla & Hl & Hok & _ & Ht & Htl) & Hh). rewrite <- app_assoc in Hh. cbn [app] in Hh.
  unfold append_here. rewrite (chain_here w pre t (post ++ os) Hh), (buf_at_Ok w b e Hb). cbn [mbind res_bind].
  apply Forall_app in Hok as [_ Hok]. apply Forall_cons in Hok as [Hok _].
  destruct (chain_extend (ch t) (dat t) xs Hok Hroom) as (blk & -> & Hc). cbn [mbind res_bind]. rewrite length_fmap.
  pose proof Hok as (_ & _ & Ho & _ & Hlim & prec & postc & _ & Hmis). unfold EVBUFFER_CHAIN_SIZE in Hlim.
  rewrite (wrap_small 64 (off (ch t) + _)), (wrap_small 64 (total_len e + _)) by lia.
  set (t' := Node (addr t) (set_off (set_cbuffer (ch t) blk) (off (ch t) + Z.of_nat (length xs))) (dat t ++ xs)).
  eexists _, _, t'. split; [done |]. split; [split_and!; [done | done | cbn; lia] |].
  assert (Hfo : focused (pre ++ t' :: post) (slot_after pre)).
  { right. exists pre, t', post. split_and!; [done | done | | done]. destruct Hd as [Hd | ->]; [left | by right]. cbn. by destruct (dat t). }
  split; [apply (change_here w b e pre t post os t'); try done |].
  - cbn. by rewrite Hs.
  - cbn. rewrite Ht. rewrite !content_app. unfold content. cbn. rewrite !length_app. lia.
  - split_and!; done.
Qed.

Lemma put_buf_same w b e : buffers w !! b = Some e -> put_buf b e w = w.
Proof. intros H. destruct w. unfold put_buf. cbn in *. by rewrite insert_id. Qed.

Lemma align_spec w b e pre t post os : buf_now w b e (pre ++ t :: post) os -> focused (pre ++ t :: post) (last_with_datap e) ->
  last_with_datap e = slot_after pre -> Forall empty post -> dat t <> [] \/ pre = [] ->
  exists w' t', evbuffer_chain_align (addr t) w = Ok w' /\ upd w w' b e /\ buf_now w' b e (pre ++ t' :: post) os /\
    dat t' = dat t /\ addr t' = addr t /\ misalign (ch t') = 0 /\ off (ch t') = off (ch t) /\ buffer_len (ch t') = buffer_len (ch t).
Proof.
  intros Hn Hfo Hs Hp Hd. pose proof Hn as (Hb & (Hf & Hla & Hl & Hok & _ & Ht & Htl) & Hh). rewrite <- app_assoc in Hh. cbn [app] in Hh.
  unfold evbuffer_chain_align. rewrite (chain_here w pre t (post ++ os) Hh). cbn [mbind res_bind].
  apply Forall_app in Hok as [_ Hok]. apply Forall_cons in Hok as [(Hfl & Hr & Ho & Hbl & Hlim & prec & postc & Eb & Hmis) _].
  unfold immutable, CHAIN_PINNED. rewrite Hfl. cbn [Z.land Z.eqb negb assert_ok mbind res_bind]. rewrite Hmis, Ho, !Nat2Z.id, Eb.
  pose proof (blk_copy_app prec (Some <$> dat t) postc) as E. rewrite length_fmap in E. rewrite E. cbn [mbind res_bind].
  assert (G : exists rest, blk_store 0 (Some <$> dat t) (prec ++ (Some <$> dat t) ++ postc) = Ok ((Some <$> dat t) ++ rest) /\ length ((Some <$> dat t) ++ rest) = length (cbuffer (ch t))).
  { unfold blk_store. rewrite length_fmap, decide_True by (rewrite !length_app, length_fmap; lia). eexists. split; [done |].
    rewrite Eb, !length_app, length_drop, !length_app, length_fmap. lia. }
  destruct G as (rest & -> & Hlr). cbn [mbind res_bind].
  set (t' := Node (addr t) (set_misalign (set_cbuffer (ch t) ((Some <$> dat t) ++ rest)) 0) (dat t)).
  eexists _, t'. split; [done |]. split; [split_and!; [cbn; by rewrite insert_id | done | cbn; lia] |].
  split; [| by split_and!]. set (w1 := put_chain _ _ w). rewrite <- (put_buf_same w1 b e) by exact Hb.
  apply (change_here w b e pre t post os t'); try done.
  - split_and!; cbn; [done | done | done | by rewrite Hlr | done |]. by exists [], rest.
  - right. by exists pre, t', post.
  - cbn. rewrite Ht, !content_app. unfold content. cbn. by rewrite !length_app.
Qed.

(** A new chain beside a buffer. *)
Lemma buf_new w b e cs os size : buf_now w b e cs os -> 0 <= size <= 2 ^ 61 - EVBUFFER_CHAIN_SIZE ->
  exists p w', evbuffer_chain_new alloc size w = Ok (p, w') /\
    ((p = NULL /\ w' = w /\ oom) \/
     (exists c, p <> NULL /\ upd w w' b e /\ buf_now w' b e cs (Node p c [] :: os) /\ next c = NULL /\ chain_holds c [] /\ misalign c = 0 /\ size <= buffer_len c)).
Proof.
  intros (Hb & Hh & Hc) Hs. destruct (chain_new_spec alloc size w _ Hc Hs) as (p & w' & E & H). exists p, w'. split; [done |].
  destruct H as [H | (c & Hc' & Hp & Hn & Hch & Hm & Hl & (Eb & Ec & Ef))]; [by left |]. right. exists c.
  split; [done |]. split; [split_and!; [by rewrite Eb, insert_id | done | done] |]. split; [| done].
  split; [by rewrite Eb |]. split; [done |]. eapply heap_of_perm; [| exact Hc']. rewrite <- app_assoc. apply Permutation_app_head. by rewrite Permutation_app_comm.
Qed.

(** Where the data goes. *)
Definition target (e : evbuffer) (cs : list node) (pre : list node) (t : node) (post : list node) : Prop :=
  cs = pre ++ t :: post /\ Forall empty post /\ (dat t <> [] \/ pre = []) /\ last_with_datap e = slot_after pre.

Lemma target_focused e cs pre t post : target e cs pre t post -> focused cs (last_with_datap e).
Proof. intros (-> & Hp & Hd & Hs). right. by exists pre, t, post. Qed.

Lemma chain_to_fill_spec w b e cs os datlen : buf_now w b e cs os -> 0 <= datlen <= 2 ^ 60 ->
  exists p w', chain_to_fill alloc b datlen w = Ok (p, w') /\
    ((p = NULL /\ w' = w /\ oom) \/
     (exists e' pre t post, p = addr t /\ p <> NULL /\ upd w w' b e' /\ buf_now w' b e' (pre ++ t :: post) os /\ target e' (pre ++ t :: post) pre t post /\
        content (pre ++ t :: post) = content cs /\ kept e e' /\ total_len e' = total_len e /\ n_add_for_cb e' = n_add_for_cb e /\ n_del_for_cb e' = n_del_for_cb e)).
Proof.
  intros Hn Hl. pose proof Hn as (Hb & (_ & _ & _ & _ & _ & Ht & Htl) & _). unfold chain_to_fill. rewrite (buf_at_Ok _ _ _ Hb). cbn [mbind res_bind].
  destruct (datap_target w b e cs os Hn) as [(-> & -> & -> & Hs & Hfn) | (pre & t & post & -> & Hp & Hd & Hs & -> & Ha)]; cbn [mbind res_bind].
  - rewrite Z.eqb_refl. cbn iota. destruct (buf_new w b e [] os datlen Hn) as (p & w1 & -> & H); [unfold EVBUFFER_CHAIN_SIZE; lia |]. cbn [mbind res_bind].
    destruct H as [(-> & -> & Ho) | (c & Hp & (U1 & U2 & U3) & Hn1 & Hnx & Hch & Hm & Hcl)].
    + rewrite Z.eqb_refl. eexists _, _. split; [done |]. by left.
    + rewrite (proj2 (Z.eqb_neq _ _)) by done.
      destruct (chain_insert_spec w1 b e [] (Node p c []) os Hn1 Hch Hnx (or_intror eq_refl))
        as (w2 & e2 & pre & E & (V1 & V2 & V3) & Hn2 & _ & Hpre & Hk & Ha2 & Hd2); [cbn; lia |].
      rewrite (Hpre eq_refl) in Hn2. cbn [addr] in E. rewrite E. cbn [mbind res_bind].
      eexists _, _. split; [done |]. right. exists e2, [], (Node p c []), []. pose proof Hn2 as (_ & (_ & _ & _ & _ & Hfo2 & Ht2 & _) & _).
      split; [done |]. split; [done |]. split; [split_and!; [by rewrite V1, U1, insert_insert_eq | congruence | lia] |]. split; [exact Hn2 |].
      split; [| split_and!; try done; by rewrite Ht2, Ht].
      split_and!; [done | constructor | by right |]. destruct Hfo2 as [[? _] | (pre' & t & post & Ex & _ & _ & ->)]; [done |].
      destruct pre' as [| m pre']; [done |]. apply (f_equal length) in Ex. cbn in Ex. rewrite length_app in Ex. cbn in Ex. lia.
  - cbv zeta. rewrite !(proj2 (Z.eqb_neq (addr t) NULL)) by done. eexists _, _. split; [done |]. right.
    exists e, pre, t, post. split; [done |]. split; [done |]. split; [split_and!; [by rewrite insert_id | done | lia] |]. split; [exact Hn |].
    by split_and!.
Qed.

(** The outcome of adding [xs]: they are at the end, or there is no memory and the bytes are what they were. *)
Definition added w (b : Z) (e : evbuffer) (cs os : list node) (xs : list Z) (r : res (bool * heap C)) : Prop :=
  exists ok w' e' cs', r = Ok (ok, w') /\ upd w w' b e' /\ buf_now w' b e' cs' os /\ kept e e' /\ n_del_for_cb e' = n_del_for_cb e /\
    ((ok = true /\ content cs' = content cs ++ xs /\ n_add_for_cb e' = u64 (n_add_for_cb e + Z.of_nat (length xs))) \/
     (ok = false /\ content cs' = content cs /\ n_add_for_cb e' = n_add_for_cb e /\ oom)).

Lemma upd_trans w w1 w2 b e1 e2 : upd w w1 b e1 -> upd w1 w2 b e2 -> upd w w2 b e2.
Proof. intros (A1 & A2 & A3) (B1 & B2 & B3). split_and!; [by rewrite B1, A1, insert_insert_eq | congruence | lia]. Qed.

Lemma kept_trans e e1 e2 : kept e e1 -> kept e1 e2 -> kept e e2.
Proof. intros (A1 & A2 & A3 & A4) (B1 & B2 & B3 & B4). split_and!; congruence. Qed.

Lemma u64_add a x y : u64 (u64 (a + x) + y) = u64 (a + (x + y)).
Proof. unfold wrap. rewrite Zplus_mod_idemp_l. f_equal. lia. Qed.

Lemma put_other w b e cs n n' os : buf_now w b e cs (n :: os) -> addr n' = addr n -> buf_now (put_chain (addr n) (ch n') w) b e cs (n' :: os).
Proof. intros (Hb & He & Hh) Ha. split; [done |]. split; [done |]. by apply put_here. Qed.

Lemma target_added w b e cs pre t post os xs : buf_now w b e cs os -> target e cs pre t post ->
  misalign (ch t) + off (ch t) + Z.of_nat (length xs) <= buffer_len (ch t) -> total_len e + Z.of_nat (length xs) < 2 ^ 63 ->
  exists w' e' t', append_here b (addr t) (Some <$> xs) w = Ok w' /\ upd w w' b e' /\ buf_now w' b e' (pre ++ t' :: post) os /\
    target e' (pre ++ t' :: post) pre t' post /\ addr t' = addr t /\ content (pre ++ t' :: post) = content cs ++ xs /\ kept e e' /\
    total_len e' = total_len e + Z.of_nat (length xs) /\ n_add_for_cb e' = u64 (n_add_for_cb e + Z.of_nat (length xs)) /\ n_del_for_cb e' = n_del_for_cb e.
Proof.
  intros Hn (-> & Hp & Hd & Hs) Hr Ht. destruct (append_here_spec w b e pre t post os xs Hn Hp Hd Hs Hr Ht)
    as (w' & e' & t' & E & U & Hn' & Hd' & Ha & _ & K & Hs' & Ht' & Hna & Hnd).
  exists w', e', t'. split; [done |]. split; [done |]. split; [done |]. split; [| split_and!; try done].
  - split_and!; [done | done | | congruence]. rewrite Hd'. destruct Hd as [Hd | ->]; [left | by right]. by destruct (dat t).
  - rewrite !content_app. unfold content. cbn. pose proof (content_empty post Hp) as Hc. unfold content in Hc. by rewrite Hc, Hd', !app_nil_r, app_assoc.
Qed.

Lemma add_another_spec w b e cs pre t post os xs : buf_now w b e cs os -> target e cs pre t post ->
  buffer_len (ch t) < misalign (ch t) + off (ch t) + Z.of_nat (length xs) -> Z.of_nat (length xs) <= 2 ^ 60 -> total_len e + Z.of_nat (length xs) < 2 ^ 63 ->
  added w b e cs os xs (add_another alloc b (addr t) (Some <$> xs) w).
Proof.
  intros Hn Htg Hroom Hlen Htot. pose proof Hn as (Hb & (_ & _ & _ & Hok & _) & Hh). pose proof Htg as (Ecs & _). rewrite Ecs in Hok, Hh.
  rewrite <- app_assoc in Hh. cbn [app] in Hh. apply Forall_app in Hok as [_ Hok]. apply Forall_cons in Hok as [Hok _].
  pose proof Hok as (Hfl & _ & Ho & Hbl & Hlim & prec & postc & Eb & Hmis). unfold EVBUFFER_CHAIN_SIZE in Hlim.
  rewrite Eb, !length_app, length_fmap in Hbl.
  unfold add_another. rewrite (chain_here w pre t _ Hh). cbn [mbind res_bind]. unfold immutable. rewrite Hfl. change (negb (Z.land 0 EVBUFFER_IMMUTABLE =? 0)) with false. cbv zeta iota.
  rewrite length_fmap. rewrite (wrap_small 64 (buffer_len (ch t) - _ - _)) by lia. set (remain := buffer_len (ch t) - misalign (ch t) - off (ch t)).
  set (to_alloc := if Z.of_nat (length xs) >? _ then _ else _).
  assert (Ha : 0 <= to_alloc <= 2 ^ 61 - EVBUFFER_CHAIN_SIZE /\ Z.of_nat (length xs) <= to_alloc).
  { unfold to_alloc, EVBUFFER_CHAIN_MAX_AUTO_SIZE, EVBUFFER_CHAIN_SIZE. rewrite Z.shiftl_mul_pow2, Z.pow_1_r by lia.
    destruct (Z.leb_spec (buffer_len (ch t)) (4096 / 2)) as [Hle | Hle]; change (4096 / 2) with 2048 in Hle; [rewrite wrap_small by lia |];
      match goal with |- context [?a >? ?b] => destruct (Z.gtb_spec a b) end; lia. }
  destruct Ha as [Ha1 Ha2]. clearbody to_alloc.
  destruct (buf_new w b e cs os to_alloc Hn Ha1) as (p & w1 & -> & H). cbn [mbind res_bind]. destruct H as [(-> & -> & Hoom) | (c & Hp & U1 & Hn1 & Hnx & Hch & Hm & Hcl)].
  { rewrite Z.eqb_refl. exists false, w, e, cs. split; [done |]. split; [split_and!; [by rewrite insert_id | done | lia] |]. split; [done |]. split_and!; try done. by right. }
  rewrite (proj2 (Z.eqb_neq p NULL)) by done.
  assert (Hrem : 0 <= remain < Z.of_nat (length xs)) by (unfold remain; lia).
  assert (G : exists w2 e2 cs2, (if negb (remain =? 0) then append_here b (addr t) (take (Z.to_nat remain) (Some <$> xs)) w1 else Ok w1) = Ok w2 /\
    upd w1 w2 b e2 /\ buf_now w2 b e2 cs2 (Node p c [] :: os) /\ content cs2 = content cs ++ take (Z.to_nat remain) xs /\ kept e e2 /\
    total_len e2 = total_len e + remain /\ (forall y, u64 (n_add_for_cb e2 + y) = u64 (n_add_for_cb e + (remain + y))) /\ n_del_for_cb e2 = n_del_for_cb e).
  { destruct (Z.eqb_spec remain 0) as [Er | Er]; cbn [negb].
    - exists w1, e, cs. rewrite Er, take_0, app_nil_r. split; [done |]. split; [split_and!; [by rewrite insert_id by apply Hn1 | done | lia] |]. split; [done |].
      split_and!; try done; lia.
    - rewrite <- fmap_take. destruct (target_added w1 b e cs pre t post (Node p c [] :: os) (take (Z.to_nat remain) xs) Hn1 Htg)
        as (w2 & e2 & t' & E & U & Hn2 & _ & _ & Hc & K & Ht2 & Hna & Hnd); [rewrite length_take; unfold remain in *; lia | rewrite length_take; lia |].
      assert (El : Z.of_nat (length (take (Z.to_nat remain) xs)) = remain) by (rewrite length_take; lia). rewrite El in *.
      exists w2, e2, (pre ++ t' :: post). split_and!; try done. intros y. by rewrite Hna, u64_add. }
  destruct G as (w2 & e2 & cs2 & -> & U2 & Hn2 & Hc2 & K2 & Ht2 & Hy2 & Hd2). cbn [mbind res_bind].
  pose proof Hn2 as (Hb2 & _ & Hh2). pose proof (chain_here w2 cs2 (Node p c []) os Hh2) as Hcp. cbn [ch addr] in Hcp. rewrite Hcp. cbn [mbind res_bind]. rewrite <- fmap_drop.
  assert (Hlr : Z.of_nat (length (drop (Z.to_nat remain) xs)) = Z.of_nat (length xs) - remain) by (rewrite length_drop; lia).
  destruct (chain_extend c [] (drop (Z.to_nat remain) xs) Hch) as (blk & Eblk & Hcb); [destruct Hch as (_ & _ & -> & _); cbn; lia |].
  pose proof Hch as (_ & _ & Hoc & _). rewrite Hm, Hoc in Eblk. change (Z.to_nat (0 + Z.of_nat (length (@nil Z)))) with 0%nat in Eblk. rewrite Eblk. cbn [mbind res_bind].
  rewrite length_fmap. rewrite Hoc in Hcb. change (Z.of_nat (length (@nil Z))) with 0 in Hcb. rewrite Z.add_0_l in Hcb. cbn [app] in Hcb.
  set (n' := Node p (set_off (set_cbuffer c blk) (Z.of_nat (length (drop (Z.to_nat remain) xs)))) (drop (Z.to_nat remain) xs)).
  pose proof (put_other w2 b e2 cs2 (Node p c []) n' os Hn2 eq_refl) as Hn3. cbn [addr ch n'] in Hn3.
  destruct (chain_insert_spec _ b e2 cs2 n' os Hn3) as (w4 & e4 & pre4 & E4 & U4 & Hn4 & Hc4 & _ & K4 & Ha4 & Hd4);
    [exact Hcb | done | left; cbn; intros H; rewrite H in Hlr; cbn in Hlr; lia | cbn; lia |].
  cbn [addr n'] in E4. rewrite E4. cbn [mbind res_bind]. pose proof Hn4 as (Hb4 & He4 & Hh4). rewrite (buf_at_Ok _ _ _ Hb4). cbn [mbind res_bind].
  eexists true, _, _, (pre4 ++ [n']). split; [done |]. split; [| split; [| split_and!]].
  - destruct (upd_trans _ _ _ _ _ _ U1 U2) as (V1 & V2 & V3). destruct U4 as (W1 & W2 & W3). cbn [buffers put_chain client fresh] in W1, W2, W3.
    split_and!; cbn; [by rewrite W1, V1, !insert_insert_eq | congruence | lia].
  - split; [cbn; by rewrite lookup_insert_eq |]. by split.
  - destruct (kept_trans _ _ _ K2 K4) as (? & ? & ? & ?). by split_and!.
  - cbn. congruence.
  - left. split; [done |]. split; [| cbn; rewrite Ha4, Hy2, Hlr; f_equal; lia].
    rewrite content_app, Hc4, Hc2. unfold content at 2. cbn. by rewrite app_nil_r, <- app_assoc, take_drop.
Qed.

(** Adding to a buffer that is not frozen at its end. *)
Lemma add_data_spec w b e cs os xs : buf_now w b e cs os -> freeze_end e = false -> Z.of_nat (length xs) <= 2 ^ 60 ->
  total_len e + Z.of_nat (length xs) < 2 ^ 63 -> added w b e cs os xs (add_data alloc b (Some <$> xs) w).
Proof.
  intros Hn Hfr Hlen Htot. pose proof Hn as (Hb & (_ & _ & _ & _ & _ & Ht & _) & _). unfold add_data. rewrite (buf_at_Ok _ _ _ Hb). cbn [mbind res_bind].
  rewrite Hfr, length_fmap. unfold SIZE_MAX. rewrite Z.gtb_ltb, (proj2 (Z.ltb_ge _ _)) by lia.
  destruct (chain_to_fill_spec w b e cs os (Z.of_nat (length xs)) Hn) as (p & w1 & -> & H); [lia |]. cbn [mbind res_bind].
  destruct H as [(-> & -> & Hoom) | (e1 & pre & t & post & -> & Hp & U1 & Hn1 & Htg & Hc1 & K1 & Ht1 & Ha1 & Hd1)].
  { rewrite Z.eqb_refl. exists false, w, e, cs. split; [done |]. split; [split_and!; [by rewrite insert_id | done | lia] |]. split; [done |]. split_and!; try done. by right. }
  rewrite (proj2 (Z.eqb_neq (addr t) NULL)) by done.
  pose proof Hn1 as (Hb1 & (_ & _ & _ & Hok & _) & Hh1). rewrite <- app_assoc in Hh1. cbn [app] in Hh1.
  rewrite (chain_here w1 pre t _ Hh1). cbn [mbind res_bind]. apply Forall_app in Hok as [_ Hok]. apply Forall_cons in Hok as [Hok _].
  pose proof Hok as (Hfl & _ & Ho & Hbl & Hlim & prec & postc & Eb & Hmis). unfold EVBUFFER_CHAIN_SIZE in Hlim.
  assert (Hsz : misalign (ch t) + off (ch t) <= buffer_len (ch t)) by (rewrite Hbl, Eb, !length_app, length_fmap, Hmis, Ho; lia).
  unfold immutable, CHAIN_PINNED. rewrite Hfl. change (negb (Z.land 0 EVBUFFER_IMMUTABLE =? 0)) with false. change (negb (Z.land 0 EVBUFFER_MEM_PINNED_ANY =? 0)) with false.
  cbn [orb negb andb]. unfold EVBUFFER_CHAIN_MAX. rewrite (proj2 (Z.leb_le 0 _)), (proj2 (Z.leb_le (misalign (ch t)) _)) by lia. cbn [andb assert_ok mbind res_bind].
  rewrite wrap_small by lia.
  assert (Hfill : forall w2 t', buf_now w2 b e1 (pre ++ t' :: post) os -> upd w w2 b e1 -> addr t' = addr t -> dat t' = dat t -> target e1 (pre ++ t' :: post) pre t' post ->
    misalign (ch t') + off (ch t') + Z.of_nat (length xs) <= buffer_len (ch t') ->
    added w b e cs os xs (w3 ← append_here b (addr t) (Some <$> xs) w2; Ok (true, w3))).
  { intros w2 t' Hn2 U2 Ha' Hd' Htg' Hr'. destruct (target_added w2 b e1 _ pre t' post os xs Hn2 Htg' Hr') as (w3 & e3 & t3 & E & U & Hn3 & _ & _ & Hc & K & _ & Hna & Hnd); [lia |].
    rewrite <- Ha', E. cbn [mbind res_bind]. exists true, w3, e3, (pre ++ t3 :: post). split; [done |]. split; [by eapply upd_trans |]. split; [done |].
    split; [by eapply kept_trans |]. split; [congruence |]. left. split; [done |]. split; [| congruence]. rewrite Hc. f_equal. rewrite <- Hc1, !content_app. unfold content. cbn. by rewrite Hd'. }
  destruct (Z.geb_spec (buffer_len (ch t) - misalign (ch t) - off (ch t)) (Z.of_nat (length xs))) as [Hge | Hlt].
  { apply (Hfill w1 t); try done. lia. }
  destruct (evbuffer_chain_should_realign (ch t) (Z.of_nat (length xs))) eqn:Er.
  - destruct Htg as (_ & Hpo & Hdt & Hs). destruct (align_spec w1 b e1 pre t post os Hn1) as (w2 & t' & E2 & U2 & Hn2 & Hd' & Ha' & Hm' & Ho' & Hbl');
      [right; by exists pre, t, post | done | done | done |]. rewrite E2. cbn [mbind res_bind].
    apply (Hfill w2 t'); [done | by eapply upd_trans | done | done | split_and!; [done | done | by rewrite Hd' | done] |].
    unfold evbuffer_chain_should_realign in Er. apply andb_prop in Er as [Er _]. apply andb_prop in Er as [Er _]. rewrite wrap_small in Er by lia. lia.
  - destruct (add_another_spec w1 b e1 (pre ++ t :: post) pre t post os xs Hn1 Htg) as (ok & w2 & e2 & cs2 & E & U & Hn2 & K & Hnd & H); [lia | lia | lia |].
    rewrite E. exists ok, w2, e2, cs2. split; [done |]. split; [by eapply upd_trans |]. split; [done |]. split; [by eapply kept_trans |]. split; [congruence |].
    destruct H as [(? & Hc & ?) | (? & Hc & ? & ?)]; [left | right]; (split_and!; [done | by rewrite Hc, Hc1 | congruence |..]); done.
Qed.
End adding.

(** ** Draining and copying *)

Section removing.
Context {C : Type}.
Implicit Types (w : heap C).

Lemma not_pinned w b e cs os : buf_now w b e cs os -> HAS_PINNED_R e w = Ok false.
Proof.
  intros (Hb & (_ & Hla & _ & Hok & _) & Hh). unfold HAS_PINNED_R. rewrite Hla. snoc_cases cs n cs'; [done |].
  rewrite <- app_assoc in Hh. rewrite (proj2 (Z.eqb_neq (addr n) NULL)) by (by eapply addr_here). rewrite (chain_here w cs' n os Hh). cbn [mbind res_bind].
  apply Forall_app in Hok as [_ Hok]. apply Forall_cons in Hok as [(Hfl & _) _]. unfold CHAIN_PINNED_R. by rewrite Hfl.
Qed.

Lemma slot_eqb_spec s1 s2 : slot_eqb s1 s2 = bool_decide (s1 = s2).
Proof.
  destruct s1 as [| p], s2 as [| q]; cbn; try (symmetry; by (apply bool_decide_eq_true || apply bool_decide_eq_false)).
  destruct (Z.eqb_spec p q) as [-> | Hn]; symmetry; [by apply bool_decide_eq_true | apply bool_decide_eq_false; congruence].
Qed.

Lemma slot_after_cons n pre : pre <> [] -> slot_after (n :: pre) = slot_after pre.
Proof. intros H. snoc_cases pre m pre'; [done |]. change (n :: pre' ++ [m]) with ((n :: pre') ++ [m]). by rewrite slot_after_snoc. Qed.

Lemma set_datap_twice e s s' : set_datap (set_datap e s) s' = set_datap e s'.
Proof. done. Qed.

Lemma set_datap_id e : set_datap e (last_with_datap e) = e.
Proof. by destruct e. Qed.

(** Whole chains are freed until one is not used up; the pointer at the last data stays right. *)
Lemma drain_chains_spec b t post os fuel : forall pre w e remaining, buffers w !! b = Some e -> heap_of w ((pre ++ t :: post) ++ os) -> linked (pre ++ t :: post) ->
  Forall node_ok (pre ++ t :: post) -> last_with_datap e = slot_after pre -> 0 <= remaining < Z.of_nat (length (content pre ++ dat t)) -> remaining < 2 ^ 63 -> (length pre < fuel)%nat ->
  exists gone pre2 rem' n r w', drain_chains fuel b (head_at (pre ++ t :: post)) remaining w = Ok (addr n, rem', w') /\
    pre = gone ++ pre2 /\ pre2 ++ t :: post = n :: r /\ remaining = Z.of_nat (length (content gone)) + rem' /\ 0 <= rem' < Z.of_nat (length (dat n)) /\
    heap_of w' ((n :: r) ++ os) /\ buffers w' = <[b := set_datap e (slot_after pre2)]> (buffers w) /\ client w' = client w /\ fresh w' = fresh w.
Proof.
  induction fuel as [| fuel IH]; intros pre w e remaining Hb Hh Hl Hok Hs Hrem Hrm Hf; [lia |]. cbn [drain_chains].
  assert (Hstop : forall n r, pre ++ t :: post = n :: r -> remaining < Z.of_nat (length (dat n)) ->
    exists gone pre2 rem' n' r' w', Ok (addr n, remaining, w) = Ok (addr n', rem', w') /\
      pre = gone ++ pre2 /\ pre2 ++ t :: post = n' :: r' /\ remaining = Z.of_nat (length (content gone)) + rem' /\ 0 <= rem' < Z.of_nat (length (dat n')) /\
      heap_of w' ((n' :: r') ++ os) /\ buffers w' = <[b := set_datap e (slot_after pre2)]> (buffers w) /\ client w' = client w /\ fresh w' = fresh w).
  { intros n r E Hlt. exists [], pre, remaining, n, r, w. rewrite E in Hh. split; [done |]. split; [done |]. split; [done |]. split; [cbn; lia |]. split; [lia |].
    split; [done |]. rewrite <- Hs, set_datap_id, insert_id by done. done. }
  destruct pre as [| n pre]; cbn [app head_at] in *.
  - rewrite (chain_here w [] t (post ++ os) Hh). cbn [mbind res_bind]. apply Forall_cons in Hok as [(_ & _ & Ho & _) _]. rewrite Ho.
    cbn in Hrem. rewrite Z.geb_leb, (proj2 (Z.leb_gt _ _)) by lia. cbn [negb]. apply (Hstop t post); [done | lia].
  - pose proof Hh as Hh'. cbn [app] in Hh'. rewrite (chain_here w [] n ((pre ++ t :: post) ++ os) Hh'). cbn [mbind res_bind].
    pose proof Hok as Hok'. apply Forall_cons in Hok' as [Hn Hok']. pose proof Hn as (Hfl & _ & Ho & _). rewrite Ho.
    destruct (Z.geb_spec remaining (Z.of_nat (length (dat n)))) as [Hge | Hlt]; cbn [negb]; [| apply (Hstop n (pre ++ t :: post)); [done | lia]].
    rewrite wrap_small by lia. rewrite (buf_at_Ok _ _ _ Hb). cbn [mbind res_bind].
    assert (Hnd : NoDup (addr <$> n :: pre ++ t :: post)) by (destruct Hh as (_ & Hnd & _); cbn [app] in Hnd; rewrite app_comm_cons, fmap_app in Hnd; by apply NoDup_app in Hnd as [Hnd _]).
    cbn [fmap list_fmap] in Hnd. apply NoDup_cons in Hnd as [Hnin Hnd].
    assert (Hslot : get_slot b (last_with_datap e) w = Ok (addr t)).
    { rewrite Hs. destruct (exists_last (l := n :: pre) ltac:(done)) as (pre' & m & Em). rewrite Em, slot_after_snoc. cbn [get_slot].
      assert (E1 : n :: pre ++ t :: post = pre' ++ m :: t :: post) by (change ((n :: pre) ++ t :: post = pre' ++ m :: t :: post); by rewrite Em, <- app_assoc).
      assert (Hl' : linked (pre' ++ m :: t :: post)) by (by rewrite <- E1).
      assert (Hm : heap_of w (pre' ++ m :: (t :: post) ++ os)) by (change (m :: (t :: post) ++ os) with ((m :: t :: post) ++ os); by rewrite app_assoc, <- E1).
      rewrite (chain_here w pre' m _ Hm). cbn [mbind res_bind].
      by rewrite (linked_middle _ _ _ Hl'). }
    rewrite Hslot. cbn [mbind res_bind]. rewrite (proj2 (Z.eqb_neq (addr n) (addr t))).
    2:{ intros E. apply Hnin. rewrite E, fmap_app. apply elem_of_app. right. cbn. apply list_elem_of_here. }
    rewrite (buf_at_Ok _ _ _ Hb). cbn [mbind res_bind].
    assert (Hw : (if slot_eqb (NextOf (addr n)) (last_with_datap e) then put_buf b (set_datap e First) w else w) = put_buf b (set_datap e (slot_after pre)) w).
    { rewrite slot_eqb_spec, Hs. snoc_cases pre m pre'; [by rewrite bool_decide_true by done |].
      change (n :: pre' ++ [m]) with ((n :: pre') ++ [m]). rewrite slot_after_snoc, bool_decide_false.
      - rewrite put_buf_same; [done |]. rewrite Hb. f_equal. destruct e. cbn in Hs |- *. change (n :: pre' ++ [m]) with ((n :: pre') ++ [m]) in Hs. by rewrite slot_after_snoc in Hs; subst.
      - intros [= E]. apply Hnin. rewrite E, !fmap_app. apply elem_of_app. left. apply elem_of_app. right. cbn. apply list_elem_of_here. }
    rewrite Hw. unfold CHAIN_PINNED_R. rewrite Hfl. change (negb (Z.land 0 EVBUFFER_MEM_PINNED_R =? 0)) with false. cbn iota.
    set (w1 := put_buf b _ w). assert (Hh1 : heap_of w1 ([] ++ n :: (pre ++ t :: post) ++ os)) by exact Hh'.
    rewrite (chain_free_spec w1 [] n _ Hh1 Hn). cbn [mbind res_bind]. apply free_here in Hh1. cbn [app] in Hh1. cbn in Hl. destruct Hl as [-> Hl].
    destruct (IH pre (mm_free (addr n) w1) (set_datap e (slot_after pre)) (remaining - Z.of_nat (length (dat n)))) as (gone & pre2 & rem' & n' & r & w' & E & Eg & En & Er & Hr & Hh2 & Hb2 & Hc2 & Hf2).
    + cbn. by rewrite lookup_insert_eq.
    + exact Hh1.
    + done.
    + done.
    + done.
    + change (content (n :: pre)) with (dat n ++ content pre) in Hrem. rewrite !length_app in Hrem. rewrite length_app. lia.
    + lia.
    + cbn [length] in Hf. lia.
    + exists (n :: gone), pre2, rem', n', r, w'. split; [exact E |]. split; [by rewrite Eg |]. split; [done |].
      split; [change (content (n :: gone)) with (dat n ++ content gone); rewrite length_app; lia |]. split; [done |]. split; [done |].
      split; [by rewrite Hb2; cbn; rewrite insert_insert_eq, set_datap_twice |]. by split.
Qed.

Lemma content_cons n cs : content (n :: cs) = dat n ++ content cs.
Proof. done. Qed.

(** The last node with data of a buffer that is not empty. *)
Lemma focus_nonempty cs s : focused cs s -> content cs <> [] ->
  exists pre t post, cs = pre ++ t :: post /\ Forall empty post /\ dat t <> [] /\ s = slot_after pre.
Proof.
  intros [[-> _] | (pre & t & post & -> & Hp & Hd & Hs)] Hc; [done |]. exists pre, t, post. split_and!; try done.
  destruct Hd as [? | ->]; [done |]. intros Ht. apply Hc. cbn [app]. by rewrite content_cons, Ht, content_empty.
Qed.

Lemma take_from_front c xs k : chain_holds c xs -> 0 <= k <= Z.of_nat (length xs) ->
  chain_holds (set_off (set_misalign c (misalign c + k)) (off c - k)) (drop (Z.to_nat k) xs).
Proof.
  intros (Hf & Hr & Ho & Hb & Hlim & pre & post & Eb & Em) Hk.
  split; [done |]. split; [done |]. split; [cbn; rewrite length_drop; lia |]. split; [done |]. split; [done |].
  exists (pre ++ (Some <$> take (Z.to_nat k) xs)), post. cbn. rewrite Eb, Em, length_app, length_fmap, length_take. split; [| lia].
  rewrite <- app_assoc. f_equal. by rewrite app_assoc, <- fmap_app, take_drop.
Qed.

Lemma set_parts b e e' w : buffers w !! b = Some e -> put_buf b e' (put_buf b e w) = put_buf b e' w.
Proof. intros H. unfold put_buf. cbn. by rewrite insert_insert_eq. Qed.

Lemma drain_some_spec w b e cs os len : buf_now w b e cs os -> 0 <= len -> content cs <> [] ->
  exists w' e' cs', drain_some b len w = Ok w' /\ upd w w' b e' /\ buf_now w' b e' cs' os /\ kept e e' /\
    content cs' = drop (Z.to_nat len) (content cs) /\ n_add_for_cb e' = n_add_for_cb e /\ n_del_for_cb e' = u64 (n_del_for_cb e + Z.min len (total_len e)).
Proof.
  intros Hn Hlen Hne. pose proof Hn as (Hb & (Hf & Hla & Hl & Hok & Hfo & Ht & Htl) & Hh). unfold drain_some.
  rewrite (buf_at_Ok _ _ _ Hb). cbn [mbind res_bind]. rewrite (not_pinned w b e cs os Hn). cbn [mbind res_bind negb]. rewrite andb_true_r.
  pose proof (fuel_is w _ Hh) as Hfuel. rewrite length_app in Hfuel.
  destruct (Z.geb_spec len (total_len e)) as [Hge | Hlt].
  - rewrite Hf. destruct (free_chains_spec (chain_fuel w) cs w [] os Hh Hl Hok) as (w1 & -> & Hh1 & Hb1 & Hc1 & Hf1); [lia |]. cbn [mbind res_bind].
    unfold ZERO_CHAIN. assert (Hbe : buffers w1 !! b = Some e) by by rewrite Hb1. rewrite (buf_at_Ok _ _ _ Hbe). cbn [mbind res_bind].
    unfold buf_at. cbn [buffers put_buf]. rewrite lookup_insert_eq. cbn [of_option mbind res_bind]. eexists _, _, []. split; [done |].
    split; [split_and!; cbn; [by rewrite insert_insert_eq, Hb1 | done | lia] |].
    split; [split; [cbn; by rewrite lookup_insert_eq |]; split; [| exact Hh1]; split_and!; cbn; try done; by left |].
    split; [by split_and! |]. split; [by rewrite drop_ge by lia |]. split; [done |]. cbn. by rewrite Z.min_r by lia.
  - destruct (focus_nonempty cs _ Hfo Hne) as (pre & t & post & -> & Hp & Hd & Hs).
    assert (Etot : Z.of_nat (length (content pre ++ dat t)) = total_len e).
    { rewrite Ht, content_app, content_cons, (content_empty post Hp), app_nil_r. done. }
    rewrite wrap_small by lia. set (w1 := put_buf b _ w). assert (Hfu1 : chain_fuel w1 = chain_fuel w) by done. rewrite Hfu1, Hfuel. rewrite Hf.
    destruct (drain_chains_spec b t post os (S (length (pre ++ t :: post) + length os)) pre w1 (set_total e (total_len e - len)) len)
      as (gone & pre2 & rem' & n & r & w2 & -> & Eg & En & Er & Hr & Hh2 & Hb2 & Hc2 & Hf2);
      [cbn; by rewrite lookup_insert_eq | exact Hh | done | done | done | lia | lia | rewrite length_app; cbn; lia |]. cbn [mbind res_bind].
    assert (Hbe2 : buffers w2 !! b = Some (set_datap (set_total e (total_len e - len)) (slot_after pre2))) by (rewrite Hb2; apply lookup_insert_eq).
    rewrite (buf_at_Ok _ _ _ Hbe2). cbn [mbind res_bind].
    set (w3 := put_buf b _ w2). assert (Hh3 : heap_of w3 ([] ++ n :: r ++ os)) by exact Hh2.
    rewrite (proj2 (Z.eqb_neq (addr n) NULL)) by (by eapply addr_here). cbn [negb assert_ok mbind res_bind]. rewrite (chain_here w3 [] n (r ++ os) Hh3). cbn [mbind res_bind].
    assert (Hoks : Forall node_ok (n :: r)).
    { rewrite <- En. rewrite Eg, <- app_assoc in Hok. by apply Forall_app in Hok as [_ Hok]. }
    pose proof Hoks as Hoks'. apply Forall_cons in Hoks' as [Hn1 Hokr]. pose proof Hn1 as (_ & _ & Ho & Hbl & Hlim & prec & postc & Eb & _).
    unfold EVBUFFER_CHAIN_SIZE in Hlim. rewrite Eb, !length_app, length_fmap in Hbl. rewrite Ho, (proj2 (Z.leb_le rem' _)) by lia. cbn [assert_ok mbind res_bind].
    rewrite wrap_small by lia. rewrite <- Ho.
    set (n' := Node (addr n) (set_off (set_misalign (ch n) (misalign (ch n) + rem')) (off (ch n) - rem')) (drop (Z.to_nat rem') (dat n))).
    assert (Hn' : node_ok n') by (apply take_from_front; [done | lia]).
    pose proof (put_here w3 [] n (r ++ os) n' Hh3 eq_refl) as Hh4. unfold buf_at. cbn [buffers put_chain put_buf w3]. rewrite lookup_insert_eq. cbn [of_option mbind res_bind].
    eexists _, _, (n' :: r). split; [done |]. split; [split_and!; cbn; [rewrite !insert_insert_eq, Hb2; cbn; by rewrite !insert_insert_eq | done | rewrite Hf2; cbn; lia] |].
    assert (Ed : content (n' :: r) = drop (Z.to_nat len) (content (pre ++ t :: post))).
    { rewrite Eg, <- app_assoc, En, content_app, !content_cons. cbn [dat n']. rewrite Er, Z2Nat.inj_add, Nat2Z.id by lia.
      rewrite drop_app_add, drop_app_le by lia. done. }
    assert (Hlk : linked (n :: r)) by (rewrite <- En; rewrite Eg, <- app_assoc in Hl; by apply linked_suffix in Hl).
    split; [split; [cbn; by rewrite lookup_insert_eq |]; split; [| exact Hh4] |].
    + split; [done |]. split.
      { cbn [last set_counts set_first set_datap set_total]. rewrite Hla. pose proof (last_at_change [] n n' r eq_refl) as El. cbn [app] in El. by rewrite El, <- En, !last_at_app. }
      split; [cbn; by destruct Hlk |]. split; [by constructor |]. split.
      { right. destruct pre2 as [| m pre2]; cbn [app] in En; injection En as -> Er'; subst.
        - exists [], n', r. split_and!; try done. by right.
        - exists (n' :: pre2), t, post. split_and!; [done | done | by left |]. cbn. snoc_cases pre2 m pre'; [done |].
          change (n' :: pre' ++ [m]) with ((n' :: pre') ++ [m]). change (n :: pre' ++ [m]) with ((n :: pre') ++ [m]). by rewrite !slot_after_snoc. }
      rewrite Ed, length_drop. cbn. lia.
    + split; [by split_and! |]. split; [exact Ed |]. split; [done |]. cbn. by rewrite Z.min_l by lia.
Qed.

Lemma data_copied c xs k : chain_holds c xs -> 0 <= k <= Z.of_nat (length xs) ->
  blk_copy (Z.to_nat (misalign c + 0)) (Z.to_nat k) (cbuffer c) = Ok (Some <$> take (Z.to_nat k) xs).
Proof.
  intros (_ & _ & _ & _ & _ & pre & post & Eb & Em) Hk. rewrite Z.add_0_r, Em, Nat2Z.id, Eb.
  pose proof (blk_copy_app pre (Some <$> take (Z.to_nat k) xs) ((Some <$> drop (Z.to_nat k) xs) ++ post)) as E.
  rewrite length_fmap, length_take, (app_assoc (Some <$> take (Z.to_nat k) xs)), <- fmap_app, take_drop in E. by replace (Z.to_nat k `min` length xs)%nat with (Z.to_nat k) in E by lia.
Qed.

Lemma copy_chains_spec w os fuel : forall suf pre k out, heap_of w (pre ++ suf ++ os) -> linked suf -> Forall node_ok suf ->
  0 <= k <= Z.of_nat (length (content suf)) -> k < 2 ^ 63 -> (length suf < fuel)%nat ->
  exists gone suf2 rest, copy_chains fuel (head_at suf) 0 k out w = Ok (head_at suf2, 0, rest, out ++ (Some <$> content gone)) /\
    suf = gone ++ suf2 /\ k = Z.of_nat (length (content gone)) + rest /\ (rest = 0 \/ exists n r, suf2 = n :: r /\ 0 < rest < Z.of_nat (length (dat n))).
Proof.
  induction fuel as [| fuel IH]; intros suf pre k out Hh Hl Hok Hk Hm Hf; [lia |]. cbn [copy_chains].
  destruct (Z.eqb_spec k 0) as [-> | Hk0].
  { exists [], suf, 0. cbn. rewrite app_nil_r. split_and!; try done. by left. }
  destruct suf as [| n suf]; [cbn in Hk; lia |]. cbn [head_at]. cbn [app] in Hh. rewrite (chain_here w pre n (suf ++ os) Hh). cbn [mbind res_bind].
  apply Forall_cons in Hok as [Hn Hok]. pose proof Hn as (_ & _ & Ho & Hbl & Hlim & prec & postc & Eb & _). unfold EVBUFFER_CHAIN_SIZE in Hlim.
  rewrite Eb, !length_app, length_fmap in Hbl. rewrite Ho, Z.sub_0_r, wrap_small by lia.
  destruct (Z.geb_spec k (Z.of_nat (length (dat n)))) as [Hge | Hlt]; cbn [negb].
  - rewrite (data_copied (ch n) (dat n)) by (done || lia). rewrite Nat2Z.id, firstn_all. cbn [mbind res_bind]. rewrite wrap_small by lia.
    cbn in Hl. destruct Hl as [-> Hl]. rewrite content_cons, length_app in Hk. cbn [length] in Hf.
    assert (Hend : negb (head_at suf =? NULL) || (k - Z.of_nat (length (dat n)) =? 0) = true).
    { destruct suf as [| m suf]; [cbn in Hk |- *; rewrite (proj2 (Z.eqb_eq _ _)) by lia; done |]. cbn [head_at].
      rewrite (proj2 (Z.eqb_neq (addr m) NULL)); [done |]. eapply (addr_here w (pre ++ [n]) m (suf ++ os)). by rewrite <- app_assoc. }
    rewrite Hend. cbn [assert_ok mbind res_bind].
    destruct (IH suf (pre ++ [n]) (k - Z.of_nat (length (dat n))) (out ++ (Some <$> dat n))) as (gone & suf2 & rest & -> & Es & Ek & Hr);
      [by rewrite <- app_assoc | done | done | lia | lia | lia |].
    exists (n :: gone), suf2, rest. split; [by rewrite content_cons, fmap_app, app_assoc |]. split; [by rewrite Es |]. split; [| done].
    rewrite content_cons, length_app. lia.
  - exists [], (n :: suf), k. cbn [content fmap list_fmap concat head_at]. rewrite app_nil_r. split; [done |]. split; [done |]. split; [done |].
    right. exists n, suf. split; [done | lia].
Qed.

(** Copying out gives the first bytes. *)
Lemma copyout_spec w b e cs os k : buf_now w b e cs os -> freeze_start e = false -> 0 <= k < 2 ^ 64 ->
  evbuffer_copyout b k w = Ok (Z.min k (total_len e), Some <$> take (Z.to_nat k) (content cs)).
Proof.
  intros Hn Hfr Hk. pose proof Hn as (Hb & (Hf & _ & Hl & Hok & _ & Ht & Htl) & Hh). unfold evbuffer_copyout, evbuffer_copyout_from.
  rewrite (buf_at_Ok _ _ _ Hb). cbn [mbind res_bind]. rewrite bool_decide_false by (by intros [? ?]). cbn [andb]. rewrite Z.add_0_r, Z.sub_0_r, !wrap_small by lia.
  assert (Ek : (if k >? total_len e then total_len e else k) = Z.min k (total_len e)) by (destruct (Z.gtb_spec k (total_len e)); lia). rewrite Ek.
  assert (Et : take (Z.to_nat k) (content cs) = take (Z.to_nat (Z.min k (total_len e))) (content cs)).
  { destruct (Z.min_spec k (total_len e)) as [[_ ->] | [? ->]]; [done |]. rewrite !take_ge by lia. done. }
  rewrite Et. set (m := Z.min k (total_len e)) in *. assert (Hm : 0 <= m <= Z.of_nat (length (content cs))) by (unfold m; lia). clearbody m. clear Ek Et.
  destruct (Z.eqb_spec m 0) as [-> | Hm0]; [done |]. rewrite Hfr, Hf.
  pose proof (fuel_is w _ Hh) as Hfuel. rewrite length_app in Hfuel.
  destruct (copy_chains_spec w os (chain_fuel w) cs [] m [] Hh Hl Hok Hm) as (gone & suf & rest & -> & Es & Em & Hr); [lia | lia |]. cbn [mbind res_bind app].
  destruct (Z.eqb_spec rest 0) as [-> | Hr0].
  - do 2 f_equal. f_equal. rewrite Es, content_app, Em, Z.add_0_r, Nat2Z.id. by rewrite take_app_length.
  - destruct Hr as [? | (n & r & -> & Hr)]; [done |]. rewrite Es, <- app_assoc in Hh. cbn [app] in Hh. cbn [head_at].
    rewrite (proj2 (Z.eqb_neq (addr n) NULL)) by (by eapply addr_here). cbn [negb assert_ok mbind res_bind]. rewrite (chain_here w gone n (r ++ os) Hh). cbn [mbind res_bind].
    rewrite Es in Hok. apply Forall_app in Hok as [_ Hok]. apply Forall_cons in Hok as [Hn1 _]. pose proof Hn1 as (_ & _ & Ho & _).
    rewrite Ho, (proj2 (Z.leb_le _ _)) by lia. cbn [assert_ok mbind res_bind]. rewrite (data_copied (ch n) (dat n)) by (done || lia). cbn [mbind res_bind].
    do 2 f_equal. rewrite <- fmap_app. f_equal. rewrite Es, content_app, content_cons, Em, Z2Nat.inj_add, Nat2Z.id by lia.
    by rewrite take_app_add, take_app_le by lia.
Qed.
End removing.

(** ** Moving everything *)

Section moving.
Context {C : Type} (alloc : Z -> Z -> bool).
Implicit Types (w : heap C).

(** Two buffers of one heap. *)
Definition both_now w (bo : Z) (eo : evbuffer) (co : list node) (bi : Z) (ei : evbuffer) (ci os : list node) : Prop :=
  bo <> bi /\ buffers w !! bo = Some eo /\ buffers w !! bi = Some ei /\ buf_holds eo co /\ buf_holds ei ci /\ heap_of w (co ++ ci ++ os).

Lemma both_out w bo eo co bi ei ci os : both_now w bo eo co bi ei ci os -> buf_now w bo eo co (ci ++ os).
Proof. intros (_ & ? & _ & ? & _ & ?). by split_and!. Qed.

Lemma both_in w bo eo co bi ei ci os : both_now w bo eo co bi ei ci os -> buf_now w bi ei ci (co ++ os).
Proof.
  intros (_ & _ & ? & _ & ? & Hh). split; [done |]. split; [done |]. eapply heap_of_perm; [| exact Hh].
  rewrite !app_assoc. apply Permutation_app_tail, Permutation_app_comm.
Qed.

Lemma slot_after_app a b : slot_after (a ++ b) = match b with [] => slot_after a | _ => slot_after b end.
Proof. snoc_cases b m b'; [by rewrite app_nil_r |]. rewrite app_assoc, slot_after_snoc. by destruct b'. Qed.

Lemma slot_first pre : slot_is_first (slot_after pre) = bool_decide (pre = []).
Proof. snoc_cases pre m pre'; [done |]. symmetry. apply bool_decide_eq_false. by destruct pre'. Qed.

(** Nodes behind those of another buffer. *)
Lemma focused_behind body ci s : focused ci s -> content ci <> [] ->
  focused (relink body (head_at ci) ++ ci) (if slot_is_first s then slot_after body else s).
Proof.
  intros Hfo Hne. destruct (focus_nonempty ci s Hfo Hne) as (pre & t & post & -> & Hp & Hd & ->). right.
  exists (relink body (head_at (pre ++ t :: post)) ++ pre), t, post. split; [by rewrite <- app_assoc |]. split; [done |]. split; [by left |].
  rewrite slot_first, slot_after_app. destruct (relink_parts body (head_at (pre ++ t :: post))) as (_ & _ & _ & _ & ->).
  destruct pre; [by rewrite bool_decide_true by done | by rewrite bool_decide_false by done].
Qed.

Lemma holds_behind e body ci ei : buf_holds ei ci -> content ci <> [] -> linked body -> Forall node_ok body ->
  first e = head_at (body ++ ci) -> last e = last ei -> last_with_datap e = (if slot_is_first (last_with_datap ei) then slot_after body else last_with_datap ei) ->
  total_len e = Z.of_nat (length (content body)) + total_len ei -> total_len e < 2 ^ 63 -> buf_holds e (relink body (head_at ci) ++ ci).
Proof.
  intros (Hf & Hla & Hl & Hok & Hfo & Ht & Htl) Hne Hlb Hokb He1 He2 He3 He4 He5. split_and!; [by rewrite relink_head | | | | | | done].
  - rewrite He2, Hla. destruct ci as [| n ci]; [done |]. by rewrite last_at_app.
  - apply (relink_linked body ci []); [by rewrite app_nil_r | done].
  - apply Forall_app. split; [by apply relink_ok | done].
  - rewrite He3. by apply focused_behind.
  - rewrite content_app, relink_content, length_app. lia.
Qed.

Lemma holds_zero e : total_len e = 0 -> first e = NULL -> last e = NULL -> last_with_datap e = First -> buf_holds e [].
Proof. intros H1 H2 H3 H4. split_and!; try done; [by left | by rewrite H1]. Qed.

Lemma move_all_spec w bo eo co bi ei ci os : both_now w bo eo co bi ei ci os -> content ci <> [] -> total_len eo + total_len ei < 2 ^ 63 ->
  exists w' eo' ei' co', move_all alloc bo bi w = Ok (true, w') /\ buffers w' = <[bo := eo']> (<[bi := ei']> (buffers w)) /\ client w' = client w /\ fresh w' = fresh w /\
    both_now w' bo eo' co' bi ei' [] os /\ content co' = content co ++ content ci /\ kept eo eo' /\ kept ei ei' /\
    n_add_for_cb eo' = u64 (n_add_for_cb eo + total_len ei) /\ n_del_for_cb eo' = n_del_for_cb eo /\
    n_add_for_cb ei' = n_add_for_cb ei /\ n_del_for_cb ei' = u64 (n_del_for_cb ei + total_len ei).
Proof.
  intros Hn Hne Htot. pose proof Hn as (Hbb & Hbo & Hbi & Ho & Hi & Hh). unfold move_all.
  rewrite (buf_at_Ok _ _ _ Hbi), (buf_at_Ok _ _ _ Hbo). cbn [mbind res_bind]. unfold PRESERVE_PINNED. rewrite (buf_at_Ok _ _ _ Hbi). cbn [mbind res_bind].
  rewrite (not_pinned w bi ei ci _ (both_in _ _ _ _ _ _ _ _ Hn)). cbn [mbind res_bind negb].
  pose proof Hi as (Hif & Hila & Hil & Hiok & Hifo & Hit & Hitl). pose proof Ho as (Hof & Hola & Hol & Hook & Hofo & Hot & Hotl).
  assert (G : exists w1 eo1 co1, (if total_len eo =? 0 then w1 ← evbuffer_free_all_chains (first eo) w; COPY_CHAIN bo bi w1 else APPEND_CHAIN bo bi w) = Ok w1 /\
    buffers w1 = <[bo := eo1]> (buffers w) /\ client w1 = client w /\ fresh w1 = fresh w /\ buf_holds eo1 co1 /\ heap_of w1 (co1 ++ os) /\
    content co1 = content co ++ content ci /\ kept eo eo1 /\ n_add_for_cb eo1 = n_add_for_cb eo /\ n_del_for_cb eo1 = n_del_for_cb eo).
  { destruct (Z.eqb_spec (total_len eo) 0) as [Hz | Hz].
    - rewrite Hof. unfold evbuffer_free_all_chains. pose proof (fuel_is w _ Hh) as Hfuel. rewrite length_app in Hfuel.
      destruct (free_chains_spec (chain_fuel w) co w [] (ci ++ os) Hh Hol Hook) as (w1 & -> & Hh1 & Hb1 & Hc1 & Hf1); [lia |]. cbn [mbind res_bind].
      unfold COPY_CHAIN, buf_at. rewrite Hb1, Hbo, Hbi. cbn [of_option mbind res_bind].
      assert (Ec : content co = []) by (destruct (content co); [done | cbn in Hot; lia]).
      eexists _, _, ci. split; [done |]. split; [cbn; by rewrite Hb1 |]. split; [done |]. split; [done |]. split; [by split_and! |]. split; [exact Hh1 |].
      split; [by rewrite Ec |]. by split_and!.
    - unfold APPEND_CHAIN. destruct (free_trailing_spec w bo eo co (ci ++ os) Hbo Hh Hof Hol Hook Hofo) as (body & w1 & -> & Hh1 & Hl1 & Hok1 & Hcont & Hb1 & Hc1 & Hf1 & Hlast). cbn [mbind res_bind].
      assert (Hbi1 : buffers w1 !! bi = Some ei) by (by rewrite Hb1, lookup_insert_ne). rewrite (buf_at_Ok _ _ _ Hbi1). cbn [mbind res_bind].
      assert (Hbo1 : buffers w1 !! bo = Some (set_first eo (head_at body))) by (rewrite Hb1; apply lookup_insert_eq).
      destruct (set_slot_after w1 bo _ body ci (ci ++ os) Hh1 Hbo1 ltac:(done)) as (w2 & E2 & Hh2 & Hb2 & Hc2 & Hf2). rewrite Hif, E2. cbn [mbind res_bind].
      unfold buf_at. rewrite Hb2, lookup_insert_eq. cbn [of_option mbind res_bind]. eexists _, _, (relink body (head_at ci) ++ ci). split; [done |].
      split; [cbn; by rewrite Hb2, Hb1, !insert_insert_eq |]. split; [cbn; congruence |]. split; [cbn; congruence |].
      cbn [total_len set_first]. rewrite wrap_small by lia. split; [| split; [by rewrite <- app_assoc |]].
      + apply (holds_behind _ body ci ei); try done. cbn. rewrite Hcont. lia.
      + split; [by rewrite content_app, relink_content, Hcont |]. by split_and!. }
  destruct G as (w1 & eo1 & co1 & -> & Hb1 & Hc1 & Hf1 & Ho1 & Hh1 & Hcont & K1 & Ha1 & Hd1). cbn [mbind res_bind].
  unfold RESTORE_PINNED, ZERO_CHAIN. rewrite Z.eqb_refl. unfold buf_at. rewrite Hb1, lookup_insert_ne, Hbi by done. cbn [of_option mbind res_bind buffers put_buf].
  rewrite lookup_insert_eq. cbn [of_option mbind res_bind]. rewrite lookup_insert_ne by done. rewrite Hb1. rewrite lookup_insert_ne, lookup_insert_eq by done. cbn [of_option mbind res_bind].
  eexists _, _, _, co1. split; [done |]. split; [cbn; by rewrite insert_insert_eq, Hb1, (insert_insert_ne _ bi bo), insert_insert_eq by done |].
  split; [done |]. split; [done |]. split; [| split; [done |]].
  - split; [done |]. split; [cbn; by rewrite lookup_insert_eq |]. split; [cbn; by rewrite lookup_insert_ne, lookup_insert_eq by done |].
    split; [exact Ho1 |]. split; [by apply holds_zero | exact Hh1].
  - split; [exact K1 |]. split; [by split_and! |]. cbn. rewrite Ha1, Hd1. by split_and!.
Qed.
End moving.
