(* ===== verification/EvBytes.v ===== *)
(** * Byte buffers are sequences of bytes

    What the functions of [Evbuffer] promise, without chains: a set of buffers is a map from their addresses to the bytes
    they hold.  Every operation on buffers that are not frozen and have no callbacks does to the bytes what it says, keeps
    every other buffer as it is, and loses no chain; only for want of memory does adding or creating fail, and then nothing
    has changed. *)

From S2P Require Import Prelude Evbuffer EvChains.

(** ** All buffers of a heap *)

Definition nodes (css : gmap Z (list node)) : list node := concat (map_to_list css).*2.

Definition holds_all {C} (w : heap C) (css : gmap Z (list node)) : Prop :=
  (forall b, match buffers w !! b, css !! b with
             | Some e, Some cs => buf_holds e cs /\ 0 < b < fresh w
             | None, None => True
             | _, _ => False
             end) /\ heap_of w (nodes css).

Lemma nodes_delete css b cs : css !! b = Some cs -> nodes css ≡ₚ cs ++ nodes (delete b css).
Proof. intros H. unfold nodes. by rewrite <- (map_to_list_delete css b cs H). Qed.

Lemma nodes_insert css b cs : nodes (<[b := cs]> css) ≡ₚ cs ++ nodes (delete b css).
Proof. rewrite (nodes_delete _ b cs) by apply lookup_insert_eq. by rewrite delete_insert_eq. Qed.

Section heaps.
Context {C : Type}.
Implicit Types (w : heap C).

Lemma all_buffer w css b cs : holds_all w css -> css !! b = Some cs -> exists e, buf_now w b e cs (nodes (delete b css)) /\ 0 < b < fresh w.
Proof.
  intros [Hb Hh] Hc. specialize (Hb b). rewrite Hc in Hb. destruct (buffers w !! b) as [e |] eqn:E; [| done]. destruct Hb as [Hb Hr].
  exists e. split; [| done]. split; [done |]. split; [done |]. eapply heap_of_perm; [by apply nodes_delete | done].
Qed.

Lemma all_update w w' css b e' cs cs' : holds_all w css -> css !! b = Some cs -> upd w w' b e' -> buf_now w' b e' cs' (nodes (delete b css)) ->
  holds_all w' (<[b := cs']> css).
Proof.
  intros [Hb Hh] Hc (U1 & _ & U3) (Hb' & He' & Hh'). split; [| eapply heap_of_perm; [symmetry; by apply nodes_insert | exact Hh']].
  intros b2. rewrite U1. specialize (Hb b2). destruct (decide (b2 = b)) as [-> | Hn].
  - rewrite !lookup_insert_eq. split; [done |]. rewrite Hc in Hb. destruct (buffers w !! b); [| done]. destruct Hb. lia.
  - rewrite !lookup_insert_ne by done. destruct (buffers w !! b2), (css !! b2); try done. destruct Hb. split; [done | lia].
Qed.

(** Two buffers. *)
Lemma all_two w css bo bi co ci : holds_all w css -> bo <> bi -> css !! bo = Some co -> css !! bi = Some ci ->
  exists eo ei, both_now w bo eo co bi ei ci (nodes (delete bi (delete bo css))).
Proof.
  intros [Hb Hh] Hn Ho Hi. pose proof (Hb bo) as Hbo. pose proof (Hb bi) as Hbi. rewrite Ho in Hbo. rewrite Hi in Hbi.
  destruct (buffers w !! bo) as [eo |] eqn:Eo; [| done]. destruct (buffers w !! bi) as [ei |] eqn:Ei; [| done].
  destruct Hbo as [Hbo _], Hbi as [Hbi _]. exists eo, ei. split; [done |]. split; [done |]. split; [done |]. split; [done |]. split; [done |].
  eapply heap_of_perm; [| exact Hh]. rewrite (nodes_delete css bo co Ho). f_equiv. apply nodes_delete. by rewrite lookup_delete_ne.
Qed.

Lemma all_update_two w w' css bo bi eo' ei' co' ci' : holds_all w css -> is_Some (css !! bo) -> is_Some (css !! bi) ->
  buffers w' = <[bo := eo']> (<[bi := ei']> (buffers w)) -> fresh w <= fresh w' -> both_now w' bo eo' co' bi ei' ci' (nodes (delete bi (delete bo css))) ->
  holds_all w' (<[bo := co']> (<[bi := ci']> css)).
Proof.
  intros [Hb Hh] [co Ho] [ci Hi] U1 U3 (Hn & _ & _ & Ho' & Hi' & Hh'). split.
  - intros b2. rewrite U1. specialize (Hb b2). destruct (decide (b2 = bo)) as [-> | Hn1]; [| destruct (decide (b2 = bi)) as [-> | Hn2]].
    + rewrite !lookup_insert_eq. split; [done |]. rewrite Ho in Hb. destruct (buffers w !! bo); [| done]. destruct Hb. lia.
    + rewrite !(lookup_insert_ne _ bo bi), !lookup_insert_eq by done. split; [done |]. rewrite Hi in Hb. destruct (buffers w !! bi); [| done]. destruct Hb. lia.
    + rewrite !lookup_insert_ne by done. destruct (buffers w !! b2), (css !! b2); try done. destruct Hb. split; [done | lia].
  - eapply heap_of_perm; [| exact Hh']. rewrite nodes_insert. f_equiv. rewrite delete_insert_ne by done. rewrite nodes_insert. by rewrite delete_delete.
Qed.

Lemma all_new w css e b w' : holds_all w css -> b = fresh w -> buf_holds e [] -> chains w' = chains w -> buffers w' = <[b := e]> (buffers w) -> fresh w' = fresh w + 1 ->
  css !! b = None /\ holds_all w' (<[b := []]> css).
Proof.
  intros [Hb Hh] -> He U1 U2 U3. assert (H0 : 0 < fresh w) by apply Hh.
  assert (Hno : css !! fresh w = None).
  { specialize (Hb (fresh w)). destruct (buffers w !! fresh w), (css !! fresh w); try done. lia. }
  split; [done |]. split.
  - intros b2. rewrite U2, U3. specialize (Hb b2). destruct (decide (b2 = fresh w)) as [-> | Hn].
    + rewrite !lookup_insert_eq. split; [done | lia].
    + rewrite !lookup_insert_ne by done. destruct (buffers w !! b2), (css !! b2); try done. destruct Hb. split; [done | lia].
  - destruct Hh as (Hc & Hn & Hf & _). eapply (heap_of_perm _ (nodes css)); [by rewrite nodes_insert, delete_id |].
    split_and!; [congruence | done | | lia]. eapply Forall_impl; [exact Hf |]. cbn. lia.
Qed.

Lemma all_delete w w' css b cs : holds_all w css -> css !! b = Some cs -> heap_of w' (nodes (delete b css)) -> buffers w' = delete b (buffers w) -> fresh w' = fresh w ->
  holds_all w' (delete b css).
Proof.
  intros [Hb _] Hc Hh U1 U2. split; [| done]. intros b2. rewrite U1, U2. specialize (Hb b2).
  destruct (decide (b2 = b)) as [-> | Hn]; [by rewrite !lookup_delete_eq | by rewrite !lookup_delete_ne].
Qed.
End heaps.

(** ** Operations *)

Inductive op :=
  | New
  | Add (b : Z) (xs : list Z)
  | Drain (b n : Z)
  | Remove (b n : Z)
  | Copyout (b n : Z)
  | Length (b : Z)
  | Move (bo bi : Z)
  | Free (b : Z).

(** What runs: the result, the bytes copied out. *)
Definition exec {C} (alloc : Z -> Z -> bool) (run_cb : evbuffer_cb_entry -> Z -> evbuffer_cb_info -> heap C -> res (heap C))
    (o : op) (w : heap C) : res (Z * block Z * heap C) :=
  match o with
  | New => let '(b, w) := evbuffer_new alloc w in Ok (b, [], w)
  | Add b xs => '(r, w) ← evbuffer_add alloc run_cb b (Some <$> xs) w; Ok (r, [], w)
  | Drain b n => '(r, w) ← evbuffer_drain run_cb b n w; Ok (r, [], w)
  | Remove b n => evbuffer_remove run_cb b n w
  | Copyout b n => '(r, out) ← evbuffer_copyout b n w; Ok (r, out, w)
  | Length b => n ← evbuffer_get_length b w; Ok (n, [], w)
  | Move bo bi => '(r, w) ← evbuffer_add_buffer alloc run_cb bo bi w; Ok (r, [], w)
  | Free b => w ← evbuffer_free b w; Ok (0, [], w)
  end.

(** What may be asked for: of buffers there are, without passing the bounds of the machine. *)
Definition able (B : gmap Z (list Z)) (o : op) : Prop :=
  match o with
  | New => True
  | Add b xs => exists ys, B !! b = Some ys /\ Z.of_nat (length xs) <= 2 ^ 60 /\ Z.of_nat (length ys) + Z.of_nat (length xs) < 2 ^ 63
  | Drain b n | Copyout b n => is_Some (B !! b) /\ 0 <= n < 2 ^ 64
  | Remove b n => exists ys, B !! b = Some ys /\ 0 <= n < 2 ^ 64 /\ Z.min n (Z.of_nat (length ys)) < 2 ^ 31
  | Length b | Free b => is_Some (B !! b)
  | Move bo bi => exists xs ys, B !! bo = Some xs /\ B !! bi = Some ys /\ Z.of_nat (length xs) + Z.of_nat (length ys) < 2 ^ 63
  end.

(** What is promised: the result, the bytes given out and what the buffers hold afterwards. *)
Definition does (B : gmap Z (list Z)) (o : op) (ret : Z) (out : list Z) (B' : gmap Z (list Z)) : Prop :=
  match o with
  | New => ret <> NULL /\ B !! ret = None /\ out = [] /\ B' = <[ret := []]> B
  | Add b xs => exists ys, B !! b = Some ys /\ ret = 0 /\ out = [] /\ B' = <[b := ys ++ xs]> B
  | Drain b n => exists ys, B !! b = Some ys /\ ret = 0 /\ out = [] /\ B' = <[b := drop (Z.to_nat n) ys]> B
  | Remove b n => exists ys, B !! b = Some ys /\ ret = Z.of_nat (length out) /\ out = take (Z.to_nat n) ys /\ B' = <[b := drop (Z.to_nat n) ys]> B
  | Copyout b n => exists ys, B !! b = Some ys /\ ret = Z.of_nat (length out) /\ out = take (Z.to_nat n) ys /\ B' = B
  | Length b => exists ys, B !! b = Some ys /\ ret = Z.of_nat (length ys) /\ out = [] /\ B' = B
  | Move bo bi => exists xs ys, B !! bo = Some xs /\ B !! bi = Some ys /\ ret = 0 /\ out = [] /\
      B' = if decide (bo = bi) then B else <[bo := xs ++ ys]> (<[bi := []]> B)
  | Free b => ret = 0 /\ out = [] /\ B' = delete b B
  end.

(** What is left without memory. *)
Definition fails (B : gmap Z (list Z)) (o : op) (ret : Z) (out : list Z) (B' : gmap Z (list Z)) : Prop :=
  match o with New => ret = NULL | Add _ _ => ret = -1 | _ => False end /\ out = [] /\ B' = B.

(** ** Bytes *)

(** No callbacks, not frozen, one owner. *)
Definition plain (e : evbuffer) : Prop := freeze_start e = false /\ freeze_end e = false /\ refcnt e = 1 /\ callbacks e = [].

(** The buffers of the heap hold the bytes [B]. *)
Definition holds {C} (w : heap C) (B : gmap Z (list Z)) : Prop := exists css, holds_all w css /\ content <$> css = B.

Definition reps {C} (w : heap C) (B : gmap Z (list Z)) : Prop := holds w B /\ map_Forall (fun _ => plain) (buffers w).

Lemma plain_kept e e' : plain e -> kept e e' -> plain e'.
Proof. intros (A1 & A2 & A3 & A4) (B1 & B2 & B3 & B4). split_and!; congruence. Qed.

Section bytes.
Context {C : Type} (alloc : Z -> Z -> bool) (run_cb : evbuffer_cb_entry -> Z -> evbuffer_cb_info -> heap C -> res (heap C)).
Implicit Types (w : heap C) (B : gmap Z (list Z)).

#[local] Abbreviation oom := (exists a n, alloc a n = false).

(** One buffer of many, and what changing it does to all. *)
Lemma holds_one w B b ys : holds w B -> B !! b = Some ys -> exists e cs os, buf_now w b e cs os /\ content cs = ys /\ 0 < b < fresh w /\
  (forall w' e' cs', upd w w' b e' -> buf_now w' b e' cs' os -> holds w' (<[b := content cs']> B)) /\
  (forall w', heap_of w' os -> buffers w' = delete b (buffers w) -> fresh w' = fresh w -> holds w' (delete b B)).
Proof.
  intros (css & Ha & <-) Hb. rewrite lookup_fmap in Hb. destruct (css !! b) as [cs |] eqn:Hc; [| done]. injection Hb as <-.
  destruct (all_buffer w css b cs Ha Hc) as (e & Hn & Hr). exists e, cs, (nodes (delete b css)). split; [done |]. split; [done |]. split; [done |]. split.
  - intros w' e' cs' Hu Hn'. exists (<[b := cs']> css). split; [by eapply all_update | apply fmap_insert].
  - intros w' Hh Hb' Hf'. exists (delete b css). split; [by eapply all_delete | apply fmap_delete].
Qed.

Lemma holds_two w B bo bi xs ys : holds w B -> bo <> bi -> B !! bo = Some xs -> B !! bi = Some ys ->
  exists eo co ei ci os, both_now w bo eo co bi ei ci os /\ content co = xs /\ content ci = ys /\
  (forall w' eo' ei' co' ci', buffers w' = <[bo := eo']> (<[bi := ei']> (buffers w)) -> fresh w <= fresh w' -> both_now w' bo eo' co' bi ei' ci' os ->
     holds w' (<[bo := content co']> (<[bi := content ci']> B))).
Proof.
  intros (css & Ha & <-) Hn Ho Hi. rewrite lookup_fmap in Ho, Hi. destruct (css !! bo) as [co |] eqn:Hco; [| done]. destruct (css !! bi) as [ci |] eqn:Hci; [| done].
  injection Ho as <-. injection Hi as <-. destruct (all_two w css bo bi co ci Ha Hn Hco Hci) as (eo & ei & Hb).
  exists eo, co, ei, ci, (nodes (delete bi (delete bo css))). split; [done |]. split; [done |]. split; [done |].
  intros w' eo' ei' co' ci' U1 U2 Hb'. exists (<[bo := co']> (<[bi := ci']> css)). split; [by eapply (all_update_two w) | by rewrite !fmap_insert].
Qed.

(** A change of one buffer that is none of its bytes. *)
Lemma holds_same w B b e e' : holds w B -> buffers w !! b = Some e ->
  first e' = first e -> last e' = last e -> last_with_datap e' = last_with_datap e -> total_len e' = total_len e -> holds (put_buf b e' w) B.
Proof.
  intros (css & [Hb Hh] & <-) He H1 H2 H3 H4. exists css. split; [| done]. split; [| exact Hh]. intros b2. specialize (Hb b2). cbn [buffers put_buf fresh].
  destruct (decide (b2 = b)) as [-> | Hn]; [| by rewrite lookup_insert_ne]. rewrite lookup_insert_eq. rewrite He in Hb. destruct (css !! b); [| done].
  unfold buf_holds in *. by rewrite H1, H2, H3, H4.
Qed.

Lemma holds_client w B w' : holds w B -> chains w' = chains w -> buffers w' = buffers w -> fresh w' = fresh w -> holds w' B.
Proof.
  intros (css & [Hb (Hc & Hn & Hf & H0)] & HB) E1 E2 E3. exists css. split; [| done]. split; [by rewrite E2, E3 |].
  split; [by rewrite E1 |]. split; [done |]. by rewrite E3.
Qed.

Lemma holds_buffer w B b e ys : holds w B -> buffers w !! b = Some e -> B !! b = Some ys -> total_len e = Z.of_nat (length ys).
Proof.
  intros Hh He Hb. destruct (holds_one w B b ys Hh Hb) as (e' & cs & os & (He' & (_ & _ & _ & _ & _ & Ht & _) & _) & <- & _). rewrite He in He'. by injection He' as <-.
Qed.

Lemma holds_has w B b ys : holds w B -> B !! b = Some ys -> exists e, buffers w !! b = Some e /\ total_len e = Z.of_nat (length ys) /\ total_len e < 2 ^ 63.
Proof. intros Hh Hb. destruct (holds_one w B b ys Hh Hb) as (e & cs & os & (He & (_ & _ & _ & _ & _ & Ht & Htl) & _) & <- & _). by exists e. Qed.

(** What is left to do for buffers without callbacks. *)
Lemma no_callbacks w b e : buffers w !! b = Some e -> callbacks e = [] -> evbuffer_invoke_callbacks_ run_cb b w = Ok (put_buf b (set_counts e 0 0) w).
Proof. intros Hb Hc. unfold evbuffer_invoke_callbacks_. rewrite (buf_at_Ok _ _ _ Hb). cbn [mbind res_bind]. by rewrite bool_decide_true. Qed.

Lemma counts_upd w w' b e x y : upd w w' b e -> upd w (put_buf b (set_counts e x y) w') b (set_counts e x y).
Proof. intros (H1 & H2 & H3). split_and!; [cbn; by rewrite H1, insert_insert_eq | done | done]. Qed.

Lemma upd_lookup w w' b e : upd w w' b e -> buffers w' !! b = Some e.
Proof. intros (-> & _). apply lookup_insert_eq. Qed.

(** Adding, before the callbacks. *)
Lemma add_holds w B b e ys xs : holds w B -> buffers w !! b = Some e -> B !! b = Some ys -> freeze_end e = false ->
  Z.of_nat (length xs) <= 2 ^ 60 -> Z.of_nat (length ys) + Z.of_nat (length xs) < 2 ^ 63 ->
  exists ok w1 e1, add_data alloc b (Some <$> xs) w = Ok (ok, w1) /\ upd w w1 b e1 /\ kept e e1 /\ n_del_for_cb e1 = n_del_for_cb e /\
    ((ok = true /\ holds w1 (<[b := ys ++ xs]> B) /\ n_add_for_cb e1 = u64 (n_add_for_cb e + Z.of_nat (length xs))) \/
     (ok = false /\ holds w1 B /\ n_add_for_cb e1 = n_add_for_cb e /\ oom)).
Proof.
  intros Hh He Hb Hf Hl Hs. destruct (holds_one w B b ys Hh Hb) as (e' & cs & os & Hn & <- & _ & Hone & _).
  pose proof Hn as (He' & (_ & _ & _ & _ & _ & Ht & _) & _). rewrite He in He'. injection He' as <-.
  destruct (add_data_spec alloc w b e cs os xs Hn) as (ok & w1 & e1 & cs1 & E & U & Hn1 & K & Hd & H); [done | lia | lia |].
  exists ok, w1, e1. split; [done |]. split; [done |]. split; [done |]. split; [done |]. specialize (Hone w1 e1 cs1 U Hn1).
  destruct H as [(-> & Hc & Ha) | (-> & Hc & Ha & Ho)]; rewrite Hc in Hone; [by left | right].
  rewrite insert_id in Hone by done. by split_and!.
Qed.

(** Moving all of a buffer that is not empty, before the callbacks. *)
Lemma move_holds w B bo eo xs bi ei ys : holds w B -> bo <> bi -> buffers w !! bo = Some eo -> buffers w !! bi = Some ei -> B !! bo = Some xs -> B !! bi = Some ys ->
  ys <> [] -> Z.of_nat (length xs) + Z.of_nat (length ys) < 2 ^ 63 ->
  exists w1 eo1 ei1, move_all alloc bo bi w = Ok (true, w1) /\ buffers w1 = <[bo := eo1]> (<[bi := ei1]> (buffers w)) /\ client w1 = client w /\ fresh w1 = fresh w /\
    holds w1 (<[bo := xs ++ ys]> (<[bi := []]> B)) /\ kept eo eo1 /\ kept ei ei1 /\
    n_add_for_cb eo1 = u64 (n_add_for_cb eo + Z.of_nat (length ys)) /\ n_del_for_cb eo1 = n_del_for_cb eo /\
    n_add_for_cb ei1 = n_add_for_cb ei /\ n_del_for_cb ei1 = u64 (n_del_for_cb ei + Z.of_nat (length ys)).
Proof.
  intros Hh Hn Heo Hei Ho Hi Hne Hs. destruct (holds_two w B bo bi xs ys Hh Hn Ho Hi) as (eo' & co & ei' & ci & os & Hb & <- & <- & Htwo).
  pose proof Hb as (_ & Hbo & Hbi & (_ & _ & _ & _ & _ & Hto & _) & (_ & _ & _ & _ & _ & Hti & _) & _).
  rewrite Heo in Hbo. rewrite Hei in Hbi. injection Hbo as <-. injection Hbi as <-.
  destruct (move_all_spec alloc w bo eo co bi ei ci os Hb) as (w1 & eo1 & ei1 & co1 & E & U1 & Uc & Uf & Hb1 & Hc1 & Ko & Ki & A1 & A2 & A3 & A4); [done | lia |].
  exists w1, eo1, ei1. rewrite <- Hti, <- Hc1. split; [done |]. split; [done |]. split; [done |]. split; [done |].
  split; [apply (Htwo w1 eo1 ei1 co1 []); [done | lia | done] |]. by split_and!.
Qed.

(** Where [I] holds the callback [cb] of the buffer [b] leaves the buffers alone, and [I] holds afterwards. *)
Definition leaves_alone (I : heap C -> Prop) (b : Z) (cb : evbuffer_cb_entry) : Prop :=
  forall info w, I w -> exists w', run_cb cb b info w = Ok w' /\ chains w' = chains w /\ buffers w' = buffers w /\ fresh w' = fresh w /\ I w'.

(** What changes of buffers keep. *)
Definition steady (I : heap C -> Prop) : Prop := forall w w' b e e', I w -> buffers w !! b = Some e -> upd w w' b e' -> kept e e' -> I w'.

(** The callbacks of [e] may have changed the client. *)
Definition upd_called (e : evbuffer) w w' b e' : Prop :=
  buffers w' = <[b := e']> (buffers w) /\ (callbacks e = [] -> client w' = client w) /\ fresh w <= fresh w'.

Lemma alone_each I b info l : Forall (leaves_alone I b) l -> forall w, I w ->
  exists w', call_each run_cb l b info w = Ok w' /\ chains w' = chains w /\ buffers w' = buffers w /\ fresh w' = fresh w /\ I w'.
Proof.
  induction 1 as [| cb l Hcb _ IH]; intros w HI; cbn [call_each]; [by exists w |]. destruct (negb _); [by apply IH |].
  destruct (Hcb info w HI) as (w1 & -> & E1 & E2 & E3 & HI1). cbn [mbind res_bind]. destruct (IH w1 HI1) as (w2 & -> & F1 & F2 & F3 & HI2). exists w2. by rewrite F1, F2, F3.
Qed.

Lemma upd_self w b e : buffers w !! b = Some e -> upd w w b e.
Proof. intros H. split_and!; [by rewrite insert_id | done | lia]. Qed.

Lemma alone_callbacks I w B b e : holds w B -> buffers w !! b = Some e -> Forall (leaves_alone I b) (callbacks e) -> steady I -> I w ->
  exists w' e', evbuffer_invoke_callbacks_ run_cb b w = Ok w' /\ upd_called e w w' b e' /\ kept e e' /\ holds w' B /\ I w'.
Proof.
  intros Hh He Hal HS HI. unfold evbuffer_invoke_callbacks_, evbuffer_run_callbacks. rewrite (buf_at_Ok _ _ _ He). cbn [mbind res_bind].
  assert (Hc : holds (put_buf b (set_counts e 0 0) w) B) by (by apply (holds_same w B b e)).
  assert (Hu : upd w (put_buf b (set_counts e 0 0) w) b (set_counts e 0 0)) by (split_and!; [done | done | cbn; lia]). assert (HI0 : I (put_buf b (set_counts e 0 0) w)) by (eapply HS; [done | done | exact Hu | by split_and!]). case_bool_decide.
  { eexists _, (set_counts e 0 0). split; [done |]. split; [by split_and! |]. split; [by split_and! | done]. }
  destruct (_ && _).
  { exists w, e. split; [done |]. split; [split_and!; [by rewrite insert_id | done | lia] |]. split; [by split_and! | done]. }
  match goal with |- context [call_each run_cb ?l b ?i ?w1] => destruct (alone_each I b i l Hal w1 HI0) as (w2 & -> & F1 & F2 & F3 & HI2) end.
  exists w2, (set_counts e 0 0). split; [done |]. split; [split_and!; [by rewrite F2 | done | rewrite F3; cbn; lia] |]. split; [by split_and! |]. split; [by eapply holds_client | done].
Qed.

Lemma drain_alone I w B b e ys n : holds w B -> buffers w !! b = Some e -> B !! b = Some ys -> freeze_start e = false -> Forall (leaves_alone I b) (callbacks e) -> steady I -> I w -> 0 <= n ->
  exists w' e', evbuffer_drain run_cb b n w = Ok (0, w') /\ upd_called e w w' b e' /\ kept e e' /\ holds w' (<[b := drop (Z.to_nat n) ys]> B) /\ I w'.
Proof.
  intros Hh He Hb Hf Hal HS HI Hl. destruct (holds_one w B b ys Hh Hb) as (e' & cs & os & Hn & <- & _ & Hone & _).
  pose proof Hn as (He' & (_ & _ & _ & _ & _ & Ht & _) & _). rewrite He in He'. injection He' as <-.
  unfold evbuffer_drain. rewrite (buf_at_Ok _ _ _ He). cbn [mbind res_bind]. destruct (Z.eqb_spec (total_len e) 0) as [Hz | Hz].
  - exists w, e. split; [done |]. split; [split_and!; [by rewrite insert_id | done | lia] |]. split; [by split_and! |].
    split; [| done]. destruct (content cs) as [|]; [| cbn in Ht; lia]. by rewrite drop_nil, insert_id.
  - rewrite Hf. destruct (drain_some_spec w b e cs os n Hn) as (w1 & e1 & cs1 & -> & U & Hn1 & K & Hc & _); [lia | by intros Hx; rewrite Hx in Ht |].
    cbn [mbind res_bind]. pose proof (Hone w1 e1 cs1 U Hn1) as Hh1. rewrite Hc in Hh1. pose proof K as (_ & _ & _ & Kc). pose proof U as (U1 & V1 & W1).
    destruct (alone_callbacks I w1 _ b e1 Hh1) as (w2 & e2 & -> & (U2 & V2 & W2) & K2 & Hh2); [by eapply upd_lookup | by rewrite Kc | done | by eapply HS |]. cbn [mbind res_bind].
    exists w2, e2. split; [done |]. split; [split_and!; [by rewrite U2, U1, insert_insert_eq | intros Hx; rewrite V2 by congruence; done | lia] |]. split; [by eapply kept_trans | done].
Qed.

Lemma upd_uncalled w w' b e e' : callbacks e = [] -> upd_called e w w' b e' -> upd w w' b e'.
Proof. intros Hc (H1 & H2 & H3). split_and!; [done | by apply H2 | done]. Qed.

Lemma copyout_holds w B b e ys n : holds w B -> buffers w !! b = Some e -> B !! b = Some ys -> freeze_start e = false -> 0 <= n < 2 ^ 64 ->
  evbuffer_copyout b n w = Ok (Z.of_nat (length (take (Z.to_nat n) ys)), Some <$> take (Z.to_nat n) ys).
Proof.
  intros Hh He Hb Hf Hl. destruct (holds_one w B b ys Hh Hb) as (e' & cs & os & Hn & <- & _).
  pose proof Hn as (He' & (_ & _ & _ & _ & _ & Ht & _) & _). rewrite He in He'. injection He' as <-.
  rewrite (copyout_spec w b e cs os n Hn Hf Hl), Ht, length_take. do 2 f_equal. lia.
Qed.

(** The result is an [int], the bytes are not. *)
Lemma remove_alone I w B b e ys n : holds w B -> buffers w !! b = Some e -> B !! b = Some ys -> freeze_start e = false -> Forall (leaves_alone I b) (callbacks e) -> steady I -> I w -> 0 <= n < 2 ^ 64 ->
  exists w' e', evbuffer_remove run_cb b n w = Ok (i32 (Z.of_nat (length (take (Z.to_nat n) ys))), Some <$> take (Z.to_nat n) ys, w') /\
    upd_called e w w' b e' /\ kept e e' /\ holds w' (<[b := drop (Z.to_nat n) ys]> B) /\ I w'.
Proof.
  intros Hh He Hb Hf Hal HS HI Hl. unfold evbuffer_remove. pose proof (copyout_holds w B b e ys n Hh He Hb Hf Hl) as E. unfold evbuffer_copyout in E. rewrite E. cbn [mbind res_bind].
  rewrite length_take. set (k := Z.of_nat (Nat.min (Z.to_nat n) (length ys))).
  assert (Ed : drop (Z.to_nat k) ys = drop (Z.to_nat n) ys).
  { destruct (decide (Z.to_nat n <= length ys)%nat); [f_equal; lia | rewrite !drop_ge by lia; done]. }
  rewrite <- Ed. destruct (Z.gtb_spec k 0) as [Hgt | Hle].
  - destruct (drain_alone I w B b e ys k Hh He Hb Hf Hal HS HI) as (w1 & e1 & -> & U & K & Hh1); [lia |]. cbn [mbind res_bind]. by exists w1, e1.
  - replace k with 0 by lia. exists w, e. split; [done |]. split; [split_and!; [by rewrite insert_id | done | lia] |]. split; [by split_and! |]. split; [by rewrite insert_id | done].
Qed.

Lemma remove_holds w B b e ys n : holds w B -> buffers w !! b = Some e -> B !! b = Some ys -> freeze_start e = false -> callbacks e = [] ->
  0 <= n < 2 ^ 64 -> Z.min n (Z.of_nat (length ys)) < 2 ^ 31 ->
  exists w' e', evbuffer_remove run_cb b n w = Ok (Z.of_nat (length (take (Z.to_nat n) ys)), Some <$> take (Z.to_nat n) ys, w') /\
    upd w w' b e' /\ kept e e' /\ holds w' (<[b := drop (Z.to_nat n) ys]> B).
Proof.
  intros Hh He Hb Hf Hcb Hl Hm. destruct (remove_alone (fun _ => True) w B b e ys n Hh He Hb Hf) as (w' & e' & -> & H); [by rewrite Hcb | done | done | done |].
  destruct H as (U & K & H & _).
  assert (Ek : forall k, 0 <= k < 2 ^ 31 -> i32 k = k) by (intros; apply swrap_small; lia). rewrite Ek by (rewrite length_take; lia).
  exists w', e'. split; [done |]. split; [by eapply upd_uncalled | by split].
Qed.

(** *** Without callbacks *)

Lemma reps_has w B b ys : reps w B -> B !! b = Some ys -> exists e, buffers w !! b = Some e /\ plain e /\ total_len e = Z.of_nat (length ys).
Proof. intros [Hh Hp] Hb. destruct (holds_has w B b ys Hh Hb) as (e & He & Ht & _). exists e. split; [done |]. split; [by eapply Hp | done]. Qed.

Lemma reps_upd w w' B B' b e e' : reps w B -> buffers w !! b = Some e -> upd w w' b e' -> kept e e' -> holds w' B' -> reps w' B'.
Proof.
  intros [_ Hp] He (U & _) K Hh. split; [done |]. rewrite U. apply map_Forall_insert_2; [| done]. eapply plain_kept; [by eapply Hp | done].
Qed.

#[local] Abbreviation served w B o := (exists ret out w' B', exec alloc run_cb o w = Ok (ret, Some <$> out, w') /\ reps w' B' /\
  (does B o ret out B' \/ fails B o ret out B' /\ oom)).

Lemma new_served w B : reps w B -> served w B New.
Proof.
  intros [(css & Ha & <-) Hp]. cbn. unfold evbuffer_new. destruct (alloc (fresh w) 144) eqn:Ea.
  - edestruct (all_new w css (MkEvbuffer NULL NULL First 0 0 0 false false 1 []) (fresh w)) as [Hno Ha']; [exact Ha | done | | | | |];
      [by apply holds_zero | | | | ].
    4:{ eexists (fresh w), [], _, _. split; [done |]. split; [split; [exists (<[fresh w := []]> css); split; [exact Ha' | apply fmap_insert] |]; by apply map_Forall_insert_2 |].
        left. split; [destruct Ha as (_ & _ & _ & _ & ?); unfold NULL; lia |]. by rewrite lookup_fmap, Hno. }
    all: done.
  - eexists NULL, [], _, _. split; [done |]. split; [split; [by exists css | done] |]. right. split; [done |]. by eexists _, _.
Qed.

Lemma bytes_added w B b xs : reps w B -> able B (Add b xs) -> served w B (Add b xs).
Proof.
  intros HR (ys & Hb & Hl & Hs). destruct (reps_has w B b ys HR Hb) as (e & He & (Hp1 & Hp2 & _ & Hp4) & _). cbn [exec]. unfold evbuffer_add.
  destruct (add_holds w B b e ys xs (proj1 HR) He Hb Hp2 Hl Hs) as (ok & w1 & e1 & -> & U & K & _ & H). cbn [mbind res_bind].
  destruct H as [(-> & Hh1 & _) | (-> & Hh1 & _ & Ho)]; cbn [negb].
  - pose proof (upd_lookup _ _ _ _ U) as He1. pose proof K as (_ & _ & _ & Hk). rewrite (no_callbacks w1 b e1) by (done || congruence). cbn [mbind res_bind].
    eexists 0, [], _, _. split; [done |]. split; [eapply (reps_upd w _ B _ b e); [done | done | by apply counts_upd | exact K | by apply (holds_same w1 _ b e1)] |].
    left. by exists ys.
  - eexists (-1), [], w1, B. split; [done |]. split; [by eapply reps_upd | by right].
Qed.

Lemma drain_done w B b ys n : reps w B -> B !! b = Some ys -> 0 <= n ->
  exists w', evbuffer_drain run_cb b n w = Ok (0, w') /\ reps w' (<[b := drop (Z.to_nat n) ys]> B).
Proof.
  intros HR Hb Hl. destruct (reps_has w B b ys HR Hb) as (e & He & (Hp1 & _ & _ & Hp4) & _).
  destruct (drain_alone (fun _ => True) w B b e ys n (proj1 HR) He Hb Hp1) as (w' & e' & E & U & K & Hh & _); [by rewrite Hp4 | done | done | done |].
  exists w'. split; [done |]. eapply reps_upd; [done | done | by eapply upd_uncalled | done | done].
Qed.

Lemma remove_served w B b n : reps w B -> able B (Remove b n) -> served w B (Remove b n).
Proof.
  intros HR (ys & Hb & Hl & Hm). destruct (reps_has w B b ys HR Hb) as (e & He & (Hp1 & _ & _ & Hp4) & _).
  destruct (remove_holds w B b e ys n (proj1 HR) He Hb Hp1 Hp4 Hl Hm) as (w' & e' & E & U & K & Hh). cbn [exec]. rewrite E.
  eexists _, _, w', _. split; [done |]. split; [by eapply reps_upd |]. left. by exists ys.
Qed.

Lemma move_served w B bo bi : reps w B -> able B (Move bo bi) -> served w B (Move bo bi).
Proof.
  intros HR (xs & ys & Ho & Hi & Hs). cbn [exec]. unfold evbuffer_add_buffer.
  destruct (reps_has w B bo xs HR Ho) as (eo & Heo & Hpo & _). destruct (reps_has w B bi ys HR Hi) as (ei & Hei & Hpi & Ht).
  rewrite (buf_at_Ok _ _ _ Heo), (buf_at_Ok _ _ _ Hei). cbn [mbind res_bind]. destruct (decide (bo = bi)) as [<- | Hn].
  { rewrite Z.eqb_refl, orb_true_r. cbn iota. eexists 0, [], w, B. split; [done |]. split; [done |]. left. exists xs, ys. by rewrite decide_True. }
  rewrite (proj2 (Z.eqb_neq bo bi)), orb_false_r by done. destruct (Z.eqb_spec (total_len ei) 0) as [Hz | Hz].
  { assert (ys = []) as -> by (destruct ys; [done | cbn in Ht; lia]). eexists 0, [], w, B. split; [done |]. split; [done |]. left. exists xs, [].
    by rewrite decide_False, app_nil_r, (insert_id B bi []), insert_id by done. }
  rewrite (proj1 (proj2 Hpo)), (proj1 Hpi). cbn [orb].
  destruct (move_holds w B bo eo xs bi ei ys (proj1 HR) Hn Heo Hei Ho Hi) as (w1 & eo1 & ei1 & -> & U & _ & _ & Hh1 & Ko & Ki & _); [by intros -> | done |]. cbn [mbind res_bind negb].
  assert (Hei1 : buffers w1 !! bi = Some ei1) by (by rewrite U, lookup_insert_ne, lookup_insert_eq). assert (Heo1 : buffers w1 !! bo = Some eo1) by (by rewrite U, lookup_insert_eq).
  destruct (plain_kept _ _ Hpi Ki) as (Q1 & Q2 & Q3 & Q4). destruct (plain_kept _ _ Hpo Ko) as (R1 & R2 & R3 & R4).
  rewrite (no_callbacks w1 bi ei1 Hei1 Q4). cbn [mbind res_bind].
  assert (Heo2 : buffers (put_buf bi (set_counts ei1 0 0) w1) !! bo = Some eo1) by (cbn; by rewrite lookup_insert_ne). rewrite (no_callbacks _ bo eo1 Heo2 R4). cbn [mbind res_bind].
  eexists 0, [], _, _. split; [done |]. split; [| left; exists xs, ys; rewrite decide_False by done; by split_and!]. split.
  - apply (holds_same _ _ bo eo1); [by apply (holds_same w1 _ bi ei1) | done..].
  - cbn [buffers put_buf]. rewrite U. do 4 (apply map_Forall_insert_2; [done |]). apply HR.
Qed.

Lemma free_served w B b : reps w B -> able B (Free b) -> served w B (Free b).
Proof.
  intros [Hh HP] (ys & Hb). destruct (holds_one w B b ys Hh Hb) as (e & cs & os & Hn & _ & _ & _ & Hfree). cbn [exec]. unfold evbuffer_free, evbuffer_decref_and_unlock_.
  pose proof Hn as (Hbe & (Hf & _ & Hl & Hok & _) & Hh1). rewrite (buf_at_Ok _ _ _ Hbe). cbn [mbind res_bind].
  destruct (HP _ _ Hbe) as (_ & _ & -> & _). cbn [Z.gtb Z.compare assert_ok mbind res_bind Z.sub Z.add Z.opp Z.pos_sub].
  pose proof (fuel_is w _ Hh1) as Hfuel. rewrite length_app in Hfuel.
  destruct (free_chains_spec (chain_fuel w) cs w [] os Hh1 Hl Hok) as (w1 & E & Hh2 & Hb1 & _ & Hf1); [lia |]. rewrite Hf, E. cbn [mbind res_bind].
  eexists 0, [], _, _. split; [done |]. split; [| by left]. split; [apply Hfree; [exact Hh2 | cbn; by rewrite Hb1 | done] |]. cbn. rewrite Hb1. by apply map_Forall_delete.
Qed.
End bytes.

(** C25. The byte buffers refine sequences of bytes: whatever the chains are, creating, adding, draining, removing, copying
    out, taking the length, moving all of a buffer into another and freeing give the result and the bytes they are to give,
    and leave every other buffer as it is and no chain without a buffer; creating and adding may fail, for want of memory
    only, and then change nothing.  No assertion of the code fails. *)
Theorem evbuffer_refines {C} alloc run_cb (w : heap C) (B : gmap Z (list Z)) (o : op) : reps w B -> able B o ->
  exists ret out w' B', exec alloc run_cb o w = Ok (ret, Some <$> out, w') /\ reps w' B' /\
    (does B o ret out B' \/ fails B o ret out B' /\ exists a n, alloc a n = false).
Proof.
  intros HR Ha. destruct o as [| b xs | b n | b n | b n | b | bo bi | b].
  - by apply new_served.
  - by apply bytes_added.
  - destruct Ha as [[ys Hb] Hn]. destruct (drain_done run_cb w B b ys n HR Hb) as (w' & E & HR'); [lia |]. cbn. rewrite E. eexists 0, [], w', _. split; [done |]. split; [done |].
    left. by exists ys.
  - by apply remove_served.
  - destruct Ha as [[ys Hb] Hn]. destruct (reps_has w B b ys HR Hb) as (e & He & (Hp & _) & _). cbn. rewrite (copyout_holds w B b e ys n (proj1 HR) He Hb Hp Hn).
    eexists _, _, w, B. split; [done |]. split; [done |]. left. by exists ys.
  - destruct Ha as [ys Hb]. destruct (reps_has w B b ys HR Hb) as (e & He & _ & Ht). cbn. unfold evbuffer_get_length. rewrite (buf_at_Ok _ _ _ He). cbn [mbind res_bind].
    eexists _, [], w, B. split; [done |]. split; [done |]. left. exists ys. by rewrite Ht.
  - by apply move_served.
  - by apply free_served.
Qed.

(** ** A heap with two buffers *)

Definition alloc_all (a n : Z) : bool := true.
Definition no_cb (cb : evbuffer_cb_entry) (b : Z) (i : evbuffer_cb_info) (w : heap unit) : res (heap unit) := UB.
Definition heap0 : heap unit := MkHeap ∅ ∅ 1 tt.

Fixpoint exec_all (l : list op) (w : heap unit) : res (list (Z * block Z) * heap unit) :=
  match l with
  | [] => Ok ([], w)
  | o :: l => '(r, out, w) ← exec alloc_all no_cb o w; '(rs, w) ← exec_all l w; Ok ((r, out) :: rs, w)
  end.

Lemma heap0_reps : reps heap0 ∅.
Proof.
  split; [| apply map_Forall_empty]. exists ∅. split; [split; [done | split_and!; [done | constructor | constructor | done]] | apply fmap_empty].
Qed.

(** Bytes beyond one chain, then some taken away: 1 and 4 are the buffers. *)
Definition sample_ops : list op := [New; Add 1 (replicate 970 7); Add 1 (replicate 20 8); New; Add 4 [9; 10]; Drain 1 968].
Definition sample : heap unit := match exec_all sample_ops heap0 with Ok (_, w) => w | _ => heap0 end.

Lemma never_oom : ~ exists a n, alloc_all a n = false.
Proof. by intros (a & n & ?). Qed.

(** One step of a run. *)
Lemma run_step w B o l rs w' r res : exec_all (o :: l) w = Ok (rs, w') -> rs.*1 = r :: res ->
  (exists ret out w1 B1, exec alloc_all no_cb o w = Ok (ret, Some <$> out, w1) /\ reps w1 B1 /\ (does B o ret out B1 \/ fails B o ret out B1 /\ exists a n, alloc_all a n = false)) ->
  exists w1 rs1 out B1, exec_all l w1 = Ok (rs1, w') /\ rs1.*1 = res /\ reps w1 B1 /\ does B o r out B1.
Proof.
  intros E Hr (ret & out & w1 & B1 & E1 & HR & [Hd | [_ []%never_oom]]). cbn [exec_all] in E. rewrite E1 in E. cbn [mbind res_bind] in E.
  destruct (exec_all l w1) as [[rs1 w2] | |] eqn:E2; [| done | done]. cbn [mbind res_bind] in E. injection E as <- <-. injection Hr as -> Hr. by exists w1, rs1, out, B1.
Qed.

Definition sample_bytes : gmap Z (list Z) := {[1 := [7; 7] ++ replicate 20 8; 4 := [9; 10]]}.

Lemma able_add (B : gmap Z (list Z)) b ys xs : Z.of_nat (length xs) <= 1000 -> Z.of_nat (length ys) <= 1000 -> able (<[b := ys]> B) (Add b xs).
Proof. intros H1 H2. exists ys. split; [apply lookup_insert_eq | lia]. Qed.

Lemma sample_reps : reps sample sample_bytes.
Proof.
  assert (G : forall rs w, exec_all sample_ops heap0 = Ok (rs, w) -> rs.*1 = [1; 0; 0; 4; 0; 0] -> reps w sample_bytes).
  { intros rs w E H.
    pose proof (run_step _ _ _ _ _ _ _ _ E H (new_served alloc_all no_cb _ _ heap0_reps)) as (w1 & rs1 & o1 & B1 & E1 & H1 & HR1 & _ & _ & _ & ->).
    pose proof (bytes_added alloc_all no_cb _ _ _ _ HR1 (able_add _ 1 [] (replicate 970 7) ltac:(cbn; lia) ltac:(cbn; lia))) as S1.
    pose proof (run_step _ _ _ _ _ _ _ _ E1 H1 S1) as (w2 & rs2 & o2 & B2 & E2 & H2 & HR2 & y2 & Hy2 & _ & _ & ->).
    rewrite lookup_insert_eq in Hy2. injection Hy2 as <-.
    pose proof (bytes_added alloc_all no_cb _ _ _ _ HR2 (able_add _ 1 ([] ++ replicate 970 7) (replicate 20 8) ltac:(cbn; lia) ltac:(cbn; lia))) as S2.
    pose proof (run_step _ _ _ _ _ _ _ _ E2 H2 S2) as (w3 & rs3 & o3 & B3 & E3 & H3 & HR3 & y3 & Hy3 & _ & _ & ->).
    rewrite lookup_insert_eq in Hy3. injection Hy3 as <-.
    pose proof (run_step _ _ _ _ _ _ _ _ E3 H3 (new_served alloc_all no_cb _ _ HR3)) as (w4 & rs4 & o4 & B4 & E4 & H4 & HR4 & _ & _ & _ & ->).
    pose proof (bytes_added alloc_all no_cb _ _ _ _ HR4 (able_add _ 4 [] [9; 10] ltac:(cbn; lia) ltac:(cbn; lia))) as S4.
    pose proof (run_step _ _ _ _ _ _ _ _ E4 H4 S4) as (w5 & rs5 & o5 & B5 & E5 & H5 & HR5 & y5 & Hy5 & _ & _ & ->).
    rewrite lookup_insert_eq in Hy5. injection Hy5 as <-. rewrite !insert_insert_eq in HR5. rewrite insert_insert_ne in HR5 by done.
    pose proof (drain_done no_cb w5 _ 1 _ 968 HR5 (lookup_insert_eq _ _ _) ltac:(lia)) as (w6 & E6 & HR6).
    cbn [exec_all exec] in E5. rewrite E6 in E5. cbn [mbind res_bind] in E5. injection E5 as <- <-. rewrite insert_insert_eq in HR6. exact HR6. }
  assert (E : exists rs, exec_all sample_ops heap0 = Ok (rs, sample) /\ rs.*1 = [1; 0; 0; 4; 0; 0]); [| destruct E as (rs & E & Hrs); by apply (G rs)].
  eexists. split; [by vm_compute | by vm_compute].
Qed.

(** All of buffer 1 is moved behind what buffer 4 holds. *)
Lemma evbuffer_refines_witness : reps sample sample_bytes /\ able sample_bytes (Move 4 1) /\
  exists ret out w' B', exec alloc_all no_cb (Move 4 1) sample = Ok (ret, Some <$> out, w') /\ reps w' B' /\
    (does sample_bytes (Move 4 1) ret out B' \/ fails sample_bytes (Move 4 1) ret out B' /\ exists a n, alloc_all a n = false).
Proof.
  assert (Ha : able sample_bytes (Move 4 1)) by (eexists _, _; split; [reflexivity | split; [reflexivity | by vm_compute]]).
  split; [exact sample_reps | split; [exact Ha |]]. exact (evbuffer_refines alloc_all no_cb sample sample_bytes (Move 4 1) sample_reps Ha).
Defined.
