(* ===== verification/EvRead.v ===== *)
(** * Reading from a socket into a byte buffer

    [evbuffer_read] of [common/libevent/buffer.c], for systems with [readv], with the functions it makes and finds room with.
    A buffer that can take what is read has its room in at most four chains at its end; the kernel fills these one after
    the other, and the counts and the pointer at the last data follow.  What the socket gives is the system's: a class has its
    operations, and another what is documented of them. *)

From S2P Require Import Prelude Evbuffer EvChains EvBytes.

Definition NUM_READ_IOVEC : nat := 4.
Definition EVBUFFER_MAX_READ : Z := 4096.

Definition CHAIN_SPACE_LEN (c : evbuffer_chain) : Z := if immutable c then 0 else u64 (buffer_len c - (misalign c + off c)).

(** A part of a chain that can be written to: its chain, the offset in it and the length. *)
Record evbuffer_iovec := MkVec { iov_chain : Z; iov_base : Z; iov_len : Z }.

(** A socket: what FIONREAD says, and what [readv] gives for vectors of that length, or [None] for -1. *)
Class Socket (F : Type) := {
  fionread : F -> Z;
  readv : Z -> F -> option (list Z) * F
}.

(** What a system promises: the bytes that were to come, in their order and not more than fit; none are the end. *)
Class SocketLaws (F : Type) `{!Socket F} := {
  pending : F -> list Z;
  readv_some n (fd : F) bs fd' : 0 <= n -> readv n fd = (Some bs, fd') -> Z.of_nat (length bs) <= n /\ pending fd = bs ++ pending fd';
  readv_end n (fd : F) fd' : 0 < n -> readv n fd = (Some [], fd') -> pending fd = [];
  readv_none n (fd : F) fd' : readv n fd = (None, fd') -> pending fd' = pending fd
}.

Section code.
Context {F : Type} `{!Socket F} {C : Type} (alloc : Z -> Z -> bool) (run_cb : evbuffer_cb_entry -> Z -> evbuffer_cb_info -> heap C -> res (heap C)).
Implicit Types (w : heap C).

(** ** Room *)

(** The loop that counts the room at the end: whether it is enough, and otherwise where the loop stopped and the chains and
    bytes counted. *)
Fixpoint count_space (fuel : nat) (b datlen n chain used avail : Z) w : res (bool * Z * Z * Z * heap C) :=
  match fuel with
  | O => NoFuel
  | S fuel =>
      if chain =? NULL then Ok (false, chain, used, avail, w) else
      c ← chain_at chain w;
      '(used, avail, w) ← (if negb (off c =? 0) then
           e ← buf_at b w; p ← get_slot b (last_with_datap e) w;
           _ ← assert_ok (chain =? p);
           let space := CHAIN_SPACE_LEN c in
           Ok (if negb (space =? 0) then (used + 1, u64 (avail + space), w) else (used, avail, w))
         else Ok (used + 1, u64 (avail + buffer_len c), put_chain chain (set_misalign c 0) w));
      if avail >=? datlen then Ok (true, chain, used, avail, w) else
      if used =? n then Ok (false, chain, used, avail, w) else count_space fuel b datlen n (next c) used avail w
  end.

(** All chains from [chain] on, which are empty. *)
Fixpoint nuke_empty (fuel : nat) (chain : Z) w : res (heap C) :=
  match fuel with
  | O => NoFuel
  | S fuel =>
      if chain =? NULL then Ok w else
      c ← chain_at chain w; _ ← assert_ok (off c =? 0); w ← evbuffer_chain_free chain w; nuke_empty fuel (next c) w
  end.

(** The empty chains are replaced by one. *)
Definition replace_empty (b datlen : Z) w : res (bool * heap C) :=
  e ← buf_at b w;
  p ← get_slot b (last_with_datap e) w; c ← chain_at p w;
  let rmv_all := off c =? 0 in
  _ ← assert_ok (negb rmv_all || (p =? first e));
  let avail := if rmv_all then 0 else CHAIN_SPACE_LEN c in
  w ← nuke_empty (chain_fuel w) (if rmv_all then p else next c) w;
  _ ← assert_ok (datlen >=? avail);
  '(tmp, w) ← evbuffer_chain_new alloc (u64 (datlen - avail)) w;
  if tmp =? NULL then
    if rmv_all then w ← ZERO_CHAIN b w; Ok (false, w)
    else c ← chain_at p w; Ok (false, put_chain p (set_next c NULL) (put_buf b (set_last e p) w))
  else
    if rmv_all then Ok (true, put_buf b (set_datap (set_last (set_first e tmp) tmp) First) w)
    else c ← chain_at p w; Ok (true, put_buf b (set_last e tmp) (put_chain p (set_next c tmp) w)).

(** [false] is the result -1. *)
Definition evbuffer_expand_fast_ (b datlen n : Z) w : res (bool * heap C) :=
  _ ← assert_ok (n >=? 2);
  e ← buf_at b w;
  fixed ← (if last e =? NULL then Ok true else c ← chain_at (last e) w; Ok (immutable c));
  if fixed : bool then
    '(chain, w) ← evbuffer_chain_new alloc datlen w;
    if chain =? NULL then Ok (false, w) else w ← evbuffer_chain_insert b chain w; Ok (true, w)
  else
    p ← get_slot b (last_with_datap e) w;
    '(enough, chain, used, avail, w) ← count_space (chain_fuel w) b datlen n p 0 0 w;
    if enough : bool then Ok (true, w) else
    if used <? n then
      _ ← assert_ok (chain =? NULL);
      '(tmp, w) ← evbuffer_chain_new alloc (u64 (datlen - avail)) w;
      if tmp =? NULL then Ok (false, w) else
      c ← chain_at (last e) w; Ok (true, put_buf b (set_last e tmp) (put_chain (last e) (set_next c tmp) w))
    else replace_empty b datlen w.

(** ** Reading *)

Fixpoint vecs_from (n_vecs_avail : nat) (so_far howmuch : Z) (exact : bool) (chain : Z) w : res (list evbuffer_iovec) :=
  match n_vecs_avail with
  | O => Ok []
  | S n =>
      if so_far <? howmuch then
        c ← chain_at chain w;
        let avail := CHAIN_SPACE_LEN c in
        let avail := if (avail >? howmuch - so_far) && exact then howmuch - so_far else avail in
        vecs ← vecs_from n (so_far + avail) howmuch exact (next c) w;
        Ok (MkVec chain (misalign c + off c) avail :: vecs)
      else Ok []
  end.

(** The vectors, and the pointer at the first chain with room; [None] for -1. *)
Definition evbuffer_read_setup_vecs_ (b howmuch : Z) (n_vecs_avail : nat) (exact : bool) w : res (option (list evbuffer_iovec * slot)) :=
  if howmuch <? 0 then Ok None else
  e ← buf_at b w; p ← get_slot b (last_with_datap e) w; c ← chain_at p w;
  let firstchainp := if CHAIN_SPACE_LEN c =? 0 then NextOf p else last_with_datap e in
  chain ← get_slot b firstchainp w;
  vecs ← vecs_from n_vecs_avail 0 howmuch exact chain w;
  Ok (Some (vecs, firstchainp)).

(** What [readv] does to memory. *)
Fixpoint scatter (vecs : list evbuffer_iovec) (bytes : list Z) w : res (heap C) :=
  match vecs with
  | [] => Ok w
  | v :: vecs =>
      let n := Z.to_nat (iov_len v) in
      c ← chain_at (iov_chain v) w;
      blk ← blk_store (Z.to_nat (iov_base v)) (Some <$> take n bytes) (cbuffer c);
      scatter vecs (drop n bytes) (put_chain (iov_chain v) (set_cbuffer c blk) w)
  end.

(** The chains take over the bytes that have been read into them. *)
Fixpoint commit_read (nvecs : nat) (b : Z) (chainp : slot) (remaining : Z) w : res (heap C) :=
  match nvecs with
  | O => Ok w
  | S n =>
      p ← get_slot b chainp w; c ← chain_at p w;
      let space := Z.min (CHAIN_SPACE_LEN c) EVBUFFER_CHAIN_MAX in
      if space <? remaining then commit_read n b (NextOf p) (remaining - space) (put_chain p (set_off c (off c + space)) w)
      else e ← buf_at b w; Ok (put_buf b (set_datap e chainp) (put_chain p (set_off c (off c + remaining)) w))
  end.

(** How much is asked for, when [readable] is what FIONREAD says. *)
Definition read_size (readable howmuch : Z) : Z :=
  let n := if (readable <=? 0) || (readable >? EVBUFFER_MAX_READ) then EVBUFFER_MAX_READ else readable in
  if (howmuch <? 0) || (howmuch >? n) then n else howmuch.

(** [evbuffer_read] before its callbacks. *)
Definition read_data (b : Z) (fd : F) (howmuch : Z) w : res (Z * F * heap C) :=
  e ← buf_at b w;
  if freeze_end e then Ok (-1, fd, w) else
  let howmuch := read_size (fionread fd) howmuch in
  '(ok, w) ← evbuffer_expand_fast_ b howmuch (Z.of_nat NUM_READ_IOVEC) w;
  if negb ok then Ok (-1, fd, w) else
  setup ← evbuffer_read_setup_vecs_ b howmuch NUM_READ_IOVEC true w;
  '(vecs, chainp) ← of_option setup;
  match readv (foldr Z.add 0 (iov_len <$> vecs)) fd with
  | (None, fd) => Ok (-1, fd, w)
  | (Some [], fd) => Ok (0, fd, w)
  | (Some bytes, fd) =>
      w ← scatter vecs bytes w;
      let n := Z.of_nat (length bytes) in
      w ← commit_read (length vecs) b chainp n w;
      e ← buf_at b w;
      Ok (n, fd, put_buf b (set_counts (set_total e (u64 (total_len e + n))) (u64 (n_add_for_cb e + n)) (n_del_for_cb e)) w)
  end.

Definition evbuffer_read (b : Z) (fd : F) (howmuch : Z) w : res (Z * F * heap C) :=
  '(n, fd, w) ← read_data b fd howmuch w;
  if n >? 0 then w ← evbuffer_invoke_callbacks_ run_cb b w; Ok (n, fd, w) else Ok (n, fd, w).
End code.

(** ** Chains with room *)

Definition space (n : node) : Z := buffer_len (ch n) - misalign (ch n) - off (ch n).
Definition room (vs : list node) : Z := foldr Z.add 0 (space <$> vs).

(** A chain that is where it was, with its data and its link. *)
Definition moved (n n' : node) : Prop := addr n' = addr n /\ dat n' = dat n /\ next (ch n') = next (ch n) /\ node_ok n'.

Lemma node_space n : node_ok n -> CHAIN_SPACE_LEN (ch n) = space n /\ 0 <= space n <= 2 ^ 61 /\ 0 <= misalign (ch n) /\ off (ch n) = Z.of_nat (length (dat n)) /\ buffer_len (ch n) <= 2 ^ 61.
Proof.
  intros (Hf & _ & Ho & Hb & Hl & pre & post & Eb & Em). unfold CHAIN_SPACE_LEN, space, immutable. rewrite Hf. change (negb (Z.land 0 EVBUFFER_IMMUTABLE =? 0)) with false. cbn iota.
  rewrite Eb, !length_app, length_fmap in Hb. unfold EVBUFFER_CHAIN_SIZE in Hl. rewrite wrap_small by lia. lia.
Qed.

Lemma room_app a b : room (a ++ b) = room a + room b.
Proof. unfold room. induction a as [| n a IH]; [done |]. cbn in *. lia. Qed.

Lemma room_nonneg vs : Forall node_ok vs -> 0 <= room vs.
Proof. induction 1 as [| n vs Hn _ IH]; [done |]. pose proof (node_space n Hn). unfold room in *. cbn. lia. Qed.

Lemma room_take k k' vs : Forall node_ok vs -> (k <= k')%nat -> room (take k vs) <= room (take k' vs).
Proof.
  intros Hok Hk. replace k' with (k + (k' - k))%nat by lia. rewrite <- take_take_drop, room_app.
  pose proof (room_nonneg (take (k' - k) (drop k vs)) ltac:(by apply Forall_take, Forall_drop)). lia.
Qed.

Lemma room_cons n vs : room (n :: vs) = space n + room vs.
Proof. done. Qed.

Lemma last_at_addrs cs cs' : addr <$> cs' = addr <$> cs -> last_at cs' = last_at cs.
Proof.
  snoc_cases cs n l; snoc_cases cs' n' l'; intros H; [done | | |]; rewrite ?fmap_app in H; cbn in H.
  - by destruct (addr <$> l').
  - by destruct (addr <$> l).
  - by apply app_inj_tail in H as [_ ->].
Qed.

Section moving.
Context {C : Type}.
Implicit Types (w : heap C).

Lemma moved_parts cs cs' : Forall2 moved cs cs' -> addr <$> cs' = addr <$> cs /\ dat <$> cs' = dat <$> cs /\ head_at cs' = head_at cs /\ last_at cs' = last_at cs /\ (linked cs -> linked cs') /\ Forall node_ok cs'.
Proof.
  intros H. assert (G : addr <$> cs' = addr <$> cs /\ dat <$> cs' = dat <$> cs /\ head_at cs' = head_at cs /\ (linked cs -> linked cs') /\ Forall node_ok cs').
  { induction H as [| n n' cs cs' (H1 & H2 & H3 & H4) _ (I1 & I2 & I3 & I4 & I5)]; [by split_and! |]. cbn. rewrite H1, H2, H3, I1, I2, I3. split_and!; try done; [naive_solver | by constructor]. }
  destruct G as (G1 & G2 & G3 & G4 & G5). split_and!; try done. by apply last_at_addrs.
Qed.

Lemma moved_refl cs : Forall node_ok cs -> Forall2 moved cs cs.
Proof. induction 1; constructor; [by split_and! | done]. Qed.

Lemma moved_empty cs cs' : Forall2 moved cs cs' -> Forall empty cs -> Forall empty cs'.
Proof. induction 1 as [| n n' cs cs' (_ & H & _) _ IH]; [done |]. rewrite !Forall_cons. unfold empty. rewrite H. naive_solver. Qed.

Lemma slot_after_addrs pre pre' : addr <$> pre' = addr <$> pre -> slot_after pre' = slot_after pre.
Proof.
  snoc_cases pre n l; snoc_cases pre' n' l'; intros H; [done | | |]; rewrite ?fmap_app in H; cbn in H.
  - by destruct (addr <$> l').
  - by destruct (addr <$> l).
  - by apply app_inj_tail in H as [_ [= ->]].
Qed.

Lemma target_moved e pre t post pre' t' post' : target e (pre ++ t :: post) pre t post -> Forall2 moved pre pre' -> moved t t' -> Forall2 moved post post' ->
  target e (pre' ++ t' :: post') pre' t' post'.
Proof.
  intros (_ & Hp & Hd & Hs) H1 (_ & Hdt & _) H3. split; [done |]. split; [by eapply moved_empty |]. split; [rewrite Hdt; destruct Hd as [Hd | ->]; [by left | right; by inversion H1] |].
  rewrite Hs. symmetry. apply slot_after_addrs. by apply moved_parts in H1 as (? & _).
Qed.

Lemma buf_moved w w' b e cs cs' os pre t post : buf_now w b e cs os -> heap_of w' (cs' ++ os) -> buffers w' = buffers w -> Forall2 moved cs cs' -> target e cs' pre t post ->
  buf_now w' b e cs' os.
Proof.
  intros (Hb & (Hf & Hla & Hl & _ & _ & Ht & Hm) & _) Hh Hb' H Htg. destruct (moved_parts _ _ H) as (_ & H2 & H3 & H4 & H5 & H6).
  split; [by rewrite Hb' |]. split; [| done]. split; [by rewrite H3 |]. split; [by rewrite H4 |]. split; [by apply H5 |]. split; [done |].
  split; [by eapply target_focused |]. unfold content. by rewrite H2.
Qed.

(** Chains without data, from the start of their block. *)
Lemma reset_moved n : node_ok n -> empty n -> let n' := Node (addr n) (set_misalign (ch n) 0) (dat n) in moved n n' /\ space n' = buffer_len (ch n).
Proof.
  intros (Hf & Hr & Ho & Hb & Hl & _) He. unfold empty in He. cbv zeta. split; [split_and!; try done |].
  - split_and!; try done. cbn. rewrite He. by exists [], (cbuffer (ch n)).
  - unfold space. cbn. rewrite Ho, He. cbn. lia.
Qed.

Lemma off_empty n : node_ok n -> (off (ch n) =? 0) = bool_decide (empty n).
Proof.
  intros (_ & _ & Ho & _). rewrite Ho. unfold empty. destruct (dat n); [by rewrite bool_decide_true | by rewrite bool_decide_false].
Qed.

Lemma count_empties b datlen n fuel : 0 <= datlen <= 2 ^ 60 -> forall vs a os w used avail,
  heap_of w (a ++ vs ++ os) -> linked vs -> Forall node_ok vs -> Forall empty vs -> (length vs < fuel)%nat -> 0 <= used < Z.of_nat n -> 0 <= avail < datlen ->
  exists vs' w' enough chain used' avail', count_space fuel b datlen (Z.of_nat n) (head_at vs) used avail w = Ok (enough, chain, used', avail', w') /\
    heap_of w' (a ++ vs' ++ os) /\ Forall2 moved vs vs' /\ buffers w' = buffers w /\ client w' = client w /\ fresh w' = fresh w /\
    ((enough = true /\ exists k, used + Z.of_nat k <= Z.of_nat n /\ datlen <= avail + room (take k vs')) \/
     (enough = false /\ avail' < datlen /\ 0 <= avail' /\
        ((chain = NULL /\ used' < Z.of_nat n /\ used' = used + Z.of_nat (length vs') /\ avail' = avail + room vs') \/ used' = Z.of_nat n))).
Proof.
  intros Hd. induction fuel as [| fuel IH]; intros vs a os w used avail Hh Hl Hok He Hf Hu Ha; [lia |]. cbn [count_space]. destruct vs as [| v vs]; cbn [head_at].
  - rewrite Z.eqb_refl. exists [], w, false, NULL, used, avail. split; [done |]. split; [done |]. split; [constructor |]. do 3 (split; [done |]). right. unfold room. cbn. do 3 (split; [done || lia |]). left. split_and!; done || lia.
  - cbn [app] in Hh. rewrite (proj2 (Z.eqb_neq _ _)) by (by eapply addr_here). rewrite (chain_here w a v _ Hh). cbn [mbind res_bind].
    apply Forall_cons in Hok as [Hv Hok]. apply Forall_cons in He as [Hev He]. rewrite off_empty, bool_decide_true by done. cbn [negb mbind res_bind].
    destruct (reset_moved v Hv Hev) as [Hm Hs]. set (v' := Node _ _ _) in *. pose proof (node_space v Hv) as (_ & _ & _ & _ & Hbl). pose proof (node_space v' ltac:(apply Hm)) as (_ & Hsp & _).
    rewrite wrap_small by lia. pose proof (put_here w a v _ v' Hh eq_refl) as Hh1. change (ch v') with (set_misalign (ch v) 0) in Hh1. cbn in Hl. destruct Hl as [-> Hl].
    destruct (Z.geb_spec (avail + buffer_len (ch v)) datlen) as [Hge | Hlt].
    { exists (v' :: vs), (put_chain (addr v) (set_misalign (ch v) 0) w), true, (addr v), (used + 1), (avail + buffer_len (ch v)). split; [done |]. split; [exact Hh1 |].
      split; [constructor; [done | by apply moved_refl] |]. do 3 (split; [done |]). left. split; [done |]. exists 1%nat. split; [lia |]. cbn [take]. rewrite take_0, room_cons. unfold room. cbn [foldr fmap list_fmap]. lia. }
    destruct (Z.eqb_spec (used + 1) (Z.of_nat n)) as [Eu | Nu].
    { exists (v' :: vs), (put_chain (addr v) (set_misalign (ch v) 0) w), false, (addr v), (used + 1), (avail + buffer_len (ch v)). split; [done |]. split; [exact Hh1 |].
      split; [constructor; [done | by apply moved_refl] |]. do 3 (split; [done |]). right. split; [done |]. split; [lia |]. split; [lia |]. by right. }
    destruct (IH vs (a ++ [v']) os (put_chain (addr v) (set_misalign (ch v) 0) w) (used + 1) (avail + buffer_len (ch v))) as (vs' & w' & enough & chain & used' & avail' & E & Hh' & Hm' & E1 & E2 & E3 & H);
      [by rewrite <- app_assoc | done | done | done | cbn in Hf; lia | lia | lia |].
    exists (v' :: vs'), w', enough, chain, used', avail'. split; [exact E |]. split; [by rewrite <- app_assoc in Hh' |]. split; [by constructor |]. do 3 (split; [done |]).
    destruct H as [(-> & k & Hk & Hr) | (-> & H1 & H0 & H)]; [left | right]; (split; [done |]).
    + exists (S k). split; [lia |]. cbn [take]. rewrite room_cons. lia.
    + split; [done |]. split; [done |]. destruct H as [(-> & H2 & H3 & H4) | ->]; [left | by right]. cbn [length]. rewrite room_cons. split_and!; [done | lia | lia | lia].
Qed.

Lemma nuke_spec fuel : forall vs a os w, heap_of w (a ++ vs ++ os) -> linked vs -> Forall node_ok vs -> Forall empty vs -> (length vs < fuel)%nat ->
  exists w', nuke_empty fuel (head_at vs) w = Ok w' /\ heap_of w' (a ++ os) /\ buffers w' = buffers w /\ client w' = client w /\ fresh w' = fresh w.
Proof.
  induction fuel as [| fuel IH]; intros vs a os w Hh Hl Hok He Hf; [lia |]. destruct vs as [| v vs]; cbn [nuke_empty head_at]; [rewrite Z.eqb_refl; by exists w |].
  cbn [app] in Hh. rewrite (proj2 (Z.eqb_neq _ _)) by (by eapply addr_here). rewrite (chain_here w a v _ Hh). cbn [mbind res_bind].
  apply Forall_cons in Hok as [Hv Hok]. apply Forall_cons in He as [Hev He]. rewrite off_empty, bool_decide_true by done. cbn [assert_ok mbind res_bind].
  rewrite (chain_free_spec w a v _ Hh Hv). cbn [mbind res_bind]. cbn in Hl. destruct Hl as [-> Hl]. apply free_here in Hh.
  destruct (IH vs a os _ Hh Hl Hok He) as (w' & E & H); [cbn in Hf; lia |]. exists w'. split; [exact E | exact H].
Qed.
End moving.

(** *** Making room *)

Section expanding.
Context {C : Type} (alloc : Z -> Z -> bool).
Implicit Types (w : heap C).

#[local] Abbreviation oom := (exists a n, alloc a n = false).

(** The chains that can be read into, when the last data is in [t]. *)
Definition open (t : node) (post : list node) : list node := if space t =? 0 then post else t :: post.

Definition has_room (e : evbuffer) (cs : list node) (len : Z) : Prop :=
  exists pre t post, target e cs pre t post /\ len <= room (take NUM_READ_IOVEC (open t post)).

Lemma open_room t post k : Forall node_ok (t :: post) -> room (take k (t :: post)) <= room (take k (open t post)).
Proof.
  intros Hok. unfold open. destruct (Z.eqb_spec (space t) 0) as [Hz | Hz]; [| lia]. apply Forall_cons in Hok as [Ht Hok].
  destruct k as [| k]; [by rewrite !take_0 |]. cbn [take]. rewrite room_cons, Hz. pose proof (room_take k (S k) post Hok ltac:(lia)). lia.
Qed.

(** What the loop of [evbuffer_expand_fast_] finds. *)
Lemma count_all w b e cs os pre t post datlen : buf_now w b e cs os -> target e cs pre t post -> 0 <= datlen <= 2 ^ 60 ->
  exists t' post' w' enough chain used avail, count_space (chain_fuel w) b datlen (Z.of_nat NUM_READ_IOVEC) (addr t) 0 0 w = Ok (enough, chain, used, avail, w') /\
    upd w w' b e /\ buf_now w' b e (pre ++ t' :: post') os /\ target e (pre ++ t' :: post') pre t' post' /\ content (pre ++ t' :: post') = content cs /\
    ((enough = true /\ datlen <= room (take NUM_READ_IOVEC (open t' post'))) \/
     (enough = false /\ 0 <= avail < datlen /\ (dat t' <> [] -> space t' < datlen) /\
        ((chain = NULL /\ used < 4 /\ Z.of_nat (length (open t' post')) <= used /\ avail = room (open t' post')) \/ used = 4))).
Proof.
  intros Hn Htg Hd. pose proof Htg as (-> & Hp & Hdt & Hs). pose proof Hn as (Hb & (Hf & Hla & Hl & Hok & _) & Hh).
  pose proof (fuel_is w _ Hh) as Hfuel. rewrite !length_app in Hfuel. cbn [length] in Hfuel.
  pose proof (linked_suffix _ _ Hl) as Hlt. pose proof Hok as Hok'. apply Forall_app in Hok' as [Hokp Hok']. rewrite <- app_assoc in Hh.
  assert (Hgo : forall t' post' w', heap_of w' ((pre ++ t' :: post') ++ os) -> Forall2 moved (t :: post) (t' :: post') -> buffers w' = buffers w -> client w' = client w -> fresh w' = fresh w ->
    upd w w' b e /\ buf_now w' b e (pre ++ t' :: post') os /\ target e (pre ++ t' :: post') pre t' post' /\ content (pre ++ t' :: post') = content (pre ++ t :: post)).
  { intros t' post' w' Hh' Hm E1 E2 E3. assert (Hm' : Forall2 moved (pre ++ t :: post) (pre ++ t' :: post')) by (apply Forall2_app; [by apply moved_refl | done]).
    assert (Htg' : target e (pre ++ t' :: post') pre t' post') by (inversion Hm; eapply target_moved; [done | by apply moved_refl | done | done]).
    split; [split_and!; [by rewrite E1, insert_id | done | lia] |]. split; [by eapply (buf_moved w) |]. split; [done |]. unfold content. by destruct (moved_parts _ _ Hm') as (_ & -> & _). }
  destruct (decide (empty t)) as [He | He].
  - assert (Hall : Forall empty (t :: post)) by (by constructor).
    destruct (Z.leb_spec datlen 0) as [Hz | Hz].
    { rewrite Hfuel. cbn [count_space Nat.add]. apply Forall_cons in Hok' as [Hokt Hokp']. cbn [app] in Hh. rewrite (proj2 (Z.eqb_neq _ _)) by (by eapply addr_here). rewrite (chain_here w pre t _ Hh). cbn [mbind res_bind].
      rewrite off_empty, bool_decide_true by done. cbn [negb mbind res_bind]. destruct (reset_moved t Hokt He) as [Hm Hsp]. pose proof (node_space t Hokt) as (_ & ? & ? & ? & ?). unfold space in *.
      rewrite wrap_small by lia. rewrite Z.geb_leb, (proj2 (Z.leb_le _ _)) by lia. set (t' := Node (addr t) (set_misalign (ch t) 0) (dat t)) in *.
      eexists t', post, _, true, _, _, _. split; [done |]. edestruct (Hgo t' post) as (G1 & G2 & G3 & G4); [| constructor; [done | by apply moved_refl] | | | |];
        [rewrite <- app_assoc; exact (put_here w pre t _ t' Hh eq_refl) | done..|].
      split; [exact G1 |]. split; [exact G2 |]. split; [done |]. split; [done |]. left. split; [done |].
      pose proof (room_nonneg (take NUM_READ_IOVEC (t' :: post)) ltac:(apply Forall_take; constructor; [apply Hm | done])). pose proof (open_room t' post NUM_READ_IOVEC ltac:(constructor; [apply Hm | done])). lia. }
    destruct (count_empties b datlen NUM_READ_IOVEC (chain_fuel w) Hd (t :: post) pre os w 0 0) as (vs' & w' & enough & chain & used & avail & E & Hh' & Hm & E1 & E2 & E3 & H); try done; [rewrite Hfuel; cbn; lia |].
    pose proof Hm as Hm'. apply Forall2_cons_inv_l in Hm' as (t' & post' & Hmt & Hmp & ->). rewrite app_assoc in Hh'. cbn [head_at] in E.
    destruct (Hgo t' post' w' Hh' Hm E1 E2 E3) as (G1 & G2 & G3 & G4). exists t', post', w', enough, chain, used, avail. do 5 (split; [done |]).
    assert (Hok2 : Forall node_ok (t' :: post')) by by apply moved_parts in Hm as (_ & _ & _ & _ & _ & ?).
    destruct H as [(-> & k & Hk & Hr) | (-> & H1 & H0 & H)]; [left | right]; (split; [done |]).
    + pose proof (open_room t' post' NUM_READ_IOVEC Hok2). pose proof (room_take k NUM_READ_IOVEC (t' :: post') Hok2 ltac:(unfold NUM_READ_IOVEC in *; lia)). lia.
    + split; [done |]. split; [by destruct Hmt as (_ & -> & _) |]. destruct H as [(-> & H2 & H3 & ->) | ->]; [left | by right]. unfold NUM_READ_IOVEC in H2. split; [done |]. split; [done |].
      unfold open. destruct (Z.eqb_spec (space t') 0) as [Hz' | Hz']; cbn [length] in *; rewrite ?room_cons, ?Hz' in *; split; lia.
  - apply Forall_cons in Hok' as [Hokt Hokp']. cbn [app] in Hh. rewrite Hfuel. cbn [count_space Nat.add]. rewrite (proj2 (Z.eqb_neq _ _)) by (by eapply addr_here). rewrite (chain_here w pre t _ Hh). cbn [mbind res_bind].
    rewrite off_empty, bool_decide_false by done. cbn [negb]. rewrite (buf_at_Ok _ _ _ Hb). cbn [mbind res_bind]. rewrite Hs.
    rewrite (get_slot_after w b e pre (t :: post) os Hb Hh Hf Hl). cbn [mbind res_bind head_at]. rewrite Z.eqb_refl. cbn [assert_ok mbind res_bind].
    pose proof (node_space t Hokt) as (Esp & Hsp & _). rewrite Esp. cbn [linked] in Hlt. destruct Hlt as [Hnx Hlp].
    assert (G : exists used avail, (if negb (space t =? 0) then (0 + 1, u64 (0 + space t), w) else (0, 0, w)) = (used, avail, w) /\ 0 <= used <= 1 /\ avail = space t /\ (used = 0 -> space t = 0) /\ (used = 1 -> space t <> 0)).
    { destruct (Z.eqb_spec (space t) 0) as [-> | Hz]; cbn [negb]; eexists _, _; (split; [done |]); [lia |]. rewrite wrap_small by lia. lia. }
    destruct G as (used & avail & -> & Hu & -> & Hu0 & Hu1). cbn [mbind res_bind].
    destruct (Z.geb_spec (space t) datlen) as [Hge | Hlt].
    { eexists t, post, w, true, _, _, _. split; [done |]. destruct (Hgo t post w) as (G1 & G2 & G3 & G4); [rewrite <- app_assoc; exact Hh | constructor; [by split_and! | by apply moved_refl] | done..|].
      do 4 (split; [done |]). left. split; [done |]. unfold open. destruct (Z.eqb_spec (space t) 0) as [Hz | Hz].
      - pose proof (room_nonneg (take NUM_READ_IOVEC post) ltac:(by apply Forall_take)). lia.
      - cbn [take NUM_READ_IOVEC]. rewrite room_cons. pose proof (room_nonneg (take 3 post) ltac:(by apply Forall_take)). lia. }
    rewrite (proj2 (Z.eqb_neq used (Z.of_nat NUM_READ_IOVEC))) by (unfold NUM_READ_IOVEC; lia). rewrite Hnx.
    destruct (count_empties b datlen NUM_READ_IOVEC (length pre + S (length post) + length os) Hd post (pre ++ [t]) os w used (space t)) as (post' & w' & enough & chain & used' & avail' & E & Hh' & Hm & E1 & E2 & E3 & H);
      [by rewrite <- app_assoc | done | done | done | lia | unfold NUM_READ_IOVEC; lia | lia |].
    rewrite <- app_assoc in Hh'. cbn [app] in Hh'. assert (Hm2 : Forall2 moved (t :: post) (t :: post')) by (constructor; [by split_and! | done]).
    destruct (Hgo t post' w' ltac:(by rewrite <- app_assoc) Hm2 E1 E2 E3) as (G1 & G2 & G3 & G4). exists t, post', w', enough, chain, used', avail'.
    split; [exact E |]. do 4 (split; [done |]).
    assert (Hok2 : Forall node_ok (t :: post')) by by apply moved_parts in Hm2 as (_ & _ & _ & _ & _ & ?).
    apply Forall_cons in Hok2 as [_ Hok2].
    destruct H as [(-> & k & Hk & Hr) | (-> & H1 & H0 & H)]; [left | right]; (split; [done |]); unfold open.
    + destruct (Z.eqb_spec (space t) 0) as [Hz | Hz].
      * pose proof (room_take k NUM_READ_IOVEC post' Hok2 ltac:(unfold NUM_READ_IOVEC in *; lia)). lia.
      * assert (used = 1) by (destruct (decide (used = 0)) as [E0 | E0]; [by apply Hu0 in E0 | lia]).
        cbn [take NUM_READ_IOVEC]. rewrite room_cons. pose proof (room_take k 3 post' Hok2 ltac:(unfold NUM_READ_IOVEC in *; lia)). lia.
    + split; [lia |]. split; [lia |]. destruct H as [(-> & H2 & H3 & ->) | ->]; [left | by right]. unfold NUM_READ_IOVEC in H2. split; [done |]. split; [done |].
      destruct (Z.eqb_spec (space t) 0) as [Hz | Hz]; [rewrite Hz; split; lia |].
      assert (used = 1) by (destruct (decide (used = 0)) as [E0 | E0]; [by apply Hu0 in E0 | lia]). cbn [length]. rewrite room_cons. split; lia.
Qed.
(** The outcome of making room for [datlen] bytes: there is room, or no memory; the bytes are what they were. *)
Definition expanded w (b : Z) (e : evbuffer) (cs os : list node) (datlen : Z) (r : res (bool * heap C)) : Prop :=
  exists ok w' e' cs', r = Ok (ok, w') /\ upd w w' b e' /\ buf_now w' b e' cs' os /\ kept e e' /\ content cs' = content cs /\ total_len e' = total_len e /\
    n_add_for_cb e' = n_add_for_cb e /\ n_del_for_cb e' = n_del_for_cb e /\ ((ok = true /\ has_room e' cs' datlen) \/ (ok = false /\ oom)).

Lemma expanded_from w w1 b e e1 cs cs1 os datlen r : upd w w1 b e1 -> kept e e1 -> content cs1 = content cs -> total_len e1 = total_len e ->
  n_add_for_cb e1 = n_add_for_cb e -> n_del_for_cb e1 = n_del_for_cb e -> expanded w1 b e1 cs1 os datlen r -> expanded w b e cs os datlen r.
Proof.
  intros U K H1 H2 H3 H4 (ok & w' & e' & cs' & E & U' & Hn & K' & G1 & G2 & G3 & G4 & G). exists ok, w', e', cs'.
  split; [done |]. split; [by eapply upd_trans |]. split; [done |]. split; [by eapply kept_trans |]. split_and!; congruence || done.
Qed.

(** A new empty chain behind all others. *)
Lemma target_one e n : buf_holds e [n] -> target e [n] [] n [].
Proof.
  intros (_ & _ & _ & _ & Hfo & _). split_and!; [done | constructor | by right |]. destruct Hfo as [[? _] | (pre & t & post & Ex & _ & _ & ->)]; [done |].
  destruct pre as [| m pre]; [done |]. apply (f_equal length) in Ex. cbn in Ex. rewrite length_app in Ex. cbn in Ex. lia.
Qed.

Lemma room_one n len : node_ok n -> len <= space n -> len <= room (take NUM_READ_IOVEC (open n [])).
Proof.
  intros Hn Hl. unfold open. destruct (Z.eqb_spec (space n) 0); cbn; unfold room; cbn; lia.
Qed.

Lemma new_space p c size : chain_holds c [] -> misalign c = 0 -> size <= buffer_len c -> size <= space (Node p c []) /\ node_ok (Node p c []).
Proof. intros Hc Hm Hs. split; [| done]. unfold space. cbn. destruct Hc as (_ & _ & -> & _). cbn. lia. Qed.

(** The last chain is linked to a new one: in front of it are [pre] and [t], and the empty ones [post]. *)
Lemma buf_linked w w' b e pre t t' x post os : let e' := set_last e (last_at (t' :: post)) in buf_now w b e (pre ++ t :: x) os -> target e (pre ++ t :: x) pre t x ->
  addr t' = addr t -> dat t' = dat t -> node_ok t' -> next (ch t') = head_at post -> linked post -> Forall node_ok post -> Forall empty post ->
  buffers w' = <[b := e']> (buffers w) -> heap_of w' ((pre ++ t' :: post) ++ os) ->
  buf_now w' b e' (pre ++ t' :: post) os /\ target e' (pre ++ t' :: post) pre t' post /\ content (pre ++ t' :: post) = content (pre ++ t :: x).
Proof.
  intros e' (_ & (Hf & _ & Hl & Hok & _ & Ht & Hm) & _) (_ & Hx & Hd & Hs) Ha Hda Hokt Hnx Hlp Hokp Hep Hb Hh. unfold e'.
  assert (Htg : target (set_last e (last_at (t' :: post))) (pre ++ t' :: post) pre t' post) by (split_and!; [done | done | by rewrite Hda | done]).
  assert (Hc : content (pre ++ t' :: post) = content (pre ++ t :: x)) by (rewrite !content_app, !content_cons, (content_empty x), (content_empty post), Hda by done; done).
  split; [| done]. split; [rewrite Hb; apply lookup_insert_eq |]. split; [| done]. unfold buf_holds. cbn [first last last_with_datap total_len set_last].
  split; [rewrite Hf; by destruct pre |]. split; [by rewrite last_at_app |]. split; [by eapply linked_snoc |].
  split; [apply Forall_app in Hok as [? _]; rewrite Forall_app, Forall_cons; done |]. split; [by eapply target_focused |]. by rewrite Hc.
Qed.

Lemma replace_empty_spec w b e cs os pre t post datlen : buf_now w b e cs os -> target e cs pre t post -> 0 <= datlen <= 2 ^ 60 -> (dat t <> [] -> space t < datlen) ->
  expanded w b e cs os datlen (replace_empty alloc b datlen w).
Proof.
  intros Hn Htg Hd Hsp. pose proof Htg as (-> & Hp & Hdt & Hs). pose proof Hn as (Hb & (Hf & Hla & Hl & Hok & _ & Ht & _) & Hh). unfold replace_empty.
  pose proof (fuel_is w _ Hh) as Hfuel. rewrite !length_app in Hfuel. cbn [length] in Hfuel. rewrite <- app_assoc in Hh.
  rewrite (buf_at_Ok _ _ _ Hb). cbn [mbind res_bind]. rewrite Hs, (get_slot_after w b e pre (t :: post) os Hb Hh Hf Hl). cbn [mbind res_bind head_at].
  cbn [app] in Hh. rewrite (chain_here w pre t _ Hh). cbn [mbind res_bind]. pose proof (linked_suffix _ _ Hl) as Hlt.
  pose proof Hok as Hok'. apply Forall_app in Hok' as [Hokp Hok']. pose proof Hok' as Hok2. apply Forall_cons in Hok2 as [Hokt Hokp']. rewrite (off_empty t Hokt).
  pose proof (node_space t Hokt) as (Esp & Hspt & _). rewrite Esp.
  destruct (decide (empty t)) as [He | He]; [rewrite bool_decide_true by done | rewrite bool_decide_false by done]; cbn [negb orb].
  - assert (pre = []) as -> by by destruct Hdt. cbn [app head_at] in *. rewrite Hf, Z.eqb_refl. cbn [assert_ok mbind res_bind].
    assert (Hall : Forall empty (t :: post)) by (by constructor).
    destruct (nuke_spec (chain_fuel w) (t :: post) [] os w Hh Hl Hok Hall) as (w1 & E1 & Hh1 & B1 & C1 & F1); [rewrite Hfuel; cbn; lia |]. cbn [head_at] in E1. rewrite E1. cbn [mbind res_bind app] in *.
    rewrite Z.geb_leb, (proj2 (Z.leb_le 0 datlen)) by lia. cbn [assert_ok mbind res_bind]. rewrite Z.sub_0_r, wrap_small by lia.
    destruct (chain_new_spec alloc datlen w1 os Hh1) as (p & w2 & -> & H); [unfold EVBUFFER_CHAIN_SIZE; lia |]. cbn [mbind res_bind].
    assert (Ht0 : total_len e = 0) by (by rewrite Ht, (content_empty (t :: post) Hall)).
    destruct H as [(-> & -> & Ho) | (c & Hh2 & Hp2 & Hnx & Hc & Hm & Hsz & (B2 & C2 & F2))].
    + rewrite Z.eqb_refl. unfold ZERO_CHAIN. assert (Hbe : buffers w1 !! b = Some e) by by rewrite B1. rewrite (buf_at_Ok _ _ _ Hbe). cbn [mbind res_bind].
      eexists false, _, _, []. split; [done |]. split; [split_and!; [cbn; by rewrite B1 | done | cbn; lia] |]. split; [split; [cbn; apply lookup_insert_eq |]; split; [| exact Hh1]; by apply holds_zero |].
      split; [by split_and! |]. split; [by rewrite (content_empty _ Hall) |]. split; [done |]. do 2 (split; [done |]). by right.
    + rewrite (proj2 (Z.eqb_neq p NULL)) by done. cbn iota. destruct (new_space p c datlen Hc Hm Hsz) as [Hsn Hokn]. set (n := Node p c []) in *.
      eexists true, _, _, [n]. split; [done |]. split; [split_and!; [cbn; by rewrite B2, B1 | cbn; congruence | cbn; lia] |].
      assert (Hbh : buf_holds (set_datap (set_last (set_first e p) p) First) [n]).
      { do 3 (split; [done |]). split; [by constructor |]. split; [right; exists [], n, []; split_and!; [done | constructor | by right | done] |]. split; cbn; lia. }
      split; [split; [cbn; apply lookup_insert_eq |]; split; [exact Hbh | eapply heap_of_perm; [| exact Hh2]; by rewrite Permutation_app_comm] |].
      split; [by split_and! |]. split; [by rewrite (content_empty _ Hall) |]. do 3 (split; [done |]). left. split; [done |].
      exists [], n, []. split; [by apply target_one | by apply room_one].
  - cbn [assert_ok mbind res_bind]. cbn [linked] in Hlt. destruct Hlt as [Hnx Hlp]. rewrite Hnx.
    assert (Hh0 : heap_of w ((pre ++ [t]) ++ post ++ os)) by by rewrite <- app_assoc.
    destruct (nuke_spec (chain_fuel w) post (pre ++ [t]) os w Hh0 Hlp Hokp' Hp) as (w1 & -> & Hh1 & B1 & C1 & F1); [rewrite Hfuel; lia |]. cbn [mbind res_bind].
    rewrite Z.geb_leb, (proj2 (Z.leb_le _ datlen)) by (pose proof (Hsp He); lia). cbn [assert_ok mbind res_bind]. rewrite wrap_small by (pose proof (Hsp He); lia).
    destruct (chain_new_spec alloc (datlen - space t) w1 _ Hh1) as (p & w2 & -> & H); [pose proof (Hsp He); unfold EVBUFFER_CHAIN_SIZE; lia |]. cbn [mbind res_bind].
    rewrite <- app_assoc in Hh1. cbn [app] in Hh1.
    destruct H as [(-> & -> & Ho) | (c & Hh2 & Hp2 & Hnx2 & Hc & Hm & Hsz & (B2 & C2 & F2))].
    + rewrite Z.eqb_refl, (chain_here w1 pre t os Hh1). cbn [mbind res_bind]. set (t' := Node (addr t) (set_next (ch t) NULL) (dat t)).
      pose proof (put_here w1 pre t os t' Hh1 eq_refl) as Hh3. change (ch t') with (set_next (ch t) NULL) in Hh3.
      edestruct (buf_linked w (put_chain (addr t) (set_next (ch t) NULL) (put_buf b (set_last e (addr t)) w1)) b e pre t t' post [] os Hn Htg) as (G1 & G2 & G3); try done;
        [cbn; by rewrite B1 | rewrite <- app_assoc; exact Hh3 |].
      eexists false, _, _, _. split; [done |]. split; [split_and!; [cbn; by rewrite B1 | cbn; done | cbn; lia] |]. split; [exact G1 |]. split; [by split_and! |]. split; [exact G3 |]. do 3 (split; [done |]). by right.
    + rewrite (proj2 (Z.eqb_neq p NULL)) by done. cbn iota. destruct (new_space p c _ Hc Hm Hsz) as [Hsn Hokn]. set (n := Node p c []) in *.
      assert (Hh3 : heap_of w2 (pre ++ t :: n :: os)).
      { eapply heap_of_perm; [| exact Hh2]. rewrite <- !app_assoc. cbn [app]. do 2 f_equiv. by rewrite Permutation_app_comm. }
      rewrite (chain_here w2 pre t _ Hh3). cbn [mbind res_bind]. set (t' := Node (addr t) (set_next (ch t) p) (dat t)).
      pose proof (put_here w2 pre t _ t' Hh3 eq_refl) as Hh4. change (ch t') with (set_next (ch t) p) in Hh4.
      edestruct (buf_linked w (put_buf b (set_last e p) (put_chain (addr t) (set_next (ch t) p) w2)) b e pre t t' post [n] os Hn Htg) as (G1 & G2 & G3); try done;
        [by constructor | by constructor | cbn; by rewrite B2, B1 | rewrite <- app_assoc; exact Hh4 |].
      eexists true, _, _, _. split; [done |]. split; [split_and!; [cbn; by rewrite B2, B1 | cbn; congruence | cbn; lia] |]. split; [exact G1 |]. split; [by split_and! |]. split; [exact G3 |]. do 3 (split; [done |]).
      left. split; [done |]. exists pre, t', [n]. split; [exact G2 |]. unfold open. change (space t') with (space t). pose proof (node_space n Hokn) as (_ & ? & _).
      destruct (Z.eqb_spec (space t) 0) as [Hz | Hz]; unfold room, NUM_READ_IOVEC; cbn [take fmap list_fmap foldr]; change (space t') with (space t); lia.
Qed.
Lemma relink_split pre t post v : exists t2 post2, relink (pre ++ t :: post) v = pre ++ t2 :: post2 /\ dat t2 = dat t /\ space t2 = space t /\ dat <$> post2 = dat <$> post /\ space <$> post2 = space <$> post.
Proof.
  snoc_cases post m l; [rewrite relink_snoc; by eexists _, [] |]. change (pre ++ t :: l ++ [m]) with (pre ++ (t :: l) ++ [m]). rewrite app_assoc, relink_snoc, <- app_assoc. eexists t, (l ++ [_]). split; [done |]. rewrite !fmap_app. by split_and!.
Qed.

Lemma open_spaces t t2 post post2 : space t2 = space t -> space <$> post2 = space <$> post -> space <$> open t2 post2 = space <$> open t post.
Proof. intros H1 H2. unfold open. rewrite H1. destruct (_ =? 0); [done |]. cbn. by rewrite H1, H2. Qed.

Lemma room_spaces k vs vs' : space <$> vs' = space <$> vs -> room (take k vs') = room (take k vs).
Proof. intros H. unfold room. by rewrite !fmap_take, H. Qed.

Lemma link_last w b e pre t post n os : buf_now w b e (pre ++ t :: post) (n :: os) -> target e (pre ++ t :: post) pre t post -> node_ok n -> dat n = [] -> next (ch n) = NULL ->
  exists c t2 post2, chain_at (last e) w = Ok c /\
    buf_now (put_buf b (set_last e (addr n)) (put_chain (last e) (set_next c (addr n)) w)) b (set_last e (addr n)) (pre ++ t2 :: post2 ++ [n]) os /\
    target (set_last e (addr n)) (pre ++ t2 :: post2 ++ [n]) pre t2 (post2 ++ [n]) /\ content (pre ++ t2 :: post2 ++ [n]) = content (pre ++ t :: post) /\
    space <$> open t2 (post2 ++ [n]) = (space <$> open t post) ++ [space n].
Proof.
  intros (Hb & (Hf & Hla & Hl & Hok & _ & Ht & Hm) & Hh) (_ & Hp & Hd & Hs) Hn Hdn Hnx.
  destruct (relink_split pre t post (addr n)) as (t2 & post2 & E & Hd2 & Hs2 & Hdp & Hsp). pose proof (relink_parts (pre ++ t :: post) (addr n)) as (_ & _ & P3 & _).
  pose proof (relink_content (pre ++ t :: post) (addr n)) as P5. pose proof (relink_ok _ (addr n) Hok) as P6.
  assert (P7 : linked (relink (pre ++ t :: post) (addr n) ++ [n])) by (apply (relink_linked _ [n] []); [by rewrite app_nil_r | done]).
  assert (Hc : exists c, chain_at (last e) w = Ok c /\ heap_of (put_chain (last e) (set_next c (addr n)) w) (relink (pre ++ t :: post) (addr n) ++ n :: os)).
  { destruct (exists_last (l := pre ++ t :: post) ltac:(by destruct pre)) as (l & m & El). rewrite El, relink_snoc, <- app_assoc in *. rewrite Hla, last_at_snoc. cbn [app] in *.
    rewrite (chain_here w l m _ Hh). eexists. split; [done |]. exact (put_here w l m _ (Node (addr m) (set_next (ch m) (addr n)) (dat m)) Hh eq_refl). }
  destruct Hc as (c & Ec & Hh2). rewrite E in *. exists c, t2, post2. split; [exact Ec |].
  assert (Hpe : Forall empty (post2 ++ [n])).
  { apply Forall_app. split; [| by constructor]. clear -Hp Hdp. revert post2 Hdp. induction Hp as [| x l Hx _ IH]; intros [| y l2] H; try done. injection H as H1 H2. constructor; [unfold empty in *; congruence | by apply IH]. }
  assert (Htg : target (set_last e (addr n)) (pre ++ t2 :: post2 ++ [n]) pre t2 (post2 ++ [n])) by (split_and!; [done | done | by rewrite Hd2 | done]).
  assert (Hcn : content (pre ++ t2 :: post2 ++ [n]) = content (pre ++ t :: post)).
  { rewrite app_comm_cons, app_assoc, content_app, P5. unfold content at 2. cbn. by rewrite Hdn, app_nil_r. }
  split; [| split; [exact Htg | split; [exact Hcn |]]].
  - split; [cbn; apply lookup_insert_eq |]. split; [| rewrite app_comm_cons, app_assoc, <- app_assoc; exact Hh2].
    unfold buf_holds. cbn [first last last_with_datap total_len set_last]. split; [by rewrite Hf, <- P3; destruct pre |]. split; [by rewrite app_comm_cons, app_assoc, last_at_snoc |].
    split; [by rewrite <- app_assoc in P7 |]. split; [rewrite app_comm_cons, app_assoc; apply Forall_app; split; [done | by constructor] |]. split; [by eapply target_focused |]. by rewrite Hcn.
  - unfold open. rewrite Hs2. destruct (_ =? 0); cbn; by rewrite ?Hs2, fmap_app, Hsp.
Qed.

(** [evbuffer_expand_fast_] makes room, or there is no memory. *)
Lemma expand_fast_spec w b e cs os datlen : buf_now w b e cs os -> 0 <= datlen <= 2 ^ 60 -> expanded w b e cs os datlen (evbuffer_expand_fast_ alloc b datlen (Z.of_nat NUM_READ_IOVEC) w).
Proof.
  intros Hn Hd. pose proof Hn as (Hb & (_ & Hla & _ & Hok & _ & _ & Htl) & Hh). unfold evbuffer_expand_fast_. change (Z.of_nat NUM_READ_IOVEC >=? 2) with true. cbn [assert_ok mbind res_bind].
  rewrite (buf_at_Ok _ _ _ Hb). cbn [mbind res_bind].
  destruct (datap_target w b e cs os Hn) as [(-> & _ & -> & _) | (pre & t & post & Ecs & Hp & Hdt & Hs & Eg & _)].
  - rewrite Z.eqb_refl. cbn [mbind res_bind]. destruct (buf_new alloc w b e [] os datlen Hn) as (p & w1 & -> & H); [unfold EVBUFFER_CHAIN_SIZE; lia |]. cbn [mbind res_bind].
    destruct H as [(-> & -> & Ho) | (c & Hp & U1 & Hn1 & Hnx & Hc & Hm & Hsz)].
    { rewrite Z.eqb_refl. eexists false, w, e, []. split; [done |]. split; [by apply upd_self |]. split; [done |]. split; [by split_and! |]. do 4 (split; [done |]). by right. }
    rewrite (proj2 (Z.eqb_neq p NULL)) by done. destruct (new_space p c _ Hc Hm Hsz) as [Hsn Hokn].
    destruct (chain_insert_spec w1 b e [] (Node p c []) os Hn1 Hokn Hnx (or_intror eq_refl)) as (w2 & e2 & pre & E & U2 & Hn2 & Hc2 & Hpre & K & Ha2 & Hd2); [cbn; lia |].
    rewrite (Hpre eq_refl) in *. cbn [addr app] in *. rewrite E. cbn [mbind res_bind]. pose proof Hn2 as (_ & Hbh & _). pose proof Hn as (_ & (_ & _ & _ & _ & _ & Ht & _) & _). pose proof Hbh as (_ & _ & _ & _ & _ & Ht2 & _).
    eexists true, w2, e2, _. split; [done |]. split; [by eapply upd_trans |]. split; [exact Hn2 |]. split; [done |]. split; [done |]. split; [by rewrite Ht2, Ht |]. do 2 (split; [done |]).
    left. split; [done |]. exists [], (Node p c []), []. split; [by apply target_one | by apply room_one].
  - subst cs. assert (Hc : last e <> NULL /\ exists c, chain_at (last e) w = Ok c /\ immutable c = false).
    { destruct (exists_last (l := pre ++ t :: post) ltac:(by destruct pre)) as (l & m & El). rewrite Hla, El, last_at_snoc in *. rewrite <- app_assoc in Hh. split; [by eapply addr_here |].
      exists (ch m). split; [by eapply chain_here |]. apply Forall_app in Hok as [_ Hok]. apply Forall_cons in Hok as [(Hfl & _) _]. unfold immutable. by rewrite Hfl. }
    destruct Hc as (Hn0 & c0 & E0 & Ei). rewrite (proj2 (Z.eqb_neq (last e) NULL)), E0 by done. cbn [mbind res_bind]. rewrite Ei, Eg. cbn [mbind res_bind].
    destruct (count_all w b e _ os pre t post datlen Hn) as (t' & post' & w1 & enough & chain & used & avail & E & U1 & Hn1 & Htg1 & Hc1 & H); [done | done |]. rewrite E. cbn [mbind res_bind].
    destruct H as [(-> & Hr) | (-> & Ha & Hst & H)].
    { eexists true, w1, e, _. split; [done |]. split; [done |]. split; [exact Hn1 |]. split; [by split_and! |]. do 4 (split; [done |]). left. split; [done |]. by exists pre, t', post'. }
    destruct H as [(-> & Hu & Hlen & Hav) | ->].
    + rewrite (proj2 (Z.ltb_lt used _)) by (unfold NUM_READ_IOVEC; lia). rewrite Z.eqb_refl. cbn [assert_ok mbind res_bind]. rewrite wrap_small by lia.
      destruct (buf_new alloc w1 b e _ os (datlen - avail) Hn1) as (p & w2 & -> & H); [unfold EVBUFFER_CHAIN_SIZE; lia |]. cbn [mbind res_bind].
      destruct H as [(-> & -> & Ho) | (c & Hp2 & U2 & Hn2 & Hnx & Hc & Hm & Hsz)].
      { rewrite Z.eqb_refl. eexists false, w1, e, _. split; [done |]. split; [done |]. split; [exact Hn1 |]. split; [by split_and! |]. do 4 (split; [done |]). by right. }
      rewrite (proj2 (Z.eqb_neq p NULL)) by done. cbn iota. destruct (new_space p c _ Hc Hm Hsz) as [Hsn Hokn].
      destruct (link_last w2 b e pre t' post' (Node p c []) os Hn2 Htg1 Hokn eq_refl Hnx) as (c1 & t2 & post2 & -> & Hn3 & Htg3 & Hc3 & Hsp3). cbn [mbind res_bind addr] in *.
      eexists true, _, _, _. split; [done |]. split; [destruct (upd_trans _ _ _ _ _ _ U1 U2) as (V1 & V2 & V3); split_and!; [cbn; by rewrite V1, insert_insert_eq | done | done] |].
      split; [exact Hn3 |]. split; [by split_and! |]. split; [congruence |]. do 3 (split; [done |]). left. split; [done |]. exists pre, t2, (post2 ++ [Node p c []]). split; [exact Htg3 |].
      rewrite take_ge by (rewrite <- (length_fmap space), Hsp3, length_app, length_fmap; cbn; unfold NUM_READ_IOVEC; lia).
      unfold room. rewrite Hsp3. fold (room [Node p c []]). assert (Hra : forall l x, foldr Z.add 0 (l ++ [x]) = foldr Z.add 0 l + x) by (intros l x; induction l; cbn in *; lia).
      rewrite Hra. unfold room in Hav. lia.
    + rewrite (proj2 (Z.ltb_ge 4 _)) by (unfold NUM_READ_IOVEC; lia). eapply (expanded_from w w1 b e e); [done | by split_and! | exact Hc1 | done..|]. by eapply replace_empty_spec.
Qed.
End expanding.

(** *** Filling *)

Section filling.
Context {C : Type}.
Implicit Types (w : heap C).

(** The vectors of [vecs_from] for the chains [vs]. *)
Fixpoint vecs_list (k : nat) (left : Z) (vs : list node) : list evbuffer_iovec :=
  match k, vs with
  | S k, v :: vs =>
      if 0 <? left then
        let n := Z.min (space v) left in MkVec (addr v) (misalign (ch v) + off (ch v)) n :: vecs_list k (left - n) vs
      else []
  | _, _ => []
  end.

Lemma vecs_from_spec howmuch k : forall vs a os w so_far, heap_of w (a ++ vs ++ os) -> linked vs -> Forall node_ok vs -> howmuch - so_far <= room (take k vs) ->
  vecs_from k so_far howmuch true (head_at vs) w = Ok (vecs_list k (howmuch - so_far) vs).
Proof.
  induction k as [| k IH]; intros vs a os w so_far Hh Hl Hok Hr; [done |]. cbn [vecs_from]. destruct (Z.ltb_spec so_far howmuch) as [Hlt | Hge].
  2:{ destruct vs as [| v vs]; [done |]. cbn [vecs_list]. by rewrite (proj2 (Z.ltb_ge _ _)) by lia. }
  destruct vs as [| v vs]; [unfold room in Hr; cbn in Hr; lia |]. cbn [head_at app] in *. rewrite (chain_here w a v _ Hh). cbn [mbind res_bind].
  apply Forall_cons in Hok as [Hv Hok]. pose proof (node_space v Hv) as (-> & _). cbn [take] in Hr. rewrite room_cons in Hr. pose proof (room_nonneg (take k vs) ltac:(by apply Forall_take)).
  rewrite andb_true_r. cbn [linked] in Hl. destruct Hl as [-> Hl]. cbn [vecs_list]. rewrite (proj2 (Z.ltb_lt 0 _)) by lia.
  assert (Em : (if space v >? howmuch - so_far then howmuch - so_far else space v) = Z.min (space v) (howmuch - so_far)) by (destruct (Z.gtb_spec (space v) (howmuch - so_far)); lia).
  rewrite Em, (IH vs (a ++ [v]) os); [cbn [mbind res_bind]; do 3 f_equal; lia | by rewrite <- app_assoc | done | done | lia].
Qed.

Lemma vecs_total k : forall vs left, Forall node_ok vs -> 0 <= left <= room (take k vs) -> foldr Z.add 0 (iov_len <$> vecs_list k left vs) = left.
Proof.
  induction k as [| k IH]; intros vs left Hok Hl; [rewrite take_0 in Hl; unfold room in Hl; cbn in *; lia |]. destruct vs as [| v vs]; [unfold room in Hl; cbn in *; lia |]. cbn [vecs_list].
  destruct (Z.ltb_spec 0 left); [| cbn; lia]. apply Forall_cons in Hok as [Hv Hok]. pose proof (node_space v Hv). cbn [take] in Hl. rewrite room_cons in Hl.
  pose proof (room_nonneg (take k vs) ltac:(by apply Forall_take)). cbn [fmap list_fmap foldr iov_len]. rewrite (IH vs) by (done || lia). lia.
Qed.

Lemma vecs_reach k : forall vs left, Forall node_ok vs -> 0 <= left <= room (take k vs) -> left <= room (take (length (vecs_list k left vs)) vs).
Proof.
  induction k as [| k IH]; intros vs left Hok Hl; [rewrite !take_0 in *; unfold room in *; cbn in *; lia |]. destruct vs as [| v vs]; [unfold room in *; cbn in *; lia |]. cbn [vecs_list].
  destruct (Z.ltb_spec 0 left); [| unfold room; cbn; lia]. apply Forall_cons in Hok as [Hv Hok]. pose proof (node_space v Hv). cbn [take] in Hl. rewrite room_cons in Hl.
  pose proof (room_nonneg (take k vs) ltac:(by apply Forall_take)). cbn [length take]. rewrite room_cons. specialize (IH vs (left - Z.min (space v) left) Hok ltac:(lia)). lia.
Qed.

(** The chains [vs] have [bytes] behind their data, which is as it was. *)
Fixpoint ready (vs : list node) (bytes : list Z) : Prop :=
  match vs with
  | [] => bytes = []
  | v :: vs =>
      let xs := take (Z.to_nat (space v)) bytes in
      chain_holds (set_off (ch v) (off (ch v) + Z.of_nat (length xs))) (dat v ++ xs) /\ ready vs (drop (Z.to_nat (space v)) bytes)
  end.

Lemma ready_nil vs : Forall node_ok vs -> ready vs [].
Proof.
  induction 1 as [| v vs Hv _ IH]; [done |]. cbn [ready]. rewrite take_nil, drop_nil, app_nil_r. split; [| done]. cbn [length Z.of_nat]. rewrite Z.add_0_r. by destruct v as [? [] ?].
Qed.

Lemma chain_less c xs ys : chain_holds (set_off c (off c + Z.of_nat (length ys))) (xs ++ ys) -> off c = Z.of_nat (length xs) -> chain_holds c xs.
Proof.
  intros (Hf & Hr & Ho & Hb & Hl & pre & post & Eb & Em) Hx. split_and!; try done. exists pre, ((Some <$> ys) ++ post). split; [| done]. cbn in Eb. by rewrite Eb, fmap_app, <- app_assoc.
Qed.

Definition refilled (v v' : node) : Prop := moved v v' /\ space v' = space v.

Lemma scatter_spec k : forall vs left bytes a os w, heap_of w (a ++ vs ++ os) -> Forall node_ok vs -> Z.of_nat (length bytes) <= left <= room (take k vs) ->
  exists vs' w', scatter (vecs_list k left vs) bytes w = Ok w' /\ heap_of w' (a ++ vs' ++ os) /\ Forall2 refilled vs vs' /\ ready vs' bytes /\
    buffers w' = buffers w /\ client w' = client w /\ fresh w' = fresh w.
Proof.
  assert (Hnone : forall vs bytes a os w, heap_of w (a ++ vs ++ os) -> Forall node_ok vs -> Z.of_nat (length bytes) <= 0 ->
    exists vs' w', Ok w = Ok w' /\ heap_of w' (a ++ vs' ++ os) /\ Forall2 refilled vs vs' /\ ready vs' bytes /\ buffers w' = buffers w /\ client w' = client w /\ fresh w' = fresh w).
  { intros vs bytes a os w Hh Hok Hb. destruct bytes; [| cbn in Hb; lia]. exists vs, w. split; [done |]. split; [done |]. split; [| split; [by apply ready_nil | done]].
    clear Hh. induction Hok; constructor; [by split_and! | done]. }
  induction k as [| k IH]; intros vs left bytes a os w Hh Hok Hb; [apply Hnone; [done | done | rewrite take_0 in Hb; unfold room in Hb; cbn in Hb; lia] |].
  destruct vs as [| v vs]; [apply Hnone; [done | done | unfold room in Hb; cbn in Hb; lia] |]. cbn [vecs_list].
  destruct (Z.ltb_spec 0 left) as [Hl | Hl]; [| apply Hnone; [done | done | lia]]. cbn [scatter app iov_chain iov_base iov_len] in *. rewrite (chain_here w a v _ Hh). cbn [mbind res_bind].
  apply Forall_cons in Hok as [Hv Hok]. pose proof (node_space v Hv) as (_ & Hsp & _ & Ho & _). cbn [take] in Hb. rewrite room_cons in Hb.
  set (n := Z.min (space v) left). destruct (chain_extend (ch v) (dat v) (take (Z.to_nat n) bytes) Hv) as (blk & -> & Hc); [rewrite length_take; unfold space in *; lia |]. cbn [mbind res_bind].
  set (v' := Node (addr v) (set_cbuffer (ch v) blk) (dat v)). pose proof (put_here w a v _ v' Hh eq_refl) as Hh1. change (ch v') with (set_cbuffer (ch v) blk) in Hh1.
  assert (Hv' : node_ok v') by exact (chain_less (ch v') _ _ Hc Ho).
  assert (Ex : take (Z.to_nat (space v)) bytes = take (Z.to_nat n) bytes /\ drop (Z.to_nat (space v)) bytes = drop (Z.to_nat n) bytes).
  { destruct (Z.le_gt_cases (space v) left) as [Hs | Hs]; [by replace n with (space v) by lia |]. rewrite !take_ge, !drop_ge by lia. done. }
  destruct Ex as [Ex Ey].
  destruct (IH vs (left - n) (drop (Z.to_nat n) bytes) (a ++ [v']) os (put_chain (addr v) (set_cbuffer (ch v) blk) w)) as (vs' & w' & E & Hh' & Hm & Hr & Hrest);
    [by rewrite <- app_assoc | done | rewrite length_drop; pose proof (room_nonneg (take k vs) ltac:(by apply Forall_take)); lia |].
  rewrite <- app_assoc in Hh'. exists (v' :: vs'), w'. split; [exact E |]. split; [exact Hh' |]. split; [constructor; [by split_and! | done] |].
  split; [| exact Hrest]. cbn [ready]. change (space v') with (space v). rewrite Ex, Ey. done.
Qed.

(** The data goes to the chains from [v] on; behind [t] there is none. *)
Lemma commit_spec b k : forall v rest a os w e bytes, buffers w !! b = Some e -> heap_of w ((a ++ v :: rest) ++ os) -> first e = head_at (a ++ v :: rest) -> linked (a ++ v :: rest) ->
  Forall node_ok (a ++ v :: rest) -> Forall empty rest -> ready (v :: rest) bytes -> bytes <> [] -> Z.of_nat (length bytes) <= room (take k (v :: rest)) ->
  exists mid t post w', commit_read k b (slot_after a) (Z.of_nat (length bytes)) w = Ok w' /\ heap_of w' ((a ++ mid ++ t :: post) ++ os) /\
    buffers w' = <[b := set_datap e (slot_after (a ++ mid))]> (buffers w) /\ client w' = client w /\ fresh w' = fresh w /\
    head_at (a ++ mid ++ t :: post) = head_at (a ++ v :: rest) /\ last_at (a ++ mid ++ t :: post) = last_at (a ++ v :: rest) /\ linked (a ++ mid ++ t :: post) /\
    Forall node_ok (a ++ mid ++ t :: post) /\ Forall empty post /\ dat t <> [] /\ content (mid ++ [t]) = dat v ++ bytes.
Proof.
  induction k as [| k IH]; intros v rest a os w e bytes Hb Hh Hf Hl Hok He [Hc Hrd] Hne Hr; [rewrite take_0 in Hr; unfold room in Hr; destruct bytes; cbn in *; [done | lia] |].
  cbn [commit_read]. pose proof Hh as Hh'. rewrite <- app_assoc in Hh'. rewrite (get_slot_after w b e a (v :: rest) os Hb Hh' Hf Hl). cbn [mbind res_bind head_at app] in *.
  rewrite (chain_here w a v _ Hh'). cbn [mbind res_bind]. pose proof Hok as Hok'. apply Forall_app in Hok' as [Hoka Hok']. apply Forall_cons in Hok' as [Hv Hokr].
  pose proof (node_space v Hv) as (-> & Hsp & _ & Ho & _). rewrite Z.min_l by (unfold EVBUFFER_CHAIN_MAX; lia). cbn [take] in Hr. rewrite room_cons in Hr.
  destruct (Z.ltb_spec (space v) (Z.of_nat (length bytes))) as [Hlt | Hge].
  - assert (El : Z.of_nat (length (take (Z.to_nat (space v)) bytes)) = space v) by (rewrite length_take; lia). rewrite El in Hc.
    set (v2 := Node (addr v) (set_off (ch v) (off (ch v) + space v)) (dat v ++ take (Z.to_nat (space v)) bytes)).
    pose proof (put_here w a v _ v2 Hh' eq_refl) as Hh2. change (ch v2) with (set_off (ch v) (off (ch v) + space v)) in Hh2.
    destruct rest as [| r rest]; [cbn in Hrd; apply (f_equal length) in Hrd; rewrite length_drop in Hrd; cbn in Hrd; lia |].
    apply Forall_cons in He as [Her He]. change (NextOf (addr v)) with (NextOf (addr v2)). rewrite <- (slot_after_snoc a v2).
    replace (Z.of_nat (length bytes) - space v) with (Z.of_nat (length (drop (Z.to_nat (space v)) bytes))) by (rewrite length_drop; lia).
    assert (Hok2 : Forall node_ok (a ++ v2 :: r :: rest)) by (rewrite Forall_app, Forall_cons; done).
    assert (Hl2 : linked (a ++ v2 :: r :: rest)) by (by eapply linked_change).
    destruct (IH r rest (a ++ [v2]) os (put_chain (addr v) (set_off (ch v) (off (ch v) + space v)) w) e (drop (Z.to_nat (space v)) bytes)) as (mid & t & post & w' & E & Hh3 & Hb3 & Hc3 & Hf3 & P1 & P2 & P3 & P4 & P5 & P6 & P7);
      rewrite <- ?app_assoc; cbn [app]; try done.
    + by rewrite Hf, (head_at_change a v v2).
    + intros Hx. apply (f_equal length) in Hx. rewrite length_drop in Hx. cbn in Hx. lia.
    + rewrite length_drop. lia.
    + rewrite <- !app_assoc in Hh3, P1, P2, P3, P4, Hb3. cbn [app] in *. exists (v2 :: mid), t, post, w'.
      rewrite <- (app_assoc a [v2] (r :: rest)) in P1, P2. cbn [app] in P1, P2. rewrite (head_at_change a v v2 (r :: rest)) in P1 by done. rewrite (last_at_change a v v2 (r :: rest)) in P2 by done. split_and!; try done; [rewrite <- (app_assoc a [v2]), <- (app_assoc mid) in Hh3; rewrite <- !app_assoc; exact Hh3 |].
      cbn [app]. rewrite content_cons, P7. unfold empty in Her. cbn [dat v2]. by rewrite Her, app_nil_l, <- app_assoc, take_drop.
  - rewrite (buf_at_Ok _ _ _ Hb). cbn [mbind res_bind]. rewrite take_ge in Hc by lia.
    set (v2 := Node (addr v) (set_off (ch v) (off (ch v) + Z.of_nat (length bytes))) (dat v ++ bytes)).
    pose proof (put_here w a v _ v2 Hh' eq_refl) as Hh2. change (ch v2) with (set_off (ch v) (off (ch v) + Z.of_nat (length bytes))) in Hh2.
    eexists [], v2, rest, _. split; [done |]. cbn [app]. rewrite app_nil_r. split; [rewrite <- app_assoc; exact Hh2 |].
    split_and!; try done; [by rewrite (head_at_change a v v2) | by rewrite (last_at_change a v v2) | by eapply linked_change | rewrite Forall_app, Forall_cons; done | cbn; by destruct (dat v) | by rewrite content_cons, app_nil_r].
Qed.
End filling.

(** *** Reading *)

Section reading.
Context {F : Type} `{!Socket F} `{!SocketLaws F} {C : Type} (alloc : Z -> Z -> bool).
Implicit Types (w : heap C) (fd : F).

#[local] Abbreviation oom := (exists a n, alloc a n = false).

Lemma refilled_moved vs vs' : Forall2 refilled vs vs' -> Forall2 moved vs vs'.
Proof. intros H. eapply Forall2_impl; [exact H |]. by intros ? ? []. Qed.

Lemma refilled_room vs vs' : Forall2 refilled vs vs' -> space <$> vs' = space <$> vs.
Proof. induction 1 as [| v v' vs vs' [_ H] _ IH]; [done |]. cbn. by rewrite H, IH. Qed.

(** The vectors when there is room. *)
Lemma setup_spec w b e cs os pre t post howmuch : buf_now w b e cs os -> target e cs pre t post -> 0 <= howmuch <= room (take NUM_READ_IOVEC (open t post)) ->
  exists a, cs = a ++ open t post /\ Forall node_ok (a ++ open t post) /\
    evbuffer_read_setup_vecs_ b howmuch NUM_READ_IOVEC true w = Ok (Some (vecs_list NUM_READ_IOVEC howmuch (open t post), slot_after a)).
Proof.
  intros (Hb & (Hf & _ & Hl & Hok & _) & Hh) (-> & Hp & _ & Hs) Hr. unfold evbuffer_read_setup_vecs_. rewrite (proj2 (Z.ltb_ge howmuch 0)) by lia.
  rewrite (buf_at_Ok _ _ _ Hb). cbn [mbind res_bind]. rewrite Hs. pose proof Hh as Hh'. rewrite <- app_assoc in Hh'.
  rewrite (get_slot_after w b e pre (t :: post) os Hb Hh' Hf Hl). cbn [mbind res_bind head_at app] in *. rewrite (chain_here w pre t _ Hh'). cbn [mbind res_bind].
  pose proof Hok as Hok'. apply Forall_app in Hok' as [_ Hok']. pose proof Hok' as Hokt. apply Forall_cons in Hokt as [Hokt Hokp]. pose proof (node_space t Hokt) as (-> & _).
  unfold open in *. destruct (space t =? 0).
  - exists (pre ++ [t]). rewrite slot_after_snoc, <- app_assoc. split; [done |]. split; [done |]. rewrite <- (slot_after_snoc pre t).
    assert (Hh2 : heap_of w ((pre ++ [t]) ++ post ++ os)) by by rewrite <- app_assoc.
    rewrite (get_slot_after w b e (pre ++ [t]) post os Hb Hh2) by by rewrite <- app_assoc. cbn [mbind res_bind].
    rewrite (vecs_from_spec howmuch _ post (pre ++ [t]) os) by (done || lia || by apply linked_suffix in Hl as [_ ?]). by rewrite Z.sub_0_r.
  - exists pre. split; [done |]. split; [done |]. rewrite (get_slot_after w b e pre (t :: post) os Hb Hh' Hf Hl). cbn [mbind res_bind].
    rewrite (vecs_from_spec howmuch _ (t :: post) pre os) by (done || lia || by apply linked_suffix in Hl). by rewrite Z.sub_0_r.
Qed.

Lemma read_size_range r n : 0 <= read_size r n <= EVBUFFER_MAX_READ /\ (0 < n -> 0 < read_size r n <= n).
Proof.
  unfold read_size, EVBUFFER_MAX_READ. destruct (Z.leb_spec r 0), (Z.gtb_spec r 4096); cbn [orb];
    match goal with |- context [(n <? 0) || (n >? ?m)] => destruct (Z.ltb_spec n 0), (Z.gtb_spec n m); cbn [orb]; lia end.
Qed.

Lemma total_kept e cs : buf_holds e cs -> total_len e = Z.of_nat (length (content cs)).
Proof. by intros (_ & _ & _ & _ & _ & ? & _). Qed.

(** The outcome of reading: what has come is behind the bytes there were and no longer to come, or nothing has changed. *)
Lemma read_data_spec w b e cs os fd howmuch : buf_now w b e cs os -> freeze_end e = false -> total_len e + EVBUFFER_MAX_READ < 2 ^ 63 ->
  exists r fd' w' e' cs' bs, read_data alloc b fd howmuch w = Ok (r, fd', w') /\ upd w w' b e' /\ buf_now w' b e' cs' os /\ kept e e' /\
    content cs' = content cs ++ bs /\ pending fd = bs ++ pending fd' /\ (0 < howmuch -> Z.of_nat (length bs) <= howmuch) /\ Z.of_nat (length bs) <= EVBUFFER_MAX_READ /\
    ((r = Z.of_nat (length bs) /\ (r = 0 -> 0 < howmuch -> pending fd = [])) \/
     (r = -1 /\ bs = [] /\ ((fd' = fd /\ oom) \/ exists n, readv n fd = (None, fd')))).
Proof.
  intros Hn Hfr Htot. pose proof Hn as (Hb & _). unfold read_data. rewrite (buf_at_Ok _ _ _ Hb). cbn [mbind res_bind]. rewrite Hfr.
  pose proof (read_size_range (fionread fd) howmuch) as [Hrs Hrs']. set (n := read_size _ _) in *. unfold EVBUFFER_MAX_READ in *.
  destruct (expand_fast_spec alloc w b e cs os n Hn) as (ok & w1 & e1 & cs1 & -> & U1 & Hn1 & K1 & Hc1 & Ht1 & _ & _ & H); [lia |]. cbn [mbind res_bind].
  destruct H as [(-> & pre & t & post & Htg & Hr) | (-> & Ho)]; cbn [negb].
  2:{ exists (-1), fd, w1, e1, cs1, []. rewrite app_nil_r. do 4 (split; [done |]). split; [done |]. split; [done |]. split; [cbn; lia |]. split; [cbn; lia |]. right. split; [done |]. split; [done |]. by left. }
  destruct (setup_spec w1 b e1 cs1 os pre t post n Hn1 Htg) as (a & Ecs & Hok & ->); [lia |]. cbn [mbind res_bind of_option].
  pose proof Hok as Hok'. apply Forall_app in Hok' as [Hoka Hokv]. rewrite vecs_total by (done || lia).
  destruct (readv n fd) as [[[| x bs] |] fd'] eqn:Er.
  - destruct (readv_some n fd [] fd' ltac:(lia) Er) as [_ Hp]. exists 0, fd', w1, e1, cs1, []. rewrite app_nil_r. do 5 (split; [done |]). split; [done |]. split; [cbn; lia |]. split; [cbn; lia |].
    left. split; [done |]. intros _ H0. apply (readv_end n fd fd'); [lia | done].
  - destruct (readv_some n fd (x :: bs) fd' ltac:(lia) Er) as [Hlen Hp]. set (bytes := x :: bs) in *. pose proof Hn1 as (Hb1 & (Hf1 & Hl1 & Hli1 & _ & _ & Htot1 & _) & Hh1). rewrite Ecs, <- app_assoc in Hh1.
    destruct (scatter_spec NUM_READ_IOVEC (open t post) n bytes a os w1 Hh1 Hokv) as (vs' & w2 & -> & Hh2 & Hm & Hrd & B2 & C2 & F2); [lia |]. cbn [mbind res_bind].
    pose proof (vecs_reach NUM_READ_IOVEC (open t post) n Hokv ltac:(lia)) as Hreach. set (k := length (vecs_list _ _ _)) in *.
    pose proof (refilled_moved _ _ Hm) as Hmv. assert (Hma : Forall2 moved (a ++ open t post) (a ++ vs')) by (apply Forall2_app; [by apply moved_refl | done]).
    destruct (moved_parts _ _ Hma) as (_ & Q2 & Q3 & Q4 & Q5 & Q6).
    rewrite <- (room_spaces k _ _ (refilled_room _ _ Hm)) in Hreach.
    destruct vs' as [| v rest]; [destruct k; unfold room in Hreach; cbn in Hreach; cbn in Hlen; lia |].
    assert (Her : Forall empty rest).
    { destruct Htg as (_ & Hpe & _). destruct (open t post) as [| v0 r0] eqn:Eo; [inversion Hmv |]. apply Forall2_cons in Hmv as [_ Hmv]. apply (moved_empty _ _ Hmv).
      unfold open in Eo. destruct (space t =? 0); [subst post; by apply Forall_cons in Hpe as [_ ?] | by injection Eo as _ <-]. }
    destruct (commit_spec b k v rest a os w2 e1 bytes) as (mid & t2 & post2 & w3 & -> & Hh3 & B3 & C3 & F3 & R1 & R2 & R3 & R4 & R5 & R6 & R7).
    { by rewrite B2. } { by rewrite <- app_assoc. } { by rewrite Q3, <- Ecs. } { apply Q5. by rewrite <- Ecs. } { done. } { done. } { exact Hrd. } { done. } { lia. }
    cbn [mbind res_bind]. assert (Hb3 : buffers w3 !! b = Some (set_datap e1 (slot_after (a ++ mid)))) by (rewrite B3; apply lookup_insert_eq). rewrite (buf_at_Ok _ _ _ Hb3). cbn [mbind res_bind].
    assert (Hc : content (a ++ mid ++ t2 :: post2) = content cs ++ bytes).
    { change (t2 :: post2) with ([t2] ++ post2). rewrite (app_assoc mid), (content_app a), (content_app (mid ++ [t2])), R7, (content_empty post2 R5), app_nil_r. rewrite <- Hc1, Ecs.
      unfold content at 2. rewrite <- Q2. fold (content (a ++ v :: rest)). rewrite content_app, content_cons, (content_empty rest Her), app_nil_r. by rewrite app_assoc. }
    cbn [set_datap total_len n_add_for_cb n_del_for_cb]. rewrite (wrap_small 64 (total_len e1 + _)) by (pose proof (total_kept _ _ (proj1 (proj2 Hn1))); lia).
    eexists (Z.of_nat (length bytes)), fd', _, _, (a ++ mid ++ t2 :: post2), bytes. split; [done |].
    split; [destruct U1 as (V1 & V2 & V3); split_and!; [cbn; by rewrite B3, B2, V1, !insert_insert_eq | cbn; congruence | cbn; lia] |].
    split; [| split; [exact K1 |]; split; [exact Hc |]; split; [exact Hp |]; split; [lia |]; split; [lia |]; left; split; [done |]; cbn; lia].
    split; [cbn; apply lookup_insert_eq |]. split; [| exact Hh3]. unfold buf_holds. cbn [first last last_with_datap total_len set_datap set_total set_counts].
    split; [by rewrite Hf1, R1, Q3, <- Ecs |]. split; [by rewrite Hl1, R2, Q4, <- Ecs |]. split; [done |]. split; [done |].
    split; [right; exists (a ++ mid), t2, post2; rewrite <- app_assoc; split_and!; [done | done | by left | done] |].
    assert (El : length bytes = Datatypes.S (length bs)) by done. rewrite Hc, length_app, El, Htot1, Hc1. rewrite Htot1, Hc1 in Ht1. rewrite El in Hlen. split; lia.
  - exists (-1), fd', w1, e1, cs1, []. rewrite app_nil_r. do 5 (split; [done |]). split; [by rewrite (readv_none n fd fd' Er) |]. split; [cbn; lia |]. split; [cbn; lia |]. right. split; [done |]. split; [done |]. right. by exists n.
Qed.
(** *** The bytes *)

(** [evbuffer_read] of a buffer whose callbacks leave the buffers alone. *)
Lemma read_holds run_cb I w B b e ys fd howmuch : holds w B -> buffers w !! b = Some e -> B !! b = Some ys -> freeze_end e = false ->
  Forall (leaves_alone run_cb I b) (callbacks e) -> steady I -> I w -> Z.of_nat (length ys) + EVBUFFER_MAX_READ < 2 ^ 63 ->
  exists r fd' w' e' bs, evbuffer_read alloc run_cb b fd howmuch w = Ok (r, fd', w') /\ upd_called e w w' b e' /\ kept e e' /\ holds w' (<[b := ys ++ bs]> B) /\ I w' /\
    pending fd = bs ++ pending fd' /\ (0 < howmuch -> Z.of_nat (length bs) <= howmuch) /\ Z.of_nat (length bs) <= EVBUFFER_MAX_READ /\
    ((r = Z.of_nat (length bs) /\ (r = 0 -> 0 < howmuch -> pending fd = [])) \/
     (r = -1 /\ bs = [] /\ ((fd' = fd /\ oom) \/ exists n, readv n fd = (None, fd')))).
Proof.
  intros Hh He Hb Hf Hal HS HI Hl. destruct (holds_one w B b ys Hh Hb) as (e' & cs & os & Hn & <- & _ & Hone & _). pose proof Hn as (He' & Hbh & _). rewrite He in He'. injection He' as <-.
  destruct (read_data_spec w b e cs os fd howmuch Hn Hf) as (r & fd' & w1 & e1 & cs1 & bs & E & U & Hn1 & K & Hc & H1 & H2 & H3 & H); [by rewrite (total_kept _ _ Hbh) |].
  unfold evbuffer_read. rewrite E. cbn [mbind res_bind]. pose proof (Hone w1 e1 cs1 U Hn1) as Hh1. rewrite Hc in Hh1. assert (HI1 : I w1) by by eapply HS.
  assert (Hq : upd_called e w w1 b e1) by (destruct U as (V1 & V2 & V3); by split_and!). destruct (r >? 0) eqn:Er; [| exists r, fd', w1, e1, bs; by split_and!].
  pose proof K as (_ & _ & _ & Kc). destruct (alone_callbacks run_cb I w1 _ b e1 Hh1) as (w2 & e2 & -> & (V1 & V2 & V3) & K2 & Hh2 & HI2); [by apply Hn1 | by rewrite Kc | done | done |]. cbn [mbind res_bind].
  destruct U as (W1 & W2 & W3). exists r, fd', w2, e2, bs. split; [done |].
  split; [split_and!; [by rewrite V1, W1, insert_insert_eq | intros Hx; rewrite V2 by congruence; done | lia] |]. split; [by eapply kept_trans |]. by split_and!.
Qed.
End reading.
