(* ===== verification/Bufferevent.v ===== *)
(** * Pairs of buffered connections

    [common/libevent/bufferevent.c] and [bufferevent_pair.c]: two bufferevents of which each gets into its input what is
    written to the output of the other.  The program sends accepted connections from the listener's thread to a server's
    thread through such a pair.  The bufferevents and the queues of their event base are the client state of the heap of
    [Evbuffer]; the functions of the users that are called back are a parameter.  Both ends of a pair share one lock, which
    is held around each function, so each is one step; locks are not modelled otherwise, nor timeouts, which the program
    sets for no pair.  The other kinds of bufferevents have other operations: here they are those of pairs. *)

From S2P Require Import Prelude Evbuffer.

Definition EV_READ : Z := 0x02.
Definition EV_WRITE : Z := 0x04.
Definition BEV_EVENT_READING : Z := 0x01.
Definition BEV_EVENT_WRITING : Z := 0x02.
Definition BEV_EVENT_EOF : Z := 0x10.
Definition BEV_EVENT_CONNECTED : Z := 0x80.
Definition BEV_OPT_THREADSAFE : Z := 0x02.
Definition BEV_OPT_DEFER_CALLBACKS : Z := 0x04.
Definition BEV_OPT_UNLOCK_CALLBACKS : Z := 0x08.
Definition BEV_TRIG_IGNORE_WATERMARKS : Z := 0x10000.
Definition BEV_SUSPEND_WM : Z := 0x01.
Definition EVLIST_ACTIVE : Z := 0x08.
Definition EVLIST_ACTIVE_LATER : Z := 0x20.
Definition MAX_DEFERREDS_QUEUED : Z := 32.

Inductive bufferevent_flush_mode := BEV_NORMAL | BEV_FLUSH | BEV_FINISHED.

(** The functions called back by buffers. *)
Definition BE_PAIR_OUTBUF_CB : Z := 1.
Definition BUFFEREVENT_INBUF_WM_CB : Z := 2.

(** A bufferevent of a pair; [deferred_flags] are the flags of its deferred callback, [partner] is the other end. *)
Record bufferevent := MkBev {
  input : Z;
  output : Z;
  wm_read_low : Z;
  wm_read_high : Z;
  wm_write_low : Z;
  wm_write_high : Z;
  enabled : Z;
  readcb : Z;
  writecb : Z;
  errorcb : Z;
  bev_arg : Z;
  read_watermarks_cb : bool;
  readcb_pending : bool;
  writecb_pending : bool;
  eventcb_pending : Z;
  read_suspended : Z;
  write_suspended : Z;
  deferred_flags : Z;
  options : Z;
  bev_refcnt : Z;
  partner : Z
}.

Definition set_marks (v : bufferevent) rl rh wl wh :=
  MkBev (input v) (output v) rl rh wl wh (enabled v) (readcb v) (writecb v) (errorcb v) (bev_arg v) (read_watermarks_cb v)
    (readcb_pending v) (writecb_pending v) (eventcb_pending v) (read_suspended v) (write_suspended v) (deferred_flags v) (options v) (bev_refcnt v) (partner v).
Definition set_enabled (v : bufferevent) f :=
  MkBev (input v) (output v) (wm_read_low v) (wm_read_high v) (wm_write_low v) (wm_write_high v) f (readcb v) (writecb v) (errorcb v) (bev_arg v) (read_watermarks_cb v)
    (readcb_pending v) (writecb_pending v) (eventcb_pending v) (read_suspended v) (write_suspended v) (deferred_flags v) (options v) (bev_refcnt v) (partner v).
Definition set_user (v : bufferevent) r w e a :=
  MkBev (input v) (output v) (wm_read_low v) (wm_read_high v) (wm_write_low v) (wm_write_high v) (enabled v) r w e a (read_watermarks_cb v)
    (readcb_pending v) (writecb_pending v) (eventcb_pending v) (read_suspended v) (write_suspended v) (deferred_flags v) (options v) (bev_refcnt v) (partner v).
Definition set_wm_cb (v : bufferevent) :=
  MkBev (input v) (output v) (wm_read_low v) (wm_read_high v) (wm_write_low v) (wm_write_high v) (enabled v) (readcb v) (writecb v) (errorcb v) (bev_arg v) true
    (readcb_pending v) (writecb_pending v) (eventcb_pending v) (read_suspended v) (write_suspended v) (deferred_flags v) (options v) (bev_refcnt v) (partner v).
Definition set_pending (v : bufferevent) r w e :=
  MkBev (input v) (output v) (wm_read_low v) (wm_read_high v) (wm_write_low v) (wm_write_high v) (enabled v) (readcb v) (writecb v) (errorcb v) (bev_arg v) (read_watermarks_cb v)
    r w e (read_suspended v) (write_suspended v) (deferred_flags v) (options v) (bev_refcnt v) (partner v).
Definition set_suspended (v : bufferevent) r w :=
  MkBev (input v) (output v) (wm_read_low v) (wm_read_high v) (wm_write_low v) (wm_write_high v) (enabled v) (readcb v) (writecb v) (errorcb v) (bev_arg v) (read_watermarks_cb v)
    (readcb_pending v) (writecb_pending v) (eventcb_pending v) r w (deferred_flags v) (options v) (bev_refcnt v) (partner v).
Definition set_evcb_flags (v : bufferevent) f :=
  MkBev (input v) (output v) (wm_read_low v) (wm_read_high v) (wm_write_low v) (wm_write_high v) (enabled v) (readcb v) (writecb v) (errorcb v) (bev_arg v) (read_watermarks_cb v)
    (readcb_pending v) (writecb_pending v) (eventcb_pending v) (read_suspended v) (write_suspended v) f (options v) (bev_refcnt v) (partner v).
Definition set_bev_refcnt (v : bufferevent) n :=
  MkBev (input v) (output v) (wm_read_low v) (wm_read_high v) (wm_write_low v) (wm_write_high v) (enabled v) (readcb v) (writecb v) (errorcb v) (bev_arg v) (read_watermarks_cb v)
    (readcb_pending v) (writecb_pending v) (eventcb_pending v) (read_suspended v) (write_suspended v) (deferred_flags v) (options v) n (partner v).
Definition set_partner (v : bufferevent) p :=
  MkBev (input v) (output v) (wm_read_low v) (wm_read_high v) (wm_write_low v) (wm_write_high v) (enabled v) (readcb v) (writecb v) (errorcb v) (bev_arg v) (read_watermarks_cb v)
    (readcb_pending v) (writecb_pending v) (eventcb_pending v) (read_suspended v) (write_suspended v) (deferred_flags v) (options v) (bev_refcnt v) p.

(** What is active: a deferred callback, or the end of a bufferevent. *)
Inductive event_callback := Deferred (b : Z) | Finalize (b : Z).

#[export] Instance event_callback_eq_dec : EqDecision event_callback.
Proof. solve_decision. Defined.

(** An event base, of one priority, and the state [user] of those who are called back. *)
Record event_base (U : Type) := MkBase {
  bevs : gmap Z bufferevent;
  activequeue : list event_callback;
  active_later_queue : list event_callback;
  n_deferreds_queued : Z;
  user : U
}.
Arguments MkBase {U} _ _ _ _ _.
Arguments bevs {U} _.
Arguments activequeue {U} _.
Arguments active_later_queue {U} _.
Arguments n_deferreds_queued {U} _.
Arguments user {U} _.

(** Why a user's function is called. *)
Inductive called_for := ForRead | ForWrite | ForEvent (what : Z).

Definition has (x f : Z) : bool := negb (Z.land x f =? 0).

Section code.
Context {U : Type} (alloc : Z -> Z -> bool) (run_cb : evbuffer_cb_entry -> Z -> evbuffer_cb_info -> heap (event_base U) -> res (heap (event_base U))).
Context (user_cb : Z -> called_for -> Z -> Z -> heap (event_base U) -> res (heap (event_base U))).
Context (sizeof_bufferevent_pair : Z).
Implicit Types (w : heap (event_base U)).

Definition set_base (e : event_base U) w : heap (event_base U) := MkHeap (chains w) (buffers w) (fresh w) e.
Definition bev_at (b : Z) w : res bufferevent := of_option (bevs (client w) !! b).
Definition put_bev (b : Z) (v : bufferevent) w : heap (event_base U) :=
  let e := client w in set_base (MkBase (<[b := v]> (bevs e)) (activequeue e) (active_later_queue e) (n_deferreds_queued e) (user e)) w.
Definition set_queues (a l : list event_callback) (n : Z) w : heap (event_base U) := let e := client w in set_base (MkBase (bevs e) a l n (user e)) w.

(** ** The event base *)

Definition event_queue_insert_active (b : Z) w : res (heap (event_base U)) :=
  v ← bev_at b w;
  if has (deferred_flags v) EVLIST_ACTIVE then Ok w else
  let e := client w in
  Ok (put_bev b (set_evcb_flags v (Z.lor (deferred_flags v) EVLIST_ACTIVE)) (set_queues (activequeue e ++ [Deferred b]) (active_later_queue e) (n_deferreds_queued e) w)).

Definition event_queue_insert_active_later (b : Z) w : res (heap (event_base U)) :=
  v ← bev_at b w;
  if has (deferred_flags v) (Z.lor EVLIST_ACTIVE_LATER EVLIST_ACTIVE) then Ok w else
  let e := client w in
  Ok (put_bev b (set_evcb_flags v (Z.lor (deferred_flags v) EVLIST_ACTIVE_LATER)) (set_queues (activequeue e) (active_later_queue e ++ [Deferred b]) (n_deferreds_queued e) w)).

Definition without (x : event_callback) (l : list event_callback) : list event_callback := filter (fun y => y <> x) l.

Definition event_queue_remove_active (b : Z) w : res (heap (event_base U)) :=
  v ← bev_at b w;
  let e := client w in
  Ok (put_bev b (set_evcb_flags v (Z.land (deferred_flags v) (Z.lnot EVLIST_ACTIVE)))
        (set_queues (without (Deferred b) (activequeue e)) (active_later_queue e) (n_deferreds_queued e) w)).

Definition event_queue_remove_active_later (b : Z) w : res (heap (event_base U)) :=
  v ← bev_at b w;
  let e := client w in
  Ok (put_bev b (set_evcb_flags v (Z.land (deferred_flags v) (Z.lnot EVLIST_ACTIVE_LATER)))
        (set_queues (activequeue e) (without (Deferred b) (active_later_queue e)) (n_deferreds_queued e) w)).

Definition event_callback_activate_nolock_ (b : Z) w : res (bool * heap (event_base U)) :=
  v ← bev_at b w;
  let f := Z.land (deferred_flags v) (Z.lor EVLIST_ACTIVE EVLIST_ACTIVE_LATER) in
  if f =? EVLIST_ACTIVE_LATER then w ← event_queue_remove_active_later b w; w ← event_queue_insert_active b w; Ok (false, w)
  else if f =? EVLIST_ACTIVE then Ok (false, w)
  else _ ← assert_ok (f =? 0); w ← event_queue_insert_active b w; Ok (true, w).

Definition event_callback_activate_later_nolock_ (b : Z) w : res (bool * heap (event_base U)) :=
  v ← bev_at b w;
  if has (deferred_flags v) (Z.lor EVLIST_ACTIVE EVLIST_ACTIVE_LATER) then Ok (false, w)
  else w ← event_queue_insert_active_later b w; Ok (true, w).

Definition event_callback_cancel_nolock_ (b : Z) w : res (heap (event_base U)) :=
  v ← bev_at b w;
  let f := Z.land (deferred_flags v) (Z.lor EVLIST_ACTIVE EVLIST_ACTIVE_LATER) in
  if f =? EVLIST_ACTIVE then event_queue_remove_active b w
  else if f =? EVLIST_ACTIVE_LATER then event_queue_remove_active_later b w
  else _ ← assert_ok (f =? 0); Ok w.

Definition event_deferred_cb_schedule_ (b : Z) w : res (bool * heap (event_base U)) :=
  if n_deferreds_queued (client w) >? MAX_DEFERREDS_QUEUED then event_callback_activate_later_nolock_ b w
  else
    '(r, w) ← event_callback_activate_nolock_ b w;
    let e := client w in
    Ok (r, if (r : bool) then set_queues (activequeue e) (active_later_queue e) (n_deferreds_queued e + 1) w else w).

(** ** Calling back *)

Definition incref (b : Z) w : res (heap (event_base U)) := v ← bev_at b w; Ok (put_bev b (set_bev_refcnt v (bev_refcnt v + 1)) w).

Definition SCHEDULE_DEFERRED (b : Z) w : res (heap (event_base U)) :=
  '(r, w) ← event_deferred_cb_schedule_ b w; if (r : bool) then incref b w else Ok w.

Definition bufferevent_run_readcb_ (b : Z) (opts : Z) w : res (heap (event_base U)) :=
  v ← bev_at b w;
  if readcb v =? NULL then Ok w else
  if has (Z.lor (options v) opts) BEV_OPT_DEFER_CALLBACKS then
    SCHEDULE_DEFERRED b (put_bev b (set_pending v true (writecb_pending v) (eventcb_pending v)) w)
  else user_cb (readcb v) ForRead b (bev_arg v) w.

Definition bufferevent_run_writecb_ (b : Z) (opts : Z) w : res (heap (event_base U)) :=
  v ← bev_at b w;
  if writecb v =? NULL then Ok w else
  if has (Z.lor (options v) opts) BEV_OPT_DEFER_CALLBACKS then
    SCHEDULE_DEFERRED b (put_bev b (set_pending v (readcb_pending v) true (eventcb_pending v)) w)
  else user_cb (writecb v) ForWrite b (bev_arg v) w.

Definition bufferevent_run_eventcb_ (b : Z) (what opts : Z) w : res (heap (event_base U)) :=
  v ← bev_at b w;
  if errorcb v =? NULL then Ok w else
  if has (Z.lor (options v) opts) BEV_OPT_DEFER_CALLBACKS then
    SCHEDULE_DEFERRED b (put_bev b (set_pending v (readcb_pending v) (writecb_pending v) (Z.lor (eventcb_pending v) what)) w)
  else user_cb (errorcb v) (ForEvent what) b (bev_arg v) w.

Definition bufferevent_trigger_nolock_ (b : Z) (iotype opts : Z) w : res (heap (event_base U)) :=
  v ← bev_at b w;
  n ← evbuffer_get_length (input v) w;
  w ← (if has iotype EV_READ && (has opts BEV_TRIG_IGNORE_WATERMARKS || (n >=? wm_read_low v)) then bufferevent_run_readcb_ b opts w else Ok w);
  v ← bev_at b w;
  n ← evbuffer_get_length (output v) w;
  if has iotype EV_WRITE && (has opts BEV_TRIG_IGNORE_WATERMARKS || (n <=? wm_write_low v)) then bufferevent_run_writecb_ b opts w else Ok w.

(** ** References *)

Definition be_pair_unlink (b : Z) w : res (heap (event_base U)) :=
  v ← bev_at b w;
  if partner v =? NULL then Ok w else
  p ← bev_at (partner v) w;
  let w := put_bev (partner v) (set_partner p NULL) w in
  v ← bev_at b w; Ok (put_bev b (set_partner v NULL) w).

(** Without references: the deferred callback is cancelled, and the end of the bufferevent becomes active. *)
Definition bufferevent_decref_and_unlock_ (b : Z) w : res (heap (event_base U)) :=
  v ← bev_at b w;
  _ ← assert_ok (bev_refcnt v >? 0);
  let n := bev_refcnt v - 1 in
  let w := put_bev b (set_bev_refcnt v n) w in
  if negb (n =? 0) then Ok w else
  w ← be_pair_unlink b w;
  w ← event_callback_cancel_nolock_ b w;
  let e := client w in Ok (set_queues (activequeue e ++ [Finalize b]) (active_later_queue e) (n_deferreds_queued e) w).

Definition incref_and_lock (b : Z) w : res (heap (event_base U)) :=
  w ← incref b w; v ← bev_at b w; if partner v =? NULL then Ok w else incref (partner v) w.

Definition decref_and_unlock (b : Z) w : res (heap (event_base U)) :=
  v ← bev_at b w;
  w ← (if partner v =? NULL then Ok w else bufferevent_decref_and_unlock_ (partner v) w);
  bufferevent_decref_and_unlock_ b w.

Definition bufferevent_finalize_cb_ (b : Z) w : res (heap (event_base U)) :=
  v ← bev_at b w;
  w ← evbuffer_free (input v) w; w ← evbuffer_free (output v) w;
  let e := client w in
  Ok (set_base (MkBase (delete b (bevs e)) (activequeue e) (active_later_queue e) (n_deferreds_queued e) (user e)) w).

Definition bufferevent_setcb (b : Z) (r wr e arg : Z) w : res (heap (event_base U)) := v ← bev_at b w; Ok (put_bev b (set_user v r wr e arg) w).

Definition bufferevent_free (b : Z) w : res (heap (event_base U)) :=
  w ← bufferevent_setcb b NULL NULL NULL NULL w; bufferevent_decref_and_unlock_ b w.

(** The callbacks that are pending run, each after its mark is cleared. *)
Definition bufferevent_run_deferred_callbacks_unlocked (b : Z) w : res (heap (event_base U)) :=
  v ← bev_at b w;
  w ← (if has (eventcb_pending v) BEV_EVENT_CONNECTED && negb (errorcb v =? NULL) then
         user_cb (errorcb v) (ForEvent BEV_EVENT_CONNECTED) b (bev_arg v)
           (put_bev b (set_pending v (readcb_pending v) (writecb_pending v) (Z.land (eventcb_pending v) (Z.lnot BEV_EVENT_CONNECTED))) w)
       else Ok w);
  v ← bev_at b w;
  w ← (if readcb_pending v && negb (readcb v =? NULL) then
         user_cb (readcb v) ForRead b (bev_arg v) (put_bev b (set_pending v false (writecb_pending v) (eventcb_pending v)) w)
       else Ok w);
  v ← bev_at b w;
  w ← (if writecb_pending v && negb (writecb v =? NULL) then
         user_cb (writecb v) ForWrite b (bev_arg v) (put_bev b (set_pending v (readcb_pending v) false (eventcb_pending v)) w)
       else Ok w);
  v ← bev_at b w;
  w ← (if negb (eventcb_pending v =? 0) && negb (errorcb v =? NULL) then
         user_cb (errorcb v) (ForEvent (eventcb_pending v)) b (bev_arg v) (put_bev b (set_pending v (readcb_pending v) (writecb_pending v) 0) w)
       else Ok w);
  bufferevent_decref_and_unlock_ b w.

(** The active callbacks run until none is left. *)
Fixpoint event_process_active_single_queue (fuel : nat) w : res (heap (event_base U)) :=
  match fuel with
  | O => NoFuel
  | S fuel =>
      let e := client w in
      match activequeue e with
      | [] => Ok w
      | Deferred b :: _ => w ← event_queue_remove_active b w; w ← bufferevent_run_deferred_callbacks_unlocked b w; event_process_active_single_queue fuel w
      | Finalize b :: q =>
          w ← bufferevent_finalize_cb_ b (set_queues q (active_later_queue e) (n_deferreds_queued e) w); event_process_active_single_queue fuel w
      end
  end.

(** The callbacks that are to be active later are so now. *)
Fixpoint make_active (l : list event_callback) w : res (heap (event_base U)) :=
  match l with
  | [] => Ok w
  | x :: l =>
      w ← (match x with
           | Deferred b =>
               v ← bev_at b w;
               Ok (put_bev b (set_evcb_flags v (Z.lor (Z.land (deferred_flags v) (Z.lnot EVLIST_ACTIVE_LATER)) EVLIST_ACTIVE)) w)
           | Finalize _ => Ok w
           end);
      let e := client w in
      make_active l (set_queues (activequeue e ++ [x]) l (n_deferreds_queued e + (match x with Deferred _ => 1 | Finalize _ => 0 end)) w)
  end.

Definition event_queue_make_later_events_active w : res (heap (event_base U)) := make_active (active_later_queue (client w)) w.

(** One round of the loop of the base, without the events of descriptors, signals and timers. *)
Definition loop_round (fuel : nat) w : res (heap (event_base U)) :=
  let e := client w in
  w ← event_queue_make_later_events_active (set_queues (activequeue e) (active_later_queue e) 0 w);
  event_process_active_single_queue fuel w.

(** ** Pairs *)

(** [ignore_wm]: the high mark of the reader holds nothing back. *)
Definition be_pair_transfer (src dst : Z) (ignore_wm : bool) w : res (heap (event_base U)) :=
  s ← bev_at src w; d ← bev_at dst w;
  w ← evbuffer_unfreeze (output s) true w;
  w ← evbuffer_unfreeze (input d) false w;
  '(handed, w) ←
    (if negb (wm_read_high d =? 0) then
       dst_size ← evbuffer_get_length (input d) w;
       if dst_size <? wm_read_high d then
         '(_, w) ← evbuffer_remove_buffer alloc run_cb (output s) (input d) (u64 (wm_read_high d - dst_size)) w; Ok (true, w)
       else if negb ignore_wm then Ok (false, w)
       else '(_, w) ← evbuffer_add_buffer alloc run_cb (input d) (output s) w; Ok (true, w)
     else '(_, w) ← evbuffer_add_buffer alloc run_cb (input d) (output s) w; Ok (true, w));
  w ← (if handed : bool then w ← bufferevent_trigger_nolock_ dst EV_READ 0 w; bufferevent_trigger_nolock_ src EV_WRITE 0 w else Ok w);
  w ← evbuffer_freeze (output s) true w;
  evbuffer_freeze (input d) false w.

Definition be_pair_wants_to_talk (src dst : Z) w : res bool :=
  s ← bev_at src w; d ← bev_at dst w;
  n ← evbuffer_get_length (output s) w;
  Ok (has (enabled s) EV_WRITE && has (enabled d) EV_READ && (read_suspended d =? 0) && negb (n =? 0)).

Definition be_pair_outbuf_cb (info : evbuffer_cb_info) (b : Z) w : res (heap (event_base U)) :=
  v ← bev_at b w;
  let p := partner v in
  w ← incref_and_lock b w;
  w ← (if (n_added info >? n_deleted info) && negb (p =? NULL) then
         talk ← be_pair_wants_to_talk b p w; if talk : bool then be_pair_transfer b p false w else Ok w
       else Ok w);
  decref_and_unlock b w.

Definition be_pair_enable (b : Z) (events : Z) w : res (heap (event_base U)) :=
  v ← bev_at b w;
  let p := partner v in
  w ← incref_and_lock b w;
  w ← (if has events EV_READ && negb (p =? NULL) then
         talk ← be_pair_wants_to_talk p b w; if talk : bool then be_pair_transfer p b false w else Ok w
       else Ok w);
  w ← (if has events EV_WRITE && negb (p =? NULL) then
         talk ← be_pair_wants_to_talk b p w; if talk : bool then be_pair_transfer b p false w else Ok w
       else Ok w);
  decref_and_unlock b w.

Definition be_pair_flush (b : Z) (iotype : Z) (mode : bufferevent_flush_mode) w : res (Z * heap (event_base U)) :=
  v ← bev_at b w;
  if partner v =? NULL then Ok (-1, w) else
  match mode with
  | BEV_NORMAL => Ok (0, w)
  | _ =>
      w ← incref_and_lock b w;
      v ← bev_at b w;
      let p := partner v in
      w ← (if has iotype EV_READ then be_pair_transfer p b true w else Ok w);
      w ← (if has iotype EV_WRITE then be_pair_transfer b p true w else Ok w);
      w ← (match mode with
           | BEV_FINISHED =>
               let what := BEV_EVENT_EOF in
               let what := if has iotype EV_READ then Z.lor what BEV_EVENT_WRITING else what in
               let what := if has iotype EV_WRITE then Z.lor what BEV_EVENT_READING else what in
               bufferevent_run_eventcb_ p what 0 w
           | _ => Ok w
           end);
      w ← decref_and_unlock b w; Ok (0, w)
  end.

Definition bufferevent_pair_get_partner (b : Z) w : res (Z * heap (event_base U)) :=
  w ← incref_and_lock b w; v ← bev_at b w; w ← decref_and_unlock b w; Ok (partner v, w).

(** ** What the users of bufferevents call *)

Definition bufferevent_suspend_read_ (b : Z) (what : Z) w : res (heap (event_base U)) :=
  v ← bev_at b w; Ok (put_bev b (set_suspended v (Z.lor (read_suspended v) what) (write_suspended v)) w).

Definition bufferevent_unsuspend_read_ (b : Z) (what : Z) w : res (heap (event_base U)) :=
  v ← bev_at b w;
  let s := Z.land (read_suspended v) (Z.lnot what) in
  let w := put_bev b (set_suspended v s (write_suspended v)) w in
  if (s =? 0) && has (enabled v) EV_READ then be_pair_enable b EV_READ w else Ok w.

Definition bufferevent_inbuf_wm_cb (buf b : Z) w : res (heap (event_base U)) :=
  size ← evbuffer_get_length buf w;
  v ← bev_at b w;
  if size >=? wm_read_high v then bufferevent_suspend_read_ b BEV_SUSPEND_WM w else bufferevent_unsuspend_read_ b BEV_SUSPEND_WM w.

Definition bufferevent_enable (b : Z) (event : Z) w : res (heap (event_base U)) :=
  w ← incref b w;
  v ← bev_at b w;
  let impl_events := if read_suspended v =? 0 then event else Z.land event (Z.lnot EV_READ) in
  let impl_events := if write_suspended v =? 0 then impl_events else Z.land impl_events (Z.lnot EV_WRITE) in
  let w := put_bev b (set_enabled v (Z.lor (enabled v) event)) w in
  w ← (if impl_events =? 0 then Ok w else be_pair_enable b impl_events w);
  bufferevent_decref_and_unlock_ b w.

(** The pair's own [disable] only deletes timeouts. *)
Definition bufferevent_disable (b : Z) (event : Z) w : res (heap (event_base U)) :=
  v ← bev_at b w; Ok (put_bev b (set_enabled v (Z.land (enabled v) (Z.lnot event))) w).

Definition bufferevent_write (b : Z) (data : block Z) w : res (Z * heap (event_base U)) :=
  v ← bev_at b w; '(r, w) ← evbuffer_add alloc run_cb (output v) data w; Ok (if r =? -1 then -1 else 0, w).

Definition bufferevent_read (b : Z) (size : Z) w : res (Z * block Z * heap (event_base U)) :=
  v ← bev_at b w; '(r, out, w) ← evbuffer_remove run_cb (input v) size w; Ok (u64 r, out, w).

Definition bufferevent_write_buffer (b buf : Z) w : res (Z * heap (event_base U)) :=
  v ← bev_at b w; '(r, w) ← evbuffer_add_buffer alloc run_cb (output v) buf w; Ok (if r =? -1 then -1 else 0, w).

Definition bufferevent_read_buffer (b buf : Z) w : res (Z * heap (event_base U)) :=
  v ← bev_at b w; evbuffer_add_buffer alloc run_cb buf (input v) w.

(** The flags of the callback for the high mark. *)
Definition mark_flags (f : Z -> Z) (buf : Z) w : res (heap (event_base U)) :=
  e ← buf_at buf w;
  Ok (put_buf buf (set_callbacks e ((fun c => if cb_func c =? BUFFEREVENT_INBUF_WM_CB then MkCb (cb_func c) (cbarg c) (f (cb_flags c)) else c) <$> callbacks e)) w).

(** Without memory the callback is NULL, and setting its flags goes wrong. *)
Definition bufferevent_setwatermark (b : Z) (events lowmark highmark : Z) w : res (heap (event_base U)) :=
  v ← bev_at b w;
  let v := if has events EV_WRITE then set_marks v (wm_read_low v) (wm_read_high v) lowmark highmark else v in
  let w := put_bev b v w in
  if negb (has events EV_READ) then Ok w else
  let v := set_marks v lowmark highmark (wm_write_low v) (wm_write_high v) in
  let w := put_bev b v w in
  if negb (highmark =? 0) then
    w ← (if read_watermarks_cb v then Ok w else
           '(ok, w) ← evbuffer_add_cb alloc (input v) BUFFEREVENT_INBUF_WM_CB b w;
           _ ← assert_ok (ok : bool); Ok (put_bev b (set_wm_cb v) w));
    w ← mark_flags (fun f => Z.lor f EVBUFFER_CB_ENABLED) (input v) w;
    n ← evbuffer_get_length (input v) w;
    if n >=? highmark then bufferevent_suspend_read_ b BEV_SUSPEND_WM w else bufferevent_unsuspend_read_ b BEV_SUSPEND_WM w
  else
    w ← (if read_watermarks_cb v then mark_flags (fun f => Z.land f (Z.lnot EVBUFFER_CB_ENABLED)) (input v) w else Ok w);
    bufferevent_unsuspend_read_ b BEV_SUSPEND_WM w.

(** ** New pairs *)

(** The bufferevent at [b], cleared before; [false] for -1. *)
Definition bufferevent_init_common_ (b : Z) (opts : Z) w : res (bool * heap (event_base U)) :=
  let '(inb, w) := evbuffer_new alloc w in
  if inb =? NULL then Ok (false, w) else
  let '(outb, w) := evbuffer_new alloc w in
  if outb =? NULL then w ← evbuffer_free inb w; Ok (false, w) else
  if Z.land opts (Z.lor BEV_OPT_DEFER_CALLBACKS BEV_OPT_UNLOCK_CALLBACKS) =? BEV_OPT_UNLOCK_CALLBACKS then Ok (false, w) else
  Ok (true, put_bev b (MkBev inb outb 0 0 0 0 EV_WRITE NULL NULL NULL NULL false false false 0 0 0 0 opts 1 NULL) w).

Definition bufferevent_pair_elt_new (opts : Z) w : res (Z * heap (event_base U)) :=
  if negb (alloc (fresh w) sizeof_bufferevent_pair) then Ok (NULL, w) else
  let b := fresh w in
  '(ok, w) ← bufferevent_init_common_ b opts (MkHeap (chains w) (buffers w) (fresh w + 1) (client w));
  if negb (ok : bool) then Ok (NULL, w) else
  v ← bev_at b w;
  '(ok, w) ← evbuffer_add_cb alloc (output v) BE_PAIR_OUTBUF_CB b w;
  if negb (ok : bool) then w ← bufferevent_free b w; Ok (NULL, w) else Ok (b, w).

(** The pair, or [None] for -1. *)
Definition bufferevent_pair_new (opts : Z) w : res (option (Z * Z) * heap (event_base U)) :=
  let opts := Z.lor opts BEV_OPT_DEFER_CALLBACKS in
  let tmp_options := Z.land opts (Z.lnot BEV_OPT_THREADSAFE) in
  '(b1, w) ← bufferevent_pair_elt_new opts w;
  if b1 =? NULL then Ok (None, w) else
  '(b2, w) ← bufferevent_pair_elt_new tmp_options w;
  if b2 =? NULL then w ← bufferevent_free b1 w; Ok (None, w) else
  v1 ← bev_at b1 w;
  let w := put_bev b1 (set_partner v1 b2) w in
  v2 ← bev_at b2 w;
  let w := put_bev b2 (set_partner v2 b1) w in
  w ← evbuffer_freeze (input v1) false w;
  w ← evbuffer_freeze (output v1) true w;
  w ← evbuffer_freeze (input v2) false w;
  w ← evbuffer_freeze (output v2) true w;
  Ok (Some (b1, b2), w).
End code.

(** The functions called back by buffers: each may change buffers that call back again. *)
Fixpoint run_cb {U} alloc user_cb (fuel : nat) (cbent : evbuffer_cb_entry) (buf : Z) (info : evbuffer_cb_info) (w : heap (event_base U)) : res (heap (event_base U)) :=
  match fuel with
  | O => NoFuel
  | S fuel =>
      if cb_func cbent =? BE_PAIR_OUTBUF_CB then be_pair_outbuf_cb alloc (run_cb alloc user_cb fuel) user_cb info (cbarg cbent) w
      else if cb_func cbent =? BUFFEREVENT_INBUF_WM_CB then bufferevent_inbuf_wm_cb alloc (run_cb alloc user_cb fuel) user_cb buf (cbarg cbent) w
      else UB
  end.
