(* ===== verification/BevPair.v ===== *)
(** * A pair hands over what is written

    The pairs of [Bufferevent] between the calls of their users: what is written to one end waits in its output or has
    arrived in the other end's input, in order and nothing else; it does not wait when the one end writes and the other
    reads.  So the pair of a server is the pipe that [Server] takes it to be. *)

From S2P Require Import Prelude Evbuffer EvChains EvBytes Bufferevent.

(** ** The deferred callback *)

(** Active once, active later once, or not at all, as the flags say. *)
Definition queued {U} (e : event_base U) (b : Z) (v : bufferevent) : Prop :=
  (deferred_flags v = 0 /\ Deferred b ∉ activequeue e /\ Deferred b ∉ active_later_queue e) \/
  (deferred_flags v = EVLIST_ACTIVE /\ Deferred b ∈ activequeue e /\ Deferred b ∉ active_later_queue e) \/
  (deferred_flags v = EVLIST_ACTIVE_LATER /\ Deferred b ∉ activequeue e /\ Deferred b ∈ active_later_queue e).

(** The reference of a callback that is to run. *)
Definition sched (v : bufferevent) : Z := if deferred_flags v =? 0 then 0 else 1.

(** Only pending callbacks, the deferred callback and the references may differ. *)
Definition kept_bev (v v' : bufferevent) : Prop :=
  exists r w e f n, v' = set_bev_refcnt (set_evcb_flags (set_pending v r w e) f) n.

(** The step from [w] to [w'] changes the bufferevent [b] and its place in the queues, and nothing else. *)
Definition bev_upd {U} (w w' : heap (event_base U)) (b : Z) (v' : bufferevent) : Prop :=
  chains w' = chains w /\ buffers w' = buffers w /\ fresh w' = fresh w /\ bevs (client w') = <[b := v']> (bevs (client w)) /\ user (client w') = user (client w) /\
  (forall x, x <> Deferred b -> (x ∈ activequeue (client w') <-> x ∈ activequeue (client w)) /\ (x ∈ active_later_queue (client w') <-> x ∈ active_later_queue (client w))).

Lemma kept_bev_refl v : kept_bev v v.
Proof. exists (readcb_pending v), (writecb_pending v), (eventcb_pending v), (deferred_flags v), (bev_refcnt v). by destruct v. Qed.

Lemma kept_bev_trans v1 v2 v3 : kept_bev v1 v2 -> kept_bev v2 v3 -> kept_bev v1 v3.
Proof. intros (r & w & e & f & n & ->) (r' & w' & e' & f' & n' & ->). by exists r', w', e', f', n'. Qed.

Lemma kept_set_refcnt v n : kept_bev v (set_bev_refcnt v n).
Proof. exists (readcb_pending v), (writecb_pending v), (eventcb_pending v), (deferred_flags v), n. by destruct v. Qed.

Lemma kept_set_pending v r w e : kept_bev v (set_pending v r w e).
Proof. exists r, w, e, (deferred_flags v), (bev_refcnt v). by destruct v. Qed.

Lemma kept_set_flags v f : kept_bev v (set_evcb_flags v f).
Proof. exists (readcb_pending v), (writecb_pending v), (eventcb_pending v), f, (bev_refcnt v). by destruct v. Qed.

Lemma elem_without x y l : y ∈ without x l <-> y <> x /\ y ∈ l.
Proof. unfold without. by rewrite list_elem_of_filter. Qed.

Section queues.
Context {U : Type}.
Implicit Types (w : heap (event_base U)).

Lemma bev_at_Ok w b v : bevs (client w) !! b = Some v -> bev_at b w = Ok v.
Proof. unfold bev_at. by intros ->. Qed.

Lemma bev_upd_refl w b v : bevs (client w) !! b = Some v -> bev_upd w w b v.
Proof. intros H. split_and!; try done. by rewrite insert_id. Qed.

Lemma bev_upd_trans w w1 w2 b v1 v2 : bev_upd w w1 b v1 -> bev_upd w1 w2 b v2 -> bev_upd w w2 b v2.
Proof.
  intros (A1 & A2 & A3 & A4 & A5 & A6) (B1 & B2 & B3 & B4 & B5 & B6). split_and!; try congruence; [by rewrite B4, A4, insert_insert_eq |].
  intros x Hx. destruct (A6 x Hx), (B6 x Hx). naive_solver.
Qed.

Lemma put_bev_upd w b v : bev_upd w (put_bev b v w) b v.
Proof. by split_and!. Qed.

(** The place of another bufferevent's callback. *)
Lemma queued_other w w' b v' p u : bev_upd w w' b v' -> b <> p -> queued (client w) p u -> queued (client w') p u.
Proof. intros (_ & _ & _ & _ & _ & H) Hn. destruct (H (Deferred p)) as [H1 H2]; [congruence |]. unfold queued. naive_solver. Qed.

(** Scheduling: afterwards the callback is in a queue, and it was put there iff the result says so. *)
Lemma schedule_spec w b v : bevs (client w) !! b = Some v -> queued (client w) b v ->
  exists w' f, event_deferred_cb_schedule_ b w = Ok (deferred_flags v =? 0, w') /\ f <> 0 /\ bev_upd w w' b (set_evcb_flags v f) /\
    queued (client w') b (set_evcb_flags v f).
Proof.
  intros Hb Hq. unfold event_deferred_cb_schedule_.
  assert (Hid : set_evcb_flags v (deferred_flags v) = v) by (by destruct v).
  destruct (n_deferreds_queued (client w) >? MAX_DEFERREDS_QUEUED).
  - unfold event_callback_activate_later_nolock_. rewrite (bev_at_Ok _ _ _ Hb). cbn [mbind res_bind].
    destruct Hq as [(Hf & Ha & Hl) | [(Hf & Ha & Hl) | (Hf & Ha & Hl)]]; rewrite Hf.
    + change (has 0 _) with false. cbn iota. unfold event_queue_insert_active_later. rewrite (bev_at_Ok _ _ _ Hb). cbn [mbind res_bind]. rewrite Hf. change (has 0 _) with false. cbn iota.
      eexists _, EVLIST_ACTIVE_LATER. split; [done |]. split; [done |]. split.
      * split_and!; try done. intros x Hx. cbn. set_solver.
      * right. right. cbn. set_solver.
    + change (has EVLIST_ACTIVE _) with true. cbn iota. change (EVLIST_ACTIVE =? 0) with false. exists w, (deferred_flags v). rewrite Hid. split; [done |]. split; [by rewrite Hf |].
      split; [by apply bev_upd_refl |]. right. by left.
    + change (has EVLIST_ACTIVE_LATER _) with true. cbn iota. change (EVLIST_ACTIVE_LATER =? 0) with false. exists w, (deferred_flags v). rewrite Hid. split; [done |]. split; [by rewrite Hf |].
      split; [by apply bev_upd_refl |]. right. by right.
  - unfold event_callback_activate_nolock_. rewrite (bev_at_Ok _ _ _ Hb). cbn [mbind res_bind].
    destruct Hq as [(Hf & Ha & Hl) | [(Hf & Ha & Hl) | (Hf & Ha & Hl)]]; rewrite Hf.
    + change (Z.land 0 _) with 0. change (0 =? EVLIST_ACTIVE_LATER) with false. change (0 =? EVLIST_ACTIVE) with false. cbn [Z.eqb assert_ok mbind res_bind].
      unfold event_queue_insert_active. rewrite (bev_at_Ok _ _ _ Hb). cbn [mbind res_bind]. rewrite Hf. change (has 0 _) with false. cbn [mbind res_bind].
      eexists _, EVLIST_ACTIVE. split; [done |]. split; [done |]. split.
      * split_and!; try done. intros x Hx. cbn. set_solver.
      * right. left. cbn. set_solver.
    + change (Z.land EVLIST_ACTIVE _) with EVLIST_ACTIVE. change (EVLIST_ACTIVE =? EVLIST_ACTIVE_LATER) with false. change (EVLIST_ACTIVE =? EVLIST_ACTIVE) with true. cbn [mbind res_bind].
      change (EVLIST_ACTIVE =? 0) with false. exists w, (deferred_flags v). rewrite Hid. split; [done |]. split; [by rewrite Hf |]. split; [by apply bev_upd_refl |]. right. by left.
    + change (Z.land EVLIST_ACTIVE_LATER _) with EVLIST_ACTIVE_LATER. change (EVLIST_ACTIVE_LATER =? EVLIST_ACTIVE_LATER) with true. cbn iota.
      unfold event_queue_remove_active_later. rewrite (bev_at_Ok _ _ _ Hb). cbn [mbind res_bind]. rewrite Hf. change (Z.land EVLIST_ACTIVE_LATER (Z.lnot EVLIST_ACTIVE_LATER)) with 0.
      unfold event_queue_insert_active, bev_at. cbn [client put_bev set_base bevs set_queues]. rewrite lookup_insert_eq. cbn [of_option mbind res_bind deferred_flags set_evcb_flags].
      change (has 0 EVLIST_ACTIVE) with false. cbn [mbind res_bind]. eexists _, EVLIST_ACTIVE. split; [done |]. split; [done |]. split.
      * split_and!; try done; [cbn; by rewrite insert_insert_eq |]. intros x Hx. cbn. rewrite elem_without. set_solver.
      * right. left. cbn. rewrite elem_without. set_solver.
Qed.

Lemma deferred_exact w b v : bevs (client w) !! b = Some v -> queued (client w) b v ->
  exists w' f n, let v' := set_bev_refcnt (set_evcb_flags v f) n in
    SCHEDULE_DEFERRED b w = Ok w' /\ bev_upd w w' b v' /\ queued (client w') b v' /\ f <> 0 /\ n - sched v' = bev_refcnt v - sched v.
Proof.
  intros Hb Hq. unfold SCHEDULE_DEFERRED. destruct (schedule_spec w b v Hb Hq) as (w1 & f & -> & Hf & U1 & Q1). cbn [mbind res_bind].
  assert (Hb1 : bevs (client w1) !! b = Some (set_evcb_flags v f)) by (destruct U1 as (_ & _ & _ & -> & _); apply lookup_insert_eq).
  assert (Hs : forall n, sched (set_bev_refcnt (set_evcb_flags v f) n) = 1) by (intros n; unfold sched; cbn; by rewrite (proj2 (Z.eqb_neq f 0))).
  destruct (Z.eqb_spec (deferred_flags v) 0) as [Hz | Hz].
  - unfold incref. rewrite (bev_at_Ok _ _ _ Hb1). cbn [mbind res_bind]. eexists _, f, _. split; [done |]. split; [eapply bev_upd_trans; [exact U1 | apply put_bev_upd] |].
    split; [exact Q1 |]. split; [exact Hf |]. rewrite Hs. cbn. unfold sched. rewrite Hz. cbn. lia.
  - exists w1, f, (bev_refcnt v). assert (Hid : set_bev_refcnt (set_evcb_flags v f) (bev_refcnt v) = set_evcb_flags v f) by done. cbv zeta. rewrite Hid. split; [done |]. split; [done |]. split; [done |]. split; [done |].
    rewrite <- Hid, Hs. unfold sched. by rewrite (proj2 (Z.eqb_neq _ _)).
Qed.

Lemma deferred_spec w b v : bevs (client w) !! b = Some v -> queued (client w) b v ->
  exists w' v', SCHEDULE_DEFERRED b w = Ok w' /\ bev_upd w w' b v' /\ kept_bev v v' /\ queued (client w') b v' /\ deferred_flags v' <> 0 /\
    readcb_pending v' = readcb_pending v /\ bev_refcnt v' - sched v' = bev_refcnt v - sched v.
Proof.
  intros Hb Hq. destruct (deferred_exact w b v Hb Hq) as (w' & f & n & E & Hu & Q & Hf & Hn). exists w', (set_bev_refcnt (set_evcb_flags v f) n).
  split; [done |]. split; [done |]. split; [eapply kept_bev_trans; [apply kept_set_flags | apply kept_set_refcnt] |]. by split_and!.
Qed.
End queues.

(** ** One end *)

(** The bufferevent [b] is linked to [p]; nothing holds back what it reads and writes, and its callbacks are deferred; [n] references are
    held by others than the deferred callback. *)
Definition live {U} (e : event_base U) (b p : Z) (v : bufferevent) (n : Z) : Prop :=
  bevs e !! b = Some v /\ partner v = p /\ p <> NULL /\ has (options v) BEV_OPT_DEFER_CALLBACKS = true /\ wm_read_high v = 0 /\
  read_suspended v = 0 /\ write_suspended v = 0 /\ queued e b v /\ bev_refcnt v = n + sched v /\ 1 <= n.

(** The read callback is due. *)
Definition due (v : bufferevent) : Prop := readcb_pending v = true /\ deferred_flags v <> 0.

Section one_end.
Context {U : Type} (user_cb : Z -> called_for -> Z -> Z -> heap (event_base U) -> res (heap (event_base U))).
Implicit Types (w : heap (event_base U)).

Lemma get_length_Ok w b e : buffers w !! b = Some e -> evbuffer_get_length b w = Ok (total_len e).
Proof. intros H. unfold evbuffer_get_length, buf_at. by rewrite H. Qed.

Lemma live_bev w b p v n : live (client w) b p v n -> bev_at b w = Ok v.
Proof. intros (Hb & _). by apply bev_at_Ok. Qed.

Lemma live_kept w w' b p v v' n : live (client w) b p v n -> bev_upd w w' b v' -> kept_bev v v' -> queued (client w') b v' -> bev_refcnt v' - sched v' = bev_refcnt v - sched v ->
  live (client w') b p v' n.
Proof.
  intros (Hb & Hp & Hn & Ho & Hw & Hr & Hs & Hq & Href & H1) (_ & _ & _ & U4 & _) (r & x & e & f & m & ->) Hq' Hr'.
  split; [rewrite U4; apply lookup_insert_eq |]. split_and!; try done. lia.
Qed.

Lemma live_other w w' b v' p q u n : live (client w) p q u n -> bev_upd w w' b v' -> b <> p -> live (client w') p q u n.
Proof.
  intros (Hb & Hp & Hn & Ho & Hw & Hr & Hs & Hq & Href) Hu Hne. pose proof (queued_other _ _ _ _ _ _ Hu Hne Hq). destruct Hu as (_ & _ & _ & U4 & _).
  split; [by rewrite U4, lookup_insert_ne |]. do 7 (split; [done |]). exact Href.
Qed.

Lemma run_readcb_spec w b p v n : live (client w) b p v n ->
  exists w' v', bufferevent_run_readcb_ user_cb b 0 w = Ok w' /\ bev_upd w w' b v' /\ kept_bev v v' /\ live (client w') b p v' n /\
    (readcb v <> NULL -> due v') /\ (due v -> due v').
Proof.
  intros Hl. pose proof Hl as (Hb & _ & _ & Ho & _ & _ & _ & Hq & _). unfold bufferevent_run_readcb_. rewrite (bev_at_Ok _ _ _ Hb). cbn [mbind res_bind].
  destruct (Z.eqb_spec (readcb v) NULL) as [Hz | Hz].
  - exists w, v. split; [done |]. split; [by apply bev_upd_refl |]. split; [apply kept_bev_refl |]. by split_and!.
  - rewrite Z.lor_0_r, Ho. set (v1 := set_pending v true (writecb_pending v) (eventcb_pending v)).
    destruct (deferred_spec (put_bev b v1 w) b v1) as (w' & v' & -> & U' & K & Q & F & P & R); [cbn; apply lookup_insert_eq | exact Hq |].
    pose proof (bev_upd_trans _ _ _ _ _ _ (put_bev_upd w b v1) U') as U2. pose proof (kept_bev_trans _ _ _ (kept_set_pending v _ _ _) K) as K2.
    exists w', v'. split; [done |]. split; [done |]. split; [done |]. split; [by eapply live_kept |]. assert (due v') by (split; [by rewrite P | done]). by split.
Qed.

Lemma run_writecb_spec w b p v n : live (client w) b p v n ->
  exists w' v', bufferevent_run_writecb_ user_cb b 0 w = Ok w' /\ bev_upd w w' b v' /\ kept_bev v v' /\ live (client w') b p v' n /\ (due v -> due v').
Proof.
  intros Hl. pose proof Hl as (Hb & _ & _ & Ho & _ & _ & _ & Hq & _). unfold bufferevent_run_writecb_. rewrite (bev_at_Ok _ _ _ Hb). cbn [mbind res_bind].
  destruct (Z.eqb_spec (writecb v) NULL) as [Hz | Hz].
  - exists w, v. split; [done |]. split; [by apply bev_upd_refl |]. split; [apply kept_bev_refl |]. by split_and!.
  - rewrite Z.lor_0_r, Ho. set (v1 := set_pending v (readcb_pending v) true (eventcb_pending v)).
    destruct (deferred_spec (put_bev b v1 w) b v1) as (w' & v' & -> & U' & K & Q & F & P & R); [cbn; apply lookup_insert_eq | exact Hq |].
    pose proof (bev_upd_trans _ _ _ _ _ _ (put_bev_upd w b v1) U') as U2. pose proof (kept_bev_trans _ _ _ (kept_set_pending v _ _ _) K) as K2.
    exists w', v'. split; [done |]. split; [done |]. split; [done |]. split; [by eapply live_kept |]. intros [D1 _]. split; [by rewrite P | done].
Qed.

Lemma trigger_read w b p v n ei eo : live (client w) b p v n -> buffers w !! input v = Some ei -> buffers w !! output v = Some eo ->
  exists w' v', bufferevent_trigger_nolock_ user_cb b EV_READ 0 w = Ok w' /\ bev_upd w w' b v' /\ kept_bev v v' /\ live (client w') b p v' n /\
    (readcb v <> NULL -> wm_read_low v <= total_len ei -> due v') /\ (due v -> due v').
Proof.
  intros Hl Hi Ho. unfold bufferevent_trigger_nolock_. rewrite (live_bev _ _ _ _ _ Hl). cbn [mbind res_bind]. rewrite (get_length_Ok _ _ _ Hi). cbn [mbind res_bind].
  change (has EV_READ EV_READ) with true. change (has 0 BEV_TRIG_IGNORE_WATERMARKS) with false. cbn [andb orb].
  assert (G : exists w' v', (if total_len ei >=? wm_read_low v then bufferevent_run_readcb_ user_cb b 0 w else Ok w) = Ok w' /\ bev_upd w w' b v' /\ kept_bev v v' /\ live (client w') b p v' n /\
    (readcb v <> NULL -> wm_read_low v <= total_len ei -> due v') /\ (due v -> due v')).
  { destruct (Z.geb_spec (total_len ei) (wm_read_low v)) as [Hge | Hlt].
    - destruct (run_readcb_spec w b p v n Hl) as (w' & v' & E & U' & K & L & D1 & D2). exists w', v'. split_and!; try done; try (by apply U'). intros ? _. by apply D1.
    - exists w, v. split; [done |]. split; [apply bev_upd_refl, Hl |]. split; [apply kept_bev_refl |]. split; [done |]. split; [lia | done]. }
  destruct G as (w' & v' & -> & U' & K & L & D1 & D2). cbn [mbind res_bind]. rewrite (live_bev _ _ _ _ _ L). cbn [mbind res_bind].
  assert (Eo : output v' = output v) by (by destruct K as (? & ? & ? & ? & ? & ->)). assert (Eb : buffers w' = buffers w) by apply U'.
  rewrite (get_length_Ok _ _ eo) by (by rewrite Eo, Eb). cbn [mbind res_bind]. exists w', v'. by split_and!; try (by apply U').
Qed.

Lemma trigger_write w b p v n ei eo : live (client w) b p v n -> buffers w !! input v = Some ei -> buffers w !! output v = Some eo ->
  exists w' v', bufferevent_trigger_nolock_ user_cb b EV_WRITE 0 w = Ok w' /\ bev_upd w w' b v' /\ kept_bev v v' /\ live (client w') b p v' n /\ (due v -> due v').
Proof.
  intros Hl Hi Ho. unfold bufferevent_trigger_nolock_. rewrite (live_bev _ _ _ _ _ Hl). cbn [mbind res_bind]. rewrite (get_length_Ok _ _ _ Hi). cbn [mbind res_bind].
  change (has EV_WRITE EV_READ) with false. change (has 0 BEV_TRIG_IGNORE_WATERMARKS) with false. cbn [andb orb mbind res_bind]. rewrite (live_bev _ _ _ _ _ Hl). cbn [mbind res_bind].
  rewrite (get_length_Ok _ _ _ Ho). cbn [mbind res_bind]. change (has EV_WRITE EV_WRITE) with true. cbn [andb].
  destruct (total_len eo <=? wm_write_low v).
  - apply (run_writecb_spec w b p v n Hl).
  - exists w, v. split; [done |]. split; [apply bev_upd_refl, Hl |]. split; [apply kept_bev_refl |]. by split.
Qed.

(** *** References *)

Lemma decref_spec w b v : bevs (client w) !! b = Some v -> 2 <= bev_refcnt v -> bufferevent_decref_and_unlock_ b w = Ok (put_bev b (set_bev_refcnt v (bev_refcnt v - 1)) w).
Proof.
  intros Hb Hr. unfold bufferevent_decref_and_unlock_. rewrite (bev_at_Ok _ _ _ Hb). cbn [mbind res_bind].
  rewrite Z.gtb_ltb, (proj2 (Z.ltb_lt _ _)) by lia. cbn [assert_ok mbind res_bind]. by rewrite (proj2 (Z.eqb_neq (bev_refcnt v - 1) 0)) by lia.
Qed.

Lemma set_refcnt_back v : set_bev_refcnt (set_bev_refcnt v (bev_refcnt v + 1)) (bev_refcnt v + 1 - 1) = v.
Proof. destruct v. unfold set_bev_refcnt. cbn. f_equal. lia. Qed.

Lemma put_bev_back w b v v' : bevs (client w) !! b = Some v -> put_bev b v (put_bev b v' w) = w.
Proof. intros H. destruct w as [c bu f [bv a l m us]]. unfold put_bev, set_base. cbn in *. by rewrite insert_insert_eq, insert_id. Qed.

Lemma put_bev_comm w b p v u : b <> p -> put_bev b v (put_bev p u w) = put_bev p u (put_bev b v w).
Proof. intros H. destruct w as [c bu f [bv a l m us]]. unfold put_bev, set_base. cbn in *. by rewrite insert_insert_ne. Qed.

(** Taking the references of both ends. *)
Lemma incref_both w b p v u : bevs (client w) !! b = Some v -> bevs (client w) !! p = Some u -> partner v = p -> p <> NULL -> b <> p ->
  incref_and_lock b w = Ok (put_bev p (set_bev_refcnt u (bev_refcnt u + 1)) (put_bev b (set_bev_refcnt v (bev_refcnt v + 1)) w)).
Proof.
  intros Hb Hp Hv Hn Hne. unfold incref_and_lock, incref. rewrite (bev_at_Ok _ _ _ Hb). cbn [mbind res_bind]. unfold bev_at. cbn [client put_bev set_base bevs]. rewrite lookup_insert_eq.
  cbn [of_option mbind res_bind partner set_bev_refcnt]. rewrite Hv, (proj2 (Z.eqb_neq p NULL)) by done. by rewrite lookup_insert_ne, Hp by done.
Qed.

Lemma decref_both w b p v u : bevs (client w) !! b = Some v -> bevs (client w) !! p = Some u -> partner v = p -> p <> NULL -> b <> p -> 2 <= bev_refcnt v -> 2 <= bev_refcnt u ->
  decref_and_unlock b w = Ok (put_bev b (set_bev_refcnt v (bev_refcnt v - 1)) (put_bev p (set_bev_refcnt u (bev_refcnt u - 1)) w)).
Proof.
  intros Hb Hp Hv Hn Hne H1 H2. unfold decref_and_unlock. rewrite (bev_at_Ok _ _ _ Hb). cbn [mbind res_bind]. rewrite Hv, (proj2 (Z.eqb_neq p NULL)) by done.
  rewrite (decref_spec w p u) by done. cbn [mbind res_bind]. apply decref_spec; [cbn; by rewrite lookup_insert_ne | done].
Qed.
End one_end.

(** ** Both ends *)

(** Buffers at rest: an input takes no data at its end, an output gives none from its start. *)
Definition in_attr (e : evbuffer) : Prop := freeze_start e = false /\ freeze_end e = true /\ refcnt e = 1 /\ callbacks e = [].
Definition out_attr (b : Z) (e : evbuffer) : Prop :=
  freeze_start e = true /\ freeze_end e = false /\ refcnt e = 1 /\ callbacks e = [MkCb BE_PAIR_OUTBUF_CB b EVBUFFER_CB_ENABLED] /\ n_add_for_cb e = 0 /\ n_del_for_cb e = 0.

Definition buf_is {C} (w : heap C) (x : Z) (P : evbuffer -> Prop) : Prop := exists e, buffers w !! x = Some e /\ P e.

(** The buffers of one end. *)
Definition end_is {C} (w : heap C) (b : Z) (v : bufferevent) : Prop := buf_is w (input v) in_attr /\ buf_is w (output v) (out_attr b).

Definition apart (v u : bufferevent) : Prop :=
  input v <> output v /\ input u <> output u /\ input v <> input u /\ input v <> output u /\ output v <> input u /\ output v <> output u.

(** The bufferevents [b] and [p] are a pair, and the buffers of the heap hold [B]. *)
Definition pair_is {U} (w : heap (event_base U)) (B : gmap Z (list Z)) (b : Z) (v : bufferevent) (p : Z) (u : bufferevent) (n m : Z) : Prop :=
  holds w B /\ b <> p /\ live (client w) b p v n /\ live (client w) p b u m /\ apart v u /\ end_is w b v /\ end_is w p u.

(** Nothing but the buffers [l] and the two bufferevents has changed. *)
Definition frame {U} (w w' : heap (event_base U)) (b p : Z) (l : list Z) : Prop :=
  (forall x, x ∉ l -> buffers w' !! x = buffers w !! x) /\ (forall x, x <> b -> x <> p -> bevs (client w') !! x = bevs (client w) !! x) /\ user (client w') = user (client w).

Lemma pair_sym {U} (w : heap (event_base U)) B b v p u n m : pair_is w B b v p u n m -> pair_is w B p u b v m n.
Proof. intros (H1 & H2 & H3 & H4 & (A1 & A2 & A3 & A4 & A5 & A6) & H6 & H7). split; [done |]. split; [done |]. split; [done |]. split; [done |]. split; [by split_and! |]. by split. Qed.

Lemma apart_kept v v' u u' : apart v u -> kept_bev v v' -> kept_bev u u' -> apart v' u'.
Proof. intros H (? & ? & ? & ? & ? & ->) (? & ? & ? & ? & ? & ->). exact H. Qed.

Section pairs.
Context {U : Type} (alloc : Z -> Z -> bool).
Context (run_cb : evbuffer_cb_entry -> Z -> evbuffer_cb_info -> heap (event_base U) -> res (heap (event_base U))).
Context (user_cb : Z -> called_for -> Z -> Z -> heap (event_base U) -> res (heap (event_base U))).
Implicit Types (w : heap (event_base U)).

(** The output's callback has nothing to do when data has only been taken. *)
Lemma outbuf_quiet w b p v u n m info : live (client w) b p v n -> live (client w) p b u m -> b <> p -> n_added info <= n_deleted info ->
  be_pair_outbuf_cb alloc run_cb user_cb info b w = Ok w.
Proof.
  intros (Hb & Hv & Hp & _ & _ & _ & _ & _ & Hr & Hn) (Hb' & _ & _ & _ & _ & _ & _ & _ & Hr' & Hm) Hne Hi. unfold be_pair_outbuf_cb. rewrite (bev_at_Ok _ _ _ Hb). cbn [mbind res_bind].
  rewrite (incref_both w b p v u) by done. cbn [mbind res_bind]. rewrite Z.gtb_ltb, (proj2 (Z.ltb_ge _ _)) by done. cbn [andb mbind res_bind].
  assert (Hs : 0 <= sched v /\ 0 <= sched u) by (unfold sched; destruct (deferred_flags v =? 0), (deferred_flags u =? 0); lia).
  rewrite (decref_both _ b p (set_bev_refcnt v (bev_refcnt v + 1)) (set_bev_refcnt u (bev_refcnt u + 1))); try done; try (cbn; lia).
  - cbn [bev_refcnt set_bev_refcnt]. rewrite !set_refcnt_back. f_equal. rewrite (put_bev_back _ p u); [by apply put_bev_back |].
    cbn. by rewrite lookup_insert_ne.
  - cbn. by rewrite lookup_insert_ne, lookup_insert_eq.
  - cbn. by rewrite lookup_insert_eq.
Qed.

(** Moving all of a buffer whose callbacks have nothing to do. *)
Lemma add_buffer_quiet w B bo eo xs bi ei ys : holds w B -> bo <> bi -> buffers w !! bo = Some eo -> buffers w !! bi = Some ei -> B !! bo = Some xs -> B !! bi = Some ys ->
  Z.of_nat (length xs) + Z.of_nat (length ys) < 2 ^ 63 -> freeze_end eo = false -> freeze_start ei = false -> callbacks eo = [] -> n_add_for_cb ei = 0 -> n_del_for_cb ei = 0 ->
  (forall w' info, client w' = client w -> n_added info <= n_deleted info -> call_each run_cb (callbacks ei) bi info w' = Ok w') ->
  exists w' eo' ei', evbuffer_add_buffer alloc run_cb bo bi w = Ok (0, w') /\ buffers w' = <[bo := eo']> (<[bi := ei']> (buffers w)) /\ client w' = client w /\ fresh w' = fresh w /\
    holds w' (<[bo := xs ++ ys]> (<[bi := []]> B)) /\ kept eo eo' /\ kept ei ei' /\ n_add_for_cb ei' = 0 /\ n_del_for_cb ei' = 0.
Proof.
  intros Hh Hn Heo Hei Ho Hi Hs Hfe Hfs Hco Ha Hd Hq. unfold evbuffer_add_buffer. rewrite (buf_at_Ok _ _ _ Heo), (buf_at_Ok _ _ _ Hei). cbn [mbind res_bind].
  rewrite (proj2 (Z.eqb_neq bo bi)), orb_false_r by done. pose proof (holds_buffer w B bi ei ys Hh Hei Hi) as Ht. destruct (Z.eqb_spec (total_len ei) 0) as [Hz | Hz].
  { assert (ys = []) as -> by (destruct ys; [done | cbn in Ht; lia]). exists w, eo, ei. rewrite app_nil_r, (insert_id B bi []), (insert_id B bo xs) by done.
    split; [done |]. split; [by rewrite (insert_id _ bi), (insert_id _ bo) by done |]. by split_and!. }
  rewrite Hfe, Hfs. cbn [orb]. destruct (move_holds alloc w B bo eo xs bi ei ys Hh Hn Heo Hei Ho Hi) as (w1 & eo1 & ei1 & -> & U1 & Uc & Uf & Hh1 & Ko & Ki & A1 & A2 & A3 & A4); [by intros -> | done |].
  cbn [mbind res_bind negb]. assert (Hei1 : buffers w1 !! bi = Some ei1) by (by rewrite U1, lookup_insert_ne, lookup_insert_eq). pose proof Ki as (_ & _ & _ & Kic).
  assert (Hinv : evbuffer_invoke_callbacks_ run_cb bi w1 = Ok (put_buf bi (set_counts ei1 0 0) w1)).
  { unfold evbuffer_invoke_callbacks_, evbuffer_run_callbacks. rewrite (buf_at_Ok _ _ _ Hei1). cbn [mbind res_bind]. case_bool_decide as Hc; [done |].
    rewrite A3, Ha, A4, Hd, Z.add_0_l, (wrap_small 64 (Z.of_nat (length ys))) by lia. rewrite (proj2 (Z.eqb_neq (Z.of_nat (length ys)) 0)) by lia. cbn [andb Z.eqb]. rewrite Kic. apply Hq; [done | cbn; lia]. }
  rewrite Hinv. cbn [mbind res_bind]. set (w2 := put_buf bi _ w1). assert (Heo2 : buffers w2 !! bo = Some eo1) by (cbn; by rewrite lookup_insert_ne, U1, lookup_insert_eq).
  pose proof Ko as (_ & _ & _ & Koc). rewrite (no_callbacks run_cb w2 bo eo1 Heo2) by congruence. cbn [mbind res_bind].
  eexists _, (set_counts eo1 0 0), (set_counts ei1 0 0). split; [done |].
  split; [cbn; by rewrite U1, (insert_insert_ne _ bi bo), !insert_insert_eq by done |]. split; [done |]. split; [done |].
  split; [apply (holds_same w2 _ bo eo1); [by apply (holds_same w1 _ bi ei1) | done..] |]. by split_and!.
Qed.

Lemma output_quiet b bi info0 : (forall w' info, client w' = info0 -> n_added info <= n_deleted info -> run_cb (MkCb BE_PAIR_OUTBUF_CB b EVBUFFER_CB_ENABLED) bi info w' = Ok w') ->
  forall w' info, client w' = info0 -> n_added info <= n_deleted info -> call_each run_cb [MkCb BE_PAIR_OUTBUF_CB b EVBUFFER_CB_ENABLED] bi info w' = Ok w'.
Proof. intros H w' info Hc Hi. cbn. by rewrite H. Qed.

Lemma pair_buffers w B b v p u n m : pair_is w B b v p u n m -> exists iv ov iu ou, buffers w !! input v = Some iv /\ in_attr iv /\ buffers w !! output v = Some ov /\ out_attr b ov /\
  buffers w !! input u = Some iu /\ in_attr iu /\ buffers w !! output u = Some ou /\ out_attr p ou.
Proof. intros (_ & _ & _ & _ & _ & [(iv & ? & ?) (ov & ? & ?)] & [(iu & ? & ?) (ou & ? & ?)]). exists iv, ov, iu, ou. by repeat (split; [done |]). Qed.

(** The bufferevents' part of a step that changes first [dst], then [src]. *)
Lemma live_both w w1 w2 src s s' dst d d' n m : src <> dst -> live (client w) src dst s n -> live (client w) dst src d m ->
  bev_upd w w1 dst d' -> live (client w1) dst src d' m -> bev_upd w1 w2 src s' -> live (client w2) src dst s' n ->
  live (client w2) dst src d' m /\ (forall x, x <> src -> x <> dst -> bevs (client w2) !! x = bevs (client w) !! x) /\ user (client w2) = user (client w).
Proof.
  intros Hn Ls Ld U1 L1 U2 L2. split; [by eapply (live_other w1)|]. destruct U1 as (_ & _ & _ & E1 & E1' & _), U2 as (_ & _ & _ & E2 & E2' & _).
  split; [| congruence]. intros x H1 H2. by rewrite E2, E1, !lookup_insert_ne.
Qed.

Lemma transfer_spec w B src s dst d n m xs ys ign : pair_is w B src s dst d n m -> B !! output s = Some xs -> B !! input d = Some ys ->
  Z.of_nat (length ys) + Z.of_nat (length xs) < 2 ^ 63 ->
  (forall w' info, client w' = client w -> n_added info <= n_deleted info -> run_cb (MkCb BE_PAIR_OUTBUF_CB src EVBUFFER_CB_ENABLED) (output s) info w' = Ok w') ->
  exists w' s' d', be_pair_transfer alloc run_cb user_cb src dst ign w = Ok w' /\ pair_is w' (<[input d := ys ++ xs]> (<[output s := []]> B)) src s' dst d' n m /\
    kept_bev s s' /\ kept_bev d d' /\ frame w w' src dst [output s; input d] /\
    (readcb d <> NULL -> wm_read_low d <= Z.of_nat (length (ys ++ xs)) -> due d') /\ (due s -> due s') /\ (due d -> due d').
Proof.
  intros HP Hxs Hys Hlen Hq. destruct (pair_buffers _ _ _ _ _ _ _ _ HP) as (iv & ov & iu & ou & Hiv & Aiv & Hov & Aov & Hiu & Aiu & Hou & Aou).
  destruct HP as (Hh & Hn & Ls & Ld & Hap & _ & _). pose proof Hap as (N1 & N2 & N3 & N4 & N5 & N6).
  destruct Aov as (O1 & O2 & O3 & O4 & O5 & O6), Aiu as (I1 & I2 & I3 & I4). unfold be_pair_transfer.
  rewrite (live_bev _ _ _ _ _ Ls), (live_bev _ _ _ _ _ Ld). cbn [mbind res_bind]. unfold evbuffer_unfreeze. rewrite (buf_at_Ok _ _ _ Hov). cbn [mbind res_bind].
  set (w1 := put_buf (output s) _ w). assert (Hh1 : holds w1 B) by (by apply (holds_same w B (output s) ov)).
  assert (Hiu1 : buffers w1 !! input d = Some iu) by (cbn; by rewrite lookup_insert_ne). rewrite (buf_at_Ok _ _ _ Hiu1). cbn [mbind res_bind].
  set (w2 := put_buf (input d) _ w1). assert (Hh2 : holds w2 B) by (by apply (holds_same w1 B (input d) iu)).
  pose proof Ld as (_ & _ & _ & _ & Hwm & _). rewrite Hwm. cbn [Z.eqb negb].
  set (ov1 := set_freeze ov false (freeze_end ov)) in *. set (iu1 := set_freeze iu (freeze_start iu) false) in *.
  assert (Hiu2 : buffers w2 !! input d = Some iu1) by (cbn; by rewrite lookup_insert_eq).
  assert (Hov2 : buffers w2 !! output s = Some ov1) by (cbn; by rewrite lookup_insert_ne, lookup_insert_eq).
  assert (Hq2 : forall w' info, client w' = client w2 -> n_added info <= n_deleted info -> call_each run_cb (callbacks ov1) (output s) info w' = Ok w').
  { intros w' info Hc Hi. change (callbacks ov1) with (callbacks ov). rewrite O4. by apply (output_quiet src (output s) (client w)). }
  destruct (add_buffer_quiet w2 B (input d) iu1 ys (output s) ov1 xs) as (w3 & iu3 & ov3 & -> & U3 & Uc & Uf & Hh3 & Ki & Ko & C1 & C2); try done. cbn [mbind res_bind].
  assert (Hiu3 : buffers w3 !! input d = Some iu3) by (by rewrite U3, lookup_insert_eq).
  assert (Hov3 : buffers w3 !! output s = Some ov3) by (by rewrite U3, lookup_insert_ne, lookup_insert_eq).
  assert (Hrest : forall x, x <> input d -> x <> output s -> buffers w3 !! x = buffers w !! x).
  { intros x H1 H2. rewrite U3, !lookup_insert_ne by done. cbn. by rewrite !lookup_insert_ne. }
  assert (Ls3 : live (client w3) src dst s n) by (by rewrite Uc). assert (Ld3 : live (client w3) dst src d m) by (by rewrite Uc).
  destruct (trigger_read user_cb w3 dst src d m iu3 ou Ld3 Hiu3) as (w4 & d' & -> & U4 & K4 & L4 & D1 & D2); [by rewrite Hrest |]. cbn [mbind res_bind].
  pose proof (live_other _ _ _ _ _ _ _ _ Ls3 U4 ltac:(done)) as Ls4. assert (E4 : buffers w4 = buffers w3) by apply U4.
  destruct (trigger_write user_cb w4 src dst s n iv ov3 Ls4) as (w5 & s' & -> & U5 & K5 & L5 & D3); [by rewrite E4, Hrest | by rewrite E4 |]. cbn [mbind res_bind].
  destruct (live_both w3 w4 w5 src s s' dst d d' n m Hn Ls3 Ld3 U4 L4 U5 L5) as (L6 & Fb & Fu). assert (E5 : buffers w5 = buffers w3) by (transitivity (buffers w4); [apply U5 | done]).
  unfold evbuffer_freeze. rewrite <- E5 in Hov3, Hiu3. rewrite (buf_at_Ok _ _ _ Hov3). cbn [mbind res_bind]. set (w6 := put_buf (output s) _ w5).
  assert (Hiu6 : buffers w6 !! input d = Some iu3) by (cbn; by rewrite lookup_insert_ne). rewrite (buf_at_Ok _ _ _ Hiu6). cbn [mbind res_bind].
  assert (Hh5 : holds w5 (<[input d := ys ++ xs]> (<[output s := []]> B))).
  { eapply holds_client; [exact Hh3 | | done |]; [transitivity (chains w4); [apply U5 | apply U4] | transitivity (fresh w4); [apply U5 | apply U4]]. }
  eexists _, s', d'. split; [done |]. destruct Ko as (KO1 & KO2 & KO3 & KO4), Ki as (KI1 & KI2 & KI3 & KI4).
  unfold ov1 in KO1, KO2, KO3, KO4. unfold iu1 in KI1, KI2, KI3, KI4. cbn in KO1, KO2, KO3, KO4, KI1, KI2, KI3, KI4.
  split; [| split; [done |]; split; [done |]; split; [| split; [intros Hr Hw; apply D1; [done |]; by rewrite (holds_buffer w3 _ (input d) iu3 (ys ++ xs) Hh3) by (rewrite ?lookup_insert_eq, <- ?E5; done) | done]]].
  - split; [apply (holds_same _ _ (input d) iu3); [by apply (holds_same _ _ (output s) ov3) | done..] |]. split; [done |]. split; [exact L5 |]. split; [exact L6 |].
    split; [by eapply apart_kept |]. assert (Es : input s' = input s /\ output s' = output s) by (by destruct K5 as (? & ? & ? & ? & ? & ->)).
    assert (Ed : input d' = input d /\ output d' = output d) by (by destruct K4 as (? & ? & ? & ? & ? & ->)). destruct Es as [Es1 Es2], Ed as [Ed1 Ed2].
    unfold end_is, buf_is. rewrite Es1, Es2, Ed1, Ed2. cbn [buffers put_buf w6]. split; split.
    + exists iv. rewrite !lookup_insert_ne, E5, Hrest by done. by split.
    + eexists. rewrite lookup_insert_ne, lookup_insert_eq by done. split; [done |]. split_and!; cbn; congruence.
    + eexists. rewrite lookup_insert_eq. split; [done |]. split_and!; cbn; congruence.
    + exists ou. rewrite !lookup_insert_ne, E5, Hrest by done. by split.
  - split; [| split; [intros x H1 H2; cbn; rewrite Fb by done; by rewrite Uc | cbn; by rewrite Fu, Uc]]. intros x Hx. cbn. rewrite !lookup_insert_ne, E5 by set_solver. apply Hrest; set_solver.
Qed.
End pairs.

(** ** Handing over *)

(** The one end writes and the other reads. *)
Definition talks (v u : bufferevent) : bool := has (enabled v) EV_WRITE && has (enabled u) EV_READ.

(** What is on its way from one end to the other: what has arrived, then what waits. *)
Definition arrived (B : gmap Z (list Z)) (u : bufferevent) : list Z := default [] (B !! input u).
Definition waiting (B : gmap Z (list Z)) (v : bufferevent) : list Z := default [] (B !! output v).
Definition flow (B : gmap Z (list Z)) (v u : bufferevent) : list Z := arrived B u ++ waiting B v.

(** A pair between two calls: nothing waits that could be handed over. *)
Definition at_rest {U} (w : heap (event_base U)) B b v p u n m : Prop :=
  pair_is w B b v p u n m /\ (talks v u = true -> waiting B v = []) /\ (talks u v = true -> waiting B u = []).

(** Callbacks of outputs have nothing to do when data has only been taken. *)
Definition quiet_cb {U} (run_cb : evbuffer_cb_entry -> Z -> evbuffer_cb_info -> heap (event_base U) -> res (heap (event_base U))) : Prop :=
  forall w b p v u n m x info, live (client w) b p v n -> live (client w) p b u m -> b <> p -> n_added info <= n_deleted info ->
    run_cb (MkCb BE_PAIR_OUTBUF_CB b EVBUFFER_CB_ENABLED) x info w = Ok w.

Lemma run_cb_quiet {U} alloc (user_cb : Z -> called_for -> Z -> Z -> heap (event_base U) -> res (heap (event_base U))) fuel : quiet_cb (run_cb alloc user_cb (S fuel)).
Proof. intros w b p v u n m x info L1 L2 Hn Hi. cbn. by eapply outbuf_quiet. Qed.

Section facts.
Context {U : Type}.
Implicit Types (w : heap (event_base U)).

Lemma holds_bytes w B x P : holds w B -> buf_is w x P -> exists ys, B !! x = Some ys.
Proof.
  intros (css & [Hb _] & <-) (e & He & _). specialize (Hb x). rewrite He in Hb. rewrite lookup_fmap. destruct (css !! x) as [cs |]; [by exists (content cs) | done].
Qed.

(** The bytes of the four buffers. *)
Lemma pair_bytes w B b v p u n m : pair_is w B b v p u n m ->
  B !! input v = Some (arrived B v) /\ B !! output v = Some (waiting B v) /\ B !! input u = Some (arrived B u) /\ B !! output u = Some (waiting B u).
Proof.
  intros (Hh & _ & _ & _ & _ & [H1 H2] & [H3 H4]). unfold arrived, waiting.
  destruct (holds_bytes _ _ _ _ Hh H1) as [? ->], (holds_bytes _ _ _ _ Hh H2) as [? ->], (holds_bytes _ _ _ _ Hh H3) as [? ->], (holds_bytes _ _ _ _ Hh H4) as [? ->]. done.
Qed.

Lemma kept_ends v v' : kept_bev v v' -> input v' = input v /\ output v' = output v /\ enabled v' = enabled v /\ readcb v' = readcb v /\ wm_read_low v' = wm_read_low v.
Proof. by intros (? & ? & ? & ? & ? & ->). Qed.

Lemma frame_refl w b p l : frame w w b p l.
Proof. by split_and!. Qed.

Lemma frame_trans w w1 w2 b p l : frame w w1 b p l -> frame w1 w2 b p l -> frame w w2 b p l.
Proof.
  intros (A1 & A2 & A3) (B1 & B2 & B3). split; [intros x Hx; by rewrite B1, A1 |]. split; [intros x H1 H2; by rewrite B2, A2 | congruence].
Qed.

Lemma frame_sub w w' b p l l' : frame w w' b p l -> l ⊆ l' -> frame w w' b p l'.
Proof. intros (A1 & A2 & A3) Hs. split; [intros x Hx; apply A1; set_solver | by split]. Qed.

Lemma frame_sym w w' b p l : frame w w' b p l -> frame w w' p b l.
Proof. intros (A1 & A2 & A3). split; [done |]. split; [intros x H1 H2; by apply A2 | done]. Qed.

(** The bufferevents are the same, but for what their callbacks wait for, and nothing outside the buffers [l] has changed. *)
Definition did w w' b v v' p u u' l : Prop := kept_bev v v' /\ kept_bev u u' /\ frame w w' b p l /\ (due v -> due v') /\ (due u -> due u').

Lemma did_refl w b v p u l : did w w b v v p u u l.
Proof. do 2 (split; [apply kept_bev_refl |]). split; [apply frame_refl | done]. Qed.

Lemma did_trans w w1 w2 b v v1 v2 p u u1 u2 l : did w w1 b v v1 p u u1 l -> did w1 w2 b v1 v2 p u1 u2 l -> did w w2 b v v2 p u u2 l.
Proof.
  intros (A1 & A2 & A3 & A4 & A5) (B1 & B2 & B3 & B4 & B5). split; [by eapply kept_bev_trans |]. split; [by eapply kept_bev_trans |]. split; [by eapply frame_trans | auto].
Qed.

Lemma did_sub w w' b v v' p u u' l l' : did w w' b v v' p u u' l -> l ⊆ l' -> did w w' b v v' p u u' l'.
Proof. intros (A1 & A2 & A3 & A4) Hs. split; [done |]. split; [done |]. split; [by eapply frame_sub | done]. Qed.

Lemma did_sym w w' b v v' p u u' l : did w w' b v v' p u u' l -> did w w' p u u' b v v' l.
Proof. intros (A1 & A2 & A3 & A4 & A5). split; [done |]. split; [done |]. split; [by apply frame_sym | done]. Qed.

(** Bytes after the one end has handed over what it may. *)
Definition handed (B : gmap Z (list Z)) (v u : bufferevent) : gmap Z (list Z) :=
  if talks v u then <[input u := flow B v u]> (<[output v := []]> B) else B.

Lemma wants_spec w B b v p u n m : pair_is w B b v p u n m -> be_pair_wants_to_talk b p w = Ok (talks v u && negb (Z.of_nat (length (waiting B v)) =? 0)).
Proof.
  intros HP. pose proof (pair_bytes _ _ _ _ _ _ _ _ HP) as (_ & Hw & _). destruct (pair_buffers _ _ _ _ _ _ _ _ HP) as (iv & ov & iu & ou & _ & _ & Hov & _).
  destruct HP as (Hh & _ & Lv & Lu & _). unfold be_pair_wants_to_talk. rewrite (live_bev _ _ _ _ _ Lv), (live_bev _ _ _ _ _ Lu). cbn [mbind res_bind].
  rewrite (get_length_Ok _ _ _ Hov). cbn [mbind res_bind]. rewrite (holds_buffer w B _ _ _ Hh Hov Hw). pose proof Lu as (_ & _ & _ & _ & _ & Hr & _). rewrite Hr. cbn [Z.eqb]. by rewrite andb_true_r.
Qed.

(** References of both ends. *)
Lemma pair_incref w B b v p u n m : pair_is w B b v p u n m -> exists w' v' u', incref_and_lock b w = Ok w' /\ pair_is w' B b v' p u' (n + 1) (m + 1) /\ did w w' b v v' p u u' [].
Proof.
  intros (Hh & Hn & Lv & Lu & Hap & E1 & E2). pose proof Lv as (Hb & Hp & Hp0 & V). pose proof Lu as (Hb' & Hp' & Hp0' & V').
  rewrite (incref_both w b p v u) by done. eexists _, _, _. split; [done |]. split; [| split; [apply kept_set_refcnt |]; split; [apply kept_set_refcnt |]; split; [| by split]].
  - split; [by apply (holds_client w) |]. split; [done |]. split; [| split; [| split; [exact Hap | split; [exact E1 | exact E2]]]].
    + split; [cbn; by rewrite lookup_insert_ne, lookup_insert_eq |]. do 2 (split; [done |]). destruct V as (? & ? & ? & ? & ? & ? & ?). do 5 (split; [done |]). cbn. unfold sched in *. cbn. lia.
    + split; [cbn; by rewrite lookup_insert_eq |]. do 2 (split; [done |]). destruct V' as (? & ? & ? & ? & ? & ? & ?). do 5 (split; [done |]). cbn. unfold sched in *. cbn. lia.
  - split; [done |]. split; [| done]. intros x H1 H2. cbn. by rewrite !lookup_insert_ne.
Qed.

Lemma pair_decref w B b v p u n m : pair_is w B b v p u (n + 1) (m + 1) -> 1 <= n -> 1 <= m ->
  exists w' v' u', decref_and_unlock b w = Ok w' /\ pair_is w' B b v' p u' n m /\ did w w' b v v' p u u' [].
Proof.
  intros (Hh & Hn & Lv & Lu & Hap & E1 & E2) H1 H2. pose proof Lv as (Hb & Hp & Hp0 & V). pose proof Lu as (Hb' & Hp' & Hp0' & V').
  assert (Hs : 0 <= sched v /\ 0 <= sched u) by (unfold sched; destruct (deferred_flags v =? 0), (deferred_flags u =? 0); lia).
  rewrite (decref_both w b p v u) by (done || lia). eexists _, _, _. split; [done |]. split; [| split; [apply kept_set_refcnt |]; split; [apply kept_set_refcnt |]; split; [| by split]].
  - split; [by apply (holds_client w) |]. split; [done |]. split; [| split; [| split; [exact Hap | split; [exact E1 | exact E2]]]].
    + split; [cbn; by rewrite lookup_insert_eq |]. do 2 (split; [done |]). destruct V as (? & ? & ? & ? & ? & ? & ?). do 5 (split; [done |]). cbn. unfold sched in *. cbn. lia.
    + split; [cbn; by rewrite lookup_insert_ne, lookup_insert_eq |]. do 2 (split; [done |]). destruct V' as (? & ? & ? & ? & ? & ? & ?). do 5 (split; [done |]). cbn. unfold sched in *. cbn. lia.
  - split; [done |]. split; [| done]. intros x Hx1 Hx2. cbn. by rewrite !lookup_insert_ne.
Qed.

End facts.

Section ends.
Context {U : Type} (alloc : Z -> Z -> bool) (run_cb : evbuffer_cb_entry -> Z -> evbuffer_cb_info -> heap (event_base U) -> res (heap (event_base U))).
Context (user_cb : Z -> called_for -> Z -> Z -> heap (event_base U) -> res (heap (event_base U))) (Hquiet : quiet_cb run_cb).
Implicit Types (w : heap (event_base U)).

(** Handing over when there is something to hand over. *)
Lemma talk_spec w B b v p u n m : pair_is w B b v p u n m -> Z.of_nat (length (flow B v u)) < 2 ^ 63 ->
  exists w' v' u', (talk ← be_pair_wants_to_talk b p w; if talk : bool then be_pair_transfer alloc run_cb user_cb b p false w else Ok w) = Ok w' /\
    pair_is w' (handed B v u) b v' p u' n m /\ did w w' b v v' p u u' [output v; input u] /\
    (talks v u = true -> waiting B v <> [] -> readcb u <> NULL -> wm_read_low u = 0 -> due u').
Proof.
  intros HP Hl. rewrite (wants_spec _ _ _ _ _ _ _ _ HP). cbn [mbind res_bind]. pose proof (pair_bytes _ _ _ _ _ _ _ _ HP) as (_ & Hw & Ha & _). unfold handed.
  destruct (talks v u); cbn [andb].
  2:{ exists w, v, u. split; [done |]. split; [done |]. split; [apply did_refl | done]. }
  unfold flow in *. rewrite length_app in Hl. destruct (Z.eqb_spec (Z.of_nat (length (waiting B v))) 0) as [Hz | Hz]; cbn [negb].
  - assert (E : waiting B v = []) by (destruct (waiting B v); [done | cbn in Hz; lia]). rewrite E in *. rewrite app_nil_r, (insert_id B (output v)), insert_id by done.
    exists w, v, u. split; [done |]. split; [done |]. split; [apply did_refl | done].
  - destruct (transfer_spec alloc run_cb user_cb w B b v p u n m (waiting B v) (arrived B u) false HP Hw Ha) as (w' & v' & u' & E & HP' & K1 & K2 & F & D1 & D2 & D3); [lia | |].
    + intros w' info Hc Hi. destruct HP as (_ & Hn & Lv & Lu & _). rewrite <- Hc in Lv, Lu. by eapply Hquiet.
    + exists w', v', u'. split; [done |]. split; [done |]. split; [by repeat (split; [done |]) |]. intros _ _ Hr Hm. apply D1; [done | lia].
Qed.

Lemma handed_kept B v v' u u' : kept_bev v v' -> kept_bev u u' -> handed B v' u' = handed B v u.
Proof. by intros (? & ? & ? & ? & ? & ->) (? & ? & ? & ? & ? & ->). Qed.

(** The callback of the output when there is new data. *)
Lemma outbuf_data w B b v p u n m info : pair_is w B b v p u n m -> 1 <= n -> 1 <= m -> Z.of_nat (length (flow B v u)) < 2 ^ 63 -> n_deleted info < n_added info ->
  exists w' v' u', be_pair_outbuf_cb alloc run_cb user_cb info b w = Ok w' /\ pair_is w' (handed B v u) b v' p u' n m /\ did w w' b v v' p u u' [output v; input u] /\
    (talks v u = true -> waiting B v <> [] -> readcb u <> NULL -> wm_read_low u = 0 -> due u').
Proof.
  intros HP Hn Hm Hl Hi. pose proof HP as (_ & _ & Lv & _). unfold be_pair_outbuf_cb. rewrite (live_bev _ _ _ _ _ Lv). cbn [mbind res_bind].
  destruct (pair_incref w B b v p u n m HP) as (w1 & v1 & u1 & -> & HP1 & D1). cbn [mbind res_bind]. rewrite Z.gtb_ltb, (proj2 (Z.ltb_lt _ _)) by done.
  pose proof Lv as (_ & Hp & Hp0 & _). rewrite Hp, (proj2 (Z.eqb_neq p NULL)) by done. cbn [andb negb].
  pose proof D1 as (K1 & K2 & _). destruct (kept_ends _ _ K1) as (I1 & O1 & E1 & R1 & M1), (kept_ends _ _ K2) as (I2 & O2 & E2 & R2 & M2).
  assert (Ef : flow B v1 u1 = flow B v u) by (unfold flow, arrived, waiting; congruence). assert (Et : talks v1 u1 = talks v u) by (unfold talks; congruence).
  destruct (talk_spec w1 B b v1 p u1 (n + 1) (m + 1) HP1) as (w2 & v2 & u2 & -> & HP2 & D2 & Hd); [by rewrite Ef |]. cbn [mbind res_bind].
  rewrite (handed_kept _ _ _ _ _ K1 K2) in HP2. rewrite O1, I2 in D2.
  destruct (pair_decref w2 _ b v2 p u2 n m HP2 Hn Hm) as (w3 & v3 & u3 & E & HP3 & D3). exists w3, v3, u3. split; [done |]. split; [done |]. split.
  - eapply did_trans; [by eapply did_sub, list_subseteq_nil |]. eapply did_trans; [exact D2 | by eapply did_sub, list_subseteq_nil].
  - intros Ht Hw Hr Hwm. apply D3, Hd; [congruence | unfold waiting in *; congruence | congruence | congruence].
Qed.
End ends.

(** ** What the users call *)

Section calls.
Context {U : Type} (alloc : Z -> Z -> bool) (user_cb : Z -> called_for -> Z -> Z -> heap (event_base U) -> res (heap (event_base U))) (fuel : nat).
Implicit Types (w : heap (event_base U)).

#[local] Abbreviation oom := (exists a n, alloc a n = false).
#[local] Abbreviation cbs := (run_cb alloc user_cb (S (S fuel))).

(** One buffer of the pair changes. *)
Lemma pair_output w B b v p u n m w1 B1 e1 : pair_is w B b v p u n m -> buffers w1 = <[output v := e1]> (buffers w) -> client w1 = client w -> holds w1 B1 -> out_attr b e1 -> pair_is w1 B1 b v p u n m.
Proof.
  intros (_ & Hn & Lv & Lu & Hap & [(iv & Hiv & Aiv) _] & [(iu & Hiu & Aiu) (ou & Hou & Aou)]) Eb Ec Hh He. pose proof Hap as (N1 & N2 & N3 & N4 & N5 & N6).
  unfold pair_is, end_is, buf_is. rewrite Ec, Eb. split; [done |]. split; [done |]. split; [done |]. split; [done |]. split; [done |]. split; split.
  - exists iv. by rewrite lookup_insert_ne.
  - exists e1. by rewrite lookup_insert_eq.
  - exists iu. by rewrite lookup_insert_ne.
  - exists ou. by rewrite lookup_insert_ne.
Qed.

Lemma pair_input w B b v p u n m w1 B1 e1 : pair_is w B b v p u n m -> buffers w1 = <[input v := e1]> (buffers w) -> client w1 = client w -> holds w1 B1 -> in_attr e1 -> pair_is w1 B1 b v p u n m.
Proof.
  intros (_ & Hn & Lv & Lu & Hap & [_ (ov & Hov & Aov)] & [(iu & Hiu & Aiu) (ou & Hou & Aou)]) Eb Ec Hh He. pose proof Hap as (N1 & N2 & N3 & N4 & N5 & N6).
  unfold pair_is, end_is, buf_is. rewrite Ec, Eb. split; [done |]. split; [done |]. split; [done |]. split; [done |]. split; [done |]. split; split.
  - exists e1. by rewrite lookup_insert_eq.
  - exists ov. by rewrite lookup_insert_ne.
  - exists iu. by rewrite lookup_insert_ne.
  - exists ou. by rewrite lookup_insert_ne.
Qed.

Lemma write_spec w B b v p u n m xs : at_rest w B b v p u n m -> 1 <= n -> 1 <= m -> Z.of_nat (length xs) <= 2 ^ 60 -> Z.of_nat (length (flow B v u)) + Z.of_nat (length xs) < 2 ^ 63 ->
  exists r w' v' u' B', bufferevent_write alloc cbs b (Some <$> xs) w = Ok (r, w') /\ pair_is w' B' b v' p u' n m /\ did w w' b v v' p u u' [output v; input u] /\
    ((r = 0 /\ B' = handed (<[output v := waiting B v ++ xs]> B) v u /\ (talks v u = true -> xs <> [] -> readcb u <> NULL -> wm_read_low u = 0 -> due u')) \/
     (r = -1 /\ B' = B /\ oom)).
Proof.
  intros (HP & Hr & _) Hn Hm Hl Hs. destruct (pair_bytes _ _ _ _ _ _ _ _ HP) as (_ & Hw & Ha & _). destruct (pair_buffers _ _ _ _ _ _ _ _ HP) as (_ & ov & _ & _ & _ & _ & Hov & Aov & _).
  pose proof HP as (Hh & _ & Lv & _ & (_ & _ & _ & _ & N5 & _) & _). destruct Aov as (O1 & O2 & O3 & O4 & O5 & O6). unfold bufferevent_write. rewrite (live_bev _ _ _ _ _ Lv). cbn [mbind res_bind].
  unfold flow in Hs. rewrite length_app in Hs. unfold evbuffer_add.
  destruct (add_holds alloc w B (output v) ov (waiting B v) xs Hh Hov Hw O2 Hl) as (ok & w1 & e1 & -> & U1 & (K1 & K2 & K3 & K4) & Hd1 & H); [lia |]. cbn [mbind res_bind].
  assert (Hf1 : frame w w1 b p [output v; input u]).
  { destruct U1 as (U1 & Uc & _). split; [| by rewrite Uc]. intros x Hx. rewrite U1, lookup_insert_ne; [done | set_solver]. }
  assert (Hdid1 : did w w1 b v v p u u [output v; input u]) by (do 2 (split; [apply kept_bev_refl |]); by split).
  destruct H as [(-> & Hh1 & Ha1) | (-> & Hh1 & Ha1 & Ho)]; cbn [negb].
  2:{ cbn [mbind res_bind Z.eqb]. exists (-1), w1, v, u, B. split; [done |]. split; [| split; [done | by right]].
      eapply (pair_output w B b v p u n m w1 B e1); [done | apply U1 | apply U1 | done |]. split_and!; congruence. }
  rewrite O5, Z.add_0_l, (wrap_small 64 (Z.of_nat (length xs))) in Ha1 by lia. set (B1 := <[output v := waiting B v ++ xs]> B) in *.
  assert (HP1 : forall w2 x, buffers w2 = <[output v := set_counts e1 0 0]> (buffers w) -> client w2 = client w -> holds w2 x -> pair_is w2 x b v p u n m).
  { intros w2 x E1 E2 E3. eapply (pair_output w B b v p u n m w2 x (set_counts e1 0 0)); try done. split_and!; cbn; congruence. }
  assert (Hf : flow B1 v u = flow B v u ++ xs).
  { unfold flow, arrived, waiting, B1. rewrite lookup_insert_eq, lookup_insert_ne by done. cbn. by rewrite app_assoc. }
  pose proof (upd_lookup _ _ _ _ U1) as He1. unfold evbuffer_invoke_callbacks_, evbuffer_run_callbacks. rewrite (buf_at_Ok _ _ _ He1). cbn [mbind res_bind].
  rewrite K4, O4, bool_decide_false by done. rewrite Ha1, Hd1, O6. change (0 =? 0) with true. rewrite andb_true_r.
  destruct (Z.eqb_spec (Z.of_nat (length xs)) 0) as [Hz | Hz].
  - assert (xs = []) as -> by (destruct xs; [done | cbn in Hz; lia]). cbn [mbind res_bind]. exists 0, w1, v, u, B1. split; [done |]. split; [| split; [done |]].
    + eapply (pair_output w B b v p u n m w1 B1 e1); [done | apply U1 | apply U1 | done |]. split_and!; congruence.
    + left. split; [done |]. split; [| done]. unfold handed. destruct (talks v u) eqn:Et; [| done]. rewrite Hf, app_nil_r. unfold flow. rewrite (Hr eq_refl), app_nil_r.
      assert (EB : B1 = B) by (unfold B1; rewrite app_nil_r; by apply insert_id). rewrite EB. rewrite (Hr eq_refl) in Hw. by rewrite (insert_id B (output v) []), insert_id.
  - set (w2 := put_buf (output v) _ w1). assert (Hp2 : pair_is w2 B1 b v p u n m).
    { apply HP1; [cbn; destruct U1 as (-> & _); by rewrite insert_insert_eq | apply U1 |]. by apply (holds_same w1 _ (output v) e1). }
    cbn [call_each cb_flags]. change (Z.land EVBUFFER_CB_ENABLED EVBUFFER_CB_ENABLED =? EVBUFFER_CB_ENABLED) with true. cbn [negb].
    cbn [run_cb cb_func cbarg]. change (BE_PAIR_OUTBUF_CB =? BE_PAIR_OUTBUF_CB) with true. cbn iota.
    destruct (outbuf_data alloc (run_cb alloc user_cb (S fuel)) user_cb (run_cb_quiet alloc user_cb fuel) w2 B1 b v p u n m
      (MkInfo (u64 (total_len e1 + 0 - Z.of_nat (length xs))) (Z.of_nat (length xs)) 0)) as (w3 & v3 & u3 & E3 & HP3 & D3 & Hd3); [done | done | done | rewrite Hf, length_app; unfold flow; rewrite length_app; lia | cbn; lia |].
    cbn [run_cb] in E3. cbn [run_cb]. rewrite E3. cbn [mbind res_bind]. exists 0, w3, v3, u3, (handed B1 v u). split; [done |]. split; [done |]. split.
    + eapply did_trans; [| exact D3]. destruct Hdid1 as (? & ? & (F1 & F2 & F3) & ?). split; [done |]. split; [done |]. split; [| done]. split; [| by split].
      intros x Hx. cbn. rewrite lookup_insert_ne by set_solver. by apply F1.
    + left. split; [done |]. split; [done |]. intros Ht Hx. apply Hd3; [done |]. unfold waiting, B1. rewrite lookup_insert_eq. cbn. by intros [_ ?]%app_eq_nil.
Qed.

(** *** What handing over leaves alone *)

Lemma handed_bytes B v u : apart v u ->
  waiting (handed B v u) v = (if talks v u then [] else waiting B v) /\ waiting (handed B v u) u = waiting B u /\
  arrived (handed B v u) u = (if talks v u then flow B v u else arrived B u) /\ arrived (handed B v u) v = arrived B v.
Proof.
  intros (N1 & N2 & N3 & N4 & N5 & N6). unfold handed. destruct (talks v u); [| done]. unfold waiting, arrived.
  split; [by rewrite lookup_insert_ne, lookup_insert_eq |]. split; [by rewrite !lookup_insert_ne |]. split; [by rewrite lookup_insert_eq | by rewrite !lookup_insert_ne].
Qed.

Lemma handed_flow B v u : apart v u -> flow (handed B v u) v u = flow B v u /\ flow (handed B v u) u v = flow B u v.
Proof.
  intros Hap. destruct (handed_bytes B v u Hap) as (E1 & E2 & E3 & E4). unfold flow at 1 3. rewrite E1, E2, E3, E4. split; [| done].
  destruct (talks v u); [apply app_nil_r | done].
Qed.

Lemma handed_rest w B b v p u n m : pair_is w B b v p u n m -> (talks v u = true -> waiting B v = []) -> handed B v u = B.
Proof.
  intros HP Hr. destruct (pair_bytes _ _ _ _ _ _ _ _ HP) as (_ & Hw & Ha & _). unfold handed. destruct (talks v u); [| done]. unfold flow. rewrite (Hr eq_refl), app_nil_r in *.
  by rewrite (insert_id B (output v) []), insert_id.
Qed.

Lemma flow_kept B v v' u u' : kept_bev v v' -> kept_bev u u' -> flow B v' u' = flow B v u /\ talks v' u' = talks v u /\ waiting B v' = waiting B v /\ arrived B u' = arrived B u.
Proof. by intros (? & ? & ? & ? & ? & ->) (? & ? & ? & ? & ? & ->). Qed.

Lemma rest_sym w B b v p u n m : at_rest w B b v p u n m -> at_rest w B p u b v m n.
Proof. intros (HP & H1 & H2). split; [by apply pair_sym | by split]. Qed.

Lemma apart_sym v u : apart v u -> apart u v.
Proof. intros (A1 & A2 & A3 & A4 & A5 & A6). by split_and!. Qed.

(** Handed over both ways, a pair is at rest. *)
Lemma handed_at_rest w B b v v' p u u' n m : pair_is w (handed (handed B u v) v u) b v' p u' n m -> kept_bev v v' -> kept_bev u u' -> apart v u -> at_rest w (handed (handed B u v) v u) b v' p u' n m.
Proof.
  intros HP Kv Ku Hap. destruct (handed_bytes (handed B u v) v u Hap) as (E1 & E2 & _). destruct (handed_bytes B u v (apart_sym _ _ Hap)) as (E3 & _).
  destruct (flow_kept (handed (handed B u v) v u) _ _ _ _ Kv Ku) as (_ & T1 & W1 & _). destruct (flow_kept (handed (handed B u v) v u) _ _ _ _ Ku Kv) as (_ & T2 & W2 & _).
  split; [done |]. rewrite T1, T2, W1, W2, E1, E2, E3. split; intros ->; done.
Qed.

Lemma has_lor x y f : has (Z.lor x y) f = has x f || has y f.
Proof.
  unfold has. rewrite Z.land_lor_distr_l. destruct (Z.eqb_spec (Z.land x f) 0) as [-> | Hx]; cbn [negb orb]; [by rewrite Z.lor_0_l |].
  rewrite (proj2 (Z.eqb_neq _ 0)); [done |]. intros [? _]%Z.lor_eq_0_iff. done.
Qed.

(** *** Reading *)

Lemma read_spec w B b v p u n m k : at_rest w B b v p u n m -> 0 <= k < 2 ^ 64 -> Z.min k (Z.of_nat (length (arrived B v))) < 2 ^ 31 ->
  exists w', bufferevent_read cbs b k w = Ok (Z.of_nat (length (take (Z.to_nat k) (arrived B v))), Some <$> take (Z.to_nat k) (arrived B v), w') /\
    at_rest w' (<[input v := drop (Z.to_nat k) (arrived B v)]> B) b v p u n m /\ did w w' b v v p u u [input v].
Proof.
  intros (HP & H1 & H2) Hk Hm. destruct (pair_bytes _ _ _ _ _ _ _ _ HP) as (Ha & Hw & _). destruct (pair_buffers _ _ _ _ _ _ _ _ HP) as (iv & _ & _ & _ & Hiv & (I1 & I2 & I3 & I4) & _).
  pose proof HP as (Hh & _ & Lv & _ & (N1 & N2 & N3 & N4 & N5 & N6) & _). unfold bufferevent_read. rewrite (live_bev _ _ _ _ _ Lv). cbn [mbind res_bind].
  destruct (remove_holds cbs w B (input v) iv (arrived B v) k Hh Hiv Ha I1 I4 Hk Hm) as (w' & e' & -> & U' & (K1 & K2 & K3 & K4) & Hh'). cbn [mbind res_bind].
  exists w'. rewrite wrap_small by (rewrite length_take; lia). split; [done |]. split.
  - split; [eapply pair_input; [done | apply U' | apply U' | done | split_and!; congruence] |]. unfold waiting in *. by rewrite !lookup_insert_ne by done.
  - do 2 (split; [apply kept_bev_refl |]). split; [| by split]. destruct U' as (E1 & E2 & _). split; [| by rewrite E2]. intros x Hx. rewrite E1, lookup_insert_ne by set_solver. done.
Qed.

(** *** Enabling *)

Lemma pair_enable_spec w B b v p u n m ev : pair_is w B b v p u n m -> 1 <= n -> 1 <= m -> Z.of_nat (length (flow B v u)) < 2 ^ 63 -> Z.of_nat (length (flow B u v)) < 2 ^ 63 ->
  (has ev EV_READ = false -> talks u v = true -> waiting B u = []) -> (has ev EV_WRITE = false -> talks v u = true -> waiting B v = []) ->
  exists w' v' u', be_pair_enable alloc cbs user_cb b ev w = Ok w' /\ at_rest w' (handed (handed B u v) v u) b v' p u' n m /\
    did w w' b v v' p u u' [input v; output v; input u; output u].
Proof.
  intros HP Hn Hm Hl1 Hl2 Hr Hw. pose proof HP as (_ & _ & Lv & _ & Hap & _). pose proof Lv as (_ & Hp & Hp0 & _). unfold be_pair_enable. rewrite (live_bev _ _ _ _ _ Lv). cbn [mbind res_bind].
  rewrite Hp, (proj2 (Z.eqb_neq p NULL)) by done. cbn [negb]. rewrite !andb_true_r.
  destruct (pair_incref w B b v p u n m HP) as (w1 & v1 & u1 & -> & HP1 & D1). cbn [mbind res_bind]. pose proof D1 as (K1 & K2 & _).
  destruct (flow_kept B _ _ _ _ K2 K1) as (F1 & T1 & W1 & _). destruct (kept_ends _ _ K1) as (I1 & O1 & _). destruct (kept_ends _ _ K2) as (I2 & O2 & _).
  assert (G : exists w2 v2 u2, (if has ev EV_READ then talk ← be_pair_wants_to_talk p b w1; if talk : bool then be_pair_transfer alloc cbs user_cb p b false w1 else Ok w1 else Ok w1) = Ok w2 /\
    pair_is w2 (handed B u v) b v2 p u2 (n + 1) (m + 1) /\ did w1 w2 b v1 v2 p u1 u2 [input v; output v; input u; output u]).
  { destruct (has ev EV_READ).
    - destruct (talk_spec alloc cbs user_cb (run_cb_quiet alloc user_cb (S fuel)) w1 B p u1 b v1 (m + 1) (n + 1)) as (w2 & u2 & v2 & E & HP2 & D2 & _); [by apply pair_sym | by rewrite F1 |].
      exists w2, v2, u2. split; [exact E |]. rewrite (handed_kept _ _ _ _ _ K2 K1) in HP2. split; [by apply pair_sym |]. apply did_sym. eapply did_sub; [exact D2 |]. rewrite O2, I1. set_solver.
    - exists w1, v1, u1. split; [done |]. rewrite (handed_rest w B p u b v m n) by (by apply pair_sym || auto). split; [done | apply did_refl]. }
  destruct G as (w2 & v2 & u2 & -> & HP2 & D2). cbn [mbind res_bind]. destruct (did_trans _ _ _ _ _ _ _ _ _ _ _ _ (did_sub _ _ _ _ _ _ _ _ _ _ D1 (list_subseteq_nil _)) D2) as (K3 & K4 & D3).
  destruct (handed_flow B u v (apart_sym _ _ Hap)) as (F2 & F3). destruct (handed_bytes B u v (apart_sym _ _ Hap)) as (_ & W3 & _).
  destruct (flow_kept (handed B u v) _ _ _ _ K3 K4) as (F4 & T4 & W4 & _). destruct (kept_ends _ _ K3) as (I3 & O3 & _). destruct (kept_ends _ _ K4) as (I4 & O4 & _).
  assert (G : exists w3 v3 u3, (if has ev EV_WRITE then talk ← be_pair_wants_to_talk b p w2; if talk : bool then be_pair_transfer alloc cbs user_cb b p false w2 else Ok w2 else Ok w2) = Ok w3 /\
    pair_is w3 (handed (handed B u v) v u) b v3 p u3 (n + 1) (m + 1) /\ did w2 w3 b v2 v3 p u2 u3 [input v; output v; input u; output u]).
  { destruct (has ev EV_WRITE).
    - destruct (talk_spec alloc cbs user_cb (run_cb_quiet alloc user_cb (S fuel)) w2 _ b v2 p u2 (n + 1) (m + 1) HP2) as (w3 & v3 & u3 & E & HP3 & D4 & _); [by rewrite F4, F3 |].
      exists w3, v3, u3. split; [exact E |]. rewrite (handed_kept _ _ _ _ _ K3 K4) in HP3. split; [done |]. eapply did_sub; [exact D4 |]. rewrite O3, I4. set_solver.
    - exists w2, v2, u2. split; [done |]. split; [| apply did_refl]. rewrite <- (handed_kept _ _ _ _ _ K3 K4). rewrite (handed_rest w2 (handed B u v) b v2 p u2 (n + 1) (m + 1)); [done | done |].
      rewrite T4, W4, W3. auto. }
  destruct G as (w3 & v3 & u3 & -> & HP3 & D4). cbn [mbind res_bind].
  destruct (pair_decref w3 _ b v3 p u3 n m HP3 Hn Hm) as (w4 & v4 & u4 & E & HP4 & D5). exists w4, v4, u4. split; [done |].
  assert (D6 : did w w4 b v v4 p u u4 [input v; output v; input u; output u]).
  { eapply did_trans; [by split; [exact K3 | split; [exact K4 | exact D3]] |]. eapply did_trans; [exact D4 |]. by eapply did_sub, list_subseteq_nil. }
  split; [| done]. destruct D6 as (K5 & K6 & _). by apply handed_at_rest.
Qed.

(** The bufferevent [b] is put back with other references, or with other events enabled. *)
Lemma live_put w b p v v1 n n1 : live (client w) b p v n -> partner v1 = partner v -> options v1 = options v -> wm_read_high v1 = wm_read_high v ->
  read_suspended v1 = read_suspended v -> write_suspended v1 = write_suspended v -> deferred_flags v1 = deferred_flags v -> bev_refcnt v1 - n1 = bev_refcnt v - n -> 1 <= n1 ->
  live (client (put_bev b v1 w)) b p v1 n1.
Proof.
  intros (Hb & Hp & Hp0 & Ho & Hh & Hr & Hw & Hq & Href & _) E1 E2 E3 E4 E5 E6 E7 E8. split; [cbn; apply lookup_insert_eq |].
  split; [congruence |]. split; [done |]. split; [congruence |]. split; [congruence |]. split; [congruence |]. split; [congruence |].
  split; [unfold queued in *; cbn; by rewrite E6 |]. unfold sched in *. rewrite E6. split; [lia | done].
Qed.

Lemma pair_put w B b v v1 p u n n1 m : pair_is w B b v p u n m -> live (client (put_bev b v1 w)) b p v1 n1 -> input v1 = input v -> output v1 = output v ->
  pair_is (put_bev b v1 w) B b v1 p u n1 m.
Proof.
  intros (Hh & Hn & Lv & Lu & Hap & E1 & E2) L1 Hi Ho. split; [by apply (holds_client w) |]. split; [done |]. split; [done |].
  split; [by eapply live_other; [exact Lu | apply (put_bev_upd w b v1) |] |]. unfold apart, end_is in *. rewrite Hi, Ho. by split.
Qed.

Lemma put_frame w b p v l : frame w (put_bev b v w) b p l.
Proof. split; [done |]. split; [| done]. intros x H1 H2. cbn. by rewrite lookup_insert_ne. Qed.

Definition enabling (v : bufferevent) (ev : Z) : bufferevent := set_enabled v (Z.lor (enabled v) ev).
Definition disabling (v : bufferevent) (ev : Z) : bufferevent := set_enabled v (Z.land (enabled v) (Z.lnot ev)).

Lemma enable_spec w B b v p u n m ev : at_rest w B b v p u n m -> 1 <= n -> 1 <= m -> Z.of_nat (length (flow B v u)) < 2 ^ 63 -> Z.of_nat (length (flow B u v)) < 2 ^ 63 ->
  exists w' v' u', bufferevent_enable alloc cbs user_cb b ev w = Ok w' /\ at_rest w' (handed (handed B u (enabling v ev)) (enabling v ev) u) b v' p u' n m /\
    kept_bev (enabling v ev) v' /\ kept_bev u u' /\ frame w w' b p [input v; output v; input u; output u].
Proof.
  intros (HP & Hr1 & Hr2) Hn Hm Hl1 Hl2. pose proof HP as (_ & Hne & Lv & _ & Hap & _). pose proof Lv as (Hb & _ & _ & _ & _ & Hs1 & Hs2 & _).
  unfold bufferevent_enable, incref. rewrite (bev_at_Ok _ _ _ Hb). cbn [mbind res_bind]. set (v1 := set_bev_refcnt v (bev_refcnt v + 1)).
  assert (HP1 : pair_is (put_bev b v1 w) B b v1 p u (n + 1) m) by (eapply pair_put; [done | eapply live_put; try done; cbn; lia | done | done]).
  pose proof HP1 as (_ & _ & Lv1 & _). rewrite (live_bev _ _ _ _ _ Lv1). cbn [mbind res_bind read_suspended write_suspended v1 set_bev_refcnt]. rewrite Hs1, Hs2. cbn [Z.eqb].
  set (v2 := set_enabled v1 (Z.lor (enabled v1) ev)).
  assert (HP2 : pair_is (put_bev b v2 (put_bev b v1 w)) B b v2 p u (n + 1) m) by (eapply pair_put; [done | eapply live_put; try done; cbn; lia | done | done]).
  set (w2 := put_bev b v2 (put_bev b v1 w)) in *. assert (Kv : kept_bev (enabling v ev) v2) by (apply (kept_set_refcnt (enabling v ev))).
  destruct (flow_kept B _ _ _ _ Kv (kept_bev_refl u)) as (_ & T1 & _). destruct (flow_kept B _ _ _ _ (kept_bev_refl u) Kv) as (_ & T2 & _).
  assert (Hq1 : has ev EV_READ = false -> talks u v2 = true -> waiting B u = []).
  { intros H. rewrite T2. unfold talks. cbn [enabled enabling set_enabled]. rewrite has_lor, H, orb_false_r. exact Hr2. }
  assert (Hq2 : has ev EV_WRITE = false -> talks v2 u = true -> waiting B v2 = []).
  { intros H. rewrite T1. unfold talks. cbn [enabled enabling set_enabled]. rewrite has_lor, H, orb_false_r. exact Hr1. }
  assert (Hf2 : frame w w2 b p [input v; output v; input u; output u]) by (eapply frame_trans; apply put_frame).
  assert (G : exists w3 v3 u3, (if ev =? 0 then Ok w2 else be_pair_enable alloc cbs user_cb b ev w2) = Ok w3 /\
    at_rest w3 (handed (handed B u v2) v2 u) b v3 p u3 (n + 1) m /\ did w2 w3 b v2 v3 p u u3 [input v; output v; input u; output u]).
  { destruct (Z.eqb_spec ev 0) as [-> | He].
    - exists w2, v2, u. split; [done |]. pose proof (handed_rest w2 B p u b v2 m (n + 1)) as E1. rewrite E1 by (by apply pair_sym || by apply Hq1).
      rewrite (handed_rest w2 B b v2 p u (n + 1) m) by (done || by apply Hq2). split; [| apply did_refl]. split; [done |]. split; [by apply Hq2 | by apply Hq1].
    - destruct (pair_enable_spec w2 B b v2 p u (n + 1) m ev) as (w3 & v3 & u3 & E & R & D); [done | lia | lia | done | done | done | done |]. by exists w3, v3, u3. }
  destruct G as (w3 & v3 & u3 & -> & (HP3 & R1 & R2) & (K3 & K4 & F3 & _)). cbn [mbind res_bind]. pose proof HP3 as (_ & _ & Lv3 & _). pose proof Lv3 as (Hb3 & _ & _ & _ & _ & _ & _ & _ & Href & _).
  assert (Hs : 0 <= sched v3) by (unfold sched; destruct (deferred_flags v3 =? 0); lia). rewrite (decref_spec w3 b v3) by (done || lia).
  rewrite (handed_kept _ _ _ _ _ Kv (kept_bev_refl u)), (handed_kept _ _ _ _ _ (kept_bev_refl u) Kv) in *.
  eexists _, (set_bev_refcnt v3 (bev_refcnt v3 - 1)), u3. split; [done |]. split.
  - split; [| by split]. eapply pair_put; [done | eapply live_put; try done; cbn; lia | done | done].
  - split; [eapply kept_bev_trans; [exact Kv |]; eapply kept_bev_trans; [exact K3 | apply kept_set_refcnt] |]. split; [done |].
    eapply frame_trans; [exact Hf2 |]. eapply frame_trans; [exact F3 | apply put_frame].
Qed.

Lemma has_less x f g : has (Z.land x (Z.lnot f)) g = true -> has x g = true.
Proof.
  unfold has. intros H. apply negb_true_iff, Z.eqb_neq in H. apply negb_true_iff, Z.eqb_neq. intros Hz. apply H.
  by rewrite <- Z.land_assoc, (Z.land_comm (Z.lnot f)), Z.land_assoc, Hz.
Qed.

Lemma disable_spec w B b v p u n m ev : at_rest w B b v p u n m -> 1 <= n ->
  bufferevent_disable b ev w = Ok (put_bev b (disabling v ev) w) /\ at_rest (put_bev b (disabling v ev) w) B b (disabling v ev) p u n m.
Proof.
  intros (HP & R1 & R2) Hn. pose proof HP as (_ & _ & Lv & _). unfold bufferevent_disable. rewrite (live_bev _ _ _ _ _ Lv). split; [done |].
  split; [eapply pair_put; [done | by eapply live_put | done | done] |]. unfold talks in *. cbn [enabled disabling set_enabled]. change (waiting B (disabling v ev)) with (waiting B v).
  split; intros [H1 H2]%andb_prop; [apply R1 | apply R2]; apply andb_true_intro; split; try done; by eapply has_less.
Qed.
End calls.

(** ** A pair as two pipes *)

Inductive pair_op := Write (xs : list Z) | Read (k : Z) | Enable (ev : Z) | Disable (ev : Z).

(** What the end [b] calls: the result and the bytes it gets.  Callbacks of buffers call others to a depth of two. *)
Definition act {U} alloc (user_cb : Z -> called_for -> Z -> Z -> heap (event_base U) -> res (heap (event_base U))) (fuel : nat)
    (o : pair_op) (b : Z) (w : heap (event_base U)) : res (Z * block Z * heap (event_base U)) :=
  let cbs := run_cb alloc user_cb (S (S fuel)) in
  match o with
  | Write xs => '(r, w) ← bufferevent_write alloc cbs b (Some <$> xs) w; Ok (r, [], w)
  | Read k => bufferevent_read cbs b k w
  | Enable ev => w ← bufferevent_enable alloc cbs user_cb b ev w; Ok (0, [], w)
  | Disable ev => w ← bufferevent_disable b ev w; Ok (0, [], w)
  end.

(** Within the bounds of the machine. *)
Definition fits (B : gmap Z (list Z)) (v u : bufferevent) (o : pair_op) : Prop :=
  Z.of_nat (length (flow B v u)) < 2 ^ 63 /\ Z.of_nat (length (flow B u v)) < 2 ^ 63 /\
  match o with
  | Write xs => Z.of_nat (length xs) <= 2 ^ 60 /\ Z.of_nat (length (flow B v u)) + Z.of_nat (length xs) < 2 ^ 63
  | Read k => 0 <= k < 2 ^ 64 /\ Z.min k (Z.of_nat (length (arrived B v))) < 2 ^ 31
  | _ => True
  end.

(** [out] and [inc] are the bytes on their way from and to the end that calls; [here] those of the latter that have arrived. *)
Definition piped (alloc : Z -> Z -> bool) (o : pair_op) (here out inc : list Z) (ret : Z) (got out' inc' : list Z) : Prop :=
  match o with
  | Write xs => got = [] /\ inc' = inc /\ ((ret = 0 /\ out' = out ++ xs) \/ (ret = -1 /\ out' = out /\ exists a n, alloc a n = false))
  | Read k => ret = Z.of_nat (length got) /\ got = take (Z.to_nat k) here /\ inc = got ++ inc' /\ out' = out
  | Enable _ | Disable _ => ret = 0 /\ got = [] /\ out' = out /\ inc' = inc
  end.

Definition enabled_after (o : pair_op) (f : Z) : Z :=
  match o with Enable ev => Z.lor f ev | Disable ev => Z.land f (Z.lnot ev) | _ => f end.

(** Only the buffers of the pair have changed. *)
Definition others_same (B B' : gmap Z (list Z)) (v u : bufferevent) : Prop :=
  forall x, x ∉ [input v; output v; input u; output u] -> B' !! x = B !! x.

Section pipes.
Context {U : Type} (alloc : Z -> Z -> bool) (user_cb : Z -> called_for -> Z -> Z -> heap (event_base U) -> res (heap (event_base U))) (fuel : nat).
Implicit Types (w : heap (event_base U)).

Lemma handed_others B v u : others_same B (handed B v u) v u /\ others_same B (handed B v u) u v.
Proof. unfold handed. destruct (talks v u); [| done]. split; intros x Hx; rewrite !lookup_insert_ne by set_solver; done. Qed.

#[local] Abbreviation acts w B b v p u n m o := (exists ret got w' B' v' u', act alloc user_cb fuel o b w = Ok (ret, Some <$> got, w') /\ at_rest w' B' b v' p u' n m /\
  piped alloc o (arrived B v) (flow B v u) (flow B u v) ret got (flow B' v' u') (flow B' u' v') /\
  enabled v' = enabled_after o (enabled v) /\ enabled u' = enabled u /\ others_same B B' v u /\ frame w w' b p [input v; output v; input u; output u]).

Lemma write_acts w B b v p u n m xs : at_rest w B b v p u n m -> 1 <= n -> 1 <= m -> fits B v u (Write xs) -> acts w B b v p u n m (Write xs).
Proof.
  intros HR Hn Hm (_ & _ & Hl & Hs). pose proof HR as (HP & R1 & R2). pose proof HP as (_ & _ & _ & _ & Hap & _).
  destruct (write_spec alloc user_cb fuel w B b v p u n m xs HR Hn Hm Hl Hs) as (r & w' & v' & u' & B' & E & HP' & (Kv & Ku & F & _) & H). cbn [act]. rewrite E. cbn [mbind res_bind].
  destruct (kept_ends _ _ Kv) as (_ & _ & Ev & _). destruct (kept_ends _ _ Ku) as (_ & _ & Eu & _). destruct (flow_kept B' _ _ _ _ Kv Ku) as (F1 & T1 & W1 & _). destruct (flow_kept B' _ _ _ _ Ku Kv) as (F2 & T2 & W2 & _).
  assert (Hfr : frame w w' b p [input v; output v; input u; output u]) by (eapply frame_sub; [exact F | set_solver]).
  exists r, [], w', B', v', u'. split; [done |]. destruct H as [(-> & -> & _) | (-> & -> & Ho)].
  - set (B1 := <[output v := waiting B v ++ xs]> B) in *. pose proof Hap as (N1 & N2 & N3 & N4 & N5 & N6).
    assert (G : flow B1 v u = flow B v u ++ xs /\ flow B1 u v = flow B u v /\ waiting B1 u = waiting B u).
    { unfold flow, waiting, arrived, B1. rewrite lookup_insert_eq, !lookup_insert_ne by done. cbn. by rewrite app_assoc. }
    destruct G as (G1 & G2 & G3). destruct (handed_flow B1 v u Hap) as (F3 & F4). destruct (handed_bytes B1 v u Hap) as (W3 & W4 & _). split; [| split; [| split; [done |]; split; [done |]; split; [| done]]].
    + split; [done |]. rewrite T1, T2, W1, W2, W3, W4, G3. split; [by intros -> | done].
    + rewrite F1, F2, F3, F4, G1, G2. split; [done |]. split; [done |]. by left.
    + intros x Hx. destruct (handed_others B1 v u) as [Hh _]. rewrite (Hh x Hx). unfold B1. rewrite lookup_insert_ne by set_solver. done.
  - split; [split; [done |]; by rewrite T1, T2, W1, W2 |]. split; [| done]. rewrite F1, F2. split; [done |]. split; [done |]. by right.
Qed.

Lemma read_acts w B b v p u n m k : at_rest w B b v p u n m -> fits B v u (Read k) -> acts w B b v p u n m (Read k).
Proof.
  intros HR (_ & _ & Hk & Hm). pose proof HR as ((_ & _ & _ & _ & (N1 & N2 & N3 & N4 & N5 & N6) & _) & _). destruct (read_spec alloc user_cb fuel w B b v p u n m k HR Hk Hm) as (w' & E & R & (_ & _ & F & _)). cbn [act]. rewrite E.
  eexists _, _, w', _, v, u. split; [done |]. split; [done |]. split; [| split; [done |]; split; [done |]; split; [| eapply frame_sub; [exact F | set_solver]]].
  - split; [done |]. split; [done |]. unfold flow, arrived, waiting. rewrite lookup_insert_eq, !lookup_insert_ne by done. cbn. split; [| done]. by rewrite app_assoc, take_drop.
  - intros x Hx. rewrite lookup_insert_ne by set_solver. done.
Qed.

Lemma enable_acts w B b v p u n m ev : at_rest w B b v p u n m -> 1 <= n -> 1 <= m -> fits B v u (Enable ev) -> acts w B b v p u n m (Enable ev).
Proof.
  intros HR Hn Hm (Hl1 & Hl2 & _). pose proof HR as ((_ & _ & _ & _ & Hap & _) & _). destruct (enable_spec alloc user_cb fuel w B b v p u n m ev HR Hn Hm Hl1 Hl2) as (w' & v' & u' & E & R & Kv & Ku & F). cbn [act]. rewrite E. cbn [mbind res_bind].
  set (v2 := enabling v ev) in *. destruct (kept_ends _ _ Kv) as (_ & _ & Ev & _). destruct (kept_ends _ _ Ku) as (_ & _ & Eu & _).
  set (B' := handed (handed B u v2) v2 u) in *. destruct (flow_kept B' _ _ _ _ Kv Ku) as (F1 & _). destruct (flow_kept B' _ _ _ _ Ku Kv) as (F2 & _).
  destruct (handed_flow (handed B u v2) v2 u Hap) as (F3 & F4). destruct (handed_flow B u v2 (apart_sym _ _ Hap)) as (F5 & F6).
  exists 0, [], w', B', v', u'. split; [done |]. split; [done |]. split; [| split; [done |]; split; [done |]; split; [| done]].
  - rewrite F1, F2. unfold B'. rewrite F3, F4, F5, F6. done.
  - intros x Hx. unfold B'. destruct (handed_others (handed B u v2) v2 u) as [H1 _], (handed_others B u v2) as [_ H2]. rewrite (H1 x Hx). by apply H2.
Qed.

(** C26. A pair is two pipes: of two ends without a high read mark, whichever writes, reads, enables or disables, what is written to the one end and what is read at the other are the same bytes
    in the same order, with those between still on their way, and nothing is lost, repeated or changed; when the one end writes and the
    other reads, nothing waits, so all that was written can be read.  Writing fails for want of memory only, and then nothing
    has changed.  Enabling and disabling lose nothing.  No other buffer and no other bufferevent is touched.  (A high read mark holds data back:
    [high_mark_waits].) *)
Theorem pair_is_pipe w B b v p u n m o : at_rest w B b v p u n m -> 1 <= n -> 1 <= m -> fits B v u o ->
  exists ret got w' B' v' u', act alloc user_cb fuel o b w = Ok (ret, Some <$> got, w') /\ at_rest w' B' b v' p u' n m /\
    piped alloc o (arrived B v) (flow B v u) (flow B u v) ret got (flow B' v' u') (flow B' u' v') /\
    enabled v' = enabled_after o (enabled v) /\ enabled u' = enabled u /\ others_same B B' v u /\ frame w w' b p [input v; output v; input u; output u].
Proof.
  intros HR Hn Hm Hf. destruct o as [xs | k | ev | ev].
  - by apply write_acts.
  - by apply read_acts.
  - by apply enable_acts.
  - destruct (disable_spec w B b v p u n m ev HR Hn) as (E & R). cbn [act]. rewrite E. eexists 0, [], _, B, (disabling v ev), u. split; [done |]. split; [done |].
    split; [done |]. split; [done |]. split; [done |]. split; [done | apply put_frame].
Qed.
End pipes.

(** ** New pairs *)

Section new_pairs.
Context {U : Type} (alloc : Z -> Z -> bool) (sizeof_pair : Z) (Halloc : forall a n, alloc a n = true).
Implicit Types (w : heap (event_base U)).

Definition blank : evbuffer := MkEvbuffer NULL NULL First 0 0 0 false false 1 [].

Lemma new_buffer w B : holds w B -> exists w1, evbuffer_new alloc w = (fresh w, w1) /\ holds w1 (<[fresh w := []]> B) /\ B !! fresh w = None /\ buffers w !! fresh w = None /\ 0 < fresh w /\
  chains w1 = chains w /\ buffers w1 = <[fresh w := blank]> (buffers w) /\ client w1 = client w /\ fresh w1 = fresh w + 1.
Proof.
  intros (css & Ha & <-). unfold evbuffer_new. rewrite Halloc. eexists. split; [done |].
  destruct (all_new w css blank (fresh w) (MkHeap (chains w) (<[fresh w := blank]> (buffers w)) (fresh w + 1) (client w))) as [Hno Ha']; try done; [by apply holds_zero |].
  split; [exists (<[fresh w := []]> css); split; [exact Ha' | by rewrite fmap_insert] |]. split; [by rewrite lookup_fmap, Hno |].
  destruct Ha as [Hb (_ & _ & _ & H0)]. specialize (Hb (fresh w)). rewrite Hno in Hb. split; [by destruct (buffers w !! fresh w) | done].
Qed.

Definition new_bev (b opts p : Z) : bufferevent := MkBev (b + 1) (b + 2) 0 0 0 0 EV_WRITE NULL NULL NULL NULL false false false 0 0 0 0 opts 1 p.

Lemma elt_spec w B opts : holds w B -> Z.land opts (Z.lor BEV_OPT_DEFER_CALLBACKS BEV_OPT_UNLOCK_CALLBACKS) <> BEV_OPT_UNLOCK_CALLBACKS ->
  exists w', let b := fresh w in bufferevent_pair_elt_new alloc sizeof_pair opts w = Ok (b, w') /\ 0 < b /\ holds w' (<[b + 2 := []]> (<[b + 1 := []]> B)) /\
    buffers w' = <[b + 2 := set_callbacks blank [MkCb BE_PAIR_OUTBUF_CB b EVBUFFER_CB_ENABLED]]> (<[b + 1 := blank]> (buffers w)) /\ fresh w' = b + 3 /\
    client w' = client (put_bev b (new_bev b opts NULL) w).
Proof.
  intros Hh Ho. unfold bufferevent_pair_elt_new. rewrite Halloc. cbn [negb]. set (w0 := MkHeap (chains w) (buffers w) (fresh w + 1) (client w)).
  assert (Hh0 : holds w0 B).
  { destruct Hh as (css & [Hb (H1 & H2 & H3 & H4)] & HB). exists css. split; [| done]. split.
    - intros b2. specialize (Hb b2). cbn. destruct (buffers w !! b2), (css !! b2); try done. destruct Hb. split; [done | lia].
    - split; [done |]. split; [done |]. split; [| cbn; lia]. eapply Forall_impl; [exact H3 |]. cbn. lia. }
  destruct (new_buffer w0 B Hh0) as (w1 & E1 & Hh1 & _ & _ & _ & C1 & B1 & L1 & F1). destruct (new_buffer w1 _ Hh1) as (w2 & E2 & Hh2 & _ & _ & _ & C2 & B2 & L2 & F2).
  assert (H0 : 0 < fresh w) by (destruct Hh as (css & [_ (_ & _ & _ & ?)] & _); done). rewrite F1 in *. cbn [fresh w0] in *. replace (fresh w + 1 + 1) with (fresh w + 2) in * by lia.
  unfold bufferevent_init_common_. rewrite E1, (proj2 (Z.eqb_neq _ NULL)) by (unfold NULL; lia). rewrite E2, (proj2 (Z.eqb_neq _ NULL)) by (unfold NULL; lia).
  rewrite (proj2 (Z.eqb_neq _ _)) by done. cbn [mbind res_bind negb]. unfold bev_at. cbn [client put_bev set_base bevs]. rewrite lookup_insert_eq. cbn [of_option mbind res_bind output].
  unfold evbuffer_add_cb. rewrite Halloc. cbn [negb]. unfold buf_at. cbn [buffers put_bev set_base]. rewrite B2, lookup_insert_eq. cbn [of_option mbind res_bind negb].
  eexists. cbv zeta. split; [done |]. split; [done |]. split.
  - apply (holds_same _ _ (fresh w + 2) blank); [by apply (holds_client w2) | cbn; by rewrite B2, lookup_insert_eq | done..].
  - split; [cbn; rewrite B2, insert_insert_eq, B1; done |]. split; [cbn; lia |]. cbn. by rewrite L2, L1.
Qed.

(** The queues know nothing of what is not there yet. *)
Definition clean w : Prop := forall b, fresh w <= b -> Deferred b ∉ activequeue (client w) /\ Deferred b ∉ active_later_queue (client w).

Lemma freeze_holds w B b e start : holds w B -> buffers w !! b = Some e ->
  exists w', evbuffer_freeze b start w = Ok w' /\ holds w' B /\ buffers w' = <[b := if start then set_freeze e true (freeze_end e) else set_freeze e (freeze_start e) true]> (buffers w) /\
    client w' = client w /\ fresh w' = fresh w.
Proof.
  intros Hh He. unfold evbuffer_freeze. rewrite (buf_at_Ok _ _ _ He). cbn [mbind res_bind]. eexists. split; [done |]. split; [| done].
  by destruct start; apply (holds_same w B b e).
Qed.

Lemma defer_bits x : Z.testbit x 2 = true -> Z.land x (Z.lor BEV_OPT_DEFER_CALLBACKS BEV_OPT_UNLOCK_CALLBACKS) <> BEV_OPT_UNLOCK_CALLBACKS /\ has x BEV_OPT_DEFER_CALLBACKS = true.
Proof.
  intros H. split.
  - intros E. apply (f_equal (fun z => Z.testbit z 2)) in E. rewrite Z.land_spec, H in E. done.
  - unfold has. apply negb_true_iff, Z.eqb_neq. intros E. apply (f_equal (fun z => Z.testbit z 2)) in E. rewrite Z.land_spec, H in E. done.
Qed.

Lemma new_live (e : event_base U) b opts p : bevs e !! b = Some (new_bev b opts p) -> p <> NULL -> has opts BEV_OPT_DEFER_CALLBACKS = true ->
  Deferred b ∉ activequeue e -> Deferred b ∉ active_later_queue e -> live e b p (new_bev b opts p) 1.
Proof. intros Hb Hp Ho Ha Hl. split; [done |]. do 6 (split; [done |]). split; [by left | done]. Qed.

(** A new pair: nothing on its way, and both ends write. *)
Lemma pair_new_spec w B opts : holds w B -> clean w ->
  exists w' B' b v p u, bufferevent_pair_new alloc sizeof_pair opts w = Ok (Some (b, p), w') /\ at_rest w' B' b v p u 1 1 /\
    flow B' v u = [] /\ flow B' u v = [] /\ enabled v = EV_WRITE /\ enabled u = EV_WRITE /\ wm_read_low v = 0 /\ (forall x, x < fresh w -> B' !! x = B !! x).
Proof.
  intros Hh Hcl. unfold bufferevent_pair_new. set (o1 := Z.lor opts BEV_OPT_DEFER_CALLBACKS). set (o2 := Z.land o1 (Z.lnot BEV_OPT_THREADSAFE)).
  assert (T1 : Z.testbit o1 2 = true) by (unfold o1; by rewrite Z.lor_spec, orb_true_r). assert (T2 : Z.testbit o2 2 = true) by (unfold o2; rewrite Z.land_spec, T1; done).
  destruct (defer_bits o1 T1) as [Hd1 Hh1], (defer_bits o2 T2) as [Hd2 Hh2]. set (b := fresh w).
  destruct (elt_spec w B o1 Hh Hd1) as (w1 & E1 & H0 & Hw1 & B1 & F1 & L1). fold b in E1, H0, Hw1, B1, F1, L1. rewrite E1. cbn [mbind res_bind]. rewrite (proj2 (Z.eqb_neq b NULL)) by (unfold NULL; lia).
  destruct (elt_spec w1 _ o2 Hw1 Hd2) as (w2 & E2 & _ & Hw2 & B2 & F2 & L2). rewrite F1 in E2, Hw2, B2, F2, L2. assert (G : exists p, p = b + 3) by eauto. destruct G as [p Hpb]. rewrite <- Hpb in *. rewrite E2. cbn [mbind res_bind].
  rewrite (proj2 (Z.eqb_neq p NULL)) by (unfold NULL; lia). assert (Hbp : b <> p) by lia.
  assert (Eb : bevs (client w2) !! b = Some (new_bev b o1 NULL)) by (rewrite L2; cbn; rewrite lookup_insert_ne by done; rewrite L1; cbn; by rewrite lookup_insert_eq).
  rewrite (bev_at_Ok _ _ _ Eb). cbn [mbind res_bind]. set (w3 := put_bev b _ w2). assert (Ep : bevs (client w3) !! p = Some (new_bev p o2 NULL)) by (cbn; rewrite lookup_insert_ne by done; rewrite L2; cbn; by rewrite lookup_insert_eq).
  rewrite (bev_at_Ok _ _ _ Ep). cbn [mbind res_bind]. set (w4 := put_bev p _ w3). set (v := new_bev b o1 p). set (u := new_bev p o2 b).
  assert (Hw4 : holds w4 (<[p + 2 := []]> (<[p + 1 := []]> (<[b + 2 := []]> (<[b + 1 := []]> B))))) by (by apply (holds_client w2)). change (input (new_bev b o1 NULL)) with (b + 1). change (output (new_bev b o1 NULL)) with (b + 2).
  change (input (new_bev p o2 NULL)) with (p + 1). change (output (new_bev p o2 NULL)) with (p + 2). set (B' := <[p + 2 := []]> _) in *.
  assert (B4 : buffers w4 = buffers w2) by done. rewrite B2, B1 in B4.
  destruct (freeze_holds w4 _ (b + 1) blank false Hw4) as (w5 & -> & Hw5 & B5 & L5 & F5); [rewrite B4; by repeat first [rewrite lookup_insert_eq | rewrite lookup_insert_ne by lia] |]. cbn [mbind res_bind].
  destruct (freeze_holds w5 _ (b + 2) (set_callbacks blank [MkCb BE_PAIR_OUTBUF_CB b EVBUFFER_CB_ENABLED]) true Hw5) as (w6 & -> & Hw6 & B6 & L6 & F6); [rewrite B5, B4; by repeat first [rewrite lookup_insert_eq | rewrite lookup_insert_ne by lia] |]. cbn [mbind res_bind].
  destruct (freeze_holds w6 _ (p + 1) blank false Hw6) as (w7 & -> & Hw7 & B7 & L7 & F7); [rewrite B6, B5, B4; by repeat first [rewrite lookup_insert_eq | rewrite lookup_insert_ne by lia] |]. cbn [mbind res_bind].
  destruct (freeze_holds w7 _ (p + 2) (set_callbacks blank [MkCb BE_PAIR_OUTBUF_CB p EVBUFFER_CB_ENABLED]) true Hw7) as (w8 & -> & Hw8 & B8 & L8 & F8); [rewrite B7, B6, B5, B4; by repeat first [rewrite lookup_insert_eq | rewrite lookup_insert_ne by lia] |]. cbn [mbind res_bind].
  assert (L : client w8 = client w4) by congruence.
  assert (Q : forall x, b <= x -> Deferred x ∉ activequeue (client w8) /\ Deferred x ∉ active_later_queue (client w8)) by (intros x Hx; rewrite L; cbn; rewrite L2; cbn; rewrite L1; cbn; by apply Hcl).
  assert (Hrest : forall x, B' !! x = if decide (x = b + 1 \/ x = b + 2 \/ x = p + 1 \/ x = p + 2) then Some [] else B !! x).
  { intros x. unfold B'. case_decide as Hx; [destruct Hx as [-> | [-> | [-> | ->]]]; by repeat first [rewrite lookup_insert_eq | rewrite lookup_insert_ne by lia] | by rewrite !lookup_insert_ne by lia]. }
  assert (Hemp : flow B' v u = [] /\ flow B' u v = [] /\ waiting B' v = [] /\ waiting B' u = []).
  { unfold flow, arrived, waiting. cbn [input output v u new_bev]. rewrite !Hrest, !decide_True by lia. done. }
  destruct Hemp as (Hf1 & Hf2 & Hq1 & Hq2). exists w8, B', b, v, p, u. split; [done |]. split; [| split; [done |]; split; [done |]; split; [done |]; split; [done |]; split; [done |]].
  2:{ intros x Hx. rewrite Hrest, decide_False by lia. done. }
  split; [| by split]. split; [done |]. split; [done |].
  split; [rewrite <- L in *; apply new_live; [| unfold NULL; lia | done | apply Q; lia | apply Q; lia] |].
  { rewrite L. cbn. rewrite lookup_insert_ne by done. by rewrite lookup_insert_eq. }
  split; [apply new_live; [| unfold NULL; lia | done | apply Q; lia | apply Q; lia] |].
  { rewrite L. cbn. by rewrite lookup_insert_eq. }
  split; [unfold apart; cbn [input output v u new_bev]; split_and!; lia |].
  split; split; cbn [input output v u new_bev]; eexists; (split; [rewrite B8, B7, B6, B5; by repeat first [rewrite lookup_insert_eq | rewrite lookup_insert_ne by lia] | by split_and!]).
Qed.
End new_pairs.

(** ** A pair, and something written to it *)

Definition no_user (f : Z) (k : called_for) (b arg : Z) (w : heap (event_base unit)) : res (heap (event_base unit)) := Ok w.
Definition base0 : heap (event_base unit) := MkHeap ∅ ∅ 1 (MkBase ∅ [] [] 0 tt).

Lemma base0_holds : holds base0 ∅.
Proof. exists ∅. split; [split; [done | split_and!; [done | constructor | constructor | done]] | apply fmap_empty]. Qed.

Lemma base0_clean : clean base0.
Proof. intros b _. split; apply not_elem_of_nil. Qed.

Lemma pair_is_pipe_witness : exists w B b v p u, at_rest w B b v p u 1 1 /\ fits B v u (Write [1; 2; 3]) /\
  exists ret got w' B' v' u', act alloc_all no_user 0 (Write [1; 2; 3]) b w = Ok (ret, Some <$> got, w') /\ at_rest w' B' b v' p u' 1 1 /\
    piped alloc_all (Write [1; 2; 3]) (arrived B v) (flow B v u) (flow B u v) ret got (flow B' v' u') (flow B' u' v') /\
    enabled v' = enabled v /\ enabled u' = enabled u /\ others_same B B' v u /\ frame w w' b p [input v; output v; input u; output u].
Proof.
  destruct (pair_new_spec alloc_all 600 (fun _ _ => eq_refl) base0 ∅ 15 base0_holds base0_clean) as (w & B & b & v & p & u & _ & HR & F1 & F2 & _).
  assert (Hf : fits B v u (Write [1; 2; 3])) by (unfold fits; rewrite F1, F2; cbn; lia). exists w, B, b, v, p, u. split; [exact HR |]. split; [exact Hf |].
  exact (pair_is_pipe alloc_all no_user 0 w B b v p u 1 1 (Write [1; 2; 3]) HR ltac:(done) ltac:(done) Hf).
Defined.

(** With a high read mark of 4 the other end gives no more than that at once: of ten bytes written, four are read and six have to wait, though
    the one end writes and the other reads. *)
Definition marked_pair : res (Z * Z * Z) :=
  let cbs := run_cb alloc_all no_user 2 in
  '(ends, w) ← bufferevent_pair_new alloc_all 600 0 base0;
  '(a, b) ← of_option ends;
  w ← bufferevent_enable alloc_all cbs no_user b EV_READ w;
  w ← bufferevent_setwatermark alloc_all cbs no_user b EV_READ 0 4 w;
  '(_, w) ← bufferevent_write alloc_all cbs a (Some <$> seqZ 0 10) w;
  va ← bev_at a w; vb ← bev_at b w;
  waits ← evbuffer_get_length (output va) w; here ← evbuffer_get_length (input vb) w;
  '(n, _, w) ← bufferevent_read cbs b 100 w;
  Ok (waits, here, n).

Example high_mark_waits : marked_pair = Ok (6, 4, 4).
Proof. vm_compute. reflexivity. Qed.
