(* ===== verification/SocketRead.v ===== *)
(** * The input of a socket

    [bufferevent_sock.c] of libevent, as far as a connection is read: what its bufferevent does when the socket is readable,
    with the high mark that holds reading back and the callbacks of its input.  The bufferevents are those of [Bufferevent],
    without a partner; the client state of the heap also has the bufferevents whose read event the event base waits for.
    Timeouts and rate limits are not modelled: as none is set, as much as [MAX_SINGLE_READ_DEFAULT] is read at once.  The
    bytes that come in are at the end of the input, none is lost, and the high mark is not passed. *)

From S2P Require Import Prelude Evbuffer EvChains EvBytes EvRead Bufferevent BevPair.

Definition EV_TIMEOUT : Z := 0x01.
Definition BEV_EVENT_ERROR : Z := 0x20.
Definition BEV_EVENT_TIMEOUT : Z := 0x40.
Definition MAX_SINGLE_READ_DEFAULT : Z := 16384.

(** What [errno] says. *)
Inductive read_error := Retriable | Refused | Failed.

Section code.
Context {F : Type} `{!Socket F} (errno : F -> read_error) (alloc : Z -> Z -> bool) (add_ok : gset Z -> bool).
Context (user_cb : Z -> called_for -> Z -> Z -> heap (event_base (gset Z)) -> res (heap (event_base (gset Z)))).
Implicit Types (w : heap (event_base (gset Z))).

(** The read events that are waited for; adding one may fail. *)
Definition set_reads (s : gset Z) w : heap (event_base (gset Z)) :=
  let e := client w in set_base (MkBase (bevs e) (activequeue e) (active_later_queue e) (n_deferreds_queued e) s) w.

(** [be_socket_enable] and [be_socket_disable], for reading. *)
Definition be_socket_enable (b : Z) w : Z * heap (event_base (gset Z)) :=
  if add_ok (user (client w)) then (0, set_reads ({[b]} ∪ user (client w)) w) else (-1, w).

Definition be_socket_disable (b : Z) w : heap (event_base (gset Z)) := set_reads (user (client w) ∖ {[b]}) w.

Definition sock_suspend_read (b what : Z) w : res (heap (event_base (gset Z))) :=
  v ← bev_at b w;
  let w := if read_suspended v =? 0 then be_socket_disable b w else w in
  Ok (put_bev b (set_suspended v (Z.lor (read_suspended v) what) (write_suspended v)) w).

Definition sock_unsuspend_read (b what : Z) w : res (heap (event_base (gset Z))) :=
  v ← bev_at b w;
  let s := Z.land (read_suspended v) (Z.lnot what) in
  let w := put_bev b (set_suspended v s (write_suspended v)) w in
  Ok (if (s =? 0) && has (enabled v) EV_READ then (be_socket_enable b w).2 else w).

Definition sock_inbuf_wm_cb (buf b : Z) w : res (heap (event_base (gset Z))) :=
  size ← evbuffer_get_length buf w;
  v ← bev_at b w;
  if size >=? wm_read_high v then sock_suspend_read b BEV_SUSPEND_WM w else sock_unsuspend_read b BEV_SUSPEND_WM w.

(** The callbacks of the input; others are not called here. *)
Definition sock_cb (cbent : evbuffer_cb_entry) (buf : Z) (info : evbuffer_cb_info) w : res (heap (event_base (gset Z))) :=
  if cb_func cbent =? BUFFEREVENT_INBUF_WM_CB then sock_inbuf_wm_cb buf (cbarg cbent) w else UB.

Definition sock_disable_read (b : Z) w : res (heap (event_base (gset Z))) :=
  v ← bev_at b w; Ok (be_socket_disable b (put_bev b (set_enabled v (Z.land (enabled v) (Z.lnot EV_READ))) w)).

(** [bufferevent_setwatermark] for reading. *)
Definition sock_setwatermark (b lowmark highmark : Z) w : res (heap (event_base (gset Z))) :=
  v ← bev_at b w;
  let w := put_bev b (set_marks v lowmark highmark (wm_write_low v) (wm_write_high v)) w in
  if negb (highmark =? 0) then
    w ← (if read_watermarks_cb v then Ok w else
           '(ok, w) ← evbuffer_add_cb alloc (input v) BUFFEREVENT_INBUF_WM_CB b w;
           _ ← assert_ok (ok : bool); v ← bev_at b w; Ok (put_bev b (set_wm_cb v) w));
    w ← mark_flags (fun f => Z.lor f EVBUFFER_CB_ENABLED) (input v) w;
    n ← evbuffer_get_length (input v) w;
    if n >=? highmark then sock_suspend_read b BEV_SUSPEND_WM w else sock_unsuspend_read b BEV_SUSPEND_WM w
  else
    w ← (if read_watermarks_cb v then mark_flags (fun f => Z.land f (Z.lnot EVBUFFER_CB_ENABLED)) (input v) w else Ok w);
    sock_unsuspend_read b BEV_SUSPEND_WM w.

(** How much may be read: [None] when the high mark is reached. *)
Definition how_much (high length : Z) : option Z :=
  if high =? 0 then Some MAX_SINGLE_READ_DEFAULT else
  let howmuch := swrap 64 (high - length) in
  if howmuch <=? 0 then None else Some (Z.min howmuch MAX_SINGLE_READ_DEFAULT).

(** The label [error] of the read callback. *)
Definition read_failed (b what : Z) w : res (heap (event_base (gset Z))) :=
  w ← sock_disable_read b w; bufferevent_run_eventcb_ user_cb b what 0 w.

(** Reading, between the two references. *)
Definition read_socket (b : Z) (fd : F) w : res (F * heap (event_base (gset Z))) :=
  v ← bev_at b w;
  n ← (if wm_read_high v =? 0 then Ok 0 else evbuffer_get_length (input v) w);
  match how_much (wm_read_high v) n with
  | None => w ← sock_suspend_read b BEV_SUSPEND_WM w; Ok (fd, w)
  | Some howmuch =>
      if negb (read_suspended v =? 0) then Ok (fd, w) else
      w ← evbuffer_unfreeze (input v) false w;
      '(r, fd, w) ← evbuffer_read alloc sock_cb (input v) fd (i32 howmuch) w;
      w ← evbuffer_freeze (input v) false w;
      if r =? -1 then
        match errno fd with
        | Retriable | Refused => Ok (fd, w)
        | Failed => w ← read_failed b (Z.lor BEV_EVENT_READING BEV_EVENT_ERROR) w; Ok (fd, w)
        end
      else if r =? 0 then w ← read_failed b (Z.lor BEV_EVENT_READING BEV_EVENT_EOF) w; Ok (fd, w)
      else w ← bufferevent_trigger_nolock_ user_cb b EV_READ 0 w; Ok (fd, w)
  end.

(** [bufferevent_readcb]. *)
Definition bufferevent_readcb (b : Z) (fd : F) (event : Z) w : res (F * heap (event_base (gset Z))) :=
  w ← incref b w;
  '(fd, w) ← (if event =? EV_TIMEOUT then w ← read_failed b (Z.lor BEV_EVENT_READING BEV_EVENT_TIMEOUT) w; Ok (fd, w)
              else read_socket b fd w);
  w ← bufferevent_decref_and_unlock_ b w;
  Ok (fd, w).
End code.

(** ** What stays *)

(** All but what holds reading back, what is enabled, the pending callbacks and the references. *)
Definition like_bev (v v' : bufferevent) : Prop :=
  input v' = input v /\ output v' = output v /\ readcb v' = readcb v /\ errorcb v' = errorcb v /\ read_watermarks_cb v' = read_watermarks_cb v /\
  options v' = options v /\ wm_read_low v' = wm_read_low v /\ wm_read_high v' = wm_read_high v.

(** Only what holds reading back. *)
Definition held (v v' : bufferevent) : Prop := exists r s, v' = set_suspended v r s.

(** The bufferevent [b] is [v], its callbacks are deferred, and others than the deferred callback have references. *)
Definition sock_at {U} (w : heap (event_base U)) (b : Z) (v : bufferevent) : Prop :=
  bevs (client w) !! b = Some v /\ queued (client w) b v /\ has (options v) BEV_OPT_DEFER_CALLBACKS = true /\ 1 <= bev_refcnt v - sched v.

(** The bufferevent is [v'] and nothing else has changed but the events that are waited for. *)
Definition quiet {U} (w w' : heap (event_base U)) (b : Z) (v' : bufferevent) : Prop :=
  chains w' = chains w /\ buffers w' = buffers w /\ fresh w' = fresh w /\ bevs (client w') = <[b := v']> (bevs (client w)) /\
  activequeue (client w') = activequeue (client w) /\ active_later_queue (client w') = active_later_queue (client w).

Section sockets.
Context {U : Type}.
Implicit Types (w : heap (event_base U)).

Lemma like_refl v : like_bev v v.
Proof. by split_and!. Qed.

Lemma held_refl v : held v v.
Proof. exists (read_suspended v), (write_suspended v). by destruct v. Qed.

Lemma like_trans v1 v2 v3 : like_bev v1 v2 -> like_bev v2 v3 -> like_bev v1 v3.
Proof. intros (? & ? & ? & ? & ? & ? & ? & ?) (? & ? & ? & ? & ? & ? & ? & ?). split_and!; congruence. Qed.

Lemma like_kept v v' : kept_bev v v' -> like_bev v v'.
Proof. intros (r & x & e & f & n & ->). by split_and!. Qed.

Lemma quiet_then w w1 w2 b v1 v2 : quiet w w1 b v1 -> quiet w1 w2 b v2 -> quiet w w2 b v2.
Proof. intros (A1 & A2 & A3 & A4 & A5 & A6) (B1 & B2 & B3 & B4 & B5 & B6). split_and!; try congruence. by rewrite B4, A4, insert_insert_eq. Qed.

Lemma quiet_put w b v : quiet w (put_bev b v w) b v.
Proof. by split_and!. Qed.

Lemma quiet_bev w w' b v : quiet w w' b v -> bevs (client w') !! b = Some v.
Proof. intros (_ & _ & _ & -> & _). apply lookup_insert_eq. Qed.

Lemma quiet_queued w w' b v v' : quiet w w' b v' -> deferred_flags v' = deferred_flags v -> queued (client w) b v -> queued (client w') b v'.
Proof. intros (_ & _ & _ & _ & E1 & E2) Hf. unfold queued. by rewrite E1, E2, Hf. Qed.

Lemma quiet_holds w w' b v B : quiet w w' b v -> holds w B -> holds w' B.
Proof. intros (E1 & E2 & E3 & _) H. by eapply holds_client. Qed.

Lemma sched_flags v v' : deferred_flags v' = deferred_flags v -> sched v' = sched v.
Proof. unfold sched. by intros ->. Qed.

Lemma sock_quiet w w' b v v' : sock_at w b v -> quiet w w' b v' -> options v' = options v -> deferred_flags v' = deferred_flags v -> bev_refcnt v' = bev_refcnt v -> sock_at w' b v'.
Proof.
  intros (Hb & Hq & Ho & Hr) U1 Hop Hf Hn. split; [by eapply quiet_bev |]. split; [by eapply quiet_queued |]. rewrite Hop, (sched_flags _ _ Hf), Hn. done.
Qed.
End sockets.

(** ** Holding back *)

Section watching.
Context {F : Type} `{!Socket F} (errno : F -> read_error) (alloc : Z -> Z -> bool) (add_ok : gset Z -> bool).
Implicit Types (w : heap (event_base (gset Z))).

Lemma suspend_spec w b v what : bevs (client w) !! b = Some v ->
  exists w' r s, sock_suspend_read b what w = Ok w' /\ quiet w w' b (set_suspended v r s) /\ r = Z.lor (read_suspended v) what.
Proof.
  intros Hb. unfold sock_suspend_read. rewrite (bev_at_Ok _ _ _ Hb). cbn [mbind res_bind]. eexists _, _, _. split; [done |]. split; [| done]. by destruct (_ =? 0).
Qed.

Lemma unsuspend_spec w b v what : bevs (client w) !! b = Some v -> exists w' r s, sock_unsuspend_read add_ok b what w = Ok w' /\ quiet w w' b (set_suspended v r s).
Proof.
  intros Hb. unfold sock_unsuspend_read. rewrite (bev_at_Ok _ _ _ Hb). cbn [mbind res_bind]. eexists _, _, _. split; [done |].
  destruct (_ && _); [| done]. unfold be_socket_enable. by destruct (add_ok _).
Qed.

Lemma mark_cb_spec w b v buf e : bevs (client w) !! b = Some v -> buffers w !! buf = Some e ->
  exists w' v', sock_inbuf_wm_cb add_ok buf b w = Ok w' /\ quiet w w' b v' /\ held v v'.
Proof.
  intros Hb He. unfold sock_inbuf_wm_cb. rewrite (get_length_Ok _ _ _ He), (bev_at_Ok _ _ _ Hb). cbn [mbind res_bind].
  destruct (_ >=? _); [destruct (suspend_spec w b v BEV_SUSPEND_WM Hb) as (w' & r & s & E & Q & _) | destruct (unsuspend_spec w b v BEV_SUSPEND_WM Hb) as (w' & r & s & E & Q)];
    (exists w', (set_suspended v r s); split; [exact E |]; split; [exact Q | by exists r, s]).
Qed.

(** The callbacks that libevent gives the input of [b]. *)
Definition marks_only (b : Z) (e : evbuffer) : Prop := Forall (fun cb => cb_func cb = BUFFEREVENT_INBUF_WM_CB /\ cbarg cb = b) (callbacks e).

(** The bufferevent [b] is one that [R] relates to [v]; its buffers are there, and its input is as libevent has it, frozen at the end unless it is being read into. *)
Definition watch (R : bufferevent -> bufferevent -> Prop) (frozen : bool) (b : Z) (v : bufferevent) w : Prop :=
  exists v', R v v' /\ sock_at w b v' /\ is_Some (buffers w !! output v) /\
    exists e, buffers w !! input v = Some e /\ freeze_start e = false /\ freeze_end e = frozen /\ marks_only b e.

Lemma watch_steady R frozen b v : steady (watch R frozen b v).
Proof.
  intros w w' b' e1 e2 (v' & HR & Hs & Ho & e & He & H1 & H2 & H3) He1 (U1 & U2 & _) (K1 & K2 & _ & K4). exists v'. rewrite U1. unfold sock_at. rewrite U2. split; [done |]. split; [done |].
  split; [destruct (decide (b' = output v)) as [-> | Hn]; [rewrite lookup_insert_eq; by eexists | by rewrite lookup_insert_ne] |].
  destruct (decide (b' = input v)) as [-> | Hn]; [| rewrite lookup_insert_ne by done; by exists e]. rewrite lookup_insert_eq. exists e2. rewrite He in He1. injection He1 as <-.
  unfold marks_only. by rewrite K1, K2, K4.
Qed.

Lemma watch_quiet (R : bufferevent -> bufferevent -> Prop) frozen w w' b v v1 v' : R v v' -> sock_at w b v1 -> quiet w w' b v' -> options v' = options v1 -> deferred_flags v' = deferred_flags v1 -> bev_refcnt v' = bev_refcnt v1 ->
  watch R frozen b v w -> watch R frozen b v w'.
Proof.
  intros HR Hs Q L Hf Hn (_ & _ & _ & Ho & He). exists v'. split; [done |]. split; [by eapply sock_quiet |]. by destruct Q as (_ & -> & _).
Qed.

(** The callbacks of the input leave the buffers alone. *)
Lemma watch_alone R frozen b v e : (forall v' r s, R v v' -> R v (set_suspended v' r s)) -> marks_only b e ->
  Forall (leaves_alone (sock_cb add_ok) (watch R frozen b v) (input v)) (callbacks e).
Proof.
  intros HR He. eapply Forall_impl; [exact He |]. cbn. intros cb [Hf Ha] info w Hw. pose proof Hw as (v' & Hv & Hs & _ & e' & Hi & _). unfold sock_cb. rewrite Hf, Ha, Z.eqb_refl.
  destruct (mark_cb_spec w b v' (input v) e' (proj1 Hs) Hi) as (w' & v2 & E & Q & (r & s & ->)). exists w'. pose proof Q as (Q1 & Q2 & Q3 & _). do 4 (split; [done |]).
  eapply watch_quiet; [by apply HR | exact Hs | exact Q | done | done | done | exact Hw].
Qed.

(** ** A connection *)

(** The bufferevent [b] is [v], and its input holds [xs]. *)
Definition conn w (B : gmap Z (list Z)) (b : Z) (v : bufferevent) (xs : list Z) : Prop := watch eq true b v w /\ holds w B /\ B !! input v = Some xs.

Lemma conn_sock w B b v xs : conn w B b v xs -> sock_at w b v.
Proof. by intros ((v' & <- & Hs & _) & _). Qed.

(** The bufferevent changes. *)
Lemma conn_change w w' B b v v' xs : conn w B b v xs -> sock_at w' b v' -> chains w' = chains w -> buffers w' = buffers w -> fresh w' = fresh w -> like_bev v v' -> conn w' B b v' xs.
Proof.
  intros ((_ & _ & _ & Ho & e & He) & Hh & Hb) Hs E1 E2 E3 (L1 & L2 & _). split; [| split; [by eapply holds_client | by rewrite L1]].
  exists v'. rewrite L1, L2, E2. split; [done |]. split; [done |]. split; [done |]. by exists e.
Qed.

Lemma conn_quiet w w' B b v v' xs : conn w B b v xs -> quiet w w' b v' -> like_bev v v' -> deferred_flags v' = deferred_flags v -> bev_refcnt v' = bev_refcnt v -> conn w' B b v' xs.
Proof. intros Hc Q L Hf Hn. pose proof Q as (Q1 & Q2 & Q3 & _). eapply conn_change; [done | eapply sock_quiet; [by eapply conn_sock | done | apply L | done..] | done..]. Qed.

Lemma conn_deferred w w' B b v v' xs : conn w B b v xs -> bev_upd w w' b v' -> like_bev v v' -> queued (client w') b v' -> bev_refcnt v' - sched v' = bev_refcnt v - sched v -> conn w' B b v' xs.
Proof.
  intros Hc (E1 & E2 & E3 & E4 & _) L Hq Hn. destruct (conn_sock _ _ _ _ _ Hc) as (_ & _ & Hd & Hr). pose proof L as (_ & _ & _ & _ & _ & L6 & _).
  eapply conn_change; [done | | done..]. split; [by rewrite E4, lookup_insert_eq |]. split; [done |]. by rewrite L6, Hn.
Qed.

Lemma conn_refs w B b v xs n : conn w B b v xs -> 1 <= n - sched v -> conn (put_bev b (set_bev_refcnt v n) w) B b (set_bev_refcnt v n) xs.
Proof.
  intros Hc Hn. pose proof (conn_sock _ _ _ _ _ Hc) as (_ & Hq & Hd & _). eapply conn_change; [done | | done | done | done | by split_and!]. split; [apply lookup_insert_eq |]. by split_and!.
Qed.
End watching.

(** ** What is called back *)

(** Reading has been disabled, and the event callback is due. *)
Definition stopped (v v' : bufferevent) (what : Z) : Prop :=
  has (enabled v') EV_READ = false /\ (errorcb v <> NULL -> eventcb_pending v' = Z.lor (eventcb_pending v) what /\ deferred_flags v' <> 0).

Section calling.
Context {F : Type} `{!Socket F} `{!SocketLaws F} (errno : F -> read_error) (alloc : Z -> Z -> bool) (add_ok : gset Z -> bool).
Context (user_cb : Z -> called_for -> Z -> Z -> heap (event_base (gset Z)) -> res (heap (event_base (gset Z)))).
Implicit Types (w : heap (event_base (gset Z))) (fd : F).

Lemma scheduled w B b v xs r x e : conn w B b v xs -> exists w' v', SCHEDULE_DEFERRED b (put_bev b (set_pending v r x e) w) = Ok w' /\ conn w' B b v' xs /\ like_bev v v' /\
  enabled v' = enabled v /\ bev_refcnt v' - sched v' = bev_refcnt v - sched v /\ readcb_pending v' = r /\ eventcb_pending v' = e /\ deferred_flags v' <> 0.
Proof.
  intros Hc. pose proof (conn_sock _ _ _ _ _ Hc) as (_ & Hq & _). set (v1 := set_pending v r x e). destruct (deferred_exact (put_bev b v1 w) b v1) as (w' & f & n & -> & U & Q & Hf & Hn); [cbn; apply lookup_insert_eq | exact Hq |].
  pose proof (bev_upd_trans _ _ _ _ _ _ (put_bev_upd w b v1) U) as U2. eexists w', _. split; [done |]. split; [eapply conn_deferred; [exact Hc | exact U2 | by split_and! | exact Q | exact Hn] |].
  by split_and!.
Qed.

Lemma run_eventcb_spec w B b v xs what : conn w B b v xs -> exists w' v', bufferevent_run_eventcb_ user_cb b what 0 w = Ok w' /\ conn w' B b v' xs /\ like_bev v v' /\ enabled v' = enabled v /\
  bev_refcnt v' - sched v' = bev_refcnt v - sched v /\ (errorcb v <> NULL -> eventcb_pending v' = Z.lor (eventcb_pending v) what /\ deferred_flags v' <> 0).
Proof.
  intros Hc. pose proof (conn_sock _ _ _ _ _ Hc) as (Hb & Hq & Ho & _). unfold bufferevent_run_eventcb_. rewrite (bev_at_Ok _ _ _ Hb). cbn [mbind res_bind].
  destruct (Z.eqb_spec (errorcb v) NULL) as [Hz | Hz]; [exists w, v; split; [done |]; split; [done |]; split; [apply like_refl |]; by split_and! |].
  rewrite Z.lor_0_r, Ho. edestruct (scheduled w B b v xs) as (w' & v' & -> & H1 & H2 & H3 & H4 & _ & H5 & H6); [done |]. exists w', v'. by split_and!.
Qed.

Lemma trigger_spec w B b v xs : conn w B b v xs -> exists w' v', bufferevent_trigger_nolock_ user_cb b EV_READ 0 w = Ok w' /\ conn w' B b v' xs /\ like_bev v v' /\ enabled v' = enabled v /\
  bev_refcnt v' - sched v' = bev_refcnt v - sched v /\ (readcb v <> NULL -> wm_read_low v <= Z.of_nat (length xs) -> due v').
Proof.
  intros Hc. pose proof Hc as ((_ & <- & (Hb & Hq & Ho & _) & [eo Heo] & e & He & _) & Hh & Hx). unfold bufferevent_trigger_nolock_. rewrite (bev_at_Ok _ _ _ Hb). cbn [mbind res_bind].
  rewrite (get_length_Ok _ _ _ He), (holds_buffer w B _ e xs Hh He Hx). cbn [mbind res_bind]. change (has EV_READ EV_READ) with true. change (has 0 BEV_TRIG_IGNORE_WATERMARKS) with false. cbn [andb orb].
  assert (G : exists w' v', (if Z.of_nat (length xs) >=? wm_read_low v then bufferevent_run_readcb_ user_cb b 0 w else Ok w) = Ok w' /\ conn w' B b v' xs /\ like_bev v v' /\ enabled v' = enabled v /\
    bev_refcnt v' - sched v' = bev_refcnt v - sched v /\ (readcb v <> NULL -> wm_read_low v <= Z.of_nat (length xs) -> due v')).
  { destruct (Z.geb_spec (Z.of_nat (length xs)) (wm_read_low v)) as [Hge | Hlt]; [| exists w, v; split; [done |]; split; [done |]; split; [apply like_refl |]; split_and!; [done | done | lia]].
    unfold bufferevent_run_readcb_. rewrite (bev_at_Ok _ _ _ Hb). cbn [mbind res_bind].
    destruct (Z.eqb_spec (readcb v) NULL) as [Hz | Hz]; [exists w, v; split; [done |]; split; [done |]; split; [apply like_refl |]; by split_and! |].
    rewrite Z.lor_0_r, Ho. edestruct (scheduled w B b v xs) as (w' & v' & -> & H1 & H2 & H3 & H4 & H5 & _ & H6); [done |]. exists w', v'. by split_and!. }
  destruct G as (w' & v' & -> & Hc' & L & He' & Hn & Hd). cbn [mbind res_bind]. pose proof Hc' as ((_ & <- & (Hb' & _) & [eo' Heo'] & _) & _). rewrite (bev_at_Ok _ _ _ Hb'). cbn [mbind res_bind].
  rewrite (get_length_Ok _ _ _ Heo'). cbn [mbind res_bind]. change (has EV_READ EV_WRITE) with false. cbn [andb]. exists w', v'. by split_and!.
Qed.

Lemma failed_spec w B b v xs what : conn w B b v xs -> exists w' v', read_failed user_cb b what w = Ok w' /\ conn w' B b v' xs /\ like_bev v v' /\ stopped v v' what /\
  bev_refcnt v' - sched v' = bev_refcnt v - sched v.
Proof.
  intros Hc. pose proof (conn_sock _ _ _ _ _ Hc) as (Hb & _). unfold read_failed, sock_disable_read. rewrite (bev_at_Ok _ _ _ Hb). cbn [mbind res_bind]. set (v1 := set_enabled v _).
  assert (Hc1 : conn (be_socket_disable b (put_bev b v1 w)) B b v1 xs) by (eapply conn_quiet; [exact Hc | by split_and! | by split_and! | done | done]).
  destruct (run_eventcb_spec _ B b v1 xs what Hc1) as (w' & v' & -> & Hc' & L & He & Hn & Hd). exists w', v'. split; [done |]. split; [done |]. split; [exact L |].
  split; [split; [| exact Hd] | exact Hn]. rewrite He. unfold has. cbn. by rewrite <- Z.land_assoc, (Z.land_comm (Z.lnot EV_READ)), Z.land_lnot_diag, Z.land_0_r.
Qed.

Lemma how_much_spec high n : 0 <= high < 2 ^ 63 -> 0 <= n < 2 ^ 63 ->
  match how_much high n with Some k => 0 < k <= MAX_SINGLE_READ_DEFAULT /\ (high <> 0 -> n + k <= high) | None => high <> 0 /\ high <= n end.
Proof.
  intros Hh Hn. unfold how_much, MAX_SINGLE_READ_DEFAULT. destruct (Z.eqb_spec high 0); [done |]. rewrite swrap_small by lia. destruct (Z.leb_spec (high - n) 0); lia.
Qed.
#[local] Abbreviation trouble fd fd' := ((exists a n, alloc a n = false) \/ exists n, readv n fd = (None, fd')).

(** Why nothing has come: reading is held back, or it has ended, or there was an error that passes. *)
Definition nothing_came (v v' : bufferevent) (xs : list Z) fd fd' : Prop :=
  read_suspended v <> 0 \/ (wm_read_high v <> 0 /\ wm_read_high v <= Z.of_nat (length xs)) \/
  (stopped v v' (Z.lor BEV_EVENT_READING BEV_EVENT_EOF) /\ pending fd = []) \/
  (trouble fd fd' /\ (stopped v v' (Z.lor BEV_EVENT_READING BEV_EVENT_ERROR) \/ enabled v' = enabled v)).

(** The outcome of reading: [bs] has come. *)
Definition came w (B : gmap Z (list Z)) (b : Z) (v : bufferevent) (xs : list Z) fd (fd' : F) w' (v' : bufferevent) (bs : list Z) : Prop :=
  conn w' (<[input v := xs ++ bs]> B) b v' (xs ++ bs) /\ like_bev v v' /\ bev_refcnt v' - sched v' = bev_refcnt v - sched v /\ pending fd = bs ++ pending fd' /\
  (bs <> [] -> (wm_read_high v <> 0 -> Z.of_nat (length (xs ++ bs)) <= wm_read_high v) /\ (readcb v <> NULL -> wm_read_low v <= Z.of_nat (length (xs ++ bs)) -> due v')) /\
  (bs = [] -> nothing_came v v' xs fd fd').

Lemma read_socket_spec w B b v xs fd : conn w B b v xs -> 0 <= wm_read_high v < 2 ^ 63 -> Z.of_nat (length xs) + EVBUFFER_MAX_READ < 2 ^ 63 ->
  exists fd' w' v' bs, read_socket errno alloc add_ok user_cb b fd w = Ok (fd', w') /\ came w B b v xs fd fd' w' v' bs.
Proof.
  intros Hc Hh Hl. pose proof Hc as ((_ & <- & (Hb & Hq & Ho & Hr) & Heo & e & He & Hfs & Hfe & Hcb) & Hho & Hx). unfold EVBUFFER_MAX_READ in *. unfold read_socket. rewrite (bev_at_Ok _ _ _ Hb). cbn [mbind res_bind].
  assert (En : exists n, (if wm_read_high v =? 0 then Ok 0 else evbuffer_get_length (input v) w) = Ok n /\ 0 <= n < 2 ^ 63 /\ (wm_read_high v <> 0 -> n = Z.of_nat (length xs))).
  { destruct (Z.eqb_spec (wm_read_high v) 0); [by exists 0 |]. rewrite (get_length_Ok _ _ _ He), (holds_buffer w B _ e xs Hho He Hx). eexists. split; [done |]. lia. }
  destruct En as (n & -> & Hn & Hn'). cbn [mbind res_bind]. pose proof (how_much_spec (wm_read_high v) n Hh Hn) as Hk. assert (Hid : <[input v := xs]> B = B) by by apply insert_id.
  destruct (how_much (wm_read_high v) n) as [k |].
  2:{ destruct (suspend_spec w b v BEV_SUSPEND_WM Hb) as (w' & r & s & -> & Q & _). cbn [mbind res_bind]. exists fd, w', (set_suspended v r s), []. split; [done |]. unfold came. rewrite app_nil_r, Hid.
      split; [by eapply conn_quiet; [done | done | by split_and! | |] |]. split; [by split_and! |]. split; [done |]. split; [done |]. split; [done |]. intros _. right. left. rewrite Hn' in Hk by apply Hk. done. }
  destruct (Z.eqb_spec (read_suspended v) 0) as [Hs | Hs]; cbn [negb].
  2:{ exists fd, w, v, []. split; [done |]. unfold came. rewrite app_nil_r, Hid. split; [done |]. split; [apply like_refl |]. split; [done |]. split; [done |]. split; [done |]. intros _. by left. }
  unfold evbuffer_unfreeze. rewrite (buf_at_Ok _ _ _ He). cbn [mbind res_bind]. set (e0 := set_freeze e _ false). set (w0 := put_buf (input v) e0 w).
  assert (Hh0 : holds w0 B) by (by apply (holds_same w B _ e)). assert (He0 : buffers w0 !! input v = Some e0) by apply lookup_insert_eq.
  assert (Hal : Forall (leaves_alone (sock_cb add_ok) (watch held false b v) (input v)) (callbacks e0)).
  { apply watch_alone; [| exact Hcb]. intros v' r s (r0 & s0 & ->). by exists r, s. }
  assert (Hin : forall e', is_Some (<[input v := e']> (buffers w) !! output v)) by (intros e'; destruct (decide (output v = input v)) as [-> | Hne]; [rewrite lookup_insert_eq; by eexists | by rewrite lookup_insert_ne]).
  assert (HI : watch held false b v w0) by (exists v; split; [apply held_refl |]; split; [by split_and! |]; split; [apply Hin | by exists e0]).
  unfold MAX_SINGLE_READ_DEFAULT in Hk. assert (Ek : i32 k = k) by (apply swrap_small; lia). rewrite Ek.
  destruct (read_holds alloc (sock_cb add_ok) _ w0 B (input v) e0 xs fd k Hh0 He0 Hx eq_refl Hal (watch_steady held false b v) HI Hl)
    as (r & fd' & w1 & e1 & bs & -> & _ & _ & Hh1 & (v1 & Hv1 & Hs1 & Ho1 & e2 & He1 & Hfs1 & Hfe1 & Hcb1) & Hp & Hle & _ & H). cbn [mbind res_bind].
  unfold evbuffer_freeze. rewrite (buf_at_Ok _ _ _ He1). cbn [mbind res_bind]. set (w2 := put_buf (input v) _ w1).
  destruct Hv1 as (rs & ws & ->). set (v1 := set_suspended v rs ws) in *.
  assert (Hc2 : conn w2 (<[input v := xs ++ bs]> B) b v1 (xs ++ bs)).
  { split; [| split; [by apply (holds_same w1 _ _ e2) | apply lookup_insert_eq]]. exists v1. split; [done |]. split; [exact Hs1 |].
    split; [cbn [w2 buffers put_buf output v1 set_suspended]; destruct (decide (output v = input v)) as [-> | Hne]; [rewrite lookup_insert_eq; by eexists | by rewrite lookup_insert_ne] |].
    eexists. split; [apply lookup_insert_eq |]. by split_and!. }
  assert (Hhigh : wm_read_high v <> 0 -> Z.of_nat (length (xs ++ bs)) <= wm_read_high v) by (intros Hz; rewrite length_app; pose proof (proj2 Hk Hz); specialize (Hn' Hz); specialize (Hle ltac:(lia)); lia).
  assert (Hlike : like_bev v v1) by by split_and!.
  destruct H as [(-> & Hend) | (-> & -> & Htr)].
  - rewrite (proj2 (Z.eqb_neq _ (-1))) by lia. destruct (Z.eqb_spec (Z.of_nat (length bs)) 0) as [Hz | Hz].
    + destruct bs; [| cbn in Hz; lia]. destruct (failed_spec w2 _ b v1 _ (Z.lor BEV_EVENT_READING BEV_EVENT_EOF) Hc2) as (w' & v' & -> & Hc' & L & Hst & Hn2). cbn [mbind res_bind].
      exists fd', w', v', []. split; [done |]. split; [done |]. split; [by eapply like_trans |]. split; [exact Hn2 |]. split; [done |]. split; [done |]. intros _. right. right. left. split; [exact Hst | apply Hend; lia].
    + destruct (trigger_spec w2 _ b v1 _ Hc2) as (w' & v' & -> & Hc' & L & He' & Hn2 & Hd). cbn [mbind res_bind].
      exists fd', w', v', bs. split; [done |]. split; [done |]. split; [by eapply like_trans |]. split; [exact Hn2 |]. split; [done |]. split; [intros _; by split | by intros ->].
  - rewrite Z.eqb_refl. assert (Ht : trouble fd fd') by (destruct Htr as [[_ ?] | ?]; auto).
    assert (G : forall w' v', conn w' (<[input v := xs ++ []]> B) b v' (xs ++ []) -> like_bev v1 v' -> bev_refcnt v' - sched v' = bev_refcnt v1 - sched v1 ->
      (stopped v1 v' (Z.lor BEV_EVENT_READING BEV_EVENT_ERROR) \/ enabled v' = enabled v1) -> came w B b v xs fd fd' w' v' []).
    { intros w' v' Hc' L Hn2 Hw. split; [done |]. split; [by eapply like_trans |]. split; [exact Hn2 |]. split; [done |]. split; [done |]. intros _. right. right. right. by split. }
    destruct (errno fd'); [exists fd', w2, v1, []; split; [done |]; apply G; [done | apply like_refl | done | by right].. |].
    destruct (failed_spec w2 _ b v1 _ (Z.lor BEV_EVENT_READING BEV_EVENT_ERROR) Hc2) as (w' & v' & -> & Hc' & L & Hst & Hn2). cbn [mbind res_bind].
    exists fd', w', v', []. split; [done |]. apply G; [done | done | done | by left].
Qed.
Lemma sched_range v : 0 <= sched v <= 1.
Proof. unfold sched. destruct (_ =? 0); lia. Qed.

(** The two references around what the read callback does. *)
Lemma between_refs w B b v xs (body : heap (event_base (gset Z)) -> res (F * heap (event_base (gset Z)))) : conn w B b v xs -> let v1 := set_bev_refcnt v (bev_refcnt v + 1) in
  conn (put_bev b v1 w) B b v1 xs /\
  forall fd' w' B' v' xs', body (put_bev b v1 w) = Ok (fd', w') -> conn w' B' b v' xs' -> bev_refcnt v' - sched v' = bev_refcnt v1 - sched v1 ->
    let v2 := set_bev_refcnt v' (bev_refcnt v' - 1) in
    (w ← incref b w; '(fd, w) ← body w; w ← bufferevent_decref_and_unlock_ b w; Ok (fd, w)) = Ok (fd', put_bev b v2 w') /\ conn (put_bev b v2 w') B' b v2 xs' /\
    bev_refcnt v2 - sched v2 = bev_refcnt v - sched v.
Proof.
  intros Hc v1. pose proof (conn_sock _ _ _ _ _ Hc) as (Hb & _ & _ & Hr). split; [apply conn_refs; [done | lia] |].
  intros fd' w' B' v' xs' E Hc' Hn v2. unfold incref. rewrite (bev_at_Ok _ _ _ Hb). cbn [mbind res_bind]. fold v1. rewrite E. cbn [mbind res_bind].
  pose proof (conn_sock _ _ _ _ _ Hc') as (Hb' & _). pose proof (sched_range v'). change (sched v1) with (sched v) in Hn. cbn [bev_refcnt v1 set_bev_refcnt] in Hn.
  unfold bufferevent_decref_and_unlock_. rewrite (bev_at_Ok _ _ _ Hb'). cbn [mbind res_bind]. rewrite Z.gtb_ltb, (proj2 (Z.ltb_lt 0 _)) by lia. cbn [assert_ok mbind res_bind].
  rewrite (proj2 (Z.eqb_neq (bev_refcnt v' - 1) 0)) by lia. cbn [negb mbind res_bind]. split; [done |]. split; [apply conn_refs; [done | lia] |].
  change (sched v2) with (sched v'). cbn. lia.
Qed.

Lemma readcb_spec w B b v xs fd event : conn w B b v xs -> 0 <= wm_read_high v < 2 ^ 63 -> Z.of_nat (length xs) + EVBUFFER_MAX_READ < 2 ^ 63 -> event <> EV_TIMEOUT ->
  exists fd' w' v' bs, bufferevent_readcb errno alloc add_ok user_cb b fd event w = Ok (fd', w') /\ came w B b v xs fd fd' w' v' bs.
Proof.
  intros Hc Hh Hl Hev. unfold bufferevent_readcb. rewrite (proj2 (Z.eqb_neq event EV_TIMEOUT)) by done.
  destruct (between_refs w B b v xs (read_socket errno alloc add_ok user_cb b fd) Hc) as [Hc1 Hafter]. set (v1 := set_bev_refcnt v (bev_refcnt v + 1)) in *.
  destruct (read_socket_spec _ B b v1 xs fd Hc1 Hh Hl) as (fd' & w' & v' & bs & E & Hc' & L & Hn & Hp & Hgot & Hnone).
  destruct (Hafter fd' w' _ v' _ E Hc' Hn) as (E2 & Hc2 & Hn2). exists fd', (put_bev b (set_bev_refcnt v' (bev_refcnt v' - 1)) w'), (set_bev_refcnt v' (bev_refcnt v' - 1)), bs.
  split; [exact E2 |]. split; [exact Hc2 |]. split; [exact L |]. split; [exact Hn2 |]. split; [exact Hp |]. split; [exact Hgot | exact Hnone].
Qed.

Lemma timeout_spec w B b v xs fd : conn w B b v xs -> exists w' v', bufferevent_readcb errno alloc add_ok user_cb b fd EV_TIMEOUT w = Ok (fd, w') /\ conn w' B b v' xs /\ like_bev v v' /\
  stopped v v' (Z.lor BEV_EVENT_READING BEV_EVENT_TIMEOUT).
Proof.
  intros Hc. unfold bufferevent_readcb. rewrite Z.eqb_refl.
  destruct (between_refs w B b v xs (fun w => w ← read_failed user_cb b (Z.lor BEV_EVENT_READING BEV_EVENT_TIMEOUT) w; Ok (fd, w)) Hc) as [Hc1 Hafter]. set (v1 := set_bev_refcnt v (bev_refcnt v + 1)) in *.
  destruct (failed_spec _ B b v1 xs (Z.lor BEV_EVENT_READING BEV_EVENT_TIMEOUT) Hc1) as (w' & v' & E & Hc' & L & Hst & Hn).
  destruct (Hafter fd w' B v' xs) as (E2 & Hc2 & _); [by rewrite E | done | done |]. eexists _, (set_bev_refcnt v' (bev_refcnt v' - 1)). split; [exact E2 |]. by split_and!.
Qed.
End calling.

(** C28. What a connection does when its socket is readable.  Whatever chains the input has, what [readv] gives is behind the bytes
    that were there and nothing of it is lost: what was to come is what has come and what is to come.  The high mark is not
    passed, and the read callback is due once there are as many bytes as the low mark.  When nothing has come, reading was
    held back, or the stream has ended, which disables reading and makes the event callback due, or there was an error or no
    memory.  A timeout disables reading as well and takes nothing. *)
Theorem readcb_reads {F} `{!Socket F} `{!SocketLaws F} (errno : F -> read_error) alloc add_ok user_cb w B b v xs (fd : F) event
    (Hc : conn w B b v xs) (Hh : 0 <= wm_read_high v < 2 ^ 63) (Hl : Z.of_nat (length xs) + EVBUFFER_MAX_READ < 2 ^ 63) :
  exists fd' w' v' bs, bufferevent_readcb errno alloc add_ok user_cb b fd event w = Ok (fd', w') /\
    conn w' (<[input v := xs ++ bs]> B) b v' (xs ++ bs) /\ like_bev v v' /\ pending fd = bs ++ pending fd' /\
    (bs <> [] -> (wm_read_high v <> 0 -> Z.of_nat (length (xs ++ bs)) <= wm_read_high v) /\
                 (readcb v <> NULL -> wm_read_low v <= Z.of_nat (length (xs ++ bs)) -> due v')) /\
    (bs = [] -> read_suspended v <> 0 \/ (wm_read_high v <> 0 /\ wm_read_high v <= Z.of_nat (length xs)) \/
                (stopped v v' (Z.lor BEV_EVENT_READING BEV_EVENT_EOF) /\ pending fd = []) \/
                (stopped v v' (Z.lor BEV_EVENT_READING BEV_EVENT_TIMEOUT) /\ event = EV_TIMEOUT) \/
                (((exists a n, alloc a n = false) \/ exists n, readv n fd = (None, fd')) /\
                 (stopped v v' (Z.lor BEV_EVENT_READING BEV_EVENT_ERROR) \/ enabled v' = enabled v))).
Proof.
  destruct (decide (event = EV_TIMEOUT)) as [-> | Hne].
  - destruct (timeout_spec errno alloc add_ok user_cb w B b v xs fd Hc) as (w' & v' & E & Hc' & L & Hst). exists fd, w', v', []. rewrite app_nil_r. rewrite insert_id by apply Hc.
    split; [done |]. split; [done |]. split; [done |]. split; [done |]. split; [done |]. intros _. do 3 right. by left.
  - destruct (readcb_spec errno alloc add_ok user_cb w B b v xs fd event Hc Hh Hl Hne) as (fd' & w' & v' & bs & E & Hc' & L & _ & Hp & Hgot & Hnone).
    exists fd', w', v', bs. do 5 (split; [done |]). intros Hz. destruct (Hnone Hz) as [? | [? | [? | ?]]]; [by left | right; by left | do 2 right; by left | by do 4 right].
Qed.

(** ** A connection whose client has sent three bytes *)

(** The bytes that are to come; without any the client has closed. *)
#[export] Instance bytes_socket : Socket (list Z) := { fionread s := Z.of_nat (length s); readv n s := (Some (take (Z.to_nat n) s), drop (Z.to_nat n) s) }.

#[export] Instance bytes_laws : SocketLaws (list Z).
Proof.
  refine {| pending s := s |}.
  - intros n s bs s' Hn [= <- <-]. rewrite length_take. split; [lia | by rewrite take_drop].
  - intros n s s' Hn [= Ht _]. destruct s; [done |]. apply (f_equal length) in Ht. rewrite length_take in Ht. cbn in Ht. lia.
  - by intros n s s' [=].
Defined.

Definition conn_bev : bufferevent :=
  MkBev 1 2 0 (Z.shiftl 2 20) 0 0 (Z.lor EV_READ EV_WRITE) 7 NULL 8 9 true false false 0 0 0 0 (Z.lor BEV_OPT_DEFER_CALLBACKS BEV_OPT_THREADSAFE) 1 NULL.
Definition conn_heap : heap (event_base (gset Z)) :=
  let e cbs s t := MkEvbuffer NULL NULL First 0 0 0 s t 1 cbs in
  MkHeap ∅ {[1 := e [MkCb BUFFEREVENT_INBUF_WM_CB 3 EVBUFFER_CB_ENABLED] false true; 2 := e [] true false]} 4 (MkBase {[3 := conn_bev]} [] [] 0 {[3]}).

Definition no_function (f : Z) (c : called_for) (b a : Z) (w : heap (event_base (gset Z))) : res (heap (event_base (gset Z))) := UB.

Lemma conn_sample : conn conn_heap {[1 := []; 2 := []]} 3 conn_bev [].
Proof.
  split; [| split; [| done]].
  - exists conn_bev. split; [done |]. split; [split; [done |]; split; [left; cbn; set_solver | done] |]. split; [by eexists |]. eexists. split; [done |]. do 2 (split; [done |]). by repeat constructor.
  - exists {[1 := []; 2 := []]}. split; [| by rewrite fmap_insert, map_fmap_singleton]. split.
    2:{ replace (nodes {[1 := []; 2 := []]}) with (@nil node) by (vm_compute; reflexivity). split_and!; [done | constructor | constructor | done]. }
    intros b. destruct (decide (b = 1)) as [-> | H1]; [split; [by apply holds_zero | cbn; lia] |]. destruct (decide (b = 2)) as [-> | H2]; [split; [by apply holds_zero | cbn; lia] |].
    unfold conn_heap. cbn [buffers]. by rewrite !lookup_insert_ne, !lookup_singleton_ne by done.
Qed.

Lemma readcb_reads_witness : exists w' v', bufferevent_readcb (fun _ => Failed) alloc_all (fun _ => true) no_function 3 [5; 6; 7] EV_READ conn_heap = Ok ([], w') /\
  conn w' (<[1 := [5; 6; 7]]> {[1 := []; 2 := []]}) 3 v' [5; 6; 7] /\ (0 <= 3 -> due v').
Proof.
  destruct (readcb_reads (fun _ => Failed) alloc_all (fun _ => true) no_function conn_heap _ 3 conn_bev [] [5; 6; 7] EV_READ conn_sample ltac:(done) ltac:(done))
    as (fd' & w' & v' & bs & E & Hc & _ & Hp & Hd & _).
  assert (Ef : match bufferevent_readcb (fun _ => Failed) alloc_all (fun _ => true) no_function 3 [5; 6; 7] EV_READ conn_heap with Ok (fd, _) => fd = [] | _ => False end) by (vm_compute; reflexivity).
  rewrite E in Ef. subst fd'. cbn [pending bytes_laws] in Hp. rewrite app_nil_r in Hp. subst bs. exists w', v'. split; [exact E | split; [exact Hc |]]. destruct Hd as [_ Hd]; [done |]. exact (Hd ltac:(done)).
Defined.
