(* ===== verification/ServerPair.v ===== *)
(** * The pair of a server

    [setup_server] of [mw/server/server_listener.c] makes the bufferevent pair through which the listener's thread sends
    accepted connections to the server's thread.  Here the pair is the one of [Bufferevent], on libevent's heap, and it is
    the pipe that [Server] takes it to be. *)

From S2P Require Import Prelude Server Evbuffer EvChains EvBytes Bufferevent BevPair.

Definition BEV_OPT_CLOSE_ON_FREE : Z := 0x01.
Definition EV_PERSIST : Z := 0x10.
Definition VMP_BUFFEREVENTS_OPTIONS : Z := Z.lor (Z.lor BEV_OPT_DEFER_CALLBACKS BEV_OPT_THREADSAFE) (Z.lor BEV_OPT_UNLOCK_CALLBACKS BEV_OPT_CLOSE_ON_FREE).

(** The pair's part of [setup_server]: the input's and the output's bufferevent.  The result of [bufferevent_pair_new] is not looked
    at: without memory the array that is read holds nothing. *)
Definition setup_pair {U} alloc (user_cb : Z -> called_for -> Z -> Z -> heap (event_base U) -> res (heap (event_base U))) (fuel : nat) (sizeof_pair : Z)
    (read_cb server : Z) (w : heap (event_base U)) : res (Z * Z * heap (event_base U)) :=
  '(ends, w) ← bufferevent_pair_new alloc sizeof_pair VMP_BUFFEREVENTS_OPTIONS w;
  '(in_buf, out_buf) ← of_option ends;
  w ← bufferevent_setcb in_buf read_cb NULL NULL server w;
  w ← bufferevent_enable alloc (run_cb alloc user_cb (S (S fuel))) user_cb in_buf (Z.lor EV_READ EV_PERSIST) w;
  Ok (in_buf, out_buf, w).

(** The callbacks of the input's bufferevent. *)
Definition calls_back (u : bufferevent) (read_cb server : Z) : Prop := readcb u = read_cb /\ writecb u = NULL /\ errorcb u = NULL /\ bev_arg u = server.

(** The pair carries [p] from [out_buf] to [in_buf], and its reader is [read_cb] with [server]. *)
Definition carries {U} (w : heap (event_base U)) (in_buf out_buf : Z) (read_cb server : Z) (p : list Z) : Prop :=
  exists B v u, at_rest w B out_buf v in_buf u 1 1 /\ talks v u = true /\ flow B v u = p /\ length (flow B u v) = 0%nat /\ calls_back u read_cb server /\ wm_read_low u = 0.

(** The callbacks of [in_buf] are queued in the event base, and when their turn comes [read_cb] is called with [server], and nothing before it. *)
Definition reader_due {U} (user_cb : Z -> called_for -> Z -> Z -> heap (event_base U) -> res (heap (event_base U))) (w : heap (event_base U)) (in_buf read_cb server : Z) : Prop :=
  Deferred in_buf ∈ activequeue (client w) ++ active_later_queue (client w) /\
  exists u rest, bevs (client w) !! in_buf = Some u /\
    bufferevent_run_deferred_callbacks_unlocked user_cb in_buf w =
      (w ← user_cb read_cb ForRead in_buf server (put_bev in_buf (set_pending u false (writecb_pending u) (eventcb_pending u)) w); rest w).

Lemma kept_calls u u' r s : kept_bev u u' -> calls_back u r s -> calls_back u' r s.
Proof. by intros (? & ? & ? & ? & ? & ->). Qed.

Section servers.
Context {U : Type} (alloc : Z -> Z -> bool) (user_cb : Z -> called_for -> Z -> Z -> heap (event_base U) -> res (heap (event_base U))) (fuel : nat).
Implicit Types (w : heap (event_base U)).

#[local] Abbreviation oom := (exists a n, alloc a n = false).

(** [setup_server] makes a pair that carries nothing yet, whose one end writes, whose other end reads and has the callback. *)
Lemma setup_carries sizeof_pair read_cb server w B : (forall a n, alloc a n = true) -> holds w B -> clean w -> read_cb <> NULL ->
  exists in_buf out_buf w', setup_pair alloc user_cb fuel sizeof_pair read_cb server w = Ok (in_buf, out_buf, w') /\ carries w' in_buf out_buf read_cb server [].
Proof.
  intros Ha Hh Hc Hr. unfold setup_pair. destruct (pair_new_spec alloc sizeof_pair Ha w B VMP_BUFFEREVENTS_OPTIONS Hh Hc) as (w1 & B1 & b & v & p & u & -> & (HP & _) & F1 & F2 & E1 & E2 & Hw & _).
  cbn [mbind res_bind of_option]. pose proof HP as (_ & _ & Lv & _). unfold bufferevent_setcb. rewrite (live_bev _ _ _ _ _ Lv). cbn [mbind res_bind]. set (v1 := set_user v read_cb NULL NULL server).
  assert (HP1 : pair_is (put_bev b v1 w1) B1 b v1 p u 1 1) by (eapply pair_put; [done | eapply live_put; try done | done | done]).
  assert (Hq : forall x y, flow B1 x y = [] -> waiting B1 x = []) by (intros x y; unfold flow; by intros [_ ?]%app_eq_nil).
  assert (HR1 : at_rest (put_bev b v1 w1) B1 b v1 p u 1 1) by (split; [done |]; split; intros _; [by apply (Hq v1 u) | by apply (Hq u v1)]).
  destruct (enable_spec alloc user_cb fuel _ B1 b v1 p u 1 1 (Z.lor EV_READ EV_PERSIST) HR1) as (w2 & v2 & u2 & -> & R2 & Kv & Ku & _); [done | done | change (flow B1 v1 u) with (flow B1 v u); by rewrite F1 | change (flow B1 u v1) with (flow B1 u v); by rewrite F2 |].
  cbn [mbind res_bind]. exists b, p, w2. split; [done |]. set (B2 := handed _ _ _) in *. exists B2, u2, v2. split; [by apply rest_sym |].
  destruct HP1 as (_ & _ & _ & _ & Hap & _). set (v3 := enabling v1 _) in *. assert (Hap3 : apart v3 u) by exact Hap.
  destruct (flow_kept B2 _ _ _ _ Ku Kv) as (G1 & G2 & _). destruct (flow_kept B2 _ _ _ _ Kv Ku) as (G3 & _). destruct (handed_flow (handed B1 u v3) v3 u Hap3) as (G4 & G5). destruct (handed_flow B1 u v3 (apart_sym _ _ Hap3)) as (G6 & G7).
  assert (G8 : flow B1 u v3 = [] /\ flow B1 v3 u = []) by (split; assumption). destruct G8 as (G8 & G9).
  destruct Kv as (? & ? & ? & ? & ? & ->). split; [rewrite G2; unfold talks, v3; cbn [enabled enabling set_enabled v1 set_user]; rewrite E1, E2; done |].
  split; [rewrite G1; unfold B2; by rewrite G5, G6, G8 |]. split; [rewrite G3; unfold B2; by rewrite G4, G7, G9 | done].
Qed.

Lemma carried w in_buf out_buf read_cb server p : carries w in_buf out_buf read_cb server p -> exists B v u, at_rest w B out_buf v in_buf u 1 1 /\ talks v u = true /\ arrived B u = p /\ waiting B v = [] /\
  length (flow B u v) = 0%nat /\ calls_back u read_cb server /\ wm_read_low u = 0.
Proof.
  intros (B & v & u & HR & Ht & Hf & Hb & Hr & Hw). exists B, v, u. pose proof HR as (_ & H1 & _). unfold flow in Hf. rewrite (H1 Ht), app_nil_r in Hf.
  do 3 (split; [done |]). split; [by apply H1 | done].
Qed.

Lemma live_due w b p u n read_cb server : live (client w) b p u n -> due u -> calls_back u read_cb server -> read_cb <> NULL -> reader_due user_cb w b read_cb server.
Proof.
  intros (Hb & _ & _ & _ & _ & _ & _ & Hq & _) [H1 H2] (C1 & C2 & C3 & C4) Hr. split.
  { rewrite elem_of_app. destruct Hq as [(? & _) | [(_ & ? & _) | (_ & _ & ?)]]; [done | by left | by right]. }
  unfold bufferevent_run_deferred_callbacks_unlocked. eexists u, _. split; [done |]. rewrite (bev_at_Ok _ _ _ Hb). cbn [mbind res_bind].
  rewrite C3. change (NULL =? NULL) with true. cbn [negb]. rewrite andb_false_r. cbn [mbind res_bind]. rewrite (bev_at_Ok _ _ _ Hb). cbn [mbind res_bind].
  rewrite H1, C1, C4, (proj2 (Z.eqb_neq read_cb NULL) Hr). cbn [andb negb]. reflexivity.
Qed.

Lemma send_carries w in_buf out_buf read_cb server p xs : read_cb <> NULL -> carries w in_buf out_buf read_cb server p -> xs <> [] -> Z.of_nat (length xs) <= 2 ^ 60 -> Z.of_nat (length p) + Z.of_nat (length xs) < 2 ^ 63 ->
  exists r w', bufferevent_write alloc (run_cb alloc user_cb (S (S fuel))) out_buf (Some <$> xs) w = Ok (r, w') /\
    ((r = 0 /\ carries w' in_buf out_buf read_cb server (p ++ xs) /\ reader_due user_cb w' in_buf read_cb server) \/ (r = -1 /\ carries w' in_buf out_buf read_cb server p /\ oom)).
Proof.
  intros Hnn Hc Hne Hl Hs. destruct (carried _ _ _ _ _ _ Hc) as (B & v & u & HR & Ht & Ha & Hw & Hb & Hr & Hm).
  assert (Hf : flow B v u = p) by (unfold flow; by rewrite Hw, Ha, app_nil_r). pose proof HR as (HP & R1 & R2). pose proof HP as (_ & _ & _ & _ & Hap & _).
  destruct (write_spec alloc user_cb fuel w B out_buf v in_buf u 1 1 xs HR) as (r & w' & v' & u' & B' & E & HP' & (Kv & Ku & _) & H); [done | done | done | by rewrite Hf |].
  exists r, w'. split; [done |]. destruct (flow_kept B' _ _ _ _ Kv Ku) as (F1 & T1 & W1 & _). destruct (flow_kept B' _ _ _ _ Ku Kv) as (F2 & T2 & W2 & _).
  destruct (kept_ends _ _ Ku) as (_ & _ & _ & Rd & Wl). pose proof (kept_calls _ _ _ _ Ku Hr) as Hr'. assert (Hnr : readcb u <> NULL) by (destruct Hr as [-> _]; done). destruct H as [(-> & -> & Hd) | (-> & -> & Ho)].
  - left. set (B1 := <[output v := waiting B v ++ xs]> B) in *. pose proof Hap as (N1 & N2 & N3 & N4 & N5 & N6).
    assert (G : flow B1 v u = flow B v u ++ xs /\ flow B1 u v = flow B u v /\ waiting B1 u = waiting B u).
    { unfold flow, waiting, arrived, B1. rewrite lookup_insert_eq, !lookup_insert_ne by done. cbn. by rewrite app_assoc. }
    destruct G as (G1 & G2 & G3). destruct (handed_flow B1 v u Hap) as (F3 & F4). destruct (handed_bytes B1 v u Hap) as (W3 & W4 & _).
    split; [done |]. split; [| pose proof HP' as (_ & _ & _ & Lu & _); eapply live_due; [exact Lu | by apply Hd | done | done]].
    exists (handed B1 v u), v', u'. split; [split; [done |]; rewrite T1, T2, W1, W2, W3, W4, G3; split; [by intros -> | done] |].
    split; [by rewrite T1 |]. split; [by rewrite F1, F3, G1, Hf |]. split; [by rewrite F2, F4, G2 |]. split; [done |]. by rewrite Wl.
  - right. split; [done |]. split; [| done]. exists B, v', u'. split; [split; [done |]; by rewrite T1, T2, W1, W2 |]. split; [by rewrite T1 |]. split; [by rewrite F1 |]. split; [by rewrite F2 |]. split; [done |]. by rewrite Wl.
Qed.

Lemma receive_carries w in_buf out_buf read_cb server p k : carries w in_buf out_buf read_cb server p -> Z.of_nat k < 2 ^ 31 ->
  exists w', bufferevent_read (run_cb alloc user_cb (S (S fuel))) in_buf (Z.of_nat k) w = Ok (Z.of_nat (length (take k p)), Some <$> take k p, w') /\ carries w' in_buf out_buf read_cb server (drop k p).
Proof.
  intros Hc Hk. destruct (carried _ _ _ _ _ _ Hc) as (B & v & u & HR & Ht & Ha & Hw & Hb & Hr & Hm). pose proof (rest_sym _ _ _ _ _ _ _ _ HR) as HR'.
  destruct (read_spec alloc user_cb fuel w B in_buf u out_buf v 1 1 (Z.of_nat k) HR') as (w' & E & R & _); [lia | lia |]. rewrite Nat2Z.id, Ha in *.
  exists w'. split; [done |]. pose proof HR as ((_ & _ & _ & _ & (N1 & N2 & N3 & N4 & N5 & N6) & _) & _). exists (<[input u := drop k p]> B), v, u. split; [by apply rest_sym |]. split; [done |].
  unfold flow, arrived, waiting in *. rewrite lookup_insert_eq, !lookup_insert_ne by done. split; [cbn; by rewrite Hw, app_nil_r |]. by split.
Qed.
End servers.

(** ** What the threads do with it *)

(** The listener's thread sends, the server's thread receives. *)
Inductive use := Send (xs : list Z) | Receive (sizeof_conn : nat).

(** The result of the call and the bytes it gets. *)
Fixpoint exec {U} alloc (user_cb : Z -> called_for -> Z -> Z -> heap (event_base U) -> res (heap (event_base U))) (fuel : nat) (in_buf out_buf : Z) (us : list use)
    (w : heap (event_base U)) : res (list (Z * block Z) * heap (event_base U)) :=
  let cbs := run_cb alloc user_cb (S (S fuel)) in
  match us with
  | [] => Ok ([], w)
  | u :: us =>
      '(r, w) ← (match u with
                 | Send xs => '(r, w) ← bufferevent_write alloc cbs out_buf (Some <$> xs) w; Ok (r, [], w)
                 | Receive k => '(n, got, w) ← bufferevent_read cbs in_buf (Z.of_nat k) w; Ok (n, got, w)
                 end);
      '(rs, w) ← exec alloc user_cb fuel in_buf out_buf us w; Ok (r :: rs, w)
  end.

(** The results are those of the pipe of [Server], from [p] to [p']. *)
Inductive as_pipe (alloc : Z -> Z -> bool) : list use -> list (Z * block Z) -> list Z -> list Z -> Prop :=
| as_end p : as_pipe alloc [] [] p p
| as_sent xs us rs p p' : as_pipe alloc us rs (p ++ xs) p' -> as_pipe alloc (Send xs :: us) ((0, []) :: rs) p p'
| as_refused xs us rs p p' : (exists a n, alloc a n = false) -> as_pipe alloc us rs p p' -> as_pipe alloc (Send xs :: us) ((-1, []) :: rs) p p'
| as_received k us n got rest rs p p' : Server.evbuffer_remove k p = (n, got, rest) -> as_pipe alloc us rs rest p' ->
    as_pipe alloc (Receive k :: us) ((n, Some <$> got) :: rs) p p'.

(** All that is sent. *)
Definition sent (us : list use) : list Z := concat (map (fun u => match u with Send xs => xs | Receive _ => [] end) us).

Definition modest (us : list use) : Prop :=
  Z.of_nat (length (sent us)) <= 2 ^ 60 /\ Forall (fun u => match u with Send xs => xs <> [] | Receive k => Z.of_nat k < 2 ^ 31 end) us.

Lemma exec_pipe {U} alloc user_cb fuel (in_buf out_buf read_cb server : Z) us : read_cb <> NULL -> forall (w : heap (event_base U)) p, carries w in_buf out_buf read_cb server p ->
  Forall (fun u => match u with Send xs => xs <> [] | Receive k => Z.of_nat k < 2 ^ 31 end) us -> Z.of_nat (length p) + Z.of_nat (length (sent us)) <= 2 ^ 60 ->
  exists rs w' p', exec alloc user_cb fuel in_buf out_buf us w = Ok (rs, w') /\ as_pipe alloc us rs p p' /\ carries w' in_buf out_buf read_cb server p' /\
    Z.of_nat (length p') <= Z.of_nat (length p) + Z.of_nat (length (sent us)).
Proof.
  intros Hn. induction us as [| u us IH]; intros w p Hc Hf Hl; [exists [], w, p; split; [done |]; split; [constructor | split; [done | lia]] |].
  apply Forall_cons in Hf as [Hu Hf]. cbn [exec]. destruct u as [xs | k].
  - assert (E : sent (Send xs :: us) = xs ++ sent us) by done. rewrite E, length_app in Hl.
    destruct (send_carries alloc user_cb fuel w in_buf out_buf read_cb server p xs Hn Hc Hu) as (r & w1 & -> & H); [lia | lia |]. cbn [mbind res_bind].
    destruct H as [(-> & Hc1 & _) | (-> & Hc1 & Ho)].
    + destruct (IH w1 (p ++ xs) Hc1 Hf) as (rs & w' & p' & -> & A & Hc' & L); [rewrite length_app; lia |]. eexists _, w', p'. split; [done |]. split; [by constructor |].
      split; [done |]. rewrite E. rewrite !length_app in *. lia.
    + destruct (IH w1 p Hc1 Hf) as (rs & w' & p' & -> & A & Hc' & L); [lia |]. eexists _, w', p'. split; [done |]. split; [by constructor |]. split; [done |]. rewrite E, length_app. lia.
  - assert (E : sent (Receive k :: us) = sent us) by done. rewrite E in *.
    destruct (receive_carries alloc user_cb fuel w in_buf out_buf read_cb server p k Hc Hu) as (w1 & -> & Hc1). cbn [mbind res_bind].
    destruct (IH w1 (drop k p) Hc1 Hf) as (rs & w' & p' & -> & A & Hc' & L); [rewrite length_drop; lia |]. eexists _, w', p'. split; [done |].
    split; [by eapply as_received |]. split; [done |]. rewrite length_drop in L. lia.
Qed.

(** C27. The bufferevent pair of a server is the pipe of [Server].  [setup_server] makes the pair when there is memory; from then on, in every sequence of
    sending on its output and receiving from its input, the results are those of a pipe that is empty at first: what is sent is appended, or
    refused for want of memory, and what is received is what [Server.evbuffer_remove] takes.  After a connection has been sent the callbacks of the
    input are queued in the server's event base, and when their turn comes the reader is called with the server first of all. *)
Theorem server_pipe {U} alloc0 alloc user_cb fuel (sizeof_pair read_cb server : Z) (w : heap (event_base U)) B :
  (forall a n, alloc0 a n = true) -> holds w B -> clean w -> read_cb <> NULL ->
  exists in_buf out_buf w0, setup_pair alloc0 user_cb fuel sizeof_pair read_cb server w = Ok (in_buf, out_buf, w0) /\
    forall us, modest us -> exists rs w1 p, exec alloc user_cb fuel in_buf out_buf us w0 = Ok (rs, w1) /\ as_pipe alloc us rs [] p /\
      forall xs, xs <> [] -> Z.of_nat (length xs) <= 2 ^ 60 ->
        exists r w2, bufferevent_write alloc (run_cb alloc user_cb (S (S fuel))) out_buf (Some <$> xs) w1 = Ok (r, w2) /\
          ((r = 0 /\ reader_due user_cb w2 in_buf read_cb server) \/ (r = -1 /\ exists a n, alloc a n = false)).
Proof.
  intros Ha Hh Hc Hr. destruct (setup_carries alloc0 user_cb fuel sizeof_pair read_cb server w B Ha Hh Hc Hr) as (i & o & w0 & E & C).
  exists i, o, w0. split; [done |]. intros us [Hl Hf]. destruct (exec_pipe alloc user_cb fuel i o read_cb server us Hr w0 [] C Hf) as (rs & w1 & p & E1 & A & C1 & L); [done |].
  exists rs, w1, p. split; [done |]. split; [done |]. intros xs Hx Hxl. cbn [length] in L.
  destruct (send_carries alloc user_cb fuel w1 i o read_cb server p xs Hr C1 Hx Hxl) as (r & w2 & E2 & H); [lia |]. exists r, w2. split; [done |].
  destruct H as [(-> & _ & D) | (-> & _ & O)]; [by left | by right].
Qed.

(** ** A server's pair, with a connection on its way *)

Definition sample_use : list use := [Send [1; 2; 3]; Receive 2; Send [4]; Receive 2].

Lemma server_pipe_witness : exists in_buf out_buf w0, setup_pair alloc_all no_user 0 600 7 9 base0 = Ok (in_buf, out_buf, w0) /\
  exists rs w1 p, exec alloc_all no_user 0 in_buf out_buf sample_use w0 = Ok (rs, w1) /\ as_pipe alloc_all sample_use rs [] p.
Proof.
  destruct (server_pipe alloc_all alloc_all no_user 0 600 7 9 base0 ∅ (fun _ _ => eq_refl) base0_holds base0_clean ltac:(done)) as (i & o & w0 & E & H).
  exists i, o, w0. split; [exact E |]. destruct (H sample_use) as (rs & w1 & p & E1 & A & _); [split; [apply Z.leb_le; reflexivity | repeat constructor; discriminate] |].
  exists rs, w1, p. exact (conj E1 A).
Defined.

(** What the calls return. *)
Example sample_results :
  ('(i, o, w0) ← setup_pair alloc_all no_user 0 600 7 9 base0; fst <$> exec alloc_all no_user 0 i o sample_use w0) =
  Ok [(0, []); (2, [Some 1; Some 2]); (0, []); (2, [Some 3; Some 4])].
Proof. vm_compute. reflexivity. Qed.
