(* ===== verification/StreamInput.v ===== *)
(** * The input of a client's stream, on libevent's heap

    [media_stream_proc] and [stream_input_handler] of [bll/bll_h264_stream.c] with the calls they make of libevent's byte
    buffers: the chunk is what [evbuffer_copyout] copies out of the chains of the connection's input, and what has been
    read is drained from them by [evbuffer_remove].  [Stream] has the same functions on the bytes of the input; here it is
    shown that what it says of them holds on the heap.  That setting the
    marks of the connection's bufferevent and what is called when its input is drained leave the bytes alone is assumed here;
    [ClientInput] shows it for the bufferevents of sockets. *)

From S2P Require Import Prelude Jt1078 H264 Queue RtmpPack Stream Evbuffer EvChains EvBytes.

Definition BUFFEREVENT_LOW_WATERMARK : Z := Z.shiftl 2 10.
Definition BUFFEREVENT_HIGH_WATERMARK : Z := Z.shiftl 2 20.

Section code.
Context {Q : Type} `{!PacketStore Q} {C : Type} (alloc : Z -> bool) (sizeof_packet : Z) (packager : TimaRTMPPackager).
Context (stream_url_query : PrivInfo Q -> Z -> Z -> res (PrivInfo Q)).
Context (run_cb : evbuffer_cb_entry -> Z -> evbuffer_cb_info -> heap C -> res (heap C)).

(** [bufferevent_setwatermark] of the connection's bufferevent, for reading. *)
Context (setwatermark : Z -> Z -> heap C -> res (heap C)).
Implicit Types (w : heap C) (thiz : PrivInfo Q).

(** [input] is what [bufferevent_get_input] gives. *)
Definition media_on_heap thiz (input : Z) w : res (Z * PrivInfo Q) :=
  if input =? NULL then Ok (-1, thiz) else
  '(clen, cells) ← evbuffer_copyout input JT1078_STREAM_PACKAGE_SIZE w;
  bytes ← of_option (mapM id cells);
  media_stream_proc alloc sizeof_packet packager (fun _ _ => if clen <? 0 then None else Some bytes) stream_url_query thiz (Some []).

Fixpoint loop_on_heap (fuel : nat) thiz (input len : Z) w : res (PrivInfo Q * heap C) :=
  match fuel with
  | O => NoFuel
  | S fuel =>
      '(ret, thiz) ← media_on_heap thiz input w;
      if ret >? 0 then
        '(_, _, w) ← evbuffer_remove run_cb input ret w;
        let len := u64 (len - ret) in
        if (len >? 30) && negb (cond thiz =? 0) then loop_on_heap fuel thiz input len w else Ok (thiz, w)
      else Ok (thiz, w)
  end.

Definition handler_on_heap (fuel : nat) thiz (input : Z) w : res (PrivInfo Q * heap C) :=
  if cond thiz =? 0 then Ok (thiz, w) else
  let thiz := set_running thiz 1 in
  len ← evbuffer_get_length input w;
  let '(wm, thiz) := stream_set_wartermark thiz in
  w ← (if wm : bool then setwatermark BUFFEREVENT_LOW_WATERMARK BUFFEREVENT_HIGH_WATERMARK w else Ok w);
  '(thiz, w) ← loop_on_heap fuel thiz input len w;
  Ok (set_running thiz 0, w).

(** ** The bytes *)

#[local] Abbreviation media := (media_stream_proc alloc sizeof_packet packager take_front stream_url_query).
#[local] Abbreviation loop := (input_loop alloc sizeof_packet packager take_front drop_front stream_url_query).

(** The input [buf] holds [xs] and can be drained; the callbacks that draining it makes leave the buffers alone where [I] holds, as it does. *)
Definition input_is (I : heap C -> Prop) (B : gmap Z (list Z)) (buf : Z) (xs : list Z) w : Prop :=
  holds w B /\ B !! buf = Some xs /\ I w /\ exists e, buffers w !! buf = Some e /\ freeze_start e = false /\ Forall (leaves_alone run_cb I buf) (callbacks e).

(** No more is read than was looked at. *)
Lemma media_most thiz xs ret t : media thiz (Some xs) = Ok (ret, t) -> ret <= JT1078_STREAM_PACKAGE_SIZE.
Proof.
  unfold media_stream_proc, take_front. destruct (blk_store _ _ _) as [buff | |]; cbn [mbind res_bind]; [| done..].
  destruct (_ =? 0); [by intros [= <- <-] |]. destruct (packet_jt1078_parse _ _ _) as [[[r head] stream] | |]; cbn [mbind res_bind]; [| done..].
  destruct (r =? 0); [by intros [= <- <-] |]. destruct (Z.ltb_spec r 0); [intros [= <- <-]; unfold JT1078_STREAM_PACKAGE_SIZE; lia |].
  destruct (Z.gtb_spec r JT1078_STREAM_PACKAGE_SIZE); [by intros [= <- <-] |].
  match goal with |- context [mbind _ ?m] => destruct m as [t1 | |]; cbn [mbind res_bind]; [| done..] end.
  destruct (_ || _); [by intros [= <- <-] |]. destruct stream as [stream |]; cbn [mbind res_bind of_option]; [| done].
  destruct (h264_stream_proc _ _ _ _ _ _) as [[? ?] | |]; cbn [mbind res_bind]; [| done..]. by intros [= <- <-].
Qed.

Lemma media_same I B buf xs w thiz : input_is I B buf xs w -> media_on_heap thiz buf w = media thiz (Some xs).
Proof.
  intros (Hh & Hb & _ & e & He & Hf & _). destruct (holds_one w B buf xs Hh Hb) as (_ & _ & _ & _ & _ & Hp & _). unfold media_on_heap, NULL.
  rewrite (proj2 (Z.eqb_neq buf 0)) by lia. rewrite (copyout_holds w B buf e xs) by done. cbn [mbind res_bind].
  rewrite mapM_id_Some. cbn [mbind res_bind of_option]. unfold media_stream_proc. by rewrite (proj2 (Z.ltb_ge _ 0)) by lia.
Qed.

Lemma remove_rest I B buf xs n w : steady I -> input_is I B buf xs w -> 0 <= n < 2 ^ 64 ->
  exists r out w', evbuffer_remove run_cb buf n w = Ok (r, out, w') /\ input_is I (<[buf := drop_front xs n]> B) buf (drop_front xs n) w'.
Proof.
  intros HS (Hh & Hb & HI & e & He & Hf & Hc) Hn. destruct (remove_alone run_cb I w B buf e xs n Hh He Hb Hf Hc HS HI Hn) as (w' & e' & -> & (U & _) & (K1 & K2 & K3 & K4) & Hh' & HI').
  eexists _, _, w'. split; [done |]. split; [done |]. split; [apply lookup_insert_eq |]. split; [done |]. exists e'. rewrite U, lookup_insert_eq, K1, K4. done.
Qed.

Lemma loop_same I B buf fuel : steady I -> forall xs len thiz w, input_is I B buf xs w ->
  match loop fuel thiz xs len with
  | Ok (t, rest) => exists w', loop_on_heap fuel thiz buf len w = Ok (t, w') /\ input_is I (<[buf := rest]> B) buf rest w'
  | UB => loop_on_heap fuel thiz buf len w = UB
  | NoFuel => loop_on_heap fuel thiz buf len w = NoFuel
  end.
Proof.
  intros HS. revert B. induction fuel as [| fuel IH]; intros B xs len thiz w Hi; cbn [input_loop loop_on_heap]; [done |]. rewrite (media_same I B buf xs w thiz Hi).
  destruct (media thiz (Some xs)) as [[ret t] | |] eqn:E; cbn [mbind res_bind]; [| done..]. pose proof (media_most _ _ _ _ E) as Hm. unfold JT1078_STREAM_PACKAGE_SIZE in Hm.
  destruct (Z.gtb_spec ret 0) as [Hr | Hr].
  - destruct (remove_rest I B buf xs ret w HS Hi) as (r & out & w1 & -> & H1); [lia |]. cbn [mbind res_bind]. destruct (_ && _); [| by exists w1].
    specialize (IH _ _ (u64 (len - ret)) t w1 H1). destruct (loop fuel t _ _) as [[t2 rest] | |]; [| done..]. rewrite insert_insert_eq in IH. exact IH.
  - exists w. split; [done |]. destruct Hi as (H1 & H2 & H3). by rewrite insert_id.
Qed.
(** Setting the marks leaves the input alone. *)
Definition marks_alone (I : heap C -> Prop) (buf : Z) : Prop := forall B xs w, input_is I B buf xs w ->
  exists w', setwatermark BUFFEREVENT_LOW_WATERMARK BUFFEREVENT_HIGH_WATERMARK w = Ok w' /\ input_is I B buf xs w'.
End code.

(** The input handler on the heap is the one on bytes: whatever chains the bytes of the input are in, it leaves the stream in
    the state [stream_input_handler] of [Stream] leaves it in, goes wrong exactly when that does, and afterwards the input
    holds the bytes that are left there and no other buffer has changed, so that the next chunk finds what it is to find. *)
Theorem input_on_heap {Q} `{!PacketStore Q} {C} alloc sizeof_packet packager stream_url_query run_cb (setwatermark : Z -> Z -> heap C -> res (heap C))
    fuel (thiz : PrivInfo Q) I B buf xs w (HS : steady I) (Hi : input_is run_cb I B buf xs w) (Hm : marks_alone run_cb setwatermark I buf) :
  match stream_input_handler alloc sizeof_packet packager take_front drop_front stream_url_query fuel thiz xs with
  | Ok (t, rest, _) => exists w', handler_on_heap alloc sizeof_packet packager stream_url_query run_cb setwatermark fuel thiz buf w = Ok (t, w') /\
                         input_is run_cb I (<[buf := rest]> B) buf rest w'
  | UB => handler_on_heap alloc sizeof_packet packager stream_url_query run_cb setwatermark fuel thiz buf w = UB
  | NoFuel => handler_on_heap alloc sizeof_packet packager stream_url_query run_cb setwatermark fuel thiz buf w = NoFuel
  end.
Proof.
  pose proof Hi as (Hh & Hb & _ & e & He & _). unfold stream_input_handler, handler_on_heap, evbuffer_get_length.
  destruct (cond thiz =? 0); [exists w; split; [done |]; by rewrite insert_id |].
  rewrite (buf_at_Ok _ _ _ He). cbn [mbind res_bind]. rewrite (holds_buffer w B buf e xs Hh He Hb).
  destruct (stream_set_wartermark _) as [wm t].
  assert (Hw : exists w1, (if wm then setwatermark BUFFEREVENT_LOW_WATERMARK BUFFEREVENT_HIGH_WATERMARK w else Ok w) = Ok w1 /\ input_is run_cb I B buf xs w1)
    by (destruct wm; [by apply Hm | by exists w]).
  destruct Hw as (w1 & -> & H1). cbn [mbind res_bind].
  pose proof (loop_same alloc sizeof_packet packager stream_url_query run_cb I B buf fuel HS xs (Z.of_nat (length xs)) t w1 H1) as H.
  destruct (input_loop _ _ _ _ _ _ _ _ _ _) as [[t2 rest] | |]; cbn [mbind res_bind]; [| by rewrite H..]. destruct H as (w2 & -> & H2). by exists w2.
Qed.

(** ** Packets in two chains, and the start of one more *)

#[local] Instance arriving_store : PacketStore queue := queue_store fresh_node fresh_node_ok.

Definition arriving : list Z := concat (replicate 30 audio_packet) ++ (audio_packet ++ [0x30; 0x31]).

Lemma arriving_input : exists w, input_is no_cb (fun _ => True) {[1 := arriving]} 1 arriving w.
Proof.
  assert (G : forall b (xs ys : list Z), Z.of_nat (length xs) <= 1000 -> Z.of_nat (length ys) <= 1000 -> forall w : heap unit, reps w {[b := xs]} -> exists w' : heap unit, reps w' {[b := xs ++ ys]}).
  { intros b xs ys Hx Hy w HR. destruct (bytes_added alloc_all no_cb _ _ _ _ HR (able_add ∅ b xs ys Hy Hx)) as (r & o & w1 & B1 & _ & HR1 & [(zs & Hz & _ & _ & ->) | [_ []%never_oom]]).
    unfold singletonM, map_singleton in Hz |- *. rewrite lookup_insert_eq in Hz. injection Hz as <-. unfold singletonM, map_singleton in HR1. rewrite insert_insert_eq in HR1. by exists w1. }
  assert (H0 : reps (put_buf 1 (MkEvbuffer NULL NULL First 0 0 0 false false 1 []) (MkHeap ∅ ∅ 2 tt)) {[1 := []]}).
  { destruct (new_served alloc_all no_cb _ _ heap0_reps) as (b & o & w1 & B1 & [= <- _ <-] & HR1 & [(_ & _ & _ & ->) | [_ []%never_oom]]). exact HR1. }
  destruct (G 1 [] (concat (replicate 30 audio_packet)) ltac:(cbn; lia) ltac:(vm_compute; discriminate) _ H0) as (w1 & H1).
  assert (H2 : exists w2 : heap unit, reps w2 {[1 := arriving]}) by (apply (G 1 ([] ++ concat (replicate 30 audio_packet)) _) with w1; [vm_compute; discriminate | vm_compute; discriminate | exact H1]).
  destruct H2 as (w2 & H2).
  exists w2. destruct (reps_has w2 _ 1 _ H2 (lookup_insert_eq _ _ _)) as (e & He & (Hp1 & _ & _ & Hp4) & _).
  split; [exact (proj1 H2) |]. split; [done |]. split; [done |]. exists e. by rewrite Hp4.
Qed.

Lemma input_on_heap_witness : exists w w', input_is no_cb (fun _ => True) {[1 := arriving]} 1 arriving w /\
  handler_on_heap (fun _ => true) 64 H264.tima_h264_rtmp_create (fun t _ _ => Ok t) no_cb (fun _ _ w => Ok w) 32 (sample_stream 0 (Meta 0 [])) 1 w = Ok (sample_stream 0 (Meta 0 []), w') /\
  input_is no_cb (fun _ => True) {[1 := [0x30; 0x31]]} 1 [0x30; 0x31] w'.
Proof.
  destruct arriving_input as (w & Hw). exists w.
  pose proof (input_on_heap (fun _ => true) 64 H264.tima_h264_rtmp_create (fun t _ _ => Ok t) no_cb (fun _ _ w => Ok w) 32 (sample_stream 0 (Meta 0 [])) (fun _ => True) {[1 := arriving]} 1 arriving w (fun _ _ _ _ _ _ _ _ _ => Logic.I) Hw
    (fun _ _ w H => ex_intro _ w (conj eq_refl H))) as H.
  assert (E : stream_input_handler (fun _ => true) 64 H264.tima_h264_rtmp_create take_front drop_front (fun t _ _ => Ok t) 32 (sample_stream 0 (Meta 0 [])) arriving =
    Ok (sample_stream 0 (Meta 0 []), [0x30; 0x31], false)) by (vm_compute; reflexivity).
  rewrite E in H. destruct H as (w' & E' & H'). exists w'. split; [exact Hw | split; [exact E' |]]. unfold singletonM, map_singleton in H'. rewrite insert_insert_eq in H'. exact H'.
Defined.
