(* ===== verification/ClientInput.v ===== *)
(** * A client's connection

    The two halves of [StreamInput] and [SocketRead] together: the bytes of a client come in through the socket's bufferevent
    and are taken out by the stream's input handler, in any order of the two.  The connection is on libevent's heap,
    with the high mark that the program sets; what it does is what the streams of [Stream] do with the bytes the client has
    sent, of which some have come and some are to come. *)

From S2P Require Import Prelude Jt1078 H264 RtmpPack Queue Stream Evbuffer EvChains EvBytes EvRead Bufferevent BevPair SocketRead StreamInput.

(** ** The marks of a connection *)

(** What the handler may change of the bufferevent: the marks, and what they hold back. *)
Definition remarked (v v' : bufferevent) : Prop :=
  exists low high, like_bev (set_marks v low high (wm_write_low v) (wm_write_high v)) v' /\ 0 <= wm_read_high v' < 2 ^ 63.

Section marks.
Context (alloc : Z -> Z -> bool) (add_ok : gset Z -> bool).
Implicit Types (w : heap (event_base (gset Z))).

Lemma remarked_held v v' r s : remarked v v' -> remarked v (set_suspended v' r s).
Proof. intros (l & h & L & H). exists l, h. by split. Qed.

Lemma remarked_parts v v' : remarked v v' -> input v' = input v /\ output v' = output v /\ read_watermarks_cb v' = read_watermarks_cb v /\ 0 <= wm_read_high v' < 2 ^ 63.
Proof. intros (l & h & (H1 & H2 & _ & _ & H3 & _) & H). do 3 (split; [done |]). done. Qed.

Lemma remarked_trans v1 v2 v3 : remarked v1 v2 -> remarked v2 v3 -> remarked v1 v3.
Proof.
  intros (l & h & (A1 & A2 & A3 & A4 & A5 & A6 & A7 & A8) & _) (l' & h' & (B1 & B2 & B3 & B4 & B5 & B6 & B7 & B8) & H). exists l', h'. cbn in *. split; [| done].
  split_and!; cbn; congruence.
Qed.

Lemma remarked_like v1 v2 v3 : remarked v1 v2 -> like_bev v2 v3 -> remarked v1 v3.
Proof.
  intros HR L. destruct (remarked_parts _ _ HR) as (_ & _ & _ & H). eapply remarked_trans; [exact HR |]. exists (wm_read_low v2), (wm_read_high v2).
  pose proof L as (_ & _ & _ & _ & _ & _ & _ & ->). by split.
Qed.

Lemma input_watched R frozen B b v w : (forall v' r s, R v v' -> R v (set_suspended v' r s)) -> holds w B -> watch R frozen b v w -> forall xs, B !! input v = Some xs ->
  input_is (sock_cb add_ok) (watch R frozen b v) B (input v) xs w.
Proof.
  intros HR Hh Hw xs Hx. split; [done |]. split; [done |]. split; [done |]. destruct Hw as (v' & _ & _ & _ & e & He & Hf & _ & Hm). exists e. split; [done |]. split; [done |]. by apply watch_alone.
Qed.

(** Setting the marks of a connection whose high mark has been set before. *)
Lemma setwatermark_alone b v : read_watermarks_cb v = true -> forall low high B xs w, 0 <= high < 2 ^ 63 -> input_is (sock_cb add_ok) (watch remarked true b v) B (input v) xs w ->
  exists w', sock_setwatermark alloc add_ok b low high w = Ok w' /\ input_is (sock_cb add_ok) (watch remarked true b v) B (input v) xs w'.
Proof.
  intros Hcb low high B xs w Hhi (Hh & Hx & (v' & HR & Hs & Ho & e & He & Hfs & Hfe & Hm) & _). pose proof Hs as (Hb & Hq & Hd & Hr).
  destruct (remarked_parts _ _ HR) as (Ei & Eo & Ec & _). unfold sock_setwatermark. rewrite (bev_at_Ok _ _ _ Hb). cbn [mbind res_bind]. rewrite Ec, Hcb. set (v2 := set_marks v' low high _ _).
  assert (HR2 : remarked v v2).
  { destruct HR as (l & h & (A1 & A2 & A3 & A4 & A5 & A6 & A7 & A8) & _). exists low, high. split; [by split_and! | done]. }
  assert (Hf : exists w1 f, (if negb (high =? 0) then mark_flags (fun f => Z.lor f EVBUFFER_CB_ENABLED) (input v') (put_bev b v2 w) else mark_flags (fun f => Z.land f (Z.lnot EVBUFFER_CB_ENABLED)) (input v') (put_bev b v2 w)) = Ok w1 /\
    w1 = put_buf (input v) (set_callbacks e ((fun c => if cb_func c =? BUFFEREVENT_INBUF_WM_CB then MkCb (cb_func c) (cbarg c) (f (cb_flags c)) else c) <$> callbacks e)) (put_bev b v2 w)).
  { unfold mark_flags, buf_at. cbn [buffers put_bev set_base]. rewrite Ei, He. cbn [of_option mbind res_bind]. destruct (negb _); [eexists _, (fun f => Z.lor f EVBUFFER_CB_ENABLED) | eexists _, (fun f => Z.land f (Z.lnot EVBUFFER_CB_ENABLED))]; by split. }
  destruct Hf as (w1 & f & Ew & ->). set (e1 := set_callbacks e _) in *. set (w1 := put_buf (input v) e1 (put_bev b v2 w)) in *.
  assert (Hh1 : holds w1 B) by (apply (holds_same (put_bev b v2 w) B (input v) e e1); [by eapply holds_client | done..]).
  assert (Hw1 : watch remarked true b v w1).
  { exists v2. split; [done |]. split; [split; [apply lookup_insert_eq |]; by split_and! |].
    split; [cbn; destruct (decide (output v = input v)) as [-> | Hne]; [rewrite lookup_insert_eq; by eexists | by rewrite lookup_insert_ne] |].
    exists e1. split; [apply lookup_insert_eq |]. split; [done |]. split; [done |]. unfold marks_only, e1. cbn. apply Forall_fmap. eapply Forall_impl; [exact Hm |]. cbn. intros c [Hc1 Hc2]. rewrite Hc1. by split. }
  assert (Hb1 : bevs (client w1) !! b = Some v2) by apply lookup_insert_eq.
  assert (Hend : forall w2 r s, quiet w1 w2 b (set_suspended v2 r s) -> input_is (sock_cb add_ok) (watch remarked true b v) B (input v) xs w2).
  { intros w2 r s Q. apply input_watched; [apply remarked_held | by eapply quiet_holds | | done].
    eapply (watch_quiet remarked true w1 w2 b v v2); [by apply remarked_held | split; [apply lookup_insert_eq |]; by split_and! | exact Q | done..]. }
  assert (Hlen : evbuffer_get_length (input v') w1 = Ok (total_len e1)) by (apply get_length_Ok; rewrite Ei; apply lookup_insert_eq).
  destruct (negb (high =? 0)); cbn [mbind res_bind]; rewrite Ew; cbn [mbind res_bind].
  - rewrite Hlen. cbn [mbind res_bind]. destruct (_ >=? high).
    + destruct (suspend_spec w1 b v2 BEV_SUSPEND_WM Hb1) as (w2 & r & s & -> & Q & _). exists w2. split; [done |]. by eapply Hend.
    + destruct (unsuspend_spec add_ok w1 b v2 BEV_SUSPEND_WM Hb1) as (w2 & r & s & -> & Q). exists w2. split; [done |]. by eapply Hend.
  - destruct (unsuspend_spec add_ok w1 b v2 BEV_SUSPEND_WM Hb1) as (w2 & r & s & -> & Q). exists w2. split; [done |]. by eapply Hend.
Qed.
End marks.

(** ** What the bytes go through *)

Section client.
Context {Q : Type} `{!PacketStore Q} {F : Type} `{!Socket F} `{!SocketLaws F}.
Context (alloc : Z -> bool) (sizeof_packet : Z) (packager : TimaRTMPPackager) (stream_url_query : PrivInfo Q -> Z -> Z -> res (PrivInfo Q)).
Context (errno : F -> read_error) (heap_alloc : Z -> Z -> bool) (add_ok : gset Z -> bool).
Context (user_cb : Z -> called_for -> Z -> Z -> heap (event_base (gset Z)) -> res (heap (event_base (gset Z)))) (fuel : nat).
Implicit Types (w : heap (event_base (gset Z))) (thiz : PrivInfo Q) (fd : F).

(** What happens to a connection: its socket becomes readable, nothing has come for too long, or its read callback is called. *)
Inductive happening := Readable | TimedOut | Called.

Definition client_step (b : Z) (k : happening) (s : PrivInfo Q * F * heap (event_base (gset Z))) : res (PrivInfo Q * F * heap (event_base (gset Z))) :=
  let '(thiz, fd, w) := s in
  match k with
  | Readable => '(fd, w) ← bufferevent_readcb errno heap_alloc add_ok user_cb b fd EV_READ w; Ok (thiz, fd, w)
  | TimedOut => '(fd, w) ← bufferevent_readcb errno heap_alloc add_ok user_cb b fd EV_TIMEOUT w; Ok (thiz, fd, w)
  | Called =>
      v ← bev_at b w;
      '(thiz, w) ← handler_on_heap alloc sizeof_packet packager stream_url_query (sock_cb add_ok) (sock_setwatermark heap_alloc add_ok b) fuel thiz (input v) w;
      Ok (thiz, fd, w)
  end.

Fixpoint client_run (b : Z) (l : list happening) (s : PrivInfo Q * F * heap (event_base (gset Z))) : res (PrivInfo Q * F * heap (event_base (gset Z))) :=
  match l with [] => Ok s | k :: l => s ← client_step b k s; client_run b l s end.

#[local] Abbreviation handler := (stream_input_handler alloc sizeof_packet packager take_front drop_front stream_url_query fuel).

(** A stream, the bytes that wait for it and those that are to come: some come, or the handler takes some. *)
Inductive moves : PrivInfo Q * list Z * list Z -> PrivInfo Q * list Z * list Z -> Prop :=
  | moves_come thiz xs bs ps : moves (thiz, xs, bs ++ ps) (thiz, xs ++ bs, ps)
  | moves_taken thiz xs ps thiz' rest wm : handler thiz xs = Ok (thiz', rest, wm) -> moves (thiz, xs, ps) (thiz', rest, ps).

(** The handler takes bytes from the front. *)
Lemma loop_takes n : forall thiz xs len thiz' rest, input_loop alloc sizeof_packet packager take_front drop_front stream_url_query n thiz xs len = Ok (thiz', rest) -> exists gone, xs = gone ++ rest.
Proof.
  induction n as [| n IH]; intros thiz xs len thiz' rest; [done |]. cbn [input_loop]. destruct (media_stream_proc _ _ _ _ _ _ _) as [[ret t] | |]; cbn [mbind res_bind]; [| done..].
  destruct (ret >? 0); [| intros [= _ <-]; by exists []]. destruct (_ && _); [| intros [= _ <-]; exists (take (Z.to_nat ret) xs); unfold drop_front; by rewrite take_drop].
  intros (gone & Hg)%IH. exists (take (Z.to_nat ret) xs ++ gone). rewrite <- app_assoc, <- Hg. unfold drop_front. by rewrite take_drop.
Qed.

Lemma handler_takes thiz xs thiz' rest wm : handler thiz xs = Ok (thiz', rest, wm) -> exists gone, xs = gone ++ rest.
Proof.
  unfold stream_input_handler. destruct (_ =? 0); [intros [= _ <- _]; by exists [] |]. destruct (stream_set_wartermark _) as [m t].
  destruct (input_loop _ _ _ _ _ _ _ _ _ _) as [[t2 r] | |] eqn:E; cbn [mbind res_bind]; [| done..]. intros [= _ <- _]. by eapply loop_takes.
Qed.

(** The connection of the bufferevent [b], which was [v]: its input holds [xs]. *)
Definition client_at w (B : gmap Z (list Z)) (b : Z) (v : bufferevent) (xs : list Z) : Prop :=
  watch remarked true b v w /\ holds w B /\ B !! input v = Some xs.

Lemma client_conn w B b v xs : client_at w B b v xs -> exists v', remarked v v' /\ conn w B b v' xs.
Proof.
  intros ((v' & HR & Hs & Ho & He) & Hh & Hx). destruct (remarked_parts _ _ HR) as (Ei & Eo & _). exists v'. split; [done |]. split; [| by rewrite Ei]. exists v'. rewrite Ei, Eo. by split_and!.
Qed.

Lemma conn_client w B b v v' xs : remarked v v' -> conn w B b v' xs -> client_at w B b v xs.
Proof.
  intros HR ((_ & <- & Hs & Ho & He) & Hh & Hx). destruct (remarked_parts _ _ HR) as (Ei & Eo & _). rewrite Ei in *. rewrite Eo in Ho. split; [| done]. by exists v'.
Qed.

(** Either step is a move of the bytes, and goes wrong only when the handler does. *)
Lemma step_moves w B b v xs thiz fd k : client_at w B b v xs -> read_watermarks_cb v = true -> Z.of_nat (length xs) + EVBUFFER_MAX_READ < 2 ^ 63 ->
  match client_step b k (thiz, fd, w) with
  | Ok (thiz', fd', w') => exists xs', moves (thiz, xs, pending fd) (thiz', xs', pending fd') /\ client_at w' (<[input v := xs']> B) b v xs' /\
                              (length xs' + length (pending fd') <= length xs + length (pending fd))%nat
  | UB => k = Called /\ handler thiz xs = UB
  | NoFuel => k = Called /\ handler thiz xs = NoFuel
  end.
Proof.
  intros Hc Hcb Hl. destruct (client_conn _ _ _ _ _ Hc) as (v' & HR & Hc'). destruct (remarked_parts _ _ HR) as (Ei & _ & _ & Hhi). destruct k; cbn [client_step].
  - destruct (readcb_spec errno heap_alloc add_ok user_cb w B b v' xs fd EV_READ Hc' Hhi Hl ltac:(done)) as (fd' & w' & v2 & bs & -> & Hc2 & L & _ & Hp & _). cbn [mbind res_bind].
    rewrite Ei in Hc2. exists (xs ++ bs). rewrite Hp. split; [apply moves_come |]. split; [| rewrite !length_app; lia].
    eapply conn_client; [by eapply remarked_like | exact Hc2].
  - destruct (timeout_spec errno heap_alloc add_ok user_cb w B b v' xs fd Hc') as (w' & v2 & -> & Hc2 & L & _). cbn [mbind res_bind].
    exists xs. split; [rewrite <- (app_nil_r xs) at 2; exact (moves_come thiz xs [] (pending fd)) |]. split; [| done]. rewrite insert_id by apply Hc.
    eapply conn_client; [by eapply remarked_like | exact Hc2].
  - destruct (conn_sock _ _ _ _ _ Hc') as (Hb & _). rewrite (bev_at_Ok _ _ _ Hb). cbn [mbind res_bind]. rewrite Ei. destruct Hc as (Hw & Hh & Hx).
    pose proof (input_watched add_ok remarked true B b v w (remarked_held v) Hh Hw xs Hx) as Hi.
    pose proof (input_on_heap alloc sizeof_packet packager stream_url_query (sock_cb add_ok) (sock_setwatermark heap_alloc add_ok b) fuel thiz _ B (input v) xs w (watch_steady remarked true b v) Hi
      (fun B xs w => setwatermark_alone heap_alloc add_ok b v Hcb BUFFEREVENT_LOW_WATERMARK BUFFEREVENT_HIGH_WATERMARK B xs w ltac:(done))) as H.
    destruct (handler thiz xs) as [[[t rest] wm] | |] eqn:E; [| by rewrite H..]. destruct H as (w' & -> & (Hh' & Hx' & Hw' & _)). cbn [mbind res_bind].
    exists rest. split; [by eapply moves_taken |]. split; [done |]. destruct (handler_takes _ _ _ _ _ E) as [gone ->]. rewrite length_app. lia.
Qed.
End client.

(** C21. A client's connection on libevent's heap, from the socket to the packets, is a stream of [Stream] with the bytes the client
    has sent.  However reading, timeouts and handling follow each other, and whatever chains the bytes are put in, every state is one
    that the stream, the bytes that wait in the input and those that are to come reach by moves: bytes come to the end of the
    input in their order, and the input handler takes from its front what [stream_input_handler] takes of these bytes, with
    the stream left as that leaves it.  A run goes wrong only where the handler of such a state does. *)
Theorem client_refines {Q} `{!PacketStore Q} {F} `{!Socket F} `{!SocketLaws F} alloc sizeof_packet packager stream_url_query (errno : F -> read_error) heap_alloc add_ok user_cb fuel
    (l : list happening) w B b v xs (thiz : PrivInfo Q) fd (Hc : client_at w B b v xs) (Hcb : read_watermarks_cb v = true)
    (Hl : Z.of_nat (length xs + length (pending fd)) + EVBUFFER_MAX_READ < 2 ^ 63) :
  let run := client_run alloc sizeof_packet packager stream_url_query errno heap_alloc add_ok user_cb fuel b l (thiz, fd, w) in
  let reach := rtc (moves alloc sizeof_packet packager stream_url_query fuel) (thiz, xs, pending fd) in
  match run with
  | Ok (thiz', fd', w') => exists xs', reach (thiz', xs', pending fd') /\ client_at w' (<[input v := xs']> B) b v xs'
  | UB => exists thiz' xs' ps, reach (thiz', xs', ps) /\ stream_input_handler alloc sizeof_packet packager take_front drop_front stream_url_query fuel thiz' xs' = UB
  | NoFuel => exists thiz' xs' ps, reach (thiz', xs', ps) /\ stream_input_handler alloc sizeof_packet packager take_front drop_front stream_url_query fuel thiz' xs' = NoFuel
  end.
Proof.
  cbv zeta. revert w B xs thiz fd Hc Hl. induction l as [| k l IH]; intros w B xs thiz fd Hc Hl; cbn [client_run].
  { exists xs. split; [done |]. rewrite insert_id by apply Hc. done. }
  pose proof (step_moves alloc sizeof_packet packager stream_url_query errno heap_alloc add_ok user_cb fuel w B b v xs thiz fd k Hc Hcb ltac:(lia)) as H.
  destruct (client_step _ _ _ _ _ _ _ _ _ _ _ _) as [[[t fd1] w1] | |]; cbn [mbind res_bind]; [| destruct H as [_ H]; by exists thiz, xs, (pending fd)..].
  destruct H as (xs1 & Hm & Hc1 & Hle). specialize (IH w1 _ xs1 t fd1 Hc1 ltac:(lia)). destruct (client_run _ _ _ _ _ _ _ _ _ _ _ _) as [[[t2 fd2] w2] | |].
  - destruct IH as (xs2 & Hr & Hc2). exists xs2. rewrite insert_insert_eq in Hc2. split; [by eapply rtc_l | done].
  - destruct IH as (t2 & xs2 & ps & Hr & E). exists t2, xs2, ps. split; [by eapply rtc_l | done].
  - destruct IH as (t2 & xs2 & ps & Hr & E). exists t2, xs2, ps. split; [by eapply rtc_l | done].
Qed.

(** ** A client that sends two packets and the start of one more *)

#[local] Instance client_store : PacketStore queue := queue_store fresh_node fresh_node_ok.

Definition sent : list Z := audio_packet ++ audio_packet ++ [0x30; 0x31].

Lemma client_sample : client_at conn_heap {[1 := []; 2 := []]} 3 conn_bev [].
Proof. apply (conn_client _ _ _ _ conn_bev); [| exact conn_sample]. exists 0, (Z.shiftl 2 20). by split_and!. Qed.

Lemma client_refines_witness : exists thiz w' rest fd,
  client_run (fun _ => true) 64 H264.tima_h264_rtmp_create (fun t _ _ => Ok t) (fun _ => Failed) alloc_all (fun _ => true) no_function 32 3 [Readable; Called; TimedOut]
    (sample_stream 0 (Meta 0 []), sent, conn_heap) = Ok (thiz, fd, w') /\
  rtc (moves (fun _ => true) 64 H264.tima_h264_rtmp_create (fun t _ _ => Ok t) 32) (sample_stream 0 (Meta 0 []), [], sent) (thiz, rest, fd) /\
  client_at w' (<[1 := rest]> {[1 := []; 2 := []]}) 3 conn_bev rest /\ evbuffer_get_length 1 w' = Ok 2.
Proof.
  pose proof (client_refines (fun _ => true) 64 H264.tima_h264_rtmp_create (fun t _ _ => Ok t) (fun _ => Failed) alloc_all (fun _ => true) no_function 32 [Readable; Called; TimedOut]
    conn_heap _ 3 conn_bev [] (sample_stream 0 (Meta 0 [])) sent client_sample ltac:(done) ltac:(vm_compute; done)) as H. cbv zeta in H.
  assert (E : match client_run (fun _ => true) 64 H264.tima_h264_rtmp_create (fun t _ _ => Ok t) (fun _ => Failed) alloc_all (fun _ => true) no_function 32 3 [Readable; Called; TimedOut]
    (sample_stream 0 (Meta 0 []), sent, conn_heap) with Ok (_, fd, w') => fd = [] /\ evbuffer_get_length 1 w' = Ok 2 | _ => False end) by (vm_compute; by split).
  destruct (client_run _ _ _ _ _ _ _ _ _ _ _ _) as [[[t fd] w'] | |]; [| destruct E..]. destruct E as [-> E]. destruct H as (rest & Hr & Hc).
  exists t, w', rest, []. split; [reflexivity |]. split; [exact Hr | split; [exact Hc | exact E]].
Defined.
