(* ===== verification/App.v ===== *)
(** * The application

    [app/main.c], [bll/bll.c], [mw/common/context.c], [mw/common/tp.c], and of the components those start the
    functions that create, set and start their nodes: [bll_core.c], [bll_http_base.c], [server_listener.c],
    [cache.c], [cache_tima.c].  The main thread runs [bll_init]; three persistent jobs of the thread pool then
    run the core, the base of the HTTP client and the listener.  An action is a stretch of one of these
    threads, up to where it waits for the pool, or an action of the pool.  Addresses of blocks are handed out
    in order; those of functions are a parameter. *)

From Stdlib Require Import Sorting.Sorted.
From S2P Require Import Prelude Vector Node Dictionary Ini IniFile Cache FileSys Logs Server ThreadPool.

(** ** Classes *)

Inductive class : Type :=
| RTMP_PUBLISH | HTTP_TOKEN | TIMA_GET_PROPERTY | CACHE | CACHE_TIMA | SERVER_LISTENER | BLL_H264STREAM | BLL_HTTPBASE.

#[export] Instance class_eq_dec : EqDecision class.
Proof. solve_decision. Defined.

Definition FOURCCLE (a b c d : Z) : Z :=
  Z.lor (Z.lor (Z.lor (Z.shiftl (u8 a) 0) (Z.shiftl (u8 b) 8)) (Z.shiftl (u8 c) 16)) (Z.shiftl (u8 d) 24).

Definition fourcc (s : string) : Z := match chars s with [a; b; c; d] => FOURCCLE a b c d | _ => 0 end.

Definition code (c : class) : Z :=
  match c with
  | RTMP_PUBLISH => fourcc "RTPU" | HTTP_TOKEN => fourcc "HTTK" | TIMA_GET_PROPERTY => fourcc "TMGP"
  | CACHE => fourcc "CACH" | CACHE_TIMA => fourcc "CTIM" | SERVER_LISTENER => fourcc "SVRL"
  | BLL_H264STREAM => fourcc "BLHS" | BLL_HTTPBASE => fourcc "BLHB"
  end.

(** The functions whose addresses are stored. *)
Inductive symbol : Type := Create (c : class) | Delete (c : class) | CoreThread | BaseThread | ListenerThread.

#[export] Instance symbol_eq_dec : EqDecision symbol.
Proof. solve_decision. Defined.

(** In the order in which they are registered. *)
Definition classes : list class :=
  [RTMP_PUBLISH; HTTP_TOKEN; TIMA_GET_PROPERTY; CACHE; CACHE_TIMA; SERVER_LISTENER; BLL_H264STREAM; BLL_HTTPBASE].

Definition symbols : list symbol := map Create classes ++ map Delete classes ++ [CoreThread; BaseThread; ListenerThread].

(** ** Nodes and the context *)

Record ServerListenerReq := MkListenerReq { req_base : option Z; req_port : Z; req_ctx : Z; req_read_cb : bool }.

(** A [PrivInfo]: of the cache, of the network configuration, of the listener, of the HTTP base, of the core;
    the others are modelled with their components. *)
Inductive PrivInfo : Type :=
| CacheInfo (tima : option Z)
| TimaInfo (cfg : CacheNetworkConfig)
| ListenerInfo (id : Z) (req : ServerListenerReq)
| BaseInfo (id cond : Z)
| CoreInfo (id cond : Z)
| OtherInfo.

(** The class says which functions a node has. *)
Record vmp_node_t := MkVmpNode { class_of : class; private : Z; parent : option Z }.

(** [tp] is the pool with what its threads and callers do; the service is part of the server. *)
Record context := MkContext { vector_node : VmpVector; tp : option world; bll : option Z; hbase : option Z; cache : option Z }.

(** Where the main thread is: before [bll_init], in its call of the pool for the core, in its loop. *)
Inductive main_pc : Type := MStart | MCalling (core : Z) | MIdle.

(** Where a job is: the core in the call of its first or second node, in its loop, at its end; the others
    in the loop of their event base. *)
Inductive thread_pc : Type :=
| CoreBase (core p : Z) | CoreListener (core p : Z) | CoreSleep | CoreEnd | BaseLoop | ListenerLoop.

(** [listening] is the server once its listener is open; [files] is the file system. *)
Record system (W : Type) := MkSystem {
  ctx : option context; nodes : gmap Z vmp_node_t; infos : gmap Z PrivInfo; next : Z;
  main : main_pc; threads_at : gmap nat thread_pc; listening : option Server.world; files : W
}.
Arguments MkSystem {W}.
Arguments ctx {W}.
Arguments nodes {W}.
Arguments infos {W}.
Arguments next {W}.
Arguments main {W}.
Arguments threads_at {W}.
Arguments listening {W}.
Arguments files {W}.

(** ** [app/main.c]

    The options [getopt_long] finds, and what [main] does with them: [inl] is its result, [inr] the name of
    the configuration file it goes on with. *)
Inductive opt : Type := OptConf (arg : cstr) | OptOther.

Fixpoint options (os : list opt) (config_file : option cstr) : Z + option cstr :=
  match os with
  | [] => inr config_file
  | OptConf arg :: os => options os (Some arg)
  | OptOther :: _ => inl 0
  end.

Definition main_options (os : list opt) : Z + cstr :=
  match options os None with
  | inl r => inl r
  | inr None | inr (Some []) => inl (-1)
  | inr (Some c) => inr c
  end.

(** [bll_cond] *)
Definition bll_cond : Z := 1.

Section code.
Context {W : Type} `{FileSystem W}.
Context (save : W -> cstr -> cstr -> option W) (dzlog_init : W -> cstr -> Z) (strtol : cstr -> Z).
(** The addresses of functions, the sizes of structures, which allocations succeed; what a job on the stack
    holds before it is set. *)
Context (address : symbol -> Z) (sizeof_priv : class -> Z) (sizeof_core sizeof_context sizeof_pool sizeof_node sizeof_server : Z).
Context (alloc : Z -> bool) (handle_ok : bool) (garbage : ThreadPoolJob).
(** The configuration file as [iniparser_load] reads it. *)
Context (load : res (option dictionary)).
Implicit Types (w : system W).

Definition set_ctx w c := MkSystem c (nodes w) (infos w) (next w) (main w) (threads_at w) (listening w) (files w).
Definition set_node w a x := MkSystem (ctx w) (<[a := x]> (nodes w)) (infos w) (next w) (main w) (threads_at w) (listening w) (files w).
Definition set_info w a x := MkSystem (ctx w) (nodes w) (<[a := x]> (infos w)) (next w) (main w) (threads_at w) (listening w) (files w).
Definition set_main w m := MkSystem (ctx w) (nodes w) (infos w) (next w) m (threads_at w) (listening w) (files w).
Definition set_thread w n k := MkSystem (ctx w) (nodes w) (infos w) (next w) (main w) (<[n := k]> (threads_at w)) (listening w) (files w).
Definition set_listening w s := MkSystem (ctx w) (nodes w) (infos w) (next w) (main w) (threads_at w) (Some s) (files w).
Definition set_files w (f : W) := MkSystem (ctx w) (nodes w) (infos w) (next w) (main w) (threads_at w) (listening w) f.
Definition drop_node w a := MkSystem (ctx w) (delete a (nodes w)) (infos w) (next w) (main w) (threads_at w) (listening w) (files w).
Definition drop_info w a := MkSystem (ctx w) (nodes w) (delete a (infos w)) (next w) (main w) (threads_at w) (listening w) (files w).

Definition set_vector c v := MkContext v (tp c) (bll c) (hbase c) (cache c).
Definition set_tp c t := MkContext (vector_node c) (Some t) (bll c) (hbase c) (cache c).
Definition set_bll c a := MkContext (vector_node c) (tp c) (Some a) (hbase c) (cache c).
Definition set_hbase c b := MkContext (vector_node c) (tp c) (bll c) (Some b) (cache c).
Definition set_cache c a := MkContext (vector_node c) (tp c) (bll c) (hbase c) (Some a).

(** [context_get()->...]: there is no context while its allocation has not succeeded. *)
Definition context_get w : res context := of_option (ctx w).

(** [malloc], and [memset] on what it returns. *)
Definition zeroed (size : Z) w : res (Z * system W) :=
  _ ← assert_ok (alloc size);
  Ok (next w, MkSystem (ctx w) (nodes w) (infos w) (next w + 1) (main w) (threads_at w) (listening w) (files w)).

(** ** Creating and deleting nodes *)

Definition new_node (c : class) (i : PrivInfo) (up : option Z) w : res (Z * system W) :=
  '(q, w) ← zeroed (sizeof_priv c) w;
  '(p, w) ← zeroed sizeof_node w;
  Ok (p, set_node (set_info w q i) p (MkVmpNode c q up)).

Definition cache_create w : res (Z * system W) :=
  '(p, w) ← new_node CACHE (CacheInfo None) None w;
  c ← context_get w; Ok (p, set_ctx w (Some (set_cache c p))).

Definition cache_tima_create w : res (Z * system W) :=
  c ← context_get w; new_node CACHE_TIMA (TimaInfo Cache.cache_tima_create) (cache c) w.

Definition server_listener_create w : res (Z * system W) :=
  new_node SERVER_LISTENER (ListenerInfo 0 (MkListenerReq None 0 0 false)) None w.

Definition bll_hbase_create w : res (Z * system W) := new_node BLL_HTTPBASE (BaseInfo 0 1) None w.

Definition create (c : class) w : res (Z * system W) :=
  match c with
  | CACHE => cache_create w
  | CACHE_TIMA => cache_tima_create w
  | SERVER_LISTENER => server_listener_create w
  | BLL_HTTPBASE => bll_hbase_create w
  | _ => new_node c OtherInfo None w
  end.

(** [free(thiz); free(p)] *)
Definition node_free (p : Z) w : res (system W) :=
  n ← of_option (nodes w !! p);
  _ ← of_option (infos w !! private n);
  Ok (drop_node (drop_info w (private n)) p).

Definition cache_delete : Z -> system W -> res (system W) := node_free.
Definition cache_tima_delete : Z -> system W -> res (system W) := node_free.
Definition server_listener_delete : Z -> system W -> res (system W) := node_free.
Definition bll_hbase_delete : Z -> system W -> res (system W) := node_free.

(** The function a pointer points to. *)
Definition symbol_at (f : Z) : option symbol := List.find (fun s => address s =? f) symbols.

Definition node_create (c : class) w : res (option Z * system W) :=
  x ← context_get w;
  r ← Node.node_create symbol_at (code c) (vector_node x);
  match r with
  | None => Ok (None, w)
  | Some (Some (Create c)) => '(p, w) ← create c w; Ok (Some p, w)
  | Some _ => UB
  end.

Definition node_def (c : class) : nodedef :=
  MkNodedef (sizeof_priv c) (code c) (address (Create c)) (address (Delete c)).

Definition NODE_CLASS_REGISTER (c : class) w : res (system W) :=
  x ← context_get w; v ← node_register_class alloc (node_def c) (vector_node x); Ok (set_ctx w (Some (set_vector x v))).

Definition NODE_CLASS_UNREGISTER (c : class) w : res (system W) :=
  x ← context_get w; v ← node_unregister_class (code c) (vector_node x); Ok (set_ctx w (Some (set_vector x v))).

(** What is at a node. *)
Definition node_at (p : Z) w : res vmp_node_t := of_option (nodes w !! p).
Definition info_of (p : Z) w : res (Z * PrivInfo) := n ← node_at p w; i ← of_option (infos w !! private n); Ok (private n, i).

(** ** The pool

    A job on the stack; the pool gives [*jobId] when the call returns. *)
Definition persistent_job (s : symbol) (a : Z) (stop : bool) : ThreadPoolJob :=
  let job := (TPJobInit garbage (Some (address s)) a).2 in
  let job := (TPJobSetFreeFunction job None).2 in
  let job := if stop then (TPJobSetStopFunction job None).2 else job in
  (TPJobSetPriority job HIGH_PRIORITY).2.

(** [ThreadPoolAddPersistent(ctx->tp, &job, &job.jobId)], up to where it waits: call [c].  With a NULL pool
    it returns at once and [job.jobId] has no value. *)
Definition add_persistent (e : env) (c : nat) (job : ThreadPoolJob) w : res (system W) :=
  x ← context_get w;
  t ← of_option (tp x);
  t ← locked t (enter c (ThreadPoolAddPersistent e job t));
  Ok (set_ctx w (Some (set_tp x t))).

(** The value of [job.jobId] once call [c] has returned, [None] while it has not. *)
Definition call_result (c : nat) w : option (res Z) :=
  match x ← ctx w; t ← tp x; callers t !! c with
  | Some (Returned _ id) => Some (of_option id)
  | _ => None
  end.

(** ** Start-up *)

(** [ThreadPoolInit] starts no thread, since the minimum is 0: it returns without waiting. *)
Definition tp_init (e : env) w : res (system W) :=
  if negb (alloc sizeof_pool) then Ok w else
  '(k, t) ← ThreadPoolInit e tp_init_attr;
  match k with
  | Returned rc _ => if negb (rc =? 0) then Ok w else x ← context_get w; Ok (set_ctx w (Some (set_tp x t)))
  | _ => NoFuel
  end.

Definition context_init (e : env) w : res (system W) :=
  if negb (alloc sizeof_context) then Ok w else
  let w := set_ctx w (Some (MkContext (node_init alloc handle_ok) None None None None)) in
  w ← tp_init e w;
  w ← NODE_CLASS_REGISTER RTMP_PUBLISH w;
  w ← NODE_CLASS_REGISTER HTTP_TOKEN w;
  NODE_CLASS_REGISTER TIMA_GET_PROPERTY w.

Definition cache_init w : res (system W) := w ← NODE_CLASS_REGISTER CACHE w; NODE_CLASS_REGISTER CACHE_TIMA w.
Definition server_listener_init w : res (system W) := NODE_CLASS_REGISTER SERVER_LISTENER w.
Definition bll_h264_init w : res (system W) := NODE_CLASS_REGISTER BLL_H264STREAM w.
Definition bll_hbase_init w : res (system W) := NODE_CLASS_REGISTER BLL_HTTPBASE w.

(** [pfn_start] of the node of the configuration: the file is loaded. *)
Definition cache_tima_start (p : Z) w : res (system W) :=
  '(q, i) ← info_of p w;
  match i with
  | TimaInfo cfg => d ← load; cfg ← Cache.cache_tima_start strtol d cfg; Ok (set_info w q (TimaInfo cfg))
  | _ => UB
  end.

Definition cache_start (p : Z) w : res (system W) :=
  '(q, i) ← info_of p w;
  match i with
  | CacheInfo None =>
      '(t, w) ← node_create CACHE_TIMA w;
      t ← of_option t;
      w ← cache_tima_start t w;
      Ok (set_info w q (CacheInfo (Some t)))
  | CacheInfo (Some _) => Ok w
  | _ => UB
  end.

(** [thiz] is the core's [PrivInfo]. *)
Definition bll_core_start (e : env) (thiz : Z) w : res (system W) :=
  w ← add_persistent e 0 (persistent_job CoreThread thiz false) w; Ok (set_main w (MCalling thiz)).

Definition bll_core_init (e : env) w : res (system W) :=
  '(thiz, w) ← zeroed sizeof_core w;
  let w := set_info w thiz (CoreInfo 0 1) in
  x ← context_get w;
  let w := set_ctx w (Some (set_bll x thiz)) in
  '(p, w) ← node_create CACHE w;
  p ← of_option p;
  w ← cache_start p w;
  x ← context_get w;
  bll_core_start e thiz (set_ctx w (Some (set_cache x p))).

(** Up to the wait of [bll_core_start]; the log's result is not looked at. *)
Definition bll_init (e : env) w : res (system W) :=
  d ← load;
  '(_, f) ← tima_log_init save dzlog_init strtol (files w) d;
  let w := set_files w f in
  w ← context_init e w;
  w ← cache_init w;
  w ← server_listener_init w;
  w ← bll_h264_init w;
  w ← bll_hbase_init w;
  bll_core_init e w.

(** [thiz->id = job.jobId] in the core's [PrivInfo]. *)
Definition set_core_id (thiz id : Z) w : res (system W) :=
  i ← of_option (infos w !! thiz);
  match i with CoreInfo _ cond => Ok (set_info w thiz (CoreInfo id cond)) | _ => UB end.

(** ** The threads *)

Definition set_parent (p up : Z) w : res (system W) :=
  n ← node_at p w; Ok (set_node w p (MkVmpNode (class_of n) (private n) (Some up))).

Definition bll_hbase_start (e : env) (p : Z) w : res (system W) :=
  _ ← info_of p w; add_persistent e 1 (persistent_job BaseThread p false) w.

(** Up to the wait; the result is the node. *)
Definition task_hbase_start (e : env) (thiz : Z) w : res (Z * system W) :=
  '(p, w) ← node_create BLL_HTTPBASE w;
  p ← of_option p;
  w ← set_parent p thiz w;
  w ← bll_hbase_start e p w; Ok (p, w).

Definition server_listener_set (p : Z) (req : ServerListenerReq) w : res (system W) :=
  '(q, i) ← info_of p w;
  match i with ListenerInfo id _ => Ok (set_info w q (ListenerInfo id req)) | _ => UB end.

Definition server_listener_start (e : env) (p : Z) w : res (system W) :=
  _ ← info_of p w; add_persistent e 2 (persistent_job ListenerThread p true) w.

Definition task_server_listener (e : env) (thiz : Z) w : res (Z * system W) :=
  '(p, w) ← node_create SERVER_LISTENER w;
  p ← of_option p;
  w ← set_parent p thiz w;
  w ← server_listener_set p (MkListenerReq None 9999 thiz true) w;
  w ← server_listener_start e p w; Ok (p, w).

(** [thiz->id = job.jobId] of a node. *)
Definition set_id (p id : Z) w : res (system W) :=
  '(q, i) ← info_of p w;
  match i with
  | BaseInfo _ cond => Ok (set_info w q (BaseInfo id cond))
  | ListenerInfo _ req => Ok (set_info w q (ListenerInfo id req))
  | _ => UB
  end.

(** [while (thiz->cond)]: the loop sleeps for ever. *)
Definition core_loop (thiz : Z) w : res thread_pc :=
  i ← of_option (infos w !! thiz);
  match i with CoreInfo _ cond => Ok (if cond =? 0 then CoreEnd else CoreSleep) | _ => UB end.

(** [base] is what [event_base_new] returns; a timer keeps its loop running. *)
Definition bll_hbase_thread (base : Z) (p : Z) w : res (system W) :=
  _ ← info_of p w;
  x ← context_get w; Ok (set_ctx w (Some (set_hbase x base))).

(** The listener's thread up to the loop of its events.  [launcher] is the address of the service, [bind_ok]
    whether [evconnlistener_new_bind] opens the port: without, [run_listener_server] uses a NULL listener. *)
Definition server_listener_thread (launcher base : Z) (bind_ok : bool) (p : Z) w : res (system W) :=
  '(q, i) ← info_of p w;
  match i with
  | ListenerInfo _ req =>
      up ← n ← node_at p w; Ok (default 0 (parent n));
      _ ← assert_ok (alloc sizeof_server);
      let s := Server.MkWorld None 0 [Server.MkServer 0 0 0 0 None 0] [] [] ∅ ∅ in
      s ← setup_server up launcher 0 (req_base req) base (init_server base s);
      _ ← assert_ok bind_ok;
      Ok (set_listening w (Server.MkWorld (service s) (flowid s) (stream_server_general (Z.to_nat MAX_STREAM_SERVER_NUM)) [] [] ∅ ∅))
  | _ => UB
  end.

(** Worker [n] begins a job. *)
Definition begin (e : env) (launcher base : Z) (bind_ok : bool) (n : nat) (j : ThreadPoolJob) w : res (system W) :=
  match symbol_at (func j) with
  | Some CoreThread => '(p, w) ← task_hbase_start e (arg j) w; Ok (set_thread w n (CoreBase (arg j) p))
  | Some BaseThread => w ← bll_hbase_thread base (arg j) w; Ok (set_thread w n BaseLoop)
  | Some ListenerThread => w ← server_listener_thread launcher base bind_ok (arg j) w; Ok (set_thread w n ListenerLoop)
  | _ => UB
  end.

(** Worker [n] goes on with its job, [None] where it waits. *)
Definition continue (e : env) (n : nat) (k : thread_pc) w : option (res (system W)) :=
  match k with
  | CoreBase thiz p =>
      id ← call_result 1 w;
      Some (id ← id; w ← set_id p id w; '(p, w) ← task_server_listener e thiz w; Ok (set_thread w n (CoreListener thiz p)))
  | CoreListener thiz p =>
      id ← call_result 2 w;
      Some (id ← id; w ← set_id p id w; k ← core_loop thiz w; Ok (set_thread w n k))
  | _ => None
  end.

Inductive action : Type :=
| AMain (e : env)
| AThread (n : nat) (e : env) (launcher base : Z) (bind_ok : bool)
| APool (a : ThreadPool.action).

(** What the pool does by itself: the jobs of the program do not end. *)
Definition internal (a : ThreadPool.action) : bool :=
  match a with AResume _ _ | AStart _ | ATop _ _ _ | AWake _ _ _ _ => true | _ => false end.

(** [PrintThreadPoolStats] of [bll.c]: what it prints. *)
Definition bll_idle w : res (ThreadPoolStats * counts * (Z * Z * Z)) :=
  x ← context_get w; t ← of_option (tp x); Ok (ThreadPoolGetStats t).

Definition main_act (e : env) w : option (res (system W)) :=
  match main w with
  | MStart => Some (bll_init e w)
  | MCalling thiz => id ← call_result 0 w; Some (id ← id; w ← set_core_id thiz id w; Ok (set_main w MIdle))
  | MIdle => Some (_ ← bll_idle w; Ok w)
  end.

Definition act (a : action) w : option (res (system W)) :=
  match a with
  | AMain e =>
      if match x ← ctx w; tp x with Some t => env_ok e t | None => true end then main_act e w else None
  | AThread n e launcher base bind_ok =>
      x ← ctx w; t ← tp x;
      if negb (env_ok e t) then None else
      match workers t !! n with
      | Some (Running _ j) =>
          match threads_at w !! n with
          | None => Some (begin e launcher base bind_ok n j w)
          | Some k => continue e n k w
          end
      | _ => None
      end
  | APool a =>
      if negb (internal a) then None else
      x ← ctx w; t ← tp x;
      r ← ThreadPool.act a t;
      Some (t ← r; Ok (set_ctx w (Some (set_tp x t))))
  end.

Fixpoint run (acts : list action) w : option (res (system W)) :=
  match acts with
  | [] => Some (Ok w)
  | a :: acts => match act a w with Some (Ok w) => run acts w | r => r end
  end.

(** Before [bll_init]. *)
Definition started_up (f : W) : system W := MkSystem None ∅ ∅ 1 MStart ∅ None f.
End code.

(** ** Persistent jobs of a pool that has no others

    [m] calls have been made, call [c] with the job [J c]; they are made one after the other, each when the
    job before has been taken. *)
Definition signature (j : ThreadPoolJob) : Z * Z := (func j, arg j).

Definition call_shape (J : nat -> Z * Z) (c : nat) (k : caller) : Prop :=
  match k with
  | Pending (FPersistent j) | Started (FPersistent j) => signature j = J c
  | Taking => True
  | Returned _ id => is_Some id
  | _ => False
  end.

(** How many of the first calls have returned. *)
Definition ret (k : option caller) : Z := match k with Some (Returned _ _) => 1 | _ => 0 end.

Fixpoint returns (cs : gmap nat caller) (m : nat) : Z :=
  match m with O => 0 | S m => returns cs m + ret (cs !! m) end.

Lemma returns_insert cs c k m : returns (<[c := k]> cs) m = returns cs m + if decide (c < m)%nat then ret (Some k) - ret (cs !! c) else 0.
Proof.
  induction m as [| m IH]; [done |]. cbn [returns]. rewrite IH. destruct (decide (c = m)) as [-> |].
  - rewrite lookup_insert_eq. rewrite (decide_False (P := (m < m)%nat)), decide_True by lia. lia.
  - rewrite lookup_insert_ne by done. destruct (decide (c < m)%nat), (decide (c < S m)%nat); lia.
Qed.

Lemma returns_bound cs m : 0 <= returns cs m <= Z.of_nat m.
Proof. induction m as [| m IH]; cbn [returns]; [lia |]. destruct (cs !! m) as [[] |]; cbn [ret]; lia. Qed.

Lemma returns_same cs cs' m : (forall c, (c < m)%nat -> ret (cs !! c) = ret (cs' !! c)) -> returns cs m = returns cs' m.
Proof. induction m as [| m IH]; intros E; [done |]. cbn [returns]. rewrite IH by (intros; apply E; lia). rewrite E by lia. done. Qed.

(** Whether a call has its job still to place. *)
#[local] Instance placing_dec k : Decision (placing k).
Proof. destruct k as [[] | [] | | | |]; cbn; apply _. Defined.

Section memory.
(** Whether every call gets the memory for its job. *)
Context (mem : bool).

(** What the system gives a call. *)
Definition granted (e : env) (t : world) : Prop := env_ok e t = true /\ (mem = true -> job_ok e = true).

(** With memory, the jobs accepted are those of the first calls, and a call that has returned was told 0 when its job had been
    started. *)
Definition in_full (J : nat -> Z * Z) (t : world) (m k : nat) : Prop :=
  (k <= m)%nat /\ map signature (accepted t) = map J (seq 0 k) /\
  (forall c x, callers t !! c = Some x -> ((c < k)%nat <-> ~ placing x)) /\
  (forall c rc id, callers t !! c = Some (Returned rc id) -> rc = 0 /\ (c < length (started t))%nat).

Record pool_ok (J : nat -> Z * Z) (t : world) (m : nat) : Prop := {
  po_inv : ThreadPool.inv t;
  po_up : shutdown (pool t) = false;
  po_queue : queued (pool t) = [];
  po_clean : removed t = [] /\ dropped t = [] /\ lost t = [];
  po_jobs : accepted t = started t ++ option_list (persistentJob (pool t));
  po_dom : forall c, is_Some (callers t !! c) <-> (c < m)%nat;
  po_calls : forall c k, callers t !! c = Some k -> call_shape J c k /\ (placing k -> S c = m);
  po_slot : forall j, persistentJob (pool t) = Some j -> exists c, signature j = J c /\ callers t !! c = Some Taking;
  po_order : exists ps, map signature (accepted t) = map J ps /\ StronglySorted lt ps /\
    forall p, p ∈ ps -> exists k, callers t !! p = Some k /\ ~ placing k;
  po_ids : 0 <= lastJobId (pool t) <= returns (callers t) m;
  po_max : maxThreads (attr (pool t)) = 6000;
  po_few : (base.size (workers t) <= m)%nat /\ forall c f, callers t !! c = Some (Pending f) -> (base.size (workers t) < m)%nat;
  po_all : mem = true -> exists k, in_full J t m k
}.

(** What a call that adds a job does, up to where it waits or returns. *)
Definition added (job : ThreadPoolJob) (w : world) (k : caller) (w' : world) : Prop :=
  callers w' = callers w /\ started w' = started w /\ removed w' = removed w /\ dropped w' = dropped w /\ lost w' = lost w /\ attr (pool w') = attr (pool w) /\
  queued (pool w') = queued (pool w) /\ lastJobId (pool w') = lastJobId (pool w) /\ shutdown (pool w') = shutdown (pool w) /\
  (forall n p j, workers w' !! n = Some (Running p j) <-> workers w !! n = Some (Running p j)) /\
  ((k = Pending (FPersistent job) \/ k = Started (FPersistent job) \/ exists rc id, k = Returned rc (Some id)) /\
     persistentJob (pool w') = persistentJob (pool w) /\ accepted w' = accepted w \/
   k = Taking /\ exists j, signature j = signature job /\ persistentJob (pool w') = Some j /\ accepted w' = accepted w ++ [j]).

Lemma place_added e job w k w' : place_persistent e job w = Ok (k, w') -> added job w k w'.
Proof.
  unfold place_persistent, CreateThreadPoolJob. destruct (job_ok e); intros [= <- <-]; unfold added; split_and!; try done.
  - right. split; [done |]. eexists. split_and!; [| reflexivity | reflexivity]. done.
  - left. split_and!; eauto 6.
Qed.

Lemma note_most_fields t : callers (set_pool t (note_most (pool t))) = callers t /\ queued (note_most (pool t)) = queued (pool t) /\
  lastJobId (note_most (pool t)) = lastJobId (pool t) /\ shutdown (note_most (pool t)) = shutdown (pool t) /\
  persistentJob (note_most (pool t)) = persistentJob (pool t) /\ attr (note_most (pool t)) = attr (pool t).
Proof. unfold note_most. by destruct (_ <? _). Qed.

Lemma added_noted job t k w' : added job (set_pool t (note_most (pool t))) k w' -> added job t k w'.
Proof.
  destruct (note_most_fields t) as (N1 & N2 & N3 & N4 & N5 & N6).
  intros (H1 & H2 & H3 & H4 & Hl & Hm & H5 & H6 & H7 & H8 & H9). cbn in *. rewrite N5 in H9. unfold added. rewrite <- N2, <- N3, <- N4, <- N6. by split_and!.
Qed.

Lemma create_added e job w k w' : env_ok e w = true -> create_thread e (FPersistent job) w = Ok (k, w') -> added job w k w'.
Proof.
  intros He. unfold create_thread. destruct (negb _ && _); [apply place_added |]. unfold env_ok in He. destruct (ThreadPool.create e) as [n |].
  - apply bool_decide_eq_true in He. intros [= <- <-]. unfold added. cbn. split_and!; try done; [| left; split_and!; auto].
    intros i p j. destruct (decide (n = i)) as [<- |]; [| by rewrite lookup_insert_ne]. by rewrite lookup_insert_eq, He.
  - intros Hp. by apply added_noted, (place_added e).
Qed.

Lemma created_added e job w k w' : created e (FPersistent job) w = Ok (k, w') -> added job w k w'.
Proof. intros Hp. by apply added_noted, (place_added e). Qed.

Lemma add_persistent_added e job w k w' : env_ok e w = true -> ThreadPoolAddPersistent e job w = Ok (k, w') -> added job w k w'.
Proof.
  intros He. unfold ThreadPoolAddPersistent. destruct (_ <? _).
  - unfold CreateWorker. destruct (pendingWorkerThreadStart _); [| by apply create_added].
    intros [= <- <-]. unfold added. split_and!; auto.
  - destruct (_ =? 0); [| apply place_added]. intros [= <- <-]. unfold added. split_and!; eauto 8.
Qed.

(** The threads a call makes, and that it is not refused. *)
Definition grants (w w' : world) (k : caller) (more : bool) : Prop :=
  (base.size (workers w') <= base.size (workers w) + if more then 1 else 0)%nat /\
  (forall f, k = Pending f -> base.size (workers w') = base.size (workers w)) /\ (mem = true -> forall rc id, k <> Returned rc id).

Lemma place_grants e job w w0 k w' more : (mem = true -> job_ok e = true) -> workers w0 = workers w ->
  place_persistent e job w0 = Ok (k, w') -> grants w w' k more.
Proof.
  intros Hj Hw. unfold place_persistent, CreateThreadPoolJob. destruct (job_ok e); intros [= <- <-]; unfold grants; cbn; rewrite Hw.
  - split_and!; [lia | done | done].
  - split_and!; [lia | done | intros Hmem; specialize (Hj Hmem); done].
Qed.

Lemma create_grants e job w k w' : granted e w -> create_thread e (FPersistent job) w = Ok (k, w') -> grants w w' k true /\ forall f, k <> Pending f.
Proof.
  intros [_ Hj]. unfold create_thread.
  assert (P : forall w0, workers w0 = workers w -> place_persistent e job w0 = Ok (k, w') -> grants w w' k true /\ forall f, k <> Pending f).
  { intros w0 Hw E. split; [by eapply place_grants |]. unfold place_persistent in E. case_match; by injection E as <- _. }
  destruct (negb _ && _); [by apply P |]. destruct (ThreadPool.create e) as [n |]; [| by apply P].
  intros [= <- <-]. split; [| done]. unfold grants. cbn. split_and!; [| done | done]. rewrite map_size_insert. case_match; cbn; lia.
Qed.

Lemma created_grants e job w k w' : (mem = true -> job_ok e = true) -> created e (FPersistent job) w = Ok (k, w') -> grants w w' k false /\ forall f, k <> Pending f.
Proof.
  intros Hj E. split; [by apply (place_grants e job w (set_pool w (note_most (pool w)))) |]. cbn in E. unfold place_persistent in E. case_match; by injection E as <- _.
Qed.

Lemma add_grants e job w k w' : granted e w -> total (pool w) < maxThreads (attr (pool w)) ->
  ThreadPoolAddPersistent e job w = Ok (k, w') -> grants w w' k true.
Proof.
  intros Hg Ht. unfold ThreadPoolAddPersistent. rewrite (proj2 (Z.ltb_lt _ _) Ht). unfold CreateWorker. case_match; [| by apply create_grants].
  intros [= <- <-]. unfold grants. split_and!; [lia | done | done].
Qed.

Lemma sorted_snoc ps c : StronglySorted lt ps -> (forall p, p ∈ ps -> (p < c)%nat) -> StronglySorted lt (ps ++ [c]).
Proof.
  induction 1 as [| p ps Hs IH Hp]; intros Hc; cbn; [repeat constructor |]. constructor.
  - apply IH. intros q Hq. apply Hc. by right.
  - apply Forall_app. split; [done |]. constructor; [| done]. apply Hc. by left.
Qed.

(** Call [c], new or still to place its job, goes on. *)
Lemma added_ok J b m c job w k w' : pool_ok J b m -> m = c \/ m = S c ->
  (forall c', c' <> c -> callers w !! c' = callers b !! c') ->
  (forall k0, callers b !! c = Some k0 -> placing k0) -> set_pool (hide w c) (pool w) = hide b c ->
  alone w -> signature job = J c -> added job w k w' -> ThreadPool.inv (set_caller w' c k) ->
  (base.size (workers w') <= S c)%nat -> (forall f, k = Pending f -> (base.size (workers w') <= c)%nat) -> (mem = true -> forall rc id, k <> Returned rc id) ->
  pool_ok J (set_caller w' c k) (S c) /\ started w' = started b /\
  (forall n p j, workers w' !! n = Some (Running p j) <-> workers b !! n = Some (Running p j)).
Proof.
  intros [] Hm Hcs Hold Hb [Hslot Hal] Hsig (H1 & H2 & H3 & H4 & Hlost & Hattr & H5 & H6 & H7 & H8 & H9) Hinv Hfew Hpend Hfull.
  injection Hb as Ep Ew _ Ea Es Er _ Ed El _.
  assert (Hk : call_shape J c k).
  { destruct H9 as [([-> | [-> | (rc & id & ->)]] & _) | (-> & _)]; cbn; done || by eexists. }
  assert (Hne : forall p, (exists k, callers b !! p = Some k /\ ~ placing k) -> (p < c)%nat).
  { intros p (k0 & E & Hp). assert (p <> c) by (intros ->; by apply Hp, Hold). assert (p < m)%nat by (apply po_dom0; by eexists). lia. }
  split_and!; [split; cbn; rewrite ?H1, ?H2, ?H3, ?H4, ?Hlost, ?Hattr, ?H5, ?H6, ?H7, ?Er, ?Ed, ?El, ?Es, ?Ea | congruence | intros; by rewrite H8, Ew].
  - done.
  - by rewrite Ep.
  - by rewrite Ep.
  - done.
  - rewrite <- Ep, Hslot, app_nil_r in po_jobs0. destruct H9 as [(_ & -> & ->) | (_ & j & _ & -> & ->)]; rewrite Ea, po_jobs0, ?Hslot; cbn; by rewrite ?app_nil_r.
  - intros c'. destruct (decide (c = c')) as [<- | Hc]; [rewrite lookup_insert_eq; split; [lia | by eexists] |].
    rewrite lookup_insert_ne, Hcs, po_dom0 by done. lia.
  - intros c' k' E. apply lookup_insert_Some in E as [[<- <-] | [Hc E]]; [done |]. split; [| intros P; by destruct (Hal c' k')].
    rewrite Hcs in E by done. by apply po_calls0.
  - intros j Hj. destruct H9 as [(_ & E & _) | (-> & j' & Ej & E & _)]; [congruence |].
    exists c. rewrite lookup_insert_eq. split; [congruence | done].
  - destruct po_order0 as (ps & P1 & P2 & P3).
    assert (G : forall p, p ∈ ps -> exists k0, <[c := k]> (callers w) !! p = Some k0 /\ ~ placing k0).
    { intros p Hp. destruct (P3 p Hp) as (k0 & E & Hn). assert (p <> c) by (intros ->; by apply Hn, Hold).
      exists k0. rewrite lookup_insert_ne, Hcs by done. done. }
    destruct H9 as [(_ & _ & ->) | (-> & j & Ej & _ & ->)]; rewrite Ea; [by exists ps |].
    exists (ps ++ [c]). split_and!.
    + rewrite !map_app, P1. cbn. by rewrite Ej, Hsig.
    + apply sorted_snoc; [done |]. intros p Hp. by apply Hne, P3.
    + intros p [Hp | ->%list_elem_of_singleton]%elem_of_app; [by apply G |]. exists Taking. rewrite lookup_insert_eq. split; [done | by intros []].
  - rewrite Ep. cbn [returns]. rewrite lookup_insert_eq.
    assert (E : returns (<[c := k]> (callers w)) c = returns (callers b) m).
    { rewrite (returns_same _ (callers b) c).
      - destruct Hm as [-> | ->]; [done |]. cbn [returns]. destruct (callers b !! c) as [k0 |] eqn:E; [| cbn; lia].
        specialize (Hold k0 eq_refl). destruct k0; try done; cbn; lia.
      - intros c' Hc. rewrite lookup_insert_ne, Hcs by lia. done. }
    rewrite E. destruct k; cbn; lia.
  - by rewrite Ep.
  - split; [done |]. intros c' f E. apply lookup_insert_Some in E as [[_ ->] | [Hc E]]; [specialize (Hpend f eq_refl); lia |].
    exfalso. rewrite Hcs in E by done. destruct (po_calls0 c' _ E) as [Hs Hp]. destruct f; try done. rewrite <- Hcs in E by done. by apply (Hal c' _ E).
  - intros Hmem. destruct (po_all0 Hmem) as (k0 & K1 & K2 & K3 & K4). specialize (Hfull Hmem).
    assert (Ek : k0 = c).
    { apply Nat.le_antisymm.
      - destruct Hm as [<- | Em]; [done |]. apply Nat.nlt_ge. intros Hlt. destruct (proj2 (po_dom0 c) ltac:(lia)) as [x Ex].
        by apply (proj1 (K3 c x Ex)), (Hold x Ex).
      - destruct c as [| c]; [lia |]. destruct (proj2 (po_dom0 c) ltac:(lia)) as [x Ex]. apply (K3 c x Ex). rewrite <- Hcs in Ex by lia. by apply (Hal c x). }
    subst k0. assert (C : forall c' x, callers b !! c' = Some x -> c' <> c -> (c' < c)%nat /\ ~ placing x).
    { intros c' x Ex Hx. rewrite <- Hcs in Ex by done. pose proof (Hal c' x Ex) as Hn. split; [| done]. apply (K3 c' x); [by rewrite <- Hcs | done]. }
    exists (if decide (placing k) then c else S c). unfold in_full. cbn. rewrite H1. split_and!.
    + destruct (decide (placing k)); lia.
    + destruct H9 as [([-> | [-> | (rc & id & ->)]] & _ & ->) | (-> & j & Ej & _ & ->)].
      * rewrite decide_True by done. by rewrite Ea.
      * rewrite decide_True by done. by rewrite Ea.
      * by destruct (Hfull rc (Some id)).
      * rewrite decide_False by (by intros []). rewrite Ea, map_app, K2, seq_S, map_app. cbn. by rewrite Ej, Hsig.
    + intros c' x E. apply lookup_insert_Some in E as [[<- <-] | [Hx E]]; [destruct (decide (placing k)); split; intros; (lia || done) |].
      rewrite Hcs in E by done. destruct (C c' x E ltac:(done)). split; [done |]. destruct (decide (placing k)); lia.
    + intros c' rc id E. rewrite H2. apply lookup_insert_Some in E as [[<- ->] | [Hx E]]; [by destruct (Hfull rc id) |].
      rewrite Hcs in E by done. rewrite Es. by apply (K4 c' rc id).
Qed.

(** ** The steps of such a pool *)

(** Every running job is one of those started, each worker's another one. *)
Definition runs (t : world) : Prop := exists f : gmap nat nat,
  (forall n p j, workers t !! n = Some (Running p j) -> exists i, f !! n = Some i /\ started t !! i = Some j) /\
  (forall n n' i, f !! n = Some i -> f !! n' = Some i -> n = n') /\
  (forall n i, f !! n = Some i -> (i < length (started t))%nat).

Lemma runs_same t t' : started t' = started t ->
  (forall n p j, workers t' !! n = Some (Running p j) -> workers t !! n = Some (Running p j)) -> runs t -> runs t'.
Proof. intros E H (f & H1 & H2 & H3). exists f. rewrite E. split_and!; [| done | done]. intros n p j Hn%H. by eapply H1. Qed.

Lemma runs_start t t' n p j : runs t -> started t' = started t ++ [j] -> workers t' !! n = Some (Running p j) ->
  (forall n' p' j', n' <> n -> workers t' !! n' = Some (Running p' j') -> workers t !! n' = Some (Running p' j')) -> runs t'.
Proof.
  intros (f & H1 & H2 & H3) E Hn Ho. exists (<[n := length (started t)]> f). rewrite E. split_and!.
  - intros n' p' j' H. destruct (decide (n = n')) as [<- | Hne].
    + exists (length (started t)). rewrite lookup_insert_eq, list_lookup_middle by done. split; [done |]. congruence.
    + destruct (H1 n' p' j') as (i & F & L); [by apply Ho |]. exists i. rewrite lookup_insert_ne by done. split; [done |]. by apply lookup_app_l_Some.
  - intros a b i Ha Hb. apply lookup_insert_Some in Ha, Hb.
    destruct Ha as [[<- <-] | [? Ha]], Hb as [[<- ?] | [? Hb]]; try done; [specialize (H3 _ _ Hb); lia | specialize (H3 _ _ Ha); lia | by apply (H2 a b i)].
  - intros a i Ha. rewrite length_app. cbn. apply lookup_insert_Some in Ha as [[<- <-] | [? Ha]]; [lia |]. specialize (H3 _ _ Ha). lia.
Qed.

(** What every step keeps: the jobs started, the running workers, the calls that have returned. *)
Definition keeps_on (t t' : world) : Prop :=
  started t `prefix_of` started t' /\
  (forall n p j, workers t !! n = Some (Running p j) -> workers t' !! n = Some (Running p j)) /\
  (forall c rc id, callers t !! c = Some (Returned rc id) -> callers t' !! c = Some (Returned rc id)).

Lemma room_ok J t m : pool_ok J t m -> (m <= 3)%nat -> room t.
Proof. intros [] Hm. pose proof (returns_bound (callers t) m). unfold room, INT_MAX, INT_MIN. lia. Qed.

Lemma few_threads J t m : pool_ok J t m -> total (pool t) <= Z.of_nat m.
Proof.
  intros []. pose proof (iv_counts t po_inv0 CTotal) as Hc. cbn in Hc. pose proof (sum_size (workers t)) as Hs.
  pose proof (iv_pending t po_inv0) as Hp. destruct (pendingWorkerThreadStart (pool t)); lia.
Qed.

(** A new call. *)
Lemma pool_call J t m e job : pool_ok J t m -> runs t -> (m <= 3)%nat -> alone t -> granted e t -> signature job = J m ->
  exists t', locked t (enter m (ThreadPoolAddPersistent e job t)) = Ok t' /\ pool_ok J t' (S m) /\ runs t' /\ keeps_on t t' /\ started t' = started t /\
    (forall c, c <> m -> callers t' !! c = callers t !! c).
Proof.
  intros Hp Hr Hm Ha Hg Hs. pose proof Hg as [He _]. pose proof (room_ok J t m Hp Hm) as Hroom. pose proof (few_threads J t m Hp) as Htot.
  assert (Hn : callers t !! m = None). { apply eq_None_not_Some. rewrite (po_dom J t m Hp). lia. }
  destruct (add_persistent_served e job t m (po_inv J t m Hp) Hn (po_up J t m Hp) Hroom Ha He) as (k & w' & E & Hi).
  pose proof (add_persistent_added e job t k w' He E) as Had. unfold locked.
  rewrite (inv_up t (po_inv J t m Hp) (po_up J t m Hp)), E. cbn [enter mbind res_bind].
  destruct (add_grants e job t k w' Hg) as (G1 & G2 & G3); [rewrite (po_max J t m Hp); lia | exact E |]. pose proof (po_few J t m Hp) as [F1 _].
  destruct (added_ok J t m m job t k w' Hp) as (Hp' & Hst & Hru); try done; [by left | congruence | lia | intros f Ef; by rewrite (G2 f Ef) |].
  eexists. split; [done |]. split_and!; [done | | | done |].
  - apply (runs_same t); [done | | done]. intros n p j. cbn. by rewrite Hru.
  - split_and!; cbn; [by rewrite Hst | intros n p j; by rewrite Hru |].
    intros c rc id E'. rewrite lookup_insert_ne by congruence. destruct Had as (-> & _). done.
  - intros c Hc. cbn. rewrite lookup_insert_ne by done. by destruct Had as (-> & _).
Qed.

(** A worker that runs nothing goes through its loop. *)
Lemma loop_ok J t m n x p nodes now timedout tp w' : pool_ok J t m -> runs t -> workers t !! n = Some x -> (forall p j, x <> Running p j) ->
  queued tp = queued (pool t) -> persistentJob tp = persistentJob (pool t) -> lastJobId tp = lastJobId (pool t) -> shutdown tp = shutdown (pool t) -> attr tp = attr (pool t) ->
  go_on n p timedout nodes now (set_pool t tp) = Ok w' -> ThreadPool.inv w' ->
  pool_ok J w' m /\ runs w' /\ keeps_on t w' /\ callers w' = callers t.
Proof.
  intros [] Hr Hx Hnr Q1 Q2 Q3 Q4 Q5. unfold go_on. cbn [pool set_pool].
  destruct (worker_loop_ok timedout nodes now tp p) as (o & js & tp' & -> & H). cbn [mbind res_bind].
  pose proof (rd_fixed _ _ _ _ _ _ _ H) as F. pose proof (rd_jobs _ _ _ _ _ _ _ H) as P. pose proof (rd_length _ _ _ _ _ _ _ H) as L.
  pose proof (rd_serves _ _ _ _ _ _ _ H) as Sv. clear H.
  intros [= <-] Hinv. rewrite Q1, po_queue0 in L. cbn in L. assert (Q : queued tp' = []) by (destruct (queued tp'); cbn in L; [done | lia]).
  unfold held_jobs in P. rewrite Q, Q1, Q2, po_queue0 in P. cbn in P. injection F as F0 F1 F2 _.
  assert (Js : js = []).
  { destruct (persistentJob (pool t)) as [j0 |] eqn:Ep; cbn in P; [| by apply Permutation_nil_l, eq_sym, app_nil in P as [_ [_ ?]%app_nil]].
    destruct Sv as (q & j & ->); [congruence | destruct (no_job tp) eqn:En; [apply no_job_spec in En as [_ En]; congruence | done] | right; right; congruence |].
    apply Permutation_length in P. rewrite !length_app in P. cbn in P. destruct js; [done | cbn in P; lia]. }
  subst js. rewrite app_nil_r in P. replace (log_lost (set_pool (set_pool t tp) tp') []) with (set_pool t tp') in * by (unfold log_lost; cbn; by rewrite app_nil_r).
  assert (Hw : forall n' p' j', n' <> n -> workers (settle n p o (set_pool t tp')) !! n' = Some (Running p' j') <-> workers t !! n' = Some (Running p' j')).
  { intros n' p' j' Hne. destruct o; cbn; [by rewrite lookup_insert_ne | by rewrite lookup_delete_ne | by rewrite lookup_insert_ne]. }
  assert (Hkeep : started t `prefix_of` started (settle n p o (set_pool t tp')) -> keeps_on t (settle n p o (set_pool t tp'))).
  { intros Hpre. split_and!; [done | | by destruct o]. intros n' p' j' Hn'. apply Hw; [| done]. intros ->. rewrite Hx in Hn'. injection Hn' as ->. by destruct (Hnr p' j'). }
  assert (C : callers (settle n p o (set_pool t tp')) = callers t) by (by destruct o).
  assert (Pl : pool (settle n p o (set_pool t tp')) = tp') by (by destruct o).
  assert (Sz : (base.size (workers (settle n p o (set_pool t tp'))) <= base.size (workers t))%nat).
  { destruct o; cbn; rewrite ?map_size_insert_Some, ?map_size_delete_Some by eauto; lia. }
  assert (Few : (base.size (workers (settle n p o (set_pool t tp'))) <= m)%nat /\ forall c f, callers t !! c = Some (Pending f) -> (base.size (workers (settle n p o (set_pool t tp'))) < m)%nat).
  { destruct po_few0 as [Fw1 Fw2]. split; [lia |]. intros c f Ec. specialize (Fw2 c f Ec). lia. }
  assert (Full : mem = true -> exists k, in_full J (settle n p o (set_pool t tp')) m k).
  { intros Hmem. destruct (po_all0 Hmem) as (k & K1 & K2 & K3 & K4). exists k. unfold in_full. rewrite C.
    split_and!; [done | by destruct o | done |]. intros c rc id Ec. destruct (K4 c rc id Ec) as [? Hlt]. split; [done |]. destruct o; cbn; rewrite ?length_app; lia. }
  destruct o as [| | q j].
  3: { assert (S : persistentJob (pool t) = Some j /\ persistentJob tp' = None).
    { destruct (persistentJob (pool t)) as [j0 |], (persistentJob tp') as [j1 |]; cbn in P; try (apply Permutation_length in P; cbn in P; lia).
      apply Permutation_singleton_inj in P. by subst. }
    destruct S as [S1 S2]. assert (E : accepted t = started t ++ [j]) by (by rewrite po_jobs0, S1).
    split_and!; [split; rewrite ?C, ?Pl; try (cbn; done) | | apply Hkeep; cbn; by eexists | done].
    - congruence.
    - cbn. by rewrite S2, app_nil_r.
    - congruence.
    - lia.
    - congruence.
    - eapply runs_start; [done | done | cbn; apply lookup_insert_eq |]. intros n' p' j' Hne. by apply Hw. }
  all: assert (S : persistentJob tp' = persistentJob (pool t)) by
    (rewrite app_nil_r in P; destruct (persistentJob (pool t)), (persistentJob tp'); cbn in P;
       [by apply Permutation_singleton_inj in P as -> | by apply Permutation_length in P | by apply Permutation_length in P | done]).
  all: split_and!; [split; rewrite ?C, ?Pl, ?S; try exact Few; try exact Full; cbn; done || congruence || lia | | by apply Hkeep | done].
  all: apply (runs_same t); [done | | done]; intros n' p' j' Hn'; destruct (decide (n' = n)) as [-> |]; [| by apply Hw];
    cbn in Hn'; rewrite ?lookup_insert_eq, ?lookup_delete_eq in Hn'; congruence.
Qed.

Lemma worker_top_fields p job tp : queued (worker_top p job tp) = queued tp /\ persistentJob (worker_top p job tp) = persistentJob tp /\
  lastJobId (worker_top p job tp) = lastJobId tp /\ shutdown (worker_top p job tp) = shutdown tp /\ attr (worker_top p job tp) = attr tp.
Proof. unfold worker_top. by destruct (p =? 0), (p =? 1). Qed.

(** A waiting call goes on. *)
Lemma resume_ok J t m c e r t' : pool_ok J t m -> runs t -> (m <= 3)%nat -> (mem = true -> job_ok e = true) -> ThreadPool.act (AResume c e) t = Some r -> r = Ok t' -> ThreadPool.inv t' ->
  pool_ok J t' m /\ runs t' /\ keeps_on t t'.
Proof.
  intros Hp Hr Hm Hj Ha -> Hi. cbn [ThreadPool.act] in Ha. destruct (env_ok e t) eqn:He; [| done]. cbn [negb] in Ha.
  destruct (callers t !! c) as [k |] eqn:Hc; [| done]. destruct (po_calls J t m Hp c k Hc) as [Hs Hlast].
  unfold locked in Ha. rewrite (inv_up t (po_inv J t m Hp) (po_up J t m Hp)) in Ha.
  assert (P : forall job k0 k1 w', callers t !! c = Some k0 -> placing k0 -> signature job = J c -> added job (hide t c) k1 w' ->
    (exists more, grants t w' k1 more /\ (more = true -> (base.size (workers t) < m)%nat)) -> (forall f, k1 <> Pending f) -> ThreadPool.inv (set_caller w' c k1) -> pool_ok J (set_caller w' c k1) m /\ runs (set_caller w' c k1) /\ keeps_on t (set_caller w' c k1)).
  { intros job k0 k1 w' Hk0 Hpl Hsig Had (more & (G1 & _ & G3) & Gm) Hnp Hinv. destruct (po_few J t m Hp) as [F1 _]. assert (Hcm : S c = m) by (by apply (proj2 (po_calls J t m Hp c k0 Hk0))).
    destruct (added_ok J t m c job (hide t c) k1 w' Hp) as (Hp' & Hst & Hru); try done.
    - by right.
    - intros c' Hne. cbn. by rewrite lookup_delete_ne.
    - intros k2 E. congruence.
    - unfold hide. cbn. by rewrite delete_delete_eq.
    - by apply (hide_alone t c k0 (po_inv J t m Hp)).
    - destruct more; [specialize (Gm eq_refl) |]; lia.
    - intros f Ef. by destruct (Hnp f).
    - rewrite Hcm in Hp'. split_and!; [done | | ].
      + apply (runs_same t); [done | | done]. intros n p j. cbn. by rewrite Hru.
      + split_and!; cbn; [by rewrite Hst | intros n p j; by rewrite Hru |].
        intros c' rc id E'. assert (c' <> c) by (intros ->; rewrite Hk0 in E'; injection E' as ->; done).
        rewrite lookup_insert_ne by done. destruct Had as (-> & _). cbn. by rewrite lookup_delete_ne. }
  destruct k as [f | f | | rc | | rc id]; try done.
  - destruct (pendingWorkerThreadStart (pool t)) eqn:Ep; [done |]. destruct f as [| job |]; try done.
    destruct (create_thread e (FPersistent job) (hide t c)) as [[k1 w'] | |] eqn:E; cbn in Ha; try done. injection Ha as <-.
    destruct (create_grants e job (hide t c) k1 w') as [Hg Hnp]; [by split | done |].
    apply (P job (Pending (FPersistent job)) k1 w'); try done; [by apply (create_added e) |]. exists true. split; [exact Hg |].
    intros _. by apply (proj2 (po_few J t m Hp) c (FPersistent job)).
  - destruct (pendingWorkerThreadStart (pool t)) eqn:Ep; [done |]. destruct f as [| job |]; try done.
    destruct (created e (FPersistent job) (hide t c)) as [[k1 w'] | |] eqn:E; cbn in Ha; try done. injection Ha as <-.
    destruct (created_grants e job (hide t c) k1 w' Hj E) as [Hg Hnp].
    apply (P job (Started (FPersistent job)) k1 w'); try done; [by apply (created_added e) |]. by exists false.
  - destruct (persistentJob (pool t)) eqn:Ep; [done |]. pose proof (returns_bound (callers t) m) as Hb.
    unfold return_id in Ha. rewrite int_op_in in Ha by (cbn; destruct Hp; unfold INT_MIN, INT_MAX; lia).
    cbn in Ha. injection Ha as <-. destruct Hp. assert (Hcm : (c < m)%nat) by (apply po_dom0; by eexists).
    split_and!; [split; cbn; try done | by apply (runs_same t) | split_and!; cbn; [done | done |]].
    + intros c'. rewrite lookup_insert_is_Some. destruct (decide (c = c')) as [<- | Hne]; [intuition |].
      rewrite lookup_delete_ne, po_dom0 by done. naive_solver.
    + intros c' k E. apply lookup_insert_Some in E as [[<- <-] | [Hne E]]; [split; [by eexists | done] |].
      rewrite lookup_delete_ne in E by done. by apply po_calls0.
    + congruence.
    + destruct po_order0 as (ps & P1 & P2 & P3). exists ps. split_and!; [done | done |]. intros p Hq. destruct (P3 p Hq) as (k & E & Hk).
      destruct (decide (c = p)) as [<- | Hne]; [eexists; rewrite lookup_insert_eq; split; [done | by intros []] |].
      exists k. rewrite lookup_insert_ne, lookup_delete_ne by done. done.
    + rewrite insert_delete_eq, returns_insert, decide_True, Hc by done. cbn. lia.
    + destruct po_few0 as [F1 F2]. split; [done |]. intros c' f E. apply lookup_insert_Some in E as [[_ ?] | [Hne E]]; [done |].
      rewrite lookup_delete_ne in E by done. by apply (F2 c' f).
    + intros Hmem. destruct (po_all0 Hmem) as (k & K1 & K2 & K3 & K4). exists k. unfold in_full. cbn. split_and!; try done.
      * intros c' x E. apply lookup_insert_Some in E as [[<- <-] | [Hne E]]; [rewrite (K3 c Taking Hc); by split; intros _ [] |].
        rewrite lookup_delete_ne in E by done. by apply K3.
      * intros c' rc id E. apply lookup_insert_Some in E as [[<- [= <- <-]] | [Hne E]]; [| rewrite lookup_delete_ne in E by done; by apply (K4 c' rc id)].
        split; [done |]. rewrite Ep, app_nil_r in po_jobs0. apply (f_equal length) in K2. rewrite !length_map, length_seq, po_jobs0 in K2. rewrite K2.
        apply (K3 c Taking Hc). by intros [].
    + intros c' rc id E. assert (c' <> c) by (intros ->; congruence). rewrite lookup_insert_ne, lookup_delete_ne by done. done.
Qed.

(** Every internal action goes through and keeps all this. *)
Definition has_memory (a : ThreadPool.action) : Prop := match a with AResume _ e => mem = true -> job_ok e = true | _ => True end.

Lemma pool_step J t m a r : pool_ok J t m -> runs t -> (m <= 3)%nat -> has_memory a -> internal a = true -> ThreadPool.act a t = Some r ->
  exists t', r = Ok t' /\ pool_ok J t' m /\ runs t' /\ keeps_on t t'.
Proof.
  intros Hp Hr Hm Hj Hin Ha.
  assert (Hc : ThreadPool.calm a t).
  { destruct a as [| | | | | c e | | | |]; try done. split; [by eapply room_ok |]. intros rc c' k Hf.
    by destruct (po_calls J t m Hp c _ Hf). }
  destruct (act_inv a t (po_inv J t m Hp) Hc r Ha) as (t' & -> & Hi). exists t'. split; [done |].
  destruct a as [| | | | | c e | n | n nodes now | n timedout nodes now |]; try done.
  - by eapply resume_ok.
  - cbn [ThreadPool.act] in Ha. destruct (workers t !! n) as [[] |] eqn:Hn; try done. injection Ha as Ha.
    unfold locked in Ha. destruct (destroyed t); [done |]. injection Ha as <-. destruct Hp.
    assert (Sz : base.size (<[n:=Top (-1) None]> (workers t)) = base.size (workers t)) by (apply map_size_insert_Some; by eexists).
    split_and!; [split; cbn; rewrite ?Sz; done | | split_and!; cbn; [done | | done]].
    + apply (runs_same t); [done | | done]. intros n' p j. cbn. rewrite lookup_insert_Some. intros [[_ ?] | [_ ?]]; done.
    + intros n' p j Hw. rewrite lookup_insert_ne by congruence. done.
  - cbn [ThreadPool.act] in Ha. destruct (workers t !! n) as [[] |] eqn:Hn; try done. injection Ha as Ha.
    unfold locked in Ha. destruct (destroyed t); [done |]. destruct (worker_top_fields persistent job (pool t)) as (Q1 & Q2 & Q3 & Q4 & Q5).
    edestruct (loop_ok J t m n _ persistent nodes now false (worker_top persistent job (pool t)) t' Hp Hr Hn) as (? & ? & ? & _); [done | exact Q1 | exact Q2 | exact Q3 | exact Q4 | exact Q5 | exact Ha | done |]. done.
  - cbn [ThreadPool.act] in Ha. destruct (workers t !! n) as [[] |] eqn:Hn; try done. injection Ha as Ha.
    unfold locked in Ha. destruct (destroyed t); [done |].
    edestruct (loop_ok J t m n _ persistent nodes now timedout (pool t) t' Hp Hr Hn) as (? & ? & ? & _); [done | done | done | done | done | done | by destruct t | done |]. done.
Qed.

(** ** Start-up *)

Section start_up.
Context {W : Type} `{FileSystem W}.
Context (save : W -> cstr -> cstr -> option W) (dzlog_init : W -> cstr -> Z) (strtol : cstr -> Z).
Context (address : symbol -> Z) (sizeof_priv : class -> Z) (sizeof_core sizeof_context sizeof_pool sizeof_node sizeof_server : Z).
Context (alloc : Z -> bool) (garbage : ThreadPoolJob) (load : res (option dictionary)).
Implicit Types (w : system W).

(** Functions have addresses of their own, structures sizes that fit an [int], and there is memory. *)
Record sound : Prop := {
  sd_inj : forall s s', address s = address s' -> s = s';
  sd_addr : forall s, 0 <= address s < 2 ^ 64;
  sd_size : forall c, 0 <= sizeof_priv c <= INT_MAX;
  sd_alloc : forall n, alloc n = true
}.

Context (Hsound : sound).

Abbreviation node_def := (node_def address sizeof_priv).
Abbreviation node_create := (node_create address sizeof_priv sizeof_node alloc).
Abbreviation create := (create sizeof_priv sizeof_node alloc).
Abbreviation register := (NODE_CLASS_REGISTER address sizeof_priv alloc).
Abbreviation bll_init := (bll_init save dzlog_init strtol address sizeof_priv sizeof_core sizeof_context sizeof_pool sizeof_node alloc true garbage load).
Abbreviation act := (act save dzlog_init strtol address sizeof_priv sizeof_core sizeof_context sizeof_pool sizeof_node sizeof_server alloc true garbage load).

Lemma symbol_at_ok s : symbol_at address (address s) = Some s.
Proof.
  unfold symbol_at. assert (Hin : s ∈ symbols) by (destruct s as [[] | [] | | |]; by_decide).
  induction symbols as [| s' l IH]; [by apply not_elem_of_nil in Hin |]. cbn [List.find].
  destruct (Z.eqb_spec (address s') (address s)) as [E | E]; [f_equal; by apply (sd_inj Hsound) |].
  apply IH. by apply elem_of_cons in Hin as [-> |].
Qed.

Lemma node_def_wf c : wf_def (node_def c).
Proof.
  unfold wf_def. cbn. pose proof (sd_size Hsound c). unfold INT_MIN in *.
  split_and!; try apply (sd_addr Hsound); try lia; destruct c; vm_compute; discriminate.
Qed.

(** A registry with room for a hundred classes. *)
Definition roomy (v : VmpVector) (defs : list nodedef) : Prop := registry v defs /\ exists h, v = Some h /\ capacity h = 100.

Lemma register_class c w v t b hb k defs : roomy v defs -> (length defs < 100)%nat ->
  exists v', register c (set_ctx w (Some (MkContext v t b hb k))) = Ok (set_ctx w (Some (MkContext v' t b hb k))) /\ roomy v' (defs ++ [node_def c]).
Proof.
  intros (Hr & h & Hv & Hcap) Hl. unfold NODE_CLASS_REGISTER, context_get. cbn [ctx set_ctx of_option mbind res_bind vector_node].
  rewrite Hv in *. assert (Hs : Vector.size h = Z.of_nat (length defs)).
  { destruct Hr as (? & [= <-] & R & _). by rewrite (Vector.rep_size _ _ R), length_fmap. }
  destruct (register_ok alloc h defs (node_def c) Hr (node_def_wf c)) as (h' & -> & R & C & _); [lia |].
  eexists. split; [done |]. split; [done |]. exists h'. by rewrite C.
Qed.

Lemma node_create_ok c w x : ctx w = Some x -> registry (vector_node x) (map node_def classes) ->
  node_create c w = ('(p, w) ← create c w; Ok (Some p, w)).
Proof.
  intros Hx Hr. unfold App.node_create, context_get. rewrite Hx. cbn [of_option mbind res_bind].
  destruct (node_create_spec (symbol_at address) _ _ (code c) Hr) as [_ ->].
  replace (List.find (has_class (code c)) (map node_def classes)) with (Some (node_def c)) by (by destruct c).
  change (symbol_at address ∘ pfn_create <$> Some (node_def c)) with (Some (symbol_at address (address (Create c)))).
  by rewrite symbol_at_ok.
Qed.

Lemma zeroed_ok n w : zeroed alloc n w = Ok (next w, MkSystem (ctx w) (nodes w) (infos w) (next w + 1) (main w) (threads_at w) (listening w) (files w)).
Proof. unfold zeroed. by rewrite (sd_alloc Hsound). Qed.

(** A node that was created can be deleted, once: its two blocks are given back. *)
Lemma create_delete c w p w' : create c w = Ok (p, w') -> nodes w !! (next w + 1) = None -> infos w !! next w = None ->
  exists w'', node_free p w' = Ok w'' /\ nodes w'' = nodes w /\ infos w'' = infos w /\ node_free p w'' = UB.
Proof.
  intros E Hn Hi.
  assert (N : exists i up x, p = next w + 1 /\
    w' = MkSystem x (<[p := MkVmpNode c (next w) up]> (nodes w)) (<[next w := i]> (infos w)) (next w + 1 + 1) (main w) (threads_at w) (listening w) (files w)).
  { destruct c; cbn [App.create] in E; unfold cache_create, cache_tima_create, server_listener_create, bll_hbase_create, new_node, context_get in E;
      repeat (rewrite zeroed_ok in E; cbn [mbind res_bind] in E);
      try (destruct (ctx w) as [x |] eqn:Hx; [| done]; cbn [of_option mbind res_bind ctx set_info set_node] in E;
           repeat (rewrite zeroed_ok in E; cbn [mbind res_bind] in E); cbn [ctx set_info set_node] in E; rewrite ?Hx in E; cbn [of_option mbind res_bind] in E);
      injection E as <- <-; eexists _, _, _; by split. }
  destruct N as (i & up & x & -> & ->). unfold node_free. cbn [nodes infos]. rewrite lookup_insert_eq. cbn [of_option mbind res_bind private].
  rewrite lookup_insert_eq. cbn [of_option mbind res_bind]. eexists. split; [done |]. cbn [drop_node drop_info nodes infos].
  rewrite lookup_delete_eq. split_and!; [by rewrite delete_insert_id | by rewrite delete_insert_id | done].
Qed.

(** The jobs of the three calls: the core's [PrivInfo] is at 1, the node of the HTTP base at 7, the listener's at 9. *)
Definition job_of (c : nat) : Z * Z :=
  match c with O => (address CoreThread, 1) | 1%nat => (address BaseThread, 7) | _ => (address ListenerThread, 9) end.

Lemma persistent_job_signature s a b : signature (persistent_job address garbage s a b) = (address s, a).
Proof. by destruct b. Qed.

Lemma no_pool_ok : pool_ok job_of (no_world tp_init_attr) 0 /\ runs (no_world tp_init_attr) /\ alone (no_world tp_init_attr).
Proof.
  split_and!.
  - split; try done; [apply no_world_inv | | exists []; split_and!; [done | constructor | by intros p ?%not_elem_of_nil] | intros _; by exists 0%nat].
    intros c. split; [by intros [? ?] | lia].
  - exists ∅. by split_and!.
  - done.
Qed.

(** Execution of a straight stretch of code, and reading a map. *)
Ltac steps := cbn [mbind res_bind set_info set_node set_main set_bll set_cache set_tp set_hbase set_vector set_thread set_listening context_get of_option ctx set_ctx nodes infos next main threads_at listening files
  vector_node tp bll hbase cache class_of private parent default from_option assert_ok Z.add Pos.add Pos.succ].
Ltac looks := repeat (rewrite lookup_insert_eq || (rewrite lookup_insert_ne by done)).

Definition start_nodes : gmap Z vmp_node_t := <[5 := MkVmpNode CACHE_TIMA 4 (Some 3)]> (<[3 := MkVmpNode CACHE 2 None]> ∅).
Definition start_infos (cfg : CacheNetworkConfig) : gmap Z PrivInfo :=
  <[2 := CacheInfo (Some 5)]> (<[4 := TimaInfo cfg]> (<[4 := TimaInfo Cache.cache_tima_create]> (<[2 := CacheInfo None]> (<[1 := CoreInfo 0 1]> ∅)))).

(** What [bll_init] reads, and what it comes to. *)
Definition readable (f0 f1 : W) (cfg : CacheNetworkConfig) : Prop := exists ld r,
  load = Ok ld /\ tima_log_init save dzlog_init strtol f0 ld = Ok (r, f1) /\
  Cache.cache_tima_start strtol ld Cache.cache_tima_create = Ok cfg.

Lemma context_init_ok e w : exists v,
  context_init address sizeof_priv sizeof_context sizeof_pool alloc true e w =
    Ok (set_ctx w (Some (MkContext v (Some (no_world tp_init_attr)) None None None))) /\
  roomy v (map node_def [RTMP_PUBLISH; HTTP_TOKEN; TIMA_GET_PROPERTY]).
Proof.
  unfold context_init, tp_init. rewrite !(sd_alloc Hsound). cbn [negb].
  change (ThreadPoolInit e tp_init_attr) with (Ok (Returned 0 None, no_world tp_init_attr)). cbn [mbind res_bind Z.eqb negb].
  assert (R0 : roomy (node_init alloc true) []).
  { split; [apply node_init_registry, Hsound |]. unfold node_init, tmVectorCreate, malloc. rewrite (sd_alloc Hsound). by eexists. }
  change (context_get (set_ctx w (Some (MkContext (node_init alloc true) None None None None)))) with (Ok (MkContext (node_init alloc true) None None None None)).
  cbn [mbind res_bind].
  change (set_ctx (set_ctx w _) (Some (set_tp _ _))) with (set_ctx w (Some (MkContext (node_init alloc true) (Some (no_world tp_init_attr)) None None None))).
  destruct (register_class RTMP_PUBLISH w _ (Some (no_world tp_init_attr)) None None None [] R0) as (v1 & -> & R1); [cbn; lia |]. cbn [mbind res_bind].
  destruct (register_class HTTP_TOKEN w _ (Some (no_world tp_init_attr)) None None None _ R1) as (v2 & -> & R2); [cbn; lia |]. cbn [mbind res_bind].
  destruct (register_class TIMA_GET_PROPERTY w _ (Some (no_world tp_init_attr)) None None None _ R2) as (v3 & -> & R3); [cbn; lia |].
  by exists v3.
Qed.

Lemma classes_init_ok w v t : roomy v (map node_def [RTMP_PUBLISH; HTTP_TOKEN; TIMA_GET_PROPERTY]) -> exists v',
  (w ← cache_init address sizeof_priv alloc (set_ctx w (Some (MkContext v t None None None)));
   w ← server_listener_init address sizeof_priv alloc w; w ← bll_h264_init address sizeof_priv alloc w; bll_hbase_init address sizeof_priv alloc w) =
    Ok (set_ctx w (Some (MkContext v' t None None None))) /\
  roomy v' (map node_def classes).
Proof.
  intros R0. unfold cache_init, server_listener_init, bll_h264_init, bll_hbase_init.
  destruct (register_class CACHE w v t None None None _ R0) as (v1 & -> & R1); [cbn; lia |]. cbn [mbind res_bind].
  destruct (register_class CACHE_TIMA w v1 t None None None _ R1) as (v2 & -> & R2); [cbn; lia |]. cbn [mbind res_bind].
  destruct (register_class SERVER_LISTENER w v2 t None None None _ R2) as (v3 & -> & R3); [cbn; lia |]. cbn [mbind res_bind].
  destruct (register_class BLL_H264STREAM w v3 t None None None _ R3) as (v4 & -> & R4); [cbn; lia |]. cbn [mbind res_bind].
  destruct (register_class BLL_HTTPBASE w v4 t None None None _ R4) as (v5 & -> & R5); [cbn; lia |].
  by exists v5.
Qed.

(** The core's [PrivInfo] at 1, the cache's at 2 with its node at 3, the configuration's at 4 with its node at 5. *)
Lemma bll_core_init_ok e v (f : W) ld cfg : load = Ok ld -> Cache.cache_tima_start strtol ld Cache.cache_tima_create = Ok cfg ->
  roomy v (map node_def classes) -> granted e (no_world tp_init_attr) ->
  exists t, bll_core_init strtol address sizeof_priv sizeof_core sizeof_node alloc garbage load e
      (MkSystem (Some (MkContext v (Some (no_world tp_init_attr)) None None None)) ∅ ∅ 1 MStart ∅ None f) =
    Ok (MkSystem (Some (MkContext v (Some t) (Some 1) None (Some 3))) start_nodes (start_infos cfg) 6 (MCalling 1) ∅ None f) /\
  pool_ok job_of t 1 /\ runs t /\ started t = [].
Proof.
  intros Hl Hc [Hr _] He. unfold bll_core_init. rewrite zeroed_ok. steps.
  rewrite (node_create_ok CACHE _ (MkContext v (Some (no_world tp_init_attr)) (Some 1) None None)) by done.
  cbn [App.create]. unfold cache_create, new_node. rewrite zeroed_ok. steps. rewrite zeroed_ok. steps.
  unfold cache_start, info_of, node_at. steps. looks. steps. looks. steps.
  rewrite (node_create_ok CACHE_TIMA _ (MkContext v (Some (no_world tp_init_attr)) (Some 1) None (Some 3))) by done.
  cbn [App.create]. unfold cache_tima_create, new_node. steps. rewrite zeroed_ok. steps. rewrite zeroed_ok. steps.
  unfold cache_tima_start, info_of, node_at. steps. looks. steps. looks. steps. rewrite Hl. steps. rewrite Hc. steps.
  destruct no_pool_ok as (Hp & Hru & Ha).
  destruct (pool_call job_of _ 0 e (persistent_job address garbage CoreThread 1 false) Hp Hru) as (t & E & Hp' & Hr' & _ & Hs & _);
    [lia | done | done | apply persistent_job_signature |].
  unfold bll_core_start, add_persistent. steps. rewrite E. steps. exists t. split_and!; [| done | done | done].
  unfold start_nodes, start_infos. do 3 f_equal.
Qed.

Lemma bll_init_ok e f0 f1 cfg : readable f0 f1 cfg -> granted e (no_world tp_init_attr) ->
  exists v t, bll_init e (started_up f0) =
    Ok (MkSystem (Some (MkContext v (Some t) (Some 1) None (Some 3))) start_nodes (start_infos cfg) 6 (MCalling 1) ∅ None f1) /\
  registry v (map node_def classes) /\ pool_ok job_of t 1 /\ runs t.
Proof.
  intros (ld & r & Hl & Hlog & Hc) He. unfold App.bll_init. rewrite Hl. cbn [mbind res_bind files started_up]. rewrite Hlog. cbn [mbind res_bind].
  destruct (context_init_ok e (set_files (started_up f0) f1)) as (v0 & -> & R0). cbn [mbind res_bind].
  destruct (classes_init_ok (set_files (started_up f0) f1) v0 (Some (no_world tp_init_attr)) R0) as (v & E & R).
  destruct (cache_init _ _ _ _) as [w1 | |]; [| done ..]. cbn [mbind res_bind] in *.
  destruct (server_listener_init _ _ _ _) as [w2 | |]; [| done ..]. cbn [mbind res_bind] in *.
  destruct (bll_h264_init _ _ _ _) as [w3 | |]; [| done ..]. cbn [mbind res_bind] in *.
  rewrite E. cbn [mbind res_bind].
  destruct (bll_core_init_ok e v f1 ld cfg Hl Hc R He) as (t & Et & Hp & Hr & _).
  exists v, t. split_and!; [by rewrite Hl in Et | apply R | done | done].
Qed.

(** ** The invariant *)

Definition request : ServerListenerReq := MkListenerReq None 9999 1 true.

(** The blocks of the program after [m] calls of the pool. *)
Record heap_ok (cfg : CacheNetworkConfig) w (m : nat) : Prop := {
  hp_core : exists id, infos w !! 1 = Some (CoreInfo id 1);
  hp_cache : nodes w !! 3 = Some (MkVmpNode CACHE 2 None) /\ infos w !! 2 = Some (CacheInfo (Some 5));
  hp_tima : nodes w !! 5 = Some (MkVmpNode CACHE_TIMA 4 (Some 3)) /\ infos w !! 4 = Some (TimaInfo cfg);
  hp_base : (1 < m)%nat -> nodes w !! 7 = Some (MkVmpNode BLL_HTTPBASE 6 (Some 1)) /\ exists id, infos w !! 6 = Some (BaseInfo id 1);
  hp_listener : (2 < m)%nat -> nodes w !! 9 = Some (MkVmpNode SERVER_LISTENER 8 (Some 1)) /\ exists id, infos w !! 8 = Some (ListenerInfo id request);
  hp_next : next w = 2 * Z.of_nat m + 4
}.

Definition is_core (k : thread_pc) : bool := match k with BaseLoop | ListenerLoop => false | _ => true end.

Definition thread_ok (m : nat) (k : thread_pc) (f : Z) : Prop :=
  match k with
  | CoreBase a b => f = address CoreThread /\ a = 1 /\ b = 7 /\ m = 2%nat
  | CoreListener a b => f = address CoreThread /\ a = 1 /\ b = 9 /\ m = 3%nat
  | CoreSleep => f = address CoreThread /\ m = 3%nat
  | CoreEnd => False
  | BaseLoop => f = address BaseThread
  | ListenerLoop => f = address ListenerThread
  end.

Record live (f1 : W) (cfg : CacheNetworkConfig) w (x : context) (t : world) (m : nat) : Prop := {
  lv_ctx : ctx w = Some x;
  lv_reg : registry (vector_node x) (map node_def classes);
  lv_tp : tp x = Some t;
  lv_bll : bll x = Some 1;
  lv_cache : cache x = Some 3;
  lv_range : (1 <= m <= 3)%nat;
  lv_pool : pool_ok job_of t m;
  lv_runs : runs t;
  lv_heap : heap_ok cfg w m;
  lv_threads : forall n k, threads_at w !! n = Some k -> exists p j, workers t !! n = Some (Running p j) /\ thread_ok m k (func j);
  lv_core : (1 < m)%nat -> exists n k, threads_at w !! n = Some k /\ is_core k = true;
  lv_main : main w = MCalling 1 \/ main w = MIdle;
  lv_listening : forall s, listening w = Some s -> exists base, s = listening_world base;
  lv_files : files w = f1;
  lv_idle : main w = MIdle -> exists rc id, callers t !! 0%nat = Some (Returned rc id);
  lv_slept : forall n, threads_at w !! n = Some CoreSleep -> exists rc id, callers t !! 2%nat = Some (Returned rc id)
}.

(** What a running worker runs. *)
Lemma running_job t m n p j : pool_ok job_of t m -> runs t -> workers t !! n = Some (Running p j) ->
  exists c, (c < m)%nat /\ signature j = job_of c.
Proof.
  intros Hp (f & H1 & _) Hn. destruct (H1 n p j Hn) as (i & _ & Hi).
  destruct (po_order _ _ _ Hp) as (ps & E & _ & Hps).
  assert (Hin : signature j ∈ map job_of ps).
  { rewrite <- E. apply list_elem_of_fmap. exists j. split; [done |]. rewrite (po_jobs _ _ _ Hp). apply elem_of_app. left. by eapply list_elem_of_lookup_2. }
  apply list_elem_of_fmap in Hin as (c & Ec & Hc). exists c. split; [| done]. apply (po_dom _ _ _ Hp).
  destruct (Hps c Hc) as (k & -> & _). by eexists.
Qed.

Lemma job_of_inj c c' : (c < 3)%nat -> (c' < 3)%nat -> job_of c = job_of c' -> c = c'.
Proof.
  intros Hc Hc'. destruct c as [| [| [|]]], c' as [| [| [|]]]; try lia; cbn; intros E; try done;
    injection E as E; try (by apply (sd_inj Hsound) in E); lia.
Qed.

Lemma accepted_once t m : pool_ok job_of t m -> (m <= 3)%nat -> NoDup (map signature (accepted t)).
Proof.
  intros Hp Hm. destruct (po_order _ _ _ Hp) as (ps & -> & Hs & Hps).
  assert (Hb : forall p, p ∈ ps -> (p < 3)%nat).
  { intros p H1. destruct (Hps p H1) as (k & E & _). assert (p < m)%nat by (apply (po_dom _ _ _ Hp); by eexists). lia. }
  clear Hps. induction Hs as [| p ps _ IH Hlt]; cbn; [constructor |]. constructor.
  - intros (q & E & Hq)%list_elem_of_fmap. apply job_of_inj in E; [| apply Hb; by left | apply Hb; by right].
    rewrite Forall_forall in Hlt. specialize (Hlt q Hq). lia.
  - apply IH. intros q Hq. apply Hb. by right.
Qed.

(** Only one worker runs a job of the program. *)
Lemma runs_once t m n n' p p' j j' : pool_ok job_of t m -> runs t -> (m <= 3)%nat -> workers t !! n = Some (Running p j) ->
  workers t !! n' = Some (Running p' j') -> signature j = signature j' -> n = n'.
Proof.
  intros Hp Hr Hm Hn Hn' E. pose proof (accepted_once t m Hp Hm) as Hd. destruct Hr as (f & H1 & H2 & _).
  destruct (H1 n p j Hn) as (i & F & L), (H1 n' p' j' Hn') as (i' & F' & L').
  apply (H2 n n' i); [done |]. rewrite F'. f_equal. rewrite (po_jobs _ _ _ Hp), map_app in Hd. apply NoDup_app in Hd as (Hd & _).
  apply (NoDup_lookup _ i' i (signature j) Hd); rewrite list_lookup_fmap; [by rewrite L', E | by rewrite L].
Qed.

(** The core may make its next call once the one before has returned. *)
Lemma core_alone t m n p j : pool_ok job_of t m -> runs t -> (1 <= m <= 2)%nat -> workers t !! n = Some (Running p j) ->
  signature j = job_of 0 -> (m = 2%nat -> exists rc id, callers t !! 1%nat = Some (Returned rc id)) -> alone t.
Proof.
  intros Hp Hr Hm Hn Hj H1. assert (Hin : j ∈ started t).
  { destruct Hr as (f & Hf & _). destruct (Hf n p j Hn) as (i & _ & L). by eapply list_elem_of_lookup_2. }
  split.
  - destruct (persistentJob (pool t)) as [j' |] eqn:Ej; [| done]. exfalso.
    destruct (po_slot _ _ _ Hp j' Ej) as (c & Ec & Tc). assert (Hc : (c < m)%nat) by (apply (po_dom _ _ _ Hp); by eexists).
    destruct c as [| [| c]]; [| | lia].
    + pose proof (accepted_once t m Hp ltac:(lia)) as Hd. rewrite (po_jobs _ _ _ Hp), Ej, map_app in Hd. cbn in Hd.
      apply NoDup_app in Hd as (_ & Hd & _). apply (Hd (signature j)); [by apply list_elem_of_fmap_2 |]. rewrite Hj, Ec. by left.
    + destruct H1 as (rc & id & E); [lia | congruence].
  - intros c k Hk Hpl. destruct (po_calls _ _ _ Hp c k Hk) as [_ Hl]. specialize (Hl Hpl). destruct c as [| [| c]]; [| | lia].
    + destruct (po_order _ _ _ Hp) as (ps & E & _ & Hps). assert (Hc : job_of 0 ∈ map job_of ps).
      { rewrite <- E, <- Hj. apply list_elem_of_fmap_2. rewrite (po_jobs _ _ _ Hp). apply elem_of_app. by left. }
      apply list_elem_of_fmap in Hc as (c & Ec & Hc). destruct (Hps c Hc) as (k' & Ek & Hnp).
      assert (c < m)%nat by (apply (po_dom _ _ _ Hp); by eexists). apply job_of_inj in Ec as <-; [| lia | lia].
      rewrite Hk in Ek. by injection Ek as ->.
    + destruct H1 as (rc & id & E1); [lia |]. rewrite Hk in E1. injection E1 as ->. done.
Qed.

(** ** The steps *)

Lemma heap_same cfg w w' m : nodes w' = nodes w -> infos w' = infos w -> next w' = next w -> heap_ok cfg w m -> heap_ok cfg w' m.
Proof. intros E1 E2 E3 []. split; rewrite ?E1, ?E2, ?E3; done. Qed.

Lemma call_id w x t m c r : ctx w = Some x -> tp x = Some t -> pool_ok job_of t m -> call_result c w = Some r ->
  exists rc id, callers t !! c = Some (Returned rc (Some id)) /\ r = Ok id.
Proof.
  intros Hx Ht Hp. unfold call_result. rewrite Hx. cbn [mbind option_bind]. rewrite Ht. cbn [mbind option_bind].
  destruct (callers t !! c) as [k |] eqn:E; [| done]. destruct k as [| | | | | rc id]; try done. intros [= <-].
  destruct (po_calls _ _ _ Hp c _ E) as [[i ->] _]. by exists rc, i.
Qed.

Lemma main_step f1 cfg w x t m e r : live f1 cfg w x t m -> main_act save dzlog_init strtol address sizeof_priv sizeof_core sizeof_context sizeof_pool sizeof_node alloc true garbage load e w = Some r ->
  exists w', r = Ok w' /\ live f1 cfg w' x t m.
Proof.
  intros []. unfold main_act. destruct lv_main0 as [Em | Em]; rewrite Em.
  - intros (r0 & E & [= <-])%bind_Some. destruct (call_id w x t m 0 r0 lv_ctx0 lv_tp0 lv_pool0 E) as (rc & id & Hret & ->).
    cbn [mbind res_bind]. unfold set_core_id. destruct lv_heap0 as [[id0 Hc] ? ? ? ? ?]. rewrite Hc. cbn [of_option mbind res_bind].
    eexists. split; [done |]. split; try done; [| by right | by exists rc, (Some id)]. split; cbn; looks; try done. by eexists.
  - intros [= <-]. unfold bll_idle, context_get. rewrite lv_ctx0. cbn [of_option mbind res_bind]. rewrite lv_tp0. cbn [of_option mbind res_bind].
    eexists. split; [done |]. by split; auto.
Qed.

(** The pool goes on. *)
Lemma live_pool f1 cfg w x t m t' : live f1 cfg w x t m -> pool_ok job_of t' m -> runs t' -> keeps_on t t' ->
  live f1 cfg (set_ctx w (Some (set_tp x t'))) (set_tp x t') t' m.
Proof.
  intros [] Hp Hr (_ & Hk & Hret). split; try done; [by apply (heap_same cfg w) | |
    by intros Hm; destruct (lv_idle0 Hm) as (rc & id & E); exists rc, id; apply Hret |
    by cbn; intros n Hn; destruct (lv_slept0 n Hn) as (rc & id & E); exists rc, id; apply Hret]. cbn. intros n k Hn. destruct (lv_threads0 n k Hn) as (p & j & Hw & Hth).
  exists p, j. split; [by apply Hk | done].
Qed.

(** The core makes its next call: [w] has the new node already. *)
Lemma call_live f1 cfg w x t m e job : live f1 cfg w x t m -> (m <= 2)%nat -> alone t -> granted e t -> signature job = job_of m ->
  forall w', ctx w' = Some x -> threads_at w' = threads_at w -> main w' = main w -> listening w' = listening w -> files w' = files w ->
    heap_ok cfg w' (S m) ->
  exists t', add_persistent e m job w' = Ok (set_ctx w' (Some (set_tp x t'))) /\ pool_ok job_of t' (S m) /\ runs t' /\ keeps_on t t'.
Proof.
  intros [] Hm Ha He Hs w' E1 E2 E3 E4 E5 Hh. unfold add_persistent, context_get. rewrite E1. cbn [of_option mbind res_bind]. rewrite lv_tp0. cbn [of_option mbind res_bind].
  destruct (pool_call job_of t m e job lv_pool0 lv_runs0) as (t' & -> & Hp & Hr & Hk & _); [lia | done | done | done |].
  exists t'. by split_and!.
Qed.

(** After the call the core's thread waits at [k]; nothing else has moved. *)
Lemma core_moves f1 cfg w x t m w' t' n p j k : live f1 cfg w x t m -> (m <= 2)%nat -> pool_ok job_of t' (S m) -> runs t' -> keeps_on t t' ->
  workers t !! n = Some (Running p j) -> is_core k = true -> k <> CoreSleep -> thread_ok (S m) k (func j) ->
  (forall n' k', threads_at w !! n' = Some k' -> is_core k' = true -> n' = n) ->
  heap_ok cfg w' (S m) -> threads_at w' = threads_at w -> main w' = main w -> listening w' = listening w -> files w' = files w ->
  live f1 cfg (set_thread (set_ctx w' (Some (set_tp x t'))) n k) (set_tp x t') t' (S m).
Proof.
  intros [] Hm Hp Hr (_ & Hk & Hret) Hn Hc Hns Hok Huniq Hh E1 E2 E3 E4. split; cbn; rewrite ?E1, ?E2, ?E3, ?E4; try done; try lia; try by apply (heap_same cfg w').
  - intros n' k' E. apply lookup_insert_Some in E as [[<- <-] | [Hne E]]; [exists p, j; split; [by apply Hk | done] |].
    destruct (lv_threads0 n' k' E) as (p' & j' & Hw & Hth). exists p', j'. split; [by apply Hk |].
    destruct k'; try done; exfalso; apply Hne; symmetry; by eapply Huniq.
  - intros _. exists n, k. by rewrite lookup_insert_eq.
  - intros Hi. destruct (lv_idle0 Hi) as (rc & id & E). exists rc, id. by apply Hret.
  - intros n' E. apply lookup_insert_Some in E as [[<- ->] | [Hne E]]; [by destruct Hns |].
    destruct (lv_slept0 n' E) as (rc & id & E'). exists rc, id. by apply Hret.
Qed.

Lemma core_thread f1 cfg w x t m n k : live f1 cfg w x t m -> threads_at w !! n = Some k -> is_core k = true ->
  exists p j, workers t !! n = Some (Running p j) /\ signature j = job_of 0.
Proof.
  intros [] Hn Hk. destruct (lv_threads0 n k Hn) as (p & j & Hw & Ht). exists p, j. split; [done |].
  destruct (running_job t m n p j lv_pool0 lv_runs0 Hw) as (c & Hc & E). rewrite E.
  assert (F : func j = address CoreThread) by (destruct k; by (destruct Ht || done)).
  assert (G : (job_of c).1 = address CoreThread) by (by rewrite <- E).
  destruct c as [| [| c]]; [done | |]; cbn in G; by apply (sd_inj Hsound) in G.
Qed.

(** The only thread of the core is the one that runs its job. *)
Lemma core_only f1 cfg w x t m n p j : live f1 cfg w x t m -> workers t !! n = Some (Running p j) -> signature j = job_of 0 ->
  forall n' k', threads_at w !! n' = Some k' -> is_core k' = true -> n' = n.
Proof.
  intros Hl Hn Hj n' k' Hn' Hk'. destruct (core_thread f1 cfg w x t m n' k' Hl Hn' Hk') as (p' & j' & Hw & E).
  destruct Hl. apply (runs_once t m n' n p' p j' j); try done; [lia | congruence].
Qed.

Lemma task_hbase_ok f1 cfg w x t e n p j : live f1 cfg w x t 1 -> workers t !! n = Some (Running p j) -> signature j = job_of 0 ->
  threads_at w !! n = None -> granted e t ->
  exists w' x' t', ('(p, w) ← task_hbase_start address sizeof_priv sizeof_node alloc garbage e (arg j) w; Ok (set_thread w n (CoreBase (arg j) p))) = Ok w' /\
    live f1 cfg w' x' t' 2.
Proof.
  intros Hl Hn Hj Hth He. pose proof Hl as [? ? ? ? ? ? ? ? [Hc Hca Hti _ _ Hx] ? ? ? ? ?].
  injection Hj as Hf Ha. rewrite Ha. unfold task_hbase_start. rewrite (node_create_ok BLL_HTTPBASE w x) by done.
  cbn [App.create]. unfold bll_hbase_create, new_node. rewrite zeroed_ok. steps. rewrite zeroed_ok. steps.
  assert (Hx6 : next w = 6) by lia. rewrite Hx6. change (6 + 1) with 7. unfold set_parent, bll_hbase_start, info_of, node_at. steps. looks. steps. looks. steps. looks. steps.
  match goal with |- context [add_persistent e 1 _ ?W] => set (w' := W) end.
  assert (Hh : heap_ok cfg w' 2).
  { unfold w'. split; cbn; looks; try done; [| lia]. intros _. split; [done |]. by eexists. }
  assert (Hal : alone t) by (eapply core_alone; try done; [lia | unfold signature; by rewrite Hf, Ha]).
  destruct (call_live f1 cfg w x t 1 e (persistent_job address garbage BaseThread 7 false) Hl ltac:(lia) Hal He (persistent_job_signature _ _ _) w')
    as (t' & -> & Hp & Hr & Hk); try done. cbn [mbind res_bind].
  eexists _, (set_tp x t'), t'. split; [done |].
  apply (core_moves f1 cfg w x t 1 w' t' n p j); try done; [lia |].
  apply (core_only f1 cfg w x t 1 n p j Hl Hn). unfold signature. by rewrite Hf, Ha.
Qed.

Lemma task_listener_ok f1 cfg w x t e n p j : live f1 cfg w x t 2 -> workers t !! n = Some (Running p j) -> signature j = job_of 0 ->
  (exists rc id, callers t !! 1%nat = Some (Returned rc id)) -> granted e t ->
  exists w' x' t', ('(p, w) ← task_server_listener address sizeof_priv sizeof_node alloc garbage e 1 w; Ok (set_thread w n (CoreListener 1 p))) = Ok w' /\
    live f1 cfg w' x' t' 3.
Proof.
  intros Hl Hn Hj Hret He. pose proof Hl as [? ? ? ? ? ? ? ? [Hc Hca Hti Hba _ Hx] ? ? ? ? ?]. injection Hj as Hf Ha.
  specialize (Hba ltac:(lia)). destruct Hba as [Hba (id & Hbi)].
  unfold task_server_listener. rewrite (node_create_ok SERVER_LISTENER w x) by done.
  cbn [App.create]. unfold server_listener_create, new_node. rewrite zeroed_ok. steps. rewrite zeroed_ok. steps.
  assert (Hx6 : next w = 8) by lia. rewrite Hx6. change (8 + 1) with 9. unfold set_parent, server_listener_set, server_listener_start, info_of, node_at.
  steps. looks. steps. looks. steps. looks. steps. looks. steps. looks. steps.
  match goal with |- context [add_persistent e 2 _ ?W] => set (w' := W) end.
  assert (Hh : heap_ok cfg w' 3).
  { unfold w'. split; cbn; looks; try done; intros _; split; try done; by eexists. }
  assert (Hal : alone t) by (eapply core_alone; try done; [lia | unfold signature; by rewrite Hf, Ha]).
  destruct (call_live f1 cfg w x t 2 e (persistent_job address garbage ListenerThread 9 true) Hl ltac:(lia) Hal He (persistent_job_signature _ _ _) w')
    as (t' & -> & Hp & Hr & Hk); try done. cbn [mbind res_bind].
  eexists _, (set_tp x t'), t'. split; [done |].
  apply (core_moves f1 cfg w x t 2 w' t' n p j); try done.
  apply (core_only f1 cfg w x t 2 n p j Hl Hn). unfold signature. by rewrite Hf, Ha.
Qed.

(** A thread that makes no call of the pool moves on. *)
Lemma thread_moves f1 cfg w x t m w' x' n k p j : live f1 cfg w x t m -> workers t !! n = Some (Running p j) -> thread_ok m k (func j) ->
  (forall k0, threads_at w !! n = Some k0 -> is_core k0 = true -> is_core k = true) ->
  ctx w' = Some x' -> vector_node x' = vector_node x -> tp x' = tp x -> bll x' = bll x -> cache x' = cache x ->
  heap_ok cfg w' m -> threads_at w' = threads_at w -> main w' = main w -> files w' = files w ->
  (forall s, listening w' = Some s -> exists base, s = listening_world base) ->
  (k = CoreSleep -> exists rc id, callers t !! 2%nat = Some (Returned rc id)) ->
  live f1 cfg (set_thread w' n k) x' t m.
Proof.
  intros [] Hn Hok Hcore E1 V1 V2 V3 V4 Hh E2 E3 E4 Hs Hsl.
  split; cbn; rewrite ?E1, ?E2, ?E3, ?E4, ?V1, ?V2, ?V3, ?V4; try done; [by apply (heap_same cfg w') | | |].
  - intros n' k' E. apply lookup_insert_Some in E as [[<- <-] | [Hne E]]; [by exists p, j | by apply lv_threads0].
  - intros Hm. destruct (lv_core0 Hm) as (n' & k' & E & Hc). destruct (decide (n = n')) as [<- | Hne].
    + exists n, k. rewrite lookup_insert_eq. split; [done |]. by apply (Hcore k').
    + exists n', k'. by rewrite lookup_insert_ne.
  - intros n' E. apply lookup_insert_Some in E as [[<- ->] | [Hne E]]; [by apply Hsl | by apply (lv_slept0 n')].
Qed.

Lemma base_thread_ok f1 cfg w x t m base n p j : live f1 cfg w x t m -> (1 < m)%nat -> workers t !! n = Some (Running p j) -> signature j = job_of 1 ->
  threads_at w !! n = None ->
  exists w' x', (w ← bll_hbase_thread base (arg j) w; Ok (set_thread w n BaseLoop)) = Ok w' /\ live f1 cfg w' x' t m.
Proof.
  intros Hl Hm Hn Hj Hth. injection Hj as Hf Ha. pose proof Hl as [Hx ? ? ? ? ? ? ? [_ _ _ Hb _ _] ? ? ? ? ?].
  destruct (Hb Hm) as [Hb1 (id & Hb2)]. unfold bll_hbase_thread, info_of, node_at, App.context_get. rewrite Ha, Hb1. steps. rewrite Hb2. steps. rewrite Hx. steps.
  eexists _, (set_hbase x base). split; [done |]. apply (thread_moves f1 cfg w x t m _ _ n BaseLoop p j Hl Hn); try done.
  - intros k0. by rewrite Hth.
  - destruct Hl. by apply (heap_same cfg w).
Qed.

Lemma listener_thread_ok f1 cfg w x t m launcher base n p j : live f1 cfg w x t m -> (2 < m)%nat -> workers t !! n = Some (Running p j) ->
  signature j = job_of 2 -> threads_at w !! n = None ->
  (exists w' x', (w ← server_listener_thread sizeof_server alloc launcher base true (arg j) w; Ok (set_thread w n ListenerLoop)) = Ok w' /\ live f1 cfg w' x' t m) /\
  server_listener_thread sizeof_server alloc launcher base false (arg j) w = UB.
Proof.
  intros Hl Hm Hn Hj Hth. injection Hj as Hf Ha. pose proof Hl as [Hx ? ? ? ? ? ? ? [_ _ _ _ Hb _] ? ? ? ? ?].
  destruct (Hb Hm) as [Hb1 (id & Hb2)]. unfold server_listener_thread, info_of, node_at. rewrite Ha, Hb1. steps. rewrite Hb2. steps.
  rewrite (sd_alloc Hsound). steps. split; [| done]. eexists _, x. split; [done |].
  apply (thread_moves f1 cfg w x t m _ _ n ListenerLoop p j Hl Hn); try done.
  - intros k0. by rewrite Hth.
  - destruct Hl. by apply (heap_same cfg w).
  - cbn. intros s [= <-]. by exists base.
Qed.

Lemma begin_step f1 cfg w x t m e launcher base n p j : live f1 cfg w x t m -> workers t !! n = Some (Running p j) -> threads_at w !! n = None ->
  granted e t ->
  exists w' x' t' m', begin address sizeof_priv sizeof_node sizeof_server alloc garbage e launcher base true n j w = Ok w' /\ live f1 cfg w' x' t' m'.
Proof.
  intros Hl Hn Hth He. pose proof Hl as [? ? ? ? ? Hm ? ? ? ? Hco ? ? ?].
  destruct (running_job t m n p j) as (c & Hc & Hj); [done | done | done |]. pose proof (f_equal fst Hj) as Hf. unfold begin.
  destruct c as [| [| [| c]]]; [| | | lia]; cbn in Hf; rewrite Hf, symbol_at_ok.
  - assert (m = 1%nat) as ->.
    { destruct (decide (m = 1)%nat) as [| Hne]; [done |]. destruct Hco as (n' & k' & E & Hk); [lia |].
      rewrite (core_only f1 cfg w x t m n p j Hl Hn Hj n' k' E Hk), Hth in E. done. }
    destruct (task_hbase_ok f1 cfg w x t e n p j Hl Hn Hj Hth He) as (w' & x' & t' & E & Hl'). by exists w', x', t', 2%nat.
  - destruct (base_thread_ok f1 cfg w x t m base n p j Hl) as (w' & x' & E & Hl'); [lia | done | done | done |]. by exists w', x', t, m.
  - destruct (listener_thread_ok f1 cfg w x t m launcher base n p j Hl) as ((w' & x' & E & Hl') & _); [lia | done | done | done |]. by exists w', x', t, m.
Qed.

(** The identity of the job is kept. *)
Lemma set_id_ok f1 cfg w x t m p id : live f1 cfg w x t m -> p = 7 /\ (1 < m)%nat \/ p = 9 /\ (2 < m)%nat ->
  exists w', set_id p id w = Ok w' /\ live f1 cfg w' x t m /\ threads_at w' = threads_at w.
Proof.
  intros [] Hp. pose proof lv_heap0 as [Hco Hca Hti Hba Hli Hx]. unfold set_id, info_of, node_at. destruct Hp as [[-> Hm] | [-> Hm]].
  - destruct (Hba Hm) as [Hb1 (i & Hb2)]. rewrite Hb1. steps. rewrite Hb2. steps. eexists. split; [done |]. split; [| done].
    split; try done. split; cbn; looks; try done. intros _. split; [done |]. by eexists.
  - destruct (Hli Hm) as [Hb1 (i & Hb2)]. rewrite Hb1. steps. rewrite Hb2. steps. eexists. split; [done |]. split; [| done].
    split; try done. split; cbn; looks; try done. intros _. split; [done |]. by eexists.
Qed.

Lemma continue_step f1 cfg w x t m e n p j k r : live f1 cfg w x t m -> workers t !! n = Some (Running p j) -> threads_at w !! n = Some k ->
  granted e t -> continue address sizeof_priv sizeof_node alloc garbage e n k w = Some r ->
  exists w' x' t' m', r = Ok w' /\ live f1 cfg w' x' t' m'.
Proof.
  intros Hl Hn Hth He. pose proof Hl as [Hx ? Htp ? ? Hm Hpo ? ? Hths ? ? ? ?].
  destruct (Hths n k Hth) as (p' & j' & Hn' & Hok). rewrite Hn in Hn'. injection Hn' as <- <-.
  destruct k as [a b | a b | | | |]; try done; cbn [thread_ok] in Hok; destruct Hok as (Hf & -> & -> & ->); cbn [continue];
    intros (r0 & E & [= <-])%bind_Some; destruct (call_id w x t _ _ r0 Hx Htp Hpo E) as (rc & id & Hret & ->); cbn [mbind res_bind].
  - destruct (core_thread f1 cfg w x t 2 n _ Hl Hth eq_refl) as (p' & j' & Hn' & Hj). rewrite Hn in Hn'. injection Hn' as <- <-.
    destruct (set_id_ok f1 cfg w x t 2 7 id Hl) as (w1 & -> & Hl1 & _); [left; lia |]. cbn [mbind res_bind].
    destruct (task_listener_ok f1 cfg w1 x t e n p j Hl1 Hn Hj) as (w' & x' & t' & E' & Hl'); [by exists rc, (Some id) | done |].
    by exists w', x', t', 3%nat.
  - destruct (set_id_ok f1 cfg w x t 3 9 id Hl) as (w1 & -> & Hl1 & Et); [right; lia |]. cbn [mbind res_bind].
    unfold core_loop. destruct (hp_core _ _ _ (lv_heap _ _ _ _ _ _ Hl1)) as (i & ->). cbn [of_option mbind res_bind Z.eqb].
    eexists _, x, t, 3%nat. split; [done |]. pose proof Hl1 as [].
    apply (thread_moves f1 cfg w1 x t 3 _ _ n CoreSleep p j Hl1 Hn); try done. intros _. by exists rc, (Some id).
Qed.

(** ** What holds of every run *)

(** The port of the listener can be opened. *)
Definition binds (a : action) : bool := match a with AThread _ _ _ _ bind_ok => bind_ok | _ => true end.

(** The calls of the pool get the memory for their jobs. *)
Definition remembers (a : action) : bool :=
  match a with AMain e | AThread _ e _ _ _ | APool (AResume _ e) => job_ok e | _ => true end.

Inductive reach (f0 : W) : system W -> Prop :=
| reach_start : reach f0 (started_up f0)
| reach_step w a w' : reach f0 w -> binds a = true -> (mem = true -> remembers a = true) -> act a w = Some (Ok w') -> reach f0 w'.

Definition running_up (f0 f1 : W) (cfg : CacheNetworkConfig) w : Prop :=
  w = started_up f0 \/ exists x t m, live f1 cfg w x t m.

Lemma act_step f0 f1 cfg w a r : readable f0 f1 cfg -> running_up f0 f1 cfg w -> binds a = true -> (mem = true -> remembers a = true) -> act a w = Some r ->
  exists w', r = Ok w' /\ running_up f0 f1 cfg w'.
Proof.
  intros Hread Hw Hb Hg Ha. destruct Hw as [-> | (x & t & m & Hl)].
  - destruct a as [e | n e launcher base bind_ok | a]; cbn in Ha; [| done | by destruct (negb (internal a))]. injection Ha as <-.
    assert (He : granted e (no_world tp_init_attr)) by (split; [unfold env_ok; by destruct (ThreadPool.create e) | exact Hg]).
    destruct (bll_init_ok e f0 f1 cfg Hread He) as (v & t & E & Hr & Hp & Hru). eexists. split; [exact E |]. right.
    eexists _, t, 1%nat. split; try done; [lia | | lia | by left].
    unfold start_nodes, start_infos. split; cbn; looks; try done; [by eexists | lia | lia].
  - pose proof Hl as [Hx ? Htp ? ? Hm Hpo Hru ? ? ? ? ? ? ? ?]. destruct a as [e | n e launcher base bind_ok | a]; cbn [App.act] in Ha; rewrite Hx in Ha; cbn [mbind option_bind] in Ha; rewrite Htp in Ha; cbn [mbind option_bind] in Ha.
    + destruct (env_ok e t) eqn:He; [| done]. destruct (main_step f1 cfg w x t m e r Hl Ha) as (w' & -> & Hl'). exists w'. split; [done |]. right. by exists x, t, m.
    + destruct (env_ok e t) eqn:He0; [| done]. assert (He : granted e t) by (by split). cbn [negb] in Ha. destruct (workers t !! n) as [[| | | p j] |] eqn:Hn; try done. cbn in Hb. subst bind_ok.
      destruct (threads_at w !! n) as [k |] eqn:Hth.
      * destruct (continue_step f1 cfg w x t m e n p j k r Hl Hn Hth He Ha) as (w' & x' & t' & m' & -> & Hl'). exists w'. split; [done |]. right. by exists x', t', m'.
      * injection Ha as <-. destruct (begin_step f1 cfg w x t m e launcher base n p j Hl Hn Hth He) as (w' & x' & t' & m' & -> & Hl'). exists w'. split; [done |]. right. by exists x', t', m'.
    + destruct (internal a) eqn:Hi; [| done]. cbn [negb] in Ha. apply bind_Some in Ha as (r0 & Ha & [= <-]).
      destruct (pool_step job_of t m a r0 Hpo Hru ltac:(lia) ltac:(by destruct a) Hi Ha) as (t' & -> & Hp' & Hr' & Hk). cbn [mbind res_bind].
      eexists. split; [done |]. right. exists (set_tp x t'), t', m. by apply (live_pool f1 cfg w x t).
Qed.

Lemma reach_up f0 f1 cfg w : readable f0 f1 cfg -> reach f0 w -> running_up f0 f1 cfg w.
Proof.
  intros Hread. induction 1 as [| w a w' _ IH Hb Hg Ha]; [by left |].
  destruct (act_step f0 f1 cfg w a _ Hread IH Hb Hg Ha) as (w1 & [= <-] & Hw). done.
Qed.

Lemma sorted_sublist ps a n : StronglySorted lt ps -> (forall p, p ∈ ps -> (a <= p < a + n)%nat) -> ps `sublist_of` seq a n.
Proof.
  revert a ps; induction n as [| n IH]; intros a ps Hs Hb; cbn.
  - destruct ps as [| p ps]; [constructor |]. specialize (Hb p ltac:(by left)). lia.
  - destruct Hs as [| p ps Hs Hlt]; [constructor; apply sublist_nil_l |]. rewrite Forall_forall in Hlt. destruct (decide (p = a)) as [-> | Hne].
    + constructor. apply IH; [done |]. intros q Hq. specialize (Hlt q Hq). specialize (Hb q ltac:(by right)). lia.
    + constructor. apply IH; [by constructor; [| rewrite Forall_forall] |]. intros q Hq. pose proof (Hb q Hq). pose proof (Hb p ltac:(by left)).
      apply elem_of_cons in Hq as [-> | Hq]; [lia |]. specialize (Hlt q Hq). lia.
Qed.

(** The jobs that run are those of the three calls, in their order. *)
Lemma started_order t m : pool_ok job_of t m -> (m <= 3)%nat -> map signature (started t) `sublist_of` map job_of (seq 0 3).
Proof.
  intros Hp Hm. destruct (po_order _ _ _ Hp) as (ps & E & Hs & Hps). rewrite (po_jobs _ _ _ Hp), map_app in E.
  transitivity (map job_of ps); [rewrite <- E; by apply sublist_inserts_r |].
  apply (fmap_sublist job_of ps (seq 0 3)), sorted_sublist; [done |]. intros p Hin. destruct (Hps p Hin) as (k & Ek & _).
  assert (p < m)%nat by (apply (po_dom _ _ _ Hp); by eexists). lia.
Qed.

(** The cache is there, and below it the configuration. *)
Definition cached w (x : context) (cfg : CacheNetworkConfig) : Prop := exists c cq n nq,
  cache x = Some c /\ nodes w !! c = Some (MkVmpNode CACHE cq None) /\ infos w !! cq = Some (CacheInfo (Some n)) /\
  nodes w !! n = Some (MkVmpNode CACHE_TIMA nq (Some c)) /\ infos w !! nq = Some (TimaInfo cfg).

(** The jobs of the program, in the order of their calls. *)
Definition three_jobs : list (Z * Z) := [(address CoreThread, 1); (address BaseThread, 7); (address ListenerThread, 9)].

(** With memory for the jobs, those started and the one that waits are the first of the three, and a call has returned only when its
    job has been started. *)
Lemma started_in_full f1 cfg w x t m : live f1 cfg w x t m -> mem = true ->
  (exists k, map signature (started t ++ option_list (persistentJob (pool t))) = take k three_jobs) /\
  (forall c rc id, callers t !! c = Some (Returned rc id) -> take (S c) three_jobs `prefix_of` map signature (started t)).
Proof.
  intros [] Hmem. destruct (po_all _ _ _ lv_pool0 Hmem) as (k & K1 & K2 & _ & K4).
  assert (E : forall k, (k <= 3)%nat -> map job_of (seq 0 k) = take k three_jobs) by (intros [| [| [| [| k']]]] ?; try done; lia).
  rewrite (po_jobs _ _ _ lv_pool0), E in K2 by lia. split; [by exists k |]. intros c rc id Hc. destruct (K4 c rc id Hc) as [_ Hlt].
  rewrite map_app in K2. set (l := map signature (started t)) in *. assert (Hl : (c < length l)%nat) by (unfold l; by rewrite length_map).
  exists (drop (S c) l). rewrite <- (take_drop (S c) l) at 1. f_equal.
  transitivity (take (S c) (l ++ map signature (option_list (persistentJob (pool t))))); [by rewrite take_app_le by lia |].
  rewrite K2, take_take. f_equal. apply (f_equal length) in K2. rewrite length_app, length_take in K2. lia.
Qed.

(** C3.  The start of the program.  With memory, a configuration file that can be loaded and a log that can be set up, in every interleaving of the main
    thread, the threads of the pool, whether threads can be made or not, and the three jobs of the program: nothing is undefined as long as the
    listener's port can be opened; once [bll_init] has begun to wait all eight classes are registered and the cache holds the configuration loaded; the
    threads run jobs out of those of the core, the HTTP base and the listener, in this order and each at most once, and none that the pool has taken is
    lost there; once the listener is open the server is in its start state, with the base of its service, and the request of its node has the port 9999
    and the core.  When the calls of the pool get memory for their jobs too ([mem]), the jobs started and the one that waits to be are the first of the three,
    in their order: the core's has been started once the main thread is idle, all three once the core sleeps.  (A call whose job gets no memory is
    refused, which the program ignores.)  A listener whose port cannot be opened uses a NULL pointer. *)
Theorem start_up (f0 f1 : W) (cfg : CacheNetworkConfig) (Hread : readable f0 f1 cfg) w (Hw : reach f0 w) :
  (forall a r, binds a = true -> (mem = true -> remembers a = true) -> act a w = Some r -> exists w', r = Ok w') /\
  (main w <> MStart -> exists x t, ctx w = Some x /\ tp x = Some t /\
    registry (vector_node x) (map node_def classes) /\ cached w x cfg /\ files w = f1 /\
    map signature (started t) `sublist_of` three_jobs /\ overwritten t = [] /\ lost t = [] /\ queued (pool t) = [] /\
    accepted t = started t ++ option_list (persistentJob (pool t)) /\
    (mem = true ->
       (exists k, map signature (started t ++ option_list (persistentJob (pool t))) = take k three_jobs) /\
       (main w = MIdle -> exists l, map signature (started t) = (address CoreThread, 1) :: l) /\
       (forall n, threads_at w !! n = Some CoreSleep -> map signature (started t) = three_jobs)) /\
    (forall s, listening w = Some s -> exists base, s = listening_world base) /\
    forall n p j, workers t !! n = Some (Running p j) -> func j = address ListenerThread ->
      (exists q id, nodes w !! arg j = Some (MkVmpNode SERVER_LISTENER q (Some 1)) /\
         infos w !! q = Some (ListenerInfo id (MkListenerReq None 9999 1 true))) /\
      forall e launcher base, threads_at w !! n = None -> env_ok e t = true -> act (AThread n e launcher base false) w = Some UB).
Proof.
  pose proof (reach_up f0 f1 cfg w Hread Hw) as Hup. split.
  { intros a r Hb Hg Ha. destruct (act_step f0 f1 cfg w a r Hread Hup Hb Hg Ha) as (w' & -> & _). by exists w'. }
  intros Hm. destruct Hup as [-> | (x & t & m & Hl)]; [done |]. pose proof Hl as [Hx ? Htp ? ? Hrange Hpo Hru [_ [] [] _ Hli _] ? ? ? ? ? Hidle Hslept].
  exists x, t. split_and!; try done.
  - by exists 3, 2, 5, 4.
  - by apply (started_order t m Hpo); lia.
  - apply iv_over, Hpo.
  - by apply Hpo.
  - by apply Hpo.
  - by apply Hpo.
  - intros Hmem. destruct (started_in_full f1 cfg w x t m Hl Hmem) as [[k Hk] Hr]. split_and!; [by exists k | |].
    + intros Hi. destruct (Hidle Hi) as (rc & id & E). destruct (Hr 0%nat rc id E) as [l ->]. by exists l.
    + intros n Hn. destruct (Hslept n Hn) as (rc & id & E). destruct (Hr 2%nat rc id E) as [l El]. rewrite El. rewrite map_app, El in Hk.
      apply (f_equal length) in Hk. rewrite !length_app, !length_take in Hk. change (length three_jobs) with 3%nat in Hk.
      destruct l; [by rewrite app_nil_r | cbn in Hk; lia].
  - intros n p j Hn Hf. destruct (running_job t m n p j Hpo Hru Hn) as (c & Hc & Hj).
    assert (c = 2%nat) as ->.
    { pose proof (f_equal fst Hj) as E. cbn in E. rewrite Hf in E. destruct c as [| [| c]]; cbn in E; try (by apply (sd_inj Hsound) in E). lia. }
    destruct (Hli ltac:(lia)) as [Hl1 (id & Hl2)]. pose proof (f_equal snd Hj) as Ha. cbn in Ha. split; [exists 8, id; by rewrite Ha |].
    intros e launcher base Hth He. destruct (listener_thread_ok f1 cfg w x t m launcher base n p j Hl) as [_ E]; [lia | done | done | done |].
    cbn [App.act]. rewrite Hx. cbn [mbind option_bind]. rewrite Htp. cbn [mbind option_bind]. rewrite He. cbn [negb]. rewrite Hn, Hth.
    unfold begin. rewrite Hf, symbol_at_ok, E. done.
Qed.

Lemma run_reach_app f0 acts w w' : reach f0 w -> forallb binds acts = true -> forallb remembers acts = true ->
  App.run save dzlog_init strtol address sizeof_priv sizeof_core sizeof_context sizeof_pool sizeof_node sizeof_server alloc true garbage load acts w = Some (Ok w') ->
  reach f0 w'.
Proof.
  revert w; induction acts as [| a acts IH]; intros w Hw Hb Hg; cbn; [by intros [= <-] |]. cbn in Hb, Hg. apply andb_true_iff in Hb as [Hb1 Hb2]. apply andb_true_iff in Hg as [Hg1 Hg2].
  destruct (act a w) as [[w1 | |] |] eqn:E; try done. apply IH; [by apply (reach_step f0 w a w1) | done | done].
Qed.
End start_up.
End memory.

(** ** A run *)

(** Functions at the addresses 0, 1, ...; a configuration of one line. *)
Definition sample_address (s : symbol) : Z := default 0 (Z.of_nat <$> (fst <$> list_find (fun s' => s' = s) symbols)).

Definition sample_load : res (option dictionary) := IniFile.load (chars "[network]" ++ [10] ++ chars "http_ip=10.0.0.1" ++ [10]).

Abbreviation sample_run := (run save_file (fun _ _ => 0) (fun _ => 0) sample_address (fun _ => 100) 24 100 500 60 120 (fun _ => true) true (sample_job 0) sample_load).

Lemma sample_sound : sound sample_address (fun _ => 100) (fun _ => true).
Proof.
  split; [| | intros c; vm_compute; split; discriminate | done].
  - intros [[] | [] | | |] [[] | [] | | |]; done.
  - intros [[] | [] | | |]; vm_compute; split; discriminate || done.
Qed.

Definition moment : Text.timeval := Text.MkTime 0 0.
Definition nodes_there (i : nat) : bool := true.

(** The three jobs are started, each by a thread of its own. *)
Definition sample_start : list action :=
  [AMain (gives 1); APool (AStart 1); APool (ATop 1 nodes_there moment); APool (AResume 0 (gives 2)); APool (AWake 1 false nodes_there moment);
   AThread 1 (gives 2) 0 0 true; APool (AResume 0 (gives 3)); AMain (gives 3); APool (AStart 2); APool (AResume 1 (gives 3));
   APool (ATop 2 nodes_there moment); AThread 2 (gives 3) 0 77 true; APool (AResume 1 (gives 3)); AThread 1 (gives 3) 0 0 true;
   APool (AStart 3); APool (AResume 2 (gives 4)); APool (ATop 3 nodes_there moment); APool (AResume 2 (gives 4)); AThread 3 (gives 4) 88 99 true;
   AThread 1 (gives 4) 0 0 true; AMain (gives 4)].

Definition sample_end : system flat :=
  match sample_run sample_start (started_up ∅) with Some (Ok w) => w | _ => started_up ∅ end.

Definition sample_ini_file : option dictionary := match sample_load with Ok ld => ld | _ => None end.

Definition sample_cfg : CacheNetworkConfig :=
  match sample_load with
  | Ok ld => match Cache.cache_tima_start (fun _ => 0) ld Cache.cache_tima_create with Ok c => c | _ => Cache.cache_tima_create end
  | _ => Cache.cache_tima_create
  end.

Definition sample_files : flat :=
  match sample_load with
  | Ok ld => match tima_log_init save_file (fun _ _ => 0) (fun _ => 0) (∅ : flat) ld with Ok (_, f) => f | _ => ∅ end
  | _ => ∅
  end.

Lemma start_up_witness : main sample_end = MIdle /\ is_Some (listening sample_end) /\ cstr_of (http_ip sample_cfg) = Ok (chars "10.0.0.1") /\
  exists x t, ctx sample_end = Some x /\ tp x = Some t /\ cached sample_end x sample_cfg /\ overwritten t = [] /\
    map signature (started t) = three_jobs sample_address /\ exists base, listening sample_end = Some (listening_world base).
Proof.
  assert (Hm : main sample_end = MIdle) by (vm_compute; reflexivity).
  assert (Hl : is_Some (listening sample_end)) by (vm_compute; by eexists).
  split_and!; [exact Hm | exact Hl | vm_compute; reflexivity |].
  assert (Hread : readable save_file (fun _ _ => 0) (fun _ => 0) sample_load (∅ : flat) sample_files sample_cfg).
  { exists sample_ini_file, 0. split_and!; [vm_compute; reflexivity | vm_compute; reflexivity | vm_compute; reflexivity]. }
  assert (Hw : reach true save_file (fun _ _ => 0) (fun _ => 0) sample_address (fun _ => 100) 24 100 500 60 120 (fun _ => true) (sample_job 0) sample_load ∅ sample_end).
  { apply (run_reach_app _ _ _ _ _ _ _ _ _ _ _ _ _ _ ∅ sample_start (started_up ∅)); [constructor | reflexivity | reflexivity | vm_compute; reflexivity]. }
  destruct (start_up true save_file (fun _ _ => 0) (fun _ => 0) sample_address (fun _ => 100) 24 100 500 60 120 (fun _ => true) (sample_job 0) sample_load
    sample_sound ∅ sample_files sample_cfg Hread sample_end Hw) as [_ H].
  destruct H as (x & t & Hx & Ht & _ & Hc & _ & _ & Ho & _ & _ & _ & Hg & Hs & _); [rewrite Hm; discriminate |].
  exists x, t. refine (conj Hx (conj Ht (conj Hc (conj Ho (conj _ _))))).
  - exact (proj2 (proj2 (Hg eq_refl)) 1%nat ltac:(vm_compute; reflexivity)).
  - destruct Hl as [s Es]. destruct (Hs s Es) as [base E]. exists base. exact (eq_trans Es (f_equal Some E)).
Defined.

(** ** Where it fails *)

Section failures.
Context {W : Type} `{FileSystem W}.
Context (save : W -> cstr -> cstr -> option W) (dzlog_init : W -> cstr -> Z) (strtol : cstr -> Z).
Context (address : symbol -> Z) (sizeof_priv : class -> Z) (sizeof_core sizeof_context sizeof_pool sizeof_node : Z).
Context (alloc : Z -> bool) (handle_ok : bool) (garbage : ThreadPoolJob) (load : res (option dictionary)).

(** Without memory for the context [context_init] returns, and the next registration uses a NULL pointer. *)
Lemma no_context e f0 f1 ld r : load = Ok ld -> tima_log_init save dzlog_init strtol f0 ld = Ok (r, f1) -> alloc sizeof_context = false ->
  bll_init save dzlog_init strtol address sizeof_priv sizeof_core sizeof_context sizeof_pool sizeof_node alloc handle_ok garbage load e (started_up f0) = UB.
Proof.
  intros Hl Hlog Ha. unfold bll_init. rewrite Hl. cbn [mbind res_bind files started_up]. rewrite Hlog. cbn [mbind res_bind].
  unfold context_init. by rewrite Ha.
Qed.
End failures.
